(* ===== verification/_CoqProject ===== *)
-Q . S2P
Prelude.v
Schema.v
MigrationHelpers.v
Migrations1.v
Migrations2.v
Migrations3.v
Migrations4.v
RowSecurity.v
Models.v
Database.v
Outbox.v
Provenance.v
Assignments.v
Gates.v
Text.v
Retry.v
Workflow.v
Spend.v
SpendSafety.v
Controller.v
Budgets.v
Recovery.v
Claiming.v
Decimal.v
PyJson.v
Regex.v
Url.v
StudioModels.v
Research.v
DataGovernance.v
Strategy.v
ContentDepartment.v
Production.v
Compliance.v
Dispatcher.v
Scheduler.v
Relay.v
Workers.v
MissionControl.v
ContentDesk.v
Publication.v
RateLimit.v
Billing.v
Automation.v
System.v
Accounts.v
Limits.v
LeonVoice.v
VoiceRoute.v
LocalAuth.v
Config.v
DepartmentRoutes.v
Portal.v
Invariants.v
VoiceSpec.v
SpendSpec.v
AssignmentSpec.v
GateSpec.v
PublishSpec.v
PublicationSpec.v
RateLimitSpec.v
BillingSpec.v
LeaseSpec.v
ControllerSpec.v
RecoverySpec.v
MissionSpec.v
SchemaSpec.v
RowSecuritySpec.v
DataGovernanceSpec.v
EvidenceSpec.v
DepartmentSpec.v
DepartmentRoutesSpec.v
VoiceRouteSpec.v
AuthSpec.v
ConfigSpec.v
AccountSpec.v
Dashboard.v
MissionPanels.v
MissionSummary.v
DashboardSpec.v
