(* ===== verification/Prelude.v ===== *)
(** * HumanGate: a verification development

    HumanGate runs a content pipeline for many workspaces: departments
    research, plan, write, produce and audit; an orchestration engine
    schedules the stages of a run, hands them to workers and guards the money
    they cost; a human decides at a review gate before anything is published;
    one PostgreSQL database holds it all, under row-level security.  This
    library models the program of src/apps/api/app and the migrations of
    src/apps/api/alembic, and proves what makes them correct.

    ** How a source file becomes a Rocq file

    A table is a finite map from primary keys to records, and a state is a
    record of tables ([World] for the engine, [Studio] around it for the
    departments, accounts, limits, logins and the voice companion).  A service function is a computation [ST S E A] (Prelude.v):
    it takes the state and returns a value or a Python exception, with the
    state as the session would hold it; [savepoint] is a nested transaction.
    A handler is one transaction, and what happens between transactions is a
    list of operations: System.v lists the entry points of the engine,
    Portal.v adds those of the departments, accounts, workspaces, limits and
    spend caps, logins and voice turns, and a trace runs any list of them, in
    any order, failures included.  Billing, export and deletion, the leads of
    the dashboard and the rate limiters are on states of their own, outside
    these traces.  Definitions keep the names of the source.

    ** The parts

    - the engine (src/apps/api/app/orchestration): Models.v (rows, enums,
      settings), Database.v (session primitives), Outbox.v,
      Retry.v (with the priority of an assignment), Assignments.v and Gates.v
      (rows and their state machines), Workflow.v, Spend.v, Controller.v,
      Budgets.v (provider budgets, effects and back-pressure), Recovery.v, Claiming.v, Dispatcher.v, Scheduler.v, Relay.v, the worker
      handlers in Workers.v, automation.py in Automation.v, Mission Control's
      quick actions in MissionControl.v;
    - the operations dashboard: Dashboard.v (services/operations_dashboard.py:
      the counts, the workers, the spend, the customers, the alerts, and the
      leads it keeps), MissionPanels.v (the panels of
      services/operations_mission.py), MissionSummary.v
      (services/operations_v4.py and the routes); a query is a list of rows,
      filtered and grouped;
    - the content desk and publication: ContentDesk.v (drafts, approval,
      review; its routes are in DepartmentRoutes.v), Publication.v;
    - the departments (services/research.py to compliance.py): StudioModels.v,
      Research.v, Strategy.v, ContentDepartment.v, Production.v, Compliance.v,
      and their routes in DepartmentRoutes.v;
    - accounts and money: Accounts.v, Limits.v (with the spend caps a
      workspace sets), LocalAuth.v, Billing.v,
      RateLimit.v, LeonVoice.v with its route in VoiceRoute.v, and in Config.v the
      settings a process may start with and the role it connects as;
    - the database: Schema.v (SQL statements and what each does to a catalog),
      MigrationHelpers.v and Migrations1.v to Migrations4.v (every revision,
      both ways), RowSecurity.v (their order, the catalog at each point, and
      what the catalog at the head lets a statement of a request do),
      DataGovernance.v (export and deletion as such statements);
    - what Python and its libraries do, as far as the program uses it: Text.v,
      Decimal.v, PyJson.v, Regex.v, Url.v.

    The components meet through interfaces rather than through each other's
    proofs.  [Engine] (Outbox.v), [SpendSafe] (Spend.v), [JobRows]
    (Provenance.v) and [GateRows] (Gates.v) are classes of relations between
    states that the operations of one component keep; an invariant of the
    system is an instance, and [keeps] with the hints of the component
    databases walks through every operation of every entry point.
    Its relation [evolves] does the same for state machines.

    ** What is proved

    - along every trace: nothing is published without a reviewer's approval
      (PublishSpec.v), no gate is decided but by a human (GateSpec.v), the
      spend caps hold but where an administrator lowers one below what was
      used (SpendSafety.v for the spend operations, SpendSpec.v for the
      traces), assignments live the life of an abstract state machine
      (AssignmentSpec.v, LeaseSpec.v), outbox events are numbered without a
      gap (Invariants.v), production rests on its chain of audits
      (EvidenceSpec.v), every workspace keeps an admin (AccountSpec.v);
    - operation by operation, errors included: spending (SpendSpec.v),
      claims, leases and results (LeaseSpec.v), the controller
      (ControllerSpec.v), recovery (RecoverySpec.v), the emergency stop
      (MissionSpec.v), the publication gate (PublicationSpec.v), the
      departments (DepartmentSpec.v), their routes (DepartmentRoutesSpec.v:
      only an administrator gets past them, an answer depends on the rows of
      its workspace only, a run keeps within its limits), the dashboard
      (DashboardSpec.v: panels change nothing and depend on the rows their
      workspace may see only, as long as its own rows refer to such rows; the
      leads keep their workspace and are out of the reach of others), the
      voice route
      (VoiceRouteSpec.v: every failure has a status, what counts as audio,
      the reply can be decoded back);
    - against a reference: both rate limiters answer as one unbounded table
      (RateLimitSpec.v); the worker monitor and timeline, which ask of all
      workers at once, answer as queries of each worker would, and the budget
      the spend panel shows bounds what the engine reserves (DashboardSpec.v);
      the webhooks of a subscription, in any order, amount to their newest
      (BillingSpec.v); a voice turn refines an abstract ledger (VoiceSpec.v);
    - against an adversary: guesses at a password are bounded and the owner
      gets back in (AuthSpec.v); a process starts with safe settings or not
      at all, its role has no power over row-level security, and it accepts
      the tokens of its own issuer (ConfigSpec.v);
    - the database: every revision is accepted and leaves the catalog well
      formed, every downgrade undoes its upgrade (SchemaSpec.v); at the head, a request
      reaches rows of its user's workspaces only, the policies always
      terminate, and a role decides exactly what its policies say
      (RowSecuritySpec.v); export and deletion reach every row they should
      and no other (DataGovernanceSpec.v).

    A theorem with a hypothesis is followed by a witness, which applies it to
    a concrete state (System.v builds the engine's).

    ** Fuel and bounds

    Functions that loop carry fuel, and each has a theorem or a lemma that
    the fuel given is enough: [reap_worker_loop] is given one round for each
    assignment of the table (RecoverySpec.v); the matcher [sub_from] one step
    for each character; [digits_of] one for each bit; the evaluation of the
    policies needs 11, and more changes nothing (RowSecuritySpec.v).
    Money is an integer number of the smallest unit of its column and
    intermediate results are rounded as [decimal] rounds them; instants are
    integers, seconds or microseconds as the file says.

    ** What is assumed

    Third-party code is a parameter: Stripe, the language and speech models,
    PyJWT, the digests and the key derivation, [json]'s text, an oracle for
    IPv6.  A uuid is a positive number, and a fresh one is the next.  Strings
    are lists of bytes; [str] methods are those of ASCII text.  Row locks
    order concurrent transactions, so that each is one step; two that the
    program does not serialise are still two steps, and the change of a
    membership, which reads before it locks, is split there (Portal.v).  A
    claim that would skip a row another one holds locked runs after it, and
    finds the row taken.  What a statement of a migration does to the catalog
    ([exec] in Schema.v) is PostgreSQL's documented behaviour, as far as the
    migrations use it: it is no code of this repository.  A JSON number is an
    integer or a decimal, never a NaN, except where a file says so.

    ** Not modelled

    Metrics, health and logging report and decide nothing; what the GitHub
    client answers is an argument of the panels that show it, and the
    assistant of operations_v4.py, which puts panels into sentences, and the
    automation diagnostics are left out.  Where a panel computes with floats
    the model is exact (percentages in hundredths, means in milliseconds).  The request and
    response schemas are declarations, used where a handler reads their
    bounds.  The worker process and the threads of the automation runner are
    loops over modelled handlers.  The columns [updated_at] and [version] are
    written by triggers: the dashboard, which reads [updated_at], finds it by
    the key of the row, and only the leads it writes move it.  The owner of
    the tables, as whom the service connects, bypasses row-level security;
    what a session may do as [app_runtime] is modelled, and how the role is
    provisioned (Config.v), but not when a connection takes it on.  Data that
    a migration rewrites is not followed: [DML] checks its table.  Scripts, previews and the Android shell are outside the program. *)

From Stdlib Require Export Ascii.
From stdpp Require Export base tactics option list list_numbers sorting gmap strings pretty.
From Stdlib Require Export ZArith Lia.

#[global] Open Scope Z_scope.
#[global] Set Default Goal Selector "!".

(** ** Row identifiers

    A [uuid.UUID] is an opaque identifier: a [positive].  Its textual form
    [str(u)] is an injective encoding with a decoder ([uuid.UUID(s)]). *)

Abbreviation id := positive (only parsing).

Fixpoint uuid_str (u : positive) : string :=
  match u with
  | xH => "u"
  | xO p => String "0"%char (uuid_str p)
  | xI p => String "1"%char (uuid_str p)
  end.

Fixpoint uuid_parse (s : string) : option positive :=
  match s with
  | EmptyString => None
  | String c s' =>
      if Ascii.eqb c "u"%char then (if String.eqb s' "" then Some xH else None)
      else if Ascii.eqb c "0"%char then xO <$> uuid_parse s'
      else if Ascii.eqb c "1"%char then xI <$> uuid_parse s'
      else None
  end.

Lemma uuid_parse_str (u : positive) : uuid_parse (uuid_str u) = Some u.
Proof. induction u as [p IH|p IH|]; simpl; rewrite ?IH; done. Qed.

#[global] Instance uuid_str_inj : Inj (=) (=) uuid_str.
Proof.
  intros u v H. apply (f_equal uuid_parse) in H.
  rewrite !uuid_parse_str in H. congruence.
Qed.

(** ** Record field update

    [Settable R] rebuilds a record field by field; from it [over p g r]
    applies [g] to the field [p] of [r] for every projection [p]. *)

Class Settable (R : Type) := rebuild : R → R.
Class Setter {R T : Type} (p : R → T) := over : (T → T) → R → R.
Arguments over {R T} p {_} g r.

Ltac derive_setter :=
  lazymatch goal with
  | |- @Setter ?R ?T ?p =>
      let i := constr:(_ : Settable R) in
      let i := eval cbv beta in i in
      let body := eval hnf in i in
      let pat := eval pattern p in body in
      lazymatch pat with
      | ?F _ => exact (λ (g : T → T), F (λ r, g (p r)))
      end
  end.
#[global] Hint Extern 1 (Setter _) => derive_setter : typeclass_instances.

Declare Scope record_scope.
Delimit Scope record_scope with record.
#[global] Open Scope record_scope.
Notation "r <| p := v |>" := (over p (λ _, v) r)
  (at level 1, left associativity, p at level 9, v at level 200,
   format "r  <| p  :=  v |>") : record_scope.
Notation "r <| p ::= g |>" := (over p g r)
  (at level 1, left associativity, p at level 9, g at level 200,
   format "r  <| p  ::=  g |>") : record_scope.

(** ** A state and error monad

    [ST S E A] is a computation over a state [S] that returns an [A] or
    raises an [E]; the state reached before a [raise] is kept, as the Python
    session keeps the mutations made before an exception. *)

Inductive result (E A : Type) : Type :=
| Ok (a : A)
| Raise (e : E).
Arguments Ok {E A} a.
Arguments Raise {E A} e.

#[global] Instance result_ret {E} : MRet (result E) := λ A a, Ok a.
#[global] Instance result_bind {E} : MBind (result E) := λ A B k r,
  match r with Ok a => k a | Raise e => Raise e end.

Definition ST (S E A : Type) : Type := S → result E A * S.

#[global] Instance st_ret {S E} : MRet (ST S E) := λ A a s, (Ok a, s).
#[global] Instance st_bind {S E} : MBind (ST S E) := λ A B k m s,
  match m s with
  | (Ok a, s') => k a s'
  | (Raise e, s') => (Raise e, s')
  end.

Section Primitives.
Context {S E : Type}.

Definition raise {A} (e : E) : ST S E A := λ s, (Raise e, s).
Definition gets {A} (f : S → A) : ST S E A := λ s, (Ok (f s), s).
(** a computation without the state *)
Definition lift_result {A} (r : result E A) : ST S E A := λ s, (r, s).
(** assign a field of the state *)
Definition update {T} (p : S → T) `{!Setter p} (g : T → T) : ST S E unit :=
  λ s, (Ok tt, over p g s).
(** [try m except h], without rolling the state back *)
Definition catch {A} (m : ST S E A) (h : E → ST S E A) : ST S E A := λ s,
  match m s with
  | (Ok a, s') => (Ok a, s')
  | (Raise e, s') => h e s'
  end.
(** [session.begin_nested()]: a savepoint, rolled back on an exception *)
Definition savepoint {A} (m : ST S E A) : ST S E A := λ s,
  match m s with
  | (Ok a, s') => (Ok a, s')
  | (Raise e, _) => (Raise e, s)
  end.
Definition when (b : bool) (m : ST S E unit) : ST S E unit :=
  if b then m else mret tt.
Fixpoint for_each {A} (l : list A) (f : A → ST S E unit) : ST S E unit :=
  match l with
  | [] => mret tt
  | a :: l => f a ;; for_each l f
  end.
Fixpoint collect {A B} (l : list A) (f : A → ST S E B) : ST S E (list B) :=
  match l with
  | [] => mret []
  | a :: l => b ← f a; bs ← collect l f; mret (b :: bs)
  end.
End Primitives.

(** ** Reasoning about runs *)

Section Runs.
Context {S E : Type}.
Implicit Types s : S.

Lemma run_bind {A B} (m : ST S E A) (k : A → ST S E B) s :
  (m ≫= k) s = match m s with
               | (Ok a, s') => k a s'
               | (Raise e, s') => (Raise e, s')
               end.
Proof. done. Qed.

Lemma run_bind_ok {A B} (m : ST S E A) (k : A → ST S E B) s a s' :
  m s = (Ok a, s') → (m ≫= k) s = k a s'.
Proof. intros H. by rewrite run_bind, H. Qed.

Lemma run_bind_raise {A B} (m : ST S E A) (k : A → ST S E B) s e s' :
  m s = (Raise e, s') → (m ≫= k) s = (Raise e, s').
Proof. intros H. by rewrite run_bind, H. Qed.

Lemma bind_ok_inv {A B} (m : ST S E A) (k : A → ST S E B) s b s' :
  (m ≫= k) s = (Ok b, s') → ∃ a s1, m s = (Ok a, s1) ∧ k a s1 = (Ok b, s').
Proof. rewrite run_bind. destruct (m s) as [[a|e] s1]; [eauto|done]. Qed.

Lemma bind_inv {A B} (m : ST S E A) (k : A → ST S E B) s r s' :
  (m ≫= k) s = (r, s') →
  (∃ a s1, m s = (Ok a, s1) ∧ k a s1 = (r, s')) ∨
  (∃ e, m s = (Raise e, s') ∧ r = Raise e).
Proof. rewrite run_bind. destruct (m s) as [[a|e] s1]; naive_solver. Qed.
End Runs.

(** [inv_run H] takes a successful run apart, one bind at a time. *)
Ltac inv_run_step H :=
  lazymatch type of H with
  | (_ ≫= _) _ = (Ok _, _) =>
      let a := fresh "a" in let s := fresh "s" in let Hm := fresh "Hrun" in
      apply bind_ok_inv in H as (a & s & Hm & H);
      try (inv_run_step Hm)
  | mret _ _ = (_, _) => injection H as <- <- || injection H as ? ?
  | gets _ _ = (_, _) => injection H as <- <- || injection H as ? ?
  | update _ _ _ = (_, _) => injection H as <- <- || injection H as ? ?
  | raise _ _ = (Ok _, _) => discriminate H
  end.
Ltac inv_run H := repeat (inv_run_step H; simpl in H).

(** [keeps R m]: every run of [m], successful or not, relates the state it
    starts from to the state it ends in by [R].  With [R] a preorder this
    composes along [bind], so one lemma per operation, stated for every [R]
    closed under the fields the operation assigns, gives all its frame
    properties and all the invariants those fields do not break. *)
Definition keeps {S E A} (R : relation S) (m : ST S E A) : Prop :=
  ∀ s, R s (m s).2.

Class Closed {S T} (p : S → T) `{!Setter p} (R : relation S) : Prop :=
  closed : ∀ s g, R s (over p g s).
#[global] Hint Mode Closed - - + - + : typeclass_instances.

(** a field is left as it was *)
Definition frame {S T} (p : S → T) : relation S := λ s s', p s' = p s.
#[global] Instance frame_preorder {S T} (p : S → T) : PreOrder (frame p).
Proof. unfold frame. split; [by intros ? | by intros ??? -> ->]. Qed.
(** A relation that does not look at the field cannot tell the two states
    apart: [R s (over p g s)] converts to [R s s]. *)
#[global] Hint Extern 1 (Closed _ _) =>
  (let s := fresh in let g := fresh in
   intros s g; lazymatch goal with |- ?R s _ => change (R s s) end;
   reflexivity) : typeclass_instances.

(** a predicate is preserved *)
Definition preserved {S} (I : S → Prop) : relation S := λ s s', I s → I s'.
#[global] Instance preserved_preorder {S} (I : S → Prop) : PreOrder (preserved I).
Proof. unfold preserved. split; [by intros ? | intros ???; auto]. Qed.

Lemma keeps_at {S E A} (I : S → Prop) (m : ST S E A) s :
  keeps (preserved I) m → I s → I (m s).2.
Proof. intros Hk. apply Hk. Qed.

Create HintDb keeps discriminated.

Section Keeps.
Context {S E : Type} (R : relation S) `{!PreOrder R}.

Lemma keeps_run {A} (m : ST S E A) s r s' : keeps R m → m s = (r, s') → R s s'.
Proof. intros Hk Hm. specialize (Hk s). by rewrite Hm in Hk. Qed.

Lemma keeps_ret {A} (a : A) : keeps R (mret a : ST S E A).
Proof. by intros s. Qed.
Lemma keeps_raise {A} (e : E) : keeps R (raise e : ST S E A).
Proof. by intros s. Qed.
Lemma keeps_lift_result {A} (r : result E A) : keeps R (lift_result r : ST S E A).
Proof. by intros s. Qed.
Lemma keeps_gets {A} (f : S → A) : keeps R (gets f : ST S E A).
Proof. by intros s. Qed.
Lemma keeps_update {T} (p : S → T) `{!Setter p, !Closed p R} g :
  keeps R (update p g : ST S E unit).
Proof. intros s. apply closed. Qed.
Lemma keeps_bind {A B} (m : ST S E A) (k : A → ST S E B) :
  keeps R m → (∀ a, keeps R (k a)) → keeps R (m ≫= k).
Proof.
  intros Hm Hk s. specialize (Hm s). rewrite run_bind.
  destruct (m s) as [[a|e] s']; [etrans; [exact Hm | apply Hk] | exact Hm].
Qed.
Lemma keeps_bind_lift {A B} (r : result E A) (k : A → ST S E B) :
  (∀ a, r = Ok a → keeps R (k a)) → keeps R (lift_result r ≫= k).
Proof. intros Hk s. rewrite run_bind. unfold lift_result. destruct r as [a|e]; [by apply Hk|done]. Qed.
Lemma keeps_when b (m : ST S E unit) : keeps R m → keeps R (when b m).
Proof. destruct b; [done | intros _; apply keeps_ret]. Qed.
Lemma keeps_for_each {A} (l : list A) (f : A → ST S E unit) :
  (∀ a, keeps R (f a)) → keeps R (for_each l f).
Proof.
  intros Hf. induction l as [|a l IH]; simpl; [apply keeps_ret|].
  apply keeps_bind; auto.
Qed.
Lemma keeps_collect {A B} (l : list A) (f : A → ST S E B) :
  (∀ a, keeps R (f a)) → keeps R (collect l f).
Proof.
  intros Hf. induction l as [|a l IH]; simpl; [apply keeps_ret|].
  repeat (apply keeps_bind; [done | intros ?]). apply keeps_ret.
Qed.
Lemma keeps_catch {A} (m : ST S E A) (h : E → ST S E A) :
  keeps R m → (∀ e, keeps R (h e)) → keeps R (catch m h).
Proof.
  intros Hm Hh s. specialize (Hm s). unfold catch.
  destruct (m s) as [[a|e] s']; [exact Hm | etrans; [exact Hm | apply Hh]].
Qed.
Lemma keeps_savepoint {A} (m : ST S E A) : keeps R m → keeps R (savepoint m).
Proof.
  intros Hm s. specialize (Hm s). unfold savepoint.
  by destruct (m s) as [[a|e] s'].
Qed.
End Keeps.

(** what a run leaves as it was *)
Lemma run_frame {S E A T} (p : S → T) {m : ST S E A} {s r s'} :
  m s = (r, s') → keeps (frame p) m → p s' = p s.
Proof. intros Hm Hk. specialize (Hk s). by rewrite Hm in Hk. Qed.

(** A run that does not raise. *)
Definition returns {S E A} (m : ST S E A) (s : S) : Prop := ∃ a s', m s = (Ok a, s').

Lemma returns_bind {S E A B} (m : ST S E A) (k : A → ST S E B) s :
  returns m s → (∀ a s', m s = (Ok a, s') → returns (k a) s') → returns (m ≫= k) s.
Proof.
  intros (a & s' & Hm) Hk. destruct (Hk a s' Hm) as (b & s'' & Hb).
  exists b, s''. by rewrite (run_bind_ok _ _ _ _ _ Hm).
Qed.

Lemma returns_ok {S E A} (m : ST S E A) s : returns m s → ∃ a, m s = (Ok a, (m s).2).
Proof. intros (a & s' & ->). by exists a. Qed.

(** A run that returns [a]. *)
Definition yields {S E A} (m : ST S E A) (s : S) (a : A) : Prop := ∃ s', m s = (Ok a, s').

Lemma yields_ret {S E A} (a : A) (s : S) : yields (mret a : ST S E A) s a.
Proof. by exists s. Qed.

Lemma yields_bind {S E A B} (m : ST S E A) (k : A → ST S E B) s b :
  returns m s → (∀ a s', m s = (Ok a, s') → yields (k a) s' b) → yields (m ≫= k) s b.
Proof.
  intros (a & s' & Hm) Hk. destruct (Hk a s' Hm) as (s'' & Hb).
  exists s''. by rewrite (run_bind_ok _ _ _ _ _ Hm).
Qed.

Lemma yields_frame {S E A T} (p : S → T) {m : ST S E A} {s a} :
  yields m s a → keeps (frame p) m → ∃ s', m s = (Ok a, s') ∧ p s' = p s.
Proof. intros [s' Hm] Hk. exists s'. split; [done|]. by apply (run_frame p Hm). Qed.

(** A run from a state in which [P] holds. *)
Definition keeps_under {S E A} (P : S → Prop) (R : relation S) (m : ST S E A) : Prop :=
  ∀ s, P s → R s (m s).2.

Section KeepsUnder.
Context {S E : Type} (P : S → Prop) (R : relation S) `{!PreOrder R}.
Lemma keeps_under_keeps {A} (m : ST S E A) : keeps R m → keeps_under P R m.
Proof. intros Hk s _. apply Hk. Qed.
Lemma keeps_under_bind {A B} (m : ST S E A) (k : A → ST S E B) :
  keeps R m → keeps (preserved P) m → (∀ a, keeps_under P R (k a)) →
  keeps_under P R (m ≫= k).
Proof using All.
  intros Hm Hp Hk s Hs. specialize (Hm s). specialize (Hp s Hs). rewrite run_bind.
  destruct (m s) as [[a|e] s']; simpl in *; [|exact Hm].
  etrans; [exact Hm | by apply Hk].
Qed.
Lemma keeps_under_catch {A} (m : ST S E A) (h : E → ST S E A) :
  keeps_under P R m → (∀ e, keeps R (h e)) → keeps_under P R (catch m h).
Proof using All.
  intros Hm Hh s Hs. specialize (Hm s Hs). unfold catch.
  destruct (m s) as [[a|e] s']; [exact Hm | etrans; [exact Hm | apply Hh]].
Qed.
(** [Q] takes over from [P]. *)
Lemma keeps_under_seq {A B} (Q : A → S → Prop) (m : ST S E A) (k : A → ST S E B) :
  keeps_under P R m → (∀ s a s', P s → m s = (Ok a, s') → Q a s') →
  (∀ a, keeps_under (Q a) R (k a)) → keeps_under P R (m ≫= k).
Proof using All.
  intros Hm Hq Hk s Hs. specialize (Hm s Hs). rewrite run_bind.
  destruct (m s) as [[a|e] s'] eqn:Hr; simpl in *; [|exact Hm].
  etrans; [exact Hm | by apply Hk, (Hq s)].
Qed.
(** [P] is used up by the first computation. *)
Lemma keeps_under_last {A B} (m : ST S E A) (k : A → ST S E B) :
  keeps_under P R m → (∀ a, keeps R (k a)) → keeps_under P R (m ≫= k).
Proof using All.
  intros Hm Hk s Hs. specialize (Hm s Hs). rewrite run_bind.
  destruct (m s) as [[a|e] s']; simpl in *; [|exact Hm]. etrans; [exact Hm | apply Hk].
Qed.
End KeepsUnder.

(** What a computation establishes about its result is there for the rest. *)
Lemma keeps_bind_post {S E A B} (P : A → S → Prop) (R : relation S) `{!PreOrder R}
    (m : ST S E A) (k : A → ST S E B) :
  keeps R m → (∀ s a s', m s = (Ok a, s') → P a s') →
  (∀ a, keeps_under (P a) R (k a)) → keeps R (m ≫= k).
Proof.
  intros Hm Hp Hk s. specialize (Hm s). rewrite run_bind.
  destruct (m s) as [[a|e] s'] eqn:Hr; simpl in *; [|exact Hm].
  etrans; [exact Hm | by apply Hk, (Hp s)].
Qed.

(** [keeps_tac] walks a computation and closes the leaves with the
    operation lemmas of the database [keeps]. *)
Ltac keeps_tac :=
  repeat lazymatch goal with
  | |- ∀ _, _ => intro
  | |- keeps _ (_ ≫= _) => apply keeps_bind; [typeclasses eauto| |]
  | |- keeps _ (mret _) => apply keeps_ret; typeclasses eauto
  | |- keeps _ (raise _) => apply keeps_raise; typeclasses eauto
  | |- keeps _ (lift_result _) => apply keeps_lift_result; typeclasses eauto
  | |- keeps _ (gets _) => apply keeps_gets; typeclasses eauto
  | |- keeps _ (update _ _) => apply keeps_update; typeclasses eauto
  | |- keeps _ (when _ _) => apply keeps_when; [typeclasses eauto|]
  | |- keeps _ (for_each _ _) => apply keeps_for_each; [typeclasses eauto|]
  | |- keeps _ (collect _ _) => apply keeps_collect; [typeclasses eauto|]
  | |- keeps _ (catch _ _) => apply keeps_catch; [typeclasses eauto| |]
  | |- keeps _ (savepoint _) => apply keeps_savepoint; [typeclasses eauto|]
  | |- keeps _ (match ?x with _ => _ end) => destruct x
  | |- keeps _ (if ?x then _ else _) => destruct x
  | |- keeps _ _ => solve [auto with keeps typeclass_instances]
  end.

(** [keeps_tac] through every operation, down to the session *)
Ltac head_of t := lazymatch t with ?f _ => head_of f | _ => t end.
Ltac keeps_all :=
  keeps_tac;
  lazymatch goal with
  | |- keeps _ ?m => let f := head_of m in unfold f; keeps_all
  | |- _ => idtac
  end.

(** ** Tables

    [tsum f m] is [SELECT SUM(f)] over the rows of a table, [tcount P m] is
    [SELECT COUNT( * ) WHERE P] and [rows P m] is [SELECT ... WHERE P]. *)

Section Tables.
Context {K A : Type} `{Countable K}.
Implicit Types m : gmap K A.

Definition tsum (f : K → A → Z) m : Z := map_fold (λ k x acc, f k x + acc) 0 m.
Definition tcount (P : K → A → bool) m : Z := tsum (λ k x, if P k x then 1 else 0) m.
Definition rows (P : K → A → bool) m : list (K * A) :=
  filter (λ p, P p.1 p.2 = true) (map_to_list m).

Lemma tsum_empty f : tsum f ∅ = 0.
Proof. apply map_fold_empty. Qed.

Lemma tsum_insert_None f m i x :
  m !! i = None → tsum f (<[i:=x]> m) = f i x + tsum f m.
Proof.
  intros Hi. unfold tsum.
  rewrite (map_fold_insert_L (λ k x acc, f k x + acc)); [done| |done].
  intros; lia.
Qed.

Lemma tsum_delete f m i x : m !! i = Some x → tsum f m = f i x + tsum f (delete i m).
Proof.
  intros Hi. rewrite <- (insert_delete_id m i x) at 1 by done.
  apply tsum_insert_None, lookup_delete_eq.
Qed.

Lemma tsum_insert_Some f m i x y :
  m !! i = Some x → tsum f (<[i:=y]> m) = tsum f m - f i x + f i y.
Proof.
  intros Hi. rewrite (tsum_delete f m i x Hi), <- insert_delete_eq.
  rewrite tsum_insert_None by apply lookup_delete_eq. lia.
Qed.

Lemma tsum_alter f m i x g :
  m !! i = Some x → tsum f (alter g i m) = tsum f m - f i x + f i (g x).
Proof.
  intros Hi. rewrite <- (tsum_insert_Some f m i x) by done. f_equal.
  apply map_eq. intros j. rewrite lookup_alter, lookup_insert.
  case_decide; [by subst; rewrite Hi|done].
Qed.

Lemma alter_None m i (g : A → A) : m !! i = None → alter g i m = m.
Proof.
  intros Hi. apply map_eq. intros j. rewrite lookup_alter.
  case_decide; [by subst; rewrite Hi|done].
Qed.

(** a row update that does not change the summand *)
Lemma tsum_alter_same f m i g :
  (∀ x, m !! i = Some x → f i (g x) = f i x) → tsum f (alter g i m) = tsum f m.
Proof.
  intros Hf. destruct (m !! i) as [x|] eqn:Hi; [|by rewrite alter_None].
  rewrite (tsum_alter f m i x) by done. rewrite Hf by done. lia.
Qed.

Lemma tsum_ind (P : Z → gmap K A → Prop) f :
  P 0 ∅ → (∀ i x m, m !! i = None → P (tsum f m) m → P (f i x + tsum f m) (<[i:=x]> m)) →
  ∀ m, P (tsum f m) m.
Proof.
  intros H0 HS m. induction m as [|i x m Hi IH] using map_ind.
  - by rewrite tsum_empty.
  - rewrite tsum_insert_None by done. auto.
Qed.

Lemma tsum_mono f g m :
  (∀ i x, m !! i = Some x → f i x ≤ g i x) → tsum f m ≤ tsum g m.
Proof.
  induction m as [|i x m Hi IH] using map_ind; intros Hle.
  - by rewrite !tsum_empty.
  - rewrite !tsum_insert_None by done.
    specialize (Hle i x (lookup_insert_eq _ _ _)) as Hx.
    assert (tsum f m ≤ tsum g m); [|lia].
    apply IH. intros j y Hj. apply Hle. rewrite lookup_insert_ne; congruence.
Qed.

Lemma tsum_ext f g m :
  (∀ i x, m !! i = Some x → f i x = g i x) → tsum f m = tsum g m.
Proof.
  intros Heq. apply Z.le_antisymm; apply tsum_mono; intros i x Hi;
    rewrite (Heq i x Hi); done.
Qed.

Lemma tsum_nonneg f m : (∀ i x, m !! i = Some x → 0 ≤ f i x) → 0 ≤ tsum f m.
Proof.
  intros Hf. transitivity (tsum (λ _ _, 0) m); [|by apply tsum_mono].
  clear Hf. induction m as [|i x m Hi IH] using map_ind; [by rewrite tsum_empty|].
  rewrite tsum_insert_None by done. lia.
Qed.

Lemma tcount_nonneg P m : 0 ≤ tcount P m.
Proof. apply tsum_nonneg. intros i x _. destruct (P i x); lia. Qed.

Lemma elem_of_rows P m i x : (i, x) ∈ rows P m ↔ m !! i = Some x ∧ P i x = true.
Proof.
  unfold rows. rewrite list_elem_of_filter, elem_of_map_to_list. simpl. tauto.
Qed.

Lemma rows_nil P m i x : rows P m = [] → m !! i = Some x → P i x = false.
Proof.
  intros Hr Hi. destruct (P i x) eqn:Hp; [|done].
  assert (Hin : (i, x) ∈ rows P m) by (by apply elem_of_rows).
  rewrite Hr in Hin. by apply not_elem_of_nil in Hin.
Qed.

Lemma NoDup_rows_fst P m : NoDup (rows P m).*1.
Proof.
  unfold rows. generalize (NoDup_fst_map_to_list m).
  induction (map_to_list m) as [|p l IH]; simpl; [done|].
  rewrite filter_cons. intros [Hp Hl]%NoDup_cons. case_decide; simpl; [|auto].
  apply NoDup_cons. split; [|auto]. contradict Hp.
  apply list_elem_of_fmap in Hp as (q & -> & Hq).
  apply list_elem_of_filter in Hq as [_ Hq]. by apply list_elem_of_fmap_2.
Qed.

Lemma NoDup_take_rows P m k : NoDup (take k (rows P m)).*1.
Proof.
  rewrite fmap_take. apply (sublist_NoDup _ (rows P m).*1); [apply NoDup_rows_fst|apply sublist_take].
Qed.

Lemma rows_unique P m i x :
  m !! i = Some x → P i x = true →
  (∀ j y, m !! j = Some y → P j y = true → j = i) → rows P m = [(i, x)].
Proof.
  intros Hi HP Hu. pose proof (NoDup_rows_fst P m) as Hnd.
  assert (Hall : ∀ p, p ∈ rows P m → p = (i, x)).
  { intros [j y] [Hj Hy]%elem_of_rows. assert (j = i) as -> by (by apply (Hu j y)).
    rewrite Hi in Hj. by injection Hj as ->. }
  assert (Hin : (i, x) ∈ rows P m) by (by apply elem_of_rows).
  destruct (rows P m) as [|p [|q l]]; [by apply not_elem_of_nil in Hin| |].
  - f_equal. apply Hall. left.
  - rewrite (Hall p), (Hall q) in Hnd by (repeat constructor).
    apply NoDup_cons in Hnd as [[]]. left.
Qed.

Lemma rows_none P m : (∀ i x, m !! i = Some x → P i x = false) → rows P m = [].
Proof.
  intros Hf. destruct (rows P m) as [|[i x] l] eqn:Hr; [done|].
  assert (Hin : (i, x) ∈ rows P m) by (rewrite Hr; left).
  apply elem_of_rows in Hin as [Hi HP]. by rewrite (Hf i x Hi) in HP.
Qed.

Lemma tcount_rows P m : tcount P m = Z.of_nat (length (rows P m)).
Proof.
  induction m as [|i x m Hi IH] using map_ind.
  { unfold tcount, rows. by rewrite tsum_empty, map_to_list_empty. }
  unfold tcount in *. rewrite tsum_insert_None, IH by done. unfold rows.
  assert (Hp := map_to_list_insert m i x Hi).
  rewrite (Permutation_length (filter_Permutation _ _ _ Hp)).
  rewrite filter_cons. case_decide as HP; simpl in HP.
  - rewrite HP. simpl length. lia.
  - destruct (P i x); [done|lia].
Qed.

Lemma tcount_zero P m :
  tcount P m = 0 ↔ ∀ i x, m !! i = Some x → P i x = false.
Proof.
  rewrite tcount_rows. split.
  - intros Hl i x Hi. destruct (P i x) eqn:HP; [|done].
    assert (Hin : (i, x) ∈ rows P m) by (by apply elem_of_rows).
    destruct (rows P m); [by apply not_elem_of_nil in Hin|simpl in Hl; lia].
  - intros Hf. destruct (rows P m) as [|[i x] l] eqn:Hr; [done|].
    assert (Hin : (i, x) ∈ rows P m) by (rewrite Hr; left).
    apply elem_of_rows in Hin as [Hi HP]. by rewrite (Hf i x Hi) in HP.
Qed.

(** the rows under some keys updated *)
Definition alter_each (g : A → A) (l : list K) m : gmap K A := foldl (λ m i, alter g i m) m l.

Lemma alter_each_lookup g l m i :
  NoDup l → alter_each g l m !! i = (if decide (i ∈ l) then g <$> m !! i else m !! i).
Proof.
  revert m. induction l as [|j l IH]; intros m Hnd; simpl.
  { by destruct (decide (i ∈ [])) as [[]%not_elem_of_nil|]. }
  apply NoDup_cons in Hnd as [Hj Hnd]. unfold alter_each in *. simpl. rewrite IH by done.
  destruct (decide (i = j)) as [->|Hne].
  - rewrite lookup_alter_eq. destruct (decide (j ∈ j :: l)) as [_|Hn]; [|destruct Hn; left].
    by destruct (decide (j ∈ l)).
  - rewrite lookup_alter_ne by done.
    destruct (decide (i ∈ l)), (decide (i ∈ j :: l)) as [Hin|Hni]; try done; exfalso.
    + apply Hni. by right.
    + apply elem_of_cons in Hin as [->|?]; done.
Qed.

(** Updating the rows a query selects leaves the others as they are. *)
Lemma alter_rows_lookup P g m i :
  alter_each g (rows P m).*1 m !! i = (λ x, if P i x : bool then g x else x) <$> m !! i.
Proof.
  rewrite alter_each_lookup by apply NoDup_rows_fst. case_decide as Hin.
  - apply list_elem_of_fmap in Hin as ([j x] & -> & [Hi Ho]%elem_of_rows). simpl in *.
    rewrite Hi. simpl. by rewrite Ho.
  - destruct (m !! i) as [x|] eqn:Hi; [|done]. simpl. destruct (P i x) eqn:Ho; [|done].
    exfalso. apply Hin, list_elem_of_fmap. exists (i, x). split; [done|]. by apply elem_of_rows.
Qed.
End Tables.

(** ** [ORDER BY] *)

Section OrderBy.
Context {A : Type} (le : A → A → bool).
Definition order_by (l : list A) : list A := merge_sort (λ x y, Is_true (le x y)) l.

Lemma order_by_Permutation l : order_by l ≡ₚ l.
Proof. apply merge_sort_Permutation. Qed.

Lemma elem_of_order_by x l : x ∈ order_by l ↔ x ∈ l.
Proof. by rewrite order_by_Permutation. Qed.

Lemma order_by_head_min x l l' :
  (∀ a b, le a b || le b a) → (∀ a b c, le a b → le b c → le a c) →
  order_by l = x :: l' → ∀ y, y ∈ l → le x y.
Proof.
  intros Htot Htrans Hl y Hy. rewrite <- elem_of_order_by, Hl in Hy.
  assert (Hs : StronglySorted (λ a b, Is_true (le a b)) (order_by l)).
  { apply StronglySorted_merge_sort; [exact Htrans|].
    intros a b. specialize (Htot a b). by destruct (le a b), (le b a); auto. }
  rewrite Hl in Hs. apply elem_of_cons in Hy as [->|Hy].
  - specialize (Htot x x). by destruct (le x x).
  - apply StronglySorted_inv in Hs as [_ Hf]. by eapply Forall_forall in Hf.
Qed.
End OrderBy.
