(* ===== verification/Schema.v ===== *)
(** * The database the migrations build (alembic/)

    The statements the migrations issue, and what each does to the catalog of
    the database: types, tables with their columns, constraints, triggers,
    row-security policies and grants, indexes and functions.  A statement
    the database would refuse (a missing or duplicate object, an object that
    others depend on) is an error. *)

From S2P Require Import Prelude.

(** ** SQL *)

Inductive sql_type : Type :=
| UUID | TEXT | VARCHAR | INTEGER | SMALLINT | BIGINT | BOOLEAN | DATE | TIMESTAMPTZ | JSONB
| NUMERIC (precision scale : Z) | NUMBER
| ENUM (name : string)
| ARRAY (element : sql_type).
#[export] Instance sql_type_eq_dec : EqDecision sql_type.
Proof. solve_decision. Defined.

(** the expressions of the policies and of the functions they call *)
Inductive term : Type :=
| Name (column : string)
| Qual (alias column : string)
| Lit (s : string)
| Roles (l : list string)
| CurrentUserId.
#[export] Instance term_eq_dec : EqDecision term.
Proof. solve_decision. Defined.

Inductive sql : Type :=
| SEq (a b : term)
| SAny (a b : term)
| SIsNull (a : term)
| SNotNull (a : term)
| SAnd (p q : sql)
| SOr (p q : sql)
| SNot (p : sql)
| SCall (function : string) (args : list term)
| SExists (from : list (string * string)) (where_ : sql).
Declare Scope sql_scope.
Delimit Scope sql_scope with sql.
Notation "p 'AND' q" := (SAnd p q) (at level 75, right associativity) : sql_scope.
Notation "p 'OR' q" := (SOr p q) (at level 76, right associativity) : sql_scope.
#[export] Instance sql_eq_dec : EqDecision sql.
Proof. solve_decision. Defined.

Inductive command : Type := SELECT | INSERT | UPDATE | DELETE.
#[export] Instance command_eq_dec : EqDecision command.
Proof. solve_decision. Defined.
#[export] Instance command_countable : Countable command.
Proof.
refine (inj_countable'
  (λ c, match c with SELECT => 0 | INSERT => 1 | UPDATE => 2 | DELETE => 3 end)%nat
  (λ n, match n with 0 => SELECT | 1 => INSERT | 2 => UPDATE | _ => DELETE end%nat) _).
by intros [].
Defined.

Inductive fk_action : Type := NO_ACTION | CASCADE | SET_NULL | RESTRICT.
#[export] Instance fk_action_eq_dec : EqDecision fk_action.
Proof. solve_decision. Defined.

Inductive column_attr : Type :=
| PRIMARY_KEY
| NOT_NULL
| UNIQUE
| INDEXED
| DEFAULT (e : string)
| CHECK (e : string)
| REFERENCES (table column : string) (on_delete : fk_action).

Record column_def : Type := Col {
  cd_name : string;
  cd_type : sql_type;
  cd_attrs : list column_attr
}.

Inductive constraint : Type :=
| PrimaryKey (columns : list string)
| Unique (columns : list string)
| Check (e : string)
| ForeignKey (columns : list string) (table : string) (target : list string) (on_delete : fk_action).
#[export] Instance constraint_eq_dec : EqDecision constraint.
Proof. solve_decision. Defined.

Inductive moment : Type := BEFORE | AFTER.
#[export] Instance moment_eq_dec : EqDecision moment.
Proof. solve_decision. Defined.

Record trigger : Type := mk_trigger {
  trg_moment : moment;
  trg_event : command;
  trg_function : string
}.
#[export] Instance trigger_eq_dec : EqDecision trigger.
Proof. solve_decision. Defined.

(** a policy for one command, or for [ALL] *)
Record policy : Type := mk_policy {
  pol_command : option command;
  pol_using : option sql;
  pol_check : option sql
}.
#[export] Instance policy_eq_dec : EqDecision policy.
Proof. solve_decision. Defined.

(** what a function does: the truth of a condition over its parameters, the
    user the request authenticated, or a trigger's reaction *)
Inductive body : Type :=
| Condition (params : list string) (definer : bool) (e : sql)
| CurrentSetting (key : string)
| SetVersion
| RaiseException (message : string)
| InsertProfile.
#[export] Instance body_eq_dec : EqDecision body.
Proof. solve_decision. Defined.

Inductive strictness : Type := IF_EXISTS | MUST_EXIST.
Inductive row_security : Type := ENABLE | DISABLE | FORCE | NO_FORCE.

(** a whole table, or some of its columns *)
Definition privilege : Type := command * option string.

Inductive ddl : Type :=
| CREATE_EXTENSION (name : string)
| CREATE_SCHEMA (name : string)
| ENSURE_ROLE (name : string)
| GRANT_USAGE (schema role : string)
| REVOKE_SCHEMA (schema role : string)
| CREATE_TYPE (if_not_exists : bool) (name : string) (labels : list string)
| ADD_VALUE (type label : string)
| DROP_TYPE (name : string)
| CREATE_TABLE (if_not_exists : bool) (name : string) (columns : list column_def)
    (constraints : list (string * constraint))
| DROP_TABLE (s : strictness) (name : string)
| ADD_COLUMNS (table : string) (columns : list column_def)
| DROP_COLUMNS (s : strictness) (table : string) (columns : list string)
| ALTER_COLUMN_TYPE (table column : string) (type : sql_type)
| ADD_CONSTRAINTS (table : string) (constraints : list (string * constraint))
| DROP_CONSTRAINTS (s : strictness) (table : string) (names : list string)
| CREATE_INDEX (if_not_exists unique : bool) (name table : string) (columns : list string) (where_ : option string)
| DROP_INDEX (s : strictness) (name : string)
| CREATE_FUNCTION (name : string) (b : body)
| DROP_FUNCTION (name : string)
| GRANT_EXECUTE (name role : string)
| CREATE_TRIGGER (name table : string) (t : trigger)
| DROP_TRIGGER (name table : string)
| ROW_SECURITY (mode : row_security) (table : string)
| CREATE_POLICY (name table : string) (p : policy)
| DROP_POLICY (name table : string)
| GRANT (privileges : list command) (table role : string)
| GRANT_COLUMNS (c : command) (columns : list string) (table role : string)
| REVOKE (privileges : list command) (table role : string)
| DML (table statement : string).

(** ** The catalog *)

Record column : Type := mk_column {
  col_type : sql_type;
  col_not_null : bool;
  col_default : option string
}.
#[export] Instance column_eq_dec : EqDecision column.
Proof. solve_decision. Defined.

Record table : Type := mk_table {
  tbl_columns : gmap string column;
  tbl_constraints : gmap string constraint;
  tbl_triggers : gmap string trigger;
  tbl_policies : gmap string policy;
  tbl_row_security : bool;
  tbl_force : bool;
  tbl_grants : gset (string * privilege)
}.
#[export] Instance table_eq_dec : EqDecision table.
Proof. solve_decision. Defined.

Record index : Type := mk_index {
  idx_table : string;
  idx_unique : bool;
  idx_columns : list string;
  idx_where : option string
}.
#[export] Instance index_eq_dec : EqDecision index.
Proof. solve_decision. Defined.

Record catalog : Type := mk_catalog {
  cat_roles : gset string;
  cat_usage : gset (string * string);
  cat_types : gmap string (list string);
  cat_tables : gmap string table;
  cat_indexes : gmap string index;
  cat_functions : gmap string body;
  cat_execute : gset (string * string)
}.
#[export] Instance catalog_eq_dec : EqDecision catalog.
Proof. solve_decision. Defined.


#[export] Instance table_settable : Settable table := λ t,
  mk_table (tbl_columns t) (tbl_constraints t) (tbl_triggers t) (tbl_policies t)
    (tbl_row_security t) (tbl_force t) (tbl_grants t).
#[export] Instance catalog_settable : Settable catalog := λ c,
  mk_catalog (cat_roles c) (cat_usage c) (cat_types c) (cat_tables c) (cat_indexes c)
    (cat_functions c) (cat_execute c).

Definition empty_table : table := mk_table ∅ ∅ ∅ ∅ false false ∅.
Definition empty_catalog : catalog := mk_catalog ∅ ∅ ∅ ∅ ∅ ∅ ∅.

(** ** Names in expressions *)

Definition ident_char (c : ascii) : bool :=
  let n := Ascii.nat_of_ascii c in
  ((97 <=? n) && (n <=? 122) || (65 <=? n) && (n <=? 90) || (48 <=? n) && (n <=? 57) || (n =? 95))%nat.

(** the identifiers of a text; [acc] is the one being read *)
Fixpoint idents_from (s acc : string) : list string :=
  match s with
  | EmptyString => if String.eqb acc EmptyString then [] else [acc]
  | String c s =>
      if ident_char c then idents_from s (acc +:+ String c EmptyString)
      else if String.eqb acc EmptyString then idents_from s EmptyString
      else acc :: idents_from s EmptyString
  end.
Definition idents (s : string) : list string := idents_from s EmptyString.

Definition term_called (t : term) : list string :=
  match t with CurrentUserId => ["app_current_user_id"] | _ => [] end.

(** the functions an expression calls *)
Fixpoint called (e : sql) : list string :=
  match e with
  | SEq a b | SAny a b => term_called a ++ term_called b
  | SIsNull a | SNotNull a => term_called a
  | SAnd p q | SOr p q => called p ++ called q
  | SNot p => called p
  | SCall f args => f :: (args ≫= term_called)
  | SExists _ p => called p
  end.

(** the term names the column of the table, which is known under the aliases
    of [scope] *)
Definition term_names (table column : string) (scope : list (string * string)) (t : term) : bool :=
  match t with
  | Name c => bool_decide (c = column) && existsb (λ p, bool_decide (p.1 = table)) scope
  | Qual a c => bool_decide (c = column) && bool_decide ((table, a) ∈ scope)
  | _ => false
  end.
Fixpoint names (table column : string) (scope : list (string * string)) (e : sql) : bool :=
  let here := term_names table column scope in
  match e with
  | SEq a b | SAny a b => here a || here b
  | SIsNull a | SNotNull a => here a
  | SAnd p q | SOr p q => names table column scope p || names table column scope q
  | SNot p => names table column scope p
  | SCall _ args => existsb here args
  | SExists from p => names table column (from ++ scope) p
  end.

Definition policy_exprs (p : policy) : list sql := option_list (pol_using p) ++ option_list (pol_check p).
Definition policy_called (p : policy) : list string := policy_exprs p ≫= called.
Definition policy_names (table column on : string) (p : policy) : bool :=
  existsb (names table column [(on, on)]) (policy_exprs p).

Definition constraint_names (column : string) (c : constraint) : bool :=
  match c with
  | PrimaryKey cols | Unique cols | ForeignKey cols _ _ _ => bool_decide (column ∈ cols)
  | Check e => bool_decide (column ∈ idents e)
  end.
Definition refers_to (table : string) (c : constraint) : bool :=
  match c with ForeignKey _ t _ _ => bool_decide (t = table) | _ => false end.
Definition refers_to_column (table column : string) (c : constraint) : bool :=
  match c with
  | ForeignKey _ t target _ => bool_decide (t = table) && bool_decide (column ∈ target)
  | _ => false
  end.
Definition index_names (table column : string) (i : index) : bool :=
  bool_decide (idx_table i = table) &&
  bool_decide (column ∈ (idx_columns i ++ option_list (idx_where i)) ≫= idents).

Fixpoint enum_of (t : sql_type) : option string :=
  match t with ENUM n => Some n | ARRAY t => enum_of t | _ => None end.

(** ** Executing a statement *)

Inductive ddl_error : Type :=
| Undefined (what : string)
| Duplicate (what : string)
| Dependent (what : string).
#[export] Instance ddl_error_eq_dec : EqDecision ddl_error.
Proof. solve_decision. Defined.

Definition guard_ (b : bool) (e : ddl_error) : result ddl_error unit := if b then Ok tt else Raise e.

Fixpoint each {A S E} (f : A → S → result E S) (l : list A) (s : S) : result E S :=
  match l with
  | [] => Ok s
  | a :: l => s ← f a s; each f l s
  end.

Section Catalog.
Implicit Types s : catalog.

Definition has {A} (m : gmap string A) (k : string) : bool := bool_decide (is_Some (m !! k)).

Definition has_column (s : catalog) (table column : string) : bool :=
  match cat_tables s !! table with
  | Some t => has (tbl_columns t) column
  | None => false
  end.

(** no table but those [except] has a row that [P] forbids *)
Definition tables_all (P : string → table → bool) (s : catalog) : bool :=
  bool_decide (map_Forall (λ n t, P n t = true) (cat_tables s)).
Definition rows_all {A} (P : A → bool) (m : gmap string A) : bool :=
  bool_decide (map_Forall (λ _ x, P x = true) m).

Definition alter_table (n : string) (f : table → result ddl_error table) (s : catalog) :
  result ddl_error catalog :=
match cat_tables s !! n with
| None => Raise (Undefined n)
| Some t => t ← f t; Ok (s <| cat_tables ::= <[n:=t]> |>)
end.

Definition type_known (s : catalog) (ty : sql_type) : bool :=
match enum_of ty with Some e => has (cat_types s) e | None => true end.

Definition new_column (cd : column_def) : column :=
mk_column (cd_type cd)
  (existsb (λ a, match a with PRIMARY_KEY | NOT_NULL => true | _ => false end) (cd_attrs cd))
  (list_find (λ a, match a with DEFAULT _ => true | _ => false end = true) (cd_attrs cd) ≫=
     λ p, match p.2 with DEFAULT e => Some e | _ => None end).

Definition add_column (n : string) (cd : column_def) (s : catalog) : result ddl_error catalog :=
guard_ (type_known s (cd_type cd)) (Undefined (cd_name cd));;
alter_table n (λ t,
  guard_ (negb (has (tbl_columns t) (cd_name cd))) (Duplicate (cd_name cd));;
  Ok (t <| tbl_columns ::= <[cd_name cd := new_column cd]> |>)) s.

Definition constraint_known (s : catalog) (n : string) (c : constraint) : bool :=
match c with
| PrimaryKey cols | Unique cols => forallb (has_column s n) cols
| Check _ => true
| ForeignKey cols t target _ => forallb (has_column s n) cols && forallb (has_column s t) target
end.

Definition add_constraint (n : string) (c : string * constraint) (s : catalog) :
  result ddl_error catalog :=
guard_ (constraint_known s n c.2) (Undefined c.1);;
alter_table n (λ t,
  guard_ (negb (has (tbl_constraints t) c.1)) (Duplicate c.1);;
  Ok (t <| tbl_constraints ::= <[c.1 := c.2]> |>)) s.

Definition create_index (if_not_exists unique : bool) (name n : string) (columns : list string)
  (where_ : option string) (s : catalog) : result ddl_error catalog :=
if has (cat_indexes s) name then
  if if_not_exists then Ok s else Raise (Duplicate name)
else
  guard_ (has (cat_tables s) n) (Undefined n);;
  Ok (s <| cat_indexes ::= <[name := mk_index n unique columns where_]> |>).

(** the constraint or the index an attribute of a column stands for, under
    the name the database gives it *)
Definition add_attr (n c : string) (a : column_attr) (s : catalog) : result ddl_error catalog :=
match a with
| PRIMARY_KEY => add_constraint n (n +:+ "_pkey", PrimaryKey [c]) s
| UNIQUE => add_constraint n (n +:+ "_" +:+ c +:+ "_key", Unique [c]) s
| CHECK e => add_constraint n (n +:+ "_" +:+ c +:+ "_check", Check e) s
| REFERENCES t target act =>
    add_constraint n (n +:+ "_" +:+ c +:+ "_fkey", ForeignKey [c] t [target] act) s
| INDEXED => create_index false false ("ix_" +:+ n +:+ "_" +:+ c) n [c] None s
| NOT_NULL | DEFAULT _ => Ok s
end.

Definition add_columns (n : string) (cols : list column_def) (s : catalog) : result ddl_error catalog :=
s ← each (add_column n) cols s;
each (λ cd, each (add_attr n (cd_name cd)) (cd_attrs cd)) cols s.

(** a table without a column and the constraints that name it *)
Definition forget_column (c : string) (t : table) : table :=
t <| tbl_columns ::= delete c |>
  <| tbl_constraints ::= filter (λ k, constraint_names c k.2 = false) |>.

Definition drop_known_column (n c : string) (s : catalog) : result ddl_error catalog :=
guard_ (tables_all (λ _ t, rows_all (λ k, negb (refers_to_column n c k)) (tbl_constraints t)) s)
  (Dependent c);;
guard_ (tables_all (λ m t, rows_all (λ p, negb (policy_names n c m p)) (tbl_policies t)) s)
  (Dependent c);;
s ← alter_table n (λ t, Ok (forget_column c t)) s;
Ok (s <| cat_indexes ::= filter (λ i, index_names n c i.2 = false) |>).

Definition drop_column (st : strictness) (n c : string) (s : catalog) : result ddl_error catalog :=
if has_column s n c then drop_known_column n c s
else match st with IF_EXISTS => Ok s | MUST_EXIST => Raise (Undefined c) end.

Definition drop_constraint (st : strictness) (n k : string) (s : catalog) : result ddl_error catalog :=
alter_table n (λ t,
  match st, has (tbl_constraints t) k with
  | MUST_EXIST, false => Raise (Undefined k)
  | _, _ => Ok (t <| tbl_constraints ::= delete k |>)
  end) s.

Definition set_rows (mode : row_security) (t : table) : table :=
match mode with
| ENABLE => t <| tbl_row_security := true |>
| DISABLE => t <| tbl_row_security := false |>
| FORCE => t <| tbl_force := true |>
| NO_FORCE => t <| tbl_force := false |>
end.

Definition table_uses_type (ty : string) (t : table) : bool :=
negb (rows_all (λ c, bool_decide (enum_of (col_type c) ≠ Some ty)) (tbl_columns t)).
Definition table_calls (f : string) (t : table) : bool :=
negb (rows_all (λ p, bool_decide (f ∉ policy_called p)) (tbl_policies t)
  && rows_all (λ g, bool_decide (trg_function g ≠ f)) (tbl_triggers t)).
Definition table_refers (n : string) (t : table) : bool :=
negb (rows_all (λ k, negb (refers_to n k)) (tbl_constraints t)).

Definition drop_known_table (n : string) (s : catalog) : result ddl_error catalog :=
guard_ (tables_all (λ m t, bool_decide (m = n) || negb (table_refers n t)) s) (Dependent n);;
Ok (s <| cat_tables ::= delete n |> <| cat_indexes ::= filter (λ i, idx_table i.2 ≠ n) |>).

Definition drop_table (st : strictness) (n : string) (s : catalog) : result ddl_error catalog :=
if has (cat_tables s) n then drop_known_table n s
else match st with IF_EXISTS => Ok s | MUST_EXIST => Raise (Undefined n) end.

Definition exec (d : ddl) (s : catalog) : result ddl_error catalog :=
match d with
| CREATE_EXTENSION _ | CREATE_SCHEMA _ => Ok s
| ENSURE_ROLE r => Ok (s <| cat_roles ::= union {[r]} |>)
| GRANT_USAGE sc r =>
    guard_ (bool_decide (r ∈ cat_roles s)) (Undefined r);;
    Ok (s <| cat_usage ::= union {[(sc, r)]} |>)
| REVOKE_SCHEMA sc r => Ok (s <| cat_usage ::= λ u, u ∖ {[(sc, r)]} |>)
| CREATE_TYPE ine n labels =>
    if has (cat_types s) n then if ine then Ok s else Raise (Duplicate n)
    else Ok (s <| cat_types ::= <[n := labels]> |>)
| ADD_VALUE n v =>
    match cat_types s !! n with
    | None => Raise (Undefined n)
    | Some labels => if bool_decide (v ∈ labels) then Ok s
                     else Ok (s <| cat_types ::= <[n := labels ++ [v]]> |>)
    end
| DROP_TYPE n =>
    guard_ (tables_all (λ _ t, negb (table_uses_type n t)) s) (Dependent n);;
    Ok (s <| cat_types ::= delete n |>)
| CREATE_TABLE ine n cols cs =>
    if has (cat_tables s) n then if ine then Ok s else Raise (Duplicate n)
    else
      s ← add_columns n cols (s <| cat_tables ::= <[n := empty_table]> |>);
      each (add_constraint n) cs s
| DROP_TABLE st n => drop_table st n s
| ADD_COLUMNS n cols => add_columns n cols s
| DROP_COLUMNS st n cols => each (drop_column st n) cols s
| ALTER_COLUMN_TYPE n c ty =>
    guard_ (type_known s ty) (Undefined c);;
    alter_table n (λ t,
      guard_ (has (tbl_columns t) c) (Undefined c);;
      Ok (t <| tbl_columns ::= alter (λ x, mk_column ty (col_not_null x) (col_default x)) c |>)) s
| ADD_CONSTRAINTS n cs => each (add_constraint n) cs s
| DROP_CONSTRAINTS st n ks => each (drop_constraint st n) ks s
| CREATE_INDEX ine u name n cols w => create_index ine u name n cols w s
| DROP_INDEX st name =>
    match st, has (cat_indexes s) name with
    | MUST_EXIST, false => Raise (Undefined name)
    | _, _ => Ok (s <| cat_indexes ::= delete name |>)
    end
| CREATE_FUNCTION f b => Ok (s <| cat_functions ::= <[f := b]> |>)
| DROP_FUNCTION f =>
    guard_ (tables_all (λ _ t, negb (table_calls f t)) s) (Dependent f);;
    Ok (s <| cat_functions ::= delete f |>
          <| cat_execute ::= filter (λ p, p.1 ≠ f) |>)
| GRANT_EXECUTE f r =>
    guard_ (has (cat_functions s) f && bool_decide (r ∈ cat_roles s)) (Undefined f);;
    Ok (s <| cat_execute ::= union {[(f, r)]} |>)
| CREATE_TRIGGER k n g =>
    guard_ (has (cat_functions s) (trg_function g)) (Undefined (trg_function g));;
    alter_table n (λ t,
      guard_ (negb (has (tbl_triggers t) k)) (Duplicate k);;
      Ok (t <| tbl_triggers ::= <[k := g]> |>)) s
| DROP_TRIGGER k n =>
    if has (cat_tables s) n then alter_table n (λ t, Ok (t <| tbl_triggers ::= delete k |>)) s
    else Ok s
| ROW_SECURITY mode n => alter_table n (λ t, Ok (set_rows mode t)) s
| CREATE_POLICY k n p =>
    guard_ (forallb (has (cat_functions s)) (policy_called p)) (Undefined k);;
    alter_table n (λ t,
      guard_ (negb (has (tbl_policies t) k)) (Duplicate k);;
      Ok (t <| tbl_policies ::= <[k := p]> |>)) s
| DROP_POLICY k n =>
    if has (cat_tables s) n then alter_table n (λ t, Ok (t <| tbl_policies ::= delete k |>)) s
    else Ok s
| GRANT l n r =>
    guard_ (bool_decide (r ∈ cat_roles s)) (Undefined r);;
    alter_table n (λ t, Ok (t <| tbl_grants ::=
      union (list_to_set ((λ c, (r, (c, None))) <$> l)) |>)) s
| GRANT_COLUMNS c cols n r =>
    guard_ (bool_decide (r ∈ cat_roles s)) (Undefined r);;
    guard_ (forallb (has_column s n) cols) (Undefined n);;
    alter_table n (λ t, Ok (t <| tbl_grants ::=
      union (list_to_set ((λ col, (r, (c, Some col))) <$> cols)) |>)) s
| REVOKE l n r =>
    alter_table n (λ t, Ok (t <| tbl_grants ::=
      filter (λ g, ¬ (g.1 = r ∧ g.2.1 ∈ l)) |>)) s
| DML n _ =>
    guard_ (has (cat_tables s) n) (Undefined n);;
    Ok s
end.

Definition exec_all : list ddl → catalog → result ddl_error catalog := each exec.
End Catalog.

(** ** Revisions *)

(** a revision file: its identifier, the revisions it builds on, and its two
    functions *)
Record revision : Type := mk_revision {
  rev_id : string;
  rev_down : list string;
  rev_upgrade : list ddl;
  rev_downgrade : list ddl
}.
