(* ===== verification/MigrationHelpers.v ===== *)
(** * What the migrations share (alembic/migration_helpers.py)

    The statements the helpers emit for a table, and the lists of roles the
    revisions name. *)

From S2P Require Import Prelude Schema.

#[global] Open Scope sql_scope.

(** ** Roles *)

Definition _EDIT : list string := ["admin"; "editor"].
Definition _ALL : list string := ["admin"; "editor"; "reviewer"].
Definition _ADMIN_EDITOR : list string := ["admin"; "editor"].
Definition _WRITE : list string := ["admin"; "editor"].
Definition _ATTEST : list string := ["admin"; "reviewer"].
Definition _ADMIN_REVIEWER : list string := ["admin"; "reviewer"].
Definition _ADMIN : list string := ["admin"].

(** [for x in l: ...] *)
Definition for_in {A} (l : list A) (f : A → list ddl) : list ddl := l ≫= f.

(** ** Helpers *)

Definition attach_version_trigger (table : string) : list ddl :=
  [CREATE_TRIGGER ("trg_" +:+ table +:+ "_version") table
     (mk_trigger BEFORE UPDATE "set_version_and_updated_at")].

Definition attach_immutable_trigger (table : string) : list ddl :=
  [CREATE_TRIGGER ("trg_" +:+ table +:+ "_immutable") table
     (mk_trigger BEFORE UPDATE "prevent_update")].

Definition attach_immutable_delete_trigger (table : string) : list ddl :=
  [CREATE_TRIGGER ("trg_" +:+ table +:+ "_immutable_delete") table
     (mk_trigger BEFORE DELETE "prevent_delete")].

Definition enable_rls (table : string) : list ddl :=
  [ROW_SECURITY ENABLE table; ROW_SECURITY FORCE table].

Definition grant_runtime (table : string) (insert update delete : bool) : list ddl :=
  [GRANT ([SELECT] ++ (if insert then [INSERT] else []) ++ (if update then [UPDATE] else [])
            ++ (if delete then [DELETE] else [])) table "app_runtime"].

(** [app_user_has_workspace_role(workspace_id, ARRAY[...])] *)
Definition has_role (roles : list string) : sql :=
  SCall "app_user_has_workspace_role" [Name "workspace_id"; Roles roles].

Definition policy_select_members (table : string) (roles : list string) (soft_delete : bool)
  (policy_suffix : string) : list ddl :=
  [CREATE_POLICY (table +:+ "_" +:+ policy_suffix) table
     (mk_policy (Some SELECT)
        (Some (if soft_delete then SIsNull (Name "deleted_at") AND has_role roles
               else has_role roles)) None)].

Definition policy_insert_roles (table : string) (roles : list string) (policy_suffix : string) :
  list ddl :=
  [CREATE_POLICY (table +:+ "_" +:+ policy_suffix) table
     (mk_policy (Some INSERT) None (Some (has_role roles)))].

Definition policy_update_roles (table : string) (roles : list string) (policy_suffix : string) :
  list ddl :=
  [CREATE_POLICY (table +:+ "_" +:+ policy_suffix) table
     (mk_policy (Some UPDATE) (Some (has_role roles)) None)].

Definition policy_all_roles (table : string) (roles : list string) (policy_suffix : string) :
  list ddl :=
  [CREATE_POLICY (table +:+ "_" +:+ policy_suffix) table
     (mk_policy None (Some (has_role roles)) None)].
