(* ===== verification/Migrations1.v ===== *)
(** * Migrations: identity, content and pipeline tables (0001 to 0013)

    Each revision as the list of its statements; [x_NNNN] is the [x] of
    revision NNNN.  White space in SQL texts is normalised. *)

From S2P Require Import Prelude Schema MigrationHelpers.

(** ** 0001_identity_and_access.py *)

Definition auth_users_0001 : list ddl :=
  [CREATE_TABLE true "auth.users"
   [Col "id" UUID [PRIMARY_KEY; DEFAULT "gen_random_uuid()"];
    Col "email" TEXT []]
   []].

Definition profiles_0001 : list ddl :=
  [CREATE_TYPE true "workspace_role" ["admin"; "editor"; "reviewer"];
   CREATE_TABLE false "profiles"
   [Col "id" UUID [PRIMARY_KEY];
    Col "email" VARCHAR [NOT_NULL];
    Col "full_name" VARCHAR [];
    Col "created_at" TIMESTAMPTZ [NOT_NULL; DEFAULT "now()"];
    Col "updated_at" TIMESTAMPTZ [NOT_NULL; DEFAULT "now()"]]
   []].

Definition workspaces_0001 : list ddl :=
  [CREATE_TABLE false "workspaces"
   [Col "id" UUID [PRIMARY_KEY; DEFAULT "gen_random_uuid()"];
    Col "name" VARCHAR [NOT_NULL];
    Col "created_by" UUID [REFERENCES "profiles" "id" NO_ACTION; NOT_NULL];
    Col "created_at" TIMESTAMPTZ [NOT_NULL; DEFAULT "now()"];
    Col "updated_at" TIMESTAMPTZ [NOT_NULL; DEFAULT "now()"]]
   []].

Definition workspace_memberships_0001 : list ddl :=
  [CREATE_TABLE false "workspace_memberships"
   [Col "id" UUID [PRIMARY_KEY; DEFAULT "gen_random_uuid()"];
    Col "workspace_id" UUID [REFERENCES "workspaces" "id" CASCADE; NOT_NULL; INDEXED];
    Col "user_id" UUID [REFERENCES "profiles" "id" CASCADE; NOT_NULL];
    Col "role" (ENUM "workspace_role") [NOT_NULL];
    Col "created_at" TIMESTAMPTZ [NOT_NULL; DEFAULT "now()"];
    Col "updated_at" TIMESTAMPTZ [NOT_NULL; DEFAULT "now()"]]
   [("uq_workspace_user", Unique ["workspace_id"; "user_id"])]].

Definition upgrade_0001 : list ddl :=
  [CREATE_EXTENSION "pgcrypto";
   CREATE_SCHEMA "auth"] ++
  auth_users_0001 ++
  [ENSURE_ROLE "app_runtime"] ++
  profiles_0001 ++
  workspaces_0001 ++
  workspace_memberships_0001 ++
  [GRANT [SELECT; INSERT; UPDATE; DELETE] "profiles" "app_runtime";
   GRANT [SELECT; INSERT; UPDATE; DELETE] "workspaces" "app_runtime";
   GRANT [SELECT; INSERT; UPDATE; DELETE] "workspace_memberships" "app_runtime";
   GRANT_USAGE "public" "app_runtime";
   CREATE_FUNCTION "app_current_user_id" (CurrentSetting "request.jwt.claim.sub");
   ROW_SECURITY ENABLE "profiles";
   ROW_SECURITY FORCE "profiles";
   CREATE_POLICY "profiles_select_authenticated" "profiles" (mk_policy (Some SELECT) (Some
     (SNotNull CurrentUserId)) None);
   CREATE_POLICY "profiles_insert_own" "profiles" (mk_policy (Some INSERT) None (Some (SEq (Name
     "id") CurrentUserId)));
   CREATE_POLICY "profiles_update_own" "profiles" (mk_policy (Some UPDATE) (Some (SEq (Name "id")
     CurrentUserId)) None);
   ROW_SECURITY ENABLE "workspaces";
   ROW_SECURITY FORCE "workspaces";
   CREATE_POLICY "workspaces_select_member" "workspaces" (mk_policy (Some SELECT) (Some (SExists
     [("workspace_memberships", "m")] (SEq (Qual "m" "workspace_id") (Qual "workspaces" "id") AND
     SEq (Qual "m" "user_id") CurrentUserId))) None);
   CREATE_POLICY "workspaces_insert_any_authenticated" "workspaces" (mk_policy (Some INSERT) None
     (Some (SEq (Name "created_by") CurrentUserId)));
   CREATE_POLICY "workspaces_update_admin" "workspaces" (mk_policy (Some UPDATE) (Some (SExists
     [("workspace_memberships", "m")] (SEq (Qual "m" "workspace_id") (Qual "workspaces" "id") AND
     SEq (Qual "m" "user_id") CurrentUserId AND SEq (Qual "m" "role") (Lit "admin")))) None);
   ROW_SECURITY ENABLE "workspace_memberships";
   ROW_SECURITY FORCE "workspace_memberships";
   CREATE_POLICY "memberships_select_same_workspace" "workspace_memberships" (mk_policy (Some
     SELECT) (Some (SExists [("workspace_memberships", "m")] (SEq (Qual "m" "workspace_id") (Qual
     "workspace_memberships" "workspace_id") AND SEq (Qual "m" "user_id") CurrentUserId))) None);
   CREATE_POLICY "memberships_write_admin_only" "workspace_memberships" (mk_policy None (Some
     (SExists [("workspace_memberships", "m")] (SEq (Qual "m" "workspace_id") (Qual
     "workspace_memberships" "workspace_id") AND SEq (Qual "m" "user_id") CurrentUserId AND SEq
     (Qual "m" "role") (Lit "admin")))) None);
   CREATE_FUNCTION "handle_new_auth_user" InsertProfile;
   DROP_TRIGGER "on_auth_user_created" "auth.users";
   CREATE_TRIGGER "on_auth_user_created" "auth.users" (mk_trigger AFTER INSERT
     "handle_new_auth_user")].

Definition downgrade_0001 : list ddl :=
  [DROP_TRIGGER "on_auth_user_created" "auth.users";
   DROP_FUNCTION "handle_new_auth_user";
   DROP_POLICY "memberships_write_admin_only" "workspace_memberships";
   DROP_POLICY "memberships_select_same_workspace" "workspace_memberships";
   DROP_POLICY "workspaces_update_admin" "workspaces";
   DROP_POLICY "workspaces_insert_any_authenticated" "workspaces";
   DROP_POLICY "workspaces_select_member" "workspaces";
   DROP_POLICY "profiles_update_own" "profiles";
   DROP_POLICY "profiles_insert_own" "profiles";
   DROP_POLICY "profiles_select_authenticated" "profiles";
   DROP_FUNCTION "app_current_user_id";
   DROP_TABLE MUST_EXIST "workspace_memberships";
   DROP_TABLE MUST_EXIST "workspaces";
   DROP_TABLE MUST_EXIST "profiles";
   DROP_TYPE "workspace_role";
   REVOKE_SCHEMA "public" "app_runtime"].

Definition revision_0001 : revision :=
  mk_revision "0001" [] upgrade_0001 downgrade_0001.

(** ** 0002_shared_helpers.py *)

Definition upgrade_0002 : list ddl :=
  [CREATE_FUNCTION "set_version_and_updated_at" SetVersion;
   CREATE_FUNCTION "prevent_update" (RaiseException
     "table % is immutable; row updates are not permitted");
   CREATE_FUNCTION "app_user_has_workspace_role" (Condition ["p_workspace_id"; "p_roles"] false
     (SExists [("workspace_memberships", "m")] (SEq (Qual "m" "workspace_id") (Name
     "p_workspace_id") AND SEq (Qual "m" "user_id") CurrentUserId AND SAny (Qual "m" "role") (Name
     "p_roles"))));
   GRANT_EXECUTE "app_user_has_workspace_role" "app_runtime"].

Definition downgrade_0002 : list ddl :=
  [DROP_FUNCTION "app_user_has_workspace_role";
   DROP_FUNCTION "prevent_update";
   DROP_FUNCTION "set_version_and_updated_at"].

Definition revision_0002 : revision :=
  mk_revision "0002" ["0001"] upgrade_0002 downgrade_0002.

(** ** 0003_workspace_config.py *)

Definition upgrade_0003 : list ddl :=
  [CREATE_TABLE false "content_pillars"
   [Col "id" UUID [PRIMARY_KEY; DEFAULT "gen_random_uuid()"];
    Col "workspace_id" UUID [NOT_NULL; REFERENCES "workspaces" "id" CASCADE];
    Col "name" TEXT [NOT_NULL];
    Col "created_at" TIMESTAMPTZ [NOT_NULL; DEFAULT "now()"];
    Col "updated_at" TIMESTAMPTZ [NOT_NULL; DEFAULT "now()"];
    Col "created_by" UUID [REFERENCES "profiles" "id" NO_ACTION];
    Col "updated_by" UUID [REFERENCES "profiles" "id" NO_ACTION];
    Col "version" INTEGER [NOT_NULL; DEFAULT "1"];
    Col "deleted_at" TIMESTAMPTZ []]
   [];
   CREATE_INDEX false true "uq_content_pillars_workspace_name" "content_pillars" ["workspace_id";
     "name"] (Some "deleted_at IS NULL");
   CREATE_INDEX false false "ix_content_pillars_workspace" "content_pillars" ["workspace_id"] None] ++
  attach_version_trigger "content_pillars" ++
  enable_rls "content_pillars" ++
  grant_runtime "content_pillars" true true true ++
  policy_select_members "content_pillars" _ALL true "select_member" ++
  policy_insert_roles "content_pillars" _EDIT "insert_roles" ++
  policy_update_roles "content_pillars" _EDIT "update_roles" ++
  [CREATE_TABLE false "spend_caps"
   [Col "id" UUID [PRIMARY_KEY; DEFAULT "gen_random_uuid()"];
    Col "workspace_id" UUID [NOT_NULL; REFERENCES "workspaces" "id" CASCADE];
    Col "provider" TEXT [];
    Col "daily_cap_usd" (NUMERIC 10 2) [NOT_NULL; CHECK "daily_cap_usd >= 0"];
    Col "monthly_cap_usd" (NUMERIC 10 2) [NOT_NULL; CHECK "monthly_cap_usd >= 0"];
    Col "created_at" TIMESTAMPTZ [NOT_NULL; DEFAULT "now()"];
    Col "updated_at" TIMESTAMPTZ [NOT_NULL; DEFAULT "now()"];
    Col "created_by" UUID [REFERENCES "profiles" "id" NO_ACTION];
    Col "updated_by" UUID [REFERENCES "profiles" "id" NO_ACTION];
    Col "version" INTEGER [NOT_NULL; DEFAULT "1"]]
   [];
   CREATE_INDEX false true "uq_spend_caps_workspace_provider" "spend_caps" ["workspace_id";
     "COALESCE(provider, '')"] None] ++
  attach_version_trigger "spend_caps" ++
  enable_rls "spend_caps" ++
  grant_runtime "spend_caps" true true true ++
  policy_select_members "spend_caps" _ALL false "select_member" ++
  policy_insert_roles "spend_caps" ["admin"] "insert_roles" ++
  policy_update_roles "spend_caps" ["admin"] "update_roles" ++
  [CREATE_TYPE false "provider_credential_status" ["active"; "revoked"];
   CREATE_TABLE false "provider_credentials"
   [Col "id" UUID [PRIMARY_KEY; DEFAULT "gen_random_uuid()"];
    Col "workspace_id" UUID [NOT_NULL; REFERENCES "workspaces" "id" CASCADE];
    Col "provider" TEXT [NOT_NULL];
    Col "label" TEXT [NOT_NULL];
    Col "encrypted_secret" TEXT [NOT_NULL];
    Col "encryption_key_id" TEXT [NOT_NULL];
    Col "status" (ENUM "provider_credential_status") [NOT_NULL; DEFAULT "'active'"];
    Col "created_at" TIMESTAMPTZ [NOT_NULL; DEFAULT "now()"];
    Col "updated_at" TIMESTAMPTZ [NOT_NULL; DEFAULT "now()"];
    Col "created_by" UUID [REFERENCES "profiles" "id" NO_ACTION];
    Col "updated_by" UUID [REFERENCES "profiles" "id" NO_ACTION];
    Col "version" INTEGER [NOT_NULL; DEFAULT "1"];
    Col "deleted_at" TIMESTAMPTZ []]
   [];
   CREATE_INDEX false true "uq_provider_credentials_workspace_provider_label"
     "provider_credentials" ["workspace_id"; "provider"; "label"] (Some "deleted_at IS NULL");
   CREATE_INDEX false false "ix_provider_credentials_workspace" "provider_credentials"
     ["workspace_id"] None] ++
  attach_version_trigger "provider_credentials" ++
  enable_rls "provider_credentials" ++
  grant_runtime "provider_credentials" true true true ++
  policy_all_roles "provider_credentials" ["admin"] "admin_only".

Definition downgrade_0003 : list ddl :=
  [DROP_TABLE IF_EXISTS "provider_credentials";
   DROP_TYPE "provider_credential_status";
   DROP_TABLE IF_EXISTS "spend_caps";
   DROP_TABLE IF_EXISTS "content_pillars"].

Definition revision_0003 : revision :=
  mk_revision "0003" ["0002"] upgrade_0003 downgrade_0003.

(** ** 0004_content_core.py *)

Definition upgrade_0004 : list ddl :=
  [CREATE_TYPE false "content_stage" ["idea"; "scripting"; "voiceover"; "visuals"; "rendering";
     "seo"; "review"; "scheduled"; "published"];
   CREATE_TYPE false "content_status" ["active"; "failed"; "archived"];
   CREATE_TABLE false "content_items"
   [Col "id" UUID [PRIMARY_KEY; DEFAULT "gen_random_uuid()"];
    Col "workspace_id" UUID [NOT_NULL; REFERENCES "workspaces" "id" CASCADE];
    Col "pillar_id" UUID [REFERENCES "content_pillars" "id" NO_ACTION];
    Col "topic" TEXT [NOT_NULL];
    Col "target_length_seconds" INTEGER [CHECK "target_length_seconds > 0"];
    Col "current_stage" (ENUM "content_stage") [NOT_NULL; DEFAULT "'idea'"];
    Col "status" (ENUM "content_status") [NOT_NULL; DEFAULT "'active'"];
    Col "current_version_id" UUID [];
    Col "current_pipeline_run_id" UUID [];
    Col "created_at" TIMESTAMPTZ [NOT_NULL; DEFAULT "now()"];
    Col "updated_at" TIMESTAMPTZ [NOT_NULL; DEFAULT "now()"];
    Col "created_by" UUID [REFERENCES "profiles" "id" NO_ACTION];
    Col "updated_by" UUID [REFERENCES "profiles" "id" NO_ACTION];
    Col "version" INTEGER [NOT_NULL; DEFAULT "1"];
    Col "deleted_at" TIMESTAMPTZ []]
   [];
   CREATE_INDEX false false "ix_content_items_workspace_stage" "content_items" ["workspace_id";
     "current_stage"] (Some "deleted_at IS NULL");
   CREATE_INDEX false false "ix_content_items_workspace_pillar" "content_items" ["workspace_id";
     "pillar_id"] (Some "deleted_at IS NULL");
   CREATE_INDEX false false "ix_content_items_workspace_status" "content_items" ["workspace_id";
     "status"] (Some "deleted_at IS NULL")] ++
  attach_version_trigger "content_items" ++
  enable_rls "content_items" ++
  grant_runtime "content_items" true true true ++
  policy_select_members "content_items" _ALL true "select_member" ++
  policy_insert_roles "content_items" _EDIT "insert_roles" ++
  policy_update_roles "content_items" _EDIT "update_roles" ++
  [CREATE_TABLE false "content_versions"
   [Col "id" UUID [PRIMARY_KEY; DEFAULT "gen_random_uuid()"];
    Col "workspace_id" UUID [NOT_NULL; REFERENCES "workspaces" "id" CASCADE];
    Col "content_item_id" UUID [NOT_NULL; REFERENCES "content_items" "id" CASCADE];
    Col "script_hook" TEXT [];
    Col "script_body" TEXT [];
    Col "script_cta" TEXT [];
    Col "prompt_used" TEXT [];
    Col "generated_by" TEXT [];
    Col "created_at" TIMESTAMPTZ [NOT_NULL; DEFAULT "now()"];
    Col "created_by" UUID [REFERENCES "profiles" "id" NO_ACTION]]
   [];
   CREATE_INDEX false false "ix_content_versions_item" "content_versions" ["content_item_id";
     "created_at DESC"] None;
   CREATE_INDEX false false "ix_content_versions_workspace" "content_versions" ["workspace_id"]
     None] ++
  attach_immutable_trigger "content_versions" ++
  enable_rls "content_versions" ++
  grant_runtime "content_versions" true false false ++
  policy_select_members "content_versions" _ALL false "select_member" ++
  policy_insert_roles "content_versions" _EDIT "insert_roles" ++
  [ADD_CONSTRAINTS "content_items" [("fk_content_items_current_version", ForeignKey
     ["current_version_id"] "content_versions" ["id"] NO_ACTION)]].

Definition downgrade_0004 : list ddl :=
  [DROP_CONSTRAINTS IF_EXISTS "content_items" ["fk_content_items_current_version"];
   DROP_TABLE IF_EXISTS "content_versions";
   DROP_TABLE IF_EXISTS "content_items";
   DROP_TYPE "content_status";
   DROP_TYPE "content_stage"].

Definition revision_0004 : revision :=
  mk_revision "0004" ["0003"] upgrade_0004 downgrade_0004.

(** ** 0005_pipeline.py *)

Definition upgrade_0005 : list ddl :=
  [CREATE_TYPE false "pipeline_run_status" ["running"; "succeeded"; "failed"; "cancelled"];
   CREATE_TYPE false "stage_run_status" ["succeeded"; "failed"];
   CREATE_TABLE false "pipeline_runs"
   [Col "id" UUID [PRIMARY_KEY; DEFAULT "gen_random_uuid()"];
    Col "workspace_id" UUID [NOT_NULL; REFERENCES "workspaces" "id" CASCADE];
    Col "content_item_id" UUID [NOT_NULL; REFERENCES "content_items" "id" CASCADE];
    Col "current_stage" (ENUM "content_stage") [NOT_NULL; DEFAULT "'idea'"];
    Col "status" (ENUM "pipeline_run_status") [NOT_NULL; DEFAULT "'running'"];
    Col "started_at" TIMESTAMPTZ [];
    Col "completed_at" TIMESTAMPTZ [];
    Col "created_at" TIMESTAMPTZ [NOT_NULL; DEFAULT "now()"];
    Col "updated_at" TIMESTAMPTZ [NOT_NULL; DEFAULT "now()"];
    Col "version" INTEGER [NOT_NULL; DEFAULT "1"]]
   [];
   CREATE_INDEX false false "ix_pipeline_runs_item" "pipeline_runs" ["content_item_id";
     "created_at DESC"] None;
   CREATE_INDEX false false "ix_pipeline_runs_workspace_running" "pipeline_runs" ["workspace_id";
     "status"] (Some "status = 'running'")] ++
  attach_version_trigger "pipeline_runs" ++
  enable_rls "pipeline_runs" ++
  grant_runtime "pipeline_runs" true true true ++
  policy_select_members "pipeline_runs" _ALL false "select_member" ++
  [CREATE_TABLE false "pipeline_stage_runs"
   [Col "id" UUID [PRIMARY_KEY; DEFAULT "gen_random_uuid()"];
    Col "workspace_id" UUID [NOT_NULL; REFERENCES "workspaces" "id" CASCADE];
    Col "pipeline_run_id" UUID [NOT_NULL; REFERENCES "pipeline_runs" "id" CASCADE];
    Col "content_item_id" UUID [NOT_NULL; REFERENCES "content_items" "id" CASCADE];
    Col "stage" (ENUM "content_stage") [NOT_NULL];
    Col "attempt_number" INTEGER [NOT_NULL; CHECK "attempt_number >= 1"];
    Col "status" (ENUM "stage_run_status") [NOT_NULL];
    Col "provider" TEXT [];
    Col "cost_usd" (NUMERIC 10 4) [CHECK "cost_usd >= 0"];
    Col "error_message" TEXT [];
    Col "started_at" TIMESTAMPTZ [];
    Col "completed_at" TIMESTAMPTZ [];
    Col "created_at" TIMESTAMPTZ [NOT_NULL; DEFAULT "now()"]]
   [("uq_stage_run_attempt", Unique ["pipeline_run_id"; "stage"; "attempt_number"])];
   CREATE_INDEX false false "ix_stage_runs_run_stage" "pipeline_stage_runs" ["pipeline_run_id";
     "stage"] None;
   CREATE_INDEX false false "ix_stage_runs_workspace_status" "pipeline_stage_runs" ["workspace_id";
     "status"] None] ++
  attach_immutable_trigger "pipeline_stage_runs" ++
  enable_rls "pipeline_stage_runs" ++
  grant_runtime "pipeline_stage_runs" true false false ++
  policy_select_members "pipeline_stage_runs" _ALL false "select_member" ++
  [ADD_CONSTRAINTS "content_items" [("fk_content_items_current_run", ForeignKey
     ["current_pipeline_run_id"] "pipeline_runs" ["id"] NO_ACTION)]].

Definition downgrade_0005 : list ddl :=
  [DROP_CONSTRAINTS IF_EXISTS "content_items" ["fk_content_items_current_run"];
   DROP_TABLE IF_EXISTS "pipeline_stage_runs";
   DROP_TABLE IF_EXISTS "pipeline_runs";
   DROP_TYPE "stage_run_status";
   DROP_TYPE "pipeline_run_status"].

Definition revision_0005 : revision :=
  mk_revision "0005" ["0004"] upgrade_0005 downgrade_0005.

(** ** 0006_assets.py *)

Definition upgrade_0006 : list ddl :=
  [CREATE_TYPE false "asset_type" ["script"; "audio"; "visual"; "render"];
   CREATE_TYPE false "asset_source" ["ai_generated"; "uploaded"];
   CREATE_TYPE false "asset_status" ["pending"; "ready"; "failed"];
   CREATE_TABLE false "assets"
   [Col "id" UUID [PRIMARY_KEY; DEFAULT "gen_random_uuid()"];
    Col "workspace_id" UUID [NOT_NULL; REFERENCES "workspaces" "id" CASCADE];
    Col "content_item_id" UUID [NOT_NULL; REFERENCES "content_items" "id" CASCADE];
    Col "content_version_id" UUID [REFERENCES "content_versions" "id" NO_ACTION];
    Col "type" (ENUM "asset_type") [NOT_NULL];
    Col "source" (ENUM "asset_source") [NOT_NULL];
    Col "status" (ENUM "asset_status") [NOT_NULL; DEFAULT "'pending'"];
    Col "url" TEXT [];
    Col "sequence_index" INTEGER [];
    Col "created_at" TIMESTAMPTZ [NOT_NULL; DEFAULT "now()"];
    Col "updated_at" TIMESTAMPTZ [NOT_NULL; DEFAULT "now()"];
    Col "created_by" UUID [REFERENCES "profiles" "id" NO_ACTION];
    Col "updated_by" UUID [REFERENCES "profiles" "id" NO_ACTION];
    Col "version" INTEGER [NOT_NULL; DEFAULT "1"];
    Col "deleted_at" TIMESTAMPTZ []]
   [];
   CREATE_INDEX false false "ix_assets_item_type" "assets" ["content_item_id"; "type"] (Some
     "deleted_at IS NULL");
   CREATE_INDEX false false "ix_assets_workspace" "assets" ["workspace_id"] None] ++
  attach_version_trigger "assets" ++
  enable_rls "assets" ++
  grant_runtime "assets" true true true ++
  policy_select_members "assets" _ALL true "select_member" ++
  policy_insert_roles "assets" _EDIT "insert_roles" ++
  policy_update_roles "assets" _EDIT "update_roles".

Definition downgrade_0006 : list ddl :=
  [DROP_TABLE IF_EXISTS "assets";
   DROP_TYPE "asset_status";
   DROP_TYPE "asset_source";
   DROP_TYPE "asset_type"].

Definition revision_0006 : revision :=
  mk_revision "0006" ["0005"] upgrade_0006 downgrade_0006.

(** ** 0007_publishing.py *)

Definition upgrade_0007 : list ddl :=
  [CREATE_TYPE false "publish_job_status" ["pending"; "publishing"; "published"; "failed";
     "cancelled"];
   CREATE_TABLE false "publish_jobs"
   [Col "id" UUID [PRIMARY_KEY; DEFAULT "gen_random_uuid()"];
    Col "workspace_id" UUID [NOT_NULL; REFERENCES "workspaces" "id" CASCADE];
    Col "content_item_id" UUID [NOT_NULL; REFERENCES "content_items" "id" CASCADE];
    Col "platform" TEXT [NOT_NULL];
    Col "scheduled_time" TIMESTAMPTZ [NOT_NULL];
    Col "status" (ENUM "publish_job_status") [NOT_NULL; DEFAULT "'pending'"];
    Col "external_post_id" TEXT [];
    Col "error_message" TEXT [];
    Col "published_at" TIMESTAMPTZ [];
    Col "created_at" TIMESTAMPTZ [NOT_NULL; DEFAULT "now()"];
    Col "updated_at" TIMESTAMPTZ [NOT_NULL; DEFAULT "now()"];
    Col "created_by" UUID [REFERENCES "profiles" "id" NO_ACTION];
    Col "updated_by" UUID [REFERENCES "profiles" "id" NO_ACTION];
    Col "version" INTEGER [NOT_NULL; DEFAULT "1"];
    Col "deleted_at" TIMESTAMPTZ []]
   [];
   CREATE_INDEX false false "ix_publish_jobs_workspace_time" "publish_jobs" ["workspace_id";
     "scheduled_time"] (Some "deleted_at IS NULL");
   CREATE_INDEX false false "ix_publish_jobs_workspace_status" "publish_jobs" ["workspace_id";
     "status"] None;
   CREATE_INDEX false false "ix_publish_jobs_item" "publish_jobs" ["content_item_id"] None] ++
  attach_version_trigger "publish_jobs" ++
  enable_rls "publish_jobs" ++
  grant_runtime "publish_jobs" true true true ++
  policy_select_members "publish_jobs" _ALL true "select_member" ++
  policy_insert_roles "publish_jobs" _EDIT "insert_roles" ++
  policy_update_roles "publish_jobs" _EDIT "update_roles".

Definition downgrade_0007 : list ddl :=
  [DROP_TABLE IF_EXISTS "publish_jobs";
   DROP_TYPE "publish_job_status"].

Definition revision_0007 : revision :=
  mk_revision "0007" ["0006"] upgrade_0007 downgrade_0007.

(** ** 0008_review.py *)

Definition upgrade_0008 : list ddl :=
  [CREATE_TYPE false "review_decision_value" ["approved"; "changes_requested"; "rejected"];
   CREATE_TABLE false "review_decisions"
   [Col "id" UUID [PRIMARY_KEY; DEFAULT "gen_random_uuid()"];
    Col "workspace_id" UUID [NOT_NULL; REFERENCES "workspaces" "id" CASCADE];
    Col "content_item_id" UUID [NOT_NULL; REFERENCES "content_items" "id" CASCADE];
    Col "content_version_id" UUID [REFERENCES "content_versions" "id" NO_ACTION];
    Col "reviewer_id" UUID [NOT_NULL; REFERENCES "profiles" "id" NO_ACTION];
    Col "decision" (ENUM "review_decision_value") [NOT_NULL];
    Col "notes" TEXT [];
    Col "created_at" TIMESTAMPTZ [NOT_NULL; DEFAULT "now()"]]
   [];
   CREATE_INDEX false false "ix_review_decisions_item" "review_decisions" ["content_item_id";
     "created_at DESC"] None;
   CREATE_INDEX false false "ix_review_decisions_workspace" "review_decisions" ["workspace_id"]
     None] ++
  attach_immutable_trigger "review_decisions" ++
  enable_rls "review_decisions" ++
  grant_runtime "review_decisions" true false false ++
  policy_select_members "review_decisions" _ALL false "select_member" ++
  policy_insert_roles "review_decisions" ["admin"; "reviewer"] "insert_roles".

Definition downgrade_0008 : list ddl :=
  [DROP_TABLE IF_EXISTS "review_decisions";
   DROP_TYPE "review_decision_value"].

Definition revision_0008 : revision :=
  mk_revision "0008" ["0007"] upgrade_0008 downgrade_0008.

(** ** 0009_analytics.py *)

Definition upgrade_0009 : list ddl :=
  [CREATE_TABLE false "analytics_snapshots"
   [Col "id" UUID [PRIMARY_KEY; DEFAULT "gen_random_uuid()"];
    Col "workspace_id" UUID [NOT_NULL; REFERENCES "workspaces" "id" CASCADE];
    Col "content_item_id" UUID [NOT_NULL; REFERENCES "content_items" "id" CASCADE];
    Col "platform" TEXT [NOT_NULL];
    Col "metric" TEXT [NOT_NULL];
    Col "value" NUMBER [NOT_NULL];
    Col "captured_at" TIMESTAMPTZ [NOT_NULL];
    Col "created_at" TIMESTAMPTZ [NOT_NULL; DEFAULT "now()"]]
   [];
   CREATE_INDEX false false "ix_analytics_item_metric_time" "analytics_snapshots"
     ["content_item_id"; "metric"; "captured_at DESC"] None;
   CREATE_INDEX false false "ix_analytics_workspace_time" "analytics_snapshots" ["workspace_id";
     "captured_at DESC"] None] ++
  attach_immutable_trigger "analytics_snapshots" ++
  enable_rls "analytics_snapshots" ++
  grant_runtime "analytics_snapshots" true false false ++
  policy_select_members "analytics_snapshots" _ALL false "select_member".

Definition downgrade_0009 : list ddl :=
  [DROP_TABLE IF_EXISTS "analytics_snapshots"].

Definition revision_0009 : revision :=
  mk_revision "0009" ["0008"] upgrade_0009 downgrade_0009.

(** ** 0010_spend.py *)

Definition upgrade_0010 : list ddl :=
  [CREATE_TABLE false "spend_logs"
   [Col "id" UUID [PRIMARY_KEY; DEFAULT "gen_random_uuid()"];
    Col "workspace_id" UUID [NOT_NULL; REFERENCES "workspaces" "id" CASCADE];
    Col "content_item_id" UUID [REFERENCES "content_items" "id" NO_ACTION];
    Col "provider" TEXT [NOT_NULL];
    Col "stage" (ENUM "content_stage") [];
    Col "units" NUMBER [];
    Col "cost_usd" (NUMERIC 10 4) [NOT_NULL; CHECK "cost_usd >= 0"];
    Col "occurred_at" TIMESTAMPTZ [NOT_NULL; DEFAULT "now()"];
    Col "created_at" TIMESTAMPTZ [NOT_NULL; DEFAULT "now()"]]
   [];
   CREATE_INDEX false false "ix_spend_logs_workspace_time" "spend_logs" ["workspace_id";
     "occurred_at DESC"] None;
   CREATE_INDEX false false "ix_spend_logs_workspace_provider_time" "spend_logs" ["workspace_id";
     "provider"; "occurred_at DESC"] None] ++
  attach_immutable_trigger "spend_logs" ++
  enable_rls "spend_logs" ++
  grant_runtime "spend_logs" true false false ++
  policy_select_members "spend_logs" _ALL false "select_member" ++
  [CREATE_TYPE false "reservation_status" ["reserved"; "committed"; "released"];
   CREATE_TABLE false "spend_reservations"
   [Col "id" UUID [PRIMARY_KEY; DEFAULT "gen_random_uuid()"];
    Col "workspace_id" UUID [NOT_NULL; REFERENCES "workspaces" "id" CASCADE];
    Col "content_item_id" UUID [REFERENCES "content_items" "id" NO_ACTION];
    Col "provider" TEXT [NOT_NULL];
    Col "stage" (ENUM "content_stage") [];
    Col "estimated_cost_usd" (NUMERIC 10 4) [NOT_NULL; CHECK "estimated_cost_usd >= 0"];
    Col "status" (ENUM "reservation_status") [NOT_NULL; DEFAULT "'reserved'"];
    Col "created_at" TIMESTAMPTZ [NOT_NULL; DEFAULT "now()"];
    Col "updated_at" TIMESTAMPTZ [NOT_NULL; DEFAULT "now()"];
    Col "version" INTEGER [NOT_NULL; DEFAULT "1"]]
   [];
   CREATE_INDEX false false "ix_spend_reservations_workspace_status" "spend_reservations"
     ["workspace_id"; "status"] (Some "status = 'reserved'")] ++
  attach_version_trigger "spend_reservations" ++
  enable_rls "spend_reservations" ++
  grant_runtime "spend_reservations" true true true ++
  policy_select_members "spend_reservations" _ALL false "select_member".

Definition downgrade_0010 : list ddl :=
  [DROP_TABLE IF_EXISTS "spend_reservations";
   DROP_TYPE "reservation_status";
   DROP_TABLE IF_EXISTS "spend_logs"].

Definition revision_0010 : revision :=
  mk_revision "0010" ["0009"] upgrade_0010 downgrade_0010.

(** ** 0011_provider_usage.py *)

Definition upgrade_0011 : list ddl :=
  [CREATE_TABLE false "provider_usage"
   [Col "id" UUID [PRIMARY_KEY; DEFAULT "gen_random_uuid()"];
    Col "workspace_id" UUID [NOT_NULL; REFERENCES "workspaces" "id" CASCADE];
    Col "content_item_id" UUID [REFERENCES "content_items" "id" NO_ACTION];
    Col "pipeline_stage_run_id" UUID [REFERENCES "pipeline_stage_runs" "id" NO_ACTION];
    Col "provider" TEXT [NOT_NULL];
    Col "operation" TEXT [];
    Col "quantity" NUMBER [NOT_NULL];
    Col "unit_type" TEXT [NOT_NULL];
    Col "occurred_at" TIMESTAMPTZ [NOT_NULL];
    Col "created_at" TIMESTAMPTZ [NOT_NULL; DEFAULT "now()"]]
   [];
   CREATE_INDEX false false "ix_provider_usage_workspace_provider_time" "provider_usage"
     ["workspace_id"; "provider"; "occurred_at DESC"] None;
   CREATE_INDEX false false "ix_provider_usage_item" "provider_usage" ["content_item_id"] (Some
     "content_item_id IS NOT NULL")] ++
  attach_immutable_trigger "provider_usage" ++
  enable_rls "provider_usage" ++
  grant_runtime "provider_usage" true false false ++
  policy_select_members "provider_usage" _ALL false "select_member".

Definition downgrade_0011 : list ddl :=
  [DROP_TABLE IF_EXISTS "provider_usage"].

Definition revision_0011 : revision :=
  mk_revision "0011" ["0010"] upgrade_0011 downgrade_0011.

(** ** 0012_webhooks_dlq.py *)

Definition upgrade_0012 : list ddl :=
  [CREATE_TYPE false "webhook_status" ["received"; "processed"; "failed"; "duplicate"];
   CREATE_TABLE false "webhook_events"
   [Col "id" UUID [PRIMARY_KEY; DEFAULT "gen_random_uuid()"];
    Col "workspace_id" UUID [NOT_NULL; REFERENCES "workspaces" "id" CASCADE];
    Col "source" TEXT [NOT_NULL];
    Col "external_event_id" TEXT [NOT_NULL];
    Col "signature_verified" BOOLEAN [NOT_NULL];
    Col "payload" JSONB [NOT_NULL];
    Col "status" (ENUM "webhook_status") [NOT_NULL; DEFAULT "'received'"];
    Col "received_at" TIMESTAMPTZ [];
    Col "processed_at" TIMESTAMPTZ [];
    Col "created_at" TIMESTAMPTZ [NOT_NULL; DEFAULT "now()"];
    Col "updated_at" TIMESTAMPTZ [NOT_NULL; DEFAULT "now()"];
    Col "version" INTEGER [NOT_NULL; DEFAULT "1"]]
   [("uq_webhook_source_event", Unique ["source"; "external_event_id"])];
   CREATE_INDEX false false "ix_webhook_events_status" "webhook_events" ["status"] (Some
     "status IN ('received', 'failed')");
   CREATE_INDEX false false "ix_webhook_events_workspace" "webhook_events" ["workspace_id"] None] ++
  attach_version_trigger "webhook_events" ++
  enable_rls "webhook_events" ++
  grant_runtime "webhook_events" false false false ++
  policy_select_members "webhook_events" _ADMIN_EDITOR false "select_member" ++
  [CREATE_TYPE false "dead_letter_status" ["pending"; "resolved"; "discarded"];
   CREATE_TABLE false "dead_letter_jobs"
   [Col "id" UUID [PRIMARY_KEY; DEFAULT "gen_random_uuid()"];
    Col "workspace_id" UUID [NOT_NULL; REFERENCES "workspaces" "id" CASCADE];
    Col "related_table" TEXT [NOT_NULL];
    Col "related_id" UUID [NOT_NULL];
    Col "job_type" TEXT [NOT_NULL];
    Col "payload" JSONB [];
    Col "failure_reason" TEXT [NOT_NULL];
    Col "attempt_count" INTEGER [NOT_NULL; CHECK "attempt_count >= 1"];
    Col "first_failed_at" TIMESTAMPTZ [NOT_NULL];
    Col "last_failed_at" TIMESTAMPTZ [NOT_NULL];
    Col "status" (ENUM "dead_letter_status") [NOT_NULL; DEFAULT "'pending'"];
    Col "created_at" TIMESTAMPTZ [NOT_NULL; DEFAULT "now()"];
    Col "updated_at" TIMESTAMPTZ [NOT_NULL; DEFAULT "now()"];
    Col "version" INTEGER [NOT_NULL; DEFAULT "1"]]
   [];
   CREATE_INDEX false false "ix_dead_letter_workspace_status" "dead_letter_jobs" ["workspace_id";
     "status"] (Some "status = 'pending'");
   CREATE_INDEX false false "ix_dead_letter_related" "dead_letter_jobs" ["related_table";
     "related_id"] None] ++
  attach_version_trigger "dead_letter_jobs" ++
  enable_rls "dead_letter_jobs" ++
  grant_runtime "dead_letter_jobs" false false false ++
  policy_select_members "dead_letter_jobs" _ADMIN_EDITOR false "select_member".

Definition downgrade_0012 : list ddl :=
  [DROP_TABLE IF_EXISTS "dead_letter_jobs";
   DROP_TYPE "dead_letter_status";
   DROP_TABLE IF_EXISTS "webhook_events";
   DROP_TYPE "webhook_status"].

Definition revision_0012 : revision :=
  mk_revision "0012" ["0011"] upgrade_0012 downgrade_0012.

(** ** 0013_m3_amendments.py *)

Definition upgrade_0013 : list ddl :=
  [ADD_COLUMNS "pipeline_runs" [Col "idempotency_key" TEXT []];
   CREATE_INDEX false true "uq_pipeline_runs_workspace_idem" "pipeline_runs" ["workspace_id";
     "idempotency_key"] (Some "idempotency_key IS NOT NULL");
   ADD_COLUMNS "publish_jobs" [Col "idempotency_key" TEXT []];
   CREATE_INDEX false true "uq_publish_jobs_workspace_idem" "publish_jobs" ["workspace_id";
     "idempotency_key"] (Some "idempotency_key IS NOT NULL");
   ADD_COLUMNS "webhook_events" [Col "idempotency_key" TEXT []];
   CREATE_INDEX false true "uq_webhook_events_workspace_idem" "webhook_events" ["workspace_id";
     "idempotency_key"] (Some "idempotency_key IS NOT NULL");
   ADD_COLUMNS "assets" [Col "storage_provider" TEXT []; Col "storage_bucket" TEXT []; Col
     "storage_object_key" TEXT []; Col "checksum" TEXT []; Col "checksum_algorithm" TEXT []; Col
     "mime_type" TEXT []; Col "size_bytes" BIGINT [CHECK "size_bytes IS NULL OR size_bytes >= 0"]];
   ADD_COLUMNS "pipeline_stage_runs" [Col "provider_metadata" JSONB []];
   ADD_COLUMNS "provider_usage" [Col "provider_metadata" JSONB []];
   ADD_COLUMNS "spend_logs" [Col "provider_metadata" JSONB []];
   ADD_COLUMNS "assets" [Col "provider_metadata" JSONB []];
   CREATE_TYPE false "content_lineage_relationship" ["translated"; "remixed"; "clipped"; "derived"];
   CREATE_TABLE false "content_lineage"
   [Col "id" UUID [PRIMARY_KEY; DEFAULT "gen_random_uuid()"];
    Col "workspace_id" UUID [NOT_NULL; REFERENCES "workspaces" "id" CASCADE];
    Col "parent_content_item_id" UUID [NOT_NULL; REFERENCES "content_items" "id" CASCADE];
    Col "child_content_item_id" UUID [NOT_NULL; REFERENCES "content_items" "id" CASCADE];
    Col "relationship_type" (ENUM "content_lineage_relationship") [NOT_NULL];
    Col "notes" TEXT [];
    Col "created_at" TIMESTAMPTZ [NOT_NULL; DEFAULT "now()"];
    Col "created_by" UUID [REFERENCES "profiles" "id" NO_ACTION]]
   [("uq_content_lineage_edge", Unique ["parent_content_item_id"; "child_content_item_id";
      "relationship_type"]);
    ("ck_content_lineage_no_self", Check "parent_content_item_id <> child_content_item_id")];
   CREATE_INDEX false false "ix_content_lineage_parent" "content_lineage"
     ["parent_content_item_id"] None;
   CREATE_INDEX false false "ix_content_lineage_child" "content_lineage" ["child_content_item_id"]
     None;
   CREATE_INDEX false false "ix_content_lineage_workspace" "content_lineage" ["workspace_id"] None] ++
  attach_immutable_trigger "content_lineage" ++
  enable_rls "content_lineage" ++
  grant_runtime "content_lineage" true false false ++
  policy_select_members "content_lineage" _ALL false "select_member" ++
  policy_insert_roles "content_lineage" _EDIT "insert_roles".

Definition downgrade_0013 : list ddl :=
  [DROP_TABLE IF_EXISTS "content_lineage";
   DROP_TYPE "content_lineage_relationship";
   DROP_COLUMNS IF_EXISTS "assets" ["provider_metadata"];
   DROP_COLUMNS IF_EXISTS "spend_logs" ["provider_metadata"];
   DROP_COLUMNS IF_EXISTS "provider_usage" ["provider_metadata"];
   DROP_COLUMNS IF_EXISTS "pipeline_stage_runs" ["provider_metadata"];
   DROP_COLUMNS IF_EXISTS "assets" ["storage_provider"; "storage_bucket"; "storage_object_key";
     "checksum"; "checksum_algorithm"; "mime_type"; "size_bytes"];
   DROP_INDEX IF_EXISTS "uq_webhook_events_workspace_idem";
   DROP_COLUMNS IF_EXISTS "webhook_events" ["idempotency_key"];
   DROP_INDEX IF_EXISTS "uq_publish_jobs_workspace_idem";
   DROP_COLUMNS IF_EXISTS "publish_jobs" ["idempotency_key"];
   DROP_INDEX IF_EXISTS "uq_pipeline_runs_workspace_idem";
   DROP_COLUMNS IF_EXISTS "pipeline_runs" ["idempotency_key"]].

Definition revision_0013 : revision :=
  mk_revision "0013" ["0012"] upgrade_0013 downgrade_0013.
