(* ===== verification/Migrations2.v ===== *)
(** * Migrations: orchestration and its hardening (0014 to 0029)

    Each revision as the list of its statements; [x_NNNN] is the [x] of
    revision NNNN.  White space in SQL texts is normalised. *)

From S2P Require Import Prelude Schema MigrationHelpers.

(** ** 0014_workflow_definitions.py *)

Definition upgrade_0014 : list ddl :=
  [ADD_VALUE "pipeline_run_status" "created";
   ADD_VALUE "pipeline_run_status" "paused";
   ADD_VALUE "pipeline_run_status" "compensating";
   ADD_COLUMNS "pipeline_runs" [Col "pause_reason" TEXT []; Col "definition_id" UUID []; Col
     "correlation_id" UUID []; Col "trace_id" TEXT []];
   CREATE_TYPE false "workflow_transition_trigger" ["on_success"; "on_failure";
     "on_review_approved"; "on_review_rejected"];
   CREATE_TABLE false "workflow_definitions"
   [Col "id" UUID [PRIMARY_KEY; DEFAULT "gen_random_uuid()"];
    Col "workspace_id" UUID [NOT_NULL; REFERENCES "workspaces" "id" CASCADE];
    Col "name" TEXT [NOT_NULL];
    Col "version" INTEGER [NOT_NULL];
    Col "is_active" BOOLEAN [NOT_NULL; DEFAULT "true"];
    Col "created_at" TIMESTAMPTZ [NOT_NULL; DEFAULT "now()"];
    Col "created_by" UUID [REFERENCES "profiles" "id" NO_ACTION]]
   [("uq_workflow_definition_version", Unique ["workspace_id"; "name"; "version"])];
   CREATE_INDEX false false "ix_workflow_definitions_active" "workflow_definitions"
     ["workspace_id"; "name"] (Some "is_active")] ++
  attach_immutable_trigger "workflow_definitions" ++
  enable_rls "workflow_definitions" ++
  grant_runtime "workflow_definitions" true false false ++
  policy_select_members "workflow_definitions" _ALL false "select_member" ++
  policy_insert_roles "workflow_definitions" ["admin"] "insert_roles" ++
  [CREATE_TABLE false "workflow_stages"
   [Col "id" UUID [PRIMARY_KEY; DEFAULT "gen_random_uuid()"];
    Col "workspace_id" UUID [NOT_NULL; REFERENCES "workspaces" "id" CASCADE];
    Col "definition_id" UUID [NOT_NULL; REFERENCES "workflow_definitions" "id" CASCADE];
    Col "stage_key" (ENUM "content_stage") [NOT_NULL];
    Col "ordinal" INTEGER [NOT_NULL];
    Col "max_attempts" INTEGER [NOT_NULL; DEFAULT "3"];
    Col "backoff_base_seconds" INTEGER [NOT_NULL; DEFAULT "5"];
    Col "backoff_multiplier" INTEGER [NOT_NULL; DEFAULT "2"];
    Col "backoff_max_seconds" INTEGER [NOT_NULL; DEFAULT "300"];
    Col "timeout_seconds" INTEGER [NOT_NULL; DEFAULT "600"];
    Col "is_review_gate" BOOLEAN [NOT_NULL; DEFAULT "false"];
    Col "is_terminal" BOOLEAN [NOT_NULL; DEFAULT "false"];
    Col "compensation_stage_key" (ENUM "content_stage") [];
    Col "created_at" TIMESTAMPTZ [NOT_NULL; DEFAULT "now()"]]
   [("uq_workflow_stage_per_definition", Unique ["definition_id"; "stage_key"])];
   CREATE_INDEX false false "ix_workflow_stages_definition" "workflow_stages" ["definition_id";
     "ordinal"] None] ++
  attach_immutable_trigger "workflow_stages" ++
  enable_rls "workflow_stages" ++
  grant_runtime "workflow_stages" true false false ++
  policy_select_members "workflow_stages" _ALL false "select_member" ++
  policy_insert_roles "workflow_stages" ["admin"] "insert_roles" ++
  [CREATE_TABLE false "workflow_transitions"
   [Col "id" UUID [PRIMARY_KEY; DEFAULT "gen_random_uuid()"];
    Col "workspace_id" UUID [NOT_NULL; REFERENCES "workspaces" "id" CASCADE];
    Col "definition_id" UUID [NOT_NULL; REFERENCES "workflow_definitions" "id" CASCADE];
    Col "from_stage" (ENUM "content_stage") [NOT_NULL];
    Col "to_stage" (ENUM "content_stage") [NOT_NULL];
    Col "trigger" (ENUM "workflow_transition_trigger") [NOT_NULL];
    Col "condition" JSONB [];
    Col "priority" INTEGER [NOT_NULL; DEFAULT "0"];
    Col "created_at" TIMESTAMPTZ [NOT_NULL; DEFAULT "now()"]]
   [];
   CREATE_INDEX false false "ix_workflow_transitions_lookup" "workflow_transitions"
     ["definition_id"; "from_stage"; "trigger"] None] ++
  attach_immutable_trigger "workflow_transitions" ++
  enable_rls "workflow_transitions" ++
  grant_runtime "workflow_transitions" true false false ++
  policy_select_members "workflow_transitions" _ALL false "select_member" ++
  policy_insert_roles "workflow_transitions" ["admin"] "insert_roles" ++
  [ADD_CONSTRAINTS "pipeline_runs" [("fk_pipeline_runs_definition", ForeignKey ["definition_id"]
     "workflow_definitions" ["id"] NO_ACTION)]].

Definition downgrade_0014 : list ddl :=
  [DROP_CONSTRAINTS IF_EXISTS "pipeline_runs" ["fk_pipeline_runs_definition"];
   DROP_TABLE IF_EXISTS "workflow_transitions";
   DROP_TABLE IF_EXISTS "workflow_stages";
   DROP_TABLE IF_EXISTS "workflow_definitions";
   DROP_TYPE "workflow_transition_trigger";
   DROP_COLUMNS IF_EXISTS "pipeline_runs" ["pause_reason"; "definition_id"; "correlation_id";
     "trace_id"]].

Definition revision_0014 : revision :=
  mk_revision "0014" ["0013"] upgrade_0014 downgrade_0014.

(** ** 0015_outbox_events.py *)

Definition upgrade_0015 : list ddl :=
  [CREATE_TYPE false "outbox_event_status" ["pending"; "dispatched"; "poison"];
   CREATE_TABLE false "outbox_events"
   [Col "event_id" UUID [PRIMARY_KEY; DEFAULT "gen_random_uuid()"];
    Col "workspace_id" UUID [NOT_NULL; REFERENCES "workspaces" "id" CASCADE];
    Col "event_type" TEXT [NOT_NULL];
    Col "event_version" INTEGER [NOT_NULL; DEFAULT "1"];
    Col "aggregate_type" TEXT [NOT_NULL];
    Col "aggregate_id" UUID [NOT_NULL];
    Col "correlation_id" UUID [NOT_NULL];
    Col "causation_id" UUID [];
    Col "trace_id" TEXT [];
    Col "span_id" TEXT [];
    Col "sequence" BIGINT [NOT_NULL];
    Col "payload" JSONB [NOT_NULL];
    Col "status" (ENUM "outbox_event_status") [NOT_NULL; DEFAULT "'pending'"];
    Col "delivery_attempts" INTEGER [NOT_NULL; DEFAULT "0"];
    Col "occurred_at" TIMESTAMPTZ [NOT_NULL; DEFAULT "now()"];
    Col "produced_by" TEXT [NOT_NULL];
    Col "version" INTEGER [NOT_NULL; DEFAULT "1"];
    Col "updated_at" TIMESTAMPTZ [NOT_NULL; DEFAULT "now()"]]
   [];
   CREATE_INDEX false false "ix_outbox_events_status_time" "outbox_events" ["status";
     "occurred_at"] (Some "status = 'pending'");
   CREATE_INDEX false true "uq_outbox_events_aggregate_sequence" "outbox_events" ["aggregate_type";
     "aggregate_id"; "sequence"] None;
   CREATE_INDEX false false "ix_outbox_events_workspace" "outbox_events" ["workspace_id"] None;
   CREATE_INDEX false false "ix_outbox_events_correlation" "outbox_events" ["correlation_id"] None] ++
  attach_version_trigger "outbox_events" ++
  enable_rls "outbox_events" ++
  grant_runtime "outbox_events" true true true ++
  policy_select_members "outbox_events" _ADMIN_EDITOR false "select_member" ++
  [CREATE_TABLE false "event_consumers"
   [Col "id" UUID [PRIMARY_KEY; DEFAULT "gen_random_uuid()"];
    Col "name" TEXT [NOT_NULL; UNIQUE];
    Col "max_event_version" INTEGER [NOT_NULL; DEFAULT "1"];
    Col "max_delivery_attempts" INTEGER [NOT_NULL; DEFAULT "10"];
    Col "created_at" TIMESTAMPTZ [NOT_NULL; DEFAULT "now()"];
    Col "updated_at" TIMESTAMPTZ [NOT_NULL; DEFAULT "now()"];
    Col "version" INTEGER [NOT_NULL; DEFAULT "1"]]
   []] ++
  attach_version_trigger "event_consumers" ++
  [GRANT [SELECT] "event_consumers" "app_runtime";
   CREATE_TABLE false "consumer_checkpoints"
   [Col "id" UUID [PRIMARY_KEY; DEFAULT "gen_random_uuid()"];
    Col "consumer_id" UUID [NOT_NULL; REFERENCES "event_consumers" "id" CASCADE];
    Col "aggregate_type" TEXT [NOT_NULL];
    Col "partition_key" TEXT [NOT_NULL];
    Col "last_sequence" BIGINT [NOT_NULL; DEFAULT "0"];
    Col "created_at" TIMESTAMPTZ [NOT_NULL; DEFAULT "now()"];
    Col "updated_at" TIMESTAMPTZ [NOT_NULL; DEFAULT "now()"];
    Col "version" INTEGER [NOT_NULL; DEFAULT "1"]]
   [("uq_consumer_checkpoint", Unique ["consumer_id"; "aggregate_type"; "partition_key"])]] ++
  attach_version_trigger "consumer_checkpoints" ++
  [GRANT [SELECT; INSERT; UPDATE] "consumer_checkpoints" "app_runtime"].

Definition downgrade_0015 : list ddl :=
  [DROP_TABLE IF_EXISTS "consumer_checkpoints";
   DROP_TABLE IF_EXISTS "event_consumers";
   DROP_TABLE IF_EXISTS "outbox_events";
   DROP_TYPE "outbox_event_status"].

Definition revision_0015 : revision :=
  mk_revision "0015" ["0014"] upgrade_0015 downgrade_0015.

(** ** 0016_scheduler_jobs.py *)

Definition upgrade_0016 : list ddl :=
  [CREATE_TYPE false "job_type" ["stage"; "retry"; "stage_timeout"; "review_timeout"; "recurring";
     "compensation"];
   CREATE_TYPE false "job_schedule_status" ["pending"; "leased"; "done"; "cancelled"];
   CREATE_TABLE false "job_schedule"
   [Col "id" UUID [PRIMARY_KEY; DEFAULT "gen_random_uuid()"];
    Col "workspace_id" UUID [NOT_NULL; REFERENCES "workspaces" "id" CASCADE];
    Col "job_type" (ENUM "job_type") [NOT_NULL];
    Col "ref_table" TEXT [NOT_NULL];
    Col "ref_id" UUID [NOT_NULL];
    Col "run_after" TIMESTAMPTZ [NOT_NULL];
    Col "status" (ENUM "job_schedule_status") [NOT_NULL; DEFAULT "'pending'"];
    Col "lease_owner" TEXT [];
    Col "lease_expires_at" TIMESTAMPTZ [];
    Col "attempt" INTEGER [NOT_NULL; DEFAULT "0"];
    Col "priority" INTEGER [NOT_NULL; DEFAULT "0"];
    Col "correlation_id" UUID [];
    Col "trace_id" TEXT [];
    Col "created_at" TIMESTAMPTZ [NOT_NULL; DEFAULT "now()"];
    Col "updated_at" TIMESTAMPTZ [NOT_NULL; DEFAULT "now()"];
    Col "version" INTEGER [NOT_NULL; DEFAULT "1"]]
   [];
   CREATE_INDEX false false "ix_job_schedule_due" "job_schedule" ["status"; "run_after"] (Some
     "status = 'pending'");
   CREATE_INDEX false false "ix_job_schedule_lease_expiry" "job_schedule" ["lease_expires_at"]
     (Some "status = 'leased'");
   CREATE_INDEX false false "ix_job_schedule_workspace_due" "job_schedule" ["workspace_id";
     "run_after"] (Some "status = 'pending'")] ++
  attach_version_trigger "job_schedule" ++
  enable_rls "job_schedule" ++
  grant_runtime "job_schedule" true true true ++
  policy_select_members "job_schedule" _ADMIN_EDITOR false "select_member" ++
  [CREATE_TABLE false "workspace_concurrency_limits"
   [Col "id" UUID [PRIMARY_KEY; DEFAULT "gen_random_uuid()"];
    Col "workspace_id" UUID [NOT_NULL; REFERENCES "workspaces" "id" CASCADE];
    Col "max_concurrent_assignments" INTEGER [NOT_NULL; DEFAULT "10"];
    Col "max_per_scheduler_tick" INTEGER [NOT_NULL; DEFAULT "5"];
    Col "created_at" TIMESTAMPTZ [NOT_NULL; DEFAULT "now()"];
    Col "updated_at" TIMESTAMPTZ [NOT_NULL; DEFAULT "now()"];
    Col "version" INTEGER [NOT_NULL; DEFAULT "1"]]
   [("uq_workspace_concurrency_limit", Unique ["workspace_id"])]] ++
  attach_version_trigger "workspace_concurrency_limits" ++
  enable_rls "workspace_concurrency_limits" ++
  grant_runtime "workspace_concurrency_limits" true true true ++
  policy_select_members "workspace_concurrency_limits" _ADMIN_EDITOR false "select_member" ++
  policy_insert_roles "workspace_concurrency_limits" ["admin"] "insert_roles" ++
  policy_update_roles "workspace_concurrency_limits" ["admin"] "update_roles".

Definition downgrade_0016 : list ddl :=
  [DROP_TABLE IF_EXISTS "workspace_concurrency_limits";
   DROP_TABLE IF_EXISTS "job_schedule";
   DROP_TYPE "job_schedule_status";
   DROP_TYPE "job_type"].

Definition revision_0016 : revision :=
  mk_revision "0016" ["0015"] upgrade_0016 downgrade_0016.

(** ** 0017_worker_registry.py *)

Definition upgrade_0017 : list ddl :=
  [CREATE_TYPE false "worker_status" ["online"; "busy"; "draining"; "offline"];
   CREATE_TABLE false "worker_registry"
   [Col "id" UUID [PRIMARY_KEY; DEFAULT "gen_random_uuid()"];
    Col "workspace_id" UUID [REFERENCES "workspaces" "id" CASCADE];
    Col "name" TEXT [NOT_NULL];
    Col "supported_stages" (ARRAY TEXT) [NOT_NULL; DEFAULT "'{}'"];
    Col "capabilities" JSONB [];
    Col "status" (ENUM "worker_status") [NOT_NULL; DEFAULT "'offline'"];
    Col "max_concurrency" INTEGER [NOT_NULL; DEFAULT "1"];
    Col "current_load" INTEGER [NOT_NULL; DEFAULT "0"];
    Col "health_score" INTEGER [NOT_NULL; DEFAULT "100"; CHECK "health_score BETWEEN 0 AND 100"];
    Col "last_heartbeat_at" TIMESTAMPTZ [];
    Col "registered_at" TIMESTAMPTZ [NOT_NULL; DEFAULT "now()"];
    Col "created_at" TIMESTAMPTZ [NOT_NULL; DEFAULT "now()"];
    Col "updated_at" TIMESTAMPTZ [NOT_NULL; DEFAULT "now()"];
    Col "version" INTEGER [NOT_NULL; DEFAULT "1"]]
   [];
   CREATE_INDEX false false "ix_worker_registry_status" "worker_registry" ["status"] (Some
     "status IN ('online', 'busy')");
   CREATE_INDEX false false "ix_worker_registry_stages" "worker_registry" ["supported_stages"] None;
   CREATE_TRIGGER "trg_worker_registry_version" "worker_registry" (mk_trigger BEFORE UPDATE
     "set_version_and_updated_at");
   GRANT [SELECT; INSERT; UPDATE] "worker_registry" "app_runtime";
   CREATE_TABLE false "worker_heartbeats"
   [Col "id" UUID [PRIMARY_KEY; DEFAULT "gen_random_uuid()"];
    Col "worker_id" UUID [NOT_NULL; REFERENCES "worker_registry" "id" CASCADE];
    Col "status" (ENUM "worker_status") [NOT_NULL];
    Col "current_load" INTEGER [NOT_NULL; DEFAULT "0"];
    Col "heartbeat_at" TIMESTAMPTZ [NOT_NULL; DEFAULT "now()"]]
   [];
   CREATE_INDEX false false "ix_worker_heartbeats_worker_time" "worker_heartbeats" ["worker_id";
     "heartbeat_at DESC"] None;
   GRANT [SELECT; INSERT] "worker_heartbeats" "app_runtime"].

Definition downgrade_0017 : list ddl :=
  [DROP_TABLE IF_EXISTS "worker_heartbeats";
   DROP_TABLE IF_EXISTS "worker_registry";
   DROP_TYPE "worker_status"].

Definition revision_0017 : revision :=
  mk_revision "0017" ["0016"] upgrade_0017 downgrade_0017.

(** ** 0018_stage_assignments.py *)

Definition upgrade_0018 : list ddl :=
  [CREATE_TYPE false "stage_assignment_status" ["pending"; "dispatched"; "acknowledged";
     "completed"; "failed"; "cancelled"];
   CREATE_TABLE false "stage_assignments"
   [Col "id" UUID [PRIMARY_KEY; DEFAULT "gen_random_uuid()"];
    Col "workspace_id" UUID [NOT_NULL; REFERENCES "workspaces" "id" CASCADE];
    Col "pipeline_run_id" UUID [NOT_NULL; REFERENCES "pipeline_runs" "id" CASCADE];
    Col "stage" (ENUM "content_stage") [NOT_NULL];
    Col "attempt_number" INTEGER [NOT_NULL; DEFAULT "1"];
    Col "worker_id" UUID [REFERENCES "worker_registry" "id" NO_ACTION];
    Col "status" (ENUM "stage_assignment_status") [NOT_NULL; DEFAULT "'pending'"];
    Col "idempotency_key" TEXT [];
    Col "lease_expires_at" TIMESTAMPTZ [];
    Col "dispatched_at" TIMESTAMPTZ [];
    Col "acknowledged_at" TIMESTAMPTZ [];
    Col "completed_at" TIMESTAMPTZ [];
    Col "result" JSONB [];
    Col "correlation_id" UUID [];
    Col "trace_id" TEXT [];
    Col "created_at" TIMESTAMPTZ [NOT_NULL; DEFAULT "now()"];
    Col "updated_at" TIMESTAMPTZ [NOT_NULL; DEFAULT "now()"];
    Col "version" INTEGER [NOT_NULL; DEFAULT "1"]]
   [];
   CREATE_INDEX false true "uq_stage_assignments_workspace_idem" "stage_assignments"
     ["workspace_id"; "idempotency_key"] (Some "idempotency_key IS NOT NULL");
   CREATE_INDEX false false "ix_stage_assignments_lease" "stage_assignments" ["lease_expires_at"]
     (Some "status IN ('dispatched', 'acknowledged')");
   CREATE_INDEX false false "ix_stage_assignments_pending_stage" "stage_assignments" ["stage";
     "created_at"] (Some "status = 'pending'");
   CREATE_INDEX false false "ix_stage_assignments_run" "stage_assignments" ["pipeline_run_id"] None;
   CREATE_INDEX false false "ix_stage_assignments_worker" "stage_assignments" ["worker_id"] (Some
     "worker_id IS NOT NULL")] ++
  attach_version_trigger "stage_assignments" ++
  enable_rls "stage_assignments" ++
  grant_runtime "stage_assignments" true true true ++
  policy_select_members "stage_assignments" _ALL false "select_member".

Definition downgrade_0018 : list ddl :=
  [DROP_TABLE IF_EXISTS "stage_assignments";
   DROP_TYPE "stage_assignment_status"].

Definition revision_0018 : revision :=
  mk_revision "0018" ["0017"] upgrade_0018 downgrade_0018.

(** ** 0019_review_gates.py *)

Definition upgrade_0019 : list ddl :=
  [CREATE_TYPE false "review_gate_status" ["awaiting"; "approved"; "rejected"; "timed_out";
     "escalated"];
   CREATE_TABLE false "review_gates"
   [Col "id" UUID [PRIMARY_KEY; DEFAULT "gen_random_uuid()"];
    Col "workspace_id" UUID [NOT_NULL; REFERENCES "workspaces" "id" CASCADE];
    Col "pipeline_run_id" UUID [NOT_NULL; REFERENCES "pipeline_runs" "id" CASCADE];
    Col "stage" (ENUM "content_stage") [NOT_NULL];
    Col "status" (ENUM "review_gate_status") [NOT_NULL; DEFAULT "'awaiting'"];
    Col "requested_at" TIMESTAMPTZ [NOT_NULL; DEFAULT "now()"];
    Col "timeout_at" TIMESTAMPTZ [];
    Col "decided_at" TIMESTAMPTZ [];
    Col "decided_by" UUID [REFERENCES "profiles" "id" NO_ACTION];
    Col "escalation_level" INTEGER [NOT_NULL; DEFAULT "0"];
    Col "created_at" TIMESTAMPTZ [NOT_NULL; DEFAULT "now()"];
    Col "updated_at" TIMESTAMPTZ [NOT_NULL; DEFAULT "now()"];
    Col "version" INTEGER [NOT_NULL; DEFAULT "1"]]
   [];
   CREATE_INDEX false false "ix_review_gates_run" "review_gates" ["pipeline_run_id"] None;
   CREATE_INDEX false false "ix_review_gates_awaiting_timeout" "review_gates" ["timeout_at"] (Some
     "status = 'awaiting'");
   CREATE_INDEX false false "ix_review_gates_workspace_status" "review_gates" ["workspace_id";
     "status"] None] ++
  attach_version_trigger "review_gates" ++
  enable_rls "review_gates" ++
  grant_runtime "review_gates" true true true ++
  policy_select_members "review_gates" _ALL false "select_member" ++
  policy_insert_roles "review_gates" ["admin"; "reviewer"] "insert_roles".

Definition downgrade_0019 : list ddl :=
  [DROP_TABLE IF_EXISTS "review_gates";
   DROP_TYPE "review_gate_status"].

Definition revision_0019 : revision :=
  mk_revision "0019" ["0018"] upgrade_0019 downgrade_0019.

(** ** 0020_spend_reservation_run_link.py *)

Definition upgrade_0020 : list ddl :=
  [ADD_COLUMNS "spend_reservations" [Col "pipeline_run_id" UUID [REFERENCES "pipeline_runs" "id"
     CASCADE]];
   CREATE_INDEX false false "ix_spend_reservations_run" "spend_reservations" ["pipeline_run_id"]
     (Some "pipeline_run_id IS NOT NULL")].

Definition downgrade_0020 : list ddl :=
  [DROP_INDEX IF_EXISTS "ix_spend_reservations_run";
   DROP_COLUMNS IF_EXISTS "spend_reservations" ["pipeline_run_id"]].

Definition revision_0020 : revision :=
  mk_revision "0020" ["0019"] upgrade_0020 downgrade_0020.

(** ** 0021_fix_rls_workspace_memberships_recursion.py *)

Definition upgrade_0021 : list ddl :=
  [CREATE_FUNCTION "is_workspace_member" (Condition ["wsid"; "uid"] true (SExists
     [("workspace_memberships", "workspace_memberships")] (SEq (Name "workspace_id") (Name "wsid")
     AND SEq (Name "user_id") (Name "uid"))));
   CREATE_FUNCTION "is_workspace_admin" (Condition ["wsid"; "uid"] true (SExists
     [("workspace_memberships", "workspace_memberships")] (SEq (Name "workspace_id") (Name "wsid")
     AND SEq (Name "user_id") (Name "uid") AND SEq (Name "role") (Lit "admin"))));
   DROP_POLICY "memberships_select_same_workspace" "workspace_memberships";
   CREATE_POLICY "memberships_select_same_workspace" "workspace_memberships" (mk_policy (Some
     SELECT) (Some (SCall "is_workspace_member" [Name "workspace_id"; CurrentUserId])) None);
   DROP_POLICY "memberships_write_admin_only" "workspace_memberships";
   CREATE_POLICY "memberships_write_admin_only" "workspace_memberships" (mk_policy None (Some
     (SCall "is_workspace_admin" [Name "workspace_id"; CurrentUserId])) None);
   DROP_POLICY "workspaces_select_member" "workspaces";
   CREATE_POLICY "workspaces_select_member" "workspaces" (mk_policy (Some SELECT) (Some (SCall
     "is_workspace_member" [Name "id"; CurrentUserId])) None);
   DROP_POLICY "workspaces_update_admin" "workspaces";
   CREATE_POLICY "workspaces_update_admin" "workspaces" (mk_policy (Some UPDATE) (Some (SCall
     "is_workspace_admin" [Name "id"; CurrentUserId])) None)].

Definition downgrade_0021 : list ddl :=
  [DROP_POLICY "memberships_select_same_workspace" "workspace_memberships";
   CREATE_POLICY "memberships_select_same_workspace" "workspace_memberships" (mk_policy (Some
     SELECT) (Some (SExists [("workspace_memberships", "m")] (SEq (Qual "m" "workspace_id") (Qual
     "workspace_memberships" "workspace_id") AND SEq (Qual "m" "user_id") CurrentUserId))) None);
   DROP_POLICY "memberships_write_admin_only" "workspace_memberships";
   CREATE_POLICY "memberships_write_admin_only" "workspace_memberships" (mk_policy None (Some
     (SExists [("workspace_memberships", "m")] (SEq (Qual "m" "workspace_id") (Qual
     "workspace_memberships" "workspace_id") AND SEq (Qual "m" "user_id") CurrentUserId AND SEq
     (Qual "m" "role") (Lit "admin")))) None);
   DROP_POLICY "workspaces_select_member" "workspaces";
   CREATE_POLICY "workspaces_select_member" "workspaces" (mk_policy (Some SELECT) (Some (SExists
     [("workspace_memberships", "m")] (SEq (Qual "m" "workspace_id") (Qual "workspaces" "id") AND
     SEq (Qual "m" "user_id") CurrentUserId))) None);
   DROP_POLICY "workspaces_update_admin" "workspaces";
   CREATE_POLICY "workspaces_update_admin" "workspaces" (mk_policy (Some UPDATE) (Some (SExists
     [("workspace_memberships", "m")] (SEq (Qual "m" "workspace_id") (Qual "workspaces" "id") AND
     SEq (Qual "m" "user_id") CurrentUserId AND SEq (Qual "m" "role") (Lit "admin")))) None);
   DROP_FUNCTION "is_workspace_admin";
   DROP_FUNCTION "is_workspace_member"].

Definition revision_0021 : revision :=
  mk_revision "0021" ["0020"] upgrade_0021 downgrade_0021.

(** ** 0022_fix_workspace_memberships_insert_policy.py *)

Definition upgrade_0022 : list ddl :=
  [DROP_POLICY "memberships_write_admin_only" "workspace_memberships";
   CREATE_POLICY "memberships_insert" "workspace_memberships" (mk_policy (Some INSERT) None (Some
     (SCall "is_workspace_admin" [Name "workspace_id"; CurrentUserId] OR (SEq (Name "user_id")
     CurrentUserId AND SEq (Name "role") (Lit "admin") AND SExists [("workspaces", "workspaces")]
     (SEq (Name "id") (Name "workspace_id") AND SEq (Name "created_by") CurrentUserId) AND SNot
     (SExists [("workspace_memberships", "existing")] (SEq (Qual "existing" "workspace_id") (Qual
     "workspace_memberships" "workspace_id")))))));
   CREATE_POLICY "memberships_update" "workspace_memberships" (mk_policy (Some UPDATE) (Some (SCall
     "is_workspace_admin" [Name "workspace_id"; CurrentUserId])) None);
   CREATE_POLICY "memberships_delete" "workspace_memberships" (mk_policy (Some DELETE) (Some (SCall
     "is_workspace_admin" [Name "workspace_id"; CurrentUserId])) None)].

Definition downgrade_0022 : list ddl :=
  [DROP_POLICY "memberships_delete" "workspace_memberships";
   DROP_POLICY "memberships_update" "workspace_memberships";
   DROP_POLICY "memberships_insert" "workspace_memberships";
   CREATE_POLICY "memberships_write_admin_only" "workspace_memberships" (mk_policy None (Some
     (SCall "is_workspace_admin" [Name "workspace_id"; CurrentUserId])) None)].

Definition revision_0022 : revision :=
  mk_revision "0022" ["0021"] upgrade_0022 downgrade_0022.

(** ** 0023_fix_workspace_membership_insert_security_definer.py *)

Definition upgrade_0023 : list ddl :=
  [CREATE_FUNCTION "is_workspace_creator" (Condition ["wsid"; "uid"] true (SExists [("workspaces",
     "workspaces")] (SEq (Name "id") (Name "wsid") AND SEq (Name "created_by") (Name "uid"))));
   DROP_POLICY "memberships_insert" "workspace_memberships";
   CREATE_POLICY "memberships_insert" "workspace_memberships" (mk_policy (Some INSERT) None (Some
     (SCall "is_workspace_admin" [Name "workspace_id"; CurrentUserId] OR (SEq (Name "user_id")
     CurrentUserId AND SEq (Name "role") (Lit "admin") AND SCall "is_workspace_creator" [Name
     "workspace_id"; CurrentUserId] AND SNot (SExists [("workspace_memberships", "existing")] (SEq
     (Qual "existing" "workspace_id") (Qual "workspace_memberships" "workspace_id")))))))].

Definition downgrade_0023 : list ddl :=
  [DROP_POLICY "memberships_insert" "workspace_memberships";
   CREATE_POLICY "memberships_insert" "workspace_memberships" (mk_policy (Some INSERT) None (Some
     (SCall "is_workspace_admin" [Name "workspace_id"; CurrentUserId] OR (SEq (Name "user_id")
     CurrentUserId AND SEq (Name "role") (Lit "admin") AND SExists [("workspaces", "workspaces")]
     (SEq (Name "id") (Name "workspace_id") AND SEq (Name "created_by") CurrentUserId) AND SNot
     (SExists [("workspace_memberships", "existing")] (SEq (Qual "existing" "workspace_id") (Qual
     "workspace_memberships" "workspace_id")))))));
   DROP_FUNCTION "is_workspace_creator"].

Definition revision_0023 : revision :=
  mk_revision "0023" ["0022"] upgrade_0023 downgrade_0023.

(** ** 0024_fix_memberships_delete_allow_self_leave.py *)

Definition upgrade_0024 : list ddl :=
  [DROP_POLICY "memberships_delete" "workspace_memberships";
   CREATE_POLICY "memberships_delete" "workspace_memberships" (mk_policy (Some DELETE) (Some (SCall
     "is_workspace_admin" [Name "workspace_id"; CurrentUserId] OR SEq (Name "user_id")
     CurrentUserId)) None)].

Definition downgrade_0024 : list ddl :=
  [DROP_POLICY "memberships_delete" "workspace_memberships";
   CREATE_POLICY "memberships_delete" "workspace_memberships" (mk_policy (Some DELETE) (Some (SCall
     "is_workspace_admin" [Name "workspace_id"; CurrentUserId])) None)].

Definition revision_0024 : revision :=
  mk_revision "0024" ["0023"] upgrade_0024 downgrade_0024.

(** ** 0025_worker_credentials_ws1.py *)

Definition upgrade_0025 : list ddl :=
  [ADD_COLUMNS "worker_registry" [Col "instance_key" TEXT [NOT_NULL; DEFAULT
     "gen_random_uuid()::text"]; Col "worker_version" TEXT []; Col "drain" BOOLEAN [NOT_NULL;
     DEFAULT "false"]; Col "deregistered_at" TIMESTAMPTZ []];
   CREATE_INDEX false true "uq_worker_registry_name_instance" "worker_registry" ["name";
     "instance_key"] None;
   ADD_CONSTRAINTS "worker_registry" [("ck_worker_registry_load_nonneg", Check
     "current_load >= 0"); ("ck_worker_registry_load_capacity", Check
     "current_load <= max_concurrency"); ("ck_worker_registry_max_concurrency", Check
     "max_concurrency >= 1"); ("ck_worker_registry_deregistered_offline", Check
     "deregistered_at IS NULL OR (status = 'offline' AND current_load = 0)")];
   CREATE_INDEX false false "ix_worker_registry_live" "worker_registry" ["last_heartbeat_at"] (Some
     "deregistered_at IS NULL AND drain = false");
   CREATE_TYPE false "worker_credential_status" ["active"; "revoked"];
   CREATE_TABLE false "worker_credentials"
   [Col "id" UUID [PRIMARY_KEY; DEFAULT "gen_random_uuid()"];
    Col "worker_id" UUID [NOT_NULL; REFERENCES "worker_registry" "id" CASCADE];
    Col "workspace_id" UUID [NOT_NULL; REFERENCES "workspaces" "id" CASCADE];
    Col "secret_hash" TEXT [NOT_NULL];
    Col "status" (ENUM "worker_credential_status") [NOT_NULL; DEFAULT "'active'"];
    Col "created_at" TIMESTAMPTZ [NOT_NULL; DEFAULT "now()"];
    Col "rotated_at" TIMESTAMPTZ [];
    Col "expires_at" TIMESTAMPTZ []]
   [];
   CREATE_INDEX false false "ix_worker_credentials_worker_active" "worker_credentials"
     ["worker_id"] (Some "status = 'active'");
   ROW_SECURITY ENABLE "worker_credentials";
   ROW_SECURITY FORCE "worker_credentials";
   ROW_SECURITY ENABLE "worker_registry";
   ROW_SECURITY FORCE "worker_registry";
   CREATE_POLICY "workers_select" "worker_registry" (mk_policy (Some SELECT) (Some (SIsNull (Name
     "workspace_id") OR SCall "is_workspace_member" [Name "workspace_id"; CurrentUserId])) None);
   ROW_SECURITY ENABLE "worker_heartbeats";
   ROW_SECURITY FORCE "worker_heartbeats";
   CREATE_POLICY "worker_heartbeats_admin_select" "worker_heartbeats" (mk_policy (Some SELECT)
     (Some (SExists [("worker_registry", "wr")] (SEq (Qual "wr" "id") (Qual "worker_heartbeats"
     "worker_id") AND SNotNull (Qual "wr" "workspace_id") AND SCall "is_workspace_admin" [Qual "wr"
     "workspace_id"; CurrentUserId]))) None)].

Definition downgrade_0025 : list ddl :=
  [DROP_POLICY "worker_heartbeats_admin_select" "worker_heartbeats";
   ROW_SECURITY NO_FORCE "worker_heartbeats";
   ROW_SECURITY DISABLE "worker_heartbeats";
   DROP_POLICY "workers_select" "worker_registry";
   ROW_SECURITY NO_FORCE "worker_registry";
   ROW_SECURITY DISABLE "worker_registry";
   DROP_TABLE IF_EXISTS "worker_credentials";
   DROP_TYPE "worker_credential_status";
   DROP_INDEX IF_EXISTS "ix_worker_registry_live";
   DROP_CONSTRAINTS IF_EXISTS "worker_registry" ["ck_worker_registry_deregistered_offline";
     "ck_worker_registry_max_concurrency"; "ck_worker_registry_load_capacity";
     "ck_worker_registry_load_nonneg"];
   DROP_INDEX IF_EXISTS "uq_worker_registry_name_instance";
   DROP_COLUMNS IF_EXISTS "worker_registry" ["deregistered_at"; "drain"; "worker_version";
     "instance_key"]].

Definition revision_0025 : revision :=
  mk_revision "0025" ["0024"] upgrade_0025 downgrade_0025.

(** ** 0026_stage_claiming_ws2.py *)

Definition upgrade_0026 : list ddl :=
  [ADD_COLUMNS "stage_assignments" [Col "claimed_at" TIMESTAMPTZ []; Col "claimed_by" UUID
     [REFERENCES "worker_registry" "id" NO_ACTION]; Col "claim_count" INTEGER [NOT_NULL; DEFAULT
     "0"]; Col "claim_token" UUID []];
   ADD_CONSTRAINTS "stage_assignments" [("ck_stage_assignments_claimed_by_matches", Check
     "claimed_by IS NULL OR claimed_by = worker_id")];
   CREATE_INDEX false false "ix_stage_assignments_claim" "stage_assignments" ["workspace_id";
     "stage"; "created_at"] (Some "status = 'pending'");
   CREATE_TYPE false "claim_outcome" ["granted"; "no_work"; "capacity"; "ineligible"];
   CREATE_TABLE false "stage_claim_audit"
   [Col "id" UUID [PRIMARY_KEY; DEFAULT "gen_random_uuid()"];
    Col "workspace_id" UUID [NOT_NULL; REFERENCES "workspaces" "id" CASCADE];
    Col "assignment_id" UUID [REFERENCES "stage_assignments" "id" SET_NULL];
    Col "worker_id" UUID [NOT_NULL; REFERENCES "worker_registry" "id" NO_ACTION];
    Col "outcome" (ENUM "claim_outcome") [NOT_NULL];
    Col "stage" (ENUM "content_stage") [];
    Col "detail" TEXT [];
    Col "correlation_id" UUID [];
    Col "created_at" TIMESTAMPTZ [NOT_NULL; DEFAULT "now()"]]
   [];
   CREATE_INDEX false false "ix_stage_claim_audit_ws_created" "stage_claim_audit" ["workspace_id";
     "created_at"] None;
   CREATE_INDEX false false "ix_stage_claim_audit_worker" "stage_claim_audit" ["worker_id";
     "created_at"] None] ++
  enable_rls "stage_claim_audit" ++
  grant_runtime "stage_claim_audit" false false false ++
  policy_select_members "stage_claim_audit" _ALL false "select_member".

Definition downgrade_0026 : list ddl :=
  [DROP_TABLE IF_EXISTS "stage_claim_audit";
   DROP_TYPE "claim_outcome";
   DROP_INDEX IF_EXISTS "ix_stage_assignments_claim";
   DROP_CONSTRAINTS IF_EXISTS "stage_assignments" ["ck_stage_assignments_claimed_by_matches"];
   DROP_COLUMNS IF_EXISTS "stage_assignments" ["claim_token"; "claim_count"; "claimed_by";
     "claimed_at"]].

Definition revision_0026 : revision :=
  mk_revision "0026" ["0025"] upgrade_0026 downgrade_0026.

(** ** 0027_lease_recovery_ws3.py *)

Definition upgrade_0027 : list ddl :=
  [ADD_COLUMNS "stage_assignments" [Col "lease_started_at" TIMESTAMPTZ []; Col
     "lease_extension_count" INTEGER [NOT_NULL; DEFAULT "0"]];
   CREATE_INDEX false false "ix_stage_assignments_worker_active" "stage_assignments" ["worker_id"]
     (Some
     "status = ANY (ARRAY['dispatched'::stage_assignment_status, 'acknowledged'::stage_assignment_status]) AND worker_id IS NOT NULL");
   CREATE_TYPE false "recovery_reason" ["lease_expired"; "worker_offline"; "worker_deregistered";
     "worker_revoked"; "worker_restart"; "max_lease_exceeded"];
   CREATE_TYPE false "recovery_outcome" ["requeued"; "dead_lettered"; "skipped"];
   CREATE_TABLE false "stage_recovery_audit"
   [Col "id" UUID [PRIMARY_KEY; DEFAULT "gen_random_uuid()"];
    Col "workspace_id" UUID [NOT_NULL; REFERENCES "workspaces" "id" CASCADE];
    Col "assignment_id" UUID [NOT_NULL];
    Col "previous_worker_id" UUID [];
    Col "reason" (ENUM "recovery_reason") [NOT_NULL];
    Col "previous_status" TEXT [NOT_NULL];
    Col "previous_attempt" INTEGER [NOT_NULL];
    Col "new_attempt" INTEGER [];
    Col "outcome" (ENUM "recovery_outcome") [NOT_NULL];
    Col "detail" TEXT [];
    Col "correlation_id" UUID [];
    Col "created_at" TIMESTAMPTZ [NOT_NULL; DEFAULT "now()"]]
   [];
   CREATE_INDEX false false "ix_stage_recovery_audit_ws_created" "stage_recovery_audit"
     ["workspace_id"; "created_at"] None;
   CREATE_INDEX false false "ix_stage_recovery_audit_assignment" "stage_recovery_audit"
     ["assignment_id"; "created_at"] None] ++
  enable_rls "stage_recovery_audit" ++
  grant_runtime "stage_recovery_audit" false false false ++
  policy_select_members "stage_recovery_audit" _ALL false "select_member" ++
  attach_immutable_trigger "stage_recovery_audit" ++
  [CREATE_TABLE false "provider_effect_keys"
   [Col "id" UUID [PRIMARY_KEY; DEFAULT "gen_random_uuid()"];
    Col "workspace_id" UUID [NOT_NULL; REFERENCES "workspaces" "id" CASCADE];
    Col "assignment_id" UUID [NOT_NULL];
    Col "attempt_number" INTEGER [NOT_NULL];
    Col "effect_key" TEXT [NOT_NULL];
    Col "effect_kind" TEXT [NOT_NULL];
    Col "created_at" TIMESTAMPTZ [NOT_NULL; DEFAULT "now()"]]
   [("uq_provider_effect_keys_ws_key", Unique ["workspace_id"; "effect_key"])];
   CREATE_INDEX false false "ix_provider_effect_keys_assignment" "provider_effect_keys"
     ["assignment_id"; "attempt_number"] None] ++
  enable_rls "provider_effect_keys" ++
  grant_runtime "provider_effect_keys" false false false ++
  policy_select_members "provider_effect_keys" _ALL false "select_member" ++
  attach_immutable_trigger "provider_effect_keys".

Definition downgrade_0027 : list ddl :=
  [DROP_TABLE IF_EXISTS "provider_effect_keys";
   DROP_TABLE IF_EXISTS "stage_recovery_audit";
   DROP_TYPE "recovery_outcome";
   DROP_TYPE "recovery_reason";
   DROP_INDEX IF_EXISTS "ix_stage_assignments_worker_active";
   DROP_COLUMNS IF_EXISTS "stage_assignments" ["lease_extension_count"; "lease_started_at"]].

Definition revision_0027 : revision :=
  mk_revision "0027" ["0026"] upgrade_0027 downgrade_0027.

(** ** 0028_immutable_delete_ws3_audit.py *)

Definition upgrade_0028 : list ddl :=
  [CREATE_FUNCTION "prevent_delete" (RaiseException
     "table % is immutable; row deletes are not permitted")] ++
  attach_immutable_delete_trigger "stage_recovery_audit" ++
  attach_immutable_delete_trigger "provider_effect_keys".

Definition downgrade_0028 : list ddl :=
  [DROP_TRIGGER "trg_stage_recovery_audit_immutable_delete" "stage_recovery_audit";
   DROP_TRIGGER "trg_provider_effect_keys_immutable_delete" "provider_effect_keys";
   DROP_FUNCTION "prevent_delete"].

Definition revision_0028 : revision :=
  mk_revision "0028" ["0027"] upgrade_0028 downgrade_0028.

(** ** 0029_priority_backpressure_ws4.py *)

Definition upgrade_0029 : list ddl :=
  [ADD_COLUMNS "workspaces" [Col "priority_tier" SMALLINT [NOT_NULL; DEFAULT "0"]];
   ADD_CONSTRAINTS "workspaces" [("ck_workspaces_priority_tier", Check
     "priority_tier >= 0 AND priority_tier <= 10")];
   ADD_COLUMNS "stage_assignments" [Col "priority" INTEGER [NOT_NULL; DEFAULT "0"]; Col "provider"
     TEXT []];
   CREATE_INDEX false false "ix_stage_assignments_claim_priority" "stage_assignments"
     ["workspace_id"; "priority DESC"; "created_at ASC"] (Some
     "status = 'pending'::stage_assignment_status");
   CREATE_INDEX false false "ix_stage_assignments_provider_inflight" "stage_assignments"
     ["workspace_id"; "provider"] (Some
     "status = ANY (ARRAY['dispatched'::stage_assignment_status, 'acknowledged'::stage_assignment_status]) AND provider IS NOT NULL");
   ADD_COLUMNS "workspace_concurrency_limits" [Col "queue_soft_limit" INTEGER [NOT_NULL; DEFAULT
     "50"]; Col "queue_hard_limit" INTEGER [NOT_NULL; DEFAULT "200"]];
   ADD_CONSTRAINTS "workspace_concurrency_limits" [("ck_workspace_concurrency_queue_limits", Check
     "queue_soft_limit > 0 AND queue_hard_limit >= queue_soft_limit")];
   CREATE_TYPE false "backpressure_state" ["normal"; "pressured"; "throttled"];
   CREATE_TABLE false "workspace_backpressure_state"
   [Col "workspace_id" UUID [PRIMARY_KEY; REFERENCES "workspaces" "id" CASCADE];
    Col "state" (ENUM "backpressure_state") [NOT_NULL; DEFAULT "'normal'"];
    Col "pending_depth" INTEGER [NOT_NULL; DEFAULT "0"];
    Col "entered_at" TIMESTAMPTZ [];
    Col "updated_at" TIMESTAMPTZ [NOT_NULL; DEFAULT "now()"];
    Col "version" INTEGER [NOT_NULL; DEFAULT "1"]]
   []] ++
  attach_version_trigger "workspace_backpressure_state" ++
  enable_rls "workspace_backpressure_state" ++
  grant_runtime "workspace_backpressure_state" false false false ++
  policy_select_members "workspace_backpressure_state" _ALL false "select_member" ++
  [CREATE_TABLE false "provider_concurrency_budgets"
   [Col "id" UUID [PRIMARY_KEY; DEFAULT "gen_random_uuid()"];
    Col "workspace_id" UUID [NOT_NULL; REFERENCES "workspaces" "id" CASCADE];
    Col "provider" TEXT [NOT_NULL];
    Col "max_concurrent" INTEGER [NOT_NULL];
    Col "created_at" TIMESTAMPTZ [NOT_NULL; DEFAULT "now()"];
    Col "updated_at" TIMESTAMPTZ [NOT_NULL; DEFAULT "now()"];
    Col "version" INTEGER [NOT_NULL; DEFAULT "1"]]
   [("uq_provider_concurrency_budgets_ws_provider", Unique ["workspace_id"; "provider"]);
    ("ck_provider_concurrency_budgets_max", Check "max_concurrent > 0")]] ++
  attach_version_trigger "provider_concurrency_budgets" ++
  enable_rls "provider_concurrency_budgets" ++
  grant_runtime "provider_concurrency_budgets" false false false ++
  policy_select_members "provider_concurrency_budgets" _ALL false "select_member" ++
  [CREATE_INDEX false false "ix_provider_concurrency_budgets_ws" "provider_concurrency_budgets"
     ["workspace_id"] None].

Definition downgrade_0029 : list ddl :=
  [DROP_TABLE IF_EXISTS "provider_concurrency_budgets";
   DROP_TABLE IF_EXISTS "workspace_backpressure_state";
   DROP_TYPE "backpressure_state";
   DROP_CONSTRAINTS IF_EXISTS "workspace_concurrency_limits"
     ["ck_workspace_concurrency_queue_limits"];
   DROP_COLUMNS IF_EXISTS "workspace_concurrency_limits" ["queue_hard_limit"; "queue_soft_limit"];
   DROP_INDEX IF_EXISTS "ix_stage_assignments_provider_inflight";
   DROP_INDEX IF_EXISTS "ix_stage_assignments_claim_priority";
   DROP_COLUMNS IF_EXISTS "stage_assignments" ["provider"; "priority"];
   DROP_CONSTRAINTS IF_EXISTS "workspaces" ["ck_workspaces_priority_tier"];
   DROP_COLUMNS IF_EXISTS "workspaces" ["priority_tier"]].

Definition revision_0029 : revision :=
  mk_revision "0029" ["0028"] upgrade_0029 downgrade_0029.
