(* ===== verification/Migrations3.v ===== *)
(** * Migrations: authentication, billing, leads, research and strategy (0030 to 0044)

    Each revision as the list of its statements; [x_NNNN] is the [x] of
    revision NNNN.  White space in SQL texts is normalised. *)

From S2P Require Import Prelude Schema MigrationHelpers.

(** ** 0030_local_auth_credentials.py *)

Definition upgrade_0030 : list ddl :=
  [CREATE_TABLE false "local_auth_credentials"
   [Col "user_id" UUID [PRIMARY_KEY; REFERENCES "profiles" "id" CASCADE];
    Col "email" VARCHAR [NOT_NULL];
    Col "password_hash" TEXT [NOT_NULL];
    Col "created_at" TIMESTAMPTZ [NOT_NULL; DEFAULT "now()"];
    Col "updated_at" TIMESTAMPTZ [NOT_NULL; DEFAULT "now()"]]
   [("uq_local_auth_credentials_email", Unique ["email"])];
   GRANT [SELECT; INSERT; UPDATE] "local_auth_credentials" "app_runtime"].

Definition downgrade_0030 : list ddl :=
  [DROP_TABLE MUST_EXIST "local_auth_credentials"].

Definition revision_0030 : revision :=
  mk_revision "0030" ["0029"] upgrade_0030 downgrade_0030.

(** ** 0031_fk_covering_indexes.py *)

Definition _INDEXES_0031_fk : list (string * string * string) :=
  [("ix_workspaces_created_by", "workspaces", "created_by");
   ("ix_workspace_memberships_user_id", "workspace_memberships", "user_id");
   ("ix_content_pillars_created_by", "content_pillars", "created_by");
   ("ix_content_pillars_updated_by", "content_pillars", "updated_by");
   ("ix_spend_caps_created_by", "spend_caps", "created_by");
   ("ix_spend_caps_updated_by", "spend_caps", "updated_by");
   ("ix_provider_credentials_created_by", "provider_credentials", "created_by");
   ("ix_provider_credentials_updated_by", "provider_credentials", "updated_by");
   ("ix_content_items_created_by", "content_items", "created_by");
   ("ix_content_items_updated_by", "content_items", "updated_by");
   ("ix_content_items_pillar_id", "content_items", "pillar_id");
   ("ix_content_items_current_pipeline_run_id", "content_items", "current_pipeline_run_id");
   ("ix_content_items_current_version_id", "content_items", "current_version_id");
   ("ix_content_versions_created_by", "content_versions", "created_by");
   ("ix_pipeline_runs_definition_id", "pipeline_runs", "definition_id");
   ("ix_pipeline_stage_runs_content_item_id", "pipeline_stage_runs", "content_item_id");
   ("ix_assets_content_version_id", "assets", "content_version_id");
   ("ix_assets_created_by", "assets", "created_by");
   ("ix_assets_updated_by", "assets", "updated_by");
   ("ix_publish_jobs_created_by", "publish_jobs", "created_by");
   ("ix_publish_jobs_updated_by", "publish_jobs", "updated_by");
   ("ix_review_decisions_content_version_id", "review_decisions", "content_version_id");
   ("ix_review_decisions_reviewer_id", "review_decisions", "reviewer_id");
   ("ix_spend_logs_content_item_id", "spend_logs", "content_item_id");
   ("ix_spend_reservations_content_item_id", "spend_reservations", "content_item_id");
   ("ix_provider_usage_pipeline_stage_run_id", "provider_usage", "pipeline_stage_run_id");
   ("ix_content_lineage_created_by", "content_lineage", "created_by");
   ("ix_workflow_definitions_created_by", "workflow_definitions", "created_by");
   ("ix_workflow_stages_workspace_id", "workflow_stages", "workspace_id");
   ("ix_workflow_transitions_workspace_id", "workflow_transitions", "workspace_id");
   ("ix_worker_registry_workspace_id", "worker_registry", "workspace_id");
   ("ix_stage_assignments_claimed_by", "stage_assignments", "claimed_by");
   ("ix_review_gates_decided_by", "review_gates", "decided_by");
   ("ix_worker_credentials_workspace_id", "worker_credentials", "workspace_id");
   ("ix_stage_claim_audit_assignment_id", "stage_claim_audit", "assignment_id")].

Definition upgrade_0031_fk : list ddl :=
  for_in _INDEXES_0031_fk (λ '(name, table, column),
    [CREATE_INDEX true false name table [column] None]).

Definition downgrade_0031_fk : list ddl :=
  for_in (rev _INDEXES_0031_fk) (λ '(name, _, _),
    [DROP_INDEX IF_EXISTS name]).

Definition revision_0031_fk : revision :=
  mk_revision "0031_fk" ["0030"] upgrade_0031_fk downgrade_0031_fk.

(** ** 0031_spend_cap_precision.py *)

Definition upgrade_0031_spend_precision : list ddl :=
  [ALTER_COLUMN_TYPE "spend_caps" "daily_cap_usd" (NUMERIC 12 4);
   ALTER_COLUMN_TYPE "spend_caps" "monthly_cap_usd" (NUMERIC 12 4)].

Definition downgrade_0031_spend_precision : list ddl :=
  [ALTER_COLUMN_TYPE "spend_caps" "daily_cap_usd" (NUMERIC 10 2);
   ALTER_COLUMN_TYPE "spend_caps" "monthly_cap_usd" (NUMERIC 10 2)].

Definition revision_0031_spend_precision : revision :=
  mk_revision "0031_spend_precision" ["0030"] upgrade_0031_spend_precision downgrade_0031_spend_precision.

(** ** 0031_workspace_billing.py *)

Definition upgrade_0031 : list ddl :=
  [CREATE_TABLE false "workspace_billing"
   [Col "workspace_id" UUID [PRIMARY_KEY; REFERENCES "workspaces" "id" CASCADE];
    Col "stripe_customer_id" TEXT [UNIQUE];
    Col "stripe_subscription_id" TEXT [UNIQUE];
    Col "plan" TEXT [NOT_NULL; DEFAULT "'none'"];
    Col "status" TEXT [NOT_NULL; DEFAULT "'inactive'"];
    Col "current_period_end" TIMESTAMPTZ [];
    Col "cancel_at_period_end" BOOLEAN [NOT_NULL; DEFAULT "false"];
    Col "created_at" TIMESTAMPTZ [NOT_NULL; DEFAULT "now()"];
    Col "updated_at" TIMESTAMPTZ [NOT_NULL; DEFAULT "now()"];
    Col "version" INTEGER [NOT_NULL; DEFAULT "1"]]
   [("workspace_billing_plan_chk", Check "plan IN ('none', 'pro')");
    ("workspace_billing_status_chk", Check
      "status IN ('inactive', 'incomplete', 'trialing', 'active', 'past_due', 'canceled', 'unpaid')")]] ++
  attach_version_trigger "workspace_billing" ++
  enable_rls "workspace_billing" ++
  grant_runtime "workspace_billing" true true false ++
  policy_select_members "workspace_billing" _ALL false "select_member" ++
  policy_insert_roles "workspace_billing" ["admin"] "insert_roles" ++
  policy_update_roles "workspace_billing" ["admin"] "update_roles" ++
  [CREATE_TABLE false "billing_webhook_events"
   [Col "id" UUID [PRIMARY_KEY; DEFAULT "gen_random_uuid()"];
    Col "stripe_event_id" TEXT [NOT_NULL; UNIQUE];
    Col "event_type" TEXT [NOT_NULL];
    Col "workspace_id" UUID [REFERENCES "workspaces" "id" SET_NULL];
    Col "processed_at" TIMESTAMPTZ [NOT_NULL; DEFAULT "now()"];
    Col "payload" JSONB [NOT_NULL; DEFAULT "'{}'::jsonb"]]
   [];
   CREATE_INDEX false false "ix_billing_webhook_events_workspace" "billing_webhook_events"
     ["workspace_id"] None] ++
  enable_rls "billing_webhook_events".

Definition downgrade_0031 : list ddl :=
  [DROP_TABLE IF_EXISTS "billing_webhook_events";
   DROP_TABLE IF_EXISTS "workspace_billing"].

Definition revision_0031 : revision :=
  mk_revision "0031" ["0030"] upgrade_0031 downgrade_0031.

(** ** 0032_merge_p1_heads.py *)

Definition upgrade_0032 : list ddl :=
  [].

Definition downgrade_0032 : list ddl :=
  [].

Definition revision_0032 : revision :=
  mk_revision "0032_merge_p1" ["0031"; "0031_fk"; "0031_spend_precision"] upgrade_0032 downgrade_0032.

(** ** 0033_spend_reservation_unique_open.py *)

Definition upgrade_0033 : list ddl :=
  [DML "spend_reservations"
     "WITH ranked AS ( SELECT id, row_number() OVER ( PARTITION BY pipeline_run_id, stage ORDER BY created_at DESC, id DESC ) AS rn FROM spend_reservations WHERE status = 'reserved' AND pipeline_run_id IS NOT NULL AND stage IS NOT NULL ) UPDATE spend_reservations sr SET status = 'released', updated_at = now(), version = sr.version + 1 FROM ranked WHERE sr.id = ranked.id AND ranked.rn > 1";
   CREATE_INDEX false true "ux_spend_reservations_open_run_stage" "spend_reservations"
     ["pipeline_run_id"; "stage"] (Some
     "status = 'reserved' AND pipeline_run_id IS NOT NULL AND stage IS NOT NULL")].

Definition downgrade_0033 : list ddl :=
  [DROP_INDEX IF_EXISTS "ux_spend_reservations_open_run_stage"].

Definition revision_0033 : revision :=
  mk_revision "0033" ["0032_merge_p1"] upgrade_0033 downgrade_0033.

(** ** 0034_operations_leads.py *)

Definition upgrade_0034 : list ddl :=
  [CREATE_TABLE false "leads"
   [Col "id" UUID [PRIMARY_KEY; DEFAULT "gen_random_uuid()"];
    Col "workspace_id" UUID [NOT_NULL; REFERENCES "workspaces" "id" CASCADE];
    Col "name" TEXT [NOT_NULL];
    Col "company" TEXT [];
    Col "email" TEXT [NOT_NULL];
    Col "source" TEXT [NOT_NULL; DEFAULT "'manual'"];
    Col "status" TEXT [NOT_NULL; DEFAULT "'new'"];
    Col "notes" TEXT [];
    Col "follow_up_date" DATE [];
    Col "created_at" TIMESTAMPTZ [NOT_NULL; DEFAULT "now()"];
    Col "updated_at" TIMESTAMPTZ [NOT_NULL; DEFAULT "now()"];
    Col "version" INTEGER [NOT_NULL; DEFAULT "1"]]
   [("leads_status_chk", Check
      "status IN ('new', 'contacted', 'qualified', 'negotiation', 'won', 'lost', 'nurturing')");
    ("leads_email_chk", Check "position('@' in email) > 1")];
   CREATE_INDEX false false "ix_leads_workspace_status" "leads" ["workspace_id"; "status"] None;
   CREATE_INDEX false false "ix_leads_workspace_follow_up" "leads" ["workspace_id";
     "follow_up_date"] None;
   CREATE_INDEX false false "ix_leads_workspace_email" "leads" ["workspace_id"; "email"] None] ++
  attach_version_trigger "leads" ++
  enable_rls "leads" ++
  grant_runtime "leads" true true true ++
  policy_select_members "leads" _ALL false "select_member" ++
  policy_insert_roles "leads" _WRITE "insert_roles" ++
  policy_update_roles "leads" _WRITE "update_roles" ++
  [CREATE_POLICY "leads_delete_roles" "leads" (mk_policy (Some DELETE) (Some (SCall
     "app_user_has_workspace_role" [Name "workspace_id"; (Roles ["admin"])])) None)].

Definition downgrade_0034 : list ddl :=
  [DROP_TABLE IF_EXISTS "leads"].

Definition revision_0034 : revision :=
  mk_revision "0034" ["0033"] upgrade_0034 downgrade_0034.

(** ** 0035_worker_logs_v4.py *)

Definition upgrade_0035 : list ddl :=
  [CREATE_TABLE false "worker_logs"
   [Col "id" UUID [PRIMARY_KEY; DEFAULT "gen_random_uuid()"];
    Col "workspace_id" UUID [NOT_NULL; REFERENCES "workspaces" "id" CASCADE];
    Col "worker_id" UUID [NOT_NULL; REFERENCES "worker_registry" "id" RESTRICT];
    Col "pipeline_run_id" UUID [REFERENCES "pipeline_runs" "id" RESTRICT];
    Col "assignment_id" UUID [REFERENCES "stage_assignments" "id" RESTRICT];
    Col "severity" TEXT [NOT_NULL];
    Col "message" TEXT [NOT_NULL];
    Col "context" JSONB [NOT_NULL; DEFAULT "'{}'::jsonb"];
    Col "occurred_at" TIMESTAMPTZ [NOT_NULL; DEFAULT "now()"];
    Col "received_at" TIMESTAMPTZ [NOT_NULL; DEFAULT "now()"]]
   [("worker_logs_severity_chk", Check
      "severity IN ('debug', 'info', 'warning', 'error', 'critical')")];
   CREATE_INDEX false false "ix_worker_logs_workspace_time" "worker_logs" ["workspace_id";
     "occurred_at DESC"] None;
   CREATE_INDEX false false "ix_worker_logs_worker_time" "worker_logs" ["worker_id";
     "occurred_at DESC"] None;
   CREATE_INDEX false false "ix_worker_logs_pipeline_time" "worker_logs" ["pipeline_run_id";
     "occurred_at DESC"] (Some "pipeline_run_id IS NOT NULL");
   CREATE_INDEX false false "ix_worker_logs_assignment_time" "worker_logs" ["assignment_id";
     "occurred_at DESC"] (Some "assignment_id IS NOT NULL")] ++
  attach_immutable_trigger "worker_logs" ++
  attach_immutable_delete_trigger "worker_logs" ++
  enable_rls "worker_logs" ++
  grant_runtime "worker_logs" false false false ++
  policy_select_members "worker_logs" ["admin"] false "select_member".

Definition downgrade_0035 : list ddl :=
  [DROP_TABLE IF_EXISTS "worker_logs"].

Definition revision_0035 : revision :=
  mk_revision "0035" ["0034"] upgrade_0035 downgrade_0035.

(** ** 0036_local_auth_lockout.py *)

Definition upgrade_0036 : list ddl :=
  [ADD_COLUMNS "local_auth_credentials" [Col "failed_attempts" INTEGER [NOT_NULL; DEFAULT "0"]];
   ADD_COLUMNS "local_auth_credentials" [Col "last_failed_at" TIMESTAMPTZ []];
   ADD_COLUMNS "local_auth_credentials" [Col "locked_until" TIMESTAMPTZ []]].

Definition downgrade_0036 : list ddl :=
  [DROP_COLUMNS MUST_EXIST "local_auth_credentials" ["locked_until"];
   DROP_COLUMNS MUST_EXIST "local_auth_credentials" ["last_failed_at"];
   DROP_COLUMNS MUST_EXIST "local_auth_credentials" ["failed_attempts"]].

Definition revision_0036 : revision :=
  mk_revision "0036" ["0035"] upgrade_0036 downgrade_0036.

(** ** 0037_publication_eligibility.py *)

Definition upgrade_0037 : list ddl :=
  [CREATE_TABLE false "publication_eligibility"
   [Col "id" UUID [PRIMARY_KEY; DEFAULT "gen_random_uuid()"];
    Col "workspace_id" UUID [NOT_NULL; REFERENCES "workspaces" "id" CASCADE];
    Col "content_item_id" UUID [NOT_NULL; REFERENCES "content_items" "id" CASCADE];
    Col "platform" TEXT [NOT_NULL];
    Col "generated_by" TEXT [];
    Col "synthetic_media_disclosed" BOOLEAN [NOT_NULL; DEFAULT "false"];
    Col "rights_confirmed_by" UUID [REFERENCES "profiles" "id" SET_NULL];
    Col "rights_confirmed_at" TIMESTAMPTZ [];
    Col "originality_fingerprint" TEXT [];
    Col "review_gate_id" UUID [REFERENCES "review_gates" "id" SET_NULL];
    Col "policy_notes" JSONB [];
    Col "created_at" TIMESTAMPTZ [NOT_NULL; DEFAULT "now()"];
    Col "updated_at" TIMESTAMPTZ [NOT_NULL; DEFAULT "now()"];
    Col "version" INTEGER [NOT_NULL; DEFAULT "1"]]
   [("uq_publication_eligibility_item_platform", Unique ["content_item_id"; "platform"]);
    ("publication_eligibility_platform_chk", Check
      "platform IN ('youtube', 'tiktok', 'instagram')");
    ("publication_eligibility_rights_chk", Check
      "(rights_confirmed_by IS NULL AND rights_confirmed_at IS NULL) OR (rights_confirmed_by IS NOT NULL AND rights_confirmed_at IS NOT NULL)")];
   CREATE_INDEX false false "ix_publication_eligibility_workspace" "publication_eligibility"
     ["workspace_id"] None;
   CREATE_INDEX false false "ix_publication_eligibility_fingerprint" "publication_eligibility"
     ["workspace_id"; "platform"; "originality_fingerprint"] None;
   CREATE_INDEX false false "ix_publication_eligibility_review_gate" "publication_eligibility"
     ["review_gate_id"] None;
   CREATE_INDEX false false "ix_publication_eligibility_rights_confirmed_by"
     "publication_eligibility" ["rights_confirmed_by"] None] ++
  attach_version_trigger "publication_eligibility" ++
  enable_rls "publication_eligibility" ++
  grant_runtime "publication_eligibility" true true true ++
  policy_select_members "publication_eligibility" _ALL false "select_member" ++
  policy_insert_roles "publication_eligibility" _ATTEST "insert_roles" ++
  policy_update_roles "publication_eligibility" _ATTEST "update_roles" ++
  [CREATE_POLICY "publication_eligibility_delete_roles" "publication_eligibility" (mk_policy (Some
     DELETE) (Some (SCall "app_user_has_workspace_role" [Name "workspace_id"; (Roles ["admin"])]))
     None)].

Definition downgrade_0037 : list ddl :=
  [DROP_TABLE IF_EXISTS "publication_eligibility"].

Definition revision_0037 : revision :=
  mk_revision "0037" ["0036"] upgrade_0037 downgrade_0037.

(** ** 0038_soft_delete_update_check.py *)

Definition _WRITE_ROLES_0038 : list string := ["admin"; "editor"].

Definition _SELECT_ROLES_0038 : list (string * list string) :=
  [("content_items", ["admin"; "editor"; "reviewer"]); ("assets", ["admin"; "editor"; "reviewer"]);
    ("publish_jobs", ["admin"; "editor"; "reviewer"]); ("content_pillars", ["admin"; "editor";
    "reviewer"])].

Definition upgrade_0038 : list ddl :=
  for_in _SELECT_ROLES_0038 (λ '(table, read_roles),
    [DROP_POLICY (table +:+ "_select_member") table;
     CREATE_POLICY (table +:+ "_select_member") table (mk_policy (Some SELECT) (Some ((SIsNull
       (Name "deleted_at") AND SCall "app_user_has_workspace_role" [Name "workspace_id"; (Roles
       read_roles)]) OR (SNotNull (Name "deleted_at") AND SCall "app_user_has_workspace_role" [Name
       "workspace_id"; (Roles _WRITE_ROLES_0038)]))) None);
     DROP_POLICY (table +:+ "_update_roles") table;
     CREATE_POLICY (table +:+ "_update_roles") table (mk_policy (Some UPDATE) (Some (SCall
       "app_user_has_workspace_role" [Name "workspace_id"; (Roles _WRITE_ROLES_0038)])) (Some
       (SCall "app_user_has_workspace_role" [Name "workspace_id"; (Roles _WRITE_ROLES_0038)])))]).

Definition downgrade_0038 : list ddl :=
  for_in _SELECT_ROLES_0038 (λ '(table, read_roles),
    [DROP_POLICY (table +:+ "_select_member") table;
     CREATE_POLICY (table +:+ "_select_member") table (mk_policy (Some SELECT) (Some (SIsNull (Name
       "deleted_at") AND SCall "app_user_has_workspace_role" [Name "workspace_id"; (Roles
       read_roles)])) None);
     DROP_POLICY (table +:+ "_update_roles") table;
     CREATE_POLICY (table +:+ "_update_roles") table (mk_policy (Some UPDATE) (Some (SCall
       "app_user_has_workspace_role" [Name "workspace_id"; (Roles _WRITE_ROLES_0038)])) None)]).

Definition revision_0038 : revision :=
  mk_revision "0038" ["0037"] upgrade_0038 downgrade_0038.

(** ** 0039_revoke_runtime_local_auth_credentials.py *)

Definition upgrade_0039 : list ddl :=
  [REVOKE [SELECT; INSERT; UPDATE; DELETE] "local_auth_credentials" "app_runtime"].

Definition downgrade_0039 : list ddl :=
  [GRANT [SELECT; INSERT; UPDATE] "local_auth_credentials" "app_runtime"].

Definition revision_0039 : revision :=
  mk_revision "0039" ["0038"] upgrade_0039 downgrade_0039.

(** ** 0040_review_gate_content_version.py *)

Definition upgrade_0040 : list ddl :=
  [ADD_COLUMNS "review_gates" [Col "content_version_id" UUID []];
   ADD_CONSTRAINTS "review_gates" [("fk_review_gates_content_version", ForeignKey
     ["content_version_id"] "content_versions" ["id"] NO_ACTION)];
   CREATE_INDEX false false "ix_review_gates_content_version" "review_gates" ["content_version_id"]
     None].

Definition downgrade_0040 : list ddl :=
  [DROP_INDEX MUST_EXIST "ix_review_gates_content_version";
   DROP_CONSTRAINTS MUST_EXIST "review_gates" ["fk_review_gates_content_version"];
   DROP_COLUMNS MUST_EXIST "review_gates" ["content_version_id"]].

Definition revision_0040 : revision :=
  mk_revision "0040" ["0039"] upgrade_0040 downgrade_0040.

(** ** 0041_scout_research_auditor_v1.py *)

Definition research_runs_0041 : list ddl :=
  [CREATE_TABLE false "research_runs"
   [Col "id" UUID [PRIMARY_KEY];
    Col "workspace_id" UUID [REFERENCES "workspaces" "id" CASCADE; NOT_NULL];
    Col "trigger" TEXT [NOT_NULL; DEFAULT "'manual'"];
    Col "research_objective" TEXT [NOT_NULL];
    Col "permitted_sources" JSONB [NOT_NULL; DEFAULT "'[]'::jsonb"];
    Col "started_at" TIMESTAMPTZ [NOT_NULL; DEFAULT "now()"];
    Col "deadline" TIMESTAMPTZ [NOT_NULL];
    Col "max_searches" INTEGER [NOT_NULL];
    Col "max_provider_calls" INTEGER [NOT_NULL];
    Col "max_tokens" INTEGER [NOT_NULL];
    Col "max_cost_usd" (NUMERIC 10 4) [NOT_NULL];
    Col "max_attempts" INTEGER [NOT_NULL];
    Col "status" TEXT [NOT_NULL; DEFAULT "'queued'"];
    Col "provider_state" TEXT [NOT_NULL; DEFAULT "'not_configured'"];
    Col "searches_used" INTEGER [NOT_NULL; DEFAULT "'0'"];
    Col "provider_calls_used" INTEGER [NOT_NULL; DEFAULT "'0'"];
    Col "tokens_used" INTEGER [NOT_NULL; DEFAULT "'0'"];
    Col "reserved_cost_usd" (NUMERIC 10 4) [NOT_NULL; DEFAULT "'0'"];
    Col "actual_cost_usd" (NUMERIC 10 4) [NOT_NULL; DEFAULT "'0'"];
    Col "opportunity_count" INTEGER [NOT_NULL; DEFAULT "'0'"];
    Col "audited_opportunity_count" INTEGER [NOT_NULL; DEFAULT "'0'"];
    Col "blocked_opportunity_count" INTEGER [NOT_NULL; DEFAULT "'0'"];
    Col "last_error" TEXT [];
    Col "correlation_id" UUID [NOT_NULL];
    Col "trace_id" TEXT [];
    Col "test_data" BOOLEAN [NOT_NULL; DEFAULT "false"];
    Col "created_at" TIMESTAMPTZ [NOT_NULL; DEFAULT "now()"];
    Col "updated_at" TIMESTAMPTZ [NOT_NULL; DEFAULT "now()"];
    Col "created_by" UUID [REFERENCES "profiles" "id" NO_ACTION];
    Col "updated_by" UUID [REFERENCES "profiles" "id" NO_ACTION];
    Col "version" INTEGER [NOT_NULL; DEFAULT "'1'"]]
   [("ck_research_runs_bounds", Check
      "max_searches > 0 AND max_provider_calls >= 0 AND max_tokens >= 0 AND max_cost_usd >= 0 AND max_attempts > 0")];
   CREATE_INDEX false false "ix_research_runs_workspace_created" "research_runs" ["workspace_id";
     "created_at"] None;
   CREATE_INDEX false false "ix_research_runs_workspace_status" "research_runs" ["workspace_id";
     "status"] None;
   CREATE_INDEX false false "ix_research_runs_workspace_correlation" "research_runs"
     ["workspace_id"; "correlation_id"] None].

Definition research_sources_0041 : list ddl :=
  [CREATE_TABLE false "research_sources"
   [Col "id" UUID [PRIMARY_KEY];
    Col "workspace_id" UUID [REFERENCES "workspaces" "id" CASCADE; NOT_NULL];
    Col "research_run_id" UUID [REFERENCES "research_runs" "id" CASCADE; NOT_NULL];
    Col "canonical_url" TEXT [NOT_NULL];
    Col "source_type" TEXT [NOT_NULL];
    Col "retrieved_at" TIMESTAMPTZ [NOT_NULL; DEFAULT "now()"];
    Col "published_at" TIMESTAMPTZ [];
    Col "publisher" TEXT [];
    Col "author" TEXT [];
    Col "claim_supported" TEXT [];
    Col "freshness" TEXT [NOT_NULL; DEFAULT "'unknown'"];
    Col "confidence" (NUMERIC 5 4) [NOT_NULL; DEFAULT "'0'"];
    Col "content_digest" TEXT [NOT_NULL];
    Col "safe_excerpt" TEXT [];
    Col "handling_state" TEXT [NOT_NULL; DEFAULT "'accepted'"];
    Col "rejection_reason" TEXT [];
    Col "test_data" BOOLEAN [NOT_NULL; DEFAULT "false"];
    Col "created_at" TIMESTAMPTZ [NOT_NULL; DEFAULT "now()"]]
   [("uq_research_source_run_url", Unique ["workspace_id"; "research_run_id"; "canonical_url"])];
   CREATE_INDEX false false "ix_research_sources_workspace_run" "research_sources" ["workspace_id";
     "research_run_id"] None;
   CREATE_INDEX false false "ix_research_sources_workspace_digest" "research_sources"
     ["workspace_id"; "content_digest"] None].

Definition opportunities_0041 : list ddl :=
  [CREATE_TABLE false "opportunities"
   [Col "id" UUID [PRIMARY_KEY];
    Col "workspace_id" UUID [REFERENCES "workspaces" "id" CASCADE; NOT_NULL];
    Col "research_run_id" UUID [REFERENCES "research_runs" "id" RESTRICT; NOT_NULL];
    Col "title" TEXT [NOT_NULL];
    Col "topic" TEXT [NOT_NULL];
    Col "summary" TEXT [NOT_NULL];
    Col "proposed_angle" TEXT [NOT_NULL];
    Col "target_audience" TEXT [];
    Col "target_platform" TEXT [];
    Col "suggested_format" TEXT [];
    Col "discovered_at" TIMESTAMPTZ [NOT_NULL; DEFAULT "now()"];
    Col "freshness" TEXT [NOT_NULL; DEFAULT "'unknown'"];
    Col "source_count" INTEGER [NOT_NULL; DEFAULT "'0'"];
    Col "confidence" (NUMERIC 5 4) [NOT_NULL; DEFAULT "'0'"];
    Col "risk" TEXT [NOT_NULL; DEFAULT "'unknown'"];
    Col "status" TEXT [NOT_NULL; DEFAULT "'watching'"];
    Col "created_by_worker" TEXT [NOT_NULL; DEFAULT "'scout'"];
    Col "component_scores" JSONB [NOT_NULL; DEFAULT "'{}'::jsonb"];
    Col "score_reasoning" JSONB [NOT_NULL; DEFAULT "'{}'::jsonb"];
    Col "dedupe_key" TEXT [NOT_NULL];
    Col "audit_gate_status" TEXT [NOT_NULL; DEFAULT "'not_run'"];
    Col "performance_data_state" TEXT [NOT_NULL; DEFAULT "'no_performance_data'"];
    Col "strategist_state" TEXT [NOT_NULL; DEFAULT "'not_sent'"];
    Col "test_data" BOOLEAN [NOT_NULL; DEFAULT "false"];
    Col "created_at" TIMESTAMPTZ [NOT_NULL; DEFAULT "now()"];
    Col "updated_at" TIMESTAMPTZ [NOT_NULL; DEFAULT "now()"];
    Col "created_by" UUID [REFERENCES "profiles" "id" NO_ACTION];
    Col "updated_by" UUID [REFERENCES "profiles" "id" NO_ACTION];
    Col "version" INTEGER [NOT_NULL; DEFAULT "'1'"];
    Col "deleted_at" TIMESTAMPTZ []]
   [("uq_opportunities_workspace_dedupe", Unique ["workspace_id"; "dedupe_key"])];
   CREATE_INDEX false false "ix_opportunities_workspace_status" "opportunities" ["workspace_id";
     "status"] None;
   CREATE_INDEX false false "ix_opportunities_workspace_run" "opportunities" ["workspace_id";
     "research_run_id"] None;
   CREATE_INDEX false false "ix_opportunities_workspace_topic" "opportunities" ["workspace_id";
     "topic"] None].

Definition opportunity_evidence_0041 : list ddl :=
  [CREATE_TABLE false "opportunity_evidence"
   [Col "id" UUID [PRIMARY_KEY];
    Col "workspace_id" UUID [REFERENCES "workspaces" "id" CASCADE; NOT_NULL];
    Col "opportunity_id" UUID [REFERENCES "opportunities" "id" CASCADE; NOT_NULL];
    Col "source_id" UUID [REFERENCES "research_sources" "id" CASCADE; NOT_NULL];
    Col "claim_supported" TEXT [NOT_NULL];
    Col "relevance" (NUMERIC 5 4) [NOT_NULL; DEFAULT "'0'"];
    Col "contradiction_flag" BOOLEAN [NOT_NULL; DEFAULT "false"];
    Col "created_at" TIMESTAMPTZ [NOT_NULL; DEFAULT "now()"]]
   [("uq_opportunity_evidence_link", Unique ["workspace_id"; "opportunity_id"; "source_id"])];
   CREATE_INDEX false false "ix_opportunity_evidence_workspace_opportunity" "opportunity_evidence"
     ["workspace_id"; "opportunity_id"] None].

Definition research_audits_0041 : list ddl :=
  [CREATE_TABLE false "research_audits"
   [Col "id" UUID [PRIMARY_KEY];
    Col "workspace_id" UUID [REFERENCES "workspaces" "id" CASCADE; NOT_NULL];
    Col "opportunity_id" UUID [REFERENCES "opportunities" "id" CASCADE; NOT_NULL];
    Col "research_run_id" UUID [REFERENCES "research_runs" "id" CASCADE; NOT_NULL];
    Col "state" TEXT [NOT_NULL; DEFAULT "'not_run'"];
    Col "evaluator_context_version" TEXT [NOT_NULL; DEFAULT "'research-auditor-v1'"];
    Col "scout_snapshot" JSONB [NOT_NULL; DEFAULT "'{}'::jsonb"];
    Col "findings" JSONB [NOT_NULL; DEFAULT "'[]'::jsonb"];
    Col "warnings" JSONB [NOT_NULL; DEFAULT "'[]'::jsonb"];
    Col "blocked_reasons" JSONB [NOT_NULL; DEFAULT "'[]'::jsonb"];
    Col "checked_at" TIMESTAMPTZ [NOT_NULL; DEFAULT "now()"];
    Col "test_data" BOOLEAN [NOT_NULL; DEFAULT "false"];
    Col "created_at" TIMESTAMPTZ [NOT_NULL; DEFAULT "now()"]]
   [];
   CREATE_INDEX false false "ix_research_audits_workspace_opportunity_checked" "research_audits"
     ["workspace_id"; "opportunity_id"; "checked_at"] None;
   CREATE_INDEX false false "ix_research_audits_workspace_run" "research_audits" ["workspace_id";
     "research_run_id"] None].

Definition research_schedules_0041 : list ddl :=
  [CREATE_TABLE false "research_schedules"
   [Col "id" UUID [PRIMARY_KEY];
    Col "workspace_id" UUID [REFERENCES "workspaces" "id" CASCADE; NOT_NULL];
    Col "frequency" TEXT [NOT_NULL; DEFAULT "'manual'"];
    Col "enabled" BOOLEAN [NOT_NULL; DEFAULT "false"];
    Col "next_run_at" TIMESTAMPTZ [];
    Col "paused_at" TIMESTAMPTZ [];
    Col "enabled_by" UUID [REFERENCES "profiles" "id" NO_ACTION];
    Col "created_at" TIMESTAMPTZ [NOT_NULL; DEFAULT "now()"];
    Col "updated_at" TIMESTAMPTZ [NOT_NULL; DEFAULT "now()"];
    Col "created_by" UUID [REFERENCES "profiles" "id" NO_ACTION];
    Col "updated_by" UUID [REFERENCES "profiles" "id" NO_ACTION];
    Col "version" INTEGER [NOT_NULL; DEFAULT "'1'"]]
   [("uq_research_schedule_workspace", Unique ["workspace_id"])]].

Definition upgrade_0041 : list ddl :=
  research_runs_0041 ++
  research_sources_0041 ++
  opportunities_0041 ++
  opportunity_evidence_0041 ++
  research_audits_0041 ++
  research_schedules_0041 ++
  for_in ["research_runs"; "opportunities"; "research_schedules"] (λ table,
    attach_version_trigger table ++
    enable_rls table ++
    grant_runtime table true true true ++
    policy_select_members table _ALL false "select_member" ++
    policy_insert_roles table _EDIT "insert_roles" ++
    policy_update_roles table _EDIT "update_roles") ++
  for_in ["research_sources"; "opportunity_evidence"; "research_audits"] (λ table,
    attach_immutable_trigger table ++
    attach_immutable_delete_trigger table ++
    enable_rls table ++
    grant_runtime table true false false ++
    policy_select_members table _ALL false "select_member" ++
    policy_insert_roles table _EDIT "insert_roles").

Definition downgrade_0041 : list ddl :=
  for_in ["research_audits"; "opportunity_evidence"; "research_sources"] (λ table,
    [DROP_POLICY (table +:+ "_select_member") table;
     DROP_POLICY (table +:+ "_insert_roles") table;
     ROW_SECURITY NO_FORCE table;
     ROW_SECURITY DISABLE table;
     DROP_TRIGGER ("trg_" +:+ table +:+ "_immutable") table;
     DROP_TRIGGER ("trg_" +:+ table +:+ "_immutable_delete") table]) ++
  for_in ["research_schedules"; "opportunities"; "research_runs"] (λ table,
    [DROP_POLICY (table +:+ "_select_member") table;
     DROP_POLICY (table +:+ "_insert_roles") table;
     DROP_POLICY (table +:+ "_update_roles") table;
     ROW_SECURITY NO_FORCE table;
     ROW_SECURITY DISABLE table;
     DROP_TRIGGER ("trg_" +:+ table +:+ "_version") table]) ++
  [DROP_TABLE MUST_EXIST "research_schedules";
   DROP_TABLE MUST_EXIST "research_audits";
   DROP_TABLE MUST_EXIST "opportunity_evidence";
   DROP_TABLE MUST_EXIST "opportunities";
   DROP_TABLE MUST_EXIST "research_sources";
   DROP_TABLE MUST_EXIST "research_runs"].

Definition revision_0041 : revision :=
  mk_revision "0041" ["0040"] upgrade_0041 downgrade_0041.

(** ** 0042_outbox_domain_write_policy.py *)

Definition upgrade_0042 : list ddl :=
  policy_insert_roles "outbox_events" ["admin"; "editor"] "insert_roles".

Definition downgrade_0042 : list ddl :=
  [DROP_POLICY "outbox_events_insert_roles" "outbox_events"].

Definition revision_0042 : revision :=
  mk_revision "0042" ["0041"] upgrade_0042 downgrade_0042.

(** ** 0043_research_fk_indexes.py *)

Definition _INDEXES_0043 : list (string * string * list string) :=
  [("ix_research_runs_created_by", "research_runs", ["created_by"]);
   ("ix_research_runs_updated_by", "research_runs", ["updated_by"]);
   ("ix_research_sources_run", "research_sources", ["research_run_id"]);
   ("ix_opportunities_run", "opportunities", ["research_run_id"]);
   ("ix_opportunities_created_by", "opportunities", ["created_by"]);
   ("ix_opportunities_updated_by", "opportunities", ["updated_by"]);
   ("ix_opportunity_evidence_opportunity", "opportunity_evidence", ["opportunity_id"]);
   ("ix_opportunity_evidence_source", "opportunity_evidence", ["source_id"]);
   ("ix_research_audits_opportunity", "research_audits", ["opportunity_id"]);
   ("ix_research_audits_run", "research_audits", ["research_run_id"]);
   ("ix_research_schedules_created_by", "research_schedules", ["created_by"]);
   ("ix_research_schedules_enabled_by", "research_schedules", ["enabled_by"]);
   ("ix_research_schedules_updated_by", "research_schedules", ["updated_by"])].

Definition upgrade_0043 : list ddl :=
  for_in _INDEXES_0043 (λ '(name, table, columns),
    [CREATE_INDEX false false name table columns None]).

Definition downgrade_0043 : list ddl :=
  for_in (rev _INDEXES_0043) (λ '(name, table, _),
    [DROP_INDEX MUST_EXIST name]).

Definition revision_0043 : revision :=
  mk_revision "0043" ["0042"] upgrade_0043 downgrade_0043.

(** ** 0044_strategist_strategy_auditor_v1.py *)

Definition _actor_columns_0044 : list column_def :=
  [Col "created_at" TIMESTAMPTZ [NOT_NULL; DEFAULT "now()"];
   Col "updated_at" TIMESTAMPTZ [NOT_NULL; DEFAULT "now()"];
   Col "created_by" UUID [REFERENCES "profiles" "id" NO_ACTION];
   Col "updated_by" UUID [REFERENCES "profiles" "id" NO_ACTION];
   Col "version" INTEGER [NOT_NULL; DEFAULT "'1'"]].

Definition strategy_runs_0044 : list ddl :=
  [CREATE_TABLE false "strategy_runs"
   ([Col "id" UUID [PRIMARY_KEY];
    Col "workspace_id" UUID [REFERENCES "workspaces" "id" CASCADE; NOT_NULL];
    Col "trigger" TEXT [NOT_NULL; DEFAULT "'manual'"];
    Col "strategy_objective" TEXT [NOT_NULL];
    Col "source_opportunity_ids" JSONB [NOT_NULL; DEFAULT "'[]'::jsonb"];
    Col "started_at" TIMESTAMPTZ [NOT_NULL; DEFAULT "now()"];
    Col "deadline" TIMESTAMPTZ [NOT_NULL];
    Col "max_provider_calls" INTEGER [NOT_NULL];
    Col "max_tokens" INTEGER [NOT_NULL];
    Col "max_cost_usd" (NUMERIC 10 4) [NOT_NULL];
    Col "max_attempts" INTEGER [NOT_NULL];
    Col "status" TEXT [NOT_NULL; DEFAULT "'queued'"];
    Col "provider_state" TEXT [NOT_NULL; DEFAULT "'not_configured'"];
    Col "business_context_state" TEXT [NOT_NULL; DEFAULT "'incomplete'"];
    Col "provider_calls_used" INTEGER [NOT_NULL; DEFAULT "'0'"];
    Col "tokens_used" INTEGER [NOT_NULL; DEFAULT "'0'"];
    Col "reserved_cost_usd" (NUMERIC 10 4) [NOT_NULL; DEFAULT "'0'"];
    Col "actual_cost_usd" (NUMERIC 10 4) [NOT_NULL; DEFAULT "'0'"];
    Col "briefs_created" INTEGER [NOT_NULL; DEFAULT "'0'"];
    Col "briefs_passed" INTEGER [NOT_NULL; DEFAULT "'0'"];
    Col "briefs_blocked" INTEGER [NOT_NULL; DEFAULT "'0'"];
    Col "last_error" TEXT [];
    Col "correlation_id" UUID [NOT_NULL];
    Col "trace_id" TEXT [];
    Col "test_data" BOOLEAN [NOT_NULL; DEFAULT "false"]] ++
   _actor_columns_0044)
   [("ck_strategy_runs_bounds", Check
      "max_provider_calls >= 0 AND max_tokens >= 0 AND max_cost_usd >= 0 AND max_attempts > 0")];
   CREATE_INDEX false false "ix_strategy_runs_workspace_created" "strategy_runs" ["workspace_id";
     "created_at"] None;
   CREATE_INDEX false false "ix_strategy_runs_workspace_status" "strategy_runs" ["workspace_id";
     "status"] None;
   CREATE_INDEX false false "ix_strategy_runs_workspace_correlation" "strategy_runs"
     ["workspace_id"; "correlation_id"] None;
   CREATE_INDEX false false "ix_strategy_runs_created_by" "strategy_runs" ["created_by"] None;
   CREATE_INDEX false false "ix_strategy_runs_updated_by" "strategy_runs" ["updated_by"] None].

Definition strategy_briefs_0044 : list ddl :=
  [CREATE_TABLE false "strategy_briefs"
   ([Col "id" UUID [PRIMARY_KEY];
    Col "workspace_id" UUID [REFERENCES "workspaces" "id" CASCADE; NOT_NULL];
    Col "strategy_run_id" UUID [REFERENCES "strategy_runs" "id" RESTRICT; NOT_NULL];
    Col "objective" TEXT [NOT_NULL];
    Col "target_audience" TEXT [];
    Col "target_platform" TEXT [];
    Col "content_format" TEXT [];
    Col "creative_angle" TEXT [];
    Col "core_message" TEXT [];
    Col "hook_direction" TEXT [];
    Col "cta_direction" TEXT [];
    Col "business_goal" TEXT [];
    Col "success_metric" TEXT [];
    Col "commercial_goal" TEXT [];
    Col "estimated_complexity" TEXT [NOT_NULL; DEFAULT "'unknown'"];
    Col "risk_level" TEXT [NOT_NULL; DEFAULT "'unknown'"];
    Col "evidence_summary" TEXT [NOT_NULL];
    Col "reasoning" TEXT [NOT_NULL];
    Col "confidence" (NUMERIC 5 4) [NOT_NULL; DEFAULT "'0'"];
    Col "priority" TEXT [NOT_NULL; DEFAULT "'watch'"];
    Col "component_scores" JSONB [NOT_NULL; DEFAULT "'{}'::jsonb"];
    Col "score_reasoning" JSONB [NOT_NULL; DEFAULT "'{}'::jsonb"];
    Col "recommended_length" TEXT [];
    Col "recommended_posting_window" TEXT [];
    Col "required_assets" JSONB [NOT_NULL; DEFAULT "'[]'::jsonb"];
    Col "production_requirements" JSONB [NOT_NULL; DEFAULT "'[]'::jsonb"];
    Col "rights_requirements" JSONB [NOT_NULL; DEFAULT "'[]'::jsonb"];
    Col "compliance_requirements" JSONB [NOT_NULL; DEFAULT "'[]'::jsonb"];
    Col "estimated_provider_usage" JSONB [NOT_NULL; DEFAULT "'{}'::jsonb"];
    Col "estimated_cost_range" JSONB [NOT_NULL; DEFAULT "'{}'::jsonb"];
    Col "cost_state" TEXT [NOT_NULL; DEFAULT "'unknown'"];
    Col "capability_state" TEXT [NOT_NULL; DEFAULT "'not_configured'"];
    Col "business_context_state" TEXT [NOT_NULL; DEFAULT "'incomplete'"];
    Col "performance_data_state" TEXT [NOT_NULL; DEFAULT "'no_data'"];
    Col "structural_fingerprint" TEXT [NOT_NULL];
    Col "repetition_state" TEXT [NOT_NULL; DEFAULT "'not_run'"];
    Col "repetition_reasons" JSONB [NOT_NULL; DEFAULT "'[]'::jsonb"];
    Col "audit_gate_status" TEXT [NOT_NULL; DEFAULT "'not_run'"];
    Col "writer_handoff_state" TEXT [NOT_NULL; DEFAULT "'blocked'"];
    Col "created_by_worker" TEXT [NOT_NULL; DEFAULT "'strategist'"];
    Col "status" TEXT [NOT_NULL; DEFAULT "'draft'"];
    Col "test_data" BOOLEAN [NOT_NULL; DEFAULT "false"]] ++
   _actor_columns_0044 ++
   [Col "deleted_at" TIMESTAMPTZ []])
   [("uq_strategy_briefs_workspace_fp", Unique ["workspace_id"; "structural_fingerprint"])];
   CREATE_INDEX false false "ix_strategy_briefs_workspace_status" "strategy_briefs"
     ["workspace_id"; "status"] None;
   CREATE_INDEX false false "ix_strategy_briefs_workspace_run" "strategy_briefs" ["workspace_id";
     "strategy_run_id"] None;
   CREATE_INDEX false false "ix_strategy_briefs_workspace_priority" "strategy_briefs"
     ["workspace_id"; "priority"] None;
   CREATE_INDEX false false "ix_strategy_briefs_workspace_objective" "strategy_briefs"
     ["workspace_id"; "business_goal"] None;
   CREATE_INDEX false false "ix_strategy_briefs_run" "strategy_briefs" ["strategy_run_id"] None;
   CREATE_INDEX false false "ix_strategy_briefs_created_by" "strategy_briefs" ["created_by"] None;
   CREATE_INDEX false false "ix_strategy_briefs_updated_by" "strategy_briefs" ["updated_by"] None].

Definition strategy_brief_opportunities_0044 : list ddl :=
  [CREATE_TABLE false "strategy_brief_opportunities"
   [Col "id" UUID [PRIMARY_KEY];
    Col "workspace_id" UUID [REFERENCES "workspaces" "id" CASCADE; NOT_NULL];
    Col "strategy_brief_id" UUID [REFERENCES "strategy_briefs" "id" CASCADE; NOT_NULL];
    Col "opportunity_id" UUID [REFERENCES "opportunities" "id" RESTRICT; NOT_NULL];
    Col "created_at" TIMESTAMPTZ [NOT_NULL; DEFAULT "now()"]]
   [("uq_strategy_brief_opportunity", Unique ["workspace_id"; "strategy_brief_id";
      "opportunity_id"])];
   CREATE_INDEX false false "ix_strategy_brief_opportunities_workspace_brief"
     "strategy_brief_opportunities" ["workspace_id"; "strategy_brief_id"] None;
   CREATE_INDEX false false "ix_strategy_brief_opportunities_brief" "strategy_brief_opportunities"
     ["strategy_brief_id"] None;
   CREATE_INDEX false false "ix_strategy_brief_opportunities_opportunity"
     "strategy_brief_opportunities" ["opportunity_id"] None].

Definition strategy_audits_0044 : list ddl :=
  [CREATE_TABLE false "strategy_audits"
   [Col "id" UUID [PRIMARY_KEY];
    Col "workspace_id" UUID [REFERENCES "workspaces" "id" CASCADE; NOT_NULL];
    Col "strategy_brief_id" UUID [REFERENCES "strategy_briefs" "id" CASCADE; NOT_NULL];
    Col "strategy_run_id" UUID [REFERENCES "strategy_runs" "id" CASCADE; NOT_NULL];
    Col "state" TEXT [NOT_NULL; DEFAULT "'not_run'"];
    Col "evaluator_context_version" TEXT [NOT_NULL; DEFAULT "'strategy-auditor-v1'"];
    Col "brief_snapshot" JSONB [NOT_NULL; DEFAULT "'{}'::jsonb"];
    Col "findings" JSONB [NOT_NULL; DEFAULT "'[]'::jsonb"];
    Col "warnings" JSONB [NOT_NULL; DEFAULT "'[]'::jsonb"];
    Col "blocked_reasons" JSONB [NOT_NULL; DEFAULT "'[]'::jsonb"];
    Col "checked_at" TIMESTAMPTZ [NOT_NULL; DEFAULT "now()"];
    Col "test_data" BOOLEAN [NOT_NULL; DEFAULT "false"];
    Col "created_at" TIMESTAMPTZ [NOT_NULL; DEFAULT "now()"]]
   [];
   CREATE_INDEX false false "ix_strategy_audits_workspace_brief_checked" "strategy_audits"
     ["workspace_id"; "strategy_brief_id"; "checked_at"] None;
   CREATE_INDEX false false "ix_strategy_audits_workspace_run" "strategy_audits" ["workspace_id";
     "strategy_run_id"] None;
   CREATE_INDEX false false "ix_strategy_audits_brief" "strategy_audits" ["strategy_brief_id"] None;
   CREATE_INDEX false false "ix_strategy_audits_run" "strategy_audits" ["strategy_run_id"] None].

Definition strategy_schedules_0044 : list ddl :=
  [CREATE_TABLE false "strategy_schedules"
   ([Col "id" UUID [PRIMARY_KEY];
    Col "workspace_id" UUID [REFERENCES "workspaces" "id" CASCADE; NOT_NULL];
    Col "frequency" TEXT [NOT_NULL; DEFAULT "'manual'"];
    Col "enabled" BOOLEAN [NOT_NULL; DEFAULT "false"];
    Col "next_run_at" TIMESTAMPTZ [];
    Col "paused_at" TIMESTAMPTZ [];
    Col "enabled_by" UUID [REFERENCES "profiles" "id" NO_ACTION]] ++
   _actor_columns_0044)
   [("uq_strategy_schedule_workspace", Unique ["workspace_id"])];
   CREATE_INDEX false false "ix_strategy_schedules_created_by" "strategy_schedules" ["created_by"]
     None;
   CREATE_INDEX false false "ix_strategy_schedules_enabled_by" "strategy_schedules" ["enabled_by"]
     None;
   CREATE_INDEX false false "ix_strategy_schedules_updated_by" "strategy_schedules" ["updated_by"]
     None].

Definition upgrade_0044 : list ddl :=
  strategy_runs_0044 ++
  strategy_briefs_0044 ++
  strategy_brief_opportunities_0044 ++
  strategy_audits_0044 ++
  strategy_schedules_0044 ++
  for_in ["strategy_runs"; "strategy_briefs"; "strategy_schedules"] (λ table,
    attach_version_trigger table ++
    enable_rls table ++
    grant_runtime table true true true ++
    policy_select_members table _ALL false "select_member" ++
    policy_insert_roles table _EDIT "insert_roles" ++
    policy_update_roles table _EDIT "update_roles") ++
  for_in ["strategy_brief_opportunities"; "strategy_audits"] (λ table,
    attach_immutable_trigger table ++
    attach_immutable_delete_trigger table ++
    enable_rls table ++
    grant_runtime table true false false ++
    policy_select_members table _ALL false "select_member" ++
    policy_insert_roles table _EDIT "insert_roles").

Definition downgrade_0044 : list ddl :=
  for_in ["strategy_audits"; "strategy_brief_opportunities"] (λ table,
    [DROP_POLICY (table +:+ "_select_member") table;
     DROP_POLICY (table +:+ "_insert_roles") table;
     ROW_SECURITY NO_FORCE table;
     ROW_SECURITY DISABLE table;
     DROP_TRIGGER ("trg_" +:+ table +:+ "_immutable") table;
     DROP_TRIGGER ("trg_" +:+ table +:+ "_immutable_delete") table]) ++
  for_in ["strategy_schedules"; "strategy_briefs"; "strategy_runs"] (λ table,
    [DROP_POLICY (table +:+ "_select_member") table;
     DROP_POLICY (table +:+ "_insert_roles") table;
     DROP_POLICY (table +:+ "_update_roles") table;
     ROW_SECURITY NO_FORCE table;
     ROW_SECURITY DISABLE table;
     DROP_TRIGGER ("trg_" +:+ table +:+ "_version") table]) ++
  [DROP_TABLE MUST_EXIST "strategy_schedules";
   DROP_TABLE MUST_EXIST "strategy_audits";
   DROP_TABLE MUST_EXIST "strategy_brief_opportunities";
   DROP_TABLE MUST_EXIST "strategy_briefs";
   DROP_TABLE MUST_EXIST "strategy_runs"].

Definition revision_0044 : revision :=
  mk_revision "0044" ["0043"] upgrade_0044 downgrade_0044.
