(* ===== verification/Migrations4.v ===== *)
(** * Migrations: content, production, compliance and the runtime policies (0045 to 0059)

    Each revision as the list of its statements; [x_NNNN] is the [x] of
    revision NNNN.  White space in SQL texts is normalised. *)

From S2P Require Import Prelude Schema MigrationHelpers.

(** ** 0045_content_department_v1.py *)

Definition _actor_columns_0045 : list column_def :=
  [Col "created_at" TIMESTAMPTZ [NOT_NULL; DEFAULT "now()"];
   Col "updated_at" TIMESTAMPTZ [NOT_NULL; DEFAULT "now()"];
   Col "created_by" UUID [REFERENCES "profiles" "id" NO_ACTION];
   Col "updated_by" UUID [REFERENCES "profiles" "id" NO_ACTION];
   Col "version" INTEGER [NOT_NULL; DEFAULT "'1'"]].

Definition _created_by_columns_0045 : list column_def :=
  [Col "created_at" TIMESTAMPTZ [NOT_NULL; DEFAULT "now()"];
   Col "created_by" UUID [REFERENCES "profiles" "id" NO_ACTION]].

Definition content_department_runs_0045 : list ddl :=
  [CREATE_TABLE false "content_department_runs"
   ([Col "id" UUID [PRIMARY_KEY];
    Col "workspace_id" UUID [REFERENCES "workspaces" "id" CASCADE; NOT_NULL];
    Col "strategy_brief_id" UUID [REFERENCES "strategy_briefs" "id" RESTRICT; NOT_NULL];
    Col "trigger" TEXT [NOT_NULL; DEFAULT "'manual'"];
    Col "status" TEXT [NOT_NULL; DEFAULT "'queued'"];
    Col "provider_state" TEXT [NOT_NULL; DEFAULT "'not_configured'"];
    Col "business_context_state" TEXT [NOT_NULL; DEFAULT "'incomplete'"];
    Col "max_provider_calls" INTEGER [NOT_NULL; DEFAULT "'0'"];
    Col "max_tokens" INTEGER [NOT_NULL; DEFAULT "'0'"];
    Col "max_cost_usd" (NUMERIC 10 4) [NOT_NULL; DEFAULT "'0'"];
    Col "max_attempts" INTEGER [NOT_NULL; DEFAULT "'1'"];
    Col "timeout_seconds" INTEGER [NOT_NULL; DEFAULT "'900'"];
    Col "provider_calls_used" INTEGER [NOT_NULL; DEFAULT "'0'"];
    Col "tokens_used" INTEGER [NOT_NULL; DEFAULT "'0'"];
    Col "actual_cost_usd" (NUMERIC 10 4) [NOT_NULL; DEFAULT "'0'"];
    Col "creative_directions_created" INTEGER [NOT_NULL; DEFAULT "'0'"];
    Col "packages_ready" INTEGER [NOT_NULL; DEFAULT "'0'"];
    Col "packages_blocked" INTEGER [NOT_NULL; DEFAULT "'0'"];
    Col "last_error" TEXT [];
    Col "correlation_id" UUID [NOT_NULL];
    Col "trace_id" TEXT [];
    Col "test_data" BOOLEAN [NOT_NULL; DEFAULT "false"]] ++
   _actor_columns_0045)
   [("ck_content_department_run_bounds", Check
      "max_provider_calls >= 0 AND max_tokens >= 0 AND max_cost_usd >= 0 AND max_attempts > 0 AND timeout_seconds > 0")];
   CREATE_INDEX false false "ix_content_department_runs_workspace_created"
     "content_department_runs" ["workspace_id"; "created_at"] None;
   CREATE_INDEX false false "ix_content_department_runs_workspace_status" "content_department_runs"
     ["workspace_id"; "status"] None;
   CREATE_INDEX false false "ix_content_department_runs_workspace_strategy"
     "content_department_runs" ["workspace_id"; "strategy_brief_id"] None;
   CREATE_INDEX false false "ix_content_department_runs_correlation" "content_department_runs"
     ["workspace_id"; "correlation_id"] None;
   CREATE_INDEX false false "ix_content_department_runs_strategy" "content_department_runs"
     ["strategy_brief_id"] None;
   CREATE_INDEX false false "ix_content_department_runs_created_by" "content_department_runs"
     ["created_by"] None;
   CREATE_INDEX false false "ix_content_department_runs_updated_by" "content_department_runs"
     ["updated_by"] None].

Definition creative_directions_0045 : list ddl :=
  [CREATE_TABLE false "creative_directions"
   ([Col "id" UUID [PRIMARY_KEY];
    Col "workspace_id" UUID [REFERENCES "workspaces" "id" CASCADE; NOT_NULL];
    Col "content_department_run_id" UUID [REFERENCES "content_department_runs" "id" RESTRICT;
      NOT_NULL];
    Col "strategy_brief_id" UUID [REFERENCES "strategy_briefs" "id" RESTRICT; NOT_NULL];
    Col "objective" TEXT [NOT_NULL];
    Col "target_platform" TEXT [];
    Col "target_audience" TEXT [];
    Col "creative_concept" TEXT [NOT_NULL];
    Col "opening_pattern" TEXT [];
    Col "hook_direction" TEXT [];
    Col "story_structure" TEXT [];
    Col "tone" TEXT [];
    Col "pacing" TEXT [];
    Col "visual_direction" TEXT [];
    Col "audio_direction" TEXT [];
    Col "cta_direction" TEXT [];
    Col "desired_emotion" TEXT [];
    Col "required_claims" JSONB [NOT_NULL; DEFAULT "'[]'::jsonb"];
    Col "prohibited_claims" JSONB [NOT_NULL; DEFAULT "'[]'::jsonb"];
    Col "required_assets" JSONB [NOT_NULL; DEFAULT "'[]'::jsonb"];
    Col "estimated_duration" TEXT [];
    Col "production_complexity" TEXT [NOT_NULL; DEFAULT "'unknown'"];
    Col "risk_notes" JSONB [NOT_NULL; DEFAULT "'[]'::jsonb"];
    Col "worker_id" TEXT [NOT_NULL; DEFAULT "'creative_director'"];
    Col "provider" TEXT [NOT_NULL; DEFAULT "'not_configured'"];
    Col "model" TEXT [];
    Col "prompt_version" TEXT [NOT_NULL; DEFAULT "'creative-director-v1'"];
    Col "status" TEXT [NOT_NULL; DEFAULT "'draft'"];
    Col "test_data" BOOLEAN [NOT_NULL; DEFAULT "false"]] ++
   _created_by_columns_0045)
   [];
   CREATE_INDEX false false "ix_creative_directions_workspace_strategy" "creative_directions"
     ["workspace_id"; "strategy_brief_id"] None;
   CREATE_INDEX false false "ix_creative_directions_workspace_run" "creative_directions"
     ["workspace_id"; "content_department_run_id"] None;
   CREATE_INDEX false false "ix_creative_directions_workspace_status" "creative_directions"
     ["workspace_id"; "status"] None;
   CREATE_INDEX false false "ix_creative_directions_run" "creative_directions"
     ["content_department_run_id"] None;
   CREATE_INDEX false false "ix_creative_directions_strategy" "creative_directions"
     ["strategy_brief_id"] None;
   CREATE_INDEX false false "ix_creative_directions_created_by" "creative_directions"
     ["created_by"] None].

Definition content_packages_0045 : list ddl :=
  [CREATE_TABLE false "content_packages"
   ([Col "id" UUID [PRIMARY_KEY];
    Col "workspace_id" UUID [REFERENCES "workspaces" "id" CASCADE; NOT_NULL];
    Col "content_department_run_id" UUID [REFERENCES "content_department_runs" "id" RESTRICT;
      NOT_NULL];
    Col "creative_direction_id" UUID [REFERENCES "creative_directions" "id" RESTRICT; NOT_NULL];
    Col "strategy_brief_id" UUID [REFERENCES "strategy_briefs" "id" RESTRICT; NOT_NULL];
    Col "content_item_id" UUID [REFERENCES "content_items" "id" CASCADE; NOT_NULL];
    Col "content_version_id" UUID [REFERENCES "content_versions" "id" CASCADE; NOT_NULL];
    Col "prior_content_version_id" UUID [REFERENCES "content_versions" "id" SET_NULL];
    Col "revision_reason" TEXT [];
    Col "writer_worker_id" TEXT [NOT_NULL; DEFAULT "'writer'"];
    Col "provider" TEXT [NOT_NULL; DEFAULT "'not_configured'"];
    Col "model" TEXT [];
    Col "prompt_version" TEXT [NOT_NULL; DEFAULT "'writer-v1'"];
    Col "input_references" JSONB [NOT_NULL; DEFAULT "'{}'::jsonb"];
    Col "package_fields" JSONB [NOT_NULL; DEFAULT "'{}'::jsonb"];
    Col "status" TEXT [NOT_NULL; DEFAULT "'writer_provider_not_configured'"];
    Col "audit_gate_status" TEXT [NOT_NULL; DEFAULT "'not_run'"];
    Col "producer_handoff_state" TEXT [NOT_NULL; DEFAULT "'blocked'"];
    Col "invalidated_at" TIMESTAMPTZ [];
    Col "test_data" BOOLEAN [NOT_NULL; DEFAULT "false"];
    Col "deleted_at" TIMESTAMPTZ []] ++
   _actor_columns_0045)
   [("uq_content_package_version", Unique ["workspace_id"; "content_version_id"])];
   CREATE_INDEX false false "ix_content_packages_workspace_status" "content_packages"
     ["workspace_id"; "status"] None;
   CREATE_INDEX false false "ix_content_packages_workspace_item" "content_packages"
     ["workspace_id"; "content_item_id"] None;
   CREATE_INDEX false false "ix_content_packages_workspace_direction" "content_packages"
     ["workspace_id"; "creative_direction_id"] None;
   CREATE_INDEX false false "ix_content_packages_run" "content_packages"
     ["content_department_run_id"] None;
   CREATE_INDEX false false "ix_content_packages_strategy" "content_packages" ["strategy_brief_id"]
     None;
   CREATE_INDEX false false "ix_content_packages_item" "content_packages" ["content_item_id"] None;
   CREATE_INDEX false false "ix_content_packages_version" "content_packages" ["content_version_id"]
     None;
   CREATE_INDEX false false "ix_content_packages_prior_version" "content_packages"
     ["prior_content_version_id"] None;
   CREATE_INDEX false false "ix_content_packages_direction" "content_packages"
     ["creative_direction_id"] None;
   CREATE_INDEX false false "ix_content_packages_created_by" "content_packages" ["created_by"] None;
   CREATE_INDEX false false "ix_content_packages_updated_by" "content_packages" ["updated_by"] None].

Definition content_claims_0045 : list ddl :=
  [CREATE_TABLE false "content_claims"
   ([Col "id" UUID [PRIMARY_KEY];
    Col "workspace_id" UUID [REFERENCES "workspaces" "id" CASCADE; NOT_NULL];
    Col "content_package_id" UUID [REFERENCES "content_packages" "id" CASCADE; NOT_NULL];
    Col "content_version_id" UUID [REFERENCES "content_versions" "id" CASCADE; NOT_NULL];
    Col "claim_text" TEXT [NOT_NULL];
    Col "claim_type" TEXT [NOT_NULL];
    Col "source_required" BOOLEAN [NOT_NULL; DEFAULT "true"];
    Col "supporting_evidence" JSONB [NOT_NULL; DEFAULT "'[]'::jsonb"];
    Col "verification_status" TEXT [NOT_NULL; DEFAULT "'not_run'"];
    Col "confidence" (NUMERIC 5 4) [NOT_NULL; DEFAULT "'0'"];
    Col "risk" TEXT [NOT_NULL; DEFAULT "'unknown'"];
    Col "freshness" TEXT [];
    Col "evidence_reasoning" TEXT [];
    Col "test_data" BOOLEAN [NOT_NULL; DEFAULT "false"]] ++
   _actor_columns_0045)
   [];
   CREATE_INDEX false false "ix_content_claims_workspace_version" "content_claims" ["workspace_id";
     "content_version_id"] None;
   CREATE_INDEX false false "ix_content_claims_workspace_status" "content_claims" ["workspace_id";
     "verification_status"] None;
   CREATE_INDEX false false "ix_content_claims_package" "content_claims" ["content_package_id"]
     None;
   CREATE_INDEX false false "ix_content_claims_version" "content_claims" ["content_version_id"]
     None;
   CREATE_INDEX false false "ix_content_claims_created_by" "content_claims" ["created_by"] None;
   CREATE_INDEX false false "ix_content_claims_updated_by" "content_claims" ["updated_by"] None].

Definition content_audits_0045 : list ddl :=
  [CREATE_TABLE false "content_audits"
   [Col "id" UUID [PRIMARY_KEY];
    Col "workspace_id" UUID [REFERENCES "workspaces" "id" CASCADE; NOT_NULL];
    Col "content_package_id" UUID [REFERENCES "content_packages" "id" CASCADE; NOT_NULL];
    Col "content_version_id" UUID [REFERENCES "content_versions" "id" CASCADE; NOT_NULL];
    Col "auditor_type" TEXT [NOT_NULL];
    Col "auditor_worker_id" TEXT [NOT_NULL];
    Col "state" TEXT [NOT_NULL; DEFAULT "'not_run'"];
    Col "artifact_snapshot" JSONB [NOT_NULL; DEFAULT "'{}'::jsonb"];
    Col "requirements_snapshot" JSONB [NOT_NULL; DEFAULT "'{}'::jsonb"];
    Col "findings" JSONB [NOT_NULL; DEFAULT "'[]'::jsonb"];
    Col "warnings" JSONB [NOT_NULL; DEFAULT "'[]'::jsonb"];
    Col "blocked_reasons" JSONB [NOT_NULL; DEFAULT "'[]'::jsonb"];
    Col "evidence" JSONB [NOT_NULL; DEFAULT "'[]'::jsonb"];
    Col "checked_at" TIMESTAMPTZ [NOT_NULL; DEFAULT "now()"];
    Col "cost_usd" (NUMERIC 10 4) [NOT_NULL; DEFAULT "'0'"];
    Col "retry_history" JSONB [NOT_NULL; DEFAULT "'[]'::jsonb"];
    Col "test_data" BOOLEAN [NOT_NULL; DEFAULT "false"];
    Col "created_at" TIMESTAMPTZ [NOT_NULL; DEFAULT "now()"]]
   [];
   CREATE_INDEX false false "ix_content_audits_workspace_package_checked" "content_audits"
     ["workspace_id"; "content_package_id"; "checked_at"] None;
   CREATE_INDEX false false "ix_content_audits_workspace_version_type" "content_audits"
     ["workspace_id"; "content_version_id"; "auditor_type"] None;
   CREATE_INDEX false false "ix_content_audits_package" "content_audits" ["content_package_id"]
     None;
   CREATE_INDEX false false "ix_content_audits_version" "content_audits" ["content_version_id"]
     None].

Definition content_audit_invalidations_0045 : list ddl :=
  [CREATE_TABLE false "content_audit_invalidations"
   ([Col "id" UUID [PRIMARY_KEY];
    Col "workspace_id" UUID [REFERENCES "workspaces" "id" CASCADE; NOT_NULL];
    Col "content_audit_id" UUID [REFERENCES "content_audits" "id" CASCADE; NOT_NULL];
    Col "content_package_id" UUID [REFERENCES "content_packages" "id" CASCADE; NOT_NULL];
    Col "content_version_id" UUID [REFERENCES "content_versions" "id" CASCADE; NOT_NULL];
    Col "reason" TEXT [NOT_NULL];
    Col "affected_dimensions" JSONB [NOT_NULL; DEFAULT "'[]'::jsonb"]] ++
   _created_by_columns_0045)
   [("uq_content_audit_invalidation", Unique ["content_audit_id"; "content_version_id"])];
   CREATE_INDEX false false "ix_content_audit_invalidations_workspace_version"
     "content_audit_invalidations" ["workspace_id"; "content_version_id"] None;
   CREATE_INDEX false false "ix_content_audit_invalidations_audit" "content_audit_invalidations"
     ["content_audit_id"] None;
   CREATE_INDEX false false "ix_content_audit_invalidations_package" "content_audit_invalidations"
     ["content_package_id"] None;
   CREATE_INDEX false false "ix_content_audit_invalidations_version" "content_audit_invalidations"
     ["content_version_id"] None;
   CREATE_INDEX false false "ix_content_audit_invalidations_created_by"
     "content_audit_invalidations" ["created_by"] None].

Definition originality_fingerprints_0045 : list ddl :=
  [CREATE_TABLE false "originality_fingerprints"
   ([Col "id" UUID [PRIMARY_KEY];
    Col "workspace_id" UUID [REFERENCES "workspaces" "id" CASCADE; NOT_NULL];
    Col "content_package_id" UUID [REFERENCES "content_packages" "id" CASCADE; NOT_NULL];
    Col "content_version_id" UUID [REFERENCES "content_versions" "id" CASCADE; NOT_NULL];
    Col "text_fingerprint" TEXT [NOT_NULL];
    Col "hook_fingerprint" TEXT [NOT_NULL];
    Col "structure_fingerprint" TEXT [NOT_NULL];
    Col "semantic_reference" TEXT [];
    Col "comparison_set" JSONB [NOT_NULL; DEFAULT "'[]'::jsonb"];
    Col "similarity_findings" JSONB [NOT_NULL; DEFAULT "'[]'::jsonb"];
    Col "state" TEXT [NOT_NULL; DEFAULT "'not_run'"];
    Col "test_data" BOOLEAN [NOT_NULL; DEFAULT "false"]] ++
   _created_by_columns_0045)
   [("uq_originality_fingerprint_version", Unique ["workspace_id"; "content_version_id"])];
   CREATE_INDEX false false "ix_originality_fingerprints_workspace_text" "originality_fingerprints"
     ["workspace_id"; "text_fingerprint"] None;
   CREATE_INDEX false false "ix_originality_fingerprints_workspace_hook" "originality_fingerprints"
     ["workspace_id"; "hook_fingerprint"] None;
   CREATE_INDEX false false "ix_originality_fingerprints_workspace_structure"
     "originality_fingerprints" ["workspace_id"; "structure_fingerprint"] None;
   CREATE_INDEX false false "ix_originality_fingerprints_package" "originality_fingerprints"
     ["content_package_id"] None;
   CREATE_INDEX false false "ix_originality_fingerprints_version" "originality_fingerprints"
     ["content_version_id"] None;
   CREATE_INDEX false false "ix_originality_fingerprints_created_by" "originality_fingerprints"
     ["created_by"] None].

Definition upgrade_0045 : list ddl :=
  content_department_runs_0045 ++
  creative_directions_0045 ++
  content_packages_0045 ++
  content_claims_0045 ++
  content_audits_0045 ++
  content_audit_invalidations_0045 ++
  originality_fingerprints_0045 ++
  for_in ["content_department_runs"; "content_packages"; "content_claims"] (λ table,
    attach_version_trigger table ++
    enable_rls table ++
    grant_runtime table true true true ++
    policy_select_members table _ALL false "select_member" ++
    policy_insert_roles table _EDIT "insert_roles" ++
    policy_update_roles table _EDIT "update_roles") ++
  for_in ["creative_directions"; "content_audits"; "content_audit_invalidations";
    "originality_fingerprints"] (λ table,
    attach_immutable_trigger table ++
    attach_immutable_delete_trigger table ++
    enable_rls table ++
    grant_runtime table true false false ++
    policy_select_members table _ALL false "select_member" ++
    policy_insert_roles table _EDIT "insert_roles").

Definition downgrade_0045 : list ddl :=
  for_in ["originality_fingerprints"; "content_audit_invalidations"; "content_audits";
    "creative_directions"] (λ table,
    [DROP_POLICY (table +:+ "_select_member") table;
     DROP_POLICY (table +:+ "_insert_roles") table;
     ROW_SECURITY NO_FORCE table;
     ROW_SECURITY DISABLE table;
     DROP_TRIGGER ("trg_" +:+ table +:+ "_immutable") table;
     DROP_TRIGGER ("trg_" +:+ table +:+ "_immutable_delete") table]) ++
  for_in ["content_claims"; "content_packages"; "content_department_runs"] (λ table,
    [DROP_POLICY (table +:+ "_select_member") table;
     DROP_POLICY (table +:+ "_insert_roles") table;
     DROP_POLICY (table +:+ "_update_roles") table;
     ROW_SECURITY NO_FORCE table;
     ROW_SECURITY DISABLE table;
     DROP_TRIGGER ("trg_" +:+ table +:+ "_version") table]) ++
  [DROP_TABLE MUST_EXIST "originality_fingerprints";
   DROP_TABLE MUST_EXIST "content_audit_invalidations";
   DROP_TABLE MUST_EXIST "content_audits";
   DROP_TABLE MUST_EXIST "content_claims";
   DROP_TABLE MUST_EXIST "content_packages";
   DROP_TABLE MUST_EXIST "creative_directions";
   DROP_TABLE MUST_EXIST "content_department_runs"].

Definition revision_0045 : revision :=
  mk_revision "0045" ["0044"] upgrade_0045 downgrade_0045.

(** ** 0046_producer_media_qa_v1.py *)

Definition _actor_columns_0046 : list column_def :=
  [Col "created_at" TIMESTAMPTZ [NOT_NULL; DEFAULT "now()"];
   Col "updated_at" TIMESTAMPTZ [NOT_NULL; DEFAULT "now()"];
   Col "created_by" UUID [REFERENCES "profiles" "id" NO_ACTION];
   Col "updated_by" UUID [REFERENCES "profiles" "id" NO_ACTION];
   Col "version" INTEGER [NOT_NULL; DEFAULT "'1'"]].

Definition _created_by_columns_0046 : list column_def :=
  [Col "created_at" TIMESTAMPTZ [NOT_NULL; DEFAULT "now()"];
   Col "created_by" UUID [REFERENCES "profiles" "id" NO_ACTION]].

Definition _workspace_0046 : column_def :=
  Col "workspace_id" UUID [REFERENCES "workspaces" "id" CASCADE; NOT_NULL].

Definition production_jobs_0046 : list ddl :=
  [CREATE_TABLE false "production_jobs"
   ([Col "id" UUID [PRIMARY_KEY];
    _workspace_0046;
    Col "content_package_id" UUID [REFERENCES "content_packages" "id" RESTRICT; NOT_NULL];
    Col "content_item_id" UUID [REFERENCES "content_items" "id" CASCADE; NOT_NULL];
    Col "content_version_id" UUID [REFERENCES "content_versions" "id" RESTRICT; NOT_NULL];
    Col "pipeline_run_id" UUID [REFERENCES "pipeline_runs" "id" SET_NULL];
    Col "producer_worker_id" TEXT [NOT_NULL; DEFAULT "'producer'"];
    Col "target_platform" TEXT [];
    Col "target_format" TEXT [];
    Col "target_duration_seconds" INTEGER [];
    Col "required_assets" JSONB [NOT_NULL; DEFAULT "'[]'::jsonb"];
    Col "provider_plan" JSONB [NOT_NULL; DEFAULT "'{}'::jsonb"];
    Col "status" TEXT [NOT_NULL; DEFAULT "'queued'"];
    Col "provider_state" TEXT [NOT_NULL; DEFAULT "'not_configured'"];
    Col "max_provider_calls" INTEGER [NOT_NULL; DEFAULT "'0'"];
    Col "max_render_calls" INTEGER [NOT_NULL; DEFAULT "'0'"];
    Col "max_cost_usd" (NUMERIC 10 4) [NOT_NULL; DEFAULT "'0'"];
    Col "max_total_cost_usd" (NUMERIC 10 4) [NOT_NULL; DEFAULT "'0'"];
    Col "max_attempts" INTEGER [NOT_NULL; DEFAULT "'1'"];
    Col "max_repair_cycles" INTEGER [NOT_NULL; DEFAULT "'0'"];
    Col "timeout_seconds" INTEGER [NOT_NULL; DEFAULT "'900'"];
    Col "deadline_at" TIMESTAMPTZ [];
    Col "provider_calls_used" INTEGER [NOT_NULL; DEFAULT "'0'"];
    Col "render_calls_used" INTEGER [NOT_NULL; DEFAULT "'0'"];
    Col "repair_cycles_used" INTEGER [NOT_NULL; DEFAULT "'0'"];
    Col "actual_cost_usd" (NUMERIC 10 4) [NOT_NULL; DEFAULT "'0'"];
    Col "retry_count" INTEGER [NOT_NULL; DEFAULT "'0'"];
    Col "last_error" TEXT [];
    Col "correlation_id" UUID [NOT_NULL];
    Col "trace_id" TEXT [];
    Col "started_at" TIMESTAMPTZ [];
    Col "completed_at" TIMESTAMPTZ [];
    Col "test_data" BOOLEAN [NOT_NULL; DEFAULT "false"]] ++
   _actor_columns_0046)
   [("ck_production_job_bounds", Check
      "max_provider_calls >= 0 AND max_render_calls >= 0 AND max_cost_usd >= 0 AND max_total_cost_usd >= 0 AND max_attempts > 0 AND max_repair_cycles >= 0 AND timeout_seconds > 0")]] ++
  for_in [("ix_production_jobs_workspace_created", ["workspace_id"; "created_at"]);
    ("ix_production_jobs_workspace_status", ["workspace_id"; "status"]);
    ("ix_production_jobs_workspace_package", ["workspace_id"; "content_package_id"]);
    ("ix_production_jobs_workspace_version", ["workspace_id"; "content_version_id"]);
    ("ix_production_jobs_package", ["content_package_id"]); ("ix_production_jobs_item",
    ["content_item_id"]); ("ix_production_jobs_version", ["content_version_id"]);
    ("ix_production_jobs_pipeline", ["pipeline_run_id"]); ("ix_production_jobs_created_by",
    ["created_by"]); ("ix_production_jobs_updated_by", ["updated_by"])] (λ '(name, columns),
    [CREATE_INDEX false false name "production_jobs" columns None]).

Definition production_assets_0046 : list ddl :=
  [CREATE_TABLE false "production_assets"
   ([Col "id" UUID [PRIMARY_KEY];
    _workspace_0046;
    Col "production_job_id" UUID [REFERENCES "production_jobs" "id" RESTRICT; NOT_NULL];
    Col "asset_id" UUID [REFERENCES "assets" "id" RESTRICT; NOT_NULL];
    Col "content_item_id" UUID [REFERENCES "content_items" "id" CASCADE; NOT_NULL];
    Col "content_version_id" UUID [REFERENCES "content_versions" "id" RESTRICT; NOT_NULL];
    Col "asset_type" TEXT [NOT_NULL];
    Col "provider" TEXT [NOT_NULL; DEFAULT "'not_configured'"];
    Col "provider_job_id" TEXT [];
    Col "source_inputs" JSONB [NOT_NULL; DEFAULT "'{}'::jsonb"];
    Col "generation_settings" JSONB [NOT_NULL; DEFAULT "'{}'::jsonb"];
    Col "model_version" TEXT [];
    Col "file_hash" TEXT [];
    Col "duration_seconds" (NUMERIC 12 3) [];
    Col "dimensions" JSONB [NOT_NULL; DEFAULT "'{}'::jsonb"];
    Col "cost_usd" (NUMERIC 10 4) [NOT_NULL; DEFAULT "'0'"];
    Col "status" TEXT [NOT_NULL; DEFAULT "'not_configured'"];
    Col "test_data" BOOLEAN [NOT_NULL; DEFAULT "false"]] ++
   _created_by_columns_0046)
   [("uq_production_asset_asset", Unique ["workspace_id"; "asset_id"])]] ++
  for_in [("ix_production_assets_workspace_job", ["workspace_id"; "production_job_id"]);
    ("ix_production_assets_workspace_version", ["workspace_id"; "content_version_id"]);
    ("ix_production_assets_job", ["production_job_id"]); ("ix_production_assets_asset",
    ["asset_id"]); ("ix_production_assets_version", ["content_version_id"]);
    ("ix_production_assets_created_by", ["created_by"])] (λ '(name, columns),
    [CREATE_INDEX false false name "production_assets" columns None]).

Definition final_artifacts_0046 : list ddl :=
  [CREATE_TABLE false "final_artifacts"
   ([Col "id" UUID [PRIMARY_KEY];
    _workspace_0046;
    Col "production_job_id" UUID [REFERENCES "production_jobs" "id" RESTRICT; NOT_NULL];
    Col "content_item_id" UUID [REFERENCES "content_items" "id" CASCADE; NOT_NULL];
    Col "content_version_id" UUID [REFERENCES "content_versions" "id" RESTRICT; NOT_NULL];
    Col "render_asset_id" UUID [REFERENCES "assets" "id" SET_NULL];
    Col "render_provider" TEXT [NOT_NULL; DEFAULT "'not_configured'"];
    Col "render_job_id" TEXT [];
    Col "artifact_hash" TEXT [NOT_NULL];
    Col "storage_reference" JSONB [NOT_NULL; DEFAULT "'{}'::jsonb"];
    Col "duration_seconds" (NUMERIC 12 3) [];
    Col "resolution" JSONB [NOT_NULL; DEFAULT "'{}'::jsonb"];
    Col "aspect_ratio" TEXT [];
    Col "container" TEXT [];
    Col "codec" TEXT [];
    Col "cost_usd" (NUMERIC 10 4) [NOT_NULL; DEFAULT "'0'"];
    Col "status" TEXT [NOT_NULL; DEFAULT "'not_configured'"];
    Col "test_data" BOOLEAN [NOT_NULL; DEFAULT "false"]] ++
   _created_by_columns_0046)
   [("uq_final_artifact_hash", Unique ["workspace_id"; "artifact_hash"])]] ++
  for_in [("ix_final_artifacts_workspace_job", ["workspace_id"; "production_job_id"]);
    ("ix_final_artifacts_workspace_version", ["workspace_id"; "content_version_id"]);
    ("ix_final_artifacts_job", ["production_job_id"]); ("ix_final_artifacts_version",
    ["content_version_id"]); ("ix_final_artifacts_created_by", ["created_by"])] (λ '(name, columns),
    [CREATE_INDEX false false name "final_artifacts" columns None]).

Definition media_qa_results_0046 : list ddl :=
  [CREATE_TABLE false "media_qa_results"
   [Col "id" UUID [PRIMARY_KEY];
    _workspace_0046;
    Col "final_artifact_id" UUID [REFERENCES "final_artifacts" "id" CASCADE; NOT_NULL];
    Col "artifact_hash" TEXT [NOT_NULL];
    Col "auditor_worker_id" TEXT [NOT_NULL];
    Col "status" TEXT [NOT_NULL; DEFAULT "'not_configured'"];
    Col "checks_run" JSONB [NOT_NULL; DEFAULT "'[]'::jsonb"];
    Col "visual_findings" JSONB [NOT_NULL; DEFAULT "'[]'::jsonb"];
    Col "audio_findings" JSONB [NOT_NULL; DEFAULT "'[]'::jsonb"];
    Col "subtitle_findings" JSONB [NOT_NULL; DEFAULT "'[]'::jsonb"];
    Col "script_alignment" JSONB [NOT_NULL; DEFAULT "'{}'::jsonb"];
    Col "platform_check" JSONB [NOT_NULL; DEFAULT "'{}'::jsonb"];
    Col "package_alignment" JSONB [NOT_NULL; DEFAULT "'{}'::jsonb"];
    Col "evidence" JSONB [NOT_NULL; DEFAULT "'[]'::jsonb"];
    Col "recommended_repair" JSONB [NOT_NULL; DEFAULT "'[]'::jsonb"];
    Col "cost_usd" (NUMERIC 10 4) [NOT_NULL; DEFAULT "'0'"];
    Col "started_at" TIMESTAMPTZ [];
    Col "completed_at" TIMESTAMPTZ [];
    Col "test_data" BOOLEAN [NOT_NULL; DEFAULT "false"];
    Col "created_at" TIMESTAMPTZ [NOT_NULL; DEFAULT "now()"]]
   [("uq_media_qa_artifact_hash", Unique ["final_artifact_id"; "artifact_hash"])]] ++
  for_in [("ix_media_qa_workspace_artifact", ["workspace_id"; "final_artifact_id"]);
    ("ix_media_qa_workspace_status", ["workspace_id"; "status"]); ("ix_media_qa_artifact",
    ["final_artifact_id"])] (λ '(name, columns),
    [CREATE_INDEX false false name "media_qa_results" columns None]).

Definition production_repairs_0046 : list ddl :=
  [CREATE_TABLE false "production_repairs"
   ([Col "id" UUID [PRIMARY_KEY];
    _workspace_0046;
    Col "production_job_id" UUID [REFERENCES "production_jobs" "id" RESTRICT; NOT_NULL];
    Col "final_artifact_id" UUID [REFERENCES "final_artifacts" "id" SET_NULL];
    Col "media_qa_result_id" UUID [REFERENCES "media_qa_results" "id" SET_NULL];
    Col "affected_component" TEXT [NOT_NULL];
    Col "finding_snapshot" JSONB [NOT_NULL; DEFAULT "'{}'::jsonb"];
    Col "repair_operation" TEXT [NOT_NULL];
    Col "repair_cycle" INTEGER [NOT_NULL];
    Col "status" TEXT [NOT_NULL; DEFAULT "'blocked'"];
    Col "cost_usd" (NUMERIC 10 4) [NOT_NULL; DEFAULT "'0'"];
    Col "provider_calls_used" INTEGER [NOT_NULL; DEFAULT "'0'"];
    Col "result_references" JSONB [NOT_NULL; DEFAULT "'{}'::jsonb"];
    Col "test_data" BOOLEAN [NOT_NULL; DEFAULT "false"]] ++
   _created_by_columns_0046)
   []] ++
  for_in [("ix_production_repairs_workspace_job", ["workspace_id"; "production_job_id"]);
    ("ix_production_repairs_workspace_artifact", ["workspace_id"; "final_artifact_id"]);
    ("ix_production_repairs_job", ["production_job_id"]); ("ix_production_repairs_artifact",
    ["final_artifact_id"]); ("ix_production_repairs_qa", ["media_qa_result_id"]);
    ("ix_production_repairs_created_by", ["created_by"])] (λ '(name, columns),
    [CREATE_INDEX false false name "production_repairs" columns None]).

Definition artifact_invalidations_0046 : list ddl :=
  [CREATE_TABLE false "artifact_invalidations"
   ([Col "id" UUID [PRIMARY_KEY];
    _workspace_0046;
    Col "final_artifact_id" UUID [REFERENCES "final_artifacts" "id" CASCADE; NOT_NULL];
    Col "media_qa_result_id" UUID [REFERENCES "media_qa_results" "id" SET_NULL];
    Col "reason" TEXT [NOT_NULL];
    Col "affected_dimensions" JSONB [NOT_NULL; DEFAULT "'[]'::jsonb"]] ++
   _created_by_columns_0046)
   [("uq_artifact_invalidation_reason", Unique ["final_artifact_id"; "reason"])]] ++
  for_in [("ix_artifact_invalidations_workspace_artifact", ["workspace_id"; "final_artifact_id"]);
    ("ix_artifact_invalidations_qa", ["media_qa_result_id"]);
    ("ix_artifact_invalidations_created_by", ["created_by"])] (λ '(name, columns),
    [CREATE_INDEX false false name "artifact_invalidations" columns None]).

Definition production_readiness_0046 : list ddl :=
  [CREATE_TABLE false "production_readiness"
   ([Col "id" UUID [PRIMARY_KEY];
    _workspace_0046;
    Col "final_artifact_id" UUID [REFERENCES "final_artifacts" "id" CASCADE; NOT_NULL];
    Col "content_version_id" UUID [REFERENCES "content_versions" "id" RESTRICT; NOT_NULL];
    Col "media_qa_state" TEXT [NOT_NULL; DEFAULT "'not_run'"];
    Col "compliance_state" TEXT [NOT_NULL; DEFAULT "'not_run'"];
    Col "chief_audit_state" TEXT [NOT_NULL; DEFAULT "'not_run'"];
    Col "human_review_state" TEXT [NOT_NULL; DEFAULT "'blocked'"];
    Col "status" TEXT [NOT_NULL; DEFAULT "'blocked'"];
    Col "blocking_reasons" JSONB [NOT_NULL; DEFAULT "'[]'::jsonb"];
    Col "total_cost_usd" (NUMERIC 10 4) [NOT_NULL; DEFAULT "'0'"];
    Col "test_data" BOOLEAN [NOT_NULL; DEFAULT "false"]] ++
   _actor_columns_0046)
   [("uq_production_readiness_artifact", Unique ["workspace_id"; "final_artifact_id"])]] ++
  for_in [("ix_production_readiness_workspace_artifact", ["workspace_id"; "final_artifact_id"]);
    ("ix_production_readiness_workspace_status", ["workspace_id"; "status"]);
    ("ix_production_readiness_artifact", ["final_artifact_id"]);
    ("ix_production_readiness_created_by", ["created_by"]); ("ix_production_readiness_updated_by",
    ["updated_by"])] (λ '(name, columns),
    [CREATE_INDEX false false name "production_readiness" columns None]).

Definition upgrade_0046 : list ddl :=
  production_jobs_0046 ++
  production_assets_0046 ++
  final_artifacts_0046 ++
  media_qa_results_0046 ++
  production_repairs_0046 ++
  artifact_invalidations_0046 ++
  production_readiness_0046 ++
  for_in ["production_jobs"; "production_readiness"] (λ table,
    attach_version_trigger table ++
    enable_rls table ++
    grant_runtime table true true true ++
    policy_select_members table _ALL false "select_member" ++
    policy_insert_roles table _EDIT "insert_roles" ++
    policy_update_roles table _EDIT "update_roles") ++
  for_in ["production_assets"; "final_artifacts"; "media_qa_results"; "production_repairs";
    "artifact_invalidations"] (λ table,
    attach_immutable_trigger table ++
    attach_immutable_delete_trigger table ++
    enable_rls table ++
    grant_runtime table true false false ++
    policy_select_members table _ALL false "select_member" ++
    policy_insert_roles table _EDIT "insert_roles").

Definition downgrade_0046 : list ddl :=
  for_in ["artifact_invalidations"; "production_repairs"; "media_qa_results"; "final_artifacts";
    "production_assets"] (λ table,
    [DROP_POLICY (table +:+ "_select_member") table;
     DROP_POLICY (table +:+ "_insert_roles") table;
     ROW_SECURITY NO_FORCE table;
     ROW_SECURITY DISABLE table;
     DROP_TRIGGER ("trg_" +:+ table +:+ "_immutable") table;
     DROP_TRIGGER ("trg_" +:+ table +:+ "_immutable_delete") table]) ++
  for_in ["production_readiness"; "production_jobs"] (λ table,
    [DROP_POLICY (table +:+ "_select_member") table;
     DROP_POLICY (table +:+ "_insert_roles") table;
     DROP_POLICY (table +:+ "_update_roles") table;
     ROW_SECURITY NO_FORCE table;
     ROW_SECURITY DISABLE table;
     DROP_TRIGGER ("trg_" +:+ table +:+ "_version") table]) ++
  for_in ["production_readiness"; "artifact_invalidations"; "production_repairs"; "media_qa_results";
    "final_artifacts"; "production_assets"; "production_jobs"] (λ table,
    [DROP_TABLE MUST_EXIST table]).

Definition revision_0046 : revision :=
  mk_revision "0046" ["0045"] upgrade_0046 downgrade_0046.

(** ** 0047_production_fk_indexes.py *)

Definition upgrade_0047 : list ddl :=
  [CREATE_INDEX false false "ix_production_assets_item" "production_assets" ["content_item_id"]
     None;
   CREATE_INDEX false false "ix_final_artifacts_item" "final_artifacts" ["content_item_id"] None;
   CREATE_INDEX false false "ix_final_artifacts_render_asset" "final_artifacts" ["render_asset_id"]
     None;
   CREATE_INDEX false false "ix_production_readiness_version" "production_readiness"
     ["content_version_id"] None].

Definition downgrade_0047 : list ddl :=
  [DROP_INDEX MUST_EXIST "ix_production_readiness_version";
   DROP_INDEX MUST_EXIST "ix_final_artifacts_render_asset";
   DROP_INDEX MUST_EXIST "ix_final_artifacts_item";
   DROP_INDEX MUST_EXIST "ix_production_assets_item"].

Definition revision_0047 : revision :=
  mk_revision "0047" ["0046"] upgrade_0047 downgrade_0047.

(** ** 0048_compliance_chief_auditor_v1.py *)

Definition _workspace_0048 : column_def :=
  Col "workspace_id" UUID [REFERENCES "workspaces" "id" CASCADE; NOT_NULL].

Definition _created_0048 : list column_def :=
  [Col "created_at" TIMESTAMPTZ [NOT_NULL; DEFAULT "now()"];
   Col "created_by" UUID [REFERENCES "profiles" "id" NO_ACTION]].

Definition _actor_0048 : list column_def :=
  [Col "created_at" TIMESTAMPTZ [NOT_NULL; DEFAULT "now()"];
   Col "updated_at" TIMESTAMPTZ [NOT_NULL; DEFAULT "now()"];
   Col "created_by" UUID [REFERENCES "profiles" "id" NO_ACTION];
   Col "updated_by" UUID [REFERENCES "profiles" "id" NO_ACTION];
   Col "version" INTEGER [NOT_NULL; DEFAULT "'1'"]].

Definition _indexes_0048 (table : string) (pairs : list (string * list string)) : list ddl :=
  for_in pairs (λ '(name, columns), [CREATE_INDEX false false name table columns None]).

Definition platform_policy_sources_0048 : list ddl :=
  [CREATE_TABLE false "platform_policy_sources"
   ([Col "id" UUID [PRIMARY_KEY];
    _workspace_0048;
    Col "platform" TEXT [NOT_NULL];
    Col "policy_category" TEXT [NOT_NULL];
    Col "source" TEXT [NOT_NULL];
    Col "source_reference" TEXT [NOT_NULL];
    Col "effective_at" TIMESTAMPTZ [];
    Col "retrieved_at" TIMESTAMPTZ [];
    Col "last_verified_at" TIMESTAMPTZ [];
    Col "rule_version" TEXT [NOT_NULL];
    Col "status" TEXT [NOT_NULL; DEFAULT "'freshness_unverified'"];
    Col "test_data" BOOLEAN [NOT_NULL; DEFAULT "false"]] ++
   _created_0048)
   [("uq_policy_source_version", Unique ["workspace_id"; "platform"; "policy_category";
      "rule_version"])]] ++
  _indexes_0048 "platform_policy_sources" [("ix_policy_sources_workspace_platform",
    ["workspace_id"; "platform"]); ("ix_policy_sources_workspace_status", ["workspace_id";
    "status"]); ("ix_policy_sources_created_by", ["created_by"])].

Definition audit_gate_manifests_0048 : list ddl :=
  [CREATE_TABLE false "audit_gate_manifests"
   ([Col "id" UUID [PRIMARY_KEY];
    _workspace_0048;
    Col "content_type" TEXT [NOT_NULL];
    Col "manifest_version" INTEGER [NOT_NULL];
    Col "required_gates" JSONB [NOT_NULL; DEFAULT "'[]'::jsonb"];
    Col "requirements" JSONB [NOT_NULL; DEFAULT "'{}'::jsonb"];
    Col "is_active" BOOLEAN [NOT_NULL; DEFAULT "true"];
    Col "test_data" BOOLEAN [NOT_NULL; DEFAULT "false"]] ++
   _created_0048)
   [("uq_audit_gate_manifest_version", Unique ["workspace_id"; "content_type"; "manifest_version"])]] ++
  _indexes_0048 "audit_gate_manifests" [("ix_audit_gate_manifest_workspace_active",
    ["workspace_id"; "is_active"]); ("ix_audit_gate_manifest_created_by", ["created_by"])].

Definition artifact_rights_evidence_0048 : list ddl :=
  [CREATE_TABLE false "artifact_rights_evidence"
   ([Col "id" UUID [PRIMARY_KEY];
    _workspace_0048;
    Col "final_artifact_id" UUID [REFERENCES "final_artifacts" "id" CASCADE; NOT_NULL];
    Col "asset_id" UUID [REFERENCES "assets" "id" SET_NULL];
    Col "origin" TEXT [NOT_NULL];
    Col "provider_or_source" TEXT [];
    Col "license_or_right_basis" TEXT [];
    Col "generation_record" JSONB [NOT_NULL; DEFAULT "'{}'::jsonb"];
    Col "source_reference" TEXT [];
    Col "modification_lineage" JSONB [NOT_NULL; DEFAULT "'{}'::jsonb"];
    Col "rights_status" TEXT [NOT_NULL; DEFAULT "'unverified'"];
    Col "test_data" BOOLEAN [NOT_NULL; DEFAULT "false"]] ++
   _created_0048)
   []] ++
  _indexes_0048 "artifact_rights_evidence" [("ix_rights_workspace_artifact", ["workspace_id";
    "final_artifact_id"]); ("ix_rights_workspace_status", ["workspace_id"; "rights_status"]);
    ("ix_rights_artifact", ["final_artifact_id"]); ("ix_rights_asset", ["asset_id"]);
    ("ix_rights_created_by", ["created_by"])].

Definition compliance_audits_0048 : list ddl :=
  [CREATE_TABLE false "compliance_audits"
   [Col "id" UUID [PRIMARY_KEY];
    _workspace_0048;
    Col "final_artifact_id" UUID [REFERENCES "final_artifacts" "id" CASCADE; NOT_NULL];
    Col "artifact_hash" TEXT [NOT_NULL];
    Col "content_version_id" UUID [REFERENCES "content_versions" "id" RESTRICT; NOT_NULL];
    Col "target_platform" TEXT [NOT_NULL];
    Col "policy_source_id" UUID [REFERENCES "platform_policy_sources" "id" SET_NULL];
    Col "policy_version" TEXT [];
    Col "compliance_worker_id" TEXT [NOT_NULL];
    Col "input_snapshot" JSONB [NOT_NULL; DEFAULT "'{}'::jsonb"];
    Col "status" TEXT [NOT_NULL; DEFAULT "'not_run'"];
    Col "risk_level" TEXT [NOT_NULL; DEFAULT "'unknown'"];
    Col "findings" JSONB [NOT_NULL; DEFAULT "'[]'::jsonb"];
    Col "evidence" JSONB [NOT_NULL; DEFAULT "'[]'::jsonb"];
    Col "required_disclosures" JSONB [NOT_NULL; DEFAULT "'[]'::jsonb"];
    Col "rights_status" TEXT [NOT_NULL; DEFAULT "'unverified'"];
    Col "reused_content_risk" TEXT [NOT_NULL; DEFAULT "'unknown'"];
    Col "monetization_risk" TEXT [NOT_NULL; DEFAULT "'unknown'"];
    Col "recommended_action" TEXT [];
    Col "provider_state" TEXT [NOT_NULL; DEFAULT "'not_configured'"];
    Col "provider_calls_used" INTEGER [NOT_NULL; DEFAULT "'0'"];
    Col "verification_calls_used" INTEGER [NOT_NULL; DEFAULT "'0'"];
    Col "token_count" INTEGER [NOT_NULL; DEFAULT "'0'"];
    Col "cost_usd" (NUMERIC 10 4) [NOT_NULL; DEFAULT "'0'"];
    Col "retry_history" JSONB [NOT_NULL; DEFAULT "'[]'::jsonb"];
    Col "started_at" TIMESTAMPTZ [];
    Col "completed_at" TIMESTAMPTZ [];
    Col "test_data" BOOLEAN [NOT_NULL; DEFAULT "false"];
    Col "created_at" TIMESTAMPTZ [NOT_NULL; DEFAULT "now()"]]
   [("uq_compliance_audit_artifact_hash", Unique ["final_artifact_id"; "artifact_hash"])]] ++
  _indexes_0048 "compliance_audits" [("ix_compliance_audits_workspace_artifact", ["workspace_id";
    "final_artifact_id"]); ("ix_compliance_audits_workspace_status", ["workspace_id"; "status"]);
    ("ix_compliance_audits_artifact", ["final_artifact_id"]); ("ix_compliance_audits_version",
    ["content_version_id"]); ("ix_compliance_audits_policy", ["policy_source_id"])].

Definition compliance_invalidations_0048 : list ddl :=
  [CREATE_TABLE false "compliance_invalidations"
   ([Col "id" UUID [PRIMARY_KEY];
    _workspace_0048;
    Col "compliance_audit_id" UUID [REFERENCES "compliance_audits" "id" CASCADE; NOT_NULL];
    Col "final_artifact_id" UUID [REFERENCES "final_artifacts" "id" CASCADE; NOT_NULL];
    Col "reason" TEXT [NOT_NULL];
    Col "affected_dimensions" JSONB [NOT_NULL; DEFAULT "'[]'::jsonb"]] ++
   _created_0048)
   [("uq_compliance_invalidation_reason", Unique ["compliance_audit_id"; "reason"])]] ++
  _indexes_0048 "compliance_invalidations" [("ix_compliance_invalidations_workspace_artifact",
    ["workspace_id"; "final_artifact_id"]); ("ix_compliance_invalidations_audit",
    ["compliance_audit_id"]); ("ix_compliance_invalidations_artifact", ["final_artifact_id"]);
    ("ix_compliance_invalidations_created_by", ["created_by"])].

Definition chief_audits_0048 : list ddl :=
  [CREATE_TABLE false "chief_audits"
   [Col "id" UUID [PRIMARY_KEY];
    _workspace_0048;
    Col "final_artifact_id" UUID [REFERENCES "final_artifacts" "id" CASCADE; NOT_NULL];
    Col "artifact_hash" TEXT [NOT_NULL];
    Col "content_version_id" UUID [REFERENCES "content_versions" "id" RESTRICT; NOT_NULL];
    Col "gate_manifest_id" UUID [REFERENCES "audit_gate_manifests" "id" RESTRICT; NOT_NULL];
    Col "chief_auditor_worker_id" TEXT [NOT_NULL];
    Col "gate_snapshot" JSONB [NOT_NULL; DEFAULT "'{}'::jsonb"];
    Col "lineage_status" TEXT [NOT_NULL; DEFAULT "'incomplete'"];
    Col "version_integrity_status" TEXT [NOT_NULL; DEFAULT "'incomplete'"];
    Col "cost_reconciliation_status" TEXT [NOT_NULL; DEFAULT "'incomplete'"];
    Col "provider_reconciliation_status" TEXT [NOT_NULL; DEFAULT "'incomplete'"];
    Col "warnings" JSONB [NOT_NULL; DEFAULT "'[]'::jsonb"];
    Col "blockers" JSONB [NOT_NULL; DEFAULT "'[]'::jsonb"];
    Col "evidence" JSONB [NOT_NULL; DEFAULT "'[]'::jsonb"];
    Col "status" TEXT [NOT_NULL; DEFAULT "'blocked'"];
    Col "cost_usd" (NUMERIC 10 4) [NOT_NULL; DEFAULT "'0'"];
    Col "retry_history" JSONB [NOT_NULL; DEFAULT "'[]'::jsonb"];
    Col "started_at" TIMESTAMPTZ [];
    Col "completed_at" TIMESTAMPTZ [];
    Col "test_data" BOOLEAN [NOT_NULL; DEFAULT "false"];
    Col "created_at" TIMESTAMPTZ [NOT_NULL; DEFAULT "now()"]]
   [("uq_chief_audit_artifact_hash", Unique ["final_artifact_id"; "artifact_hash"])]] ++
  _indexes_0048 "chief_audits" [("ix_chief_audits_workspace_artifact", ["workspace_id";
    "final_artifact_id"]); ("ix_chief_audits_workspace_status", ["workspace_id"; "status"]);
    ("ix_chief_audits_artifact", ["final_artifact_id"]); ("ix_chief_audits_version",
    ["content_version_id"]); ("ix_chief_audits_manifest", ["gate_manifest_id"])].

Definition chief_audit_invalidations_0048 : list ddl :=
  [CREATE_TABLE false "chief_audit_invalidations"
   ([Col "id" UUID [PRIMARY_KEY];
    _workspace_0048;
    Col "chief_audit_id" UUID [REFERENCES "chief_audits" "id" CASCADE; NOT_NULL];
    Col "final_artifact_id" UUID [REFERENCES "final_artifacts" "id" CASCADE; NOT_NULL];
    Col "reason" TEXT [NOT_NULL];
    Col "affected_dimensions" JSONB [NOT_NULL; DEFAULT "'[]'::jsonb"]] ++
   _created_0048)
   [("uq_chief_audit_invalidation_reason", Unique ["chief_audit_id"; "reason"])]] ++
  _indexes_0048 "chief_audit_invalidations" [("ix_chief_audit_invalidations_workspace_artifact",
    ["workspace_id"; "final_artifact_id"]); ("ix_chief_audit_invalidations_chief",
    ["chief_audit_id"]); ("ix_chief_audit_invalidations_artifact", ["final_artifact_id"]);
    ("ix_chief_audit_invalidations_created_by", ["created_by"])].

Definition human_review_packages_0048 : list ddl :=
  [CREATE_TABLE false "human_review_packages"
   ([Col "id" UUID [PRIMARY_KEY];
    _workspace_0048;
    Col "final_artifact_id" UUID [REFERENCES "final_artifacts" "id" CASCADE; NOT_NULL];
    Col "artifact_hash" TEXT [NOT_NULL];
    Col "content_version_id" UUID [REFERENCES "content_versions" "id" RESTRICT; NOT_NULL];
    Col "chief_audit_id" UUID [REFERENCES "chief_audits" "id" RESTRICT; NOT_NULL];
    Col "review_gate_id" UUID [REFERENCES "review_gates" "id" SET_NULL];
    Col "target_platform" TEXT [NOT_NULL];
    Col "package_snapshot" JSONB [NOT_NULL; DEFAULT "'{}'::jsonb"];
    Col "warnings" JSONB [NOT_NULL; DEFAULT "'[]'::jsonb"];
    Col "required_disclosures" JSONB [NOT_NULL; DEFAULT "'[]'::jsonb"];
    Col "total_cost_usd" (NUMERIC 10 4) [NOT_NULL; DEFAULT "'0'"];
    Col "test_data" BOOLEAN [NOT_NULL; DEFAULT "false"]] ++
   _created_0048)
   [("uq_human_review_package_artifact_hash", Unique ["final_artifact_id"; "artifact_hash"])]] ++
  _indexes_0048 "human_review_packages" [("ix_human_review_packages_workspace_artifact",
    ["workspace_id"; "final_artifact_id"]); ("ix_human_review_packages_workspace_gate",
    ["workspace_id"; "review_gate_id"]); ("ix_human_review_packages_artifact",
    ["final_artifact_id"]); ("ix_human_review_packages_chief", ["chief_audit_id"]);
    ("ix_human_review_packages_gate", ["review_gate_id"]); ("ix_human_review_packages_created_by",
    ["created_by"])].

Definition artifact_publication_eligibility_0048 : list ddl :=
  [CREATE_TABLE false "artifact_publication_eligibility"
   ([Col "id" UUID [PRIMARY_KEY];
    _workspace_0048;
    Col "final_artifact_id" UUID [REFERENCES "final_artifacts" "id" CASCADE; NOT_NULL];
    Col "artifact_hash" TEXT [NOT_NULL];
    Col "content_version_id" UUID [REFERENCES "content_versions" "id" RESTRICT; NOT_NULL];
    Col "target_platform" TEXT [NOT_NULL];
    Col "chief_audit_id" UUID [REFERENCES "chief_audits" "id" SET_NULL];
    Col "review_gate_id" UUID [REFERENCES "review_gates" "id" SET_NULL];
    Col "review_decision_id" UUID [REFERENCES "review_decisions" "id" SET_NULL];
    Col "status" TEXT [NOT_NULL; DEFAULT "'blocked'"];
    Col "blocking_reasons" JSONB [NOT_NULL; DEFAULT "'[]'::jsonb"];
    Col "publication_eligible" BOOLEAN [NOT_NULL; DEFAULT "false"];
    Col "test_data" BOOLEAN [NOT_NULL; DEFAULT "false"]] ++
   _actor_0048)
   [("uq_artifact_publication_eligibility", Unique ["workspace_id"; "final_artifact_id";
      "target_platform"])]] ++
  _indexes_0048 "artifact_publication_eligibility"
    [("ix_artifact_publication_eligibility_workspace_artifact", ["workspace_id";
    "final_artifact_id"]); ("ix_artifact_publication_eligibility_workspace_status",
    ["workspace_id"; "status"]); ("ix_artifact_publication_eligibility_artifact",
    ["final_artifact_id"]); ("ix_artifact_publication_eligibility_chief", ["chief_audit_id"]);
    ("ix_artifact_publication_eligibility_gate", ["review_gate_id"]);
    ("ix_artifact_publication_eligibility_created_by", ["created_by"]);
    ("ix_artifact_publication_eligibility_updated_by", ["updated_by"])].

Definition upgrade_0048 : list ddl :=
  platform_policy_sources_0048 ++
  audit_gate_manifests_0048 ++
  artifact_rights_evidence_0048 ++
  compliance_audits_0048 ++
  compliance_invalidations_0048 ++
  chief_audits_0048 ++
  chief_audit_invalidations_0048 ++
  human_review_packages_0048 ++
  artifact_publication_eligibility_0048 ++
  for_in ["platform_policy_sources"; "artifact_rights_evidence"; "audit_gate_manifests";
    "compliance_audits"; "compliance_invalidations"; "chief_audits"; "chief_audit_invalidations";
    "human_review_packages"] (λ table,
    attach_immutable_trigger table ++
    attach_immutable_delete_trigger table ++
    enable_rls table ++
    grant_runtime table true false false ++
    policy_select_members table _ALL false "select_member" ++
    policy_insert_roles table _EDIT "insert_roles") ++
  attach_version_trigger "artifact_publication_eligibility" ++
  enable_rls "artifact_publication_eligibility" ++
  grant_runtime "artifact_publication_eligibility" true true true ++
  policy_select_members "artifact_publication_eligibility" _ALL false "select_member" ++
  policy_insert_roles "artifact_publication_eligibility" _EDIT "insert_roles" ++
  policy_update_roles "artifact_publication_eligibility" _EDIT "update_roles".

Definition downgrade_0048 : list ddl :=
  for_in ["human_review_packages"; "chief_audit_invalidations"; "chief_audits";
    "compliance_invalidations"; "compliance_audits"; "artifact_rights_evidence";
    "audit_gate_manifests"; "platform_policy_sources"] (λ table,
    [DROP_POLICY (table +:+ "_select_member") table;
     DROP_POLICY (table +:+ "_insert_roles") table;
     ROW_SECURITY NO_FORCE table;
     ROW_SECURITY DISABLE table;
     DROP_TRIGGER ("trg_" +:+ table +:+ "_immutable") table;
     DROP_TRIGGER ("trg_" +:+ table +:+ "_immutable_delete") table]) ++
  [DROP_POLICY "artifact_publication_eligibility_select_member" "artifact_publication_eligibility";
   DROP_POLICY "artifact_publication_eligibility_insert_roles" "artifact_publication_eligibility";
   DROP_POLICY "artifact_publication_eligibility_update_roles" "artifact_publication_eligibility";
   ROW_SECURITY NO_FORCE "artifact_publication_eligibility";
   ROW_SECURITY DISABLE "artifact_publication_eligibility";
   DROP_TRIGGER "trg_artifact_publication_eligibility_version" "artifact_publication_eligibility"] ++
  for_in ["artifact_publication_eligibility"; "human_review_packages"; "chief_audit_invalidations";
    "chief_audits"; "compliance_invalidations"; "compliance_audits"; "artifact_rights_evidence";
    "audit_gate_manifests"; "platform_policy_sources"] (λ table,
    [DROP_TABLE MUST_EXIST table]).

Definition revision_0048 : revision :=
  mk_revision "0048" ["0047"] upgrade_0048 downgrade_0048.

(** ** 0049_compliance_audit_reruns.py *)

Definition _AUDIT_TABLES_0049 : list string :=
  ["compliance_audits";
   "chief_audits"].

Definition upgrade_0049 : list ddl :=
  [DROP_CONSTRAINTS MUST_EXIST "compliance_audits" ["uq_compliance_audit_artifact_hash"];
   DROP_CONSTRAINTS MUST_EXIST "chief_audits" ["uq_chief_audit_artifact_hash"]].

Definition _rerun_mapping_sql_0049 (table_name : string) : string :=
  ("WITH ranked AS ( SELECT id, first_value(id) OVER ( PARTITION BY final_artifact_id, artifact_hash ORDER BY created_at ASC, id ASC ) AS canonical_id, row_number() OVER ( PARTITION BY final_artifact_id, artifact_hash ORDER BY created_at ASC, id ASC ) AS row_number FROM "
    +:+ table_name +:+ " ) SELECT id, canonical_id FROM ranked WHERE row_number > 1").

Definition _drop_immutable_triggers_0049 : list ddl :=
  for_in _AUDIT_TABLES_0049 (λ table_name,
    [DROP_TRIGGER ("trg_" +:+ table_name +:+ "_immutable") table_name;
     DROP_TRIGGER ("trg_" +:+ table_name +:+ "_immutable_delete") table_name]).

Definition _restore_immutable_triggers_0049 : list ddl :=
  for_in _AUDIT_TABLES_0049 (λ table_name,
    [CREATE_TRIGGER ("trg_" +:+ table_name +:+ "_immutable") table_name (mk_trigger BEFORE UPDATE
       "prevent_update");
     CREATE_TRIGGER ("trg_" +:+ table_name +:+ "_immutable_delete") table_name (mk_trigger BEFORE
       DELETE "prevent_delete")]).

Definition downgrade_0049 : list ddl :=
  _drop_immutable_triggers_0049 ++
  [DML "compliance_invalidations" ("WITH reruns AS (" +:+ _rerun_mapping_sql_0049
     "compliance_audits" +:+
     ") UPDATE compliance_invalidations AS invalidation SET compliance_audit_id = reruns.canonical_id FROM reruns WHERE invalidation.compliance_audit_id = reruns.id");
   DML "compliance_audits" ("WITH reruns AS (" +:+ _rerun_mapping_sql_0049 "compliance_audits" +:+
     ") DELETE FROM compliance_audits AS audit USING reruns WHERE audit.id = reruns.id");
   DML "chief_audit_invalidations" ("WITH reruns AS (" +:+ _rerun_mapping_sql_0049 "chief_audits"
     +:+
     ") UPDATE chief_audit_invalidations AS invalidation SET chief_audit_id = reruns.canonical_id FROM reruns WHERE invalidation.chief_audit_id = reruns.id");
   DML "human_review_packages" ("WITH reruns AS (" +:+ _rerun_mapping_sql_0049 "chief_audits" +:+
     ") UPDATE human_review_packages AS package SET chief_audit_id = reruns.canonical_id FROM reruns WHERE package.chief_audit_id = reruns.id");
   DML "artifact_publication_eligibility" ("WITH reruns AS (" +:+ _rerun_mapping_sql_0049
     "chief_audits" +:+
     ") UPDATE artifact_publication_eligibility AS eligibility SET chief_audit_id = reruns.canonical_id FROM reruns WHERE eligibility.chief_audit_id = reruns.id");
   DML "chief_audits" ("WITH reruns AS (" +:+ _rerun_mapping_sql_0049 "chief_audits" +:+
     ") DELETE FROM chief_audits AS audit USING reruns WHERE audit.id = reruns.id");
   ADD_CONSTRAINTS "compliance_audits" [("uq_compliance_audit_artifact_hash", Unique
     ["final_artifact_id"; "artifact_hash"])];
   ADD_CONSTRAINTS "chief_audits" [("uq_chief_audit_artifact_hash", Unique ["final_artifact_id";
     "artifact_hash"])]] ++
  _restore_immutable_triggers_0049.

Definition revision_0049 : revision :=
  mk_revision "0049" ["0048"] upgrade_0049 downgrade_0049.

(** ** 0050_compliance_fk_indexes.py *)

Definition _INDEXES_0050 : list (string * string * list string) :=
  [("ix_human_review_packages_version", "human_review_packages", ["content_version_id"]);
   ("ix_artifact_publication_eligibility_version", "artifact_publication_eligibility", ["content_version_id"]);
   ("ix_artifact_publication_eligibility_decision", "artifact_publication_eligibility", ["review_decision_id"])].

Definition upgrade_0050 : list ddl :=
  for_in _INDEXES_0050 (λ '(name, table, columns),
    [CREATE_INDEX false false name table columns None]).

Definition downgrade_0050 : list ddl :=
  for_in (rev _INDEXES_0050) (λ '(name, table, _),
    [DROP_INDEX MUST_EXIST name]).

Definition revision_0050 : revision :=
  mk_revision "0050" ["0049"] upgrade_0050 downgrade_0050.

(** ** 0051_profiles_workspace_scoped_select.py *)

Definition upgrade_0051 : list ddl :=
  [DROP_POLICY "profiles_select_authenticated" "profiles";
   CREATE_POLICY "profiles_select_self_or_shared_workspace" "profiles" (mk_policy (Some SELECT)
     (Some (SEq (Name "id") CurrentUserId OR SExists [("workspace_memberships", "caller_m");
     ("workspace_memberships", "target_m")] (SEq (Qual "target_m" "workspace_id") (Qual "caller_m"
     "workspace_id") AND SEq (Qual "caller_m" "user_id") CurrentUserId AND SEq (Qual "target_m"
     "user_id") (Qual "profiles" "id")))) None)].

Definition downgrade_0051 : list ddl :=
  [DROP_POLICY "profiles_select_self_or_shared_workspace" "profiles";
   CREATE_POLICY "profiles_select_authenticated" "profiles" (mk_policy (Some SELECT) (Some
     (SNotNull CurrentUserId)) None)].

Definition revision_0051 : revision :=
  mk_revision "0051" ["0050"] upgrade_0051 downgrade_0051.

(** ** 0052_orchestration_runtime_write_policies.py *)

Definition upgrade_0052 : list ddl :=
  [GRANT [UPDATE] "workflow_definitions" "app_runtime";
   GRANT [INSERT] "dead_letter_jobs" "app_runtime";
   GRANT [INSERT] "event_consumers" "app_runtime"] ++
  policy_insert_roles "pipeline_runs" _EDIT "insert_roles" ++
  policy_update_roles "pipeline_runs" _ALL "update_roles" ++
  policy_insert_roles "spend_reservations" _EDIT "insert_roles" ++
  policy_update_roles "spend_reservations" _ALL "update_roles" ++
  policy_insert_roles "spend_logs" _EDIT "insert_roles" ++
  policy_insert_roles "job_schedule" _ALL "insert_roles" ++
  policy_update_roles "job_schedule" _EDIT "update_roles" ++
  [DROP_POLICY "review_gates_insert_roles" "review_gates"] ++
  policy_insert_roles "review_gates" _ALL "insert_roles" ++
  policy_update_roles "review_gates" _ADMIN_REVIEWER "update_roles" ++
  [DROP_POLICY "outbox_events_insert_roles" "outbox_events"] ++
  policy_insert_roles "outbox_events" _ALL "insert_roles" ++
  policy_update_roles "outbox_events" _ALL "update_roles" ++
  [DROP_POLICY "workflow_definitions_insert_roles" "workflow_definitions"] ++
  policy_insert_roles "workflow_definitions" _EDIT "insert_roles" ++
  policy_update_roles "workflow_definitions" _EDIT "update_roles" ++
  [DROP_POLICY "workflow_stages_insert_roles" "workflow_stages"] ++
  policy_insert_roles "workflow_stages" _EDIT "insert_roles" ++
  [DROP_POLICY "workflow_transitions_insert_roles" "workflow_transitions"] ++
  policy_insert_roles "workflow_transitions" _EDIT "insert_roles" ++
  policy_insert_roles "dead_letter_jobs" _ADMIN_REVIEWER "insert_roles" ++
  [DROP_POLICY "spend_caps_update_roles" "spend_caps"] ++
  policy_update_roles "spend_caps" _EDIT "update_roles".

Definition downgrade_0052 : list ddl :=
  [DROP_POLICY "spend_caps_update_roles" "spend_caps"] ++
  policy_update_roles "spend_caps" ["admin"] "update_roles" ++
  [DROP_POLICY "dead_letter_jobs_insert_roles" "dead_letter_jobs";
   DROP_POLICY "workflow_transitions_insert_roles" "workflow_transitions"] ++
  policy_insert_roles "workflow_transitions" ["admin"] "insert_roles" ++
  [DROP_POLICY "workflow_stages_insert_roles" "workflow_stages"] ++
  policy_insert_roles "workflow_stages" ["admin"] "insert_roles" ++
  [DROP_POLICY "workflow_definitions_update_roles" "workflow_definitions";
   DROP_POLICY "workflow_definitions_insert_roles" "workflow_definitions"] ++
  policy_insert_roles "workflow_definitions" ["admin"] "insert_roles" ++
  [DROP_POLICY "outbox_events_update_roles" "outbox_events";
   DROP_POLICY "outbox_events_insert_roles" "outbox_events"] ++
  policy_insert_roles "outbox_events" _EDIT "insert_roles" ++
  [DROP_POLICY "review_gates_update_roles" "review_gates";
   DROP_POLICY "review_gates_insert_roles" "review_gates"] ++
  policy_insert_roles "review_gates" _ADMIN_REVIEWER "insert_roles" ++
  [DROP_POLICY "job_schedule_update_roles" "job_schedule";
   DROP_POLICY "job_schedule_insert_roles" "job_schedule";
   DROP_POLICY "spend_logs_insert_roles" "spend_logs";
   DROP_POLICY "spend_reservations_update_roles" "spend_reservations";
   DROP_POLICY "spend_reservations_insert_roles" "spend_reservations";
   DROP_POLICY "pipeline_runs_update_roles" "pipeline_runs";
   DROP_POLICY "pipeline_runs_insert_roles" "pipeline_runs";
   REVOKE [INSERT] "event_consumers" "app_runtime";
   REVOKE [INSERT] "dead_letter_jobs" "app_runtime";
   REVOKE [UPDATE] "workflow_definitions" "app_runtime"].

Definition revision_0052 : revision :=
  mk_revision "0052" ["0051"] upgrade_0052 downgrade_0052.

(** ** 0053_job_schedule_delete_policy.py *)

Definition upgrade_0053 : list ddl :=
  [CREATE_POLICY "job_schedule_delete_roles" "job_schedule" (mk_policy (Some DELETE) (Some (SCall
     "app_user_has_workspace_role" [Name "workspace_id"; (Roles ["admin"])])) None)].

Definition downgrade_0053 : list ddl :=
  [DROP_POLICY "job_schedule_delete_roles" "job_schedule"].

Definition revision_0053 : revision :=
  mk_revision "0053" ["0052"] upgrade_0053 downgrade_0053.

(** ** 0054_operations_dashboard_admin_rls.py *)

Definition upgrade_0054 : list ddl :=
  [GRANT [SELECT] "billing_webhook_events" "app_runtime"] ++
  policy_select_members "billing_webhook_events" _ADMIN false "select_member" ++
  [GRANT [UPDATE] "dead_letter_jobs" "app_runtime"] ++
  policy_update_roles "dead_letter_jobs" _ADMIN "update_roles" ++
  policy_update_roles "stage_assignments" _ADMIN "update_roles" ++
  [GRANT [INSERT] "stage_recovery_audit" "app_runtime";
   CREATE_POLICY "stage_recovery_audit_insert_roles" "stage_recovery_audit" (mk_policy (Some
     INSERT) None (Some (SCall "app_user_has_workspace_role" [Name "workspace_id"; (Roles
     ["admin"])] AND SExists [("stage_assignments", "sa")] (SEq (Qual "sa" "id") (Name
     "assignment_id") AND SEq (Qual "sa" "workspace_id") (Qual "stage_recovery_audit"
     "workspace_id")))));
   CREATE_POLICY "worker_registry_update_admin" "worker_registry" (mk_policy (Some UPDATE) (Some
     (SNotNull (Name "workspace_id") AND SCall "app_user_has_workspace_role" [Name "workspace_id";
     (Roles ["admin"])])) None);
   GRANT_COLUMNS SELECT ["id"; "worker_id"; "workspace_id"; "status"; "created_at"; "rotated_at";
     "expires_at"] "worker_credentials" "app_runtime";
   GRANT_COLUMNS UPDATE ["status"] "worker_credentials" "app_runtime";
   CREATE_POLICY "worker_credentials_admin_select" "worker_credentials" (mk_policy (Some SELECT)
     (Some (SCall "app_user_has_workspace_role" [Name "workspace_id"; (Roles ["admin"])])) None);
   CREATE_POLICY "worker_credentials_admin_update" "worker_credentials" (mk_policy (Some UPDATE)
     (Some (SCall "app_user_has_workspace_role" [Name "workspace_id"; (Roles ["admin"])])) None)].

Definition downgrade_0054 : list ddl :=
  [DROP_POLICY "worker_credentials_admin_update" "worker_credentials";
   DROP_POLICY "worker_credentials_admin_select" "worker_credentials";
   REVOKE [SELECT; UPDATE] "worker_credentials" "app_runtime";
   DROP_POLICY "worker_registry_update_admin" "worker_registry";
   DROP_POLICY "stage_recovery_audit_insert_roles" "stage_recovery_audit";
   REVOKE [INSERT] "stage_recovery_audit" "app_runtime";
   DROP_POLICY "stage_assignments_update_roles" "stage_assignments";
   DROP_POLICY "dead_letter_jobs_update_roles" "dead_letter_jobs";
   REVOKE [UPDATE] "dead_letter_jobs" "app_runtime";
   DROP_POLICY "billing_webhook_events_select_member" "billing_webhook_events";
   REVOKE [SELECT] "billing_webhook_events" "app_runtime"].

Definition revision_0054 : revision :=
  mk_revision "0054" ["0053"] upgrade_0054 downgrade_0054.

(** ** 0055_workspace_content_profile.py *)

Definition upgrade_0055 : list ddl :=
  [CREATE_TABLE false "workspace_content_profiles"
   [Col "id" UUID [PRIMARY_KEY; DEFAULT "gen_random_uuid()"];
    Col "workspace_id" UUID [NOT_NULL; REFERENCES "workspaces" "id" CASCADE];
    Col "business_name" TEXT [];
    Col "offer" TEXT [];
    Col "target_audience" TEXT [];
    Col "brand_voice" TEXT [];
    Col "target_platform" TEXT [];
    Col "content_goal" TEXT [];
    Col "created_at" TIMESTAMPTZ [NOT_NULL; DEFAULT "now()"];
    Col "updated_at" TIMESTAMPTZ [NOT_NULL; DEFAULT "now()"];
    Col "created_by" UUID [REFERENCES "profiles" "id" NO_ACTION];
    Col "updated_by" UUID [REFERENCES "profiles" "id" NO_ACTION];
    Col "version" INTEGER [NOT_NULL; DEFAULT "1"]]
   [];
   CREATE_INDEX false true "uq_workspace_content_profiles_workspace" "workspace_content_profiles"
     ["workspace_id"] None;
   CREATE_INDEX false false "ix_workspace_content_profiles_created_by" "workspace_content_profiles"
     ["created_by"] None;
   CREATE_INDEX false false "ix_workspace_content_profiles_updated_by" "workspace_content_profiles"
     ["updated_by"] None] ++
  attach_version_trigger "workspace_content_profiles" ++
  enable_rls "workspace_content_profiles" ++
  grant_runtime "workspace_content_profiles" true true true ++
  policy_select_members "workspace_content_profiles" _ALL false "select_member" ++
  policy_insert_roles "workspace_content_profiles" _EDIT "insert_roles" ++
  policy_update_roles "workspace_content_profiles" _EDIT "update_roles".

Definition downgrade_0055 : list ddl :=
  [DROP_TABLE IF_EXISTS "workspace_content_profiles"].

Definition revision_0055 : revision :=
  mk_revision "0055" ["0054"] upgrade_0055 downgrade_0055.

(** ** 0056_review_gates_editor_update.py *)

Definition upgrade_0056 : list ddl :=
  [DROP_POLICY "review_gates_update_roles" "review_gates"] ++
  policy_update_roles "review_gates" _ALL "update_roles".

Definition downgrade_0056 : list ddl :=
  [DROP_POLICY "review_gates_update_roles" "review_gates"] ++
  policy_update_roles "review_gates" _ADMIN_REVIEWER "update_roles".

Definition revision_0056 : revision :=
  mk_revision "0056" ["0055"] upgrade_0056 downgrade_0056.

(** ** 0057_automation_runtime_ownership.py *)

Definition upgrade_0057 : list ddl :=
  [CREATE_TABLE false "automation_leases"
   [Col "loop_name" TEXT [PRIMARY_KEY; CHECK
      "loop_name IN ('maintenance', 'outbox_relay', 'scheduler')"];
    Col "owner_id" TEXT [];
    Col "owner_started_at" TIMESTAMPTZ [];
    Col "lease_expires_at" TIMESTAMPTZ [];
    Col "last_heartbeat_at" TIMESTAMPTZ [];
    Col "last_ok_at" TIMESTAMPTZ [];
    Col "last_error" TEXT [];
    Col "version" INTEGER [NOT_NULL; DEFAULT "1"];
    Col "tick_count" INTEGER [NOT_NULL; DEFAULT "0"];
    Col "work_count" INTEGER [NOT_NULL; DEFAULT "0"];
    Col "created_at" TIMESTAMPTZ [NOT_NULL; DEFAULT "now()"];
    Col "updated_at" TIMESTAMPTZ [NOT_NULL; DEFAULT "now()"]]
   [];
   DML "automation_leases"
     "INSERT INTO automation_leases (loop_name) VALUES ('maintenance'), ('outbox_relay'), ('scheduler')";
   CREATE_TRIGGER "automation_leases_set_version" "automation_leases" (mk_trigger BEFORE UPDATE
     "set_version_and_updated_at")].

Definition downgrade_0057 : list ddl :=
  [DROP_TRIGGER "automation_leases_set_version" "automation_leases";
   DROP_TABLE IF_EXISTS "automation_leases"].

Definition revision_0057 : revision :=
  mk_revision "0057" ["0056"] upgrade_0057 downgrade_0057.

(** ** 0058_request_rate_limits.py *)

Definition upgrade_0058 : list ddl :=
  [CREATE_TABLE false "request_rate_limits"
   [Col "bucket_key" TEXT [PRIMARY_KEY];
    Col "window_started_at" TIMESTAMPTZ [NOT_NULL];
    Col "expires_at" TIMESTAMPTZ [NOT_NULL];
    Col "count" INTEGER [NOT_NULL; CHECK "count >= 1"];
    Col "updated_at" TIMESTAMPTZ [NOT_NULL]]
   [];
   CREATE_INDEX false false "ix_request_rate_limits_expires_at" "request_rate_limits"
     ["expires_at"] None;
   GRANT [SELECT; INSERT; UPDATE; DELETE] "request_rate_limits" "app_runtime"].

Definition downgrade_0058 : list ddl :=
  [REVOKE [SELECT; INSERT; UPDATE; DELETE] "request_rate_limits" "app_runtime";
   DROP_TABLE IF_EXISTS "request_rate_limits"].

Definition revision_0058 : revision :=
  mk_revision "0058" ["0057"] upgrade_0058 downgrade_0058.

(** ** 0059_leon_voice_spend.py *)

Definition upgrade_0059 : list ddl :=
  [DML "profiles"
     "INSERT INTO profiles (id, email, full_name) VALUES ( '00000000-0000-4000-8000-000000000001', 'leon-voice-system@internal.invalid', 'Leon Voice (system)' ) ON CONFLICT (id) DO NOTHING";
   DML "workspaces"
     "INSERT INTO workspaces (id, name, created_by) VALUES ( '00000000-0000-4000-8000-000000000002', 'Leon Voice (system)', '00000000-0000-4000-8000-000000000001' ) ON CONFLICT (id) DO NOTHING";
   DML "spend_caps"
     "INSERT INTO spend_caps (id, workspace_id, provider, daily_cap_usd, monthly_cap_usd, created_by, updated_by) SELECT gen_random_uuid(), '00000000-0000-4000-8000-000000000002', NULL, 2.0, 20.0, '00000000-0000-4000-8000-000000000001', '00000000-0000-4000-8000-000000000001' WHERE NOT EXISTS ( SELECT 1 FROM spend_caps WHERE workspace_id = '00000000-0000-4000-8000-000000000002' AND provider IS NULL )"].

Definition downgrade_0059 : list ddl :=
  [DML "spend_caps"
     "DELETE FROM spend_caps WHERE workspace_id = '00000000-0000-4000-8000-000000000002'";
   DML "workspaces" "DELETE FROM workspaces WHERE id = '00000000-0000-4000-8000-000000000002'";
   DML "profiles" "DELETE FROM profiles WHERE id = '00000000-0000-4000-8000-000000000001'"].

Definition revision_0059 : revision :=
  mk_revision "0059" ["0058"] upgrade_0059 downgrade_0059.
