(* ===== verification/RowSecurity.v ===== *)
(** * The history of the database and its row-level security

    The revisions of alembic/versions/ in the order [alembic upgrade head]
    runs them (the three revisions on top of 0030 touch different tables;
    0032 merges them), the catalogs on the way, and the one the application
    runs on; then what the policies and triggers of a catalog let a statement
    of a request read and write. *)

From S2P Require Import Prelude Schema MigrationHelpers Migrations1 Migrations2 Migrations3 Migrations4.

Definition history : list revision :=
  [revision_0001; revision_0002; revision_0003; revision_0004;
   revision_0005; revision_0006; revision_0007; revision_0008;
   revision_0009; revision_0010; revision_0011; revision_0012;
   revision_0013; revision_0014; revision_0015; revision_0016;
   revision_0017; revision_0018; revision_0019; revision_0020;
   revision_0021; revision_0022; revision_0023; revision_0024;
   revision_0025; revision_0026; revision_0027; revision_0028;
   revision_0029; revision_0030; revision_0031_fk; revision_0031_spend_precision;
   revision_0031; revision_0032; revision_0033; revision_0034;
   revision_0035; revision_0036; revision_0037; revision_0038;
   revision_0039; revision_0040; revision_0041; revision_0042;
   revision_0043; revision_0044; revision_0045; revision_0046;
   revision_0047; revision_0048; revision_0049; revision_0050;
   revision_0051; revision_0052; revision_0053; revision_0054;
   revision_0055; revision_0056; revision_0057; revision_0058;
   revision_0059].

(** upgrading through some revisions; the error names the revision *)
Fixpoint upgrade_all (l : list revision) (s : catalog) : result (string * ddl_error) catalog :=
  match l with
  | [] => Ok s
  | r :: l =>
      match exec_all (rev_upgrade r) s with
      | Ok s => upgrade_all l s
      | Raise e => Raise (rev_id r, e)
      end
  end.

(** the catalog after the first [n] revisions; all are accepted (theorem
    [history_well_typed] of SchemaSpec.v), so that the last case is not used *)
Definition catalog_at (n : nat) : catalog :=
match upgrade_all (take n history) empty_catalog with Ok s => s | Raise _ => empty_catalog end.

(** the database the application runs on *)
Definition head : catalog := catalog_at (length history).

(** * Row-level security

    What a request may read and write, as the database decides it from the
    grants, the policies, the functions they call and the triggers of a
    catalog.  A request runs as [app_runtime] with the user the token named
    in [request.jwt.claim.sub]; a [SECURITY DEFINER] function runs as the
    owner of the tables, whom no policy restricts. *)

(** ** Rows *)

Inductive value : Type :=
| VNull
| VUuid (u : id)
| VText (s : string)
| VInt (z : Z)
| VTime (t : Z)
| VRoles (l : list string).
#[export] Instance value_eq_dec : EqDecision value.
Proof. solve_decision. Defined.

Abbreviation row := (gmap string value) (only parsing).

(** the rows of every table *)
Definition database : Type := string → list row.

(** the rows an expression may name, by alias; the innermost comes first *)
Definition env : Type := list (string * row).

Definition lookup_name (e : env) (c : string) : value :=
match list_find (λ p, is_Some (p.2 !! c)) e with
| Some (_, p) => default VNull (p.2 !! c)
| None => VNull
end.
Definition lookup_qual (e : env) (a c : string) : value :=
match list_find (λ p, p.1 = a) e with
| Some (_, p) => default VNull (p.2 !! c)
| None => VNull
end.

(** ** Three-valued logic; [None] is unknown *)

Definition truth : Type := option bool.

Definition eq3 (a b : value) : truth :=
match a, b with
| VNull, _ | _, VNull => None
| _, _ => Some (bool_decide (a = b))
end.
Definition any3 (a b : value) : truth :=
match a, b with
| VText s, VRoles l => Some (bool_decide (s ∈ l))
| _, _ => None
end.
Definition and3 (a b : truth) : truth :=
match a, b with
| Some false, _ | _, Some false => Some false
| Some true, Some true => Some true
| _, _ => None
end.
Definition or3 (a b : truth) : truth :=
match a, b with
| Some true, _ | _, Some true => Some true
| Some false, Some false => Some false
| _, _ => None
end.

Definition not3 (a : truth) : truth := negb <$> (a : option bool).

Definition is_true3 (t : truth) : bool := bool_decide (t = Some true).

(** the search for a row that passes, among rows whose tests may fail *)
Fixpoint search {A} (f : A → option bool) (l : list A) : option bool :=
match l with
| [] => Some false
| a :: l => b ← f a; c ← search f l; Some (b || c)
end.

(** ** Evaluation *)

Section Evaluation.
Context (s : catalog) (db : database) (user : option id).

Definition eval_term (e : env) (t : term) : value :=
match t with
| Name c => lookup_name e c
| Qual a c => lookup_qual e a c
| Lit x => VText x
| Roles l => VRoles l
| CurrentUserId => match user with Some u => VUuid u | None => VNull end
end.

(** a policy that applies to the command *)
Definition applies (c : command) (p : policy) : bool :=
match pol_command p with Some c' => bool_decide (c' = c) | None => true end.

Definition policies_for (c : command) (t : table) : list policy :=
filter (λ p, applies c p = true) (map_to_list (tbl_policies t)).*2.

(** Evaluation may go on for ever (a policy that reads its own table), so it
    has fuel; [None] when it runs out, or on an unknown table or function. *)
Fixpoint eval (fuel : nat) (owner : bool) (e : env) (q : sql) {struct fuel} : option truth :=
match fuel with
| O => None
| S fuel =>
    match q with
    | SEq a b => Some (eq3 (eval_term e a) (eval_term e b))
    | SAny a b => Some (any3 (eval_term e a) (eval_term e b))
    | SIsNull a => Some (Some (bool_decide (eval_term e a = VNull)))
    | SNotNull a => Some (Some (negb (bool_decide (eval_term e a = VNull))))
    | SAnd p q => a ← eval fuel owner e p; b ← eval fuel owner e q; Some (and3 a b)
    | SOr p q => a ← eval fuel owner e p; b ← eval fuel owner e q; Some (or3 a b)
    | SNot p => a ← eval fuel owner e p; Some (not3 a)
    | SCall f args =>
        match cat_functions s !! f with
        | Some (Condition params definer body) =>
            eval fuel (owner || definer)
              [(f, list_to_map (zip params (eval_term e <$> args)))] body
        | _ => None
        end
    | SExists from p =>
        Some <$> (fix scan (from : list (string * string)) (e : env) : option bool :=
          match from with
          | [] => is_true3 <$> eval fuel owner e p
          | (n, a) :: from =>
              search (λ r,
                v ← (if owner then Some true else visible fuel n r);
                if v : bool then scan from ((a, r) :: e) else Some false) (db n)
          end) from e
    end
end
with visible (fuel : nat) (n : string) (r : row) {struct fuel} : option bool :=
match fuel with
| O => None
| S fuel =>
    match cat_tables s !! n with
    | None => None
    | Some t =>
        if tbl_row_security t then
          search (λ p, match pol_using p with
                       | Some q => is_true3 <$> eval fuel false [(n, r)] q
                       | None => Some false
                       end) (policies_for SELECT t)
        else Some true
    end
end.

(** some policy for the command lets the row through *)
Definition passes_some (fuel : nat) (clause : policy → option sql) (c : command) (n : string)
  (t : table) (r : row) : option bool :=
search (λ p, match clause p with
             | Some q => is_true3 <$> eval fuel false [(n, r)] q
             | None => Some false
             end) (policies_for c t).

(** [WITH CHECK], or [USING] where a policy has none *)
Definition check_clause (p : policy) : option sql :=
match pol_check p with Some q => Some q | None => pol_using p end.

Definition granted (c : command) (t : table) : bool :=
existsb (λ g, bool_decide (g.1 = "app_runtime" ∧ g.2.1 = c)) (elements (tbl_grants t)).

(** a trigger raises before the command *)
Definition raises (c : command) (t : table) : bool :=
existsb (λ g, bool_decide (trg_moment g = BEFORE ∧ trg_event g = c) &&
  match cat_functions s !! trg_function g with Some (RaiseException _) => true | _ => false end)
  (map_to_list (tbl_triggers t)).*2.

(** A command of a request: the rows it reads or replaces, and the ones it
    writes. *)
Inductive access : Type :=
| Reads (r : row)
| Inserts (r : row)
| Updates (old new : row)
| Deletes (r : row).

Definition command_of (a : access) : command :=
match a with Reads _ => SELECT | Inserts _ => INSERT | Updates _ _ => UPDATE | Deletes _ => DELETE end.

Definition rows_pass (fuel : nat) (n : string) (t : table) (a : access) : option bool :=
match a with
| Reads r => passes_some fuel pol_using SELECT n t r
| Inserts r => passes_some fuel check_clause INSERT n t r
| Deletes r => passes_some fuel pol_using DELETE n t r
| Updates old new =>
    x ← passes_some fuel pol_using UPDATE n t old;
    y ← passes_some fuel check_clause UPDATE n t new;
    Some (x && y)
end.

(** whether the database lets the request do it; [None] when a policy cannot
    be evaluated *)
Definition allowed (fuel : nat) (n : string) (a : access) : option bool :=
match cat_tables s !! n with
| None => Some false
| Some t =>
    if granted (command_of a) t && negb (raises (command_of a) t) then
      if tbl_row_security t then rows_pass fuel n t a else Some true
    else Some false
end.
End Evaluation.

(** ** Statements

    A statement of a request sees the rows the policies for [SELECT] let it
    see, since its [WHERE] reads them, and of those the ones the policies for
    its own command let it reach; a row it writes must satisfy both again. *)

Inductive db_error : Type :=
| UndefinedTable (n : string)
| InsufficientPrivilege (n : string)
| RaisedException (message : string)
| NeverDecided (n : string).
#[export] Instance db_error_eq_dec : EqDecision db_error.
Proof. solve_decision. Defined.

Definition decided {A} (n : string) (o : option A) : result db_error A :=
match o with Some a => Ok a | None => Raise (NeverDecided n) end.

Section Statements.
Context (s : catalog) (db : database) (user : option id) (fuel : nat).

(** the privilege on the table, or on each of the columns *)
Definition may (c : command) (columns : list string) (t : table) : bool :=
bool_decide (("app_runtime", (c, None)) ∈ tbl_grants t) ||
(negb (bool_decide (columns = [])) &&
 forallb (λ col, bool_decide (("app_runtime", (c, Some col)) ∈ tbl_grants t)) columns).

Definition reaches (c : command) (n : string) (t : table) (r : row) : option bool :=
if tbl_row_security t then
  x ← passes_some s db user fuel pol_using SELECT n t r;
  y ← passes_some s db user fuel pol_using c n t r;
  Some (x && y)
else Some true.

Definition accepts (c : command) (n : string) (t : table) (r : row) : option bool :=
if tbl_row_security t then
  x ← passes_some s db user fuel check_clause c n t r;
  y ← passes_some s db user fuel pol_using SELECT n t r;
  Some (x && y)
else Some true.

(** the trigger function of revision 0002 *)
Definition next_version (v : option value) : value :=
match v with Some (VInt z) => VInt (z + 1) | _ => VNull end.

Definition set_version_and_updated_at (now : Z) (old new : row) : row :=
<["updated_at" := VTime now]> (<["version" := next_version (old !! "version")]> new).

(** what the triggers do to the row about to be written *)
Fixpoint fire (now : Z) (c : command) (l : list trigger) (old new : row) : result db_error row :=
match l with
| [] => Ok new
| g :: l =>
    new' ← (if bool_decide (trg_moment g = BEFORE ∧ trg_event g = c) then
              match cat_functions s !! trg_function g with
              | Some SetVersion => Ok (set_version_and_updated_at now old new)
              | Some (RaiseException m) => Raise (RaisedException m)
              | _ => Ok new
              end
            else Ok new);
    fire now c l old new'
end.
Definition before (now : Z) (c : command) (t : table) (old new : row) : result db_error row :=
fire now c (map_to_list (tbl_triggers t)).*2 old new.

Definition with_table (n : string) (c : command) (columns written : list string) :
  result db_error table :=
match cat_tables s !! n with
| None => Raise (UndefinedTable n)
| Some t =>
    if may SELECT columns t && may c written t then Ok t else Raise (InsufficientPrivilege n)
end.

Fixpoint matching (n : string) (t : table) (where_ : row → bool) (l : list row) :
  result db_error (list row) :=
match l with
| [] => Ok []
| r :: l =>
    seen ← (if where_ r then decided n (reaches SELECT n t r) else Ok false);
    rows ← matching n t where_ l;
    Ok (if seen : bool then r :: rows else rows)
end.

(** [SELECT * FROM n WHERE ...] *)
Definition select_rows (n : string) (where_ : row → bool) : result db_error (list row) :=
match cat_tables s !! n with
| None => Raise (UndefinedTable n)
| Some t =>
    if may SELECT (map_to_list (tbl_columns t)).*1 t then matching n t where_ (db n)
    else Raise (InsufficientPrivilege n)
end.

(** the rows after the statement, and how many it changed *)
Fixpoint update_each (now : Z) (n : string) (t : table) (where_ : row → bool) (set : row → row)
  (l : list row) : result db_error (list row * Z) :=
match l with
| [] => Ok ([], 0)
| r :: l =>
    hit ← (if where_ r then decided n (reaches UPDATE n t r) else Ok false);
    new ← (if hit : bool then
             new ← before now UPDATE t r (set r);
             ok ← decided n (accepts UPDATE n t new);
             if ok : bool then Ok new else Raise (InsufficientPrivilege n)
           else Ok r);
    rest ← update_each now n t where_ set l;
    Ok (new :: rest.1, (if hit : bool then 1 else 0) + rest.2)
end.
Fixpoint delete_each (now : Z) (n : string) (t : table) (where_ : row → bool) (l : list row) :
  result db_error (list row * Z) :=
match l with
| [] => Ok ([], 0)
| r :: l =>
    hit ← (if where_ r then decided n (reaches DELETE n t r) else Ok false);
    (if hit : bool then before now DELETE t r r else Ok r);;
    rest ← delete_each now n t where_ l;
    Ok (if hit : bool then rest.1 else r :: rest.1, (if hit : bool then 1 else 0) + rest.2)
end.

Definition put_rows (n : string) (rows : list row) : database :=
λ k, if bool_decide (k = n) then rows else db k.

(** [UPDATE n SET written WHERE columns]; the database after it and the row
    count *)
Definition update_rows (now : Z) (n : string) (columns written : list string) (where_ : row → bool)
  (set : row → row) : result db_error (Z * database) :=
t ← with_table n UPDATE columns written;
p ← update_each now n t where_ set (db n);
Ok (p.2, put_rows n p.1).

(** [DELETE FROM n WHERE columns], of a table no foreign key refers to *)
Definition delete_rows (now : Z) (n : string) (columns : list string) (where_ : row → bool) :
  result db_error (Z * database) :=
t ← with_table n DELETE columns [];
p ← delete_each now n t where_ (db n);
Ok (p.2, put_rows n p.1).
End Statements.
