(* ===== verification/Models.v ===== *)
(** * The data model

    The Python enums of [models/enums.py] as inductive types (a constructor
    prefixed where two enums share a member name), the ORM rows of
    [models/*.py] as records (columns that no modelled operation reads or
    writes are left out, the primary key is the key of the table), the
    settings of [core/config.py] the engine reads, and [World]: the tables
    of the database together with the clock, the [uuid4] supply and the
    random draw an operation observes. *)

From S2P Require Import Prelude.

(** Timestamps are microseconds since the epoch (the resolution of
    [datetime]); a [timedelta(seconds=n)] is [seconds n].  Money is counted
    in ten-thousandths of a dollar, the scale of [Numeric(10, 4)]. *)
Abbreviation time := Z (only parsing).
Abbreviation usd := Z (only parsing).
Definition seconds (n : Z) : Z := 1000000 * n.
Definition hours (n : Z) : Z := seconds (3600 * n).

(** ** JSON values (payloads, stage results, transition conditions)

    A number is a decimal literal [m * 10^-e]. *)
Inductive json : Type :=
| JNull
| JBool (b : bool)
| JNum (m : Z) (e : nat)
| JStr (s : string)
| JList (l : list json)
| JObj (kv : list (string * json)).

(** An amount in a payload (a decimal string in the source). *)
Definition usd_json (x : usd) : json := JNum x 4.
Definition int_json (n : Z) : json := JNum n O.

(** [dict.get]: the last binding of a key is the one a Python dict keeps. *)
Fixpoint obj_get (kv : list (string * json)) (k : string) : option json :=
  match kv with
  | [] => None
  | (k', v) :: kv =>
      match obj_get kv k with
      | Some v' => Some v'
      | None => if String.eqb k k' then Some v else None
      end
  end.

(** ** Enumerations *)

Inductive ContentStage : Type :=
| IDEA | SCRIPTING | VOICEOVER | VISUALS | RENDERING | SEO | REVIEW | SCHEDULED | PUBLISHED.
Definition ContentStage_value (x : ContentStage) : string :=
  match x with
  | IDEA => "idea"
  | SCRIPTING => "scripting"
  | VOICEOVER => "voiceover"
  | VISUALS => "visuals"
  | RENDERING => "rendering"
  | SEO => "seo"
  | REVIEW => "review"
  | SCHEDULED => "scheduled"
  | PUBLISHED => "published"
  end.
#[export] Instance ContentStage_eq_dec : EqDecision ContentStage.
Proof. solve_decision. Defined.

Inductive ContentStatus : Type :=
| CONTENT_ACTIVE | CONTENT_FAILED | CONTENT_ARCHIVED.
Definition ContentStatus_value (x : ContentStatus) : string :=
  match x with
  | CONTENT_ACTIVE => "active"
  | CONTENT_FAILED => "failed"
  | CONTENT_ARCHIVED => "archived"
  end.
#[export] Instance ContentStatus_eq_dec : EqDecision ContentStatus.
Proof. solve_decision. Defined.

Inductive PipelineRunStatus : Type :=
| RUN_CREATED | RUN_RUNNING | RUN_PAUSED | RUN_COMPENSATING | RUN_SUCCEEDED | RUN_FAILED | RUN_CANCELLED.
Definition PipelineRunStatus_value (x : PipelineRunStatus) : string :=
  match x with
  | RUN_CREATED => "created"
  | RUN_RUNNING => "running"
  | RUN_PAUSED => "paused"
  | RUN_COMPENSATING => "compensating"
  | RUN_SUCCEEDED => "succeeded"
  | RUN_FAILED => "failed"
  | RUN_CANCELLED => "cancelled"
  end.
#[export] Instance PipelineRunStatus_eq_dec : EqDecision PipelineRunStatus.
Proof. solve_decision. Defined.

Inductive StageRunStatus : Type :=
| SRUN_SUCCEEDED | SRUN_FAILED.
Definition StageRunStatus_value (x : StageRunStatus) : string :=
  match x with
  | SRUN_SUCCEEDED => "succeeded"
  | SRUN_FAILED => "failed"
  end.
#[export] Instance StageRunStatus_eq_dec : EqDecision StageRunStatus.
Proof. solve_decision. Defined.

Inductive ReviewDecisionValue : Type :=
| DECISION_APPROVED | DECISION_CHANGES_REQUESTED | DECISION_REJECTED.
Definition ReviewDecisionValue_value (x : ReviewDecisionValue) : string :=
  match x with
  | DECISION_APPROVED => "approved"
  | DECISION_CHANGES_REQUESTED => "changes_requested"
  | DECISION_REJECTED => "rejected"
  end.
#[export] Instance ReviewDecisionValue_eq_dec : EqDecision ReviewDecisionValue.
Proof. solve_decision. Defined.

Inductive ReservationStatus : Type :=
| RESERVED | COMMITTED | RELEASED.
Definition ReservationStatus_value (x : ReservationStatus) : string :=
  match x with
  | RESERVED => "reserved"
  | COMMITTED => "committed"
  | RELEASED => "released"
  end.
#[export] Instance ReservationStatus_eq_dec : EqDecision ReservationStatus.
Proof. solve_decision. Defined.

Inductive WorkflowTransitionTrigger : Type :=
| ON_SUCCESS | ON_FAILURE | ON_REVIEW_APPROVED | ON_REVIEW_REJECTED.
Definition WorkflowTransitionTrigger_value (x : WorkflowTransitionTrigger) : string :=
  match x with
  | ON_SUCCESS => "on_success"
  | ON_FAILURE => "on_failure"
  | ON_REVIEW_APPROVED => "on_review_approved"
  | ON_REVIEW_REJECTED => "on_review_rejected"
  end.
#[export] Instance WorkflowTransitionTrigger_eq_dec : EqDecision WorkflowTransitionTrigger.
Proof. solve_decision. Defined.

Inductive OutboxEventStatus : Type :=
| EVENT_PENDING | EVENT_DISPATCHED | EVENT_POISON.
Definition OutboxEventStatus_value (x : OutboxEventStatus) : string :=
  match x with
  | EVENT_PENDING => "pending"
  | EVENT_DISPATCHED => "dispatched"
  | EVENT_POISON => "poison"
  end.
#[export] Instance OutboxEventStatus_eq_dec : EqDecision OutboxEventStatus.
Proof. solve_decision. Defined.

Inductive JobType : Type :=
| JOB_STAGE | JOB_RETRY | JOB_STAGE_TIMEOUT | JOB_REVIEW_TIMEOUT | JOB_RECURRING | JOB_COMPENSATION.
Definition JobType_value (x : JobType) : string :=
  match x with
  | JOB_STAGE => "stage"
  | JOB_RETRY => "retry"
  | JOB_STAGE_TIMEOUT => "stage_timeout"
  | JOB_REVIEW_TIMEOUT => "review_timeout"
  | JOB_RECURRING => "recurring"
  | JOB_COMPENSATION => "compensation"
  end.
#[export] Instance JobType_eq_dec : EqDecision JobType.
Proof. solve_decision. Defined.

Inductive JobScheduleStatus : Type :=
| JOB_PENDING | JOB_LEASED | JOB_DONE | JOB_CANCELLED.
Definition JobScheduleStatus_value (x : JobScheduleStatus) : string :=
  match x with
  | JOB_PENDING => "pending"
  | JOB_LEASED => "leased"
  | JOB_DONE => "done"
  | JOB_CANCELLED => "cancelled"
  end.
#[export] Instance JobScheduleStatus_eq_dec : EqDecision JobScheduleStatus.
Proof. solve_decision. Defined.

Inductive DeadLetterStatus : Type :=
| DEAD_PENDING | DEAD_RESOLVED | DEAD_DISCARDED.
Definition DeadLetterStatus_value (x : DeadLetterStatus) : string :=
  match x with
  | DEAD_PENDING => "pending"
  | DEAD_RESOLVED => "resolved"
  | DEAD_DISCARDED => "discarded"
  end.
#[export] Instance DeadLetterStatus_eq_dec : EqDecision DeadLetterStatus.
Proof. solve_decision. Defined.

Inductive WorkerStatus : Type :=
| WORKER_ONLINE | WORKER_BUSY | WORKER_DRAINING | WORKER_OFFLINE.
Definition WorkerStatus_value (x : WorkerStatus) : string :=
  match x with
  | WORKER_ONLINE => "online"
  | WORKER_BUSY => "busy"
  | WORKER_DRAINING => "draining"
  | WORKER_OFFLINE => "offline"
  end.
#[export] Instance WorkerStatus_eq_dec : EqDecision WorkerStatus.
Proof. solve_decision. Defined.

Inductive StageAssignmentStatus : Type :=
| ASN_PENDING | ASN_DISPATCHED | ASN_ACKNOWLEDGED | ASN_COMPLETED | ASN_FAILED | ASN_CANCELLED.
Definition StageAssignmentStatus_value (x : StageAssignmentStatus) : string :=
  match x with
  | ASN_PENDING => "pending"
  | ASN_DISPATCHED => "dispatched"
  | ASN_ACKNOWLEDGED => "acknowledged"
  | ASN_COMPLETED => "completed"
  | ASN_FAILED => "failed"
  | ASN_CANCELLED => "cancelled"
  end.
#[export] Instance StageAssignmentStatus_eq_dec : EqDecision StageAssignmentStatus.
Proof. solve_decision. Defined.

Inductive ReviewGateStatus : Type :=
| GATE_AWAITING | GATE_APPROVED | GATE_REJECTED | GATE_TIMED_OUT | GATE_ESCALATED.
Definition ReviewGateStatus_value (x : ReviewGateStatus) : string :=
  match x with
  | GATE_AWAITING => "awaiting"
  | GATE_APPROVED => "approved"
  | GATE_REJECTED => "rejected"
  | GATE_TIMED_OUT => "timed_out"
  | GATE_ESCALATED => "escalated"
  end.
#[export] Instance ReviewGateStatus_eq_dec : EqDecision ReviewGateStatus.
Proof. solve_decision. Defined.

Inductive PauseReason : Type :=
| PAUSE_REVIEW_GATE | PAUSE_MANUAL | PAUSE_SPEND_HOLD.
Definition PauseReason_value (x : PauseReason) : string :=
  match x with
  | PAUSE_REVIEW_GATE => "review_gate"
  | PAUSE_MANUAL => "manual"
  | PAUSE_SPEND_HOLD => "spend_hold"
  end.
#[export] Instance PauseReason_eq_dec : EqDecision PauseReason.
Proof. solve_decision. Defined.

Inductive WorkerCredentialStatus : Type :=
| CRED_ACTIVE | CRED_REVOKED.
Definition WorkerCredentialStatus_value (x : WorkerCredentialStatus) : string :=
  match x with
  | CRED_ACTIVE => "active"
  | CRED_REVOKED => "revoked"
  end.
#[export] Instance WorkerCredentialStatus_eq_dec : EqDecision WorkerCredentialStatus.
Proof. solve_decision. Defined.

Inductive ClaimOutcome : Type :=
| GRANTED | NO_WORK | CAPACITY | INELIGIBLE.
Definition ClaimOutcome_value (x : ClaimOutcome) : string :=
  match x with
  | GRANTED => "granted"
  | NO_WORK => "no_work"
  | CAPACITY => "capacity"
  | INELIGIBLE => "ineligible"
  end.
#[export] Instance ClaimOutcome_eq_dec : EqDecision ClaimOutcome.
Proof. solve_decision. Defined.

Inductive RecoveryReason : Type :=
| LEASE_EXPIRED | WORKER_WENT_OFFLINE | WORKER_DEREGISTERED | WORKER_REVOKED | WORKER_RESTART | MAX_LEASE_EXCEEDED.
Definition RecoveryReason_value (x : RecoveryReason) : string :=
  match x with
  | LEASE_EXPIRED => "lease_expired"
  | WORKER_WENT_OFFLINE => "worker_offline"
  | WORKER_DEREGISTERED => "worker_deregistered"
  | WORKER_REVOKED => "worker_revoked"
  | WORKER_RESTART => "worker_restart"
  | MAX_LEASE_EXCEEDED => "max_lease_exceeded"
  end.
#[export] Instance RecoveryReason_eq_dec : EqDecision RecoveryReason.
Proof. solve_decision. Defined.

Inductive RecoveryOutcome : Type :=
| REQUEUED | DEAD_LETTERED | SKIPPED.
Definition RecoveryOutcome_value (x : RecoveryOutcome) : string :=
  match x with
  | REQUEUED => "requeued"
  | DEAD_LETTERED => "dead_lettered"
  | SKIPPED => "skipped"
  end.
#[export] Instance RecoveryOutcome_eq_dec : EqDecision RecoveryOutcome.
Proof. solve_decision. Defined.

Inductive BackpressureState : Type :=
| NORMAL | PRESSURED | THROTTLED.
Definition BackpressureState_value (x : BackpressureState) : string :=
  match x with
  | NORMAL => "normal"
  | PRESSURED => "pressured"
  | THROTTLED => "throttled"
  end.
#[export] Instance BackpressureState_eq_dec : EqDecision BackpressureState.
Proof. solve_decision. Defined.

Definition ContentStage_code (s : ContentStage) : nat :=
  match s with
  | IDEA => 0 | SCRIPTING => 1 | VOICEOVER => 2 | VISUALS => 3 | RENDERING => 4
  | SEO => 5 | REVIEW => 6 | SCHEDULED => 7 | PUBLISHED => 8
  end%nat.
Definition ContentStage_decode (n : nat) : option ContentStage :=
  [IDEA; SCRIPTING; VOICEOVER; VISUALS; RENDERING; SEO; REVIEW; SCHEDULED; PUBLISHED] !! n.
#[export] Instance ContentStage_countable : Countable ContentStage.
Proof. apply (inj_countable ContentStage_code ContentStage_decode). by intros []. Defined.

(** [ContentStage(value)]: the member with that value, if any *)
Definition ContentStage_of_value (v : string) : option ContentStage :=
  list_find (λ s, ContentStage_value s = v)
    [IDEA; SCRIPTING; VOICEOVER; VISUALS; RENDERING; SEO; REVIEW; SCHEDULED; PUBLISHED]
  ≫= λ p, Some p.2.

Lemma ContentStage_of_value_value s : ContentStage_of_value (ContentStage_value s) = Some s.
Proof. by destruct s. Qed.

(** ** Rows *)

(** [models/workspace.py] *)
Record Workspace : Type := mk_workspace {
  ws_name : string;
  ws_created_by : id;
  ws_priority_tier : Z;
  ws_created_at : time
}.
#[export] Instance workspace_settable : Settable Workspace := λ r,
  mk_workspace (ws_name r) (ws_created_by r) (ws_priority_tier r) (ws_created_at r).

(** [models/workflow.py] *)
Record WorkflowDefinition : Type := mk_definition {
  def_workspace_id : id;
  def_name : string;
  def_version : Z;
  def_is_active : bool;
  def_created_by : option id
}.
#[export] Instance definition_settable : Settable WorkflowDefinition := λ r,
  mk_definition (def_workspace_id r) (def_name r) (def_version r) (def_is_active r) (def_created_by r).

(** [models/workflow.py]; unique on (definition_id, stage_key) *)
Record WorkflowStage : Type := mk_stage {
  wst_workspace_id : id;
  wst_stage_key : ContentStage;
  wst_ordinal : Z;
  wst_max_attempts : Z;
  wst_backoff_base_seconds : Z;
  wst_backoff_multiplier : Z;
  wst_backoff_max_seconds : Z;
  wst_timeout_seconds : Z;
  wst_is_review_gate : bool;
  wst_is_terminal : bool;
  wst_compensation_stage_key : option ContentStage
}.
#[export] Instance stage_settable : Settable WorkflowStage := λ r,
  mk_stage (wst_workspace_id r) (wst_stage_key r) (wst_ordinal r) (wst_max_attempts r) (wst_backoff_base_seconds r) (wst_backoff_multiplier r) (wst_backoff_max_seconds r) (wst_timeout_seconds r) (wst_is_review_gate r) (wst_is_terminal r) (wst_compensation_stage_key r).

(** [models/workflow.py] *)
Record WorkflowTransition : Type := mk_transition {
  wtr_definition_id : id;
  wtr_from_stage : ContentStage;
  wtr_to_stage : ContentStage;
  wtr_trigger : WorkflowTransitionTrigger;
  wtr_condition : option json;
  wtr_priority : Z
}.
#[export] Instance transition_settable : Settable WorkflowTransition := λ r,
  mk_transition (wtr_definition_id r) (wtr_from_stage r) (wtr_to_stage r) (wtr_trigger r) (wtr_condition r) (wtr_priority r).

(** [models/pipeline.py] *)
Record PipelineRun : Type := mk_run {
  run_workspace_id : id;
  run_content_item_id : option id;
  run_idempotency_key : option string;
  run_current_stage : ContentStage;
  run_status : PipelineRunStatus;
  run_started_at : option time;
  run_completed_at : option time;
  run_pause_reason : option PauseReason;
  run_definition_id : option id;
  run_correlation_id : option id;
  run_trace_id : option id
}.
#[export] Instance run_settable : Settable PipelineRun := λ r,
  mk_run (run_workspace_id r) (run_content_item_id r) (run_idempotency_key r) (run_current_stage r) (run_status r) (run_started_at r) (run_completed_at r) (run_pause_reason r) (run_definition_id r) (run_correlation_id r) (run_trace_id r).

(** [models/pipeline.py]; unique on (pipeline_run_id, stage, attempt_number) *)
Record PipelineStageRun : Type := mk_stage_run {
  srun_workspace_id : id;
  srun_pipeline_run_id : id;
  srun_content_item_id : option id;
  srun_stage : ContentStage;
  srun_attempt_number : Z;
  srun_status : StageRunStatus;
  srun_error_message : option string;
  srun_started_at : option time;
  srun_completed_at : option time
}.
#[export] Instance stage_run_settable : Settable PipelineStageRun := λ r,
  mk_stage_run (srun_workspace_id r) (srun_pipeline_run_id r) (srun_content_item_id r) (srun_stage r) (srun_attempt_number r) (srun_status r) (srun_error_message r) (srun_started_at r) (srun_completed_at r).

(** [models/review_gate.py] *)
Record ReviewGate : Type := mk_gate {
  gate_workspace_id : id;
  gate_pipeline_run_id : id;
  gate_content_version_id : option id;
  gate_stage : ContentStage;
  gate_status : ReviewGateStatus;
  gate_requested_at : time;
  gate_timeout_at : option time;
  gate_decided_at : option time;
  gate_decided_by : option id;
  gate_escalation_level : Z
}.
#[export] Instance gate_settable : Settable ReviewGate := λ r,
  mk_gate (gate_workspace_id r) (gate_pipeline_run_id r) (gate_content_version_id r) (gate_stage r) (gate_status r) (gate_requested_at r) (gate_timeout_at r) (gate_decided_at r) (gate_decided_by r) (gate_escalation_level r).

(** [models/history.py] *)
Record ReviewDecision : Type := mk_decision {
  rdec_workspace_id : id;
  rdec_content_item_id : id;
  rdec_reviewer_id : id;
  rdec_decision : ReviewDecisionValue;
  rdec_notes : option string
}.
#[export] Instance decision_settable : Settable ReviewDecision := λ r,
  mk_decision (rdec_workspace_id r) (rdec_content_item_id r) (rdec_reviewer_id r) (rdec_decision r) (rdec_notes r).

(** [models/scheduling.py] *)
Record JobSchedule : Type := mk_job {
  job_workspace_id : id;
  job_type : JobType;
  job_ref_table : string;
  job_ref_id : id;
  job_run_after : time;
  job_status : JobScheduleStatus;
  job_lease_owner : option id;
  job_lease_expires_at : option time;
  job_attempt : Z;
  job_priority : Z;
  job_correlation_id : option id;
  job_trace_id : option id;
  job_created_at : time
}.
#[export] Instance job_settable : Settable JobSchedule := λ r,
  mk_job (job_workspace_id r) (job_type r) (job_ref_table r) (job_ref_id r) (job_run_after r) (job_status r) (job_lease_owner r) (job_lease_expires_at r) (job_attempt r) (job_priority r) (job_correlation_id r) (job_trace_id r) (job_created_at r).

(** [models/scheduling.py]; unique per workspace *)
Record WorkspaceConcurrencyLimit : Type := mk_limit {
  lim_max_concurrent_assignments : Z;
  lim_max_per_scheduler_tick : Z;
  lim_queue_soft_limit : Z;
  lim_queue_hard_limit : Z
}.
#[export] Instance limit_settable : Settable WorkspaceConcurrencyLimit := λ r,
  mk_limit (lim_max_concurrent_assignments r) (lim_max_per_scheduler_tick r) (lim_queue_soft_limit r) (lim_queue_hard_limit r).

(** [models/assignments.py] *)
Record StageAssignment : Type := mk_assignment {
  asn_workspace_id : id;
  asn_pipeline_run_id : id;
  asn_stage : ContentStage;
  asn_attempt_number : Z;
  asn_worker_id : option id;
  asn_status : StageAssignmentStatus;
  asn_idempotency_key : option (id * ContentStage * Z);
  asn_lease_expires_at : option time;
  asn_dispatched_at : option time;
  asn_acknowledged_at : option time;
  asn_completed_at : option time;
  asn_result : option json;
  asn_correlation_id : option id;
  asn_trace_id : option id;
  asn_claimed_at : option time;
  asn_claimed_by : option id;
  asn_claim_count : Z;
  asn_claim_token : option id;
  asn_lease_started_at : option time;
  asn_lease_extension_count : Z;
  asn_priority : Z;
  asn_provider : option string;
  asn_created_at : time
}.
#[export] Instance assignment_settable : Settable StageAssignment := λ r,
  mk_assignment (asn_workspace_id r) (asn_pipeline_run_id r) (asn_stage r) (asn_attempt_number r) (asn_worker_id r) (asn_status r) (asn_idempotency_key r) (asn_lease_expires_at r) (asn_dispatched_at r) (asn_acknowledged_at r) (asn_completed_at r) (asn_result r) (asn_correlation_id r) (asn_trace_id r) (asn_claimed_at r) (asn_claimed_by r) (asn_claim_count r) (asn_claim_token r) (asn_lease_started_at r) (asn_lease_extension_count r) (asn_priority r) (asn_provider r) (asn_created_at r).

(** [models/workers.py] *)
Record WorkerRegistration : Type := mk_worker {
  wrk_workspace_id : option id;
  wrk_name : string;
  wrk_supported_stages : list string;
  wrk_capabilities : json;
  wrk_status : WorkerStatus;
  wrk_max_concurrency : Z;
  wrk_current_load : Z;
  wrk_health_score : Z;
  wrk_last_heartbeat_at : option time;
  wrk_registered_at : time;
  wrk_worker_version : option string;
  wrk_drain : bool;
  wrk_deregistered_at : option time
}.
#[export] Instance worker_settable : Settable WorkerRegistration := λ r,
  mk_worker (wrk_workspace_id r) (wrk_name r) (wrk_supported_stages r) (wrk_capabilities r) (wrk_status r) (wrk_max_concurrency r) (wrk_current_load r) (wrk_health_score r) (wrk_last_heartbeat_at r) (wrk_registered_at r) (wrk_worker_version r) (wrk_drain r) (wrk_deregistered_at r).

(** [models/spend.py] *)
Record SpendReservation : Type := mk_reservation {
  rsv_workspace_id : id;
  rsv_pipeline_run_id : option id;
  rsv_content_item_id : option id;
  rsv_provider : string;
  rsv_stage : option ContentStage;
  rsv_estimated_cost_usd : usd;
  rsv_status : ReservationStatus;
  rsv_created_at : time
}.
#[export] Instance reservation_settable : Settable SpendReservation := λ r,
  mk_reservation (rsv_workspace_id r) (rsv_pipeline_run_id r) (rsv_content_item_id r) (rsv_provider r) (rsv_stage r) (rsv_estimated_cost_usd r) (rsv_status r) (rsv_created_at r).

(** [models/spend.py] *)
Record SpendLog : Type := mk_spend_log {
  slog_workspace_id : id;
  slog_content_item_id : option id;
  slog_provider : string;
  slog_stage : option ContentStage;
  slog_cost_usd : usd;
  slog_occurred_at : time
}.
#[export] Instance spend_log_settable : Settable SpendLog := λ r,
  mk_spend_log (slog_workspace_id r) (slog_content_item_id r) (slog_provider r) (slog_stage r) (slog_cost_usd r) (slog_occurred_at r).

(** [models/config.py]; unique on (workspace_id, COALESCE(provider, '')) *)
Record SpendCap : Type := mk_cap {
  cap_provider : option string;
  cap_daily_cap_usd : usd;
  cap_monthly_cap_usd : usd;
  cap_created_by : option id;
  cap_updated_by : option id
}.
#[export] Instance cap_settable : Settable SpendCap := λ r,
  mk_cap (cap_provider r) (cap_daily_cap_usd r) (cap_monthly_cap_usd r) (cap_created_by r) (cap_updated_by r).

(** [models/content.py] *)
Record ContentItem : Type := mk_item {
  item_workspace_id : id;
  item_topic : string;
  item_target_length_seconds : option Z;
  item_current_stage : ContentStage;
  item_status : ContentStatus;
  item_current_version_id : option id;
  item_current_pipeline_run_id : option id;
  item_created_by : option id;
  item_updated_by : option id
}.
#[export] Instance item_settable : Settable ContentItem := λ r,
  mk_item (item_workspace_id r) (item_topic r) (item_target_length_seconds r) (item_current_stage r) (item_status r) (item_current_version_id r) (item_current_pipeline_run_id r) (item_created_by r) (item_updated_by r).

(** [models/content.py] *)
Record ContentVersion : Type := mk_version {
  ver_workspace_id : id;
  ver_content_item_id : id;
  ver_script_hook : option string;
  ver_script_body : option string;
  ver_script_cta : option string;
  ver_prompt_used : option string;
  ver_generated_by : option string;
  ver_created_by : option id
}.
#[export] Instance version_settable : Settable ContentVersion := λ r,
  mk_version (ver_workspace_id r) (ver_content_item_id r) (ver_script_hook r) (ver_script_body r) (ver_script_cta r) (ver_prompt_used r) (ver_generated_by r) (ver_created_by r).

(** [models/events.py] *)
Record OutboxEvent : Type := mk_event {
  ev_workspace_id : id;
  ev_type : string;
  ev_version : Z;
  ev_aggregate_type : string;
  ev_aggregate_id : id;
  ev_correlation_id : id;
  ev_causation_id : option id;
  ev_trace_id : option id;
  ev_span_id : option id;
  ev_sequence : Z;
  ev_payload : json;
  ev_status : OutboxEventStatus;
  ev_delivery_attempts : Z;
  ev_occurred_at : time;
  ev_produced_by : string
}.
#[export] Instance event_settable : Settable OutboxEvent := λ r,
  mk_event (ev_workspace_id r) (ev_type r) (ev_version r) (ev_aggregate_type r) (ev_aggregate_id r) (ev_correlation_id r) (ev_causation_id r) (ev_trace_id r) (ev_span_id r) (ev_sequence r) (ev_payload r) (ev_status r) (ev_delivery_attempts r) (ev_occurred_at r) (ev_produced_by r).

(** [models/events.py]; unique on name *)
Record EventConsumer : Type := mk_consumer {
  con_id : id;
  con_max_event_version : Z;
  con_max_delivery_attempts : Z
}.
#[export] Instance consumer_settable : Settable EventConsumer := λ r,
  mk_consumer (con_id r) (con_max_event_version r) (con_max_delivery_attempts r).

(** [models/events.py]; unique on (consumer_id, aggregate_type, partition_key) *)
Record ConsumerCheckpoint : Type := mk_checkpoint {
  ck_id : id;
  ck_last_sequence : Z
}.
#[export] Instance checkpoint_settable : Settable ConsumerCheckpoint := λ r,
  mk_checkpoint (ck_id r) (ck_last_sequence r).

(** [models/operations.py] *)
Record DeadLetterJob : Type := mk_dead_letter {
  dlj_workspace_id : id;
  dlj_related_table : string;
  dlj_related_id : id;
  dlj_job_type : string;
  dlj_payload : option json;
  dlj_failure_reason : string;
  dlj_attempt_count : Z;
  dlj_first_failed_at : time;
  dlj_last_failed_at : time;
  dlj_status : DeadLetterStatus
}.
#[export] Instance dead_letter_settable : Settable DeadLetterJob := λ r,
  mk_dead_letter (dlj_workspace_id r) (dlj_related_table r) (dlj_related_id r) (dlj_job_type r) (dlj_payload r) (dlj_failure_reason r) (dlj_attempt_count r) (dlj_first_failed_at r) (dlj_last_failed_at r) (dlj_status r).

(** [models/backpressure.py]; one row per workspace *)
Record WorkspaceBackpressureState : Type := mk_backpressure {
  bps_state : BackpressureState;
  bps_pending_depth : Z;
  bps_entered_at : option time;
  bps_updated_at : time
}.
#[export] Instance backpressure_settable : Settable WorkspaceBackpressureState := λ r,
  mk_backpressure (bps_state r) (bps_pending_depth r) (bps_entered_at r) (bps_updated_at r).

(** [models/backpressure.py]; unique on (workspace_id, provider) *)
Record ProviderConcurrencyBudget : Type := mk_budget {
  bud_max_concurrent : Z
}.
#[export] Instance budget_settable : Settable ProviderConcurrencyBudget := λ r,
  mk_budget (bud_max_concurrent r).

(** [models/provider_effects.py]; unique on (workspace_id, effect_key) *)
Record ProviderEffectKey : Type := mk_effect {
  eff_assignment_id : id;
  eff_attempt_number : Z;
  eff_effect_kind : string
}.
#[export] Instance effect_settable : Settable ProviderEffectKey := λ r,
  mk_effect (eff_assignment_id r) (eff_attempt_number r) (eff_effect_kind r).

(** [models/claim_audit.py] *)
Record StageClaimAudit : Type := mk_claim_audit {
  ca_workspace_id : id;
  ca_assignment_id : option id;
  ca_worker_id : id;
  ca_outcome : ClaimOutcome;
  ca_stage : option ContentStage;
  ca_detail : option string;
  ca_correlation_id : option id
}.
#[export] Instance claim_audit_settable : Settable StageClaimAudit := λ r,
  mk_claim_audit (ca_workspace_id r) (ca_assignment_id r) (ca_worker_id r) (ca_outcome r) (ca_stage r) (ca_detail r) (ca_correlation_id r).

(** [models/recovery_audit.py] *)
Record StageRecoveryAudit : Type := mk_recovery_audit {
  ra_workspace_id : id;
  ra_assignment_id : id;
  ra_previous_worker_id : option id;
  ra_reason : RecoveryReason;
  ra_previous_status : StageAssignmentStatus;
  ra_previous_attempt : Z;
  ra_new_attempt : option Z;
  ra_outcome : RecoveryOutcome;
  ra_detail : option string;
  ra_correlation_id : option id
}.
#[export] Instance recovery_audit_settable : Settable StageRecoveryAudit := λ r,
  mk_recovery_audit (ra_workspace_id r) (ra_assignment_id r) (ra_previous_worker_id r) (ra_reason r) (ra_previous_status r) (ra_previous_attempt r) (ra_new_attempt r) (ra_outcome r) (ra_detail r) (ra_correlation_id r).

(** [models/workers.py] *)
Record WorkerCredential : Type := mk_credential {
  cred_worker_id : id;
  cred_workspace_id : id;
  cred_secret_hash : string;
  cred_status : WorkerCredentialStatus;
  cred_rotated_at : option time;
  cred_expires_at : option time
}.
#[export] Instance credential_settable : Settable WorkerCredential := λ r,
  mk_credential (cred_worker_id r) (cred_workspace_id r) (cred_secret_hash r) (cred_status r) (cred_rotated_at r) (cred_expires_at r).

(** [models/workers.py] *)
Record WorkerHeartbeat : Type := mk_heartbeat {
  whb_worker_id : id;
  whb_status : WorkerStatus;
  whb_current_load : Z;
  whb_heartbeat_at : time
}.
#[export] Instance heartbeat_settable : Settable WorkerHeartbeat := λ r,
  mk_heartbeat (whb_worker_id r) (whb_status r) (whb_current_load r) (whb_heartbeat_at r).

(** [models/worker_logs.py] *)
Record WorkerLog : Type := mk_worker_log {
  wlog_workspace_id : id;
  wlog_worker_id : id;
  wlog_pipeline_run_id : option id;
  wlog_assignment_id : option id;
  wlog_severity : string;
  wlog_message : string;
  wlog_context : json;
  wlog_occurred_at : time;
  wlog_received_at : time
}.
#[export] Instance worker_log_settable : Settable WorkerLog := λ r,
  mk_worker_log (wlog_workspace_id r) (wlog_worker_id r) (wlog_pipeline_run_id r) (wlog_assignment_id r) (wlog_severity r) (wlog_message r) (wlog_context r) (wlog_occurred_at r) (wlog_received_at r).

(** [models/automation.py]; keyed by loop name *)
Record AutomationLease : Type := mk_lease {
  lse_owner_id : option string;
  lse_owner_started_at : option time;
  lse_lease_expires_at : option time;
  lse_last_heartbeat_at : option time;
  lse_last_ok_at : option time;
  lse_last_error : option string;
  lse_tick_count : Z;
  lse_work_count : Z
}.
#[export] Instance lease_settable : Settable AutomationLease := λ r,
  mk_lease (lse_owner_id r) (lse_owner_started_at r) (lse_lease_expires_at r) (lse_last_heartbeat_at r) (lse_last_ok_at r) (lse_last_error r) (lse_tick_count r) (lse_work_count r).

(** ** The state an operation runs against

    [w_now] is the clock an operation reads ([datetime.now(UTC)]; one reading
    per operation), [w_next] the next [uuid.uuid4()], [w_draw] the draw of
    [random.random()] in units of [2^-53].  Sessions are opened with
    [autoflush=False]: a [select] sees only flushed rows.  The one query of
    the engine that can run while a row it filters on is dirty reads the
    review gates, so [w_gates_db] is the flushed copy of [w_gates];
    [flush] brings it up to date. *)
Record World : Type := mk_world {
  w_now : time;
  w_next : id;
  w_draw : Z;
  w_workspaces : gmap id Workspace;
  w_definitions : gmap id WorkflowDefinition;
  w_stages : gmap (id * ContentStage) WorkflowStage;
  w_transitions : gmap id WorkflowTransition;
  w_runs : gmap id PipelineRun;
  w_stage_runs : gmap (id * ContentStage * Z) PipelineStageRun;
  w_gates : gmap id ReviewGate;
  w_gates_db : gmap id ReviewGate;
  w_decisions : gmap id ReviewDecision;
  w_jobs : gmap id JobSchedule;
  w_limits : gmap id WorkspaceConcurrencyLimit;
  w_assignments : gmap id StageAssignment;
  w_workers : gmap id WorkerRegistration;
  w_reservations : gmap id SpendReservation;
  w_spend_logs : gmap id SpendLog;
  w_caps : gmap (id * option string) SpendCap;
  w_items : gmap id ContentItem;
  w_versions : gmap id ContentVersion;
  w_outbox : gmap id OutboxEvent;
  w_consumers : gmap string EventConsumer;
  w_checkpoints : gmap (id * string * id) ConsumerCheckpoint;
  w_dead_letters : gmap id DeadLetterJob;
  w_backpressure : gmap id WorkspaceBackpressureState;
  w_budgets : gmap (id * string) ProviderConcurrencyBudget;
  w_effects : gmap (id * string) ProviderEffectKey;
  w_claim_audit : gmap id StageClaimAudit;
  w_recovery_audit : gmap id StageRecoveryAudit;
  w_credentials : gmap id WorkerCredential;
  w_heartbeats : gmap id WorkerHeartbeat;
  w_worker_logs : gmap id WorkerLog;
  w_leases : gmap string AutomationLease
}.
#[export] Instance world_settable : Settable World := λ r,
  mk_world (w_now r) (w_next r) (w_draw r) (w_workspaces r) (w_definitions r) (w_stages r) (w_transitions r) (w_runs r) (w_stage_runs r) (w_gates r) (w_gates_db r) (w_decisions r) (w_jobs r) (w_limits r) (w_assignments r) (w_workers r) (w_reservations r) (w_spend_logs r) (w_caps r) (w_items r) (w_versions r) (w_outbox r) (w_consumers r) (w_checkpoints r) (w_dead_letters r) (w_backpressure r) (w_budgets r) (w_effects r) (w_claim_audit r) (w_recovery_audit r) (w_credentials r) (w_heartbeats r) (w_worker_logs r) (w_leases r).

(** ** Exceptions *)
Inductive exn : Type :=
| ValueError (msg : string)
| KeyError (key : string)
| TypeError
| AttributeError
| InvalidOperation
| OverflowError
| IndexError
| RuntimeError (msg : string)
| NotImplementedError
| IntegrityError (constraint : string)
| DataError (value : string)
| MultipleResultsFound
| NoSuchRow (table : string)
| LeaseNotOwned
| LeaseConflict (code : string)
| ReviewGateNotFoundError
| ReviewGateDeliveryError
| SpendBudgetExceededError
| PublicationBlocked (code : string)
| LeonSpendExceeded (msg : string)
| LeonVoiceError (detail stage : string)
| BillingError (code detail : string)
| AuthError (code message : string)
| LookupError (msg : string)
| ResearchGateError (msg : string)
| StrategyGateError (msg : string)
| StrategyAuditGateError (msg : string)
| ContentDepartmentGateError (msg : string)
| ContentDepartmentNotFoundError (msg : string)
| ProductionNotFoundError (msg : string)
| ProductionEligibilityError (msg : string)
| ProducerGateError (msg : string)
| ComplianceNotFoundError (msg : string)
| ComplianceGateError (msg : string)
| HTTPException (status_code : Z) (detail : string)
| HTTPExceptionDetail (status_code : Z) (detail : json).

(** [str(exc)], of the exceptions that are reported by their text *)
Definition exn_str (e : exn) : string :=
  match e with
  | ValueError m | RuntimeError m | IntegrityError m | LookupError m
  | ResearchGateError m | StrategyGateError m | StrategyAuditGateError m
  | ContentDepartmentGateError m | ContentDepartmentNotFoundError m
  | ProductionNotFoundError m | ProductionEligibilityError m | ProducerGateError m
  | ComplianceNotFoundError m | ComplianceGateError m => m
  | KeyError k => ("'" +:+ k +:+ "'")%string
  | LeaseConflict c => c
  | _ => EmptyString
  end.

(** ** Settings ([core/config.py]); the bounds are those pydantic enforces
    with [Field(ge=...)]. *)
Class Settings := {
  assignment_lease_seconds : Z;
  assignment_max_lease_seconds : Z;
  assignment_reaper_batch_size : nat;
  assignment_default_max_attempts : Z;
  assignment_age_boost_interval_seconds : Z;
  assignment_age_boost_per_interval : Z;
  assignment_age_boost_max : Z;
  workspace_tier_priority_weight : Z;
  queue_soft_limit_default : Z;
  queue_hard_limit_default : Z;
  worker_suspect_after_seconds : Z;
  worker_offline_after_seconds : Z;
  worker_credential_rotation_grace_seconds : Z;
  worker_capability_protocol_versions : list Z;
  scheduler_batch_size : nat;
  default_stage_estimate_usd : usd;
  default_daily_spend_cap_usd : usd;
  default_monthly_spend_cap_usd : usd;
  age_boost_interval_ge1 : 1 ≤ assignment_age_boost_interval_seconds;
  age_boost_per_interval_ge0 : 0 ≤ assignment_age_boost_per_interval;
  age_boost_max_ge0 : 0 ≤ assignment_age_boost_max;
  priority_weight_ge1 : 1 ≤ workspace_tier_priority_weight;
  stage_estimate_ge0 : 0 ≤ default_stage_estimate_usd
}.

(** The defaults of [Settings]. *)
Definition default_settings : Settings.
Proof.
  refine {|
    assignment_lease_seconds := 60;
    assignment_max_lease_seconds := 900;
    assignment_reaper_batch_size := 100;
    assignment_default_max_attempts := 3;
    assignment_age_boost_interval_seconds := 60;
    assignment_age_boost_per_interval := 1;
    assignment_age_boost_max := 100;
    workspace_tier_priority_weight := 10;
    queue_soft_limit_default := 50;
    queue_hard_limit_default := 200;
    worker_suspect_after_seconds := 30;
    worker_offline_after_seconds := 90;
    worker_credential_rotation_grace_seconds := 3600;
    worker_capability_protocol_versions := [1];
    scheduler_batch_size := 50%nat;
    default_stage_estimate_usd := 100;
    default_daily_spend_cap_usd := 500000;
    default_monthly_spend_cap_usd := 10000000
  |}; lia.
Defined.

(** The empty database, at a given instant. *)
Definition empty_world (now : time) : World :=
  mk_world now 1%positive 0 ∅ ∅ ∅ ∅ ∅ ∅ ∅ ∅ ∅ ∅ ∅ ∅ ∅ ∅ ∅ ∅ ∅ ∅ ∅ ∅ ∅ ∅ ∅ ∅ ∅ ∅ ∅ ∅ ∅ ∅ ∅.

Abbreviation M := (ST World exn).
