(* ===== verification/Database.v ===== *)
(** * Session primitives

    What the services use of a SQLAlchemy session: primary-key lookup, [select] with a predicate, [COUNT] and [SUM], inserting a row,
    assigning columns of a row, [flush], the clock and [uuid4].  Row locks
    ([FOR UPDATE], [SKIP LOCKED]) order concurrent transactions; an operation
    here is one whole transaction, and concurrency is a sequence of them. *)

From S2P Require Import Prelude Models.

Definition now : M Z := gets w_now.

Definition uuid4 : M positive :=
  i ← gets w_next;
  update w_next Pos.succ;;
  mret i.

(** [session.flush()]: pending column changes reach the database. *)
Definition flush : M unit :=
  g ← gets w_gates;
  update w_gates_db (λ _, g).

(** [x or y] on an optional identifier *)
Definition or_uuid4 (o : option positive) : M positive :=
  match o with Some i => mret i | None => uuid4 end.

Section Access.
Context {S K A : Type} `{Countable K}.

Definition session_get (t : S → gmap K A) (i : K) : ST S exn (option A) :=
  gets (λ w : S, t w !! i).
(** [session.get(T, i)] with an optional key: a null key has no row *)
Definition session_get_opt (t : S → gmap K A) (i : option K) : ST S exn (option A) :=
  gets (λ w : S, i ≫= λ i, t w !! i).
(** the object an operation was handed (it is a row of the session) *)
Definition the (t : S → gmap K A) (i : K) : ST S exn A :=
  o ← session_get t i;
  match o with Some x => mret x | None => raise (NoSuchRow "") end.
Definition select (t : S → gmap K A) (P : K → A → bool) : ST S exn (list (K * A)) :=
  gets (λ w : S, rows P (t w)).
Definition select_count (t : S → gmap K A) (P : K → A → bool) : ST S exn Z :=
  gets (λ w : S, tcount P (t w)).
Definition select_sum (t : S → gmap K A) (f : K → A → Z) : ST S exn Z :=
  gets (λ w : S, tsum f (t w)).
Definition insert_row (t : S → gmap K A) `{!Setter t} (i : K) (x : A) : ST S exn unit :=
  update t <[i:=x]>.
Definition modify (t : S → gmap K A) `{!Setter t} (i : K) (g : A → A) : ST S exn unit :=
  update t (alter g i).
End Access.

Definition scalar_one_or_none {S A} (l : list A) : ST S exn (option A) :=
  match l with
  | [] => mret None
  | [x] => mret (Some x)
  | _ => raise MultipleResultsFound
  end.

(** ** Frames of the primitives *)

Section Frames.
Context (R : relation World) `{!PreOrder R}.

Lemma keeps_now : keeps R now.
Proof. unfold now. keeps_tac. Qed.
Lemma keeps_uuid4 `{!Closed w_next R} : keeps R uuid4.
Proof. unfold uuid4. keeps_tac. Qed.
Lemma keeps_or_uuid4 `{!Closed w_next R} o : keeps R (or_uuid4 o).
Proof. unfold or_uuid4. destruct o; [keeps_tac|by apply keeps_uuid4]. Qed.
Lemma keeps_flush `{!Closed w_gates_db R} : keeps R flush.
Proof. unfold flush. keeps_tac. Qed.
End Frames.

Section AccessFrames.
Context {S : Type} (R : relation S) `{!PreOrder R}.

Lemma keeps_session_get {K A} `{Countable K} (t : S → gmap K A) i :
  keeps R (session_get t i).
Proof. unfold session_get. keeps_tac. Qed.
Lemma keeps_session_get_opt {K A} `{Countable K} (t : S → gmap K A) i :
  keeps R (session_get_opt t i).
Proof. unfold session_get_opt. keeps_tac. Qed.
Lemma keeps_the {K A} `{Countable K} (t : S → gmap K A) i : keeps R (the t i).
Proof. unfold the, session_get. keeps_tac. Qed.
Lemma keeps_select {K A} `{Countable K} (t : S → gmap K A) P :
  keeps R (select t P).
Proof. unfold select. keeps_tac. Qed.
Lemma keeps_select_count {K A} `{Countable K} (t : S → gmap K A) P :
  keeps R (select_count t P).
Proof. unfold select_count. keeps_tac. Qed.
Lemma keeps_select_sum {K A} `{Countable K} (t : S → gmap K A) f :
  keeps R (select_sum t f).
Proof. unfold select_sum. keeps_tac. Qed.
Lemma keeps_insert_row {K A} `{Countable K} (t : S → gmap K A)
    `{!Setter t, !Closed t R} i x : keeps R (insert_row t i x).
Proof. unfold insert_row. keeps_tac. Qed.
Lemma keeps_modify {K A} `{Countable K} (t : S → gmap K A)
    `{!Setter t, !Closed t R} i g : keeps R (modify t i g).
Proof. unfold modify. keeps_tac. Qed.
Lemma keeps_scalar_one_or_none {A} (l : list A) : keeps R (scalar_one_or_none (S:=S) l).
Proof. unfold scalar_one_or_none. keeps_tac. Qed.
End AccessFrames.

#[export] Hint Resolve keeps_now keeps_uuid4 keeps_or_uuid4 keeps_flush
  keeps_session_get keeps_session_get_opt keeps_the keeps_select
  keeps_select_count keeps_select_sum keeps_insert_row keeps_modify
  keeps_scalar_one_or_none : keeps.

(** ** Runs of the primitives *)

Section PrimRuns.

Lemma run_the {S K A} `{Countable K} (t : S → gmap K A) i (w : S) :
  the t i w = (match t w !! i with
               | Some x => Ok x
               | None => Raise (NoSuchRow "") end, w).
Proof. unfold the, session_get. rewrite run_bind. simpl. by destruct (t w !! i). Qed.

Lemma the_ok_inv {S K A} `{Countable K} (t : S → gmap K A) i (w : S) x w' :
  the t i w = (Ok x, w') → t w !! i = Some x ∧ w' = w.
Proof. rewrite run_the. destruct (t w !! i); naive_solver. Qed.

Lemma or_uuid4_some i (w : World) : or_uuid4 (Some i) w = (Ok i, w).
Proof. done. Qed.

Lemma or_uuid4_returns o (w : World) : returns (or_uuid4 o) w.
Proof. destruct o; eexists _, _; reflexivity. Qed.

Lemma scalar_one_or_none_inv {S A} (l : list A) (w : S) o w' :
  scalar_one_or_none l w = (Ok o, w') →
  w' = w ∧ ((l = [] ∧ o = None) ∨ ∃ x, l = [x] ∧ o = Some x).
Proof. destruct l as [|x [|y l]]; simpl; intros [=<- <-]; naive_solver. Qed.
End PrimRuns.

(** ** Fresh identifiers

    Every key of a table is below the next [uuid4]: the keys handed out so
    far are distinct from the ones still to come. *)
Definition below {A} (n : positive) (m : gmap positive A) : Prop :=
  ∀ i x, m !! i = Some x → (i < n)%positive.

Section Below.
Context {A : Type}.
Implicit Types m : gmap positive A.

Lemma below_fresh n m : below n m → m !! n = None.
Proof.
  intros Hb. destruct (m !! n) as [x|] eqn:Hn; [|done].
  specialize (Hb _ _ Hn). lia.
Qed.
Lemma below_weaken n n' m : (n ≤ n')%positive → below n m → below n' m.
Proof. intros Hn Hb i x Hi. specialize (Hb i x Hi). lia. Qed.
Lemma below_empty n : below n (∅ : gmap positive A).
Proof. intros i x. by rewrite lookup_empty. Qed.
Lemma below_insert n i x m : (i < n)%positive → below n m → below n (<[i:=x]> m).
Proof.
  intros Hi Hb j y. rewrite lookup_insert. case_decide; [naive_solver|apply Hb].
Qed.
Lemma below_alter n i g m : below n m → below n (alter g i m).
Proof.
  intros Hb j y. rewrite lookup_alter. case_decide; [|apply Hb].
  subst. intros (x & Hx & _)%fmap_Some. by apply (Hb j x).
Qed.
End Below.
