(* ===== verification/Outbox.v ===== *)
(** * The transactional outbox (orchestration/outbox.py, events/envelope.py)

    [emit] appends one event to the log inside the caller's transaction, with
    the next sequence number of its aggregate.  The class [Engine] is what
    the rest of the engine relies on: a relation between states that the
    [uuid4] supply, [flush] and [emit] keep. *)

From S2P Require Import Prelude Models Database.

(** ** Envelope: trace propagation and payload upcasting *)

Definition new_trace_id : M positive := uuid4.
Definition new_span_id : M positive := uuid4.

Definition child_span (trace_id : option positive) : M (positive * positive) :=
  t ← match trace_id with Some t => mret t | None => new_trace_id end;
  s ← new_span_id;
  mret (t, s).

(** The registry [_UPCASTERS]: (event type, from version) to a function. *)
Abbreviation upcasters := (gmap (string * Z) (json → json)).

Definition register_upcaster (event_type : string) (from_version : Z)
    (fn : json → json) (ups : upcasters) : upcasters :=
  <[(event_type, from_version) := fn]> ups.

(** the [while current_version < target_version] loop *)
Fixpoint upcast_loop (fuel : nat) (ups : upcasters) (event_type : string)
    (current_version : Z) (payload : json) (target_version : Z) : Z * json :=
  match fuel with
  | O => (current_version, payload)
  | S fuel =>
      if current_version <? target_version then
        match ups !! (event_type, current_version) with
        | None => (current_version, payload)
        | Some fn =>
            upcast_loop fuel ups event_type (current_version + 1) (fn payload) target_version
        end
      else (current_version, payload)
  end.

Definition upcast (ups : upcasters) (event_type : string) (version : Z)
    (payload : json) (target_version : Z) : json :=
  (upcast_loop (Z.to_nat (target_version - version)) ups event_type
     version payload target_version).2.

(** ** Emitting *)

(** SQL [MAX]: null on no rows *)
Definition sql_max (l : list Z) : option Z :=
  match l with
  | [] => None
  | x :: l => Some (foldr Z.max x l)
  end.

Definition same_aggregate (aggregate_type : string) (aggregate_id : positive)
    (_ : positive) (e : OutboxEvent) : bool :=
  bool_decide (ev_aggregate_type e = aggregate_type ∧ ev_aggregate_id e = aggregate_id).

Definition next_sequence (aggregate_type : string) (aggregate_id : positive) : M Z :=
  es ← select w_outbox (same_aggregate aggregate_type aggregate_id);
  mret (default 0 (sql_max ((λ p, ev_sequence p.2) <$> es)) + 1).

Definition emit (event_type : string) (workspace_id : positive)
    (aggregate_type : string) (aggregate_id correlation_id : positive)
    (trace_id span_id : option positive) (payload : json) (produced_by : string)
    (causation_id : option positive) (event_version : Z) : M positive :=
  sequence ← next_sequence aggregate_type aggregate_id;
  event_id ← uuid4;
  t ← now;
  insert_row w_outbox event_id
    (mk_event workspace_id event_type event_version aggregate_type aggregate_id
       correlation_id causation_id trace_id span_id sequence payload
       EVENT_PENDING 0 t produced_by);;
  flush;;
  mret event_id.

Record EventEnvelope : Type := mk_envelope {
  env_event_type : string;
  env_workspace_id : positive;
  env_aggregate_type : string;
  env_aggregate_id : positive;
  env_correlation_id : positive;
  env_payload : json;
  env_produced_by : string;
  env_causation_id : option positive;
  env_trace_id : option positive;
  env_span_id : option positive;
  env_event_version : Z
}.

Definition emit_envelope (e : EventEnvelope) : M positive :=
  emit (env_event_type e) (env_workspace_id e) (env_aggregate_type e)
    (env_aggregate_id e) (env_correlation_id e) (env_trace_id e) (env_span_id e)
    (env_payload e) (env_produced_by e) (env_causation_id e) (env_event_version e).

(** ** The interface: relations an emitting operation keeps

    The verdict of a reviewer is announced by [submit_review_decision] alone;
    every other operation emits events of another type. *)

Definition verdict_event (event_type : string) : bool :=
  String.eqb event_type "review.approved" || String.eqb event_type "review.rejected".

Class Engine (R : relation World) : Prop := {
  engine_preorder :: PreOrder R;
  engine_uuid4 : keeps R uuid4;
  engine_flush : keeps R flush;
  engine_emit : ∀ ty ws aggt agg corr tr sp pl by_ ca v, verdict_event ty = false →
    keeps R (emit ty ws aggt agg corr tr sp pl by_ ca v)
}.

(** Relations that the emission of any event keeps. *)
Class EmitAny (R : relation World) : Prop :=
  emit_any : ∀ ty ws aggt agg corr tr sp pl by_ ca v,
    keeps R (emit ty ws aggt agg corr tr sp pl by_ ca v).

Lemma keeps_child_span R `{!Engine R} t : keeps R (child_span t).
Proof. pose proof engine_uuid4. unfold child_span, new_trace_id, new_span_id. keeps_tac. Qed.

Lemma keeps_emit R `{!Engine R} ty ws aggt agg corr tr sp pl by_ ca v :
  verdict_event ty = false → keeps R (emit ty ws aggt agg corr tr sp pl by_ ca v).
Proof. apply engine_emit. Qed.

Lemma keeps_or_uuid4_engine R `{!Engine R} o : keeps R (or_uuid4 o).
Proof. pose proof engine_uuid4. unfold or_uuid4. destruct o; [keeps_tac|done]. Qed.

#[export] Hint Resolve keeps_child_span keeps_emit emit_any engine_uuid4 engine_flush
  keeps_or_uuid4_engine : keeps.
#[export] Hint Extern 0 (verdict_event _ = false) => (repeat case_match; reflexivity) : keeps.

(** A relation that does not look at the outbox or the flushed gates, and
    that [uuid4] keeps, is kept by every emission. *)
Lemma emit_any_of_uuid4 R `{!PreOrder R, !Closed w_outbox R, !Closed w_gates_db R} :
  keeps R uuid4 → EmitAny R.
Proof. intros Hu ty ws aggt agg corr tr sp pl by_ ca v. unfold emit, next_sequence. keeps_tac. Qed.

Lemma engine_of_uuid4 R `{!PreOrder R, !Closed w_outbox R, !Closed w_gates_db R} :
  keeps R uuid4 → Engine R.
Proof.
  intros Hu. split; [done|done|auto with keeps typeclass_instances|].
  intros. by apply emit_any_of_uuid4.
Qed.

#[export] Instance engine_closed R `{!PreOrder R, !Closed w_next R,
  !Closed w_outbox R, !Closed w_gates_db R} : Engine R.
Proof. apply engine_of_uuid4; auto with keeps typeclass_instances. Qed.
#[export] Instance emit_any_closed R `{!PreOrder R, !Closed w_next R,
  !Closed w_outbox R, !Closed w_gates_db R} : EmitAny R.
Proof. apply emit_any_of_uuid4; auto with keeps typeclass_instances. Qed.

(** ** Sequence numbers are dense *)

Definition aggregate_count (t : string) (a : positive) (w : World) : Z :=
  tcount (same_aggregate t a) (w_outbox w).

(** The events of an aggregate are numbered 1, 2, ..., n without repetition. *)
Definition outbox_wf (w : World) : Prop :=
  below (w_next w) (w_outbox w) ∧
  (∀ i e, w_outbox w !! i = Some e →
    1 ≤ ev_sequence e ≤ aggregate_count (ev_aggregate_type e) (ev_aggregate_id e) w) ∧
  (∀ t a k, 1 ≤ k ≤ aggregate_count t a w →
    ∃ i e, w_outbox w !! i = Some e ∧ same_aggregate t a i e = true ∧ ev_sequence e = k) ∧
  (∀ i j e f, w_outbox w !! i = Some e → w_outbox w !! j = Some f →
    ev_aggregate_type e = ev_aggregate_type f → ev_aggregate_id e = ev_aggregate_id f →
    ev_sequence e = ev_sequence f → i = j).

Section OutboxWf.
Context (w : World) (Hwf : outbox_wf w).
Lemma outbox_below : below (w_next w) (w_outbox w).
Proof using Hwf. apply Hwf. Qed.
Lemma outbox_range i e : w_outbox w !! i = Some e →
  1 ≤ ev_sequence e ≤ aggregate_count (ev_aggregate_type e) (ev_aggregate_id e) w.
Proof using Hwf. apply Hwf. Qed.
Lemma outbox_onto t a k : 1 ≤ k ≤ aggregate_count t a w →
  ∃ i e, w_outbox w !! i = Some e ∧ same_aggregate t a i e = true ∧ ev_sequence e = k.
Proof using Hwf. apply Hwf. Qed.
Lemma outbox_inj i j e f : w_outbox w !! i = Some e → w_outbox w !! j = Some f →
  ev_aggregate_type e = ev_aggregate_type f → ev_aggregate_id e = ev_aggregate_id f →
  ev_sequence e = ev_sequence f → i = j.
Proof using Hwf. apply Hwf. Qed.
End OutboxWf.

(** ** Lemmas *)

Lemma sql_max_spec l m : sql_max l = Some m → m ∈ l ∧ ∀ x, x ∈ l → x ≤ m.
Proof.
  destruct l as [|x l]; simpl; [done|]. intros [= <-].
  induction l as [|y l [IHin IHle]]; simpl.
  - split; [by left|]. intros y [->|[]%not_elem_of_nil]%elem_of_cons. lia.
  - split.
    + destruct (Z.max_spec y (foldr Z.max x l)) as [[_ ->]|[_ ->]]; [|by right; left].
      apply elem_of_cons in IHin as [->|?]; [by left|by right; right].
    + intros z [->|[->|Hz]%elem_of_cons]%elem_of_cons; [| lia |].
      * specialize (IHle x ltac:(left)). lia.
      * specialize (IHle z ltac:(by right)). lia.
Qed.

Lemma run_next_sequence t a w :
  outbox_wf w → next_sequence t a w = (Ok (aggregate_count t a w + 1), w).
Proof.
  intros Hwf. unfold next_sequence, select. rewrite run_bind. simpl.
  unfold mret, st_ret. do 2 f_equal. f_equal.
  destruct (sql_max _) as [m|] eqn:Hm; simpl.
  - apply sql_max_spec in Hm as [Hin Hle].
    apply list_elem_of_fmap in Hin as ([i e] & -> & [Hi He]%elem_of_rows). simpl in *.
    pose proof He as [Ht Ha]%bool_decide_eq_true. subst.
    destruct (outbox_range w Hwf i e Hi) as [Hr1 Hr2].
    destruct (outbox_onto w Hwf (ev_aggregate_type e) (ev_aggregate_id e)
                (aggregate_count (ev_aggregate_type e) (ev_aggregate_id e) w))
      as (j & f & Hj & Hf & Hs); [lia|].
    specialize (Hle (ev_sequence f)). apply Z.le_antisymm; [done|].
    rewrite <- Hs. apply Hle, list_elem_of_fmap. exists (j, f).
    split; [done|]. by apply elem_of_rows.
  - symmetry. apply tcount_zero. intros i e Hi.
    destruct (same_aggregate t a i e) eqn:He; [|done].
    assert (Hin : (i, e) ∈ rows (same_aggregate t a) (w_outbox w)) by by apply elem_of_rows.
    destruct (rows _ _); [by apply not_elem_of_nil in Hin|done].
Qed.

(** What [emit] does to a state, for the sequence number [n] it computes. *)
Definition emitted (event_type : string) (ws : positive) (aggt : string) (agg corr : positive)
    (tr sp : option positive) (pl : json) (by_ : string) (ca : option positive) (v n : Z)
    (w : World) : World :=
  w <| w_next ::= Pos.succ |>
    <| w_outbox ::= <[w_next w := mk_event ws event_type v aggt agg corr ca tr sp n pl
                       EVENT_PENDING 0 (w_now w) by_]> |>
    <| w_gates_db := w_gates w |>.

Lemma run_emit ty ws aggt agg corr tr sp pl by_ ca v w n :
  next_sequence aggt agg w = (Ok n, w) →
  emit ty ws aggt agg corr tr sp pl by_ ca v w
  = (Ok (w_next w), emitted ty ws aggt agg corr tr sp pl by_ ca v n w).
Proof. intros Hn. unfold emit. rewrite (run_bind_ok _ _ _ _ _ Hn). done. Qed.

Lemma aggregate_count_insert t a i e w w' :
  w_outbox w !! i = None → w_outbox w' = <[i:=e]> (w_outbox w) →
  aggregate_count t a w'
  = (if same_aggregate t a i e then 1 else 0) + aggregate_count t a w.
Proof. intros Hi Ho. unfold aggregate_count, tcount. rewrite Ho. by apply tsum_insert_None. Qed.

Lemma outbox_wf_insert w w' e :
  outbox_wf w → w_outbox w' = <[w_next w := e]> (w_outbox w) →
  (w_next w < w_next w')%positive →
  ev_sequence e = aggregate_count (ev_aggregate_type e) (ev_aggregate_id e) w + 1 →
  outbox_wf w'.
Proof.
  intros Hwf Ho Hn Hseq. pose proof (below_fresh _ _ (outbox_below w Hwf)) as Hfresh.
  pose proof (λ t a, aggregate_count_insert t a _ e w w' Hfresh Ho) as Hcount.
  assert (Hcn : 0 ≤ aggregate_count (ev_aggregate_type e) (ev_aggregate_id e) w)
    by apply tcount_nonneg.
  unfold outbox_wf; rewrite Ho; split_and!.
  - apply below_insert; [done|]. eapply below_weaken; [|apply Hwf]. lia.
  - intros i f. rewrite lookup_insert. rewrite Hcount. case_decide as Hi; [intros [= <-]|].
    + unfold same_aggregate. rewrite bool_decide_true by done. lia.
    + intros Hf. pose proof (outbox_range w Hwf i f Hf). case_match; lia.
  - intros t a k. rewrite Hcount. intros Hk.
    destruct (decide (k ≤ aggregate_count t a w)) as [Hle|Hgt].
    + destruct (outbox_onto w Hwf t a k) as (j & f & Hj & Hf & Hs); [lia|].
      exists j, f. split; [|done]. rewrite lookup_insert_ne; congruence.
    + destruct (same_aggregate t a (w_next w) e) eqn:He; [|lia].
      exists (w_next w), e. rewrite lookup_insert_eq. split_and!; [done..|].
      apply bool_decide_eq_true in He as [<- <-]. lia.
  - intros i j f g. rewrite !lookup_insert.
    case_decide as Hi; case_decide as Hj; [congruence| | |].
    + intros [= <-] Hg Ht Ha Hs. pose proof (outbox_range w Hwf j g Hg) as Hr.
      rewrite <- Ht, <- Ha in Hr. lia.
    + intros Hf [= <-] Ht Ha Hs. pose proof (outbox_range w Hwf i f Hf) as Hr.
      rewrite Ht, Ha in Hr. lia.
    + apply (outbox_inj w Hwf).
Qed.

(** [outbox_wf] only reads the outbox and the supply. *)
Lemma outbox_wf_ext w w' :
  w_outbox w' = w_outbox w → (w_next w ≤ w_next w')%positive → outbox_wf w → outbox_wf w'.
Proof.
  intros Ho Hn (Hb & Hr & Hs & Hi).
  unfold outbox_wf, aggregate_count in *; rewrite Ho. split_and!; [|done..].
  by eapply below_weaken.
Qed.

(** Engine operations only ever add events in sequence. *)
#[export] Instance emit_any_outbox_wf : EmitAny (preserved outbox_wf).
Proof.
  intros ty ws aggt agg corr tr sp pl by_ ca v w Hwf.
  rewrite (run_emit _ _ _ _ _ _ _ _ _ _ _ _ _ (run_next_sequence aggt agg w Hwf)).
  eapply outbox_wf_insert; [done|done|simpl; lia|done].
Qed.
#[export] Instance engine_outbox_wf : Engine (preserved outbox_wf).
Proof.
  split; [apply _|..].
  - intros w Hwf. apply (outbox_wf_ext w); [done|simpl; lia|done].
  - intros w Hwf. by apply (outbox_wf_ext w).
  - intros. apply emit_any.
Qed.

(** Marking an event (its status, its delivery attempts) leaves its place in
    the sequence of its aggregate, its type and its payload. *)
Definition same_place (e e' : OutboxEvent) : Prop :=
  ev_aggregate_type e' = ev_aggregate_type e ∧ ev_aggregate_id e' = ev_aggregate_id e ∧
  ev_sequence e' = ev_sequence e ∧ ev_type e' = ev_type e ∧ ev_payload e' = ev_payload e.

Class EventRows (R : relation World) : Prop :=
  event_rows : ∀ i g, (∀ e, same_place e (g e)) → keeps R (modify w_outbox i g).
#[export] Hint Resolve event_rows : keeps.
#[export] Hint Extern 0 (∀ e : OutboxEvent, same_place e _) =>
  (intro; unfold same_place; split_and!; reflexivity) : keeps.
#[export] Instance event_rows_closed R `{!PreOrder R, !Closed w_outbox R} : EventRows R.
Proof. intros i g _. keeps_tac. Qed.

Lemma aggregate_count_mark t a i g w :
  (∀ e, same_place e (g e)) →
  aggregate_count t a (w <| w_outbox ::= alter g i |>) = aggregate_count t a w.
Proof.
  intros Hg. unfold aggregate_count, tcount. simpl. apply tsum_alter_same.
  intros e _. destruct (Hg e) as (Ht & Ha & _). unfold same_aggregate. by rewrite Ht, Ha.
Qed.

#[export] Instance event_rows_outbox_wf : EventRows (preserved outbox_wf).
Proof.
  intros i g Hg w (Hb & Hr & Ho & Hi).
  assert (Hlook : ∀ j e', alter g i (w_outbox w) !! j = Some e' →
            ∃ e, w_outbox w !! j = Some e ∧ same_place e e').
  { intros j e'. rewrite lookup_alter. case_decide; [|by exists e'].
    subst. intros (e & He & ->)%fmap_Some. by exists e. }
  change (outbox_wf (w <| w_outbox ::= alter g i |>)). unfold outbox_wf.
  split_and!.
  - by apply below_alter.
  - intros j e' He'. rewrite aggregate_count_mark by done.
    destruct (Hlook j e' He') as (e & He & -> & -> & -> & _). by apply (Hr j).
  - intros t a k. rewrite aggregate_count_mark by done. intros Hk.
    destruct (Ho t a k Hk) as (j & e & He & Hs & Hq). simpl.
    destruct (decide (i = j)) as [->|Hne].
    + exists j, (g e). rewrite lookup_alter_eq, He. destruct (Hg e) as (Ht & Ha & Hsq & _).
      unfold same_aggregate in *. by rewrite Ht, Ha, Hsq.
    + exists j, e. by rewrite lookup_alter_ne.
  - intros j k e f He Hf. simpl in He, Hf.
    destruct (Hlook j e He) as (e0 & He0 & -> & -> & -> & _).
    destruct (Hlook k f Hf) as (f0 & Hf0 & -> & -> & -> & _). by apply Hi.
Qed.
