(* ===== verification/Provenance.v ===== *)
(** * Where a run stands

    A run only ever works on a stage it was brought to: the stage it is at,
    the stage of one of its assignments, jobs or gates.  [sourced] names these
    places; [JobRows] is the interface of relations that every update of the
    job table keeps, provided a job that dispatches a stage is added for a
    stage its run was brought to.  A run is brought to publication by the
    approval of one of its gates ([approved_run]).  [evolves] relates two
    states between which the rows of a table moved along a state machine. *)

From S2P Require Import Prelude Models Database Outbox.

(** the job dispatches a stage of a run *)
Definition dispatches (j : JobSchedule) (run : positive) (stage : ContentStage) : Prop :=
  (job_type j = JOB_STAGE ∨ job_type j = JOB_RETRY) ∧ job_ref_id j = run ∧
  ContentStage_of_value (job_ref_table j) = Some stage.

(** Every stage but publication may be worked on; publication only where the
    run stands at it, or an assignment, a job or a gate of the run does. *)
Definition sourced (run : positive) (stage : ContentStage) (w : World) : Prop :=
  stage ≠ PUBLISHED ∨
  (∃ r, w_runs w !! run = Some r ∧ run_current_stage r = stage) ∨
  (∃ i a, w_assignments w !! i = Some a ∧ asn_pipeline_run_id a = run ∧ asn_stage a = stage) ∨
  (∃ i j, w_jobs w !! i = Some j ∧ dispatches j run stage) ∨
  (∃ i g, w_gates w !! i = Some g ∧ gate_pipeline_run_id g = run ∧ gate_stage g = stage).

(** a gate of the run was approved *)
Definition approved_run (run : positive) (w : World) : Prop :=
  ∃ i g, w_gates w !! i = Some g ∧ gate_pipeline_run_id g = run ∧ gate_status g = GATE_APPROVED.

(** ** The job table *)

(** what no update of a job changes *)
Definition same_job (j j' : JobSchedule) : Prop :=
  job_type j' = job_type j ∧ job_ref_id j' = job_ref_id j ∧ job_ref_table j' = job_ref_table j.

(** the stage the job dispatches, if it dispatches one, is one of its run *)
Definition job_sourced (j : JobSchedule) (w : World) : Prop :=
  ∀ run stage, dispatches j run stage → sourced run stage w.

Class JobRows (R : relation World) : Prop := {
  job_modify : ∀ i g, (∀ j, same_job j (g j)) → keeps R (modify w_jobs i g);
  job_add : ∀ i j, keeps_under (job_sourced j) R (insert_row w_jobs i j)
}.
#[export] Instance job_rows_closed R `{!PreOrder R, !Closed w_jobs R} : JobRows R.
Proof. split; [intros i g _; keeps_tac|]. intros i j. apply keeps_under_keeps. keeps_tac. Qed.

#[export] Hint Resolve job_modify : keeps.
#[export] Hint Extern 0 (∀ j : JobSchedule, same_job j _) =>
  (intro; unfold same_job; repeat case_match; split_and!; reflexivity) : keeps.

(** ** Lemmas *)

(** a row update that keeps what [sourced] reads keeps the sources *)
Section Sourced.
Context (run : positive) (stage : ContentStage).

Lemma sourced_modify_run i g :
(∀ r, run_current_stage (g r) = run_current_stage r) →
keeps (preserved (sourced run stage)) (modify w_runs i g).
Proof.
intros Hg w [Hs|[(r & Hr & Hst)|Hs]]; [by left| |by right; right].
right; left. simpl. rewrite lookup_alter. case_decide; [|by exists r].
subst i. rewrite Hr. exists (g r). split; [done|]. by rewrite Hg.
Qed.

Lemma sourced_modify_assignment i g :
(∀ a, asn_pipeline_run_id (g a) = asn_pipeline_run_id a ∧ asn_stage (g a) = asn_stage a) →
keeps (preserved (sourced run stage)) (modify w_assignments i g).
Proof.
intros Hg w [Hs|[Hs|[(j & a & Ha & Hst)|Hs]]]; [by left|by right; left| |by do 3 right].
do 2 right; left. simpl. exists j. rewrite lookup_alter. case_decide; [|by exists a].
subst i. rewrite Ha. exists (g a). split; [done|]. by destruct (Hg a) as [-> ->].
Qed.

Lemma sourced_modify_gate i g :
(∀ x, gate_pipeline_run_id (g x) = gate_pipeline_run_id x ∧ gate_stage (g x) = gate_stage x) →
keeps (preserved (sourced run stage)) (modify w_gates i g).
Proof.
intros Hg w [Hs|[Hs|[Hs|[Hs|(j & x & Hx & Hst)]]]];
  [by left|by right; left|by do 2 right; left|by do 3 right; left|].
do 4 right. simpl. exists j. rewrite lookup_alter. case_decide; [|by exists x].
subst i. rewrite Hx. exists (g x). split; [done|]. by destruct (Hg x) as [-> ->].
Qed.
End Sourced.

#[export] Hint Resolve sourced_modify_run sourced_modify_assignment sourced_modify_gate : keeps.
#[export] Hint Extern 0 (∀ r : PipelineRun, run_current_stage _ = _) =>
  (intro; reflexivity) : keeps.
#[export] Hint Extern 0 (∀ a : StageAssignment, _ ∧ _) => (intro; split; reflexivity) : keeps.
#[export] Hint Extern 0 (∀ x : ReviewGate, _ ∧ _) => (intro; split; reflexivity) : keeps.

(** * Tables whose rows move along a state machine

    [evolves t step new w w']: between the two states every row of the table
    [t] moved along [step], and every row added started as [new] says.  The
    relation is the refinement of a state machine by the system; the keys
    handed out stay below the supply, so that no row is overwritten. *)

Section Evolution.
Context {A : Type} (t : World → gmap positive A) (step : A → A → Prop) (new : A → Prop).

Definition evolves (w w' : World) : Prop :=
  (∀ i a, t w !! i = Some a → ∃ a', t w' !! i = Some a' ∧ rtc step a a') ∧
  (∀ i a', t w' !! i = Some a' → t w !! i = None → ∃ a, new a ∧ rtc step a a').

Definition evolution : relation World := λ w w',
  below (w_next w) (t w) → below (w_next w') (t w') ∧ evolves w w'.

#[export] Instance evolution_preorder : PreOrder evolution.
Proof.
  split.
  { intros w Hb. split; [done|]. split; [intros i a Hi; by exists a|].
    intros i b Hi Hn. by rewrite Hi in Hn. }
  intros w1 w2 w3 H12 H23 Hb1. destruct (H12 Hb1) as (Hb2 & Hs12 & Hn12).
  destruct (H23 Hb2) as (Hb3 & Hs23 & Hn23). split; [done|]. split.
  - intros i a Hi. destruct (Hs12 i a Hi) as (a2 & Hi2 & Hr2).
    destruct (Hs23 i a2 Hi2) as (a3 & Hi3 & Hr3). exists a3. split; [done|by etrans].
  - intros i a3 Hi3 Hn. destruct (t w2 !! i) as [a2|] eqn:Hi2; [|by apply (Hn23 i a3)].
    destruct (Hn12 i a2 Hi2 Hn) as (a & Ha & Hr). destruct (Hs23 i a2 Hi2) as (a3' & Hi3' & Hr3).
    rewrite Hi3 in Hi3'. injection Hi3' as <-. exists a. split; [done|by etrans].
Qed.

Lemma evolution_same w w' :
  t w' = t w → (w_next w ≤ w_next w')%positive → evolution w w'.
Proof.
  intros Ht Hn Hb. unfold evolves. rewrite Ht.
  split; [by eapply below_weaken|]. split; [intros i a Hi; by exists a|].
  intros i b Hi Ho. by rewrite Hi in Ho.
Qed.

Lemma evolution_alter w w' i g :
  t w' = alter g i (t w) → w_next w' = w_next w →
  (∀ a, t w !! i = Some a → step a (g a)) → evolution w w'.
Proof.
  intros Ht Hn Hg Hb. unfold evolves. rewrite Ht, Hn. split; [by apply below_alter|]. split.
  - intros j a Hj. rewrite lookup_alter. case_decide; [|by exists a].
    subst. rewrite Hj. exists (g a). split; [done|]. by apply rtc_once, Hg.
  - intros j a'. rewrite lookup_alter. case_decide; [|congruence].
    subst. intros (a & Ha & _)%fmap_Some. congruence.
Qed.

Lemma evolution_insert w w' a :
  t w' = <[w_next w := a]> (t w) → w_next w' = Pos.succ (w_next w) → new a → evolution w w'.
Proof.
  intros Ht Hn Hnew Hb. unfold evolves. rewrite Ht, Hn. split.
  { apply below_insert; [lia|]. eapply below_weaken; [|done]. lia. }
  split.
  - intros i b Hi. exists b. split; [|done].
    rewrite lookup_insert_ne; [done|]. intros <-. specialize (Hb _ _ Hi). lia.
  - intros i b. rewrite lookup_insert. case_decide; [|congruence].
    intros [= <-] _. by exists a.
Qed.
End Evolution.
