(* ===== verification/Assignments.v ===== *)
(** * The life of an assignment

    The row an assignment is (models/assignments.py), the column updates the
    orchestration modules make to it, and the state machine they make up: an
    assignment waits, is handed to a worker under a lease, is acknowledged and
    renewed, and ends completed, failed, cancelled or requeued.  [asn_step]
    lists every update with the guard its caller checks first;
    [AssignmentRows] is the interface of relations that all of them keep. *)

From S2P Require Import Prelude Models Database Outbox Provenance.

(** [status in (DISPATCHED, ACKNOWLEDGED)] *)
Definition in_flight (a : StageAssignment) : bool :=
  match asn_status a with ASN_DISPATCHED | ASN_ACKNOWLEDGED => true | _ => false end.

(** [status in (PENDING, DISPATCHED, ACKNOWLEDGED)] *)
Definition asn_open (a : StageAssignment) : bool :=
  match asn_status a with
  | ASN_PENDING | ASN_DISPATCHED | ASN_ACKNOWLEDGED => true
  | _ => false
  end.

Definition clear_lease_and_claim_fields (a : StageAssignment) : StageAssignment :=
  a <| asn_worker_id := None |>
    <| asn_lease_expires_at := None |>
    <| asn_lease_started_at := None |>
    <| asn_lease_extension_count := 0 |>
    <| asn_dispatched_at := None |>
    <| asn_acknowledged_at := None |>
    <| asn_claimed_by := None |>
    <| asn_claimed_at := None |>
    <| asn_claim_token := None |>.

Definition cancelled_assignment (a : StageAssignment) : StageAssignment :=
  a <| asn_status := ASN_CANCELLED |>.

(** its attempts are exhausted (recovery.py) *)
Definition exhausted_assignment (now : time) (a : StageAssignment) : StageAssignment :=
  clear_lease_and_claim_fields (a <| asn_status := ASN_FAILED |>
                                  <| asn_completed_at := Some now |>).

(** it goes back to the queue with the next attempt number (recovery.py) *)
Definition requeued_assignment (a : StageAssignment) : StageAssignment :=
  let next_attempt := asn_attempt_number a + 1 in
  clear_lease_and_claim_fields
    (a <| asn_status := ASN_PENDING |>
       <| asn_attempt_number := next_attempt |>
       <| asn_idempotency_key := Some (asn_pipeline_run_id a, asn_stage a, next_attempt) |>).

Section Assignments.
Context `{Settings}.

(** the columns a claim assigns (claiming.py) *)
Definition granted_assignment (worker_id : positive) (claim_token : option positive)
    (now : time) (trace : positive) (a : StageAssignment) : StageAssignment :=
  a <| asn_status := ASN_DISPATCHED |>
    <| asn_worker_id := Some worker_id |>
    <| asn_claimed_by := Some worker_id |>
    <| asn_claimed_at := Some now |>
    <| asn_dispatched_at := Some now |>
    <| asn_lease_expires_at := Some (now + seconds assignment_lease_seconds) |>
    <| asn_lease_started_at := Some now |>
    <| asn_lease_extension_count := 0 |>
    <| asn_claim_count ::= Z.succ |>
    <| asn_claim_token := claim_token |>
    <| asn_trace_id := Some trace |>.

(** the row the dispatcher adds, to a worker or to the queue *)
Definition new_assignment (workspace_id run : positive) (stage : ContentStage)
    (attempt_number : Z) (worker : option positive) (t : time) (correlation_id trace : positive)
    (priority : Z) (provider : string) : StageAssignment :=
  mk_assignment workspace_id run stage attempt_number worker
    (match worker with Some _ => ASN_DISPATCHED | None => ASN_PENDING end)
    (Some (run, stage, attempt_number))
    (match worker with Some _ => Some (t + seconds assignment_lease_seconds) | None => None end)
    (match worker with Some _ => Some t | None => None end)
    None None None (Some correlation_id) (Some trace) None None 0 None
    (match worker with Some _ => Some t | None => None end)
    0 priority (Some provider) t.

(** ** The lease (dispatcher.py) *)

Definition lease_start (now : time) (a : StageAssignment) : time :=
  match asn_lease_started_at a with
  | Some t => t
  | None => default now (asn_dispatched_at a)
  end.

Definition assert_lease_extendable (a : StageAssignment) (worker_id : positive)
    (now lease_seconds : Z) : result exn unit :=
  if negb (bool_decide (asn_worker_id a = Some worker_id)) then Raise LeaseNotOwned
  else if negb (in_flight a) then Raise (LeaseConflict "invalid_status")
  else if match asn_lease_expires_at a with None => true | Some l => l <? now end then
    Raise (LeaseConflict "lease_expired")
  else if lease_start now a + seconds assignment_max_lease_seconds <? now + seconds lease_seconds
  then Raise (LeaseConflict "max_lease_exceeded")
  else Ok tt.

(** the columns an extension assigns *)
Definition extend_lease (now lease_seconds : Z) (a : StageAssignment) : StageAssignment :=
  a <| asn_lease_expires_at := Some (now + seconds lease_seconds) |>
    <| asn_lease_started_at := Some (lease_start now a) |>
    <| asn_lease_extension_count ::= Z.succ |>.

Definition acknowledged_assignment (now lease_seconds : Z) (a : StageAssignment) : StageAssignment :=
  extend_lease now lease_seconds (a <| asn_status := ASN_ACKNOWLEDGED |>
                                    <| asn_acknowledged_at := Some now |>).

(** the guards of [submit_result] *)
Definition submit_check (a : StageAssignment) (worker_id : option positive) (now : time)
    : result exn unit :=
  if bool_decide (worker_id ≠ None) && negb (bool_decide (asn_worker_id a = worker_id)) then
    Raise LeaseNotOwned
  else if negb (in_flight a) then Raise (LeaseConflict "invalid_status")
  else if bool_decide (worker_id ≠ None)
          && match asn_lease_expires_at a with None => true | Some l => l <? now end then
    Raise (LeaseConflict "lease_expired")
  else Ok tt.

(** the columns a submitted result assigns *)
Definition submitted_assignment (now : time) (success : bool) (res : option json)
    (a : StageAssignment) : StageAssignment :=
  a <| asn_status := if success then ASN_COMPLETED else ASN_FAILED |>
    <| asn_completed_at := Some now |>
    <| asn_result := res |>
    <| asn_lease_expires_at := None |>
    <| asn_lease_started_at := None |>.

(** ** The state machine *)

Inductive asn_step : StageAssignment → StageAssignment → Prop :=
| step_traced a t : asn_step a (a <| asn_trace_id := t |>)
| step_cancelled a : asn_open a = true → asn_step a (cancelled_assignment a)
| step_exhausted now a : in_flight a = true → asn_step a (exhausted_assignment now a)
| step_requeued a : in_flight a = true → asn_step a (requeued_assignment a)
| step_granted i tok now tr a :
    asn_status a = ASN_PENDING → asn_step a (granted_assignment i tok now tr a)
| step_acknowledged i now secs a :
    assert_lease_extendable a i now secs = Ok tt → asn_status a = ASN_DISPATCHED →
    asn_step a (acknowledged_assignment now secs a)
| step_renewed i now secs a :
    assert_lease_extendable a i now secs = Ok tt → asn_step a (extend_lease now secs a)
| step_submitted i now success res a :
    submit_check a (Some i) now = Ok tt →
    asn_step a (submitted_assignment now success res a).

(** What no step changes. *)
Lemma asn_step_identity a a' :
  asn_step a a' →
  asn_workspace_id a' = asn_workspace_id a ∧ asn_pipeline_run_id a' = asn_pipeline_run_id a ∧
  asn_stage a' = asn_stage a ∧ asn_attempt_number a ≤ asn_attempt_number a'.
Proof. destruct 1; split_and!; simpl; lia || done. Qed.

Inductive asn_new : StageAssignment → Prop :=
| new_asn ws run stage n worker t c tr p prov :
    asn_new (new_assignment ws run stage n worker t c tr p prov).

Definition add_assignment (a : StageAssignment) : M positive :=
  assignment ← uuid4;
  insert_row w_assignments assignment a;;
  mret assignment.

(** ** The interface *)

(** the rows of a workspace under an idempotency key *)
Definition keyed_as (workspace_id : positive) (key : positive * ContentStage * Z)
    (_ : positive) (a : StageAssignment) : bool :=
  bool_decide (asn_workspace_id a = workspace_id ∧ asn_idempotency_key a = Some key).

(** no row other than [i] has the key of [a]
    (the index uq_stage_assignments_workspace_idem) *)
Definition key_free (i : positive) (a : StageAssignment) (w : World) : Prop :=
  ∀ j b k, asn_idempotency_key a = Some k → w_assignments w !! j = Some b →
    keyed_as (asn_workspace_id a) k j b = true → j = i.

(** no row of the workspace has the key *)
Definition unkeyed (workspace_id : positive) (key : positive * ContentStage * Z) (w : World) : Prop :=
  ∀ j b, w_assignments w !! j = Some b → keyed_as workspace_id key j b = false.

Definition same_key (a b : StageAssignment) : Prop :=
  asn_idempotency_key b = asn_idempotency_key a.

(** Relations that every step of an assignment keeps, and adding one under a
    fresh key for a stage its run was brought to, as long as no two rows get
    the same idempotency key. *)
Class AssignmentRows (R : relation World) : Prop := {
  asn_modify : ∀ i g w,
    (∀ a, w_assignments w !! i = Some a →
       asn_step a (g a) ∧ (same_key a (g a) ∨ key_free i (g a) w)) →
    R w (modify w_assignments i g w).2;
  asn_add : ∀ a k, asn_new a → asn_idempotency_key a = Some k →
    keeps_under (λ w, unkeyed (asn_workspace_id a) k w ∧
                      sourced (asn_pipeline_run_id a) (asn_stage a) w) R (add_assignment a)
}.

#[export] Instance assignment_rows_closed R `{!Engine R, !Closed w_assignments R} :
  AssignmentRows R.
Proof.
  split; [intros i g w _; exact (keeps_modify R w_assignments i g w)|].
  intros a k _ _. apply keeps_under_keeps. unfold add_assignment. keeps_tac.
Qed.

(** the row, as it was read *)
Definition asn_at (i : positive) (a : StageAssignment) (w : World) : Prop :=
  w_assignments w !! i = Some a.

Section Rows.
Context (R : relation World) `{!PreOrder R, !AssignmentRows R}.

Lemma keeps_traced i t :
  keeps R (modify w_assignments i (λ a, a <| asn_trace_id := t |>)).
Proof using All. intros w. apply asn_modify. intros a _. split; [constructor|by left]. Qed.

Lemma keeps_step_at i a g :
  asn_step a (g a) → same_key a (g a) → keeps_under (asn_at i a) R (modify w_assignments i g).
Proof using All.
  intros Hs Hk w Hi. apply asn_modify. unfold asn_at in Hi. intros b Hb.
  rewrite Hi in Hb. injection Hb as <-. auto.
Qed.

Lemma keeps_requeue_at i a :
  in_flight a = true →
  keeps_under (λ w, asn_at i a w ∧ key_free i (requeued_assignment a) w) R
    (modify w_assignments i requeued_assignment).
Proof using All.
  intros Hs w [Hi Hk]. apply asn_modify. unfold asn_at in Hi. intros b Hb.
  rewrite Hi in Hb. injection Hb as <-. split; [by apply step_requeued|by right].
Qed.

Lemma keeps_cancel_rows (l : list (positive * StageAssignment)) w :
  NoDup l.*1 →
  (∀ i a, (i, a) ∈ l → w_assignments w !! i = Some a ∧ asn_open a = true) →
  R w (for_each l (λ p, modify w_assignments p.1 cancelled_assignment) w).2.
Proof using All.
  revert w. induction l as [|[i a] l IH]; intros w Hnd Hl; [done|].
  apply NoDup_cons in Hnd as [Hi Hnd]. destruct (Hl i a) as [Ha Ho]; [by left|].
  simpl. rewrite run_bind. simpl. etrans.
  - apply (asn_modify i cancelled_assignment). intros b Hb. rewrite Ha in Hb.
    injection Hb as <-. split; [by constructor|by left].
  - apply IH; [done|]. intros j b Hj. destruct (Hl j b) as [Hb Hob]; [by right|].
    split; [|done]. simpl. rewrite lookup_alter_ne; [done|]. intros <-. apply Hi.
    apply list_elem_of_fmap. by exists (i, b).
Qed.
End Rows.

(** cancelling the open assignments a query selects (controller.py, scheduler.py) *)
Definition cancel_assignments (P : positive → StageAssignment → bool) : M unit :=
  open_assignments ← select w_assignments P;
  for_each open_assignments (λ p, modify w_assignments p.1 cancelled_assignment).

Lemma run_cancel_assignments P w :
  cancel_assignments P w =
  (Ok tt, w <| w_assignments ::= alter_each cancelled_assignment (rows P (w_assignments w)).*1 |>).
Proof.
  unfold cancel_assignments. rewrite run_bind. simpl.
  generalize (rows P (w_assignments w)). intros l. revert w.
  induction l as [|[i a] l IH]; intros w; [by destruct w|].
  simpl. rewrite run_bind. simpl. by rewrite IH.
Qed.

Lemma keeps_cancel_assignments (R : relation World) `{!PreOrder R, !AssignmentRows R} P :
  (∀ i a, P i a = true → asn_open a = true) → keeps R (cancel_assignments P).
Proof using All.
  intros HP w. unfold cancel_assignments. rewrite run_bind. simpl.
  apply keeps_cancel_rows; [apply _|apply _|apply NoDup_rows_fst|].
  intros i a [Hi Ho]%elem_of_rows. eauto.
Qed.
End Assignments.
#[export] Hint Extern 1 (keeps _ (modify w_assignments _ _)) =>
  (apply keeps_traced; typeclasses eauto) : keeps.
