(* ===== verification/Gates.v ===== *)
(** * The life of a review gate

    The column updates the orchestration modules make to a review gate
    (models/review_gate.py) and the state machine they make up: a gate awaits
    a decision, during which its content may be edited, and ends approved,
    rejected, escalated or timed out.  [GateRows] is the interface of
    relations that every update keeps, provided a verdict is only applied
    after an event has announced it. *)

From S2P Require Import Prelude Models Database Outbox Provenance.

Definition verdict_status (approved : bool) : ReviewGateStatus :=
  if approved then GATE_APPROVED else GATE_REJECTED.
Definition verdict_type (approved : bool) : string :=
  if approved then "review.approved" else "review.rejected".

(** the columns [resume_from_review] assigns *)
Definition resolved_gate (approved : bool) (now : time) (g : ReviewGate) : ReviewGate :=
  g <| gate_status := verdict_status approved |> <| gate_decided_at := Some now |>.

(** the columns [handle_review_timeout] assigns *)
Definition escalated_gate (new_timeout : time) (g : ReviewGate) : ReviewGate :=
  g <| gate_status := GATE_ESCALATED |>
    <| gate_escalation_level ::= Z.succ |>
    <| gate_timeout_at := Some new_timeout |>.
Definition timed_out_gate (g : ReviewGate) : ReviewGate := g <| gate_status := GATE_TIMED_OUT |>.

(** the columns [submit_review_decision] and [edit_review_gate_content] assign *)
Definition decided_gate (reviewer_id : positive) (g : ReviewGate) : ReviewGate :=
  g <| gate_decided_by := Some reviewer_id |>.
Definition edited_gate (version : positive) (g : ReviewGate) : ReviewGate :=
  g <| gate_content_version_id := Some version |>.

(** ** The state machine *)

Inductive gate_step : ReviewGate → ReviewGate → Prop :=
| gstep_decided u g : gate_status g = GATE_AWAITING → gate_step g (decided_gate u g)
| gstep_resolved approved now g :
    gate_status g = GATE_AWAITING → gate_step g (resolved_gate approved now g)
| gstep_escalated t g :
    gate_status g = GATE_AWAITING → gate_escalation_level g = 0 → gate_step g (escalated_gate t g)
| gstep_timed_out g :
    gate_status g = GATE_AWAITING → gate_escalation_level g ≠ 0 → gate_step g (timed_out_gate g)
| gstep_edited v g : gate_status g = GATE_AWAITING → gate_step g (edited_gate v g).

(** What no step of a gate changes. *)
Lemma gate_step_identity g g' :
  gate_step g g' →
  gate_status g = GATE_AWAITING ∧ gate_workspace_id g' = gate_workspace_id g ∧
  gate_pipeline_run_id g' = gate_pipeline_run_id g ∧ gate_stage g' = gate_stage g ∧
  (is_Some (gate_decided_by g) → is_Some (gate_decided_by g')).
Proof. destruct 1; split_and!; simpl; done. Qed.

(** a gate as [pause_for_review] makes it *)
Inductive gate_new : ReviewGate → Prop :=
| new_gate ws run version stage t timeout :
    gate_new (mk_gate ws run version stage GATE_AWAITING t (Some timeout) None None 0).

Definition add_gate (g : ReviewGate) : M positive :=
  gate ← uuid4;
  insert_row w_gates gate g;;
  mret gate.

(** ** Announced verdicts (consumers.py) *)

(** [uuid.UUID(event.payload["review_gate_id"])] *)
Definition payload_gate (e : OutboxEvent) : result exn positive :=
  match ev_payload e with
  | JObj kv =>
      match obj_get kv "review_gate_id" with
      | Some (JStr s) =>
          match uuid_parse s with
          | Some i => Ok i
          | None => Raise (ValueError "badly formed hexadecimal UUID string")
          end
      | Some _ => Raise AttributeError
      | None => Raise (KeyError "review_gate_id")
      end
  | _ => Raise TypeError
  end.

(** an event announces the verdict on the gate *)
Definition announced (gate : positive) (approved : bool) (w : World) : Prop :=
  ∃ i e, w_outbox w !! i = Some e ∧ ev_type e = verdict_type approved ∧ payload_gate e = Ok gate.

(** ** The interface *)

Class GateRows (R : relation World) : Prop := {
  gate_modify : ∀ i g w,
    (∀ x, w_gates w !! i = Some x →
       gate_step x (g x) ∧
       ∀ approved, gate_status (g x) = verdict_status approved → announced i approved w) →
    R w (modify w_gates i g w).2
}.

(** Relations that opening a gate on a run keeps. *)
Class GateAdd (R : relation World) : Prop :=
  gate_add : ∀ x, gate_new x →
    keeps_under (λ w, is_Some (w_runs w !! gate_pipeline_run_id x)) R (add_gate x).

#[export] Instance gate_rows_closed R `{!PreOrder R, !Closed w_gates R} : GateRows R.
Proof. split. intros i g w _. exact (keeps_modify R w_gates i g w). Qed.
#[export] Instance gate_add_closed R `{!Engine R, !Closed w_gates R} : GateAdd R.
Proof. intros x _. apply keeps_under_keeps. unfold add_gate. keeps_tac. Qed.

(** the gate, as it was read *)
Definition gate_at (i : positive) (g : ReviewGate) (w : World) : Prop := w_gates w !! i = Some g.

Section Rows.
Context (R : relation World) `{!PreOrder R, !GateRows R}.

(** a step that is no verdict *)
Lemma keeps_gate_step i x g :
  gate_step x (g x) → (∀ approved, gate_status (g x) ≠ verdict_status approved) →
  keeps_under (gate_at i x) R (modify w_gates i g).
Proof using All.
  intros Hs Hv w Hi. apply gate_modify. unfold gate_at in Hi. intros y Hy.
  rewrite Hi in Hy. injection Hy as <-. split; [done|]. intros a Ha. by destruct (Hv a).
Qed.

Lemma keeps_gate_resolved i x approved t :
  gate_status x = GATE_AWAITING →
  keeps_under (λ w, gate_at i x w ∧ announced i approved w) R
    (modify w_gates i (resolved_gate approved t)).
Proof using All.
  intros Hx w [Hi Ha]. apply gate_modify. unfold gate_at in Hi. intros y Hy.
  rewrite Hi in Hy. injection Hy as <-. split; [by constructor|].
  intros b. by destruct approved, b.
Qed.
End Rows.
