(* ===== verification/Text.v ===== *)
(** * Python string methods on ASCII text

    [strip], [split] and [join] with whitespace as the separator. *)

From S2P Require Import Prelude.

Definition is_space (c : ascii) : bool :=
  let n := nat_of_ascii c in (n =? 32)%nat || ((9 <=? n)%nat && (n <=? 13)%nat) || ((28 <=? n)%nat && (n <=? 31)%nat).

Fixpoint lstrip (s : string) : string :=
  match s with
  | String c s' => if is_space c then lstrip s' else s
  | EmptyString => s
  end.
Fixpoint rstrip (s : string) : string :=
  match s with
  | String c s' =>
      match rstrip s' with
      | EmptyString => if is_space c then EmptyString else String c EmptyString
      | t => String c t
      end
  | EmptyString => s
  end.
(** [s.strip()] *)
Definition strip (s : string) : string := rstrip (lstrip s).

Definition newline : string := String (ascii_of_nat 10) EmptyString.

(** [s.split()]: the words of [s]; [acc] is the word being read *)
Fixpoint split_words (s acc : string) : list string :=
  match s with
  | EmptyString => if String.eqb acc EmptyString then [] else [acc]
  | String c s =>
      if is_space c then
        if String.eqb acc EmptyString then split_words s EmptyString
        else acc :: split_words s EmptyString
      else split_words s (acc +:+ String c EmptyString)
  end.
Definition split (s : string) : list string := split_words s EmptyString.

(** [sep.join(l)] *)
Fixpoint join (sep : string) (l : list string) : string :=
  match l with
  | [] => EmptyString
  | [s] => s
  | s :: l => s +:+ sep +:+ join sep l
  end.

(** [s.lower()] *)
Definition lower_ascii (c : ascii) : ascii :=
  let n := nat_of_ascii c in
  if (65 <=? n)%nat && (n <=? 90)%nat then ascii_of_nat (n + 32) else c.

Fixpoint lower (s : string) : string :=
  match s with
  | EmptyString => EmptyString
  | String c s => String (lower_ascii c) (lower s)
  end.

(** [marker in s] *)
Fixpoint contains (marker s : string) : bool :=
  String.prefix marker s ||
  match s with
  | EmptyString => false
  | String _ s => contains marker s
  end.

(** a word: not empty, no whitespace in it *)
Fixpoint no_space (s : string) : bool :=
  match s with
  | EmptyString => true
  | String c s => negb (is_space c) && no_space s
  end.
Definition is_word (s : string) : bool := negb (String.eqb s EmptyString) && no_space s.

Lemma string_app_assoc (s t u : string) : (s +:+ t) +:+ u = s +:+ (t +:+ u).
Proof. induction s as [|c s IH]; [done|]. change (String c ((s +:+ t) +:+ u) = String c (s +:+ (t +:+ u))). by rewrite IH. Qed.
Lemma string_app_nil (s : string) : s +:+ EmptyString = s.
Proof. induction s as [|c s IH]; [done|]. change (String c (s +:+ EmptyString) = String c s). by rewrite IH. Qed.

Lemma no_space_app s t : no_space (s +:+ t) = no_space s && no_space t.
Proof.
  induction s as [|c s IH]; [done|].
  change (negb (is_space c) && no_space (s +:+ t) = negb (is_space c) && no_space s && no_space t).
  by rewrite IH, andb_assoc.
Qed.

Lemma eqb_empty_app s c : String.eqb (s +:+ String c EmptyString) EmptyString = false.
Proof. by destruct s. Qed.

(** Every element of [split] is a word. *)
Lemma split_words_words s acc :
  no_space acc = true → Forall (λ w, is_word w = true) (split_words s acc).
Proof.
  revert acc. induction s as [|c s IH]; intros acc Hacc; simpl.
  - destruct (String.eqb acc EmptyString) eqn:He; [constructor|].
    constructor; [|constructor]. unfold is_word. by rewrite He.
  - destruct (is_space c) eqn:Hc.
    + destruct (String.eqb acc EmptyString) eqn:He; [by apply IH|].
      constructor; [|by apply IH]. unfold is_word. by rewrite He.
    + apply IH. rewrite no_space_app, Hacc. simpl. by rewrite Hc.
Qed.

(** Reading a word and then the rest. *)
Lemma split_words_app w acc s :
  no_space w = true → split_words (w +:+ s) acc = split_words s (acc +:+ w).
Proof.
  revert acc. induction w as [|c w IH]; intros acc Hw.
  - by rewrite string_app_nil.
  - apply andb_true_iff in Hw as [Hc%negb_true_iff Hw].
    change (String c w +:+ s) with (String c (w +:+ s)). cbn [split_words]. rewrite Hc.
    rewrite IH by done. by rewrite string_app_assoc.
Qed.

(** Splitting undoes joining. *)
Lemma split_join l : Forall (λ w, is_word w = true) l → split (join " " l) = l.
Proof.
  unfold split. induction l as [|w l IH]; [done|].
  intros [Hw Hl]%Forall_cons. apply andb_true_iff in Hw as [Hne Hsp].
  apply negb_true_iff in Hne. destruct l as [|w' l].
  - cbn [join]. rewrite <- (string_app_nil w) at 1. rewrite split_words_app by done.
    change (EmptyString +:+ w) with w. simpl. by rewrite Hne.
  - change (join " " (w :: w' :: l)) with (w +:+ " " +:+ join " " (w' :: l)).
    rewrite split_words_app by done. change (EmptyString +:+ w) with w.
    change (" " +:+ join " " (w' :: l)) with (String " " (join " " (w' :: l))).
    cbn [split_words is_space]. rewrite Hne. simpl. f_equal. by apply IH.
Qed.

(** ** Lower case and search *)

Lemma lower_app s t : lower (s +:+ t) = lower s +:+ lower t.
Proof. induction s as [|c s IH]; simpl; [done|]. by rewrite IH. Qed.

Lemma lower_ascii_idemp c : lower_ascii (lower_ascii c) = lower_ascii c.
Proof. by destruct c as [[] [] [] [] [] [] [] []]. Qed.

Lemma lower_idemp s : lower (lower s) = lower s.
Proof. induction s as [|c s IH]; simpl; [done|]. by rewrite IH, lower_ascii_idemp. Qed.

Lemma prefix_app m s : String.prefix m (m +:+ s) = true.
Proof.
  induction m as [|c m IH]; simpl; [by destruct s|].
  destruct (Ascii.ascii_dec c c) as [_|Hc]; [done|by destruct Hc].
Qed.

Lemma contains_prefix m s : String.prefix m s = true → contains m s = true.
Proof. intros Hp. destruct s; cbn [contains]; by rewrite Hp. Qed.

Lemma contains_app m s t : contains m (s +:+ (m +:+ t)) = true.
Proof.
  induction s as [|c s IH].
  - change (contains m (m +:+ t) = true). apply contains_prefix, prefix_app.
  - change (String c s +:+ (m +:+ t)) with (String c (s +:+ (m +:+ t))).
    cbn [contains]. by rewrite IH, orb_true_r.
Qed.

Lemma is_space_lower c : is_space (lower_ascii c) = is_space c.
Proof. by destruct c as [[] [] [] [] [] [] [] []]. Qed.

Lemma rstrip_word s w : is_word w = true → rstrip (s +:+ w) = s +:+ w.
Proof.
  intros [Hne Hsp]%andb_true_iff.
  assert (Hw : ∀ c v, no_space (String c v) = true → rstrip (String c v) = String c v).
  { intros c v. revert c. induction v as [|d v IH]; intros c [Hc Hv]%andb_true_iff.
    - cbn. by apply negb_true_iff in Hc as ->.
    - change (rstrip (String c (String d v))) with
        (match rstrip (String d v) with
         | EmptyString => if is_space c then EmptyString else String c EmptyString
         | t => String c t end). by rewrite IH. }
  induction s as [|c s IH].
  - destruct w as [|c w]; [done|]. by apply Hw.
  - change (rstrip (String c (s +:+ w)) = String c (s +:+ w)). simpl. rewrite IH.
    destruct s, w; done.
Qed.

Lemma lstrip_word w s : is_word w = true → lstrip (w +:+ s) = w +:+ s.
Proof.
  destruct w as [|c w]; [done|]. intros [_ [Hc _]%andb_true_iff]%andb_true_iff.
  change (lstrip (String c (w +:+ s)) = String c (w +:+ s)). simpl. by apply negb_true_iff in Hc as ->.
Qed.

Lemma join_snoc l w :
  join " " (l ++ [w]) = match l with [] => w | _ => join " " l +:+ " " +:+ w end.
Proof.
  induction l as [|v l IH]; [done|]. destruct l as [|u l]; [done|].
  change (v +:+ " " +:+ join " " ((u :: l) ++ [w])
          = (v +:+ " " +:+ join " " (u :: l)) +:+ " " +:+ w).
  rewrite IH. by rewrite !string_app_assoc.
Qed.

(** Joined words carry no space at either end. *)
Lemma strip_join l : Forall (λ w, is_word w = true) l → strip (join " " l) = join " " l.
Proof.
  unfold strip. intros Hl. destruct l as [|w l]; [done|].
  assert (Hh : lstrip (join " " (w :: l)) = join " " (w :: l)).
  { apply Forall_cons in Hl as [Hw _]. destruct l as [|u l].
    - rewrite <- (string_app_nil (join " " [w])). by apply lstrip_word.
    - by apply (lstrip_word w (" " +:+ join " " (u :: l))). }
  rewrite Hh. clear Hh. destruct (exists_last (l:=w :: l)) as (l' & v & Hlv); [done|].
  rewrite Hlv in *. apply Forall_app in Hl as [_ [Hv _]%Forall_cons].
  rewrite join_snoc. destruct l' as [|u l']; [by apply (rstrip_word EmptyString)|].
  rewrite <- string_app_assoc. by apply rstrip_word.
Qed.

(** Joining the joins of nonempty lists joins them all. *)
Lemma join_join ls :
  Forall (λ l, l ≠ []) ls → join " " (map (join " ") ls) = join " " (concat ls).
Proof.
  induction ls as [|l ls IH]; [done|]. intros [Hl Hls]%Forall_cons.
  destruct ls as [|l' ls]; [simpl; by rewrite app_nil_r|].
  change (join " " l +:+ " " +:+ join " " (map (join " ") (l' :: ls))
          = join " " (l ++ concat (l' :: ls))).
  rewrite IH by done. assert (Hc : concat (l' :: ls) ≠ []).
  { apply Forall_cons in Hls as [Hl' _]. simpl. by destruct l'. }
  revert Hc. generalize (concat (l' :: ls)). clear -Hl. intros m Hm. induction l as [|w l IHl]; [done|].
  destruct l as [|u l]; [by destruct m|].
  change ((w +:+ " " +:+ join " " (u :: l)) +:+ " " +:+ join " " m
          = w +:+ " " +:+ join " " ((u :: l) ++ m)).
  rewrite <- IHl by done. by rewrite !string_app_assoc.
Qed.

Lemma split_is_words s : Forall (λ w, is_word w = true) (split s).
Proof. by apply split_words_words. Qed.

Lemma lstrip_idemp s : lstrip (lstrip s) = lstrip s.
Proof.
  induction s as [|c s IH]; [done|]. cbn [lstrip]. destruct (is_space c) eqn:Hc; [exact IH|].
  cbn [lstrip]. by rewrite Hc.
Qed.
Lemma rstrip_idemp s : rstrip (rstrip s) = rstrip s.
Proof.
  induction s as [|c s IH]; [done|]. cbn [rstrip]. destruct (rstrip s) as [|d t] eqn:Hr.
  - destruct (is_space c) eqn:Hc; [done|]. cbn [rstrip]. by rewrite Hc.
  - change (rstrip (String c (String d t))) with
      (match rstrip (String d t) with EmptyString => if is_space c then EmptyString else String c EmptyString
       | t' => String c t' end). by rewrite IH.
Qed.
Lemma lstrip_rstrip s : lstrip s = s → lstrip (rstrip s) = rstrip s.
Proof.
  destruct s as [|c s]; [done|]. cbn [lstrip]. destruct (is_space c) eqn:Hc.
  - intros H. exfalso. assert (Hl : ∀ u, (String.length (lstrip u) <= String.length u)%nat).
    { induction u as [|d u IHu]; [done|]. cbn. destruct (is_space d); cbn; lia. }
    specialize (Hl s). rewrite H in Hl. cbn in Hl. lia.
  - intros _. cbn [rstrip]. destruct (rstrip s); [rewrite Hc|]; cbn [lstrip]; by rewrite ?Hc.
Qed.
Lemma strip_idemp s : strip (strip s) = strip s.
Proof. unfold strip. rewrite lstrip_rstrip by apply lstrip_idemp. apply rstrip_idemp. Qed.

Lemma lstrip_lower s : lstrip (lower s) = lower (lstrip s).
Proof.
  induction s as [|c s IH]; [done|]. cbn [lstrip lower]. rewrite is_space_lower.
  destruct (is_space c); [exact IH|done].
Qed.
Lemma rstrip_lower s : rstrip (lower s) = lower (rstrip s).
Proof.
  induction s as [|c s IH]; [done|]. cbn [rstrip lower]. rewrite IH, is_space_lower.
  destruct (rstrip s); cbn; [by destruct (is_space c)|done].
Qed.
Lemma strip_lower_strip s : strip (lower (strip s)) = lower (strip s).
Proof. unfold strip at 1. rewrite lstrip_lower, rstrip_lower. fold (strip (strip s)). by rewrite strip_idemp. Qed.

Lemma join_nil_inv l : Forall (λ w, is_word w = true) l → join " " l = EmptyString → l = [].
Proof.
  destruct l as [|w [|u l]]; [done|..]; intros [Hw _]%Forall_cons He.
  - simpl in He. by subst w.
  - by destruct w.
Qed.
