(* ===== verification/Retry.v ===== *)
(** * Retries, dead letters and priorities

    orchestration/retry.py: backoff with full jitter, classification of error
    messages, and the dead-letter record.  orchestration/priority.py: the
    effective priority of an assignment, in Python and in SQL. *)

From S2P Require Import Prelude Models Database Outbox Text.

(** ** Backoff *)

(** [min(base * multiplier ** (attempt - 1), max)], in seconds; the
    multiplier is an integer at every call (an [Integer] column, or 2). *)
Definition backoff_cap (attempt base_seconds multiplier max_seconds : Z) : Z :=
  let attempt := if attempt <? 1 then 1 else attempt in
  let raw := base_seconds * multiplier ^ (attempt - 1) in
  Z.min raw max_seconds.

(** [random.uniform(0, capped)] for the draw [d * 2^-53], to the nearest
    microsecond as [timedelta(seconds=...)] rounds it *)
Definition uniform_us (d capped : Z) : Z := (2 * seconds capped * d + 2 ^ 53) / 2 ^ 54.

Definition compute_backoff_seconds (attempt base_seconds multiplier max_seconds : Z) : M Z :=
  d ← gets w_draw;
  mret (uniform_us d (backoff_cap attempt base_seconds multiplier max_seconds)).

Definition next_run_after (attempt base_seconds multiplier max_seconds : Z) : M time :=
  delay ← compute_backoff_seconds attempt base_seconds multiplier max_seconds;
  t ← now;
  mret (t + delay).

(** ** Classification *)

Definition RETRYABLE_MARKERS : list string :=
  ["timeout"; "timed out"; "connection reset"; "connection refused";
   "temporarily unavailable"; "lease lost"; "rate limit"; "503"; "429"].

Definition is_retryable (error_message : string) : bool :=
  let lowered := lower error_message in
  existsb (λ marker, contains marker lowered) RETRYABLE_MARKERS.

(** ** Dead letters *)

Definition route_to_dead_letter (workspace_id : positive) (related_table : string)
    (related_id : positive) (job_type : string) (payload : option json)
    (failure_reason : string) (attempt_count : Z) (first_failed_at : time) : M positive :=
  entry ← uuid4;
  t ← now;
  insert_row w_dead_letters entry
    (mk_dead_letter workspace_id related_table related_id job_type payload
       failure_reason attempt_count first_failed_at t DEAD_PENDING);;
  flush;;
  mret entry.

(** ** Lemmas *)

Lemma keeps_compute_backoff R `{!PreOrder R} a b m x : keeps R (compute_backoff_seconds a b m x).
Proof. unfold compute_backoff_seconds. keeps_tac. Qed.

Lemma keeps_next_run_after R `{!PreOrder R} a b m x : keeps R (next_run_after a b m x).
Proof. unfold next_run_after, compute_backoff_seconds. keeps_tac. Qed.

(** A dead letter is filed under a type that is no stage: [stage:scripting],
    not [scripting].  [DeadLetters] is the interface of relations that the
    updates of the table keep. *)
Definition no_stage (job_type : string) : Prop := ContentStage_of_value job_type = None.
Class DeadLetters (R : relation World) : Prop := {
  dead_letter_add : ∀ i e, no_stage (dlj_job_type e) → keeps R (insert_row w_dead_letters i e);
  dead_letter_modify : ∀ i g, (∀ e, dlj_job_type (g e) = dlj_job_type e) →
    keeps R (modify w_dead_letters i g)
}.
#[global] Instance dead_letters_closed R `{!PreOrder R, !Closed w_dead_letters R} : DeadLetters R.
Proof. split; intros; keeps_tac. Qed.
#[export] Hint Extern 0 (no_stage _) => reflexivity : keeps.
#[export] Hint Extern 0 (∀ e : DeadLetterJob, _ = _) => (intro; reflexivity) : keeps.
#[export] Hint Resolve dead_letter_add dead_letter_modify : keeps.

Lemma keeps_route_to_dead_letter R `{!Engine R, !DeadLetters R} ws tb i jt pl fr n t :
  no_stage jt → keeps R (route_to_dead_letter ws tb i jt pl fr n t).
Proof. intros Hjt. unfold route_to_dead_letter. keeps_tac. Qed.

#[export] Hint Resolve keeps_compute_backoff keeps_next_run_after keeps_route_to_dead_letter : keeps.

(** A draw of [random.random()] *)
Definition draw_ok (w : World) : Prop := 0 ≤ w_draw w < 2 ^ 53.

Lemma uniform_us_bounds d c : 0 ≤ d < 2 ^ 53 → 0 ≤ c → 0 ≤ uniform_us d c ≤ seconds c.
Proof.
  intros Hd Hc. unfold uniform_us, seconds. split.
  - apply Z.div_pos; nia.
  - apply Z.lt_succ_r, Z.div_lt_upper_bound; [lia|]. nia.
Qed.

Lemma backoff_cap_bounds a b m x :
  0 ≤ b → 0 ≤ m → 0 ≤ x → 0 ≤ backoff_cap a b m x ≤ x.
Proof.
  intros Hb Hm Hx. unfold backoff_cap.
  pose proof (Z.pow_nonneg m ((if a <? 1 then 1 else a) - 1) Hm). nia.
Qed.

Lemma backoff_cap_mono a a' b m x :
  0 ≤ b → 1 ≤ m → a ≤ a' → backoff_cap a b m x ≤ backoff_cap a' b m x.
Proof.
  intros Hb Hm Ha. unfold backoff_cap.
  set (k := (if a <? 1 then 1 else a) - 1). set (k' := (if a' <? 1 then 1 else a') - 1).
  assert (Hk : 0 ≤ k ≤ k').
  { subst k k'. destruct (Z.ltb_spec a 1), (Z.ltb_spec a' 1); lia. }
  assert (Hp : m ^ k ≤ m ^ k') by (apply Z.pow_le_mono_r; lia). nia.
Qed.

(** * Assignment priority (orchestration/priority.py)

    Effective priority is the base priority plus a boost that grows with the
    age of the assignment, up to a cap. *)

Section Priority.
Context `{Settings}.

(** [age // interval] is computed on microseconds; the optional arguments
    override the settings as the keyword arguments do. *)
Definition compute_age_boost (created_at now : time)
    (interval_seconds per_interval boost_max : option Z) : Z :=
  let interval := default assignment_age_boost_interval_seconds interval_seconds in
  let step := default assignment_age_boost_per_interval per_interval in
  let cap := default assignment_age_boost_max boost_max in
  let age := Z.max 0 (now - created_at) in
  if interval <=? 0 then 0
  else
    let boost := age / seconds interval * step in
    Z.min boost cap.

Definition compute_effective_priority (priority : Z) (created_at now : time) : Z :=
  priority + compute_age_boost created_at now None None None.

Definition base_priority_for_tier (priority_tier : Z) : Z :=
  priority_tier * workspace_tier_priority_weight.

(** The SQL [ORDER BY] expression: [GREATEST(0, epoch(now - created_at))],
    [FLOOR], [LEAST]. *)
Definition effective_priority_expr (priority_col : Z) (created_at_col now : time) : Z :=
  let interval := assignment_age_boost_interval_seconds in
  let step := assignment_age_boost_per_interval in
  let cap := assignment_age_boost_max in
  let age := Z.max 0 (now - created_at_col) in
  if interval <=? 0 then priority_col
  else
    let boost := Z.min cap (age / seconds interval * step) in
    priority_col + boost.

Lemma effective_priority_expr_eq p c t :
  effective_priority_expr p c t = compute_effective_priority p c t.
Proof.
  unfold effective_priority_expr, compute_effective_priority, compute_age_boost; simpl.
  destruct (_ <=? 0); lia.
Qed.

Lemma age_boost_bounds c t :
  0 ≤ compute_age_boost c t None None None ≤ assignment_age_boost_max.
Proof.
  pose proof age_boost_interval_ge1. pose proof age_boost_per_interval_ge0.
  pose proof age_boost_max_ge0. unfold compute_age_boost; simpl.
  destruct (Z.leb_spec assignment_age_boost_interval_seconds 0); [lia|].
  assert (0 ≤ Z.max 0 (t - c) / seconds assignment_age_boost_interval_seconds)
    by (apply Z.div_pos; unfold seconds; lia).
  nia.
Qed.

Lemma age_boost_mono c c' t t' :
  t - c ≤ t' - c' →
  compute_age_boost c t None None None ≤ compute_age_boost c' t' None None None.
Proof.
  intros Hage. pose proof age_boost_per_interval_ge0. unfold compute_age_boost; simpl.
  destruct (Z.leb_spec assignment_age_boost_interval_seconds 0); [lia|].
  assert (Z.max 0 (t - c) / seconds assignment_age_boost_interval_seconds
          ≤ Z.max 0 (t' - c') / seconds assignment_age_boost_interval_seconds)
    by (apply Z.div_le_mono; unfold seconds; lia).
  nia.
Qed.

(** with a positive step the boost reaches its cap after
    [cap] intervals and stays there *)
Lemma age_boost_saturates c t :
  1 ≤ assignment_age_boost_per_interval →
  seconds (assignment_age_boost_interval_seconds * assignment_age_boost_max) ≤ t - c →
  compute_age_boost c t None None None = assignment_age_boost_max.
Proof.
  intros Hstep Hage. pose proof age_boost_interval_ge1. pose proof age_boost_max_ge0.
  unfold compute_age_boost; simpl.
  destruct (Z.leb_spec assignment_age_boost_interval_seconds 0); [lia|].
  unfold seconds in *.
  assert (assignment_age_boost_max
          ≤ Z.max 0 (t - c) / (1000000 * assignment_age_boost_interval_seconds)).
  { apply Z.div_le_lower_bound; [lia|]. nia. }
  nia.
Qed.
End Priority.
