(* ===== verification/Workflow.v ===== *)
(** * Workflow definitions and routing (orchestration/controller.py, lines 61-187)

    The condition language that guards transitions, the choice of a
    transition, stage definitions, and the job that schedules a stage. *)

From S2P Require Import Prelude Models Database Outbox Provenance Text Retry.

(** ** Python comparisons on JSON values *)

(** booleans are the integers 0 and 1 *)
Definition as_num (v : json) : option (Z * nat) :=
  match v with
  | JBool b => Some (if b then 1 else 0, 0%nat)
  | JNum m e => Some (m, e)
  | _ => None
  end.

Definition num_compare (a b : Z * nat) : comparison :=
  Z.compare (a.1 * 10 ^ Z.of_nat b.2) (b.1 * 10 ^ Z.of_nat a.2).

Definition is_Eq (c : comparison) : bool := match c with Eq => true | _ => false end.

(** [a == b] *)
Fixpoint json_eqb (a b : json) {struct a} : bool :=
  match a, b with
  | JNull, JNull => true
  | (JBool _ | JNum _ _), _ =>
      match as_num a, as_num b with
      | Some x, Some y => is_Eq (num_compare x y)
      | _, _ => false
      end
  | JStr s, JStr t => String.eqb s t
  | JList l, JList l' =>
      (fix go (l l' : list json) : bool :=
         match l, l' with
         | [], [] => true
         | x :: l, y :: l' => json_eqb x y && go l l'
         | _, _ => false
         end) l l'
  | JObj kv, JObj kv' =>
      (fix go (kv : list (string * json)) : bool :=
         match kv with
         | [] => true
         | (k, v) :: kv =>
             match obj_get kv' k with Some v' => json_eqb v v' | None => false end && go kv
         end) kv
      && forallb (λ p, match obj_get kv p.1 with Some _ => true | None => false end) kv'
  | _, _ => false
  end.

(** [a < b], [a > b], ...: [None] is a [TypeError] *)
Fixpoint json_compare (a b : json) {struct a} : option comparison :=
  match a, b with
  | JStr s, JStr t => Some (String.compare s t)
  | JList l, JList l' =>
      (fix go (l l' : list json) : option comparison :=
         match l, l' with
         | [], [] => Some Eq
         | [], _ :: _ => Some Lt
         | _ :: _, [] => Some Gt
         | x :: l, y :: l' => if json_eqb x y then go l l' else json_compare x y
         end) l l'
  | _, _ =>
      match as_num a, as_num b with
      | Some x, Some y => Some (num_compare x y)
      | _, _ => None
      end
  end.

(** [a in b] *)
Definition json_in (a b : json) : result exn bool :=
  match b with
  | JList l => Ok (existsb (json_eqb a) l)
  | JStr s => match a with JStr t => Ok (contains t s) | _ => Raise TypeError end
  | JObj kv =>
      match a with
      | JStr k => Ok (match obj_get kv k with Some _ => true | None => false end)
      | JList _ | JObj _ => Raise TypeError
      | _ => Ok false
      end
  | _ => Raise TypeError
  end.

(** ** The condition language *)

Definition ordered (a b : json) (test : comparison → bool) : result exn bool :=
  match a with
  | JNull => Ok false
  | _ => match json_compare a b with
         | Some c => Ok (test c)
         | None => Raise TypeError
         end
  end.

(** the table [_OPS] *)
Definition OPS (op : string) : option (json → json → result exn bool) :=
  if String.eqb op "eq" then Some (λ a b, Ok (json_eqb a b))
  else if String.eqb op "ne" then Some (λ a b, Ok (negb (json_eqb a b)))
  else if String.eqb op "gt" then
    Some (λ a b, ordered a b (λ c, match c with Gt => true | _ => false end))
  else if String.eqb op "gte" then
    Some (λ a b, ordered a b (λ c, match c with Lt => false | _ => true end))
  else if String.eqb op "lt" then
    Some (λ a b, ordered a b (λ c, match c with Lt => true | _ => false end))
  else if String.eqb op "lte" then
    Some (λ a b, ordered a b (λ c, match c with Gt => false | _ => true end))
  else if String.eqb op "in" then Some json_in
  else None.

(** [s.split(".")] *)
Fixpoint split_dots (s acc : string) : list string :=
  match s with
  | EmptyString => [acc]
  | String c s =>
      if Ascii.eqb c "."%char then acc :: split_dots s ""
      else split_dots s (acc +:+ String c "")
  end.

(** [value.get(part) if isinstance(value, dict) else None] along the path *)
Definition walk_path (value : json) (path : list string) : json :=
  foldl (λ v part, match v with
                   | JObj kv => default JNull (obj_get kv part)
                   | _ => JNull
                   end) value path.

Definition evaluate_condition (condition : option json) (context : json) : result exn bool :=
  match condition with
  | None => Ok true
  | Some (JObj kv) =>
      match obj_get kv "field" with
      | Some (JStr field) =>
          let value := walk_path context (split_dots field "") in
          match obj_get kv "op" with
          | Some (JStr op) =>
              match OPS op with
              | None => Raise (ValueError "unsupported condition operator")
              | Some f =>
                  match obj_get kv "value" with
                  | Some v => f value v
                  | None => Raise (KeyError "value")
                  end
              end
          | Some (JList _ | JObj _) => Raise TypeError
          | Some _ => Raise (ValueError "unsupported condition operator")
          | None => Raise (KeyError "op")
          end
      | Some _ => Raise AttributeError
      | None => Raise (KeyError "field")
      end
  | Some _ => Raise TypeError
  end.

(** ** Runs, stages and transitions *)

Definition run_correlation (run : PipelineRun) : M positive := or_uuid4 (run_correlation_id run).

Definition run_definition (run : PipelineRun) : M positive :=
  match run_definition_id run with
  | Some d => mret d
  | None => raise (ValueError "pipeline run has no definition_id pinned")
  end.

Fixpoint first_matching (l : list WorkflowTransition) (context : json)
    : M (option WorkflowTransition) :=
  match l with
  | [] => mret None
  | transition :: l =>
      b ← lift_result (evaluate_condition (wtr_condition transition) context);
      if b : bool then mret (Some transition) else first_matching l context
  end.

Definition transition_applies (definition_id : positive) (from_stage : ContentStage)
    (trigger : WorkflowTransitionTrigger) (_ : positive) (t : WorkflowTransition) : bool :=
  bool_decide (wtr_definition_id t = definition_id ∧ wtr_from_stage t = from_stage
               ∧ wtr_trigger t = trigger).

Definition by_priority_asc (a b : WorkflowTransition) : bool := wtr_priority a <=? wtr_priority b.

Definition find_transition (definition_id : positive) (from_stage : ContentStage)
    (trigger : WorkflowTransitionTrigger) (context : json) : M (option WorkflowTransition) :=
  ts ← select w_transitions (transition_applies definition_id from_stage trigger);
  first_matching (order_by by_priority_asc ts.*2) context.

Definition get_stage_def (definition_id : positive) (stage_key : ContentStage) : M WorkflowStage :=
  o ← session_get w_stages (definition_id, stage_key);
  match o with
  | Some stage => mret stage
  | None => raise (ValueError "workflow_stages has no row for stage")
  end.

Section Enqueue.
Context `{Settings}.

Definition enqueue_stage (run : positive) (stage_key : ContentStage) (attempt : Z)
    (run_after : option time) : M positive :=
  r ← the w_runs run;
  workspace ← session_get w_workspaces (run_workspace_id r);
  let priority := base_priority_for_tier
    (match workspace with Some ws => ws_priority_tier ws | None => 0 end) in
  job ← uuid4;
  t ← now;
  corr ← run_correlation r;
  insert_row w_jobs job
    (mk_job (run_workspace_id r) (if attempt =? 0 then JOB_STAGE else JOB_RETRY)
       (ContentStage_value stage_key) run (default t run_after) JOB_PENDING None None
       attempt priority (Some corr) (run_trace_id r) t);;
  flush;;
  mret job.
End Enqueue.

(** ** Assigning columns of a run

    Every operation leaves the workspace and the content item of a run as they
    are.  Only starting and advancing a run give it a definition or bring it
    to a stage; the operations that only trace or correlate leave its status
    as well. *)

Definition run_place (r : PipelineRun) : positive * option positive :=
  (run_workspace_id r, run_content_item_id r).
Class RunAny (R : relation World) : Prop :=
  run_any : ∀ run g, (∀ r, run_place (g r) = run_place r) →
    keeps R (modify w_runs run g).
(** a run's definition and stage, with its place *)
Definition run_position (r : PipelineRun)
    : positive * option positive * option positive * ContentStage :=
  (run_place r, run_definition_id r, run_current_stage r).
Class RunStable (R : relation World) : Prop :=
  run_stable : ∀ run g, (∀ r, run_position (g r) = run_position r) →
    keeps R (modify w_runs run g).
(** a run but for its trace and correlation *)
Definition run_core (r : PipelineRun) : PipelineRun :=
  r <| run_trace_id := None |> <| run_correlation_id := None |>.
Class RunMeta (R : relation World) : Prop :=
  run_meta : ∀ run g, (∀ r, run_core (g r) = run_core r) → keeps R (modify w_runs run g).
#[export] Hint Resolve run_any run_stable run_meta : keeps.
#[export] Hint Extern 0 (∀ r : PipelineRun, _ = _) => (intro; reflexivity) : keeps.

#[export] Instance run_any_closed R `{!PreOrder R, !Closed w_runs R} : RunAny R.
Proof. intros run g _. keeps_tac. Qed.
#[export] Instance run_stable_any R `{!RunAny R} : RunStable R.
Proof.
  intros run g Hg. apply run_any. intros r. specialize (Hg r).
  by apply (f_equal (λ p, p.1.1)) in Hg.
Qed.
#[export] Instance run_meta_stable R `{!RunStable R} : RunMeta R.
Proof.
  intros run g Hg. apply run_stable. intros r.
  change (run_position (run_core (g r)) = run_position (run_core r)). by rewrite Hg.
Qed.

(** A run stays. *)
#[export] Instance run_stays run : RunAny (preserved (λ w, is_Some (w_runs w !! run))).
Proof. intros i g _ w Hr. simpl. by apply lookup_alter_is_Some. Qed.

(** So does where it stands. *)
#[export] Instance run_sourced run stage : RunStable (preserved (sourced run stage)).
Proof. intros i g Hg. apply sourced_modify_run. intros r. specialize (Hg r). by injection Hg. Qed.

(** the runs but for traces and correlations *)
Definition run_cores (w : World) : gmap positive PipelineRun := run_core <$> w_runs w.
#[export] Instance run_meta_cores : RunMeta (frame run_cores).
Proof.
  intros run g Hg w. unfold frame, run_cores. simpl. apply map_eq. intros i.
  rewrite !lookup_fmap, lookup_alter. case_decide as Hi; [subst|done].
  destruct (w_runs w !! i); simpl; by rewrite ?Hg.
Qed.

Lemma run_cores_lookup w w' run r :
  frame run_cores w w' → w_runs w !! run = Some r →
  ∃ r', w_runs w' !! run = Some r' ∧ run_core r' = run_core r.
Proof.
  unfold frame, run_cores. intros Hf Hr.
  assert (Hl : (run_core <$> w_runs w') !! run = Some (run_core r)) by (by rewrite Hf, lookup_fmap, Hr).
  rewrite lookup_fmap in Hl. apply fmap_Some in Hl as (r' & Hr' & ->). by exists r'.
Qed.

(** ** Lemmas *)

Lemma keeps_under_lift P R `{!PreOrder R} {A B} (r : result exn A) (k : A → M B) :
  (∀ a, r = Ok a → keeps_under P R (k a)) → keeps_under P R (lift_result r ≫= k).
Proof. intros Hk w Hp. destruct r as [a|e]; [by apply Hk|by simpl]. Qed.

Lemma keeps_run_correlation R `{!Engine R} r : keeps R (run_correlation r).
Proof. unfold run_correlation. keeps_tac. Qed.
Lemma keeps_run_definition R `{!PreOrder R} r : keeps R (run_definition r).
Proof. unfold run_definition. keeps_tac. Qed.
Lemma keeps_find_transition R `{!PreOrder R} d s t c : keeps R (find_transition d s t c).
Proof.
  unfold find_transition. keeps_tac.
  induction (order_by _ _) as [|x l IH]; simpl; keeps_tac.
Qed.
Lemma keeps_get_stage_def R `{!PreOrder R} d s : keeps R (get_stage_def d s).
Proof. unfold get_stage_def. keeps_tac. Qed.
Lemma keeps_enqueue_stage `{Settings} R `{!Engine R, !Closed w_jobs R} r s a t :
  keeps R (enqueue_stage r s a t).
Proof. pose proof keeps_run_correlation. unfold enqueue_stage. keeps_tac. Qed.
Lemma keeps_enqueue_sourced `{Settings} R `{!Engine R, !JobRows R} run stage a t :
  keeps_under (sourced run stage) R (enqueue_stage run stage a t).
Proof.
  pose proof keeps_run_correlation. unfold enqueue_stage.
  do 5 (apply keeps_under_bind; [apply _|keeps_tac|keeps_tac|intros ?]).
  apply keeps_under_last; [apply _| |intros _; keeps_tac].
  intros w Hs. apply job_add. intros r s (_ & <- & Hst). simpl in Hst.
  rewrite ContentStage_of_value_value in Hst. by injection Hst as <-.
Qed.

#[export] Hint Resolve keeps_run_correlation keeps_run_definition keeps_find_transition
  keeps_get_stage_def keeps_enqueue_stage : keeps.
