(* ===== verification/Spend.v ===== *)
(** * Spend protection (orchestration/controller.py lines 681-1001, services/spend.py)

    A stage reserves its estimated cost before it runs, commits at most that
    amount when it succeeds and releases it otherwise.  The class
    [SpendSafe] is what the rest of the engine relies on. *)

From S2P Require Import Prelude Models Database Outbox Provenance Workflow.

(** ** Calendar *)

Definition day_us : Z := 86400 * 1000000.

Definition utc_day_start (now : time) : time := now / day_us * day_us.

(** The proleptic Gregorian calendar repeats every 400 years (146097 days):
    the lengths of the months of a cycle, from January 2000. *)
Definition is_leap (y : Z) : bool :=
  (y mod 4 =? 0) && (negb (y mod 100 =? 0) || (y mod 400 =? 0)).
Definition months_of (y : Z) : list Z :=
  [31; if is_leap y then 29 else 28; 31; 30; 31; 30; 31; 31; 30; 31; 30; 31].
Definition month_cycle : list Z := flat_map months_of (seqZ 2000 400).

Fixpoint day_in (lengths : list Z) (d : Z) : Z :=
  match lengths with
  | [] => d + 1
  | l :: ls => if d <? l then d + 1 else day_in ls (d - l)
  end.

(** The day of the month, from 1, of a count of days since 1970-01-01;
    2000-01-01 is day 10957. *)
Definition day_of_month (days : Z) : Z := day_in month_cycle ((days - 10957) mod 146097).

(** [now.replace(day=1, hour=0, ...)] *)
Definition utc_month_start (now : time) : time :=
  utc_day_start now - (day_of_month (now / day_us) - 1) * day_us.

(** ** Emission on behalf of a run *)

(** [trace_id, span_id = child_span(run.trace_id); run.trace_id = trace_id] *)
Definition next_span (run : positive) : M (positive * positive) :=
  r ← the w_runs run;
  p ← child_span (run_trace_id r);
  modify w_runs run (λ r, r <| run_trace_id := Some p.1 |>);;
  mret p.

(** [emit(..., workspace_id=run.workspace_id, aggregate_type="pipeline_run",
    aggregate_id=run.id, correlation_id=_correlation_id(run), ...,
    produced_by="controller")] *)
Definition emit_for_run (run : positive) (event_type : string)
    (span : positive * positive) (payload : json) : M unit :=
  r ← the w_runs run;
  corr ← run_correlation r;
  emit event_type (run_workspace_id r) "pipeline_run" run corr
    (Some span.1) (Some span.2) payload "controller" None 1;;
  mret tt.

(** ** Usage *)

Definition log_counts (workspace_id : positive) (provider : option string)
    (since : option time) (_ : positive) (l : SpendLog) : Z :=
  if bool_decide (slog_workspace_id l = workspace_id)
     && match since with Some s => s <=? slog_occurred_at l | None => true end
     && match provider with Some p => String.eqb (slog_provider l) p | None => true end
  then slog_cost_usd l else 0.

Definition reservation_counts (workspace_id : positive) (provider : option string)
    (_ : positive) (r : SpendReservation) : Z :=
  if bool_decide (rsv_workspace_id r = workspace_id)
     && bool_decide (rsv_status r = RESERVED)
     && match provider with Some p => String.eqb (rsv_provider r) p | None => true end
  then rsv_estimated_cost_usd r else 0.

Definition spend_committed_plus_reserved (workspace_id : positive)
    (provider : option string) (since : option time) : M usd :=
  committed ← select_sum w_spend_logs (log_counts workspace_id provider since);
  reserved ← select_sum w_reservations (reservation_counts workspace_id provider);
  mret (committed + reserved).

(** the provider-specific cap if there is one, else the workspace-wide cap *)
Definition load_spend_cap_for_update (workspace_id : positive) (provider : string)
    : M (option SpendCap) :=
  cap ← session_get w_caps (workspace_id, Some provider);
  match cap with
  | Some c => mret (Some c)
  | None => session_get w_caps (workspace_id, None)
  end.

(** ** Releasing *)

Definition release_spend (run reservation : positive) : M unit :=
  rsv ← the w_reservations reservation;
  if decide (rsv_status rsv = RESERVED) then
    modify w_reservations reservation (λ r, r <| rsv_status := RELEASED |>);;
    span ← next_span run;
    emit_for_run run "spend.released" span
      (JObj [("reservation_id", JStr (uuid_str reservation))])
  else mret tt.

Definition open_for_run (run : positive) (_ : positive) (r : SpendReservation) : bool :=
  bool_decide (rsv_pipeline_run_id r = Some run ∧ rsv_status r = RESERVED).

Definition release_all_reservations (run : positive) : M unit :=
  rs ← select w_reservations (open_for_run run);
  for_each rs (λ p, release_spend run p.1).

(** ** Reserving *)

Definition open_for_stage (run : positive) (stage : ContentStage) (_ : positive)
    (r : SpendReservation) : bool :=
  bool_decide (rsv_pipeline_run_id r = Some run ∧ rsv_stage r = Some stage
               ∧ rsv_status r = RESERVED).

(** which cap, if any, the amount would exceed *)
Definition spend_check (run : positive) (provider : string) (estimated_cost_usd : usd)
    : M (option string * list (string * json)) :=
  r ← the w_runs run;
  cap ← load_spend_cap_for_update (run_workspace_id r) provider;
  match cap with
  | None => mret (Some "missing_cap", [("attempted_usd", usd_json estimated_cost_usd)])
  | Some cap =>
      let usage_provider :=
        match cap_provider cap with None => None | Some _ => Some provider end in
      t ← now;
      daily ← spend_committed_plus_reserved (run_workspace_id r) usage_provider
                (Some (utc_day_start t));
      monthly ← spend_committed_plus_reserved (run_workspace_id r) usage_provider
                  (Some (utc_month_start t));
      let daily_cap := cap_daily_cap_usd cap in
      let monthly_cap := cap_monthly_cap_usd cap in
      let exceeded :=
        if daily_cap <? daily + estimated_cost_usd then Some "daily"
        else if monthly_cap <? monthly + estimated_cost_usd then Some "monthly"
        else None in
      mret (exceeded,
            match exceeded with
            | Some _ => [("attempted_usd", usd_json estimated_cost_usd);
                         ("daily_used_usd", usd_json daily);
                         ("monthly_used_usd", usd_json monthly);
                         ("daily_cap_usd", usd_json daily_cap);
                         ("monthly_cap_usd", usd_json monthly_cap)]
            | None => []
            end)
  end.

(** [if run.correlation_id is None: run.correlation_id = uuid.uuid4()] *)
Definition pin_correlation (run : positive) : M unit :=
  r ← the w_runs run;
  match run_correlation_id r with
  | Some _ => mret tt
  | None =>
      c ← uuid4;
      modify w_runs run (λ r, r <| run_correlation_id := Some c |>)
  end.

Definition reserve_spend (run : positive) (stage : ContentStage) (provider : string)
    (estimated_cost_usd : usd) : M (option positive) :=
  prior ← select w_reservations (open_for_stage run stage);
  for_each prior (λ p, release_spend run p.1);;
  check ← spend_check run provider estimated_cost_usd;
  let '(exceeded, extra) := check in
  let payload := ("provider", JStr provider) :: ("stage", JStr (ContentStage_value stage))
                 :: extra in
  match exceeded with
  | Some kind =>
      modify w_runs run (λ r, r <| run_status := RUN_PAUSED |>
                                <| run_pause_reason := Some PAUSE_SPEND_HOLD |>);;
      pin_correlation run;;
      span ← next_span run;
      emit_for_run run "spend.budget_exceeded" span
        (JObj (payload ++ [("cap_kind", JStr kind)]));;
      mret None
  | None =>
      r ← the w_runs run;
      reservation ← uuid4;
      t ← now;
      insert_row w_reservations reservation
        (mk_reservation (run_workspace_id r) (Some run) None provider (Some stage)
           estimated_cost_usd RESERVED t);;
      flush;;
      pin_correlation run;;
      span ← next_span run;
      emit_for_run run "spend.reserved" span
        (JObj [("reservation_id", JStr (uuid_str reservation));
               ("estimated_usd", usd_json estimated_cost_usd)]);;
      mret (Some reservation)
  end.

(** ** Committing *)

Definition commit_spend (run reservation : positive) (actual_cost_usd : usd) : M unit :=
  rsv ← the w_reservations reservation;
  match rsv_status rsv with
  | COMMITTED => mret tt
  | RELEASED => raise (ValueError "cannot commit reservation; expected reserved")
  | RESERVED =>
      let reserved := rsv_estimated_cost_usd rsv in
      if actual_cost_usd <? 0 then raise (ValueError "actual_cost_usd must be >= 0")
      else
        let actual := if reserved <? actual_cost_usd then reserved else actual_cost_usd in
        modify w_reservations reservation (λ r, r <| rsv_status := COMMITTED |>);;
        r ← the w_runs run;
        log ← uuid4;
        t ← now;
        insert_row w_spend_logs log
          (mk_spend_log (run_workspace_id r) None (rsv_provider rsv) (rsv_stage rsv) actual t);;
        span ← next_span run;
        emit_for_run run "spend.committed" span
          (JObj [("reservation_id", JStr (uuid_str reservation));
                 ("actual_usd", usd_json actual); ("reserved_usd", usd_json reserved)])
  end.

(** ** Caps (services/spend.py) *)

Definition get_workspace_spend_cap (workspace_id : positive) : M (option SpendCap) :=
  session_get w_caps (workspace_id, None).

(** [session.add(cap); flush()] under the unique index *)
Definition insert_cap (workspace_id : positive) (cap : SpendCap) : M unit :=
  o ← session_get w_caps (workspace_id, cap_provider cap);
  match o with
  | Some _ => raise (IntegrityError "uq_spend_caps_workspace_provider")
  | None => insert_row w_caps (workspace_id, cap_provider cap) cap
  end.

Section Caps.
Context `{Settings}.

Definition ensure_default_spend_cap (workspace_id actor_id : positive)
    (daily_cap_usd monthly_cap_usd : option usd) : M SpendCap :=
  existing ← get_workspace_spend_cap workspace_id;
  match existing with
  | Some cap => mret cap
  | None =>
      let cap := mk_cap None (default default_daily_spend_cap_usd daily_cap_usd)
                   (default default_monthly_spend_cap_usd monthly_cap_usd)
                   (Some actor_id) (Some actor_id) in
      catch (savepoint (insert_cap workspace_id cap;; flush;; mret cap))
        (λ e, match e with
              | IntegrityError _ =>
                  existing ← get_workspace_spend_cap workspace_id;
                  match existing with
                  | Some c => mret c
                  | None => raise e
                  end
              | _ => raise e
              end)
  end.

Definition update_workspace_spend_cap (workspace_id actor_id : positive)
    (daily_cap_usd monthly_cap_usd : option usd) : M SpendCap :=
  ensure_default_spend_cap workspace_id actor_id None None;;
  modify w_caps (workspace_id, None) (λ cap,
    let cap := match daily_cap_usd with
               | Some d => cap <| cap_daily_cap_usd := d |> | None => cap end in
    let cap := match monthly_cap_usd with
               | Some m => cap <| cap_monthly_cap_usd := m |> | None => cap end in
    cap <| cap_updated_by := Some actor_id |>);;
  flush;;
  the w_caps (workspace_id, None).
End Caps.

Record SpendSnapshot : Type := mk_spend_snapshot {
  snap_daily_cap_usd : option usd;
  snap_monthly_cap_usd : option usd;
  snap_daily_used_usd : usd;
  snap_monthly_used_usd : usd;
  snap_reserved_usd : usd;
  snap_has_spend_history : bool
}.

Definition spend_snapshot (workspace_id : positive) : M SpendSnapshot :=
  cap ← get_workspace_spend_cap workspace_id;
  t ← now;
  daily_used ← spend_committed_plus_reserved workspace_id None (Some (utc_day_start t));
  monthly_used ← spend_committed_plus_reserved workspace_id None (Some (utc_month_start t));
  reserved_total ← select_sum w_reservations (reservation_counts workspace_id None);
  logs ← select w_spend_logs (λ _ l, bool_decide (slog_workspace_id l = workspace_id));
  mret (mk_spend_snapshot (cap_daily_cap_usd <$> cap) (cap_monthly_cap_usd <$> cap)
          daily_used monthly_used reserved_total
          (match logs with [] => false | _ => true end)).

(** ** Frames *)

Lemma keeps_next_span R `{!Engine R, !RunMeta R} run : keeps R (next_span run).
Proof. unfold next_span. keeps_tac. Qed.
Lemma keeps_emit_for_run R `{!Engine R} run ty sp pl :
  verdict_event ty = false → keeps R (emit_for_run run ty sp pl).
Proof. intros Hv. unfold emit_for_run. keeps_tac. Qed.
Lemma keeps_emit_any_for_run R `{!Engine R, !EmitAny R} run ty sp pl :
  keeps R (emit_for_run run ty sp pl).
Proof. unfold emit_for_run. keeps_tac. Qed.
Lemma keeps_pin_correlation R `{!Engine R, !RunMeta R} run : keeps R (pin_correlation run).
Proof. unfold pin_correlation. keeps_tac. Qed.
Lemma keeps_spend_committed R `{!PreOrder R} ws p s :
  keeps R (spend_committed_plus_reserved ws p s).
Proof. unfold spend_committed_plus_reserved. keeps_tac. Qed.
Lemma keeps_load_cap R `{!PreOrder R} ws p : keeps R (load_spend_cap_for_update ws p).
Proof. unfold load_spend_cap_for_update. keeps_tac. Qed.
#[export] Hint Resolve keeps_next_span keeps_emit_for_run keeps_emit_any_for_run keeps_pin_correlation
  keeps_spend_committed keeps_load_cap : keeps.
Lemma keeps_spend_check R `{!PreOrder R} run p e : keeps R (spend_check run p e).
Proof. unfold spend_check. keeps_tac. Qed.
#[export] Hint Resolve keeps_spend_check : keeps.

(** [rsv] is a reservation of [run]. *)
Definition reserved_for (run rsv : positive) (w : World) : Prop :=
  ∃ r, w_reservations w !! rsv = Some r ∧ rsv_pipeline_run_id r = Some run.

(** What the rest of the engine relies on: relations that the three spend
    operations keep. *)
Class SpendSafe (R : relation World) : Prop := {
  spend_safe_release : ∀ run rsv, keeps R (release_spend run rsv);
  spend_safe_reserve : ∀ run stage p e, 0 ≤ e → keeps R (reserve_spend run stage p e);
  spend_safe_commit : ∀ run rsv a w, reserved_for run rsv w → R w (commit_spend run rsv a w).2
}.
#[export] Hint Resolve spend_safe_release : keeps.

Lemma keeps_release_all R `{!Engine R, !SpendSafe R} run : keeps R (release_all_reservations run).
Proof. unfold release_all_reservations. keeps_tac. Qed.
#[export] Hint Resolve keeps_release_all : keeps.

#[export] Instance spend_safe_closed R `{!Engine R, !RunStable R,
  !Closed w_reservations R, !Closed w_spend_logs R} : SpendSafe R.
Proof.
  assert (Hrel : ∀ run rsv, keeps R (release_spend run rsv)).
  { intros. unfold release_spend. keeps_tac. }
  assert (Hcom : ∀ run rsv a, keeps R (commit_spend run rsv a)).
  { intros. unfold commit_spend. keeps_tac. }
  split; [done| |]; intros; [|apply Hcom]; unfold reserve_spend; keeps_tac.
Qed.
