(* ===== verification/SpendSafety.v ===== *)
(** * The spend caps hold

    The usage counted against a cap (the committed spend of the current day
    or month plus the open reservations) never passes the cap by the spend
    operations, and where a cap was lowered below it, is not raised by them
    either ([capped]).  A workspace-wide cap counts every provider; it governs
    a workspace that has no provider-specific cap. *)

From S2P Require Import Prelude Models Database Outbox Provenance Workflow Spend.

(** ** Calendar *)

Lemma day_in_step lengths d :
  Forall (λ l, 1 ≤ l) lengths → 0 ≤ d →
  1 ≤ day_in lengths d ∧ day_in lengths (d + 1) ≤ day_in lengths d + 1 ∧ day_in lengths 0 = 1.
Proof.
  revert d. induction lengths as [|l ls IH]; intros d Hl Hd; simpl; [lia|].
  apply Forall_cons in Hl as [H1 Hls].
  destruct (Z.ltb_spec d l), (Z.ltb_spec (d + 1) l), (Z.ltb_spec 0 l); try lia.
  - replace (d + 1 - l) with 0 by lia. destruct (IH 0 Hls); lia.
  - replace (d + 1 - l) with (d - l + 1) by lia. destruct (IH (d - l) Hls); lia.
Qed.

Lemma month_cycle_pos : Forall (λ l, 1 ≤ l) month_cycle.
Proof.
  unfold month_cycle. induction (seqZ 2000 400) as [|y l IH]; [constructor|].
  cbn [flat_map]. apply Forall_app. split; [|done].
  unfold months_of. repeat constructor; destruct (is_leap y); lia.
Qed.

Lemma day_of_month_pos d : 1 ≤ day_of_month d.
Proof. apply day_in_step; [apply month_cycle_pos|apply Z.mod_pos_bound; lia]. Qed.

Lemma day_of_month_step d : day_of_month (d + 1) ≤ day_of_month d + 1.
Proof.
  unfold day_of_month. set (c := (d - 10957) mod 146097).
  assert (Hc : 0 ≤ c < 146097) by (apply Z.mod_pos_bound; lia).
  destruct (day_in_step month_cycle c month_cycle_pos ltac:(lia)) as (H1 & H2 & H3).
  replace ((d + 1 - 10957) mod 146097) with (if c =? 146096 then 0 else c + 1).
  { destruct (c =? 146096); [rewrite H3|]; lia. }
  subst c. destruct (Z.eqb_spec ((d - 10957) mod 146097) 146096);
    Z.to_euclidean_division_equations; lia.
Qed.

Lemma utc_day_start_le t : utc_day_start t ≤ t < utc_day_start t + day_us.
Proof. unfold utc_day_start, day_us. Z.to_euclidean_division_equations. lia. Qed.

Lemma utc_month_start_le t : utc_month_start t ≤ utc_day_start t.
Proof. unfold utc_month_start, day_us. pose proof (day_of_month_pos (t / (86400 * 1000000))). lia. Qed.

(** ** Usage *)

Definition usage (workspace_id : positive) (provider : option string) (since : time)
    (w : World) : usd :=
  tsum (log_counts workspace_id provider (Some since)) (w_spend_logs w)
  + tsum (reservation_counts workspace_id provider) (w_reservations w).

(** Amounts are not negative, keys are below the supply, a reservation is
    counted in the workspace of its run, and a cap row carries the provider
    it is keyed by. *)
Definition spend_wf (w : World) : Prop :=
  below (w_next w) (w_reservations w) ∧
  below (w_next w) (w_spend_logs w) ∧
  below (w_next w) (w_runs w) ∧
  (∀ i r, w_reservations w !! i = Some r → 0 ≤ rsv_estimated_cost_usd r) ∧
  (∀ i l, w_spend_logs w !! i = Some l → 0 ≤ slog_cost_usd l) ∧
  (∀ i r run, w_reservations w !! i = Some r → rsv_pipeline_run_id r = Some run →
     run_workspace_id <$> w_runs w !! run = Some (rsv_workspace_id r)) ∧
  (∀ ws p c, w_caps w !! (ws, p) = Some c → cap_provider c = p).

Section SpendWf.
Context (w : World) (Hwf : spend_wf w).
Lemma spend_rsv_fresh : w_reservations w !! w_next w = None.
Proof using Hwf. apply below_fresh, Hwf. Qed.
Lemma spend_log_fresh : w_spend_logs w !! w_next w = None.
Proof using Hwf. apply below_fresh, Hwf. Qed.
Lemma spend_rsv_nonneg i r : w_reservations w !! i = Some r → 0 ≤ rsv_estimated_cost_usd r.
Proof using Hwf. destruct Hwf as (_ & _ & _ & H & _). apply H. Qed.
Lemma spend_log_nonneg i l : w_spend_logs w !! i = Some l → 0 ≤ slog_cost_usd l.
Proof using Hwf. destruct Hwf as (_ & _ & _ & _ & H & _). apply H. Qed.
Lemma spend_rsv_workspace i r run : w_reservations w !! i = Some r →
  rsv_pipeline_run_id r = Some run →
  run_workspace_id <$> w_runs w !! run = Some (rsv_workspace_id r).
Proof using Hwf. destruct Hwf as (_ & _ & _ & _ & _ & H & _). apply H. Qed.
Lemma spend_cap_provider ws p c : w_caps w !! (ws, p) = Some c → cap_provider c = p.
Proof using Hwf. destruct Hwf as (_ & _ & _ & _ & _ & _ & H). apply H. Qed.
End SpendWf.

(** [cap], keyed by [(ws, p)], governs: it is provider-specific, or the
    workspace has no provider-specific cap. *)
Definition governs (w : World) (ws : positive) (p : option string) (cap : SpendCap) : Prop :=
  w_caps w !! (ws, p) = Some cap ∧
  (p = None → ∀ q, w_caps w !! (ws, Some q) = None).

Definition within_caps (w : World) : Prop :=
  spend_wf w ∧
  ∀ ws p cap, governs w ws p cap →
    usage ws p (utc_day_start (w_now w)) w ≤ cap_daily_cap_usd cap ∧
    usage ws p (utc_month_start (w_now w)) w ≤ cap_monthly_cap_usd cap.

(** Usage does not grow, for any scope and any window. *)
Definition spend_le : relation World := λ w w',
  spend_wf w →
  spend_wf w' ∧ w_now w' = w_now w ∧ w_caps w' = w_caps w ∧
  ∀ ws p s, usage ws p s w' ≤ usage ws p s w.

#[export] Instance spend_le_preorder : PreOrder spend_le.
Proof.
  split; [by intros w Hwf|].
  intros w1 w2 w3 H12 H23 Hwf.
  destruct (H12 Hwf) as (Hwf2 & Hn2 & Hc2 & Hu2), (H23 Hwf2) as (Hwf3 & Hn3 & Hc3 & Hu3).
  split_and!; [done|congruence|congruence|]. intros ws p s. etrans; [apply Hu3|apply Hu2].
Qed.

Lemma spend_wf_supply w :
  spend_wf w → spend_wf (w <| w_next ::= Pos.succ |>).
Proof.
  intros (Hr & Hl & Hru & Hn1 & Hn2 & Hw & Hc).
  split_and!; simpl; try done; (eapply below_weaken; [|done]; lia).
Qed.

Lemma spend_wf_run w run g :
  (∀ r, run_workspace_id (g r) = run_workspace_id r) →
  spend_wf w → spend_wf (w <| w_runs ::= alter g run |>).
Proof.
  intros Hg (Hr & Hl & Hru & Hn1 & Hn2 & Hw & Hc).
  split_and!; simpl; try done; [by apply below_alter|].
  intros i r run' Hi Hrun. rewrite <- (Hw i r run' Hi Hrun), lookup_alter.
  case_decide; [|done]. subst. destruct (w_runs w !! run'); simpl; by rewrite ?Hg.
Qed.

#[export] Instance spend_le_runs : RunAny spend_le.
Proof.
  intros run g Hg w Hwf. split_and!; [|done|done|]; [|intros; done].
  apply spend_wf_run; [|done]. intros r. by injection (Hg r).
Qed.

#[export] Instance spend_le_engine : Engine spend_le.
Proof.
  apply engine_of_uuid4; [apply _..|]. intros w Hwf.
  split_and!; [by apply spend_wf_supply|done|done|]. intros. done.
Qed.

#[export] Instance spend_le_emit_any : EmitAny spend_le.
Proof.
  refine (emit_any_of_uuid4 spend_le _). intros w Hwf.
  split_and!; [by apply spend_wf_supply|done|done|]. intros. done.
Qed.

Lemma reservation_counts_nonneg ws p i r :
  0 ≤ rsv_estimated_cost_usd r → 0 ≤ reservation_counts ws p i r.
Proof. unfold reservation_counts. destruct (_ && _); lia. Qed.

Lemma reservation_counts_closed ws p i r :
  rsv_status r ≠ RESERVED → reservation_counts ws p i r = 0.
Proof. intros Hs. unfold reservation_counts. by rewrite (bool_decide_false (rsv_status r = _)), andb_false_r. Qed.

(** Closing a reservation (releasing or committing it) frees its amount. *)
Definition close_rsv (st : ReservationStatus) (r : SpendReservation) : SpendReservation :=
  r <| rsv_status := st |>.

Lemma spend_wf_close w i st :
  spend_wf w → spend_wf (w <| w_reservations ::= alter (close_rsv st) i |>).
Proof.
  intros (Hr & Hl & Hru & Hn & Hn2 & Hw & Hc).
  split_and!; simpl; [by apply below_alter|done|done| |done| |done].
  - intros j r. rewrite lookup_alter. case_decide; [|apply Hn].
    intros (x & Hx & ->)%fmap_Some. by apply (Hn i x).
  - intros j r run. rewrite lookup_alter. case_decide; [|apply Hw].
    intros (x & Hx & ->)%fmap_Some. by apply (Hw i x).
Qed.

Lemma usage_close w i st r ws p s :
  w_reservations w !! i = Some r → st ≠ RESERVED →
  usage ws p s (w <| w_reservations ::= alter (close_rsv st) i |>)
  = usage ws p s w - reservation_counts ws p i r.
Proof.
  intros Hi Hst. unfold usage. simpl.
  rewrite (tsum_alter _ _ _ _ (close_rsv st) Hi).
  rewrite (reservation_counts_closed ws p i (close_rsv st r)) by done. lia.
Qed.

Lemma spend_le_close i st :
  st ≠ RESERVED → keeps spend_le (modify w_reservations i (close_rsv st)).
Proof.
  intros Hst w Hwf. simpl. split_and!; [by apply spend_wf_close|done|done|].
  intros ws p s. destruct (w_reservations w !! i) as [r|] eqn:Hi.
  - rewrite (usage_close w i st r) by done.
    pose proof (reservation_counts_nonneg ws p i r (spend_rsv_nonneg w Hwf i r Hi)). lia.
  - unfold usage. simpl. by rewrite alter_None.
Qed.

Lemma spend_le_release run rsv : keeps spend_le (release_spend run rsv).
Proof.
  unfold release_spend. keeps_tac. by apply (spend_le_close rsv RELEASED).
Qed.

(** Adding a log of at most the amount of the reservation just closed. *)
Lemma usage_commit w i r l log ws p s :
  spend_wf w → w_reservations w !! i = Some r → rsv_status r = RESERVED →
  w_spend_logs w !! log = None →
  slog_workspace_id l = rsv_workspace_id r → slog_provider l = rsv_provider r →
  slog_cost_usd l ≤ rsv_estimated_cost_usd r →
  usage ws p s (w <| w_reservations ::= alter (close_rsv COMMITTED) i |>
                  <| w_spend_logs ::= <[log := l]> |>) ≤ usage ws p s w.
Proof.
  intros Hwf Hi Hs Hlog Hws Hp Hcost.
  pose proof (usage_close w i COMMITTED r ws p s Hi ltac:(done)) as Hu.
  unfold usage in *. simpl in *. rewrite tsum_insert_None by done.
  assert (log_counts ws p (Some s) log l ≤ reservation_counts ws p i r); [|lia].
  unfold log_counts, reservation_counts. rewrite Hws, Hp, Hs.
  rewrite (bool_decide_true (RESERVED = RESERVED)) by done.
  pose proof (spend_rsv_nonneg w Hwf i r Hi).
  destruct (bool_decide _), (s <=? _), p; simpl; try lia; destruct (String.eqb _ _); lia.
Qed.

(** ** What the admission check establishes *)

(** the cap [load_spend_cap_for_update] returns *)
Definition loaded_cap (w : World) (ws : positive) (provider : string) : option SpendCap :=
  match w_caps w !! (ws, Some provider) with
  | Some c => Some c
  | None => w_caps w !! (ws, None)
  end.

Lemma run_load_cap ws provider w :
  load_spend_cap_for_update ws provider w = (Ok (loaded_cap w ws provider), w).
Proof.
  unfold load_spend_cap_for_update, loaded_cap. rewrite run_bind. simpl.
  by destruct (w_caps w !! (ws, Some provider)).
Qed.

(** the providers a cap counts *)
Definition cap_scope (cap : SpendCap) (provider : string) : option string :=
  match cap_provider cap with None => None | Some _ => Some provider end.

Definition fits (w : World) (ws : positive) (provider : string) (e : usd) (cap : SpendCap) : Prop :=
  usage ws (cap_scope cap provider) (utc_day_start (w_now w)) w + e ≤ cap_daily_cap_usd cap ∧
  usage ws (cap_scope cap provider) (utc_month_start (w_now w)) w + e ≤ cap_monthly_cap_usd cap.

(** The check passes exactly when a cap is loaded and the amount fits it. *)
Lemma run_spend_check run provider e w r :
  w_runs w !! run = Some r →
  ∃ exceeded extra, spend_check run provider e w = (Ok (exceeded, extra), w) ∧
    (exceeded = None ↔
     ∃ cap, loaded_cap w (run_workspace_id r) provider = Some cap ∧
            fits w (run_workspace_id r) provider e cap).
Proof.
  intros Hr. unfold spend_check. rewrite run_bind, run_the, Hr. simpl.
  rewrite run_bind, run_load_cap.
  destruct (loaded_cap w _ provider) as [cap|]; [|eexists _, _; split; [done|]; naive_solver].
  rewrite run_bind. simpl. rewrite run_bind. simpl. rewrite run_bind. simpl.
  eexists _, _. split; [done|]. unfold fits, usage, cap_scope.
  set (sc := match cap_provider cap with Some _ => Some provider | None => None end).
  split.
  - do 2 (case_match; [done|]). intros _. exists cap. split; [done|]. subst sc. lia.
  - intros (cap' & [= <-] & Hd & Hm). subst sc.
    rewrite (proj2 (Z.ltb_ge _ _) Hd). by rewrite (proj2 (Z.ltb_ge _ _) Hm).
Qed.

(** ** The caps are kept *)

(** the two periods a cap bounds *)
Inductive period : Type := DAY | MONTH.
Definition period_start (d : period) : time → time :=
  match d with DAY => utc_day_start | MONTH => utc_month_start end.
Definition period_cap (d : period) : SpendCap → usd :=
  match d with DAY => cap_daily_cap_usd | MONTH => cap_monthly_cap_usd end.

(** what the current period counts *)
Definition used (d : period) (ws : positive) (p : option string) (w : World) : usd :=
  usage ws p (period_start d (w_now w)) w.

Lemma within_used w :
  within_caps w ↔ spend_wf w ∧ ∀ ws p cap d, governs w ws p cap → used d ws p w ≤ period_cap d cap.
Proof.
  split; intros [Hwf Hc]; (split; [done|]).
  - intros ws p cap d Hg. by destruct (Hc ws p cap Hg), d.
  - intros ws p cap Hg. split; [apply (Hc ws p cap DAY Hg)|apply (Hc ws p cap MONTH Hg)].
Qed.

(** The caps stay, time does not run back, and where usage is over the cap
    that governs it does not grow. *)
Definition capped : relation World := λ w w',
  spend_wf w →
  spend_wf w' ∧ w_now w ≤ w_now w' ∧ w_caps w' = w_caps w ∧
  ∀ ws p cap d, governs w ws p cap → used d ws p w' ≤ Z.max (period_cap d cap) (used d ws p w).

Lemma governs_same w w' ws p cap : w_caps w' = w_caps w → governs w ws p cap → governs w' ws p cap.
Proof. intros Hc. unfold governs. by rewrite Hc. Qed.

#[export] Instance capped_preorder : PreOrder capped.
Proof.
  split; [intros w Hwf; split_and!; [done..|lia]|].
  intros w1 w2 w3 H12 H23 Hwf.
  destruct (H12 Hwf) as (Hwf2 & Hn2 & Hc2 & Hu2), (H23 Hwf2) as (Hwf3 & Hn3 & Hc3 & Hu3).
  split_and!; [done|lia|congruence|]. intros ws p cap d Hg.
  specialize (Hu2 ws p cap d Hg). specialize (Hu3 ws p cap d (governs_same _ _ _ _ _ Hc2 Hg)). lia.
Qed.

Lemma capped_of_le w w' : spend_le w w' → capped w w'.
Proof.
  intros Hle Hwf. destruct (Hle Hwf) as (Hwf' & Hn & Hc & Hu). split_and!; [done|lia|done|].
  intros ws p cap d _. unfold used. rewrite Hn. pose proof (Hu ws p (period_start d (w_now w))). lia.
Qed.
Lemma keeps_end (R : relation World) {A} (m : M A) w : keeps R m → R w (m w).2.
Proof. intros Hm. apply Hm. Qed.
Lemma capped_from {A} (m : M A) w w1 : capped w w1 → keeps capped m → capped w (m w1).2.
Proof. intros Hw Hm. etrans; [exact Hw|apply Hm]. Qed.
Lemma keeps_capped {A} (m : M A) : keeps spend_le m → keeps capped m.
Proof. intros Hk w. apply capped_of_le, Hk. Qed.

Lemma capped_within w w' : capped w w' → within_caps w → within_caps w'.
Proof.
  intros Hle [Hwf Hcaps]%within_used. destruct (Hle Hwf) as (Hwf' & _ & Hc & Hu).
  apply within_used. split; [done|]. intros ws p cap d Hg.
  pose proof (governs_same _ _ _ _ _ (eq_sym Hc) Hg) as Hg0.
  specialize (Hcaps ws p cap d Hg0). specialize (Hu ws p cap d Hg0). lia.
Qed.

#[export] Instance capped_engine : Engine capped.
Proof.
  split; [apply _|apply keeps_capped, engine_uuid4|apply keeps_capped, engine_flush|].
  intros. by apply keeps_capped, engine_emit.
Qed.
#[export] Instance capped_emit_any : EmitAny capped.
Proof. intros ty ws aggt agg corr tr sp pl by_ ca v. apply keeps_capped, emit_any. Qed.
#[export] Instance capped_runs : RunAny capped.
Proof. intros run g Hg. by apply keeps_capped, run_any. Qed.

(** The reservation [reserve_spend] inserts. *)
Definition new_reservation (w : World) (r : PipelineRun) (run : positive)
    (stage : ContentStage) (provider : string) (e : usd) : SpendReservation :=
  mk_reservation (run_workspace_id r) (Some run) None provider (Some stage) e RESERVED (w_now w).
Definition with_reservation (w : World) (rsv : SpendReservation) : World :=
  w <| w_next ::= Pos.succ |> <| w_reservations ::= <[w_next w := rsv]> |>.

Lemma spend_wf_reserve w r run stage provider e :
  spend_wf w → w_runs w !! run = Some r → 0 ≤ e →
  spend_wf (with_reservation w (new_reservation w r run stage provider e)).
Proof.
  intros (Hr & Hl & Hru & Hn & Hn2 & Hw & Hc) Hrun He. split_and!; simpl; [| | | |done| |done].
  - apply below_insert; [lia|]. eapply below_weaken; [|done]. lia.
  - eapply below_weaken; [|done]. lia.
  - eapply below_weaken; [|done]. lia.
  - intros i x. rewrite lookup_insert. case_decide; [naive_solver|apply Hn].
  - intros i x run'. rewrite lookup_insert. case_decide; [|apply Hw].
    intros [= <-] [= <-]. by rewrite Hrun.
Qed.

Lemma usage_reserve w rsv ws p s :
  spend_wf w →
  usage ws p s (with_reservation w rsv)
  = usage ws p s w + reservation_counts ws p (w_next w) rsv.
Proof.
  intros Hwf. unfold usage. simpl.
  rewrite tsum_insert_None by by apply spend_rsv_fresh. lia.
Qed.

Lemma capped_reserve w r run stage provider e cap :
  w_runs w !! run = Some r → 0 ≤ e →
  loaded_cap w (run_workspace_id r) provider = Some cap →
  fits w (run_workspace_id r) provider e cap →
  capped w (with_reservation w (new_reservation w r run stage provider e)).
Proof.
  intros Hrun He Hload Hfits Hwf. split_and!; [by apply spend_wf_reserve|simpl; lia|done|].
  intros ws p cap' d [Hcap Hgov]. unfold used. rewrite usage_reserve by done.
  change (w_now (with_reservation w _)) with (w_now w).
  unfold reservation_counts. simpl.
  destruct (bool_decide_reflect (run_workspace_id r = ws)) as [<-|]; simpl; [|lia].
  assert (Heq : match p with Some p => String.eqb provider p | None => true end = true →
                cap' = cap ∧ cap_scope cap provider = p).
  { unfold loaded_cap in Hload. intros Hp. destruct p as [p|].
    - apply String.eqb_eq in Hp as <-. rewrite Hcap in Hload. injection Hload as ->.
      split; [done|]. unfold cap_scope. by rewrite (spend_cap_provider w Hwf _ _ _ Hcap).
    - rewrite Hgov in Hload by done. rewrite Hcap in Hload. injection Hload as ->.
      split; [done|]. unfold cap_scope. by rewrite (spend_cap_provider w Hwf _ _ _ Hcap). }
  destruct (match p with Some p => String.eqb provider p | None => true end) eqn:Hp; [|lia].
  destruct Heq as [-> Hsc]; [done|]. unfold fits in Hfits. rewrite Hsc in Hfits.
  destruct d; simpl; lia.
Qed.

Lemma capped_reserve_spend run stage provider e :
  0 ≤ e → keeps capped (reserve_spend run stage provider e).
Proof.
  intros He. unfold reserve_spend. apply keeps_bind; [apply _|keeps_tac|intros prior].
  apply keeps_bind; [apply _| |intros _].
  { apply keeps_for_each; [apply _|]. intros p. apply keeps_capped, spend_le_release. }
  intros w. destruct (w_runs w !! run) as [r|] eqn:Hr.
  2: { rewrite run_bind. unfold spend_check. rewrite run_bind, run_the, Hr. reflexivity. }
  destruct (run_spend_check run provider e w r Hr) as (exceeded & extra & Hcheck & Hex).
  rewrite (run_bind_ok _ _ _ _ _ Hcheck). cbv beta iota.
  destruct exceeded as [kind|].
  - apply keeps_end. keeps_tac.
  - destruct (proj1 Hex eq_refl) as (cap & Hload & Hfits).
    do 4 (erewrite run_bind_ok; [|by rewrite ?run_the, ?Hr]).
    apply capped_from; [by apply (capped_reserve w r run stage provider e cap)|keeps_tac].
Qed.

(** The state after [commit_spend] closed reservation [i] and logged [l]. *)
Definition with_commit (w : World) (i : positive) (l : SpendLog) : World :=
  w <| w_reservations ::= alter (close_rsv COMMITTED) i |>
    <| w_next ::= Pos.succ |> <| w_spend_logs ::= <[w_next w := l]> |>.

Lemma spend_le_commit w i r l :
  w_reservations w !! i = Some r → rsv_status r = RESERVED →
  slog_workspace_id l = rsv_workspace_id r → slog_provider l = rsv_provider r →
  0 ≤ slog_cost_usd l ≤ rsv_estimated_cost_usd r →
  spend_le w (with_commit w i l).
Proof.
  intros Hi Hs Hws Hp Hcost Hwf. split_and!; [|done|done|].
  - pose proof (spend_wf_close w i COMMITTED Hwf) as (Hr & Hl & Hru & Hn & Hn2 & Hw & Hc).
    simpl in *. split_and!; simpl; [| | |done| |done|done].
    + eapply below_weaken; [|done]. lia.
    + apply below_insert; [lia|]. eapply below_weaken; [|done]. lia.
    + eapply below_weaken; [|done]. lia.
    + intros j x. rewrite lookup_insert. case_decide; [|apply Hn2]. intros [= <-]. apply Hcost.
  - intros ws p s. apply (usage_commit w i r l (w_next w)); try done; [|apply Hcost].
    by apply spend_log_fresh.
Qed.

Lemma capped_commit run rsv a w :
  reserved_for run rsv w → capped w (commit_spend run rsv a w).2.
Proof.
  intros (r & Hi & Hrun) Hw. unfold commit_spend. rewrite run_bind, run_the, Hi.
  destruct (rsv_status r) eqn:Hs; [|by apply (reflexivity (R := capped))..].
  destruct (Z.ltb_spec a 0); [by apply (reflexivity (R := capped))|].
  pose proof (spend_rsv_workspace w Hw _ _ _ Hi Hrun) as (pr & Hpr & Hws)%fmap_Some.
  erewrite run_bind_ok by reflexivity.
  erewrite run_bind_ok; [|rewrite run_the; simpl; by rewrite Hpr].
  pose proof Hw as Hwf. do 3 (erewrite run_bind_ok by reflexivity). revert Hw.
  apply capped_from; [|keeps_tac].
  apply capped_of_le.
  eapply (spend_le_commit w rsv r (mk_spend_log (run_workspace_id pr) None (rsv_provider r)
    (rsv_stage r) _ (w_now w))); try done; simpl; try congruence.
  pose proof (spend_rsv_nonneg w Hwf _ _ Hi).
  destruct (Z.ltb_spec (rsv_estimated_cost_usd r) a); lia.
Qed.

#[export] Instance capped_spend_safe : SpendSafe capped.
Proof.
  split; [intros; apply keeps_capped, spend_le_release|apply capped_reserve_spend|].
  intros run rsv a w Hr. by apply capped_commit.
Qed.

(** ** Time passes *)

Lemma month_start_days_mono d d' : d ≤ d' → d - day_of_month d ≤ d' - day_of_month d'.
Proof.
  intros Hd. replace d' with (d + Z.of_nat (Z.to_nat (d' - d))) by lia.
  induction (Z.to_nat (d' - d)) as [|n IH]; [by rewrite Z.add_0_r|].
  pose proof (day_of_month_step (d + Z.of_nat n)).
  replace (d + Z.of_nat (S n)) with (d + Z.of_nat n + 1) by lia. lia.
Qed.

Lemma utc_day_start_mono t t' : t ≤ t' → utc_day_start t ≤ utc_day_start t'.
Proof.
  intros Ht. unfold utc_day_start. pose proof (Z.div_le_mono t t' day_us). unfold day_us in *. nia.
Qed.

Lemma utc_month_start_mono t t' : t ≤ t' → utc_month_start t ≤ utc_month_start t'.
Proof.
  intros Ht. unfold utc_month_start, utc_day_start.
  pose proof (month_start_days_mono (t / day_us) (t' / day_us)) as Hm.
  assert (t / day_us ≤ t' / day_us) by (apply Z.div_le_mono; unfold day_us; lia).
  specialize (Hm ltac:(done)). unfold day_us in *. nia.
Qed.

(** A later window counts less. *)
Lemma usage_since_mono w ws p s s' :
  spend_wf w → s ≤ s' → usage ws p s' w ≤ usage ws p s w.
Proof.
  intros Hwf Hs. unfold usage. apply Z.add_le_mono_r, tsum_mono. intros i l Hl.
  pose proof (spend_log_nonneg w Hwf i l Hl). unfold log_counts.
  destruct (bool_decide _); simpl; [|lia].
  destruct (Z.leb_spec s' (slog_occurred_at l)), (Z.leb_spec s (slog_occurred_at l)); simpl;
    try lia; destruct (match p with Some _ => _ | None => _ end); lia.
Qed.

Lemma period_start_mono d t t' : t ≤ t' → period_start d t ≤ period_start d t'.
Proof. destruct d; [apply utc_day_start_mono|apply utc_month_start_mono]. Qed.

Lemma capped_clock d : 0 ≤ d → keeps capped (update w_now (Z.add d) : M unit).
Proof.
  intros Hd w Hwf. split_and!; [done|simpl; lia|done|]. intros ws p cap k _.
  pose proof (usage_since_mono w ws p _ _ Hwf
    (period_start_mono k (w_now w) (d + w_now w) ltac:(lia))).
  unfold used, usage in *. simpl in *. lia.
Qed.
