(* ===== verification/Controller.v ===== *)
(** * The execution controller (orchestration/controller.py)

    A run moves through its workflow definition: a stage that succeeds
    enqueues the next one, opens a review gate or ends the run; a stage that
    fails is retried with backoff or fails the run; a gate is decided,
    escalated or timed out; a run is cancelled.  The spend hooks are in
    [Spend], the condition language and routing in [Workflow]. *)

From S2P Require Import Prelude Models Database Outbox Provenance Assignments Gates Retry Workflow Spend.

Definition DEFAULT_REVIEW_TIMEOUT_HOURS : Z := 48.

Definition is_terminal (s : PipelineRunStatus) : bool :=
  match s with RUN_SUCCEEDED | RUN_FAILED | RUN_CANCELLED => true | _ => false end.

Definition by_ordinal (a b : WorkflowStage) : bool := wst_ordinal a <=? wst_ordinal b.

(** [ORDER BY completed_at DESC] (nulls first) *)
Definition by_completed_desc (a b : PipelineStageRun) : bool :=
  match srun_completed_at a, srun_completed_at b with
  | None, _ => true
  | Some _, None => false
  | Some x, Some y => y <=? x
  end.

Definition open_assignment_of (run : positive) (_ : positive) (a : StageAssignment) : bool :=
  bool_decide (asn_pipeline_run_id a = run) && asn_open a.

Lemma open_assignment_of_open run i a : open_assignment_of run i a = true → asn_open a = true.
Proof. by intros [_ Ho]%andb_true_iff. Qed.

Definition set_status (s : PipelineRunStatus) (r : PipelineRun) : PipelineRun :=
  r <| run_status := s |>.

Section Controller.
Context `{Settings}.

(** ** Starting a run *)

Definition start_run (run definition : positive) : M unit :=
  modify w_runs run (λ r, r <| run_definition_id := Some definition |>);;
  pin_correlation run;;
  stages ← select w_stages (λ k _, bool_decide (k.1 = definition));
  match order_by by_ordinal stages.*2 with
  | [] => raise (ValueError "workflow definition has no stages")
  | first_stage :: _ =>
      t ← now;
      modify w_runs run (λ r, r <| run_current_stage := wst_stage_key first_stage |>
                                <| run_started_at := Some t |>);;
      enqueue_stage run (wst_stage_key first_stage) 0 None;;
      mret tt
  end.

(** ** The review gate opens *)

Definition awaiting_gate_of (run : positive) (_ : positive) (g : ReviewGate) : bool :=
  bool_decide (gate_pipeline_run_id g = run ∧ gate_status g = GATE_AWAITING).

(** [session.add(JobSchedule(id=uuid4(), job_type=..., ...)] with the column
    defaults *)
Definition add_job (workspace_id : positive) (ty : JobType) (ref_table : string)
    (ref_id : positive) (run_after : time) (corr trace : option positive) : M unit :=
  job ← uuid4;
  t ← now;
  insert_row w_jobs job
    (mk_job workspace_id ty ref_table ref_id run_after JOB_PENDING None None 0 0 corr trace t).

Definition pause_for_review (run : positive) (stage_key : ContentStage)
    (timeout_seconds : Z) : M positive :=
  r ← the w_runs run;
  if is_terminal (run_status r) then
    raise (ValueError "cannot open review gate on terminal run")
  else
    found ← select w_gates_db (awaiting_gate_of run);
    existing_awaiting ← scalar_one_or_none found;
    match existing_awaiting with
    | Some (gate, _) => mret gate
    | None =>
        item ← session_get_opt w_items (run_content_item_id r);
        match item with
        | None => raise (ValueError "pipeline run has no content item")
        | Some item =>
            t ← now;
            let timeout_at := t + seconds timeout_seconds in
            modify w_runs run (λ r, r <| run_status := RUN_PAUSED |>
                                      <| run_pause_reason := Some PAUSE_REVIEW_GATE |>);;
            gate ← add_gate
              (mk_gate (run_workspace_id r) run (item_current_version_id item) stage_key
                 GATE_AWAITING t (Some timeout_at) None None 0);
            flush;;
            corr ← run_correlation r;
            add_job (run_workspace_id r) JOB_REVIEW_TIMEOUT "review_gates" gate timeout_at
              (Some corr) (run_trace_id r);;
            span ← next_span run;
            emit_for_run run "review.requested" span
              (JObj [("stage", JStr (ContentStage_value stage_key));
                     ("review_gate_id", JStr (uuid_str gate))]);;
            mret gate
        end
    end.

(** ** Advancing *)

Definition succeed_run (run : positive) (final_stage : ContentStage)
    (span : positive * positive) : M unit :=
  t ← now;
  modify w_runs run (λ r, r <| run_status := RUN_SUCCEEDED |>
                            <| run_completed_at := Some t |>
                            <| run_current_stage := final_stage |>);;
  emit_for_run run "pipeline.succeeded" span
    (JObj [("final_stage", JStr (ContentStage_value final_stage))]).

Definition advance_or_finish (run : positive) (from_stage : ContentStage)
    (trigger : WorkflowTransitionTrigger) (context : json) : M unit :=
  r ← the w_runs run;
  d ← run_definition r;
  transition ← find_transition d from_stage trigger context;
  match transition with
  | None =>
      current_stage_def ← get_stage_def d from_stage;
      if wst_is_terminal current_stage_def then
        span ← next_span run;
        succeed_run run from_stage span
      else raise (ValueError "no matching transition")
  | Some transition =>
      to_stage_def ← get_stage_def d (wtr_to_stage transition);
      span ← next_span run;
      modify w_runs run (λ r, r <| run_current_stage := wtr_to_stage transition |>);;
      if wst_is_terminal to_stage_def then
        succeed_run run (wtr_to_stage transition) span
      else if wst_is_review_gate to_stage_def then
        pause_for_review run (wst_stage_key to_stage_def) (wst_timeout_seconds to_stage_def);;
        mret tt
      else
        enqueue_stage run (wst_stage_key to_stage_def) 0 None;;
        mret tt
  end.

Definition handle_stage_success (run : positive) (stage : ContentStage)
    (result_context : json) : M unit :=
  r ← the w_runs run;
  if is_terminal (run_status r) then mret tt
  else advance_or_finish run stage ON_SUCCESS result_context.

(** ** Failing *)

Definition fail_run (run : positive) (reason : string) : M unit :=
  t ← now;
  modify w_runs run (λ r, r <| run_status := RUN_FAILED |>
                            <| run_completed_at := Some t |>);;
  span ← next_span run;
  emit_for_run run "pipeline.failed" span (JObj [("reason", JStr reason)]);;
  release_all_reservations run.

Definition succeeded_stage_run_of (run : positive) (_ : positive * ContentStage * Z)
    (s : PipelineStageRun) : bool :=
  bool_decide (srun_pipeline_run_id s = run ∧ srun_status s = SRUN_SUCCEEDED).

Definition compensate (run : positive) (stage_run : PipelineStageRun) : M unit :=
  r ← the w_runs run;
  d ← run_definition r;
  stage_def ← get_stage_def d (srun_stage stage_run);
  match wst_compensation_stage_key stage_def with
  | None => mret tt
  | Some c =>
      t ← now;
      corr ← run_correlation r;
      add_job (run_workspace_id r) JOB_COMPENSATION (ContentStage_value c) run t
        (Some corr) (run_trace_id r)
  end.

Definition trigger_compensation (run : positive) : M unit :=
  modify w_runs run (set_status RUN_COMPENSATING);;
  completed ← select w_stage_runs (succeeded_stage_run_of run);
  for_each (order_by by_completed_desc completed.*2) (compensate run);;
  modify w_runs run (set_status RUN_FAILED);;
  flush.

(** logs, and has no other effect *)
Definition run_compensation_stage (pipeline_run_id : positive) (stage : string) : M unit :=
  mret tt.

Definition handle_stage_failure (run : positive) (stage : ContentStage)
    (attempt_number : Z) (error_message : string) : M unit :=
  span ← next_span run;
  emit_for_run run "stage.failed" span
    (JObj [("stage", JStr (ContentStage_value stage));
           ("attempt_number", JNum attempt_number 0); ("error", JStr error_message)]);;
  r ← the w_runs run;
  d ← run_definition r;
  stage_def ← get_stage_def d stage;
  if is_retryable error_message && (attempt_number <? wst_max_attempts stage_def) then
    delay ← compute_backoff_seconds (attempt_number + 1) (wst_backoff_base_seconds stage_def)
              (wst_backoff_multiplier stage_def) (wst_backoff_max_seconds stage_def);
    t ← now;
    enqueue_stage run stage attempt_number (Some (t + delay));;
    mret tt
  else
    t ← now;
    route_to_dead_letter (run_workspace_id r) "pipeline_runs" run
      ("stage:" +:+ ContentStage_value stage)
      (Some (JObj [("stage", JStr (ContentStage_value stage));
                   ("attempt_number", JNum attempt_number 0)]))
      error_message attempt_number (default t (run_started_at r));;
    fail_run run error_message;;
    match wst_compensation_stage_key stage_def with
    | Some _ => trigger_compensation run
    | None => mret tt
    end.

(** [stage] is the value in the [ref_table] column of the timeout job. *)
Definition handle_stage_timeout (pipeline_run_id : positive) (stage : string) : M unit :=
  run ← session_get w_runs pipeline_run_id;
  match run with
  | None => mret tt
  | Some r =>
      if negb (String.eqb (ContentStage_value (run_current_stage r)) stage)
         || negb (bool_decide (run_status r = RUN_RUNNING)) then mret tt
      else
        n ← select_count w_stage_runs (λ _ s,
              bool_decide (srun_pipeline_run_id s = pipeline_run_id
                           ∧ srun_stage s = run_current_stage r));
        handle_stage_failure pipeline_run_id (run_current_stage r) (n + 1) "timeout"
  end.

(** ** Cancelling *)

Definition cancel_run (run : positive) : M unit :=
  r ← the w_runs run;
  if is_terminal (run_status r) then mret tt
  else
    cancel_assignments (open_assignment_of run);;
    t ← now;
    modify w_runs run (λ r, r <| run_status := RUN_CANCELLED |>
                              <| run_completed_at := Some t |>);;
    span ← next_span run;
    release_all_reservations run;;
    emit_for_run run "pipeline.cancelled" span (JObj []).

(** ** The review gate closes *)

Definition resume_from_review (gate : positive) (approved : bool) : M unit :=
  g ← the w_gates gate;
  if negb (bool_decide (gate_status g = GATE_AWAITING)) then mret tt
  else
    let run := gate_pipeline_run_id g in
    o ← session_get w_runs run;
    match o with
    | None => raise (ValueError "review_gate has no pipeline_run")
    | Some r =>
        t ← now;
        modify w_gates gate (resolved_gate approved t);;
        reject_transition ←
          (if approved then mret None
           else d ← run_definition r;
                find_transition d (gate_stage g) ON_REVIEW_REJECTED (JObj []));
        if negb approved && bool_decide (reject_transition = None) then
          modify w_runs run (λ r, r <| run_pause_reason := None |>);;
          fail_run run "review_rejected"
        else
          modify w_runs run (λ r, r <| run_status := RUN_RUNNING |>
                                    <| run_pause_reason := None |>);;
          advance_or_finish run (gate_stage g)
            (if approved then ON_REVIEW_APPROVED else ON_REVIEW_REJECTED) (JObj [])
    end.

Definition handle_review_timeout (review_gate_id : positive) : M unit :=
  o ← session_get w_gates review_gate_id;
  match o with
  | None => mret tt
  | Some g =>
      if negb (bool_decide (gate_status g = GATE_AWAITING)) then mret tt
      else
        let run := gate_pipeline_run_id g in
        ro ← session_get w_runs run;
        span ← child_span (ro ≫= run_trace_id);
        let notify event_type payload :=
          corr ← match ro with Some r => run_correlation r | None => uuid4 end;
          emit event_type (gate_workspace_id g) "pipeline_run" run corr
            (Some span.1) (Some span.2) (JObj payload) "controller" None 1;;
          mret tt in
        if gate_escalation_level g =? 0 then
          t ← now;
          let new_timeout := t + hours DEFAULT_REVIEW_TIMEOUT_HOURS in
          modify w_gates review_gate_id (escalated_gate new_timeout);;
          add_job (gate_workspace_id g) JOB_REVIEW_TIMEOUT "review_gates" review_gate_id
            new_timeout None None;;
          notify "review.escalated"
            [("review_gate_id", JStr (uuid_str review_gate_id));
             ("escalation_level", JNum (gate_escalation_level g + 1) 0)]
        else
          modify w_gates review_gate_id timed_out_gate;;
          notify "review.timed_out" [("review_gate_id", JStr (uuid_str review_gate_id))];;
          match ro with
          | Some _ => fail_run run "review_gate_timed_out"
          | None => mret tt
          end
  end.

Definition submit_review_decision (gate reviewer_id : positive) (approved : bool)
    (notes : option string) : M positive :=
  g ← the w_gates gate;
  if negb (bool_decide (gate_status g = GATE_AWAITING)) then
    raise (ValueError "review_gate is not awaiting a decision")
  else
    let run := gate_pipeline_run_id g in
    ro ← session_get w_runs run;
    match ro ≫= λ r, (λ i, (r, i)) <$> run_content_item_id r with
    | None => raise (ValueError "review_gate missing pipeline run / content item")
    | Some (r, content_item_id) =>
        modify w_gates gate (decided_gate reviewer_id);;
        decision ← uuid4;
        insert_row w_decisions decision
          (mk_decision (gate_workspace_id g) content_item_id reviewer_id
             (if approved then DECISION_APPROVED else DECISION_REJECTED) notes);;
        flush;;
        span ← child_span (run_trace_id r);
        corr ← run_correlation r;
        emit (verdict_type approved)
          (gate_workspace_id g) "pipeline_run" run corr (Some span.1) (Some span.2)
          (JObj [("review_gate_id", JStr (uuid_str gate));
                 ("decision_id", JStr (uuid_str decision))]) "review_hook" None 1
    end.
End Controller.

(** ** Frames *)

(** A run moves on from a stage it was brought to; the trigger
    [ON_REVIEW_APPROVED] comes with an approved gate of the run. *)
Definition moving (run : positive) (from_stage : ContentStage)
    (trigger : WorkflowTransitionTrigger) (w : World) : Prop :=
  sourced run from_stage w ∧ (trigger = ON_REVIEW_APPROVED → approved_run run w).

(** Relations that starting and advancing a run keep. *)
Class Moves `{Settings} (R : relation World) : Prop := {
  move_start : ∀ run d, keeps R (start_run run d);
  move_on : ∀ run s tr c, keeps_under (moving run s tr) R (advance_or_finish run s tr c)
}.

Section MoveFrames.
Context `{Settings} (R : relation World) `{!Engine R, !RunAny R, !Closed w_jobs R, !GateAdd R}.

Lemma keeps_start_run run d : keeps R (start_run run d).
Proof using All. unfold start_run. keeps_tac. Qed.
Lemma keeps_pause_for_review run s t : keeps R (pause_for_review run s t).
Proof using All.
  unfold pause_for_review, add_job.
  apply (keeps_bind_post (λ _ w, is_Some (w_runs w !! run))); [apply _|keeps_tac| |intros r].
  { intros w r w' [Hr ->]%the_ok_inv. by exists r. }
  destruct (is_terminal (run_status r)); [apply keeps_under_keeps; keeps_tac|].
  do 2 (apply keeps_under_bind; [apply _|keeps_tac|keeps_tac|intros ?]).
  destruct (_ : option (positive * ReviewGate)) as [[i g]|]; [apply keeps_under_keeps; keeps_tac|].
  apply keeps_under_bind; [apply _|keeps_tac|keeps_tac|intros [item|]];
    [|apply keeps_under_keeps; keeps_tac].
  do 2 (apply keeps_under_bind; [apply _|keeps_tac|keeps_tac|intros ?]).
  apply keeps_under_last; [apply _| |keeps_tac].
  exact (gate_add (mk_gate _ run _ _ _ _ _ _ _ _) (new_gate _ _ _ _ _ _)).
Qed.
Lemma keeps_succeed_run run s sp : keeps R (succeed_run run s sp).
Proof using All. unfold succeed_run. keeps_tac. Qed.
Hint Resolve keeps_pause_for_review keeps_succeed_run : keeps.
#[export] Instance moves_any : Moves R.
Proof using All.
  split; [exact keeps_start_run|]. intros run s tr c. apply keeps_under_keeps.
  unfold advance_or_finish. keeps_tac.
Qed.
End MoveFrames.

Section Frames.
Context `{Settings} (R : relation World) `{!Engine R, !RunStable R, !JobRows R}.

(** a job that dispatches no stage *)
Lemma keeps_add_job ws ty tb i t c tr :
  ty ≠ JOB_STAGE → ty ≠ JOB_RETRY → keeps R (add_job ws ty tb i t c tr).
Proof using All.
  intros Hs Hr. unfold add_job. do 2 (apply keeps_bind; [apply _|keeps_tac|intros ?]).
  intros w. apply job_add. by intros run stage ([?|?] & _).
Qed.
Lemma keeps_handle_stage_success `{!Moves R} run s c :
  keeps_under (sourced run s) R (handle_stage_success run s c).
Proof using All.
  unfold handle_stage_success. apply keeps_under_bind; [apply _|keeps_tac|keeps_tac|intros r].
  destruct (is_terminal (run_status r)); [apply keeps_under_keeps; keeps_tac|].
  intros w Hs. by apply move_on.
Qed.
End Frames.
#[export] Hint Resolve move_start : keeps.
#[export] Hint Extern 1 (keeps _ (add_job _ _ _ _ _ _ _)) =>
  (apply keeps_add_job; [typeclasses eauto..|discriminate|discriminate]) : keeps.

Section SpendFrames.
Context `{Settings} (R : relation World) `{!Engine R, !RunStable R, !SpendSafe R,
  !JobRows R, !GateRows R, !DeadLetters R}.

Lemma keeps_fail_run run m : keeps R (fail_run run m).
Proof using All. unfold fail_run. keeps_tac. Qed.
Hint Resolve keeps_fail_run : keeps.
Lemma keeps_trigger_compensation run : keeps R (trigger_compensation run).
Proof using All. unfold trigger_compensation, compensate, set_status. keeps_tac. Qed.
Hint Resolve keeps_trigger_compensation : keeps.
Lemma keeps_handle_stage_failure run s n m :
  keeps_under (sourced run s) R (handle_stage_failure run s n m).
Proof using All.
  unfold handle_stage_failure.
  do 5 (apply keeps_under_bind; [apply _|keeps_tac|keeps_tac|intros ?]).
  destruct (_ && _); [|apply keeps_under_keeps; keeps_tac].
  do 2 (apply keeps_under_bind; [apply _|keeps_tac|keeps_tac|intros ?]).
  apply keeps_under_last; [apply _|by apply keeps_enqueue_sourced; apply _|keeps_tac].
Qed.
Lemma keeps_handle_stage_timeout run s : keeps R (handle_stage_timeout run s).
Proof using All.
  unfold handle_stage_timeout.
  apply (keeps_bind_post (λ o w, w_runs w !! run = o)); [apply _|keeps_tac| |].
  { by intros w o w' [= <- <-]. }
  intros [r|]; [|apply keeps_under_keeps; keeps_tac].
  destruct (_ || _); [apply keeps_under_keeps; keeps_tac|].
  apply (keeps_under_seq _ _ (λ _, sourced run (run_current_stage r)));
    [apply keeps_under_keeps; keeps_tac| |intros n; apply keeps_handle_stage_failure].
  intros w n w' Hr [= _ <-]. right; left. by exists r.
Qed.
Lemma keeps_cancel_run `{!AssignmentRows R} run : keeps R (cancel_run run).
Proof using All.
  pose proof (keeps_cancel_assignments R _ (open_assignment_of_open run)).
  unfold cancel_run. keeps_tac.
Qed.
(** the gate, resolved *)
Definition resolved_at (i : positive) (x : ReviewGate) (approved : bool) (w : World) : Prop :=
  ∃ t, gate_at i (resolved_gate approved t x) w.
Lemma resolved_at_modify i x approved t w :
  gate_at i x w → resolved_at i x approved (modify w_gates i (resolved_gate approved t) w).2.
Proof.
  intros Hi. exists t. unfold gate_at in *. simpl. by rewrite lookup_alter_eq, Hi.
Qed.
Lemma resolved_at_moving i x (approved : bool) w :
  resolved_at i x approved w →
  moving (gate_pipeline_run_id x) (gate_stage x)
    (if approved then ON_REVIEW_APPROVED else ON_REVIEW_REJECTED) w.
Proof.
  intros [t Hi]. split; [do 4 right; by eexists _, _|].
  intros Ha. destruct approved; [|done]. by eexists _, _.
Qed.
Lemma keeps_resume_from_review `{!Moves R} g a : keeps_under (announced g a) R (resume_from_review g a).
Proof using All.
  unfold resume_from_review.
  apply (keeps_under_seq _ _ (λ x w, gate_at g x w ∧ announced g a w));
    [apply keeps_under_keeps; keeps_tac|by intros w x w' Ha [Hx ->]%the_ok_inv|intros x].
  destruct (bool_decide_reflect (gate_status x = GATE_AWAITING)) as [Hx|]; simpl;
    [|apply keeps_under_keeps; keeps_tac].
  apply keeps_under_bind; [apply _|keeps_tac|keeps_tac|intros [r|]];
    [|apply keeps_under_keeps; keeps_tac].
  apply keeps_under_bind; [apply _|keeps_tac|keeps_tac|intros t].
  apply (keeps_under_seq _ _ (λ _, resolved_at g x a));
    [by apply keeps_gate_resolved; [apply _..|]| |intros _].
  { intros w [] w' [Hi _] [= <-]. by apply resolved_at_modify with (w := w). }
  apply keeps_under_bind; [apply _|keeps_tac|keeps_tac|intros rt].
  destruct (negb a && _); [apply keeps_under_keeps; keeps_tac|].
  apply keeps_under_bind; [apply _|keeps_tac|keeps_tac|intros _].
  intros w Hw. apply move_on. by apply (resolved_at_moving g).
Qed.
Lemma keeps_handle_review_timeout g : keeps R (handle_review_timeout g).
Proof using All.
  unfold handle_review_timeout.
  apply (keeps_bind_post (λ o w, w_gates w !! g = o)); [apply _|keeps_tac| |].
  { intros w o w' [= <- <-]. done. }
  intros [x|]; [|apply keeps_under_keeps; keeps_tac].
  destruct (bool_decide_reflect (gate_status x = GATE_AWAITING)) as [Hx|]; simpl;
    [|apply keeps_under_keeps; keeps_tac].
  do 2 (apply keeps_under_bind; [apply _|keeps_tac|keeps_tac|intros ?]).
  destruct (Z.eqb_spec (gate_escalation_level x) 0).
  - apply keeps_under_bind; [apply _|keeps_tac|keeps_tac|intros t].
    apply keeps_under_last; [apply _| |keeps_tac].
    apply keeps_gate_step with (x := x); [apply _..|by constructor|by intros []].
  - apply keeps_under_last; [apply _| |keeps_tac].
    apply keeps_gate_step with (x := x); [apply _..|by constructor|by intros []].
Qed.
End SpendFrames.

(** Relations that the recording of a reviewer's verdict keeps. *)
Class Reviewing (R : relation World) : Prop :=
  reviewing : ∀ gate reviewer approved notes,
    keeps R (submit_review_decision gate reviewer approved notes).

#[export] Instance reviewing_any R `{!Engine R, !EmitAny R, !GateRows R, !Closed w_decisions R} :
  Reviewing R.
Proof.
  intros g u a n. unfold submit_review_decision.
  apply (keeps_bind_post (gate_at g)); [apply _|keeps_tac|by intros ??? [? ->]%the_ok_inv|intros x].
  destruct (bool_decide_reflect (gate_status x = GATE_AWAITING)) as [Hx|]; simpl;
    [|apply keeps_under_keeps; keeps_tac].
  apply keeps_under_bind; [apply _|keeps_tac|keeps_tac|intros o].
  destruct (o ≫= _) as [[r i]|]; [|apply keeps_under_keeps; keeps_tac].
  apply keeps_under_last; [apply _| |keeps_tac].
  apply keeps_gate_step with (x := x); [apply _..|by constructor|].
  intros b. simpl. rewrite Hx. by destruct b.
Qed.

#[export] Hint Resolve keeps_fail_run
  keeps_trigger_compensation keeps_handle_stage_timeout
  keeps_cancel_run keeps_handle_review_timeout reviewing : keeps.
