(* ===== verification/Budgets.v ===== *)
(** * Provider budgets, provider effects and back-pressure
    (orchestration/provider_budgets.py, provider_effects.py, the predicate
    [_saturated_provider_pair] of claiming.py, backpressure.py)

    A provider with a budget may have at most [max_concurrent] assignments in
    flight in a workspace; a provider-facing side effect is recorded under a
    key that is unique per workspace, so that it happens once; a queue beyond
    its limits reduces what the scheduler adds to it. *)

From S2P Require Import Prelude Models Database Outbox Provenance Assignments.

(** ** Concurrency budgets *)

(** [StageAssignment.provider == provider] *)
Definition has_provider (p : string) (a : StageAssignment) : bool :=
  match asn_provider a with Some q => String.eqb q p | None => false end.

Definition inflight_for (workspace_id : positive) (provider : string)
    (_ : positive) (a : StageAssignment) : bool :=
  bool_decide (asn_workspace_id a = workspace_id) && has_provider provider a && in_flight a.

Definition lock_budget (workspace_id : positive) (provider : string)
    : M (option ProviderConcurrencyBudget) :=
  session_get w_budgets (workspace_id, provider).

Definition count_inflight (workspace_id : positive) (provider : string) : M Z :=
  select_count w_assignments (inflight_for workspace_id provider).

(** [not provider] *)
Definition blank (provider : option string) : bool :=
  match provider with
  | None => true
  | Some p => String.eqb p EmptyString
  end.

Definition has_provider_capacity (workspace_id : positive) (provider : option string) : M bool :=
  if blank provider then mret true
  else
    let p := default EmptyString provider in
    budget ← lock_budget workspace_id p;
    match budget with
    | None => mret true
    | Some b =>
        inflight ← count_inflight workspace_id p;
        mret (inflight <? bud_max_concurrent b)
    end.

(** The correlated SQL predicate on a candidate row, in the state [w]. *)
Definition saturated_provider_pair (w : World) (a : StageAssignment) : bool :=
  match asn_provider a with
  | None => false
  | Some p =>
      negb (String.eqb p EmptyString)
      && match w_budgets w !! (asn_workspace_id a, p) with
         | Some b =>
             bud_max_concurrent b
             <=? tcount (inflight_for (asn_workspace_id a) p) (w_assignments w)
         | None => false
         end
  end.

(** The two formulations of the rule agree, so a candidate the query returns
    passes the locked re-check of the same state. *)
Lemma run_has_provider_capacity w a :
  has_provider_capacity (asn_workspace_id a) (asn_provider a) w
  = (Ok (negb (saturated_provider_pair w a)), w).
Proof.
  unfold has_provider_capacity, saturated_provider_pair, blank.
  destruct (asn_provider a) as [p|]; [|done].
  destruct (String.eqb p EmptyString); [done|]. simpl. rewrite run_bind. simpl.
  destruct (w_budgets w !! (asn_workspace_id a, p)) as [b|]; [|done].
  rewrite run_bind. simpl. unfold mret, st_ret. do 2 f_equal.
  destruct (Z.ltb_spec (tcount (inflight_for (asn_workspace_id a) p) (w_assignments w))
              (bud_max_concurrent b)),
    (Z.leb_spec (bud_max_concurrent b)
       (tcount (inflight_for (asn_workspace_id a) p) (w_assignments w))); simpl; try done; lia.
Qed.

(** ** Effect keys *)

Record EffectKeyResult : Type := mk_effect_result {
  res_effect_key : string;
  res_created : bool
}.

Definition default_effect_key (assignment_id : positive) (attempt_number : Z) : string :=
  uuid_str assignment_id.

(** [session.add(ProviderEffectKey(...)); flush()] under the unique key *)
Definition insert_effect (workspace_id : positive) (key : string) (row : ProviderEffectKey) : M unit :=
  o ← session_get w_effects (workspace_id, key);
  match o with
  | Some _ => raise (IntegrityError "uq_provider_effect_keys")
  | None => uuid4;; insert_row w_effects (workspace_id, key) row;; flush
  end.

Definition ensure_provider_effect_key (workspace_id assignment_id : positive)
    (attempt_number : Z) (effect_kind : string) (effect_key : option string)
    : M EffectKeyResult :=
  let key := if blank effect_key then default_effect_key assignment_id attempt_number
             else default EmptyString effect_key in
  catch (savepoint (insert_effect workspace_id key
                      (mk_effect assignment_id attempt_number effect_kind);;
                    mret (mk_effect_result key true)))
    (λ e, match e with
          | IntegrityError _ => mret (mk_effect_result key false)
          | _ => raise e
          end).

Lemma keeps_has_provider_capacity R `{!PreOrder R} ws p : keeps R (has_provider_capacity ws p).
Proof. unfold has_provider_capacity, lock_budget, count_inflight. keeps_tac. Qed.
Lemma keeps_ensure_provider_effect_key R `{!Engine R, !Closed w_effects R} ws a n k e :
  keeps R (ensure_provider_effect_key ws a n k e).
Proof. unfold ensure_provider_effect_key, insert_effect. keeps_tac. Qed.
#[export] Hint Resolve keeps_has_provider_capacity keeps_ensure_provider_effect_key : keeps.

(** The key is taken or not; either way it is taken afterwards. *)
Lemma run_ensure_effect ws a n kind w :
  let key := default_effect_key a n in
  ∃ w', ensure_provider_effect_key ws a n kind None w
        = (Ok (mk_effect_result key (bool_decide (w_effects w !! (ws, key) = None))), w')
    ∧ w_effects w' = (if decide (w_effects w !! (ws, key) = None)
                      then <[(ws, key) := mk_effect a n kind]> (w_effects w) else w_effects w).
Proof.
  intros key. unfold ensure_provider_effect_key, catch, savepoint, insert_effect. simpl.
  fold (default_effect_key a n). fold key. rewrite !run_bind. simpl.
  destruct (w_effects w !! (ws, key)) as [x|] eqn:Hk; simpl;
    eexists; (split; [reflexivity|]); by try case_decide.
Qed.

(** * Queue-depth back-pressure (orchestration/backpressure.py)

    The number of pending assignments of a workspace classifies it as normal,
    pressured or throttled; a change of class is stored and announced; a
    throttled workspace gets half its scheduler allowance, never zero. *)

Record BackpressureSnapshot : Type := mk_snapshot {
  bp_workspace_id : positive;
  bp_state : BackpressureState;
  bp_pending_depth : Z;
  bp_soft_limit : Z;
  bp_hard_limit : Z;
  bp_changed : bool
}.

Definition classify_depth (depth soft hard : Z) : BackpressureState :=
  if hard <=? depth then THROTTLED
  else if soft <=? depth then PRESSURED
  else NORMAL.

Definition pending_of (workspace_id : positive) (_ : positive) (a : StageAssignment) : bool :=
  bool_decide (asn_workspace_id a = workspace_id ∧ asn_status a = ASN_PENDING).

Definition pending_depth (workspace_id : positive) : M Z :=
  select_count w_assignments (pending_of workspace_id).

Section Backpressure.
Context `{Settings}.

(** (soft, hard, max per tick) *)
Definition bp_limits (workspace_id : positive) : M (Z * Z * Z) :=
  row ← session_get w_limits workspace_id;
  match row with
  | None => mret (queue_soft_limit_default, queue_hard_limit_default, 5)
  | Some row => mret (lim_queue_soft_limit row, lim_queue_hard_limit row,
                      lim_max_per_scheduler_tick row)
  end.

Definition evaluate_workspace_backpressure (workspace_id : positive)
    (correlation_id : option positive) : M BackpressureSnapshot :=
  t ← now;
  limits ← bp_limits workspace_id;
  let '(soft, hard, _) := limits in
  depth ← pending_depth workspace_id;
  let new_state := classify_depth depth soft hard in
  row ← session_get w_backpressure workspace_id;
  let previous := match row with Some row => bps_state row | None => NORMAL end in
  let changed := negb (bool_decide (previous = new_state)) in
  let entered_at := if bool_decide (new_state = NORMAL) then None else Some t in
  match row with
  | None =>
      insert_row w_backpressure workspace_id (mk_backpressure new_state depth entered_at t)
  | Some _ =>
      modify w_backpressure workspace_id (λ row,
        let row := row <| bps_state := new_state |> <| bps_pending_depth := depth |>
                       <| bps_updated_at := t |> in
        if changed then row <| bps_entered_at := entered_at |> else row)
  end;;
  when changed (
    span ← child_span None;
    corr ← or_uuid4 correlation_id;
    emit (if bool_decide (new_state = NORMAL) then "backpressure.cleared"
          else "backpressure.entered")
      workspace_id "workspace" workspace_id corr (Some span.1) (Some span.2)
      (JObj [("state", JStr (BackpressureState_value new_state));
             ("previous_state", JStr (BackpressureState_value previous));
             ("pending_depth", JNum depth 0); ("soft_limit", JNum soft 0);
             ("hard_limit", JNum hard 0)])
      "backpressure" None 1;;
    mret tt);;
  mret (mk_snapshot workspace_id new_state depth soft hard changed).

(** [SELECT workspace_id ... GROUP BY workspace_id LIMIT n] *)
Definition evaluate_all_active_workspaces (batch_size : nat) : M (list BackpressureSnapshot) :=
  pending ← select w_assignments (λ _ a, bool_decide (asn_status a = ASN_PENDING));
  collect (take batch_size (remove_dups ((λ p, asn_workspace_id p.2) <$> pending)))
    (λ ws, evaluate_workspace_backpressure ws None).

Lemma keeps_evaluate_workspace_backpressure R `{!Engine R, !Closed w_backpressure R} ws c :
  keeps R (evaluate_workspace_backpressure ws c).
Proof. unfold evaluate_workspace_backpressure, bp_limits, pending_depth. keeps_tac. Qed.
End Backpressure.
#[export] Hint Resolve keeps_evaluate_workspace_backpressure : keeps.

Definition effective_scheduler_tick_limit (workspace_id : positive) (configured : Z) : M Z :=
  row ← session_get w_backpressure workspace_id;
  match row with
  | Some row =>
      if bool_decide (bps_state row = THROTTLED) then mret (Z.max 1 (configured / 2))
      else mret configured
  | None => mret configured
  end.

Lemma keeps_effective_scheduler_tick_limit R `{!PreOrder R} ws c :
  keeps R (effective_scheduler_tick_limit ws c).
Proof. unfold effective_scheduler_tick_limit. keeps_tac. Qed.
#[export] Hint Resolve keeps_effective_scheduler_tick_limit : keeps.

(** ** Lemmas *)

Lemma classify_depth_spec d s h : s ≤ h →
  (classify_depth d s h = THROTTLED ↔ h ≤ d) ∧
  (classify_depth d s h = PRESSURED ↔ s ≤ d < h) ∧
  (classify_depth d s h = NORMAL ↔ d < s).
Proof.
  intros Hle. unfold classify_depth.
  destruct (Z.leb_spec h d), (Z.leb_spec s d); split_and!; split; intros; done || lia.
Qed.

Definition severity (s : BackpressureState) : Z :=
  match s with NORMAL => 0 | PRESSURED => 1 | THROTTLED => 2 end.

Lemma classify_depth_mono d d' s h :
  d ≤ d' → severity (classify_depth d s h) ≤ severity (classify_depth d' s h).
Proof.
  intros Hd. unfold classify_depth.
  destruct (Z.leb_spec h d), (Z.leb_spec s d), (Z.leb_spec h d'), (Z.leb_spec s d'); simpl; lia.
Qed.
