(* ===== verification/Recovery.v ===== *)
(** * Lease recovery (orchestration/recovery.py)

    A crash, a stale worker or an expired lease ends in [recover_assignment]:
    the assignment is requeued with the next attempt number, or, when its
    attempts are exhausted, fails together with its run and is recorded as a
    dead letter. *)

From S2P Require Import Prelude Models Database Outbox Provenance Assignments Gates Retry Workflow Spend Controller Budgets.

Record RecoveryResult : Type := mk_recovery_result {
  rr_assignment : positive;
  rr_kind : RecoveryOutcome;
  rr_previous_attempt : Z;
  rr_new_attempt : option Z
}.

(** The load a worker carries after giving one assignment back. *)
Definition free_slot (worker : WorkerRegistration) : WorkerRegistration :=
  let worker := if 0 <? wrk_current_load worker
                then worker <| wrk_current_load ::= Z.pred |> else worker in
  if bool_decide (wrk_status worker = WORKER_BUSY)
     && (wrk_current_load worker <? wrk_max_concurrency worker)
  then worker <| wrk_status := WORKER_ONLINE |> else worker.

(** The load after an assignment was handed to the worker (dispatcher.py,
    claiming.py). *)
Definition take_slot (worker : WorkerRegistration) : WorkerRegistration :=
  let worker := worker <| wrk_current_load ::= Z.succ |> in
  if wrk_max_concurrency worker <=? wrk_current_load worker
  then worker <| wrk_status := WORKER_BUSY |> else worker.

(** The load after a result was submitted (dispatcher.py): as [free_slot],
    but a worker with no load is left alone. *)
Definition finish_slot (worker : WorkerRegistration) : WorkerRegistration :=
  if 0 <? wrk_current_load worker then free_slot worker else worker.

Definition release_worker_slot (worker_id : option positive) : M unit :=
  match worker_id with
  | None => mret tt
  | Some i =>
      worker ← session_get w_workers i;
      match worker with
      | None => mret tt
      | Some _ => modify w_workers i free_slot
      end
  end.

Section Recovery.
Context `{Settings}.

Definition resolve_max_attempts (a : StageAssignment) : M Z :=
  run ← session_get w_runs (asn_pipeline_run_id a);
  match run ≫= run_definition_id with
  | None => mret assignment_default_max_attempts
  | Some d =>
      stage_def ← session_get w_stages (d, asn_stage a);
      match stage_def with
      | None => mret assignment_default_max_attempts
      | Some stage_def => mret (wst_max_attempts stage_def)
      end
  end.

(** [a] is the assignment as the caller read it: the audit takes only its
    workspace, key and correlation from it. *)
Definition recovery_audit (assignment : positive) (a : StageAssignment)
    (reason : RecoveryReason) (new_attempt : option Z) (outcome : RecoveryOutcome)
    (detail : option string) : M unit :=
  i ← uuid4;
  insert_row w_recovery_audit i
    (mk_recovery_audit (asn_workspace_id a) assignment (asn_worker_id a) reason
       (asn_status a) (asn_attempt_number a) new_attempt outcome detail
       (asn_correlation_id a)).

(** [detail or text] *)
Definition or_text (detail : option string) (text : string) : string :=
  if blank detail then text else default EmptyString detail.

(** the branch [next_attempt > max_attempts] *)
Definition exhaust_assignment (assignment : positive) (a : StageAssignment)
    (reason : RecoveryReason) (now : time) (max_attempts : Z) (detail : option string)
    : M RecoveryResult :=
  let previous_attempt := asn_attempt_number a in
  modify w_assignments assignment (exhausted_assignment now);;
  a' ← the w_assignments assignment;
  route_to_dead_letter (asn_workspace_id a) "stage_assignments" assignment
    ("stage:" +:+ ContentStage_value (asn_stage a))
    (Some (JObj [("stage", JStr (ContentStage_value (asn_stage a)));
                 ("attempt_number", JNum previous_attempt 0);
                 ("reason", JStr (RecoveryReason_value reason))]))
    ("recovery exhausted (" +:+ RecoveryReason_value reason +:+ ") after "
     +:+ pretty previous_attempt +:+ " attempts")
    previous_attempt (default now (asn_dispatched_at a'));;
  run ← session_get w_runs (asn_pipeline_run_id a);
  match run with
  | Some r =>
      if is_terminal (run_status r) then mret tt
      else
        match run_correlation_id r with
        | Some _ => mret tt
        | None =>
            c ← or_uuid4 (asn_correlation_id a);
            modify w_runs (asn_pipeline_run_id a) (λ r, r <| run_correlation_id := Some c |>)
        end;;
        fail_run (asn_pipeline_run_id a)
          ("assignment recovery exhausted (" +:+ RecoveryReason_value reason +:+ ")")
  | None => mret tt
  end;;
  recovery_audit assignment a reason None DEAD_LETTERED
    (Some (or_text detail ("max_attempts=" +:+ pretty max_attempts)));;
  mret (mk_recovery_result assignment DEAD_LETTERED previous_attempt None).

(** the branch that hands the assignment back to the queue *)
Definition requeue_assignment (assignment : positive) (a : StageAssignment)
    (reason : RecoveryReason) (detail : option string) : M RecoveryResult :=
  let previous_attempt := asn_attempt_number a in
  let next_attempt := previous_attempt + 1 in
  let run := asn_pipeline_run_id a in
  run_for_release ← session_get w_runs run;
  match run_for_release with
  | Some _ =>
      stale ← select w_reservations (open_for_stage run (asn_stage a));
      for_each stale (λ p, release_spend run p.1)
  | None => mret tt
  end;;
  clash ← select w_assignments (λ i b, negb (bool_decide (i = assignment))
            && keyed_as (asn_workspace_id a) (run, asn_stage a, next_attempt) i b);
  match clash with
  | [] => modify w_assignments assignment requeued_assignment
  | _ => raise (IntegrityError "uq_stage_assignments_workspace_idem")
  end;;
  span ← child_span (asn_trace_id a);
  modify w_assignments assignment (λ a, a <| asn_trace_id := Some span.1 |>);;
  corr ← or_uuid4 (asn_correlation_id a);
  emit "stage.reassigned" (asn_workspace_id a) "pipeline_run" run corr
    (Some span.1) (Some span.2)
    (JObj [("stage", JStr (ContentStage_value (asn_stage a)));
           ("assignment_id", JStr (uuid_str assignment));
           ("reason", JStr (RecoveryReason_value reason));
           ("previous_attempt", JNum previous_attempt 0);
           ("attempt_number", JNum next_attempt 0)])
    "recovery" None 1;;
  recovery_audit assignment a reason (Some next_attempt) REQUEUED detail;;
  mret (mk_recovery_result assignment REQUEUED previous_attempt (Some next_attempt)).

Definition recover_assignment (assignment : positive) (reason : RecoveryReason)
    (detail : option string) : M RecoveryResult :=
  t ← now;
  a ← the w_assignments assignment;
  if negb (in_flight a) then
    recovery_audit assignment a reason None SKIPPED (Some (or_text detail "not in-flight"));;
    mret (mk_recovery_result assignment SKIPPED (asn_attempt_number a) None)
  else
    release_worker_slot (asn_worker_id a);;
    max_attempts ← resolve_max_attempts a;
    if max_attempts <? asn_attempt_number a + 1 then
      exhaust_assignment assignment a reason t max_attempts detail
    else requeue_assignment assignment a reason detail.

(** ** Batches *)

Definition lease_expired (now : time) (_ : positive) (a : StageAssignment) : bool :=
  in_flight a && match asn_lease_expires_at a with Some l => l <? now | None => false end.

Definition by_lease_asc (p q : positive * StageAssignment) : bool :=
  default 0 (asn_lease_expires_at p.2) <=? default 0 (asn_lease_expires_at q.2).

Definition reap_expired_leases (batch_size : option nat) : M (list RecoveryResult) :=
  t ← now;
  let limit := default assignment_reaper_batch_size batch_size in
  expired ← select w_assignments (lease_expired t);
  collect (take limit (order_by by_lease_asc expired))
    (λ p, recover_assignment p.1 LEASE_EXPIRED None).

Definition held_by (worker_id : positive) (_ : positive) (a : StageAssignment) : bool :=
  bool_decide (asn_worker_id a = Some worker_id) && in_flight a.

(** the [while True] loop; [fuel] bounds the number of batches *)
Fixpoint reap_worker_loop (fuel : nat) (worker_id : positive) (reason : RecoveryReason)
    (limit : nat) (detail : option string) : M (list RecoveryResult) :=
  match fuel with
  | O => raise (RuntimeError "out of fuel")
  | S fuel =>
      held ← select w_assignments (held_by worker_id);
      let holdings := take limit held in
      match holdings with
      | [] => mret []
      | _ =>
          outcomes ← collect holdings (λ p, recover_assignment p.1 reason detail);
          if (length holdings <? limit)%nat then mret outcomes
          else
            more ← reap_worker_loop fuel worker_id reason limit detail;
            mret (outcomes ++ more)
      end
  end.

Definition reap_worker_assignments (worker_id : positive) (reason : RecoveryReason)
    (batch_size : option nat) (detail : option string) : M (list RecoveryResult) :=
  held ← select w_assignments (held_by worker_id);
  reap_worker_loop (S (length held)) worker_id reason
    (default assignment_reaper_batch_size batch_size) detail.
End Recovery.

(** ** Frames *)

(** Relations that giving a slot back keeps, and taking one from a worker that
    has a free one. *)
Class WorkerSlots (R : relation World) : Prop := {
  slot_free : ∀ i, keeps R (modify w_workers i free_slot);
  slot_finish : ∀ i, keeps R (modify w_workers i finish_slot);
  slot_take : ∀ i w wk, w_workers w !! i = Some wk →
    wrk_current_load wk < wrk_max_concurrency wk → R w (modify w_workers i take_slot w).2
}.
#[export] Hint Resolve slot_free slot_finish : keeps.

(** The load of a worker is between 0 and its concurrency. *)
Definition load_ok (wk : WorkerRegistration) : Prop :=
  0 ≤ wrk_current_load wk ≤ wrk_max_concurrency wk.

(** Relations that every assignment to worker rows keeps, as long as it keeps
    their loads within bounds. *)
Class WorkerRows (R : relation World) : Prop := {
  rows_modify : ∀ i g w,
    (∀ wk, w_workers w !! i = Some wk → load_ok wk → load_ok (g wk)) →
    R w (modify w_workers i g w).2;
  rows_insert : ∀ i wk, load_ok wk → keeps R (insert_row w_workers i wk)
}.

#[export] Instance worker_rows_closed R `{!PreOrder R, !Closed w_workers R} : WorkerRows R.
Proof. split; intros; [exact (keeps_modify R w_workers i g w)|keeps_tac]. Qed.

Lemma load_ok_free wk : load_ok wk → load_ok (free_slot wk).
Proof.
  unfold load_ok, free_slot. intros [H0 H1]. destruct (Z.ltb_spec 0 (wrk_current_load wk)).
  - destruct (_ && _); simpl; lia.
  - destruct (_ && _); simpl; lia.
Qed.
Lemma load_ok_finish wk : load_ok wk → load_ok (finish_slot wk).
Proof. unfold finish_slot. destruct (0 <? _); [apply load_ok_free|done]. Qed.
Lemma load_ok_take wk :
  wrk_current_load wk < wrk_max_concurrency wk → load_ok wk → load_ok (take_slot wk).
Proof. unfold load_ok, take_slot. simpl. destruct (_ <=? _); simpl; lia. Qed.

#[export] Instance worker_slots_rows R `{!WorkerRows R} : WorkerSlots R.
Proof.
  split.
  - intros i w. apply rows_modify. intros wk _. apply load_ok_free.
  - intros i w. apply rows_modify. intros wk _. apply load_ok_finish.
  - intros i w wk Hi Hl. apply rows_modify. intros wk' Hi'. apply load_ok_take. congruence.
Qed.

Section SlotFrames.
Context `{Settings} (R : relation World) `{!Engine R, !WorkerSlots R, !Closed w_recovery_audit R}.

Lemma keeps_release_worker_slot i : keeps R (release_worker_slot i).
Proof using All. unfold release_worker_slot. keeps_tac. Qed.
Lemma keeps_resolve_max_attempts a : keeps R (resolve_max_attempts a).
Proof using All. unfold resolve_max_attempts. keeps_tac. Qed.
Lemma keeps_recovery_audit i a r n o d : keeps R (recovery_audit i a r n o d).
Proof using All. unfold recovery_audit. keeps_tac. Qed.
End SlotFrames.
#[export] Hint Resolve keeps_release_worker_slot keeps_resolve_max_attempts
  keeps_recovery_audit : keeps.

Section Frames.
Context `{Settings} (R : relation World) `{!Engine R, !RunStable R, !SpendSafe R,
  !AssignmentRows R, !WorkerSlots R, !DeadLetters R,
  !Closed w_recovery_audit R, !JobRows R, !GateRows R}.

Lemma keeps_exhaust_assignment i a r t n d :
  in_flight a = true → keeps_under (asn_at i a) R (exhaust_assignment i a r t n d).
Proof using All.
  intros Hf. unfold exhaust_assignment. apply keeps_under_last; [apply _| |keeps_tac].
  apply keeps_step_at; [apply _..|by apply step_exhausted|done].
Qed.
Lemma no_clash_key_free i a w :
  rows (λ j b, negb (bool_decide (j = i)) &&
    keyed_as (asn_workspace_id a) (asn_pipeline_run_id a, asn_stage a, asn_attempt_number a + 1) j b)
    (w_assignments w) = [] → key_free i (requeued_assignment a) w.
Proof.
  intros Hc j b k [= <-] Hj Hk. destruct (decide (j = i)) as [|Hne]; [done|].
  pose proof (rows_nil _ _ j b Hc Hj) as Hf. cbv beta in Hf.
  rewrite bool_decide_false in Hf by done. simpl in Hf, Hk. congruence.
Qed.
Lemma keeps_requeue_assignment i a r d :
  in_flight a = true → keeps_under (asn_at i a) R (requeue_assignment i a r d).
Proof using All.
  intros Hf. unfold requeue_assignment.
  do 2 (apply keeps_under_bind; [apply _|keeps_tac|keeps_tac|intros ?]).
  apply (keeps_under_seq _ _ (λ clash w, asn_at i a w ∧
    (clash = [] → key_free i (requeued_assignment a) w))); [apply keeps_under_keeps; keeps_tac| |].
  { intros w clash w' Hi [= Hc <-]. split; [done|]. intros ->. by apply no_clash_key_free. }
  intros clash. apply keeps_under_last; [apply _| |keeps_tac].
  destruct clash; [|by apply keeps_under_keeps; keeps_tac].
  intros w [Hi Hk]. apply keeps_requeue_at with (a := a); [apply _..|done|]. split; [done|by apply Hk].
Qed.
Lemma keeps_recover_assignment i r d : keeps R (recover_assignment i r d).
Proof using All.
  unfold recover_assignment. apply keeps_bind; [apply _|keeps_tac|intros t].
  apply (keeps_bind_post (asn_at i)); [apply _|keeps_tac|by intros ??? [? ->]%the_ok_inv|intros a].
  destruct (in_flight a) eqn:Hf; simpl; [|apply keeps_under_keeps; keeps_tac].
  do 2 (apply keeps_under_bind; [apply _|keeps_tac|keeps_tac|intros ?]).
  destruct (_ <? _); [by apply keeps_exhaust_assignment|by apply keeps_requeue_assignment].
Qed.
Hint Resolve keeps_recover_assignment : keeps.
Lemma keeps_reap_expired_leases n : keeps R (reap_expired_leases n).
Proof using All. unfold reap_expired_leases. keeps_tac. Qed.
Lemma keeps_reap_worker_loop f i r n d : keeps R (reap_worker_loop f i r n d).
Proof using All. induction f; simpl; keeps_tac. Qed.
Hint Resolve keeps_reap_worker_loop : keeps.
Lemma keeps_reap_worker_assignments i r n d : keeps R (reap_worker_assignments i r n d).
Proof using All. unfold reap_worker_assignments. keeps_tac. Qed.
End Frames.
#[export] Hint Resolve keeps_recover_assignment keeps_reap_expired_leases
  keeps_reap_worker_assignments : keeps.
