(* ===== verification/Claiming.v ===== *)
(** * Atomic claiming (orchestration/claiming.py)

    A worker pulls at most one pending assignment per claim: the one with the
    highest effective priority among those its stages, its workspace and the
    provider budgets allow.  A claim reserves the estimated cost, hands the
    assignment over under a lease and takes one slot of the worker; every
    other outcome is recorded and changes nothing else. *)

From S2P Require Import Prelude Models Database Outbox Provenance Assignments Gates Retry Workflow Spend Budgets Recovery.

Record ClaimResult : Type := mk_claim_result {
  cl_assignment : option positive;
  cl_outcome : ClaimOutcome;
  cl_reason : string
}.

(** [worker.workspace_id or request_workspace_id] *)
Definition or_id (a b : option positive) : option positive :=
  match a with Some _ => a | None => b end.

(** [_record]: the audit row, in the workspace of the assignment, of the
    worker, or of the request *)
Definition claim_record (worker_id : positive) (worker : WorkerRegistration)
    (outcome : ClaimOutcome) (reason : string)
    (assignment : option (positive * StageAssignment)) (request_workspace_id : option positive)
    : M unit :=
  let workspace_id :=
    match assignment with
    | Some (_, a) => Some (asn_workspace_id a)
    | None => or_id (wrk_workspace_id worker) request_workspace_id
    end in
  match workspace_id with
  | None => mret tt
  | Some ws =>
      i ← uuid4;
      insert_row w_claim_audit i
        (mk_claim_audit ws (fst <$> assignment) worker_id outcome
           (asn_stage ∘ snd <$> assignment) (Some reason)
           (assignment ≫= asn_correlation_id ∘ snd))
  end.

(** an idempotent replay returns the assignment held under the token *)
Definition held_under_token (worker_id : positive) (worker : WorkerRegistration)
    (token : positive) (_ : positive) (a : StageAssignment) : bool :=
  bool_decide (asn_claimed_by a = Some worker_id)
  && bool_decide (asn_claim_token a = Some token)
  && bool_decide (asn_status a = ASN_DISPATCHED)
  && match wrk_workspace_id worker with
     | Some ws => bool_decide (asn_workspace_id a = ws)
     | None => true
     end.

(** [base_where] *)
Definition claimable_by (worker : WorkerRegistration) (_ : positive) (a : StageAssignment) : bool :=
  bool_decide (asn_status a = ASN_PENDING)
  && bool_decide (ContentStage_value (asn_stage a) ∈ wrk_supported_stages worker)
  && match wrk_workspace_id worker with
     | Some ws => bool_decide (asn_workspace_id a = ws)
     | None => true
     end.

Section Claiming.
Context `{Settings}.

(** [ORDER BY effective DESC, created_at ASC] *)
Definition effective_at (now : time) (a : StageAssignment) : Z :=
  effective_priority_expr (asn_priority a) (asn_created_at a) now.
Definition by_effective_desc (now : time) (p q : positive * StageAssignment) : bool :=
  (effective_at now q.2 <? effective_at now p.2)
  || ((effective_at now q.2 =? effective_at now p.2)
      && (asn_created_at p.2 <=? asn_created_at q.2)).

Definition candidates (worker : WorkerRegistration) (now : time) (w : World)
    : list (positive * StageAssignment) :=
  order_by (by_effective_desc now)
    (rows (λ i a, claimable_by worker i a && negb (saturated_provider_pair w a))
       (w_assignments w)).

(** the [while True] scan: the filtered query, then the re-check under the
    lock of the budget row *)
Fixpoint claim_scan (fuel : nat) (worker : WorkerRegistration) (now : time)
    : M (option (positive * StageAssignment)) :=
  match fuel with
  | O => raise (RuntimeError "out of fuel")
  | S fuel =>
      candidate ← gets (candidates worker now);
      match candidate with
      | [] => mret None
      | row :: _ =>
          ok ← has_provider_capacity (asn_workspace_id row.2) (asn_provider row.2);
          if ok : bool then mret (Some row) else claim_scan fuel worker now
      end
  end.

(** the reason a worker may not claim at all *)
Definition claim_refusal (worker : WorkerRegistration) (now : time)
    : option (ClaimOutcome * string) :=
  if wrk_drain worker then Some (INELIGIBLE, "worker is draining")
  else if bool_decide (wrk_deregistered_at worker ≠ None)
          || bool_decide (wrk_status worker ≠ WORKER_ONLINE) then
    Some (INELIGIBLE, "worker status is " +:+ WorkerStatus_value (wrk_status worker)
                      +:+ ", not online")
  else if match wrk_last_heartbeat_at worker with
          | None => true
          | Some hb => seconds worker_offline_after_seconds <=? now - hb
          end then Some (INELIGIBLE, "heartbeat is stale")
  else if wrk_max_concurrency worker <=? wrk_current_load worker then
    Some (CAPACITY, "worker at maximum concurrency")
  else match wrk_supported_stages worker with
       | [] => Some (NO_WORK, "worker supports no stages")
       | _ => None
       end.

(** the spend gate: is the cost of the stage reserved? *)
Definition claim_spend_gate (a : StageAssignment) : M bool :=
  run_for_spend ← session_get w_runs (asn_pipeline_run_id a);
  match run_for_spend with
  | None => mret true
  | Some _ =>
      open ← select w_reservations (open_for_stage (asn_pipeline_run_id a) (asn_stage a));
      open_reservation ← scalar_one_or_none open;
      match open_reservation with
      | Some _ => mret true
      | None =>
          reservation ← reserve_spend (asn_pipeline_run_id a) (asn_stage a)
            (if blank (asn_provider a) then "draft_desk" else default "draft_desk" (asn_provider a))
            default_stage_estimate_usd;
          mret (bool_decide (reservation ≠ None))
      end
  end.

Definition grant (worker_id : positive) (worker : WorkerRegistration)
    (row : positive * StageAssignment) (claim_token : option positive)
    (request_workspace_id : option positive) : M ClaimResult :=
  let '(assignment, a) := row in
  t ← now;
  span ← child_span (asn_trace_id a);
  modify w_assignments assignment (granted_assignment worker_id claim_token t span.1);;
  modify w_workers worker_id take_slot;;
  claim_record worker_id worker GRANTED "claimed" (Some row) request_workspace_id;;
  corr ← or_uuid4 (asn_correlation_id a);
  emit "stage.assigned" (asn_workspace_id a) "pipeline_run" (asn_pipeline_run_id a) corr
    (Some span.1) (Some span.2)
    (JObj [("stage", JStr (ContentStage_value (asn_stage a)));
           ("attempt_number", JNum (asn_attempt_number a) 0);
           ("worker_id", JStr (uuid_str worker_id));
           ("assignment_id", JStr (uuid_str assignment));
           ("via", JStr "claim"); ("priority", JNum (asn_priority a) 0);
           ("provider", match asn_provider a with Some p => JStr p | None => JNull end)])
    "claiming" None 1;;
  flush;;
  mret (mk_claim_result (Some assignment) GRANTED "claimed").

(** an audited outcome without a grant *)
Definition refuse (worker_id : positive) (worker : WorkerRegistration)
    (outcome : ClaimOutcome) (reason : string)
    (row : option (positive * StageAssignment)) (request_workspace_id : option positive)
    : M ClaimResult :=
  claim_record worker_id worker outcome reason row request_workspace_id;;
  mret (mk_claim_result None outcome reason).

Definition find_replay (worker_id : positive) (worker : WorkerRegistration)
    (claim_token : option positive) : M (option (positive * StageAssignment)) :=
  match claim_token with
  | None => mret None
  | Some token =>
      held ← select w_assignments (held_under_token worker_id worker token);
      scalar_one_or_none held
  end.

(** One pass of the scan is enough (lemma [run_claim_scan]). *)
Definition claim_assignment (worker_id : positive) (claim_token request_workspace_id : option positive)
    : M ClaimResult :=
  t ← now;
  o ← session_get w_workers worker_id;
  match o with
  | None => mret (mk_claim_result None INELIGIBLE "worker not found")
  | Some worker =>
      existing ← find_replay worker_id worker claim_token;
      match existing with
      | Some row =>
          claim_record worker_id worker GRANTED "idempotent replay" (Some row)
            request_workspace_id;;
          mret (mk_claim_result (Some row.1) GRANTED "idempotent replay")
      | None =>
          match claim_refusal worker t with
          | Some (outcome, reason) =>
              refuse worker_id worker outcome reason None request_workspace_id
          | None =>
              found ← claim_scan 1 worker t;
              match found with
              | None =>
                  any_candidate ← select w_assignments (claimable_by worker);
                  match any_candidate with
                  | [] => refuse worker_id worker NO_WORK "no eligible assignment" None
                            request_workspace_id
                  | _ => refuse worker_id worker CAPACITY "provider budget exhausted" None
                           request_workspace_id
                  end
              | Some row =>
                  funded ← claim_spend_gate row.2;
                  if funded : bool then
                    grant worker_id worker row claim_token request_workspace_id
                  else refuse worker_id worker CAPACITY "workspace spend cap reached"
                         (Some row) request_workspace_id
              end
          end
      end
  end.

(** A candidate of the query passes the re-check: the scan takes one pass. *)
Lemma run_claim_scan fuel worker t w :
  claim_scan (S fuel) worker t w = (Ok (head (candidates worker t w)), w).
Proof.
  cbn [claim_scan]. rewrite run_bind. simpl.
  destruct (candidates worker t w) as [|row l] eqn:Hc; [done|].
  rewrite run_bind, run_has_provider_capacity.
  assert (Hin : row ∈ candidates worker t w) by (rewrite Hc; left).
  apply elem_of_order_by in Hin. destruct row as [i a].
  apply elem_of_rows in Hin as [_ [_ Hs]%andb_true_iff]. cbn [snd]. by rewrite Hs.
Qed.

Lemma by_effective_desc_total t p q : by_effective_desc t p q || by_effective_desc t q p.
Proof.
  unfold by_effective_desc.
  destruct (Z.ltb_spec (effective_at t q.2) (effective_at t p.2)); [done|].
  destruct (Z.ltb_spec (effective_at t p.2) (effective_at t q.2)); [by rewrite orb_true_r|].
  replace (effective_at t q.2) with (effective_at t p.2) by lia. rewrite !Z.eqb_refl.
  destruct (Z.leb_spec (asn_created_at p.2) (asn_created_at q.2)); simpl; [done|].
  rewrite (proj2 (Z.leb_le _ _)) by lia. by rewrite ?orb_true_r.
Qed.

Lemma by_effective_desc_spec t p q :
  by_effective_desc t p q ↔
  effective_at t q.2 < effective_at t p.2 ∨
  (effective_at t q.2 = effective_at t p.2 ∧ asn_created_at p.2 ≤ asn_created_at q.2).
Proof.
  unfold by_effective_desc.
  destruct (Z.ltb_spec (effective_at t q.2) (effective_at t p.2)); simpl; [naive_solver|].
  destruct (Z.eqb_spec (effective_at t q.2) (effective_at t p.2)); simpl; [|naive_solver lia].
  destruct (Z.leb_spec (asn_created_at p.2) (asn_created_at q.2)); simpl; naive_solver lia.
Qed.

Lemma by_effective_desc_trans t p q r :
  by_effective_desc t p q → by_effective_desc t q r → by_effective_desc t p r.
Proof. rewrite !by_effective_desc_spec. lia. Qed.
End Claiming.

(** ** Frames *)

(** the worker as it was read, with a free slot *)
Definition ready (worker_id : positive) (worker : WorkerRegistration) (w : World) : Prop :=
  w_workers w !! worker_id = Some worker.

Lemma claim_refusal_free `{Settings} worker t :
  claim_refusal worker t = None → wrk_current_load worker < wrk_max_concurrency worker.
Proof.
  unfold claim_refusal.
  destruct (wrk_drain worker); [done|]. destruct (_ || _); [done|].
  destruct (match wrk_last_heartbeat_at worker with
            | None => true | Some hb => seconds worker_offline_after_seconds <=? t - hb end); [done|].
  destruct (Z.leb_spec (wrk_max_concurrency worker) (wrk_current_load worker)); [done|lia].
Qed.

Section GateFrame.
Context `{Settings} (R : relation World) `{!Engine R, !SpendSafe R}.

Lemma keeps_claim_spend_gate a : keeps R (claim_spend_gate a).
Proof using All.
  pose proof (λ run stage p, spend_safe_reserve run stage p _ stage_estimate_ge0).
  unfold claim_spend_gate. keeps_tac.
Qed.
End GateFrame.
#[export] Hint Resolve keeps_claim_spend_gate : keeps.

Section AuditFrame.
Context (R : relation World) `{!Engine R, !Closed w_claim_audit R}.

Lemma keeps_claim_record i wk o r a ws : keeps R (claim_record i wk o r a ws).
Proof using All. unfold claim_record. keeps_tac. Qed.
End AuditFrame.
#[export] Hint Resolve keeps_claim_record : keeps.

Section Frames.
Context `{Settings} (R : relation World) `{!Engine R, !Closed w_claim_audit R}.

Lemma keeps_refuse i wk o r a ws : keeps R (refuse i wk o r a ws).
Proof using All. unfold refuse. keeps_tac. Qed.
Lemma keeps_find_replay i wk tok : keeps R (find_replay i wk tok).
Proof using All. unfold find_replay. keeps_tac. Qed.
Lemma keeps_claim_scan f wk t : keeps R (claim_scan f wk t).
Proof using All. induction f; simpl; keeps_tac. Qed.
End Frames.
#[export] Hint Resolve keeps_refuse keeps_find_replay keeps_claim_scan : keeps.

(** the worker and a pending assignment, as they were read *)
Definition matched (worker_id : positive) (worker : WorkerRegistration)
    (row : positive * StageAssignment) (w : World) : Prop :=
  ready worker_id worker w ∧ asn_at row.1 row.2 w.

Section ClaimFrames.
Context `{Settings} (R : relation World) `{!Engine R, !SpendSafe R,
  !AssignmentRows R, !Closed w_claim_audit R, !WorkerSlots R}.

Lemma keeps_grant i wk row tok ws :
  wrk_current_load wk < wrk_max_concurrency wk → asn_status row.2 = ASN_PENDING →
  keeps_under (matched i wk row) R (grant i wk row tok ws).
Proof using All.
  intros Hl Hp. unfold grant. destruct row as [j a].
  do 2 (apply keeps_under_bind; [apply _|keeps_tac|keeps_tac|intros ?]).
  apply (keeps_under_seq _ _ (λ _, ready i wk)).
  - intros w [_ Ha]. apply keeps_step_at with (a := a); [apply _..|by apply step_granted|done|done].
  - by intros w [] w' [Hi _] [= <-].
  - intros []. apply keeps_under_last; [apply _| |intros _; keeps_tac].
    intros w Hi. by apply (slot_take i w wk).
Qed.

Lemma claim_scan_matched i wk t w row w' :
  ready i wk w → claim_scan 1 wk t w = (Ok (Some row), w') →
  matched i wk row w' ∧ asn_status row.2 = ASN_PENDING.
Proof using All.
  rewrite run_claim_scan. intros Hi [= Hh <-]. apply head_Some_elem_of in Hh.
  apply elem_of_order_by in Hh. destruct row as [j a].
  apply elem_of_rows in Hh as [Ha [Hc _]%andb_true_iff]. split; [done|].
  unfold claimable_by in Hc. rewrite !andb_true_iff in Hc. destruct Hc as [[Hc _] _].
  by apply bool_decide_eq_true in Hc.
Qed.

Lemma keeps_claim_assignment i tok ws : keeps R (claim_assignment i tok ws).
Proof using All.
  unfold claim_assignment. apply keeps_bind; [apply _|keeps_tac|intros t].
  apply (keeps_bind_post (λ o w, w_workers w !! i = o)); [apply _|keeps_tac| |].
  { intros w o w' [= <- <-]. done. }
  intros [wk|]; [|apply keeps_under_keeps; keeps_tac].
  apply keeps_under_bind; [apply _|keeps_tac|keeps_tac|intros [row|]];
    [apply keeps_under_keeps; keeps_tac|].
  destruct (claim_refusal wk t) as [[o r]|] eqn:Hf; [apply keeps_under_keeps; keeps_tac|].
  apply (keeps_under_seq _ _ (λ o w, match o with
    | Some row => matched i wk row w ∧ asn_status row.2 = ASN_PENDING | None => True end)).
  { apply keeps_under_keeps. keeps_tac. }
  { intros w [row|] w' Hi Hs; [|done]. by eapply claim_scan_matched. }
  intros [row|]; [|apply keeps_under_keeps; keeps_tac].
  intros w [Hm Hp]. revert w Hm. change (keeps_under (matched i wk row) R
    (funded ← claim_spend_gate row.2;
     if funded : bool then grant i wk row tok ws
     else refuse i wk CAPACITY "workspace spend cap reached" (Some row) ws)).
  apply keeps_under_bind; [apply _|keeps_tac|keeps_tac|intros funded].
  destruct funded; [|apply keeps_under_keeps; keeps_tac].
  apply keeps_grant; [by eapply claim_refusal_free|done].
Qed.
End ClaimFrames.
#[export] Hint Resolve keeps_claim_assignment : keeps.
