(* ===== verification/Decimal.v ===== *)
(** * Decimal amounts

    [Decimal(str(x))] on a JSON value (dispatcher.py, submit_result), its
    rounding to the scale of a money column, and the arithmetic of the
    decimal context that the voice ledger prices its calls with. *)

From S2P Require Import Prelude Models Retry Text.

Inductive decimal : Type :=
| Finite (m x : Z)          (** [m * 10^x] *)
| Infinite (negative : bool)
| NaN.

Definition digit (c : ascii) : option Z :=
  let n := nat_of_ascii c in
  if (48 <=? n)%nat && (n <=? 57)%nat then Some (Z.of_nat n - 48) else None.

(** the leading digits: their value, their number, and the rest *)
Fixpoint take_digits (s : string) (acc : Z) (n : nat) : Z * nat * string :=
  match s with
  | EmptyString => (acc, n, s)
  | String c s' =>
      match digit c with
      | Some d => take_digits s' (10 * acc + d) (S n)
      | None => (acc, n, s)
      end
  end.

Definition take_sign (s : string) : bool * string :=
  match s with
  | String c s' =>
      if Ascii.eqb c "-"%char then (true, s')
      else if Ascii.eqb c "+"%char then (false, s')
      else (false, s)
  | EmptyString => (false, s)
  end.

(** [e], sign, digits, end *)
Definition parse_exponent (s : string) : option Z :=
  match s with
  | EmptyString => Some 0
  | String c s =>
      if Ascii.eqb (lower_ascii c) "e"%char then
        let '(neg, s) := take_sign s in
        match take_digits s 0 0 with
        | (v, S _, EmptyString) => Some (if neg then - v else v)
        | _ => None
        end
      else None
  end.

Definition parse_finite (neg : bool) (s : string) : option decimal :=
  let '(ip, ni, s) := take_digits s 0 0 in
  let '(m, nf, s) :=
    match s with
    | String c s' => if Ascii.eqb c "."%char then take_digits s' ip 0 else (ip, O, s)
    | EmptyString => (ip, O, s)
    end in
  match (ni + nf)%nat with
  | O => None
  | S _ => (λ x, Finite (if neg then - m else m) (x - Z.of_nat nf)) <$> parse_exponent s
  end.

Fixpoint without_underscores (s : string) : string :=
  match s with
  | String c s => if Ascii.eqb c "_"%char then without_underscores s
                  else String c (without_underscores s)
  | EmptyString => s
  end.

Definition is_digits (s : string) : bool :=
  match take_digits s 0 0 with (_, _, EmptyString) => true | _ => false end.

Definition parse_decimal (s : string) : option decimal :=
  let '(neg, body) := take_sign (without_underscores (strip s)) in
  let l := lower body in
  if String.eqb l "inf" || String.eqb l "infinity" then Some (Infinite neg)
  else if String.prefix "nan" l && is_digits (String.substring 3 (String.length l) l) then Some NaN
  else if String.prefix "snan" l && is_digits (String.substring 4 (String.length l) l) then Some NaN
  else parse_finite neg body.

(** [Decimal(str(v))]: [None] when it raises *)
Definition decimal_of_json (v : json) : option decimal :=
  match v with
  | JNum m e => Some (Finite m (- Z.of_nat e))
  | JStr s => parse_decimal s
  | _ => None
  end.

(** [m * 10^x] dollars in ten-thousandths, as the column rounds it (half away
    from zero).  A negative amount is rounded away from zero altogether,
    which keeps its sign: the only thing a caller looks at. *)
Definition decimal_usd (m x : Z) : usd :=
  if 0 <=? x + 4 then m * 10 ^ (x + 4)
  else
    let p := 10 ^ (- (x + 4)) in
    if m <? 0 then - ((- m + p - 1) / p) else (2 * m + p) / (2 * p).

(** Above every amount of a [Numeric(10, 4)] column. *)
Definition usd_above : usd := 10 ^ 10.

Lemma decimal_usd_sign m x : decimal_usd m x < 0 ↔ m < 0.
Proof.
  unfold decimal_usd. destruct (Z.leb_spec 0 (x + 4)).
  - pose proof (Z.pow_pos_nonneg 10 (x + 4)). split; nia.
  - set (p := 10 ^ (- (x + 4))). assert (0 < p) by (apply Z.pow_pos_nonneg; lia).
    destruct (Z.ltb_spec m 0).
    + split; [done|]. intros _. assert (1 ≤ (- m + p - 1) / p); [|lia].
      apply Z.div_le_lower_bound; lia.
    + split; [|lia]. intros Hd. exfalso.
      assert (0 ≤ (2 * m + p) / (2 * p)) by (apply Z.div_pos; lia). lia.
Qed.

Example parse_decimal_price : parse_decimal " 0.0_5 " = Some (Finite 5 (-2)).
Proof. reflexivity. Qed.
Example parse_decimal_exponent : parse_decimal "-1e-05" = Some (Finite (-1) (-5)).
Proof. reflexivity. Qed.
Example parse_decimal_word : parse_decimal "free" = None.
Proof. reflexivity. Qed.

(** * Decimal arithmetic

    Python's [Decimal] under its default context: every result is rounded
    half to even to 28 significant digits; [quantize] rounds to the scale of
    a money column.  A number is [m * 10^x]. *)

Abbreviation dec := (Z * Z)%type.

Fixpoint digits_of (fuel : nat) (n : Z) : Z :=
match fuel with
| O => 1
| S fuel => if n <? 10 then 1 else 1 + digits_of fuel (n / 10)
end.
(** the number of decimal digits of [|m|]: the fuel is the number of binary ones *)
Definition ndigits (m : Z) : Z := digits_of (S (Z.to_nat (Z.log2 (Z.abs m)))) (Z.abs m).

(** [n / d], the nearest integer, ties to even; [0 <= n], [0 < d] *)
Definition half_even (n d : Z) : Z :=
let q := n / d in
let r := n mod d in
if 2 * r <? d then q
else if d <? 2 * r then q + 1
else if Z.even q then q else q + 1.

Definition with_sign (m a : Z) : Z := if m <? 0 then - a else a.

Definition precision : Z := 28.

(** the result of an operation, in the context's precision *)
Definition fix_context (a : dec) : dec :=
let '(m, x) := a in
let k := ndigits m - precision in
if k <=? 0 then a else (with_sign m (half_even (Z.abs m) (10 ^ k)), x + k).

Definition dec_of (n : Z) : dec := (n, 0).

Definition dec_mul (a b : dec) : dec := fix_context (a.1 * b.1, a.2 + b.2).

Definition dec_add (a b : dec) : dec :=
let x := Z.min a.2 b.2 in
fix_context (a.1 * 10 ^ (a.2 - x) + b.1 * 10 ^ (b.2 - x), x).

(** [a / b] of a divisor that is not zero: at least 29 digits of the quotient
    and a sticky one, rounded *)
Definition dec_div (a b : dec) : dec :=
let s := Z.max 0 (29 + ndigits b.1 - ndigits a.1) in
let n := Z.abs a.1 * 10 ^ s in
let q := n / Z.abs b.1 in
let sign := with_sign (a.1 * b.1) in
if n mod Z.abs b.1 =? 0 then fix_context (sign q, a.2 - b.2 - s)
else fix_context (sign (10 * q + 1), a.2 - b.2 - s - 1).

(** [a.quantize(Decimal(10) ** -places)], as a number of its last place *)
Definition quantize (places : Z) (a : dec) : result exn Z :=
let '(m, x) := a in
let v := if - places <=? x then m * 10 ^ (x + places)
         else with_sign m (half_even (Z.abs m) (10 ^ (- (x + places)))) in
if ndigits v <=? precision then Ok v else Raise InvalidOperation.
(** [a.quantize(Decimal("0.0001"))], as an amount *)
Definition quantize_usd : dec → result exn usd := quantize 4.

Lemma half_even_nonneg n d : 0 ≤ n → 0 < d → 0 ≤ half_even n d.
Proof.
  intros Hn Hd. assert (0 ≤ n / d) by (by apply Z.div_pos). unfold half_even.
  repeat case_match; lia.
Qed.

Lemma with_sign_nonneg m a : 0 ≤ m → with_sign m a = a.
Proof. intros Hm. unfold with_sign. by destruct (Z.ltb_spec m 0); [lia|]. Qed.

Lemma fix_context_nonneg a : 0 ≤ a.1 → 0 ≤ (fix_context a).1.
Proof.
  destruct a as [m x]. simpl. intros Hm. unfold fix_context. destruct (Z.leb_spec (ndigits m - precision) 0); [done|].
  cbn [fst]. rewrite with_sign_nonneg by done. apply half_even_nonneg; [lia|].
  apply Z.pow_pos_nonneg; lia.
Qed.

Lemma dec_mul_nonneg a b : 0 ≤ a.1 → 0 ≤ b.1 → 0 ≤ (dec_mul a b).1.
Proof. intros Ha Hb. apply fix_context_nonneg. simpl. lia. Qed.

Lemma dec_add_nonneg a b : 0 ≤ a.1 → 0 ≤ b.1 → 0 ≤ (dec_add a b).1.
Proof.
  intros Ha Hb. apply fix_context_nonneg. cbn [fst].
  assert (H1 : 0 ≤ 10 ^ (a.2 - Z.min a.2 b.2)) by (apply Z.pow_nonneg; lia).
  assert (H2 : 0 ≤ 10 ^ (b.2 - Z.min a.2 b.2)) by (apply Z.pow_nonneg; lia). nia.
Qed.

Lemma dec_div_nonneg a b : 0 ≤ a.1 → 0 < b.1 → 0 ≤ (dec_div a b).1.
Proof.
  intros Ha Hb. unfold dec_div. set (s := Z.max _ _).
  assert (H1 : 0 ≤ 10 ^ s) by (apply Z.pow_nonneg; lia).
  assert (H2 : 0 ≤ Z.abs a.1 * 10 ^ s / Z.abs b.1) by (apply Z.div_pos; nia).
  rewrite !with_sign_nonneg by nia.
  destruct (_ =? 0); apply fix_context_nonneg; cbn [fst]; lia.
Qed.

Lemma quantize_nonneg places a v : 0 ≤ a.1 → quantize places a = Ok v → 0 ≤ v.
Proof.
  destruct a as [m x]. unfold quantize. cbn [fst]. intros Hm.
  destruct (Z.leb_spec (- places) x); destruct (_ <=? precision); try done; intros [= <-].
  - apply Z.mul_nonneg_nonneg; [done|]. apply Z.pow_nonneg. lia.
  - rewrite with_sign_nonneg by done. apply half_even_nonneg; [lia|]. apply Z.pow_pos_nonneg; lia.
Qed.

Example dec_third : dec_div (dec_of 1) (dec_of 3) = (3333333333333333333333333333, -28).
Proof. reflexivity. Qed.
Example dec_two_thirds : dec_div (dec_of (-2)) (dec_of 3) = (-6666666666666666666666666667, -28).
Proof. reflexivity. Qed.
Example quantize_tie : map (λ m, quantize_usd (m, -5)) [125; 135; -5] = [Ok 12; Ok 14; Ok 0].
Proof. reflexivity. Qed.
