(* ===== verification/PyJson.v ===== *)
(** * Python on decoded JSON

    What the services do with a [dict] that came from outside: truth, [get],
    [or], [isinstance] and [int()]. *)

From S2P Require Import Prelude Models Text Decimal.

(** [bool(v)] *)
Definition truthy (v : json) : bool :=
  match v with
  | JNull => false
  | JBool b => b
  | JNum m _ => negb (m =? 0)
  | JStr s => negb (String.eqb s EmptyString)
  | JList l => match l with [] => false | _ => true end
  | JObj kv => match kv with [] => false | _ => true end
  end.

(** [a or b] *)
Definition py_or (a b : json) : json := if truthy a then a else b.

(** [v.get(key)] *)
Definition py_get (v : json) (key : string) : result exn json :=
  match v with
  | JObj kv => Ok (default JNull (obj_get kv key))
  | _ => Raise AttributeError
  end.

Definition as_str (v : json) : option string := match v with JStr s => Some s | _ => None end.

(** [v if isinstance(v, int) else None]; a [bool] is an [int] *)
Definition as_int (v : json) : option Z :=
  match v with
  | JNum m O => Some m
  | JBool b => Some (if b then 1 else 0)
  | _ => None
  end.

(** every underscore stands between two digits *)
Fixpoint underscores_ok (after_digit : bool) (s : string) : bool :=
  match s with
  | EmptyString => after_digit
  | String c s =>
      if Ascii.eqb c "_"%char then after_digit && underscores_ok false s else underscores_ok true s
  end.

(** [int(s)] *)
Definition parse_int (s : string) : option Z :=
  let '(neg, body) := take_sign (strip s) in
  match take_digits (without_underscores body) 0 0 with
  | (v, _, EmptyString) => if underscores_ok false body then Some (if neg then - v else v) else None
  | _ => None
  end.

(** [int(v)] *)
Definition int_of_json (v : json) : result exn Z :=
  match v with
  | JNum m e => Ok (Z.quot m (10 ^ Z.of_nat e))
  | JBool b => Ok (if b then 1 else 0)
  | JStr s => match parse_int s with Some n => Ok n | None => Raise (ValueError s) end
  | _ => Raise TypeError
  end.

(** a value stored in a [Text] column: the driver refuses what is no string *)
Definition text_column (v : json) : result exn (option string) :=
  match v with
  | JNull => Ok None
  | JStr s => Ok (Some s)
  | _ => Raise TypeError
  end.

Example parse_int_ex : map parse_int [" -1_000 "; "1__0"; ""; "12a"] = [Some (-1000); None; None; None].
Proof. reflexivity. Qed.

(** ** Dictionaries of loose values *)

Abbreviation pydict := (list (string * json)).

(** [d.get(key, dflt)] *)
Definition dict_get (d : pydict) (key : string) (dflt : json) : json :=
  default dflt (obj_get d key).
(** [d[key]] *)
Definition dict_item (d : pydict) (key : string) : result exn json :=
  match obj_get d key with Some v => Ok v | None => Raise (KeyError key) end.

(** [dict(v)] of a dictionary *)
Definition py_dict (v : json) : result exn json :=
  match v with JObj kv => Ok v | _ => Raise TypeError end.

Fixpoint chars (s : string) : list json :=
  match s with EmptyString => [] | String c s => JStr (String c EmptyString) :: chars s end.
(** [list(v)] *)
Definition py_list (v : json) : result exn (list json) :=
  match v with
  | JList l => Ok l
  | JObj kv => Ok (map (λ p, JStr p.1) kv)
  | JStr s => Ok (chars s)
  | _ => Raise TypeError
  end.

(** [(v or '')], on which a string method is called *)
Definition str_or_empty (v : json) : result exn string :=
  if truthy v then match v with JStr s => Ok s | _ => Raise AttributeError end
  else Ok EmptyString.

(** [Decimal(str(v))] *)
Definition py_decimal (v : json) : result exn decimal :=
  match decimal_of_json v with Some d => Ok d | None => Raise InvalidOperation end.

(** a value stored in an [Integer] column *)
Definition integer_column (v : json) : result exn (option Z) :=
  match v with
  | JNull => Ok None
  | JNum m O => Ok (Some m)
  | _ => Raise TypeError
  end.
