(* ===== verification/Regex.v ===== *)
(** * Regular expressions ([re]) on ASCII text

    The constructs the services' patterns use, with the matcher of Python:
    alternatives are tried from left to right, repetitions are greedy and
    give characters back.  [matches] is the language of a pattern and
    [search_spec] relates the matcher to it.  Every repetition of the
    program's patterns repeats one character class. *)

From S2P Require Import Prelude Text.

Inductive re : Type :=
| Eps
| Cls (p : ascii → bool)   (** one character of a class *)
| Rep (p : ascii → bool)   (** [p*], greedy *)
| Cat (a b : re)
| Alt (a b : re).

(** ** The matcher *)

(** [k] matches what is left *)
Fixpoint match_rep (p : ascii → bool) (s : string) (k : string → option string) : option string :=
  match s with
  | String c s' =>
      if p c then match match_rep p s' k with Some r => Some r | None => k s end else k s
  | EmptyString => k s
  end.

Fixpoint match_re (r : re) (s : string) (k : string → option string) : option string :=
  match r with
  | Eps => k s
  | Cls p => match s with String c s' => if p c then k s' else None | EmptyString => None end
  | Rep p => match_rep p s k
  | Cat a b => match_re a s (λ s', match_re b s' k)
  | Alt a b => match match_re a s k with Some r => Some r | None => match_re b s k end
  end.

(** [r.match(s)]: what is left of [s] after the match *)
Definition match_prefix (r : re) (s : string) : option string := match_re r s Some.

(** [r.search(s) is not None] *)
Fixpoint search (r : re) (s : string) : bool :=
  match match_prefix r s with
  | Some _ => true
  | None => match s with String _ s' => search r s' | EmptyString => false end
  end.

(** [r.sub(repl, s)], of a pattern that does not match the empty string;
    [skip] counts the characters of the last match still to be passed over *)
Fixpoint sub_from (r : re) (repl s : string) (skip : nat) : string :=
  match s with
  | EmptyString => EmptyString
  | String c s' =>
      match skip with
      | S n => sub_from r repl s' n
      | O => match match_prefix r s with
             | Some rest => repl +:+ sub_from r repl s' (String.length s' - String.length rest)
             | None => String c (sub_from r repl s' 0)
             end
      end
  end.
Definition sub (r : re) (repl s : string) : string := sub_from r repl s 0.

(** ** Writing patterns *)

(** under [(?i)] *)
Definition chr (c : ascii) : re := Cls (λ d, Ascii.eqb (lower_ascii d) c).
Fixpoint lit (s : string) : re :=
  match s with
  | EmptyString => Eps
  | String c EmptyString => chr c
  | String c s => Cat (chr c) (lit s)
  end.
Fixpoint cats (l : list re) : re :=
  match l with [] => Eps | [r] => r | r :: l => Cat r (cats l) end.
Fixpoint alts (r : re) (l : list re) : re :=
  match l with [] => r | r' :: l => Alt r (alts r' l) end.
Definition opt (r : re) : re := Alt r Eps.
Definition plus (p : ascii → bool) : re := Cat (Cls p) (Rep p).
Definition one_of (cs : string) (c : ascii) : bool := contains (String c EmptyString) cs.
Definition is_digit (c : ascii) : bool :=
  let n := nat_of_ascii c in (48 <=? n)%nat && (n <=? 57)%nat.
Definition is_alnum (c : ascii) : bool :=
  let n := nat_of_ascii (lower_ascii c) in is_digit c || ((97 <=? n)%nat && (n <=? 122)%nat).
Definition spaces : re := plus is_space.

(** ** The patterns of the services (the same in research.py, strategy.py
    and content_department.py) *)

Definition _UNTRUSTED_INSTRUCTION : re :=
  alts (cats [lit "ignore"; spaces; opt (cats [lit "all"; spaces]); lit "previous"])
    [cats [lit "system"; spaces; lit "prompt"];
     cats [lit "developer"; spaces; lit "message"];
     cats [lit "reveal"; spaces; alts (lit "secret") [lit "token"; lit "password"]];
     cats [lit "bypass"; spaces; alts (lit "review") [lit "security"]];
     cats [lit "execute"; spaces; lit "this"; spaces; lit "instruction"]].

Definition _SECRET_PATTERN : re :=
  cats [alts (cats [lit "api"; opt (Cls (one_of "_ -")); lit "key"])
          [lit "authorization"; lit "bearer"; lit "oauth"; lit "token"; lit "password"];
        Rep is_space; Cls (one_of ":="); Rep is_space;
        plus (λ c, negb (is_space c || one_of ",;" c))].

Definition viral_claim : re := cats [lit "will"; spaces; lit "go"; spaces; lit "viral"].
Definition guarantee_claim : re :=
  cats [lit "guaranteed"; spaces; alts (lit "winner") [lit "success"]].
Definition views_claim : re :=
  cats [lit "expected"; spaces; plus is_digit; opt (Cls (λ c, one_of "km" (lower_ascii c)));
        spaces; lit "views"].

(** strategy.py *)
Definition _OVERSTATED_PATTERN : re := alts viral_claim [guarantee_claim; views_claim].
(** content_department.py *)
Definition _UNSUPPORTED_CLAIM : re :=
  alts viral_claim
    [guarantee_claim; views_claim;
     cats [lit "increase"; spaces; alts (lit "revenue") [lit "profit"]; spaces; lit "by";
           spaces; plus is_digit]].

(** [_CLAIM_SENTENCE.split(s)], the pattern [(?<=[.!?])\s+]: [ended] when the
    character before ends a sentence, [inside] a match *)
Fixpoint split_sentences (ended inside : bool) (s acc : string) : list string :=
  match s with
  | EmptyString => [acc]
  | String c s' =>
      if is_space c && inside then split_sentences false true s' acc
      else if is_space c && ended then acc :: split_sentences false true s' EmptyString
      else split_sentences (one_of ".!?" c) false s' (acc +:+ String c EmptyString)
  end.

(** ** The language of a pattern *)

Fixpoint all_chars (p : ascii → bool) (s : string) : bool :=
  match s with EmptyString => true | String c s => p c && all_chars p s end.

Fixpoint matches (r : re) (w : string) : Prop :=
  match r with
  | Eps => w = EmptyString
  | Cls p => ∃ c, w = String c EmptyString ∧ p c = true
  | Rep p => all_chars p w = true
  | Cat a b => ∃ u v, w = u +:+ v ∧ matches a u ∧ matches b v
  | Alt a b => matches a w ∨ matches b w
  end.

(** [s] contains a word of the pattern *)
Definition occurs (r : re) (s : string) : Prop :=
  ∃ a w b, s = a +:+ (w +:+ b) ∧ matches r w.

Lemma match_rep_spec p s k :
  is_Some (match_rep p s k) ↔
  ∃ w rest, s = w +:+ rest ∧ all_chars p w = true ∧ is_Some (k rest).
Proof.
  assert (Hnil : ∀ t, is_Some (k t) →
    ∃ w rest, t = w +:+ rest ∧ all_chars p w = true ∧ is_Some (k rest)) by (by exists EmptyString, t).
  induction s as [|c s IH]; simpl.
  { split; [apply Hnil|]. intros ([|] & rest & He & _ & Hk); [|done].
    change (EmptyString = rest) in He. by subst. }
  destruct (p c) eqn:Hp.
  - destruct (match_rep p s k) as [r|] eqn:Hr.
    + split; [|by eexists]. intros _. destruct IH as [(w & rest & -> & Hw & Hk) _]; [by eexists|].
      exists (String c w), rest. split_and!; [done| |done]. simpl. by rewrite Hp.
    + split; [apply Hnil|]. intros ([|d w] & rest & He & Hw & Hk).
      { change (String c s = rest) in He. by rewrite He. }
      change (String c s = String d (w +:+ rest)) in He. injection He as -> ->. simpl in Hw. apply andb_true_iff in Hw as [_ Hw].
      destruct IH as [_ IH]. destruct IH as [x Hx]; [by exists w, rest|done].
  - split; [apply Hnil|]. intros ([|d w] & rest & He & Hw & Hk).
    { change (String c s = rest) in He. by rewrite He. }
    change (String c s = String d (w +:+ rest)) in He. injection He as -> ->. simpl in Hw. by rewrite Hp in Hw.
Qed.

Lemma match_re_spec r s k :
  is_Some (match_re r s k) ↔ ∃ w rest, s = w +:+ rest ∧ matches r w ∧ is_Some (k rest).
Proof.
  revert s k. induction r as [|p|p|a IHa b IHb|a IHa b IHb]; intros s k; simpl.
  - split; [by exists EmptyString, s|]. by intros (w & rest & -> & -> & Hk).
  - split.
    + destruct s as [|c s]; [by intros []|]. destruct (p c) eqn:Hp; [|by intros []].
      intros Hk. by exists (String c EmptyString), s; split_and!; [|exists c|].
    + intros (w & rest & -> & (c & -> & Hp) & Hk). simpl. by rewrite Hp.
  - apply match_rep_spec.
  - rewrite IHa. setoid_rewrite IHb. split.
    + intros (u & rest & -> & Hu & v & rest' & -> & Hv & Hk).
      exists (u +:+ v), rest'. rewrite string_app_assoc. split_and!; [done|by exists u, v|done].
    + intros (w & rest & -> & (u & v & -> & Hu & Hv) & Hk).
      exists u, (v +:+ rest). rewrite string_app_assoc. split_and!; [done..|by exists v, rest].
  - destruct (match_re a s k) as [x|] eqn:Ha.
    + split; [|by eexists]. intros _. destruct (IHa s k) as [IH _].
      rewrite Ha in IH. destruct IH as (w & rest & -> & Hw & Hk); [by eexists|].
      exists w, rest. split_and!; [done|by left|done].
    + rewrite IHb. split; [naive_solver|]. intros (w & rest & -> & [Hw|Hw] & Hk); [|naive_solver].
      exfalso. destruct (IHa (w +:+ rest) k) as [_ IH].
      destruct IH as [x Hx]; [by exists w, rest|congruence].
Qed.

(** The matcher finds a word of the pattern exactly when there is one. *)
Lemma search_spec r s : search r s = true ↔ occurs r s.
Proof.
  assert (Hm : ∀ t, is_Some (match_prefix r t) ↔ ∃ w rest, t = w +:+ rest ∧ matches r w).
  { intros t. unfold match_prefix. rewrite match_re_spec. naive_solver. }
  unfold occurs. induction s as [|c s IH]; simpl.
  - destruct (match_prefix r EmptyString) eqn:He.
    + split; [|done]. intros _. destruct (Hm EmptyString) as [H _].
      destruct H as (w & rest & Hw & Hr); [by eexists|]. by exists EmptyString, w, rest.
    + split; [done|]. intros ([|] & w & b & Hs & Hw); [|done]. exfalso.
      destruct (Hm EmptyString) as [_ H]. destruct H as [x Hx]; [by exists w, b|congruence].
  - destruct (match_prefix r (String c s)) eqn:He.
    + split; [|done]. intros _. destruct (Hm (String c s)) as [H _].
      destruct H as (w & rest & Hw & Hr); [by eexists|]. by exists EmptyString, w, rest.
    + rewrite IH. split.
      * intros (a & w & b & -> & Hw). by exists (String c a), w, b.
      * intros ([|d a] & w & b & Hs & Hw).
        { exfalso. destruct (Hm (String c s)) as [_ H].
          destruct H as [x Hx]; [by exists w, b|congruence]. }
        change (String c s = String d (a +:+ (w +:+ b))) in Hs. injection Hs as -> ->.
        by exists a, w, b.
Qed.

Example search_instruction :
  map (search _UNTRUSTED_INSTRUCTION)
    ["Please IGNORE  all previous steps"; "ignore the previous"; "bypass review"] =
  [true; false; true].
Proof. vm_compute. reflexivity. Qed.
Example sub_secret :
  map (sub _SECRET_PATTERN "#") ["api_key: abc, x"; "Token =  q;password=p"; "key: v"] =
  ["#, x"; "#;#"; "key: v"].
Proof. vm_compute. reflexivity. Qed.
Example split_sentences_ex :
  split_sentences false false "One. Two!  3? four" EmptyString = ["One."; "Two!"; "3?"; "four"].
Proof. vm_compute. reflexivity. Qed.
