(* ===== verification/Url.v ===== *)
(** * URLs and IPv4 addresses ([urllib.parse], [ipaddress])

    What [_canonical_url] of services/research.py uses of the two modules, on
    ASCII text.  The text between brackets in a host is an IPv6 address or
    not, and a private one or not: [ip6] decides. *)

From S2P Require Import Prelude Models Text Decimal Regex.

(** [s.partition(c)] *)
Fixpoint partition (c : ascii) (s : string) : string * bool * string :=
  match s with
  | EmptyString => (EmptyString, false, EmptyString)
  | String d s =>
      if Ascii.eqb d c then (EmptyString, true, s)
      else let '(a, found, b) := partition c s in (String d a, found, b)
  end.
(** [s.rpartition(c)]: the whole of [s] comes last when there is no [c] *)
Fixpoint rpartition (c : ascii) (s : string) : string * bool * string :=
  match s with
  | EmptyString => (EmptyString, false, EmptyString)
  | String d s =>
      let '(a, found, b) := rpartition c s in
      if found then (String d a, true, b)
      else if Ascii.eqb d c then (EmptyString, true, s)
      else (EmptyString, false, String d s)
  end.

(** [s.rstrip(c)] *)
Fixpoint rstrip_char (c : ascii) (s : string) : string :=
  match s with
  | EmptyString => EmptyString
  | String d s =>
      match rstrip_char c s with
      | EmptyString => if Ascii.eqb d c then EmptyString else String d EmptyString
      | t => String d t
      end
  end.

Fixpoint filter_chars (p : ascii → bool) (s : string) : string :=
  match s with
  | EmptyString => EmptyString
  | String c s => if p c then String c (filter_chars p s) else filter_chars p s
  end.

(** up to the first character of [cs], and from it *)
Fixpoint span_until (cs s : string) : string * string :=
  match s with
  | EmptyString => (EmptyString, EmptyString)
  | String c s' =>
      if one_of cs c then (EmptyString, s)
      else let '(a, b) := span_until cs s' in (String c a, b)
  end.

Definition is_alpha (c : ascii) : bool :=
  let n := nat_of_ascii (lower_ascii c) in (97 <=? n)%nat && (n <=? 122)%nat.

(** ** [urlsplit] *)

Record SplitResult : Type := mk_split {
  url_scheme : string;
  url_netloc : string;
  url_path : string;
  url_query : string;
  url_fragment : string
}.

(** the C0 control characters and the space *)
Fixpoint lstrip_control (s : string) : string :=
  match s with
  | String c s' => if (nat_of_ascii c <=? 32)%nat then lstrip_control s' else s
  | EmptyString => s
  end.
Definition unsafe_byte (c : ascii) : bool :=
  let n := nat_of_ascii c in (n =? 9)%nat || (n =? 10)%nat || (n =? 13)%nat.

Definition split_scheme (url : string) : string * string :=
  let '(before, found, after) := partition ":" url in
  match before with
  | String c _ =>
      if found && is_alpha c && all_chars (λ c, is_alnum c || one_of "+-." c) before
      then (lower before, after) else (EmptyString, url)
  | EmptyString => (EmptyString, url)
  end.

(** host and port, from what follows the credentials *)
Definition hostinfo (netloc : string) : string :=
  let '(_, _, info) := rpartition "@" netloc in
  let '(_, open, bracketed) := partition "[" info in
  if open then (partition "]" bracketed).1.1 else (partition ":" info).1.1.

(** [v1f.x]: an address of a future version *)
Definition ip_future (host : string) : bool :=
  match host with
  | String c rest =>
      let '(version, dot, tail) := partition "." rest in
      Ascii.eqb c "v" && dot && negb (String.eqb version EmptyString) &&
      all_chars (λ c, is_digit c || one_of "abcdef" (lower_ascii c)) version &&
      negb (String.eqb tail EmptyString)
  | EmptyString => false
  end.

Section Urls.
(** an IPv6 address: is it private, loopback, link-local or reserved? *)
Context (ip6 : string → option bool).

Definition bracketed_host_ok (host : string) : bool :=
  if String.prefix "v" host then ip_future host
  else match ip6 host with Some _ => true | None => false end.

(** the brackets of a netloc stand around a host, with a port behind at most *)
Definition brackets_ok (netloc : string) : bool :=
  let has c := let '(_, found, _) := partition c netloc in found in
  if has "["%char && has "]"%char then
    let '(_, _, info) := rpartition "@" netloc in
    let '(before, open, bracketed) := partition "[" info in
    if open then
      let '(host, _, port) := partition "]" bracketed in
      String.eqb before EmptyString &&
      (String.eqb port EmptyString || String.prefix ":" port) && bracketed_host_ok host
    else bracketed_host_ok (partition ":" info).1.1
  else Bool.eqb (has "["%char) (has "]"%char).

Definition urlsplit (value : string) : result exn SplitResult :=
  let url := filter_chars (λ c, negb (unsafe_byte c)) (lstrip_control value) in
  let '(scheme, url) := split_scheme url in
  let '(netloc, url) :=
    if String.prefix "//" url
    then span_until "/?#" (String.substring 2 (String.length url) url)
    else (EmptyString, url) in
  if negb (brackets_ok netloc) then Raise (ValueError "Invalid IPv6 URL") else
  let '(url, _, fragment) := partition "#" url in
  let '(path, _, query) := partition "?" url in
  Ok (mk_split scheme netloc path query fragment).

(** [parsed.hostname]; an empty one is [None] *)
Definition url_hostname (u : SplitResult) : string :=
  let '(host, percent, zone) := partition "%" (hostinfo (url_netloc u)) in
  lower host +:+ (if percent then String "%" zone else EmptyString).

(** [parsed.username or parsed.password] *)
Definition url_credentials (u : SplitResult) : bool :=
  let '(info, found, _) := rpartition "@" (url_netloc u) in
  let '(username, _, password) := partition ":" info in
  found && (negb (String.eqb username EmptyString) || negb (String.eqb password EmptyString)).

(** [urlunsplit], of an http(s) URL without a fragment *)
Definition urlunsplit (scheme netloc path query : string) : string :=
  let path :=
    if negb (String.eqb netloc EmptyString) || negb (String.prefix "//" path) then
      "//" +:+ netloc +:+
      (if negb (String.eqb path EmptyString) && negb (String.prefix "/" path)
       then "/" +:+ path else path)
    else path in
  scheme +:+ ":" +:+ path +:+ (if String.eqb query EmptyString then EmptyString else "?" +:+ query).

(** ** [ipaddress] *)

Fixpoint split_on (c : ascii) (s acc : string) : list string :=
  match s with
  | EmptyString => [acc]
  | String d s =>
      if Ascii.eqb d c then acc :: split_on c s EmptyString
      else split_on c s (acc +:+ String d EmptyString)
  end.

Definition parse_octet (s : string) : option Z :=
  match s with
  | EmptyString => None
  | String c rest =>
      if all_chars is_digit s && (String.length s <=? 3)%nat &&
         (String.eqb rest EmptyString || negb (Ascii.eqb c "0"))
      then let '(v, _, _) := take_digits s 0 0 in if v <=? 255 then Some v else None
      else None
  end.

Definition parse_ipv4 (s : string) : option Z :=
  match map parse_octet (split_on "." s EmptyString) with
  | [Some a; Some b; Some c; Some d] => Some (((a * 256 + b) * 256 + c) * 256 + d)
  | _ => None
  end.

Definition in_network (address : Z) (net : Z * Z * Z * Z * Z) : bool :=
  let '(a, b, c, d, bits) := net in
  Z.shiftr address (32 - bits) =? Z.shiftr (((a * 256 + b) * 256 + c) * 256 + d) (32 - bits).

Definition private_networks : list (Z * Z * Z * Z * Z) :=
  [(0,0,0,0,8); (10,0,0,0,8); (127,0,0,0,8); (169,254,0,0,16); (172,16,0,0,12);
   (192,0,0,0,24); (192,0,2,0,24); (192,168,0,0,16); (198,18,0,0,15); (198,51,100,0,24);
   (203,0,113,0,24); (240,0,0,0,4)].
Definition private_exceptions : list (Z * Z * Z * Z * Z) :=
  [(192,0,0,9,32); (192,0,0,10,32)].

(** [is_private or is_loopback or is_link_local or is_reserved] *)
Definition ipv4_local (address : Z) : bool :=
  existsb (in_network address) private_networks &&
  negb (existsb (in_network address) private_exceptions).

(** [ip_address(host)]: [None] when it is no address *)
Definition address_local (host : string) : option bool :=
  match parse_ipv4 host with
  | Some a => Some (ipv4_local a)
  | None => ip6 host
  end.
End Urls.

Definition no_ip6 : string → option bool := λ _, None.

Example urlsplit_ex :
  urlsplit no_ip6 "HTTPS://u:p@Example.com:80/a/b/?q=1#f" =
  Ok (mk_split "https" "u:p@Example.com:80" "/a/b/" "q=1" "f").
Proof. vm_compute. reflexivity. Qed.
Example address_local_ex :
  map (address_local no_ip6) ["127.0.0.1"; "172.31.255.255"; "172.32.0.0"; "127.1"; "01.2.3.4"; "2130706433"] =
  [Some true; Some true; Some false; None; None; None].
Proof. vm_compute. reflexivity. Qed.

(** ** [unquote]

    Every [%xx] becomes a byte, and the bytes are decoded as UTF-8: a sequence
    that ends too early or starts wrongly becomes U+FFFD. *)

Definition hex_digit (c : ascii) : option Z :=
  let n := Z.of_nat (nat_of_ascii c) in
  if (48 <=? n) && (n <=? 57) then Some (n - 48)
  else if (65 <=? n) && (n <=? 70) then Some (n - 55)
  else if (97 <=? n) && (n <=? 102) then Some (n - 87) else None.

Definition byte_chr (n : Z) : ascii := ascii_of_nat (Z.to_nat n).

Fixpoint unquote_to_bytes (s : string) : string :=
  match s with
  | String c (String a (String b r) as s') =>
      if Ascii.eqb c "%"
      then match hex_digit a, hex_digit b with
           | Some x, Some y => String (byte_chr (16 * x + y)) (unquote_to_bytes r)
           | _, _ => String c (unquote_to_bytes s')
           end
      else String c (unquote_to_bytes s')
  | _ => s
  end.

Definition replacement : string :=
  String (byte_chr 239) (String (byte_chr 191) (String (byte_chr 189) EmptyString)).

(** what may follow a first byte: ranges of the bytes to come *)
Definition utf8_follow (b : Z) : option (list (Z * Z)) :=
  let tail := (128, 191) in
  if b <? 128 then Some []
  else if b <? 194 then None
  else if b <? 224 then Some [tail]
  else if b =? 224 then Some [(160, 191); tail]
  else if b =? 237 then Some [(128, 159); tail]
  else if b <? 240 then Some [tail; tail]
  else if b =? 240 then Some [(144, 191); tail; tail]
  else if b <? 244 then Some [tail; tail; tail]
  else if b =? 244 then Some [(128, 143); tail; tail] else None.

(** [bytes.decode("utf-8", "replace")]: [pending] is the start of a sequence
    that still needs the bytes of [need] *)
Fixpoint utf8_replace (pending : string) (need : list (Z * Z)) (s : string) : string :=
  match s with
  | EmptyString => match need with [] => EmptyString | _ => replacement end
  | String c s' =>
      let b := Z.of_nat (nat_of_ascii c) in
      let start :=
        match utf8_follow b with
        | None => replacement +:+ utf8_replace EmptyString [] s'
        | Some [] => String c (utf8_replace EmptyString [] s')
        | Some need => utf8_replace (String c EmptyString) need s'
        end in
      match need with
      | [] => start
      | (lo, hi) :: need =>
          if (lo <=? b) && (b <=? hi)
          then match need with
               | [] => (pending +:+ String c EmptyString) +:+ utf8_replace EmptyString [] s'
               | _ => utf8_replace (pending +:+ String c EmptyString) need s'
               end
          else replacement +:+ start
      end
  end.

Definition unquote (s : string) : string := utf8_replace EmptyString [] (unquote_to_bytes s).

Example unquote_ex :
  map unquote ["a%2Fb"; "%zz%4"; "%%41"; "%C3%A9"; "%C3(%E2%82"] =
  ["a/b"; "%zz%4"; "%A"; String (byte_chr 195) (String (byte_chr 169) EmptyString);
   replacement +:+ "(" +:+ replacement].
Proof. vm_compute. reflexivity. Qed.
