(* ===== verification/StudioModels.v ===== *)
(** * The departments' data model

    The ORM rows of models/research.py, strategy.py, content_department.py,
    production.py, compliance.py, content_profile.py, profile.py,
    workspace_membership.py and local_auth.py with all their columns but
    [updated_at] and [version], which database triggers write, and [Studio]: these tables next to the [World] of the engine, whose
    clock, identifiers and outbox the departments use through [on_world].
    The primary key is the key of the table.  A trace identifier is opaque. *)

From S2P Require Import Prelude Models Database Outbox Text Decimal PyJson.

(** [models/workspace_membership.py] *)
Inductive WorkspaceRole : Type := ROLE_ADMIN | ROLE_EDITOR | ROLE_REVIEWER.
#[export] Instance workspace_role_eq : EqDecision WorkspaceRole.
Proof. solve_decision. Defined.
Definition WorkspaceRole_value (r : WorkspaceRole) : string :=
  match r with ROLE_ADMIN => "admin" | ROLE_EDITOR => "editor" | ROLE_REVIEWER => "reviewer" end.

(** [models/research.py] *)
Record ResearchRun : Type := mk_rrun {
  rrun_workspace_id : id;
  rrun_trigger : string;
  rrun_research_objective : string;
  rrun_permitted_sources : list string;
  rrun_started_at : time;
  rrun_deadline : time;
  rrun_max_searches : Z;
  rrun_max_provider_calls : Z;
  rrun_max_tokens : Z;
  rrun_max_cost_usd : usd;
  rrun_max_attempts : Z;
  rrun_status : string;
  rrun_provider_state : string;
  rrun_searches_used : Z;
  rrun_provider_calls_used : Z;
  rrun_tokens_used : Z;
  rrun_reserved_cost_usd : usd;
  rrun_actual_cost_usd : usd;
  rrun_opportunity_count : Z;
  rrun_audited_opportunity_count : Z;
  rrun_blocked_opportunity_count : Z;
  rrun_last_error : option string;
  rrun_correlation_id : id;
  rrun_trace_id : option id;
  rrun_test_data : bool;
  rrun_created_at : time;
  rrun_created_by : option id;
  rrun_updated_by : option id
}.
#[export] Instance rrun_settable : Settable ResearchRun := λ r,
    mk_rrun (rrun_workspace_id r) (rrun_trigger r) (rrun_research_objective r)
    (rrun_permitted_sources r) (rrun_started_at r) (rrun_deadline r) (rrun_max_searches r)
    (rrun_max_provider_calls r) (rrun_max_tokens r) (rrun_max_cost_usd r) (rrun_max_attempts r)
    (rrun_status r) (rrun_provider_state r) (rrun_searches_used r) (rrun_provider_calls_used r)
    (rrun_tokens_used r) (rrun_reserved_cost_usd r) (rrun_actual_cost_usd r)
    (rrun_opportunity_count r) (rrun_audited_opportunity_count r) (rrun_blocked_opportunity_count
    r) (rrun_last_error r) (rrun_correlation_id r) (rrun_trace_id r) (rrun_test_data r)
    (rrun_created_at r) (rrun_created_by r) (rrun_updated_by r).

(** [models/research.py] *)
Record ResearchSource : Type := mk_src {
  src_workspace_id : id;
  src_research_run_id : id;
  src_canonical_url : string;
  src_source_type : string;
  src_retrieved_at : time;
  src_published_at : option time;
  src_publisher : option string;
  src_author : option string;
  src_claim_supported : option string;
  src_freshness : string;
  src_confidence : decimal;
  src_content_digest : string;
  src_safe_excerpt : option string;
  src_handling_state : string;
  src_rejection_reason : option string;
  src_test_data : bool;
  src_created_at : time
}.
#[export] Instance src_settable : Settable ResearchSource := λ r,
    mk_src (src_workspace_id r) (src_research_run_id r) (src_canonical_url r) (src_source_type r)
    (src_retrieved_at r) (src_published_at r) (src_publisher r) (src_author r)
    (src_claim_supported r) (src_freshness r) (src_confidence r) (src_content_digest r)
    (src_safe_excerpt r) (src_handling_state r) (src_rejection_reason r) (src_test_data r)
    (src_created_at r).

(** [models/research.py] *)
Record Opportunity : Type := mk_opp {
  opp_workspace_id : id;
  opp_research_run_id : id;
  opp_title : string;
  opp_topic : string;
  opp_summary : string;
  opp_proposed_angle : string;
  opp_target_audience : option string;
  opp_target_platform : option string;
  opp_suggested_format : option string;
  opp_discovered_at : time;
  opp_freshness : string;
  opp_source_count : Z;
  opp_confidence : decimal;
  opp_risk : string;
  opp_status : string;
  opp_created_by_worker : string;
  opp_component_scores : json;
  opp_score_reasoning : json;
  opp_dedupe_key : string;
  opp_audit_gate_status : string;
  opp_performance_data_state : string;
  opp_strategist_state : string;
  opp_test_data : bool;
  opp_created_at : time;
  opp_created_by : option id;
  opp_updated_by : option id;
  opp_deleted_at : option time
}.
#[export] Instance opp_settable : Settable Opportunity := λ r,
    mk_opp (opp_workspace_id r) (opp_research_run_id r) (opp_title r) (opp_topic r) (opp_summary
    r) (opp_proposed_angle r) (opp_target_audience r) (opp_target_platform r)
    (opp_suggested_format r) (opp_discovered_at r) (opp_freshness r) (opp_source_count r)
    (opp_confidence r) (opp_risk r) (opp_status r) (opp_created_by_worker r) (opp_component_scores
    r) (opp_score_reasoning r) (opp_dedupe_key r) (opp_audit_gate_status r)
    (opp_performance_data_state r) (opp_strategist_state r) (opp_test_data r) (opp_created_at r)
    (opp_created_by r) (opp_updated_by r) (opp_deleted_at r).

(** [models/research.py] *)
Record OpportunityEvidence : Type := mk_evi {
  evi_workspace_id : id;
  evi_opportunity_id : id;
  evi_source_id : id;
  evi_claim_supported : string;
  evi_relevance : decimal;
  evi_contradiction_flag : bool;
  evi_created_at : time
}.
#[export] Instance evi_settable : Settable OpportunityEvidence := λ r,
    mk_evi (evi_workspace_id r) (evi_opportunity_id r) (evi_source_id r) (evi_claim_supported r)
    (evi_relevance r) (evi_contradiction_flag r) (evi_created_at r).

(** [models/research.py] *)
Record ResearchAudit : Type := mk_raud {
  raud_workspace_id : id;
  raud_opportunity_id : id;
  raud_research_run_id : id;
  raud_state : string;
  raud_evaluator_context_version : string;
  raud_scout_snapshot : json;
  raud_findings : list json;
  raud_warnings : list string;
  raud_blocked_reasons : list string;
  raud_checked_at : time;
  raud_test_data : bool;
  raud_created_at : time
}.
#[export] Instance raud_settable : Settable ResearchAudit := λ r,
    mk_raud (raud_workspace_id r) (raud_opportunity_id r) (raud_research_run_id r) (raud_state r)
    (raud_evaluator_context_version r) (raud_scout_snapshot r) (raud_findings r) (raud_warnings r)
    (raud_blocked_reasons r) (raud_checked_at r) (raud_test_data r) (raud_created_at r).

(** [models/research.py] *)
Record ResearchSchedule : Type := mk_rsch {
  rsch_workspace_id : id;
  rsch_frequency : string;
  rsch_enabled : bool;
  rsch_next_run_at : option time;
  rsch_paused_at : option time;
  rsch_enabled_by : option id;
  rsch_created_at : time;
  rsch_created_by : option id;
  rsch_updated_by : option id
}.
#[export] Instance rsch_settable : Settable ResearchSchedule := λ r,
    mk_rsch (rsch_workspace_id r) (rsch_frequency r) (rsch_enabled r) (rsch_next_run_at r)
    (rsch_paused_at r) (rsch_enabled_by r) (rsch_created_at r) (rsch_created_by r)
    (rsch_updated_by r).

(** [models/strategy.py] *)
Record StrategyRun : Type := mk_srun {
  srun_workspace_id : id;
  srun_trigger : string;
  srun_strategy_objective : string;
  srun_source_opportunity_ids : list string;
  srun_started_at : time;
  srun_deadline : time;
  srun_max_provider_calls : Z;
  srun_max_tokens : Z;
  srun_max_cost_usd : usd;
  srun_max_attempts : Z;
  srun_status : string;
  srun_provider_state : string;
  srun_business_context_state : string;
  srun_provider_calls_used : Z;
  srun_tokens_used : Z;
  srun_reserved_cost_usd : usd;
  srun_actual_cost_usd : usd;
  srun_briefs_created : Z;
  srun_briefs_passed : Z;
  srun_briefs_blocked : Z;
  srun_last_error : option string;
  srun_correlation_id : id;
  srun_trace_id : option id;
  srun_test_data : bool;
  srun_created_at : time;
  srun_created_by : option id;
  srun_updated_by : option id
}.
#[export] Instance srun_settable : Settable StrategyRun := λ r,
    mk_srun (srun_workspace_id r) (srun_trigger r) (srun_strategy_objective r)
    (srun_source_opportunity_ids r) (srun_started_at r) (srun_deadline r) (srun_max_provider_calls
    r) (srun_max_tokens r) (srun_max_cost_usd r) (srun_max_attempts r) (srun_status r)
    (srun_provider_state r) (srun_business_context_state r) (srun_provider_calls_used r)
    (srun_tokens_used r) (srun_reserved_cost_usd r) (srun_actual_cost_usd r) (srun_briefs_created
    r) (srun_briefs_passed r) (srun_briefs_blocked r) (srun_last_error r) (srun_correlation_id r)
    (srun_trace_id r) (srun_test_data r) (srun_created_at r) (srun_created_by r) (srun_updated_by
    r).

(** [models/strategy.py] *)
Record StrategyBrief : Type := mk_brief {
  brief_workspace_id : id;
  brief_strategy_run_id : id;
  brief_objective : string;
  brief_target_audience : option string;
  brief_target_platform : option string;
  brief_content_format : option string;
  brief_creative_angle : option string;
  brief_core_message : option string;
  brief_hook_direction : option string;
  brief_cta_direction : option string;
  brief_business_goal : option string;
  brief_success_metric : option string;
  brief_commercial_goal : option string;
  brief_estimated_complexity : string;
  brief_risk_level : string;
  brief_evidence_summary : string;
  brief_reasoning : string;
  brief_confidence : decimal;
  brief_priority : string;
  brief_component_scores : json;
  brief_score_reasoning : json;
  brief_recommended_length : option string;
  brief_recommended_posting_window : option string;
  brief_required_assets : list json;
  brief_production_requirements : list json;
  brief_rights_requirements : list json;
  brief_compliance_requirements : list json;
  brief_estimated_provider_usage : json;
  brief_estimated_cost_range : json;
  brief_cost_state : string;
  brief_capability_state : string;
  brief_business_context_state : string;
  brief_performance_data_state : string;
  brief_structural_fingerprint : string;
  brief_repetition_state : string;
  brief_repetition_reasons : list json;
  brief_audit_gate_status : string;
  brief_writer_handoff_state : string;
  brief_created_by_worker : string;
  brief_status : string;
  brief_test_data : bool;
  brief_created_at : time;
  brief_created_by : option id;
  brief_updated_by : option id;
  brief_deleted_at : option time
}.
#[export] Instance brief_settable : Settable StrategyBrief := λ r,
    mk_brief (brief_workspace_id r) (brief_strategy_run_id r) (brief_objective r)
    (brief_target_audience r) (brief_target_platform r) (brief_content_format r)
    (brief_creative_angle r) (brief_core_message r) (brief_hook_direction r) (brief_cta_direction
    r) (brief_business_goal r) (brief_success_metric r) (brief_commercial_goal r)
    (brief_estimated_complexity r) (brief_risk_level r) (brief_evidence_summary r)
    (brief_reasoning r) (brief_confidence r) (brief_priority r) (brief_component_scores r)
    (brief_score_reasoning r) (brief_recommended_length r) (brief_recommended_posting_window r)
    (brief_required_assets r) (brief_production_requirements r) (brief_rights_requirements r)
    (brief_compliance_requirements r) (brief_estimated_provider_usage r)
    (brief_estimated_cost_range r) (brief_cost_state r) (brief_capability_state r)
    (brief_business_context_state r) (brief_performance_data_state r)
    (brief_structural_fingerprint r) (brief_repetition_state r) (brief_repetition_reasons r)
    (brief_audit_gate_status r) (brief_writer_handoff_state r) (brief_created_by_worker r)
    (brief_status r) (brief_test_data r) (brief_created_at r) (brief_created_by r)
    (brief_updated_by r) (brief_deleted_at r).

(** [models/strategy.py] *)
Record StrategyBriefOpportunity : Type := mk_link {
  link_workspace_id : id;
  link_strategy_brief_id : id;
  link_opportunity_id : id;
  link_created_at : time
}.
#[export] Instance link_settable : Settable StrategyBriefOpportunity := λ r,
    mk_link (link_workspace_id r) (link_strategy_brief_id r) (link_opportunity_id r)
    (link_created_at r).

(** [models/strategy.py] *)
Record StrategyAudit : Type := mk_saud {
  saud_workspace_id : id;
  saud_strategy_brief_id : id;
  saud_strategy_run_id : id;
  saud_state : string;
  saud_evaluator_context_version : string;
  saud_brief_snapshot : json;
  saud_findings : list json;
  saud_warnings : list string;
  saud_blocked_reasons : list json;
  saud_checked_at : time;
  saud_test_data : bool;
  saud_created_at : time
}.
#[export] Instance saud_settable : Settable StrategyAudit := λ r,
    mk_saud (saud_workspace_id r) (saud_strategy_brief_id r) (saud_strategy_run_id r) (saud_state
    r) (saud_evaluator_context_version r) (saud_brief_snapshot r) (saud_findings r) (saud_warnings
    r) (saud_blocked_reasons r) (saud_checked_at r) (saud_test_data r) (saud_created_at r).

(** [models/strategy.py] *)
Record StrategySchedule : Type := mk_ssch {
  ssch_workspace_id : id;
  ssch_frequency : string;
  ssch_enabled : bool;
  ssch_next_run_at : option time;
  ssch_paused_at : option time;
  ssch_enabled_by : option id;
  ssch_created_at : time;
  ssch_created_by : option id;
  ssch_updated_by : option id
}.
#[export] Instance ssch_settable : Settable StrategySchedule := λ r,
    mk_ssch (ssch_workspace_id r) (ssch_frequency r) (ssch_enabled r) (ssch_next_run_at r)
    (ssch_paused_at r) (ssch_enabled_by r) (ssch_created_at r) (ssch_created_by r)
    (ssch_updated_by r).

(** [models/content_profile.py] *)
Record WorkspaceContentProfile : Type := mk_prof {
  prof_workspace_id : id;
  prof_business_name : option string;
  prof_offer : option string;
  prof_target_audience : option string;
  prof_brand_voice : option string;
  prof_target_platform : option string;
  prof_content_goal : option string;
  prof_created_at : time;
  prof_created_by : option id;
  prof_updated_by : option id
}.
#[export] Instance prof_settable : Settable WorkspaceContentProfile := λ r,
    mk_prof (prof_workspace_id r) (prof_business_name r) (prof_offer r) (prof_target_audience r)
    (prof_brand_voice r) (prof_target_platform r) (prof_content_goal r) (prof_created_at r)
    (prof_created_by r) (prof_updated_by r).

(** [models/content_department.py] *)
Record ContentDepartmentRun : Type := mk_crun {
  crun_workspace_id : id;
  crun_strategy_brief_id : id;
  crun_trigger : string;
  crun_status : string;
  crun_provider_state : string;
  crun_business_context_state : string;
  crun_max_provider_calls : Z;
  crun_max_tokens : Z;
  crun_max_cost_usd : usd;
  crun_max_attempts : Z;
  crun_timeout_seconds : Z;
  crun_provider_calls_used : Z;
  crun_tokens_used : Z;
  crun_actual_cost_usd : usd;
  crun_creative_directions_created : Z;
  crun_packages_ready : Z;
  crun_packages_blocked : Z;
  crun_last_error : option string;
  crun_correlation_id : id;
  crun_trace_id : option id;
  crun_test_data : bool;
  crun_created_at : time;
  crun_created_by : option id;
  crun_updated_by : option id
}.
#[export] Instance crun_settable : Settable ContentDepartmentRun := λ r,
    mk_crun (crun_workspace_id r) (crun_strategy_brief_id r) (crun_trigger r) (crun_status r)
    (crun_provider_state r) (crun_business_context_state r) (crun_max_provider_calls r)
    (crun_max_tokens r) (crun_max_cost_usd r) (crun_max_attempts r) (crun_timeout_seconds r)
    (crun_provider_calls_used r) (crun_tokens_used r) (crun_actual_cost_usd r)
    (crun_creative_directions_created r) (crun_packages_ready r) (crun_packages_blocked r)
    (crun_last_error r) (crun_correlation_id r) (crun_trace_id r) (crun_test_data r)
    (crun_created_at r) (crun_created_by r) (crun_updated_by r).

(** [models/content_department.py] *)
Record CreativeDirection : Type := mk_dir {
  dir_workspace_id : id;
  dir_content_department_run_id : id;
  dir_strategy_brief_id : id;
  dir_objective : string;
  dir_target_platform : option string;
  dir_target_audience : option string;
  dir_creative_concept : string;
  dir_opening_pattern : option string;
  dir_hook_direction : option string;
  dir_story_structure : option string;
  dir_tone : option string;
  dir_pacing : option string;
  dir_visual_direction : option string;
  dir_audio_direction : option string;
  dir_cta_direction : option string;
  dir_desired_emotion : option string;
  dir_required_claims : list json;
  dir_prohibited_claims : list json;
  dir_required_assets : list json;
  dir_estimated_duration : option string;
  dir_production_complexity : string;
  dir_risk_notes : list json;
  dir_worker_id : string;
  dir_provider : string;
  dir_model : option string;
  dir_prompt_version : string;
  dir_status : string;
  dir_test_data : bool;
  dir_created_at : time;
  dir_created_by : option id
}.
#[export] Instance dir_settable : Settable CreativeDirection := λ r,
    mk_dir (dir_workspace_id r) (dir_content_department_run_id r) (dir_strategy_brief_id r)
    (dir_objective r) (dir_target_platform r) (dir_target_audience r) (dir_creative_concept r)
    (dir_opening_pattern r) (dir_hook_direction r) (dir_story_structure r) (dir_tone r)
    (dir_pacing r) (dir_visual_direction r) (dir_audio_direction r) (dir_cta_direction r)
    (dir_desired_emotion r) (dir_required_claims r) (dir_prohibited_claims r) (dir_required_assets
    r) (dir_estimated_duration r) (dir_production_complexity r) (dir_risk_notes r) (dir_worker_id
    r) (dir_provider r) (dir_model r) (dir_prompt_version r) (dir_status r) (dir_test_data r)
    (dir_created_at r) (dir_created_by r).

(** [models/content_department.py] *)
Record ContentPackage : Type := mk_pkg {
  pkg_workspace_id : id;
  pkg_content_department_run_id : id;
  pkg_creative_direction_id : id;
  pkg_strategy_brief_id : id;
  pkg_content_item_id : id;
  pkg_content_version_id : id;
  pkg_prior_content_version_id : option id;
  pkg_revision_reason : option string;
  pkg_writer_worker_id : string;
  pkg_provider : string;
  pkg_model : option string;
  pkg_prompt_version : string;
  pkg_input_references : json;
  pkg_package_fields : json;
  pkg_status : string;
  pkg_audit_gate_status : string;
  pkg_producer_handoff_state : string;
  pkg_invalidated_at : option time;
  pkg_test_data : bool;
  pkg_created_at : time;
  pkg_created_by : option id;
  pkg_updated_by : option id;
  pkg_deleted_at : option time
}.
#[export] Instance pkg_settable : Settable ContentPackage := λ r,
    mk_pkg (pkg_workspace_id r) (pkg_content_department_run_id r) (pkg_creative_direction_id r)
    (pkg_strategy_brief_id r) (pkg_content_item_id r) (pkg_content_version_id r)
    (pkg_prior_content_version_id r) (pkg_revision_reason r) (pkg_writer_worker_id r)
    (pkg_provider r) (pkg_model r) (pkg_prompt_version r) (pkg_input_references r)
    (pkg_package_fields r) (pkg_status r) (pkg_audit_gate_status r) (pkg_producer_handoff_state r)
    (pkg_invalidated_at r) (pkg_test_data r) (pkg_created_at r) (pkg_created_by r) (pkg_updated_by
    r) (pkg_deleted_at r).

(** [models/content_department.py] *)
Record ContentClaim : Type := mk_claim {
  claim_workspace_id : id;
  claim_content_package_id : id;
  claim_content_version_id : id;
  claim_claim_text : string;
  claim_claim_type : string;
  claim_source_required : bool;
  claim_supporting_evidence : list json;
  claim_verification_status : string;
  claim_confidence : decimal;
  claim_risk : string;
  claim_freshness : option string;
  claim_evidence_reasoning : option string;
  claim_test_data : bool;
  claim_created_at : time;
  claim_created_by : option id;
  claim_updated_by : option id
}.
#[export] Instance claim_settable : Settable ContentClaim := λ r,
    mk_claim (claim_workspace_id r) (claim_content_package_id r) (claim_content_version_id r)
    (claim_claim_text r) (claim_claim_type r) (claim_source_required r) (claim_supporting_evidence
    r) (claim_verification_status r) (claim_confidence r) (claim_risk r) (claim_freshness r)
    (claim_evidence_reasoning r) (claim_test_data r) (claim_created_at r) (claim_created_by r)
    (claim_updated_by r).

(** [models/content_department.py] *)
Record ContentAudit : Type := mk_caud {
  caud_workspace_id : id;
  caud_content_package_id : id;
  caud_content_version_id : id;
  caud_auditor_type : string;
  caud_auditor_worker_id : string;
  caud_state : string;
  caud_artifact_snapshot : json;
  caud_requirements_snapshot : json;
  caud_findings : list json;
  caud_warnings : list string;
  caud_blocked_reasons : list string;
  caud_evidence : list json;
  caud_checked_at : time;
  caud_cost_usd : usd;
  caud_retry_history : list json;
  caud_test_data : bool;
  caud_created_at : time
}.
#[export] Instance caud_settable : Settable ContentAudit := λ r,
    mk_caud (caud_workspace_id r) (caud_content_package_id r) (caud_content_version_id r)
    (caud_auditor_type r) (caud_auditor_worker_id r) (caud_state r) (caud_artifact_snapshot r)
    (caud_requirements_snapshot r) (caud_findings r) (caud_warnings r) (caud_blocked_reasons r)
    (caud_evidence r) (caud_checked_at r) (caud_cost_usd r) (caud_retry_history r) (caud_test_data
    r) (caud_created_at r).

(** [models/content_department.py] *)
Record ContentAuditInvalidation : Type := mk_cinv {
  cinv_workspace_id : id;
  cinv_content_audit_id : id;
  cinv_content_package_id : id;
  cinv_content_version_id : id;
  cinv_reason : string;
  cinv_affected_dimensions : list string;
  cinv_created_at : time;
  cinv_created_by : option id
}.
#[export] Instance cinv_settable : Settable ContentAuditInvalidation := λ r,
    mk_cinv (cinv_workspace_id r) (cinv_content_audit_id r) (cinv_content_package_id r)
    (cinv_content_version_id r) (cinv_reason r) (cinv_affected_dimensions r) (cinv_created_at r)
    (cinv_created_by r).

(** [models/content_department.py] *)
Record OriginalityFingerprint : Type := mk_orig {
  orig_workspace_id : id;
  orig_content_package_id : id;
  orig_content_version_id : id;
  orig_text_fingerprint : string;
  orig_hook_fingerprint : string;
  orig_structure_fingerprint : string;
  orig_semantic_reference : option string;
  orig_comparison_set : list string;
  orig_similarity_findings : list json;
  orig_state : string;
  orig_test_data : bool;
  orig_created_at : time;
  orig_created_by : option id
}.
#[export] Instance orig_settable : Settable OriginalityFingerprint := λ r,
    mk_orig (orig_workspace_id r) (orig_content_package_id r) (orig_content_version_id r)
    (orig_text_fingerprint r) (orig_hook_fingerprint r) (orig_structure_fingerprint r)
    (orig_semantic_reference r) (orig_comparison_set r) (orig_similarity_findings r) (orig_state
    r) (orig_test_data r) (orig_created_at r) (orig_created_by r).

(** [models/production.py] *)
Record ProductionJob : Type := mk_pjob {
  pjob_workspace_id : id;
  pjob_content_package_id : id;
  pjob_content_item_id : id;
  pjob_content_version_id : id;
  pjob_pipeline_run_id : option id;
  pjob_producer_worker_id : string;
  pjob_target_platform : option string;
  pjob_target_format : option string;
  pjob_target_duration_seconds : option Z;
  pjob_required_assets : list json;
  pjob_provider_plan : json;
  pjob_status : string;
  pjob_provider_state : string;
  pjob_max_provider_calls : Z;
  pjob_max_render_calls : Z;
  pjob_max_cost_usd : usd;
  pjob_max_total_cost_usd : usd;
  pjob_max_attempts : Z;
  pjob_max_repair_cycles : Z;
  pjob_timeout_seconds : Z;
  pjob_deadline_at : option time;
  pjob_provider_calls_used : Z;
  pjob_render_calls_used : Z;
  pjob_repair_cycles_used : Z;
  pjob_actual_cost_usd : usd;
  pjob_retry_count : Z;
  pjob_last_error : option string;
  pjob_correlation_id : id;
  pjob_trace_id : option id;
  pjob_started_at : option time;
  pjob_completed_at : option time;
  pjob_test_data : bool;
  pjob_created_at : time;
  pjob_created_by : option id;
  pjob_updated_by : option id
}.
#[export] Instance pjob_settable : Settable ProductionJob := λ r,
    mk_pjob (pjob_workspace_id r) (pjob_content_package_id r) (pjob_content_item_id r)
    (pjob_content_version_id r) (pjob_pipeline_run_id r) (pjob_producer_worker_id r)
    (pjob_target_platform r) (pjob_target_format r) (pjob_target_duration_seconds r)
    (pjob_required_assets r) (pjob_provider_plan r) (pjob_status r) (pjob_provider_state r)
    (pjob_max_provider_calls r) (pjob_max_render_calls r) (pjob_max_cost_usd r)
    (pjob_max_total_cost_usd r) (pjob_max_attempts r) (pjob_max_repair_cycles r)
    (pjob_timeout_seconds r) (pjob_deadline_at r) (pjob_provider_calls_used r)
    (pjob_render_calls_used r) (pjob_repair_cycles_used r) (pjob_actual_cost_usd r)
    (pjob_retry_count r) (pjob_last_error r) (pjob_correlation_id r) (pjob_trace_id r)
    (pjob_started_at r) (pjob_completed_at r) (pjob_test_data r) (pjob_created_at r)
    (pjob_created_by r) (pjob_updated_by r).

(** [models/production.py] *)
Record ProductionAsset : Type := mk_past {
  past_workspace_id : id;
  past_production_job_id : id;
  past_asset_id : id;
  past_content_item_id : id;
  past_content_version_id : id;
  past_asset_type : string;
  past_provider : string;
  past_provider_job_id : option string;
  past_source_inputs : json;
  past_generation_settings : json;
  past_model_version : option string;
  past_file_hash : option string;
  past_duration_seconds : option Z;
  past_dimensions : json;
  past_cost_usd : usd;
  past_status : string;
  past_test_data : bool;
  past_created_at : time;
  past_created_by : option id
}.
#[export] Instance past_settable : Settable ProductionAsset := λ r,
    mk_past (past_workspace_id r) (past_production_job_id r) (past_asset_id r)
    (past_content_item_id r) (past_content_version_id r) (past_asset_type r) (past_provider r)
    (past_provider_job_id r) (past_source_inputs r) (past_generation_settings r)
    (past_model_version r) (past_file_hash r) (past_duration_seconds r) (past_dimensions r)
    (past_cost_usd r) (past_status r) (past_test_data r) (past_created_at r) (past_created_by r).

(** [models/production.py] *)
Record FinalArtifact : Type := mk_art {
  art_workspace_id : id;
  art_production_job_id : id;
  art_content_item_id : id;
  art_content_version_id : id;
  art_render_asset_id : option id;
  art_render_provider : string;
  art_render_job_id : option string;
  art_artifact_hash : string;
  art_storage_reference : json;
  art_duration_seconds : option Z;
  art_resolution : json;
  art_aspect_ratio : option string;
  art_container : option string;
  art_codec : option string;
  art_cost_usd : usd;
  art_status : string;
  art_test_data : bool;
  art_created_at : time;
  art_created_by : option id
}.
#[export] Instance art_settable : Settable FinalArtifact := λ r,
    mk_art (art_workspace_id r) (art_production_job_id r) (art_content_item_id r)
    (art_content_version_id r) (art_render_asset_id r) (art_render_provider r) (art_render_job_id
    r) (art_artifact_hash r) (art_storage_reference r) (art_duration_seconds r) (art_resolution r)
    (art_aspect_ratio r) (art_container r) (art_codec r) (art_cost_usd r) (art_status r)
    (art_test_data r) (art_created_at r) (art_created_by r).

(** [models/production.py] *)
Record MediaQaResult : Type := mk_mqa {
  mqa_workspace_id : id;
  mqa_final_artifact_id : id;
  mqa_artifact_hash : string;
  mqa_auditor_worker_id : string;
  mqa_status : string;
  mqa_checks_run : list string;
  mqa_visual_findings : list json;
  mqa_audio_findings : list json;
  mqa_subtitle_findings : list json;
  mqa_script_alignment : json;
  mqa_platform_check : json;
  mqa_package_alignment : json;
  mqa_evidence : list json;
  mqa_recommended_repair : list json;
  mqa_cost_usd : usd;
  mqa_started_at : option time;
  mqa_completed_at : option time;
  mqa_test_data : bool;
  mqa_created_at : time
}.
#[export] Instance mqa_settable : Settable MediaQaResult := λ r,
    mk_mqa (mqa_workspace_id r) (mqa_final_artifact_id r) (mqa_artifact_hash r)
    (mqa_auditor_worker_id r) (mqa_status r) (mqa_checks_run r) (mqa_visual_findings r)
    (mqa_audio_findings r) (mqa_subtitle_findings r) (mqa_script_alignment r) (mqa_platform_check
    r) (mqa_package_alignment r) (mqa_evidence r) (mqa_recommended_repair r) (mqa_cost_usd r)
    (mqa_started_at r) (mqa_completed_at r) (mqa_test_data r) (mqa_created_at r).

(** [models/production.py] *)
Record ProductionRepair : Type := mk_prep {
  prep_workspace_id : id;
  prep_production_job_id : id;
  prep_final_artifact_id : option id;
  prep_media_qa_result_id : option id;
  prep_affected_component : string;
  prep_finding_snapshot : json;
  prep_repair_operation : string;
  prep_repair_cycle : Z;
  prep_status : string;
  prep_cost_usd : usd;
  prep_provider_calls_used : Z;
  prep_result_references : json;
  prep_test_data : bool;
  prep_created_at : time;
  prep_created_by : option id
}.
#[export] Instance prep_settable : Settable ProductionRepair := λ r,
    mk_prep (prep_workspace_id r) (prep_production_job_id r) (prep_final_artifact_id r)
    (prep_media_qa_result_id r) (prep_affected_component r) (prep_finding_snapshot r)
    (prep_repair_operation r) (prep_repair_cycle r) (prep_status r) (prep_cost_usd r)
    (prep_provider_calls_used r) (prep_result_references r) (prep_test_data r) (prep_created_at r)
    (prep_created_by r).

(** [models/production.py] *)
Record ArtifactInvalidation : Type := mk_ainv {
  ainv_workspace_id : id;
  ainv_final_artifact_id : id;
  ainv_media_qa_result_id : option id;
  ainv_reason : string;
  ainv_affected_dimensions : list string;
  ainv_created_at : time;
  ainv_created_by : option id
}.
#[export] Instance ainv_settable : Settable ArtifactInvalidation := λ r,
    mk_ainv (ainv_workspace_id r) (ainv_final_artifact_id r) (ainv_media_qa_result_id r)
    (ainv_reason r) (ainv_affected_dimensions r) (ainv_created_at r) (ainv_created_by r).

(** [models/production.py] *)
Record ProductionReadiness : Type := mk_rdy {
  rdy_workspace_id : id;
  rdy_final_artifact_id : id;
  rdy_content_version_id : id;
  rdy_media_qa_state : string;
  rdy_compliance_state : string;
  rdy_chief_audit_state : string;
  rdy_human_review_state : string;
  rdy_status : string;
  rdy_blocking_reasons : list string;
  rdy_total_cost_usd : usd;
  rdy_test_data : bool;
  rdy_created_at : time;
  rdy_created_by : option id;
  rdy_updated_by : option id
}.
#[export] Instance rdy_settable : Settable ProductionReadiness := λ r,
    mk_rdy (rdy_workspace_id r) (rdy_final_artifact_id r) (rdy_content_version_id r)
    (rdy_media_qa_state r) (rdy_compliance_state r) (rdy_chief_audit_state r)
    (rdy_human_review_state r) (rdy_status r) (rdy_blocking_reasons r) (rdy_total_cost_usd r)
    (rdy_test_data r) (rdy_created_at r) (rdy_created_by r) (rdy_updated_by r).

(** [models/compliance.py] *)
Record ArtifactRightsEvidence : Type := mk_right {
  right_workspace_id : id;
  right_final_artifact_id : id;
  right_asset_id : option id;
  right_origin : string;
  right_provider_or_source : option string;
  right_license_or_right_basis : option string;
  right_generation_record : json;
  right_source_reference : option string;
  right_modification_lineage : json;
  right_rights_status : string;
  right_test_data : bool;
  right_created_at : time;
  right_created_by : option id
}.
#[export] Instance right_settable : Settable ArtifactRightsEvidence := λ r,
    mk_right (right_workspace_id r) (right_final_artifact_id r) (right_asset_id r) (right_origin
    r) (right_provider_or_source r) (right_license_or_right_basis r) (right_generation_record r)
    (right_source_reference r) (right_modification_lineage r) (right_rights_status r)
    (right_test_data r) (right_created_at r) (right_created_by r).

(** [models/compliance.py] *)
Record AuditGateManifest : Type := mk_man {
  man_workspace_id : id;
  man_content_type : string;
  man_manifest_version : Z;
  man_required_gates : list string;
  man_requirements : json;
  man_is_active : bool;
  man_test_data : bool;
  man_created_at : time;
  man_created_by : option id
}.
#[export] Instance man_settable : Settable AuditGateManifest := λ r,
    mk_man (man_workspace_id r) (man_content_type r) (man_manifest_version r) (man_required_gates
    r) (man_requirements r) (man_is_active r) (man_test_data r) (man_created_at r) (man_created_by
    r).

(** [models/compliance.py] *)
Record ComplianceAudit : Type := mk_comp {
  comp_workspace_id : id;
  comp_final_artifact_id : id;
  comp_artifact_hash : string;
  comp_content_version_id : id;
  comp_target_platform : string;
  comp_policy_source_id : option id;
  comp_policy_version : option string;
  comp_compliance_worker_id : string;
  comp_input_snapshot : json;
  comp_status : string;
  comp_risk_level : string;
  comp_findings : list json;
  comp_evidence : list json;
  comp_required_disclosures : list json;
  comp_rights_status : string;
  comp_reused_content_risk : string;
  comp_monetization_risk : string;
  comp_recommended_action : option string;
  comp_provider_state : string;
  comp_provider_calls_used : Z;
  comp_verification_calls_used : Z;
  comp_token_count : Z;
  comp_cost_usd : usd;
  comp_retry_history : list json;
  comp_started_at : option time;
  comp_completed_at : option time;
  comp_test_data : bool;
  comp_created_at : time
}.
#[export] Instance comp_settable : Settable ComplianceAudit := λ r,
    mk_comp (comp_workspace_id r) (comp_final_artifact_id r) (comp_artifact_hash r)
    (comp_content_version_id r) (comp_target_platform r) (comp_policy_source_id r)
    (comp_policy_version r) (comp_compliance_worker_id r) (comp_input_snapshot r) (comp_status r)
    (comp_risk_level r) (comp_findings r) (comp_evidence r) (comp_required_disclosures r)
    (comp_rights_status r) (comp_reused_content_risk r) (comp_monetization_risk r)
    (comp_recommended_action r) (comp_provider_state r) (comp_provider_calls_used r)
    (comp_verification_calls_used r) (comp_token_count r) (comp_cost_usd r) (comp_retry_history r)
    (comp_started_at r) (comp_completed_at r) (comp_test_data r) (comp_created_at r).

(** [models/compliance.py] *)
Record ComplianceInvalidation : Type := mk_compinv {
  compinv_workspace_id : id;
  compinv_compliance_audit_id : id;
  compinv_final_artifact_id : id;
  compinv_reason : string;
  compinv_affected_dimensions : list string;
  compinv_created_at : time;
  compinv_created_by : option id
}.
#[export] Instance compinv_settable : Settable ComplianceInvalidation := λ r,
    mk_compinv (compinv_workspace_id r) (compinv_compliance_audit_id r) (compinv_final_artifact_id
    r) (compinv_reason r) (compinv_affected_dimensions r) (compinv_created_at r)
    (compinv_created_by r).

(** [models/compliance.py] *)
Record ChiefAudit : Type := mk_chief {
  chief_workspace_id : id;
  chief_final_artifact_id : id;
  chief_artifact_hash : string;
  chief_content_version_id : id;
  chief_gate_manifest_id : id;
  chief_chief_auditor_worker_id : string;
  chief_gate_snapshot : json;
  chief_lineage_status : string;
  chief_version_integrity_status : string;
  chief_cost_reconciliation_status : string;
  chief_provider_reconciliation_status : string;
  chief_warnings : list string;
  chief_blockers : list string;
  chief_evidence : list json;
  chief_status : string;
  chief_cost_usd : usd;
  chief_retry_history : list json;
  chief_started_at : option time;
  chief_completed_at : option time;
  chief_test_data : bool;
  chief_created_at : time
}.
#[export] Instance chief_settable : Settable ChiefAudit := λ r,
    mk_chief (chief_workspace_id r) (chief_final_artifact_id r) (chief_artifact_hash r)
    (chief_content_version_id r) (chief_gate_manifest_id r) (chief_chief_auditor_worker_id r)
    (chief_gate_snapshot r) (chief_lineage_status r) (chief_version_integrity_status r)
    (chief_cost_reconciliation_status r) (chief_provider_reconciliation_status r) (chief_warnings
    r) (chief_blockers r) (chief_evidence r) (chief_status r) (chief_cost_usd r)
    (chief_retry_history r) (chief_started_at r) (chief_completed_at r) (chief_test_data r)
    (chief_created_at r).

(** [models/compliance.py] *)
Record HumanReviewPackage : Type := mk_hrp {
  hrp_workspace_id : id;
  hrp_final_artifact_id : id;
  hrp_artifact_hash : string;
  hrp_content_version_id : id;
  hrp_chief_audit_id : id;
  hrp_review_gate_id : option id;
  hrp_target_platform : string;
  hrp_package_snapshot : json;
  hrp_warnings : list string;
  hrp_required_disclosures : list json;
  hrp_total_cost_usd : usd;
  hrp_test_data : bool;
  hrp_created_at : time;
  hrp_created_by : option id
}.
#[export] Instance hrp_settable : Settable HumanReviewPackage := λ r,
    mk_hrp (hrp_workspace_id r) (hrp_final_artifact_id r) (hrp_artifact_hash r)
    (hrp_content_version_id r) (hrp_chief_audit_id r) (hrp_review_gate_id r) (hrp_target_platform
    r) (hrp_package_snapshot r) (hrp_warnings r) (hrp_required_disclosures r) (hrp_total_cost_usd
    r) (hrp_test_data r) (hrp_created_at r) (hrp_created_by r).

(** [models/compliance.py] *)
Record ArtifactPublicationEligibility : Type := mk_elig {
  elig_workspace_id : id;
  elig_final_artifact_id : id;
  elig_artifact_hash : string;
  elig_content_version_id : id;
  elig_target_platform : string;
  elig_chief_audit_id : option id;
  elig_review_gate_id : option id;
  elig_review_decision_id : option id;
  elig_status : string;
  elig_blocking_reasons : list string;
  elig_publication_eligible : bool;
  elig_test_data : bool;
  elig_created_at : time;
  elig_created_by : option id;
  elig_updated_by : option id
}.
#[export] Instance elig_settable : Settable ArtifactPublicationEligibility := λ r,
    mk_elig (elig_workspace_id r) (elig_final_artifact_id r) (elig_artifact_hash r)
    (elig_content_version_id r) (elig_target_platform r) (elig_chief_audit_id r)
    (elig_review_gate_id r) (elig_review_decision_id r) (elig_status r) (elig_blocking_reasons r)
    (elig_publication_eligible r) (elig_test_data r) (elig_created_at r) (elig_created_by r)
    (elig_updated_by r).

(** [models/profile.py] *)
Record Profile : Type := mk_profile {
  profile_email : string;
  profile_full_name : option string;
  profile_created_at : time
}.
#[export] Instance profile_settable : Settable Profile := λ r,
    mk_profile (profile_email r) (profile_full_name r) (profile_created_at r).

(** [models/workspace_membership.py] *)
Record WorkspaceMembership : Type := mk_mem {
  mem_workspace_id : id;
  mem_user_id : id;
  mem_role : WorkspaceRole;
  mem_created_at : time
}.
#[export] Instance mem_settable : Settable WorkspaceMembership := λ r,
    mk_mem (mem_workspace_id r) (mem_user_id r) (mem_role r) (mem_created_at r).

(** [models/local_auth.py] *)
Record LocalAuthCredential : Type := mk_cred {
  cred_email : string;
  cred_password_hash : string;
  cred_created_at : time;
  cred_failed_attempts : Z;
  cred_last_failed_at : option time;
  cred_locked_until : option time
}.
#[export] Instance cred_settable : Settable LocalAuthCredential := λ r,
    mk_cred (cred_email r) (cred_password_hash r) (cred_created_at r) (cred_failed_attempts r)
    (cred_last_failed_at r) (cred_locked_until r).

(** ** The tables *)

Record Studio : Type := mk_studio {
  st_world : World;
  st_research_runs : gmap id ResearchRun;
  st_research_sources : gmap id ResearchSource;
  st_opportunities : gmap id Opportunity;
  st_evidence : gmap id OpportunityEvidence;
  st_research_audits : gmap id ResearchAudit;
  st_research_schedules : gmap id ResearchSchedule;
  st_strategy_runs : gmap id StrategyRun;
  st_briefs : gmap id StrategyBrief;
  st_brief_links : gmap id StrategyBriefOpportunity;
  st_strategy_audits : gmap id StrategyAudit;
  st_strategy_schedules : gmap id StrategySchedule;
  st_content_profiles : gmap id WorkspaceContentProfile;
  st_content_runs : gmap id ContentDepartmentRun;
  st_directions : gmap id CreativeDirection;
  st_packages : gmap id ContentPackage;
  st_claims : gmap id ContentClaim;
  st_content_audits : gmap id ContentAudit;
  st_audit_invalidations : gmap id ContentAuditInvalidation;
  st_fingerprints : gmap id OriginalityFingerprint;
  st_production_jobs : gmap id ProductionJob;
  st_production_assets : gmap id ProductionAsset;
  st_artifacts : gmap id FinalArtifact;
  st_media_qa : gmap id MediaQaResult;
  st_repairs : gmap id ProductionRepair;
  st_artifact_invalidations : gmap id ArtifactInvalidation;
  st_readiness : gmap id ProductionReadiness;
  st_rights : gmap id ArtifactRightsEvidence;
  st_manifests : gmap id AuditGateManifest;
  st_compliance_audits : gmap id ComplianceAudit;
  st_compliance_invalidations : gmap id ComplianceInvalidation;
  st_chief_audits : gmap id ChiefAudit;
  st_review_packages : gmap id HumanReviewPackage;
  st_artifact_eligibility : gmap id ArtifactPublicationEligibility;
  st_profiles : gmap id Profile;
  st_memberships : gmap id WorkspaceMembership;
  st_credentials : gmap id LocalAuthCredential
}.
#[export] Instance studio_settable : Settable Studio := λ r,
    mk_studio (st_world r) (st_research_runs r) (st_research_sources r) (st_opportunities r)
    (st_evidence r) (st_research_audits r) (st_research_schedules r) (st_strategy_runs r)
    (st_briefs r) (st_brief_links r) (st_strategy_audits r) (st_strategy_schedules r)
    (st_content_profiles r) (st_content_runs r) (st_directions r) (st_packages r) (st_claims r)
    (st_content_audits r) (st_audit_invalidations r) (st_fingerprints r) (st_production_jobs r)
    (st_production_assets r) (st_artifacts r) (st_media_qa r) (st_repairs r)
    (st_artifact_invalidations r) (st_readiness r) (st_rights r) (st_manifests r)
    (st_compliance_audits r) (st_compliance_invalidations r) (st_chief_audits r)
    (st_review_packages r) (st_artifact_eligibility r) (st_profiles r) (st_memberships r)
    (st_credentials r).

Definition empty_studio (w : World) : Studio :=
    mk_studio w ∅ ∅ ∅ ∅ ∅ ∅ ∅ ∅ ∅ ∅ ∅ ∅ ∅ ∅ ∅ ∅ ∅ ∅ ∅ ∅ ∅ ∅ ∅ ∅ ∅ ∅ ∅ ∅ ∅ ∅ ∅ ∅ ∅ ∅ ∅ ∅.

Abbreviation SM := (ST Studio exn).

(** an engine operation on the shared tables *)
Definition on_world {A} (m : M A) : SM A := λ s,
  let '(r, w) := m (st_world s) in (r, s <| st_world := w |>).

(** ** Queries without a total order

    [.scalars().first()] on a [SELECT] without [ORDER BY], or with an order
    that leaves ties, answers one of the rows the order allows: which one is
    the database's choice. *)
Class Unordered := {
  first_row : ∀ {A : Type}, list A → option A;
  first_row_in : ∀ (A : Type) (l : list A) x, first_row l = Some x → x ∈ l;
  first_row_none : ∀ (A : Type) (l : list A), first_row l = None → l = []
}.

(** the database that answers the first row it finds *)
Definition head_first : Unordered.
Proof.
  refine {| first_row := λ A l, head l |}.
  - intros A [|y l] x; simpl; [done|]. intros [= ->]. by left.
  - by intros A [].
Defined.

Section Queries.
Context `{Unordered}.

(** [.order_by(key.desc()).limit(1)] *)
Definition latest_by {A} (key : A → time) (l : list A) : option A :=
  first_row (filter (λ x, forallb (λ y, key y <=? key x) l = true) l).

Lemma latest_by_in {A} (key : A → time) l x :
  latest_by key l = Some x → x ∈ l ∧ ∀ y, y ∈ l → key y ≤ key x.
Proof.
  intros Hx%first_row_in%list_elem_of_filter. destruct Hx as [Hx Hin]. split; [done|].
  intros y Hy. rewrite forallb_forall in Hx. apply Z.leb_le, Hx. by apply list_elem_of_In.
Qed.

Lemma latest_by_none {A} (key : A → time) l : latest_by key l = None → l = [].
Proof.
  intros Hn%first_row_none. destruct l as [|x l]; [done|exfalso].
  assert (Hm : ∃ m, m ∈ x :: l ∧ ∀ y, y ∈ x :: l → key y ≤ key m).
  { clear Hn. revert x. induction l as [|y l IH]; intros x.
    - exists x. split; [by left|]. intros z [->|[]%not_elem_of_nil]%elem_of_cons. lia.
    - destruct (IH y) as (m & Hm & Hmax). destruct (Z.le_gt_cases (key m) (key x)).
      + exists x. split; [by left|]. intros z [->|Hz]%elem_of_cons; [lia|].
        specialize (Hmax z Hz). lia.
      + exists m. split; [by right|]. intros z [->|Hz]%elem_of_cons; [lia|]. by apply Hmax. }
  destruct Hm as (m & Hin & Hmax).
  assert (m ∈ filter (λ a, forallb (λ b, key b <=? key a) (x :: l) = true) (x :: l)) as Hm.
  { apply list_elem_of_filter. split; [|done]. apply forallb_forall.
    intros y Hy%list_elem_of_In. by apply Z.leb_le, Hmax. }
  rewrite Hn in Hm. by apply not_elem_of_nil in Hm.
Qed.
End Queries.

(** [row.workspace_id == workspace_id] and [row.deleted_at is None] *)
Definition in_workspace (workspace_id row_workspace : id) : bool :=
  bool_decide (row_workspace = workspace_id).
Lemma in_workspace_true ws ws' : in_workspace ws ws' = true ↔ ws' = ws.
Proof. unfold in_workspace. by rewrite bool_decide_eq_true. Qed.
Definition live {A} (deleted_at : option A) : bool :=
  match deleted_at with None => true | Some _ => false end.

(** rows newest first *)
Definition desc_by {A} (key : A → time) : list A → list A := order_by (λ x y, key y <=? key x).

(** [session.add(row); session.flush()] under a unique constraint *)
Definition insert_unique {A} (t : Studio → gmap id A) `{!Setter t} (constraint : string)
    (same : A → A → bool) (i : id) (x : A) : SM unit :=
  clash ← select t (λ _, same x);
  match clash with
  | [] => insert_row t i x
  | _ => raise (IntegrityError constraint)
  end.

Section StudioFrames.
Context (R : relation Studio) `{!PreOrder R}.

Lemma keeps_insert_unique {A} (t : Studio → gmap id A) `{!Setter t, !Closed t R} c same i x :
  keeps R (insert_unique t c same i x).
Proof. unfold insert_unique. keeps_tac. Qed.
End StudioFrames.

(** A relation on the studio that the shared tables do not matter to. *)
Lemma keeps_on_world {A} (R : relation Studio) `{!PreOrder R, !Closed st_world R} (m : M A) :
  keeps R (on_world m).
Proof.
  intros s. unfold on_world. destruct (m (st_world s)) as [r w].
  apply (closed (p := st_world) (R := R) s (λ _, w)).
Qed.
#[export] Hint Resolve keeps_insert_unique keeps_on_world : keeps.

Lemma run_on_world {A} (m : M A) s r w :
  m (st_world s) = (r, w) → on_world m s = (r, s <| st_world := w |>).
Proof. intros Hm. unfold on_world. by rewrite Hm. Qed.
