(* ===== verification/Research.v ===== *)
(** * Scout research and the Research Auditor (services/research.py)

    A research run records its sources and proposes an opportunity; the
    auditor judges the stored sources, never the scout's conclusion; the
    strategist gate lets an opportunity through when its latest audit passed.
    The digest is a parameter, and so are the text of a JSON value that is no
    string, the IPv6 addresses and the environment the process runs in. *)

From S2P Require Import Prelude Models Database Outbox Spend Text Decimal PyJson Regex Url StudioModels.

Definition MAX_FIXTURE_EXCERPT : nat := Z.to_nat 6000.

Section Sources.
Context (ip6 : string → option bool).

Definition _canonical_url (value : string) : result exn string :=
parsed ← urlsplit ip6 (strip value);
if negb (bool_decide (url_scheme parsed ∈ ["http"; "https"])) ||
   String.eqb (url_hostname parsed) EmptyString || url_credentials parsed
then Raise (ValueError "source URL must be a public http(s) URL without embedded credentials")
else
  let host := rstrip_char "." (lower (url_hostname parsed)) in
  if bool_decide (host ∈ ["localhost"; "localhost.localdomain"])
  then Raise (ValueError "private or localhost source URL is not permitted")
  else
    match address_local ip6 host with
    | Some true => Raise (ValueError "private or local source URL is not permitted")
    | _ =>
        let path := rstrip_char "/" (url_path parsed) in
        let path := if String.eqb path EmptyString then "/" else path in
        Ok (urlunsplit (lower (url_scheme parsed)) host path (url_query parsed))
    end.
End Sources.

Definition _safe_excerpt (value : option string) : option string * option string :=
match value with
| None => (None, None)
| Some value =>
    let bounded := String.substring 0 MAX_FIXTURE_EXCERPT (strip value) in
    if search _UNTRUSTED_INSTRUCTION bounded
    then (None, Some "untrusted instruction pattern detected")
    else (Some (sub _SECRET_PATTERN "[REDACTED_SECRET]" bounded), None)
end.

(** [sorted] of strings *)
Definition sorted_strings : list string → list string :=
order_by (λ a b, match String.compare a b with Gt => false | _ => true end).

Definition dedupe_material (topic angle : string) (platform format_name : string)
  (source_urls : list string) : string :=
join newline
  ([lower (strip topic); lower (strip angle); lower (strip platform); lower (strip format_name)] ++
   sorted_strings source_urls).
Definition _dedupe_key (sha256 : string → string) (topic angle platform format_name : string)
  (source_urls : list string) : string :=
sha256 (dedupe_material topic angle platform format_name source_urls).

Definition _run_is_terminal (status : string) : bool :=
bool_decide (status ∈ ["succeeded"; "provider_not_configured"; "budget_exhausted"; "timeout";
                       "source_limit_reached"; "failed"; "cancelled"]).

Definition _emit_run (run_id : id) (run : ResearchRun) (event_type : string) (payload : json) :
  SM unit :=
on_world (emit event_type (rrun_workspace_id run) "research_run" run_id
            (rrun_correlation_id run) (rrun_trace_id run) None payload "scout-service" None 1);;
mret tt.

(** ** Queries *)

Definition list_runs (workspace_id : id) (limit : nat) : SM (list (id * ResearchRun)) :=
l ← select st_research_runs (λ _ r, in_workspace workspace_id (rrun_workspace_id r));
mret (take limit (desc_by (λ p, rrun_created_at p.2) l)).

Definition get_run (workspace_id run_id : id) : SM (option (id * ResearchRun)) :=
r ← session_get st_research_runs run_id;
mret (match r with
      | Some r => if in_workspace workspace_id (rrun_workspace_id r) then Some (run_id, r) else None
      | None => None
      end).

Definition list_opportunities (workspace_id : id) (limit : nat) : SM (list (id * Opportunity)) :=
l ← select st_opportunities
      (λ _ o, in_workspace workspace_id (opp_workspace_id o) && live (opp_deleted_at o));
mret (take limit (desc_by (λ p, opp_discovered_at p.2) l)).

Definition get_opportunity (workspace_id opportunity_id : id) : SM (option Opportunity) :=
o ← session_get st_opportunities opportunity_id;
mret (match o with
      | Some o =>
          if in_workspace workspace_id (opp_workspace_id o) && live (opp_deleted_at o)
          then Some o else None
      | None => None
      end).

(** the join on the sources, newest retrieval first *)
Definition opportunity_evidence (workspace_id opportunity_id : id) :
  SM (list (OpportunityEvidence * (id * ResearchSource))) :=
links ← select st_evidence (λ _ e,
  in_workspace workspace_id (evi_workspace_id e) &&
  bool_decide (evi_opportunity_id e = opportunity_id));
sources ← gets st_research_sources;
mret (desc_by (λ p, src_retrieved_at p.2.2)
  (omap (λ p, match sources !! evi_source_id p.2 with
              | Some s => if in_workspace workspace_id (src_workspace_id s)
                          then Some (p.2, (evi_source_id p.2, s)) else None
              | None => None
              end) links)).

(** ** The rollup of the research page *)

Record ResearchSummary : Type := mk_research_summary {
  rs_status : string;
  rs_current_research : option (id * ResearchRun);
  rs_last_run : option (id * ResearchRun);
  rs_next_run_at : option time;
  rs_opportunities_found : Z;
  rs_audited_opportunities : Z;
  rs_blocked_findings : Z;
  rs_cost_today_usd : usd;
  rs_last_error : option string;
  rs_schedule_enabled : bool
}.

Definition or_else {A} (a b : option A) : option A :=
match a with Some _ => a | None => b end.

Definition summary (workspace_id : id) : SM ResearchSummary :=
runs ← list_runs workspace_id 2;
let current := head (filter (λ p, _run_is_terminal (rrun_status p.2) = false) runs) in
let last := head runs in
let mine o := in_workspace workspace_id (opp_workspace_id o) && live (opp_deleted_at o) in
found ← select_count st_opportunities (λ _ o, mine o);
audited ← select_count st_opportunities
            (λ _ o, mine o && negb (String.eqb (opp_audit_gate_status o) "not_run"));
blocked ← select_count st_opportunities
            (λ _ o, mine o && String.eqb (opp_audit_gate_status o) "blocked");
schedules ← select st_research_schedules (λ _ s, in_workspace workspace_id (rsch_workspace_id s));
schedule ← scalar_one_or_none schedules;
t ← on_world now;
cost ← select_sum st_research_runs (λ _ r,
  if in_workspace workspace_id (rrun_workspace_id r) && (utc_day_start t <=? rrun_created_at r)
  then rrun_actual_cost_usd r else 0);
let enabled := match schedule with Some (_, s) => rsch_enabled s | None => false end in
mret (mk_research_summary
  (match or_else current last with Some (_, r) => rrun_status r | None => "not_run" end)
  current last
  (match schedule with Some (_, s) => if rsch_enabled s then rsch_next_run_at s else None | None => None end)
  found audited blocked cost
  (match or_else current last with
   | Some (_, r) => rrun_last_error r | None => Some "RESEARCH PROVIDER NOT CONFIGURED" end)
  enabled).

Section Auditing.
Context `{Unordered}.

Definition audits_of (workspace_id opportunity_id : id) (_ : id) (a : ResearchAudit) : bool :=
in_workspace workspace_id (raud_workspace_id a) &&
bool_decide (raud_opportunity_id a = opportunity_id).

Definition latest_audit (workspace_id opportunity_id : id) : SM (option ResearchAudit) :=
l ← select st_research_audits (audits_of workspace_id opportunity_id);
mret (snd <$> latest_by (λ p, raud_checked_at p.2) l).

(** ** Manual runs *)

Record ResearchRunCreate : Type := mk_research_run_create {
  rc_research_objective : string;
  rc_permitted_sources : list string;
  rc_max_searches : Z;
  rc_max_provider_calls : Z;
  rc_max_tokens : Z;
  rc_max_cost_usd : usd;
  rc_max_attempts : Z
}.

(** [session.add(run); session.flush()], answering the row's key *)
Definition add_run (run : id → time → ResearchRun) : SM (id * ResearchRun) :=
run_id ← on_world uuid4;
correlation_id ← on_world uuid4;
t ← on_world now;
let row := run correlation_id t in
insert_row st_research_runs run_id row;;
on_world flush;;
mret (run_id, row).

Definition create_manual_run (workspace_id actor_id : id) (payload : ResearchRunCreate) :
  SM (id * ResearchRun) :=
p ← add_run (λ correlation_id t,
  {| rrun_workspace_id := workspace_id;
     rrun_trigger := "manual";
     rrun_research_objective := strip (rc_research_objective payload);
     rrun_permitted_sources := rc_permitted_sources payload;
     rrun_started_at := t;
     rrun_deadline := t + seconds (15 * 60);
     rrun_max_searches := rc_max_searches payload;
     rrun_max_provider_calls := rc_max_provider_calls payload;
     rrun_max_tokens := rc_max_tokens payload;
     rrun_max_cost_usd := rc_max_cost_usd payload;
     rrun_max_attempts := rc_max_attempts payload;
     rrun_status := "provider_not_configured";
     rrun_provider_state := "not_configured";
     rrun_searches_used := 0;
     rrun_provider_calls_used := 0;
     rrun_tokens_used := 0;
     rrun_reserved_cost_usd := 0;
     rrun_actual_cost_usd := 0;
     rrun_opportunity_count := 0;
     rrun_audited_opportunity_count := 0;
     rrun_blocked_opportunity_count := 0;
     rrun_last_error := Some "RESEARCH PROVIDER NOT CONFIGURED";
     rrun_correlation_id := correlation_id;
     rrun_trace_id := None;
     rrun_test_data := false;
     rrun_created_at := t;
     rrun_created_by := Some actor_id;
     rrun_updated_by := Some actor_id |});
let '(run_id, run) := p in
_emit_run run_id run "research.started"
  (JObj [("trigger", JStr "manual");
         ("limits", JObj [("max_searches", int_json (rrun_max_searches run));
                          ("max_provider_calls", int_json (rrun_max_provider_calls run));
                          ("max_tokens", int_json (rrun_max_tokens run));
                          ("max_cost_usd", usd_json (rrun_max_cost_usd run));
                          ("max_attempts", int_json (rrun_max_attempts run))])]);;
_emit_run run_id run "research.provider_not_configured"
  (JObj [("detail", JStr "No external research provider is configured in the Founder Preview.")]);;
mret p.

(** ** The test-only persistence path *)

Section Fixture.
Context (ip6 : string → option bool) (sha256 : string → string) (json_text : json → string).
Context (environment : string).

(** [str(v)] *)
Definition py_str (v : json) : string := match v with JStr s => s | _ => json_text v end.

(** [item.get("excerpt")], on which a string method is called *)
Definition excerpt_arg (v : json) : result exn (option string) :=
match v with
| JNull => Ok None
| JStr s => Ok (Some s)
| _ => Raise AttributeError
end.

(** [a or b] of strings *)
Definition or_str (a : option string) (b : string) : string :=
match a with Some s => if String.eqb s EmptyString then b else s | None => b end.

Definition same_source (a b : ResearchSource) : bool :=
bool_decide (src_workspace_id a = src_workspace_id b) &&
bool_decide (src_research_run_id a = src_research_run_id b) &&
String.eqb (src_canonical_url a) (src_canonical_url b).

(** one step of the loop over the fixture's sources: the source, when it was accepted *)
Definition record_source (run_id : id) (run : ResearchRun) (t : time) (item : pydict) :
  SM (list (id * ResearchSource)) :=
match _canonical_url ip6 (py_str (dict_get item "url" (JStr EmptyString))) with
| Raise (ValueError reason) =>
    _emit_run run_id run "research.source_rejected"
      (JObj [("reason", JStr reason); ("test_data", JBool true)]);;
    mret []
| Raise e => raise e
| Ok url =>
    excerpt_value ← lift_result (excerpt_arg (dict_get item "excerpt" JNull));
    let '(excerpt, rejection_reason) := _safe_excerpt excerpt_value in
    published_at ← lift_result (integer_column (dict_get item "published_at" JNull));
    publisher ← lift_result (text_column (dict_get item "publisher" JNull));
    author ← lift_result (text_column (dict_get item "author" JNull));
    claim_supported ← lift_result (text_column (dict_get item "claim_supported" JNull));
    confidence ← lift_result (py_decimal (dict_get item "confidence" (JStr "0.50")));
    source_id ← on_world uuid4;
    let source :=
      {| src_workspace_id := rrun_workspace_id run;
         src_research_run_id := run_id;
         src_canonical_url := url;
         src_source_type := py_str (dict_get item "source_type" (JStr "fixture"));
         src_retrieved_at := t;
         src_published_at := published_at;
         src_publisher := publisher;
         src_author := author;
         src_claim_supported := claim_supported;
         src_freshness := py_str (dict_get item "freshness" (JStr "test"));
         src_confidence := confidence;
         src_content_digest := sha256 (or_str excerpt (or_str rejection_reason url));
         src_safe_excerpt := excerpt;
         src_handling_state := match rejection_reason with Some _ => "rejected" | None => "accepted" end;
         src_rejection_reason := rejection_reason;
         src_test_data := true;
         src_created_at := t |} in
    insert_unique st_research_sources "uq_research_source_run_url" same_source source_id source;;
    on_world flush;;
    match rejection_reason with
    | Some reason =>
        _emit_run run_id run "research.source_rejected"
          (JObj [("source_id", JStr (uuid_str source_id)); ("reason", JStr reason);
                 ("test_data", JBool true)]);;
        mret []
    | None =>
        _emit_run run_id run "research.source_recorded"
          (JObj [("source_id", JStr (uuid_str source_id)); ("test_data", JBool true)]);;
        mret [(source_id, source)]
    end
end.

Definition same_dedupe (a b : Opportunity) : bool :=
bool_decide (opp_workspace_id a = opp_workspace_id b) &&
String.eqb (opp_dedupe_key a) (opp_dedupe_key b).
Definition same_evidence (a b : OpportunityEvidence) : bool :=
bool_decide (evi_workspace_id a = evi_workspace_id b) &&
bool_decide (evi_opportunity_id a = evi_opportunity_id b) &&
bool_decide (evi_source_id a = evi_source_id b).

(** the opportunity the accepted sources support, found by its key or created *)
Definition propose_opportunity (run_id workspace_id actor_id : id) (t : time) (fixture : pydict)
  (accepted : list (id * ResearchSource)) : SM (id * Opportunity * bool) :=
topic ← lift_result (dict_item fixture "topic");
angle ← lift_result (dict_item fixture "proposed_angle");
let topic := strip (py_str topic) in
let angle := strip (py_str angle) in
let platform := dict_get fixture "target_platform" JNull in
let format_name := dict_get fixture "suggested_format" JNull in
platform_text ← lift_result (str_or_empty platform);
format_text ← lift_result (str_or_empty format_name);
let key := _dedupe_key sha256 topic angle platform_text format_text
             (map (λ p, src_canonical_url p.2) accepted) in
found ← select st_opportunities (λ _ o, in_workspace workspace_id (opp_workspace_id o) &&
  String.eqb (opp_dedupe_key o) key && live (opp_deleted_at o));
existing ← scalar_one_or_none found;
match existing with
| Some (opportunity_id, o) =>
    modify st_opportunities opportunity_id
      (λ o, o <| opp_source_count ::= Z.add (Z.of_nat (length accepted)) |>
              <| opp_updated_by := Some actor_id |>);;
    mret (opportunity_id, o, false)
| None =>
    title ← lift_result (dict_item fixture "title");
    summary ← lift_result (dict_item fixture "summary");
    target_audience ← lift_result (text_column (dict_get fixture "target_audience" JNull));
    target_platform ← lift_result (text_column platform);
    suggested_format ← lift_result (text_column format_name);
    confidence ← lift_result (py_decimal (dict_get fixture "confidence" (JStr "0.50")));
    component_scores ← lift_result (py_dict (dict_get fixture "component_scores" (JObj [])));
    score_reasoning ← lift_result (py_dict (dict_get fixture "score_reasoning" (JObj [])));
    opportunity_id ← on_world uuid4;
    let o :=
      {| opp_workspace_id := workspace_id;
         opp_research_run_id := run_id;
         opp_title := strip (py_str title);
         opp_topic := topic;
         opp_summary := strip (py_str summary);
         opp_proposed_angle := angle;
         opp_target_audience := target_audience;
         opp_target_platform := target_platform;
         opp_suggested_format := suggested_format;
         opp_discovered_at := t;
         opp_freshness := py_str (dict_get fixture "freshness" (JStr "test"));
         opp_source_count := Z.of_nat (length accepted);
         opp_confidence := confidence;
         opp_risk := py_str (dict_get fixture "risk" (JStr "low"));
         opp_status := "active";
         opp_created_by_worker := "scout_fixture";
         opp_component_scores := component_scores;
         opp_score_reasoning := score_reasoning;
         opp_dedupe_key := key;
         opp_audit_gate_status := "not_run";
         opp_performance_data_state := "no_performance_data";
         opp_strategist_state := "not_sent";
         opp_test_data := true;
         opp_created_at := t;
         opp_created_by := Some actor_id;
         opp_updated_by := Some actor_id;
         opp_deleted_at := None |} in
    insert_unique st_opportunities "uq_opportunities_workspace_dedupe" same_dedupe
      opportunity_id o;;
    on_world flush;;
    mret (opportunity_id, o, true)
end.

Definition link_source (workspace_id opportunity_id : id) (o : Opportunity) (t : time)
  (p : id * ResearchSource) : SM unit :=
link_id ← on_world uuid4;
insert_unique st_evidence "uq_opportunity_evidence_link" same_evidence link_id
  {| evi_workspace_id := workspace_id;
     evi_opportunity_id := opportunity_id;
     evi_source_id := p.1;
     evi_claim_supported := or_str (src_claim_supported p.2) (opp_summary o);
     evi_relevance := Finite 80 (-2);
     evi_contradiction_flag := false;
     evi_created_at := t |}.

Definition record_fixture_run (workspace_id actor_id : id) (objective : string)
  (fixture_sources : list pydict) (fixture_opportunity : pydict) : SM (id * option id) :=
if negb (String.eqb environment "test")
then raise (RuntimeError "fixture research execution is test-only") else
t ← on_world now;
let max_searches := Z.max 1 (Z.of_nat (length fixture_sources)) in
p ← add_run (λ correlation_id t,
  {| rrun_workspace_id := workspace_id;
     rrun_trigger := "manual_test_fixture";
     rrun_research_objective := objective;
     rrun_permitted_sources :=
       map (λ s, py_str (dict_get s "url" (JStr EmptyString))) fixture_sources;
     rrun_started_at := t;
     rrun_deadline := t + seconds (5 * 60);
     rrun_max_searches := max_searches;
     rrun_max_provider_calls := 0;
     rrun_max_tokens := 0;
     rrun_max_cost_usd := 0;
     rrun_max_attempts := 1;
     rrun_status := "running";
     rrun_provider_state := "fixture_test_only";
     rrun_searches_used := 0;
     rrun_provider_calls_used := 0;
     rrun_tokens_used := 0;
     rrun_reserved_cost_usd := 0;
     rrun_actual_cost_usd := 0;
     rrun_opportunity_count := 0;
     rrun_audited_opportunity_count := 0;
     rrun_blocked_opportunity_count := 0;
     rrun_last_error := None;
     rrun_correlation_id := correlation_id;
     rrun_trace_id := None;
     rrun_test_data := true;
     rrun_created_at := t;
     rrun_created_by := Some actor_id;
     rrun_updated_by := Some actor_id |});
let '(run_id, run) := p in
_emit_run run_id run "research.started"
  (JObj [("trigger", JStr "manual_test_fixture"); ("test_data", JBool true)]);;
found ← collect (take (Z.to_nat max_searches) fixture_sources) (record_source run_id run t);
let accepted := concat found in
modify st_research_runs run_id
  (λ r, r <| rrun_searches_used := Z.of_nat (length fixture_sources) |>);;
match accepted with
| [] =>
    modify st_research_runs run_id
      (λ r, r <| rrun_status := "failed" |>
              <| rrun_last_error := Some "No safe evidence sources were accepted" |>);;
    _emit_run run_id run "research.failed"
      (JObj [("reason", JStr "No safe evidence sources were accepted"); ("test_data", JBool true)]);;
    mret (run_id, None)
| _ =>
    proposed ← propose_opportunity run_id workspace_id actor_id t fixture_opportunity accepted;
    let '(opportunity_id, o, created) := (proposed : id * Opportunity * bool) in
    for_each accepted (link_source workspace_id opportunity_id o t);;
    on_world flush;;
    let payload := JObj [("opportunity_id", JStr (uuid_str opportunity_id));
                         ("test_data", JBool true)] in
    _emit_run run_id run
      (if created then "opportunity.created" else "opportunity.duplicate_detected") payload;;
    modify st_research_runs run_id
      (λ r, r <| rrun_opportunity_count := if created then 1 else 0 |>
              <| rrun_status := "succeeded" |>);;
    _emit_run run_id run "research.completed" payload;;
    mret (run_id, Some opportunity_id)
end.
End Fixture.

(** ** The auditor *)

Record audit_verdict : Type := mk_verdict {
  verdict_state : string;
  verdict_findings : list json;
  verdict_warnings : list string;
  verdict_blocked : list string
}.

Definition has_duplicates (l : list string) : bool :=
negb (bool_decide (length (remove_dups l) = length l)).

(** [a string of a set, truthy] *)
Definition is_truthy_str (s : option string) : bool :=
match s with Some s => negb (String.eqb s EmptyString) | None => false end.

(** the judgement over the stored sources *)
Definition audit_sources (sources : list (id * ResearchSource)) : audit_verdict :=
let accepted := filter (λ p, String.eqb (src_handling_state p.2) "accepted" = true) sources in
let rejected := filter (λ p, String.eqb (src_handling_state p.2) "rejected" = true) sources in
let blocked :=
  (match accepted with
   | [] => ["No accepted source provenance supports this opportunity."] | _ => [] end) ++
  (match rejected with
   | [] => [] | _ => ["At least one source was rejected as unsafe or unverified."] end) ++
  (if has_duplicates (map (λ p, src_content_digest p.2) accepted)
   then ["Duplicate source content detected."] else []) in
let clear := match blocked with [] => true | _ => false end in
let warnings :=
  (if bool_decide (length accepted = 1%nat) && clear
   then ["Only one independent accepted source is available."] else []) ++
  (if existsb (λ p, bool_decide (src_freshness p.2 ∈ ["stale"; "unknown"])) accepted && clear
   then ["At least one accepted source has stale or unknown freshness."] else []) in
let findings := map (λ p,
  JObj [("source_id", JStr (uuid_str p.1));
        ("legitimacy", JStr "accepted_provenance");
        ("freshness", JStr (src_freshness p.2));
        ("claim_support",
         JStr (if is_truthy_str (src_claim_supported p.2) then "present" else "missing"))]) accepted in
let state := match blocked, warnings with
             | _ :: _, _ => "blocked"
             | [], _ :: _ => "pass_with_warning"
             | [], [] => "pass"
             end in
mk_verdict state findings warnings blocked.

Definition audit_opportunity (workspace_id opportunity_id : id) : SM (id * ResearchAudit) :=
o ← get_opportunity workspace_id opportunity_id;
match o with
| None => raise (LookupError "opportunity not found")
| Some o =>
    evidence ← opportunity_evidence workspace_id opportunity_id;
    let verdict := audit_sources (map snd evidence) in
    let state := verdict_state verdict in
    audit_id ← on_world uuid4;
    t ← on_world now;
    let audit :=
      {| raud_workspace_id := workspace_id;
         raud_opportunity_id := opportunity_id;
         raud_research_run_id := opp_research_run_id o;
         raud_state := state;
         raud_evaluator_context_version := "research-auditor-v1";
         raud_scout_snapshot :=
           JObj [("title", JStr (opp_title o)); ("topic", JStr (opp_topic o));
                 ("summary", JStr (opp_summary o)); ("proposed_angle", JStr (opp_proposed_angle o));
                 ("source_count", int_json (opp_source_count o));
                 ("component_scores", opp_component_scores o)];
         raud_findings := verdict_findings verdict;
         raud_warnings := verdict_warnings verdict;
         raud_blocked_reasons := verdict_blocked verdict;
         raud_checked_at := t;
         raud_test_data := opp_test_data o;
         raud_created_at := t |} in
    insert_row st_research_audits audit_id audit;;
    modify st_opportunities opportunity_id (λ o, o <| opp_audit_gate_status := state |>);;
    when (String.eqb state "blocked")
      (modify st_opportunities opportunity_id (λ o, o <| opp_status := "blocked" |>));;
    run ← get_run workspace_id (opp_research_run_id o);
    match run with
    | None => on_world flush
    | Some (run_id, run) =>
        modify st_research_runs run_id (λ r, r <| rrun_audited_opportunity_count ::= Z.add 1 |>);;
        when (String.eqb state "blocked")
          (modify st_research_runs run_id (λ r, r <| rrun_blocked_opportunity_count ::= Z.add 1 |>));;
        on_world flush;;
        _emit_run run_id run ("research.audit." +:+ state)
          (JObj [("opportunity_id", JStr (uuid_str opportunity_id));
                 ("audit_id", JStr (uuid_str audit_id));
                 ("test_data", JBool (opp_test_data o))])
    end;;
    mret (audit_id, audit)
end.

(** ** The gate before the strategist *)

Definition strategist_gate (workspace_id opportunity_id : id) : SM unit :=
o ← get_opportunity workspace_id opportunity_id;
match o with
| None => raise (LookupError "opportunity not found")
| Some o =>
    audit ← latest_audit workspace_id opportunity_id;
    let audit_state := match audit with Some a => raud_state a | None => "not_run" end in
    if negb (String.eqb audit_state "pass") then
      run ← get_run workspace_id (opp_research_run_id o);
      match run with
      | Some (run_id, run) =>
          _emit_run run_id run "opportunity.strategist_denied"
            (JObj [("opportunity_id", JStr (uuid_str opportunity_id));
                   ("audit_state", JStr audit_state)])
      | None => mret tt
      end;;
      raise (ResearchGateError
        "Independent Research Auditor PASS is required before Strategist eligibility.")
    else
      modify st_opportunities opportunity_id (λ o, o <| opp_strategist_state := "eligible" |>);;
      run ← get_run workspace_id (opp_research_run_id o);
      match run with
      | Some (run_id, run) =>
          _emit_run run_id run "opportunity.strategist_eligible"
            (JObj [("opportunity_id", JStr (uuid_str opportunity_id))])
      | None => mret tt
      end
end.
End Auditing.
