(* ===== verification/DataGovernance.v ===== *)
(** * Export and deletion of a workspace's data

    services/data_governance.py and the two routes of
    routes/data_governance.py, as statements of a request on the database of
    the migrations, under its row-level security. *)

From S2P Require Import Prelude Schema RowSecurity.
From S2P Require Research.

(** ** The classification *)

Definition EXPORT_DENYLIST : list string :=
  ["provider_credentials"; "worker_credentials"; "local_auth_credentials";
   "billing_webhook_events"; "outbox_events"; "event_consumers"; "consumer_checkpoints";
   "provider_effect_keys"].
Definition EXPORTABLE_TABLES : list string :=
  ["workspaces"; "workspace_memberships"; "content_pillars"; "content_items";
   "content_versions"; "content_lineage"; "pipeline_runs"; "pipeline_stage_runs";
   "review_gates"; "review_decisions"; "publication_eligibility"; "assets"; "publish_jobs";
   "analytics_snapshots"; "provider_usage"; "spend_caps"; "spend_logs"; "spend_reservations";
   "workspace_billing"; "workspace_content_profiles"; "job_schedule";
   "workspace_concurrency_limits"; "provider_concurrency_budgets";
   "workspace_backpressure_state"; "stage_assignments"; "stage_claim_audit";
   "stage_recovery_audit"; "worker_registry"; "worker_logs"; "dead_letter_jobs";
   "webhook_events"; "workflow_definitions"; "workflow_stages"; "workflow_transitions";
   "leads"; "research_runs"; "research_sources"; "opportunities"; "opportunity_evidence";
   "research_audits"; "research_schedules"; "strategy_runs"; "strategy_briefs";
   "strategy_brief_opportunities"; "strategy_audits"; "strategy_schedules";
   "content_department_runs"; "creative_directions"; "content_packages"; "content_claims";
   "content_audits"; "content_audit_invalidations"; "originality_fingerprints";
   "production_jobs"; "production_assets"; "final_artifacts"; "media_qa_results";
   "production_repairs"; "artifact_invalidations"; "production_readiness";
   "platform_policy_sources"; "artifact_rights_evidence"; "audit_gate_manifests";
   "compliance_audits"; "compliance_invalidations"; "chief_audits";
   "chief_audit_invalidations"; "human_review_packages"; "artifact_publication_eligibility"].
Definition STRUCTURALLY_UNEXPORTABLE_TABLES : list string :=
  ["worker_heartbeats"].
Definition SOFT_DELETABLE_TABLES : list string :=
  ["publish_jobs"; "assets"; "content_items"; "content_pillars"].
Definition HARD_DELETABLE_TABLES : list string :=
  ["publication_eligibility"; "leads"; "job_schedule"].
Definition DELETABLE_TABLES : list string := SOFT_DELETABLE_TABLES ++ HARD_DELETABLE_TABLES.
Definition RETAINED_CONTENT_HISTORY_TABLES : list string :=
  ["content_versions"; "content_lineage"; "analytics_snapshots"].
Definition RETAINED_ON_DELETE : list string :=
  ["spend_logs"; "spend_reservations"; "spend_caps"; "provider_usage"; "workspace_billing";
   "workspace_content_profiles"; "review_gates"; "review_decisions"; "stage_claim_audit";
   "stage_recovery_audit"; "stage_assignments"; "pipeline_stage_runs"; "pipeline_runs";
   "worker_logs"; "worker_heartbeats"; "worker_registry"; "worker_credentials";
   "dead_letter_jobs"; "webhook_events"; "billing_webhook_events"; "outbox_events";
   "workflow_definitions"; "workflow_stages"; "workflow_transitions";
   "workspace_concurrency_limits"; "provider_concurrency_budgets";
   "workspace_backpressure_state"; "provider_credentials"; "workspace_memberships";
   "workspaces"; "research_runs"; "research_sources"; "opportunities"; "opportunity_evidence";
   "research_audits"; "research_schedules"; "strategy_runs"; "strategy_briefs";
   "strategy_brief_opportunities"; "strategy_audits"; "strategy_schedules";
   "content_department_runs"; "creative_directions"; "content_packages"; "content_claims";
   "content_audits"; "content_audit_invalidations"; "originality_fingerprints";
   "production_jobs"; "production_assets"; "final_artifacts"; "media_qa_results";
   "production_repairs"; "artifact_invalidations"; "production_readiness";
   "platform_policy_sources"; "artifact_rights_evidence"; "audit_gate_manifests";
   "compliance_audits"; "compliance_invalidations"; "chief_audits";
   "chief_audit_invalidations"; "human_review_packages"; "artifact_publication_eligibility"].

Definition EXPORT_MAX_ROWS_PER_TABLE : Z := 50000.

(** ** Results *)

Inductive governance_error : Type :=
| DataGovernanceError (code message : string)
| DatabaseError (e : db_error).

Definition on_db {A} (r : result db_error A) : result governance_error A :=
match r with Ok a => Ok a | Raise e => Raise (DatabaseError e) end.

Definition record : Type := list (string * value).

Record ExportBundle : Type := mk_bundle {
  eb_workspace_id : id;
  eb_generated_at : Z;
  eb_tables : list (string * list record);
  eb_excluded_tables : list string;
  eb_exclusion_reason : string;
  eb_unattributable_tables : list string;
  eb_unattributable_reason : string;
  eb_row_counts : list (string * Z);
  eb_truncated_tables : list string;
  eb_truncation_reason : option string
}.

Record DeletionOutcome : Type := mk_outcome {
  do_workspace_id : id;
  do_executed_at : Z;
  do_soft_deleted_counts : list (string * Z);
  do_hard_deleted_counts : list (string * Z);
  do_retained_content_history_tables : list string;
  do_retained_tables : list string;
  do_retention_reason : string
}.

(** A response is what the caller receives; a request that fails leaves the
    database as it was. *)
Inductive response (A : Type) : Type :=
| Http (status : Z) (detail : string)
| Answer (a : A)
| ServerError (e : db_error).
Arguments Http {A} status detail.
Arguments Answer {A} a.
Arguments ServerError {A} e.

(** ** The schema a request sees

    [information_schema] lists the tables, and the columns, the role has some
    privilege on; a name with a dot is of another schema. *)

Definition public (n : string) : bool := bool_decide (String.index 0 "." n = None).

Definition privileged (t : table) : bool :=
existsb (λ g, bool_decide (g.1 = "app_runtime")) (elements (tbl_grants t)).
Definition privileged_on (c : string) (t : table) : bool :=
existsb (λ g, bool_decide (g.1 = "app_runtime" ∧ (g.2.2 = None ∨ g.2.2 = Some c))) (elements (tbl_grants t)).

Section Requests.
Context (s : catalog) (user : option id) (fuel : nat) (now : Z).
Context (datetime_str : Z → string).

Definition _existing_tables : gset string :=
list_to_set (filter (λ p, public p.1 && privileged p.2 = true) (map_to_list (cat_tables s))).*1.

Definition _tables_with_workspace_column : gset string :=
list_to_set (filter (λ p, public p.1 && has (tbl_columns p.2) "workspace_id" &&
  privileged_on "workspace_id" p.2 = true) (map_to_list (cat_tables s))).*1.

(** ** Export *)

(** the rows of [:ws] *)
Definition of_workspace (column : string) (workspace_id : id) (r : row) : bool :=
is_true3 (eq3 (default VNull (r !! column)) (VUuid workspace_id)).

Definition serialise_value (v : value) : value :=
match v with
| VUuid u => VText (uuid_str u)
| VTime t => VText (datetime_str t)
| v => v
end.
Definition serialise (r : row) : record :=
(λ p, (p.1, serialise_value p.2)) <$> map_to_list r.

Definition export_reason_truncated : string :=
"Truncated at " +:+ pretty EXPORT_MAX_ROWS_PER_TABLE +:+ " rows per table. Request a "
+:+ "paginated or offline export for the tables listed above.".

(** what the loop collects: tables, counts, truncated tables *)
Definition collected : Type := list (string * list record) * list (string * Z) * list string.

Definition export_table (db : database) (present workspace_scoped : gset string) (workspace_id : id)
  (table : string) (acc : collected) : result governance_error collected :=
if bool_decide (table ∈ EXPORT_DENYLIST) then Ok acc
else if negb (bool_decide (table ∈ present)) then Ok acc
else
  let export (rows : list row) :=
    let '(tables, counts, truncated) := acc in
    let over := bool_decide (EXPORT_MAX_ROWS_PER_TABLE < Z.of_nat (length rows)) in
    let rows := if over then take (Z.to_nat EXPORT_MAX_ROWS_PER_TABLE) rows else rows in
    let serialised := serialise <$> rows in
    Ok (tables ++ [(table, serialised)], counts ++ [(table, Z.of_nat (length serialised))],
        if over then truncated ++ [table] else truncated) in
  if String.eqb table "workspaces" then
    rows ← on_db (select_rows s db user fuel table (of_workspace "id" workspace_id));
    export rows
  else if bool_decide (table ∈ workspace_scoped) then
    rows ← on_db (select_rows s db user fuel table (of_workspace "workspace_id" workspace_id));
    export (take (Z.to_nat (EXPORT_MAX_ROWS_PER_TABLE + 1)) rows)
  else Ok acc.

Definition export_workspace (db : database) (workspace_id : id) : result governance_error ExportBundle :=
acc ← each (export_table db _existing_tables _tables_with_workspace_column workspace_id)
  EXPORTABLE_TABLES ([], [], []);
let '(tables, counts, truncated) := acc in
Ok (mk_bundle workspace_id now tables (Research.sorted_strings EXPORT_DENYLIST)
  ("Excluded by policy: these tables hold credentials, credential "
   +:+ "hashes, or service-only operational records and are never "
   +:+ "included in a customer export.")
  (Research.sorted_strings STRUCTURALLY_UNEXPORTABLE_TABLES)
  ("Cannot be exported: these tables have no workspace_id column, "
   +:+ "so their rows cannot be attributed to one tenant.")
  counts truncated
  (if bool_decide (truncated = []) then None else Some export_reason_truncated)).

(** ** Deletion *)

Definition counted (table : string) (st : database * list (string * Z)) (r : result db_error (Z * database)) :
  result governance_error (database * list (string * Z)) :=
p ← on_db r;
Ok (p.2, st.2 ++ [(table, p.1)]).

Definition soft_delete (present workspace_scoped : gset string) (workspace_id : id) (table : string)
  (st : database * list (string * Z)) : result governance_error (database * list (string * Z)) :=
if negb (bool_decide (table ∈ present)) then Ok st
else if negb (bool_decide (table ∈ workspace_scoped)) then Ok st
else counted table st
  (update_rows s st.1 user fuel now table ["workspace_id"; "deleted_at"] ["deleted_at"]
    (λ r, of_workspace "workspace_id" workspace_id r && bool_decide (default VNull (r !! "deleted_at") = VNull))
    (λ r, <["deleted_at" := VTime now]> r)).

Definition hard_delete (present workspace_scoped : gset string) (workspace_id : id) (table : string)
  (st : database * list (string * Z)) : result governance_error (database * list (string * Z)) :=
if negb (bool_decide (table ∈ present)) then Ok st
else if negb (bool_decide (table ∈ workspace_scoped)) then Ok st
else counted table st
  (delete_rows s st.1 user fuel now table ["workspace_id"] (of_workspace "workspace_id" workspace_id)).

Definition delete_workspace_content (db : database) (workspace_id confirm_workspace_id : id) :
  result governance_error (DeletionOutcome * database) :=
if negb (bool_decide (confirm_workspace_id = workspace_id)) then
  Raise (DataGovernanceError "confirmation_mismatch"
    "deletion confirmation does not match the target workspace")
else
  let present := _existing_tables in
  let workspace_scoped := _tables_with_workspace_column in
  soft ← each (soft_delete present workspace_scoped workspace_id) SOFT_DELETABLE_TABLES (db, []);
  hard ← each (hard_delete present workspace_scoped workspace_id) HARD_DELETABLE_TABLES (soft.1, []);
  Ok (mk_outcome workspace_id now soft.2 hard.2 RETAINED_CONTENT_HISTORY_TABLES RETAINED_ON_DELETE
    ("Content is withdrawn by tombstone where the schema is "
     +:+ "append-only, and financial, review, security and audit records "
     +:+ "are retained: deleting them would destroy the evidence of what "
     +:+ "was executed. Physical erasure of retained classes requires an "
     +:+ "approved retention schedule and legal basis."), hard.1).

(** ** The routes (routes/data_governance.py) *)

(** [require_workspace_admin], whose search of the memberships is a
    statement like the others *)
Definition require_workspace_admin (db : database) (workspace_id : id) : response unit :=
match user with
| None => Http 401 "missing bearer token"
| Some u =>
    match select_rows s db user fuel "workspace_memberships"
            (λ r, of_workspace "workspace_id" workspace_id r && of_workspace "user_id" u r) with
    | Raise e => ServerError e
    | Ok [] => Http 403 "not a member of this workspace"
    | Ok (m :: _) =>
        if bool_decide (m !! "role" = Some (VText "admin")) then Answer tt
        else Http 403 "requires one of: admin"
    end
end.

Definition answer {A B} (r : result governance_error A) (f : A → B) : response B :=
match r with
| Ok a => Answer (f a)
| Raise (DataGovernanceError _ message) => Http 400 message
| Raise (DatabaseError e) => ServerError e
end.

Definition export_workspace_data (db : database) (workspace_id : id) : response ExportBundle :=
match require_workspace_admin db workspace_id with
| Answer _ => answer (export_workspace db workspace_id) (λ b, b)
| Http c d => Http c d
| ServerError e => ServerError e
end.

Definition request_workspace_deletion (db : database) (workspace_id confirm_workspace_id : id) :
  response DeletionOutcome * database :=
match require_workspace_admin db workspace_id with
| Answer _ =>
    match delete_workspace_content db workspace_id confirm_workspace_id with
    | Ok (outcome, db') => (Answer outcome, db')
    | Raise e => (answer (Raise e) (λ a, a), db)
    end
| Http c d => (Http c d, db)
| ServerError e => (ServerError e, db)
end.

(** ** Classification *)

Definition classified : gset string :=
list_to_set (EXPORTABLE_TABLES ++ DELETABLE_TABLES ++ RETAINED_CONTENT_HISTORY_TABLES ++
  RETAINED_ON_DELETE ++ EXPORT_DENYLIST ++ STRUCTURALLY_UNEXPORTABLE_TABLES).

(** as the owner of the tables, whose columns are all listed *)
Definition verify_table_classification : list string :=
Research.sorted_strings (elements ((list_to_set (filter (λ p,
  public p.1 && has (tbl_columns p.2) "workspace_id" = true) (map_to_list (cat_tables s))).*1 : gset string)
  ∖ classified)).
End Requests.
