(* ===== verification/Strategy.v ===== *)
(** * The Strategist and the Strategy Auditor (services/strategy.py)

    A strategy run may only use opportunities that pass the strategist gate;
    a brief names its source opportunities; the auditor inspects the stored
    brief and the latest research audit of every source; the writer gate lets
    a brief through when its latest audit passed.  [get_business_context_state]
    of models/content_profile.py is here as well. *)

From S2P Require Import Prelude Models Database Outbox Spend Text Decimal PyJson Regex StudioModels.
From S2P Require Research.

Definition _safe_text (value field : string) (maximum : Z) : result exn string :=
let normalized := strip value in
if String.eqb normalized EmptyString || (maximum <? Z.of_nat (String.length normalized))
then Raise (ValueError (field +:+ " must be non-empty and at most " +:+ pretty maximum +:+ " characters"))
else if search _UNTRUSTED_INSTRUCTION normalized
then Raise (ValueError (field +:+ " contains an untrusted instruction pattern"))
else if search _SECRET_PATTERN normalized
then Raise (ValueError (field +:+ " contains a secret-like value"))
else Ok normalized.

Definition norm (s : string) : string := lower (strip s).

Definition _structural_fingerprint (sha256 : string → string) (source_opportunity_ids : list id)
  (objective target_platform content_format creative_angle hook_direction cta_direction
   business_goal : string) : string :=
sha256 (join newline
  (Research.sorted_strings (map uuid_str source_opportunity_ids) ++
   [norm objective; norm target_platform; norm content_format; norm creative_angle;
    norm hook_direction; norm cta_direction; norm business_goal])).

Definition _emit_run (run_id : id) (run : StrategyRun) (event_type : string) (payload : json) :
  SM unit :=
on_world (emit event_type (srun_workspace_id run) "strategy_run" run_id
            (srun_correlation_id run) (srun_trace_id run) None payload "strategist-service" None 1);;
mret tt.

(** ** [models/content_profile.py] *)

Definition is_content_profile_complete (profile : option WorkspaceContentProfile) : bool :=
match profile with
| None => false
| Some p =>
    forallb Research.is_truthy_str
      [prof_business_name p; prof_offer p; prof_target_audience p; prof_brand_voice p;
       prof_target_platform p; prof_content_goal p]
end.

Definition get_business_context_state (workspace_id : id) : SM string :=
l ← select st_content_profiles (λ _ p, in_workspace workspace_id (prof_workspace_id p));
profile ← scalar_one_or_none l;
mret (if is_content_profile_complete (snd <$> profile) then "complete" else "incomplete").

(** ** Queries *)

Definition get_run (workspace_id run_id : id) : SM (option (id * StrategyRun)) :=
r ← session_get st_strategy_runs run_id;
mret (match r with
      | Some r => if in_workspace workspace_id (srun_workspace_id r) then Some (run_id, r) else None
      | None => None
      end).

Definition list_runs (workspace_id : id) : SM (list (id * StrategyRun)) :=
l ← select st_strategy_runs (λ _ r, in_workspace workspace_id (srun_workspace_id r));
mret (desc_by (λ p, srun_created_at p.2) l).

Definition get_brief (workspace_id brief_id : id) : SM (option StrategyBrief) :=
b ← session_get st_briefs brief_id;
mret (match b with
      | Some b =>
          if in_workspace workspace_id (brief_workspace_id b) && live (brief_deleted_at b)
          then Some b else None
      | None => None
      end).

Definition list_briefs (workspace_id : id) : SM (list (id * StrategyBrief)) :=
l ← select st_briefs
      (λ _ b, in_workspace workspace_id (brief_workspace_id b) && live (brief_deleted_at b));
mret (desc_by (λ p, brief_created_at p.2) l).

Definition brief_opportunity_ids (workspace_id brief_id : id) : SM (list id) :=
l ← select st_brief_links (λ _ k,
  in_workspace workspace_id (link_workspace_id k) &&
  bool_decide (link_strategy_brief_id k = brief_id));
mret (map (λ p, link_opportunity_id p.2) l).

(** ** The rollup of the strategy page *)

Record StrategySummary : Type := mk_strategy_summary {
  ss_status : string;
  ss_current_strategy : option (id * StrategyRun);
  ss_last_run : option (id * StrategyRun);
  ss_next_run_at : option time;
  ss_opportunities_received : Z;
  ss_briefs_created : Z;
  ss_briefs_passed : Z;
  ss_briefs_blocked : Z;
  ss_cost_today_usd : usd;
  ss_last_error : option string;
  ss_schedule_enabled : bool;
  ss_business_context_state : string
}.

Section Strategy.
Context `{Unordered}.

Definition summary (workspace_id : id) : SM StrategySummary :=
runs ← select st_strategy_runs (λ _ r, in_workspace workspace_id (srun_workspace_id r));
let running := filter (λ p, String.eqb (srun_status p.2) "running" = true) runs in
let current := latest_by (λ p, srun_created_at p.2) running in
let last := latest_by (λ p, srun_created_at p.2) runs in
let mine b := in_workspace workspace_id (brief_workspace_id b) && live (brief_deleted_at b) in
created ← select_count st_briefs (λ _ b, mine b);
passed ← select_count st_briefs (λ _ b, mine b && String.eqb (brief_audit_gate_status b) "pass");
blocked ← select_count st_briefs
            (λ _ b, mine b && negb (String.eqb (brief_audit_gate_status b) "pass"));
schedules ← select st_strategy_schedules (λ _ s, in_workspace workspace_id (ssch_workspace_id s));
schedule ← scalar_one_or_none schedules;
received ← select_count st_opportunities (λ _ o,
  in_workspace workspace_id (opp_workspace_id o) &&
  String.eqb (opp_audit_gate_status o) "pass" && live (opp_deleted_at o));
t ← on_world now;
cost ← select_sum st_strategy_runs (λ _ r,
  if in_workspace workspace_id (srun_workspace_id r) && (utc_day_start t <=? srun_created_at r)
  then srun_actual_cost_usd r else 0);
business_context_state ← get_business_context_state workspace_id;
mret (mk_strategy_summary
  (match Research.or_else current last with Some (_, r) => srun_status r | None => "not_run" end)
  current last
  (match schedule with Some (_, s) => if ssch_enabled s then ssch_next_run_at s else None | None => None end)
  received created passed blocked cost
  (match Research.or_else current last with
   | Some (_, r) => srun_last_error r
   | None => Some ("STRATEGY PROVIDER NOT CONFIGURED" +:+
       (if String.eqb business_context_state "complete" then EmptyString
        else "; BUSINESS CONTEXT INCOMPLETE"))
   end)
  (match schedule with Some (_, s) => ssch_enabled s | None => false end)
  business_context_state).

Definition audits_of (workspace_id brief_id : id) (_ : id) (a : StrategyAudit) : bool :=
in_workspace workspace_id (saud_workspace_id a) &&
bool_decide (saud_strategy_brief_id a = brief_id).

Definition latest_audit (workspace_id brief_id : id) : SM (option StrategyAudit) :=
l ← select st_strategy_audits (audits_of workspace_id brief_id);
mret (snd <$> latest_by (λ p, saud_checked_at p.2) l).

(** every source opportunity passes the strategist gate *)
Definition _require_research_pass (workspace_id : id) (opportunity_ids : list id) :
  SM (list Opportunity) :=
collect opportunity_ids (λ opportunity_id,
  catch (Research.strategist_gate workspace_id opportunity_id)
    (λ e, match e with ResearchGateError m => raise (StrategyGateError m) | _ => raise e end);;
  o ← Research.get_opportunity workspace_id opportunity_id;
  match o with
  | None => raise (StrategyGateError "source opportunity not found")
  | Some o => mret o
  end).

(** ** Manual runs *)

Record StrategyRunCreate : Type := mk_strategy_run_create {
  sc_strategy_objective : string;
  sc_source_opportunity_ids : list id;
  sc_max_provider_calls : Z;
  sc_max_tokens : Z;
  sc_max_cost_usd : usd;
  sc_max_attempts : Z
}.

Definition add_run (run : id → time → StrategyRun) : SM (id * StrategyRun) :=
run_id ← on_world uuid4;
correlation_id ← on_world uuid4;
t ← on_world now;
let row := run correlation_id t in
insert_row st_strategy_runs run_id row;;
on_world flush;;
mret (run_id, row).

Definition create_manual_run (workspace_id actor_id : id) (payload : StrategyRunCreate) :
  SM (id * StrategyRun) :=
objective ← lift_result (_safe_text (sc_strategy_objective payload) "strategy objective" 1000);
let opportunity_ids := sc_source_opportunity_ids payload in
_require_research_pass workspace_id opportunity_ids;;
business_context_state ← get_business_context_state workspace_id;
let last_error := "STRATEGY PROVIDER NOT CONFIGURED" +:+
  (if String.eqb business_context_state "complete" then EmptyString
   else "; BUSINESS CONTEXT INCOMPLETE") in
p ← add_run (λ correlation_id t,
  {| srun_workspace_id := workspace_id;
     srun_trigger := "manual";
     srun_strategy_objective := objective;
     srun_source_opportunity_ids := map uuid_str opportunity_ids;
     srun_started_at := t;
     srun_deadline := t + seconds (15 * 60);
     srun_max_provider_calls := sc_max_provider_calls payload;
     srun_max_tokens := sc_max_tokens payload;
     srun_max_cost_usd := sc_max_cost_usd payload;
     srun_max_attempts := sc_max_attempts payload;
     srun_status := "provider_not_configured";
     srun_provider_state := "not_configured";
     srun_business_context_state := business_context_state;
     srun_provider_calls_used := 0;
     srun_tokens_used := 0;
     srun_reserved_cost_usd := 0;
     srun_actual_cost_usd := 0;
     srun_briefs_created := 0;
     srun_briefs_passed := 0;
     srun_briefs_blocked := 0;
     srun_last_error := Some last_error;
     srun_correlation_id := correlation_id;
     srun_trace_id := None;
     srun_test_data := false;
     srun_created_at := t;
     srun_created_by := Some actor_id;
     srun_updated_by := Some actor_id |});
let '(run_id, run) := p in
_emit_run run_id run "strategy.started"
  (JObj [("trigger", JStr "manual");
         ("source_opportunity_ids", JList (map (λ i, JStr (uuid_str i)) opportunity_ids));
         ("limits", JObj [("max_provider_calls", int_json (srun_max_provider_calls run));
                          ("max_tokens", int_json (srun_max_tokens run));
                          ("max_cost_usd", usd_json (srun_max_cost_usd run));
                          ("max_attempts", int_json (srun_max_attempts run))]);
         ("provider_state", JStr (srun_provider_state run));
         ("business_context_state", JStr (srun_business_context_state run))]);;
_emit_run run_id run "strategy.provider_not_configured" (JObj [("detail", JStr last_error)]);;
mret p.

(** ** The test-only persistence path *)

Section Fixture.
Context (sha256 : string → string) (json_text : json → string) (environment : string).

(** [str(fixture.get(name, dflt))] *)
Definition str_field (fixture : pydict) (name dflt : string) : string :=
Research.py_str json_text (dict_get fixture name (JStr dflt)).

Definition optional (fixture : pydict) (name : string) : SM (option string) :=
match dict_get fixture name JNull with
| JNull => mret None
| v =>
    s ← lift_result (_safe_text (Research.py_str json_text v) name 10000);
    mret (Some s)
end.

Definition list_field (fixture : pydict) (name : string) : SM (list json) :=
lift_result (py_list (dict_get fixture name (JList []))).
Definition dict_field (fixture : pydict) (name : string) : SM json :=
lift_result (py_dict (dict_get fixture name (JObj []))).
Definition fingerprint_field (fixture : pydict) (name : string) : SM string :=
lift_result (str_or_empty (dict_get fixture name JNull)).

Definition same_fingerprint (a b : StrategyBrief) : bool :=
bool_decide (brief_workspace_id a = brief_workspace_id b) &&
String.eqb (brief_structural_fingerprint a) (brief_structural_fingerprint b).
Definition same_link (a b : StrategyBriefOpportunity) : bool :=
bool_decide (link_workspace_id a = link_workspace_id b) &&
bool_decide (link_strategy_brief_id a = link_strategy_brief_id b) &&
bool_decide (link_opportunity_id a = link_opportunity_id b).

Definition fixture_fingerprint (fixture : pydict) (source_opportunity_ids : list id)
  (brief_objective : string) : SM string :=
target_platform ← fingerprint_field fixture "target_platform";
content_format ← fingerprint_field fixture "content_format";
creative_angle ← fingerprint_field fixture "creative_angle";
hook_direction ← fingerprint_field fixture "hook_direction";
cta_direction ← fingerprint_field fixture "cta_direction";
business_goal ← fingerprint_field fixture "business_goal";
mret (_structural_fingerprint sha256 source_opportunity_ids brief_objective target_platform
        content_format creative_angle hook_direction cta_direction business_goal).

(** the brief's row, from the fixture *)
Definition fixture_row (workspace_id actor_id run_id : id) (fixture : pydict)
  (brief_objective evidence_summary reasoning fingerprint : string) (t : time) : SM StrategyBrief :=
target_audience ← optional fixture "target_audience";
target_platform ← optional fixture "target_platform";
content_format ← optional fixture "content_format";
creative_angle ← optional fixture "creative_angle";
core_message ← optional fixture "core_message";
hook_direction ← optional fixture "hook_direction";
cta_direction ← optional fixture "cta_direction";
business_goal ← optional fixture "business_goal";
success_metric ← optional fixture "success_metric";
commercial_goal ← optional fixture "commercial_goal";
confidence ← lift_result (py_decimal (dict_get fixture "confidence" (JStr "0.50")));
component_scores ← dict_field fixture "component_scores";
score_reasoning ← dict_field fixture "score_reasoning";
recommended_length ← optional fixture "recommended_length";
recommended_posting_window ← optional fixture "recommended_posting_window";
required_assets ← list_field fixture "required_assets";
production_requirements ← list_field fixture "production_requirements";
rights_requirements ← list_field fixture "rights_requirements";
compliance_requirements ← list_field fixture "compliance_requirements";
estimated_provider_usage ← dict_field fixture "estimated_provider_usage";
estimated_cost_range ← dict_field fixture "estimated_cost_range";
repetition_reasons ← list_field fixture "repetition_reasons";
mret {| brief_workspace_id := workspace_id;
        brief_strategy_run_id := run_id;
        brief_objective := brief_objective;
        brief_target_audience := target_audience;
        brief_target_platform := target_platform;
        brief_content_format := content_format;
        brief_creative_angle := creative_angle;
        brief_core_message := core_message;
        brief_hook_direction := hook_direction;
        brief_cta_direction := cta_direction;
        brief_business_goal := business_goal;
        brief_success_metric := success_metric;
        brief_commercial_goal := commercial_goal;
        brief_estimated_complexity := str_field fixture "estimated_complexity" "low";
        brief_risk_level := str_field fixture "risk_level" "low";
        brief_evidence_summary := evidence_summary;
        brief_reasoning := reasoning;
        brief_confidence := confidence;
        brief_priority := str_field fixture "priority" "medium_priority";
        brief_component_scores := component_scores;
        brief_score_reasoning := score_reasoning;
        brief_recommended_length := recommended_length;
        brief_recommended_posting_window := recommended_posting_window;
        brief_required_assets := required_assets;
        brief_production_requirements := production_requirements;
        brief_rights_requirements := rights_requirements;
        brief_compliance_requirements := compliance_requirements;
        brief_estimated_provider_usage := estimated_provider_usage;
        brief_estimated_cost_range := estimated_cost_range;
        brief_cost_state := str_field fixture "cost_state" "known";
        brief_capability_state := str_field fixture "capability_state" "configured";
        brief_business_context_state := str_field fixture "business_context_state" "complete";
        brief_performance_data_state := str_field fixture "performance_data_state" "no_data";
        brief_structural_fingerprint := fingerprint;
        brief_repetition_state := str_field fixture "repetition_state" "clear";
        brief_repetition_reasons := repetition_reasons;
        brief_audit_gate_status := "not_run";
        brief_writer_handoff_state := "blocked";
        brief_created_by_worker := "strategist_fixture";
        brief_status := "draft";
        brief_test_data := true;
        brief_created_at := t;
        brief_created_by := Some actor_id;
        brief_updated_by := Some actor_id;
        brief_deleted_at := None |}.

Definition link_opportunity (workspace_id brief_id : id) (opportunity_id : id) : SM unit :=
link_id ← on_world uuid4;
t ← on_world now;
insert_unique st_brief_links "uq_strategy_brief_opportunity" same_link link_id
  (mk_link workspace_id brief_id opportunity_id t).

(** the run, the brief, and whether the brief was there before *)
Definition record_fixture_brief (workspace_id actor_id : id) (objective : string)
  (source_opportunity_ids : list id) (fixture : pydict) : SM (id * id * bool) :=
if negb (String.eqb environment "test")
then raise (RuntimeError "fixture strategy execution is test-only") else
clean_objective ← lift_result (_safe_text objective "strategy objective" 1000);
opportunities ← _require_research_pass workspace_id source_opportunity_ids;
p ← add_run (λ correlation_id t,
  {| srun_workspace_id := workspace_id;
     srun_trigger := "manual_test_fixture";
     srun_strategy_objective := clean_objective;
     srun_source_opportunity_ids := map uuid_str source_opportunity_ids;
     srun_started_at := t;
     srun_deadline := t + seconds (5 * 60);
     srun_max_provider_calls := 0;
     srun_max_tokens := 0;
     srun_max_cost_usd := 0;
     srun_max_attempts := 1;
     srun_status := "running";
     srun_provider_state := "fixture_test_only";
     srun_business_context_state := str_field fixture "business_context_state" "complete";
     srun_provider_calls_used := 0;
     srun_tokens_used := 0;
     srun_reserved_cost_usd := 0;
     srun_actual_cost_usd := 0;
     srun_briefs_created := 0;
     srun_briefs_passed := 0;
     srun_briefs_blocked := 0;
     srun_last_error := None;
     srun_correlation_id := correlation_id;
     srun_trace_id := None;
     srun_test_data := true;
     srun_created_at := t;
     srun_created_by := Some actor_id;
     srun_updated_by := Some actor_id |});
let '(run_id, run) := p in
_emit_run run_id run "strategy.started"
  (JObj [("trigger", JStr (srun_trigger run)); ("test_data", JBool true)]);;
brief_objective ← lift_result
  (_safe_text (str_field fixture "objective" clean_objective) "brief objective" 10000);
match opportunities with
| [] => raise IndexError
| first :: _ =>
    evidence_summary ← lift_result
      (_safe_text (str_field fixture "evidence_summary" (opp_summary first)) "evidence summary" 10000);
    reasoning ← lift_result
      (_safe_text (str_field fixture "reasoning" (opp_proposed_angle first)) "reasoning" 10000);
    fingerprint ← fixture_fingerprint fixture source_opportunity_ids brief_objective;
    found ← select st_briefs (λ _ b, in_workspace workspace_id (brief_workspace_id b) &&
      String.eqb (brief_structural_fingerprint b) fingerprint && live (brief_deleted_at b));
    existing ← scalar_one_or_none found;
    match existing with
    | Some (brief_id, _) =>
        modify st_strategy_runs run_id
          (λ r, r <| srun_status := "duplicate" |>
                  <| srun_last_error := Some "DUPLICATE — REUSE OR REVISE" |>);;
        _emit_run run_id run "strategy.duplicate_detected"
          (JObj [("strategy_brief_id", JStr (uuid_str brief_id)); ("test_data", JBool true)]);;
        mret (run_id, brief_id, true)
    | None =>
        t ← on_world now;
        brief ← fixture_row workspace_id actor_id run_id fixture brief_objective evidence_summary
                  reasoning fingerprint t;
        brief_id ← on_world uuid4;
        insert_unique st_briefs "uq_strategy_briefs_workspace_fp" same_fingerprint brief_id brief;;
        on_world flush;;
        for_each source_opportunity_ids (link_opportunity workspace_id brief_id);;
        modify st_strategy_runs run_id
          (λ r, r <| srun_briefs_created := 1 |> <| srun_status := "succeeded" |>);;
        _emit_run run_id run "strategy.brief_created"
          (JObj [("strategy_brief_id", JStr (uuid_str brief_id)); ("test_data", JBool true)]);;
        mret (run_id, brief_id, false)
    end
end.
End Fixture.

(** ** The auditor *)

(** the findings on the sources up to the first that has not passed *)
Fixpoint trace_sources (workspace_id : id) (source_ids : list id) : SM (list json * list json) :=
match source_ids with
| [] => mret ([], [])
| opportunity_id :: source_ids =>
    audit ← Research.latest_audit workspace_id opportunity_id;
    match audit with
    | Some a =>
        if String.eqb (raud_state a) "pass" then
          rest ← trace_sources workspace_id source_ids;
          mret (JObj [("opportunity_id", JStr (uuid_str opportunity_id));
                      ("research_audit_state", JStr (raud_state a));
                      ("evidence_traceability", JStr "pass")] :: rest.1, rest.2)
        else mret ([], [JStr "Research Auditor PASS is required for every source opportunity."])
    | None => mret ([], [JStr "Research Auditor PASS is required for every source opportunity."])
    end
end.

(** what the auditor holds against the brief itself *)
Definition brief_objections (b : StrategyBrief) : list json :=
(if negb (String.eqb (brief_business_context_state b) "complete") ||
    negb (Research.is_truthy_str (brief_business_goal b))
 then [JStr "BUSINESS CONTEXT INCOMPLETE"] else []) ++
(if negb (Research.is_truthy_str (brief_target_platform b)) ||
    negb (Research.is_truthy_str (brief_content_format b))
 then [JStr "Target platform and content format are required."] else []) ++
(if bool_decide (brief_cost_state b ∈ ["unknown"; "not_configured"]) then [JStr "COST UNKNOWN"] else []) ++
(if negb (String.eqb (brief_capability_state b) "configured")
 then [JStr "BLOCKED — REQUIRED CAPABILITY NOT CONFIGURED"] else []) ++
(if bool_decide (brief_repetition_state b ∈ ["duplicate"; "require_differentiation"; "blocked"])
 then match brief_repetition_reasons b with
      | [] => [JStr "Materially repetitive strategy."] | l => l end
 else []) ++
(if search _OVERSTATED_PATTERN (brief_reasoning b) ||
    search _OVERSTATED_PATTERN (brief_evidence_summary b)
 then [JStr "Unsupported performance or commercial guarantee detected."] else []).

Definition opt_json (s : option string) : json := match s with Some s => JStr s | None => JNull end.

Definition audit_brief (workspace_id brief_id : id) : SM (id * StrategyAudit) :=
brief ← get_brief workspace_id brief_id;
match brief with
| None => raise (LookupError "strategy brief not found")
| Some b =>
    source_ids ← brief_opportunity_ids workspace_id brief_id;
    traced ← trace_sources workspace_id source_ids;
    let blocked :=
      (match source_ids with
       | [] => [JStr "No source opportunities are linked to this Strategy Brief."] | _ => [] end) ++
      traced.2 ++ brief_objections b in
    let warnings :=
      if String.eqb (brief_performance_data_state b) "no_data" then []
      else ["Performance-data state requires a source-backed future check."] in
    let state := match blocked, warnings with
                 | _ :: _, _ => "blocked"
                 | [], _ :: _ => "pass_with_warning"
                 | [], [] => "pass"
                 end in
    audit_id ← on_world uuid4;
    t ← on_world now;
    let audit :=
      {| saud_workspace_id := workspace_id;
         saud_strategy_brief_id := brief_id;
         saud_strategy_run_id := brief_strategy_run_id b;
         saud_state := state;
         saud_evaluator_context_version := "strategy-auditor-v1";
         saud_brief_snapshot :=
           JObj [("objective", JStr (brief_objective b));
                 ("business_goal", opt_json (brief_business_goal b));
                 ("target_platform", opt_json (brief_target_platform b));
                 ("content_format", opt_json (brief_content_format b));
                 ("structural_fingerprint", JStr (brief_structural_fingerprint b));
                 ("cost_state", JStr (brief_cost_state b));
                 ("capability_state", JStr (brief_capability_state b));
                 ("business_context_state", JStr (brief_business_context_state b));
                 ("repetition_state", JStr (brief_repetition_state b))];
         saud_findings := traced.1;
         saud_warnings := warnings;
         saud_blocked_reasons := blocked;
         saud_checked_at := t;
         saud_test_data := brief_test_data b;
         saud_created_at := t |} in
    insert_row st_strategy_audits audit_id audit;;
    let passed := String.eqb state "pass" in
    modify st_briefs brief_id
      (λ b, b <| brief_audit_gate_status := state |>
              <| brief_writer_handoff_state := if passed then "eligible" else "blocked" |>
              <| brief_status := if passed then "audited_passed" else "audited_blocked" |>);;
    run ← get_run workspace_id (brief_strategy_run_id b);
    match run with
    | None => on_world flush
    | Some (run_id, run) =>
        modify st_strategy_runs run_id
          (λ r, if passed then r <| srun_briefs_passed ::= Z.add 1 |>
                else r <| srun_briefs_blocked ::= Z.add 1 |>);;
        on_world flush;;
        _emit_run run_id run ("strategy.audit." +:+ state)
          (JObj [("strategy_brief_id", JStr (uuid_str brief_id));
                 ("audit_id", JStr (uuid_str audit_id)); ("test_data", JBool (brief_test_data b))])
    end;;
    mret (audit_id, audit)
end.

(** ** The gate before the writer *)

Definition writer_gate (workspace_id brief_id : id) : SM unit :=
brief ← get_brief workspace_id brief_id;
match brief with
| None => raise (LookupError "strategy brief not found")
| Some b =>
    audit ← latest_audit workspace_id brief_id;
    let audit_state := match audit with Some a => saud_state a | None => "not_run" end in
    if negb (String.eqb audit_state "pass") then
      run ← get_run workspace_id (brief_strategy_run_id b);
      match run with
      | Some (run_id, run) =>
          _emit_run run_id run "strategy.writer_denied"
            (JObj [("strategy_brief_id", JStr (uuid_str brief_id)); ("audit_state", JStr audit_state)])
      | None => mret tt
      end;;
      raise (StrategyAuditGateError
        "Independent Strategy Auditor PASS is required before Writer eligibility.")
    else
      modify st_briefs brief_id (λ b, b <| brief_writer_handoff_state := "eligible" |>);;
      run ← get_run workspace_id (brief_strategy_run_id b);
      match run with
      | Some (run_id, run) =>
          _emit_run run_id run "strategy.writer_eligible"
            (JObj [("strategy_brief_id", JStr (uuid_str brief_id));
                   ("test_data", JBool (brief_test_data b))])
      | None => mret tt
      end
end.
End Strategy.
