(* ===== verification/ContentDepartment.v ===== *)
(** * The content department (services/content_department.py)

    A package of creative work is written from a strategy brief that passes
    the writer gate; four independent auditors judge it; the producer gate
    opens when the latest audit of each of them passed.  A package that
    revises another supersedes it and invalidates its audits. *)

From S2P Require Import Prelude Models Database Outbox Text Decimal PyJson Regex StudioModels.
From S2P Require Research Strategy.

Definition _ALLOWED_AUDITORS : list string := ["language"; "fact"; "brand"; "originality"].
Definition _MANDATORY_AUDITORS : list string := ["language"; "fact"; "brand"; "originality"].

(** ** Text *)

Definition _fingerprint (sha256 : string → string) (value : string) : string :=
sha256 (join " " (split (lower value))).

Definition tokenised (part : string) : string := sub (plus is_alnum) "token" (lower part).
Definition _structure_fingerprint (sha256 : string → string) (parts : list string) : string :=
sha256 (join "|" (map tokenised parts)).

(** the type of the claim a sentence makes, if it makes one *)
Definition claim_type_of (text : string) : option string :=
let lowered := lower text in
if search (Cls is_digit) text then Some "NUMBER"
else if existsb (λ m, contains m lowered) ["will"; "guarantee"; "best"; "more than"] then
  Some (if contains "best" lowered || contains "more than" lowered
        then "COMPARATIVE" else "PRODUCT CLAIM")
else None.

Definition _extract_claims (script : string) : list json :=
omap (λ sentence,
  let text := strip sentence in
  if String.eqb text EmptyString then None
  else (λ claim_type,
    JObj [("claim_text", JStr text); ("claim_type", JStr claim_type);
          ("source_required", JBool true);
          ("risk", JStr (if bool_decide (claim_type ∈ ["NUMBER"; "COMPARATIVE"])
                         then "high" else "medium"))]) <$> claim_type_of text)
  (split_sentences false false script EmptyString).

Definition _emit_run (run_id : id) (run : ContentDepartmentRun) (event_type : string)
  (payload : json) : SM unit :=
on_world (emit event_type (crun_workspace_id run) "content_department_run" run_id
            (crun_correlation_id run) (crun_trace_id run) None payload
            "content-department-service" None 1);;
mret tt.

(** ** Queries *)

Definition get_run (workspace_id run_id : id) : SM (option (id * ContentDepartmentRun)) :=
r ← session_get st_content_runs run_id;
mret (match r with
      | Some r => if in_workspace workspace_id (crun_workspace_id r) then Some (run_id, r) else None
      | None => None
      end).

Definition get_package (workspace_id package_id : id) : SM (option ContentPackage) :=
p ← session_get st_packages package_id;
mret (match p with
      | Some p =>
          if in_workspace workspace_id (pkg_workspace_id p) && live (pkg_deleted_at p)
          then Some p else None
      | None => None
      end).

Definition list_packages (workspace_id : id) : SM (list (id * ContentPackage)) :=
l ← select st_packages
      (λ _ p, in_workspace workspace_id (pkg_workspace_id p) && live (pkg_deleted_at p));
mret (desc_by (λ p, pkg_created_at p.2) l).

Section Department.
Context `{Unordered}.

Definition _require_strategy_pass (workspace_id strategy_brief_id : id) : SM StrategyBrief :=
catch (Strategy.writer_gate workspace_id strategy_brief_id)
  (λ e, match e with
        | StrategyAuditGateError m | LookupError m => raise (ContentDepartmentGateError m)
        | _ => raise e
        end);;
brief ← Strategy.get_brief workspace_id strategy_brief_id;
match brief with
| None => raise (ContentDepartmentGateError "approved strategy brief not found")
| Some b => mret b
end.

(** ** Manual runs *)

Record ContentDepartmentRunCreate : Type := mk_content_run_create {
  cc_strategy_brief_id : id;
  cc_max_provider_calls : Z;
  cc_max_tokens : Z;
  cc_max_cost_usd : usd;
  cc_max_attempts : Z;
  cc_timeout_seconds : Z
}.

Definition add_run (run : id → time → ContentDepartmentRun) : SM (id * ContentDepartmentRun) :=
run_id ← on_world uuid4;
correlation_id ← on_world uuid4;
t ← on_world now;
let row := run correlation_id t in
insert_row st_content_runs run_id row;;
on_world flush;;
mret (run_id, row).

Definition create_manual_run (workspace_id actor_id : id) (payload : ContentDepartmentRunCreate) :
  SM (id * ContentDepartmentRun) :=
_require_strategy_pass workspace_id (cc_strategy_brief_id payload);;
business_context_state ← Strategy.get_business_context_state workspace_id;
let last_error := "CONTENT PROVIDER NOT CONFIGURED" +:+
  (if String.eqb business_context_state "complete" then EmptyString
   else "; BUSINESS CONTEXT INCOMPLETE") +:+
  "; NO CREATIVE DIRECTION OR CONTENT VERSION CREATED" in
p ← add_run (λ correlation_id t,
  {| crun_workspace_id := workspace_id;
     crun_strategy_brief_id := cc_strategy_brief_id payload;
     crun_trigger := "manual";
     crun_status := "provider_not_configured";
     crun_provider_state := "not_configured";
     crun_business_context_state := business_context_state;
     crun_max_provider_calls := cc_max_provider_calls payload;
     crun_max_tokens := cc_max_tokens payload;
     crun_max_cost_usd := cc_max_cost_usd payload;
     crun_max_attempts := cc_max_attempts payload;
     crun_timeout_seconds := cc_timeout_seconds payload;
     crun_provider_calls_used := 0;
     crun_tokens_used := 0;
     crun_actual_cost_usd := 0;
     crun_creative_directions_created := 0;
     crun_packages_ready := 0;
     crun_packages_blocked := 0;
     crun_last_error := Some last_error;
     crun_correlation_id := correlation_id;
     crun_trace_id := None;
     crun_test_data := false;
     crun_created_at := t;
     crun_created_by := Some actor_id;
     crun_updated_by := Some actor_id |});
let '(run_id, run) := p in
_emit_run run_id run "content_department.started"
  (JObj [("trigger", JStr "manual");
         ("strategy_brief_id", JStr (uuid_str (cc_strategy_brief_id payload)));
         ("limits", JObj [("max_provider_calls", int_json (crun_max_provider_calls run));
                          ("max_tokens", int_json (crun_max_tokens run));
                          ("max_cost_usd", usd_json (crun_max_cost_usd run));
                          ("max_attempts", int_json (crun_max_attempts run));
                          ("timeout_seconds", int_json (crun_timeout_seconds run))])]);;
_emit_run run_id run "content_department.provider_not_configured"
  (JObj [("detail", JStr last_error)]);;
mret p.

(** ** The gate of a package *)

Definition audits_of (workspace_id package_id : id) (auditor_type : string) (_ : id)
  (a : ContentAudit) : bool :=
in_workspace workspace_id (caud_workspace_id a) &&
bool_decide (caud_content_package_id a = package_id) &&
String.eqb (caud_auditor_type a) auditor_type.

Definition _latest_audit (workspace_id package_id : id) (auditor_type : string) :
  SM (option ContentAudit) :=
l ← select st_content_audits (audits_of workspace_id package_id auditor_type);
mret (snd <$> latest_by (λ p, caud_checked_at p.2) l).

(** gate status, hand-off state and status, for the states of the audits *)
Definition package_gate (states : list string) : string * string * string :=
if existsb (λ s, bool_decide (s ∈ ["blocked"; "error"])) states
then ("blocked", "blocked", "audited_blocked")
else if forallb (λ s, String.eqb s "pass") states
then ("pass", "provider_not_configured", "audited_ready")
else ("not_ready", "blocked", "awaiting_audits").

Definition gated_package (states : list string) (p : ContentPackage) : ContentPackage :=
let '(gate, handoff, status) := package_gate states in
p <| pkg_audit_gate_status := gate |> <| pkg_producer_handoff_state := handoff |>
  <| pkg_status := status |>.

Definition audit_states (workspace_id package_id : id) : SM (list string) :=
collect _MANDATORY_AUDITORS (λ kind,
  audit ← _latest_audit workspace_id package_id kind;
  mret (match audit with Some a => caud_state a | None => "not_run" end)).

Definition _recalculate_package_gate (workspace_id package_id : id) : SM unit :=
states ← audit_states workspace_id package_id;
modify st_packages package_id (gated_package states).

(** ** The test-only lifecycle *)

Section Fixture.
Context (sha256 : string → string) (json_text : json → string) (environment : string).

Definition safe_field (fixture : pydict) (name dflt field : string) : SM string :=
lift_result (Strategy._safe_text
  (Research.py_str json_text (dict_get fixture name (JStr dflt))) field 12000).
Definition text_field (fixture : pydict) (name : string) (dflt : json) : SM (option string) :=
lift_result (text_column (dict_get fixture name dflt)).
Definition list_field (fixture : pydict) (name : string) : SM (list json) :=
lift_result (py_list (dict_get fixture name (JList []))).

(** a value stored in a [Text] column that is not nullable *)
Definition required_text (v : json) : result exn string :=
match v with
| JStr s => Ok s
| JNull => Raise (IntegrityError "not null")
| _ => Raise TypeError
end.

Definition add_direction (workspace_id actor_id run_id strategy_brief_id : id) (b : StrategyBrief)
  (fixture : pydict) (objective concept : string) : SM (id * CreativeDirection) :=
target_platform ← text_field fixture "target_platform" (Strategy.opt_json (brief_target_platform b));
target_audience ← text_field fixture "target_audience" (Strategy.opt_json (brief_target_audience b));
opening_pattern ← text_field fixture "opening_pattern" (Strategy.opt_json (brief_hook_direction b));
hook_direction ← text_field fixture "hook_direction" (Strategy.opt_json (brief_hook_direction b));
story_structure ← text_field fixture "story_structure" (JStr "problem-evidence-action");
tone ← text_field fixture "tone" (JStr "clear");
pacing ← text_field fixture "pacing" (JStr "measured");
visual_direction ← text_field fixture "visual_direction" (JStr "evidence-led");
audio_direction ← text_field fixture "audio_direction" (JStr "clear narration");
cta_direction ← text_field fixture "cta_direction" (Strategy.opt_json (brief_cta_direction b));
desired_emotion ← text_field fixture "desired_emotion" (JStr "confidence");
required_claims ← list_field fixture "required_claims";
prohibited_claims ← list_field fixture "prohibited_claims";
required_assets ← list_field fixture "required_assets";
estimated_duration ←
  text_field fixture "estimated_duration" (Strategy.opt_json (brief_recommended_length b));
production_complexity ←
  lift_result (required_text (dict_get fixture "production_complexity" (JStr "low")));
risk_notes ← list_field fixture "risk_notes";
direction_id ← on_world uuid4;
t ← on_world now;
let direction :=
  {| dir_workspace_id := workspace_id;
     dir_content_department_run_id := run_id;
     dir_strategy_brief_id := strategy_brief_id;
     dir_objective := objective;
     dir_target_platform := target_platform;
     dir_target_audience := target_audience;
     dir_creative_concept := concept;
     dir_opening_pattern := opening_pattern;
     dir_hook_direction := hook_direction;
     dir_story_structure := story_structure;
     dir_tone := tone;
     dir_pacing := pacing;
     dir_visual_direction := visual_direction;
     dir_audio_direction := audio_direction;
     dir_cta_direction := cta_direction;
     dir_desired_emotion := desired_emotion;
     dir_required_claims := required_claims;
     dir_prohibited_claims := prohibited_claims;
     dir_required_assets := required_assets;
     dir_estimated_duration := estimated_duration;
     dir_production_complexity := production_complexity;
     dir_risk_notes := risk_notes;
     dir_worker_id := "creative_director_fixture";
     dir_provider := "fixture_test_only";
     dir_model := None;
     dir_prompt_version := "creative-director-v1-fixture";
     dir_status := "approved_for_writing";
     dir_test_data := true;
     dir_created_at := t;
     dir_created_by := Some actor_id |} in
insert_row st_directions direction_id direction;;
on_world flush;;
mret (direction_id, direction).

(** the item and its first version *)
Definition add_content (workspace_id actor_id : id) (fixture : pydict)
  (objective hook body cta : string) : SM (id * id) :=
target_length_seconds ←
  lift_result (integer_column (dict_get fixture "target_length_seconds" JNull));
item ← on_world uuid4;
on_world (insert_row w_items item
  (mk_item workspace_id objective target_length_seconds SCRIPTING CONTENT_ACTIVE None None
     (Some actor_id) (Some actor_id)));;
on_world flush;;
version ← on_world uuid4;
on_world (insert_row w_versions version
  (mk_version workspace_id item (Some hook) (Some body) (Some cta) (Some "writer-v1-fixture")
     (Some "writer_fixture") (Some actor_id)));;
on_world flush;;
on_world (modify w_items item (λ i, i <| item_current_version_id := Some version |>));;
mret (item, version).

Definition same_package_version (a b : ContentPackage) : bool :=
bool_decide (pkg_workspace_id a = pkg_workspace_id b) &&
bool_decide (pkg_content_version_id a = pkg_content_version_id b).

Definition add_package (workspace_id actor_id run_id direction_id strategy_brief_id item version : id)
  (previous : option ContentPackage) (fixture : pydict) (objective hook body cta : string) :
  SM id :=
revision_reason ← match previous with
                  | Some _ => text_field fixture "revision_reason" JNull
                  | None => mret None
                  end;
package_id ← on_world uuid4;
t ← on_world now;
insert_unique st_packages "uq_content_package_version" same_package_version package_id
  {| pkg_workspace_id := workspace_id;
     pkg_content_department_run_id := run_id;
     pkg_creative_direction_id := direction_id;
     pkg_strategy_brief_id := strategy_brief_id;
     pkg_content_item_id := item;
     pkg_content_version_id := version;
     pkg_prior_content_version_id := pkg_content_version_id <$> previous;
     pkg_revision_reason := revision_reason;
     pkg_writer_worker_id := "writer_fixture";
     pkg_provider := "fixture_test_only";
     pkg_model := None;
     pkg_prompt_version := "writer-v1-fixture";
     pkg_input_references :=
       JObj [("strategy_brief_id", JStr (uuid_str strategy_brief_id));
             ("creative_direction_id", JStr (uuid_str direction_id));
             ("business_brain_state", JStr "fixture_test_only")];
     pkg_package_fields :=
       JObj [("primary_hook", JStr hook); ("script", JStr body); ("cta", JStr cta);
             ("title", dict_get fixture "title" (JStr objective));
             ("description", dict_get fixture "description" (JStr "TEST DATA"))];
     pkg_status := "awaiting_audits";
     pkg_audit_gate_status := "not_ready";
     pkg_producer_handoff_state := "blocked";
     pkg_invalidated_at := None;
     pkg_test_data := true;
     pkg_created_at := t;
     pkg_created_by := Some actor_id;
     pkg_updated_by := Some actor_id;
     pkg_deleted_at := None |};;
on_world flush;;
mret package_id.

Definition as_claim (v : json) : result exn pydict :=
match v with JObj kv => Ok kv | _ => Raise TypeError end.

Definition add_claim (workspace_id actor_id package_id version : id) (v : json) : SM unit :=
claim ← lift_result (as_claim v);
claim_text ← lift_result (dict_item claim "claim_text");
text_value ← lift_result
  (Strategy._safe_text (Research.py_str json_text claim_text) "claim text" 12000);
claim_id ← on_world uuid4;
t ← on_world now;
insert_row st_claims claim_id
  {| claim_workspace_id := workspace_id;
     claim_content_package_id := package_id;
     claim_content_version_id := version;
     claim_claim_text := text_value;
     claim_claim_type := Research.py_str json_text (dict_get claim "claim_type" (JStr "FACT"));
     claim_source_required := truthy (dict_get claim "source_required" (JBool true));
     claim_supporting_evidence := [];
     claim_verification_status := "not_run";
     claim_confidence := Finite 0 0;
     claim_risk := Research.py_str json_text (dict_get claim "risk" (JStr "unknown"));
     claim_freshness := None;
     claim_evidence_reasoning := None;
     claim_test_data := true;
     claim_created_at := t;
     claim_created_by := Some actor_id;
     claim_updated_by := Some actor_id |}.

Definition same_fingerprint_version (a b : OriginalityFingerprint) : bool :=
bool_decide (orig_workspace_id a = orig_workspace_id b) &&
bool_decide (orig_content_version_id a = orig_content_version_id b).

Definition blocked_package (p : ContentPackage) : ContentPackage :=
p <| pkg_status := "audited_blocked" |> <| pkg_audit_gate_status := "blocked" |>
  <| pkg_producer_handoff_state := "blocked" |>.

(** the script's fingerprints, compared with those of the workspace *)
Definition check_originality (workspace_id actor_id package_id version : id)
  (hook body cta : string) : SM unit :=
let text_fingerprint := _fingerprint sha256 body in
found ← select st_fingerprints (λ _ f, in_workspace workspace_id (orig_workspace_id f) &&
  String.eqb (orig_text_fingerprint f) text_fingerprint);
duplicate ← scalar_one_or_none found;
fingerprint_id ← on_world uuid4;
t ← on_world now;
insert_unique st_fingerprints "uq_originality_fingerprint_version" same_fingerprint_version
  fingerprint_id
  {| orig_workspace_id := workspace_id;
     orig_content_package_id := package_id;
     orig_content_version_id := version;
     orig_text_fingerprint := text_fingerprint;
     orig_hook_fingerprint := _fingerprint sha256 hook;
     orig_structure_fingerprint := _structure_fingerprint sha256 [hook; body; cta];
     orig_semantic_reference := None;
     orig_comparison_set :=
       match duplicate with Some (_, f) => [uuid_str (orig_content_version_id f)] | None => [] end;
     orig_similarity_findings :=
       match duplicate with
       | Some _ => [JObj [("severity", JStr "high");
                          ("reason", JStr "duplicate script fingerprint");
                          ("state", JStr "blocked")]]
       | None => []
       end;
     orig_state :=
       match duplicate with Some _ => "require_differentiation" | None => "not_run" end;
     orig_test_data := true;
     orig_created_at := t;
     orig_created_by := Some actor_id |};;
match duplicate with
| Some _ => modify st_packages package_id blocked_package
| None => mret tt
end.

Definition superseded_package (t : time) (p : ContentPackage) : ContentPackage :=
p <| pkg_invalidated_at := Some t |> <| pkg_audit_gate_status := "invalidated" |>
  <| pkg_producer_handoff_state := "blocked" |> <| pkg_status := "superseded" |>.

Definition same_invalidation (a b : ContentAuditInvalidation) : bool :=
bool_decide (cinv_content_audit_id a = cinv_content_audit_id b) &&
bool_decide (cinv_content_version_id a = cinv_content_version_id b).

Definition invalidate_audit (workspace_id actor_id previous_id version : id)
  (p : id * ContentAudit) : SM unit :=
invalidation_id ← on_world uuid4;
t ← on_world now;
insert_unique st_audit_invalidations "uq_content_audit_invalidation" same_invalidation
  invalidation_id
  {| cinv_workspace_id := workspace_id;
     cinv_content_audit_id := p.1;
     cinv_content_package_id := previous_id;
     cinv_content_version_id := version;
     cinv_reason := "new immutable content version created";
     cinv_affected_dimensions := _MANDATORY_AUDITORS;
     cinv_created_at := t;
     cinv_created_by := Some actor_id |}.

Definition supersede (workspace_id actor_id previous_id : id) (previous : ContentPackage) : SM unit :=
t ← on_world now;
modify st_packages previous_id (superseded_package t);;
previous_audits ← select st_content_audits (λ _ a,
  in_workspace workspace_id (caud_workspace_id a) &&
  bool_decide (caud_content_package_id a = previous_id));
for_each previous_audits
  (invalidate_audit workspace_id actor_id previous_id (pkg_content_version_id previous)).

Definition prior_package (workspace_id : id) (prior_package_id : option id) :
  SM (option (id * ContentPackage)) :=
match prior_package_id with
| None => mret None
| Some i =>
    p ← get_package workspace_id i;
    match p with
    | None => raise (ContentDepartmentNotFoundError "prior content package not found")
    | Some p => mret (Some (i, p))
    end
end.

Definition fixture_trace : id := encode "content-department-test-fixture".

Definition record_fixture_package (workspace_id actor_id strategy_brief_id : id) (fixture : pydict)
  (prior_package_id : option id) : SM (id * id * id) :=
if negb (String.eqb environment "test")
then raise (RuntimeError "fixture content execution is test-only") else
b ← _require_strategy_pass workspace_id strategy_brief_id;
objective ← safe_field fixture "objective" (brief_objective b) "objective";
concept ← safe_field fixture "creative_concept" objective "creative concept";
hook ← safe_field fixture "hook" "A practical evidence-first opening." "hook";
body ← safe_field fixture "script" "Use approved evidence and avoid unsupported claims." "script";
cta ← safe_field fixture "cta" "Review the evidence before acting." "cta";
let script := join newline [hook; body; cta] in
if search _UNSUPPORTED_CLAIM script
then raise (ValueError "script contains unsupported performance or guarantee claim") else
previous ← prior_package workspace_id prior_package_id;
p ← add_run (λ correlation_id t,
  {| crun_workspace_id := workspace_id;
     crun_strategy_brief_id := strategy_brief_id;
     crun_trigger := "test_fixture";
     crun_status := "writing";
     crun_provider_state := "fixture_test_only";
     crun_business_context_state := "complete";
     crun_max_provider_calls := 0;
     crun_max_tokens := 0;
     crun_max_cost_usd := 0;
     crun_max_attempts := 1;
     crun_timeout_seconds := 60;
     crun_provider_calls_used := 0;
     crun_tokens_used := 0;
     crun_actual_cost_usd := 0;
     crun_creative_directions_created := 0;
     crun_packages_ready := 0;
     crun_packages_blocked := 0;
     crun_last_error := None;
     crun_correlation_id := correlation_id;
     crun_trace_id := Some fixture_trace;
     crun_test_data := true;
     crun_created_at := t;
     crun_created_by := Some actor_id;
     crun_updated_by := Some actor_id |});
let '(run_id, run) := p in
direction ← add_direction workspace_id actor_id run_id strategy_brief_id b fixture objective concept;
content ← add_content workspace_id actor_id fixture objective hook body cta;
package_id ← add_package workspace_id actor_id run_id direction.1 strategy_brief_id content.1
               content.2 (snd <$> previous) fixture objective hook body cta;
claim_payloads ← lift_result (py_list (dict_get fixture "claims" (JList (_extract_claims script))));
for_each claim_payloads (add_claim workspace_id actor_id package_id content.2);;
check_originality workspace_id actor_id package_id content.2 hook body cta;;
match previous with
| Some (previous_id, q) => supersede workspace_id actor_id previous_id q
| None => mret tt
end;;
modify st_content_runs run_id (λ r, r <| crun_creative_directions_created := 1 |>);;
_emit_run run_id run "content_department.fixture_package_created"
  (JObj [("content_package_id", JStr (uuid_str package_id)); ("test_data", JBool true)]);;
mret (run_id, direction.1, package_id).

(** ** Independent audits *)

Definition content_audit (workspace_id package_id : id) (p : ContentPackage)
  (auditor_type state : string) (findings : list json) (warnings blocked_reasons : list string)
  (evidence : list json) (t : time) : ContentAudit :=
{| caud_workspace_id := workspace_id;
   caud_content_package_id := package_id;
   caud_content_version_id := pkg_content_version_id p;
   caud_auditor_type := auditor_type;
   caud_auditor_worker_id := auditor_type +:+ "_auditor_fixture";
   caud_state := state;
   caud_artifact_snapshot := pkg_package_fields p;
   caud_requirements_snapshot :=
     JObj [("creative_direction_id", JStr (uuid_str (pkg_creative_direction_id p)));
           ("strategy_brief_id", JStr (uuid_str (pkg_strategy_brief_id p)));
           ("auditor_independent", JBool true)];
   caud_findings := findings;
   caud_warnings := warnings;
   caud_blocked_reasons := blocked_reasons;
   caud_evidence := evidence;
   caud_checked_at := t;
   caud_cost_usd := 0;
   caud_retry_history := [];
   caud_test_data := true;
   caud_created_at := t |}.

(** the direction of a package, read for its workspace *)
Definition direction_of (workspace_id : id) (p : ContentPackage) : SM CreativeDirection :=
direction ← session_get st_directions (pkg_creative_direction_id p);
match direction with
| Some d =>
    if in_workspace workspace_id (dir_workspace_id d) then mret d
    else raise (ContentDepartmentGateError "creative direction not found")
| None => raise (ContentDepartmentGateError "creative direction not found")
end.

Definition verified_claim (actor_id : id) (state : string) (c : ContentClaim) : ContentClaim :=
c <| claim_verification_status :=
      if bool_decide (state ∈ ["pass"; "pass_with_warning"]) then "verified" else "unverified" |>
  <| claim_evidence_reasoning := Some "independent fixture audit" |>
  <| claim_updated_by := Some actor_id |>.

Definition record_fixture_audit (workspace_id actor_id package_id : id)
  (auditor_type state : string) (findings : list json) (warnings blocked_reasons : list string)
  (evidence : list json) : SM (id * ContentAudit) :=
if negb (String.eqb environment "test")
then raise (RuntimeError "fixture content audits are test-only")
else if negb (bool_decide (auditor_type ∈ _ALLOWED_AUDITORS))
then raise (ValueError "unsupported content auditor")
else if negb (bool_decide (state ∈ ["pass"; "pass_with_warning"; "blocked"; "error"]))
then raise (ValueError "unsupported content audit state") else
package ← get_package workspace_id package_id;
match package with
| None => raise (ContentDepartmentNotFoundError "content package not found")
| Some p =>
    d ← direction_of workspace_id p;
    let auditor_worker_id := auditor_type +:+ "_auditor_fixture" in
    if bool_decide (auditor_worker_id ∈ [pkg_writer_worker_id p; dir_worker_id d])
    then raise (ContentDepartmentGateError
           "creator and auditor responsibilities must remain separate") else
    audit_id ← on_world uuid4;
    t ← on_world now;
    let audit := content_audit workspace_id package_id p auditor_type state findings warnings
                   blocked_reasons evidence t in
    insert_row st_content_audits audit_id audit;;
    when (String.eqb auditor_type "fact")
      (claims ← select st_claims (λ _ c, in_workspace workspace_id (claim_workspace_id c) &&
         bool_decide (claim_content_package_id c = package_id));
       for_each claims (λ c, modify st_claims c.1 (verified_claim actor_id state)));;
    on_world flush;;
    _recalculate_package_gate workspace_id package_id;;
    run ← get_run workspace_id (pkg_content_department_run_id p);
    match run with
    | None => mret tt
    | Some (run_id, run) =>
        package ← the st_packages package_id;
        when (String.eqb (pkg_audit_gate_status package) "pass")
          (modify st_content_runs run_id (λ r, r <| crun_packages_ready ::= Z.add 1 |>));;
        when (String.eqb (pkg_audit_gate_status package) "blocked")
          (modify st_content_runs run_id (λ r, r <| crun_packages_blocked ::= Z.add 1 |>));;
        _emit_run run_id run ("content_department.audit." +:+ auditor_type +:+ "." +:+ state)
          (JObj [("content_package_id", JStr (uuid_str package_id)); ("test_data", JBool true)])
    end;;
    mret (audit_id, audit)
end.
End Fixture.

(** ** The gate before the producer *)

(** the hand-off it answers: eligible (never, today), state *)
Definition producer_gate (workspace_id package_id : id) : SM (bool * string) :=
package ← get_package workspace_id package_id;
match package with
| None => raise (ContentDepartmentNotFoundError "content package not found")
| Some p =>
    if negb (String.eqb (pkg_audit_gate_status p) "pass")
    then raise (ContentDepartmentGateError
           "all mandatory independent content audits must pass before Producer eligibility")
    else mret (false, "provider_not_configured")
end.

(** ** Reading *)

Record PackageDetail : Type := mk_package_detail {
  pd_package : ContentPackage;
  pd_direction : CreativeDirection;
  pd_claims : list (id * ContentClaim);
  pd_audits : list (id * ContentAudit);
  pd_originality : option (id * OriginalityFingerprint);
  pd_invalidation_count : Z
}.

Definition package_detail (workspace_id package_id : id) : SM PackageDetail :=
package ← get_package workspace_id package_id;
match package with
| None => raise (ContentDepartmentNotFoundError "content package not found")
| Some p =>
    d ← direction_of workspace_id p;
    claims ← select st_claims (λ _ c, in_workspace workspace_id (claim_workspace_id c) &&
      bool_decide (claim_content_package_id c = package_id));
    audits ← select st_content_audits (λ _ a, in_workspace workspace_id (caud_workspace_id a) &&
      bool_decide (caud_content_package_id a = package_id));
    fingerprints ← select st_fingerprints (λ _ f, in_workspace workspace_id (orig_workspace_id f) &&
      bool_decide (orig_content_package_id f = package_id));
    originality ← scalar_one_or_none fingerprints;
    invalidations ← select_count st_audit_invalidations (λ _ v,
      in_workspace workspace_id (cinv_workspace_id v) &&
      bool_decide (cinv_content_package_id v = package_id));
    mret (mk_package_detail p d claims (desc_by (λ a, caud_checked_at a.2) audits) originality
            invalidations)
end.

Record ContentSummary : Type := mk_content_summary {
  cs_status : string;
  cs_current_run : option (id * ContentDepartmentRun);
  cs_last_run : option (id * ContentDepartmentRun);
  cs_creative_directions : Z;
  cs_packages_ready : Z;
  cs_packages_blocked : Z;
  cs_packages_in_progress : Z;
  cs_claims_unverified : Z;
  cs_last_error : option string;
  cs_business_context_state : string
}.

Definition summary (workspace_id : id) : SM ContentSummary :=
l ← select st_content_runs (λ _ r, in_workspace workspace_id (crun_workspace_id r));
let runs := desc_by (λ p, crun_created_at p.2) l in
let current :=
  head (filter (λ p, bool_decide (crun_status p.2 ∈ ["queued"; "writing"; "auditing"]) = true) runs) in
let last := head runs in
let mine p := in_workspace workspace_id (pkg_workspace_id p) && live (pkg_deleted_at p) in
ready ← select_count st_packages (λ _ p, mine p && String.eqb (pkg_audit_gate_status p) "pass");
blocked ← select_count st_packages (λ _ p, mine p && String.eqb (pkg_audit_gate_status p) "blocked");
in_progress ← select_count st_packages
                (λ _ p, mine p && negb (bool_decide (pkg_audit_gate_status p ∈ ["pass"; "blocked"])));
unverified ← select_count st_claims (λ _ c, in_workspace workspace_id (claim_workspace_id c) &&
  negb (bool_decide (claim_verification_status c ∈ ["verified"; "not_applicable"])));
directions ← select_count st_directions (λ _ d, in_workspace workspace_id (dir_workspace_id d));
business_context_state ← Strategy.get_business_context_state workspace_id;
mret (mk_content_summary
  (match last with Some (_, r) => crun_status r | None => "not_configured" end)
  current last directions ready blocked in_progress unverified
  (match last with
   | Some (_, r) => crun_last_error r
   | None => Some ("CONTENT PROVIDER NOT CONFIGURED" +:+
       (if String.eqb business_context_state "complete" then EmptyString
        else "; BUSINESS CONTEXT INCOMPLETE"))
   end)
  business_context_state).
End Department.
