(* ===== verification/Production.v ===== *)
(** * Production and media QA (services/production.py)

    A production job may be requested for a package whose content audits
    passed; an artifact is immutable under its hash, is judged by a worker
    other than its producer, and can be invalidated.  No provider is
    configured: a job is recorded as blocked. *)

From S2P Require Import Prelude Models Database Outbox Spend Text Decimal PyJson StudioModels.

Definition _package (workspace_id package_id : id) : SM ContentPackage :=
p ← session_get st_packages package_id;
match p with
| Some p => if in_workspace workspace_id (pkg_workspace_id p) then mret p
            else raise (ProductionNotFoundError "content package not found")
| None => raise (ProductionNotFoundError "content package not found")
end.

Record ProductionLimits : Type := mk_production_limits {
  pl_target_platform : option string;
  pl_target_format : option string;
  pl_target_duration_seconds : option Z;
  pl_max_provider_calls : Z;
  pl_max_render_calls : Z;
  pl_max_cost_usd : usd;
  pl_max_attempts : Z;
  pl_max_repair_cycles : Z;
  pl_timeout_seconds : Z
}.

(** [d.get(key, dflt)] of a stored dictionary *)
Definition field_get (v : json) (key : string) (dflt : json) : result exn json :=
match v with JObj kv => Ok (dict_get kv key dflt) | _ => Raise AttributeError end.

Definition create_production_run (workspace_id actor_id content_package_id : id)
  (limits : ProductionLimits) : SM (id * ProductionJob) :=
p ← _package workspace_id content_package_id;
if negb (String.eqb (pkg_audit_gate_status p) "pass")
then raise (ProductionEligibilityError
       "content package is not eligible for Producer; all independent content audits must pass")
else
job_id ← on_world uuid4;
assets ← lift_result (field_get (pkg_package_fields p) "required_assets" (JList []));
required_assets ← lift_result (py_list assets);
correlation_id ← on_world uuid4;
t ← on_world now;
let job :=
  {| pjob_workspace_id := workspace_id;
     pjob_content_package_id := content_package_id;
     pjob_content_item_id := pkg_content_item_id p;
     pjob_content_version_id := pkg_content_version_id p;
     pjob_pipeline_run_id := None;
     pjob_producer_worker_id := "producer";
     pjob_target_platform := pl_target_platform limits;
     pjob_target_format := pl_target_format limits;
     pjob_target_duration_seconds := pl_target_duration_seconds limits;
     pjob_required_assets := required_assets;
     pjob_provider_plan :=
       JObj [("mode", JStr "not_configured"); ("fallbacks", JList []);
             ("reason", JStr "no approved media-generation, TTS, or render provider is configured")];
     pjob_status := "blocked_provider_not_configured";
     pjob_provider_state := "not_configured";
     pjob_max_provider_calls := pl_max_provider_calls limits;
     pjob_max_render_calls := pl_max_render_calls limits;
     pjob_max_cost_usd := pl_max_cost_usd limits;
     pjob_max_total_cost_usd := pl_max_cost_usd limits;
     pjob_max_attempts := pl_max_attempts limits;
     pjob_max_repair_cycles := pl_max_repair_cycles limits;
     pjob_timeout_seconds := pl_timeout_seconds limits;
     pjob_deadline_at := None;
     pjob_provider_calls_used := 0;
     pjob_render_calls_used := 0;
     pjob_repair_cycles_used := 0;
     pjob_actual_cost_usd := 0;
     pjob_retry_count := 0;
     pjob_last_error := None;
     pjob_correlation_id := correlation_id;
     pjob_trace_id := None;
     pjob_started_at := None;
     pjob_completed_at := None;
     pjob_test_data := false;
     pjob_created_at := t;
     pjob_created_by := Some actor_id;
     pjob_updated_by := Some actor_id |} in
insert_row st_production_jobs job_id job;;
on_world flush;;
on_world (emit "production.requested.not_configured" workspace_id "production_job" job_id
  correlation_id None None
  (JObj [("content_package_id", JStr (uuid_str content_package_id));
         ("content_version_id", JStr (uuid_str (pkg_content_version_id p)));
         ("provider_state", JStr (pjob_provider_state job));
         ("max_cost_usd", usd_json (pjob_max_cost_usd job))]) "producer_v1" None 1);;
mret (job_id, job).

(** ** Queries *)

Definition list_jobs (workspace_id : id) : SM (list (id * ProductionJob)) :=
l ← select st_production_jobs (λ _ j, in_workspace workspace_id (pjob_workspace_id j));
mret (desc_by (λ p, pjob_created_at p.2) l).

Definition get_job (workspace_id production_job_id : id) : SM ProductionJob :=
j ← session_get st_production_jobs production_job_id;
match j with
| Some j => if in_workspace workspace_id (pjob_workspace_id j) then mret j
            else raise (ProductionNotFoundError "production job not found")
| None => raise (ProductionNotFoundError "production job not found")
end.

Definition _artifact (missing : exn) (workspace_id artifact_id : id) : SM FinalArtifact :=
a ← session_get st_artifacts artifact_id;
match a with
| Some a => if in_workspace workspace_id (art_workspace_id a) then mret a else raise missing
| None => raise missing
end.
Definition artifact_missing : exn := ProductionNotFoundError "final artifact not found".

Record JobDetail : Type := mk_job_detail {
  jd_job : ProductionJob;
  jd_assets : list (id * ProductionAsset);
  jd_artifacts : list (id * FinalArtifact);
  jd_media_qa : list (id * MediaQaResult);
  jd_repairs : list (id * ProductionRepair);
  jd_readiness : list (id * ProductionReadiness)
}.

Definition job_detail (workspace_id production_job_id : id) : SM JobDetail :=
job ← get_job workspace_id production_job_id;
assets ← select st_production_assets (λ _ a, in_workspace workspace_id (past_workspace_id a) &&
  bool_decide (past_production_job_id a = production_job_id));
artifacts ← select st_artifacts (λ _ a, in_workspace workspace_id (art_workspace_id a) &&
  bool_decide (art_production_job_id a = production_job_id));
let artifact_ids := map fst artifacts in
match artifact_ids with
| [] => mret (mk_job_detail job assets artifacts [] [] [])
| _ =>
    qa_rows ← select st_media_qa (λ _ q, in_workspace workspace_id (mqa_workspace_id q) &&
      bool_decide (mqa_final_artifact_id q ∈ artifact_ids));
    repairs ← select st_repairs (λ _ r, in_workspace workspace_id (prep_workspace_id r) &&
      bool_decide (prep_production_job_id r = production_job_id));
    readiness ← select st_readiness (λ _ r, in_workspace workspace_id (rdy_workspace_id r) &&
      bool_decide (rdy_final_artifact_id r ∈ artifact_ids));
    mret (mk_job_detail job assets artifacts qa_rows repairs readiness)
end.

(** ** Artifacts *)

Definition same_hash (a b : FinalArtifact) : bool :=
bool_decide (art_workspace_id a = art_workspace_id b) &&
String.eqb (art_artifact_hash a) (art_artifact_hash b).

Definition create_test_fixture_artifact (workspace_id actor_id production_job_id : id)
  (artifact_hash producer_worker_id : string) : SM (id * FinalArtifact) :=
job ← get_job workspace_id production_job_id;
if negb (pjob_test_data job)
then raise (ProducerGateError "test fixtures are allowed only for test-marked production jobs")
else
found ← select st_artifacts (λ _ a, in_workspace workspace_id (art_workspace_id a) &&
  String.eqb (art_artifact_hash a) artifact_hash);
duplicate ← scalar_one_or_none found;
match duplicate with
| Some _ => raise (ProducerGateError "identical final artifact hash already exists in this workspace")
| None =>
    artifact_id ← on_world uuid4;
    t ← on_world now;
    let artifact :=
      {| art_workspace_id := workspace_id;
         art_production_job_id := production_job_id;
         art_content_item_id := pjob_content_item_id job;
         art_content_version_id := pjob_content_version_id job;
         art_render_asset_id := None;
         art_render_provider := "test_fixture";
         art_render_job_id := None;
         art_artifact_hash := artifact_hash;
         art_storage_reference := JObj [("mode", JStr "test_fixture"); ("non_public", JBool true)];
         art_duration_seconds := None;
         art_resolution := JObj [];
         art_aspect_ratio := None;
         art_container := None;
         art_codec := None;
         art_cost_usd := 0;
         art_status := "ready";
         art_test_data := true;
         art_created_at := t;
         art_created_by := Some actor_id |} in
    insert_unique st_artifacts "uq_final_artifact_hash" same_hash artifact_id artifact;;
    on_world flush;;
    on_world (emit "production.artifact.fixture_created" workspace_id "final_artifact" artifact_id
      (pjob_correlation_id job) None None
      (JObj [("production_job_id", JStr (uuid_str production_job_id));
             ("artifact_hash", JStr artifact_hash)]) producer_worker_id None 1);;
    mret (artifact_id, artifact)
end.

Definition same_qa (a b : MediaQaResult) : bool :=
bool_decide (mqa_final_artifact_id a = mqa_final_artifact_id b) &&
String.eqb (mqa_artifact_hash a) (mqa_artifact_hash b).
Definition same_readiness (a b : ProductionReadiness) : bool :=
bool_decide (rdy_workspace_id a = rdy_workspace_id b) &&
bool_decide (rdy_final_artifact_id a = rdy_final_artifact_id b).

Definition create_test_media_qa (workspace_id actor_id final_artifact_id : id)
  (auditor_worker_id producer_worker_id status : string) : SM (id * MediaQaResult) :=
a ← _artifact artifact_missing workspace_id final_artifact_id;
if negb (art_test_data a)
then raise (ProducerGateError "test QA fixtures require a test-marked artifact")
else if String.eqb auditor_worker_id producer_worker_id
then raise (ProducerGateError "Producer cannot create or approve its own Media QA result")
else
qa_id ← on_world uuid4;
t ← on_world now;
let qa :=
  {| mqa_workspace_id := workspace_id;
     mqa_final_artifact_id := final_artifact_id;
     mqa_artifact_hash := art_artifact_hash a;
     mqa_auditor_worker_id := auditor_worker_id;
     mqa_status := status;
     mqa_checks_run := ["fixture_hash_binding"];
     mqa_visual_findings := [];
     mqa_audio_findings := [];
     mqa_subtitle_findings := [];
     mqa_script_alignment := JObj [];
     mqa_platform_check := JObj [("state", JStr "test_fixture")];
     mqa_package_alignment := JObj [("state", JStr "test_fixture")];
     mqa_evidence := [];
     mqa_recommended_repair := [];
     mqa_cost_usd := 0;
     mqa_started_at := Some t;
     mqa_completed_at := Some t;
     mqa_test_data := true;
     mqa_created_at := t |} in
insert_unique st_media_qa "uq_media_qa_artifact_hash" same_qa qa_id qa;;
readiness_id ← on_world uuid4;
insert_unique st_readiness "uq_production_readiness_artifact" same_readiness readiness_id
  {| rdy_workspace_id := workspace_id;
     rdy_final_artifact_id := final_artifact_id;
     rdy_content_version_id := art_content_version_id a;
     rdy_media_qa_state := status;
     rdy_compliance_state := "not_run";
     rdy_chief_audit_state := "not_run";
     rdy_human_review_state := "blocked";
     rdy_status := "blocked";
     rdy_blocking_reasons :=
       ["Compliance, Chief Auditor, and Human Review remain mandatory and are not fixture-approved"];
     rdy_total_cost_usd := 0;
     rdy_test_data := true;
     rdy_created_at := t;
     rdy_created_by := Some actor_id;
     rdy_updated_by := Some actor_id |};;
on_world flush;;
mret (qa_id, qa).

Section Production.
Context `{Unordered}.

Definition same_invalidation (a b : ArtifactInvalidation) : bool :=
bool_decide (ainv_final_artifact_id a = ainv_final_artifact_id b) &&
String.eqb (ainv_reason a) (ainv_reason b).

Definition blocked_readiness (actor_id : id) (r : ProductionReadiness) : ProductionReadiness :=
r <| rdy_media_qa_state := "invalidated" |> <| rdy_compliance_state := "invalidated" |>
  <| rdy_chief_audit_state := "invalidated" |> <| rdy_human_review_state := "blocked" |>
  <| rdy_status := "blocked" |>
  <| rdy_blocking_reasons := ["artifact changed or was invalidated; rerun required audits"] |>
  <| rdy_updated_by := Some actor_id |>.

Definition readiness_of (workspace_id final_artifact_id : id) :
  SM (option (id * ProductionReadiness)) :=
l ← select st_readiness (λ _ r, in_workspace workspace_id (rdy_workspace_id r) &&
  bool_decide (rdy_final_artifact_id r = final_artifact_id));
scalar_one_or_none l.

Definition invalidate_artifact (workspace_id actor_id final_artifact_id : id) (reason : string) :
  SM (id * ArtifactInvalidation) :=
_artifact artifact_missing workspace_id final_artifact_id;;
l ← select st_media_qa (λ _ q, in_workspace workspace_id (mqa_workspace_id q) &&
  bool_decide (mqa_final_artifact_id q = final_artifact_id));
let qa := latest_by (λ p, mqa_created_at p.2) l in
invalidation_id ← on_world uuid4;
t ← on_world now;
let invalidation :=
  {| ainv_workspace_id := workspace_id;
     ainv_final_artifact_id := final_artifact_id;
     ainv_media_qa_result_id := fst <$> qa;
     ainv_reason := reason;
     ainv_affected_dimensions := ["media_qa"; "compliance"; "chief_audit"; "human_review"];
     ainv_created_at := t;
     ainv_created_by := Some actor_id |} in
insert_unique st_artifact_invalidations "uq_artifact_invalidation_reason" same_invalidation
  invalidation_id invalidation;;
readiness ← readiness_of workspace_id final_artifact_id;
match readiness with
| Some (readiness_id, _) => modify st_readiness readiness_id (blocked_readiness actor_id)
| None => mret tt
end;;
on_world flush;;
mret (invalidation_id, invalidation).

Definition fixture_hash (sha256 : string → string) (label : string) : string := sha256 label.

(** ** The rollup of the production page *)

Record ProductionSummary : Type := mk_production_summary {
  ps_production_jobs : Z;
  ps_active_jobs : Z;
  ps_final_artifacts : Z;
  ps_media_qa_passed : Z;
  ps_media_qa_blocked : Z;
  ps_repair_required : Z;
  ps_compliance_ready : Z;
  ps_provider_cost_usd : usd;
  ps_last_error : option string
}.

Definition summary (workspace_id : id) : SM ProductionSummary :=
let mine j := in_workspace workspace_id (pjob_workspace_id j) in
let qa_in status q := in_workspace workspace_id (mqa_workspace_id q) &&
                      String.eqb (mqa_status q) status in
jobs ← select_count st_production_jobs (λ _ j, mine j);
active ← select_count st_production_jobs
           (λ _ j, mine j && bool_decide (pjob_status j ∈ ["queued"; "running"; "repairing"]));
cost ← select_sum st_production_jobs (λ _ j, if mine j then pjob_actual_cost_usd j else 0);
artifacts ← select_count st_artifacts (λ _ a, in_workspace workspace_id (art_workspace_id a));
passed ← select_count st_media_qa (λ _ q, qa_in "pass" q);
blocked ← select_count st_media_qa (λ _ q, qa_in "blocked" q);
repair ← select_count st_media_qa (λ _ q, qa_in "repair_required" q);
ready ← select_count st_readiness (λ _ r, in_workspace workspace_id (rdy_workspace_id r) &&
  String.eqb (rdy_status r) "compliance_ready");
failed ← select st_production_jobs
           (λ _ j, mine j && match pjob_last_error j with Some _ => true | None => false end);
mret (mk_production_summary jobs active artifacts passed blocked repair ready cost
  (latest_by (λ p, pjob_created_at p.2) failed ≫= λ p, pjob_last_error p.2)).
End Production.
