(* ===== verification/Compliance.v ===== *)
(** * Compliance and the Chief Auditor (services/compliance.py)

    Compliance may pass an artifact only after media QA passed it under the
    same hash; the chief auditor passes it to human review only when both
    did; whatever they say, external publishing is disabled.  Invalidations
    are recorded, and no gate reads them. *)

From S2P Require Import Prelude Models Database Outbox Spend Text Decimal PyJson StudioModels.
From S2P Require Production.

Definition DEFAULT_GATES : list string :=
["research_audit"; "strategy_audit"; "language_audit"; "fact_audit"; "brand_audit";
 "originality_audit"; "media_qa"; "compliance"; "chief_audit"; "human_review"].

Definition _artifact : id → id → SM FinalArtifact :=
Production._artifact (ComplianceNotFoundError "final artifact not found").

Section Compliance.
Context `{Unordered}.

(** ** The rows a gate looks at; the queries have no order *)

Definition media_qa_of (workspace_id artifact_id : id) (artifact_hash : string) :
  SM (option MediaQaResult) :=
l ← select st_media_qa (λ _ q, in_workspace workspace_id (mqa_workspace_id q) &&
  bool_decide (mqa_final_artifact_id q = artifact_id) &&
  String.eqb (mqa_artifact_hash q) artifact_hash);
mret (snd <$> first_row l).

Definition rights_of (workspace_id artifact_id : id) : SM (option ArtifactRightsEvidence) :=
l ← select st_rights (λ _ r, in_workspace workspace_id (right_workspace_id r) &&
  bool_decide (right_final_artifact_id r = artifact_id));
mret (snd <$> first_row l).

Definition compliance_of (workspace_id artifact_id : id) (artifact_hash : string) :
  SM (option ComplianceAudit) :=
l ← select st_compliance_audits (λ _ a, in_workspace workspace_id (comp_workspace_id a) &&
  bool_decide (comp_final_artifact_id a = artifact_id) &&
  String.eqb (comp_artifact_hash a) artifact_hash);
mret (snd <$> first_row l).

Definition chief_of (workspace_id artifact_id : id) (artifact_hash : string) :
  SM (option (id * ChiefAudit)) :=
l ← select st_chief_audits (λ _ a, in_workspace workspace_id (chief_workspace_id a) &&
  bool_decide (chief_final_artifact_id a = artifact_id) &&
  String.eqb (chief_artifact_hash a) artifact_hash);
mret (first_row l).

(** ** Requests from the browser *)

Record ComplianceLimits : Type := mk_compliance_limits {
  cl_max_provider_calls : Z;
  cl_max_verification_calls : Z;
  cl_max_tokens : Z;
  cl_max_cost_usd : usd;
  cl_max_attempts : Z
}.

Definition create_compliance_run (workspace_id actor_id final_artifact_id : id)
  (target_platform : string) (limits : ComplianceLimits) : SM (id * ComplianceAudit) :=
a ← _artifact workspace_id final_artifact_id;
media_qa ← media_qa_of workspace_id final_artifact_id (art_artifact_hash a);
rights ← rights_of workspace_id final_artifact_id;
audit_id ← on_world uuid4;
t ← on_world now;
let audit :=
  {| comp_workspace_id := workspace_id;
     comp_final_artifact_id := final_artifact_id;
     comp_artifact_hash := art_artifact_hash a;
     comp_content_version_id := art_content_version_id a;
     comp_target_platform := target_platform;
     comp_policy_source_id := None;
     comp_policy_version := None;
     comp_compliance_worker_id := "compliance";
     comp_input_snapshot :=
       JObj [("artifact_hash", JStr (art_artifact_hash a));
             ("media_qa", JStr (match media_qa with Some q => mqa_status q | None => "missing" end));
             ("rights", JStr (match rights with Some r => right_rights_status r | None => "missing" end));
             ("max_provider_calls", int_json (cl_max_provider_calls limits));
             ("max_verification_calls", int_json (cl_max_verification_calls limits));
             ("max_tokens", int_json (cl_max_tokens limits));
             ("max_cost_usd", usd_json (cl_max_cost_usd limits));
             ("max_attempts", int_json (cl_max_attempts limits))];
     comp_status := "blocked_provider_not_configured";
     comp_risk_level := "unknown";
     comp_findings := [JObj [("code", JStr "compliance_provider_not_configured");
                             ("severity", JStr "blocker")]];
     comp_evidence := [];
     comp_required_disclosures := [];
     comp_rights_status := match rights with Some r => right_rights_status r | None => "unverified" end;
     comp_reused_content_risk := "unknown";
     comp_monetization_risk := "unknown";
     comp_recommended_action := None;
     comp_provider_state := "not_configured";
     comp_provider_calls_used := 0;
     comp_verification_calls_used := 0;
     comp_token_count := 0;
     comp_cost_usd := 0;
     comp_retry_history := [];
     comp_started_at := Some t;
     comp_completed_at := Some t;
     comp_test_data := false;
     comp_created_at := t |} in
insert_row st_compliance_audits audit_id audit;;
on_world flush;;
correlation_id ← on_world uuid4;
on_world (emit "compliance.requested.not_configured" workspace_id "compliance_audit" audit_id
  correlation_id None None
  (JObj [("final_artifact_id", JStr (uuid_str final_artifact_id));
         ("artifact_hash", JStr (art_artifact_hash a))]) "compliance_v1" None 1);;
mret (audit_id, audit).

(** ** The test-only passes *)

Definition same_manifest (a b : AuditGateManifest) : bool :=
bool_decide (man_workspace_id a = man_workspace_id b) &&
String.eqb (man_content_type a) (man_content_type b) &&
(man_manifest_version a =? man_manifest_version b).

Definition create_test_manifest (workspace_id actor_id : id) : SM id :=
found ← select st_manifests (λ _ m, in_workspace workspace_id (man_workspace_id m) &&
  String.eqb (man_content_type m) "short_form_media" && (man_manifest_version m =? 1));
existing ← scalar_one_or_none found;
match existing with
| Some (manifest_id, _) => mret manifest_id
| None =>
    manifest_id ← on_world uuid4;
    t ← on_world now;
    insert_unique st_manifests "uq_audit_gate_manifest_version" same_manifest manifest_id
      {| man_workspace_id := workspace_id;
         man_content_type := "short_form_media";
         man_manifest_version := 1;
         man_required_gates := DEFAULT_GATES;
         man_requirements := JObj [("mode", JStr "test_fixture")];
         man_is_active := true;
         man_test_data := true;
         man_created_at := t;
         man_created_by := Some actor_id |};;
    on_world flush;;
    mret manifest_id
end.

Definition create_test_compliance_pass (workspace_id actor_id final_artifact_id : id)
  (worker_id : string) : SM (id * ComplianceAudit) :=
a ← _artifact workspace_id final_artifact_id;
media ← media_qa_of workspace_id final_artifact_id (art_artifact_hash a);
if negb (match media with Some q => String.eqb (mqa_status q) "pass" | None => false end)
then raise (ComplianceGateError "Media QA pass bound to exact artifact hash is required")
else
evidence_id ← on_world uuid4;
t ← on_world now;
insert_row st_rights evidence_id
  {| right_workspace_id := workspace_id;
     right_final_artifact_id := final_artifact_id;
     right_asset_id := None;
     right_origin := "test_fixture";
     right_provider_or_source := None;
     right_license_or_right_basis := None;
     right_generation_record := JObj [("mode", JStr "test_fixture")];
     right_source_reference := None;
     right_modification_lineage := JObj [("artifact_hash", JStr (art_artifact_hash a))];
     right_rights_status := "verified";
     right_test_data := true;
     right_created_at := t;
     right_created_by := Some actor_id |};;
on_world flush;;
audit_id ← on_world uuid4;
let audit :=
  {| comp_workspace_id := workspace_id;
     comp_final_artifact_id := final_artifact_id;
     comp_artifact_hash := art_artifact_hash a;
     comp_content_version_id := art_content_version_id a;
     comp_target_platform := "test";
     comp_policy_source_id := None;
     comp_policy_version := None;
     comp_compliance_worker_id := worker_id;
     comp_input_snapshot := JObj [("mode", JStr "test_fixture")];
     comp_status := "pass";
     comp_risk_level := "low";
     comp_findings := [];
     comp_evidence := [JObj [("mode", JStr "test_fixture")]];
     comp_required_disclosures := [];
     comp_rights_status := "verified";
     comp_reused_content_risk := "low";
     comp_monetization_risk := "low";
     comp_recommended_action := None;
     comp_provider_state := "test_fixture";
     comp_provider_calls_used := 0;
     comp_verification_calls_used := 0;
     comp_token_count := 0;
     comp_cost_usd := 0;
     comp_retry_history := [];
     comp_started_at := Some t;
     comp_completed_at := Some t;
     comp_test_data := true;
     comp_created_at := t |} in
insert_row st_compliance_audits audit_id audit;;
on_world flush;;
mret (audit_id, audit).

(** what the chief auditor holds against an artifact *)
Definition chief_objections (media : option MediaQaResult) (compliance : option ComplianceAudit) :
  list string :=
(if match media with Some q => String.eqb (mqa_status q) "pass" | None => false end
 then [] else ["media_qa_missing_or_not_pass"]) ++
(if match compliance with Some c => String.eqb (comp_status c) "pass" | None => false end
 then [] else ["compliance_missing_or_not_pass"]).

Definition run_test_chief_audit (workspace_id actor_id final_artifact_id : id) (worker_id : string) :
  SM (id * ChiefAudit) :=
a ← _artifact workspace_id final_artifact_id;
manifest_id ← create_test_manifest workspace_id actor_id;
media ← media_qa_of workspace_id final_artifact_id (art_artifact_hash a);
compliance ← compliance_of workspace_id final_artifact_id (art_artifact_hash a);
let blockers := chief_objections media compliance in
let clear := match blockers with [] => true | _ => false end in
let completeness := if clear then "complete" else "incomplete" in
audit_id ← on_world uuid4;
t ← on_world now;
let audit :=
  {| chief_workspace_id := workspace_id;
     chief_final_artifact_id := final_artifact_id;
     chief_artifact_hash := art_artifact_hash a;
     chief_content_version_id := art_content_version_id a;
     chief_gate_manifest_id := manifest_id;
     chief_chief_auditor_worker_id := worker_id;
     chief_gate_snapshot :=
       JObj [("required", JList (map JStr DEFAULT_GATES));
             ("media_qa", JStr (match media with Some q => mqa_status q | None => "missing" end));
             ("compliance", JStr (match compliance with Some c => comp_status c | None => "missing" end))];
     chief_lineage_status := completeness;
     chief_version_integrity_status := completeness;
     chief_cost_reconciliation_status := completeness;
     chief_provider_reconciliation_status := completeness;
     chief_warnings := [];
     chief_blockers := blockers;
     chief_evidence := [JObj [("mode", JStr "test_fixture")]];
     chief_status := if clear then "pass_to_human_review" else "blocked";
     chief_cost_usd := 0;
     chief_retry_history := [];
     chief_started_at := Some t;
     chief_completed_at := Some t;
     chief_test_data := true;
     chief_created_at := t |} in
insert_row st_chief_audits audit_id audit;;
on_world flush;;
mret (audit_id, audit).

(** ** Invalidation *)

Definition same_invalidation (a b : ComplianceInvalidation) : bool :=
bool_decide (compinv_compliance_audit_id a = compinv_compliance_audit_id b) &&
String.eqb (compinv_reason a) (compinv_reason b).

Definition invalidate_compliance (workspace_id actor_id compliance_audit_id : id) (reason : string) :
  SM (id * ComplianceInvalidation) :=
audit ← session_get st_compliance_audits compliance_audit_id;
match audit with
| Some c =>
    if negb (in_workspace workspace_id (comp_workspace_id c))
    then raise (ComplianceNotFoundError "compliance audit not found") else
    invalidation_id ← on_world uuid4;
    t ← on_world now;
    let invalidation :=
      {| compinv_workspace_id := workspace_id;
         compinv_compliance_audit_id := compliance_audit_id;
         compinv_final_artifact_id := comp_final_artifact_id c;
         compinv_reason := reason;
         compinv_affected_dimensions := ["chief_audit"; "human_review"; "publication_eligibility"];
         compinv_created_at := t;
         compinv_created_by := Some actor_id |} in
    insert_unique st_compliance_invalidations "uq_compliance_invalidation_reason" same_invalidation
      invalidation_id invalidation;;
    on_world flush;;
    mret (invalidation_id, invalidation)
| None => raise (ComplianceNotFoundError "compliance audit not found")
end.

(** ** Eligibility for publication *)

Definition same_eligibility (a b : ArtifactPublicationEligibility) : bool :=
bool_decide (elig_workspace_id a = elig_workspace_id b) &&
bool_decide (elig_final_artifact_id a = elig_final_artifact_id b) &&
String.eqb (elig_target_platform a) (elig_target_platform b).

Definition publication_eligibility (workspace_id actor_id final_artifact_id : id)
  (target_platform : string) : SM (id * ArtifactPublicationEligibility) :=
a ← _artifact workspace_id final_artifact_id;
chief ← chief_of workspace_id final_artifact_id (art_artifact_hash a);
readiness ← Production.readiness_of workspace_id final_artifact_id;
let blockers :=
  (if match readiness with Some (_, r) => String.eqb (rdy_media_qa_state r) "pass" | None => false end
   then [] else ["media_qa_not_passed"]) ++
  (if match chief with Some (_, c) => String.eqb (chief_status c) "pass_to_human_review" | None => false end
   then [] else ["chief_audit_not_passed"]) ++
  ["external_publishing_disabled"] in
row_id ← on_world uuid4;
t ← on_world now;
let row :=
  {| elig_workspace_id := workspace_id;
     elig_final_artifact_id := final_artifact_id;
     elig_artifact_hash := art_artifact_hash a;
     elig_content_version_id := art_content_version_id a;
     elig_target_platform := target_platform;
     elig_chief_audit_id := fst <$> chief;
     elig_review_gate_id := None;
     elig_review_decision_id := None;
     elig_status := "blocked";
     elig_blocking_reasons := blockers;
     elig_publication_eligible := false;
     elig_test_data := false;
     elig_created_at := t;
     elig_created_by := Some actor_id;
     elig_updated_by := Some actor_id |} in
insert_unique st_artifact_eligibility "uq_artifact_publication_eligibility" same_eligibility
  row_id row;;
on_world flush;;
mret (row_id, row).

(** ** Reading *)

Definition list_audits (workspace_id : id) : SM (list (id * ComplianceAudit)) :=
l ← select st_compliance_audits (λ _ a, in_workspace workspace_id (comp_workspace_id a));
mret (desc_by (λ p, comp_created_at p.2) l).
Definition list_chief_audits (workspace_id : id) : SM (list (id * ChiefAudit)) :=
l ← select st_chief_audits (λ _ a, in_workspace workspace_id (chief_workspace_id a));
mret (desc_by (λ p, chief_created_at p.2) l).
Definition list_review_packages (workspace_id : id) : SM (list (id * HumanReviewPackage)) :=
l ← select st_review_packages (λ _ p, in_workspace workspace_id (hrp_workspace_id p));
mret (desc_by (λ p, hrp_created_at p.2) l).

Record ComplianceSummary : Type := mk_compliance_summary {
  cps_compliance_audits : Z;
  cps_passed : Z;
  cps_blocked : Z;
  cps_human_review_packages : Z;
  cps_publication_eligible : Z;
  cps_provider_cost_usd : usd
}.

Definition summary (workspace_id : id) : SM ComplianceSummary :=
let mine a := in_workspace workspace_id (comp_workspace_id a) in
total_audits ← select_count st_compliance_audits (λ _ a, mine a);
passed ← select_count st_compliance_audits (λ _ a, mine a && String.eqb (comp_status a) "pass");
cost ← select_sum st_compliance_audits (λ _ a, if mine a then comp_cost_usd a else 0);
packages ← select_count st_review_packages (λ _ p, in_workspace workspace_id (hrp_workspace_id p));
eligible ← select_count st_artifact_eligibility
  (λ _ e, in_workspace workspace_id (elig_workspace_id e) && elig_publication_eligible e);
mret (mk_compliance_summary total_audits passed (total_audits - passed) packages eligible cost).
End Compliance.
