(* ===== verification/Dispatcher.v ===== *)
(** * The dispatcher (orchestration/dispatcher.py)

    Selecting a worker, creating an assignment, the lease of an assignment
    (acknowledge, renew) and the submission of its result. *)

From S2P Require Import Prelude Models Database Outbox Provenance Assignments Gates Retry Workflow Spend Controller Budgets.
From S2P Require Import Recovery Decimal.

Definition DEFAULT_MAX_CONCURRENT_ASSIGNMENTS : Z := 10.

Inductive DispatchOutcome : Type :=
| DISPATCHED | IDEMPOTENT | NO_WORKER | BACKPRESSURE | SPEND_HOLD | DISPATCH_SKIPPED.
#[export] Instance DispatchOutcome_eq_dec : EqDecision DispatchOutcome.
Proof. solve_decision. Defined.

Record DispatchResult : Type := mk_dispatch_result {
  dr_outcome : DispatchOutcome;
  dr_assignment : option positive
}.

(** ** Worker selection *)

Definition selectable (stage_key : ContentStage) (min_health_score : Z)
    (_ : positive) (w : WorkerRegistration) : bool :=
  bool_decide (wrk_status w = WORKER_ONLINE ∨ wrk_status w = WORKER_BUSY)
  && negb (wrk_drain w)
  && bool_decide (wrk_deregistered_at w = None)
  && (min_health_score <=? wrk_health_score w)
  && bool_decide (ContentStage_value stage_key ∈ wrk_supported_stages w)
  && (wrk_current_load w <? wrk_max_concurrency w).

(** [last_heartbeat_at ASC NULLS FIRST] *)
Definition heartbeat_le (a b : option time) : bool :=
  match a, b with
  | None, _ => true
  | Some _, None => false
  | Some x, Some y => x <=? y
  end.

Definition by_rank (p q : positive * WorkerRegistration) : bool :=
  let (a, b) := (p.2, q.2) in
  (wrk_health_score b <? wrk_health_score a)
  || ((wrk_health_score a =? wrk_health_score b)
      && ((wrk_current_load a <? wrk_current_load b)
          || ((wrk_current_load a =? wrk_current_load b)
              && heartbeat_le (wrk_last_heartbeat_at a) (wrk_last_heartbeat_at b)))).

Definition select_worker (stage_key : ContentStage) (min_health_score : Z)
    : M (option (positive * WorkerRegistration)) :=
  ws ← select w_workers (selectable stage_key min_health_score);
  mret (head (order_by by_rank ws)).

Section Dispatcher.
Context `{Settings}.

(** ** The lease *)

Definition check_extendable (a : StageAssignment) (worker_id : option positive)
    (now lease_seconds : Z) : M unit :=
  match worker_id with
  | None => mret tt
  | Some worker_id => lift_result (assert_lease_extendable a worker_id now lease_seconds)
  end.

Definition acknowledge (assignment : positive) (lease_seconds : option Z)
    (worker_id : option positive) : M unit :=
  t ← now;
  let secs := default assignment_lease_seconds lease_seconds in
  a ← the w_assignments assignment;
  check_extendable a worker_id t secs;;
  if bool_decide (worker_id ≠ None) && negb (bool_decide (asn_status a = ASN_DISPATCHED)) then
    raise (LeaseConflict "invalid_status")
  else
    modify w_assignments assignment (acknowledged_assignment t secs).

Definition renew_lease (assignment : positive) (lease_seconds : option Z)
    (worker_id : option positive) : M unit :=
  t ← now;
  let secs := default assignment_lease_seconds lease_seconds in
  a ← the w_assignments assignment;
  check_extendable a worker_id t secs;;
  modify w_assignments assignment (extend_lease t secs).

(** ** Dispatching a stage *)

Definition in_flight_in (workspace_id : positive) (_ : positive) (a : StageAssignment) : bool :=
  bool_decide (asn_workspace_id a = workspace_id) && in_flight a.

(** why a run does not get an assignment, if it does not *)
Definition dispatch_refusal (run : option PipelineRun) : option DispatchOutcome :=
  match run with
  | None => None
  | Some r =>
      if is_terminal (run_status r) then Some DISPATCH_SKIPPED
      else if bool_decide (run_status r = RUN_PAUSED) then
        if bool_decide (run_pause_reason r = Some PAUSE_SPEND_HOLD)
        then Some SPEND_HOLD else Some DISPATCH_SKIPPED
      else None
  end.

Definition create_assignment (workspace_id run : positive) (stage : ContentStage)
    (attempt_number : Z) (worker : option positive) (correlation_id : positive)
    (trace_id : option positive) (priority : Z) (provider : string) : M positive :=
  t ← now;
  span ← child_span trace_id;
  assignment ← add_assignment
    (new_assignment workspace_id run stage attempt_number worker t correlation_id span.1
       priority provider);
  match worker with
  | Some i => modify w_workers i take_slot
  | None => mret tt
  end;;
  flush;;
  emit "stage.assigned" workspace_id "pipeline_run" run correlation_id
    (Some span.1) (Some span.2)
    (JObj [("stage", JStr (ContentStage_value stage));
           ("attempt_number", JNum attempt_number 0);
           ("worker_id", match worker with Some i => JStr (uuid_str i) | None => JNull end);
           ("assignment_id", JStr (uuid_str assignment)); ("priority", JNum priority 0);
           ("provider", JStr provider)])
    "dispatcher" None 1;;
  mret assignment.

(** [workspace.priority_tier if workspace is not None else 0] *)
Definition default_priority (workspace_id : positive) : M Z :=
  ws ← session_get w_workspaces workspace_id;
  mret (base_priority_for_tier (match ws with Some w => ws_priority_tier w | None => 0 end)).

(** the rest of the dispatch, once a worker was looked for: at most one
    assignment per key, and a worker only gets it if its cost is reserved *)
Definition dispatch_to (workspace_id run : positive) (stage : ContentStage)
    (attempt_number : Z) (correlation_id : positive) (trace_id : option positive)
    (prio : Z) (effective_provider : string) (has_run : bool)
    (worker : option (positive * WorkerRegistration)) : M DispatchResult :=
  existing ← select w_assignments (keyed_as workspace_id (run, stage, attempt_number));
  already ← scalar_one_or_none existing;
  match already with
  | Some (i, _) => mret (mk_dispatch_result IDEMPOTENT (Some i))
  | None =>
      funded ←
        (if has_run && bool_decide (worker ≠ None) then
           r ← reserve_spend run stage effective_provider default_stage_estimate_usd;
           mret (bool_decide (r ≠ None))
         else mret true);
      if negb funded then mret (mk_dispatch_result SPEND_HOLD None)
      else
        i ← create_assignment workspace_id run stage attempt_number (fst <$> worker)
              correlation_id trace_id prio effective_provider;
        mret (mk_dispatch_result
                (match worker with None => NO_WORKER | Some _ => DISPATCHED end) (Some i))
  end.

(** no capacity in the workspace, or a run that gets no assignment *)
Definition dispatch_blocked (workspace_id pipeline_run_id : positive) : M (option DispatchOutcome) :=
  limit_row ← session_get w_limits workspace_id;
  let max_concurrent := match limit_row with
                        | Some l => lim_max_concurrent_assignments l
                        | None => DEFAULT_MAX_CONCURRENT_ASSIGNMENTS end in
  inflight ← select_count w_assignments (in_flight_in workspace_id);
  if max_concurrent <=? inflight then mret (Some BACKPRESSURE)
  else
    run ← session_get w_runs pipeline_run_id;
    mret (dispatch_refusal run).

Definition dispatch_stage (workspace_id pipeline_run_id : positive) (stage : ContentStage)
    (attempt_number : Z) (correlation_id : positive) (trace_id : option positive)
    (provider : option string) (priority : option Z) : M DispatchResult :=
  blocked ← dispatch_blocked workspace_id pipeline_run_id;
  match blocked with
  | Some outcome => mret (mk_dispatch_result outcome None)
  | None =>
      run_for_spend ← session_get w_runs pipeline_run_id;
      prio ← match priority with Some p => mret p | None => default_priority workspace_id end;
      provider_ok ← has_provider_capacity workspace_id provider;
      worker ← (if provider_ok : bool then select_worker stage 50 else mret None);
      dispatch_to workspace_id pipeline_run_id stage attempt_number correlation_id trace_id prio
        (if blank provider then "draft_desk" else default "draft_desk" provider)
        (bool_decide (run_for_spend ≠ None)) worker
  end.

(** The scheduler dispatches by the text of a stage.  A text that is none
    is refused by the column once the row is to be stored. *)
Definition dispatch_named (workspace_id pipeline_run_id : positive) (stage : string)
    (attempt_number : Z) (correlation_id : positive) (trace_id : option positive) : M DispatchResult :=
  match ContentStage_of_value stage with
  | Some stage => dispatch_stage workspace_id pipeline_run_id stage attempt_number correlation_id
                    trace_id None None
  | None =>
      blocked ← dispatch_blocked workspace_id pipeline_run_id;
      match blocked with
      | Some outcome => mret (mk_dispatch_result outcome None)
      | None => raise (DataError stage)
      end
  end.

(** ** Submitting a result *)

(** [session.add(PipelineStageRun(...)); flush()] under the unique key *)
Definition insert_stage_run (key : positive * ContentStage * Z) (row : PipelineStageRun) : M unit :=
  o ← session_get w_stage_runs key;
  match o with
  | Some _ => raise (IntegrityError "uq_pipeline_stage_runs_attempt")
  | None => uuid4;; insert_row w_stage_runs key row;; flush
  end.

Definition by_created_desc (p q : positive * SpendReservation) : bool :=
  rsv_created_at q.2 <=? rsv_created_at p.2.

Definition latest_open_reservation (run : positive) (stage : ContentStage) : M (option positive) :=
  rs ← select w_reservations (open_for_stage run stage);
  mret (fst <$> head (order_by by_created_desc rs)).

(** what a successful result is charged: the worker's figure if it is a
    number, else the estimate *)
Definition reported_cost (res : option json) : result exn usd :=
  match res with
  | Some (JObj kv) =>
      match default JNull (obj_get kv "estimated_cost_usd") with
      | JNull => Ok default_stage_estimate_usd
      | v => match decimal_of_json v with
             | Some (Finite m x) => Ok (decimal_usd m x)
             | Some (Infinite neg) => Ok (if neg then -1 else usd_above)
             | Some NaN => Raise (ValueError "InvalidOperation")
             | None => Ok default_stage_estimate_usd
             end
      end
  | _ => Ok default_stage_estimate_usd
  end.

Definition commit_open (run : positive) (stage : ContentStage) (res : option json) : M unit :=
  open_reservation ← latest_open_reservation run stage;
  match open_reservation with
  | None => mret tt
  | Some rsv => match reported_cost res with
                | Ok actual => commit_spend run rsv actual
                | Raise e => raise e
                end
  end.

Definition release_open (run : positive) (stage : ContentStage) : M unit :=
  open_reservation ← latest_open_reservation run stage;
  match open_reservation with
  | None => mret tt
  | Some rsv => release_spend run rsv
  end.

(** the reaction of the run to the result *)
Definition react_to_result (a : StageAssignment) (r : PipelineRun) (success : bool)
    (res : option json) (error_message : string) : M unit :=
  let run := asn_pipeline_run_id a in
  let context := default (JObj []) res in
  if success then
    span ← child_span (asn_trace_id a);
    corr ← match asn_correlation_id a with Some c => mret c | None => run_correlation r end;
    emit "stage.completed" (asn_workspace_id a) "pipeline_run" run corr
      (Some span.1) (Some span.2)
      (JObj [("stage", JStr (ContentStage_value (asn_stage a)));
             ("attempt_number", JNum (asn_attempt_number a) 0); ("context", context)])
      "dispatcher" None 1;;
    commit_open run (asn_stage a) res;;
    handle_stage_success run (asn_stage a) context
  else
    release_open run (asn_stage a);;
    handle_stage_failure run (asn_stage a) (asn_attempt_number a) error_message.

(** the row the result is recorded as *)
Definition result_row (a : StageAssignment) (r : PipelineRun) (success : bool)
    (error_message : string) (t : time) : PipelineStageRun :=
  mk_stage_run (asn_workspace_id a) (asn_pipeline_run_id a) (run_content_item_id r) (asn_stage a)
    (asn_attempt_number a) (if success then SRUN_SUCCEEDED else SRUN_FAILED)
    (if success then None else Some error_message) (asn_dispatched_at a) (Some t).

Definition submit_result (assignment : positive) (success : bool) (res : option json)
    (error_message : string) (worker_id : option positive) : M unit :=
  t ← now;
  a ← the w_assignments assignment;
  lift_result (submit_check a worker_id t);;
  modify w_assignments assignment (submitted_assignment t success res);;
  match asn_worker_id a with
  | Some i => modify w_workers i finish_slot
  | None => mret tt
  end;;
  let run := asn_pipeline_run_id a in
  ro ← session_get w_runs run;
  match ro with
  | None => mret tt
  | Some r =>
      insert_stage_run (run, asn_stage a, asn_attempt_number a)
        (result_row a r success error_message t);;
      react_to_result a r success res error_message
  end.
End Dispatcher.

(** ** Frames *)

Lemma elem_of_head_order_by {A} (le : A → A → bool) l x :
  head (order_by le l) = Some x → x ∈ l.
Proof.
  intros Hh. apply (elem_of_order_by le). destruct (order_by le l); [done|].
  injection Hh as ->. by left.
Qed.

(** The worker selected has a free slot. *)
Lemma select_worker_free s n w i wk w' :
  select_worker s n w = (Ok (Some (i, wk)), w') →
  w' = w ∧ w_workers w !! i = Some wk ∧ wrk_current_load wk < wrk_max_concurrency wk.
Proof.
  unfold select_worker. rewrite run_bind. simpl. intros [= Hh <-].
  apply elem_of_head_order_by, elem_of_rows in Hh as [Hi Hs].
  split_and!; [done|done|]. unfold selectable in Hs. rewrite !andb_true_iff in Hs.
  destruct Hs as [_ Hs]. by apply Z.ltb_lt.
Qed.

Section ReadFrames.
Context `{Settings} (R : relation World) `{!Engine R}.

Lemma keeps_select_worker s n : keeps R (select_worker s n).
Proof using All. unfold select_worker. keeps_tac. Qed.
Lemma keeps_check_extendable a i t n : keeps R (check_extendable a i t n).
Proof using All. unfold check_extendable. keeps_tac. Qed.
End ReadFrames.
#[export] Hint Resolve keeps_select_worker keeps_check_extendable : keeps.

Section SpendFrames.
Context `{Settings} (R : relation World) `{!Engine R, !SpendSafe R}.

Lemma keeps_release_open run s : keeps R (release_open run s).
Proof using All. unfold release_open, latest_open_reservation. keeps_tac. Qed.
Lemma keeps_commit_open run s res : keeps R (commit_open run s res).
Proof using All.
  intros w. unfold commit_open, latest_open_reservation. rewrite run_bind. simpl.
  destruct (head _) as [[i r]|] eqn:Hh; simpl; [|done].
  assert (Hin : (i, r) ∈ rows (open_for_stage run s) (w_reservations w)).
  { apply elem_of_order_by with (le := by_created_desc).
    destruct (order_by _ _); [done|]. injection Hh as ->. by left. }
  apply elem_of_rows in Hin as [Hi [Hrun _]%bool_decide_eq_true].
  destruct (reported_cost res); [|done]. apply spend_safe_commit. by exists r.
Qed.
End SpendFrames.
#[export] Hint Resolve keeps_release_open keeps_commit_open : keeps.

Section ReactFrames.
Context `{Settings} (R : relation World) `{!Engine R, !RunStable R, !SpendSafe R, !JobRows R,
  !GateRows R, !Moves R, !DeadLetters R}.

Lemma keeps_react_to_result a r s res e :
  keeps_under (sourced (asn_pipeline_run_id a) (asn_stage a)) R (react_to_result a r s res e).
Proof using All.
  unfold react_to_result. destruct s.
  - do 4 (apply keeps_under_bind; [apply _|keeps_tac|keeps_tac|intros ?]).
    by apply keeps_handle_stage_success; apply _.
  - apply keeps_under_bind; [apply _|keeps_tac|keeps_tac|intros ?].
    by apply keeps_handle_stage_failure; apply _.
Qed.
End ReactFrames.

Section Frames.
Context `{Settings} (R : relation World) `{!Engine R, !RunStable R, !SpendSafe R,
  !AssignmentRows R, !WorkerSlots R}.

(** A worker goes on only if [assert_lease_extendable] lets it. *)
Lemma keeps_checked j a i t secs (k : M unit) :
  (assert_lease_extendable a i t secs = Ok tt → keeps_under (asn_at j a) R k) →
  keeps_under (asn_at j a) R (check_extendable a (Some i) t secs;; k).
Proof using All.
  intros Hk. apply keeps_under_lift; [apply _|]. by intros [].
Qed.

Lemma keeps_acknowledge j n i : keeps R (acknowledge j n (Some i)).
Proof using All.
  unfold acknowledge. apply keeps_bind; [apply _|keeps_tac|intros t].
  apply (keeps_bind_post (asn_at j)); [apply _|keeps_tac|by intros ??? [? ->]%the_ok_inv|intros a].
  apply keeps_checked. intros Hx. rewrite bool_decide_true by done. simpl.
  destruct (bool_decide_reflect (asn_status a = ASN_DISPATCHED)) as [Hs|]; simpl;
    [|apply keeps_under_keeps; keeps_tac].
  apply keeps_step_at; [apply _..|by eapply step_acknowledged|done].
Qed.
Lemma keeps_renew_lease j n i : keeps R (renew_lease j n (Some i)).
Proof using All.
  unfold renew_lease. apply keeps_bind; [apply _|keeps_tac|intros t].
  apply (keeps_bind_post (asn_at j)); [apply _|keeps_tac|by intros ??? [? ->]%the_ok_inv|intros a].
  apply keeps_checked. intros Hx. apply keeps_step_at; [apply _..|by eapply step_renewed|done].
Qed.

(** the worker an assignment goes to has a free slot *)
Definition has_slot (worker : option positive) (w : World) : Prop :=
  match worker with
  | Some i => ∃ wk, w_workers w !! i = Some wk ∧ wrk_current_load wk < wrk_max_concurrency wk
  | None => True
  end.

(** the assignment is one its run was brought to, and its worker is free *)
Definition assignable (run : positive) (stage : ContentStage) (worker : option positive)
    (w : World) : Prop := has_slot worker w ∧ sourced run stage w.

Lemma keeps_create_assignment ws r s n wk c t p pr :
  keeps_under (λ w, assignable r s wk w ∧ unkeyed ws (r, s, n) w) R
    (create_assignment ws r s n wk c t p pr).
Proof using All.
  unfold create_assignment. do 2 (apply keeps_under_bind; [apply _|keeps_tac|keeps_tac|intros ?]).
  apply (keeps_under_seq _ _ (λ _, has_slot wk)).
  - intros w [[_ Hs] Hk]. by apply (asn_add _ (r, s, n)).
  - intros w i w' [[Hs _] _] [= <- <-]. exact Hs.
  - intros i. apply keeps_under_last; [apply _| |intros _; keeps_tac].
    destruct wk as [j|]; [|apply keeps_under_keeps; keeps_tac].
    intros w (wk & Hi & Hl). by apply (slot_take j w wk).
Qed.

#[export] Instance assignable_stable run stage worker : RunStable (preserved (assignable run stage worker)).
Proof. intros i g Hg w [Hs Hr]. split; [exact Hs|by apply (run_sourced run stage i g Hg)]. Qed.

(** the dispatch once a worker was looked for *)
Lemma keeps_dispatch_to ws r s n c t prio eff refund wk :
  keeps_under (assignable r s (fst <$> wk)) R (dispatch_to ws r s n c t prio eff refund wk).
Proof using All.
  pose proof (λ Q HQ run stage p, @spend_safe_reserve Q HQ run stage p _ stage_estimate_ge0).
  unfold dispatch_to.
  apply (keeps_under_seq _ _ (λ existing w, assignable r s (fst <$> wk) w ∧
    (existing = [] → unkeyed ws (r, s, n) w))); [apply keeps_under_keeps; keeps_tac| |].
  { intros w existing w' Hs [= He <-]. split; [done|]. intros -> j b Hj.
    exact (rows_nil _ _ j b He Hj). }
  intros existing. apply (keeps_under_seq _ _ (λ already w, assignable r s (fst <$> wk) w ∧
    (already = None → unkeyed ws (r, s, n) w))); [apply keeps_under_keeps; keeps_tac| |].
  { intros w o w' [Hs Hk] [-> Ho]%scalar_one_or_none_inv. split; [done|]. intros ->.
    apply Hk. by destruct Ho as [[? _]|(? & _ & ?)]. }
  intros [[i a']|]; [apply keeps_under_keeps; keeps_tac|].
  intros w [Hs Hk]. specialize (Hk eq_refl). revert w Hs Hk.
  cut (keeps_under (λ w, assignable r s (fst <$> wk) w ∧ unkeyed ws (r, s, n) w) R
    (funded ←
        (if refund && bool_decide (wk ≠ None) then
           r ← reserve_spend r s eff default_stage_estimate_usd;
           mret (bool_decide (r ≠ None))
         else mret true);
      if negb funded then mret (mk_dispatch_result SPEND_HOLD None)
      else
        i ← create_assignment ws r s n (fst <$> wk) c t prio eff;
        mret (mk_dispatch_result
                (match wk with None => NO_WORKER | Some _ => DISPATCHED end) (Some i)))).
  { intros Hcut w Hs Hk. by apply Hcut. }
  apply (keeps_under_seq _ _ (λ _ w, assignable r s (fst <$> wk) w ∧ unkeyed ws (r, s, n) w));
    [apply keeps_under_keeps; keeps_tac| |intros funded].
  { intros w b w' [Ha Hk] Hm. split.
    - refine (keeps_run (preserved (assignable r s (fst <$> wk))) _ _ _ _ _ Hm Ha). keeps_tac.
    - refine (keeps_run (preserved (unkeyed ws (r, s, n))) _ _ _ _ _ Hm Hk). keeps_tac. }
  destruct (negb funded); [apply keeps_under_keeps; keeps_tac|].
  apply keeps_under_last; [apply _|apply keeps_create_assignment|intros ?; keeps_tac].
Qed.

Lemma keeps_dispatch_stage ws r s n c t p pr :
  keeps_under (sourced r s) R (dispatch_stage ws r s n c t p pr).
Proof using All.
  unfold dispatch_stage, default_priority.
  apply keeps_under_bind; [apply _|unfold dispatch_blocked; keeps_tac..|intros [?|]];
    [apply keeps_under_keeps; keeps_tac|].
  do 3 (apply keeps_under_bind; [apply _|keeps_tac|keeps_tac|intros ?]).
  apply (keeps_under_seq _ _ (λ wk, assignable r s (fst <$> wk)));
    [apply keeps_under_keeps; keeps_tac| |intros wk; apply keeps_dispatch_to].
  intros w wk w' Hs Hsel. destruct (_ : bool); [|by injection Hsel as <- <-].
  destruct wk as [[i wk]|].
  - apply select_worker_free in Hsel as (-> & Hi & Hl). split; [by exists wk|done].
  - split; [done|]. unfold select_worker in Hsel. rewrite run_bind in Hsel. by injection Hsel as _ <-.
Qed.

Lemma keeps_dispatch_named ws r name n c t :
  keeps_under (λ w, ∀ s, ContentStage_of_value name = Some s → sourced r s w) R
    (dispatch_named ws r name n c t).
Proof using All.
  unfold dispatch_named, dispatch_blocked. destruct (ContentStage_of_value name) as [s|].
  - intros w Hs. by apply keeps_dispatch_stage, Hs.
  - apply keeps_under_keeps. keeps_tac.
Qed.

Lemma keeps_submit_result `{!Closed w_stage_runs R, !JobRows R, !GateRows R, !Moves R,
    !DeadLetters R} j s res e i : keeps R (submit_result j s res e (Some i)).
Proof using All.
  unfold submit_result, insert_stage_run. apply keeps_bind; [apply _|keeps_tac|intros t].
  apply (keeps_bind_post (asn_at j)); [apply _|keeps_tac|by intros ??? [? ->]%the_ok_inv|intros a].
  apply keeps_under_lift; [apply _|]. intros [] Hx.
  apply (keeps_under_seq _ _ (λ _, sourced (asn_pipeline_run_id a) (asn_stage a))).
  { apply keeps_step_at; [apply _..|by eapply step_submitted|done]. }
  { intros w [] w' Ha [= <-]. apply sourced_modify_assignment; [done|].
    do 2 right; left. by exists j, a. }
  intros _. do 2 (apply keeps_under_bind; [apply _|keeps_tac|keeps_tac|intros ?]).
  case_match; [|apply keeps_under_keeps; keeps_tac].
  apply keeps_under_bind; [apply _|keeps_tac|keeps_tac|intros ?].
  by apply keeps_react_to_result; apply _.
Qed.
End Frames.
#[export] Hint Resolve keeps_acknowledge keeps_renew_lease keeps_submit_result : keeps.
