(* ===== verification/Scheduler.v ===== *)
(** * The scheduler (orchestration/scheduler.py)

    One tick selects due jobs in priority order, spreads the batch over the
    workspaces round-robin within each workspace's allowance and leases them;
    a leased job is carried out and retired, parked or rescheduled. *)

From S2P Require Import Prelude Models Database Outbox Provenance Assignments Gates Retry Workflow Spend Controller.
From S2P Require Import Budgets Recovery Dispatcher.

Definition DEFAULT_MAX_PER_WORKSPACE_PER_TICK : Z := 5.
Definition LEASE_SECONDS : Z := 30.
Definition NO_WORKER_MAX_RETRIES : Z := 20.
Definition NO_WORKER_RETRY_BASE_SECONDS : Z := 5.
Definition NO_WORKER_RETRY_MAX_SECONDS : Z := 120.
Definition SPEND_HOLD_RETRY_SECONDS : Z := 60.

(** ** Fair selection *)

Definition due (now : time) (_ : positive) (j : JobSchedule) : bool :=
  bool_decide (job_status j = JOB_PENDING) && (job_run_after j <=? now).

(** [ORDER BY priority DESC, run_after ASC] *)
Definition by_priority (p q : positive * JobSchedule) : bool :=
  (job_priority q.2 <? job_priority p.2)
  || ((job_priority q.2 =? job_priority p.2) && (job_run_after p.2 <=? job_run_after q.2)).

(** A workspace in the round robin: its jobs in order, its allowance for the
    tick and its cursor. *)
Record Lane : Type := mk_lane {
  lane_workspace : positive;
  lane_jobs : list positive;
  lane_limit : Z;
  lane_cursor : nat
}.
#[export] Instance lane_settable : Settable Lane := λ r,
  mk_lane (lane_workspace r) (lane_jobs r) (lane_limit r) (lane_cursor r).

(** [cursors[ws] < min(len(jobs), limits[ws])] *)
Definition lane_bound (l : Lane) : nat := (length (lane_jobs l) `min` Z.to_nat (lane_limit l))%nat.
Definition lane_open (l : Lane) : bool := (lane_cursor l <? lane_bound l)%nat.

(** [by_workspace], a dict in order of first insertion *)
Fixpoint add_to_lanes (ws job : positive) (lanes : list Lane) : list Lane :=
  match lanes with
  | [] => [mk_lane ws [job] 0 0]
  | l :: lanes =>
      if decide (lane_workspace l = ws)
      then l <| lane_jobs ::= λ js, js ++ [job] |> :: lanes
      else l :: add_to_lanes ws job lanes
  end.
Definition group_by_workspace (jobs : list (positive * JobSchedule)) : list Lane :=
  foldl (λ lanes p, add_to_lanes (job_workspace_id p.2) p.1 lanes) [] jobs.

(** the [for ws, jobs in by_workspace.items()] loop *)
Fixpoint rr_pass (batch_size : nat) (lanes : list Lane) (leased : list positive)
    : list Lane * list positive :=
  match lanes with
  | [] => ([], leased)
  | l :: rest =>
      if (batch_size <=? length leased)%nat then (lanes, leased)
      else if lane_open l then
        match lane_jobs l !! lane_cursor l with
        | Some job =>
            let '(rest, leased) := rr_pass batch_size rest (leased ++ [job]) in
            (l <| lane_cursor ::= S |> :: rest, leased)
        | None => (lanes, leased)
        end
      else
        let '(rest, leased) := rr_pass batch_size rest leased in (l :: rest, leased)
  end.

(** the [while] loop; [fuel] passes *)
Fixpoint rr_loop (fuel batch_size : nat) (lanes : list Lane) (leased : list positive)
    : option (list Lane * list positive) :=
  if (length leased <? batch_size)%nat && existsb lane_open lanes then
    match fuel with
    | O => None
    | S fuel => let '(lanes, leased) := rr_pass batch_size lanes leased in
                rr_loop fuel batch_size lanes leased
    end
  else Some (lanes, leased).

(** Every pass leases a job, so [batch_size] passes are enough
    (theorem [Scheduling.round_robin_terminates]). *)
Definition round_robin (batch_size : nat) (lanes : list Lane) : option (list positive) :=
  snd <$> rr_loop batch_size batch_size lanes [].

Definition fairness_limit (ws : positive) : M Z :=
  row ← session_get w_limits ws;
  effective_scheduler_tick_limit ws
    (match row with
     | Some l => lim_max_per_scheduler_tick l
     | None => DEFAULT_MAX_PER_WORKSPACE_PER_TICK
     end).

Definition with_limit (l : Lane) : M Lane :=
  n ← fairness_limit (lane_workspace l);
  mret (l <| lane_limit := n |>).

Definition lease_job (owner : positive) (now : time) (job : positive) : M unit :=
  modify w_jobs job (λ j, j <| job_status := JOB_LEASED |>
                            <| job_lease_owner := Some owner |>
                            <| job_lease_expires_at := Some (now + seconds LEASE_SECONDS) |>).

Definition poll_and_lease (batch_size : nat) : M (list positive) :=
  owner ← uuid4;
  t ← now;
  jobs ← select w_jobs (due t);
  lanes ← collect (group_by_workspace (take (batch_size * 3) (order_by by_priority jobs))) with_limit;
  match round_robin batch_size lanes with
  | None => raise (RuntimeError "out of fuel")
  | Some leased => for_each leased (lease_job owner t);; mret leased
  end.

Definition job_lease_expired (now : time) (_ : positive) (j : JobSchedule) : bool :=
  bool_decide (job_status j = JOB_LEASED)
  && match job_lease_expires_at j with Some l => l <? now | None => false end.

Definition drop_lease (j : JobSchedule) : JobSchedule :=
  j <| job_lease_owner := None |> <| job_lease_expires_at := None |>.

Definition reap_expired_job_leases (batch_size : nat) : M Z :=
  t ← now;
  expired ← select w_jobs (job_lease_expired t);
  let expired := take batch_size expired in
  for_each expired (λ p, modify w_jobs p.1 (λ j,
    drop_lease (j <| job_status := JOB_PENDING |> <| job_attempt ::= Z.succ |>)));;
  mret (Z.of_nat (length expired)).

(** ** Carrying out a job *)

Definition finish_job (job : positive) (s : JobScheduleStatus) : M unit :=
  modify w_jobs job (λ j, j <| job_status := s |>).

Definition park_job (job : positive) (run_after : time) : M unit :=
  modify w_jobs job (λ j, drop_lease (j <| job_status := JOB_PENDING |>
                                        <| job_run_after := run_after |>)).

Section Process.
Context `{Settings}.

Definition open_assignment_at (run : positive) (stage : ContentStage) (i : positive)
    (a : StageAssignment) : bool :=
  open_assignment_of run i a && bool_decide (asn_stage a = stage).

Lemma open_assignment_at_open run s i a :
  open_assignment_at run s i a = true → asn_open a = true.
Proof. by intros [Ho _]%andb_true_iff; apply open_assignment_of_open in Ho. Qed.

(** the job has been rescheduled [NO_WORKER_MAX_RETRIES] times *)
Definition abandon_job (job : positive) (j : JobSchedule) (attempt : Z) : M unit :=
  finish_job job JOB_CANCELLED;;
  run ← session_get w_runs (job_ref_id j);
  match run with
  | None => mret tt
  | Some _ =>
      release_all_reservations (job_ref_id j);;
      match ContentStage_of_value (job_ref_table j) with
      | Some stage => cancel_assignments (open_assignment_at (job_ref_id j) stage)
      | None => raise (DataError (job_ref_table j))
      end
  end;;
  route_to_dead_letter (job_workspace_id j) "job_schedule" job
    ("stage_dispatch:" +:+ job_ref_table j)
    (Some (JObj [("stage", JStr (job_ref_table j));
                 ("pipeline_run_id", JStr (uuid_str (job_ref_id j)))]))
    "no eligible worker available after repeated attempts" attempt (job_created_at j);;
  mret tt.

Definition reschedule_job (job : positive) (j : JobSchedule) : M unit :=
  let attempt := job_attempt j + 1 in
  modify w_jobs job (λ j, j <| job_attempt := attempt |>);;
  if NO_WORKER_MAX_RETRIES <=? attempt then abandon_job job j attempt
  else
    run_after ← next_run_after attempt NO_WORKER_RETRY_BASE_SECONDS 2
                  NO_WORKER_RETRY_MAX_SECONDS;
    park_job job run_after.

(** For these jobs [ref_table] carries the stage. *)
Definition process_stage_job (job : positive) (j : JobSchedule) : M unit :=
  corr ← or_uuid4 (job_correlation_id j);
  dispatched ← dispatch_named (job_workspace_id j) (job_ref_id j) (job_ref_table j)
                 (job_attempt j + 1) corr (job_trace_id j);
  match dr_outcome dispatched with
  | SPEND_HOLD =>
      t ← now;
      park_job job (t + seconds SPEND_HOLD_RETRY_SECONDS)
  | DISPATCH_SKIPPED =>
      modify w_jobs job (λ j, drop_lease (j <| job_status := JOB_CANCELLED |>))
  | DISPATCHED | IDEMPOTENT => finish_job job JOB_DONE
  | NO_WORKER =>
      match dr_assignment dispatched with
      | Some _ => finish_job job JOB_DONE
      | None => reschedule_job job j
      end
  | BACKPRESSURE => reschedule_job job j
  end.

Definition process_leased_job (job : positive) : M unit :=
  j ← the w_jobs job;
  match job_type j with
  | JOB_STAGE | JOB_RETRY => process_stage_job job j
  | JOB_STAGE_TIMEOUT =>
      handle_stage_timeout (job_ref_id j) (job_ref_table j);;
      finish_job job JOB_DONE
  | JOB_REVIEW_TIMEOUT =>
      handle_review_timeout (job_ref_id j);;
      finish_job job JOB_DONE
  | JOB_COMPENSATION =>
      run_compensation_stage (job_ref_id j) (job_ref_table j);;
      finish_job job JOB_DONE
  | JOB_RECURRING => raise NotImplementedError
  end.
End Process.

(** ** Frames *)

Section Frames.
Context `{Settings} (R : relation World) `{!Engine R, !JobRows R}.

Lemma keeps_poll_and_lease n : keeps R (poll_and_lease n).
Proof using All. unfold poll_and_lease, with_limit, fairness_limit, lease_job. keeps_tac. Qed.
Lemma keeps_reap_expired_job_leases n : keeps R (reap_expired_job_leases n).
Proof using All. unfold reap_expired_job_leases. keeps_tac. Qed.
End Frames.

Section JobFrames.
Context `{Settings} (R : relation World) `{!Engine R, !RunStable R, !SpendSafe R, !JobRows R,
  !AssignmentRows R, !WorkerSlots R, !GateRows R, !DeadLetters R}.

(** the job, as it was read *)
Definition job_at (i : positive) (j : JobSchedule) (w : World) : Prop := w_jobs w !! i = Some j.

Lemma keeps_process_stage_job i j :
  job_type j = JOB_STAGE ∨ job_type j = JOB_RETRY →
  keeps_under (job_at i j) R (process_stage_job i j).
Proof using All.
  pose proof (λ run s, keeps_cancel_assignments R _ (open_assignment_at_open run s)).
  intros Hd. unfold process_stage_job, reschedule_job, abandon_job, park_job, finish_job.
  apply keeps_under_bind; [apply _|keeps_tac|keeps_tac|intros c].
  apply keeps_under_last; [apply _| |keeps_tac].
  intros w Hj. apply keeps_dispatch_named; [apply _..|]. intros s Hs.
  do 3 right; left. by exists i, j.
Qed.
Lemma keeps_process_leased_job i : keeps R (process_leased_job i).
Proof using All.
  unfold process_leased_job, run_compensation_stage, finish_job.
  apply (keeps_bind_post (job_at i)); [apply _|keeps_tac|by intros ??? [? ->]%the_ok_inv|intros j].
  destruct (job_type j) eqn:Ht; try solve [apply keeps_under_keeps; keeps_tac].
  all: apply keeps_process_stage_job; auto.
Qed.
End JobFrames.
#[export] Hint Resolve keeps_poll_and_lease keeps_reap_expired_job_leases
  keeps_process_leased_job : keeps.
