(* ===== verification/Relay.v ===== *)
(** * The outbox relay (orchestration/relay.py, consumers.py)

    Pending events are delivered to the registered consumers.  A consumer has
    a checkpoint per aggregate, the sequence number of the last event it
    applied, which makes redelivery harmless; an event a handler keeps
    failing on is poisoned and recorded as a dead letter. *)

From S2P Require Import Prelude Models Database Outbox Provenance Assignments Gates Retry Workflow Spend Controller.

Abbreviation Handler := (positive → OutboxEvent → M unit).

(** [_REGISTRY]: consumer name -> event type -> handler, in insertion order *)
Abbreviation Registry := (list (string * list (string * Handler))).

(** [d[k] = v] on a dict in insertion order *)
Fixpoint dict_set {V} (k : string) (v : V) (d : list (string * V)) : list (string * V) :=
  match d with
  | [] => [(k, v)]
  | (k', v') :: d => if String.eqb k k' then (k', v) :: d else (k', v') :: dict_set k v d
  end.
Fixpoint dict_get {V} (k : string) (d : list (string * V)) : option V :=
  match d with
  | [] => None
  | (k', v) :: d => if String.eqb k k' then Some v else dict_get k d
  end.

Definition register_consumer (consumer_name event_type : string) (handler : Handler)
    (reg : Registry) : Registry :=
  dict_set consumer_name
    (dict_set event_type handler (default [] (dict_get consumer_name reg))) reg.

Definition get_or_create_consumer (name : string) : M EventConsumer :=
  o ← session_get w_consumers name;
  match o with
  | Some consumer => mret consumer
  | None =>
      i ← uuid4;
      insert_row w_consumers name (mk_consumer i 1 10);;
      flush;;
      mret (mk_consumer i 1 10)
  end.

(** the key of a checkpoint: consumer, aggregate type, aggregate *)
Definition checkpoint_key (consumer : positive) (e : OutboxEvent) : positive * string * positive :=
  (consumer, ev_aggregate_type e, ev_aggregate_id e).

Definition get_or_create_checkpoint (key : positive * string * positive) : M ConsumerCheckpoint :=
  o ← session_get w_checkpoints key;
  match o with
  | Some checkpoint => mret checkpoint
  | None =>
      i ← uuid4;
      insert_row w_checkpoints key (mk_checkpoint i 0);;
      flush;;
      mret (mk_checkpoint i 0)
  end.

(** the [except] clause: [true] when the event stays pending *)
Definition delivery_failed (event_id : positive) (consumer_name : string)
    (consumer : EventConsumer) (exc : exn) : M bool :=
  modify w_outbox event_id (λ e, e <| ev_delivery_attempts ::= Z.succ |>);;
  e ← the w_outbox event_id;
  if con_max_delivery_attempts consumer <=? ev_delivery_attempts e then
    modify w_outbox event_id (λ e, e <| ev_status := EVENT_POISON |>);;
    route_to_dead_letter (ev_workspace_id e) "outbox_events" event_id
      ("event_consumer:" +:+ consumer_name) (Some (ev_payload e)) (exn_str exc)
      (ev_delivery_attempts e) (ev_occurred_at e);;
    mret false
  else mret true.

(** delivery to one consumer, one pass of the loop over the registry: [true]
    when the event stays pending *)
Definition deliver (event_id : positive) (consumer_name : string)
    (handlers : list (string * Handler)) : M bool :=
  event ← the w_outbox event_id;
  match dict_get (ev_type event) handlers with
  | None => mret false
  | Some handler =>
      consumer ← get_or_create_consumer consumer_name;
      let key := checkpoint_key (con_id consumer) event in
      checkpoint ← get_or_create_checkpoint key;
      if ev_sequence event <=? ck_last_sequence checkpoint then mret false
      else
        catch (handler event_id event;;
               modify w_checkpoints key (λ c, c <| ck_last_sequence := ev_sequence event |>);;
               mret false)
          (delivery_failed event_id consumer_name consumer)
  end.

(** the loop over the registry, [any_pending] accumulated *)
Fixpoint deliver_all (event_id : positive) (reg : Registry) (any_pending : bool) : M bool :=
  match reg with
  | [] => mret any_pending
  | (consumer_name, handlers) :: reg =>
      pending ← deliver event_id consumer_name handlers;
      deliver_all event_id reg (any_pending || pending)
  end.

Definition dispatch_one (reg : Registry) (event_id : positive) : M unit :=
  any_pending ← deliver_all event_id reg false;
  event ← the w_outbox event_id;
  if negb (bool_decide (ev_status event = EVENT_POISON)) && negb any_pending then
    modify w_outbox event_id (λ e, e <| ev_status := EVENT_DISPATCHED |>)
  else mret tt.

Definition by_occurred (p q : positive * OutboxEvent) : bool :=
  ev_occurred_at p.2 <=? ev_occurred_at q.2.

Definition poll_and_dispatch (reg : Registry) (batch_size : nat) : M Z :=
  events ← select w_outbox (λ _ e, bool_decide (ev_status e = EVENT_PENDING));
  let events := take batch_size (order_by by_occurred events) in
  for_each events (λ p, dispatch_one reg p.1);;
  mret (Z.of_nat (length events)).

(** ** The controller's reactions (consumers.py) *)

Section Consumers.
Context `{Settings}.

Definition on_review (approved : bool) : Handler := λ _ event,
  gate_id ← lift_result (payload_gate event);
  gate ← session_get w_gates gate_id;
  match gate with
  | Some _ => resume_from_review gate_id approved
  | None => mret tt
  end.

Definition register_all (reg : Registry) : Registry :=
  register_consumer "pipeline-controller" "review.rejected" (on_review false)
    (register_consumer "pipeline-controller" "review.approved" (on_review true) reg).
End Consumers.

(** ** Frames *)

(** the event, as it was read *)
Definition event_at (i : positive) (e : OutboxEvent) (w : World) : Prop := w_outbox w !! i = Some e.

Section Frames.
Context (R : relation World) `{!Engine R, !Closed w_consumers R, !Closed w_checkpoints R,
  !EventRows R, !DeadLetters R}.

(** a handler keeps the relation on events of its type *)
Definition handlers_keep (handlers : list (string * Handler)) : Prop :=
  ∀ ty h, dict_get ty handlers = Some h →
    ∀ i e, ev_type e = ty → keeps_under (event_at i e) R (h i e).

Lemma keeps_deliver e n hs : handlers_keep hs → keeps R (deliver e n hs).
Proof using All.
  intros Hh. unfold deliver, get_or_create_consumer, get_or_create_checkpoint.
  apply (keeps_bind_post (event_at e)); [apply _|keeps_tac|by intros ??? [? ->]%the_ok_inv|intros ev].
  destruct (dict_get (ev_type ev) hs) as [h|] eqn:Hg; [|apply keeps_under_keeps; keeps_tac].
  do 2 (apply keeps_under_bind; [apply _|keeps_tac|keeps_tac|intros ?]).
  destruct (_ <=? _); [apply keeps_under_keeps; keeps_tac|].
  apply keeps_under_catch; [apply _| |unfold delivery_failed; keeps_tac].
  apply keeps_under_last; [apply _|by eapply Hh|keeps_tac].
Qed.

(** every handler of the registry keeps the relation *)
Definition registry_keeps (reg : Registry) : Prop := ∀ n hs, (n, hs) ∈ reg → handlers_keep hs.

Lemma keeps_deliver_all e reg b : registry_keeps reg → keeps R (deliver_all e reg b).
Proof using All.
  revert b. induction reg as [|[n hs] reg IH]; intros b Hreg; simpl; [keeps_tac|].
  assert (Hrest : registry_keeps reg) by (intros n' hs' ?; apply (Hreg n'); by right).
  apply keeps_bind; [apply _| |auto]. apply keeps_deliver. eapply Hreg. by left.
Qed.

Lemma keeps_dispatch_one reg e : registry_keeps reg → keeps R (dispatch_one reg e).
Proof using All.
  intros Hreg. pose proof (λ b, keeps_deliver_all e reg b Hreg).
  unfold dispatch_one. keeps_tac.
Qed.
Lemma keeps_poll_and_dispatch reg n : registry_keeps reg → keeps R (poll_and_dispatch reg n).
Proof using All.
  intros Hreg. pose proof (λ e, keeps_dispatch_one reg e Hreg).
  unfold poll_and_dispatch. keeps_tac.
Qed.
End Frames.

Section Registered.
Context `{Settings} (R : relation World) `{!Engine R, !RunStable R, !SpendSafe R,
  !JobRows R, !GateRows R, !Moves R, !DeadLetters R}.

Lemma keeps_on_review a i e :
  ev_type e = verdict_type a → keeps_under (event_at i e) R (on_review a i e).
Proof using All.
  intros Ht. unfold on_review. apply keeps_under_lift; [apply _|]. intros g Hg.
  apply keeps_under_bind; [apply _|keeps_tac|keeps_tac|intros [x|]];
    [|apply keeps_under_keeps; keeps_tac].
  intros w Hi. apply keeps_resume_from_review; [apply _..|]. by exists i, e.
Qed.

Lemma registry_keeps_all : registry_keeps R (register_all []).
Proof using All.
  intros n hs [[= -> ->]|[]%not_elem_of_nil]%elem_of_cons ty h Hh i e Ht. simpl in Hh.
  destruct (String.eqb_spec ty "review.approved") as [->|];
    [injection Hh as <-; by apply keeps_on_review|].
  destruct (String.eqb_spec ty "review.rejected") as [->|]; [|done].
  injection Hh as <-. by apply keeps_on_review.
Qed.
End Registered.
