(* ===== verification/Workers.v ===== *)
(** * Workers: identity, liveness and the HTTP handlers
    (services/workers.py, core/worker_auth.py, api/routes/workers.py)

    A worker authenticates with a credential; its handlers register it,
    record heartbeats, claim, acknowledge, renew and submit work; the
    administrator's provision, drain, rotate and revoke.  A handler is one
    transaction: what it did is discarded when it raises. *)

From S2P Require Import Prelude Models Database Outbox Provenance Assignments Gates Retry Workflow Spend Controller Budgets Recovery.
From S2P Require Import Claiming Dispatcher.

(** ** Liveness *)

Inductive Liveness : Type := LIVENESS_HEALTHY | LIVENESS_SUSPECT | LIVENESS_DEAD.

Definition compute_liveness (last_heartbeat_at : option time) (now : time)
    (suspect_after_seconds offline_after_seconds : Z) : Liveness :=
  match last_heartbeat_at with
  | None => LIVENESS_DEAD
  | Some t =>
      let age := now - t in
      if age <? seconds suspect_after_seconds then LIVENESS_HEALTHY
      else if age <? seconds offline_after_seconds then LIVENESS_SUSPECT
      else LIVENESS_DEAD
  end.

Definition is_stale (now offline_after_seconds : Z) (_ : positive) (w : WorkerRegistration) : bool :=
  bool_decide (wrk_deregistered_at w = None)
  && negb (bool_decide (wrk_status w = WORKER_OFFLINE))
  && match wrk_last_heartbeat_at w with
     | None => true
     | Some t => t <? now - seconds offline_after_seconds
     end.

Definition select_stale_worker_ids (offline_after_seconds : Z) : M (list positive) :=
  t ← now;
  ws ← select w_workers (is_stale t offline_after_seconds);
  mret ws.*1.

(** status OFFLINE, load 0 *)
Definition force_offline (w : WorkerRegistration) : WorkerRegistration :=
  w <| wrk_status := WORKER_OFFLINE |> <| wrk_current_load := 0 |>.

Definition mark_stale_workers_offline (offline_after_seconds : Z) : M (list positive) :=
  stale_ids ← select_stale_worker_ids offline_after_seconds;
  for_each stale_ids (λ i, modify w_workers i force_offline);;
  mret stale_ids.

(** ** Authentication

    [sha256] is [hashlib.sha256(...).hexdigest()]; the model holds for every
    function in its place. *)

Record AuthenticatedWorker : Type := mk_authenticated {
  auth_worker_id : positive;
  auth_credential_id : positive;
  auth_workspace_id : positive
}.

(** [s.partition(".")] when the separator occurs *)
Fixpoint partition_dot (s : string) : option (string * string) :=
  match s with
  | EmptyString => None
  | String c s =>
      if Ascii.eqb c "."%char then Some (EmptyString, s)
      else (λ p, (String c p.1, p.2)) <$> partition_dot s
  end.

Definition credential_live (now : time) (c : WorkerCredential) : bool :=
  bool_decide (cred_status c = CRED_ACTIVE)
  && match cred_expires_at c with Some t => now <? t | None => true end.

Definition unauthorized : exn := HTTPException 401 "invalid worker credentials".

Section Auth.
Context (sha256 : string → string).

Definition hash_worker_secret (secret : string) : string := sha256 secret.

Definition get_current_worker (token : option string) : M AuthenticatedWorker :=
  match token ≫= partition_dot with
  | None => raise unauthorized
  | Some (credential_id_raw, secret) =>
      if String.eqb secret EmptyString then raise unauthorized
      else
        match uuid_parse credential_id_raw with
        | None => raise unauthorized
        | Some credential_id =>
            t ← now;
            credential ← session_get w_credentials credential_id;
            match credential with
            | None => raise unauthorized
            | Some c =>
                if String.eqb (hash_worker_secret secret) (cred_secret_hash c)
                   && credential_live t c
                then mret (mk_authenticated (cred_worker_id c) credential_id
                             (cred_workspace_id c))
                else raise unauthorized
            end
        end
  end.
End Auth.

(** ** What the handlers share *)

Definition http_404 : exn := HTTPException 404 "worker not found".

(** [_assert_credential_still_active] *)
Definition assert_credential_still_active (w : AuthenticatedWorker) : M unit :=
  t ← now;
  credential ← session_get w_credentials (auth_credential_id w);
  match credential with
  | None => raise unauthorized
  | Some c =>
      if credential_live t c && bool_decide (cred_worker_id c = auth_worker_id w)
      then mret tt else raise unauthorized
  end.

Definition load_registration (worker_id : positive) : M WorkerRegistration :=
  o ← session_get w_workers worker_id;
  match o with Some r => mret r | None => raise http_404 end.

Definition refuse_deregistered (r : WorkerRegistration) : M unit :=
  match wrk_deregistered_at r with
  | Some _ => raise (HTTPException 410 "worker is deregistered")
  | None => mret tt
  end.

Definition load_owned_assignment (assignment_id : positive) (w : AuthenticatedWorker)
    (r : WorkerRegistration) : M StageAssignment :=
  o ← session_get w_assignments assignment_id;
  match o with
  | None => raise (HTTPException 404 "assignment not found")
  | Some a =>
      match wrk_workspace_id r with
      | None =>
          if bool_decide (asn_worker_id a = Some (auth_worker_id w)) then mret a
          else raise (HTTPException 404 "assignment not found")
      | Some _ =>
          if bool_decide (asn_workspace_id a = auth_workspace_id w) then mret a
          else raise (HTTPException 404 "assignment not found")
      end
  end.

(** [_lease_http_error]: 403 when not owned, 409 otherwise *)
Definition lease_http_error (e : exn) : exn :=
  match e with
  | LeaseNotOwned => HTTPException 403 "assignment not owned by worker"
  | LeaseConflict code => HTTPException 409 code
  | e => e
  end.

(** [async with AsyncSessionLocal() as session: ...; await session.commit()] *)
Definition transaction {A} (m : M A) : M A := savepoint m.

(** ** Machine handlers *)

Section Machine.
Context `{Settings}.

(** the bounds of [WorkerRegisterIn] and [WorkerHeartbeatIn] are checked by
    pydantic before the handler runs; [capabilities] is the dump of the
    declaration *)
Definition register_worker (w : AuthenticatedWorker) (protocol_version : Z)
    (supported_stages : list string) (capabilities : json) (worker_version : option string)
    (max_concurrency : Z) : M unit :=
  if negb (bool_decide (protocol_version ∈ worker_capability_protocol_versions)) then
    raise (HTTPException 422 "unsupported capability protocol_version")
  else transaction (
    let i := auth_worker_id w in
    load_registration i;;
    t ← now;
    reap_worker_assignments i WORKER_RESTART None None;;
    modify w_workers i (λ r,
      r <| wrk_supported_stages := supported_stages |>
        <| wrk_capabilities := capabilities |>
        <| wrk_worker_version := worker_version |>
        <| wrk_max_concurrency := max_concurrency |>
        <| wrk_current_load := 0 |>
        <| wrk_status := WORKER_ONLINE |>
        <| wrk_last_heartbeat_at := Some t |>
        <| wrk_registered_at := t |>
        <| wrk_deregistered_at := None |>)).

Definition worker_heartbeat (w : AuthenticatedWorker) (status : WorkerStatus)
    (current_load : Z) : M unit :=
  if bool_decide (status = WORKER_OFFLINE) then
    raise (HTTPException 422 "a heartbeat may report online, busy, or draining")
  else transaction (
    let i := auth_worker_id w in
    r ← load_registration i;
    refuse_deregistered r;;
    if wrk_max_concurrency r <? current_load then
      raise (HTTPException 422 "current_load exceeds max_concurrency")
    else
      t ← now;
      modify w_workers i (λ r, r <| wrk_status := status |>
                                 <| wrk_current_load := current_load |>
                                 <| wrk_last_heartbeat_at := Some t |>);;
      h ← uuid4;
      insert_row w_heartbeats h (mk_heartbeat i status current_load t)).

Definition deregister_worker (w : AuthenticatedWorker) : M unit :=
  transaction (
    let i := auth_worker_id w in
    r ← load_registration i;
    match wrk_deregistered_at r with
    | Some _ => mret tt
    | None =>
        reap_worker_assignments i WORKER_DEREGISTERED None None;;
        t ← now;
        modify w_workers i (λ r, force_offline r <| wrk_deregistered_at := Some t |>)
    end).

(** the claim, and the content item the response is enriched with *)
Definition claim_assignment_endpoint (w : AuthenticatedWorker) (claim_token : option positive)
    : M (ClaimResult * option (positive * ContentItem)) :=
  transaction (
    assert_credential_still_active w;;
    claimed ← claim_assignment (auth_worker_id w) claim_token (Some (auth_workspace_id w));
    match cl_assignment claimed with
    | None => mret (claimed, None)
    | Some i =>
        a ← the w_assignments i;
        run ← session_get w_runs (asn_pipeline_run_id a);
        let item_id := run ≫= run_content_item_id in
        item ← session_get_opt w_items item_id;
        mret (claimed, item_id ≫= λ j, (λ it, (j, it)) <$> item)
    end).

Record LeaseOut : Type := mk_lease_out {
  lo_status : StageAssignmentStatus;
  lo_lease_expires_at : option time;
  lo_lease_extension_count : Z;
  lo_attempt_number : Z;
  lo_provider_effect_created : option bool
}.

Definition lease_out (a : StageAssignment) (created : option bool) : LeaseOut :=
  mk_lease_out (asn_status a) (asn_lease_expires_at a) (asn_lease_extension_count a)
    (asn_attempt_number a) created.

(** the checks that open the handlers of an assignment *)
Definition open_assignment (w : AuthenticatedWorker) (assignment_id : positive)
    : M StageAssignment :=
  assert_credential_still_active w;;
  r ← load_registration (auth_worker_id w);
  refuse_deregistered r;;
  load_owned_assignment assignment_id w r.

Definition ack_assignment (w : AuthenticatedWorker) (assignment_id : positive) : M LeaseOut :=
  transaction (
    a ← open_assignment w assignment_id;
    catch (acknowledge assignment_id None (Some (auth_worker_id w)))
      (λ e, raise (lease_http_error e));;
    effect ← ensure_provider_effect_key (asn_workspace_id a) assignment_id
               (asn_attempt_number a) "stage_execute" None;
    a ← the w_assignments assignment_id;
    mret (lease_out a (Some (res_created effect)))).

Definition renew_assignment_lease (w : AuthenticatedWorker) (assignment_id : positive)
    : M LeaseOut :=
  transaction (
    open_assignment w assignment_id;;
    catch (renew_lease assignment_id None (Some (auth_worker_id w)))
      (λ e, raise (lease_http_error e));;
    a ← the w_assignments assignment_id;
    mret (lease_out a None)).

Record SubmitOut : Type := mk_submit_out {
  so_status : StageAssignmentStatus;
  so_provider_effect_key : string;
  so_provider_effect_created : bool
}.

Definition submit_assignment_result (w : AuthenticatedWorker) (assignment_id : positive)
    (success : bool) (res : option json) (error_message : string)
    (provider_effect_key : option string) : M SubmitOut :=
  transaction (
    a ← open_assignment w assignment_id;
    effect ← ensure_provider_effect_key (asn_workspace_id a) assignment_id
               (asn_attempt_number a) "stage_execute" provider_effect_key;
    if negb (res_created effect)
       && bool_decide (asn_status a = ASN_COMPLETED ∨ asn_status a = ASN_FAILED) then
      mret (mk_submit_out (asn_status a) (res_effect_key effect) false)
    else
      catch (submit_result assignment_id success res error_message (Some (auth_worker_id w)))
        (λ e, raise (lease_http_error e));;
      a ← the w_assignments assignment_id;
      mret (mk_submit_out (asn_status a) (res_effect_key effect) (res_created effect))).

(** the workspace of the log, of its run and of its assignment agree *)
Definition ingest_worker_log (w : AuthenticatedWorker) (severity message : string)
    (pipeline_run_id assignment_id : option positive) (occurred_at : option time)
    (context : json) : M positive :=
  t ← now;
  let occurred := default t occurred_at in
  if t + seconds 300 <? occurred then
    raise (HTTPException 422 "occurred_at cannot be more than five minutes in the future")
  else transaction (
    run ← match assignment_id with
          | None => mret pipeline_run_id
          | Some i =>
              assignment ← session_get w_assignments i;
              match assignment with
              | None => raise (HTTPException 422 "assignment does not belong to authenticated worker")
              | Some a =>
                  if negb (bool_decide (asn_workspace_id a = auth_workspace_id w))
                     || negb (bool_decide (asn_worker_id a = Some (auth_worker_id w))) then
                    raise (HTTPException 422 "assignment does not belong to authenticated worker")
                  else if match pipeline_run_id with
                          | Some p => negb (bool_decide (asn_pipeline_run_id a = p))
                          | None => false
                          end then
                    raise (HTTPException 422 "pipeline_run_id does not match assignment")
                  else mret (Some (asn_pipeline_run_id a))
              end
          end;
    match run with
    | None => mret tt
    | Some p =>
        r ← session_get w_runs p;
        match r with
        | Some r => if bool_decide (run_workspace_id r = auth_workspace_id w) then mret tt
                    else raise (HTTPException 422 "pipeline does not belong to authenticated worker workspace")
        | None => raise (HTTPException 422 "pipeline does not belong to authenticated worker workspace")
        end
    end;;
    i ← uuid4;
    insert_row w_worker_logs i
      (mk_worker_log (auth_workspace_id w) (auth_worker_id w) run assignment_id severity message
         context occurred t);;
    mret i).
End Machine.

(** ** Administrator handlers

    The workspace guards ([require_workspace_admin]) and the draw of a secret
    ([secrets.token_urlsafe]) come before: [secret] is the drawn token. *)

Definition get_workspace_worker (workspace_id worker_id : positive) : M WorkerRegistration :=
  o ← session_get w_workers worker_id;
  match o with
  | Some r => if bool_decide (wrk_workspace_id r = Some workspace_id) then mret r else raise http_404
  | None => raise http_404
  end.

Definition active_credential_of (worker_id : positive) (_ : positive) (c : WorkerCredential) : bool :=
  bool_decide (cred_worker_id c = worker_id ∧ cred_status c = CRED_ACTIVE).

Section Admin.
Context `{Settings} (sha256 : string → string).

Definition add_credential (worker_id workspace_id : positive) (secret : string) : M positive :=
  i ← uuid4;
  insert_row w_credentials i
    (mk_credential worker_id workspace_id (hash_worker_secret sha256 secret) CRED_ACTIVE None None);;
  mret i.

(** the worker, its credential and the secret shown once *)
Definition provision_worker (workspace_id : positive) (name : string)
    (supported_stages : list string) (max_concurrency : Z) (secret : string) : M (positive * positive * string) :=
  transaction (
    worker ← uuid4;
    t ← now;
    insert_row w_workers worker
      (mk_worker (Some workspace_id) name supported_stages JNull WORKER_OFFLINE max_concurrency 0 100 None t
         None false None);;
    flush;;
    credential ← add_credential worker workspace_id secret;
    mret (worker, credential, uuid_str credential +:+ "." +:+ secret)).

Definition set_worker_drain (workspace_id worker_id : positive) (drain : bool) : M unit :=
  get_workspace_worker workspace_id worker_id;;
  transaction (modify w_workers worker_id (λ r, r <| wrk_drain := drain |>)).

Definition rotate_worker_credential (workspace_id worker_id : positive) (secret : string)
    : M (positive * string * time) :=
  get_workspace_worker workspace_id worker_id;;
  t ← now;
  let grace_until := t + seconds worker_credential_rotation_grace_seconds in
  transaction (
    active ← select w_credentials (active_credential_of worker_id);
    for_each active (λ p, modify w_credentials p.1 (λ old,
      let old := old <| cred_rotated_at := Some t |> in
      if match cred_expires_at old with None => true | Some e => grace_until <? e end
      then old <| cred_expires_at := Some grace_until |> else old));;
    credential ← add_credential worker_id workspace_id secret;
    mret (credential, uuid_str credential +:+ "." +:+ secret, grace_until)).

(** the kill switch *)
Definition revoke_worker_credentials (workspace_id worker_id : positive) : M Z :=
  get_workspace_worker workspace_id worker_id;;
  transaction (
    active ← select w_credentials (active_credential_of worker_id);
    for_each active (λ p, modify w_credentials p.1 (λ c, c <| cred_status := CRED_REVOKED |>));;
    reap_worker_assignments worker_id WORKER_REVOKED None None;;
    registration ← session_get w_workers worker_id;
    match registration with
    | Some r => match wrk_deregistered_at r with
                | None => modify w_workers worker_id force_offline
                | Some _ => mret tt
                end
    | None => mret tt
    end;;
    mret (Z.of_nat (length active))).
End Admin.

(** ** Frames *)

(** [modify] under what is known of the row *)
Lemma keeps_under_rows `{Settings} R `{!WorkerRows R} (P : World → Prop) i g :
  (∀ w wk, P w → w_workers w !! i = Some wk → load_ok wk → load_ok (g wk)) →
  keeps_under P R (modify w_workers i g).
Proof. intros Hg w Hw. apply rows_modify. intros wk. by apply Hg. Qed.

Lemma keeps_rows R `{!WorkerRows R} i g :
  (∀ wk, load_ok wk → load_ok (g wk)) → keeps R (modify w_workers i g).
Proof. intros Hg w. apply rows_modify. intros wk _. apply Hg. Qed.

Lemma load_ok_offline wk : load_ok wk → load_ok (force_offline wk).
Proof. unfold load_ok. simpl. lia. Qed.

Section Frames.
Context `{Settings} (R : relation World) `{!Engine R, !WorkerRows R}.

Lemma keeps_force_offline i : keeps R (modify w_workers i force_offline).
Proof using All. apply keeps_rows; [done|]. intros wk. apply load_ok_offline. Qed.
Hint Resolve keeps_force_offline : keeps.
Lemma keeps_mark_stale n : keeps R (mark_stale_workers_offline n).
Proof using All. unfold mark_stale_workers_offline, select_stale_worker_ids. keeps_tac. Qed.

Lemma keeps_load_registration i : keeps R (load_registration i).
Proof using All. unfold load_registration. keeps_tac. Qed.
Lemma keeps_open_assignment w i : keeps R (open_assignment w i).
Proof using All.
  unfold open_assignment, assert_credential_still_active, load_registration,
    refuse_deregistered, load_owned_assignment. keeps_tac.
Qed.
Hint Resolve keeps_load_registration keeps_open_assignment : keeps.

Lemma keeps_worker_heartbeat `{!Closed w_heartbeats R} w s n :
  0 ≤ n → keeps R (worker_heartbeat w s n).
Proof using All.
  intros Hn. unfold worker_heartbeat, transaction. case_match; [keeps_tac|].
  apply keeps_savepoint; [apply _|].
  apply (keeps_bind_post (λ r w', w_workers w' !! auth_worker_id w = Some r));
    [apply _|keeps_tac| |].
  { intros w0 r w1. unfold load_registration. rewrite run_bind. simpl.
    destruct (w_workers w0 !! _) eqn:Hr; [|done]. by intros [= <- <-]. }
  intros r. apply keeps_under_bind; [apply _|unfold refuse_deregistered; keeps_tac..|intros _].
  destruct (Z.ltb_spec (wrk_max_concurrency r) n); [apply keeps_under_keeps; keeps_tac|].
  apply keeps_under_bind; [apply _|keeps_tac|keeps_tac|intros t].
  apply keeps_under_last; [apply _| |intros _; keeps_tac].
  apply keeps_under_rows; [done..|]. intros w' wk Hr Hi _. unfold load_ok. simpl.
  assert (r = wk) as -> by congruence. lia.
Qed.

Lemma keeps_set_worker_drain ws i d : keeps R (set_worker_drain ws i d).
Proof using All.
  unfold set_worker_drain, get_workspace_worker, transaction.
  apply keeps_bind; [apply _|keeps_tac|intros _]. apply keeps_savepoint; [apply _|].
  apply keeps_rows; [done|]. by intros wk Hw.
Qed.
Lemma keeps_provision_worker `{!Closed w_credentials R} sha ws nm st n sec :
  1 ≤ n → keeps R (provision_worker sha ws nm st n sec).
Proof using All.
  intros Hn. unfold provision_worker, add_credential, transaction.
  apply keeps_savepoint; [apply _|]. do 2 (apply keeps_bind; [apply _|keeps_tac|intros ?]).
  apply keeps_bind; [apply _| |intros _; keeps_tac].
  apply rows_insert. unfold load_ok. simpl. lia.
Qed.
Lemma keeps_rotate_worker_credential `{!Closed w_credentials R} sha ws i sec :
  keeps R (rotate_worker_credential sha ws i sec).
Proof using All.
  unfold rotate_worker_credential, get_workspace_worker, add_credential, transaction. keeps_tac.
Qed.
Lemma keeps_ingest_worker_log `{!Closed w_worker_logs R} w s m p a t c :
  keeps R (ingest_worker_log w s m p a t c).
Proof using All. unfold ingest_worker_log, transaction. keeps_tac. Qed.
End Frames.
#[export] Hint Resolve keeps_force_offline keeps_mark_stale keeps_load_registration
  keeps_open_assignment : keeps.

Section EngineFrames.
Context `{Settings} (R : relation World) `{!Engine R, !RunStable R, !SpendSafe R,
  !AssignmentRows R, !WorkerRows R, !DeadLetters R,
  !Closed w_recovery_audit R, !JobRows R, !GateRows R, !Closed w_effects R,
  !Closed w_claim_audit R, !Closed w_stage_runs R, !Closed w_credentials R}.

Lemma keeps_register_worker w v st c ver n : 1 ≤ n → keeps R (register_worker w v st c ver n).
Proof using All.
  intros Hn. unfold register_worker, transaction. case_match; [keeps_tac|].
  apply keeps_savepoint; [apply _|]. do 3 (apply keeps_bind; [apply _|keeps_tac|intros ?]).
  apply keeps_rows; [apply _|]. intros wk _. unfold load_ok. simpl. lia.
Qed.
Lemma keeps_deregister_worker w : keeps R (deregister_worker w).
Proof using All.
  unfold deregister_worker, transaction. apply keeps_savepoint; [apply _|].
  apply keeps_bind; [apply _|keeps_tac|intros r]. case_match; [keeps_tac|].
  do 2 (apply keeps_bind; [apply _|keeps_tac|intros ?]).
  apply keeps_rows; [apply _|]. intros wk Hw. by apply load_ok_offline.
Qed.
Lemma keeps_claim_assignment_endpoint w tok : keeps R (claim_assignment_endpoint w tok).
Proof using All.
  unfold claim_assignment_endpoint, assert_credential_still_active, transaction. keeps_tac.
Qed.
Lemma keeps_ack_assignment w i : keeps R (ack_assignment w i).
Proof using All. unfold ack_assignment, transaction. keeps_tac. Qed.
Lemma keeps_renew_assignment_lease w i : keeps R (renew_assignment_lease w i).
Proof using All. unfold renew_assignment_lease, transaction. keeps_tac. Qed.
Lemma keeps_submit_assignment_result `{!Moves R} w i s res e k :
  keeps R (submit_assignment_result w i s res e k).
Proof using All. unfold submit_assignment_result, transaction. keeps_tac. Qed.
Lemma keeps_revoke_worker_credentials ws i : keeps R (revoke_worker_credentials ws i).
Proof using All.
  unfold revoke_worker_credentials, get_workspace_worker, transaction. keeps_tac.
Qed.
End EngineFrames.
