(* ===== verification/MissionControl.v ===== *)
(** * Mission Control's quick actions (services/operations_mission.py)

    An administrator pauses and resumes the workers of a workspace, stops
    them, retries what failed and clears the dead letters.  Each action is
    one transaction and leaves an event in the outbox.  The session does not
    flush by itself: a count sees the rows the action found, not the ones it
    added. *)

From S2P Require Import Prelude Models Database Outbox Provenance Assignments Gates Retry Workflow Spend Controller.
From S2P Require Import Recovery Scheduler Workers.

Record QuickActionResult : Type := mk_quick_action {
  qa_action : string;
  qa_ok : bool;
  qa_affected : Z;
  qa_message : string;
  qa_details : list (string * json)
}.

Definition _record_quick_action (workspace_id actor_id : id) (action : string) (affected : Z)
  (details : list (string * json)) : M unit :=
correlation_id ← uuid4;
emit "operations.action.executed" workspace_id "workspace" workspace_id correlation_id None None
  (JObj ([("action", JStr action); ("actor_id", JStr (uuid_str actor_id));
          ("affected", int_json affected)] ++ details))
  "mission_control" None 1;;
mret tt.

(** workers pinned to the workspace; a global worker is not its to stop *)
Definition pinned_to (workspace_id : id) (_ : id) (r : WorkerRegistration) : bool :=
match wrk_deregistered_at r with
| None => bool_decide (wrk_workspace_id r = Some workspace_id)
| Some _ => false
end.

Definition _workspace_workers (workspace_id : id) : M (list (id * WorkerRegistration)) :=
select w_workers (pinned_to workspace_id).

Definition set_drain (drain : bool) (r : WorkerRegistration) : WorkerRegistration :=
r <| wrk_drain := drain |>.

Definition pause_workers (workspace_id actor_id : id) : M QuickActionResult :=
workers ← _workspace_workers workspace_id;
for_each workers (λ p, modify w_workers p.1 (set_drain true));;
let affected := Z.of_nat (length workers) in
_record_quick_action workspace_id actor_id "pause_workers" affected [];;
mret (mk_quick_action "pause_workers" true affected
        ("Set drain=true on " +:+ pretty affected +:+ " worker(s)") []).

Definition resume_workers (workspace_id actor_id : id) : M QuickActionResult :=
workers ← _workspace_workers workspace_id;
for_each workers (λ p, modify w_workers p.1 (set_drain false));;
let affected := Z.of_nat (length workers) in
_record_quick_action workspace_id actor_id "resume_workers" affected [];;
mret (mk_quick_action "resume_workers" true affected
        ("Cleared drain on " +:+ pretty affected +:+ " worker(s)") []).

(** ** The emergency stop *)

(** the rows the bulk update revokes *)
Definition revocable (workspace_id worker_id : id) (_ : id) (c : WorkerCredential) : bool :=
bool_decide (cred_worker_id c = worker_id ∧ cred_workspace_id c = workspace_id ∧
  cred_status c = CRED_ACTIVE).

Definition stopped_worker (r : WorkerRegistration) : WorkerRegistration :=
r <| wrk_status := WORKER_OFFLINE |> <| wrk_current_load := 0 |> <| wrk_drain := true |>.

Section Actions.
Context `{Settings}.

(** the credentials revoked of one worker, whose work is taken back *)
Definition stop_worker (workspace_id worker_id : id) : M Z :=
active ← select w_credentials (revocable workspace_id worker_id);
for_each active (λ p, modify w_credentials p.1 (λ c, c <| cred_status := CRED_REVOKED |>));;
reap_worker_assignments worker_id WORKER_REVOKED None None;;
modify w_workers worker_id stopped_worker;;
mret (Z.of_nat (length active)).

Definition emergency_stop (workspace_id actor_id : id) : M QuickActionResult :=
workers ← _workspace_workers workspace_id;
counts ← collect workers (λ p, stop_worker workspace_id p.1);
let revoked := foldr Z.add 0 counts in
let workers := Z.of_nat (length workers) in
_record_quick_action workspace_id actor_id "emergency_stop" revoked [("workers", int_json workers)];;
mret (mk_quick_action "emergency_stop" true revoked
        ("Revoked " +:+ pretty revoked +:+ " credential(s) across " +:+ pretty workers +:+
         " worker(s)") [("workers", int_json workers)]).

(** ** Retrying what failed *)

Definition pending_letter_of (workspace_id : id) (_ : id) (e : DeadLetterJob) : bool :=
bool_decide (dlj_workspace_id e = workspace_id ∧ dlj_status e = DEAD_PENDING).

(** a failed run runs again *)
Definition reopen_run (r : PipelineRun) : PipelineRun :=
if bool_decide (run_status r = RUN_FAILED) then r <| run_status := RUN_RUNNING |> else r.

Definition retry_job (workspace_id : id) (stage_key : string) (run_id : id) (r : PipelineRun)
  (attempt : Z) (t : time) : JobSchedule :=
mk_job workspace_id JOB_RETRY stage_key run_id t JOB_PENDING None None attempt 0
  (run_correlation_id r) (run_trace_id r) t.

Definition enqueue_retry (workspace_id : id) (stage_key : string) (run_id : id) (r : PipelineRun)
  (attempt : Z) (t : time) : M unit :=
modify w_runs run_id reopen_run;;
job ← uuid4;
insert_row w_jobs job (retry_job workspace_id stage_key run_id r attempt t).

(** the run an entry is about, with the stage to run again *)
Definition letter_target (e : DeadLetterJob) : M (option (id * PipelineRun * string)) :=
run ← session_get w_runs (dlj_related_id e);
match run with
| Some r => mret (Some (dlj_related_id e, r, dlj_job_type e))
| None =>
    assignment ← session_get w_assignments (dlj_related_id e);
    match assignment with
    | None => mret None
    | Some a =>
        run ← session_get w_runs (asn_pipeline_run_id a);
        mret ((λ r, (asn_pipeline_run_id a, r, ContentStage_value (asn_stage a))) <$> run)
    end
end.

Definition ended_well (s : PipelineRunStatus) : bool :=
bool_decide (s = RUN_SUCCEEDED ∨ s = RUN_CANCELLED).

(** the number of jobs added for one dead letter *)
Definition retry_letter (workspace_id : id) (t : time) (p : id * DeadLetterJob) : M Z :=
target ← letter_target p.2;
match target with
| None => mret 0
| Some (run_id, r, stage_key) =>
    if negb (bool_decide (run_workspace_id r = workspace_id)) then mret 0
    else if ended_well (run_status r) then
      modify w_dead_letters p.1 (λ e, e <| dlj_status := DEAD_RESOLVED |>);;
      mret 0
    else
      enqueue_retry workspace_id stage_key run_id r (dlj_attempt_count p.2) t;;
      modify w_dead_letters p.1 (λ e, e <| dlj_status := DEAD_RESOLVED |>);;
      mret 1
end.

Definition pending_retry_of (workspace_id run_id : id) (_ : id) (j : JobSchedule) : bool :=
bool_decide (job_workspace_id j = workspace_id ∧ job_ref_id j = run_id ∧ job_type j = JOB_RETRY ∧
  job_status j = JOB_PENDING).

Definition failed_since (workspace_id : id) (updated_at : id → time) (since : time) (i : id)
  (a : StageAssignment) : bool :=
bool_decide (asn_workspace_id a = workspace_id ∧ asn_status a = ASN_FAILED) && (since <=? updated_at i).

(** the number of jobs added for one failed assignment; [stored] are the jobs
    the database holds *)
Definition retry_assignment (workspace_id : id) (stored : gmap id JobSchedule) (t : time)
  (p : id * StageAssignment) : M Z :=
let run_id := asn_pipeline_run_id p.2 in
if 0 <? tcount (pending_retry_of workspace_id run_id) stored then mret 0 else
run ← session_get w_runs run_id;
match run with
| None => mret 0
| Some r =>
    if negb (bool_decide (run_workspace_id r = workspace_id)) then mret 0
    else if ended_well (run_status r) then mret 0
    else
      enqueue_retry workspace_id (ContentStage_value (asn_stage p.2)) run_id r
        (asn_attempt_number p.2) t;;
      mret 1
end.

(** [updated_at] is the column of the assignments that the database keeps *)
Definition retry_failed_jobs (updated_at : id → time) (workspace_id actor_id : id) :
  M QuickActionResult :=
t ← now;
stored ← gets w_jobs;
dlq ← select w_dead_letters (pending_letter_of workspace_id);
from_letters ← collect dlq (retry_letter workspace_id t);
failed ← select w_assignments (failed_since workspace_id updated_at (t - hours 168));
from_assignments ← collect (take 50 failed) (retry_assignment workspace_id stored t);
let enqueued := foldr Z.add 0 from_letters + foldr Z.add 0 from_assignments in
_record_quick_action workspace_id actor_id "retry_failed_jobs" enqueued [];;
mret (mk_quick_action "retry_failed_jobs" true enqueued
        ("Enqueued " +:+ pretty enqueued +:+ " retry job(s)") []).
End Actions.

Definition clear_dead_letter_queue (workspace_id actor_id : id) : M QuickActionResult :=
pending ← select w_dead_letters (pending_letter_of workspace_id);
for_each pending (λ p, modify w_dead_letters p.1 (λ e, e <| dlj_status := DEAD_DISCARDED |>));;
let affected := Z.of_nat (length pending) in
_record_quick_action workspace_id actor_id "clear_dead_letter_queue" affected [];;
mret (mk_quick_action "clear_dead_letter_queue" true affected
        ("Discarded " +:+ pretty affected +:+ " dead-letter job(s)") []).

(** ** Frames *)

(** every dead letter is filed under a type that is no stage *)
Definition letters_ok (w : World) : Prop :=
∀ i e, w_dead_letters w !! i = Some e → no_stage (dlj_job_type e).

Lemma load_ok_stopped wk : load_ok wk → load_ok (stopped_worker wk).
Proof. unfold load_ok. simpl. lia. Qed.
Lemma load_ok_drain b wk : load_ok wk → load_ok (set_drain b wk).
Proof. done. Qed.

Section ActionFrames.
Context `{Settings} (R : relation World) `{!Engine R, !RunStable R, !SpendSafe R, !JobRows R,
  !AssignmentRows R, !WorkerRows R, !GateRows R, !DeadLetters R, !Closed w_recovery_audit R,
  !Closed w_credentials R}.

Lemma keeps_record_quick_action ws u a n d : keeps R (_record_quick_action ws u a n d).
Proof using All. unfold _record_quick_action. keeps_tac. Qed.
#[local] Hint Resolve keeps_record_quick_action : keeps.

Lemma keeps_pause_workers ws u : keeps R (pause_workers ws u).
Proof using All.
  pose proof (λ i b, keeps_rows R i (set_drain b) (load_ok_drain b)).
  unfold pause_workers, _workspace_workers. keeps_tac.
Qed.
Lemma keeps_resume_workers ws u : keeps R (resume_workers ws u).
Proof using All.
  pose proof (λ i b, keeps_rows R i (set_drain b) (load_ok_drain b)).
  unfold resume_workers, _workspace_workers. keeps_tac.
Qed.
Lemma keeps_emergency_stop ws u : keeps R (emergency_stop ws u).
Proof using All.
  pose proof (λ i, keeps_rows R i stopped_worker load_ok_stopped).
  unfold emergency_stop, stop_worker, _workspace_workers. keeps_tac.
Qed.
Lemma keeps_clear_dead_letter_queue ws u : keeps R (clear_dead_letter_queue ws u).
Proof using All. unfold clear_dead_letter_queue. keeps_tac. Qed.

(** a retry is enqueued for a stage its run was brought to *)
Lemma keeps_enqueue_retry ws key run r n t :
  keeps_under (λ w, ∀ s, ContentStage_of_value key = Some s → sourced run s w) R
    (enqueue_retry ws key run r n t).
Proof using All.
  assert (Hpos : ∀ x, run_position (reopen_run x) = run_position x).
  { intros x. unfold reopen_run. by case_bool_decide. }
  assert (Hst : ∀ x, run_current_stage (reopen_run x) = run_current_stage x).
  { intros x. unfold reopen_run. by case_bool_decide. }
  unfold enqueue_retry. apply keeps_under_bind; [apply _|by apply run_stable| |intros _].
  { intros w Hw s Hs. apply (sourced_modify_run run s run reopen_run Hst w). by apply Hw. }
  apply keeps_under_bind; [apply _|keeps_tac|by intros w Hw|intros job].
  intros w Hw. apply job_add. intros run' s (_ & Hr & Hs). simpl in Hr, Hs. subst run'. by apply Hw.
Qed.

Lemma keeps_retry_letter ws t p :
  no_stage (dlj_job_type p.2) → keeps R (retry_letter ws t p).
Proof using All.
  intros Hp. unfold retry_letter.
  apply (keeps_bind_post (λ target w, match target with
    | Some (run, r, key) => ∀ s, ContentStage_of_value key = Some s → sourced run s w
    | None => True end)); [apply _|unfold letter_target; keeps_tac| |].
  - intros w target w' Ht. unfold letter_target in Ht. rewrite run_bind in Ht. simpl in Ht.
    destruct (w_runs w !! _) as [r|]; [injection Ht as <- <-; unfold no_stage in Hp; congruence|].
    rewrite run_bind in Ht. simpl in Ht.
    destruct (w_assignments w !! _) as [a|] eqn:Ha; [|by injection Ht as <- <-].
    rewrite run_bind in Ht. simpl in Ht. injection Ht as <- <-.
    destruct (w_runs w !! _); simpl; [|done]. intros s. rewrite ContentStage_of_value_value.
    intros [= <-]. do 2 right; left. by exists (dlj_related_id p.2), a.
  - intros [[[run r] key]|]; [|apply keeps_under_keeps; keeps_tac].
    destruct (negb _); [apply keeps_under_keeps; keeps_tac|].
    destruct (ended_well _); [apply keeps_under_keeps; keeps_tac|].
    apply keeps_under_last; [apply _|apply keeps_enqueue_retry|intros _; keeps_tac].
Qed.

(** the assignment is still there *)
Definition still_there (p : id * StageAssignment) (w : World) : Prop := w_assignments w !! p.1 = Some p.2.

Lemma keeps_retry_assignment ws stored t p :
  keeps_under (still_there p) R (retry_assignment ws stored t p).
Proof using All.
  unfold retry_assignment. destruct (0 <? _); [apply keeps_under_keeps; keeps_tac|].
  apply keeps_under_bind; [apply _|keeps_tac|keeps_tac|intros [r|]]; [|apply keeps_under_keeps; keeps_tac].
  destruct (negb _); [apply keeps_under_keeps; keeps_tac|].
  destruct (ended_well _); [apply keeps_under_keeps; keeps_tac|].
  apply keeps_under_last; [apply _| |intros _; keeps_tac].
  intros w Hp. apply keeps_enqueue_retry. intros s. rewrite ContentStage_of_value_value.
  intros [= <-]. do 2 right; left. by exists p.1, p.2.
Qed.

Lemma keeps_retry_assignments ws stored t l :
  keeps_under (λ w, ∀ p, p ∈ l → still_there p w) R (collect l (retry_assignment ws stored t)).
Proof using All.
  induction l as [|p l IH]; simpl; [apply keeps_under_keeps; keeps_tac|].
  apply (keeps_under_seq _ _ (λ _ w, ∀ p, p ∈ l → still_there p w)).
  - intros w Hw. apply keeps_retry_assignment, Hw. left.
  - intros w b w' Hw Hrun q Hq. unfold still_there.
    rewrite (run_frame w_assignments Hrun); [apply Hw; by right|].
    unfold retry_assignment, enqueue_retry. keeps_tac.
  - intros b. apply keeps_under_last; [apply _|exact IH|intros ?; keeps_tac].
Qed.

Lemma keeps_retry_failed_jobs updated ws u :
  keeps_under letters_ok R (retry_failed_jobs updated ws u).
Proof using All.
  unfold retry_failed_jobs.
  do 2 (apply keeps_under_bind; [apply _|keeps_tac|keeps_tac|intros ?]).
  apply (keeps_under_seq _ _ (λ dlq _, ∀ p, p ∈ dlq → no_stage (dlj_job_type p.2)));
    [apply keeps_under_keeps; keeps_tac| |intros dlq].
  { intros w dlq w' Hw [= <- <-] p Hp. destruct p as [i e]. apply elem_of_rows in Hp as [Hi _].
    exact (Hw i e Hi). }
  intros w Hdlq.
  assert (Hc : keeps R (collect dlq (retry_letter ws a))).
  { clear w. induction dlq as [|p dlq IH]; simpl; [keeps_tac|].
    pose proof (keeps_retry_letter ws a p (Hdlq p ltac:(left))) as Hp.
    specialize (IH (λ q Hq, Hdlq q ltac:(by right))).
    apply keeps_bind; [apply _|exact Hp|intros ?].
    apply keeps_bind; [apply _|exact IH|intros ?; keeps_tac]. }
  revert w. apply keeps_bind; [apply _|exact Hc|intros letters].
  apply (keeps_bind_post (λ failed w, ∀ p, p ∈ failed → still_there p w)); [apply _|keeps_tac| |intros failed].
  { intros w failed w' [= <- <-] [i x] Hp. by apply elem_of_rows in Hp as [Hi _]. }
  apply keeps_under_last; [apply _| |intros ?; keeps_tac].
  intros w Hw. apply keeps_retry_assignments. intros p Hp. apply Hw.
  apply elem_of_take in Hp as (k & Hk & _). by eapply list_elem_of_lookup_2.
Qed.
End ActionFrames.
#[export] Hint Resolve keeps_pause_workers keeps_resume_workers keeps_emergency_stop
  keeps_clear_dead_letter_queue : keeps.

(** Relations that the retry of failed jobs keeps: any relation that does not
    look at the job table does. *)
Class Retrying (R : relation World) : Prop :=
  retrying : ∀ updated_at ws u, keeps R (retry_failed_jobs updated_at ws u).
#[global] Instance retrying_closed R `{!Engine R, !RunStable R, !DeadLetters R, !Closed w_jobs R} :
  Retrying R.
Proof.
  intros updated_at ws u.
  assert (Hr : ∀ i, keeps R (modify w_runs i reopen_run)).
  { intros i. apply run_stable. intros r. unfold reopen_run. by case_bool_decide. }
  unfold retry_failed_jobs, retry_letter, letter_target, retry_assignment, enqueue_retry,
    _record_quick_action. keeps_tac.
Qed.
