(* ===== verification/ContentDesk.v ===== *)
(** * The content desk

    services/draft_desk.py: a script draft is generated from a topic; the
    stage executor of a worker runs it for the two drafting stages and
    refuses every other one.  services/content_desk.py: a content job brings
    a run to its review gate; a reviewer edits the draft and decides. *)

From S2P Require Import Prelude Models Retry Text Database Outbox Provenance Assignments Gates Workflow Spend Controller Relay.

Definition EXECUTABLE_STAGES : list string := ["scripting"; "idea"].

Record DraftDeskOutput : Type := mk_draft {
  draft_script_hook : string;
  draft_script_body : string;
  draft_script_cta : string;
  draft_provider : string;
  draft_estimated_cost_usd : string
}.

(** [" ".join(s.split())] *)
Definition collapse (s : string) : string := join " " (split s).

Definition generate_script_draft (topic : string) (target_length_seconds : option Z)
    : result exn DraftDeskOutput :=
  let cleaned := collapse (strip topic) in
  if String.eqb cleaned EmptyString then
    Raise (ValueError "topic is required for Draft Desk generation")
  else
    let length_note :=
      match target_length_seconds with
      | Some n => "Aim for about " +:+ pretty n +:+ " seconds."
      | None => "Keep the piece concise and skimmable."
      end in
    let hook := "What if " +:+ cleaned +:+ " is the lever your audience has been missing?" in
    let body :=
      hook +:+ newline +:+ newline
      +:+ "Today we unpack " +:+ cleaned +:+ ". " +:+ length_note +:+ newline +:+ newline
      +:+ "1) Why " +:+ cleaned +:+ " matters now" +:+ newline
      +:+ "2) The mistake most teams make" +:+ newline
      +:+ "3) A practical next step you can take today" +:+ newline +:+ newline
      +:+ "Close with a clear takeaway your viewer can repeat." in
    let cta := "If this helped, save it and try one change around " +:+ cleaned
               +:+ " this week." in
    Ok (mk_draft hook body cta "draft_desk" "0.01").

(** The context of an assignment, as the claim response carries it. *)
Record StageContext : Type := mk_context {
  ctx_stage : option string;
  ctx_topic : option string;
  ctx_target_length_seconds : option Z
}.

(** (success, result, error) *)
Definition execute_stage (context : StageContext) : bool * option json * string :=
  let stage := lower (strip (default EmptyString (ctx_stage context))) in
  let topic := strip (default EmptyString (ctx_topic context)) in
  if bool_decide (stage ∈ EXECUTABLE_STAGES) then
    if String.eqb topic EmptyString then
      (false, None, "draft_desk requires topic in assignment context")
    else
      match generate_script_draft topic (ctx_target_length_seconds context) with
      | Raise (ValueError m) => (false, None, m)
      | Raise _ => (false, None, EmptyString)
      | Ok draft =>
          (true,
           Some (JObj [("provider", JStr (draft_provider draft));
                       ("script_hook", JStr (draft_script_hook draft));
                       ("script_body", JStr (draft_script_body draft));
                       ("script_cta", JStr (draft_script_cta draft));
                       ("estimated_cost_usd", JStr (draft_estimated_cost_usd draft));
                       ("topic", JStr (collapse topic))]),
           EmptyString)
      end
  else if String.eqb stage "review" then
    (false, None, "review stage is human-gated; workers must not execute it")
  else
    (false, None, "unsupported draft_desk stage '"
                  +:+ (if String.eqb stage EmptyString then "unknown" else stage) +:+ "'").

(** ** Lemmas *)

(** Collapsing is idempotent: the topic in the result is the text that went
    into the draft. *)
Lemma collapse_idemp s : collapse (collapse s) = collapse s.
Proof.
  unfold collapse. f_equal. apply split_join. unfold split. by apply split_words_words.
Qed.

(** * The content desk (services/content_desk.py)

    A content job is a draft taken straight to the human review gate; a
    reviewer edits it or decides.  The desk's workflow has three stages:
    scripting, review, published. *)

Definition DESK_WORKFLOW_NAME : string := "agency_content_desk".
Definition DESK_WORKFLOW_VERSION : Z := 1.
Definition DRAFT_DESK_PROVIDER : string := "draft_desk".

Record ContentJobResult : Type := mk_job_result {
  cj_content_item_id : positive;
  cj_pipeline_run_id : positive;
  cj_review_gate_id : positive;
  cj_topic : string;
  cj_current_stage : string;
  cj_run_status : string;
  cj_gate_status : string
}.

(** ** The workflow *)

Definition desk_definition_of (workspace_id : positive) (_ : positive)
    (d : WorkflowDefinition) : bool :=
  bool_decide (def_workspace_id d = workspace_id ∧ def_name d = DESK_WORKFLOW_NAME
               ∧ def_version d = DESK_WORKFLOW_VERSION).

(** [WorkflowStage(...)] with the column defaults *)
Definition desk_stage (workspace_id : positive) (stage_key : ContentStage)
    (ordinal max_attempts timeout_seconds : Z) (is_review_gate is_terminal : bool) : WorkflowStage :=
  mk_stage workspace_id stage_key ordinal max_attempts 5 2 300 timeout_seconds
    is_review_gate is_terminal None.

Definition add_stage (definition : positive) (s : WorkflowStage) : M unit :=
  insert_row w_stages (definition, wst_stage_key s) s.

Definition add_transition (definition : positive) (from_stage to_stage : ContentStage)
    (trigger : WorkflowTransitionTrigger) : M unit :=
  i ← uuid4;
  insert_row w_transitions i (mk_transition definition from_stage to_stage trigger None 100).

Definition ensure_desk_workflow (workspace_id created_by : positive) : M positive :=
  found ← select w_definitions (desk_definition_of workspace_id);
  existing ← scalar_one_or_none found;
  match existing with
  | Some (i, _) =>
      modify w_definitions i (λ d, d <| def_is_active := true |>);;
      mret i
  | None =>
      definition ← uuid4;
      insert_row w_definitions definition
        (mk_definition workspace_id DESK_WORKFLOW_NAME DESK_WORKFLOW_VERSION true (Some created_by));;
      flush;;
      add_stage definition (desk_stage workspace_id SCRIPTING 1 1 600 false false);;
      add_stage definition
        (desk_stage workspace_id REVIEW 2 3 (DEFAULT_REVIEW_TIMEOUT_HOURS * 3600) true false);;
      add_stage definition (desk_stage workspace_id PUBLISHED 3 3 60 false true);;
      add_transition definition SCRIPTING REVIEW ON_SUCCESS;;
      add_transition definition REVIEW PUBLISHED ON_REVIEW_APPROVED;;
      flush;;
      mret definition
  end.

(** ** Reading gates *)

Record GateRow : Type := mk_gate_row {
  gr_id : positive;
  gr_gate : ReviewGate;
  gr_content_item_id : positive;
  gr_topic : string;
  gr_run_status : PipelineRunStatus;
  gr_version : option ContentVersion
}.

(** the joins: the gate's run, the run's item, the item's current version *)
Definition gate_row (w : World) (i : positive) (gate : ReviewGate) : option GateRow :=
  run ← w_runs w !! gate_pipeline_run_id gate;
  item_id ← run_content_item_id run;
  item ← w_items w !! item_id;
  Some (mk_gate_row i gate item_id (item_topic item) (run_status run)
          (v ← item_current_version_id item; w_versions w !! v)).

Definition by_requested_desc (p q : positive * ReviewGate) : bool :=
  gate_requested_at q.2 <=? gate_requested_at p.2.

Definition list_review_gates (workspace_id : positive) (status_filter : option ReviewGateStatus)
    (limit : option nat) : M (list GateRow) :=
  w ← gets (λ w, w);
  let gates := rows (λ _ g, bool_decide (gate_workspace_id g = workspace_id)
                 && match status_filter with
                    | Some s => bool_decide (gate_status g = s)
                    | None => true end) (w_gates w) in
  let out := omap (λ p, gate_row w p.1 p.2) (order_by by_requested_desc gates) in
  mret (match limit with Some n => take n out | None => out end).

Definition get_review_gate (workspace_id gate_id : positive) : M (option GateRow) :=
  w ← gets (λ w, w);
  mret (gate ← w_gates w !! gate_id;
        if bool_decide (gate_workspace_id gate = workspace_id)
        then gate_row w gate_id gate else None).

(** [select(ReviewGate).where(workspace, id).with_for_update()], or the error *)
Definition load_gate (workspace_id gate_id : positive) : M ReviewGate :=
  o ← session_get w_gates gate_id;
  match o with
  | Some g => if bool_decide (gate_workspace_id g = workspace_id) then mret g
              else raise ReviewGateNotFoundError
  | None => raise ReviewGateNotFoundError
  end.

(** The detail of a gate after it was changed. *)
Definition gate_detail (workspace_id gate_id : positive) : M GateRow :=
  detail ← get_review_gate workspace_id gate_id;
  match detail with
  | Some d => mret d
  | None => raise (RuntimeError "review gate disappeared")
  end.

Section Desk.
Context `{Settings}.

(** ** Creating a job *)

Definition keyed_run (workspace_id : positive) (key : string) (_ : positive)
    (r : PipelineRun) : bool :=
  bool_decide (run_workspace_id r = workspace_id ∧ run_idempotency_key r = Some key).

Definition gates_of_run (run : positive) (_ : positive) (g : ReviewGate) : bool :=
  bool_decide (gate_pipeline_run_id g = run).

(** the job an earlier request with the same key created *)
Definition replay_content_job (run : positive) (r : PipelineRun) : M ContentJobResult :=
  gates ← select w_gates (gates_of_run run);
  gate ← scalar_one_or_none gates;
  item ← session_get_opt w_items (run_content_item_id r);
  match gate, run_content_item_id r, item with
  | Some (g, gate), Some item_id, Some item =>
      mret (mk_job_result item_id run g (item_topic item)
              (ContentStage_value (run_current_stage r))
              (PipelineRunStatus_value (run_status r)) (ReviewGateStatus_value (gate_status gate)))
  | _, _, _ =>
      raise (ValueError "idempotent content job is missing review gate or content item")
  end.

(** the script: the human draft, or a generated one *)
Definition draft_of (topic script_body : string) (script_hook script_cta : option string)
    (target_length_seconds : option Z)
    : result exn (string * option string * option string * string * string) :=
  let body := strip script_body in
  if negb (String.eqb body EmptyString) then
    Ok (body, script_hook, script_cta, "human_draft", "review_desk_manual_draft")
  else
    match generate_script_draft topic target_length_seconds with
    | Raise e => Raise e
    | Ok generated =>
        (** [a or b] on a text: the empty one is false *)
        let or_else (a : option string) (b : string) :=
          match a with
          | Some s => if String.eqb s EmptyString then Some b else Some s
          | None => Some b
          end in
        Ok (draft_script_body generated, or_else script_hook (draft_script_hook generated),
            or_else script_cta (draft_script_cta generated),
            draft_provider generated, "draft_desk_v1")
    end.

Definition orphan_job (run : positive) (_ : positive) (j : JobSchedule) : bool :=
  bool_decide (job_ref_id j = run)
  && bool_decide (job_type j = JOB_STAGE ∨ job_type j = JOB_RETRY)
  && String.eqb (job_ref_table j) (ContentStage_value SCRIPTING)
  && bool_decide (job_status j = JOB_PENDING ∨ job_status j = JOB_LEASED).

Definition cancel_orphan_jobs (run : positive) : M unit :=
  orphan_jobs ← select w_jobs (orphan_job run);
  for_each orphan_jobs (λ p, modify w_jobs p.1 (λ j,
    j <| job_status := JOB_CANCELLED |> <| job_lease_owner := None |>
      <| job_lease_expires_at := None |>)).

Definition insert_run (r : PipelineRun) : M positive :=
  run ← uuid4;
  insert_row w_runs run r;;
  flush;;
  mret run.

(** the item, its first version and its run: (item, version, run) *)
Definition insert_draft (workspace_id actor_id : positive) (topic : string)
    (draft : string * option string * option string * string * string)
    (target_length_seconds : option Z) (idempotency_key : option string)
    : M (positive * positive * positive) :=
  let '(body, hook, cta, generated_by, prompt_used) := draft in
  item ← uuid4;
  insert_row w_items item
    (mk_item workspace_id topic target_length_seconds SCRIPTING CONTENT_ACTIVE None None
       (Some actor_id) (Some actor_id));;
  flush;;
  version ← uuid4;
  insert_row w_versions version
    (mk_version workspace_id item hook (Some body) cta (Some prompt_used) (Some generated_by)
       (Some actor_id));;
  flush;;
  modify w_items item (λ i, i <| item_current_version_id := Some version |>);;
  run ← insert_run
    (mk_run workspace_id (Some item) idempotency_key SCRIPTING RUN_RUNNING None None None None
       None None);
  modify w_items item (λ i, i <| item_current_pipeline_run_id := Some run |>);;
  mret (item, version, run).

(** the run through its first stage, paid for, up to the gate *)
Definition advance_to_gate (definition item version run : positive) : M (positive * ReviewGate) :=
  start_run run definition;;
  let estimate := default_stage_estimate_usd in
  reservation ← reserve_spend run SCRIPTING DRAFT_DESK_PROVIDER estimate;
  match reservation with
  | None => raise SpendBudgetExceededError
  | Some reservation =>
      handle_stage_success run SCRIPTING
        (JObj [("draft_version_id", JStr (uuid_str version));
               ("estimated_cost_usd", usd_json estimate);
               ("provider", JStr DRAFT_DESK_PROVIDER)]);;
      commit_spend run reservation estimate;;
      cancel_orphan_jobs run;;
      gates ← select w_gates (gates_of_run run);
      gate ← scalar_one_or_none gates;
      match gate with
      | None => raise (RuntimeError "content job failed to enter Human Review Gate")
      | Some (g, gate) =>
          if negb (bool_decide (gate_status gate = GATE_AWAITING)) then
            raise (RuntimeError "content job failed to enter Human Review Gate")
          else mret (g, gate)
      end
  end.

Definition create_new_job (workspace_id actor_id : positive) (topic script_body : string)
    (script_hook script_cta : option string) (target_length_seconds : option Z)
    (idempotency_key : option string) : M ContentJobResult :=
  definition ← ensure_desk_workflow workspace_id actor_id;
  draft ← lift_result (draft_of topic script_body script_hook script_cta target_length_seconds);
  ids ← insert_draft workspace_id actor_id topic draft target_length_seconds idempotency_key;
  let '(item, version, run) := ids in
  gate ← advance_to_gate definition item version run;
  modify w_items item (λ i, i <| item_current_stage := REVIEW |>);;
  flush;;
  r ← the w_runs run;
  mret (mk_job_result item run gate.1 topic (ContentStage_value REVIEW)
          (PipelineRunStatus_value (run_status r)) (ReviewGateStatus_value GATE_AWAITING)).

Definition create_content_job (workspace_id actor_id : positive) (topic script_body : string)
    (script_hook script_cta : option string) (target_length_seconds : option Z)
    (idempotency_key : option string) : M ContentJobResult :=
  existing_run ←
    match idempotency_key with
    | None => mret None
    | Some key =>
        found ← select w_runs (keyed_run workspace_id key);
        scalar_one_or_none found
    end;
  match existing_run with
  | Some (run, r) => replay_content_job run r
  | None => create_new_job workspace_id actor_id topic script_body script_hook script_cta
              target_length_seconds idempotency_key
  end.

(** ** Deciding *)

Definition decide_review_gate (workspace_id gate_id reviewer_id : positive) (approved : bool)
    (expected_content_version_id : option positive) (notes : option string) : M GateRow :=
  gate ← load_gate workspace_id gate_id;
  if negb (bool_decide (gate_status gate = GATE_AWAITING)) then
    raise (ValueError "review gate is not awaiting a decision")
  else if approved && bool_decide (gate_content_version_id gate = None) then
    raise (ValueError "review gate has no content version on record; it cannot be approved")
  else if bool_decide (expected_content_version_id ≠ None)
          && negb (bool_decide (expected_content_version_id = gate_content_version_id gate)) then
    raise (ValueError "review gate content has changed since it was loaded")
  else
    event ← submit_review_decision gate_id reviewer_id approved notes;
    dispatch_one (register_all []) event;;
    flush;;
    gate ← the w_gates gate_id;
    if bool_decide (gate_status gate = GATE_AWAITING) then raise ReviewGateDeliveryError
    else gate_detail workspace_id gate_id.

(** ** Editing *)

(** [x if x is not None else (current.x if current else None)] *)
Definition kept (new : option string) (current : option ContentVersion)
    (field : ContentVersion → option string) : option string :=
  match new with Some s => Some s | None => current ≫= field end.

Definition edit_review_gate_content (workspace_id gate_id editor_id
    expected_content_version_id : positive) (script_hook script_body script_cta : option string)
    : M GateRow :=
  gate ← load_gate workspace_id gate_id;
  if negb (bool_decide (gate_status gate = GATE_AWAITING)) then
    raise (ValueError "review gate is not awaiting a decision")
  else if negb (bool_decide (gate_content_version_id gate = Some expected_content_version_id)) then
    raise (ValueError "review gate content has changed since it was loaded")
  else
    run ← session_get w_runs (gate_pipeline_run_id gate);
    match run ≫= run_content_item_id with
    | None => raise (ValueError "review_gate missing pipeline run / content item")
    | Some item_id =>
        o ← session_get w_items item_id;
        match o with
        | None => raise (ValueError "review_gate missing content item")
        | Some item =>
            current_version ← session_get_opt w_versions (item_current_version_id item);
            version ← uuid4;
            insert_row w_versions version
              (mk_version workspace_id item_id
                 (kept script_hook current_version ver_script_hook)
                 (kept script_body current_version ver_script_body)
                 (kept script_cta current_version ver_script_cta)
                 None (Some "human_edit") (Some editor_id));;
            flush;;
            modify w_items item_id (λ i, i <| item_current_version_id := Some version |>
                                           <| item_updated_by := Some editor_id |>);;
            modify w_gates gate_id (edited_gate version);;
            flush;;
            gate_detail workspace_id gate_id
        end
    end.
End Desk.

(** ** Frames *)

(** Relations that adding a run, at its first stage, under a fresh key keeps. *)
Class RunInsert (R : relation World) : Prop :=
  run_insert : ∀ r, run_current_stage r = SCRIPTING → keeps R (insert_run r).
#[export] Hint Resolve run_insert : keeps.
#[export] Hint Extern 0 (run_current_stage _ = SCRIPTING) => reflexivity : keeps.
#[export] Instance run_insert_closed R `{!Engine R, !Closed w_runs R} : RunInsert R.
Proof. intros r _. unfold insert_run. keeps_tac. Qed.

(** Relations that setting the desk's workflow up keeps. *)
Class DeskWorkflow (R : relation World) : Prop :=
  desk_workflow : ∀ ws u, keeps R (ensure_desk_workflow ws u).
#[export] Hint Resolve desk_workflow : keeps.
#[export] Instance desk_workflow_closed R `{!Engine R, !Closed w_definitions R, !Closed w_stages R,
  !Closed w_transitions R} : DeskWorkflow R.
Proof. intros ws u. unfold ensure_desk_workflow, add_stage, add_transition. keeps_tac. Qed.

(** The reservation [reserve_spend] returns is one of the run. *)
Lemma reserve_spend_reserved run stage p e w rsv w' :
  reserve_spend run stage p e w = (Ok (Some rsv), w') → reserved_for run rsv w'.
Proof.
  unfold reserve_spend. intros Hr.
  apply bind_ok_inv in Hr as (prior & w1 & _ & Hr).
  apply bind_ok_inv in Hr as ([] & w2 & _ & Hr).
  apply bind_ok_inv in Hr as ([[kind|] extra] & w3 & _ & Hr).
  { do 4 (apply bind_ok_inv in Hr as (? & ? & _ & Hr)). done. }
  apply bind_ok_inv in Hr as (r & w4 & Hrun & Hr). apply the_ok_inv in Hrun as [Hrun ->].
  do 3 (erewrite run_bind_ok in Hr by reflexivity).
  match type of Hr with ?m ?w4 = _ =>
    assert (Hk : keeps (frame w_reservations) (m)) by keeps_tac; specialize (Hk w4) end.
  rewrite Hr in Hk. unfold frame in Hk. simpl in Hk.
  do 4 (apply bind_ok_inv in Hr as (? & ? & _ & Hr)). injection Hr as <- <-.
  unfold reserved_for. rewrite Hk. eexists. rewrite lookup_insert_eq. done.
Qed.

(** The gate loaded is the row. *)
Lemma load_gate_inv ws i w g w' : load_gate ws i w = (Ok g, w') → gate_at i g w ∧ w' = w.
Proof.
  unfold load_gate. rewrite run_bind. simpl. unfold gate_at.
  destruct (w_gates w !! i) as [x|]; [|done].
  destruct (bool_decide _); [|done]. by intros [= <- <-].
Qed.

Section Frames.
Context `{Settings} (R : relation World) `{!Engine R, !RunStable R, !RunInsert R, !SpendSafe R,
  !JobRows R, !GateRows R, !Moves R, !DeadLetters R, !Closed w_items R,
  !Closed w_versions R, !DeskWorkflow R}.

Lemma keeps_insert_draft ws u tp d n k : keeps R (insert_draft ws u tp d n k).
Proof using All. unfold insert_draft. keeps_tac. Qed.
Hint Resolve keeps_insert_draft : keeps.

Lemma keeps_advance_to_gate d i v run : keeps R (advance_to_gate d i v run).
Proof using All.
  unfold advance_to_gate. apply keeps_bind; [apply _|keeps_tac|intros _].
  apply (keeps_bind_post (λ o w, match o with Some rsv => reserved_for run rsv w | None => True end));
    [apply _|by apply spend_safe_reserve, stage_estimate_ge0| |].
  { intros w [rsv|] w' Hr; [by apply reserve_spend_reserved in Hr|done]. }
  intros [rsv|]; [|apply keeps_under_keeps; keeps_tac].
  assert (Hs : ∀ R' `{!Engine R', !RunStable R', !JobRows R', !Moves R'} c,
    keeps R' (handle_stage_success run SCRIPTING c)).
  { intros R' ???? c w. apply keeps_handle_stage_success; [apply _..|]. by left. }
  apply keeps_under_bind; [apply _|by apply Hs|apply Hs; apply _|intros _].
  apply keeps_under_last; [apply _| |intros _; unfold cancel_orphan_jobs; keeps_tac].
  intros w Hw. by apply spend_safe_commit.
Qed.
Hint Resolve keeps_advance_to_gate : keeps.

Lemma keeps_create_content_job ws u tp b h c n k : keeps R (create_content_job ws u tp b h c n k).
Proof using All. unfold create_content_job, create_new_job, replay_content_job. keeps_tac. Qed.

Lemma keeps_gate_detail ws g : keeps R (gate_detail ws g).
Proof using All. unfold gate_detail, get_review_gate. keeps_tac. Qed.
Lemma keeps_load_gate ws g : keeps R (load_gate ws g).
Proof using All. unfold load_gate. keeps_tac. Qed.
Hint Resolve keeps_gate_detail keeps_load_gate : keeps.
Lemma keeps_edit_review_gate_content ws g u e h b c :
  keeps R (edit_review_gate_content ws g u e h b c).
Proof using All.
  unfold edit_review_gate_content.
  apply (keeps_bind_post (gate_at g)); [apply _|keeps_tac|by intros ??? [? ->]%load_gate_inv|intros x].
  destruct (bool_decide_reflect (gate_status x = GATE_AWAITING)) as [Hx|]; simpl;
    [|apply keeps_under_keeps; keeps_tac].
  destruct (negb _); [apply keeps_under_keeps; keeps_tac|].
  apply keeps_under_bind; [apply _|keeps_tac|keeps_tac|intros o].
  destruct (o ≫= run_content_item_id) as [i|]; [|apply keeps_under_keeps; keeps_tac].
  apply keeps_under_bind; [apply _|keeps_tac|keeps_tac|intros [item|]];
    [|apply keeps_under_keeps; keeps_tac].
  do 5 (apply keeps_under_bind; [apply _|keeps_tac|keeps_tac|intros ?]).
  apply keeps_under_last; [apply _| |keeps_tac].
  apply keeps_gate_step with (x := x); [apply _..|by constructor|].
  intros v. simpl. rewrite Hx. by destruct v.
Qed.
Lemma keeps_decide_review_gate `{!EventRows R, !Closed w_consumers R,
    !Closed w_checkpoints R, !Reviewing R} ws g u a e n :
  keeps R (decide_review_gate ws g u a e n).
Proof using All.
  pose proof (λ ev, keeps_dispatch_one R (register_all []) ev (registry_keeps_all R)).
  unfold decide_review_gate. keeps_tac.
Qed.
End Frames.
