(* ===== verification/Publication.v ===== *)
(** * The publication gate (services/publication_policy.py)

    [assert_publishable] answers whether a content item may be handed to a
    platform: it returns a decision when every control holds and raises
    [PublicationBlocked] with the code of the first control that does not.
    The eligibility table is written by no operation of the program; it is an
    argument.  The text of the exceptions is left out, their codes are kept.
    [fingerprint_script] names a script up to case and spacing. *)

From S2P Require Import Prelude Models Database Text.

(** [models/publication_policy.py] *)
Definition SUPPORTED_PLATFORMS : list string := ["youtube"; "tiktok"; "instagram"].

Record PublicationEligibility : Type := mk_eligibility {
  pel_workspace_id : positive;
  pel_content_item_id : positive;
  pel_platform : string;
  pel_synthetic_media_disclosed : bool;
  pel_rights_confirmed_by : option positive;
  pel_rights_confirmed_at : option time;
  pel_originality_fingerprint : option string;
  pel_review_gate_id : option positive
}.

Record PublicationDecision : Type := mk_publication_decision {
  pd_content_item_id : positive;
  pd_platform : string;
  pd_eligibility_id : positive;
  pd_review_gate_id : positive
}.

Definition blocked {A} (code : string) : M A := raise (PublicationBlocked code).

(** ** The script's fingerprint *)

(** [" ".join((part or "").lower().split())] *)
Definition normalized_part (part : option string) : string :=
  join " " (split (lower (default EmptyString part))).
Definition normalized_script (parts : list (option string)) : string :=
  strip (join " " (map normalized_part parts)).

Definition fingerprint_script (sha256 : string → string) (parts : list (option string)) :
    result exn string :=
  if String.eqb (normalized_script parts) EmptyString
  then Raise (PublicationBlocked "originality_fingerprint_missing")
  else Ok (sha256 (normalized_script parts)).

(** ** The gate *)

Section Policy.
Context (eligibility : gmap positive PublicationEligibility).

Definition eligibility_of (workspace_id content_item_id : positive) (platform : string)
  (e : PublicationEligibility) : bool :=
bool_decide (pel_workspace_id e = workspace_id) &&
bool_decide (pel_content_item_id e = content_item_id) && String.eqb (pel_platform e) platform.

Definition duplicate_of (workspace_id content_item_id : positive) (platform : string)
  (row e : PublicationEligibility) : bool :=
bool_decide (pel_workspace_id e = workspace_id) && String.eqb (pel_platform e) platform &&
bool_decide (pel_originality_fingerprint e = pel_originality_fingerprint row) &&
negb (bool_decide (pel_content_item_id e = content_item_id)).

(** the review gate the row names, with its run and its item *)
Definition approved_gate (workspace_id content_item_id : positive) (row : PublicationEligibility) :
  M positive :=
match pel_review_gate_id row with
| None => blocked "review_gate_missing"
| Some gate_id =>
    gate ← session_get w_gates gate_id;
    match gate with
    | None => blocked "review_gate_missing"
    | Some gate =>
        if negb (bool_decide (gate_workspace_id gate = workspace_id))
        then blocked "review_gate_missing"
        else if negb (bool_decide (gate_status gate = GATE_APPROVED))
        then blocked "review_gate_not_approved"
        else
          run ← session_get w_runs (gate_pipeline_run_id gate);
          match run with
          | None => blocked "review_gate_missing"
          | Some run =>
              if negb (bool_decide (run_workspace_id run = workspace_id))
              then blocked "review_gate_missing"
              else if negb (bool_decide (run_content_item_id run = Some content_item_id))
              then blocked "review_gate_content_item_mismatch"
              else
                item ← session_get w_items content_item_id;
                match item with
                | None => blocked "content_item_missing"
                | Some item =>
                    if negb (bool_decide (item_workspace_id item = workspace_id))
                    then blocked "content_item_missing"
                    else
                      match gate_content_version_id gate, item_current_version_id item with
                      | Some v, Some v' =>
                          if bool_decide (v = v') then mret gate_id
                          else blocked "review_gate_content_version_mismatch"
                      | _, _ => blocked "review_gate_content_version_mismatch"
                      end
                end
          end
    end
end.

(** the attestations of the row *)
Definition attested (workspace_id content_item_id : positive) (platform : string)
  (row : PublicationEligibility) : M unit :=
if negb (pel_synthetic_media_disclosed row) then blocked "synthetic_media_not_disclosed"
else
  match pel_rights_confirmed_by row, pel_rights_confirmed_at row with
  | Some _, Some _ =>
      if String.eqb (default EmptyString (pel_originality_fingerprint row)) EmptyString
      then blocked "originality_fingerprint_missing"
      else
        match rows (λ _, duplicate_of workspace_id content_item_id platform row) eligibility with
        | [] => mret tt
        | _ => blocked "duplicate_content_for_platform"
        end
  | _, _ => blocked "rights_not_confirmed"
  end.

Definition assert_publishable (workspace_id content_item_id : positive) (platform : string) :
  M PublicationDecision :=
let normalized_platform := lower (strip platform) in
if negb (bool_decide (normalized_platform ∈ SUPPORTED_PLATFORMS))
then blocked "unsupported_platform"
else
  row ← scalar_one_or_none
          (rows (λ _, eligibility_of workspace_id content_item_id normalized_platform) eligibility);
  match row with
  | None => blocked "eligibility_missing"
  | Some (row_id, row) =>
      gate_id ← approved_gate workspace_id content_item_id row;
      attested workspace_id content_item_id normalized_platform row;;
      mret (mk_publication_decision content_item_id normalized_platform row_id gate_id)
  end.
End Policy.

(** ** Frames *)

Section Frames.
Context (R : relation World) `{!PreOrder R}.

Lemma keeps_approved_gate ws item row : keeps R (approved_gate ws item row).
Proof. unfold approved_gate, blocked. keeps_tac. Qed.
Lemma keeps_attested eligibility ws item platform row :
keeps R (attested eligibility ws item platform row).
Proof. unfold attested, blocked. keeps_tac. Qed.
Lemma keeps_assert_publishable eligibility ws item platform :
keeps R (assert_publishable eligibility ws item platform).
Proof using All.
unfold assert_publishable, blocked. pose proof keeps_approved_gate. pose proof keeps_attested.
keeps_tac.
Qed.
End Frames.

#[export] Hint Resolve keeps_approved_gate keeps_attested keeps_assert_publishable : keeps.
