(* ===== verification/RateLimit.v ===== *)
(** * Request rate limiting (core/rate_limit.py)

    The fixed-window counters behind the API: [InMemoryRateLimiter], a bounded
    ordered table of windows in one process, [PostgresRateLimiter], one row per
    bucket shared through the database, and the middleware that chooses the
    limiter of a request and answers 429 or 503.  Instants and durations are
    integers (microseconds); the rounding of the floats is not modelled. *)

From S2P Require Import Prelude Models.

Record Window : Type := mk_window {
  win_started_at : time;
  win_count : Z
}.
#[export] Instance window_settable : Settable Window := λ r,
  mk_window (win_started_at r) (win_count r).

Definition DEFAULT_MAX_TRACKED_KEYS : Z := 100000.
Definition DEFAULT_CLEANUP_BATCH_SIZE : nat := 1000.

(** what [check] returns: allowed, and the delay until a retry may succeed *)
Definition RateLimitCheckResult : Type := bool * Z.

(** ** [OrderedDict] *)

Section OrderedDict.
Context {A : Type}.

Fixpoint od_get (key : string) (l : list (string * A)) : option A :=
match l with
| [] => None
| (k, a) :: l => if String.eqb k key then Some a else od_get key l
end.
(** [d[key] = a]: the key keeps its place, a new one goes to the end *)
Fixpoint od_set (key : string) (a : A) (l : list (string * A)) : list (string * A) :=
match l with
| [] => [(key, a)]
| (k, b) :: l => if String.eqb k key then (k, a) :: l else (k, b) :: od_set key a l
end.
Fixpoint od_remove (key : string) (l : list (string * A)) : list (string * A) :=
match l with
| [] => []
| (k, b) :: l => if String.eqb k key then l else (k, b) :: od_remove key l
end.
Definition move_to_end (key : string) (l : list (string * A)) : list (string * A) :=
match od_get key l with
| Some a => od_remove key l ++ [(key, a)]
| None => l
end.
End OrderedDict.

(** ** [InMemoryRateLimiter] *)

Record InMemoryRateLimiter : Type := mk_memory_limiter {
  im_max_requests : Z;
  im_window_seconds : Z;
  im_max_tracked_keys : Z;
  im_windows : list (string * Window);
  im_next_sweep_at : time
}.
#[export] Instance memory_limiter_settable : Settable InMemoryRateLimiter := λ r,
  mk_memory_limiter (im_max_requests r) (im_window_seconds r) (im_max_tracked_keys r)
    (im_windows r) (im_next_sweep_at r).

(** [__init__] *)
Definition new_memory_limiter (max_requests window_seconds max_tracked_keys : Z) :
    result exn InMemoryRateLimiter :=
  if max_requests <? 1 then Raise (ValueError "max_requests must be >= 1")
  else if window_seconds <=? 0 then Raise (ValueError "window_seconds must be > 0")
  else if max_tracked_keys <? 1 then Raise (ValueError "max_tracked_keys must be >= 1")
  else Ok (mk_memory_limiter max_requests window_seconds max_tracked_keys [] 0).

Definition tracked_keys (l : InMemoryRateLimiter) : Z := Z.of_nat (length (im_windows l)).

Definition sweep (now : time) (l : InMemoryRateLimiter) : InMemoryRateLimiter :=
  let cutoff := now - im_window_seconds l in
  l <| im_windows ::= filter (λ p, cutoff < win_started_at p.2) |>
    <| im_next_sweep_at := now + im_window_seconds l |>.

(** [while len(self._windows) >= self.max_tracked_keys: popitem(last=False)] *)
Fixpoint evict_oldest {A} (max_tracked_keys : Z) (l : list A) : list A :=
  match l with
  | [] => []
  | _ :: l' =>
      if max_tracked_keys <=? Z.of_nat (length l) then evict_oldest max_tracked_keys l' else l
  end.

Definition make_room (now : time) (l : InMemoryRateLimiter) : InMemoryRateLimiter :=
  let l := if im_next_sweep_at l <=? now then sweep now l else l in
  l <| im_windows ::= evict_oldest (im_max_tracked_keys l) |>.

(** the window of the key, unless it has run out *)
Definition live_window (window_seconds : Z) (now : time) (w : option Window) : option Window :=
  match w with
  | Some w => if window_seconds <=? now - win_started_at w then None else Some w
  | None => None
  end.

Definition memory_check (key : string) (now : time) (l : InMemoryRateLimiter) :
    RateLimitCheckResult * InMemoryRateLimiter :=
  match live_window (im_window_seconds l) now (od_get key (im_windows l)) with
  | None =>
      let l := make_room now l in
      ((true, 0), l <| im_windows ::= λ d, move_to_end key (od_set key (mk_window now 1) d) |>)
  | Some w =>
      if win_count w <? im_max_requests l
      then ((true, 0), l <| im_windows ::= od_set key (w <| win_count ::= Z.succ |>) |>)
      else ((false, Z.max (im_window_seconds l - (now - win_started_at w)) 0), l)
  end.

(** ** [PostgresRateLimiter] *)

Record Bucket : Type := mk_bucket {
  bk_window_started_at : time;
  bk_expires_at : time;
  bk_count : Z;
  bk_updated_at : time
}.

Record PostgresRateLimiter : Type := mk_postgres_limiter {
  pg_max_requests : Z;
  pg_window_seconds : Z;
  pg_cleanup_interval : Z;
  pg_cleanup_batch_size : nat;
  pg_next_cleanup_at : time;
  pg_buckets : gmap string Bucket
}.
#[export] Instance postgres_limiter_settable : Settable PostgresRateLimiter := λ r,
  mk_postgres_limiter (pg_max_requests r) (pg_window_seconds r) (pg_cleanup_interval r)
    (pg_cleanup_batch_size r) (pg_next_cleanup_at r) (pg_buckets r).

(** [__init__]; [x or y] on a float takes [y] for 0 as well, but 0 is refused *)
Definition new_postgres_limiter (max_requests window_seconds : Z) (cleanup_interval : option Z)
    (cleanup_batch_size : nat) (now : time) (table : gmap string Bucket) :
    result exn PostgresRateLimiter :=
  if max_requests <? 1 then Raise (ValueError "max_requests must be >= 1")
  else if window_seconds <=? 0 then Raise (ValueError "window_seconds must be > 0")
  else if match cleanup_interval with Some i => i <=? 0 | None => false end
  then Raise (ValueError "cleanup_interval_seconds must be > 0")
  else if (cleanup_batch_size <? 1)%nat then Raise (ValueError "cleanup_batch_size must be >= 1")
  else
    let interval := default window_seconds cleanup_interval in
    Ok (mk_postgres_limiter max_requests window_seconds interval cleanup_batch_size
          (now + interval) table).

(** [_RATE_LIMIT_UPSERT_SQL], at the database's clock *)
Definition upsert (window_seconds : Z) (db_now : time) (b : option Bucket) : Bucket :=
  match b with
  | Some b =>
      if bk_expires_at b <=? db_now
      then mk_bucket db_now (db_now + window_seconds) 1 db_now
      else mk_bucket (bk_window_started_at b) (bk_expires_at b) (bk_count b + 1) db_now
  | None => mk_bucket db_now (db_now + window_seconds) 1 db_now
  end.

Definition by_expires (p q : string * Bucket) : bool := bk_expires_at p.2 <=? bk_expires_at q.2.

(** [_RATE_LIMIT_CLEANUP_SQL] *)
Definition cleanup (batch_size : nat) (db_now : time) (table : gmap string Bucket) :
    gmap string Bucket :=
  let doomed :=
    take batch_size (order_by by_expires (rows (λ _ b, bk_expires_at b <=? db_now) table)) in
  foldr (λ p m, delete p.1 m) table doomed.

(** [check]: [now] is the process's monotonic clock, [db_now] the database's at
    the upsert and [db_later] at the cleanup; [lock_free] is what
    [pg_try_advisory_xact_lock] answers. *)
Definition postgres_check (key : string) (now db_now db_later : time) (lock_free : bool)
    (l : PostgresRateLimiter) : RateLimitCheckResult * PostgresRateLimiter :=
  let row := upsert (pg_window_seconds l) db_now (pg_buckets l !! key) in
  let l := l <| pg_buckets ::= <[key := row]> |> in
  let l :=
    if pg_next_cleanup_at l <=? now then
      if lock_free
      then l <| pg_buckets ::= cleanup (pg_cleanup_batch_size l) db_later |>
             <| pg_next_cleanup_at := now + pg_cleanup_interval l |>
      else l <| pg_next_cleanup_at := now + Z.min (seconds 1) (pg_cleanup_interval l) |>
    else l in
  let retry_after := Z.max (bk_expires_at row - bk_updated_at row) 0 in
  let allowed := bk_count row <=? pg_max_requests l in
  ((allowed, if allowed then 0 else retry_after), l).

(** ** [RateLimitMiddleware] *)

Definition auth_path_prefixes : list string := ["/auth/"].
Definition exempt_paths : list string :=
  ["/health/live"; "/health/ready"; "/health/automation"; "/metrics"].

Inductive Response : Type :=
| CallNext
| ServiceUnavailable (retry_after : Z)
| TooManyRequests (retry_after : Z).

(** [_client_ip] *)
Definition client_ip (client : option string) : string := default "unknown" client.

(** the limiter's answer to the middleware, a result or an exception *)
Definition answered (r : result exn RateLimitCheckResult) : Response :=
  match r with
  | Raise _ => ServiceUnavailable 5
  | Ok (true, _) => CallNext
  | Ok (false, retry_after) => TooManyRequests (retry_after / 1000000 + 1)
  end.

Section Middleware.
Context {G A : Type}.
Context (global_limiter : string → ST G exn RateLimitCheckResult).
Context (auth_limiter : string → ST A exn RateLimitCheckResult).

Definition rate_limit_dispatch (path : string) (client : option string) (s : G * A) :
  Response * (G * A) :=
if existsb (String.eqb path) exempt_paths then (CallNext, s)
else
  let ip := client_ip client in
  if existsb (λ prefix, String.prefix prefix path) auth_path_prefixes
  then let '(r, a) := auth_limiter ("auth:" +:+ ip) s.2 in (answered r, (s.1, a))
  else let '(r, g) := global_limiter ("global:" +:+ ip) s.1 in (answered r, (g, s.2)).
End Middleware.
