(* ===== verification/Billing.v ===== *)
(** * Stripe billing (services/billing.py)

    The mirror of a workspace's subscription and the log of webhook receipts.
    [process_stripe_event] applies one verified event: a receipt with a unique
    event id is claimed first, inside a savepoint, then the event's effect on
    the billing row.  The calls to Stripe are parameters; a JSON value that is
    no string is turned into text by a parameter as well.  Logging is left
    out. *)

From S2P Require Import Prelude Models Text Decimal PyJson.

(** ** Data ([models/billing.py]) *)

Record WorkspaceBilling : Type := mk_billing {
  wb_stripe_customer_id : option string;
  wb_stripe_subscription_id : option string;
  wb_plan : string;
  wb_status : string;
  wb_current_period_end : option time;
  wb_cancel_at_period_end : bool
}.
#[export] Instance billing_settable : Settable WorkspaceBilling := λ r,
  mk_billing (wb_stripe_customer_id r) (wb_stripe_subscription_id r) (wb_plan r) (wb_status r)
    (wb_current_period_end r) (wb_cancel_at_period_end r).

Record BillingWebhookEvent : Type := mk_webhook_event {
  we_event_type : string;
  we_workspace_id : option positive;
  we_payload : json
}.
#[export] Instance webhook_event_settable : Settable BillingWebhookEvent := λ r,
  mk_webhook_event (we_event_type r) (we_workspace_id r) (we_payload r).

(** the two tables, the receipts under their unique [stripe_event_id], and the
    workspaces the foreign keys refer to *)
Record BillingDB : Type := mk_billing_db {
  bd_workspaces : gset positive;
  bd_billing : gmap positive WorkspaceBilling;
  bd_events : gmap string BillingWebhookEvent
}.
#[export] Instance billing_db_settable : Settable BillingDB := λ r,
  mk_billing_db (bd_workspaces r) (bd_billing r) (bd_events r).

Abbreviation BM := (ST BillingDB exn).

Definition ACTIVE_STATUSES : list string := ["active"; "trialing"].
Definition PRO_PLAN : string := "pro".

Record CheckoutResult : Type := mk_checkout_result {
  cr_checkout_url : string;
  cr_session_id : string;
  cr_workspace_id : positive
}.

Record Entitlement : Type := mk_entitlement {
  ent_workspace_id : positive;
  ent_plan : string;
  ent_status : string;
  ent_entitled : bool;
  ent_billing_enabled : bool;
  ent_stripe_customer_id : option string;
  ent_stripe_subscription_id : option string;
  ent_current_period_end : option time;
  ent_cancel_at_period_end : bool
}.

(** the settings of [core/config.py] this module reads *)
Record BillingSettings : Type := mk_billing_settings {
  billing_enabled : bool;
  stripe_secret_key : option string;
  stripe_webhook_secret : option string;
  stripe_price_id_pro : option string;
  stripe_checkout_success_url : option string;
  stripe_checkout_cancel_url : option string
}.

(** [bool(text)] of an optional string *)
Definition nonempty (s : option string) : bool := negb (String.eqb (default EmptyString s) EmptyString).

(** ** The row of a workspace *)

(** both have the text, and it is the same *)
Definition same_text (a b : option string) : bool :=
  match a, b with Some s, Some t => String.eqb s t | _, _ => false end.

(** another workspace already has this customer or subscription *)
Definition taken_from (workspace_id : positive) (row : WorkspaceBilling) (i : positive)
    (r : WorkspaceBilling) : bool :=
  negb (bool_decide (i = workspace_id)) &&
  (same_text (wb_stripe_customer_id r) (wb_stripe_customer_id row) ||
   same_text (wb_stripe_subscription_id r) (wb_stripe_subscription_id row)).

(** [session.flush()] of a workspace's row: the two unique columns *)
Definition flush_billing (workspace_id : positive) : BM unit :=
  t ← gets bd_billing;
  match t !! workspace_id with
  | Some row =>
      match rows (taken_from workspace_id row) t with
      | [] => mret tt
      | _ => raise (IntegrityError "workspace_billing")
      end
  | None => mret tt
  end.

Definition ensure_workspace_billing (workspace_id : positive) : BM WorkspaceBilling :=
  t ← gets bd_billing;
  match t !! workspace_id with
  | Some row => mret row
  | None =>
      ws ← gets bd_workspaces;
      if bool_decide (workspace_id ∈ ws) then
        let row := mk_billing None None "none" "inactive" None false in
        update bd_billing <[workspace_id := row]>;;
        mret row
      else raise (IntegrityError "workspace_billing_workspace_id_fkey")
  end.

Definition set_billing (workspace_id : positive) (g : WorkspaceBilling → WorkspaceBilling) : BM unit :=
  update bd_billing (alter g workspace_id).

Definition is_entitled (row : option WorkspaceBilling) (billing_enabled : bool) : bool :=
  if negb billing_enabled then true
  else
    match row with
    | None => false
    | Some row => String.eqb (wb_plan row) PRO_PLAN && existsb (String.eqb (wb_status row)) ACTIVE_STATUSES
    end.

Section Service.
Context (settings : BillingSettings).

Definition get_entitlement (workspace_id : positive) : BM Entitlement :=
row ← ensure_workspace_billing workspace_id;
mret (mk_entitlement workspace_id (wb_plan row) (wb_status row)
        (is_entitled (Some row) (billing_enabled settings)) (billing_enabled settings)
        (wb_stripe_customer_id row) (wb_stripe_subscription_id row)
        (wb_current_period_end row) (wb_cancel_at_period_end row)).

Definition require_entitlement_for_workspace (workspace_id : positive) : BM unit :=
if negb (billing_enabled settings) then mret tt
else
  t ← gets bd_billing;
  if is_entitled (t !! workspace_id) true then mret tt
  else raise (BillingError "not_entitled"
                "workspace requires an active Pro subscription to create content jobs").

(** ** Checkout *)

Definition missing_settings : list string :=
map fst (filter (λ p, Is_true (negb (nonempty p.2)))
  [("STRIPE_SECRET_KEY", stripe_secret_key settings);
   ("STRIPE_WEBHOOK_SECRET", stripe_webhook_secret settings);
   ("STRIPE_PRICE_ID_PRO", stripe_price_id_pro settings);
   ("STRIPE_CHECKOUT_SUCCESS_URL", stripe_checkout_success_url settings);
   ("STRIPE_CHECKOUT_CANCEL_URL", stripe_checkout_cancel_url settings)]).

Definition require_billing_config : BM unit :=
if negb (billing_enabled settings)
then raise (BillingError "billing_disabled" "billing is not enabled")
else
  match missing_settings with
  | [] => mret tt
  | missing => raise (BillingError "billing_misconfigured"
      ("billing enabled but missing required settings: " +:+ join ", " missing))
  end.

(** Stripe's API: a new customer's id, a new checkout session's url and id;
  [inr] is the text of a [StripeError] *)
Context (stripe_create_customer : option string → positive → string + string).
Context (stripe_create_session : option string → positive → (option string * string) + string).

Definition stripe_customer (workspace_id : positive) (billing : WorkspaceBilling)
  (customer_email : option string) : BM (option string) :=
if nonempty (wb_stripe_customer_id billing) then mret (wb_stripe_customer_id billing)
else
  match stripe_create_customer (if nonempty customer_email then customer_email else None) workspace_id with
  | inr exc => raise (BillingError "stripe_unavailable" ("Stripe customer creation failed: " +:+ exc))
  | inl customer =>
      set_billing workspace_id (λ b, b <| wb_stripe_customer_id := Some customer |>);;
      flush_billing workspace_id;;
      mret (Some customer)
  end.

Definition create_checkout_session (workspace_id : positive) (customer_email : option string) :
  BM CheckoutResult :=
require_billing_config;;
billing ← ensure_workspace_billing workspace_id;
if is_entitled (Some billing) true
then raise (BillingError "already_entitled" "workspace already has an active Pro plan")
else
  customer ← stripe_customer workspace_id billing customer_email;
  match stripe_create_session customer workspace_id with
  | inr exc =>
      raise (BillingError "stripe_unavailable" ("Stripe checkout session creation failed: " +:+ exc))
  | inl (url, session_id) =>
      if nonempty url
      then mret (mk_checkout_result (default EmptyString url) session_id workspace_id)
      else raise (BillingError "checkout_failed" "Stripe Checkout session missing url")
  end.
End Service.

(** ** Webhooks *)

(** [datetime.fromtimestamp]: the years a [datetime] has; a number out of the
    platform's range is an [OverflowError], a [ValueError] here *)
Definition fromtimestamp (n : Z) : result exn time :=
  if (-62135596800 <=? n) && (n <=? 253402300799) then Ok (seconds n)
  else Raise (ValueError "year is out of range").

Definition period_end_from_subscription (sub : json) : result exn (option time) :=
  raw ← py_get sub "current_period_end";
  match raw with
  | JNull => mret None
  | _ => n ← int_of_json raw; t ← fromtimestamp n; mret (Some t)
  end.

(** the types of the events that move the subscription's state *)
Definition SUBSCRIPTION_EVENTS : list string :=
  ["customer.subscription.created"; "customer.subscription.updated"; "customer.subscription.deleted"].
Definition FRESHNESS_EVENTS : list string := SUBSCRIPTION_EVENTS ++ ["invoice.payment_failed"].

(** [created] of a stored payload *)
Definition created_of (payload : json) : option Z :=
  match payload with
  | JObj kv => as_int (default JNull (obj_get kv "created"))
  | _ => None
  end.

Definition applied_for (workspace_id : positive) (exclude_event_id : string) (i : string)
    (e : BillingWebhookEvent) : bool :=
  bool_decide (we_workspace_id e = Some workspace_id) && negb (String.eqb i exclude_event_id) &&
  existsb (String.eqb (we_event_type e)) FRESHNESS_EVENTS.

(** [max(created_values) if created_values else None] *)
Definition max_or_none (l : list Z) : option Z :=
  match l with [] => None | n :: l => Some (foldl Z.max n l) end.

Definition latest_applied_event_created (workspace_id : positive) (exclude_event_id : string) :
    BM (option Z) :=
  t ← gets bd_events;
  mret (max_or_none
    (omap (λ p, created_of (we_payload p.2)) (rows (applied_for workspace_id exclude_event_id) t))).

Section Webhooks.
Context (json_text : json → string).

(** [str(v)] *)
Definition str_of_json (v : json) : string := match v with JStr s => s | _ => json_text v end.

Definition workspace_id_from_metadata (obj : json) : result exn (option positive) :=
m ← py_get obj "metadata";
a ← py_get (py_or m (JObj [])) "workspace_id";
b ← py_get obj "client_reference_id";
let raw := py_or a b in
mret (if truthy raw then uuid_parse (str_of_json raw) else None).

(** the subscription's own id and its customer's *)
Definition subscription_ids (subscription : json) : result exn (option string * option string) :=
i ← py_get subscription "id";
sub_id ← if truthy i then text_column i else mret None;
c ← py_get subscription "customer";
customer ← match c with
           | JStr s => mret (Some s)
           | JObj _ => v ← py_get c "id"; if truthy v then text_column v else mret None
           | _ => mret None
           end;
mret (sub_id, customer).

(** the columns the subscription is mirrored into *)
Definition mirrored (ids : option string * option string) (status : string)
  (period_end : option time) (cancel : bool) (b : WorkspaceBilling) : WorkspaceBilling :=
let b := b <| wb_stripe_subscription_id ::= λ old, if nonempty ids.1 then ids.1 else old |> in
let b := match ids.2 with Some c => b <| wb_stripe_customer_id := Some c |> | None => b end in
let b := b <| wb_status := status |> in
let b :=
  if existsb (String.eqb status) ACTIVE_STATUSES then b <| wb_plan := PRO_PLAN |>
  else if String.eqb status "canceled" then b <| wb_plan := "none" |>
  else if existsb (String.eqb status) ["past_due"; "unpaid"; "incomplete"]
  then b <| wb_plan := PRO_PLAN |>
  else b in
b <| wb_current_period_end := period_end |> <| wb_cancel_at_period_end := cancel |>.

Definition mirrored_subscription (subscription : json) (status : string) :
  result exn (WorkspaceBilling → WorkspaceBilling) :=
ids ← subscription_ids subscription;
period_end ← period_end_from_subscription subscription;
cancel ← py_get subscription "cancel_at_period_end";
mret (mirrored ids status period_end (truthy cancel)).

(** [str(subscription.get("status") or "inactive")] *)
Definition subscription_status (subscription : json) : result exn string :=
status ← py_get subscription "status";
mret (str_of_json (py_or status (JStr "inactive"))).

(** an older event, or an entitling one as old as the newest *)
Definition out_of_date (event_created latest : option Z) (status : string) : bool :=
match event_created, latest with
| Some c, Some l => (c <? l) || ((c =? l) && existsb (String.eqb status) ACTIVE_STATUSES)
| _, _ => false
end.

Definition apply_subscription (workspace_id : positive) (subscription : json) (event_id : string)
  (event_created : option Z) : BM unit :=
ensure_workspace_billing workspace_id;;
status ← lift_result (subscription_status subscription);
latest ← match event_created with
         | Some _ => latest_applied_event_created workspace_id event_id
         | None => mret None
         end;
if out_of_date event_created latest status then mret tt
else
  g ← lift_result (mirrored_subscription subscription status);
  set_billing workspace_id g;;
  flush_billing workspace_id.

(** [checkout.session.completed]: linkage only *)
Definition link_checkout (workspace_id : option positive) (data_object : json) : BM (option positive) :=
match workspace_id with
| None => raise (BillingError "missing_workspace" "checkout session missing workspace_id")
| Some ws =>
    sub_id ← lift_result (py_get data_object "subscription");
    customer_id ← lift_result (py_get data_object "customer");
    ensure_workspace_billing ws;;
    match as_str customer_id with
    | Some c => set_billing ws (λ b, b <| wb_stripe_customer_id := Some c |>)
    | None => mret tt
    end;;
    match as_str sub_id with
    | Some s => set_billing ws (λ b, b <| wb_stripe_subscription_id := Some s |>)
    | None => mret tt
    end;;
    flush_billing ws;;
    mret (Some ws)
end.

Definition with_subscription (sub_id : string) (_ : positive) (b : WorkspaceBilling) : bool :=
same_text (wb_stripe_subscription_id b) (Some sub_id).
Definition with_customer (customer_id : string) (_ : positive) (b : WorkspaceBilling) : bool :=
same_text (wb_stripe_customer_id b) (Some customer_id).

(** [scalar_one_or_none] over the billing rows: the workspace found *)
Definition find_billing (P : positive → WorkspaceBilling → bool) : BM (option positive) :=
t ← gets bd_billing;
match rows P t with
| [] => mret None
| [p] => mret (Some p.1)
| _ => raise MultipleResultsFound
end.

(** the workspace a subscription event is for *)
Definition mapped_workspace (workspace_id : option positive) (data_object : json) : BM positive :=
match workspace_id with
| Some ws => mret ws
| None =>
    sub_id ← lift_result (py_get data_object "id");
    cust ← lift_result (py_get data_object "customer");
    row ← match as_str sub_id with
          | Some s => find_billing (with_subscription s)
          | None => mret None
          end;
    row ← match row, as_str cust with
          | None, Some c => find_billing (with_customer c)
          | _, _ => mret row
          end;
    match row with
    | Some ws => mret ws
    | None => raise (BillingError "unknown_subscription"
                       "subscription event could not be mapped to a workspace")
    end
end.

Definition apply_payment_failed (workspace_id : option positive) (data_object : json)
  (event_id : string) (created : option Z) : BM (option positive) :=
sub ← lift_result (py_get data_object "subscription");
match as_str sub with
| None => mret workspace_id
| Some sub =>
    found ← find_billing (with_subscription sub);
    match found with
    | None => mret workspace_id
    | Some ws =>
        ensure_workspace_billing ws;;
        latest ← match created with
                 | Some _ => latest_applied_event_created ws event_id
                 | None => mret None
                 end;
        (if match created, latest with Some c, Some l => c <? l | _, _ => false end then mret tt
         else set_billing ws (λ b, b <| wb_status := "past_due" |>));;
        flush_billing ws;;
        mret (Some ws)
    end
end.

(** the effect of an event, and the workspace it was found to be for *)
Definition apply_event (event_type event_id : string) (workspace_id : option positive)
  (data_object : json) (created : option Z) : BM (option positive) :=
if String.eqb event_type "checkout.session.completed" then link_checkout workspace_id data_object
else if existsb (String.eqb event_type) SUBSCRIPTION_EVENTS then
  ws ← mapped_workspace workspace_id data_object;
  apply_subscription ws data_object event_id created;;
  mret (Some ws)
else if String.eqb event_type "invoice.payment_failed" then
  apply_payment_failed workspace_id data_object event_id created
else mret workspace_id.

(** the receipt claimed before the effect *)
Definition claim_receipt (event_id event_type : string) (workspace_id : option positive)
  (event : json) : BM unit :=
t ← gets bd_events;
ws ← gets bd_workspaces;
match t !! event_id with
| Some _ => raise (IntegrityError "billing_webhook_events_stripe_event_id_key")
| None =>
    if match workspace_id with Some w => bool_decide (w ∈ ws) | None => true end
    then update bd_events <[event_id := mk_webhook_event event_type workspace_id event]>
    else raise (IntegrityError "billing_webhook_events_workspace_id_fkey")
end.

(** the receipt learns the workspace the event was mapped to *)
Definition name_workspace (event_id : string) (workspace_id : option positive) : BM unit :=
match workspace_id with
| None => mret tt
| Some _ =>
    update bd_events (alter (λ e,
      match we_workspace_id e with
      | None => e <| we_workspace_id := workspace_id |>
      | Some _ => e
      end) event_id)
end.

Inductive StripeOutcome : Type :=
| StripeDuplicate (event_id event_type : string)
| StripeProcessed (event_id event_type : string) (workspace_id : option positive).

(** [event_id] and [event_type], texts that are not empty *)
Definition event_names (event : json) : result exn (string * string) :=
i ← py_get event "id";
t ← py_get event "type";
if negb (truthy i) || negb (truthy t)
then Raise (BillingError "invalid_event" "Stripe event missing id or type")
else match i, t with JStr i, JStr t => Ok (i, t) | _, _ => Raise TypeError end.

(** [(event.get("data") or {}).get("object") or {}] *)
Definition event_object (event : json) : result exn json :=
data ← py_get event "data";
obj ← py_get (py_or data (JObj [])) "object";
mret (py_or obj (JObj [])).

Definition process_stripe_event (event : json) : BM StripeOutcome :=
names ← lift_result (event_names event);
let '(event_id, event_type) := names in
t ← gets bd_events;
match t !! event_id with
| Some _ => mret (StripeDuplicate event_id event_type)
| None =>
    data_object ← lift_result (event_object event);
    workspace_id ← lift_result (workspace_id_from_metadata data_object);
    catch
      (savepoint
        (claim_receipt event_id event_type workspace_id event;;
         workspace_id ← apply_event event_type event_id workspace_id data_object (created_of event);
         name_workspace event_id workspace_id;;
         mret (StripeProcessed event_id event_type workspace_id)))
      (λ e, match e with
            | IntegrityError _ => mret (StripeDuplicate event_id event_type)
            | e => raise e
            end)
end.
End Webhooks.

(** ** Frames *)

Section Frames.
Context (R : relation BillingDB) `{!PreOrder R, !Closed bd_billing R}.

Lemma keeps_flush_billing ws : keeps R (flush_billing ws).
Proof using PreOrder0. unfold flush_billing. keeps_tac. Qed.
Lemma keeps_ensure_workspace_billing ws : keeps R (ensure_workspace_billing ws).
Proof using All. unfold ensure_workspace_billing. keeps_tac. Qed.
Lemma keeps_set_billing ws g : keeps R (set_billing ws g).
Proof using All. unfold set_billing. keeps_tac. Qed.
Lemma keeps_find_billing P : keeps R (find_billing P).
Proof using PreOrder0. unfold find_billing. keeps_tac. Qed.
Lemma keeps_latest ws i : keeps R (latest_applied_event_created ws i).
Proof using PreOrder0. unfold latest_applied_event_created. keeps_tac. Qed.
End Frames.

#[export] Hint Resolve keeps_flush_billing keeps_ensure_workspace_billing keeps_set_billing
  keeps_find_billing keeps_latest : keeps.

Section EventFrames.
Context (json_text : json → string) (R : relation BillingDB) `{!PreOrder R, !Closed bd_billing R}.

Lemma keeps_apply_event t i ws obj c : keeps R (apply_event json_text t i ws obj c).
Proof using All.
unfold apply_event, link_checkout, mapped_workspace, apply_subscription, apply_payment_failed.
keeps_tac.
Qed.
End EventFrames.
