(* ===== verification/Automation.v ===== *)
(** * The automation runner (app/automation.py)

    Three loops (maintenance, outbox relay, scheduler) run in whichever
    process holds the loop's lease.  A tick is one transaction; the lease is
    claimed before it, renewed while it runs and its outcome recorded after
    it, each under the condition that the lease is still held. *)

From S2P Require Import Prelude Models Database Outbox Provenance Assignments Gates Retry Workflow Spend Controller Budgets.
From S2P Require Import Recovery Scheduler Relay Workers Text.

Definition AUTOMATION_LOOP_NAMES : list string := ["maintenance"; "outbox_relay"; "scheduler"].

(** [max(5, ceil(interval * 4))]; the interval is in microseconds *)
Definition lease_seconds_for (interval : Z) : Z := Z.max 5 (- (- (interval * 4) / 1000000)).

(** what [_sanitize_error] keeps of a message *)
Definition sanitize_message (error : string) : string :=
  let cleaned := join " " (split error) in
  if String.eqb cleaned EmptyString then "RuntimeError" else String.substring 0 200 cleaned.

(** ** Leases *)

(** the lease is held by [owner] at [now] *)
Definition held (owner_id : string) (now : time) (row : AutomationLease) : bool :=
  bool_decide (lse_owner_id row = Some owner_id)
  && match lse_lease_expires_at row with Some t => now <? t | None => false end.

(** someone else holds a live lease ([row.owner_id] is true when not empty) *)
Definition held_by_other (owner_id : string) (now : time) (row : AutomationLease) : bool :=
  match lse_owner_id row with
  | None => false
  | Some o => negb (String.eqb o EmptyString) && negb (String.eqb o owner_id)
  end
  && match lse_lease_expires_at row with Some t => now <? t | None => false end.

Definition try_claim_automation_loop (loop_name owner_id : string) (lease_seconds : Z) : M bool :=
  t ← now;
  row ← session_get w_leases loop_name;
  match row with
  | None => raise (ValueError "automation loop missing from automation_leases")
  | Some row =>
      if held_by_other owner_id t row then mret false
      else
        modify w_leases loop_name (λ r,
          let r := if bool_decide (lse_owner_id r = Some owner_id) then r
                   else r <| lse_owner_started_at := Some t |> in
          r <| lse_owner_id := Some owner_id |>
            <| lse_last_heartbeat_at := Some t |>
            <| lse_lease_expires_at := Some (t + seconds lease_seconds) |>);;
        mret true
  end.

Definition renew_owned_automation_loop (loop_name owner_id : string) (lease_seconds : Z) : M bool :=
  t ← now;
  row ← session_get w_leases loop_name;
  match row with
  | None => mret false
  | Some row =>
      if held owner_id t row then
        modify w_leases loop_name (λ r,
          r <| lse_last_heartbeat_at := Some t |>
            <| lse_lease_expires_at := Some (t + seconds lease_seconds) |>);;
        mret true
      else mret false
  end.

Definition release_owned_automation_loops (owner_id : string) : M unit :=
  t ← now;
  update w_leases (fmap (λ r,
    if held owner_id t r then
      r <| lse_owner_id := None |> <| lse_owner_started_at := None |>
        <| lse_lease_expires_at := None |> <| lse_last_heartbeat_at := Some t |>
    else r)).

(** [_record_success], [_record_error]: nothing when the lease was lost *)
Definition record_outcome (loop_name owner_id : string) (lease_seconds : Z)
    (g : time → AutomationLease → AutomationLease) : M unit :=
  t ← now;
  row ← session_get w_leases loop_name;
  match row with
  | None => mret tt
  | Some row =>
      if held owner_id t row then
        modify w_leases loop_name (λ r,
          g t (r <| lse_last_heartbeat_at := Some t |>
                 <| lse_lease_expires_at := Some (t + seconds lease_seconds) |>))
      else mret tt
  end.

Definition record_success (loop_name owner_id : string) (lease_seconds work_count : Z) : M unit :=
  record_outcome loop_name owner_id lease_seconds (λ t r,
    r <| lse_last_ok_at := Some t |> <| lse_last_error := None |>
      <| lse_tick_count ::= Z.succ |> <| lse_work_count ::= Z.add work_count |>).

Definition record_error (loop_name owner_id : string) (lease_seconds : Z) (error : string) : M unit :=
  record_outcome loop_name owner_id lease_seconds (λ _ r, r <| lse_last_error := Some error |>).

(** ** Ticks: the amount of work done *)

Section Ticks.
Context `{Settings}.

Definition outbox_relay_tick (reg : Registry) : M Z :=
  transaction (poll_and_dispatch reg 50).

Definition scheduler_tick : M Z :=
  transaction (
    leased ← poll_and_lease scheduler_batch_size;
    for_each leased process_leased_job;;
    reap_expired_job_leases 100;;
    mret (Z.of_nat (length leased))).

Definition maintenance_tick : M Z :=
  transaction (
    flipped ← mark_stale_workers_offline worker_offline_after_seconds;
    reaped ← collect flipped (λ i, reap_worker_assignments i WORKER_WENT_OFFLINE None None);
    expired ← reap_expired_leases None;
    bp_snapshots ← evaluate_all_active_workspaces 100;
    mret (Z.of_nat (length flipped) + Z.of_nat (length expired)
          + Z.of_nat (length (concat reaped))
          + Z.of_nat (length (filter (λ s, bp_changed s = true) bp_snapshots)))).
End Ticks.

(** ** Health *)

Inductive LoopStatus : Type := LOOP_IDLE | LOOP_STALE | LOOP_RUNNING.
#[export] Instance LoopStatus_eq_dec : EqDecision LoopStatus.
Proof. solve_decision. Defined.

Definition row_status (row : option AutomationLease) (now : time) : LoopStatus * bool :=
  match row with
  | None => (LOOP_IDLE, false)
  | Some r =>
      match lse_owner_id r, lse_lease_expires_at r with
      | Some _, Some t => if t <=? now then (LOOP_STALE, false) else (LOOP_RUNNING, true)
      | _, _ => (LOOP_IDLE, false)
      end
  end.

Inductive HealthStatus : Type := HEALTH_DEGRADED | HEALTH_OK | HEALTH_IDLE.
#[export] Instance HealthStatus_eq_dec : EqDecision HealthStatus.
Proof. solve_decision. Defined.

(** [status == "stale" or last_error] *)
Definition unhealthy (now : time) (row : option AutomationLease) : bool :=
  bool_decide ((row_status row now).1 = LOOP_STALE)
  || match row ≫= lse_last_error with
     | Some e => negb (String.eqb e EmptyString)
     | None => false
     end.

(** overall status, the running loops and the earliest start among them *)
Definition automation_health_snapshot : M (HealthStatus * list string * option time) :=
  t ← now;
  rows ← gets w_leases;
  let tasks_running :=
    filter (λ n, (row_status (rows !! n) t).2 = true) AUTOMATION_LOOP_NAMES in
  let started := omap (λ n, rows !! n ≫= lse_owner_started_at) tasks_running in
  let status :=
    if existsb (λ n, unhealthy t (rows !! n)) AUTOMATION_LOOP_NAMES then HEALTH_DEGRADED
    else if bool_decide (length tasks_running = length AUTOMATION_LOOP_NAMES) then HEALTH_OK
    else match tasks_running with [] => HEALTH_IDLE | _ => HEALTH_DEGRADED end in
  mret (status, tasks_running,
        match started with [] => None | x :: l => Some (foldr Z.min x l) end).

(** ** Frames *)

Section LeaseFrames.
Context (R : relation World) `{!PreOrder R, !Closed w_leases R}.
Lemma keeps_try_claim l o n : keeps R (try_claim_automation_loop l o n).
Proof using All. unfold try_claim_automation_loop. keeps_tac. Qed.
Lemma keeps_renew_owned l o n : keeps R (renew_owned_automation_loop l o n).
Proof using All. unfold renew_owned_automation_loop. keeps_tac. Qed.
Lemma keeps_release_owned o : keeps R (release_owned_automation_loops o).
Proof using All. unfold release_owned_automation_loops. keeps_tac. Qed.
Lemma keeps_record_success l o n c : keeps R (record_success l o n c).
Proof using All. unfold record_success, record_outcome. keeps_tac. Qed.
Lemma keeps_record_error l o n e : keeps R (record_error l o n e).
Proof using All. unfold record_error, record_outcome. keeps_tac. Qed.
End LeaseFrames.
#[export] Hint Resolve keeps_try_claim keeps_renew_owned keeps_release_owned keeps_record_success
  keeps_record_error : keeps.

Section TickFrames.
Context `{Settings} (R : relation World) `{!Engine R, !RunStable R, !SpendSafe R,
  !AssignmentRows R, !WorkerRows R, !DeadLetters R, !Closed w_recovery_audit R,
  !JobRows R, !GateRows R}.

Lemma keeps_relay_tick reg `{!Closed w_consumers R, !Closed w_checkpoints R, !EventRows R} :
  registry_keeps R reg → keeps R (outbox_relay_tick reg).
Proof using All.
  intros Hreg. pose proof (λ n, keeps_poll_and_dispatch R reg n Hreg).
  unfold outbox_relay_tick, transaction. keeps_tac.
Qed.
Lemma keeps_scheduler_tick : keeps R scheduler_tick.
Proof using All. unfold scheduler_tick, transaction. keeps_tac. Qed.
Lemma keeps_maintenance_tick `{!Closed w_backpressure R} : keeps R maintenance_tick.
Proof using All.
  unfold maintenance_tick, evaluate_all_active_workspaces, transaction. keeps_tac.
Qed.
End TickFrames.
#[export] Hint Resolve keeps_scheduler_tick keeps_maintenance_tick : keeps.
