(* ===== verification/System.v ===== *)
(** * The system: entry points and traces

    Everything that changes the engine's state comes in through one of the
    operations below: a request to a worker handler, an administrator's
    handler, the content desk or Mission Control, a tick of an automation
    loop, the cancellation of a run, or the passing of time.  A trace is a
    list of them, run one transaction after the other (row locks make
    concurrent transactions equivalent to some order); an invariant of every
    operation holds along every trace.  The last part builds a concrete
    deployment for the witnesses. *)

From S2P Require Import Prelude Models Database Outbox Provenance Assignments Gates Retry Workflow Spend Controller Recovery Scheduler Relay Workers MissionControl ContentDesk Automation Budgets Dispatcher.

Inductive op : Type :=
| AdvanceClock (d : Z)
| DrawRandom (d : Z)
| SchedulerTick
| MaintenanceTick
| RelayTick
| RegisterWorker (w : AuthenticatedWorker) (protocol_version : Z) (stages : list string)
    (capabilities : json) (version : option string) (max_concurrency : Z)
| Heartbeat (w : AuthenticatedWorker) (s : WorkerStatus) (load : Z)
| DeregisterWorker (w : AuthenticatedWorker)
| Claim (w : AuthenticatedWorker) (token : option positive)
| Ack (w : AuthenticatedWorker) (assignment : positive)
| Renew (w : AuthenticatedWorker) (assignment : positive)
| Submit (w : AuthenticatedWorker) (assignment : positive) (success : bool) (res : option json)
    (error_message : string) (effect_key : option string)
| IngestLog (w : AuthenticatedWorker) (severity message : string) (run assignment : option positive)
    (occurred_at : option time) (context : json)
| ProvisionWorker (ws : positive) (name : string) (stages : list string) (max_concurrency : Z)
    (secret : string)
| SetDrain (ws worker : positive) (drain : bool)
| RotateCredential (ws worker : positive) (secret : string)
| RevokeCredentials (ws worker : positive)
| CreateContentJob (ws actor : positive) (topic body : string) (hook cta : option string)
    (len : option Z) (key : option string)
| DecideGate (ws gate reviewer : positive) (approved : bool) (version : option positive)
    (notes : option string)
| EditGate (ws gate editor version : positive) (hook body cta : option string)
| CancelRun (run : positive)
| PauseWorkers (ws actor : positive)
| ResumeWorkers (ws actor : positive)
| EmergencyStop (ws actor : positive)
| RetryFailedJobs (updated_at : positive → time) (ws actor : positive)
| ClearDeadLetters (ws actor : positive)
| TryClaimLoop (loop owner : string) (n : Z)
| RenewLoop (loop owner : string) (n : Z)
| ReleaseLoops (owner : string)
| RecordSuccess (loop owner : string) (n work : Z)
| RecordError (loop owner : string) (n : Z) (error : string).

(** What the request schemas enforce before a handler runs
    (schemas/workers.py), and the passing of time. *)
Definition op_ok (o : op) : Prop :=
  match o with
  | AdvanceClock d => 0 ≤ d
  | DrawRandom d => 0 ≤ d < 2 ^ 53
  | RegisterWorker _ _ _ _ _ n | ProvisionWorker _ _ _ n _ => 1 ≤ n
  | Heartbeat _ _ n => 0 ≤ n
  | _ => True
  end.

Section System.
Context `{Settings} (sha256 : string → string).

Definition ignore {A} (m : M A) : M unit := m;; mret tt.

Definition run_op (o : op) : M unit :=
  match o with
  | AdvanceClock d => update w_now (Z.add d)
  | DrawRandom d => update w_draw (λ _, d)
  | SchedulerTick => ignore scheduler_tick
  | MaintenanceTick => ignore maintenance_tick
  | RelayTick => ignore (outbox_relay_tick (register_all []))
  | RegisterWorker w v st c ver n => register_worker w v st c ver n
  | Heartbeat w s n => worker_heartbeat w s n
  | DeregisterWorker w => deregister_worker w
  | Claim w tok => ignore (claim_assignment_endpoint w tok)
  | Ack w a => ignore (ack_assignment w a)
  | Renew w a => ignore (renew_assignment_lease w a)
  | Submit w a s res e k => ignore (submit_assignment_result w a s res e k)
  | IngestLog w s m r a t c => ignore (ingest_worker_log w s m r a t c)
  | ProvisionWorker ws nm st n sec => ignore (provision_worker sha256 ws nm st n sec)
  | SetDrain ws i d => set_worker_drain ws i d
  | RotateCredential ws i sec => ignore (rotate_worker_credential sha256 ws i sec)
  | RevokeCredentials ws i => ignore (revoke_worker_credentials ws i)
  | CreateContentJob ws u tp b h c n k =>
      ignore (transaction (create_content_job ws u tp b h c n k))
  | DecideGate ws g u a v n => ignore (transaction (decide_review_gate ws g u a v n))
  | EditGate ws g u v h b c => ignore (transaction (edit_review_gate_content ws g u v h b c))
  | CancelRun r => transaction (cancel_run r)
  | PauseWorkers ws u => ignore (transaction (pause_workers ws u))
  | ResumeWorkers ws u => ignore (transaction (resume_workers ws u))
  | EmergencyStop ws u => ignore (transaction (emergency_stop ws u))
  | RetryFailedJobs upd ws u => ignore (transaction (retry_failed_jobs upd ws u))
  | ClearDeadLetters ws u => ignore (transaction (clear_dead_letter_queue ws u))
  | TryClaimLoop l o n => ignore (try_claim_automation_loop l o n)
  | RenewLoop l o n => ignore (renew_owned_automation_loop l o n)
  | ReleaseLoops o => release_owned_automation_loops o
  | RecordSuccess l o n c => record_success l o n c
  | RecordError l o n e => record_error l o n e
  end.

Definition step (w : World) (o : op) : World := (run_op o w).2.
Definition exec (ops : list op) (w : World) : World := foldl step w ops.

(** A relation kept by the clock and the draw, and closed under the tables
    the engine's interfaces do not cover, is kept by every operation. *)
Section Kept.
Context (R : relation World) `{!Engine R, !RunStable R, !RunInsert R, !SpendSafe R,
  !WorkerRows R, !Closed w_draw R,
  !AssignmentRows R, !DeadLetters R, !Closed w_recovery_audit R,
  !JobRows R, !Moves R, !GateRows R, !Reviewing R, !EventRows R,
  !Closed w_consumers R, !Closed w_checkpoints R, !Closed w_backpressure R,
  !Closed w_effects R, !Closed w_claim_audit R, !Closed w_stage_runs R,
  !Closed w_credentials R, !Closed w_heartbeats R, !Closed w_worker_logs R,
  !Closed w_items R, !Closed w_versions R, !DeskWorkflow R, !Closed w_leases R, !Retrying R}.
Context (Hclock : ∀ d, 0 ≤ d → keeps R (update w_now (Z.add d) : M unit)).

Lemma keeps_ignore {A} (m : M A) : keeps R m → keeps R (ignore m).
Proof using All. intros Hm. unfold ignore. apply keeps_bind; [apply _|done|keeps_tac]. Qed.
Lemma keeps_transaction {A} (m : M A) : keeps R m → keeps R (transaction m).
Proof using All. apply keeps_savepoint. apply _. Qed.

Lemma keeps_step o w : op_ok o → R w (step w o).
Proof using All.
  intros Ho. unfold step.
  assert (Hk : keeps R (run_op o)); [|apply Hk].
  destruct o; simpl in Ho |- *; try apply keeps_ignore; try (by apply Hclock);
    try (keeps_tac; done).
  - apply keeps_relay_tick; try apply _. apply registry_keeps_all; apply _.
  - by apply keeps_register_worker; try apply _.
  - by apply keeps_worker_heartbeat; try apply _.
  - by apply keeps_deregister_worker; try apply _.
  - by apply keeps_claim_assignment_endpoint; try apply _.
  - by apply keeps_ack_assignment; try apply _.
  - by apply keeps_renew_assignment_lease; try apply _.
  - by apply keeps_submit_assignment_result; try apply _.
  - by apply keeps_ingest_worker_log; try apply _.
  - by apply keeps_provision_worker; try apply _.
  - by apply keeps_set_worker_drain; try apply _.
  - by apply keeps_rotate_worker_credential; try apply _.
  - by apply keeps_revoke_worker_credentials; try apply _.
  - apply keeps_transaction, keeps_create_content_job; apply _.
  - apply keeps_transaction, keeps_decide_review_gate; apply _.
  - apply keeps_transaction, keeps_edit_review_gate_content; apply _.
  - apply keeps_transaction, keeps_cancel_run; apply _.
  - by apply keeps_transaction, keeps_pause_workers; try apply _.
  - by apply keeps_transaction, keeps_resume_workers; try apply _.
  - by apply keeps_transaction, keeps_emergency_stop; try apply _.
  - apply keeps_transaction, retrying.
  - by apply keeps_transaction, keeps_clear_dead_letter_queue; try apply _.
Qed.

Lemma keeps_exec ops w : Forall op_ok ops → R w (exec ops w).
Proof using All.
  revert w. induction ops as [|o ops IH]; intros w Hops; [done|].
  apply Forall_cons in Hops as [Ho Hops].
  change (R w (exec ops (step w o))). etrans; [by apply keeps_step|by apply IH].
Qed.
End Kept.
End System.

(** * A concrete deployment

    One workspace with the desk's workflow, a run about to be dispatched, a
    worker and a spend cap of five estimates: the state the witnesses start
    from. *)

#[export] Existing Instance default_settings.

(** 2026-01-15 12:00:00 UTC *)
Definition t0 : time := seconds 1768478400.

(** a hash function for the witnesses *)
Definition demo_hash (s : string) : string := "hash of " +:+ s.

Definition demo_worker : WorkerRegistration :=
  mk_worker None "desk worker" ["scripting"] JNull WORKER_ONLINE 2 0 100 (Some t0) t0 None false None.
Definition demo_auth : AuthenticatedWorker := mk_authenticated 40 41 1.

Definition demo_run : PipelineRun :=
  mk_run 1 (Some 21%positive) None SCRIPTING RUN_RUNNING (Some t0) None None (Some 10%positive)
    (Some 22%positive) None.
Definition demo_job : JobSchedule :=
  mk_job 1 JOB_STAGE "scripting" 20 t0 JOB_PENDING None None 0 20 (Some 22%positive) None t0.

Definition demo_stages : gmap (positive * ContentStage) WorkflowStage :=
  {[ (10%positive, SCRIPTING) := desk_stage 1 SCRIPTING 1 3 600 false false;
     (10%positive, REVIEW) := desk_stage 1 REVIEW 2 3 172800 true false;
     (10%positive, PUBLISHED) := desk_stage 1 PUBLISHED 3 3 60 false true ]}.
Definition demo_transitions : gmap positive WorkflowTransition :=
  {[ 11%positive := mk_transition 10 SCRIPTING REVIEW ON_SUCCESS None 100;
     12%positive := mk_transition 10 REVIEW PUBLISHED ON_REVIEW_APPROVED None 100 ]}.

Definition demo : World :=
  (empty_world t0)
    <| w_next := 1000%positive |>
    <| w_workspaces := {[ 1%positive := mk_workspace "desk" 2 2 0 ]} |>
    <| w_definitions := {[ 10%positive := mk_definition 1 DESK_WORKFLOW_NAME 1 true None ]} |>
    <| w_stages := demo_stages |>
    <| w_transitions := demo_transitions |>
    <| w_runs := {[ 20%positive := demo_run ]} |>
    <| w_items := {[ 21%positive := mk_item 1 "bees" None SCRIPTING CONTENT_ACTIVE
                                      (Some 23%positive) (Some 20%positive) None None ]} |>
    <| w_versions := {[ 23%positive := mk_version 1 21 None (Some "draft") None None None None ]} |>
    <| w_jobs := {[ 30%positive := demo_job ]} |>
    <| w_workers := {[ 40%positive := demo_worker ]} |>
    <| w_credentials := {[ 41%positive := mk_credential 40 1 (demo_hash "s3cret") CRED_ACTIVE
                                            None None ]} |>
    <| w_caps := {[ (1%positive, None) := mk_cap None 500 10000 None None ]} |>
    <| w_leases := {[ "scheduler" := mk_lease None None None None None None 0 0 ]} |>.

(** The scheduler dispatches the run's stage to the worker (assignment 1007),
    the worker acknowledges and submits, and the gate (1014) opens. *)
Definition demo_ops : list op :=
  [SchedulerTick; Ack demo_auth 1007; AdvanceClock (seconds 10);
   Submit demo_auth 1007 true None EmptyString None].

(** The same deployment with the stage waiting in the queue (assignment 50),
    handed to the worker (1007), and at its gate (1017). *)
Definition demo_assignment : StageAssignment :=
  new_assignment 1 20 SCRIPTING 1 None t0 22 50 20 "draft_desk".
Definition demo_queue : World := demo <| w_assignments := {[ 50%positive := demo_assignment ]} |>.
Definition demo_dispatched : World := step demo_hash demo SchedulerTick.
Definition demo_review : World := exec demo_hash demo_ops demo.
Definition demo_reserved : World := (reserve_spend 20 SCRIPTING "draft_desk" 100 demo).2.

(** A reviewer (7) approves the gate. *)
Definition demo_verdict : list op := [DecideGate 1 1017 7 true (Some 23%positive) None].
Definition demo_decided : World := exec demo_hash demo_verdict demo_review.

(** A row that a computation finds: the test is decided by [vm_compute]. *)
Definition passes {A} (test : A → bool) (o : option A) : bool :=
  match o with Some a => test a | None => false end.
Lemma passes_some {A} (test : A → bool) (o : option A) :
  passes test o = true → ∃ a, o = Some a ∧ test a = true.
Proof. destruct o as [a|]; [by exists a|done]. Qed.
