(* ===== verification/Accounts.v ===== *)
(** * Identities, memberships and workspaces

    core/security.py, core/authorization.py, core/audit.py and the routes
    memberships.py, workspaces.py, profiles.py and content_profile.py: who
    the caller is, which role they hold in a workspace, and what the role
    lets them do.  Decoding a token is the PyJWT library's: a parameter.  A
    handler is modelled with its guard; [scoped] is the session it runs in. *)

From S2P Require Import Prelude Models Database Outbox Text Spend PyJson StudioModels.
From S2P Require Research.

(** ** The audit log (core/audit.py) *)

Definition _SENSITIVE_KEY_FRAGMENTS : list string :=
["secret"; "token"; "password"; "passwd"; "authorization"; "api_key"; "apikey"; "credential";
 "private_key"].

(** [s.endswith(suffix)] *)
Definition ends_with (suffix s : string) : bool :=
String.eqb (String.substring (String.length s - String.length suffix) (String.length suffix) s)
  suffix.

Definition _sensitive (field_names : list string) : list string :=
Research.sorted_strings (filter (λ name,
  negb (ends_with "_id" (lower name)) &&
  existsb (λ fragment, contains fragment (lower name)) _SENSITIVE_KEY_FRAGMENTS = true) field_names).

Definition _RESERVED_LOG_RECORD_KEYS : list string :=
["name"; "msg"; "args"; "levelname"; "levelno"; "pathname"; "filename"; "module"; "exc_info";
 "exc_text"; "stack_info"; "lineno"; "funcName"; "created"; "msecs"; "relativeCreated"; "thread";
 "threadName"; "processName"; "process"; "message"; "asctime"; "taskName"].

(** the event reaches the log, or the call is refused *)
Definition audit (event : string) (fields : list string) : result exn unit :=
match _sensitive fields with
| _ :: _ => Raise (ValueError "refusing to audit-log sensitive fields")
| [] =>
    if existsb (λ f, bool_decide (f ∈ _RESERVED_LOG_RECORD_KEYS)) fields
    then Raise (ValueError "refusing to audit-log fields that collide with LogRecord attributes")
    else Ok tt
end.

(** ** The caller (core/security.py) *)

Record AuthenticatedUser : Type := mk_user {
  au_id : json;
  au_email : json
}.

(** [uuid.UUID(user.id)] *)
Definition user_uuid (u : AuthenticatedUser) : result exn id :=
match au_id u with
| JStr s => match uuid_parse s with Some i => Ok i
            | None => Raise (ValueError "badly formed hexadecimal UUID string") end
| _ => Raise AttributeError
end.

Section Caller.
Context (jwt_decode : string → string → option pydict) (json_text : json → string).
Context (supabase_jwt_issuer : option string).

Definition unauthorized (detail : string) : exn := HTTPException 401 detail.

Definition _required_jwt_issuer : result exn string :=
let issuer := strip (default EmptyString supabase_jwt_issuer) in
if String.eqb issuer EmptyString then Raise (unauthorized "invalid or expired token") else Ok issuer.

(** [jwt_decode token issuer] is the library's decoding under the secret, the
    algorithm and the audience of the settings *)
Definition _decode_supabase_jwt (token : string) : result exn pydict :=
issuer ← _required_jwt_issuer;
match jwt_decode token issuer with
| Some claims => Ok claims
| None => Raise (unauthorized "invalid or expired token")
end.

Definition get_current_user (credentials : option string) : result exn AuthenticatedUser :=
match credentials with
| None => Raise (unauthorized "missing bearer token")
| Some token =>
    claims ← _decode_supabase_jwt token;
    let sub := dict_get claims "sub" JNull in
    if negb (truthy sub) then Raise (unauthorized "token missing 'sub' claim")
    else match uuid_parse (Research.py_str json_text sub) with
         | None => Raise (unauthorized "token 'sub' claim must be a valid UUID")
         | Some _ => Ok (mk_user sub (dict_get claims "email" JNull))
         end
end.
End Caller.

(** [rls_scoped_session]: what a request wrote is committed when it returns
    and rolled back when it raises *)
Definition scoped {A} (m : SM A) : SM A := savepoint m.

(** ** Guards (core/authorization.py) *)

Definition membership_of (workspace_id user_id : id) (_ : id) (m : WorkspaceMembership) : bool :=
in_workspace workspace_id (mem_workspace_id m) && bool_decide (mem_user_id m = user_id).

Definition get_membership (workspace_id : id) (user : AuthenticatedUser) :
  SM (option (id * WorkspaceMembership)) :=
user_id ← lift_result (user_uuid user);
l ← select st_memberships (membership_of workspace_id user_id);
scalar_one_or_none l.

Definition forbidden (detail : string) : exn := HTTPException 403 detail.

Definition require_workspace_member (workspace_id : id) (user : AuthenticatedUser) :
  SM (id * WorkspaceMembership) :=
m ← get_membership workspace_id user;
match m with
| None => raise (forbidden "not a member of this workspace")
| Some m => mret m
end.

Definition require_workspace_role (allowed_roles : list WorkspaceRole) (workspace_id : id)
  (user : AuthenticatedUser) : SM (id * WorkspaceMembership) :=
m ← get_membership workspace_id user;
match m with
| None => raise (forbidden "not a member of this workspace")
| Some m =>
    if bool_decide (mem_role m.2 ∈ allowed_roles) then mret m
    else raise (forbidden ("requires one of: " +:+ join ", " (map WorkspaceRole_value allowed_roles)))
end.

Definition require_workspace_admin : id → AuthenticatedUser → SM (id * WorkspaceMembership) :=
require_workspace_role [ROLE_ADMIN].
Definition require_workspace_content_author : id → AuthenticatedUser → SM (id * WorkspaceMembership) :=
require_workspace_role [ROLE_ADMIN; ROLE_EDITOR].
Definition require_workspace_reviewer : id → AuthenticatedUser → SM (id * WorkspaceMembership) :=
require_workspace_role [ROLE_ADMIN; ROLE_REVIEWER].

(** ** Memberships (routes/memberships.py) *)

Definition _get_target_membership (workspace_id user_id : id) :
  SM (option (id * WorkspaceMembership)) :=
l ← select st_memberships (membership_of workspace_id user_id);
scalar_one_or_none l.

Definition is_admin_of (workspace_id : id) (_ : id) (m : WorkspaceMembership) : bool :=
in_workspace workspace_id (mem_workspace_id m) && bool_decide (mem_role m = ROLE_ADMIN).

Definition _locked_admin_count (workspace_id : id) : SM Z :=
select_count st_memberships (is_admin_of workspace_id).

Definition member_not_found : exn := HTTPException 404 "member not found".

Definition _ensure_admin_mutation_keeps_an_admin (workspace_id user_id : id) :
  SM (id * WorkspaceMembership) :=
locked_admin_count ← _locked_admin_count workspace_id;
target ← _get_target_membership workspace_id user_id;
match target with
| None => raise member_not_found
| Some target =>
    if bool_decide (mem_role target.2 = ROLE_ADMIN) && (locked_admin_count <=? 1)
    then raise (HTTPException 409 "workspace must retain at least one admin")
    else mret target
end.

Definition list_memberships (workspace_id : id) (user : AuthenticatedUser) :
  SM (list (id * WorkspaceMembership)) :=
require_workspace_member workspace_id user;;
select st_memberships (λ _ m, in_workspace workspace_id (mem_workspace_id m)).

Definition same_member (a b : WorkspaceMembership) : bool :=
bool_decide (mem_workspace_id a = mem_workspace_id b) && bool_decide (mem_user_id a = mem_user_id b).

(** [session.add(membership); session.flush()]: the user has a profile, and
    no membership of the workspace *)
Definition add_membership (workspace_id user_id : id) (role : WorkspaceRole) :
  SM (id * WorkspaceMembership) :=
membership_id ← on_world uuid4;
t ← on_world now;
let membership := mk_mem workspace_id user_id role t in
profile ← session_get st_profiles user_id;
match profile with
| None => raise (IntegrityError "workspace_memberships_user_id_fkey")
| Some _ =>
    insert_unique st_memberships "uq_workspace_user" same_member membership_id membership;;
    on_world flush;;
    mret (membership_id, membership)
end.

Definition invite_member (workspace_id : id) (user : AuthenticatedUser) (member : id)
  (role : WorkspaceRole) : SM (id * WorkspaceMembership) :=
require_workspace_admin workspace_id user;;
existing ← _get_target_membership workspace_id member;
match existing with
| Some _ => raise (HTTPException 409 "user is already a member of this workspace")
| None =>
    membership ← add_membership workspace_id member role;
    lift_result (audit "membership_invited" ["workspace_id"; "actor_id"; "target_user_id"; "role"]);;
    mret membership
end.

(** what [update_member_role] does with the row it read: only the demotion of
    an admin locks the admins and reads the row again.  A role that is the
    one read is not written, and the update of a row that is gone fails. *)
Definition change_member_role (workspace_id member : id) (role : WorkspaceRole)
  (target : id * WorkspaceMembership) : SM id :=
target ← (if bool_decide (mem_role target.2 = ROLE_ADMIN) && negb (bool_decide (role = ROLE_ADMIN))
          then _ensure_admin_mutation_keeps_an_admin workspace_id member
          else mret target);
(if bool_decide (mem_role target.2 = role) then mret tt
 else the st_memberships target.1;; modify st_memberships target.1 (λ m, m <| mem_role := role |>));;
on_world flush;;
lift_result (audit "membership_role_updated"
  ["workspace_id"; "actor_id"; "target_user_id"; "previous_role"; "new_role"]);;
mret target.1.

Definition update_member_role (workspace_id : id) (user : AuthenticatedUser) (member : id)
  (role : WorkspaceRole) : SM id :=
require_workspace_admin workspace_id user;;
target ← _get_target_membership workspace_id member;
match target with
| None => raise member_not_found
| Some target => change_member_role workspace_id member role target
end.

(** what [remove_member] does with the row it read: only the removal of an
    admin locks the admins and reads the row again; a row that is gone is not
    missed ([confirm_deleted_rows] of the mapper) *)
Definition delete_member (workspace_id member : id) (target : id * WorkspaceMembership) : SM unit :=
target ← (if bool_decide (mem_role target.2 = ROLE_ADMIN)
          then _ensure_admin_mutation_keeps_an_admin workspace_id member
          else mret target);
update st_memberships (delete target.1);;
on_world flush;;
lift_result (audit "membership_removed"
  ["workspace_id"; "actor_id"; "target_user_id"; "removed_role"; "self_leave"]).

Definition remove_member (workspace_id : id) (user : AuthenticatedUser) (member : id) : SM unit :=
caller_membership ← get_membership workspace_id user;
match caller_membership with
| None => raise (forbidden "not a member")
| Some caller =>
    let is_self_leave := match au_id user with
                         | JStr s => String.eqb (uuid_str member) s | _ => false end in
    if negb is_self_leave && negb (bool_decide (mem_role caller.2 = ROLE_ADMIN))
    then raise (forbidden "requires one of: admin") else
    target ← _get_target_membership workspace_id member;
    match target with
    | None => raise member_not_found
    | Some target => delete_member workspace_id member target
    end
end.

(** ** Workspaces (routes/workspaces.py) *)

Section Workspaces.
Context `{Settings}.

Definition create_workspace (user : AuthenticatedUser) (name : string) : SM id :=
creator ← lift_result (user_uuid user);
workspace_id ← on_world uuid4;
t ← on_world now;
profile ← session_get st_profiles creator;
match profile with
| None => raise (IntegrityError "workspaces_created_by_fkey")
| Some _ =>
    on_world (insert_row w_workspaces workspace_id (mk_workspace name creator 0 t));;
    on_world flush;;
    add_membership workspace_id creator ROLE_ADMIN;;
    on_world (ensure_default_spend_cap workspace_id creator None None);;
    on_world flush;;
    lift_result (audit "workspace_created" ["workspace_id"; "actor_id"; "workspace_name"]);;
    mret workspace_id
end.
End Workspaces.

Definition list_my_workspaces (user : AuthenticatedUser) : SM (list (id * Workspace)) :=
user_id ← lift_result (user_uuid user);
mine ← select st_memberships (λ _ m, bool_decide (mem_user_id m = user_id));
workspaces ← gets (λ s, w_workspaces (st_world s));
mret (desc_by (λ p, ws_created_at p.2)
  (omap (λ m : id * WorkspaceMembership,
           w ← workspaces !! mem_workspace_id m.2; Some (mem_workspace_id m.2, w)) mine)).

Definition workspace_not_found : exn := HTTPException 404 "workspace not found".

Definition get_workspace (workspace_id : id) (user : AuthenticatedUser) : SM Workspace :=
require_workspace_member workspace_id user;;
workspace ← on_world (session_get w_workspaces workspace_id);
match workspace with None => raise workspace_not_found | Some w => mret w end.

Definition update_workspace (workspace_id : id) (user : AuthenticatedUser) (name : option string)
  (priority_tier : option Z) : SM unit :=
require_workspace_admin workspace_id user;;
workspace ← on_world (session_get w_workspaces workspace_id);
match workspace with
| None => raise workspace_not_found
| Some _ =>
    match name, priority_tier with
    | None, None => raise (HTTPException 422 "at least one of name or priority_tier is required")
    | _, _ => mret tt
    end;;
    match name with
    | Some n => on_world (modify w_workspaces workspace_id (λ w, w <| ws_name := n |>))
    | None => mret tt
    end;;
    match priority_tier with
    | Some p => on_world (modify w_workspaces workspace_id (λ w, w <| ws_priority_tier := p |>))
    | None => mret tt
    end;;
    on_world flush;;
    lift_result (audit "workspace_updated"
      (["workspace_id"; "actor_id"] ++
       match name with Some _ => ["new_name"] | None => [] end ++
       match priority_tier with Some _ => ["priority_tier"] | None => [] end))
end.

(** ** Profiles (routes/profiles.py, routes/content_profile.py) *)

(** [user.email or ""], stored in a text column *)
Definition profile_email_of (user : AuthenticatedUser) : result exn string :=
if truthy (au_email user)
then match au_email user with JStr s => Ok s | _ => Raise TypeError end
else Ok EmptyString.

Definition get_my_profile (user : AuthenticatedUser) : SM id :=
user_id ← lift_result (user_uuid user);
profile ← session_get st_profiles user_id;
match profile with
| Some _ => mret user_id
| None =>
    email ← lift_result (profile_email_of user);
    t ← on_world now;
    insert_row st_profiles user_id (mk_profile email None t);;
    on_world flush;;
    mret user_id
end.

(** the fields of [ContentProfileInput], after its validator *)
Record ContentProfileInput : Type := mk_profile_input {
  cpi_business_name : option string;
  cpi_offer : option string;
  cpi_target_audience : option string;
  cpi_brand_voice : option string;
  cpi_target_platform : option string;
  cpi_content_goal : option string
}.

(** schemas/workspace.py *)
Definition strip_and_blank_to_none (value : option string) : option string :=
match value with
| None => None
| Some value =>
    let stripped := strip value in
    if String.eqb stripped EmptyString then None else Some stripped
end.

Definition _get_profile (workspace_id : id) : SM (option (id * WorkspaceContentProfile)) :=
l ← select st_content_profiles (λ _ p, in_workspace workspace_id (prof_workspace_id p));
scalar_one_or_none l.

Definition get_content_profile (workspace_id : id) (user : AuthenticatedUser) :
  SM (option (id * WorkspaceContentProfile)) :=
require_workspace_member workspace_id user;;
_get_profile workspace_id.

Definition same_profile (a b : WorkspaceContentProfile) : bool :=
bool_decide (prof_workspace_id a = prof_workspace_id b).

Definition filled_profile (payload : ContentProfileInput) (updated_by : id)
  (p : WorkspaceContentProfile) : WorkspaceContentProfile :=
p <| prof_business_name := cpi_business_name payload |> <| prof_offer := cpi_offer payload |>
  <| prof_target_audience := cpi_target_audience payload |>
  <| prof_brand_voice := cpi_brand_voice payload |>
  <| prof_target_platform := cpi_target_platform payload |>
  <| prof_content_goal := cpi_content_goal payload |>
  <| prof_updated_by := Some updated_by |>.

Definition save_content_profile (workspace_id : id) (user : AuthenticatedUser)
  (payload : ContentProfileInput) : SM id :=
membership ← require_workspace_content_author workspace_id user;
profile ← _get_profile workspace_id;
let actor := mem_user_id membership.2 in
profile_id ← match profile with
  | None =>
      profile_id ← on_world uuid4;
      t ← on_world now;
      insert_unique st_content_profiles "uq_workspace_content_profiles_workspace" same_profile
        profile_id
        (filled_profile payload actor
           (mk_prof workspace_id None None None None None None t (Some actor) (Some actor)));;
      mret profile_id
  | Some (profile_id, _) =>
      modify st_content_profiles profile_id (filled_profile payload actor);;
      mret profile_id
  end;
on_world flush;;
lift_result (audit "workspace_content_profile_saved" ["workspace_id"; "actor_id"]);;
mret profile_id.
