(* ===== verification/Limits.v ===== *)
(** * Limits of a workspace (routes/concurrency.py, routes/spend.py)

    What an admin sets and every member reads: the limits of a workspace's
    queue, the budget of a provider, and the spend caps.  The budgets are
    written by the service role in a transaction of its own. *)

From S2P Require Import Prelude Models Database Outbox Text Assignments Budgets Spend StudioModels.
From S2P Require Import Accounts.

Record ConcurrencyLimitsOut : Type := mk_limits_out {
  lo_max_concurrent_assignments : Z;
  lo_max_per_scheduler_tick : Z;
  lo_queue_soft_limit : Z;
  lo_queue_hard_limit : Z;
  lo_pending_depth : Z;
  lo_in_flight : Z;
  lo_backpressure_state : BackpressureState
}.

(** the answer, once the caller passed its guard *)
Definition concurrency_of (workspace_id : id) : M ConcurrencyLimitsOut :=
limit ← session_get w_limits workspace_id;
bp ← session_get w_backpressure workspace_id;
depth ← pending_depth workspace_id;
inflight ← select_count w_assignments
  (λ _ a, in_workspace workspace_id (asn_workspace_id a) && in_flight a);
let or_limit (f : WorkspaceConcurrencyLimit → Z) (dflt : Z) :=
  match limit with Some l => f l | None => dflt end in
mret {| lo_max_concurrent_assignments := or_limit lim_max_concurrent_assignments 10;
        lo_max_per_scheduler_tick := or_limit lim_max_per_scheduler_tick 5;
        lo_queue_soft_limit := or_limit lim_queue_soft_limit 50;
        lo_queue_hard_limit := or_limit lim_queue_hard_limit 200;
        lo_pending_depth := depth;
        lo_in_flight := inflight;
        lo_backpressure_state := match bp with Some b => bps_state b | None => NORMAL end |}.

Definition get_concurrency (workspace_id : id) (user : AuthenticatedUser) : SM ConcurrencyLimitsOut :=
require_workspace_member workspace_id user;;
on_world (concurrency_of workspace_id).

(** each field at least 1, by its schema *)
Record ConcurrencyLimitsUpdate : Type := mk_limits_update {
  lu_max_concurrent_assignments : option Z;
  lu_max_per_scheduler_tick : option Z;
  lu_queue_soft_limit : option Z;
  lu_queue_hard_limit : option Z
}.

Definition limits_out_of_order : exn := HTTPException 422 "queue_hard_limit must be >= queue_soft_limit".

Definition updated_limit (payload : ConcurrencyLimitsUpdate) (l : WorkspaceConcurrencyLimit) :
  WorkspaceConcurrencyLimit :=
mk_limit (default (lim_max_concurrent_assignments l) (lu_max_concurrent_assignments payload))
  (default (lim_max_per_scheduler_tick l) (lu_max_per_scheduler_tick payload))
  (default (lim_queue_soft_limit l) (lu_queue_soft_limit payload))
  (default (lim_queue_hard_limit l) (lu_queue_hard_limit payload)).

Definition put_concurrency (workspace_id : id) (user : AuthenticatedUser)
  (payload : ConcurrencyLimitsUpdate) : SM ConcurrencyLimitsOut :=
require_workspace_admin workspace_id user;;
if match lu_queue_soft_limit payload, lu_queue_hard_limit payload with
   | Some soft, Some hard => hard <? soft
   | _, _ => false
   end
then raise limits_out_of_order else
limit ← on_world (session_get w_limits workspace_id);
match limit with
| None =>
    let soft := default 50 (lu_queue_soft_limit payload) in
    let hard := default 200 (lu_queue_hard_limit payload) in
    if hard <? soft then raise limits_out_of_order else
    on_world uuid4;;
    on_world (insert_row w_limits workspace_id
      (mk_limit (default 10 (lu_max_concurrent_assignments payload))
         (default 5 (lu_max_per_scheduler_tick payload)) soft hard))
| Some _ =>
    on_world (modify w_limits workspace_id (updated_limit payload));;
    limit ← on_world (the w_limits workspace_id);
    if lim_queue_hard_limit limit <? lim_queue_soft_limit limit then raise limits_out_of_order
    else mret tt
end;;
on_world flush;;
lift_result (audit "concurrency_limits_updated"
  ["workspace_id"; "max_concurrent_assignments"; "max_per_scheduler_tick"; "queue_soft_limit";
   "queue_hard_limit"]);;
on_world (concurrency_of workspace_id).

(** [.order_by(provider.asc())] *)
Definition by_provider (a b : (id * string) * ProviderConcurrencyBudget) : bool :=
match String.compare a.1.2 b.1.2 with Gt => false | _ => true end.

Definition list_provider_budgets (workspace_id : id) (user : AuthenticatedUser) :
  SM (list ((id * string) * ProviderConcurrencyBudget)) :=
require_workspace_member workspace_id user;;
l ← on_world (select w_budgets (λ k _, in_workspace workspace_id k.1));
mret (order_by by_provider l).

Definition upsert_provider_budget (workspace_id : id) (user : AuthenticatedUser) (provider : string)
  (max_concurrent : Z) : SM unit :=
require_workspace_admin workspace_id user;;
existing ← on_world (session_get w_budgets (workspace_id, provider));
match existing with
| None =>
    on_world uuid4;;
    on_world (insert_row w_budgets (workspace_id, provider) (mk_budget max_concurrent))
| Some _ =>
    on_world (modify w_budgets (workspace_id, provider)
      (λ b, b <| bud_max_concurrent := max_concurrent |>))
end;;
on_world flush;;
lift_result (audit "provider_budget_upserted" ["workspace_id"; "provider"; "max_concurrent"]).

Definition delete_provider_budget (workspace_id : id) (user : AuthenticatedUser) (provider : string) :
  SM unit :=
require_workspace_admin workspace_id user;;
existing ← on_world (session_get w_budgets (workspace_id, provider));
match existing with
| None => raise (HTTPException 404 "provider budget not found")
| Some _ =>
    on_world (update w_budgets (delete (workspace_id, provider)));;
    on_world flush;;
    lift_result (audit "provider_budget_deleted" ["workspace_id"; "provider"])
end.

(** ** Spend caps (routes/spend.py) *)

(** each amount at least 0, by its schema *)
Record SpendUpdateIn : Type := mk_spend_update {
  su_daily_cap_usd : option usd;
  su_monthly_cap_usd : option usd
}.
Definition spend_update_ok (payload : SpendUpdateIn) : Prop :=
(∀ d, su_daily_cap_usd payload = Some d → 0 ≤ d) ∧
(∀ m, su_monthly_cap_usd payload = Some m → 0 ≤ m).

Definition get_spend (workspace_id : id) (user : AuthenticatedUser) : SM SpendSnapshot :=
require_workspace_member workspace_id user;;
on_world (spend_snapshot workspace_id).

Definition update_spend `{Settings} (workspace_id : id) (user : AuthenticatedUser)
  (payload : SpendUpdateIn) : SM SpendSnapshot :=
require_workspace_admin workspace_id user;;
match su_daily_cap_usd payload, su_monthly_cap_usd payload with
| None, None =>
    raise (HTTPException 422 "at least one of daily_cap_usd or monthly_cap_usd is required")
| Some daily, Some monthly =>
    if monthly <? daily then raise (HTTPException 422 "daily_cap_usd cannot exceed monthly_cap_usd")
    else mret tt
| _, _ => mret tt
end;;
actor_id ← lift_result (user_uuid user);
on_world (update_workspace_spend_cap workspace_id actor_id (su_daily_cap_usd payload)
  (su_monthly_cap_usd payload));;
lift_result (audit "spend_cap_updated" ["workspace_id"; "daily_cap_usd"; "monthly_cap_usd"]);;
on_world (spend_snapshot workspace_id).
