(* ===== verification/LeonVoice.v ===== *)
(** * Leon's voice turn (services/leon_voice_spend.py, services/leon_voice.py)

    Speech in, a reply, speech out: three calls of a paid provider, each with
    a reservation made before it against the cap of a fixed system workspace,
    committed when the call answered and released when it failed.  The
    provider is a parameter: what it answers to each call.  Every spend
    operation is a transaction of its own. *)

From S2P Require Import Prelude Models Database Outbox Text Spend Decimal PyJson.

(** ** The spend ledger (leon_voice_spend.py) *)

Definition LEON_SYSTEM_WORKSPACE_ID : id := 0x40008000000000000002%positive.

(** the prices of the settings, [Decimal(str(rate))] of each *)
Class VoiceSettings := {
  openai_api_key : option string;
  leon_openai_chat_model : string;
  leon_openai_tts_voice : string;
  leon_stt_cost_usd_per_minute : dec;
  leon_llm_input_cost_usd_per_1k_tokens : dec;
  leon_llm_output_cost_usd_per_1k_tokens : dec;
  leon_tts_cost_usd_per_1k_chars : dec
}.

Definition default_voice_settings (key : option string) : VoiceSettings := {|
  openai_api_key := key;
  leon_openai_chat_model := "gpt-4o-mini";
  leon_openai_tts_voice := "alloy";
  leon_stt_cost_usd_per_minute := (6, -3);
  leon_llm_input_cost_usd_per_1k_tokens := (3, -3);
  leon_llm_output_cost_usd_per_1k_tokens := (15, -3);
  leon_tts_cost_usd_per_1k_chars := (15, -3)
|}.

Definition _STT_RESERVE_MAX_MINUTES : dec := (12, 0).
Definition _CHARS_PER_TOKEN_ESTIMATE : Z := 4.
Definition _LLM_RESERVE_MAX_OUTPUT_TOKENS : Z := 300.

Definition _load_cap_for_update : M (option SpendCap) :=
session_get w_caps (LEON_SYSTEM_WORKSPACE_ID, None).

Definition reserve (provider : string) (estimated_cost_usd : usd) : M id :=
savepoint (
  cap ← _load_cap_for_update;
  match cap with
  | None => raise (LeonSpendExceeded "voice spend cap is not configured")
  | Some cap =>
      t ← now;
      daily ← spend_committed_plus_reserved LEON_SYSTEM_WORKSPACE_ID None (Some (utc_day_start t));
      monthly ← spend_committed_plus_reserved LEON_SYSTEM_WORKSPACE_ID None
                  (Some (utc_month_start t));
      if cap_daily_cap_usd cap <? daily + estimated_cost_usd
      then raise (LeonSpendExceeded "daily voice spend cap reached")
      else if cap_monthly_cap_usd cap <? monthly + estimated_cost_usd
      then raise (LeonSpendExceeded "monthly voice spend cap reached")
      else if estimated_cost_usd <? 0
      then raise (IntegrityError "spend_reservations_estimated_cost_usd_check")
      else
        reservation ← uuid4;
        insert_row w_reservations reservation
          (mk_reservation LEON_SYSTEM_WORKSPACE_ID None None provider None estimated_cost_usd
             RESERVED t);;
        mret reservation
  end).

(** the reservation, when it is still open *)
Definition open_reservation (reservation_id : id) : M (option SpendReservation) :=
reservation ← session_get w_reservations reservation_id;
mret (match reservation with
      | Some r => if decide (rsv_status r = RESERVED) then Some r else None
      | None => None
      end).

Definition commit (reservation_id : id) (actual_cost_usd : usd) : M unit :=
savepoint (
  reservation ← open_reservation reservation_id;
  match reservation with
  | None => mret tt
  | Some r =>
      let reserved := rsv_estimated_cost_usd r in
      let actual := if 0 <=? actual_cost_usd then actual_cost_usd else 0 in
      let actual := if reserved <? actual then reserved else actual in
      modify w_reservations reservation_id (λ r, r <| rsv_status := COMMITTED |>);;
      log ← uuid4;
      t ← now;
      insert_row w_spend_logs log
        (mk_spend_log LEON_SYSTEM_WORKSPACE_ID None (rsv_provider r) None actual t)
  end).

Definition release (reservation_id : id) : M unit :=
savepoint (
  reservation ← open_reservation reservation_id;
  match reservation with
  | None => mret tt
  | Some _ => modify w_reservations reservation_id (λ r, r <| rsv_status := RELEASED |>)
  end).

(** *** Prices *)

(** a turn of the history, and the number of characters of the whole *)
Definition history_chars (history : list (string * string)) : Z :=
Z.of_nat (list_sum (map (λ turn, String.length turn.2) history)).

Section Prices.
Context `{VoiceSettings}.

Definition stt_reserve_estimate_usd : result exn usd :=
quantize_usd (dec_mul _STT_RESERVE_MAX_MINUTES leon_stt_cost_usd_per_minute).

(** [duration], as it is decoded: a number, or what [isinstance] takes for one *)
Definition stt_actual_cost_usd (duration_seconds : json) : result exn usd :=
match duration_seconds with
| JNum m e =>
    if m <? 0 then stt_reserve_estimate_usd
    else quantize_usd (dec_mul (dec_div (m, - Z.of_nat e) (dec_of 60)) leon_stt_cost_usd_per_minute)
| JBool _ => Raise InvalidOperation
| _ => stt_reserve_estimate_usd
end.

Definition per_thousand (n rate : dec) : dec := dec_mul (dec_div n (dec_of 1000)) rate.

Definition llm_cost_usd (input_tokens output_tokens : dec) : result exn usd :=
quantize_usd (dec_add (per_thousand input_tokens leon_llm_input_cost_usd_per_1k_tokens)
                (per_thousand output_tokens leon_llm_output_cost_usd_per_1k_tokens)).

Definition llm_reserve_estimate_usd (history : list (string * string)) (user_text : string) :
  result exn usd :=
let input_chars := Z.of_nat (String.length user_text) + history_chars history in
llm_cost_usd (dec_div (dec_of input_chars) (dec_of _CHARS_PER_TOKEN_ESTIMATE))
  (dec_of _LLM_RESERVE_MAX_OUTPUT_TOKENS).

Definition llm_actual_cost_usd (input_tokens output_tokens : Z) : result exn usd :=
llm_cost_usd (dec_of (Z.max input_tokens 0)) (dec_of (Z.max output_tokens 0)).

Definition tts_cost_usd (text : string) : result exn usd :=
quantize_usd (per_thousand (dec_of (Z.of_nat (String.length text))) leon_tts_cost_usd_per_1k_chars).
End Prices.

(** ** The turn (leon_voice.py) *)

Definition MAX_AUDIO_BYTES : Z := 15 * 1024 * 1024.
Definition MAX_TEXT_CHARS : Z := 4000.
Definition MAX_HISTORY_TURNS : nat := 8.
Definition _MAX_REPLY_TOKENS : Z := 300.

Definition concat_strings (l : list string) : string := foldr String.append EmptyString l.

Definition LEON_SYSTEM_PROMPT : string :=
concat_strings
  ["You are Leon Rico, an animated companion who lives as an overlay on the user's ";
   "Android screen. You are having a spoken conversation — your reply is converted to ";
   "speech and read aloud, so write the way a person actually talks: short sentences, ";
   "no markdown, no bullet lists, no headings, nothing that only makes sense written ";
   "down. Keep replies brief and conversational, generally one to three sentences ";
   "unless the user clearly wants more detail.";
   newline;
   newline;
   "Who you are: a hustler at heart who made his money designing an app that took off — ";
   "self-made, not handed anything. That background comes through as confidence and ";
   "hustle, not bragging; you only bring it up when it's actually relevant, not every ";
   "reply.";
   newline;
   newline;
   "Your energy is always positive and always encouraging — you hype the user up, look ";
   "for the upside, and never talk down to them, even when the news is bad; you're ";
   "still real about the bad news, just not negative about it. Your voice is casual and ";
   "warm, contemporary African American vernacular worked in naturally — words like ";
   "'fam', 'no cap', 'let's get it', 'I got you', 'that's real' — used the way someone ";
   "actually talks, not piled on every sentence and never written as broken or ";
   "misspelled English. Skip it entirely for serious or sensitive topics; read the room."].

(** what is sent to the provider *)
Inductive call : Type :=
| Transcribe (key audio filename content_type : string)
| Complete (key model : string) (max_tokens : Z) (messages : list (string * string))
| Speak (key voice input : string).

(** what comes back: an exception of the transport, or a response with its
    body decoded when it is JSON, and as it is *)
Inductive upstream : Type :=
| HTTPError
| Response (status_code : Z) (body : option json) (content content_type : string).

Section Turn.
Context `{VoiceSettings} (provider : call → upstream).

Definition _safe_json (body : option json) (stage fallback : string) : result exn pydict :=
match body with
| Some (JObj kv) => Ok kv
| _ => Raise (LeonVoiceError fallback stage)
end.

Definition _require_openai_key (stage : string) : result exn string :=
match openai_api_key with
| Some key =>
    if String.eqb key EmptyString
    then Raise (LeonVoiceError "voice conversation is not configured (missing OpenAI key)" stage)
    else Ok key
| None => Raise (LeonVoiceError "voice conversation is not configured (missing OpenAI key)" stage)
end.

Definition _reserve_or_fail (name : string) (estimated_cost_usd : usd) : M id :=
catch (reserve name estimated_cost_usd) (λ e, match e with
  | LeonSpendExceeded _ =>
      raise (LeonVoiceError "Leon has reached today's conversation budget — try again later" "spend")
  | e => raise e
  end).

(** [release] and [raise], of every failed call *)
Definition fail_call {A} (reservation_id : id) (detail stage : string) : M A :=
release reservation_id;;
raise (LeonVoiceError detail stage).

(** [except LeonVoiceError: release; raise] *)
Definition or_release {A} (reservation_id : id) (r : result exn A) : M A :=
match r with
| Ok a => mret a
| Raise (LeonVoiceError detail stage) => fail_call reservation_id detail stage
| Raise e => raise e
end.

Definition or_text (a b : string) : string := if String.eqb a EmptyString then b else a.

Definition transcribe_audio (audio filename content_type : string) : M string :=
key ← lift_result (_require_openai_key "stt");
estimate ← lift_result stt_reserve_estimate_usd;
reservation_id ← _reserve_or_fail "openai-whisper" estimate;
match provider (Transcribe key audio filename (or_text content_type "audio/m4a")) with
| HTTPError => fail_call reservation_id "speech recognition is unavailable right now" "stt"
| Response status_code body _ _ =>
    if 400 <=? status_code then fail_call reservation_id "could not understand that audio" "stt" else
    body ← or_release reservation_id
             (_safe_json body "stt" "speech recognition returned an unexpected response");
    match as_str (dict_get body "text" JNull) with
    | None => fail_call reservation_id "didn't catch that — try again" "stt"
    | Some text =>
        let text := strip text in
        if String.eqb text EmptyString
        then fail_call reservation_id "didn't catch that — try again" "stt" else
        actual ← lift_result (stt_actual_cost_usd (dict_get body "duration" JNull));
        commit reservation_id actual;;
        mret text
    end
end.

(** the text blocks of a list of content blocks *)
Definition text_block (block : json) : option string :=
match block with
| JObj kv =>
    match dict_get kv "type" JNull, dict_get kv "text" JNull with
    | JStr "text", JStr s => Some s
    | _, _ => None
    end
| _ => None
end.

Definition unexpected_reply : exn := LeonVoiceError "Leon's brain returned an unexpected response" "llm".

(** the reply of a decoded completion *)
Definition reply_of (body : pydict) : result exn string :=
match dict_get body "choices" JNull with
| JList (JObj first_choice :: _) =>
    match dict_get first_choice "message" JNull with
    | JObj message =>
        let reply := match dict_get message "content" JNull with
                     | JStr content => strip content
                     | JList content => strip (concat_strings (omap text_block content))
                     | _ => EmptyString
                     end in
        if String.eqb reply EmptyString
        then Raise (LeonVoiceError "Leon couldn't think of a reply just now" "llm") else Ok reply
    | _ => Raise unexpected_reply
    end
| _ => Raise unexpected_reply
end.

(** [usage.get(key, usage.get(other))], when it is an [int] *)
Definition token_count (usage : pydict) (key other : string) : Z :=
default 0 (as_int (dict_get usage key (dict_get usage other JNull))).

(** the cost of the tokens the completion reports *)
Definition reported_cost (body : pydict) : result exn usd :=
let usage := match dict_get body "usage" JNull with JObj kv => kv | _ => [] end in
llm_actual_cost_usd (token_count usage "input_tokens" "prompt_tokens")
  (token_count usage "output_tokens" "completion_tokens").

Definition generate_reply (user_text : string) (history : list (string * string)) : M string :=
key ← lift_result (_require_openai_key "llm");
estimate ← lift_result (llm_reserve_estimate_usd history user_text);
reservation_id ← _reserve_or_fail "openai-llm" estimate;
let messages := ("system", LEON_SYSTEM_PROMPT) :: history ++ [("user", user_text)] in
match provider (Complete key leon_openai_chat_model _MAX_REPLY_TOKENS messages) with
| HTTPError => fail_call reservation_id "Leon's brain is unavailable right now" "llm"
| Response status_code body _ _ =>
    if 400 <=? status_code
    then fail_call reservation_id "Leon couldn't think of a reply just now" "llm" else
    answer ← or_release reservation_id
      (body ← _safe_json body "llm" "Leon's brain returned an unexpected response";
       reply ← reply_of body;
       Ok (body, reply));
    actual ← lift_result (reported_cost answer.1);
    commit reservation_id actual;;
    mret answer.2
end.

Definition synthesize_speech (text : string) : M string :=
key ← lift_result (_require_openai_key "tts");
cost ← lift_result (tts_cost_usd text);
reservation_id ← _reserve_or_fail "openai-tts" cost;
match provider (Speak key leon_openai_tts_voice text) with
| HTTPError => fail_call reservation_id "Leon's voice is unavailable right now" "tts"
| Response status_code _ content content_type =>
    if 400 <=? status_code
    then fail_call reservation_id "Leon's voice is unavailable right now" "tts"
    else if String.eqb content EmptyString
    then fail_call reservation_id "Leon's voice returned empty audio" "tts"
    else if String.prefix "application/json" (lower content_type)
    then fail_call reservation_id "Leon's voice returned an unexpected response" "tts"
    else
      commit reservation_id cost;;
      mret content
end.

Record voice_answer : Type := mk_voice_answer {
  va_user_text : string;
  va_reply_text : string;
  va_reply_audio : string
}.

Definition run_voice_turn (user_text audio : option string) (audio_filename audio_content_type : string)
  (history : list (string * string)) : M voice_answer :=
let given := strip (default EmptyString user_text) in
resolved_text ←
  (if String.eqb given EmptyString then
     match audio with
     | Some audio =>
         if String.eqb audio EmptyString
         then raise (LeonVoiceError "no speech or text was provided" "input")
         else transcribe_audio audio audio_filename audio_content_type
     | None => raise (LeonVoiceError "no speech or text was provided" "input")
     end
   else mret given);
reply_text ← generate_reply resolved_text history;
reply_audio ← synthesize_speech reply_text;
mret (mk_voice_answer resolved_text reply_text reply_audio).
End Turn.
