(* ===== verification/VoiceRoute.v ===== *)
(** * The route of a voice turn (api/routes/leon_voice.py)

    A request carries text, or audio in a form or as its whole body.  The
    route checks the shared token, reads no more than fifteen megabytes,
    decides what the audio is from its first bytes, its name and its declared
    type, runs the turn (LeonVoice.v) and answers every failure by a status.
    The framework's reading of a form and [json.loads] are parameters; the
    log is left out.  Byte strings and headers are strings of their bytes. *)

From S2P Require Import Prelude Models Database Text Decimal PyJson Regex Url LeonVoice.
From S2P Require Accounts.

Abbreviation bytes := string (only parsing).
Definition len (s : string) : Z := Z.of_nat (String.length s).

(** ** Tables *)

Definition _ALLOWED_HISTORY_ROLES : list string := ["user"; "assistant"].
Definition _AUDIO_READ_CHUNK_BYTES : Z := 1024 * 1024.
Definition _FORM_CONTENT_TYPES : list string := ["application/x-www-form-urlencoded"; "multipart/form-data"].
Definition _CONTENT_TYPE_TO_AUDIO_FORMAT : list (string * option string) :=
[("audio/flac", Some "flac"); ("audio/m4a", Some "m4a"); ("audio/mp3", Some "mp3"); ("audio/mp4", Some "mp4");
 ("audio/mpeg", Some "mp3"); ("audio/ogg", Some "ogg"); ("audio/wav", Some "wav"); ("audio/webm", Some "webm");
 ("audio/wave", Some "wav"); ("audio/x-flac", Some "flac"); ("audio/x-m4a", Some "m4a");
 ("audio/x-wav", Some "wav"); ("application/octet-stream", None); ("video/mp4", Some "mp4");
 ("video/ogg", Some "ogg"); ("video/webm", Some "webm")].
Definition _EXTENSION_TO_AUDIO_FORMAT : list (string * string) :=
[(".flac", "flac"); (".m4a", "m4a"); (".mp3", "mp3"); (".mp4", "mp4"); (".oga", "ogg"); (".ogg", "ogg");
 (".wav", "wav"); (".wave", "wav"); (".webm", "webm")].
Definition _AUDIO_FORMAT_TO_CONTENT_TYPE : list (string * string) :=
[("flac", "audio/flac"); ("m4a", "audio/m4a"); ("mp3", "audio/mpeg"); ("mp4", "audio/mp4"); ("ogg", "audio/ogg");
 ("wav", "audio/wav"); ("webm", "audio/webm")].
Definition _AUDIO_FORMAT_TO_EXTENSION : list (string * string) :=
[("flac", "flac"); ("m4a", "m4a"); ("mp3", "mp3"); ("mp4", "mp4"); ("ogg", "ogg"); ("wav", "wav"); ("webm", "webm")].

(** [table.get(key)] and [table[key]] *)
Definition table_get {A} (table : list (string * A)) (key : string) : option A :=
snd <$> find (λ p, String.eqb p.1 key) table.
Definition table_item {A} (table : list (string * A)) (key : string) : result exn A :=
match table_get table key with Some v => Ok v | None => Raise (KeyError key) end.

(** ** Bytes and names *)

Definition str_or (o : option string) (s : string) : string :=
match o with Some x => if String.eqb x EmptyString then s else x | None => s end.

Definition byte_of (c : ascii) : Z := Z.of_nat (nat_of_ascii c).
Definition is_upper (c : ascii) : bool := (65 <=? byte_of c) && (byte_of c <=? 90).

Definition _normalized_content_type (content_type : option string) : string :=
lower (strip (partition ";" (str_or content_type EmptyString)).1.1).

Definition hex_chars : string := "0123456789abcdef".
Definition nth_char (s : string) (n : Z) : ascii := default "0"%char (String.get (Z.to_nat n) s).
Fixpoint hex (s : bytes) : string :=
match s with
| EmptyString => EmptyString
| String c s => String (nth_char hex_chars (byte_of c / 16)) (String (nth_char hex_chars (byte_of c mod 16)) (hex s))
end.
Definition _magic_preview (audio_bytes : bytes) : string := hex (String.substring 0 8 audio_bytes).

(** [Path(filename).name]: the last part that is neither empty nor "." *)
Definition path_name (filename : string) : string :=
default EmptyString (last (filter (λ p, p ≠ EmptyString ∧ p ≠ ".") (split_on "/" filename EmptyString))).
(** the stem and the suffix of a name: the last dot counts when it is neither
    the first nor the last character *)
Definition stem_suffix (name : string) : string * string :=
let '(a, found, b) := rpartition "." name in
if found && negb (String.eqb a EmptyString) && negb (String.eqb b EmptyString)
then (a, String "." b) else (name, EmptyString).

Definition safe_char (c : ascii) : bool := is_alnum c || Ascii.eqb c "-" || Ascii.eqb c "_".
Definition dash (c : ascii) : ascii := if safe_char c then c else "-"%char.
Fixpoint map_chars (f : ascii → ascii) (s : string) : string :=
match s with EmptyString => EmptyString | String c s => String (f c) (map_chars f s) end.
(** [s.strip("-_")] *)
Definition edge_char (c : ascii) : bool := Ascii.eqb c "-" || Ascii.eqb c "_".
Fixpoint lstrip_edge (s : string) : string :=
match s with String c s' => if edge_char c then lstrip_edge s' else s | EmptyString => s end.
Fixpoint rstrip_edge (s : string) : string :=
match s with
| String c s' =>
    match rstrip_edge s' with
    | EmptyString => if edge_char c then EmptyString else String c EmptyString
    | t => String c t
    end
| EmptyString => s
end.

Definition _safe_filename_stem (filename : option string) : string :=
let candidate := path_name (str_or filename EmptyString) in
let stem := if String.eqb candidate EmptyString then "speech" else (stem_suffix (path_name candidate)).1 in
let cleaned := rstrip_edge (lstrip_edge (map_chars dash stem)) in
if String.eqb cleaned EmptyString then "speech" else cleaned.

Definition path_suffix (filename : option string) : string :=
lower (stem_suffix (path_name (str_or filename EmptyString))).2.
Definition _audio_format_from_extension (filename : option string) : option string :=
table_get _EXTENSION_TO_AUDIO_FORMAT (path_suffix filename).

(** [s[n]], as a number *)
Definition byte_at (n : nat) (s : bytes) : Z := default 0 (byte_of <$> String.get n s).

Definition EBML_MAGIC : bytes :=
String (byte_chr 26) (String "E" (String (byte_chr 223) (String (byte_chr 163) EmptyString))).

Definition _audio_format_from_magic (audio_bytes : bytes) : option string :=
if (12 <=? len audio_bytes) && String.prefix "RIFF" audio_bytes &&
   String.eqb (String.substring 8 4 audio_bytes) "WAVE" then Some "wav"
else if String.prefix "ID3" audio_bytes then Some "mp3"
else if (2 <=? len audio_bytes) && (byte_at 0 audio_bytes =? 255) &&
        (Z.land (byte_at 1 audio_bytes) 224 =? 224) then Some "mp3"
else if String.prefix "fLaC" audio_bytes then Some "flac"
else if String.prefix "OggS" audio_bytes then Some "ogg"
else if String.prefix EBML_MAGIC audio_bytes then Some "webm"
else if (12 <=? len audio_bytes) && String.eqb (String.substring 4 4 audio_bytes) "ftyp"
then if String.eqb (String.substring 8 4 audio_bytes) "M4A " then Some "m4a" else Some "mp4"
else None.

Definition _resolved_audio_extension (audio_format : string) (filename : option string) (content_type : string) :
  result exn string :=
let suffix := path_suffix filename in
if bool_decide (suffix ∈ [".m4a"; ".mp4"]) && bool_decide (audio_format ∈ ["m4a"; "mp4"])
then Ok (String.substring 1 (String.length suffix - 1) suffix)
else if String.eqb (_normalized_content_type (Some content_type)) "video/mp4" then Ok "mp4"
else table_item _AUDIO_FORMAT_TO_EXTENSION audio_format.

Record _AudioUpload : Type := mk_audio {
  au_data : bytes;
  au_filename : string;
  au_content_type : string;
  au_container : string;
  au_byte_count : Z;
  au_magic_bytes : string
}.
Record _VoiceTurnRequest : Type := mk_turn_request {
  tr_text : option string;
  tr_history : option string;
  tr_audio : option _AudioUpload
}.

(** ** Answers of failure *)

Definition entry (key : string) (value : option string) : pydict :=
match value with
| Some v => if String.eqb v EmptyString then [] else [(key, JStr v)]
| None => []
end.
Definition _voice_error_detail (message stage error_code : string) (request_id error_type : option string) : json :=
JObj ([("message", JStr message); ("stage", JStr stage); ("error_code", JStr error_code)] ++
      entry "request_id" request_id ++ entry "error_type" error_type).

(** a failure of the parsing of a request *)
Definition parsing_error (status : Z) (message error_code : string) (request_id : option string) : exn :=
HTTPExceptionDetail status (_voice_error_detail message "request_parsing" error_code request_id None).

Definition too_large : exn := HTTPException 413 "audio must be at most 15728640 bytes".

(** ** Reading and naming the audio *)

Definition _normalize_audio_upload (audio_bytes : bytes) (filename content_type : option string)
  (request_id : option string) : result exn _AudioUpload :=
let normalized_content_type := _normalized_content_type content_type in
let detected_format := _audio_format_from_magic audio_bytes in
let extension_format := _audio_format_from_extension filename in
let content_type_format := mjoin (table_get _CONTENT_TYPE_TO_AUDIO_FORMAT normalized_content_type) in
match (match detected_format with Some f => Some f | None =>
         match extension_format with Some f => Some f | None => content_type_format end end) with
| None => Raise (parsing_error 415 "unsupported audio format" "unsupported_audio_format" request_id)
| Some resolved_format =>
    if String.eqb resolved_format "wav" && negb (bool_decide (detected_format = Some "wav"))
    then Raise (parsing_error 415 "audio/wav requires a valid WAV container" "unsupported_audio_format" request_id)
    else
      let safe_stem := _safe_filename_stem filename in
      extension ← _resolved_audio_extension resolved_format filename normalized_content_type;
      content_type ← table_item _AUDIO_FORMAT_TO_CONTENT_TYPE resolved_format;
      Ok {| au_data := audio_bytes;
            au_filename := safe_stem +:+ "." +:+ extension;
            au_content_type := content_type;
            au_container := resolved_format;
            au_byte_count := len audio_bytes;
            au_magic_bytes := _magic_preview audio_bytes |}
end.

(** [file.read(n)]: the next [n] bytes, or what is left *)
Fixpoint read (n : Z) (file : bytes) : bytes * bytes :=
if n <=? 0 then (EmptyString, file)
else match file with
     | EmptyString => (EmptyString, EmptyString)
     | String c file => let '(a, b) := read (n - 1) file in (String c a, b)
     end.

(** the loop over the chunks of a file: what was read, and what was not; a
    chunk has at least one byte, and [fuel] is the number of chunks *)
Fixpoint read_chunks (fuel : nat) (chunks file : bytes) : option (bytes * bytes) :=
if len chunks <=? MAX_AUDIO_BYTES then
  let '(chunk, rest) := read (Z.min _AUDIO_READ_CHUNK_BYTES (MAX_AUDIO_BYTES + 1 - len chunks)) file in
  if String.eqb chunk EmptyString then Some (chunks, file)
  else match fuel with
       | O => None
       | S fuel => read_chunks fuel (chunks +:+ chunk) rest
       end
else Some (chunks, file).
Definition read_fuel : nat := 17.

Definition _read_audio_bounded (file : bytes) : result exn bytes :=
match read_chunks read_fuel EmptyString file with
| None => Raise (RuntimeError "out of fuel")
| Some (data, _) => if MAX_AUDIO_BYTES <? len data then Raise too_large else Ok data
end.

Fixpoint read_stream (total : bytes) (stream : list bytes) : result exn bytes :=
match stream with
| [] => Ok total
| chunk :: stream =>
    if String.eqb chunk EmptyString then read_stream total stream
    else if MAX_AUDIO_BYTES <? len total + len chunk then Raise too_large
    else read_stream (total +:+ chunk) stream
end.
Definition _read_stream_bounded (stream : list bytes) : result exn bytes := read_stream EmptyString stream.

(** ** The request *)

Inductive form_value : Type :=
| FormText (s : string)
| FormUpload (filename content_type : option string) (file : bytes).

(** what reading a form comes to: the fields by their names, an HTTP error of
    the framework, a parsing error, or another exception *)
Inductive form_outcome : Type :=
| FormData (fields : string → option form_value)
| FormHTTP (status_code : Z) (detail : string)
| FormMalformed
| FormFailed (e : exn).

Record VoiceRequest : Type := mk_voice_request {
  vr_authorization : option string;
  vr_request_id : option string;
  vr_content_type : option string;
  vr_stream : list bytes;
  vr_form : form_outcome
}.

Definition _read_request_form (request : VoiceRequest) : result exn (string → option form_value) :=
let malformed := parsing_error 400 "malformed multipart form data" "invalid_multipart" (vr_request_id request) in
match vr_form request with
| FormData fields => Ok fields
| FormHTTP status_code detail => Raise (if status_code =? 400 then malformed else HTTPException status_code detail)
| FormMalformed => Raise malformed
| FormFailed e => Raise e
end.

Definition _coerce_optional_form_text (form : string → option form_value) (field_name : string)
  (request_id : option string) : result exn (option string) :=
match form field_name with
| None => Ok None
| Some (FormUpload _ _ _) =>
    Raise (parsing_error 400 (field_name +:+ " must be a text field") "invalid_form_field" request_id)
| Some (FormText value) => Ok (Some value)
end.

(** [form.get("audio") or form.get("file")] *)
Definition form_upload (form : string → option form_value) : option form_value :=
match form "audio" with
| None | Some (FormText EmptyString) => form "file"
| v => v
end.

Definition _parse_voice_turn_request (request : VoiceRequest) : result exn _VoiceTurnRequest :=
let request_id := vr_request_id request in
let content_type := _normalized_content_type (vr_content_type request) in
let unsupported := parsing_error 415 "unsupported content type" "unsupported_media_type" request_id in
if String.eqb content_type EmptyString then
  audio_bytes ← _read_stream_bounded (vr_stream request);
  if String.eqb audio_bytes EmptyString then Ok (mk_turn_request None None None) else Raise unsupported
else if bool_decide (content_type ∈ _FORM_CONTENT_TYPES) then
  form ← _read_request_form request;
  text ← _coerce_optional_form_text form "text" request_id;
  history ← _coerce_optional_form_text form "history" request_id;
  match form_upload form with
  | None => Ok (mk_turn_request text history None)
  | Some (FormText _) => Raise (parsing_error 400 "audio must be a file upload" "invalid_form_field" request_id)
  | Some (FormUpload filename upload_type file) =>
      audio_bytes ← _read_audio_bounded file;
      audio ← _normalize_audio_upload audio_bytes filename upload_type request_id;
      Ok (mk_turn_request text history (Some audio))
  end
else match table_get _CONTENT_TYPE_TO_AUDIO_FORMAT content_type with
     | Some _ =>
         audio_bytes ← _read_stream_bounded (vr_stream request);
         if String.eqb audio_bytes EmptyString then Ok (mk_turn_request None None None)
         else
           audio ← _normalize_audio_upload audio_bytes None (Some content_type) request_id;
           Ok (mk_turn_request None None (Some audio))
     | None => Raise unsupported
     end.

(** ** The reply *)

Definition b64_chars : string := "ABCDEFGHIJKLMNOPQRSTUVWXYZabcdefghijklmnopqrstuvwxyz0123456789+/".
Definition b64_char (n : Z) : ascii := nth_char b64_chars n.
Fixpoint b64encode (s : bytes) : string :=
match s with
| EmptyString => EmptyString
| String a EmptyString =>
    String (b64_char (byte_of a / 4)) (String (b64_char (byte_of a mod 4 * 16)) "==")
| String a (String b EmptyString) =>
    String (b64_char (byte_of a / 4)) (String (b64_char (byte_of a mod 4 * 16 + byte_of b / 16))
      (String (b64_char (byte_of b mod 16 * 4)) "="))
| String a (String b (String c s)) =>
    String (b64_char (byte_of a / 4)) (String (b64_char (byte_of a mod 4 * 16 + byte_of b / 16))
      (String (b64_char (byte_of b mod 16 * 4 + byte_of c / 64)) (String (b64_char (byte_of c mod 64))
        (b64encode s))))
end.
Definition encode_audio_base64 (audio_bytes : bytes) : string := b64encode audio_bytes.

Record LeonVoiceTurnOut : Type := mk_turn_out {
  to_user_text : string;
  to_reply_text : string;
  to_reply_audio_base64 : string;
  to_reply_audio_mime_type : string
}.

(** ** The routes *)

(** [type(e).__name__] *)
Definition exn_type_name (e : exn) : string :=
match e with
| ValueError _ => "ValueError" | KeyError _ => "KeyError" | TypeError => "TypeError"
| AttributeError => "AttributeError" | InvalidOperation => "InvalidOperation" | IndexError => "IndexError"
| RuntimeError _ => "RuntimeError" | NotImplementedError => "NotImplementedError"
| IntegrityError _ => "IntegrityError" | DataError _ => "DBAPIError"
| MultipleResultsFound => "MultipleResultsFound" | LeonSpendExceeded _ => "LeonSpendExceeded"
| LookupError _ => "LookupError" | _ => "Exception"
end.

Section Routes.
Context `{VoiceSettings} (leon_voice_app_token anthropic_api_key : option string).
Context (json_loads : string → result exn json) (provider : call → upstream).

Definition is_ascii (s : string) : bool := all_chars (λ c, byte_of c <? 128) s.
(** [hmac.compare_digest(a, b)] of two strings *)
Definition compare_digest (a b : string) : result exn bool :=
if is_ascii a && is_ascii b then Ok (String.eqb a b) else Raise TypeError.

Definition bad_token : exn := HTTPException 401 "invalid or missing app token".
Definition presented_token (authorization : option string) : string :=
let presented := str_or authorization EmptyString in
strip (if String.prefix "bearer " (lower presented)
       then String.substring 7 (String.length presented - 7) presented else presented).

Definition _require_app_token (authorization : option string) : result exn unit :=
let expected := strip (str_or leon_voice_app_token EmptyString) in
if String.eqb expected EmptyString then Raise (HTTPException 503 "voice conversation is not configured")
else
  let presented := presented_token authorization in
  if String.eqb presented EmptyString || negb (len presented =? len expected) then Raise bad_token
  else
    compare_digest presented expected ≫= λ same : bool, if same then Ok tt else Raise bad_token.

Record VoiceStatus : Type := mk_voice_status {
  vs_configured : bool;
  vs_anthropic_configured : bool;
  vs_openai_configured : bool;
  vs_request_id : option string
}.
Definition given (o : option string) : bool := negb (String.eqb (str_or o EmptyString) EmptyString).
Definition voice_status (request : VoiceRequest) : result exn VoiceStatus :=
_require_app_token (vr_authorization request);;
Ok (mk_voice_status (given leon_voice_app_token && given openai_api_key) (given anthropic_api_key)
      (given openai_api_key) (vr_request_id request)).

(** [role not in _ALLOWED_HISTORY_ROLES]: a list or an object has no hash *)
Definition known_role (role : json) : result exn bool :=
match role with
| JStr s => Ok (bool_decide (s ∈ _ALLOWED_HISTORY_ROLES))
| JList _ | JObj _ => Raise TypeError
| _ => Ok false
end.

Fixpoint history_turns (items : list json) : result exn (list (string * string)) :=
match items with
| [] => Ok []
| JObj item :: items =>
    let role := dict_get item "role" JNull in
    known ← known_role role;
    turns ← history_turns items;
    Ok (match known, role, dict_get item "content" JNull with
        | true, JStr role, JStr content => (role, String.substring 0 (Z.to_nat MAX_TEXT_CHARS) content) :: turns
        | _, _, _ => turns
        end)
| _ :: items => history_turns items
end.

Definition _parse_history (raw : option string) : result exn (list (string * string)) :=
let not_array := HTTPException 400 "history must be a JSON array" in
match str_or raw EmptyString with
| EmptyString => Ok []
| raw =>
    match json_loads raw with
    | Ok (JList l) => history_turns (drop (length l - MAX_HISTORY_TURNS) l)
    | Ok _ => Raise not_array
    | Raise (TypeError | ValueError _) => Raise not_array
    | Raise e => Raise e
    end
end.

(** the clauses around the turn: [failure_stage] and the audio as the
    exception found them *)
Definition on_failure {A} (request_id : option string) (failure_stage : string) (e : exn) : M A :=
match e with
| HTTPException _ _ | HTTPExceptionDetail _ _ => raise e
| LeonVoiceError detail stage =>
    lift_result (Accounts.audit "leon_voice_turn_failed" ["had_audio"; "failure_stage"]);;
    let answer code := JObj [("message", JStr detail); ("stage", JStr stage); ("error_code", JStr code)] in
    if String.eqb stage "spend" then raise (HTTPExceptionDetail 402 (answer "voice_spend_cap_reached"))
    else raise (HTTPExceptionDetail 502 (answer "voice_upstream_failure"))
| e =>
    lift_result (Accounts.audit "leon_voice_turn_internal_error"
      ["had_audio"; "failure_stage"; "error_type"; "audio_byte_count"; "audio_container";
       "audio_content_type"; "audio_filename"; "audio_magic_bytes"]);;
    raise (HTTPExceptionDetail 500 (_voice_error_detail "voice turn failed unexpectedly" failure_stage
             "voice_internal_error" request_id (Some (exn_type_name e))))
end.
Definition in_stage {A} (request_id : option string) (failure_stage : string) (m : M A) : M A :=
catch m (on_failure request_id failure_stage).

Definition check_text (parsed : _VoiceTurnRequest) : result exn unit :=
if MAX_TEXT_CHARS <? len (default EmptyString (tr_text parsed))
then Raise (HTTPException 400 "text must be at most 4000 characters")
else match tr_audio parsed with
     | None =>
         if String.eqb (strip (default EmptyString (tr_text parsed))) EmptyString
         then Raise (HTTPException 400 "either audio or text is required") else Ok tt
     | Some _ => Ok tt
     end.

Definition voice_turn (request : VoiceRequest) : M LeonVoiceTurnOut :=
let request_id := vr_request_id request in
lift_result (_require_app_token (vr_authorization request));;
parsed ← in_stage request_id "request_parsing" (lift_result (_parse_voice_turn_request request));
in_stage request_id "request_validation" (lift_result (check_text parsed));;
answer ← in_stage request_id "voice_turn"
  (history ← lift_result (_parse_history (tr_history parsed));
   run_voice_turn provider (tr_text parsed) (au_data <$> tr_audio parsed)
     (str_or (au_filename <$> tr_audio parsed) "speech.m4a")
     (str_or (au_content_type <$> tr_audio parsed) "audio/m4a") history);
lift_result (Accounts.audit "leon_voice_turn_completed" ["had_audio"; "user_text_length"; "reply_text_length"]);;
mret (mk_turn_out (va_user_text answer) (va_reply_text answer) (encode_audio_base64 (va_reply_audio answer))
        "audio/mpeg").
End Routes.
