(* ===== verification/LocalAuth.v ===== *)
(** * Local email and password authentication (services/local_auth.py,
    routes/auth.py)

    A credential row carries its own throttle: failures are counted within a
    window, and the tenth locks the account.  The key derivation, the salt
    and the encoding of a token are the libraries' and the system's:
    parameters. *)

From S2P Require Import Prelude Models Database Outbox Text PyJson Url StudioModels.

Definition MAX_FAILED_ATTEMPTS : Z := 10.
Definition LOCKOUT_SECONDS : Z := 900.
Definition FAILURE_WINDOW_SECONDS : Z := 900.
Definition MIN_PASSWORD_LENGTH : nat := 12.
Definition LOCAL_JWT_ISSUER : string := "content-orchestrator-local".

Record AuthToken : Type := mk_auth_token {
  at_access_token : string;
  at_token_type : string;
  at_expires_in : Z;
  at_user_id : id;
  at_email : string
}.

(** [s.split(c, 3)] into four parts *)
Definition split4 (c : ascii) (s : string) : option (string * string * string * string) :=
match partition c s with
| (a, true, s) =>
    match partition c s with
    | (b, true, s) =>
        match partition c s with
        | (d, true, e) => Some (a, b, d, e)
        | _ => None
        end
    | _ => None
    end
| _ => None
end.

Fixpoint zeros (n : nat) : string :=
match n with O => EmptyString | S n => String "0" (zeros n) end.
Definition _TIMING_EQUALIZER_HASH : string :=
"pbkdf2_sha256$200000$" +:+ zeros 64 +:+ "$" +:+ zeros 64.

Section LocalAuth.
(** [pbkdf2 password salt rounds], in hexadecimal *)
Context (pbkdf2 : string → string → Z → result exn string) (jwt_encode : json → string).
Context (auth_mode supabase_jwt_audience : string).

Definition hash_password (salt password : string) : result exn string :=
digest ← pbkdf2 password salt 200000;
Ok ("pbkdf2_sha256$200000$" +:+ salt +:+ "$" +:+ digest).

Definition verify_password (password password_hash : string) : result exn bool :=
match split4 "$" password_hash with
| None => Ok false
| Some (algo, rounds_s, salt, digest) =>
    if negb (String.eqb algo "pbkdf2_sha256") then Ok false
    else match parse_int rounds_s with
         | None => Ok false
         | Some rounds =>
             candidate ← pbkdf2 password salt rounds;
             Ok (String.eqb candidate digest)
         end
end.

Definition mint_access_token (user_id : id) (email : string) (expires_in : Z) (t : time) : string :=
jwt_encode (JObj [("sub", JStr (uuid_str user_id)); ("email", JStr email);
                  ("aud", JStr supabase_jwt_audience);
                  ("exp", int_json (t / 1000000 + expires_in)); ("role", JStr "authenticated");
                  ("iss", JStr LOCAL_JWT_ISSUER)]).

Definition token_for (user_id : id) (email : string) (t : time) : AuthToken :=
{| at_access_token := mint_access_token user_id email 3600 t;
   at_token_type := "bearer";
   at_expires_in := 3600;
   at_user_id := user_id;
   at_email := email |}.

Definition credential_of (email : string) : SM (option (id * LocalAuthCredential)) :=
l ← select st_credentials (λ _ c, String.eqb (cred_email c) email);
scalar_one_or_none l.

Definition same_email (a b : LocalAuthCredential) : bool := String.eqb (cred_email a) (cred_email b).

Definition signup (email password : string) (full_name : option string) (salt : string) :
  SM AuthToken :=
if negb (String.eqb auth_mode "local")
then raise (AuthError "auth_disabled" "local signup is disabled when AUTH_MODE!=local") else
let normalized := lower (strip email) in
if (String.length password <? MIN_PASSWORD_LENGTH)%nat
then raise (AuthError "weak_password" "password must be at least 12 characters") else
existing ← credential_of normalized;
match existing with
| Some _ => raise (AuthError "email_taken" "an account with this email already exists")
| None =>
    user_id ← on_world uuid4;
    t ← on_world now;
    profile ← session_get st_profiles user_id;
    match profile with
    | None => insert_row st_profiles user_id (mk_profile normalized full_name t)
    | Some _ => modify st_profiles user_id (λ p, p <| profile_email := normalized |>)
    end;;
    password_hash ← lift_result (hash_password salt password);
    insert_unique st_credentials "local_auth_credentials_email_key" same_email user_id
      (mk_cred normalized password_hash t 0 None None);;
    on_world flush;;
    mret (token_for user_id normalized t)
end.

Definition invalid_credentials : exn := AuthError "invalid_credentials" "invalid email or password".

(** the lock is on *)
Definition locked (t : time) (c : LocalAuthCredential) : bool :=
match cred_locked_until c with Some until => t <? until | None => false end.

(** the last failure is out of the window *)
Definition stale (t : time) (c : LocalAuthCredential) : bool :=
match cred_last_failed_at c with
| None => true
| Some last => seconds FAILURE_WINDOW_SECONDS <? t - last
end.

Definition failed_login (t : time) (c : LocalAuthCredential) : LocalAuthCredential :=
let failed_attempts := if stale t c then 1 else cred_failed_attempts c + 1 in
let c := c <| cred_failed_attempts := failed_attempts |> <| cred_last_failed_at := Some t |> in
if MAX_FAILED_ATTEMPTS <=? failed_attempts
then c <| cred_locked_until := Some (t + seconds LOCKOUT_SECONDS) |> else c.

Definition cleared_login (c : LocalAuthCredential) : LocalAuthCredential :=
c <| cred_failed_attempts := 0 |> <| cred_last_failed_at := None |> <| cred_locked_until := None |>.

Definition login (email password : string) : SM AuthToken :=
if negb (String.eqb auth_mode "local")
then raise (AuthError "auth_disabled" "local login is disabled when AUTH_MODE!=local") else
let normalized := lower (strip email) in
t ← on_world now;
row ← credential_of normalized;
match row with
| None =>
    lift_result (verify_password password _TIMING_EQUALIZER_HASH);;
    raise invalid_credentials
| Some (user_id, c) =>
    if locked t c then
      lift_result (verify_password password (cred_password_hash c));;
      raise invalid_credentials
    else
      verified ← lift_result (verify_password password (cred_password_hash c));
      if negb verified then
        modify st_credentials user_id (failed_login t);;
        on_world flush;;
        raise invalid_credentials
      else
        modify st_credentials user_id cleared_login;;
        on_world flush;;
        mret (token_for user_id (cred_email c) t)
end.

(** ** The routes *)

Definition _ensure_local_auth_enabled : result exn unit :=
if String.eqb auth_mode "local" then Ok tt else Raise (HTTPException 404 "local auth is disabled").

Definition signup_route (email password : string) (full_name : option string) (salt : string) :
  SM AuthToken :=
lift_result _ensure_local_auth_enabled;;
catch (savepoint (signup email password full_name salt)) (λ e, match e with
  | AuthError code message =>
      raise (HTTPException (if String.eqb code "email_taken" then 409 else 400) message)
  | e => raise e
  end).

(** the refusal commits, with the failure it counted; any other exception
    rolls back *)
Definition login_route (email password : string) : SM AuthToken :=
lift_result _ensure_local_auth_enabled;;
answer ← savepoint (catch (token ← login email password; mret (Ok token)) (λ e, match e with
  | AuthError _ message => mret (Raise (HTTPException 401 message))
  | e => raise e
  end));
lift_result answer.
End LocalAuth.
