(* ===== verification/Config.v ===== *)
(** * How a process starts (core/config.py, db/runtime_role.py)

    The checks made when [Settings] is constructed, in their order: a process
    that fails one does not start.  pydantic reads the fields from the
    environment and parses the two database URLs; a URL is the list of its
    hosts with the user and the password of each.  The bounds of the other
    fields are laws of [Settings] (Models.v).  Error messages carry their
    first words.  Then the database role the application connects as: its
    creation, its grants and the check of what it may do. *)

From S2P Require Import Prelude Models Text Regex Url LocalAuth.

Definition CANONICAL_RUNTIME_ROLE : string := "app_runtime".

(** [[A-Za-z_][A-Za-z0-9_]{0,62}], all of it *)
Definition role_char (c : ascii) : bool := is_alpha c || is_digit c || Ascii.eqb c "_".
Definition is_role_name (s : string) : bool :=
match s with
| EmptyString => false
| String c r => (is_alpha c || Ascii.eqb c "_") && all_chars role_char r && (String.length r <=? 62)%nat
end.

(** [_SUPABASE_POOLER_USER_RE]: a role name, a dot, a project reference *)
Definition ref_char (c : ascii) : bool :=
is_digit c || (is_alpha c && Ascii.eqb (lower_ascii c) c).
Definition pooler_role (username : string) : option string :=
let '(role, dot, ref) := partition "." username in
if dot && is_role_name role && (String.length ref =? 20)%nat && all_chars ref_char ref then Some role
else None.

Definition database_role_name (username : string) : string := default username (pooler_role username).

Definition REPOSITORY_TEST_JWT_SECRET : string := "test-supabase-jwt-secret-0123456789abcdef".

(** a host of a URL, as pydantic parsed it *)
Record url_host : Type := mk_url_host {
  uh_username : option string;
  uh_password : option string
}.
Abbreviation PostgresDsn := (list url_host).

(** the fields the checks read *)
Record AppSettings : Type := mk_app_settings {
  environment : string;
  database_url : PostgresDsn;
  app_database_url : PostgresDsn;
  supabase_jwt_secret : string;
  supabase_jwt_issuer : option string;
  auth_mode : string;
  allow_local_auth_in_production : bool;
  cors_allow_origins : list string
}.
#[global] Instance AppSettings_settable : Settable AppSettings := λ s,
  mk_app_settings (environment s) (database_url s) (app_database_url s) (supabase_jwt_secret s)
    (supabase_jwt_issuer s) (auth_mode s) (allow_local_auth_in_production s) (cors_allow_origins s).

(** the fields without a default are arguments *)
Definition with_defaults (database_url app_database_url : PostgresDsn) (secret : string) : AppSettings :=
{| environment := "development"; database_url := database_url; app_database_url := app_database_url;
   supabase_jwt_secret := secret; supabase_jwt_issuer := None; auth_mode := "supabase";
   allow_local_auth_in_production := false; cors_allow_origins := ["http://localhost:5173"] |}.

(** [x in {...}] *)
Definition member (x : string) (l : list string) : bool := existsb (String.eqb x) l.

Definition env_name (environment : string) : string := lower (strip environment).

Definition _LOCAL_ENVIRONMENTS : list string := ["test"; "development"; "dev"].
Definition _KNOWN_DEFAULT_DB_PASSWORDS : list string := ["postgres"; "app_runtime"].

Definition openapi_docs_enabled (s : AppSettings) : bool :=
member (env_name (environment s)) ["development"; "dev"].
Definition is_local_environment (s : AppSettings) : bool :=
member (env_name (environment s)) _LOCAL_ENVIRONMENTS.

Definition blank (s : string) : bool := String.eqb (strip s) EmptyString.

Definition _dsn_credentials (url : PostgresDsn) : result exn (string * string) :=
match url with
| [] => Raise (ValueError "database URL has no host")
| host :: _ =>
    let username := strip (default EmptyString (uh_username host)) in
    let password := match uh_password host with
                    | Some raw_password => if String.eqb raw_password EmptyString then EmptyString
                                           else unquote raw_password
                    | None => EmptyString
                    end in
    Ok (username, password)
end.

(** one turn of the loop over the two URLs *)
Definition check_credentials (label : string) (credentials : string * string) : result exn unit :=
let '(username, password) := credentials in
if String.eqb username EmptyString then Raise (ValueError (label +:+ " is missing a role name"))
else if blank password then Raise (ValueError (label +:+ " is missing a password"))
else if member (lower (strip password)) _KNOWN_DEFAULT_DB_PASSWORDS
then Raise (ValueError (label +:+ " still uses a known default database password"))
else Ok tt.

Definition _validate_database_credentials (s : AppSettings) : result exn AppSettings :=
if is_local_environment s then Ok s
else
  owner ← _dsn_credentials (database_url s);
  runtime ← _dsn_credentials (app_database_url s);
  check_credentials "DATABASE_URL" owner;;
  check_credentials "APP_DATABASE_URL" runtime;;
  let runtime_role := database_role_name runtime.1 in
  let owner_role := database_role_name owner.1 in
  if negb (String.eqb (lower runtime_role) CANONICAL_RUNTIME_ROLE)
  then Raise (ValueError "APP_DATABASE_URL must use the canonical app_runtime role")
  else if String.eqb (lower owner_role) (lower runtime_role)
  then Raise (ValueError "APP_DATABASE_URL must not reuse the DATABASE_URL owner identity")
  else if String.eqb owner.2 runtime.2 || String.eqb (lower owner.2) (lower runtime.2)
  then Raise (ValueError "APP_DATABASE_URL must not reuse the DATABASE_URL password")
  else Ok s.

Definition _KNOWN_WEAK_JWT_SECRETS : list string :=
[EmptyString; "secret"; "changeme"; "change-me"; "change_me"; "your-secret"; "your-jwt-secret";
 "your_jwt_secret"; "example"; "test"; "password"; "insecure"; "default"; "jwtsecret";
 "supersecretjwtkey"; "super-secret-jwt-token-with-at-least-32-characters-long";
 REPOSITORY_TEST_JWT_SECRET; "ci-test-supabase-jwt-secret"; "ci-browser-smoke-supabase-jwt-secret"].
Definition _RETIRED_JWT_SECRET_PARTS : list (list string) :=
[["HgCiBrowserSmokeJwt"; "9f3a7c2e1b8d0465k4m2"]].

(** [len(set(s))] *)
Definition distinct_chars (s : string) : Z := Z.of_nat (length (remove_dups (String.list_ascii_of_string s))).

Definition _validate_jwt_secret (s : AppSettings) : result exn AppSettings :=
if String.eqb (env_name (environment s)) "test" then Ok s
else
  let secret := supabase_jwt_secret s in
  let normalized := lower (strip secret) in
  if Z.of_nat (String.length secret) <? 32
  then Raise (ValueError "SUPABASE_JWT_SECRET must be at least 32 bytes outside ENVIRONMENT=test")
  else
    let retired := map (λ parts, lower (foldr String.append EmptyString parts)) _RETIRED_JWT_SECRET_PARTS in
    if member normalized _KNOWN_WEAK_JWT_SECRETS || member normalized retired
    then Raise (ValueError "SUPABASE_JWT_SECRET is a known placeholder/default value")
    else if distinct_chars secret <? 8
    then Raise (ValueError "SUPABASE_JWT_SECRET looks predictable")
    else Ok s.

Definition _validate_cors_origins (s : AppSettings) : result exn AppSettings :=
if existsb (λ origin, String.eqb (strip origin) "*") (cors_allow_origins s)
then Raise (ValueError "CORS_ALLOW_ORIGINS must not contain '*'")
else Ok s.

Definition _validate_auth_mode (s : AppSettings) : result exn AppSettings :=
let mode := lower (strip (auth_mode s)) in
if negb (member mode ["local"; "supabase"])
then Raise (ValueError "AUTH_MODE must be 'local' or 'supabase'")
else
  let s := s <| auth_mode := mode |> in
  let env := env_name (environment s) in
  if member env ["production"; "prod"] && String.eqb mode "local" &&
     negb (allow_local_auth_in_production s)
  then Raise (ValueError "AUTH_MODE=local is forbidden when ENVIRONMENT is production")
  else Ok s.

Definition _validate_jwt_issuer (s : AppSettings) : result exn AppSettings :=
let env := env_name (environment s) in
let issuer := match supabase_jwt_issuer s with
              | None => None
              | Some raw => if blank raw then None else Some (strip raw)
              end in
if String.eqb (auth_mode s) "local"
then
  match issuer with
  | Some i =>
      if negb (String.eqb i LOCAL_JWT_ISSUER)
      then Raise (ValueError "SUPABASE_JWT_ISSUER must be the local issuer when AUTH_MODE=local")
      else Ok (s <| supabase_jwt_issuer := Some LOCAL_JWT_ISSUER |>)
  | None => Ok (s <| supabase_jwt_issuer := Some LOCAL_JWT_ISSUER |>)
  end
else if String.eqb env "test"
then Ok (s <| supabase_jwt_issuer := Some (default LOCAL_JWT_ISSUER issuer) |>)
else match issuer with
     | None => Raise (ValueError "SUPABASE_JWT_ISSUER is required when AUTH_MODE=supabase outside ENVIRONMENT=test")
     | Some i => Ok (s <| supabase_jwt_issuer := Some i |>)
     end.

(** [Settings()]: the checks in the order they are declared *)
Definition construct (s : AppSettings) : result exn AppSettings :=
s ← _validate_database_credentials s;
s ← _validate_jwt_secret s;
s ← _validate_cors_origins s;
s ← _validate_auth_mode s;
_validate_jwt_issuer s.

Record OpenAPIRouteKwargs : Type := mk_openapi {
  docs_url : option string;
  redoc_url : option string;
  openapi_url : option string
}.
Definition openapi_route_kwargs (environment : string) : OpenAPIRouteKwargs :=
if member (env_name environment) ["development"; "dev"]
then mk_openapi (Some "/docs") (Some "/redoc") (Some "/openapi.json")
else mk_openapi None None None.

(** * The role the application connects as (db/runtime_role.py)

    After the migrations the entrypoint gives the role [app_runtime] its
    rotated password, and refuses to go on when the role has powers that
    would put it above row-level security.  The state is what PostgreSQL
    keeps of the roles of a cluster.  The parsing of a URL (SQLAlchemy), what
    [format()] makes of a template, which statement a text is and what the
    owner is permitted to do are parameters. *)

(** ** PostgreSQL *)

(** a row of [pg_roles] *)
Record role : Type := mk_role {
  rolcanlogin : bool;
  rolpassword : option string;
  rolsuper : bool;
  rolbypassrls : bool;
  rolcreaterole : bool;
  rolcreatedb : bool
}.
#[global] Instance role_settable : Settable role := λ r,
  mk_role (rolcanlogin r) (rolpassword r) (rolsuper r) (rolbypassrls r) (rolcreaterole r) (rolcreatedb r).

Record Cluster : Type := mk_cluster {
  pg_roles : gmap string role;
  pg_connect : gset (string * string)
}.
#[global] Instance Cluster_settable : Settable Cluster := λ c, mk_cluster (pg_roles c) (pg_connect c).

Abbreviation PG := (ST Cluster exn).

Inductive sql : Type :=
| CREATE_ROLE (name password : string)
| ALTER_ROLE (name password : string)
| GRANT_CONNECT (database name : string).

Definition PostgresError (m : string) : exn := RuntimeError m.

(** every statement commits by itself *)
Definition execute_sql (q : sql) : PG unit :=
roles ← gets pg_roles;
match q with
| CREATE_ROLE name password =>
    match roles !! name with
    | Some _ => raise (PostgresError "role already exists")
    | None => update pg_roles <[name := mk_role true (Some password) false false false false]>
    end
| ALTER_ROLE name password =>
    match roles !! name with
    | None => raise (PostgresError "role does not exist")
    | Some _ => update pg_roles (alter (λ r, r <| rolcanlogin := true |> <| rolpassword := Some password |>) name)
    end
| GRANT_CONNECT database name =>
    match roles !! name with
    | None => raise (PostgresError "role does not exist")
    | Some _ => update pg_connect (λ g, {[ (database, name) ]} ∪ g)
    end
end.

(** ** Provisioning *)

Definition RuntimeRoleError (m : string) : exn := ValueError m.

Definition _KNOWN_DEFAULT_PASSWORDS : list string := ["postgres"; "app_runtime"].

(** [s.replace(old, new, 1)] *)
Fixpoint replace_first (old new s : string) : string :=
if String.prefix old s
then new +:+ String.substring (String.length old) (String.length s - String.length old) s
else match s with
     | EmptyString => EmptyString
     | String c s => String c (replace_first old new s)
     end.
Definition plain_url (dsn : string) : string := replace_first "postgresql+asyncpg://" "postgresql://" dsn.

Section Provisioning.
(** the user name and the password of a URL *)
Context (make_url : string → result exn (option string * option string)).
(** [SELECT format(template, ...)], and the statement a text is *)
Context (pg_format : string → list string → option string) (parse_sql : string → option sql).
(** opening a connection, what its user is permitted, and its database *)
Context (connect : string → result exn unit) (permitted : sql → bool) (current_database : option string).

Definition parse_runtime_credentials (dsn : string) : result exn (string * string) :=
url ← make_url (plain_url dsn);
let username := strip (default EmptyString url.1) in
let password := default EmptyString url.2 in
if String.eqb username EmptyString then Raise (RuntimeRoleError "APP_DATABASE_URL is missing a role name")
else
  let username := database_role_name username in
  if negb (is_role_name username)
  then Raise (RuntimeRoleError "APP_DATABASE_URL role name is not a safe Postgres identifier")
  else if negb (String.eqb username CANONICAL_RUNTIME_ROLE)
  then Raise (RuntimeRoleError "APP_DATABASE_URL must use the canonical app_runtime role")
  else if String.eqb password EmptyString
  then Raise (RuntimeRoleError "APP_DATABASE_URL is missing a password")
  else if member (lower (strip password)) _KNOWN_DEFAULT_PASSWORDS
  then Raise (RuntimeRoleError "APP_DATABASE_URL still uses a known default database password")
  else Ok (username, password).

Definition _formatted_sql (template : string) (params : list string) : PG string :=
match pg_format template params with
| Some statement =>
    if String.eqb statement EmptyString
    then raise (RuntimeRoleError "Postgres format() did not return a statement")
    else mret statement
| None => raise (RuntimeRoleError "Postgres format() did not return a statement")
end.

(** [conn.execute(text)] *)
Definition execute (text : string) : PG unit :=
match parse_sql text with
| None => raise (PostgresError "syntax error")
| Some q => if permitted q then execute_sql q else raise (PostgresError "permission denied")
end.

Definition overprivileged (attrs : role) : bool :=
rolsuper attrs || rolbypassrls attrs || rolcreaterole attrs || rolcreatedb attrs.

Definition provision_runtime_role (owner_dsn runtime_user runtime_password : string) : PG unit :=
if negb (is_role_name runtime_user)
then raise (RuntimeRoleError "runtime role name is not a safe Postgres identifier")
else if negb (String.eqb runtime_user CANONICAL_RUNTIME_ROLE)
then raise (RuntimeRoleError "only the canonical app_runtime role may be provisioned")
else if String.eqb runtime_password EmptyString
then raise (RuntimeRoleError "runtime role password is required")
else if member (lower (strip runtime_password)) _KNOWN_DEFAULT_PASSWORDS
then raise (RuntimeRoleError "runtime role password is a known default; rotate it before starting")
else
  lift_result (connect (plain_url owner_dsn));;
  existing ← gets (λ c, pg_roles c !! runtime_user);
  match existing with
  | Some _ => mret tt
  | None =>
      create_sql ← _formatted_sql "CREATE ROLE %I LOGIN PASSWORD %L" [runtime_user; runtime_password];
      execute create_sql
  end;;
  alter_sql ← _formatted_sql "ALTER ROLE %I WITH LOGIN PASSWORD %L" [runtime_user; runtime_password];
  execute alter_sql;;
  attrs ← gets (λ c, pg_roles c !! runtime_user);
  match attrs with
  | None => raise (RuntimeRoleError "runtime role was not found after provisioning")
  | Some attrs =>
      if overprivileged attrs
      then raise (RuntimeRoleError "runtime role has SUPERUSER, BYPASSRLS, CREATEROLE, or CREATEDB set")
      else match current_database with
           | None => raise (RuntimeRoleError "owner connection has no current database")
           | Some database =>
               if String.eqb database EmptyString
               then raise (RuntimeRoleError "owner connection has no current database")
               else
                 grant_sql ← _formatted_sql "GRANT CONNECT ON DATABASE %I TO %I" [database; runtime_user];
                 execute grant_sql
           end
  end.

Definition provision_from_env (DATABASE_URL APP_DATABASE_URL : option string) : PG unit :=
let owner_dsn := strip (default EmptyString DATABASE_URL) in
let runtime_dsn := strip (default EmptyString APP_DATABASE_URL) in
if String.eqb owner_dsn EmptyString || String.eqb runtime_dsn EmptyString
then raise (RuntimeRoleError "DATABASE_URL and APP_DATABASE_URL are required to provision the runtime role")
else
  credentials ← lift_result (parse_runtime_credentials runtime_dsn);
  let '(runtime_user, runtime_password) := credentials in
  owner_url ← lift_result (make_url (plain_url owner_dsn));
  let owner_user := strip (default EmptyString owner_url.1) in
  if String.eqb (lower owner_user) (lower runtime_user)
  then raise (RuntimeRoleError "runtime role must be distinct from the owner/migration role")
  else provision_runtime_role owner_dsn runtime_user runtime_password.
End Provisioning.
