(* ===== verification/DepartmentRoutes.v ===== *)
(** * The routes of the departments

    routes/research.py, strategy.py, content_department.py, production.py and
    compliance.py with the request bodies of schemas/: every request is one
    of an administrator of the workspace, runs in a session of its own, and
    answers the exceptions of the services by their status.  A body is a
    record whose fields already have their types; its bounds are checked
    after the guard.  Answers are the rows the response models show.

    At the end, routes/content_jobs.py and review_gates.py: the content desk,
    open to authors and reviewers, with the refusals of the billing. *)

From S2P Require Import Prelude Models Database Text PyJson StudioModels Accounts.
From S2P Require Research Strategy ContentDepartment Production Compliance ContentDesk Billing.

(** ** Request bodies (schemas/) *)

(** [Field(ge=lo, le=hi)] *)
Definition within (lo hi x : Z) : bool := (lo <=? x) && (x <=? hi).
(** [Field(min_length=lo, max_length=hi)] *)
Definition length_within (lo hi : Z) (s : string) : bool := within lo hi (Z.of_nat (String.length s)).
Definition opt_within {A} (ok : A → bool) (o : option A) : bool :=
match o with Some x => ok x | None => true end.

Definition unprocessable : exn := HTTPException 422 "request validation failed".
Definition checked {A} (ok : bool) (x : A) : result exn A := if ok then Ok x else Raise unprocessable.

(** the validator of [permitted_sources] *)
Definition source_list_is_bounded (value : list string) : option (list string) :=
if forallb (λ item, negb (String.eqb (strip item) EmptyString) &&
                    (Z.of_nat (String.length (strip item)) <=? 500)) value
then Some (map strip value) else None.

Definition ResearchRunCreate_of (p : Research.ResearchRunCreate) : result exn Research.ResearchRunCreate :=
match source_list_is_bounded (Research.rc_permitted_sources p) with
| None => Raise unprocessable
| Some sources =>
    checked (length_within 3 1000 (Research.rc_research_objective p) &&
      within 0 25 (Z.of_nat (length (Research.rc_permitted_sources p))) &&
      within 1 25 (Research.rc_max_searches p) && within 0 25 (Research.rc_max_provider_calls p) &&
      within 0 100000 (Research.rc_max_tokens p) && within 0 250000 (Research.rc_max_cost_usd p) &&
      within 1 5 (Research.rc_max_attempts p))
    (Research.mk_research_run_create (Research.rc_research_objective p) sources
      (Research.rc_max_searches p) (Research.rc_max_provider_calls p) (Research.rc_max_tokens p)
      (Research.rc_max_cost_usd p) (Research.rc_max_attempts p))
end.

Definition StrategyRunCreate_of (p : Strategy.StrategyRunCreate) : result exn Strategy.StrategyRunCreate :=
checked (length_within 3 1000 (Strategy.sc_strategy_objective p) &&
  within 1 5 (Z.of_nat (length (Strategy.sc_source_opportunity_ids p))) &&
  bool_decide (NoDup (Strategy.sc_source_opportunity_ids p)) &&
  within 0 25 (Strategy.sc_max_provider_calls p) && within 0 100000 (Strategy.sc_max_tokens p) &&
  within 0 250000 (Strategy.sc_max_cost_usd p) && within 1 5 (Strategy.sc_max_attempts p)) p.

Definition ContentDepartmentRunCreate_of (p : ContentDepartment.ContentDepartmentRunCreate) :
  result exn ContentDepartment.ContentDepartmentRunCreate :=
checked (within 0 25 (ContentDepartment.cc_max_provider_calls p) &&
  within 0 100000 (ContentDepartment.cc_max_tokens p) &&
  within 0 250000 (ContentDepartment.cc_max_cost_usd p) &&
  within 1 5 (ContentDepartment.cc_max_attempts p) &&
  within 30 3600 (ContentDepartment.cc_timeout_seconds p)) p.

Definition ProductionRunCreate_of (p : Production.ProductionLimits) : result exn Production.ProductionLimits :=
checked (opt_within (length_within 0 80) (Production.pl_target_platform p) &&
  opt_within (length_within 0 80) (Production.pl_target_format p) &&
  opt_within (within 1 14400) (Production.pl_target_duration_seconds p) &&
  within 0 20 (Production.pl_max_provider_calls p) && within 0 8 (Production.pl_max_render_calls p) &&
  within 0 5000000 (Production.pl_max_cost_usd p) && within 1 8 (Production.pl_max_attempts p) &&
  within 0 5 (Production.pl_max_repair_cycles p) && within 30 14400 (Production.pl_timeout_seconds p)) p.

Definition ComplianceRunRequest_of (target_platform : string) (p : Compliance.ComplianceLimits) :
  result exn Compliance.ComplianceLimits :=
checked (length_within 2 64 target_platform &&
  within 0 5 (Compliance.cl_max_provider_calls p) && within 0 5 (Compliance.cl_max_verification_calls p) &&
  within 0 4000 (Compliance.cl_max_tokens p) && within 0 0 (Compliance.cl_max_cost_usd p) &&
  within 1 3 (Compliance.cl_max_attempts p)) p.

(** ** Exceptions *)

Definition is_LookupError (e : exn) : bool :=
match e with LookupError _ | KeyError _ | IndexError | ContentDepartmentNotFoundError _ => true | _ => false end.
Definition is_ValueError (e : exn) : bool :=
match e with
| ValueError _ | ResearchGateError _ | StrategyGateError _ | StrategyAuditGateError _
| ContentDepartmentGateError _ => true
| _ => false
end.

(** [except ... as exc: raise HTTPException(status, str(exc)) from exc], the
    clauses in order *)
Definition except {A} (clauses : list ((exn → bool) * Z)) (m : SM A) : SM A :=
catch m (λ e, match list_find (λ c, c.1 e = true) clauses with
              | Some (_, c) => raise (HTTPException c.2 (exn_str e))
              | None => raise e
              end).

Definition _not_found (detail : string) : exn := HTTPException 404 detail.
Definition found {A} (detail : string) (o : option A) : SM A :=
match o with Some x => mret x | None => raise (_not_found detail) end.

(** [Depends(require_workspace_admin)] and [Depends(get_current_session)] *)
Definition admin_route {A} (workspace_id : id) (user : AuthenticatedUser) (m : SM A) : SM A :=
scoped (require_workspace_admin workspace_id user;; m).

Section Routes.
Context `{Unordered} (workspace_id : id) (user : AuthenticatedUser).

Abbreviation route := (admin_route workspace_id user).

(** ** routes/research.py *)

Definition research_create_run (payload : Research.ResearchRunCreate) : SM (id * ResearchRun) :=
route (payload ← lift_result (ResearchRunCreate_of payload);
       actor_id ← lift_result (user_uuid user);
       result ← Research.create_manual_run workspace_id actor_id payload;
       lift_result (audit "research_run_created" ["workspace_id"; "actor_id"; "research_run_id"]);;
       mret result).
Definition research_runs : SM (list (id * ResearchRun)) :=
route (Research.list_runs workspace_id 50).
Definition research_run_detail (run_id : id) : SM (id * ResearchRun) :=
route (run ← Research.get_run workspace_id run_id; found "research run not found" run).
Definition research_summary : SM Research.ResearchSummary := route (Research.summary workspace_id).
Definition opportunities : SM (list (id * Opportunity)) :=
route (Research.list_opportunities workspace_id 100).

Record OpportunityDetailOut : Type := mk_opportunity_detail {
  od_opportunity : Opportunity;
  od_evidence : list (OpportunityEvidence * (id * ResearchSource));
  od_latest_audit : option ResearchAudit
}.
Definition opportunity_detail (opportunity_id : id) : SM OpportunityDetailOut :=
route (opportunity ← Research.get_opportunity workspace_id opportunity_id;
       opportunity ← found "opportunity not found" opportunity;
       evidence ← Research.opportunity_evidence workspace_id opportunity_id;
       audit ← Research.latest_audit workspace_id opportunity_id;
       mret (mk_opportunity_detail opportunity evidence audit)).
Definition opportunity_sources (opportunity_id : id) : SM (list (OpportunityEvidence * (id * ResearchSource))) :=
route (opportunity ← Research.get_opportunity workspace_id opportunity_id;
       found "opportunity not found" opportunity;;
       Research.opportunity_evidence workspace_id opportunity_id).
Definition research_audit_detail (opportunity_id : id) : SM (option ResearchAudit) :=
route (opportunity ← Research.get_opportunity workspace_id opportunity_id;
       found "opportunity not found" opportunity;;
       Research.latest_audit workspace_id opportunity_id).
Definition run_research_audit (opportunity_id : id) : SM (id * ResearchAudit) :=
route (except [(is_LookupError, 404)] (Research.audit_opportunity workspace_id opportunity_id)).
Definition send_to_strategist (opportunity_id : id) : SM unit :=
route (except [(is_LookupError, 404);
               (λ e, match e with ResearchGateError _ => true | _ => false end, 409)]
         (Research.strategist_gate workspace_id opportunity_id)).

(** ** routes/strategy.py *)

Definition strategy_create_run (payload : Strategy.StrategyRunCreate) : SM (id * StrategyRun) :=
route (payload ← lift_result (StrategyRunCreate_of payload);
       except [(λ e, match e with StrategyGateError _ => true | _ => false end, 409); (is_ValueError, 422)]
         (actor_id ← lift_result (user_uuid user);
          result ← Strategy.create_manual_run workspace_id actor_id payload;
          lift_result (audit "strategy_run_created" ["workspace_id"; "actor_id"; "strategy_run_id"]);;
          mret result)).
Definition strategy_runs : SM (list (id * StrategyRun)) := route (Strategy.list_runs workspace_id).
Definition strategy_run_detail (run_id : id) : SM (id * StrategyRun) :=
route (run ← Strategy.get_run workspace_id run_id; found "strategy run not found" run).
Definition strategy_summary : SM Strategy.StrategySummary := route (Strategy.summary workspace_id).
Definition briefs : SM (list (id * StrategyBrief)) := route (Strategy.list_briefs workspace_id).

Record StrategyBriefDetailOut : Type := mk_brief_detail {
  bd_brief : StrategyBrief;
  bd_source_opportunity_ids : list id;
  bd_latest_audit : option StrategyAudit
}.
Definition brief_detail (brief_id : id) : SM StrategyBriefDetailOut :=
route (brief ← Strategy.get_brief workspace_id brief_id;
       brief ← found "strategy brief not found" brief;
       source_ids ← Strategy.brief_opportunity_ids workspace_id brief_id;
       audit ← Strategy.latest_audit workspace_id brief_id;
       mret (mk_brief_detail brief source_ids audit)).
Definition strategy_audit_detail (brief_id : id) : SM (option StrategyAudit) :=
route (brief ← Strategy.get_brief workspace_id brief_id;
       found "strategy brief not found" brief;;
       Strategy.latest_audit workspace_id brief_id).
Definition run_strategy_audit (brief_id : id) : SM (id * StrategyAudit) :=
route (except [(is_LookupError, 404)] (Strategy.audit_brief workspace_id brief_id)).
Definition send_to_writer (brief_id : id) : SM unit :=
route (except [(is_LookupError, 404);
               (λ e, match e with StrategyAuditGateError _ => true | _ => false end, 409)]
         (Strategy.writer_gate workspace_id brief_id)).

(** ** routes/content_department.py *)

Definition content_create_run (payload : ContentDepartment.ContentDepartmentRunCreate) :
  SM (id * ContentDepartmentRun) :=
route (payload ← lift_result (ContentDepartmentRunCreate_of payload);
       except [(λ e, match e with ContentDepartmentGateError _ => true | _ => false end, 409);
               (is_ValueError, 422)]
         (actor_id ← lift_result (user_uuid user);
          result ← ContentDepartment.create_manual_run workspace_id actor_id payload;
          lift_result (audit "content_department_run_created"
            ["workspace_id"; "actor_id"; "content_department_run_id"]);;
          mret result)).
Definition content_run_detail (run_id : id) : SM (id * ContentDepartmentRun) :=
route (run ← ContentDepartment.get_run workspace_id run_id; found "content department run not found" run).
Definition department_summary : SM ContentDepartment.ContentSummary :=
route (ContentDepartment.summary workspace_id).
Definition packages : SM (list (id * ContentPackage)) := route (ContentDepartment.list_packages workspace_id).

Definition content_not_found (e : exn) : bool :=
match e with ContentDepartmentNotFoundError _ => true | _ => false end.
Definition package_detail (package_id : id) : SM ContentDepartment.PackageDetail :=
route (except [(content_not_found, 404)] (ContentDepartment.package_detail workspace_id package_id)).
Definition producer_gate (package_id : id) : SM (bool * string) :=
route (except [(content_not_found, 404);
               (λ e, match e with ContentDepartmentGateError _ => true | _ => false end, 409)]
         (ContentDepartment.producer_gate workspace_id package_id)).

(** ** routes/production.py *)

Definition production_not_found (e : exn) : bool :=
match e with ProductionNotFoundError _ => true | _ => false end.
Definition production_create_run (content_package_id : id) (payload : Production.ProductionLimits) :
  SM (id * ProductionJob) :=
route (payload ← lift_result (ProductionRunCreate_of payload);
       result ← except [(production_not_found, 404);
                        (λ e, match e with ProductionEligibilityError _ => true | _ => false end, 409)]
         (actor_id ← lift_result (user_uuid user);
          Production.create_production_run workspace_id actor_id content_package_id payload);
       lift_result (audit "production_run_created"
         ["workspace_id"; "actor_id"; "production_run_id"; "content_package_id"; "max_cost_usd"]);;
       mret result).
Definition production_summary : SM Production.ProductionSummary := route (Production.summary workspace_id).
Definition production_runs : SM (list (id * ProductionJob)) := route (Production.list_jobs workspace_id).
Definition production_run_detail (production_job_id : id) : SM Production.JobDetail :=
route (except [(production_not_found, 404)] (Production.job_detail workspace_id production_job_id)).
Definition artifact_detail (artifact_id : id) : SM FinalArtifact :=
route (l ← select st_artifacts (λ i a, in_workspace workspace_id (art_workspace_id a) &&
         bool_decide (i = artifact_id));
       artifact ← scalar_one_or_none l;
       found "final artifact not found" (snd <$> artifact)).
Definition artifact_qa (artifact_id : id) : SM (list (id * MediaQaResult)) :=
route (l ← select st_media_qa (λ _ q, in_workspace workspace_id (mqa_workspace_id q) &&
         bool_decide (mqa_final_artifact_id q = artifact_id));
       mret (desc_by (λ p, mqa_created_at p.2) l)).
Definition artifact_readiness (artifact_id : id) : SM (option (id * ProductionReadiness)) :=
route (Production.readiness_of workspace_id artifact_id).

(** ** routes/compliance.py *)

Definition compliance_not_found (e : exn) : bool :=
match e with ComplianceNotFoundError _ => true | _ => false end.
Definition run_compliance (final_artifact_id : id) (target_platform : string)
  (payload : Compliance.ComplianceLimits) : SM (id * ComplianceAudit) :=
route (payload ← lift_result (ComplianceRunRequest_of target_platform payload);
       result ← except [(compliance_not_found, 404);
                        (λ e, match e with ComplianceGateError _ => true | _ => false end, 409)]
         (actor_id ← lift_result (user_uuid user);
          Compliance.create_compliance_run workspace_id actor_id final_artifact_id target_platform payload);
       lift_result (audit "compliance_run_created"
         ["workspace_id"; "actor_id"; "compliance_audit_id"; "final_artifact_id"]);;
       mret result).
Definition compliance_summary : SM Compliance.ComplianceSummary := route (Compliance.summary workspace_id).
Definition get_audits : SM (list (id * ComplianceAudit)) := route (Compliance.list_audits workspace_id).
Definition get_chief_audits : SM (list (id * ChiefAudit)) := route (Compliance.list_chief_audits workspace_id).
Definition get_human_review_packages : SM (list (id * HumanReviewPackage)) :=
route (Compliance.list_review_packages workspace_id).
Definition determine_publication_eligibility (final_artifact_id : id) (target_platform : string) :
  SM (id * ArtifactPublicationEligibility) :=
route (except [(compliance_not_found, 404)]
         (actor_id ← lift_result (user_uuid user);
          Compliance.publication_eligibility workspace_id actor_id final_artifact_id target_platform)).
End Routes.

(** ** Every request, by the type of its answer *)

Inductive department_get : Type → Type :=
| GetResearchRuns : department_get (list (id * ResearchRun))
| GetResearchRun (run_id : id) : department_get (id * ResearchRun)
| GetResearchSummary : department_get Research.ResearchSummary
| GetOpportunities : department_get (list (id * Opportunity))
| GetOpportunity (opportunity_id : id) : department_get OpportunityDetailOut
| GetSources (opportunity_id : id) : department_get (list (OpportunityEvidence * (id * ResearchSource)))
| GetResearchAudit (opportunity_id : id) : department_get (option ResearchAudit)
| GetStrategyRuns : department_get (list (id * StrategyRun))
| GetStrategyRun (run_id : id) : department_get (id * StrategyRun)
| GetStrategySummary : department_get Strategy.StrategySummary
| GetBriefs : department_get (list (id * StrategyBrief))
| GetBrief (brief_id : id) : department_get StrategyBriefDetailOut
| GetStrategyAudit (brief_id : id) : department_get (option StrategyAudit)
| GetContentRun (run_id : id) : department_get (id * ContentDepartmentRun)
| GetContentSummary : department_get ContentDepartment.ContentSummary
| GetPackages : department_get (list (id * ContentPackage))
| GetPackage (package_id : id) : department_get ContentDepartment.PackageDetail
| GetProducerGate (package_id : id) : department_get (bool * string)
| GetProductionSummary : department_get Production.ProductionSummary
| GetProductionRuns : department_get (list (id * ProductionJob))
| GetProductionRun (production_job_id : id) : department_get Production.JobDetail
| GetArtifact (artifact_id : id) : department_get FinalArtifact
| GetArtifactQa (artifact_id : id) : department_get (list (id * MediaQaResult))
| GetArtifactReadiness (artifact_id : id) : department_get (option (id * ProductionReadiness))
| GetComplianceSummary : department_get Compliance.ComplianceSummary
| GetAudits : department_get (list (id * ComplianceAudit))
| GetChiefAudits : department_get (list (id * ChiefAudit))
| GetReviewPackages : department_get (list (id * HumanReviewPackage)).

Inductive department_post : Type → Type :=
| PostResearchRun (payload : Research.ResearchRunCreate) : department_post (id * ResearchRun)
| PostResearchAudit (opportunity_id : id) : department_post (id * ResearchAudit)
| PostToStrategist (opportunity_id : id) : department_post unit
| PostStrategyRun (payload : Strategy.StrategyRunCreate) : department_post (id * StrategyRun)
| PostStrategyAudit (brief_id : id) : department_post (id * StrategyAudit)
| PostToWriter (brief_id : id) : department_post unit
| PostContentRun (payload : ContentDepartment.ContentDepartmentRunCreate) :
    department_post (id * ContentDepartmentRun)
| PostProductionRun (content_package_id : id) (payload : Production.ProductionLimits) :
    department_post (id * ProductionJob)
| PostCompliance (final_artifact_id : id) (target_platform : string) (payload : Compliance.ComplianceLimits) :
    department_post (id * ComplianceAudit)
| PostEligibility (final_artifact_id : id) (target_platform : string) :
    department_post (id * ArtifactPublicationEligibility).

Definition serve_get `{Unordered} {A} (ws : id) (user : AuthenticatedUser) (q : department_get A) : SM A :=
match q with
| GetResearchRuns => research_runs ws user
| GetResearchRun i => research_run_detail ws user i
| GetResearchSummary => research_summary ws user
| GetOpportunities => opportunities ws user
| GetOpportunity i => opportunity_detail ws user i
| GetSources i => opportunity_sources ws user i
| GetResearchAudit i => research_audit_detail ws user i
| GetStrategyRuns => strategy_runs ws user
| GetStrategyRun i => strategy_run_detail ws user i
| GetStrategySummary => strategy_summary ws user
| GetBriefs => briefs ws user
| GetBrief i => brief_detail ws user i
| GetStrategyAudit i => strategy_audit_detail ws user i
| GetContentRun i => content_run_detail ws user i
| GetContentSummary => department_summary ws user
| GetPackages => packages ws user
| GetPackage i => package_detail ws user i
| GetProducerGate i => producer_gate ws user i
| GetProductionSummary => production_summary ws user
| GetProductionRuns => production_runs ws user
| GetProductionRun i => production_run_detail ws user i
| GetArtifact i => artifact_detail ws user i
| GetArtifactQa i => artifact_qa ws user i
| GetArtifactReadiness i => artifact_readiness ws user i
| GetComplianceSummary => compliance_summary ws user
| GetAudits => get_audits ws user
| GetChiefAudits => get_chief_audits ws user
| GetReviewPackages => get_human_review_packages ws user
end.

Definition serve_post `{Unordered} {A} (ws : id) (user : AuthenticatedUser) (q : department_post A) : SM A :=
match q with
| PostResearchRun p => research_create_run ws user p
| PostResearchAudit i => run_research_audit ws user i
| PostToStrategist i => send_to_strategist ws user i
| PostStrategyRun p => strategy_create_run ws user p
| PostStrategyAudit i => run_strategy_audit ws user i
| PostToWriter i => send_to_writer ws user i
| PostContentRun p => content_create_run ws user p
| PostProductionRun i p => production_create_run ws user i p
| PostCompliance i t p => run_compliance ws user i t p
| PostEligibility i t => determine_publication_eligibility ws user i t
end.

(** ** The content desk (routes/content_jobs.py, routes/review_gates.py) *)

(** schemas/content_desk.py *)
Record ContentJobCreate : Type := mk_content_job_create {
  jc_topic : string;
  jc_script_hook : option string;
  jc_script_body : option string;
  jc_script_cta : option string;
  jc_target_length_seconds : option Z;
  jc_idempotency_key : option string
}.
Record ReviewGateEditIn : Type := mk_gate_edit {
  ge_script_hook : option string;
  ge_script_body : option string;
  ge_script_cta : option string;
  ge_expected_content_version_id : id
}.
Record ReviewDecisionIn : Type := mk_decision_in {
  di_approved : bool;
  di_notes : option string;
  di_expected_content_version_id : option id
}.

Definition ContentJobCreate_of (p : ContentJobCreate) : result exn ContentJobCreate :=
checked (length_within 1 500 (jc_topic p) && opt_within (length_within 0 2000) (jc_script_hook p) &&
  opt_within (length_within 0 50000) (jc_script_body p) && opt_within (length_within 0 2000) (jc_script_cta p) &&
  opt_within (within 1 3600) (jc_target_length_seconds p) &&
  opt_within (length_within 1 200) (jc_idempotency_key p)) p.

Definition is_given {A} (o : option A) : bool := match o with Some _ => true | None => false end.

(** with [_require_at_least_one_field] *)
Definition ReviewGateEditIn_of (p : ReviewGateEditIn) : result exn ReviewGateEditIn :=
checked (opt_within (length_within 0 2000) (ge_script_hook p) &&
  opt_within (length_within 0 50000) (ge_script_body p) && opt_within (length_within 0 2000) (ge_script_cta p) &&
  (is_given (ge_script_hook p) || is_given (ge_script_body p) || is_given (ge_script_cta p))) p.

(** with [_require_version_when_approving] *)
Definition ReviewDecisionIn_of (p : ReviewDecisionIn) : result exn ReviewDecisionIn :=
checked (opt_within (length_within 0 5000) (di_notes p) &&
  negb (di_approved p && negb (is_given (di_expected_content_version_id p)))) p.

Definition gate_statuses : list ReviewGateStatus :=
[GATE_AWAITING; GATE_APPROVED; GATE_REJECTED; GATE_TIMED_OUT; GATE_ESCALATED].
Definition _VALID_STATUSES : list string := map ReviewGateStatus_value gate_statuses.

(** the filter of the query, or what it must be one of *)
Definition gate_filter (status_filter : option string) : result exn (option ReviewGateStatus) :=
match status_filter with
| None => Ok None
| Some s =>
    if String.eqb s "all" then Ok None
    else match list_find (λ x, ReviewGateStatus_value x = s) gate_statuses with
         | Some (_, x) => Ok (Some x)
         | None => Raise (HTTPException 422 ("status must be one of: " +:+
                     join ", " (Research.sorted_strings _VALID_STATUSES) +:+ ", all"))
         end
end.

(** [except ... as exc: raise HTTPException(...) from exc], the clauses in order *)
Definition except_as {A} (clauses : list (exn → option exn)) (m : SM A) : SM A :=
catch m (λ e, raise (default e (head (omap (λ clause, clause e) clauses)))).

Definition on_ReviewGateNotFoundError (e : exn) : option exn :=
match e with ReviewGateNotFoundError => Some (_not_found "review gate not found") | _ => None end.
Definition on_ValueError (status_code : Z) (e : exn) : option exn :=
if is_ValueError e then Some (HTTPException status_code (exn_str e)) else None.
Definition on_ReviewGateDeliveryError (e : exn) : option exn :=
match e with
| ReviewGateDeliveryError => Some (HTTPException 503 "review decision could not be applied; retry safely")
| _ => None
end.
Definition on_BillingError (e : exn) : option exn :=
match e with BillingError _ message => Some (HTTPException 402 message) | _ => None end.
Definition on_IntegrityError (e : exn) : option exn :=
match e with
| IntegrityError _ => Some (HTTPException 409 "content job conflicts with an existing idempotency key")
| _ => None
end.
Definition on_SpendBudgetExceededError (e : exn) : option exn :=
match e with
| SpendBudgetExceededError =>
    Some (HTTPException 402 "workspace spend cap exceeded; pipeline run paused on spend_hold")
| _ => None
end.
(** [NotImplementedError] is a [RuntimeError] *)
Definition on_RuntimeError (e : exn) : option exn :=
match e with RuntimeError _ | NotImplementedError => Some (HTTPException 500 (exn_str e)) | _ => None end.

Section Desk.
Context `{Settings} (workspace_id : id) (user : AuthenticatedUser).

Definition list_review_gates_route (status_filter : option string) (limit : option Z) :
  SM (list ContentDesk.GateRow) :=
scoped (require_workspace_member workspace_id user;;
        limit ← lift_result (checked (opt_within (within 1 200) limit) limit);
        filter_value ← lift_result (gate_filter status_filter);
        on_world (ContentDesk.list_review_gates workspace_id filter_value (Z.to_nat <$> limit))).

Definition get_review_gate_route (gate_id : id) : SM ContentDesk.GateRow :=
scoped (require_workspace_member workspace_id user;;
        row ← on_world (ContentDesk.get_review_gate workspace_id gate_id);
        found "review gate not found" row).

Definition edit_review_gate_route (gate_id : id) (payload : ReviewGateEditIn) : SM ContentDesk.GateRow :=
scoped (require_workspace_content_author workspace_id user;;
        payload ← lift_result (ReviewGateEditIn_of payload);
        row ← except_as [on_ReviewGateNotFoundError; on_ValueError 409]
          (editor_id ← lift_result (user_uuid user);
           on_world (ContentDesk.edit_review_gate_content workspace_id gate_id editor_id
             (ge_expected_content_version_id payload) (ge_script_hook payload) (ge_script_body payload)
             (ge_script_cta payload)));
        lift_result (audit "review_gate_content_edited" ["workspace_id"; "review_gate_id"; "editor_id"]);;
        mret row).

Definition decide_review_gate_route (gate_id : id) (payload : ReviewDecisionIn) : SM ContentDesk.GateRow :=
scoped (require_workspace_reviewer workspace_id user;;
        payload ← lift_result (ReviewDecisionIn_of payload);
        row ← except_as [on_ReviewGateNotFoundError; on_ValueError 409; on_ReviewGateDeliveryError]
          (reviewer_id ← lift_result (user_uuid user);
           on_world (ContentDesk.decide_review_gate workspace_id gate_id reviewer_id (di_approved payload)
             (di_expected_content_version_id payload) (di_notes payload)));
        lift_result (audit "review_gate_decided" ["workspace_id"; "review_gate_id"; "approved"; "reviewer_id"]);;
        mret row).

(** the subscriptions, as the request finds them *)
Context (settings : Billing.BillingSettings) (billing : Billing.BillingDB).

Definition create_content_job_route (payload : ContentJobCreate) : SM ContentDesk.ContentJobResult :=
scoped (require_workspace_content_author workspace_id user;;
        payload ← lift_result (ContentJobCreate_of payload);
        result ← except_as [on_BillingError; on_IntegrityError; on_SpendBudgetExceededError;
                            on_ValueError 422; on_RuntimeError]
          (when (Billing.billing_enabled settings)
             (lift_result (Billing.require_entitlement_for_workspace settings workspace_id billing).1);;
           actor_id ← lift_result (user_uuid user);
           on_world (ContentDesk.create_content_job workspace_id actor_id (strip (jc_topic payload))
             (default EmptyString (jc_script_body payload)) (jc_script_hook payload) (jc_script_cta payload)
             (jc_target_length_seconds payload) (jc_idempotency_key payload)));
        lift_result (audit "content_job_created"
          ["workspace_id"; "content_item_id"; "pipeline_run_id"; "review_gate_id"]);;
        mret result).
End Desk.
