(* ===== verification/Portal.v ===== *)
(** * The application as one system

    The entry points of the departments (research, strategy, the content
    department, production, compliance) next to the operations of the engine
    they share a database with, and then those of accounts, limits, logins
    and the voice companion.  An operation is one transaction; a trace is a
    list of operations.  The rest of the application is modelled on states of
    its own: billing (Billing.v), export and deletion (DataGovernance.v), the
    leads of the dashboard (Dashboard.v) and the rate limiters (RateLimit.v). *)

From S2P Require Import Prelude Models Database Outbox Provenance Assignments Gates Workflow Spend Controller Recovery Scheduler Relay Workers ContentDesk Automation PyJson StudioModels System Accounts Limits LocalAuth LeonVoice.
From S2P Require Research Strategy ContentDepartment Production Compliance.

Inductive studio_op : Type :=
| EngineOp (o : op)
| ResearchRequest (ws actor : id) (payload : Research.ResearchRunCreate)
| ResearchFixture (ws actor : id) (objective : string) (sources : list pydict) (opportunity : pydict)
| AuditOpportunity (ws opportunity : id)
| StrategistGate (ws opportunity : id)
| StrategyRequest (ws actor : id) (payload : Strategy.StrategyRunCreate)
| BriefFixture (ws actor : id) (objective : string) (sources : list id) (brief : pydict)
| AuditBrief (ws brief : id)
| WriterGate (ws brief : id)
| ContentRequest (ws actor : id) (payload : ContentDepartment.ContentDepartmentRunCreate)
| PackageFixture (ws actor brief : id) (fixture : pydict) (prior : option id)
| AuditPackage (ws actor package : id) (auditor state : string) (findings : list json)
    (warnings blocked : list string) (evidence : list json)
| ProducerGate (ws package : id)
| ProductionRequest (ws actor package : id) (limits : Production.ProductionLimits)
| ArtifactFixture (ws actor job : id) (hash producer : string)
| MediaQaFixture (ws actor artifact : id) (auditor producer status : string)
| InvalidateArtifact (ws actor artifact : id) (reason : string)
| ComplianceRequest (ws actor artifact : id) (platform : string) (limits : Compliance.ComplianceLimits)
| CompliancePass (ws actor artifact : id) (worker : string)
| ChiefAuditFixture (ws actor artifact : id) (worker : string)
| InvalidateCompliance (ws actor audit : id) (reason : string)
| EligibilityRequest (ws actor artifact : id) (platform : string).

Definition studio_op_ok (o : studio_op) : Prop :=
  match o with EngineOp o => op_ok o | _ => True end.

Section Departments.
Context `{Settings} `{Unordered} (ip6 : string → option bool) (sha256 : string → string)
  (json_text : json → string) (environment : string).

Definition quietly {A} (m : SM A) : SM unit := savepoint m;; mret tt.

Definition run_studio_op (o : studio_op) : SM unit :=
  match o with
  | EngineOp o => on_world (run_op sha256 o)
  | ResearchRequest ws u p => quietly (Research.create_manual_run ws u p)
  | ResearchFixture ws u o l f =>
      quietly (Research.record_fixture_run ip6 sha256 json_text environment ws u o l f)
  | AuditOpportunity ws o => quietly (Research.audit_opportunity ws o)
  | StrategistGate ws o => quietly (Research.strategist_gate ws o)
  | StrategyRequest ws u p => quietly (Strategy.create_manual_run ws u p)
  | BriefFixture ws u o l f =>
      quietly (Strategy.record_fixture_brief sha256 json_text environment ws u o l f)
  | AuditBrief ws b => quietly (Strategy.audit_brief ws b)
  | WriterGate ws b => quietly (Strategy.writer_gate ws b)
  | ContentRequest ws u p => quietly (ContentDepartment.create_manual_run ws u p)
  | PackageFixture ws u b f p =>
      quietly (ContentDepartment.record_fixture_package sha256 json_text environment ws u b f p)
  | AuditPackage ws u p k st f w b e =>
      quietly (ContentDepartment.record_fixture_audit environment ws u p k st f w b e)
  | ProducerGate ws p => quietly (ContentDepartment.producer_gate ws p)
  | ProductionRequest ws u p l => quietly (Production.create_production_run ws u p l)
  | ArtifactFixture ws u j h w => quietly (Production.create_test_fixture_artifact ws u j h w)
  | MediaQaFixture ws u a q w st => quietly (Production.create_test_media_qa ws u a q w st)
  | InvalidateArtifact ws u a r => quietly (Production.invalidate_artifact ws u a r)
  | ComplianceRequest ws u a p l => quietly (Compliance.create_compliance_run ws u a p l)
  | CompliancePass ws u a w => quietly (Compliance.create_test_compliance_pass ws u a w)
  | ChiefAuditFixture ws u a w => quietly (Compliance.run_test_chief_audit ws u a w)
  | InvalidateCompliance ws u c r => quietly (Compliance.invalidate_compliance ws u c r)
  | EligibilityRequest ws u a p => quietly (Compliance.publication_eligibility ws u a p)
  end.

Definition studio_step (s : Studio) (o : studio_op) : Studio := (run_studio_op o s).2.
Definition studio_exec (ops : list studio_op) (s : Studio) : Studio := foldl studio_step s ops.

Lemma keeps_quietly (R : relation Studio) `{!PreOrder R} {A} (m : SM A) :
  keeps R m → keeps R (quietly m).
Proof. intros Hm. unfold quietly. apply keeps_bind; [done| |keeps_tac]. by apply keeps_savepoint. Qed.

(** An invariant of every operation holds along every trace. *)
Lemma studio_invariant (I : Studio → Prop) ops s :
  (∀ o, studio_op_ok o → keeps (preserved I) (run_studio_op o)) →
  Forall studio_op_ok ops → I s → I (studio_exec ops s).
Proof.
  intros Hk Hops. revert s. induction Hops as [|o ops Ho Hops IH]; intros s Hs; [done|].
  apply (IH (studio_step s o)). by apply (Hk o Ho).
Qed.
End Departments.

(** ** The supply of identifiers *)

Definition ids_grow : relation World := λ w w', (w_next w ≤ w_next w')%positive.
#[export] Instance ids_grow_preorder : PreOrder ids_grow.
Proof. unfold ids_grow. split; [intros w; lia|intros x y z; lia]. Qed.
Lemma ids_grow_uuid4 : keeps ids_grow uuid4.
Proof. intros w. unfold ids_grow. simpl. lia. Qed.
#[export] Instance engine_ids_grow : Engine ids_grow.
Proof. apply (engine_of_uuid4 ids_grow ids_grow_uuid4). Qed.
#[export] Instance emit_any_ids_grow : EmitAny ids_grow.
Proof. apply (emit_any_of_uuid4 ids_grow ids_grow_uuid4). Qed.

Lemma ids_grow_step `{Settings} sha256 o w : op_ok o → ids_grow w (step sha256 w o).
Proof. apply keeps_step; try apply _. intros d _ w'. unfold ids_grow. simpl. lia. Qed.

(** * Departments, engine, accounts and limits

    The routes of accounts, workspaces, limits and spend caps, local
    authentication and the voice companion, next to the departments and the
    engine.  A request to a route is served by its handler in a session of
    its own; an exception ends the request and is not the trace's.  The two
    handlers that change a membership read it before they lock anything:
    [LateRoleUpdate] and [LateRemoval] are the rest of such a request, with
    the row as it was read before other requests were served. *)

Inductive portal_op : Type :=
| DepartmentOp (o : studio_op)
| CreateWorkspace (user : AuthenticatedUser) (name : string)
| UpdateWorkspace (ws : id) (user : AuthenticatedUser) (name : option string) (tier : option Z)
| InviteMember (ws : id) (user : AuthenticatedUser) (member : id) (role : WorkspaceRole)
| UpdateMemberRole (ws : id) (user : AuthenticatedUser) (member : id) (role : WorkspaceRole)
| RemoveMember (ws : id) (user : AuthenticatedUser) (member : id)
| LateRoleUpdate (ws member : id) (role : WorkspaceRole) (target : id * WorkspaceMembership)
| LateRemoval (ws member : id) (target : id * WorkspaceMembership)
| GetMyProfile (user : AuthenticatedUser)
| SaveContentProfile (ws : id) (user : AuthenticatedUser) (payload : ContentProfileInput)
| PutConcurrency (ws : id) (user : AuthenticatedUser) (payload : ConcurrencyLimitsUpdate)
| UpdateSpend (ws : id) (user : AuthenticatedUser) (payload : SpendUpdateIn)
| UpsertProviderBudget (ws : id) (user : AuthenticatedUser) (provider : string) (n : Z)
| DeleteProviderBudget (ws : id) (user : AuthenticatedUser) (provider : string)
| Signup (email password : string) (full_name : option string) (salt : string)
| Login (email password : string)
| VoiceTurn (provider : call → upstream) (text audio : option string) (filename content_type : string)
    (history : list (string * string)).

Definition portal_op_ok (o : portal_op) : Prop :=
match o with
| DepartmentOp o => studio_op_ok o
| UpdateSpend _ _ payload => spend_update_ok payload
| _ => True
end.

Section Portal.
Context `{Settings} `{Unordered} `{VoiceSettings} (ip6 : string → option bool) (sha256 : string → string)
  (json_text : json → string) (environment : string)
  (pbkdf2 : string → string → Z → result exn string) (jwt_encode : json → string)
  (auth_mode audience : string).

Definition served {A} (m : SM A) : SM unit := m;; mret tt.

Definition run_portal_op (o : portal_op) : SM unit :=
match o with
| DepartmentOp o => run_studio_op ip6 sha256 json_text environment o
| CreateWorkspace u n => served (scoped (create_workspace u n))
| UpdateWorkspace ws u n p => served (scoped (update_workspace ws u n p))
| InviteMember ws u m r => served (scoped (invite_member ws u m r))
| UpdateMemberRole ws u m r => served (scoped (update_member_role ws u m r))
| RemoveMember ws u m => served (scoped (remove_member ws u m))
| LateRoleUpdate ws m r t => served (scoped (change_member_role ws m r t))
| LateRemoval ws m t => served (scoped (delete_member ws m t))
| GetMyProfile u => served (scoped (get_my_profile u))
| SaveContentProfile ws u p => served (scoped (save_content_profile ws u p))
| PutConcurrency ws u p => served (scoped (put_concurrency ws u p))
| UpdateSpend ws u p => served (scoped (update_spend ws u p))
| UpsertProviderBudget ws u p n => served (scoped (upsert_provider_budget ws u p n))
| DeleteProviderBudget ws u p => served (scoped (delete_provider_budget ws u p))
| Signup e p n s => served (signup_route pbkdf2 jwt_encode auth_mode audience e p n s)
| Login e p => served (login_route pbkdf2 jwt_encode auth_mode audience e p)
| VoiceTurn pr t a f c h => on_world (ignore (run_voice_turn pr t a f c h))
end.

Definition portal_step (s : Studio) (o : portal_op) : Studio := (run_portal_op o s).2.
Definition portal_exec (ops : list portal_op) (s : Studio) : Studio := foldl portal_step s ops.

Lemma keeps_served (R : relation Studio) `{!PreOrder R} {A} (m : SM A) : keeps R m → keeps R (served m).
Proof. intros Hm. unfold served. apply keeps_bind; [done|done|keeps_tac]. Qed.
Lemma keeps_scoped (R : relation Studio) `{!PreOrder R} {A} (m : SM A) :
  keeps R m → keeps R (served (scoped m)).
Proof. intros Hm. apply keeps_served; [done|]. unfold scoped. by apply keeps_savepoint. Qed.

Lemma portal_invariant (I : Studio → Prop) ops s :
  (∀ o, portal_op_ok o → keeps (preserved I) (run_portal_op o)) →
  Forall portal_op_ok ops → I s → I (portal_exec ops s).
Proof.
  intros Hk Hops. revert s. induction Hops as [|o ops Ho Hops IH]; intros s Hs; [done|].
  apply (IH (portal_step s o)). by apply (Hk o Ho).
Qed.
End Portal.

(** ** Relations on the tables next to the engine's *)

Definition both (Rw : relation World) (Rs : relation Studio) : relation Studio := λ s s',
Rw (st_world s) (st_world s') ∧ Rs s s'.
#[export] Instance both_preorder Rw Rs `{!PreOrder Rw, !PreOrder Rs} : PreOrder (both Rw Rs).
Proof. unfold both. split; [by split|]. intros x y z [H1 H2] [H3 H4]. split; by etrans. Qed.

Lemma both_on_world Rw Rs `{!PreOrder Rs, !Closed st_world Rs} {A} (m : M A) :
  keeps Rw m → keeps (both Rw Rs) (on_world m).
Proof.
  intros Hm s. specialize (Hm (st_world s)). unfold on_world. destruct (m (st_world s)) as [r w].
  split; [exact Hm|]. apply (closed (p := st_world) (R := Rs) s (λ _, w)).
Qed.
