(* ===== verification/Invariants.v ===== *)
(** * Invariants of the system

    What holds in every state a trace of the engine reaches: the numbering
    of the outbox and the load of the workers; and that a new run leaves the
    spend under its caps, which SpendSpec.v carries to every trace of the
    application.  Each is one relation shown to
    satisfy the engine's interfaces; [keeps_exec] does the rest. *)

From S2P Require Import Prelude Models Database Outbox Provenance Assignments Gates Workflow Spend SpendSafety Controller.
From S2P Require Import Recovery Relay Workers ContentDesk Automation System.

(** ** Spend caps *)

#[export] Instance capped_run_insert : RunInsert capped.
Proof.
  intros r _. apply keeps_capped. unfold insert_run.
  assert (Hk : keeps spend_le (i ← uuid4; insert_row w_runs i r;; mret i : M positive)).
  { intros w Hwf. split_and!; [|done|done|intros; done].
    pose proof Hwf as (Hr & Hl & Hru & Hn & Hn2 & Hw & Hc). simpl. split_and!; simpl; try done.
    - eapply below_weaken; [|done]. lia.
    - eapply below_weaken; [|done]. lia.
    - apply below_insert; [lia|]. eapply below_weaken; [|done]. lia.
    - intros i x run Hi Hrun. rewrite lookup_insert_ne; [by apply (Hw i)|].
      intros Heq. subst run. pose proof (Hw i x (w_next w) Hi Hrun) as Hex.
      by rewrite (below_fresh _ _ Hru) in Hex. }
  intros w. specialize (Hk w). revert Hk. rewrite !run_bind. simpl. done.
Qed.

(** ** Worker loads *)

Definition loads_ok (w : World) : Prop :=
  ∀ i wk, w_workers w !! i = Some wk → load_ok wk.

#[export] Instance loads_ok_rows : WorkerRows (preserved loads_ok).
Proof.
  split.
  - intros i g w Hg Hl j wk. simpl. rewrite lookup_alter. case_decide; [|apply Hl].
    subst. intros (x & Hx & ->)%fmap_Some. by apply Hg, (Hl j).
  - intros i wk Hwk w Hl j x. simpl. rewrite lookup_insert. case_decide; [naive_solver|apply Hl].
Qed.

(** ** Along every trace *)

Section Traces.
Context `{Settings} (sha256 : string → string).

(** some trace of well-formed operations leads from [w] to [w'] *)
Definition reaches (w w' : World) : Prop := ∃ ops, Forall op_ok ops ∧ w' = exec sha256 ops w.

(** C35: the events of every aggregate are numbered 1, 2, ..., n without a gap
    or a repetition along every trace. *)
Theorem outbox_sequences_dense w w' : reaches w w' → outbox_wf w → outbox_wf w'.
Proof.
  intros (ops & Hops & ->). refine (keeps_exec sha256 (preserved outbox_wf) _ ops w Hops).
  intros d _. keeps_tac.
Qed.

(** Along every trace the load of every worker stays between 0 and its
    concurrency. *)
Theorem worker_loads_bounded w w' : reaches w w' → loads_ok w → loads_ok w'.
Proof.
  intros (ops & Hops & ->). refine (keeps_exec sha256 (preserved loads_ok) _ ops w Hops).
  intros d _. keeps_tac.
Qed.
End Traces.

(** ** The demo deployment *)

Lemma demo_within_caps : within_caps demo.
Proof.
  split.
  - split_and!; simpl.
    1-2: by intros j; rewrite lookup_empty.
    + by intros j r [<- _]%lookup_singleton_Some.
    + intros i r. by rewrite lookup_empty.
    + intros i l. by rewrite lookup_empty.
    + intros i r run. by rewrite lookup_empty.
    + intros ws p c [[= <- <-] <-]%lookup_singleton_Some. done.
  - intros ws p cap [Hc _].
    change (w_caps demo) with ({[ (1%positive, None) := mk_cap None 500 10000 None None ]}
      : gmap (positive * option string) SpendCap) in Hc.
    apply lookup_singleton_Some in Hc as [[= <- <-] <-]. by vm_compute.
Qed.

Lemma demo_outbox_wf : outbox_wf demo.
Proof.
  split_and!; simpl.
  - by intros j; rewrite lookup_empty.
  - intros i e. by rewrite lookup_empty.
  - intros t a k [H1 H2]. unfold aggregate_count, tcount in H2.
    change (w_outbox demo) with (∅ : gmap positive OutboxEvent) in H2. rewrite tsum_empty in H2. lia.
  - intros i j e f. by rewrite lookup_empty.
Qed.

Lemma demo_loads_ok : loads_ok demo.
Proof.
  intros i wk Hi. change (w_workers demo) with ({[ 40%positive := demo_worker ]}
    : gmap positive WorkerRegistration) in Hi.
  apply lookup_singleton_Some in Hi as [<- <-]. unfold load_ok. simpl. lia.
Qed.

Lemma demo_ops_ok : Forall op_ok demo_ops.
Proof. unfold demo_ops. rewrite !Forall_cons, Forall_nil. simpl. by split_and!. Qed.

Lemma demo_reaches : reaches demo_hash demo demo_review.
Proof. by exists demo_ops; split; [exact demo_ops_ok|]. Qed.

Lemma outbox_sequences_dense_witness : outbox_wf demo ∧ outbox_wf demo_review.
Proof.
  split; [exact demo_outbox_wf|].
  exact (outbox_sequences_dense demo_hash demo demo_review demo_reaches demo_outbox_wf).
Defined.

Lemma worker_loads_bounded_witness : loads_ok demo ∧ loads_ok demo_review.
Proof.
  split; [exact demo_loads_ok|].
  exact (worker_loads_bounded demo_hash demo demo_review demo_reaches demo_loads_ok).
Defined.
