(* ===== verification/VoiceSpec.v ===== *)
(** * Leon's voice turn spends within its cap and settles what it reserved

    The abstract ledger has these steps: a reservation that fits the cap is
    made and released, or made and charged at most its amount, or made and
    left open.  Every voice turn refines a sequence of such steps, whatever
    the provider answers; none is left open as long as what the provider
    reports can be priced. *)

From S2P Require Import Prelude Models Database Outbox Text Spend SpendSafety Decimal PyJson.
From S2P Require Import LeonVoice.

(** ** The abstract ledger *)

Definition voice_reservation (w : World) (name : string) (e : usd) : SpendReservation :=
mk_reservation LEON_SYSTEM_WORKSPACE_ID None None name None e RESERVED (w_now w).

(** the amount fits the cap of the voice workspace *)
Definition voice_fits (w : World) (e : usd) : Prop :=
0 ≤ e ∧ ∃ cap, w_caps w !! (LEON_SYSTEM_WORKSPACE_ID, None) = Some cap ∧
  usage LEON_SYSTEM_WORKSPACE_ID None (utc_day_start (w_now w)) w + e ≤ cap_daily_cap_usd cap ∧
  usage LEON_SYSTEM_WORKSPACE_ID None (utc_month_start (w_now w)) w + e ≤ cap_monthly_cap_usd cap.

Definition released (w : World) (i : id) : World :=
w <| w_reservations ::= alter (close_rsv RELEASED) i |>.

Definition voice_log (name : string) (a : usd) (t : time) : SpendLog :=
mk_spend_log LEON_SYSTEM_WORKSPACE_ID None name None a t.

(** a reservation, released, charged, or, where [leaks] allows it, left open *)
Inductive ledger_step (leaks : Prop) (w : World) : World → Prop :=
| step_hold name e :
    leaks → voice_fits w e → ledger_step leaks w (with_reservation w (voice_reservation w name e))
| step_release name e :
    voice_fits w e → ledger_step leaks w (released (with_reservation w (voice_reservation w name e)) (w_next w))
| step_charge name e a :
    voice_fits w e → 0 ≤ a ≤ e →
    ledger_step leaks w (with_commit (with_reservation w (voice_reservation w name e)) (w_next w)
                     (voice_log name a (w_now w))).

(** ** The operations on the ledger *)

Lemma run_reserve name e w :
  reserve name e w = (Ok (w_next w), with_reservation w (voice_reservation w name e)) ∧ voice_fits w e ∨
  ∃ x, reserve name e w = (Raise x, w) ∧
    (is_Some (w_caps w !! (LEON_SYSTEM_WORKSPACE_ID, None)) → 0 ≤ e → ¬ voice_fits w e).
Proof.
  unfold reserve, savepoint, _load_cap_for_update, voice_fits. rewrite run_bind. simpl.
  destruct (w_caps w !! _) as [cap|] eqn:Hc.
  2: { right. eexists. split; [reflexivity|]. by intros [? [=]]. }
  rewrite run_bind. simpl. rewrite run_bind. simpl. rewrite run_bind. simpl.
  fold (usage LEON_SYSTEM_WORKSPACE_ID None (utc_day_start (w_now w)) w)
       (usage LEON_SYSTEM_WORKSPACE_ID None (utc_month_start (w_now w)) w).
  destruct (Z.ltb_spec (cap_daily_cap_usd cap)
    (usage LEON_SYSTEM_WORKSPACE_ID None (utc_day_start (w_now w)) w + e)).
  { right. eexists. split; [reflexivity|]. intros _ _ (_ & cap' & [= <-] & Hd & _). lia. }
  destruct (Z.ltb_spec (cap_monthly_cap_usd cap)
    (usage LEON_SYSTEM_WORKSPACE_ID None (utc_month_start (w_now w)) w + e)).
  { right. eexists. split; [reflexivity|]. intros _ _ (_ & cap' & [= <-] & _ & Hm). lia. }
  destruct (Z.ltb_spec e 0).
  { right. eexists. split; [reflexivity|]. lia. }
  left. split; [reflexivity|]. split; [done|]. by exists cap.
Qed.

Lemma run_reserve_or_fail name e w :
  _reserve_or_fail name e w = (Ok (w_next w), with_reservation w (voice_reservation w name e)) ∧
    voice_fits w e ∨
  ∃ x, _reserve_or_fail name e w = (Raise x, w).
Proof.
  unfold _reserve_or_fail, catch.
  destruct (run_reserve name e w) as [[-> Hf]|(x & -> & _)]; [by left|right].
  destruct x; by eexists.
Qed.

Section Open.
Context (leaks : Prop) (w : World) (name : string) (e : usd).
Let w1 : World := with_reservation w (voice_reservation w name e).

Lemma open_lookup : w_reservations w1 !! w_next w = Some (voice_reservation w name e).
Proof. simpl. by rewrite lookup_insert_eq. Qed.

Lemma run_voice_release : release (w_next w) w1 = (Ok tt, released w1 (w_next w)).
Proof.
  unfold release, savepoint, open_reservation. rewrite run_bind, run_bind.
  change (session_get w_reservations (w_next w) w1) with (Ok (w_reservations w1 !! w_next w) : result exn _, w1).
  by rewrite open_lookup.
Qed.

Lemma run_fail {A} detail stage :
  fail_call (A := A) (w_next w) detail stage w1 =
  (Raise (LeonVoiceError detail stage), released w1 (w_next w)).
Proof. unfold fail_call. by rewrite run_bind, run_voice_release. Qed.

Lemma run_commit a :
  commit (w_next w) a w1 =
  (Ok tt, with_commit w1 (w_next w) (voice_log name (Z.min (Z.max 0 a) e) (w_now w))).
Proof.
  unfold commit, savepoint, open_reservation. rewrite run_bind, run_bind.
  change (session_get w_reservations (w_next w) w1) with (Ok (w_reservations w1 !! w_next w) : result exn _, w1).
  rewrite open_lookup. simpl.
  replace (if e <? (if 0 <=? a then a else 0) then e else if 0 <=? a then a else 0)
    with (Z.min (Z.max 0 a) e); [reflexivity|].
  destruct (Z.leb_spec 0 a); [destruct (Z.ltb_spec e a)|destruct (Z.ltb_spec e 0)]; lia.
Qed.

(** the continuation of a call settles the reservation just made *)
Definition settles_call {A} (m : M A) : Prop :=
  leaks ∧ (m w1).2 = w1 ∨
  (m w1).2 = released w1 (w_next w) ∨
  ∃ a, (m w1).2 = with_commit w1 (w_next w) (voice_log name (Z.min (Z.max 0 a) e) (w_now w)).

Lemma settles_fail {A} detail stage : settles_call (A := A) (fail_call (w_next w) detail stage).
Proof. right. left. by rewrite run_fail. Qed.
Lemma settles_commit {A} a (x : A) : settles_call (commit (w_next w) a;; mret x).
Proof. right. right. exists a. by rewrite run_bind, run_commit. Qed.
Lemma settles_lift {A B} (r : result exn A) (k : A → M B) :
  leaks ∨ (∃ a, r = Ok a) → (∀ a, r = Ok a → settles_call (k a)) → settles_call (a ← lift_result r; k a).
Proof.
  intros [Hl|[a ->]] Hk; unfold settles_call; rewrite run_bind; [|by apply Hk].
  destruct r as [a|x]; [by apply Hk|by left].
Qed.
Lemma settles_or_release {A B} (r : result exn A) (k : A → M B) :
  (∀ x, r = Raise x → ∃ detail stage, x = LeonVoiceError detail stage) →
  (∀ a, r = Ok a → settles_call (k a)) → settles_call (a ← or_release (w_next w) r; k a).
Proof.
  destruct r as [a|x]; intros Hx Hk; unfold settles_call; rewrite run_bind.
  - by apply Hk.
  - destruct (Hx x eq_refl) as (d & st & ->). right. left. cbn [or_release]. by rewrite run_fail.
Qed.
End Open.

Lemma call_refines {B C} leaks name (est : result exn usd) (req : result exn C) (k : C → usd → id → M B) (w : World) :
  (∀ key e, req = Ok key → est = Ok e → settles_call leaks w name e (k key e (w_next w))) →
  let m := key ← lift_result req; e ← lift_result est; i ← _reserve_or_fail name e; k key e i in
  (m w).2 = w ∨ ledger_step leaks w (m w).2.
Proof.
  intros Hk m. subst m. destruct req as [key|]; [|by left].
  rewrite (run_bind_ok _ _ w key w) by done. destruct est as [e|]; [|by left].
  rewrite (run_bind_ok _ _ w e w) by done. rewrite run_bind.
  destruct (run_reserve_or_fail name e w) as [[-> Hf]|[x ->]]; [right|by left].
  destruct (Hk key e eq_refl eq_refl) as [[Hl ->] | [-> | [a ->]]].
  - by apply step_hold.
  - by apply step_release.
  - apply step_charge; [done|]. destruct Hf as [He _]. lia.
Qed.

(** ** Every call refines at most one step *)

(** the duration and the token counts the provider reports can be priced *)
Definition priceable `{VoiceSettings} (provider : call → upstream) : Prop :=
∀ c st kv content ct, provider c = Response st (Some (JObj kv)) content ct →
  (∃ a, stt_actual_cost_usd (dict_get kv "duration" JNull) = Ok a) ∧ (∃ a, reported_cost kv = Ok a).

Section Calls.
Context `{VoiceSettings} (provider : call → upstream) (leaks : Prop).
Context (Hp : leaks ∨ priceable provider).

Lemma transcribe_refines audio filename ct w :
  let w' := (transcribe_audio provider audio filename ct w).2 in w' = w ∨ ledger_step leaks w w'.
Proof using Hp.
  unfold transcribe_audio. apply call_refines. intros key e _ _.
  destruct (provider _) as [|st body content ct'] eqn:Hr; [apply settles_fail|].
  destruct (400 <=? st); [apply settles_fail|]. apply settles_or_release.
  { intros x. unfold _safe_json. repeat case_match; intros [= <-]; eauto. }
  intros kv Hkv. assert (body = Some (JObj kv)) as -> by (unfold _safe_json in Hkv; repeat case_match; congruence).
  destruct (as_str _) as [text|]; [|apply settles_fail]. cbv zeta.
  destruct (String.eqb _ _); [apply settles_fail|]. apply settles_lift; [destruct Hp as [|Hd]; [by left|right; by eapply Hd]|].
  intros a _. apply settles_commit.
Qed.

Lemma reply_refines text history w :
  let w' := (generate_reply provider text history w).2 in w' = w ∨ ledger_step leaks w w'.
Proof using Hp.
  unfold generate_reply. apply call_refines. intros key e _ _. cbv zeta.
  destruct (provider _) as [|st body content ct'] eqn:Hr; [apply settles_fail|].
  destruct (400 <=? st); [apply settles_fail|]. apply settles_or_release.
  { intros x. destruct body as [[]|]; simpl; try (intros [= <-]; eauto).
    unfold reply_of, unexpected_reply. repeat case_match; simpl; intros [= <-]; eauto. }
  intros answer Ha. assert (body = Some (JObj answer.1)) as ->.
  { destruct body as [[]|]; simpl in Ha; try discriminate. by destruct (reply_of _); simpl in Ha; [injection Ha as <-|]. }
  apply settles_lift; [destruct Hp as [|Hd]; [by left|right; by eapply Hd]|]. intros a _. apply settles_commit.
Qed.

Lemma speech_refines text w :
  let w' := (synthesize_speech provider text w).2 in w' = w ∨ ledger_step leaks w w'.
Proof using.
  unfold synthesize_speech. apply call_refines. intros key e _ _.
  destruct (provider _) as [|st body content ct'] eqn:Hr; [apply settles_fail|].
  repeat (case_match; [apply settles_fail|]). apply settles_commit.
Qed.

Lemma refines_bind {A B} (m : M A) (k : A → M B) w :
  rtc (ledger_step leaks) w (m w).2 → (∀ a w', rtc (ledger_step leaks) w' (k a w').2) →
  rtc (ledger_step leaks) w ((m ≫= k) w).2.
Proof using.
  intros Hm Hk. rewrite run_bind. destruct (m w) as [[a|x] w']; simpl in *; [|done].
  etrans; [exact Hm|apply Hk].
Qed.
Lemma refines_one {A} (m : M A) w : (m w).2 = w ∨ ledger_step leaks w (m w).2 → rtc (ledger_step leaks) w (m w).2.
Proof using. intros [->|Hs]; [done|]. by apply rtc_once. Qed.

Lemma turn_refines text audio filename ct history w :
  rtc (ledger_step leaks) w (run_voice_turn provider text audio filename ct history w).2.
Proof using Hp.
  unfold run_voice_turn. cbv zeta. apply refines_bind.
  { repeat case_match; try done. apply refines_one, transcribe_refines. }
  intros resolved w1. apply refines_bind; [apply refines_one, reply_refines|]. intros reply w2.
  apply refines_bind; [apply refines_one, speech_refines|]. intros. done.
Qed.
End Calls.

(** ** The ledger stays within the cap *)

(** no provider-specific cap for the voice workspace: its one cap governs *)
Definition one_cap (w : World) : Prop := ∀ q, w_caps w !! (LEON_SYSTEM_WORKSPACE_ID, Some q) = None.

Lemma spend_wf_voice w name e :
  spend_wf w → 0 ≤ e → spend_wf (with_reservation w (voice_reservation w name e)).
Proof.
  intros (Hr & Hl & Hru & Hn & Hn2 & Hw & Hc) He. split_and!; simpl; [| | | |done| |done].
  - apply below_insert; [lia|]. eapply below_weaken; [|done]. lia.
  - eapply below_weaken; [|done]. lia.
  - eapply below_weaken; [|done]. lia.
  - intros i x. rewrite lookup_insert. case_decide; [naive_solver|apply Hn].
  - intros i x run. rewrite lookup_insert. case_decide; [by intros [= <-]|apply Hw].
Qed.

Lemma capped_voice_reserve w name e :
  one_cap w → voice_fits w e → capped w (with_reservation w (voice_reservation w name e)).
Proof.
  intros Hone (He & cap & Hcap & Hd & Hm) Hwf. split_and!; [by apply spend_wf_voice|simpl; lia|done|].
  intros ws p cap' k [Hcap' Hgov]. unfold used. rewrite usage_reserve by done.
  change (w_now (with_reservation w _)) with (w_now w). unfold reservation_counts, voice_reservation.
  cbn [rsv_workspace_id rsv_status rsv_provider rsv_estimated_cost_usd].
  destruct (bool_decide_reflect (LEON_SYSTEM_WORKSPACE_ID = ws)) as [<-|]; [|simpl; lia].
  destruct p as [q|]; [by rewrite Hone in Hcap'|]. rewrite Hcap in Hcap'. injection Hcap' as ->.
  destruct k; simpl; lia.
Qed.

Lemma capped_ledger_step leaks w w' :
  ledger_step leaks w w' → one_cap w → capped w w' ∧ one_cap w'.
Proof.
  intros Hs Hone. destruct Hs as [name e _ Hf|name e Hf|name e a Hf Ha]; (split; [|exact Hone]);
    pose proof (capped_voice_reserve w name e Hone Hf) as Hr; [exact Hr| |]; (etrans; [exact Hr|]);
    apply capped_of_le.
  - apply (spend_le_close (w_next w) RELEASED ltac:(done)).
  - eapply (spend_le_commit _ (w_next w) (voice_reservation w name e));
      [apply open_lookup|done|done|done|exact Ha].
Qed.

Lemma capped_turn `{VoiceSettings} provider text audio filename ct history w :
  one_cap w → capped w (run_voice_turn provider text audio filename ct history w).2.
Proof.
  pose proof (turn_refines provider True (or_introl I) text audio filename ct history w) as Hr.
  induction Hr as [|x y z Hxy _ IH]; [done|]. intros Hone.
  destruct (capped_ledger_step _ _ _ Hxy Hone) as [Hc Hone']. etrans; [exact Hc|by apply IH].
Qed.

Lemma settled_ledger_step w w' :
  ledger_step False w w' → below (w_next w) (w_reservations w) →
  below (w_next w') (w_reservations w') ∧
  ∀ i r, w_reservations w' !! i = Some r → rsv_status r = RESERVED → w_reservations w !! i = Some r.
Proof.
  intros Hs Hb. pose proof (below_fresh _ _ Hb) as Hfresh.
  assert (Hb' : ∀ r, below (Pos.succ (w_next w)) (<[w_next w := r]> (w_reservations w))).
  { intros r. apply below_insert; [lia|]. eapply below_weaken; [|done]. lia. }
  destruct Hs as [? ? []|name e Hf|name e a Hf Ha]; simpl; (split;
    [try (eapply below_weaken; [|apply below_alter, Hb']; lia)|]).
  all: intros i r; rewrite lookup_alter; case_decide as Hi;
    [subst i; rewrite lookup_insert_eq; by intros [= <-]|by rewrite lookup_insert_ne].
Qed.

(** C9: a voice turn is paid for within the cap: whatever the provider
    answers, and wherever the turn stops, the committed spend and the open
    reservations of every workspace stay within the caps that govern it. *)
Theorem voice_turn_within_caps `{VoiceSettings} provider text audio filename ct history w :
  within_caps w → one_cap w →
  within_caps (run_voice_turn provider text audio filename ct history w).2.
Proof.
  intros Hw Hone. by apply (capped_within w); [apply capped_turn|].
Qed.

(** C10: a voice turn settles what it reserved: however it ends, every
    reservation that is open after it was open before it, as long as the
    duration and the token counts the provider reports can be priced. *)
Theorem voice_turn_settles `{VoiceSettings} provider text audio filename ct history w i r :
  priceable provider → below (w_next w) (w_reservations w) →
  let w' := (run_voice_turn provider text audio filename ct history w).2 in
  w_reservations w' !! i = Some r → rsv_status r = RESERVED → w_reservations w !! i = Some r.
Proof.
  intros Hp Hb. pose proof (turn_refines provider False (or_intror Hp) text audio filename ct history w) as Hr.
  cbv zeta. revert Hb. induction Hr as [|x y z Hxy _ IH]; [done|]. intros Hb Hi Ho.
  destruct (settled_ledger_step x y Hxy Hb) as [Hb' Hs]. apply Hs; auto.
Qed.

(** ** Witnesses *)

Definition voice_demo_settings : VoiceSettings := default_voice_settings (Some "sk-demo").
(** a provider that hears a word, answers it and speaks *)
Definition voice_demo_provider (c : call) : upstream :=
match c with
| Transcribe _ _ _ _ => Response 200 (Some (JObj [("text", JStr "hi"); ("duration", JNum 31 1)])) "" ""
| Complete _ _ _ _ =>
    Response 200 (Some (JObj
      [("choices", JList [JObj [("message", JObj [("content", JStr "Yo fam")])]]);
       ("usage", JObj [("prompt_tokens", JNum 400 0); ("completion_tokens", JNum 20 0)])])) "" ""
| Speak _ _ _ => Response 200 None "mp3" "audio/mpeg"
end.
Definition voice_demo_world : World :=
(empty_world 0) <| w_caps := {[ (LEON_SYSTEM_WORKSPACE_ID, None) := mk_cap None 20000 200000 None None ]} |>.
Definition voice_demo_turn : result exn voice_answer * World :=
run_voice_turn (H := voice_demo_settings) voice_demo_provider None (Some "RIFF") "a.wav" "audio/wav" []
  voice_demo_world.


Lemma voice_demo_priceable : priceable (H := voice_demo_settings) voice_demo_provider.
Proof.
  intros c st kv content ct. destruct c; simpl; try discriminate; intros [= <- <- <- <-];
    (split; eexists; vm_compute; reflexivity).
Qed.

Lemma voice_demo_within : within_caps voice_demo_world.
Proof.
  split.
  - split_and!; simpl.
    1-3: by intros j x; rewrite lookup_empty.
    + intros i r. by rewrite lookup_empty.
    + intros i l. by rewrite lookup_empty.
    + intros i r run. by rewrite lookup_empty.
    + by intros ws p c [[= <- <-] <-]%lookup_singleton_Some.
  - intros ws p cap [Hc _].
    change (w_caps voice_demo_world) with ({[ (LEON_SYSTEM_WORKSPACE_ID, None) := mk_cap None 20000 200000 None None ]}
      : gmap (positive * option string) SpendCap) in Hc.
    apply lookup_singleton_Some in Hc as [[= <- <-] <-]. by vm_compute.
Qed.

Lemma voice_demo_one_cap : one_cap voice_demo_world.
Proof. intros q. by apply lookup_singleton_ne. Qed.

Lemma voice_turn_within_caps_witness : within_caps voice_demo_world ∧ within_caps voice_demo_turn.2.
Proof.
  split; [exact voice_demo_within|].
  exact (voice_turn_within_caps (H := voice_demo_settings) voice_demo_provider None (Some "RIFF") "a.wav"
    "audio/wav" [] voice_demo_world voice_demo_within voice_demo_one_cap).
Defined.

Lemma voice_turn_settles_witness :
  size (w_reservations voice_demo_turn.2) = 3%nat ∧
  ∀ i r, w_reservations voice_demo_turn.2 !! i = Some r → rsv_status r = RESERVED →
    w_reservations voice_demo_world !! i = Some r.
Proof.
  split; [by vm_compute|]. intros i r.
  exact (voice_turn_settles (H := voice_demo_settings) voice_demo_provider None (Some "RIFF") "a.wav"
    "audio/wav" [] voice_demo_world i r voice_demo_priceable (below_empty _)).
Defined.

(** ** What cannot be priced *)

(** a transcript whose duration is [true], an [int] to [isinstance] *)
Definition odd_provider (c : call) : upstream :=
match c with
| Transcribe _ _ _ _ => Response 200 (Some (JObj [("text", JStr "hi"); ("duration", JBool true)])) "" ""
| c => voice_demo_provider c
end.
Definition odd_turn : result exn voice_answer * World :=
run_voice_turn (H := voice_demo_settings) odd_provider None (Some "RIFF") "a.wav" "audio/wav" []
  voice_demo_world.

(** A duration that cannot be priced leaks its reservation: the turn
    ends in an exception that is neither released nor committed, and the
    reservation counts against the cap from then on. *)
Theorem unpriced_duration_leaks :
  odd_turn.1 = Raise InvalidOperation ∧
  ∃ r, w_reservations odd_turn.2 !! 1%positive = Some r ∧ rsv_status r = RESERVED ∧
    rsv_estimated_cost_usd r = 720.
Proof.
  split; [by vm_compute|].
  destruct (w_reservations odd_turn.2 !! 1%positive) as [r|] eqn:Hr; [|by vm_compute in Hr].
  exists r. revert Hr. vm_compute. intros [= <-]. done.
Qed.
