(* ===== verification/SpendSpec.v ===== *)
(** * What the spend operations do

    [reserve_spend] first releases the open reservations of the stage, then
    admits the amount exactly when a cap covers the provider and has room for
    it; [commit_spend] charges at most the reserved amount, once.  The last
    part follows the caps along every trace of Portal.v: what the engine, the
    departments and the voice companion do keeps [capped] (SpendSafety.v),
    what an administrator sets is [recaps]. *)

From S2P Require Import Prelude Models Database Outbox Provenance Assignments Gates Workflow Spend SpendSafety System.
From S2P Require Import Controller Recovery Scheduler Relay Workers ContentDesk Automation PyJson StudioModels Accounts Limits LocalAuth LeonVoice Portal Invariants VoiceSpec.
From S2P Require Research Strategy Url.

(** ** Definitions *)

(** what the admission of a reservation depends on, but for reservations *)
Definition ledger (w : World) : Z * gmap (positive * option string) SpendCap
    * gmap positive SpendLog * gmap positive PipelineRun :=
  (w_now w, w_caps w, w_spend_logs w, run_cores w).

(** Usage but for the open reservations of a stage of a run. *)
Definition usage_besides (run : positive) (stage : ContentStage) (ws : positive)
    (p : option string) (s : time) (w : World) : usd :=
  tsum (log_counts ws p (Some s)) (w_spend_logs w)
  + tsum (λ i r, if open_for_stage run stage i r then 0 else reservation_counts ws p i r)
      (w_reservations w).

(** A cap covers the provider and has room for [e]. *)
Definition admitted (w : World) (r : PipelineRun) (run : positive) (stage : ContentStage)
    (provider : string) (e : usd) : Prop :=
  ∃ cap, loaded_cap w (run_workspace_id r) provider = Some cap ∧
    usage_besides run stage (run_workspace_id r) (cap_scope cap provider)
      (utc_day_start (w_now w)) w + e ≤ cap_daily_cap_usd cap ∧
    usage_besides run stage (run_workspace_id r) (cap_scope cap provider)
      (utc_month_start (w_now w)) w + e ≤ cap_monthly_cap_usd cap.

(** ** Lemmas *)

#[export] Instance run_meta_ledger : RunMeta (frame ledger).
Proof.
  intros run g Hg w. pose proof (run_meta (R := frame run_cores) run g Hg w) as Hf.
  unfold frame, ledger in *. by rewrite Hf.
Qed.

Lemma emit_returns ty ws aggt agg corr tr sp pl by_ ca v w :
  returns (emit ty ws aggt agg corr tr sp pl by_ ca v) w.
Proof. eexists _, _. reflexivity. Qed.

Lemma child_span_returns t w : returns (child_span t) w.
Proof. destruct t; eexists _, _; reflexivity. Qed.

Lemma next_span_returns run r w : w_runs w !! run = Some r → returns (next_span run) w.
Proof.
  intros Hr. unfold next_span. apply returns_bind; [eexists _, _; by rewrite run_the, Hr|].
  intros r' w' _. destruct (run_trace_id r'); eexists _, _; reflexivity.
Qed.

Lemma emit_for_run_returns run r ty sp pl w :
  w_runs w !! run = Some r → returns (emit_for_run run ty sp pl) w.
Proof.
  intros Hr. unfold emit_for_run. apply returns_bind; [eexists _, _; by rewrite run_the, Hr|].
  intros r' w' _. apply returns_bind.
  - unfold run_correlation, or_uuid4. destruct (run_correlation_id r'); eexists _, _; reflexivity.
  - intros c w'' _. apply returns_bind; [apply emit_returns|]. by intros; eexists _, _.
Qed.

(** the notification that closes every spend operation *)
Lemma notify_returns run r ty pl w :
  w_runs w !! run = Some r →
  returns (span ← next_span run; emit_for_run run ty span pl) w.
Proof.
  intros Hr. apply returns_bind; [by eapply next_span_returns|]. intros sp w' Hs.
  assert (Hf : frame run_cores w w').
  { apply (keeps_run (frame run_cores) _ _ _ _ (keeps_next_span _ run) Hs). }
  destruct (run_cores_lookup _ _ _ _ Hf Hr) as (r' & Hr' & _). by eapply emit_for_run_returns.
Qed.

(** The frame of the relations a spend operation's notification keeps. *)
Lemma keeps_notify R `{!Engine R, !EmitAny R, !RunMeta R} run ty pl :
  keeps R (span ← next_span run; emit_for_run run ty span pl).
Proof. keeps_tac. Qed.

Lemma run_release run i r pr w :
  w_reservations w !! i = Some r → rsv_status r = RESERVED → w_runs w !! run = Some pr →
  ∃ w', release_spend run i w = (Ok tt, w') ∧ frame ledger w w' ∧
    w_reservations w' = alter (close_rsv RELEASED) i (w_reservations w).
Proof.
  intros Hi Hs Hr. unfold release_spend. rewrite run_bind, run_the, Hi.
  rewrite decide_True by done. erewrite run_bind_ok by reflexivity.
  set (w1 := over w_reservations _ w).
  match goal with |- ∃ w', ?m w1 = _ ∧ _ =>
    assert (Hret : returns m w1) by (by eapply notify_returns);
    assert (Hl : keeps (frame ledger) m) by (apply keeps_notify; apply _);
    assert (Hres : keeps (frame w_reservations) m) by (apply keeps_notify; apply _);
    specialize (Hl w1); specialize (Hres w1);
    apply returns_ok in Hret as ([] & Hret); exists (m w1).2; split; [exact Hret|split; [exact Hl|]]
  end.
  exact Hres.
Qed.

Lemma run_release_each run l pr w :
  NoDup l.*1 → (∀ i r, (i, r) ∈ l → w_reservations w !! i = Some r ∧ rsv_status r = RESERVED) →
  w_runs w !! run = Some pr →
  ∃ w', for_each l (λ p : positive * SpendReservation, release_spend run p.1) w = (Ok tt, w') ∧
    frame ledger w w' ∧ w_reservations w' = alter_each (close_rsv RELEASED) l.*1 (w_reservations w).
Proof.
  revert w pr. induction l as [|[i r] l IH]; intros w pr Hnd Hopen Hpr.
  { exists w. done. }
  apply NoDup_cons in Hnd as [Hni Hnd].
  destruct (Hopen i r) as [Hi Hs]; [by left|].
  destruct (run_release run i r pr w Hi Hs Hpr) as (w1 & Hrun & Hl1 & Hr1).
  destruct (run_cores_lookup w w1 run pr) as (pr1 & Hpr1 & _); [|done|].
  { unfold frame, ledger in *. congruence. }
  destruct (IH w1 pr1) as (w2 & Hrun2 & Hl2 & Hr2); [done| |done|].
  { intros j x Hj. destruct (Hopen j x) as [Hx Hsx]; [by right|]. split; [|done].
    rewrite Hr1, lookup_alter_ne; [done|]. intros ->. apply Hni.
    apply list_elem_of_fmap. by exists (j, x). }
  exists w2. split_and!.
  - simpl. by rewrite (run_bind_ok _ _ _ _ _ Hrun).
  - etrans; [exact Hl1|exact Hl2].
  - by rewrite Hr2, Hr1.
Qed.

(** If the query selects open reservations only, none is left. *)
Lemma released_none P (m : gmap positive SpendReservation) i x :
  (∀ j r, P j r = true → rsv_status r = RESERVED) →
  alter_each (close_rsv RELEASED) (rows P m).*1 m !! i = Some x → P i x = false.
Proof.
  intros HP. rewrite alter_rows_lookup. intros (y & _ & ->)%fmap_Some.
  destruct (P i y) eqn:Ho; [|done].
  destruct (P i (close_rsv RELEASED y)) eqn:Hc; [|done]. by apply HP in Hc.
Qed.

Lemma open_for_stage_reserved run stage i r :
  open_for_stage run stage i r = true → rsv_status r = RESERVED.
Proof. by intros (_ & _ & ?)%bool_decide_eq_true. Qed.
Lemma open_for_run_reserved run i r : open_for_run run i r = true → rsv_status r = RESERVED.
Proof. by intros [_ ?]%bool_decide_eq_true. Qed.

(** Releasing the open reservations a query selects. *)
Lemma run_release_rows P run pr w :
  (∀ j r, P j r = true → rsv_status r = RESERVED) → w_runs w !! run = Some pr →
  ∃ w', for_each (rows P (w_reservations w))
          (λ p : positive * SpendReservation, release_spend run p.1) w = (Ok tt, w') ∧
    frame ledger w w' ∧
    w_reservations w' = alter_each (close_rsv RELEASED) (rows P (w_reservations w)).*1 (w_reservations w).
Proof.
  intros HP Hpr. apply (run_release_each run _ pr); [apply NoDup_rows_fst| |done].
  intros i r [Hi Ho]%elem_of_rows. split; [done|]. by apply (HP i).
Qed.

Lemma tsum_fmap_key {A} (f : positive → A → Z) (g : positive → A → A) (m m' : gmap positive A) :
  (∀ i, m' !! i = g i <$> m !! i) → tsum f m' = tsum (λ i x, f i (g i x)) m.
Proof.
  intros Hm. assert (m' = map_imap (λ i x, Some (g i x)) m) as ->.
  { apply map_eq. intros i. rewrite Hm, map_lookup_imap. by destruct (m !! i). }
  clear Hm. induction m as [|i x m Hi IH] using map_ind.
  { by rewrite map_imap_empty, !tsum_empty. }
  rewrite (map_imap_insert_Some _ i x m (g i x)) by done.
  rewrite tsum_insert_None by (by rewrite map_lookup_imap, Hi).
  rewrite tsum_insert_None by done. by rewrite IH.
Qed.

Lemma usage_released run stage ws p s w w' :
  frame ledger w w' →
  w_reservations w' = alter_each (close_rsv RELEASED) (rows (open_for_stage run stage) (w_reservations w)).*1
                        (w_reservations w) →
  usage ws p s w' = usage_besides run stage ws p s w.
Proof.
  intros Hl Hr. unfold frame, ledger in Hl. injection Hl as _ _ Hlog _.
  unfold usage, usage_besides. rewrite Hlog. f_equal.
  rewrite (tsum_fmap_key _ (λ i r, if open_for_stage run stage i r then close_rsv RELEASED r else r)
             (w_reservations w)).
  - apply tsum_ext. intros i r _. destruct (open_for_stage run stage i r); [|done].
    by apply reservation_counts_closed.
  - intros i. by rewrite Hr, alter_rows_lookup.
Qed.

Lemma admitted_loaded w w1 r r1 run stage provider e :
  frame ledger w w1 → run_core r1 = run_core r →
  w_reservations w1 = alter_each (close_rsv RELEASED) (rows (open_for_stage run stage) (w_reservations w)).*1
                        (w_reservations w) →
  (∃ cap, loaded_cap w1 (run_workspace_id r1) provider = Some cap ∧
          fits w1 (run_workspace_id r1) provider e cap) ↔ admitted w r run stage provider e.
Proof.
  intros Hl Hcore Hr. pose proof (usage_released run stage) as Hu.
  assert (run_workspace_id r1 = run_workspace_id r) as ->.
  { change (run_workspace_id (run_core r1) = run_workspace_id (run_core r)). by rewrite Hcore. }
  unfold admitted, fits, loaded_cap.
  pose proof Hl as Hl'. unfold frame, ledger in Hl'. injection Hl' as Hn Hc _ _. rewrite Hn, Hc.
  by setoid_rewrite (λ ws p s, Hu ws p s w w1 Hl Hr).
Qed.

Lemma pin_correlation_returns run r w : w_runs w !! run = Some r → returns (pin_correlation run) w.
Proof.
  intros Hr. unfold pin_correlation. apply returns_bind; [eexists _, _; by rewrite run_the, Hr|].
  intros r' w' _. destruct (run_correlation_id r'); eexists _, _; reflexivity.
Qed.

(** pinning the correlation and notifying, on a state with the run *)
Lemma pin_notify_returns {A} run r ty pl (a : A) w :
  w_runs w !! run = Some r →
  returns (pin_correlation run;; span ← next_span run; emit_for_run run ty span pl;; mret a) w.
Proof.
  intros Hr. apply returns_bind; [by eapply pin_correlation_returns|]. intros [] w1 H1.
  assert (Hf : frame run_cores w w1).
  { apply (keeps_run (frame run_cores) _ _ _ _ (keeps_pin_correlation _ run) H1). }
  destruct (run_cores_lookup _ _ _ _ Hf Hr) as (r1 & Hr1 & _).
  destruct (notify_returns run r1 ty pl w1 Hr1) as ([] & w2 & H2).
  apply bind_ok_inv in H2 as (sp & w3 & H3 & H4).
  exists a, w2. rewrite (run_bind_ok _ _ _ _ _ H3). by rewrite (run_bind_ok _ _ _ _ _ H4).
Qed.

(** What pinning and notifying leaves alone. *)
Lemma pin_notify_run {A} run r ty pl (a : A) w :
  w_runs w !! run = Some r →
  ∃ w', (pin_correlation run;; span ← next_span run; emit_for_run run ty span pl;; mret a) w
        = (Ok a, w') ∧ w_reservations w' = w_reservations w ∧ frame ledger w w'.
Proof.
  intros Hr. destruct (pin_notify_returns run r ty pl a w Hr) as (a' & w' & Hrun).
  exists w'. split_and!.
  - rewrite Hrun. do 3 (apply bind_ok_inv in Hrun as (? & ? & _ & Hrun)). by injection Hrun as <- _.
  - refine (keeps_run (frame w_reservations) _ _ _ _ _ Hrun). keeps_tac.
  - refine (keeps_run (frame ledger) _ _ _ _ _ Hrun). keeps_tac.
Qed.

(** the end of a refusal: the run paused, nothing else *)
Lemma run_refuse_spend run r1 pl w1 :
  w_runs w1 !! run = Some r1 →
  ∃ w3 r3,
    (modify w_runs run (λ r, r <| run_status := RUN_PAUSED |>
                               <| run_pause_reason := Some PAUSE_SPEND_HOLD |>);;
     pin_correlation run;; span ← next_span run;
     emit_for_run run "spend.budget_exceeded" span pl;; mret (@None positive)) w1 = (Ok None, w3) ∧
    w_reservations w3 = w_reservations w1 ∧ w_runs w3 !! run = Some r3 ∧
    run_status r3 = RUN_PAUSED ∧ run_pause_reason r3 = Some PAUSE_SPEND_HOLD.
Proof.
  intros Hr1. erewrite run_bind_ok by reflexivity. set (w2 := over w_runs _ w1).
  assert (Hr2 : w_runs w2 !! run = Some (r1 <| run_status := RUN_PAUSED |>
            <| run_pause_reason := Some PAUSE_SPEND_HOLD |>)).
  { simpl. by rewrite lookup_alter_eq, Hr1. }
  destruct (pin_notify_run run _ "spend.budget_exceeded" pl (@None positive) w2 Hr2)
    as (w3 & Hrun & Hr3 & Hl3).
  destruct (run_cores_lookup w2 w3 run _ ltac:(unfold frame, ledger in *; congruence) Hr2)
    as (r3 & Hrun3 & Hcore3).
  exists w3, r3. split_and!; [exact Hrun|by rewrite Hr3|done| |].
  - change (run_status (run_core r3) = RUN_PAUSED). by rewrite Hcore3.
  - change (run_pause_reason (run_core r3) = Some PAUSE_SPEND_HOLD). by rewrite Hcore3.
Qed.

(** the end of an admission: one more reservation *)
Lemma run_grant_spend run stage provider e r1 w1 :
  w_runs w1 !! run = Some r1 →
  ∃ w3 r3,
    (r ← the w_runs run;
     reservation ← uuid4;
     t ← now;
     insert_row w_reservations reservation
       (mk_reservation (run_workspace_id r) (Some run) None provider (Some stage) e RESERVED t);;
     flush;;
     pin_correlation run;; span ← next_span run;
     emit_for_run run "spend.reserved" span
       (JObj [("reservation_id", JStr (uuid_str reservation)); ("estimated_usd", usd_json e)]);;
     mret (Some reservation)) w1 = (Ok (Some (w_next w1)), w3) ∧
    w_reservations w3 = <[w_next w1 := new_reservation w1 r1 run stage provider e]>
                          (w_reservations w1) ∧
    w_runs w3 !! run = Some r3 ∧ run_status r3 = run_status r1.
Proof.
  intros Hr1. erewrite run_bind_ok; [|by rewrite run_the, Hr1].
  do 4 (erewrite run_bind_ok by reflexivity). set (w2 := over w_gates_db _ _).
  assert (Hr2 : w_runs w2 !! run = Some r1) by done.
  destruct (pin_notify_run run _ "spend.reserved"
    (JObj [("reservation_id", JStr (uuid_str (w_next w1))); ("estimated_usd", usd_json e)])
    (Some (w_next w1)) w2 Hr2) as (w3 & Hrun & Hr3 & Hl3).
  destruct (run_cores_lookup w2 w3 run r1 ltac:(unfold frame, ledger in *; congruence) Hr2)
    as (r3 & Hrun3 & Hcore3).
  exists w3, r3. split_and!; [exact Hrun|by rewrite Hr3|done|].
  change (run_status (run_core r3) = run_status (run_core r1)). by rewrite Hcore3.
Qed.

Lemma run_reserve_spend run stage provider e w r :
  w_runs w !! run = Some r →
  ∃ o w' r', reserve_spend run stage provider e w = (Ok o, w') ∧
    w_runs w' !! run = Some r' ∧
    (is_Some o ↔ admitted w r run stage provider e) ∧
    (∀ i x, w_reservations w' !! i = Some x → open_for_stage run stage i x = true → o = Some i) ∧
    match o with
    | Some rsv =>
        w_reservations w' !! rsv
        = Some (mk_reservation (run_workspace_id r) (Some run) None provider (Some stage) e
                  RESERVED (w_now w)) ∧
        run_status r' = run_status r
    | None => run_status r' = RUN_PAUSED ∧ run_pause_reason r' = Some PAUSE_SPEND_HOLD
    end.
Proof.
  intros Hr. unfold reserve_spend. erewrite run_bind_ok by reflexivity.
  destruct (run_release_rows (open_for_stage run stage) run r w)
    as (w1 & Hrel & Hl1 & Hr1); [apply open_for_stage_reserved|done|].
  rewrite (run_bind_ok _ _ _ _ _ Hrel).
  destruct (run_cores_lookup w w1 run r) as (r1 & Hrun1 & Hcore1); [|done|].
  { unfold frame, ledger in *. congruence. }
  destruct (run_spend_check run provider e w1 r1 Hrun1) as (exceeded & extra & Hcheck & Hex).
  rewrite (run_bind_ok _ _ _ _ _ Hcheck). cbv beta iota.
  rewrite (admitted_loaded w w1 r r1 run stage provider e Hl1 Hcore1 Hr1) in Hex.
  assert (Hopen1 : ∀ i x, w_reservations w1 !! i = Some x → open_for_stage run stage i x = false).
  { rewrite Hr1. intros i x. apply released_none, open_for_stage_reserved. }
  assert (Hws : run_workspace_id r1 = run_workspace_id r).
  { change (run_workspace_id (run_core r1) = run_workspace_id (run_core r)). by rewrite Hcore1. }
  assert (Hst : run_status r1 = run_status r).
  { change (run_status (run_core r1) = run_status (run_core r)). by rewrite Hcore1. }
  destruct exceeded as [kind|].
  - match goal with |- context [JObj ?kv] =>
      destruct (run_refuse_spend run r1 (JObj kv) w1 Hrun1) as (w3 & r3 & Hrun & Hr3 & Hrun3 & Hs) end.
    exists None, w3, r3. split_and!; [exact Hrun|done| | |apply Hs..].
    + split; [by intros []|]. intros Ha. by apply Hex in Ha.
    + intros i x. rewrite Hr3. intros Hi Ho. by rewrite (Hopen1 i x Hi) in Ho.
  - destruct (run_grant_spend run stage provider e r1 w1 Hrun1)
      as (w3 & r3 & Hrun & Hr3 & Hrun3 & Hs).
    exists (Some (w_next w1)), w3, r3. split_and!; [exact Hrun|done| | | |congruence].
    + split; [intros _; by apply Hex|by eexists].
    + intros i x. rewrite Hr3, lookup_insert.
      case_decide as Hi; [by subst|]. intros Hx Ho. by rewrite (Hopen1 i x Hx) in Ho.
    + rewrite Hr3, lookup_insert_eq. unfold new_reservation. rewrite Hws. do 2 f_equal.
      unfold frame, ledger in Hl1. congruence.
Qed.

(** Without a cap for the provider or the workspace nothing is admitted. *)
Lemma not_admitted_without_cap w r run stage provider e :
  w_caps w !! (run_workspace_id r, Some provider) = None →
  w_caps w !! (run_workspace_id r, None) = None →
  ¬ admitted w r run stage provider e.
Proof. intros H1 H2 (cap & Hcap & _). unfold loaded_cap in Hcap. by rewrite H1, H2 in Hcap. Qed.

(** ** Theorems *)

(** C33: a reservation is granted exactly when a cap covers the provider and
    has room for the amount, the stage's own open reservations not counted
    against it.  A granted reservation is then the only open one of its run and
    stage; a refused one leaves none open and pauses the run on spend hold.
    The operation always returns, and without a cap it refuses. *)
Theorem reserve_spend_outcome run stage provider e w r :
  w_runs w !! run = Some r →
  ∃ o w' r', reserve_spend run stage provider e w = (Ok o, w') ∧
    w_runs w' !! run = Some r' ∧
    (is_Some o ↔ admitted w r run stage provider e) ∧
    (∀ i x, w_reservations w' !! i = Some x → open_for_stage run stage i x = true → o = Some i) ∧
    match o with
    | Some rsv =>
        w_reservations w' !! rsv
        = Some (mk_reservation (run_workspace_id r) (Some run) None provider (Some stage) e
                  RESERVED (w_now w)) ∧
        run_status r' = run_status r
    | None => run_status r' = RUN_PAUSED ∧ run_pause_reason r' = Some PAUSE_SPEND_HOLD
    end.
Proof. exact (run_reserve_spend run stage provider e w r). Qed.

(** Committing a reservation of a run charges the workspace at most the
    reserved amount, closes the reservation and adds one log; committing it again
    changes nothing. *)
Theorem commit_spend_once run rsv actual w r pr :
  w_reservations w !! rsv = Some r → rsv_status r = RESERVED →
  w_runs w !! run = Some pr → 0 ≤ actual → 0 ≤ rsv_estimated_cost_usd r →
  ∃ w' l, commit_spend run rsv actual w = (Ok tt, w') ∧
    w_reservations w' = alter (close_rsv COMMITTED) rsv (w_reservations w) ∧
    w_spend_logs w' = <[w_next w := l]> (w_spend_logs w) ∧
    slog_cost_usd l = Z.min actual (rsv_estimated_cost_usd r) ∧
    commit_spend run rsv actual w' = (Ok tt, w').
Proof.
  intros Hi Hs Hpr Ha He. unfold commit_spend at 1. rewrite run_bind, run_the, Hi, Hs.
  rewrite (proj2 (Z.ltb_ge _ _) Ha). erewrite run_bind_ok by reflexivity.
  erewrite run_bind_ok; [|rewrite run_the; simpl; by rewrite Hpr].
  do 3 (erewrite run_bind_ok by reflexivity). set (w2 := over w_spend_logs _ _).
  match goal with |- context [(next_span run ≫= λ s, emit_for_run run ?ty s ?pl) w2] =>
    assert (Hret : returns (span ← next_span run; emit_for_run run ty span pl) w2)
      by (by eapply notify_returns);
    pose proof (keeps_notify (frame w_reservations) run ty pl w2) as Hk1;
    pose proof (keeps_notify (frame w_spend_logs) run ty pl w2) as Hk2 end.
  destruct Hret as ([] & w3 & Hrun). rewrite Hrun in Hk1, Hk2. unfold frame in Hk1, Hk2. simpl in Hk1, Hk2.
  eexists w3, _. split_and!; [exact Hrun|exact Hk1|exact Hk2| |].
  - simpl. destruct (Z.ltb_spec (rsv_estimated_cost_usd r) actual); lia.
  - unfold commit_spend. rewrite run_bind, run_the, Hk1, lookup_alter_eq, Hi. done.
Qed.

(** ** The demo deployment *)

Lemma reserve_spend_outcome_witness :
  w_runs demo !! 20%positive = Some demo_run ∧
  ∃ o w', reserve_spend 20 SCRIPTING "draft_desk" 100 demo = (Ok o, w') ∧
    (is_Some o ↔ admitted demo demo_run 20 SCRIPTING "draft_desk" 100).
Proof.
  split; [reflexivity|].
  destruct (reserve_spend_outcome 20 SCRIPTING "draft_desk" 100 demo demo_run eq_refl)
    as (o & w' & r' & H1 & _ & H2 & _).
  exact (ex_intro _ o (ex_intro _ w' (conj H1 H2))).
Defined.

Lemma commit_spend_once_witness :
  ∃ w', commit_spend 20 1000 250 demo_reserved = (Ok tt, w') ∧
        commit_spend 20 1000 250 w' = (Ok tt, w').
Proof.
  destruct (w_reservations demo_reserved !! 1000%positive) as [r|] eqn:Hr; [|discriminate].
  destruct (w_runs demo_reserved !! 20%positive) as [pr|] eqn:Hpr; [|discriminate].
  assert (rsv_status r = RESERVED ∧ 0 ≤ rsv_estimated_cost_usd r) as [Hs He].
  { vm_compute in Hr. by injection Hr as <-. }
  destruct (commit_spend_once 20 1000 250 demo_reserved r pr Hr Hs Hpr ltac:(lia) He)
    as (w' & l & H1 & _ & _ & _ & H2).
  exact (ex_intro _ w' (conj H1 H2)).
Defined.

(** * The caps along every trace *)

#[export] Instance spend_cap_eq_dec : EqDecision SpendCap.
Proof. solve_decision. Defined.

(** what every operation but the setting of a cap keeps *)
Definition spends : relation Studio := λ s s',
  one_cap (st_world s) → capped (st_world s) (st_world s').
#[export] Instance spends_preorder : PreOrder spends.
Proof.
  split; [by intros s _|]. intros x y z Hxy Hyz Ho Hwf.
  pose proof (Hxy Ho) as H1. destruct (H1 Hwf) as (_ & _ & Hc & _).
  assert (Ho' : one_cap (st_world y)) by (unfold one_cap; by rewrite Hc).
  exact (transitivity H1 (Hyz Ho') Hwf).
Qed.
Lemma spends_on_world {A} (m : M A) : keeps capped m → keeps spends (on_world m).
Proof. intros Hm s _. specialize (Hm (st_world s)). unfold on_world. by destruct (m (st_world s)). Qed.

Lemma capped_modify_workspace i f : keeps capped (modify w_workspaces i f).
Proof. apply keeps_capped. intros w Hwf. by split_and!. Qed.

(** the setting of a cap: usage and the caps of providers stay, and the caps
    of the workspaces outside [P] *)
Definition recaps (P : id → Prop) : relation World := λ w w',
  spend_wf w →
  spend_wf w' ∧ w_now w' = w_now w ∧ (∀ ws p t, usage ws p t w' ≤ usage ws p t w) ∧
  ∀ ws p, p ≠ None ∨ ¬ P ws → w_caps w' !! (ws, p) = w_caps w !! (ws, p).

Section Recaps.
Context (P : id → Prop).
#[export] Instance recaps_preorder : PreOrder (recaps P).
Proof.
  split; [by intros s Hwf|]. intros x y z Hxy Hyz Hwf.
  destruct (Hxy Hwf) as (H1 & H2 & H3 & H4), (Hyz H1) as (H5 & H6 & H7 & H8).
  split_and!; [done|congruence| |].
  - intros ws p t. etrans; [apply H7|apply H3].
  - intros ws p Hp. by rewrite H8, H4.
Qed.
Lemma keeps_recaps {A} (m : M A) : keeps spend_le m → keeps (recaps P) m.
Proof.
  intros Hm w Hwf. destruct (Hm w Hwf) as (H1 & H2 & H3 & H4).
  split_and!; [done..|]. intros. by rewrite H3.
Qed.
#[export] Instance engine_recaps : Engine (recaps P).
Proof.
  split; [apply _|apply keeps_recaps, engine_uuid4|apply keeps_recaps, engine_flush|].
  intros. by apply keeps_recaps, engine_emit.
Qed.

Context (ws : id) (HP : P ws).
Lemma recaps_caps (g : gmap (positive * option string) SpendCap → _) :
  (∀ m k c, g m !! k = Some c →
     k = (ws, None) ∧ (cap_provider c = None ∨ ∃ c0, m !! k = Some c0 ∧ cap_provider c = cap_provider c0)
     ∨ m !! k = Some c) →
  (∀ m k, k ≠ (ws, None) → g m !! k = m !! k) →
  keeps (recaps P) (update w_caps g : M unit).
Proof using HP.
  intros Hg Hk w Hwf. pose proof Hwf as (H1 & H2 & H3 & H4 & H5 & H6 & H7). split_and!; [|done..|].
  - split_and!; try done. intros v p c [([= -> ->] & [Hc|(c0 & Hc & ->)])|Hc]%Hg; [done|by apply (H7 ws)|by apply (H7 v)].
  - intros v p Hp. simpl. apply Hk. intros [= -> ->]. by destruct Hp.
Qed.

Lemma recaps_modify f :
  (∀ c, cap_provider (f c) = cap_provider c) → keeps (recaps P) (modify w_caps (ws, None) f).
Proof using HP.
  intros Hf. apply recaps_caps.
  - intros m k c. rewrite lookup_alter. case_decide as Hk; [|by right]. subst k.
    intros (c0 & Hc & ->)%fmap_Some. left. split; [done|]. right. exists c0. by rewrite Hf.
  - intros m k Hk. by rewrite lookup_alter_ne.
Qed.
Lemma recaps_insert c : cap_provider c = None → keeps (recaps P) (insert_cap ws c).
Proof using HP.
  intros Hc. unfold insert_cap. rewrite Hc. keeps_tac. apply recaps_caps.
  - intros m k x. rewrite lookup_insert. case_decide as Hk; [|by right]. subst k. intros [= <-].
    left. split; [done|]. by left.
  - intros m k Hk. by rewrite lookup_insert_ne.
Qed.

Lemma recaps_ensure `{Settings} u d m : keeps (recaps P) (ensure_default_spend_cap ws u d m).
Proof using HP.
  unfold ensure_default_spend_cap, get_workspace_spend_cap. keeps_tac. by apply recaps_insert.
Qed.
Lemma recaps_update `{Settings} u d m : keeps (recaps P) (update_workspace_spend_cap ws u d m).
Proof using HP.
  unfold update_workspace_spend_cap. pose proof recaps_ensure. keeps_tac.
  apply recaps_modify. intros c. by destruct d, m.
Qed.
End Recaps.

Definition recaps_st (P : id → Prop) : relation Studio := λ s s', recaps P (st_world s) (st_world s').
#[export] Instance recaps_st_preorder P : PreOrder (recaps_st P).
Proof. split; [by intros s|]. intros x y z Hxy Hyz. unfold recaps_st. by etrans. Qed.
Lemma recaps_on_world P {A} (m : M A) : keeps (recaps P) m → keeps (recaps_st P) (on_world m).
Proof. intros Hm s. specialize (Hm (st_world s)). unfold on_world. by destruct (m (st_world s)). Qed.

Lemma recaps_st_update `{Settings} ws user p : keeps (recaps_st (λ v, v = ws)) (update_spend ws user p).
Proof.
  unfold update_spend. keeps_tac.
  all: try (apply recaps_on_world; try by apply recaps_update).
  all: keeps_all.
Qed.
Lemma recaps_st_create `{Settings} user n : keeps (recaps_st (λ _, True)) (create_workspace user n).
Proof.
  unfold create_workspace, add_membership. keeps_tac.
  all: try (apply recaps_on_world; try by apply recaps_ensure).
  all: keeps_all.
Qed.

(** the operations that set the cap of a workspace: PATCH of its spend, and
    its creation *)
Definition sets_cap (ws : id) (o : portal_op) : Prop :=
  match o with
  | UpdateSpend ws' _ _ => ws = ws'
  | CreateWorkspace _ _ => True
  | _ => False
  end.
#[export] Instance sets_cap_dec ws o : Decision (sets_cap ws o).
Proof. destruct o; simpl; apply _. Defined.

Lemma sets_some_cap o : (∃ ws, sets_cap ws o) ∨ ∀ ws, ¬ sets_cap ws o.
Proof. destruct o; simpl; first [by right; intros ? []|by left; exists 1%positive|by left; eexists]. Qed.

Section Traces.
Context `{Settings} `{Unordered} `{VoiceSettings} (ip6 : string → option bool) (sha256 : string → string)
  (json_text : json → string) (environment : string)
  (pbkdf2 : string → string → Z → result exn string) (jwt_encode : json → string)
  (auth_mode audience : string).

Abbreviation run_portal_op :=
  (run_portal_op ip6 sha256 json_text environment pbkdf2 jwt_encode auth_mode audience).
Abbreviation portal_step :=
  (portal_step ip6 sha256 json_text environment pbkdf2 jwt_encode auth_mode audience).
Abbreviation portal_exec :=
  (portal_exec ip6 sha256 json_text environment pbkdf2 jwt_encode auth_mode audience).

#[local] Hint Resolve spends_on_world keeps_capped capped_modify_workspace engine_uuid4 engine_flush : keeps.

Ltac spends_all :=
  keeps_tac;
  lazymatch goal with
  | |- keeps spends (on_world _) => apply spends_on_world; keeps_all
  | |- keeps spends ?m => let f := head_of m in unfold f; spends_all
  | |- _ => idtac
  end.

Lemma spends_trace ws ids : keeps spends (Strategy.trace_sources ws ids).
Proof. induction ids as [|o ids IH]; simpl; unfold Research.latest_audit; keeps_tac. Qed.

Lemma capped_op o : op_ok o → keeps capped (run_op sha256 o).
Proof. intros Ho w. apply (keeps_step sha256 capped capped_clock o w Ho). Qed.

Lemma spends_department o :
  studio_op_ok o → keeps spends (run_studio_op ip6 sha256 json_text environment o).
Proof.
  intros Ho. destruct o; simpl in *; try apply keeps_quietly; try apply _.
  1: by apply spends_on_world, capped_op.
  all: pose proof spends_trace; solve [keeps_all].
Qed.

Lemma spends_portal o : portal_op_ok o → (∀ ws, ¬ sets_cap ws o) → keeps spends (run_portal_op o).
Proof.
  intros Ho Hn. destruct o; simpl in *; try (by destruct (Hn 1%positive)); try (by destruct (Hn ws)).
  1: by apply spends_department.
  all: try apply keeps_scoped; try apply _.
  all: try solve [spends_all].
  (* the voice turn *)
  intros s Hs. pose proof (capped_turn provider text audio filename content_type history _ Hs) as Hc.
  unfold on_world, ignore. rewrite run_bind.
  by destruct (run_voice_turn provider text audio filename content_type history (st_world s)) as [[r|e] w'].
Qed.

Lemma recaps_portal o : (∃ ws, sets_cap ws o) → keeps (recaps_st (λ ws, sets_cap ws o)) (run_portal_op o).
Proof.
  intros [ws Ho]. destruct o; try done; simpl; apply keeps_scoped; try apply _.
  - apply recaps_st_create.
  - apply recaps_st_update.
Qed.

(** what is wrong with the caps of a state: nothing, or the operation [o]
    between [s1] and [s2] set this cap below what was used, and no more is
    used now than was then *)
Definition lowered (ws : id) (cap : SpendCap) (d : period) (s1 s2 s : Studio) (o : portal_op) : Prop :=
  sets_cap ws o ∧
  w_caps (st_world s1) !! (ws, None) ≠ Some cap ∧ w_caps (st_world s2) !! (ws, None) = Some cap ∧
  period_cap d cap < used d ws None (st_world s1) ∧
  used d ws None (st_world s) ≤ used d ws None (st_world s1).

Definition capped_since (ops : list portal_op) (s0 s : Studio) : Prop :=
  ∀ ws p cap d, governs (st_world s) ws p cap →
    used d ws p (st_world s) ≤ period_cap d cap ∨
    p = None ∧ ∃ ops1 o ops2, ops = ops1 ++ o :: ops2 ∧
      lowered ws cap d (portal_exec ops1 s0) (portal_step (portal_exec ops1 s0) o) s o.

Lemma capped_since_spends ops o s0 s s' :
  spend_wf (st_world s) → one_cap (st_world s) → spends s s' →
  capped_since ops s0 s → capped_since (ops ++ [o]) s0 s'.
Proof.
  intros Hwf Hone Hs Hc ws p cap d Hg. destruct (Hs Hone Hwf) as (_ & _ & Hcaps & Hu).
  apply (governs_same _ (st_world s)) in Hg; [|done]. specialize (Hu ws p cap d Hg).
  destruct (Hc ws p cap d Hg) as [Hin|(-> & ops1 & o1 & ops2 & -> & L1 & L2 & L3 & L4 & L5)]; [left; lia|].
  destruct (Z.le_gt_cases (used d ws None (st_world s')) (period_cap d cap)) as [Hle|Hgt]; [by left|right].
  split; [done|]. exists ops1, o1, (ops2 ++ [o]). split; [by rewrite <- app_assoc|].
  split_and!; [done..|]. lia.
Qed.

Lemma capped_since_recaps ops o s0 s s' :
  s = portal_exec ops s0 → s' = portal_step s o →
  spend_wf (st_world s) → recaps_st (λ ws, sets_cap ws o) s s' →
  capped_since ops s0 s → capped_since (ops ++ [o]) s0 s'.
Proof.
  intros Hs Hs' Hwf Hr Hc ws p cap d Hg. destruct (Hr Hwf) as (_ & Hnow & Hu & Hcaps).
  assert (Hused : used d ws p (st_world s') ≤ used d ws p (st_world s)).
  { unfold used. rewrite Hnow. apply Hu. }
  destruct (decide (p = None ∧ sets_cap ws o ∧ w_caps (st_world s) !! (ws, None) ≠ Some cap))
    as [(-> & Ho & Hne)|Hno].
  - destruct (Z.le_gt_cases (used d ws None (st_world s')) (period_cap d cap)) as [Hle|Hgt]; [by left|right].
    split; [done|]. exists ops, o, []. split; [done|]. rewrite <- Hs, <- Hs'.
    split_and!; [done|done|apply Hg|lia|done].
  - assert (Hg' : governs (st_world s) ws p cap).
    { destruct Hg as [Hcap Hq]. split.
      - destruct p as [q|]; [by rewrite <- Hcaps by (by left)|].
        destruct (decide (sets_cap ws o)) as [Ho|Ho]; [|by rewrite <- Hcaps by (by right)].
        destruct (decide (w_caps (st_world s) !! (ws, None) = Some cap)); [done|]. by destruct Hno.
      - intros Hp q. rewrite <- Hcaps by (by left). by apply Hq. }
    destruct (Hc ws p cap d Hg') as [Hin|(-> & ops1 & o1 & ops2 & -> & L1 & L2 & L3 & L4 & L5)]; [left; lia|].
    right. split; [done|]. exists ops1, o1, (ops2 ++ [o]). split; [by rewrite <- app_assoc|].
    split_and!; [done..|]. lia.
Qed.

Lemma trace_capped ops s :
  Forall portal_op_ok ops → one_cap (st_world s) → within_caps (st_world s) →
  let s' := portal_exec ops s in
  spend_wf (st_world s') ∧ one_cap (st_world s') ∧ capped_since ops s s'.
Proof.
  intros Hops Hone [Hwf Hw]%within_used. cbv zeta. induction ops as [|o ops IH] using rev_ind.
  { split_and!; [done..|]. intros ws p cap d Hg. left. by apply Hw. }
  apply Forall_app in Hops as [Hops [Ho _]%Forall_cons]. destruct (IH Hops) as (Hwf' & Hone' & Hc).
  clear IH. set (s1 := portal_exec ops s) in *.
  assert (Hs' : portal_exec (ops ++ [o]) s = portal_step s1 o).
  { unfold portal_exec. by rewrite foldl_app. }
  rewrite Hs'. destruct (sets_some_cap o) as [Hset|Hset].
  - pose proof (recaps_portal o Hset s1 : recaps_st _ s1 (portal_step s1 o)) as Hr.
    destruct (Hr Hwf') as (Hwf2 & _ & _ & Hcaps). split_and!; [done| |by apply (capped_since_recaps ops o s s1)].
    intros q. rewrite Hcaps by (by left). apply Hone'.
  - pose proof (spends_portal o Ho Hset s1 : spends s1 (portal_step s1 o)) as Hs.
    destruct (Hs Hone' Hwf') as (Hwf2 & _ & Hcaps & _). split_and!; [done| |by apply (capped_since_spends ops o s s1)].
    intros q. rewrite Hcaps. apply Hone'.
Qed.

(** C2: the spend caps hold.  Whatever requests, ticks and voice turns are
    served and however time passes, what the day and the month count against
    a cap that governs (committed spend and open reservations) is within it;
    unless an administrator set the cap below what was used already, and then
    no more is used than was at that moment.  No provider of the voice
    workspace has a cap of its own: its turns look at the one cap only. *)
Theorem spend_caps_hold ops s ws p cap d :
  let s' := portal_exec ops s in
  within_caps (st_world s) → one_cap (st_world s) → Forall portal_op_ok ops →
  governs (st_world s') ws p cap →
  used d ws p (st_world s') ≤ period_cap d cap ∨
  p = None ∧ ∃ ops1 o ops2, ops = ops1 ++ o :: ops2 ∧
    lowered ws cap d (portal_exec ops1 s) (portal_step (portal_exec ops1 s) o) s' o.
Proof. intros s' Hw Hone Hops. apply (trace_capped ops s Hops Hone Hw). Qed.
End Traces.

(** The demo deployment with an administrator (7); the scheduler dispatches
    the stage and reserves its estimate, then the administrator sets the daily
    cap below it. *)
Definition demo_office_admin : AuthenticatedUser := mk_user (JStr (uuid_str 7)) JNull.
Definition demo_office : Studio :=
  (empty_studio demo) <| st_memberships := {[ 60%positive := mk_mem 1 7 ROLE_ADMIN 0 ]} |>.
Definition demo_lowering : list portal_op :=
  [DepartmentOp (EngineOp SchedulerTick); UpdateSpend 1 demo_office_admin (mk_spend_update (Some 1) None)].
Definition demo_portal : list portal_op → Studio → Studio :=
  @portal_exec default_settings head_first (default_voice_settings None) Url.no_ip6 demo_hash
    (λ _, EmptyString) "test" (λ _ _ _, Ok EmptyString) (λ _, EmptyString) "local" "authenticated".
Definition demo_lowered : Studio := demo_portal demo_lowering demo_office.

Definition demo_low_cap : SpendCap := mk_cap None 1 10000 None (Some 7%positive).
Lemma demo_low_caps : w_caps (st_world demo_lowered) = {[ (1%positive, None) := demo_low_cap ]}.
Proof. by vm_compute. Qed.
Lemma demo_low_governs : governs (st_world demo_lowered) 1 None demo_low_cap.
Proof.
  unfold governs. rewrite demo_low_caps. split; [by rewrite lookup_singleton_eq|].
  intros _ q. by rewrite lookup_singleton_ne.
Qed.
Lemma demo_one_cap : one_cap (st_world demo_office).
Proof.
  intros q. change (w_caps (st_world demo_office)) with
    ({[ (1%positive, None) := mk_cap None 500 10000 None None ]} : gmap (positive * option string) SpendCap).
  by rewrite lookup_singleton_ne.
Qed.

(** the lowered cap is 1, the open reservation 100 *)
Lemma spend_caps_hold_witness :
  used DAY 1 None (st_world demo_lowered) = 100 ∧
  ∃ ops1 o ops2, demo_lowering = ops1 ++ o :: ops2 ∧ sets_cap 1 o ∧
    used DAY 1 None (st_world demo_lowered) ≤ used DAY 1 None (st_world (demo_portal ops1 demo_office)).
Proof.
  assert (Hu : used DAY 1 None (st_world demo_lowered) = 100) by by vm_compute.
  split; [exact Hu|].
  destruct (spend_caps_hold (H := default_settings) (H0 := head_first)
    (H1 := default_voice_settings None) Url.no_ip6 demo_hash (λ _, EmptyString) "test"
    (λ _ _ _, Ok EmptyString) (λ _, EmptyString) "local" "authenticated" demo_lowering demo_office
    1 None demo_low_cap DAY demo_within_caps demo_one_cap) as [Hle|(_ & ops1 & o & ops2 & Heq & Ho & _ & _ & _ & Hle)].
  - repeat constructor; simpl; by intros ? [= <-].
  - pose proof demo_low_governs as Hg. unfold demo_lowered, demo_portal in Hg. exact Hg.
  - exfalso. change (used DAY 1 None (st_world demo_lowered) ≤ 1) in Hle. rewrite Hu in Hle. lia.
  - exists ops1, o, ops2. exact (conj Heq (conj Ho Hle)).
Defined.
