(* ===== verification/AssignmentSpec.v ===== *)
(** * The assignment state machine, along every trace

    Every trace moves each assignment along [asn_step], the updates of
    Assignments.v.  From it follow what an assignment keeps for good, the
    invariants of its row, and that the row shows a life of [life_step], a
    state machine that does not mention the program (LeaseSpec.v has the
    theorem). *)

From S2P Require Import Prelude Models Database Outbox Provenance Assignments Gates Workflow Spend SpendSafety Controller.
From S2P Require Import Recovery Dispatcher Relay Workers ContentDesk Automation System Invariants.

(** ** Definitions *)

Section Definitions.
Context `{Settings}.

(** Every assignment moves along the state machine, and a new one starts as
    the dispatcher makes it. *)
Definition assignments_evolve : relation World := evolves w_assignments asn_step asn_new.
Definition asn_evolution : relation World := evolution w_assignments asn_step asn_new.

(** fresh keys stay fresh *)
Definition assignments_below (w : World) : Prop := below (w_next w) (w_assignments w).

(** the longest a lease may run from its start *)
Definition lease_limit : Z :=
  Z.max (seconds assignment_lease_seconds) (seconds assignment_max_lease_seconds).

(** An assignment in flight has an owner and a bounded lease, a pending one
    has neither; the key names the run, the stage and the attempt. *)
Definition row_ok (a : StageAssignment) : Prop :=
  asn_idempotency_key a = Some (asn_pipeline_run_id a, asn_stage a, asn_attempt_number a) ∧
  (in_flight a = true →
     is_Some (asn_worker_id a) ∧
     ∃ start expiry, asn_lease_started_at a = Some start ∧ asn_lease_expires_at a = Some expiry ∧
       expiry - start ≤ lease_limit) ∧
  (asn_status a = ASN_PENDING → asn_worker_id a = None ∧ asn_lease_expires_at a = None).

Definition rows_ok (w : World) : Prop := map_Forall (λ _, row_ok) (w_assignments w).

(** at most one assignment per workspace, run, stage and attempt *)
Definition keys_unique (w : World) : Prop :=
  assignments_below w ∧
  ∀ i j a b k, w_assignments w !! i = Some a → w_assignments w !! j = Some b →
    asn_workspace_id a = asn_workspace_id b →
    asn_idempotency_key a = Some k → asn_idempotency_key b = Some k → i = j.
End Definitions.

(** ** Lemmas *)

Section Evolution.
Context `{Settings}.

#[export] Instance asn_evolution_preorder : PreOrder asn_evolution.
Proof. apply evolution_preorder. Qed.

#[export] Instance asn_evolution_engine : Engine asn_evolution.
Proof.
  refine (engine_of_uuid4 asn_evolution _). intros w. apply evolution_same; [done|simpl; lia].
Qed.

#[export] Instance asn_evolution_emit_any : EmitAny asn_evolution.
Proof. refine (emit_any_of_uuid4 asn_evolution _). apply engine_uuid4. Qed.

#[export] Instance asn_evolution_rows : AssignmentRows asn_evolution.
Proof.
  split.
  - intros i g w Hg. apply (evolution_alter _ _ _ w _ i g); [done|done|]. by intros a []%Hg.
  - intros a k Hnew _ w _. by apply (evolution_insert _ _ _ w _ a).
Qed.

Lemma asn_steps_identity a a' :
  rtc asn_step a a' →
  asn_workspace_id a' = asn_workspace_id a ∧ asn_pipeline_run_id a' = asn_pipeline_run_id a ∧
  asn_stage a' = asn_stage a ∧ asn_attempt_number a ≤ asn_attempt_number a'.
Proof.
  induction 1 as [a|a b c Hs _ IH]; [split_and!; done || lia|].
  destruct (asn_step_identity a b Hs) as (? & ? & ? & ?), IH as (? & ? & ? & ?).
  split_and!; congruence || lia.
Qed.

(** A closed assignment only gets a trace. *)
Lemma asn_step_closed a a' :
  asn_step a a' → asn_open a = false → a' = a <| asn_trace_id := asn_trace_id a' |>.
Proof.
  assert (Hf : ∀ b, in_flight b = true → asn_open b = true).
  { intros b. unfold in_flight, asn_open. by destruct (asn_status b). }
  assert (Hx : ∀ i t n, assert_lease_extendable a i t n = Ok tt → in_flight a = true).
  { intros i t n. unfold assert_lease_extendable. destruct (negb (bool_decide _)); [done|].
    by destruct (in_flight a). }
  assert (Hc : ∀ i t, submit_check a i t = Ok tt → in_flight a = true).
  { intros i t. unfold submit_check. destruct (_ && _); [done|]. by destruct (in_flight a). }
  destruct 1 as [a t|a Ho|t a Hi|a Hi|i tok t tr a Hp|i t n a Hl _|i t n a Hl|i t s r a Hl];
    intros Hopen; simpl; [done|exfalso..].
  - congruence.
  - apply Hf in Hi. congruence.
  - apply Hf in Hi. congruence.
  - unfold asn_open in Hopen. by rewrite Hp in Hopen.
  - apply Hx, Hf in Hl. congruence.
  - apply Hx, Hf in Hl. congruence.
  - apply Hc, Hf in Hl. congruence.
Qed.

Lemma asn_steps_closed a a' :
  rtc asn_step a a' → asn_open a = false → a' = a <| asn_trace_id := asn_trace_id a' |>.
Proof.
  induction 1 as [a|a b c Hs _ IH]; intros Ho; [by destruct a|].
  pose proof (asn_step_closed a b Hs Ho) as Hb. rewrite Hb in IH. specialize (IH Ho).
  rewrite IH at 1. simpl. done.
Qed.
End Evolution.

Section RowInvariants.
Context `{Settings}.

Lemma row_ok_new a : asn_new a → row_ok a.
Proof.
  destruct 1 as [ws run stage n [i|] t c tr p prov]; split_and!; try done.
  intros _. split; [by eexists|]. eexists _, _. split_and!; [done..|]. unfold lease_limit. lia.
Qed.

Lemma lease_extendable_inv a i t n :
  assert_lease_extendable a i t n = Ok tt →
  asn_worker_id a = Some i ∧ in_flight a = true ∧
  (∃ expiry, asn_lease_expires_at a = Some expiry ∧ t ≤ expiry) ∧
  t + seconds n ≤ lease_start t a + seconds assignment_max_lease_seconds.
Proof.
  unfold assert_lease_extendable. destruct (bool_decide_reflect (asn_worker_id a = Some i)); [|done].
  destruct (in_flight a); [|done]. simpl.
  destruct (asn_lease_expires_at a) as [l|]; [|done].
  destruct (Z.ltb_spec l t); [done|].
  destruct (Z.ltb_spec (lease_start t a + seconds assignment_max_lease_seconds) (t + seconds n));
    [done|]. intros _. split_and!; [done|done|by exists l|lia].
Qed.

Lemma row_ok_step a a' : asn_step a a' → row_ok a → row_ok a'.
Proof.
  intros Hs (Hk & Hf & Hp). destruct Hs as [a t|a Ho|t a Hi|a Hi|i tok t tr a Hq|i t n a Hl _|i t n a Hl|i t s r a Hl];
    try (split_and!; done).
  - split_and!; [done| |done]. intros _. split; [by eexists|].
    eexists _, _. split_and!; [done..|]. unfold lease_limit. lia.
  - apply lease_extendable_inv in Hl as (Hw & Hi & _ & Hn).
    destruct (Hf Hi) as (_ & start & expiry & Hstart & _ & _).
    split_and!; [done| |done]. intros _. split; [by eexists|].
    exists start. eexists. simpl. unfold lease_start in *. simpl. rewrite Hstart in *.
    split_and!; [done..|]. unfold lease_limit. lia.
  - apply lease_extendable_inv in Hl as (Hw & Hi & _ & Hn).
    destruct (Hf Hi) as (_ & start & expiry & Hstart & _ & _).
    split_and!; [done| |].
    + intros _. split; [by eexists|].
      exists start. eexists. simpl. unfold lease_start in *. rewrite Hstart in *.
      split_and!; [done..|]. unfold lease_limit. lia.
    + simpl. intros Hq. unfold in_flight in Hi. by rewrite Hq in Hi.
  - split_and!; [done| |].
    + unfold in_flight. simpl. by destruct s.
    + simpl. by destruct s.
Qed.

#[export] Instance rows_ok_rows : AssignmentRows (preserved rows_ok).
Proof.
  split.
  - intros i g w Hg Hok j a. simpl. rewrite lookup_alter. case_decide; [|apply Hok].
    subst. intros (b & Hb & ->)%fmap_Some. eapply row_ok_step; [apply (Hg b Hb)|by apply (Hok j)].
  - intros a k Hnew _ w _ Hok j b. simpl. rewrite lookup_insert. case_decide; [|apply Hok].
    intros [= <-]. by apply row_ok_new.
Qed.

Lemma keyed_as_spec ws k j a :
  keyed_as ws k j a = true ↔ asn_workspace_id a = ws ∧ asn_idempotency_key a = Some k.
Proof. unfold keyed_as. by rewrite bool_decide_eq_true. Qed.

#[export] Instance keys_unique_engine : Engine (preserved keys_unique).
Proof.
  refine (engine_of_uuid4 (preserved keys_unique) _). intros w [Hb Hu]. split; [|exact Hu].
  simpl. eapply below_weaken; [|exact Hb]. simpl. lia.
Qed.

#[export] Instance keys_unique_emit_any : EmitAny (preserved keys_unique).
Proof. refine (emit_any_of_uuid4 (preserved keys_unique) _). apply engine_uuid4. Qed.

(** A row that keeps its key, or takes a free one, clashes with no other. *)
Lemma keys_unique_alter i g w :
  (∀ a, w_assignments w !! i = Some a →
     asn_step a (g a) ∧ (same_key a (g a) ∨ key_free i (g a) w)) →
  keys_unique w → keys_unique (w <| w_assignments ::= alter g i |>).
Proof.
  intros Hg [Hb Hu]. split; [by apply below_alter|].
  assert (Hcross : ∀ j a b k, w_assignments w !! i = Some a → w_assignments w !! j = Some b →
    asn_workspace_id (g a) = asn_workspace_id b → asn_idempotency_key (g a) = Some k →
    asn_idempotency_key b = Some k → j = i).
  { intros j a b k Hi Hj Hws Hka Hkb. destruct (Hg a Hi) as [Hs [Hsame|Hfree]].
    - apply (Hu j i b a k); [done|done| |done|by rewrite <- Hsame].
      apply asn_step_identity in Hs as (<- & _). done.
    - apply (Hfree j b k); [done|done|]. apply keyed_as_spec. by rewrite Hws. }
  intros j l a b k. simpl. rewrite !lookup_alter. repeat case_decide; simplify_eq; [done| | |apply Hu].
  - intros (x & Hx & ->)%fmap_Some Hl Hws Hka Hkb. symmetry. by apply (Hcross l x b k).
  - intros Hj (x & Hx & ->)%fmap_Some Hws Hka Hkb. by apply (Hcross j x a k).
Qed.

#[export] Instance keys_unique_rows : AssignmentRows (preserved keys_unique).
Proof.
  split; [intros i g w Hg; exact (keys_unique_alter i g w Hg)|].
  intros a k Hnew Hk w [Hfree _] [Hb Hu]. split.
  { apply (below_insert (Pos.succ (w_next w))); [lia|]. eapply below_weaken; [|done]. lia. }
  assert (Hn : ∀ j b, w_assignments w !! j = Some b → asn_workspace_id a = asn_workspace_id b →
                 asn_idempotency_key b = Some k → False).
  { intros j b Hj Hws Hkb. specialize (Hfree j b Hj).
    assert (Ht : keyed_as (asn_workspace_id a) k j b = true) by (by apply keyed_as_spec).
    congruence. }
  intros j l b c k'. simpl. rewrite !lookup_insert. repeat case_decide; simplify_eq; [done| | |apply Hu].
  - intros [= <-] Hl Hws Hk1 Hk2. exfalso. apply (Hn l c); congruence.
  - intros Hj [= <-] Hws Hk1 Hk2. exfalso. apply (Hn j b); congruence.
Qed.
End RowInvariants.

(** ** The life of an assignment, independently of the program

    What an assignment is to the outside: the attempt at a stage of a run it
    stands for, and where it is.  A lease has a start, an end and a worker. *)

Inductive phase : Type :=
| Queued
| Leased (worker : id) (acknowledged : bool) (start expiry : time)
| Finished (worker : id) (success : bool) (res : option json) (at_ : time)
| GivenUp (at_ : time)
| Withdrawn.

Record life : Type := mk_life {
  life_workspace : id;
  life_run : id;
  life_stage : ContentStage;
  life_attempt : Z;
  life_phase : phase
}.
#[export] Instance life_settable : Settable life := λ r,
  mk_life (life_workspace r) (life_run r) (life_stage r) (life_attempt r) (life_phase r).

Section Life.
Context `{Settings}.

(** a worker is handed what waits, for the length of a lease; it acknowledges
    once, and extends the lease while it runs, up to the longest lease from
    its start; it finishes while the lease runs; what it holds may be taken
    back, to be tried again under the next number or not, and what is not
    over may be withdrawn *)
Inductive life_step (l : life) : life → Prop :=
| life_handed i t :
    life_phase l = Queued →
    life_step l (l <| life_phase := Leased i false t (t + seconds assignment_lease_seconds) |>)
| life_acknowledged i s e t e' :
    life_phase l = Leased i false s e → t ≤ e → e' ≤ s + seconds assignment_max_lease_seconds →
    life_step l (l <| life_phase := Leased i true s e' |>)
| life_renewed i b s e t e' :
    life_phase l = Leased i b s e → t ≤ e → e' ≤ s + seconds assignment_max_lease_seconds →
    life_step l (l <| life_phase := Leased i b s e' |>)
| life_finished i b s e t ok res :
    life_phase l = Leased i b s e → t ≤ e →
    life_step l (l <| life_phase := Finished i ok res t |>)
| life_requeued i b s e :
    life_phase l = Leased i b s e →
    life_step l (l <| life_phase := Queued |> <| life_attempt ::= Z.succ |>)
| life_given_up i b s e t :
    life_phase l = Leased i b s e → life_step l (l <| life_phase := GivenUp t |>)
| life_withdrawn :
    (life_phase l = Queued ∨ ∃ i b s e, life_phase l = Leased i b s e) →
    life_step l (l <| life_phase := Withdrawn |>).

(** it starts in the queue, or leased to the worker the dispatcher chose *)
Inductive life_start (l : life) : Prop :=
| starts_queued : life_phase l = Queued → life_start l
| starts_leased i t :
    life_phase l = Leased i false t (t + seconds assignment_lease_seconds) → life_start l.

(** the columns that tell the phase *)
Definition phase_shown (a : StageAssignment) (p : phase) : Prop :=
  match p with
  | Queued => asn_status a = ASN_PENDING ∧ asn_worker_id a = None ∧
      asn_lease_started_at a = None ∧ asn_lease_expires_at a = None
  | Leased i b s e => asn_status a = (if b then ASN_ACKNOWLEDGED else ASN_DISPATCHED) ∧
      asn_worker_id a = Some i ∧ asn_lease_started_at a = Some s ∧ asn_lease_expires_at a = Some e
  | Finished i ok res t => asn_status a = (if ok then ASN_COMPLETED else ASN_FAILED) ∧
      asn_worker_id a = Some i ∧ asn_completed_at a = Some t ∧ asn_result a = res ∧
      asn_lease_expires_at a = None
  | GivenUp t => asn_status a = ASN_FAILED ∧ asn_worker_id a = None ∧ asn_completed_at a = Some t ∧
      asn_lease_expires_at a = None
  | Withdrawn => asn_status a = ASN_CANCELLED
  end.

Definition shows (a : StageAssignment) (l : life) : Prop :=
  asn_workspace_id a = life_workspace l ∧ asn_pipeline_run_id a = life_run l ∧
  asn_stage a = life_stage l ∧ asn_attempt_number a = life_attempt l ∧
  asn_idempotency_key a = Some (life_run l, life_stage l, life_attempt l) ∧
  phase_shown a (life_phase l).

Lemma shows_leased a l :
  shows a l → in_flight a = true → ∃ i b s e, life_phase l = Leased i b s e.
Proof.
  intros (_ & _ & _ & _ & _ & Hp) Hf. unfold in_flight in Hf.
  destruct (life_phase l) as [|i b s e|i ok r t|t|]; simpl in Hp; [|by eexists _, _, _, _|..].
  - destruct Hp as [Hs _]. by rewrite Hs in Hf.
  - destruct Hp as [Hs _]. rewrite Hs in Hf. by destruct ok.
  - destruct Hp as [Hs _]. by rewrite Hs in Hf.
  - by rewrite Hp in Hf.
Qed.

Lemma shows_queued a l : shows a l → asn_status a = ASN_PENDING → life_phase l = Queued.
Proof.
  intros (_ & _ & _ & _ & _ & Hp) Hf.
  destruct (life_phase l) as [|i b s e|i ok r t|t|]; simpl in Hp; [done|..].
  - destruct Hp as [Hs _]. rewrite Hf in Hs. by destruct b.
  - destruct Hp as [Hs _]. rewrite Hf in Hs. by destruct ok.
  - destruct Hp as [Hs _]. congruence.
  - congruence.
Qed.

(** the guards of the program, as the specification has them *)
Lemma extendable_leased a i t n b s e :
  assert_lease_extendable a i t n = Ok tt → phase_shown a (Leased i b s e) →
  t ≤ e ∧ t + seconds n ≤ s + seconds assignment_max_lease_seconds.
Proof.
  intros (_ & _ & (x & Hx & Hle) & Hm)%lease_extendable_inv (_ & _ & Hs & He).
  unfold lease_start in Hm. rewrite Hs in Hm. split; [congruence|done].
Qed.

Lemma submit_check_inv a i t :
  submit_check a (Some i) t = Ok tt →
  asn_worker_id a = Some i ∧ in_flight a = true ∧ ∃ e, asn_lease_expires_at a = Some e ∧ t ≤ e.
Proof.
  unfold submit_check. rewrite (bool_decide_true (Some i ≠ None)) by done. simpl.
  destruct (bool_decide_reflect (asn_worker_id a = Some i)); [|done].
  destruct (in_flight a); [|done]. simpl.
  destruct (asn_lease_expires_at a) as [l|]; [|done].
  destruct (Z.ltb_spec l t); [done|]. intros _. split_and!; [done..|by exists l].
Qed.

(** every update the program makes is a step of the life, or none *)
Lemma asn_step_life a a' l :
  asn_step a a' → shows a l → ∃ l', shows a' l' ∧ rtc life_step l l'.
Proof.
  intros Hs Hl. pose proof Hl as (H1 & H2 & H3 & H4 & H5 & Hp).
  destruct Hs as [a t|a Ho|t a Hi|a Hi|i tok t tr a Hq|i t n a Hx Hd|i t n a Hx|i t ok res a Hx].
  - exists l. split; [|done]. by destruct l as [? ? ? ? []].
  - exists (l <| life_phase := Withdrawn |>). split; [by split_and!|]. apply rtc_once, life_withdrawn.
    destruct (in_flight a) eqn:Hf; [right; by eapply shows_leased|left].
    apply (shows_queued a l Hl). unfold asn_open, in_flight in *. by destruct (asn_status a).
  - destruct (shows_leased a l Hl Hi) as (i & b & s & e & Hph).
    exists (l <| life_phase := GivenUp t |>). split; [by split_and!|]. by eapply rtc_once, life_given_up.
  - destruct (shows_leased a l Hl Hi) as (i & b & s & e & Hph).
    exists (l <| life_phase := Queued |> <| life_attempt ::= Z.succ |>).
    split; [|by eapply rtc_once, life_requeued].
    split_and!; simpl; try done; [lia|]. by rewrite H2, H3, H4.
  - pose proof (shows_queued a l Hl Hq) as Hph. eexists. split; [|by apply rtc_once, (life_handed _ i t)].
    by split_and!.
  - pose proof Hx as (Hw & Hf & _)%lease_extendable_inv.
    destruct (shows_leased a l Hl Hf) as (i' & b & s & e & Hph). rewrite Hph in Hp.
    pose proof Hp as (Hst & Hwi & Hs & _). rewrite Hw in Hwi. injection Hwi as <-.
    assert (b = false) as -> by (rewrite Hd in Hst; by destruct b).
    destruct (extendable_leased _ _ _ _ _ _ _ Hx Hp) as [Hle Hm].
    eexists. split; [|by eapply rtc_once, (life_acknowledged _ i s e t)].
    split_and!; simpl; try done. unfold lease_start. simpl. by rewrite Hs.
  - pose proof Hx as (Hw & Hf & _)%lease_extendable_inv.
    destruct (shows_leased a l Hl Hf) as (i' & b & s & e & Hph). rewrite Hph in Hp.
    pose proof Hp as (Hst & Hwi & Hs & _). rewrite Hw in Hwi. injection Hwi as <-.
    destruct (extendable_leased _ _ _ _ _ _ _ Hx Hp) as [Hle Hm].
    eexists. split; [|by eapply rtc_once, (life_renewed _ i b s e t)].
    split_and!; simpl; try done. unfold lease_start. by rewrite Hs.
  - pose proof Hx as (Hw & Hf & x & He & Hle)%submit_check_inv.
    destruct (shows_leased a l Hl Hf) as (i' & b & s & e & Hph). rewrite Hph in Hp.
    destruct Hp as (_ & Hwi & _ & He'). rewrite Hw in Hwi. injection Hwi as <-.
    rewrite He in He'. injection He' as <-.
    exists (l <| life_phase := Finished i ok res t |>).
    split; [by split_and!|]. by eapply rtc_once, life_finished.
Qed.

Lemma asn_steps_life a a' l :
  rtc asn_step a a' → shows a l → ∃ l', shows a' l' ∧ rtc life_step l l'.
Proof.
  intros Hs. revert l. induction Hs as [a|a b c Hab _ IH]; intros l Hl; [by exists l|].
  destruct (asn_step_life a b l Hab Hl) as (l1 & Hl1 & Hr1). destruct (IH l1 Hl1) as (l2 & Hl2 & Hr2).
  exists l2. split; [done|by etrans].
Qed.

Lemma asn_new_life a : asn_new a → ∃ l, shows a l ∧ life_start l.
Proof.
  destruct 1 as [ws run stage n [i|] t c tr p prov].
  - exists (mk_life ws run stage n (Leased i false t (t + seconds assignment_lease_seconds))).
    split; [by split_and!|]. by eapply starts_leased.
  - exists (mk_life ws run stage n Queued). split; [by split_and!|]. by apply starts_queued.
Qed.
End Life.

Section Reached.
Context `{Settings} (sha256 : string → string).

Lemma reaches_evolution w w' : reaches sha256 w w' → asn_evolution w w'.
Proof.
  intros (ops & Hops & ->). refine (keeps_exec sha256 asn_evolution _ ops w Hops).
  intros d _ v. apply evolution_same; [done|simpl; lia].
Qed.
End Reached.

(** ** Theorems *)

Section Theorems.
Context `{Settings} (sha256 : string → string).

(** A completed, failed or cancelled assignment is final: along every trace
    only its trace identifier may still change. *)
Theorem closed_assignment_final w w' i a :
  reaches sha256 w w' → assignments_below w →
  w_assignments w !! i = Some a → asn_open a = false →
  ∃ t, w_assignments w' !! i = Some (a <| asn_trace_id := t |>).
Proof.
  intros Hr Hb Hi Ho. destruct (reaches_evolution sha256 w w' Hr Hb) as (_ & Hs & _).
  destruct (Hs i a Hi) as (a' & Hi' & Hsteps). exists (asn_trace_id a').
  rewrite Hi'. f_equal. by apply asn_steps_closed.
Qed.

(** An assignment stays with its workspace, run and stage, and its attempt
    number never goes down. *)
Theorem assignment_attempts_grow w w' i a :
  reaches sha256 w w' → assignments_below w → w_assignments w !! i = Some a →
  ∃ a', w_assignments w' !! i = Some a' ∧
    asn_workspace_id a' = asn_workspace_id a ∧ asn_pipeline_run_id a' = asn_pipeline_run_id a ∧
    asn_stage a' = asn_stage a ∧ asn_attempt_number a ≤ asn_attempt_number a'.
Proof.
  intros Hr Hb Hi. destruct (reaches_evolution sha256 w w' Hr Hb) as (_ & Hs & _).
  destruct (Hs i a Hi) as (a' & Hi' & Hsteps). exists a'. split; [done|].
  by apply asn_steps_identity.
Qed.

(** Along every trace an assignment in flight has an owner and a lease that
    ends within the limit from its start, so that the reaper can take it back;
    a pending one has neither; and the idempotency key of every assignment
    names its run, stage and attempt. *)
Theorem assignments_leased w w' : reaches sha256 w w' → rows_ok w → rows_ok w'.
Proof.
  intros (ops & Hops & ->). refine (keeps_exec sha256 (preserved rows_ok) _ ops w Hops).
  intros d _. keeps_tac.
Qed.

(** Along every trace a workspace has at most one assignment per run, stage
    and attempt. *)
Theorem assignment_keys_unique w w' : reaches sha256 w w' → keys_unique w → keys_unique w'.
Proof.
  intros (ops & Hops & ->). refine (keeps_exec sha256 (preserved keys_unique) _ ops w Hops).
  intros d _. keeps_tac.
Qed.
End Theorems.

(** ** The demo deployment *)

Lemma demo_below : assignments_below demo.
Proof. intros i a. simpl. by rewrite lookup_empty. Qed.

Lemma demo_review_below : assignments_below demo_review.
Proof. exact (proj1 (reaches_evolution demo_hash demo demo_review demo_reaches demo_below)). Qed.

Lemma demo_completed :
  ∃ a, w_assignments demo_review !! 1007%positive = Some a ∧
    asn_status a = ASN_COMPLETED ∧ asn_open a = false.
Proof.
  destruct (passes_some (λ a, bool_decide (asn_status a = ASN_COMPLETED))
    (w_assignments demo_review !! 1007%positive)) as (a & Ha & Hs%bool_decide_eq_true);
    [by vm_compute|]. exists a. split_and!; [done..|]. unfold asn_open. by rewrite Hs.
Qed.

Lemma demo_decides : reaches demo_hash demo_review demo_decided.
Proof. exists demo_verdict. split; [|done]. by apply Forall_singleton. Qed.

Lemma closed_assignment_final_witness :
  ∃ a t, w_assignments demo_review !! 1007%positive = Some a ∧ asn_status a = ASN_COMPLETED ∧
    w_assignments demo_decided !! 1007%positive = Some (a <| asn_trace_id := t |>).
Proof.
  destruct demo_completed as (a & Ha & Hs & Ho).
  destruct (closed_assignment_final demo_hash demo_review demo_decided 1007 a
              demo_decides demo_review_below Ha Ho) as [t Ht].
  exact (ex_intro _ a (ex_intro _ t (conj Ha (conj Hs Ht)))).
Defined.

Lemma assignment_attempts_grow_witness :
  ∃ a a', w_assignments demo_review !! 1007%positive = Some a ∧
    w_assignments demo_decided !! 1007%positive = Some a' ∧
    asn_attempt_number a ≤ asn_attempt_number a'.
Proof.
  destruct demo_completed as (a & Ha & _).
  destruct (assignment_attempts_grow demo_hash demo_review demo_decided 1007 a
              demo_decides demo_review_below Ha) as (a' & Ha' & _ & _ & _ & Hle).
  exact (ex_intro _ a (ex_intro _ a' (conj Ha (conj Ha' Hle)))).
Defined.

Lemma assignments_leased_witness : rows_ok demo ∧ rows_ok demo_dispatched.
Proof.
  assert (Hok : rows_ok demo) by (intros i a; simpl; by rewrite lookup_empty).
  split; [exact Hok|].
  refine (assignments_leased demo_hash demo demo_dispatched _ Hok).
  exists [SchedulerTick]. split; [by apply Forall_singleton|reflexivity].
Defined.

Lemma assignment_keys_unique_witness : keys_unique demo ∧ keys_unique demo_dispatched.
Proof.
  assert (Hok : keys_unique demo).
  { split; [exact demo_below|]. intros i j a b k. simpl. by rewrite lookup_empty. }
  split; [exact Hok|].
  refine (assignment_keys_unique demo_hash demo demo_dispatched _ Hok).
  exists [SchedulerTick]. split; [by apply Forall_singleton|reflexivity].
Defined.
