(* ===== verification/GateSpec.v ===== *)
(** * The human review gate, along every trace

    A gate that was decided stays as it was decided, and no gate is approved
    but by a reviewer: the approval of a gate comes with a recorded decision
    on the content item of its run.  A gate that times out, however, is stuck:
    the second timeout finds it escalated and does nothing. *)

From S2P Require Import Prelude Models Database Outbox Provenance Assignments Gates Workflow Spend.
From S2P Require Import SpendSafety Controller Recovery Relay Workers ContentDesk Automation.
From S2P Require Import System.
From S2P Require Import System Invariants.

(** ** Definitions *)

Definition gates_evolve : relation World := evolves w_gates gate_step gate_new.
Definition gate_evolution : relation World := evolution w_gates gate_step gate_new.
Definition gates_below (w : World) : Prop := below (w_next w) (w_gates w).

(** A gate that awaits a decision was never escalated, and none timed out. *)
Definition untimed_gate (g : ReviewGate) : Prop :=
  gate_status g ≠ GATE_TIMED_OUT ∧
  (gate_status g = GATE_AWAITING → gate_escalation_level g = 0).
Definition untimed (w : World) : Prop := map_Forall (λ _, untimed_gate) (w_gates w).

(** A reviewer decided the gate so: the gate names one, and a decision on the
    content item of its run is on record. *)
Definition decided_by_human (w : World) (g : ReviewGate) (approved : bool) : Prop :=
  is_Some (gate_decided_by g) ∧
  ∃ d dec r, w_decisions w !! d = Some dec ∧
    rdec_decision dec = (if approved then DECISION_APPROVED else DECISION_REJECTED) ∧
    rdec_workspace_id dec = gate_workspace_id g ∧
    w_runs w !! gate_pipeline_run_id g = Some r ∧
    run_content_item_id r = Some (rdec_content_item_id dec).

(** Every verdict, applied or only announced, is a reviewer's. *)
Definition human_verdicts (w : World) : Prop :=
  (below (w_next w) (w_runs w) ∧ below (w_next w) (w_gates w) ∧
   below (w_next w) (w_decisions w) ∧ below (w_next w) (w_outbox w)) ∧
  (∀ i g, w_gates w !! i = Some g → is_Some (w_runs w !! gate_pipeline_run_id g)) ∧
  (∀ i approved, announced i approved w →
     ∃ g, w_gates w !! i = Some g ∧ decided_by_human w g approved) ∧
  (∀ i g approved, w_gates w !! i = Some g → gate_status g = verdict_status approved →
     decided_by_human w g approved).

(** ** Lemmas *)

#[export] Instance gate_evolution_preorder : PreOrder gate_evolution.
Proof. apply evolution_preorder. Qed.

#[export] Instance gate_evolution_engine : Engine gate_evolution.
Proof.
  refine (engine_of_uuid4 gate_evolution _). intros w. apply evolution_same; [done|simpl; lia].
Qed.

#[export] Instance gate_evolution_emit_any : EmitAny gate_evolution.
Proof. refine (emit_any_of_uuid4 gate_evolution _). apply engine_uuid4. Qed.

#[export] Instance gate_evolution_rows : GateRows gate_evolution.
Proof.
  split. intros i g w Hg. apply (evolution_alter _ _ _ w _ i g); [done|done|]. by intros x []%Hg.
Qed.

#[export] Instance gate_evolution_add : GateAdd gate_evolution.
Proof. intros x Hnew w _. by apply (evolution_insert _ _ _ w _ x). Qed.

Lemma gate_steps_closed g g' : rtc gate_step g g' → gate_status g ≠ GATE_AWAITING → g' = g.
Proof. by destruct 1 as [|g x g' [? _]%gate_step_identity _]; intros. Qed.

(** *** No gate times out *)

Lemma untimed_step g g' : gate_step g g' → untimed_gate g → untimed_gate g'.
Proof.
  intros Hs [Ht Hl]. destruct Hs as [u g Hg|[] t g Hg|t g Hg Hz|g Hg Hz|v g Hg];
    split; try done.
  by apply Hl in Hg.
Qed.

#[export] Instance untimed_rows : GateRows (preserved untimed).
Proof.
  split. intros i g w Hg Hok j x. simpl. rewrite lookup_alter. case_decide; [|apply Hok].
  subst. intros (y & Hy & ->)%fmap_Some. eapply untimed_step; [apply (Hg y Hy)|by apply (Hok j)].
Qed.

#[export] Instance untimed_add : GateAdd (preserved untimed).
Proof.
  intros x Hnew w _ Hok j y. simpl. rewrite lookup_insert. case_decide; [|apply Hok].
  intros [= <-]. by destruct Hnew.
Qed.

(** *** Every verdict is a reviewer's *)

Section Verdicts.
Context (w : World).

(** What a decision needs stays: rows of decisions, and the places of runs. *)
Lemma decided_by_human_mono w' g g' approved :
(∀ d dec, w_decisions w !! d = Some dec → w_decisions w' !! d = Some dec) →
(∀ i r, w_runs w !! i = Some r → ∃ r', w_runs w' !! i = Some r' ∧ run_place r' = run_place r) →
gate_workspace_id g' = gate_workspace_id g → gate_pipeline_run_id g' = gate_pipeline_run_id g →
(is_Some (gate_decided_by g) → is_Some (gate_decided_by g')) →
decided_by_human w g approved → decided_by_human w' g' approved.
Proof.
intros Hd Hr Hws Hrun Hu [Hby (d & dec & r & Hdec & Hv & Hw & Hri & Hitem)].
split; [auto|]. destruct (Hr _ r Hri) as (r' & Hri' & Hp). injection Hp as _ Hi.
exists d, dec, r'. rewrite Hws, Hrun. split_and!; [by apply Hd|done|done|done|congruence].
Qed.

(** An operation that leaves gates and decisions alone, announces no verdict
  and leaves the runs in place. *)
Lemma human_verdicts_frame w' :
(w_next w ≤ w_next w')%positive → w_gates w' = w_gates w → w_decisions w' = w_decisions w →
below (w_next w') (w_runs w') → below (w_next w') (w_outbox w') →
(∀ i r, w_runs w !! i = Some r → ∃ r', w_runs w' !! i = Some r' ∧ run_place r' = run_place r) →
(∀ i approved, announced i approved w' → announced i approved w) →
human_verdicts w → human_verdicts w'.
Proof.
intros Hn Hg Hd Hbr Hbo Hr Ha ((_ & Hbg & Hbd & _) & Hrun & Hann & Hver).
assert (Hmono : ∀ g approved, decided_by_human w g approved → decided_by_human w' g approved).
{ intros g b. apply decided_by_human_mono; [by rewrite Hd|done..|auto]. }
unfold human_verdicts. rewrite Hg, Hd. split_and!; try done.
- by eapply below_weaken.
- by eapply below_weaken.
- intros i g Hi. destruct (Hrun i g Hi) as [r Hri]. destruct (Hr _ r Hri) as (r' & ? & _). by exists r'.
- intros i b Hb. destruct (Hann i b (Ha i b Hb)) as (g & Hi & Hh). exists g. auto.
- intros i g b Hi Hs. apply Hmono. by apply (Hver i).
Qed.
End Verdicts.

Lemma verdict_type_event approved : verdict_event (verdict_type approved) = true.
Proof. by destruct approved. Qed.

Lemma verdict_type_inj a b : verdict_type a = verdict_type b → a = b.
Proof. by destruct a, b. Qed.

(** What an emission does. *)
Lemma emit_run ty ws aggt agg corr tr sp pl by_ ca v w :
  ∃ e w', emit ty ws aggt agg corr tr sp pl by_ ca v w = (Ok (w_next w), w') ∧
    ev_type e = ty ∧ ev_payload e = pl ∧ w_outbox w' = <[w_next w := e]> (w_outbox w) ∧
    w_next w' = Pos.succ (w_next w) ∧ w_gates w' = w_gates w ∧ w_decisions w' = w_decisions w ∧
    w_runs w' = w_runs w.
Proof.
  assert (Hn : ∃ n, next_sequence aggt agg w = (Ok n, w)) by (eexists; reflexivity).
  destruct Hn as [n Hn]. rewrite (run_emit _ _ _ _ _ _ _ _ _ _ _ _ n Hn).
  eexists _, _. split; [done|]. split; [|split; [|split; [done|]]]; [done..|]. done.
Qed.

Lemma below_insert_next {A} w (m : gmap positive A) x :
  below (w_next w) m → below (Pos.succ (w_next w)) (<[w_next w := x]> m).
Proof. intros Hb. apply below_insert; [lia|]. eapply below_weaken; [|done]. lia. Qed.

(** a new event that announces nothing *)
Lemma announced_insert w w' i e g approved :
  w_outbox w' = <[i := e]> (w_outbox w) → verdict_event (ev_type e) = false →
  announced g approved w' → announced g approved w.
Proof.
  intros Ho Hv (j & f & Hj & Ht & Hp). rewrite Ho, lookup_insert in Hj.
  case_decide; [|by exists j, f]. injection Hj as ->. by rewrite Ht, verdict_type_event in Hv.
Qed.

Lemma runs_stay {w w' : World} :
  w_runs w' = w_runs w →
  ∀ i r, w_runs w !! i = Some r → ∃ r', w_runs w' !! i = Some r' ∧ run_place r' = run_place r.
Proof. intros ->. by eauto. Qed.

#[export] Instance human_verdicts_engine : Engine (preserved human_verdicts).
Proof.
  split; [apply _| | |].
  - intros w Hok. apply (human_verdicts_frame w); try done.
    + simpl. lia.
    + eapply below_weaken; [|apply Hok]. simpl. lia.
    + eapply below_weaken; [|apply Hok]. simpl. lia.
    + by apply runs_stay.
  - intros w Hok. apply (human_verdicts_frame w); try done; [apply Hok|apply Hok|by apply runs_stay].
  - intros ty ws aggt agg corr tr sp pl by_ ca v Hv w Hok.
    destruct (emit_run ty ws aggt agg corr tr sp pl by_ ca v w)
      as (e & w' & -> & Ht & _ & Ho & Hn & Hg & Hd & Hr).
    change (human_verdicts w'). apply (human_verdicts_frame w); try done.
    + rewrite Hn. lia.
    + rewrite Hn, Hr. eapply below_weaken; [|apply Hok]. lia.
    + rewrite Hn, Ho. apply below_insert_next, Hok.
    + by apply runs_stay.
    + intros g b. apply (announced_insert w w' (w_next w) e); [done|by rewrite Ht].
Qed.

#[export] Instance human_verdicts_runs : RunAny (preserved human_verdicts).
Proof.
  intros i g Hg w Hok. apply (human_verdicts_frame w); try done.
  - apply below_alter, Hok.
  - apply Hok.
  - intros j r Hj. simpl. rewrite lookup_alter. case_decide; [|by exists r].
    subst. rewrite Hj. exists (g r). split; [done|apply Hg].
Qed.

#[export] Instance human_verdicts_run_insert : RunInsert (preserved human_verdicts).
Proof.
  intros r _ w Hok. apply (human_verdicts_frame w); try done.
  - simpl. lia.
  - apply below_insert_next, Hok.
  - eapply below_weaken; [|apply Hok]. simpl. lia.
  - intros i r' Hi. exists r'. split; [|done]. simpl. rewrite lookup_insert_ne; [done|].
    intros <-. pose proof (proj1 (proj1 Hok) _ _ Hi). lia.
Qed.

#[export] Instance human_verdicts_events : EventRows (preserved human_verdicts).
Proof.
  intros i g Hg w Hok. apply (human_verdicts_frame w); try done.
  - apply Hok.
  - apply below_alter, Hok.
  - by apply runs_stay.
  - intros x b (j & e & Hj & Ht & Hp). simpl in Hj. rewrite lookup_alter in Hj.
    case_decide; [|by exists j, e]. subst. apply fmap_Some in Hj as (e0 & He0 & ->).
    destruct (Hg e0) as (_ & _ & _ & Hty & Hpl). exists j, e0.
    split_and!; [done|by rewrite <- Hty|]. unfold payload_gate in *. by rewrite <- Hpl.
Qed.

(** A gate moves on: what the reviewers decided stays. *)
Lemma decided_by_human_gates w w' g approved :
  w_decisions w' = w_decisions w → w_runs w' = w_runs w →
  decided_by_human w g approved → decided_by_human w' g approved.
Proof.
  intros Hd Hr. apply decided_by_human_mono; [by rewrite Hd|by apply runs_stay|done..].
Qed.

Lemma decided_by_human_step w g g' approved :
  gate_step g g' → decided_by_human w g approved → decided_by_human w g' approved.
Proof.
  intros (_ & Hw & Hr & _ & Hu)%gate_step_identity.
  apply decided_by_human_mono; [done|by apply runs_stay|done..].
Qed.

Lemma verdict_status_inj a b : verdict_status a = verdict_status b → a = b.
Proof. by destruct a, b. Qed.

#[export] Instance human_verdicts_gates : GateRows (preserved human_verdicts).
Proof.
  split. intros i g w Hg ((Hbr & Hbg & Hbd & Hbo) & Hrun & Hann & Hver).
  set (w' := (modify w_gates i g w).2).
  assert (Hlook : ∀ j x', w_gates w' !! j = Some x' → ∃ x, w_gates w !! j = Some x ∧
            (x' = x ∨ (j = i ∧ x' = g x ∧ gate_step x x'))).
  { intros j x'. simpl. rewrite lookup_alter. case_decide as Hj; [|intros Hx; exists x'; auto].
    subst. intros (x & Hx & ->)%fmap_Some. exists x. split; [done|]. right.
    split_and!; [done..|]. by apply Hg. }
  split_and!; try done.
  - by apply below_alter.
  - intros j x' (x & Hx & [->|(_ & _ & Hs)])%Hlook; [by apply (Hrun j)|].
    apply gate_step_identity in Hs as (_ & _ & -> & _). by apply (Hrun j).
  - intros j b (x & Hx & Hh)%Hann. simpl. rewrite lookup_alter. case_decide.
    + subst. rewrite Hx. exists (g x). split; [done|].
      by apply (decided_by_human_step _ x); [apply Hg|].
    + by exists x.
  - intros j x' b (x & Hx & [->|(-> & -> & Hs)])%Hlook Hst; [by apply (Hver j)|].
    destruct (Hg x Hx) as [_ Ha]. destruct (Hann i b (Ha b Hst)) as (y & Hy & Hh).
    rewrite Hx in Hy. injection Hy as <-. by apply (decided_by_human_step w x).
Qed.

#[export] Instance human_verdicts_add : GateAdd (preserved human_verdicts).
Proof.
  intros x Hnew w Hx ((Hbr & Hbg & Hbd & Hbo) & Hrun & Hann & Hver).
  assert (Hwk : ∀ A (m : gmap positive A), below (w_next w) m → below (Pos.succ (w_next w)) m).
  { intros A m. apply below_weaken. lia. }
  split_and!; simpl; try (by apply Hwk).
  - by apply below_insert_next.
  - intros j y. rewrite lookup_insert. case_decide; [|apply Hrun]. by intros [= <-].
  - intros j b (y & Hy & Hh)%Hann. exists y. split; [|done].
    rewrite lookup_insert_ne; [done|]. intros <-. specialize (Hbg _ _ Hy). lia.
  - intros j y b. rewrite lookup_insert. case_decide; [|apply Hver].
    intros [= <-] Hs. destruct Hnew. by destruct b.
Qed.

(** The gate and the decision are there for the event to announce. *)
Definition decided_at (gate : positive) (approved : bool) (w : World) : Prop :=
  human_verdicts w ∧ ∃ g, w_gates w !! gate = Some g ∧ decided_by_human w g approved.

#[export] Instance decided_at_engine gate approved : Engine (preserved (decided_at gate approved)).
Proof.
  assert (Hand : ∀ A (m : M A), keeps (preserved human_verdicts) m →
    keeps (preserved (λ w, ∃ g, w_gates w !! gate = Some g ∧ decided_by_human w g approved)) m →
    keeps (preserved (decided_at gate approved)) m).
  { intros A m Hk1 Hk2 w [Hh Hg]. split; [by apply Hk1|by apply Hk2]. }
  split; [apply _|..].
  - apply Hand; [apply engine_uuid4|apply keeps_uuid4; apply _].
  - apply Hand; [apply engine_flush|apply keeps_flush; apply _].
  - intros. apply Hand; [by apply engine_emit|by apply (engine_closed (preserved _))].
Qed.

Lemma human_verdicts_announce gate approved ws aggt agg corr tr sp d by_ ca v :
  keeps_under (decided_at gate approved) (preserved human_verdicts)
    (emit (verdict_type approved) ws aggt agg corr tr sp
       (JObj [("review_gate_id", JStr (uuid_str gate)); ("decision_id", d)]) by_ ca v).
Proof.
  intros w (Hok & g & Hi & Hh) _.
  destruct (emit_run (verdict_type approved) ws aggt agg corr tr sp
    (JObj [("review_gate_id", JStr (uuid_str gate)); ("decision_id", d)]) by_ ca v w)
    as (e & w' & -> & Ht & Hp & Ho & Hn & Hg & Hd & Hr).
  change (human_verdicts w'). pose proof Hok as ((Hbr & Hbg & Hbd & Hbo) & Hrun & Hann & Hver).
  assert (Hwk : ∀ A (m : gmap positive A), below (w_next w) m → below (Pos.succ (w_next w)) m).
  { intros A m. apply below_weaken. lia. }
  unfold human_verdicts. rewrite Hn, Hg, Hd, Hr, Ho. split_and!; try (by apply Hwk); try done.
  - by apply below_insert_next.
  - intros j b (k & f & Hk & Hft & Hfp). rewrite Ho, lookup_insert in Hk. case_decide.
    + injection Hk as <-. unfold payload_gate in Hfp. rewrite Hp in Hfp. simpl in Hfp.
      rewrite uuid_parse_str in Hfp. injection Hfp as <-. rewrite Ht in Hft.
      apply verdict_type_inj in Hft as <-. exists g. split; [done|].
      by apply (decided_by_human_gates w).
    + destruct (Hann j b) as (y & Hy & Hhy); [by exists k, f|]. exists y. split; [done|].
      by apply (decided_by_human_gates w).
  - intros j y b Hj Hs. apply (decided_by_human_gates w); [done..|]. by apply (Hver j).
Qed.

(** A new decision is under a fresh key. *)
Lemma decided_at_record gate g (approved : bool) notes reviewer r item w w' :
  human_verdicts w → w_gates w !! gate = Some g → is_Some (gate_decided_by g) →
  w_runs w !! gate_pipeline_run_id g = Some r → run_content_item_id r = Some item →
  w_next w' = Pos.succ (w_next w) → w_gates w' = w_gates w → w_runs w' = w_runs w →
  w_outbox w' = w_outbox w →
  w_decisions w' = <[w_next w := mk_decision (gate_workspace_id g) item reviewer
    (if approved then DECISION_APPROVED else DECISION_REJECTED) notes]> (w_decisions w) →
  decided_at gate approved w'.
Proof.
  intros ((Hbr & Hbg & Hbd & Hbo) & Hrun & Hann & Hver) Hi Hu Hr Hitem Hn Hg Hru Ho Hd.
  assert (Hold : ∀ d dec, w_decisions w !! d = Some dec → w_decisions w' !! d = Some dec).
  { intros d dec Hdec. rewrite Hd, lookup_insert_ne; [done|]. intros <-.
    by rewrite (below_fresh _ _ Hbd) in Hdec. }
  assert (Hmono : ∀ y b, decided_by_human w y b → decided_by_human w' y b).
  { intros y b. apply decided_by_human_mono; [done|by apply runs_stay|done..]. }
  assert (Hwk : ∀ A (m : gmap positive A), below (w_next w) m → below (Pos.succ (w_next w)) m).
  { intros A m. apply below_weaken. lia. }
  split.
  - unfold human_verdicts. rewrite Hn, Hg, Hru, Ho. split_and!; try (by apply Hwk); try done.
    + rewrite Hd. by apply below_insert_next.
    + intros j b (k & f & Hk & Hf). destruct (Hann j b) as (y & Hy & Hh).
      { exists k, f. by rewrite <- Ho. }
      exists y. auto.
    + intros j y b Hj Hs. apply Hmono. by apply (Hver j).
  - exists g. rewrite Hg. split; [done|]. split; [done|].
    exists (w_next w). eexists. exists r. rewrite Hd, Hru, lookup_insert_eq.
    split; [reflexivity|]. by split_and!.
Qed.

#[export] Instance human_verdicts_reviewing : Reviewing (preserved human_verdicts).
Proof.
  intros gate u approved notes w Hok. unfold submit_review_decision.
  rewrite run_bind, run_the. destruct (w_gates w !! gate) as [x|] eqn:Hi; [|done].
  destruct (bool_decide_reflect (gate_status x = GATE_AWAITING)) as [Hx|]; [|done].
  change (negb true) with false. cbv iota. rewrite run_bind. simpl.
  destruct (w_runs w !! gate_pipeline_run_id x) as [r|] eqn:Hr; [|done].
  simpl. destruct (run_content_item_id r) as [item|] eqn:Hitem; [|done].
  simpl. rewrite run_bind.
  set (w1 := modify w_gates gate (decided_gate u) w).
  assert (Hok1 : human_verdicts w1.2).
  { refine (gate_modify gate (decided_gate u) w _ Hok). intros y Hy. rewrite Hi in Hy.
    injection Hy as <-. split; [by constructor|]. intros b. simpl. rewrite Hx. by destruct b. }
  change w1 with (Ok tt : result exn unit, w1.2). cbv iota beta.
  do 3 (erewrite run_bind_ok by reflexivity).
  match goal with |- human_verdicts (?m ?w3).2 =>
    assert (Hd : decided_at gate approved w3) end.
  { apply (decided_at_record gate (decided_gate u x) approved notes u r item w1.2);
      [done| |by eexists|done..]. simpl. by rewrite lookup_alter_eq, Hi. }
  pose proof (proj1 Hd) as Hok3. revert Hd Hok3.
  match goal with |- decided_at _ _ ?w3 → _ → human_verdicts (?m ?w3).2 =>
    generalize w3; change (keeps_under (decided_at gate approved) (preserved human_verdicts) m) end.
  do 2 (apply keeps_under_bind; [apply _|keeps_tac|keeps_tac|intros ?]).
  apply human_verdicts_announce.
Qed.

Section Reached.
Context `{Settings} (sha256 : string → string).

Lemma reaches_human_verdicts w w' : reaches sha256 w w' → human_verdicts w → human_verdicts w'.
Proof.
intros (ops & Hops & ->). refine (keeps_exec sha256 (preserved human_verdicts) _ ops w Hops).
intros d _. keeps_tac.
Qed.

Lemma reaches_gates w w' : reaches sha256 w w' → gate_evolution w w'.
Proof.
intros (ops & Hops & ->). refine (keeps_exec sha256 gate_evolution _ ops w Hops).
intros d _ v. apply evolution_same; [done|simpl; lia].
Qed.
End Reached.

(** ** Theorems *)

Section Theorems.
Context `{Settings} (sha256 : string → string).

(** C6: every approval and every rejection is a reviewer's. Along every trace a
  gate that is approved (or rejected) names who decided it, and a decision
  of that kind on the content item of its run, in its workspace, is on
  record; an event that announces a verdict is backed in the same way. *)
Theorem verdicts_are_human w w' : reaches sha256 w w' → human_verdicts w → human_verdicts w'.
Proof. apply reaches_human_verdicts. Qed.

(** Along every trace each gate moves along its state machine, from the
  awaiting gate that [pause_for_review] opens, and none is dropped. *)
Theorem gate_lifecycle w w' : reaches sha256 w w' → gates_below w → gates_evolve w w'.
Proof. intros Hr Hb. by apply (reaches_gates sha256 w w' Hr). Qed.

(** C31: a gate that no longer awaits a decision is final: no trace changes any
  column of its row, so that a decision cannot be reversed or repeated. *)
Theorem gate_decision_final w w' i g :
reaches sha256 w w' → gates_below w → w_gates w !! i = Some g → gate_status g ≠ GATE_AWAITING →
w_gates w' !! i = Some g.
Proof.
intros Hr Hb Hi Hg. destruct (reaches_gates sha256 w w' Hr Hb) as (_ & Hs & _).
destruct (Hs i g Hi) as (g' & Hi' & Hsteps). by rewrite (gate_steps_closed g g' Hsteps Hg) in Hi'.
Qed.

(** No gate ever times out. The first timeout escalates the gate, which
  then no longer awaits a decision, and the second timeout only looks at
  gates that do: the status [timed_out] is out of reach. *)
Theorem gates_never_time_out w w' i g :
reaches sha256 w w' → untimed w → w_gates w' !! i = Some g → gate_status g ≠ GATE_TIMED_OUT.
Proof.
intros (ops & Hops & ->) Hok Hi.
assert (Hok' : untimed (exec sha256 ops w)).
{ refine (keeps_exec sha256 (preserved untimed) _ ops w Hops Hok). intros d _. keeps_tac. }
by apply (Hok' i g).
Qed.
End Theorems.

(** ** The demo deployment *)

Lemma demo_gates_below : gates_below demo.
Proof. intros i g. simpl. by rewrite lookup_empty. Qed.

Lemma demo_human_verdicts : human_verdicts demo.
Proof.
  split_and!; simpl; try (intros i x; by rewrite lookup_empty).
  - intros i r Hi. change (w_runs demo) with ({[ 20%positive := demo_run ]}
      : gmap positive PipelineRun) in Hi. by apply lookup_singleton_Some in Hi as [<- _].
  - intros i b (j & e & Hj & _). simpl in Hj. by rewrite lookup_empty in Hj.
Qed.

Lemma demo_untimed : untimed demo.
Proof. intros i g. simpl. by rewrite lookup_empty. Qed.

Lemma demo_reaches_decided : reaches demo_hash demo demo_decided.
Proof.
  exists (demo_ops ++ demo_verdict). split.
  - apply Forall_app. split; [exact demo_ops_ok|by apply Forall_singleton].
  - unfold demo_decided, demo_review, exec. by rewrite foldl_app.
Qed.

Lemma demo_approved :
  ∃ g, w_gates demo_decided !! 1017%positive = Some g ∧ gate_status g = GATE_APPROVED.
Proof.
  destruct (passes_some (λ g, bool_decide (gate_status g = GATE_APPROVED))
    (w_gates demo_decided !! 1017%positive)) as (g & Hg & Hs%bool_decide_eq_true); [by vm_compute|].
  exact (ex_intro _ g (conj Hg Hs)).
Qed.

Lemma verdicts_are_human_witness :
  ∃ g, w_gates demo_decided !! 1017%positive = Some g ∧ decided_by_human demo_decided g true.
Proof.
  destruct demo_approved as (g & Hg & Hs).
  destruct (verdicts_are_human demo_hash demo demo_decided demo_reaches_decided demo_human_verdicts)
    as (_ & _ & _ & Hver).
  exact (ex_intro _ g (conj Hg (Hver 1017%positive g true Hg Hs))).
Defined.

Lemma gate_lifecycle_witness : gates_below demo ∧ gates_evolve demo demo_decided.
Proof.
  split; [exact demo_gates_below|].
  exact (gate_lifecycle demo_hash demo demo_decided demo_reaches_decided demo_gates_below).
Defined.

Lemma gate_decision_final_witness :
  ∃ g, w_gates demo_decided !! 1017%positive = Some g ∧
    w_gates (exec demo_hash [DecideGate 1 1017 8 false None None] demo_decided) !! 1017%positive
    = Some g.
Proof.
  destruct demo_approved as (g & Hg & Hs). exists g. split; [exact Hg|].
  refine (gate_decision_final demo_hash demo_decided _ 1017 g _ _ Hg _).
  - exists [DecideGate 1 1017 8 false None None]. split; [by apply Forall_singleton|reflexivity].
  - exact (proj1 (reaches_gates demo_hash demo demo_decided demo_reaches_decided demo_gates_below)).
  - by rewrite Hs.
Defined.

Lemma gates_never_time_out_witness :
  untimed demo ∧ ∀ i g, w_gates demo_decided !! i = Some g → gate_status g ≠ GATE_TIMED_OUT.
Proof.
  split; [exact demo_untimed|]. intros i g.
  exact (gates_never_time_out demo_hash demo demo_decided i g demo_reaches_decided demo_untimed).
Defined.
