(* ===== verification/PublishSpec.v ===== *)
(** * Nothing is published without a reviewer's approval

    A run reaches the stage PUBLISHED only by the transition that the
    approval of one of its gates takes: along every trace a run that stands
    at PUBLISHED has an approved gate, which a reviewer decided. *)

From S2P Require Import Prelude Models Database Outbox Provenance Assignments Gates Workflow.
From S2P Require Import Retry Spend.
From S2P Require Import SpendSafety Controller Recovery Relay Workers MissionControl ContentDesk Automation.
From S2P Require Import System.
From S2P Require Import System Invariants GateSpec.

(** ** Definitions *)

(** A workflow starts before publication, and only an approval leads there. *)
Definition workflows_ok (w : World) : Prop :=
  (∀ d k s, w_stages w !! (d, k) = Some s → (d < w_next w)%positive ∧ wst_stage_key s = k) ∧
  (∀ d s, w_stages w !! (d, PUBLISHED) = Some s →
     ∃ k s', w_stages w !! (d, k) = Some s' ∧ wst_ordinal s' < wst_ordinal s) ∧
  (∀ i t, w_transitions w !! i = Some t → wtr_to_stage t = PUBLISHED →
     wtr_trigger t = ON_REVIEW_APPROVED).

(** A run that was brought to publication has an approved gate; no dead
    letter is filed under a stage, which a retry would dispatch. *)
Definition gated (w : World) : Prop :=
  workflows_ok w ∧ gates_below w ∧ letters_ok w ∧ ∀ run, sourced run PUBLISHED w → approved_run run w.

(** the stage may be worked on *)
Definition cleared (run : positive) (stage : ContentStage) (w : World) : Prop :=
  stage = PUBLISHED → approved_run run w.

(** ** Lemmas *)

Lemma gated_cleared run stage w : gated w → sourced run stage w → cleared run stage w.
Proof. intros (_ & _ & _ & Hs) Hr ->. by apply Hs. Qed.

(** An operation that leaves workflows alone, brings no run to publication
    unapproved and takes no approval back. *)
Lemma gated_frame w w' :
  (w_next w ≤ w_next w')%positive → w_stages w' = w_stages w → w_transitions w' = w_transitions w →
  below (w_next w') (w_gates w') → (letters_ok w → letters_ok w') →
  (∀ run, approved_run run w → approved_run run w') →
  (∀ run, sourced run PUBLISHED w' → sourced run PUBLISHED w ∨ approved_run run w') →
  gated w → gated w'.
Proof.
  intros Hn Hst Htr Hb Hl Ha Hs ((Hk & Hp & Ht) & _ & Hlok & Hok).
  split; [|split; [exact Hb|split; [by apply Hl|]]].
  - unfold workflows_ok. rewrite Hst, Htr. split_and!; [|done|done].
    intros d k s Hd. destruct (Hk d k s Hd) as [? ?]. split; [lia|done].
  - intros run [Hr|Hr]%Hs; [by apply Ha, Hok|done].
Qed.

(** what [sourced] says of publication *)
Lemma sourced_published run w :
  sourced run PUBLISHED w ↔
  (∃ r, w_runs w !! run = Some r ∧ run_current_stage r = PUBLISHED) ∨
  (∃ i a, w_assignments w !! i = Some a ∧ asn_pipeline_run_id a = run ∧ asn_stage a = PUBLISHED) ∨
  (∃ i j, w_jobs w !! i = Some j ∧ dispatches j run PUBLISHED) ∨
  (∃ i g, w_gates w !! i = Some g ∧ gate_pipeline_run_id g = run ∧ gate_stage g = PUBLISHED).
Proof. split; [intros [Hn|Hs]; [by destruct Hn|exact Hs]|by right]. Qed.

(** A table whose rows, or all but one, are older ones: a source in it that is
    not the new row was one before. *)
Lemma row_before {A} (P : A → Prop) (m m' : gmap positive A) :
  (∀ i x, m' !! i = Some x → P x → (∃ y, m !! i = Some y ∧ P y)) →
  (∃ i x, m' !! i = Some x ∧ P x) → ∃ i x, m !! i = Some x ∧ P x.
Proof. intros Hm (i & x & Hx & Hp). destruct (Hm i x Hx Hp) as (y & ? & ?). by exists i, y. Qed.

Lemma alter_before {A} (P : A → Prop) (m : gmap positive A) i g :
  (∀ x, m !! i = Some x → P (g x) → P x) →
  ∀ j x, alter g i m !! j = Some x → P x → ∃ y, m !! j = Some y ∧ P y.
Proof.
  intros Hg j x. rewrite lookup_alter. case_decide; [|by exists x].
  subst. intros (y & Hy & ->)%fmap_Some Hp. exists y. eauto.
Qed.

#[export] Instance gated_engine : Engine (preserved gated).
Proof.
  refine (engine_of_uuid4 (preserved gated) _). intros w Hok.
  apply (gated_frame w); try done; [simpl; lia| |by left].
  eapply below_weaken; [|apply Hok]. simpl. lia.
Qed.
#[export] Instance gated_emit_any : EmitAny (preserved gated).
Proof. refine (emit_any_of_uuid4 (preserved gated) _). apply engine_uuid4. Qed.

(** *** Runs *)

(** assigning columns of a run, its stage only to one that is cleared *)
Lemma gated_modify_run run stage g :
  (∀ r, run_current_stage (g r) = run_current_stage r ∨ run_current_stage (g r) = stage) →
  keeps_under (cleared run stage) (preserved gated) (modify w_runs run g).
Proof.
  intros Hg w Hc Hok. apply (gated_frame w); try done; [apply Hok|].
  intros x Hx. rewrite sourced_published in Hx. simpl in Hx.
  destruct Hx as [(r & Hr & Hst)|Hx]; [|left; by right; right].
  rewrite lookup_alter in Hr. case_decide; [|left; right; left; by exists r].
  subst x. apply fmap_Some in Hr as (r0 & Hr & ->). destruct (Hg r0) as [Heq|Heq].
  - left; right; left. exists r0. split; [done|congruence].
  - right. apply Hc. congruence.
Qed.

#[export] Instance gated_runs : RunStable (preserved gated).
Proof.
  intros run g Hg w. apply (gated_modify_run run SCRIPTING); [|by intros ?].
  intros r. left. specialize (Hg r). by injection Hg.
Qed.

#[export] Instance gated_run_insert : RunInsert (preserved gated).
Proof.
  intros r Hst w Hok. apply (gated_frame w); try done; [simpl; lia| |].
  - eapply below_weaken; [|apply Hok]. simpl. lia.
  - intros run. rewrite sourced_published. simpl.
    intros [(x & Hx & Hs)|Hs]; left; [|by right; right].
    rewrite lookup_insert in Hx. case_decide; [|by right; left; exists x].
    injection Hx as <-. congruence.
Qed.

(** *** Assignments, jobs and gates *)

#[export] Instance gated_assignments `{Settings} : AssignmentRows (preserved gated).
Proof.
  split.
  - intros i g w Hg Hok. apply (gated_frame w); try done; [apply Hok|].
    intros run. rewrite !sourced_published. intros Hs. left.
    destruct Hs as [Hs|[Hs|[Hs|Hs]]]; [by left| |by right; right; left|by right; right; right].
    right; left. revert Hs. apply row_before. simpl. apply alter_before.
    intros a Ha [Hr Hs]. destruct (Hg a Ha) as [(_ & Hr' & Hs' & _)%asn_step_identity _].
    split; congruence.
  - intros a k _ _ w [_ Hsrc] Hok. apply (gated_frame w); try done; [simpl; lia| |].
    { eapply below_weaken; [|apply Hok]. simpl. lia. }
    intros run. rewrite !sourced_published. simpl.
    intros [Hs|[(i & b & Hb & Hr & Hs)|[Hs|Hs]]];
      [left; by left| |left; by right; right; left|left; by right; right; right].
    rewrite lookup_insert in Hb. case_decide; [|left; right; left; by exists i, b].
    injection Hb as <-. right. subst run. by apply (gated_cleared _ _ w Hok Hsrc).
Qed.

#[export] Instance gated_letters : DeadLetters (preserved gated).
Proof.
  split.
  - intros i e He w Hok. apply (gated_frame w); try done; [apply Hok| |by left].
    intros Hl j x. simpl. rewrite lookup_insert. case_decide; [by intros [= <-]|apply Hl].
  - intros i g Hg w Hok. apply (gated_frame w); try done; [apply Hok| |by left].
    intros Hl j x. simpl. rewrite lookup_alter. case_decide; [|apply Hl].
    intros (y & Hy & ->)%fmap_Some. unfold no_stage. rewrite Hg. by apply (Hl i).
Qed.

#[export] Instance gated_jobs : JobRows (preserved gated).
Proof.
  split.
  - intros i g Hg w Hok. apply (gated_frame w); try done; [apply Hok|].
    intros run. rewrite !sourced_published. intros Hs. left.
    destruct Hs as [Hs|[Hs|[Hs|Hs]]]; [by left|by right; left| |by right; right; right].
    right; right; left. revert Hs. apply row_before. simpl. apply alter_before.
    intros j _ (Ht & Hr & Hs). destruct (Hg j) as (Ht' & Hr' & Hs'). unfold dispatches.
    by rewrite <- Ht', <- Hr', <- Hs'.
  - intros i j w Hsrc Hok. apply (gated_frame w); try done; [apply Hok|].
    intros run. rewrite !sourced_published. simpl.
    intros [Hs|[Hs|[(i' & b & Hb & Hd)|Hs]]];
      [left; by left|left; by right; left| |left; by right; right; right].
    rewrite lookup_insert in Hb. case_decide; [|left; right; right; left; by exists i', b].
    injection Hb as <-. right. by apply (gated_cleared _ _ w Hok (Hsrc run PUBLISHED Hd)).
Qed.

(** An approved gate stays approved. *)
Lemma approved_run_modify run i g w :
  (∀ x, w_gates w !! i = Some x → gate_step x (g x)) →
  approved_run run w → approved_run run (modify w_gates i g w).2.
Proof.
  intros Hg (j & x & Hx & Hr & Hs). simpl. exists j, x. split; [|done].
  change (alter g i (w_gates w) !! j = Some x). rewrite lookup_alter. case_decide; [|done].
  subst. apply Hg, gate_step_identity in Hx as [Hst _]. congruence.
Qed.

#[export] Instance gated_gates : GateRows (preserved gated).
Proof.
  split. intros i g w Hg Hok.
  assert (Hg' : ∀ x, w_gates w !! i = Some x → gate_step x (g x)) by (intros x Hx; by apply Hg).
  apply (gated_frame w); try done.
  - by apply below_alter, Hok.
  - intros run. by apply approved_run_modify.
  - intros run. rewrite !sourced_published. intros Hs. left.
    destruct Hs as [Hs|[Hs|[Hs|Hs]]]; [by left|by right; left|by right; right; left|].
    right; right; right. revert Hs. apply row_before. simpl. apply alter_before.
    intros x Hx [Hr Hs]. destruct (gate_step_identity _ _ (Hg' x Hx)) as (_ & _ & Hr' & Hs' & _).
    split; congruence.
Qed.

(** A gate is opened at a stage its run was brought to. *)
Lemma gated_add_gate x :
  keeps_under (sourced (gate_pipeline_run_id x) (gate_stage x)) (preserved gated) (add_gate x).
Proof.
  intros w Hsrc Hok. pose proof (below_fresh _ _ (proj1 (proj2 Hok))) as Hfresh.
  assert (Ha : ∀ run, approved_run run w → approved_run run (add_gate x w).2).
  { intros run (i & g & Hi & Hg). exists i, g. split; [|done]. simpl.
    rewrite lookup_insert_ne; [done|]. intros <-. congruence. }
  apply (gated_frame w); try done.
  - simpl. lia.
  - simpl. apply below_insert_next, Hok.
  - intros run. rewrite !sourced_published. simpl.
    intros [Hs|[Hs|[Hs|(i & g & Hg & Hr & Hs)]]];
      [left; by left|left; by right; left|left; by right; right; left|].
    rewrite lookup_insert in Hg. case_decide; [|left; right; right; right; by exists i, g].
    injection Hg as <-. right. subst run. apply Ha. by apply (gated_cleared _ _ w Hok Hsrc).
Qed.

(** *** Advancing *)

(** the run exists and the stage may be worked on *)
Definition bringing (run : positive) (stage : ContentStage) (w : World) : Prop :=
  is_Some (w_runs w !! run) ∧ cleared run stage w.

#[export] Instance bringing_stable run stage : RunStable (preserved (bringing run stage)).
Proof. intros i g Hg w [Hr Hc]. split; [|exact Hc]. simpl. by apply lookup_alter_is_Some. Qed.
#[export] Instance moving_stable run stage tr : RunStable (preserved (moving run stage tr)).
Proof. intros i g Hg w [Hs Ha]. split; [|exact Ha]. by apply (run_sourced run stage i g Hg). Qed.

Section Moving.
Context `{Settings}.

Lemma gated_succeed run stage sp :
keeps_under (cleared run stage) (preserved gated) (succeed_run run stage sp).
Proof.
unfold succeed_run. apply keeps_under_bind; [apply _|keeps_tac|keeps_tac|intros t].
apply keeps_under_last; [apply _| |intros _; keeps_tac].
apply gated_modify_run. by right.
Qed.

Lemma gated_pause run stage t :
keeps_under (sourced run stage) (preserved gated) (pause_for_review run stage t).
Proof.
unfold pause_for_review. apply keeps_under_bind; [apply _|keeps_tac|keeps_tac|intros r].
destruct (is_terminal (run_status r)); [apply keeps_under_keeps; keeps_tac|].
do 2 (apply keeps_under_bind; [apply _|keeps_tac|keeps_tac|intros ?]).
destruct (_ : option (positive * ReviewGate)) as [[i g]|]; [apply keeps_under_keeps; keeps_tac|].
apply keeps_under_bind; [apply _|keeps_tac|keeps_tac|intros [item|]];
  [|apply keeps_under_keeps; keeps_tac].
do 2 (apply keeps_under_bind; [apply _|keeps_tac|keeps_tac|intros ?]).
apply keeps_under_last; [apply _| |keeps_tac].
exact (gated_add_gate (mk_gate _ run _ stage _ _ _ _ _ _)).
Qed.

(** bringing a run to its next stage *)
Definition bring_to (run : positive) (to : ContentStage) (sd : WorkflowStage) : M unit :=
span ← next_span run;
modify w_runs run (λ r, r <| run_current_stage := to |>);;
if wst_is_terminal sd then succeed_run run to span
else if wst_is_review_gate sd then
  pause_for_review run (wst_stage_key sd) (wst_timeout_seconds sd);;
  mret tt
else
  enqueue_stage run (wst_stage_key sd) 0 None;;
  mret tt.

Lemma gated_bring run to sd :
wst_stage_key sd = to → keeps_under (bringing run to) (preserved gated) (bring_to run to sd).
Proof.
intros Hk. unfold bring_to. rewrite Hk.
apply keeps_under_bind; [apply _|keeps_tac|keeps_tac|intros sp].
apply (keeps_under_seq _ _ (λ _ w, cleared run to w ∧ sourced run to w)).
- intros w [_ Hc]. revert w Hc. apply gated_modify_run. by right.
- intros w [] w' [[r Hr] Hc] [= <-]. split; [exact Hc|]. right; left.
  eexists. split; [simpl; by rewrite lookup_alter_eq, Hr|done].
- intros _. destruct (wst_is_terminal sd); [|destruct (wst_is_review_gate sd)].
  + intros w [Hc _]. by apply gated_succeed.
  + apply keeps_under_last; [apply _| |keeps_tac]. intros w [_ Hs]. by apply gated_pause.
  + apply keeps_under_last; [apply _| |keeps_tac]. intros w [_ Hs].
    by apply keeps_enqueue_sourced; [apply _..|].
Qed.

(** A transition found is one of the workflow's, with the trigger. *)
Lemma first_matching_in l c w t w' :
first_matching l c w = (Ok (Some t), w') → t ∈ l ∧ w' = w.
Proof.
induction l as [|x l IH]; simpl; [done|]. intros Hm.
apply bind_ok_inv in Hm as (b & w1 & Hc & Hm). unfold lift_result in Hc.
destruct (evaluate_condition (wtr_condition x) c); [|done]. injection Hc as -> <-.
destruct b; [injection Hm as <- <-; split; [by left|done]|].
destruct (IH Hm) as [Hin ->]. split; [by right|done].
Qed.

Lemma find_transition_in d s tr c w t w' :
find_transition d s tr c w = (Ok (Some t), w') →
w' = w ∧ wtr_trigger t = tr ∧ ∃ i, w_transitions w !! i = Some t.
Proof.
unfold find_transition. rewrite run_bind. simpl. intros [Hin ->]%first_matching_in.
split; [done|]. apply elem_of_order_by in Hin.
apply list_elem_of_fmap in Hin as ([i x] & -> & [Hi Ha]%elem_of_rows).
unfold transition_applies in Ha. apply bool_decide_eq_true in Ha as (_ & _ & Htr).
split; [done|]. by exists i.
Qed.
Lemma gated_advance run from tr c :
keeps_under (moving run from tr) (preserved gated) (advance_or_finish run from tr c).
Proof.
unfold advance_or_finish.
apply (keeps_under_seq _ _ (λ _ w, is_Some (w_runs w !! run) ∧ moving run from tr w));
  [apply keeps_under_keeps; keeps_tac| |intros r].
{ intros w r w' Hm [Hr ->]%the_ok_inv. split; [by exists r|done]. }
apply (keeps_under_seq _ _ (λ _ w, is_Some (w_runs w !! run) ∧ moving run from tr w));
  [apply keeps_under_keeps; keeps_tac| |intros d].
{ intros w d w' Hm Hd. unfold run_definition in Hd. destruct (run_definition_id r); [|done].
  by injection Hd as _ <-. }
intros w [Hrun [Hsrc Hap]] Hok. rewrite run_bind.
destruct (find_transition d from tr c w) as [[[t|]|e] w'] eqn:Hf.
- apply find_transition_in in Hf as (-> & Htr & i & Hi). rewrite run_bind.
  unfold get_stage_def at 1. rewrite run_bind. simpl.
  destruct (w_stages w !! (d, wtr_to_stage t)) as [sd|] eqn:Hsd; [|done]. simpl.
  change (gated (bring_to run (wtr_to_stage t) sd w).2).
  pose proof Hok as ((Hk & _ & Ht) & _).
  apply gated_bring; [by apply (Hk d (wtr_to_stage t) sd)| |done].
  split; [done|]. intros Hto. apply Hap. rewrite <- Htr. by apply (Ht i).
- assert (Hw : w' = w).
  { pose proof (keeps_find_transition eq d from tr c w) as Hk. by rewrite Hf in Hk. }
  subst w'. revert w Hrun Hsrc Hap Hok Hf.
  cut (keeps_under (cleared run from) (preserved gated)
    (current_stage_def ← get_stage_def d from;
     if wst_is_terminal current_stage_def then
       span ← next_span run;
       succeed_run run from span
     else raise (ValueError "no matching transition") : M unit)).
  { intros Hcut w _ Hsrc _ Hok _. apply Hcut; [by apply gated_cleared|done]. }
  apply keeps_under_bind; [apply _|keeps_tac|keeps_tac|intros sd].
  destruct (wst_is_terminal sd); [|apply keeps_under_keeps; keeps_tac].
  apply keeps_under_bind; [apply _|keeps_tac|keeps_tac|intros sp]. apply gated_succeed.
- pose proof (keeps_find_transition eq d from tr c w) as Hk. rewrite Hf in Hk. simpl in Hk.
  by subst w'.
Qed.

Lemma by_ordinal_spec a b : by_ordinal a b ↔ wst_ordinal a ≤ wst_ordinal b.
Proof. unfold by_ordinal. by rewrite Is_true_true, Z.leb_le. Qed.
Lemma by_ordinal_total a b : by_ordinal a b || by_ordinal b a.
Proof. rewrite orb_True, !by_ordinal_spec. lia. Qed.
Lemma by_ordinal_trans a b c : by_ordinal a b → by_ordinal b c → by_ordinal a c.
Proof. rewrite !by_ordinal_spec. lia. Qed.

(** The first stage of a workflow comes before publication. *)
Lemma first_stage_cleared d w s l :
workflows_ok w →
order_by by_ordinal (rows (λ k _, bool_decide (k.1 = d)) (w_stages w)).*2 = s :: l →
wst_stage_key s ≠ PUBLISHED.
Proof.
intros (Hk & Hp & _) Ho Hs.
assert (Hmem : ∀ x, x ∈ (rows (λ k _, bool_decide (k.1 = d)) (w_stages w)).*2 ↔
  ∃ k, w_stages w !! (d, k) = Some x).
{ intros x. rewrite list_elem_of_fmap. split.
  - intros ([[d' k] y] & -> & [Hi Hd]%elem_of_rows). simpl in *.
    apply bool_decide_eq_true in Hd as ->. by exists k.
  - intros [k Hi]. exists ((d, k), x). split; [done|]. apply elem_of_rows.
    split; [done|by apply bool_decide_eq_true]. }
destruct (proj1 (Hmem s)) as [k Hi].
{ apply (elem_of_order_by by_ordinal). rewrite Ho. left. }
destruct (Hk d k s Hi) as [_ Hkey]. rewrite Hs in Hkey. subst k.
destruct (Hp d s Hi) as (k & s' & Hi' & Hlt).
pose proof (order_by_head_min by_ordinal s _ l by_ordinal_total by_ordinal_trans Ho s'
  (proj2 (Hmem s') (ex_intro _ k Hi'))) as Hmin.
apply by_ordinal_spec in Hmin. lia.
Qed.

Lemma gated_start run d : keeps (preserved gated) (start_run run d).
Proof.
unfold start_run. apply keeps_bind; [apply _| |intros _].
{ intros w. apply (gated_modify_run run SCRIPTING); [by left|by intros ?]. }
apply keeps_bind; [apply _|keeps_tac|intros _].
intros w Hok. rewrite run_bind. simpl.
destruct (order_by by_ordinal _) as [|s l] eqn:Ho; [done|].
pose proof (first_stage_cleared d w s l (proj1 Hok) Ho) as Hs. clear Ho.
revert w Hok. change (keeps (preserved gated)
  (t ← now;
   modify w_runs run (λ r, r <| run_current_stage := wst_stage_key s |>
                             <| run_started_at := Some t |>);;
   enqueue_stage run (wst_stage_key s) 0 None;;
   mret tt : M unit)).
apply keeps_bind; [apply _|keeps_tac|intros t].
apply keeps_bind; [apply _| |intros _].
{ intros w. apply (gated_modify_run run (wst_stage_key s)); [by right|by intros ?]. }
apply keeps_bind; [apply _| |keeps_tac].
intros w. apply keeps_enqueue_sourced; [apply _..|by left].
Qed.

#[export] Instance gated_moves : Moves (preserved gated).
Proof. split; [exact gated_start|exact gated_advance]. Qed.

#[export] Instance gated_retrying : Retrying (preserved gated).
Proof.
intros updated_at ws u w Hok. by apply (keeps_retry_failed_jobs (preserved gated)); try apply _; try apply Hok.
Qed.
End Moving.

(** *** The desk's workflow *)

Lemma gated_new_workflow ws w w' :
  w_next w' = Pos.succ (Pos.succ (Pos.succ (w_next w))) →
  w_stages w' =
    <[(w_next w, PUBLISHED) := desk_stage ws PUBLISHED 3 3 60 false true]>
    (<[(w_next w, REVIEW) := desk_stage ws REVIEW 2 3 (DEFAULT_REVIEW_TIMEOUT_HOURS * 3600) true false]>
    (<[(w_next w, SCRIPTING) := desk_stage ws SCRIPTING 1 1 600 false false]> (w_stages w))) →
  (∃ i j, w_transitions w' =
    <[j := mk_transition (w_next w) REVIEW PUBLISHED ON_REVIEW_APPROVED None 100]>
    (<[i := mk_transition (w_next w) SCRIPTING REVIEW ON_SUCCESS None 100]> (w_transitions w))) →
  w_gates w' = w_gates w → w_runs w' = w_runs w → w_assignments w' = w_assignments w →
  w_jobs w' = w_jobs w → w_dead_letters w' = w_dead_letters w → gated w → gated w'.
Proof.
  intros Hn Hst (i & j & Htr) Hg Hr Ha Hj Hdl ((Hk & Hp & Ht) & Hb & Hl & Hs).
  split; [split; [|split]|split; [|split]].
  - intros d k s. rewrite Hst, Hn, !lookup_insert.
    repeat case_decide; simplify_eq; try (intros [= <-]; simpl; split; [lia|done]).
    intros [Hd ?]%Hk. split; [lia|done].
  - intros d s. rewrite Hst, lookup_insert. case_decide as Hd.
    + injection Hd as <-. intros [= <-]. exists SCRIPTING. eexists.
      rewrite lookup_insert_ne, lookup_insert_ne, lookup_insert_eq by done. split; [done|simpl; lia].
    + rewrite !lookup_insert_ne by done. intros Hi. destruct (Hk _ _ _ Hi) as [Hlt _].
      destruct (Hp d s Hi) as (k & s' & Hi' & Ho). exists k, s'.
      rewrite !lookup_insert_ne by (intros [= ? ?]; lia). done.
  - intros x t. rewrite Htr, !lookup_insert. repeat case_decide; [by intros [= <-]..|by apply Ht].
  - unfold gates_below. rewrite Hg, Hn. eapply below_weaken; [|exact Hb]. lia.
  - unfold letters_ok. by rewrite Hdl.
  - intros run. unfold approved_run. rewrite sourced_published, Hg, Hr, Ha, Hj.
    intros Hsrc. apply Hs. by apply sourced_published.
Qed.

#[export] Instance gated_desk_workflow : DeskWorkflow (preserved gated).
Proof.
  intros ws u. unfold ensure_desk_workflow.
  apply keeps_bind; [apply _|keeps_tac|intros found].
  apply keeps_bind; [apply _|keeps_tac|intros [[i d]|]]; [keeps_tac|].
  intros w Hok. do 4 (erewrite run_bind_ok by reflexivity).
  do 5 (erewrite run_bind_ok by reflexivity).
  apply (gated_new_workflow ws w); [done|done|by eexists _, _|done..].
Qed.

(** ** Theorems *)

Section Reached.
Context `{Settings} (sha256 : string → string).

Lemma reaches_gated w w' : reaches sha256 w w' → gated w → gated w'.
Proof.
intros (ops & Hops & ->). refine (keeps_exec sha256 (preserved gated) _ ops w Hops).
intros d _. keeps_tac.
Qed.

(** C1: nothing is published without a reviewer. Along every trace a run that
  stands at the stage PUBLISHED has a gate that was approved, that gate names
  the reviewer who decided it, and an approving decision on the content item
  of the run is on record: no request, tick, retry or recovery brings a run
  there in another way. *)
Theorem published_needs_approval w w' run r :
reaches sha256 w w' → gated w → human_verdicts w →
w_runs w' !! run = Some r → run_current_stage r = PUBLISHED →
∃ i g, w_gates w' !! i = Some g ∧ gate_pipeline_run_id g = run ∧
  gate_status g = GATE_APPROVED ∧ decided_by_human w' g true.
Proof.
intros Hreach Hok Hhum Hr Hst.
destruct (reaches_gated w w' Hreach Hok) as (_ & _ & _ & Hs).
destruct (Hs run) as (i & g & Hi & Hg & Ha); [right; left; by exists r|].
exists i, g. split_and!; [done..|].
destruct (reaches_human_verdicts sha256 w w' Hreach Hhum) as (_ & _ & _ & Hver).
by apply (Hver i g true).
Qed.
End Reached.

(** ** The demo deployment *)

Lemma demo_stages_inv d k s :
  w_stages demo !! (d, k) = Some s →
  d = 10%positive ∧
  ((k = SCRIPTING ∧ s = desk_stage 1 SCRIPTING 1 3 600 false false) ∨
   (k = REVIEW ∧ s = desk_stage 1 REVIEW 2 3 172800 true false) ∨
   (k = PUBLISHED ∧ s = desk_stage 1 PUBLISHED 3 3 60 false true)).
Proof.
  change (w_stages demo) with demo_stages. unfold demo_stages.
  rewrite !lookup_insert_Some, lookup_singleton_Some.
  intros [[[= <- <-] <-]|[_ [[[= <- <-] <-]|[_ [[= <- <-] <-]]]]]; (split; [done|]); auto.
Qed.

Lemma demo_gated : gated demo.
Proof.
  split; [split; [|split]|split; [|split]].
  - intros d k s [-> [[-> ->]|[[-> ->]|[-> ->]]]]%demo_stages_inv; done.
  - intros d s [-> [[? _]|[[? _]|[_ ->]]]]%demo_stages_inv; [done..|].
    exists SCRIPTING. eexists. split; [reflexivity|done].
  - intros i t. change (w_transitions demo) with demo_transitions. unfold demo_transitions.
    rewrite lookup_insert_Some, lookup_singleton_Some. by intros [[_ <-]|[_ [_ <-]]].
  - exact demo_gates_below.
  - intros i e. simpl. by rewrite lookup_empty.
  - intros run. rewrite sourced_published.
    intros [(r & Hr & Hs)|[(i & a & Hi & _)|[(i & j & Hi & Hd)|(i & g & Hi & _)]]]; exfalso.
    + change (w_runs demo) with ({[ 20%positive := demo_run ]} : gmap positive PipelineRun) in Hr.
      by apply lookup_singleton_Some in Hr as [_ <-].
    + simpl in Hi. by rewrite lookup_empty in Hi.
    + change (w_jobs demo) with ({[ 30%positive := demo_job ]} : gmap positive JobSchedule) in Hi.
      apply lookup_singleton_Some in Hi as [_ <-]. by destruct Hd as (_ & _ & [=]).
    + simpl in Hi. by rewrite lookup_empty in Hi.
Qed.

Lemma demo_published :
  ∃ r, w_runs demo_decided !! 20%positive = Some r ∧ run_current_stage r = PUBLISHED.
Proof.
  destruct (passes_some (λ r, bool_decide (run_current_stage r = PUBLISHED))
    (w_runs demo_decided !! 20%positive)) as (r & Hr & Hs%bool_decide_eq_true); [by vm_compute|].
  exact (ex_intro _ r (conj Hr Hs)).
Qed.

Lemma published_needs_approval_witness :
  ∃ r i g, w_runs demo_decided !! 20%positive = Some r ∧ run_current_stage r = PUBLISHED ∧
    w_gates demo_decided !! i = Some g ∧ decided_by_human demo_decided g true.
Proof.
  destruct demo_published as (r & Hr & Hs).
  destruct (published_needs_approval demo_hash demo demo_decided 20 r demo_reaches_decided
    demo_gated demo_human_verdicts Hr Hs) as (i & g & Hi & _ & _ & Hh).
  exact (ex_intro _ r (ex_intro _ i (ex_intro _ g (conj Hr (conj Hs (conj Hi Hh)))))).
Defined.
