(* ===== verification/PublicationSpec.v ===== *)
(** * What the publication gate lets through

    [assert_publishable] returns a decision exactly when every control holds,
    and then the item carries the approval of a human reviewer; the
    fingerprint of a script tells its words apart and nothing else. *)

From S2P Require Import Prelude Models Database Outbox Provenance Gates Controller Text.
From S2P Require Import ContentDesk Publication System Invariants GateSpec.

(** ** Definitions *)

Section Definitions.
Context (eligibility : gmap positive PublicationEligibility).

(** the unique constraint on item and platform *)
Definition one_row_each : Prop :=
∀ i j x y, eligibility !! i = Some x → eligibility !! j = Some y →
pel_content_item_id x = pel_content_item_id y → pel_platform x = pel_platform y → i = j.

(** the gate is the approval of this version of this item *)
Definition gate_clears (ws item gate : positive) (w : World) : Prop :=
∃ g r it v, w_gates w !! gate = Some g ∧ gate_workspace_id g = ws ∧
gate_status g = GATE_APPROVED ∧
w_runs w !! gate_pipeline_run_id g = Some r ∧ run_workspace_id r = ws ∧
run_content_item_id r = Some item ∧
w_items w !! item = Some it ∧ item_workspace_id it = ws ∧
gate_content_version_id g = Some v ∧ item_current_version_id it = Some v.

(** the row attests disclosure, rights and originality *)
Definition row_clears (ws item : positive) (platform : string) (row : PublicationEligibility) : Prop :=
pel_synthetic_media_disclosed row = true ∧
is_Some (pel_rights_confirmed_by row) ∧ is_Some (pel_rights_confirmed_at row) ∧
(∃ f, pel_originality_fingerprint row = Some f ∧ f ≠ EmptyString ∧
 ∀ i e, eligibility !! i = Some e → pel_workspace_id e = ws → pel_platform e = platform →
   pel_originality_fingerprint e = Some f → pel_content_item_id e = item).

Definition row_for (ws item : positive) (platform : string) (e : PublicationEligibility) : Prop :=
pel_workspace_id e = ws ∧ pel_content_item_id e = item ∧ pel_platform e = platform.

Definition cleared (ws item : positive) (platform : string) (w : World) (d : PublicationDecision) : Prop :=
pd_content_item_id d = item ∧ pd_platform d = lower (strip platform) ∧
pd_platform d ∈ SUPPORTED_PLATFORMS ∧
∃ row, eligibility !! pd_eligibility_id d = Some row ∧ row_for ws item (pd_platform d) row ∧
pel_review_gate_id row = Some (pd_review_gate_id d) ∧
gate_clears ws item (pd_review_gate_id d) w ∧ row_clears ws item (pd_platform d) row.
End Definitions.

(** the words of a script, up to case *)
Definition part_words (part : option string) : list string := split (lower (default EmptyString part)).
Definition script_words (parts : list (option string)) : list string := concat (map part_words parts).
Definition blank_part (part : option string) : Prop := part_words part = [].

(** ** Lemmas *)

Section Controls.
Context (eligibility : gmap positive PublicationEligibility).

Lemma eligibility_of_spec ws item platform e :
eligibility_of ws item platform e = true ↔ row_for ws item platform e.
Proof.
unfold eligibility_of, row_for. rewrite !andb_true_iff, !bool_decide_eq_true, String.eqb_eq. tauto.
Qed.

(** The query finds the row of the item and platform, or there is none. *)
Lemma run_eligibility ws item platform (w : World) :
one_row_each eligibility →
∃ o, scalar_one_or_none (rows (λ _, eligibility_of ws item platform) eligibility) w = (Ok o, w) ∧
match o with
| None => ∀ i e, eligibility !! i = Some e → ¬ row_for ws item platform e
| Some (i, row) => eligibility !! i = Some row ∧ row_for ws item platform row ∧
    ∀ j e, eligibility !! j = Some e → row_for ws item platform e → e = row
end.
Proof.
intros Hu. destruct (rows _ eligibility) as [|[i row] l] eqn:Hr.
{ exists None. split; [done|]. intros i e Hi He%eligibility_of_spec.
by rewrite (rows_nil _ _ _ _ Hr Hi) in He. }
assert (Hi : (i, row) ∈ (i, row) :: l) by left. rewrite <- Hr in Hi.
apply elem_of_rows in Hi as [Hi Hrow].
assert (Hone : ∀ j e, eligibility !! j = Some e → row_for ws item platform e → j = i).
{ apply eligibility_of_spec in Hrow as (_ & ? & ?). intros j e Hj (_ & ? & ?).
apply (Hu j i e row Hj Hi); congruence. }
rewrite (rows_unique _ _ i row Hi Hrow) in Hr; [|intros j e Hj He%eligibility_of_spec; by eapply Hone].
injection Hr as <-. exists (Some (i, row)). split_and!; [done..|by apply eligibility_of_spec|].
intros j e Hj He. rewrite (Hone j e Hj He) in Hj. congruence.
Qed.

Lemma run_approved_gate ws item row w :
match approved_gate ws item row w with
| (Ok g, w') => w' = w ∧ pel_review_gate_id row = Some g ∧ gate_clears ws item g w
| (Raise e, w') => w' = w ∧ (∃ c, e = PublicationBlocked c) ∧
  ∀ g, pel_review_gate_id row = Some g → ¬ gate_clears ws item g w
end.
Proof.
unfold approved_gate, blocked, session_get, gate_clears.
destruct (pel_review_gate_id row) as [gate|]; [|by split_and!; eauto].
rewrite run_bind. simpl.
destruct (w_gates w !! gate) as [g|] eqn:Hg; [|split_and!; naive_solver].
case_bool_decide as Hws; simpl; [|split_and!; naive_solver].
case_bool_decide as Hst; simpl; [|split_and!; naive_solver].
rewrite run_bind. simpl.
destruct (w_runs w !! gate_pipeline_run_id g) as [r|] eqn:Hr; [|split_and!; naive_solver].
case_bool_decide as Hrw; simpl; [|split_and!; naive_solver].
case_bool_decide as Hri; simpl; [|split_and!; naive_solver].
rewrite run_bind. simpl.
destruct (w_items w !! item) as [it|] eqn:Hit; [|split_and!; naive_solver].
case_bool_decide as Hiw; simpl; [|split_and!; naive_solver].
destruct (gate_content_version_id g) as [v|] eqn:Hv, (item_current_version_id it) as [v'|] eqn:Hv';
[|split_and!; naive_solver..].
case_bool_decide as Heq; [subst v'|split_and!; naive_solver].
split_and!; [done..|]. exists g, r, it, v. done.
Qed.

Lemma run_attested ws item platform row w :
match attested eligibility ws item platform row w with
| (Ok _, w') => w' = w ∧ row_clears eligibility ws item platform row
| (Raise e, w') => w' = w ∧ (∃ c, e = PublicationBlocked c) ∧
  ¬ row_clears eligibility ws item platform row
end.
Proof.
unfold attested, blocked, row_clears.
destruct (pel_synthetic_media_disclosed row) eqn:Hd; simpl; [|split_and!; naive_solver].
destruct (pel_rights_confirmed_by row) as [u|], (pel_rights_confirmed_at row) as [t|];
[|split_and!; try done; [by eexists|intros (_ & [? ?] & [? ?] & _); done]..].
destruct (String.eqb_spec (default EmptyString (pel_originality_fingerprint row)) EmptyString) as [He|He].
{ split_and!; [done|by eexists|]. intros (_ & _ & _ & f & Hf & Hne & _). by rewrite Hf in He. }
destruct (pel_originality_fingerprint row) as [f|] eqn:Hf; [simpl in He|done].
destruct (rows _ eligibility) as [|[i e] l] eqn:Hrows.
- split_and!; [done..|]. exists f. split_and!; [done..|]. intros i e Hi Hw Hp Hfe.
pose proof (rows_nil _ _ i e Hrows Hi) as Hdup. unfold duplicate_of in Hdup.
rewrite (bool_decide_eq_true_2 _ Hw), Hp, String.eqb_refl, Hf in Hdup.
rewrite (bool_decide_eq_true_2 _ Hfe) in Hdup. simpl in Hdup.
by apply negb_false_iff, bool_decide_eq_true in Hdup.
- split_and!; [done|by eexists|]. intros (_ & _ & _ & f' & [= <-] & _ & Hu).
assert (Hin : (i, e) ∈ (i, e) :: l) by left. rewrite <- Hrows in Hin.
apply elem_of_rows in Hin as [Hi Hdup]. unfold duplicate_of in Hdup.
rewrite Hf, !andb_true_iff, !bool_decide_eq_true, String.eqb_eq, negb_true_iff,
  bool_decide_eq_false in Hdup. destruct Hdup as [[[Hw Hp] Hfe] Hne]. by apply Hne, (Hu i).
Qed.
End Controls.

Lemma part_words_words part : Forall (λ w, is_word w = true) (part_words part).
Proof. apply split_is_words. Qed.

Lemma script_words_words parts : Forall (λ w, is_word w = true) (script_words parts).
Proof.
unfold script_words. induction parts as [|p parts IH]; simpl; [done|].
apply Forall_app. split; [apply part_words_words|done].
Qed.

Lemma normalized_script_words parts :
Forall (λ p, ¬ blank_part p) parts → normalized_script parts = join " " (script_words parts).
Proof.
intros Hb. unfold normalized_script, script_words.
assert (Hm : map normalized_part parts = map (join " ") (map part_words parts))
  by (rewrite map_map; done).
rewrite Hm, join_join; [by apply strip_join, (script_words_words parts)|].
apply Forall_map. eapply Forall_impl; [exact Hb|]. done.
Qed.

(** ** Theorems *)

(** C37: the publication gate is exact and read-only: it returns a decision
    exactly when every control holds (a supported platform, an eligibility row,
    an approved gate of this item bound to its current version, disclosure,
    confirmed rights, a fingerprint no other item of the workspace carries on
    that platform); otherwise it raises [PublicationBlocked], whatever the
    state, and no branch changes the state. *)
Theorem publishable_exactly eligibility ws item platform w :
  one_row_each eligibility →
  match assert_publishable eligibility ws item platform w with
  | (Ok d, w') => w' = w ∧ cleared eligibility ws item platform w d
  | (Raise e, w') => w' = w ∧ (∃ code, e = PublicationBlocked code) ∧
      ∀ d, ¬ cleared eligibility ws item platform w d
  end.
Proof.
  intros Hu. unfold assert_publishable, blocked, cleared.
  case_bool_decide as Hp; simpl; [|split_and!; [done|by eexists|]; by intros d (_ & -> & ? & _)].
  destruct (run_eligibility eligibility ws item (lower (strip platform)) w Hu) as (o & Hq & Ho).
  rewrite (run_bind_ok _ _ _ _ _ Hq). destruct o as [[i row]|]; simpl.
  2: { split_and!; [done|by eexists|]. intros d (_ & -> & _ & row & Hi & Hrow & _). by eapply Ho. }
  destruct Ho as (Hi & Hrow & Hone). rewrite run_bind.
  pose proof (run_approved_gate ws item row w) as Hgate.
  destruct (approved_gate ws item row w) as [[g|e] w1].
  2: { destruct Hgate as (-> & Hc & Hno). split_and!; [done..|].
       intros d (_ & Hd & _ & x & Hx & Hxr & Hg & Hcl & _). rewrite Hd in Hxr.
       rewrite (Hone _ x Hx Hxr) in Hg. by apply (Hno _ Hg). }
  destruct Hgate as (-> & Hg & Hcl). rewrite run_bind.
  pose proof (run_attested eligibility ws item (lower (strip platform)) row w) as Hatt.
  destruct (attested eligibility ws item (lower (strip platform)) row w) as [[[]|e] w1].
  - destruct Hatt as [-> Hrc]. split_and!; [done..|]. by exists row.
  - destruct Hatt as (-> & Hc & Hno). split_and!; [done..|].
    intros d (_ & Hd & _ & x & Hx & Hxr & _ & _ & Hrc). rewrite Hd in *.
    by rewrite (Hone _ x Hx Hxr) in Hrc.
Qed.

(** Whatever the publication gate lets through was approved by a human: in
    every state a trace reaches, the gate its decision names was approved by a
    named reviewer for the current version of that very item, and an approving
    decision on the item is on record. *)
Theorem publishable_needs_human `{Settings} sha256 eligibility ws item platform w w' d :
  reaches sha256 w w' → human_verdicts w → one_row_each eligibility →
  assert_publishable eligibility ws item platform w' = (Ok d, w') →
  ∃ g it dec i, w_gates w' !! pd_review_gate_id d = Some g ∧ is_Some (gate_decided_by g) ∧
    w_items w' !! item = Some it ∧ gate_content_version_id g = item_current_version_id it ∧
    w_decisions w' !! i = Some dec ∧ rdec_decision dec = DECISION_APPROVED ∧
    rdec_content_item_id dec = item ∧ rdec_workspace_id dec = ws.
Proof.
  intros Hr Hh Hu Ha. pose proof (publishable_exactly eligibility ws item platform w' Hu) as Hp.
  rewrite Ha in Hp. destruct Hp as (_ & _ & _ & _ & row & _ & _ & _ & Hg & _).
  destruct Hg as (g & r & it & v & Hi & Hws & Hst & Hrun & _ & Hri & Hit & _ & Hv & Hv').
  destruct (reaches_human_verdicts sha256 w w' Hr Hh) as (_ & _ & _ & Hver).
  destruct (Hver _ g true Hi Hst) as (Hby & i & dec & r' & Hdec & Hok & Hdw & Hr' & Hitem).
  exists g, it, dec, i. rewrite Hv, Hv'. split_and!; try done; congruence.
Qed.

(** A script's fingerprint names its words: of scripts without a blank part,
    two have the same fingerprint exactly when they have the same words up to
    case, however they are spaced or cut into parts, unless their digests
    collide. *)
Theorem fingerprint_names_words sha256 parts parts' :
  (∀ s t, sha256 s = sha256 t → s = t) →
  Forall (λ p, ¬ blank_part p) parts → Forall (λ p, ¬ blank_part p) parts' →
  fingerprint_script sha256 parts = fingerprint_script sha256 parts' ↔
  script_words parts = script_words parts'.
Proof.
  intros Hinj Hb Hb'. unfold fingerprint_script. rewrite !normalized_script_words by done.
  pose proof (script_words_words parts) as Hw. pose proof (script_words_words parts') as Hw'.
  split; [|by intros ->].
  destruct (String.eqb_spec (join " " (script_words parts)) EmptyString) as [He|He],
    (String.eqb_spec (join " " (script_words parts')) EmptyString) as [He'|He']; try done.
  - intros _. by rewrite (join_nil_inv _ Hw He), (join_nil_inv _ Hw' He').
  - intros [= Hs%Hinj]. by rewrite <- (split_join _ Hw), Hs, (split_join _ Hw').
Qed.

(** ** The demo deployment *)

(** the eligibility rows of the demo's item (21) and of another item *)
Definition demo_eligibility : gmap positive PublicationEligibility :=
{[ 90%positive := mk_eligibility 1 21 "youtube" true (Some 7%positive) (Some t0) (Some "f1")
                    (Some 1017%positive);
   91%positive := mk_eligibility 1 26 "youtube" true None None (Some "f2") None ]}.

Lemma demo_one_row_each : one_row_each demo_eligibility.
Proof.
  intros i j x y. unfold demo_eligibility. rewrite !lookup_insert_Some, !lookup_singleton_Some.
  intros [[<- <-]|[? [<- <-]]] [[<- <-]|[? [<- <-]]]; done.
Qed.

Definition granted_publication (r : result exn PublicationDecision * World) : bool :=
match r.1 with Ok _ => true | Raise _ => false end.

Lemma granted_publication_ok eligibility ws item platform w :
  granted_publication (assert_publishable eligibility ws item platform w) = true →
  ∃ d, assert_publishable eligibility ws item platform w = (Ok d, w).
Proof.
  pose proof (keeps_assert_publishable (frame (λ w : World, w)) eligibility ws item platform w) as Hk.
  unfold granted_publication, frame in *.
  destruct (assert_publishable eligibility ws item platform w) as [[d|e] w']; [|done].
  simpl in Hk. subst w'. by exists d.
Qed.

Lemma demo_publishable :
  ∃ d, assert_publishable demo_eligibility 1 21 " YouTube" demo_decided = (Ok d, demo_decided).
Proof. apply granted_publication_ok. vm_compute. reflexivity. Qed.

Lemma publishable_exactly_witness :
  ∃ d, assert_publishable demo_eligibility 1 21 " YouTube" demo_decided = (Ok d, demo_decided) ∧
    cleared demo_eligibility 1 21 " YouTube" demo_decided d.
Proof.
  destruct demo_publishable as [d Hd].
  pose proof (publishable_exactly demo_eligibility 1 21 " YouTube" demo_decided demo_one_row_each) as Hp.
  rewrite Hd in Hp. exact (ex_intro _ d (conj Hd (proj2 Hp))).
Defined.

Lemma publishable_needs_human_witness :
  ∃ g dec i, w_gates demo_decided !! 1017%positive = Some g ∧ is_Some (gate_decided_by g) ∧
    w_decisions demo_decided !! i = Some dec ∧ rdec_content_item_id dec = 21%positive.
Proof.
  destruct demo_publishable as [d Hd].
  pose proof (publishable_exactly demo_eligibility 1 21 " YouTube" demo_decided demo_one_row_each) as Hp.
  rewrite Hd in Hp. destruct Hp as (_ & _ & _ & _ & row & Hrow & [_ [Hit _]] & Hg & _).
  destruct (publishable_needs_human demo_hash demo_eligibility 1 21 " YouTube" demo demo_decided d
    demo_reaches_decided demo_human_verdicts demo_one_row_each Hd)
    as (g & it & dec & i & Hi & Hby & _ & _ & Hdec & _ & Hitem & _).
  unfold demo_eligibility in Hrow. apply lookup_insert_Some in Hrow as [[_ <-]|[_ Hrow]].
  - injection Hg as Heq. rewrite <- Heq in Hi.
    exact (ex_intro _ g (ex_intro _ dec (ex_intro _ i (conj Hi (conj Hby (conj Hdec Hitem)))))).
  - apply lookup_singleton_Some in Hrow as [_ <-]. discriminate Hit.
Defined.

Lemma fingerprint_names_words_witness :
  fingerprint_script (λ s, s) [Some "The  Bees"; Some "fly"]
  = fingerprint_script (λ s, s) [Some "the"; Some " bees FLY "] ∧
  fingerprint_script (λ s, s) [Some "The  Bees"; Some "fly"]
  ≠ fingerprint_script (λ s, s) [Some "the"; Some "bees"].
Proof.
  assert (Hb : ∀ l, existsb (λ p, match part_words p with [] => true | _ => false end) l = false →
    Forall (λ p, ¬ blank_part p) l).
  { induction l as [|p l IH]; [constructor|]. simpl. intros [Hp Hl]%orb_false_iff.
    constructor; [|by apply IH]. unfold blank_part. by destruct (part_words p). }
  split.
  - apply (fingerprint_names_words (λ s, s)); [done|by apply Hb..|reflexivity].
  - intros Heq. apply (fingerprint_names_words (λ s, s)) in Heq; [discriminate|done|by apply Hb..].
Defined.
