(* ===== verification/RateLimitSpec.v ===== *)
(** * What the rate limiters admit

    Both limiters answer as one reference: a table of fixed windows without
    bound or cleanup, so that a key is admitted at most twice the limit within
    any window's length.  The in-memory table stays within its cap on every
    trace, and the middleware fails closed. *)

From S2P Require Import Prelude Models RateLimit.

(** ** Definitions *)

Section Traces.
Context {Q R S : Type} (check : Q → S → R * S).
Fixpoint run_checks (trace : list Q) (s : S) : list R * S :=
match trace with
| [] => ([], s)
| q :: trace => let '(r, s1) := check q s in let '(rs, s2) := run_checks trace s1 in (r :: rs, s2)
end.
End Traces.

(** The reference limiter: the windows of all keys, kept for ever. *)
Section Reference.
Context (max_requests window_seconds : Z).

Definition reference_check (q : string * time) (m : gmap string Window) :
RateLimitCheckResult * gmap string Window :=
let '(key, now) := q in
match live_window window_seconds now (m !! key) with
| None => ((true, 0), <[key := mk_window now 1]> m)
| Some w =>
  if win_count w <? max_requests
  then ((true, 0), <[key := w <| win_count ::= Z.succ |>]> m)
  else ((false, window_seconds - (now - win_started_at w)), m)
end.
End Reference.

Definition memory_answer (q : string * time) (l : InMemoryRateLimiter) :
  RateLimitCheckResult * InMemoryRateLimiter := memory_check q.1 q.2 l.

(** a request to the shared limiter: its key, the process's clock, the
  database's clock at the upsert and at the cleanup, and whether the cleanup
  lock is free *)
Record PgRequest : Type := mk_pg_request {
rq_key : string;
rq_now : time;
rq_db_now : time;
rq_db_later : time;
rq_lock_free : bool
}.
Definition postgres_answer (q : PgRequest) (l : PostgresRateLimiter) :
  RateLimitCheckResult * PostgresRateLimiter :=
postgres_check (rq_key q) (rq_now q) (rq_db_now q) (rq_db_later q) (rq_lock_free q) l.
Definition rq_request (q : PgRequest) : string * time := (rq_key q, rq_db_now q).

(** the clock never goes back *)
Fixpoint in_order (t : time) (trace : list (string * time)) : Prop :=
match trace with
| [] => True
| q :: trace => t ≤ q.2 ∧ in_order q.2 trace
end.
Fixpoint pg_in_order (t : time) (trace : list PgRequest) : Prop :=
match trace with
| [] => True
| q :: trace => t ≤ rq_db_now q ≤ rq_db_later q ∧ pg_in_order (rq_db_later q) trace
end.

(** how often a key was admitted *)
Fixpoint admitted (key : string) (trace : list (string * time)) (answers : list RateLimitCheckResult) : Z :=
match trace, answers with
| q :: trace, r :: answers =>
    (if String.eqb q.1 key && r.1 then 1 else 0) + admitted key trace answers
| _, _ => 0
end.

(** ** Lemmas *)

(** *** Ordered dictionaries *)

Section OrderedDicts.
Context {A : Type}.
Implicit Types l : list (string * A).

Lemma od_get_elem key a l : NoDup l.*1 → od_get key l = Some a ↔ (key, a) ∈ l.
Proof.
induction l as [|[k b] l IH]; simpl.
{ intros _. split; [done|]. by intros Hn%not_elem_of_nil. }
intros [Hk Hnd]%NoDup_cons. rewrite elem_of_cons. destruct (String.eqb_spec k key) as [->|Hne].
- split; [intros [= ->]; by left|]. intros [[= ->]|Hin]; [done|].
destruct Hk. apply list_elem_of_fmap. by exists (key, a).
- rewrite IH by done. split; [by right|]. intros [[= -> _]|Hin]; done.
Qed.

Lemma od_get_none key l : od_get key l = None ↔ key ∉ l.*1.
Proof.
induction l as [|[k b] l IH]; simpl; [split; [|done]; by intros _ ?%not_elem_of_nil|].
rewrite not_elem_of_cons. destruct (String.eqb_spec k key) as [->|Hne].
- split; [done|]. by intros [[] _].
- rewrite IH. naive_solver.
Qed.

Lemma od_remove_sublist key l : od_remove key l `sublist_of` l.
Proof.
induction l as [|[k b] l IH]; simpl; [done|].
destruct (String.eqb k key); [by apply sublist_cons|by apply sublist_skip].
Qed.

Lemma od_remove_fst key l : NoDup l.*1 → key ∉ (od_remove key l).*1.
Proof.
induction l as [|[k b] l IH]; simpl; [intros _ ?%not_elem_of_nil; done|].
intros [Hk Hnd]%NoDup_cons. destruct (String.eqb_spec k key) as [->|Hne]; [done|].
simpl. rewrite not_elem_of_cons. split; [done|by apply IH].
Qed.

Lemma od_remove_elem key l p : p ∈ l → p.1 ≠ key → p ∈ od_remove key l.
Proof.
induction l as [|[k b] l IH]; simpl; [done|]. rewrite elem_of_cons. intros [->|Hin] Hne.
- simpl in Hne. rewrite (proj2 (String.eqb_neq _ _) Hne). left.
- destruct (String.eqb k key); [done|]. right. by apply IH.
Qed.

(** Setting a key and moving it to the end. *)
Lemma od_set_move key a l : move_to_end key (od_set key a l) = od_remove key l ++ [(key, a)].
Proof.
unfold move_to_end.
assert (Hg : od_get key (od_set key a l) = Some a ∧ od_remove key (od_set key a l) = od_remove key l).
{ induction l as [|[k b] l [IH1 IH2]]; simpl; [by rewrite String.eqb_refl|].
destruct (String.eqb k key) eqn:Hk; simpl; rewrite Hk; [done|]. by rewrite IH1, IH2. }
by destruct Hg as [-> ->].
Qed.

(** Setting a key that is there keeps keys and order. *)
Lemma od_set_fst key a b l : od_get key l = Some b → (od_set key a l).*1 = l.*1.
Proof.
induction l as [|[k c] l IH]; simpl; [done|]. destruct (String.eqb k key); simpl; [done|].
intros Hg. by f_equal; apply IH.
Qed.
Lemma od_set_same {B} (f : A → B) key a b l :
od_get key l = Some b → f a = f b → map (λ p, f p.2) (od_set key a l) = map (λ p, f p.2) l.
Proof.
induction l as [|[k c] l IH]; simpl; [done|]. destruct (String.eqb k key); simpl.
- by intros [= ->] ->.
- intros Hg Hf. by rewrite IH.
Qed.
Lemma od_get_set key k a l :
od_get k (od_set key a l) = if String.eqb key k then Some a else od_get k l.
Proof.
induction l as [|[j b] l IH]; simpl; [done|].
destruct (String.eqb_spec j key) as [->|Hj]; simpl.
- by destruct (String.eqb key k).
- destruct (String.eqb_spec j k) as [->|Hk]; [|done].
destruct (String.eqb_spec key k); congruence.
Qed.
End OrderedDicts.

Lemma evict_oldest_le {A} cap (l : list A) :
1 ≤ cap → Z.of_nat (length (evict_oldest cap l)) < cap.
Proof.
intros Hc. induction l as [|x l IH]; simpl; [lia|].
destruct (Z.leb_spec cap (Z.of_nat (S (length l)))) as [?|?]; [done|]. simpl. lia.
Qed.

(** *** The in-memory limiter *)

Lemma live_window_none W n w :
  live_window W n w = None ↔ ∀ x, w = Some x → W ≤ n - win_started_at x.
Proof.
  destruct w as [w|]; simpl; [|naive_solver].
  destruct (Z.leb_spec W (n - win_started_at w)); split; try done; [naive_solver|].
  intros Hx. specialize (Hx w eq_refl). lia.
Qed.

Lemma live_window_some W n w x :
  live_window W n w = Some x ↔ w = Some x ∧ n - win_started_at x < W.
Proof.
  destruct w as [w|]; simpl; [|naive_solver].
  destruct (Z.leb_spec W (n - win_started_at w)); naive_solver lia.
Qed.

Lemma NoDup_length_size (l : list string) (U : gset string) :
  NoDup l → (∀ k, k ∈ l → k ∈ U) → (length l ≤ size U)%nat.
Proof.
  intros Hnd Hsub. rewrite <- (size_list_to_set (C:=gset string) l Hnd).
  apply subseteq_size. intros k Hk%elem_of_list_to_set. by apply Hsub.
Qed.

Definition starts (d : list (string * Window)) : list Z := map (λ p, win_started_at p.2) d.

Lemma NoDup_fst_sublist {A B} (d d' : list (A * B)) : d' `sublist_of` d → NoDup d.*1 → NoDup d'.*1.
Proof. intros Hs Hnd. eapply sublist_NoDup; [exact Hnd|]. by apply fmap_sublist. Qed.

Lemma starts_head d x p :
  StronglySorted Z.le (starts (x :: d)) → p ∈ x :: d → win_started_at x.2 ≤ win_started_at p.2.
Proof.
  intros [_ Hf]%StronglySorted_inv [->|Hp]%elem_of_cons; [done|].
  eapply Forall_forall in Hf; [exact Hf|]. apply list_elem_of_fmap. by exists p.
Qed.

Lemma starts_sublist d d' :
  d' `sublist_of` d → StronglySorted Z.le (starts d) → StronglySorted Z.le (starts d').
Proof.
  induction 1 as [|p d' d Hs IH|p d' d Hs IH]; simpl; [done|..];
    intros [Hss Hf]%StronglySorted_inv; [|by apply IH].
  constructor; [by apply IH|]. apply Forall_forall. intros z (q & -> & Hq)%list_elem_of_fmap.
  eapply Forall_forall in Hf; [exact Hf|]. apply list_elem_of_fmap. exists q. split; [done|].
  by eapply elem_of_sublist.
Qed.

Lemma starts_snoc d p :
  StronglySorted Z.le (starts d) → (∀ q, q ∈ d → win_started_at q.2 ≤ win_started_at p.2) →
  StronglySorted Z.le (starts (d ++ [p])).
Proof.
  intros Hs Hle. induction d as [|q d IH]; simpl; [repeat constructor|].
  apply StronglySorted_inv in Hs as [Hs Hf]. constructor.
  - apply IH; [done|]. intros r Hr. apply Hle. by right.
  - unfold starts. rewrite map_app. apply Forall_app. split; [done|]. constructor; [|done].
    apply Hle. left.
Qed.

Lemma evict_keeps (U : gset string) cap c key d :
  NoDup d.*1 → (∀ p, p ∈ d → p.1 ∈ U) → Z.of_nat (size U) ≤ cap → key ∈ U →
  StronglySorted Z.le (starts d) → (∀ w, (key, w) ∈ d → win_started_at w ≤ c) →
  evict_oldest cap d `sublist_of` d ∧
  ∀ p, p ∈ d → c < win_started_at p.2 → p ∈ evict_oldest cap d.
Proof.
  intros Hnd HU Hcap Hkey Hss Hc. destruct d as [|x d]; simpl; [done|].
  assert (HU1 : ∀ k, k ∈ (x :: d).*1 → k ∈ U).
  { intros k (p & -> & Hp)%list_elem_of_fmap. by apply HU. }
  pose proof (NoDup_length_size _ U Hnd HU1) as Hlen.
  rewrite length_fmap in Hlen. simpl in Hlen.
  destruct (Z.leb_spec cap (Z.of_nat (S (length d)))) as [Hfull|?]; [|done].
  assert (Hd : evict_oldest cap d = d).
  { destruct d as [|y d]; [done|]. simpl in *.
    destruct (Z.leb_spec cap (Z.of_nat (S (length d)))); [lia|done]. }
  rewrite Hd. split; [by apply sublist_cons|]. intros p Hp Hlive.
  assert (Hin : key ∈ (x :: d).*1).
  { destruct (decide (key ∈ (x :: d).*1)) as [|Hno]; [done|].
    assert (Hnd' : NoDup (key :: (x :: d).*1)) by (by constructor).
    pose proof (NoDup_length_size _ U Hnd') as Hl. rewrite length_cons, length_fmap in Hl.
    simpl in Hl. assert (Hl' : (S (S (length d)) ≤ size U)%nat); [|lia].
    apply Hl. intros k [->|Hk]%elem_of_cons; [done|by apply HU1]. }
  apply list_elem_of_fmap in Hin as ([k w] & -> & Hw). simpl in *.
  pose proof (starts_head _ _ _ Hss Hw) as Hh. specialize (Hc w Hw). simpl in *.
  apply elem_of_cons in Hp as [->|?]; [lia|done].
Qed.

Section Memory.
Context (max_requests window_seconds cap : Z) (U : gset string).
Hypothesis Hcap : Z.of_nat (size U) ≤ cap.

Definition parameters (l : InMemoryRateLimiter) : Prop :=
im_max_requests l = max_requests ∧ im_window_seconds l = window_seconds ∧
im_max_tracked_keys l = cap.

Definition windows_ok (t : time) (d : list (string * Window)) : Prop :=
NoDup d.*1 ∧ StronglySorted Z.le (starts d) ∧ (∀ p, p ∈ d → p.1 ∈ U ∧ win_started_at p.2 ≤ t).

(** the same windows are live, now and later *)
Definition agrees (t : time) (d : list (string * Window)) (m : gmap string Window) : Prop :=
∀ k n, t ≤ n → live_window window_seconds n (od_get k d) = live_window window_seconds n (m !! k).

(** Making room drops only windows that have run out. *)
Lemma make_room_keeps t now key l :
parameters l → windows_ok t (im_windows l) → key ∈ U →
live_window window_seconds now (od_get key (im_windows l)) = None →
parameters (make_room now l) ∧ im_windows (make_room now l) `sublist_of` im_windows l ∧
∀ p, p ∈ im_windows l → now - window_seconds < win_started_at p.2 →
  p ∈ im_windows (make_room now l).
Proof using Hcap.
intros (Hm & Hw & Hc) (Hnd & Hss & HU) Hkey Hdead.
set (l1 := if im_next_sweep_at l <=? now then sweep now l else l).
assert (H1 : im_windows l1 `sublist_of` im_windows l ∧
  (∀ p, p ∈ im_windows l → now - window_seconds < win_started_at p.2 → p ∈ im_windows l1) ∧
  parameters l1).
{ unfold l1. destruct (im_next_sweep_at l <=? now); [|done]. unfold sweep. simpl.
  split_and!; [apply sublist_filter| |done].
  intros p Hp Hlive. apply list_elem_of_filter. by rewrite Hw. }
destruct H1 as (Hsub & Hkeep & Hpar). split; [exact Hpar|]. pose proof Hpar as (_ & _ & Hc1).
change (im_windows (make_room now l))
  with (evict_oldest (im_max_tracked_keys l1) (im_windows l1)). rewrite Hc1.
destruct (evict_keeps U cap (now - window_seconds) key (im_windows l1)) as [He Hk]; try done.
- by eapply NoDup_fst_sublist.
- intros p Hp. apply HU. by eapply elem_of_sublist.
- by eapply starts_sublist.
- intros w Hin. assert (Hg : od_get key (im_windows l) = Some w).
  { apply od_get_elem; [done|]. by eapply elem_of_sublist. }
  apply live_window_none with (x := w) in Hdead; [lia|done].
- split; [by etrans|]. intros p Hp Hlive. apply Hk; [by apply Hkeep|done].
Qed.

(** A new window at the end of the windows kept. *)
Lemma agrees_open t now key d d' m :
NoDup d.*1 → agrees t d m → t ≤ now → d' `sublist_of` d →
(∀ p, p ∈ d → now - window_seconds < win_started_at p.2 → p ∈ d') →
agrees now (od_remove key d' ++ [(key, mk_window now 1)]) (<[key := mk_window now 1]> m).
Proof.
intros Hnd Hag Ht Hsub Hkeep k n Hn.
pose proof (NoDup_fst_sublist _ _ Hsub Hnd) as Hnd'.
assert (Hnew : NoDup (od_remove key d' ++ [(key, mk_window now 1)]).*1).
{ rewrite fmap_app. apply NoDup_app. split_and!; [|intros k' Hk ->%list_elem_of_singleton|].
  - eapply NoDup_fst_sublist; [apply od_remove_sublist|done].
  - by apply (od_remove_fst key d').
  - apply NoDup_singleton. }
destruct (decide (k = key)) as [->|Hne].
{ rewrite lookup_insert_eq. f_equal. apply od_get_elem; [done|]. apply elem_of_app. right. left. }
rewrite lookup_insert_ne by done. rewrite <- (Hag k n) by lia.
apply option_eq. intros w. rewrite !live_window_some, !od_get_elem by done.
split; intros [Hin Hlive]; (split; [|done]).
- apply elem_of_app in Hin as [Hin|[= ]%list_elem_of_singleton]; [|done].
  eapply elem_of_sublist; [|exact Hsub]. eapply elem_of_sublist; [exact Hin|apply od_remove_sublist].
- apply elem_of_app. left. apply od_remove_elem; [|done]. apply Hkeep; [done|simpl; lia].
Qed.

Lemma windows_ok_open t now key d d' :
windows_ok t d → t ≤ now → key ∈ U → d' `sublist_of` d →
windows_ok now (od_remove key d' ++ [(key, mk_window now 1)]).
Proof.
intros (Hnd & Hss & HU) Ht Hkey Hsub.
assert (Hs : od_remove key d' `sublist_of` d) by (etrans; [apply od_remove_sublist|done]).
assert (Hle : ∀ p, p ∈ od_remove key d' → p.1 ∈ U ∧ win_started_at p.2 ≤ now).
{ intros p Hp. destruct (HU p); [by eapply elem_of_sublist|]. split; [done|lia]. }
split_and!.
- rewrite fmap_app. apply NoDup_app. split_and!; [by eapply NoDup_fst_sublist| |apply NoDup_singleton].
  intros k Hk ->%list_elem_of_singleton.
  by apply (od_remove_fst key d'); [eapply NoDup_fst_sublist|].
- apply starts_snoc; [by eapply starts_sublist|]. intros p Hp. by apply Hle.
- intros p [Hp| ->%list_elem_of_singleton]%elem_of_app; [by apply Hle|]. split; [done|simpl; lia].
Qed.

(** One more request in a live window. *)
Lemma windows_ok_count t now key w w' d :
windows_ok t d → t ≤ now → od_get key d = Some w → win_started_at w' = win_started_at w →
windows_ok now (od_set key w' d).
Proof.
intros (Hnd & Hss & HU) Ht Hg Hw. unfold windows_ok, starts.
rewrite (od_set_fst key w' w d Hg), (od_set_same win_started_at key w' w d Hg Hw).
split_and!; [done..|]. intros [k x] Hp.
assert (Hin : k ∈ d.*1 ∧ win_started_at x ∈ starts d).
{ unfold starts. rewrite <- (od_set_fst key w' w d Hg), <- (od_set_same win_started_at key w' w d Hg Hw).
  split; apply list_elem_of_fmap; by exists (k, x). }
destruct Hin as [(p & Hp1 & Hin)%list_elem_of_fmap (q & Hq & Hin')%list_elem_of_fmap].
simpl in *. subst. rewrite Hq. destruct (HU p Hin), (HU q Hin'). split; [done|lia].
Qed.

Lemma agrees_count t now key w d m :
agrees t d m → t ≤ now → agrees now (od_set key w d) (<[key := w]> m).
Proof.
intros Hag Ht k n Hn. rewrite od_get_set, lookup_insert.
destruct (String.eqb_spec key k) as [->|Hne]; case_decide; try done. apply Hag. lia.
Qed.

(** Each answer is the reference's. *)
Lemma memory_step t q l m :
parameters l → windows_ok t (im_windows l) → agrees t (im_windows l) m → t ≤ q.2 → q.1 ∈ U →
let '(r, l') := memory_answer q l in
let '(r', m') := reference_check max_requests window_seconds q m in
r = r' ∧ parameters l' ∧ windows_ok q.2 (im_windows l') ∧ agrees q.2 (im_windows l') m'.
Proof using Hcap.
destruct q as [key now]. simpl. intros Hpar Hok Hag Ht Hkey.
unfold memory_answer, memory_check, reference_check. simpl.
pose proof Hpar as (Hm & Hw & _). rewrite Hw, Hm.
pose proof (Hag key now Ht) as Hl. rewrite <- Hl.
destruct (live_window window_seconds now (od_get key (im_windows l))) as [w|] eqn:Hlive.
- apply live_window_some in Hlive as [Hg Hlive].
  destruct (Z.ltb_spec (win_count w) max_requests).
  + split_and!; [done|done|by eapply windows_ok_count|by eapply agrees_count].
  + split_and!; [do 2 f_equal; lia|done| |].
    * destruct Hok as (? & ? & HU). split_and!; [done..|]. intros p Hp.
      destruct (HU p Hp). split; [done|lia].
    * intros k n Hn. apply Hag. lia.
- destruct (make_room_keeps t now key l Hpar Hok Hkey Hlive) as (Hpar' & Hsub & Hkeep).
  split_and!; [done|exact Hpar'|..]; simpl; rewrite od_set_move.
  + by eapply windows_ok_open.
  + eapply agrees_open; [apply Hok|done..].
Qed.
End Memory.

(** *** The shared limiter *)

Section Postgres.
Context (max_requests window_seconds : Z).

(** the reference's window of a bucket: the count goes on past the limit *)
Definition as_window (b : Bucket) : Window :=
mk_window (bk_window_started_at b) (Z.min (bk_count b) max_requests).

Definition buckets_ok (table : gmap string Bucket) : Prop :=
∀ k b, table !! k = Some b → bk_expires_at b = bk_window_started_at b + window_seconds.
Definition buckets_agree (t : time) (table : gmap string Bucket) (m : gmap string Window) : Prop :=
∀ k n, t ≤ n →
live_window window_seconds n (as_window <$> table !! k) = live_window window_seconds n (m !! k).

Lemma cleanup_lookup batch n table k :
cleanup batch n table !! k = table !! k ∨
cleanup batch n table !! k = None ∧ ∃ b, table !! k = Some b ∧ bk_expires_at b ≤ n.
Proof.
unfold cleanup.
assert (Hd : ∀ p, p ∈ take batch (order_by by_expires (rows (λ _ b, bk_expires_at b <=? n) table)) →
table !! p.1 = Some p.2 ∧ bk_expires_at p.2 ≤ n).
{ intros [i b] Hp%elem_of_take. destruct Hp as (j & Hj & _). apply list_elem_of_lookup_2 in Hj.
apply elem_of_order_by, elem_of_rows in Hj as [Hi Hle%Z.leb_le]. done. }
revert Hd. generalize (take batch (order_by by_expires (rows (λ _ b, bk_expires_at b <=? n) table))).
intros l. induction l as [|p l IH]; intros Hd; simpl; [by left|].
destruct (decide (p.1 = k)) as [<-|Hne].
- right. rewrite lookup_delete_eq. split; [done|]. exists p.2. apply Hd. left.
- rewrite lookup_delete_ne by done. apply IH. intros q Hq. apply Hd. by right.
Qed.

Lemma cleanup_agrees t batch n table m :
buckets_ok table → buckets_agree t table m → t ≤ n →
buckets_ok (cleanup batch n table) ∧ buckets_agree n (cleanup batch n table) m.
Proof.
intros Hok Hag Ht. split.
- intros k b Hk. destruct (cleanup_lookup batch n table k) as [Hl|[Hl _]]; rewrite Hl in Hk; [|done].
by apply (Hok k).
- intros k n' Hn'. rewrite <- Hag by lia.
destruct (cleanup_lookup batch n table k) as [->|(-> & b & Hb & Hx)]; [done|].
rewrite Hb. symmetry. apply live_window_none. intros w [= <-]. simpl.
rewrite (Hok k b Hb) in Hx. lia.
Qed.

(** The upsert counts as the reference does. *)
Lemma upsert_step t key now table m :
buckets_ok table → buckets_agree t table m → t ≤ now →
let row := upsert window_seconds now (table !! key) in
let '(r, m') := reference_check max_requests window_seconds (key, now) m in
1 ≤ max_requests →
r = (bk_count row <=? max_requests,
   if bk_count row <=? max_requests then 0 else bk_expires_at row - now) ∧
bk_updated_at row = now ∧ ((bk_count row <=? max_requests) = false → now < bk_expires_at row) ∧
buckets_ok (<[key := row]> table) ∧ buckets_agree now (<[key := row]> table) m'.
Proof.
intros Hok Hag Ht row. unfold reference_check. pose proof (Hag key now Ht) as Hl. rewrite <- Hl.
assert (Hfresh : ∀ row', row' = mk_bucket now (now + window_seconds) 1 now → 1 ≤ max_requests →
buckets_ok (<[key := row']> table) ∧
buckets_agree now (<[key := row']> table) (<[key := mk_window now 1]> m)).
{ intros row' -> Hm. split.
- intros k b. rewrite lookup_insert. case_decide; [by intros [= <-]|apply Hok].
- intros k n Hn. rewrite !lookup_insert. case_decide; [|apply Hag; lia].
  simpl. unfold as_window. simpl. by rewrite Z.min_l by lia. }
unfold row. destruct (table !! key) as [b|] eqn:Hb; simpl.
2: { intros Hm. destruct (Hfresh _ eq_refl Hm). by rewrite (proj2 (Z.leb_le _ _) Hm). }
pose proof (Hok key b Hb) as Hx. unfold upsert. rewrite Hx.
destruct (Z.leb_spec (bk_window_started_at b + window_seconds) now) as [Hdead|Hlive].
- rewrite (proj2 (Z.leb_le window_seconds (now - bk_window_started_at b))) by lia.
simpl. intros Hm. destruct (Hfresh _ eq_refl Hm).
by rewrite (proj2 (Z.leb_le _ _) Hm).
- rewrite (proj2 (Z.leb_gt window_seconds (now - bk_window_started_at b))) by lia. simpl.
assert (Hcount : ∀ w, w = mk_window (bk_window_started_at b) (Z.min (bk_count b + 1) max_requests) →
  buckets_agree now (<[key := mk_bucket (bk_window_started_at b)
    (bk_window_started_at b + window_seconds) (bk_count b + 1) now]> table) (<[key := w]> m)).
{ intros w -> k n Hn. rewrite !lookup_insert. case_decide; [done|apply Hag; lia]. }
assert (Hok' : buckets_ok (<[key := mk_bucket (bk_window_started_at b)
    (bk_window_started_at b + window_seconds) (bk_count b + 1) now]> table)).
{ intros k c. rewrite lookup_insert. case_decide; [by intros [= <-]|apply Hok]. }
destruct (Z.ltb_spec (Z.min (bk_count b) max_requests) max_requests) as [Hlt|Hge]; intros Hm; simpl.
+ rewrite (proj2 (Z.leb_le _ _)) by lia. split_and!; [done..|simpl; lia|done|].
  apply Hcount. unfold over. simpl. f_equal. lia.
+ rewrite (proj2 (Z.leb_gt _ _)) by lia. split_and!; [simpl; f_equal; lia|done|simpl; lia|done|].
  intros k n Hn. rewrite lookup_insert. case_decide as Hk; [subst k|apply Hag; lia].
  rewrite <- (Hag key n) by lia. rewrite Hb. simpl. unfold as_window. simpl. do 3 f_equal.
  rewrite !Z.min_r by lia. done.
Qed.
End Postgres.

(** *** Traces *)

Lemma run_checks_app {Q R S} (check : Q → S → R * S) pre mid s :
  run_checks check (pre ++ mid) s
  = ((run_checks check pre s).1 ++ (run_checks check mid (run_checks check pre s).2).1,
     (run_checks check mid (run_checks check pre s).2).2).
Proof.
  revert s. induction pre as [|q pre IH]; intros s; simpl.
  { by destruct (run_checks check mid s). }
  destruct (check q s) as [r s1]. rewrite IH. by destruct (run_checks check pre s1).
Qed.

Lemma length_run_checks {Q R S} (check : Q → S → R * S) trace s :
  length (run_checks check trace s).1 = length trace.
Proof.
  revert s. induction trace as [|q trace IH]; intros s; simpl; [done|].
  destruct (check q s) as [r s1]. specialize (IH s1).
  destruct (run_checks check trace s1). simpl in *. by rewrite IH.
Qed.

Lemma memory_run max_requests window_seconds cap U t l m trace :
  Z.of_nat (size U) ≤ cap → parameters max_requests window_seconds cap l →
  windows_ok U t (im_windows l) → agrees window_seconds t (im_windows l) m →
  in_order t trace → (∀ q, q ∈ trace → q.1 ∈ U) →
  (run_checks memory_answer trace l).1
  = (run_checks (reference_check max_requests window_seconds) trace m).1.
Proof.
  intros Hcap. revert t l m. induction trace as [|q trace IH]; intros t l m Hp Hok Hag Ho HU; [done|].
  simpl. destruct Ho as [Ht Ho].
  pose proof (memory_step max_requests window_seconds cap U Hcap t q l m Hp Hok Hag Ht
    (HU q ltac:(left))) as Hs.
  destruct (memory_answer q l) as [r l'], (reference_check max_requests window_seconds q m) as [r' m'].
  destruct Hs as (-> & Hp' & Hok' & Hag').
  specialize (IH q.2 l' m' Hp' Hok' Hag' Ho ltac:(intros; apply HU; by right)).
  destruct (run_checks memory_answer trace l'), (run_checks _ trace m'). simpl in *. by rewrite IH.
Qed.

Lemma postgres_step max_requests window_seconds t q l m :
  1 ≤ max_requests → pg_max_requests l = max_requests → pg_window_seconds l = window_seconds →
  buckets_ok window_seconds (pg_buckets l) →
  buckets_agree max_requests window_seconds t (pg_buckets l) m → t ≤ rq_db_now q ≤ rq_db_later q →
  let '(r, l') := postgres_answer q l in
  let '(r', m') := reference_check max_requests window_seconds (rq_request q) m in
  r = r' ∧ pg_max_requests l' = max_requests ∧ pg_window_seconds l' = window_seconds ∧
  buckets_ok window_seconds (pg_buckets l') ∧
  buckets_agree max_requests window_seconds (rq_db_later q) (pg_buckets l') m'.
Proof.
  intros Hm <- <- Hok Hag [Ht Hl]. unfold postgres_answer, postgres_check, rq_request.
  pose proof (upsert_step (pg_max_requests l) (pg_window_seconds l) t (rq_key q) (rq_db_now q) _ m
    Hok Hag Ht) as Hs. cbv zeta in Hs.
  set (row := upsert (pg_window_seconds l) (rq_db_now q) (pg_buckets l !! rq_key q)) in *.
  destruct (reference_check _ _ (rq_key q, rq_db_now q) m) as [r' m'].
  destruct (Hs Hm) as (Hr & Hu & Hx & Hok' & Hag'). rewrite Hr, Hu. clear Hs.
  assert (Hag2 : buckets_agree (pg_max_requests l) (pg_window_seconds l) (rq_db_later q)
    (<[rq_key q := row]> (pg_buckets l)) m') by (intros k n Hn; apply Hag'; lia).
  destruct (cleanup_agrees (pg_max_requests l) (pg_window_seconds l) (rq_db_now q)
    (pg_cleanup_batch_size l) (rq_db_later q) _ m' Hok' Hag' Hl) as [Hok3 Hag3].
  assert (Hans : ∀ x : RateLimitCheckResult,
    (bk_count row <=? pg_max_requests l,
     if bk_count row <=? pg_max_requests l then 0 else Z.max (bk_expires_at row - rq_db_now q) 0) = x →
    (bk_count row <=? pg_max_requests l,
     if bk_count row <=? pg_max_requests l then 0 else bk_expires_at row - rq_db_now q) = x).
  { intros x <-. destruct (bk_count row <=? pg_max_requests l) eqn:Hc; [done|].
    f_equal. specialize (Hx eq_refl). lia. }
  destruct (_ <=? rq_now q); [destruct (rq_lock_free q)|]; simpl;
    (split_and!; [symmetry; by apply Hans|done|done|..]); assumption.
Qed.

Lemma postgres_run max_requests window_seconds t l m trace :
  1 ≤ max_requests → pg_max_requests l = max_requests → pg_window_seconds l = window_seconds →
  buckets_ok window_seconds (pg_buckets l) →
  buckets_agree max_requests window_seconds t (pg_buckets l) m → pg_in_order t trace →
  (run_checks postgres_answer trace l).1
  = (run_checks (reference_check max_requests window_seconds) (map rq_request trace) m).1.
Proof.
  intros Hm. revert t l m. induction trace as [|q trace IH]; intros t l m H1 H2 Hok Hag Ho; [done|].
  cbn [run_checks map]. destruct Ho as [Ht Ho].
  pose proof (postgres_step max_requests window_seconds t q l m Hm H1 H2 Hok Hag Ht) as Hs.
  destruct (postgres_answer q l) as [r l'].
  destruct (reference_check max_requests window_seconds (rq_request q) m) as [r' m'].
  destruct Hs as (-> & H1' & H2' & Hok' & Hag').
  specialize (IH (rq_db_later q) l' m' H1' H2' Hok' Hag' Ho).
  destruct (run_checks postgres_answer trace l'), (run_checks _ (map rq_request trace) m').
  simpl in *. by rewrite IH.
Qed.

(** *** How much the reference admits *)

Section Rate.
Context (max_requests window_seconds s : Z) (key : string).
Hypothesis Hmax : 1 ≤ max_requests.

Definition counted (m : gmap string Window) : Prop :=
∀ k w, m !! k = Some w → 1 ≤ win_count w ≤ max_requests.

(** what may still be admitted before [s + window_seconds] *)
Definition allowance (m : gmap string Window) : Z :=
match m !! key with
| None => max_requests
| Some w => max_requests - win_count w + (if win_started_at w <? s then max_requests else 0)
end.

Lemma allowance_bound m : counted m → 0 ≤ allowance m ≤ 2 * max_requests.
Proof using Hmax.
intros Hc. unfold allowance. destruct (m !! key) as [w|] eqn:Hw; [|lia].
destruct (Hc key w Hw). destruct (win_started_at w <? s); lia.
Qed.

Lemma allowance_step q m :
counted m → s ≤ q.2 < s + window_seconds →
let '(r, m') := reference_check max_requests window_seconds q m in
counted m' ∧ allowance m' + (if String.eqb q.1 key && r.1 then 1 else 0) ≤ allowance m.
Proof using Hmax.
destruct q as [k n]. simpl. intros Hc Hn. unfold reference_check.
assert (Hins : ∀ w, 1 ≤ win_count w ≤ max_requests → counted (<[k := w]> m)).
{ intros w Hw j x. rewrite lookup_insert. case_decide; [by intros [= <-]|apply Hc]. }
assert (Hother : ∀ w, k ≠ key → allowance (<[k := w]> m) = allowance m)
by (intros w Hne; unfold allowance; by rewrite lookup_insert_ne).
assert (Hsame : ∀ w, k = key → allowance (<[k := w]> m)
= max_requests - win_count w + (if win_started_at w <? s then max_requests else 0))
by (intros w ->; unfold allowance; by rewrite lookup_insert_eq).
destruct (live_window window_seconds n (m !! k)) as [w|] eqn:Hl.
- apply live_window_some in Hl as [Hw Hl]. destruct (Hc k w Hw).
destruct (Z.ltb_spec (win_count w) max_requests); simpl; (split; [|]); try done.
+ apply Hins. simpl. lia.
+ destruct (String.eqb_spec k key) as [He|Hne]; simpl; [|rewrite Hother by done; lia].
  rewrite Hsame by done. unfold allowance. rewrite <- He, Hw. simpl. lia.
+ destruct (String.eqb k key); simpl; lia.
- simpl. split; [apply Hins; simpl; lia|].
destruct (String.eqb_spec k key) as [He|Hne]; simpl; [|rewrite Hother by done; lia].
rewrite Hsame by done. simpl. rewrite (proj2 (Z.ltb_ge n s)) by lia.
unfold allowance. rewrite <- He. destruct (m !! k) as [w|] eqn:Hw; [|lia].
pose proof (proj1 (live_window_none _ _ _) Hl w eq_refl) as Hd. destruct (Hc k w Hw).
rewrite (proj2 (Z.ltb_lt _ _)) by lia. lia.
Qed.

Lemma reference_counted q m :
counted m → counted (reference_check max_requests window_seconds q m).2.
Proof using Hmax.
destruct q as [k n]. intros Hc. unfold reference_check.
destruct (live_window window_seconds n (m !! k)) as [w|] eqn:Hl.
- apply live_window_some in Hl as [Hw _]. destruct (Hc k w Hw).
destruct (Z.ltb_spec (win_count w) max_requests); simpl; [|done].
intros j x. rewrite lookup_insert. case_decide; [intros [= <-]; simpl; lia|apply Hc].
- simpl. intros j x. rewrite lookup_insert. case_decide; [intros [= <-]; simpl; lia|apply Hc].
Qed.

Lemma reference_run_counted trace m :
counted m → counted (run_checks (reference_check max_requests window_seconds) trace m).2.
Proof using Hmax.
revert m. induction trace as [|q trace IH]; intros m Hc; simpl; [done|].
pose proof (reference_counted q m Hc) as Hc'.
destruct (reference_check max_requests window_seconds q m) as [r m'].
specialize (IH m' Hc'). by destruct (run_checks _ trace m').
Qed.

Lemma reference_admits trace m :
counted m → (∀ q, q ∈ trace → s ≤ q.2 < s + window_seconds) →
admitted key trace (run_checks (reference_check max_requests window_seconds) trace m).1 ≤ allowance m.
Proof using Hmax.
revert m. induction trace as [|q trace IH]; intros m Hc Hin.
{ simpl. apply allowance_bound in Hc. lia. }
simpl. pose proof (allowance_step q m Hc (Hin q ltac:(left))) as Hs.
destruct (reference_check max_requests window_seconds q m) as [r m']. destruct Hs as [Hc' Hs].
specialize (IH m' Hc' ltac:(intros; apply Hin; by right)).
destruct (run_checks _ trace m') as [rs m2]. simpl in *. lia.
Qed.
End Rate.

(** *** The bound on the table *)

Lemma evict_oldest_sublist {A} cap (l : list A) : evict_oldest cap l `sublist_of` l.
Proof.
  induction l as [|x l IH]; [done|]. cbn [evict_oldest].
  destruct (cap <=? Z.of_nat (length (x :: l))); [by apply sublist_cons|done].
Qed.

Lemma make_room_room now l :
  1 ≤ im_max_tracked_keys l →
  Z.of_nat (length (im_windows (make_room now l))) < im_max_tracked_keys l.
Proof.
  intros Hc. unfold make_room. destruct (im_next_sweep_at l <=? now); by apply evict_oldest_le.
Qed.

Lemma memory_tracked q l :
  1 ≤ im_max_tracked_keys l → tracked_keys l ≤ im_max_tracked_keys l →
  let l' := (memory_answer q l).2 in
  im_max_tracked_keys l' = im_max_tracked_keys l ∧ tracked_keys l' ≤ im_max_tracked_keys l.
Proof.
  intros Hc Ht. destruct q as [key now]. unfold memory_answer, memory_check, tracked_keys in *. simpl.
  destruct (live_window _ now (od_get key (im_windows l))) as [w|] eqn:Hl.
  - destruct (win_count w <? im_max_requests l); simpl; [|done]. split; [done|].
    apply live_window_some in Hl as [Hg _].
    rewrite <- (length_fmap fst (od_set _ _ _)), (od_set_fst key _ w), length_fmap; done.
  - split; [unfold make_room, sweep; by destruct (im_next_sweep_at l <=? now)|].
    change (Z.of_nat (length (move_to_end key (od_set key (mk_window now 1)
      (im_windows (make_room now l))))) ≤ im_max_tracked_keys l).
    rewrite od_set_move, length_app. cbn [length].
    pose proof (make_room_room now l Hc) as Hroom.
    pose proof (sublist_length _ _ (od_remove_sublist key (im_windows (make_room now l)))). lia.
Qed.

Lemma postgres_from_start max_requests window_seconds interval batch now l t trace :
  new_postgres_limiter max_requests window_seconds interval batch now ∅ = Ok l →
  pg_in_order t trace →
  1 ≤ max_requests ∧ (run_checks postgres_answer trace l).1
  = (run_checks (reference_check max_requests window_seconds) (map rq_request trace) ∅).1.
Proof.
  unfold new_postgres_limiter. destruct (Z.ltb_spec max_requests 1); [done|].
  destruct (window_seconds <=? 0); [done|].
  destruct (match interval with Some i => i <=? 0 | None => false end); [done|].
  destruct (batch <? 1)%nat; [done|]. intros [= <-] Ho. split; [done|].
  apply (postgres_run _ _ t); done.
Qed.

(** ** Theorems *)

(** C38: bounding the table costs nothing while it is large enough: on every
    trace over no more keys than the cap, the in-memory limiter, which sweeps
    and evicts, answers every request as the reference that keeps all windows. *)
Theorem memory_limiter_equivalent max_requests window_seconds cap l t trace :
  new_memory_limiter max_requests window_seconds cap = Ok l → in_order t trace →
  Z.of_nat (size (list_to_set trace.*1 : gset string)) ≤ cap →
  (run_checks memory_answer trace l).1
  = (run_checks (reference_check max_requests window_seconds) trace ∅).1.
Proof.
  unfold new_memory_limiter. destruct (max_requests <? 1), (window_seconds <=? 0), (cap <? 1); try done.
  intros [= <-] Ho Hcap.
  apply (memory_run _ _ cap (list_to_set trace.*1) t); try done.
  - split_and!; [constructor|constructor|]. by intros p ?%not_elem_of_nil.
  - intros q Hq. apply elem_of_list_to_set, list_elem_of_fmap. by exists q.
Qed.

(** C39: the limiter shared through the database answers every request as the
    reference, and so as the in-memory one, whatever its cleanup deletes and
    whichever processes get the cleanup lock. *)
Theorem postgres_limiter_equivalent max_requests window_seconds interval batch now l t trace :
  new_postgres_limiter max_requests window_seconds interval batch now ∅ = Ok l →
  pg_in_order t trace →
  (run_checks postgres_answer trace l).1
  = (run_checks (reference_check max_requests window_seconds) (map rq_request trace) ∅).1.
Proof. intros Hl Ho. by destruct (postgres_from_start _ _ _ _ _ _ _ _ Hl Ho). Qed.

(** The rate is bounded: whatever came before, within any span of one
    window's length a key is admitted at most twice the limit. *)
Theorem postgres_rate_bounded max_requests window_seconds interval batch now l t pre mid s key :
  new_postgres_limiter max_requests window_seconds interval batch now ∅ = Ok l →
  pg_in_order t (pre ++ mid) → (∀ q, q ∈ mid → s ≤ rq_db_now q < s + window_seconds) →
  admitted key (map rq_request mid)
    (drop (length pre) (run_checks postgres_answer (pre ++ mid) l).1) ≤ 2 * max_requests.
Proof.
  intros Hl Ho Hin.
  destruct (postgres_from_start _ _ _ _ _ _ _ _ Hl Ho) as [Hm Heq].
  rewrite Heq, map_app, run_checks_app. cbn [fst].
  assert (Hlen : length pre = length (run_checks (reference_check max_requests window_seconds)
    (map rq_request pre) ∅).1) by (by rewrite length_run_checks, length_map).
  rewrite Hlen, drop_app_length.
  assert (Hc : counted max_requests (run_checks (reference_check max_requests window_seconds)
    (map rq_request pre) ∅).2).
  { apply reference_run_counted; [done|]. intros k w. by rewrite lookup_empty. }
  etrans; [apply (reference_admits max_requests window_seconds s key Hm); [done|]|].
  - intros q (x & -> & Hx)%list_elem_of_fmap. by apply Hin.
  - by apply allowance_bound.
Qed.

(** The in-memory table never outgrows its cap, whatever the requests and
    however the clock moves. *)
Theorem memory_limiter_bounded max_requests window_seconds cap l trace :
  new_memory_limiter max_requests window_seconds cap = Ok l →
  tracked_keys (run_checks memory_answer trace l).2 ≤ cap.
Proof.
  intros Hl. assert (Hok : im_max_tracked_keys l = cap ∧ 1 ≤ cap ∧ tracked_keys l ≤ cap).
  { revert Hl. unfold new_memory_limiter, tracked_keys.
    destruct (max_requests <? 1), (window_seconds <=? 0), (Z.ltb_spec cap 1); try done.
    intros [= <-]. simpl. lia. }
  clear Hl. revert l Hok. induction trace as [|q trace IH]; intros l (<- & Hc & Ht); simpl; [done|].
  destruct (memory_tracked q l Hc Ht) as [Hm Ht']. destruct (memory_answer q l) as [r l']. simpl in *.
  specialize (IH l' ltac:(rewrite Hm; done)). by destruct (run_checks memory_answer trace l').
Qed.

(** The middleware fails closed: a request passes exactly when its path is
    exempt or the limiter of its tier admits its client; an exception of the
    limiter answers 503 and a refusal 429, with a delay that outlasts the
    limiter's; the other tier's limiter is never consulted. *)
Theorem middleware_fails_closed {G A} (global_limiter : string → ST G exn RateLimitCheckResult)
    (auth_limiter : string → ST A exn RateLimitCheckResult) path client s :
  let '(response, s') := rate_limit_dispatch global_limiter auth_limiter path client s in
  if existsb (String.eqb path) exempt_paths then response = CallNext ∧ s' = s
  else
    let auth := String.prefix "/auth/" path in
    let r := if auth then (auth_limiter ("auth:" +:+ client_ip client) s.2).1
             else (global_limiter ("global:" +:+ client_ip client) s.1).1 in
    (if auth then s'.1 = s.1 else s'.2 = s.2) ∧
    match response with
    | CallNext => ∃ d, r = Ok (true, d)
    | ServiceUnavailable d => d = 5 ∧ ∃ e, r = Raise e
    | TooManyRequests d => ∃ wait, r = Ok (false, wait) ∧ (0 ≤ wait → wait < seconds d ∧ 1 ≤ d)
    end.
Proof.
  unfold rate_limit_dispatch. destruct (existsb (String.eqb path) exempt_paths); [done|].
  cbn [existsb auth_path_prefixes]. rewrite orb_false_r.
  assert (Hans : ∀ r, match answered r with
    | CallNext => ∃ d, r = Ok (true, d)
    | ServiceUnavailable d => d = 5 ∧ ∃ e, r = Raise e
    | TooManyRequests d => ∃ wait, r = Ok (false, wait) ∧ (0 ≤ wait → wait < seconds d ∧ 1 ≤ d)
    end).
  { intros [[[] d]|e]; simpl; [by exists d| |by split; [|exists e]].
    exists d. split; [done|]. intros Hd. unfold seconds.
    pose proof (Z_div_mod d 1000000 ltac:(lia)) as Hdm. unfold Z.div.
    destruct (Z.div_eucl d 1000000) as [q r]. lia. }
  destruct (String.prefix "/auth/" path).
  - destruct (auth_limiter _ s.2) as [r a]. simpl. split; [done|apply Hans].
  - destruct (global_limiter _ s.1) as [r g]. simpl. split; [done|apply Hans].
Qed.

(** ** A limiter at work *)

(** two requests of a client admitted, the third refused, a second client
    admitted, and the first again once its window (60 s) is over *)
Definition demo_requests : list (string * time) :=
[("ip1", 0); ("ip1", seconds 1); ("ip1", seconds 2); ("ip2", seconds 3); ("ip1", seconds 61)].
Definition demo_limiter : InMemoryRateLimiter := mk_memory_limiter 2 (seconds 60) 2 [] 0.
Definition demo_pg_requests : list PgRequest :=
map (λ q, mk_pg_request q.1 (seconds 100 + q.2) q.2 q.2 true) demo_requests.
Definition demo_pg_limiter : PostgresRateLimiter :=
mk_postgres_limiter 2 (seconds 60) (seconds 60) 1000 (seconds 160) ∅.

Lemma memory_limiter_equivalent_witness :
  (run_checks memory_answer demo_requests demo_limiter).1
  = (run_checks (reference_check 2 (seconds 60)) demo_requests ∅).1 ∧
  (run_checks memory_answer demo_requests demo_limiter).1
  = [(true, 0); (true, 0); (false, seconds 58); (true, 0); (true, 0)].
Proof.
  split; [|reflexivity].
  apply (memory_limiter_equivalent 2 (seconds 60) 2 demo_limiter 0); [reflexivity| |].
  - unfold in_order, demo_requests, seconds. simpl. lia.
  - by vm_compute.
Defined.

Lemma demo_pg_in_order : pg_in_order 0 demo_pg_requests.
Proof. unfold pg_in_order, demo_pg_requests, demo_requests, seconds. simpl. lia. Qed.

Lemma postgres_limiter_equivalent_witness :
  (run_checks postgres_answer demo_pg_requests demo_pg_limiter).1
  = (run_checks (reference_check 2 (seconds 60)) (map rq_request demo_pg_requests) ∅).1.
Proof.
  apply (postgres_limiter_equivalent 2 (seconds 60) None 1000 (seconds 100) demo_pg_limiter 0).
  - reflexivity.
  - exact demo_pg_in_order.
Defined.

Lemma postgres_rate_bounded_witness :
  admitted "ip1" (map rq_request demo_pg_requests)
    (run_checks postgres_answer demo_pg_requests demo_pg_limiter).1 = 3 ∧
  admitted "ip1" (map rq_request (take 3 (drop 1 demo_pg_requests)))
    (drop 1 (run_checks postgres_answer (take 4 demo_pg_requests) demo_pg_limiter).1) ≤ 2 * 2.
Proof.
  split; [reflexivity|].
  refine (postgres_rate_bounded 2 (seconds 60) None 1000 (seconds 100) demo_pg_limiter 0
    (take 1 demo_pg_requests) (take 3 (drop 1 demo_pg_requests)) (seconds 1) "ip1" _ _ _).
  - reflexivity.
  - unfold pg_in_order, demo_pg_requests, demo_requests, seconds. simpl. lia.
  - intros q Hq. unfold demo_pg_requests, demo_requests, seconds in *. simpl in Hq.
    repeat (apply elem_of_cons in Hq as [->|Hq]; [simpl; lia|]). by apply not_elem_of_nil in Hq.
Defined.

Lemma memory_limiter_bounded_witness :
  new_memory_limiter 2 (seconds 60) 2 = Ok demo_limiter ∧
  tracked_keys (run_checks memory_answer
    [("a", 0); ("b", 0); ("c", 0); ("d", 0)] demo_limiter).2 ≤ 2.
Proof.
  split; [reflexivity|]. apply (memory_limiter_bounded 2 (seconds 60) 2 demo_limiter). reflexivity.
Defined.
