(* ===== verification/BillingSpec.v ===== *)
(** * What the webhooks make of a subscription

    Events are applied at most once and leave nothing behind when they fail;
    the state of a subscription is that of its newest event, however late,
    often and out of order its events are delivered; and no workspace is
    entitled without a receipt of an active subscription. *)

From S2P Require Import Prelude Models Text PyJson Billing.

(** ** Definitions *)

Section Definitions.
Context (json_text : json → string).

(** An event of the workspace's subscription, well formed. *)
Record SubEvent : Type := mk_sub_event {
se_id : string;
se_type : string;
se_created : Z;
se_status : string;
se_ids : option string * option string;
se_payload : json
}.

Definition sub_event (ws : positive) (e : SubEvent) : Prop :=
event_names (se_payload e) = Ok (se_id e, se_type e) ∧
existsb (String.eqb (se_type e)) SUBSCRIPTION_EVENTS = true ∧
created_of (se_payload e) = Some (se_created e) ∧
∃ obj p c, event_object (se_payload e) = Ok obj ∧
workspace_id_from_metadata json_text obj = Ok (Some ws) ∧
subscription_status json_text obj = Ok (se_status e) ∧
mirrored_subscription obj (se_status e) = Ok (mirrored (se_ids e) (se_status e) p c).

Definition active (status : string) : bool := existsb (String.eqb status) ACTIVE_STATUSES.

(** deliveries one after the other, an answer lost or an exception notwithstanding *)
Definition deliver (s : BillingDB) (e : json) : BillingDB := (process_stripe_event json_text e s).2.
Definition delivered (events : list json) (s : BillingDB) : BillingDB := foldl deliver s events.

(** no event of the subscription was applied yet (the row of the workspace,
which a checkout and a look at the entitlement make, may be there), and no
identifier of the events or of the row is another workspace's *)
Definition unseen (ws : positive) (events : list SubEvent) (s : BillingDB) : Prop :=
ws ∈ bd_workspaces s ∧
(∀ i r, bd_events s !! i = Some r →
 (we_workspace_id r = Some ws → existsb (String.eqb (we_event_type r)) FRESHNESS_EVENTS = false) ∧
 ∀ e, e ∈ events → i ≠ se_id e) ∧
(∀ i r, i ≠ ws → bd_billing s !! i = Some r →
 (∀ e, e ∈ events → same_text (wb_stripe_subscription_id r) (se_ids e).1 = false ∧
   same_text (wb_stripe_customer_id r) (se_ids e).2 = false) ∧
 ∀ row, bd_billing s !! ws = Some row →
   same_text (wb_stripe_subscription_id r) (wb_stripe_subscription_id row) = false ∧
   same_text (wb_stripe_customer_id r) (wb_stripe_customer_id row) = false).

(** one identifier for each event *)
Definition distinct_events (events : list SubEvent) : Prop :=
∀ e e', e ∈ events → e' ∈ events → se_id e = se_id e' → e = e'.

(** the type and status of a receipt's payload *)
Definition receipt_grants (ws : positive) (status : string) (r : BillingWebhookEvent) : Prop :=
we_workspace_id r = Some ws ∧ existsb (String.eqb (we_event_type r)) SUBSCRIPTION_EVENTS = true ∧
∃ obj, event_object (we_payload r) = Ok obj ∧ subscription_status json_text obj = Ok status.

(** Every active row has the receipt of a subscription event that says so. *)
Definition backed (s : BillingDB) : Prop :=
∀ ws row, bd_billing s !! ws = Some row → active (wb_status row) = true →
∃ i r, bd_events s !! i = Some r ∧ receipt_grants ws (wb_status row) r.
End Definitions.

(** ** Lemmas *)

(** *** A failed event leaves nothing *)

Section Atomic.
Context (json_text : json → string).

Lemma run_process event s :
process_stripe_event json_text event s =
match event_names event with
| Raise e => (Raise e, s)
| Ok (i, t) =>
  match bd_events s !! i with
  | Some _ => (Ok (StripeDuplicate i t), s)
  | None =>
      match event_object event with
      | Raise e => (Raise e, s)
      | Ok obj =>
          match workspace_id_from_metadata json_text obj with
          | Raise e => (Raise e, s)
          | Ok ws =>
              match (claim_receipt i t ws event;;
                     ws ← apply_event json_text t i ws obj (created_of event);
                     name_workspace i ws;;
                     mret (StripeProcessed i t ws)) s with
              | (Ok r, s') => (Ok r, s')
              | (Raise (IntegrityError _), _) => (Ok (StripeDuplicate i t), s)
              | (Raise e, _) => (Raise e, s)
              end
          end
      end
  end
end.
Proof.
unfold process_stripe_event. rewrite run_bind. unfold lift_result at 1.
destruct (event_names event) as [[i t]|e]; [|done]. rewrite run_bind. cbn [gets].
destruct (bd_events s !! i); [done|]. rewrite run_bind. unfold lift_result at 1.
destruct (event_object event) as [obj|e]; [|done]. rewrite run_bind. unfold lift_result at 1.
destruct (workspace_id_from_metadata json_text obj) as [ws|e]; [|done].
unfold catch, savepoint. destruct ((claim_receipt i t ws event;; _) s) as [[r|e] s']; [done|].
by destruct e.
Qed.

(** Receipts are claimed, named and kept. *)
Lemma run_claim i t ws event s :
bd_events s !! i = None →
claim_receipt i t ws event s =
if match ws with Some w => bool_decide (w ∈ bd_workspaces s) | None => true end
then (Ok tt, s <| bd_events ::= <[i := mk_webhook_event t ws event]> |>)
else (Raise (IntegrityError "billing_webhook_events_workspace_id_fkey"), s).
Proof.
intros Hi. unfold claim_receipt. rewrite !run_bind. cbn [gets]. rewrite run_bind. cbn [gets].
rewrite Hi. by destruct ws as [w|]; [case_bool_decide|].
Qed.
End Atomic.

(** *** The newest event wins *)

Lemma foldl_max l n : n ≤ foldl Z.max n l ∧ (∀ x, x ∈ l → x ≤ foldl Z.max n l) ∧
  (foldl Z.max n l = n ∨ foldl Z.max n l ∈ l).
Proof.
  revert n. induction l as [|y l IH]; intros n; simpl.
  { split_and!; [lia|by intros x ?%not_elem_of_nil|by left]. }
  destruct (IH (Z.max n y)) as (H1 & H2 & H3). split_and!; [lia| |].
  - intros x [->|Hx]%elem_of_cons; [lia|by apply H2].
  - destruct H3 as [->|H3]; [|right; by right].
    destruct (Z.max_spec n y) as [[_ ->]|[_ ->]]; [right; left|by left].
Qed.

Lemma max_or_none_some l m :
  max_or_none l = Some m → m ∈ l ∧ ∀ x, x ∈ l → x ≤ m.
Proof.
  destruct l as [|n l]; [done|]. simpl. intros [= <-].
  destruct (foldl_max l n) as (H1 & H2 & H3). split.
  - destruct H3 as [->|H3]; [left|by right].
  - intros x [->|Hx]%elem_of_cons; [done|by apply H2].
Qed.

Lemma max_or_none_none l : max_or_none l = None → l = [].
Proof. by destruct l. Qed.

Lemma mirrored_columns ids status p c row :
  let row' := mirrored ids status p c row in
  wb_status row' = status ∧ (active status = true → wb_plan row' = PRO_PLAN) ∧
  wb_stripe_subscription_id row' = (if nonempty ids.1 then ids.1 else wb_stripe_subscription_id row) ∧
  wb_stripe_customer_id row' = match ids.2 with Some c => Some c | None => wb_stripe_customer_id row end.
Proof.
  unfold mirrored, active.
  destruct ids.2, (existsb (String.eqb status) ACTIVE_STATUSES), (String.eqb status "canceled"),
    (existsb (String.eqb status) ["past_due"; "unpaid"; "incomplete"]); done.
Qed.

Section Converge.
Context (json_text : json → string) (ws : positive) (events : list SubEvent) (s0 : BillingDB).
Hypothesis Hevents : ∀ e, e ∈ events → sub_event json_text ws e.
Hypothesis Hdistinct : distinct_events events.
Hypothesis Hunseen : unseen ws events s0.

Definition newest (n : SubEvent) (P : list SubEvent) : Prop :=
n ∈ P ∧ ∀ e, e ∈ P → se_created e ≤ se_created n.

Definition receipt_of (e : SubEvent) : BillingWebhookEvent :=
mk_webhook_event (se_type e) (Some ws) (se_payload e).

(** no other workspace has the identifier *)
Definition free_subscription (x : option string) : Prop :=
∀ i r, i ≠ ws → bd_billing s0 !! i = Some r → same_text (wb_stripe_subscription_id r) x = false.
Definition free_customer (x : option string) : Prop :=
∀ i r, i ≠ ws → bd_billing s0 !! i = Some r → same_text (wb_stripe_customer_id r) x = false.
Definition free_ids (row : WorkspaceBilling) : Prop :=
free_subscription (wb_stripe_subscription_id row) ∧ free_customer (wb_stripe_customer_id row).

(** the row mirrors the event, and its identifiers are its own *)
Definition mirrors (n : SubEvent) (row : WorkspaceBilling) : Prop :=
wb_status row = se_status n ∧ (active (wb_status row) = true → wb_plan row = PRO_PLAN) ∧ free_ids row.

(** an active event wins only over active ones of the same time *)
Definition tied (n : SubEvent) (P : list SubEvent) : Prop :=
active (se_status n) = true → ∀ e, e ∈ P → se_created e = se_created n → active (se_status e) = true.

(** what holds once the events of [P] were delivered *)
Definition seen (P : list SubEvent) (s : BillingDB) : Prop :=
bd_workspaces s = bd_workspaces s0 ∧
(∀ i, i ≠ ws → bd_billing s !! i = bd_billing s0 !! i) ∧
(∀ e, e ∈ P → bd_events s !! se_id e = Some (receipt_of e)) ∧
(∀ i r, bd_events s !! i = Some r → we_workspace_id r = Some ws →
 existsb (String.eqb (we_event_type r)) FRESHNESS_EVENTS = true → ∃ e, e ∈ P ∧ i = se_id e) ∧
(∀ e, e ∈ events → is_Some (bd_events s !! se_id e) → e ∈ P) ∧
match P with
| [] => bd_billing s !! ws = bd_billing s0 !! ws
| _ => ∃ row n, bd_billing s !! ws = Some row ∧ newest n P ∧ mirrors n row ∧ tied n P
end.

Lemma seen_start : seen [] s0.
Proof using Hunseen.
destruct Hunseen as (Hws & Hr & _).
split_and!; [done..|by intros e ?%not_elem_of_nil| | |done].
- intros i r Hi Hw Ht. destruct (Hr i r Hi) as [Hf _]. by rewrite (Hf Hw) in Ht.
- intros e He [r Hi]. destruct (Hr _ r Hi) as [_ Hno]. by destruct (Hno e He).
Qed.

(** The receipts of the subscription, but for the event at hand. *)
Lemma latest_seen P s e s' :
seen P s → (∀ x, x ∈ P → x ∈ events) → e ∈ events → e ∉ P →
bd_events s' = <[se_id e := receipt_of e]> (bd_events s) →
∃ latest, latest_applied_event_created ws (se_id e) s' = (Ok latest, s') ∧
match latest with
| None => P = []
| Some c => ∃ n, newest n P ∧ se_created n = c
end.
Proof using Hevents Hdistinct.
intros (_ & _ & Hrec & Hback & _ & _) HP He Hnew Hs'. eexists. split; [reflexivity|].
rewrite Hs'. set (t := <[se_id e := receipt_of e]> (bd_events s)).
assert (Hmem : ∀ c, c ∈ omap (λ p, created_of (we_payload p.2)) (rows (applied_for ws (se_id e)) t)
↔ ∃ x, x ∈ P ∧ se_created x = c).
{ intros c. rewrite list_elem_of_omap. split.
- intros ([i r] & [Hi Ha]%elem_of_rows & Hc). simpl in Hc.
  unfold applied_for in Ha. apply andb_true_iff in Ha as [[Hw Hne]%andb_true_iff Hty].
  apply bool_decide_eq_true in Hw. apply negb_true_iff, String.eqb_neq in Hne.
  unfold t in Hi. rewrite lookup_insert_ne in Hi by done.
  destruct (Hback i r Hi Hw Hty) as (x & Hx & ->). rewrite (Hrec x Hx) in Hi. injection Hi as <-.
  destruct (Hevents x (HP x Hx)) as (_ & _ & Hcx & _). simpl in Hc. exists x. split; [done|congruence].
- intros (x & Hx & <-). exists (se_id x, receipt_of x).
  destruct (Hevents x (HP x Hx)) as (_ & Ht & Hcx & _). split; [|done].
  assert (Hne : se_id x ≠ se_id e).
  { intros Heq. assert (x = e) as -> by (apply Hdistinct; auto). done. }
  apply elem_of_rows. split; [unfold t; rewrite lookup_insert_ne by done; by apply Hrec|].
  unfold applied_for, FRESHNESS_EVENTS. cbn [we_workspace_id we_event_type receipt_of].
  apply String.eqb_neq in Hne. by rewrite (bool_decide_eq_true_2 _ eq_refl), Hne, existsb_app, Ht. }
destruct (max_or_none _) as [c|] eqn:Hmax.
- apply max_or_none_some in Hmax as [Hin Hle]. apply Hmem in Hin as (n & Hn & <-).
exists n. split; [|done]. split; [done|]. intros x Hx. apply Hle, Hmem. by exists x.
- apply max_or_none_none in Hmax. destruct P as [|x P]; [done|].
assert (Hx : se_created x ∈ omap (λ p, created_of (we_payload p.2)) (rows (applied_for ws (se_id e)) t)).
{ apply Hmem. exists x. split; [left|done]. }
rewrite Hmax in Hx. by apply not_elem_of_nil in Hx.
Qed.

(** No other workspace holds an identifier of the row. *)
Lemma flush_clear s row :
bd_billing s !! ws = Some row →
(∀ i, i ≠ ws → bd_billing s !! i = bd_billing s0 !! i) → free_ids row →
flush_billing ws s = (Ok tt, s).
Proof using.
intros Hrow Hoth [Hs Hc]. unfold flush_billing. rewrite run_bind. cbn [gets]. rewrite Hrow.
rewrite rows_none; [done|]. intros i r Hi. unfold taken_from.
case_bool_decide as Hne; [done|]. rewrite Hoth in Hi by done. simpl.
apply orb_false_iff. split; [by apply (Hc i)|by apply (Hs i)].
Qed.

(** One event applied over the row. *)
Lemma mirrors_mirrored e row p c :
e ∈ events → free_ids row → mirrors e (mirrored (se_ids e) (se_status e) p c row).
Proof using Hunseen.
intros He [Hs Hc]. destruct (mirrored_columns (se_ids e) (se_status e) p c row) as (H1 & H2 & H3 & H4).
destruct Hunseen as (_ & _ & Hfree). unfold mirrors, free_ids. rewrite H1, H3, H4. split_and!; [done|done|..].
- destruct (nonempty (se_ids e).1); [|done]. intros i r Hi Hr. by apply (Hfree i r Hi Hr).
- intros i r Hi Hr. specialize (Hc i r Hi Hr).
  destruct (Hfree i r Hi Hr) as [Hf _]. destruct (Hf e He) as [_ Hf2]. by destruct (se_ids e).2.
Qed.

(** What [seen] becomes when the row is set and the receipt kept. *)
Lemma seen_next P s s' e row :
(∀ x, x ∈ P → x ∈ events) → e ∈ events → e ∉ P → seen P s →
bd_workspaces s' = bd_workspaces s → bd_events s' = <[se_id e := receipt_of e]> (bd_events s) →
bd_billing s' = <[ws := row]> (bd_billing s) →
(∃ n, newest n (e :: P) ∧ mirrors n row ∧ tied n (e :: P)) → seen (e :: P) s'.
Proof using Hdistinct.
intros HP He Hnew (Hw & Hoth & Hrec & Hback & Hnone & _) Hw' Hev Hb (n & Hn & Hm & Ht).
assert (Hid : ∀ x, x ∈ events → se_id x = se_id e → x = e) by (intros x Hx Heq; apply Hdistinct; auto).
split_and!.
- by rewrite Hw'.
- intros i Hi. rewrite Hb, lookup_insert_ne by done. by apply Hoth.
- intros x [->|Hx]%elem_of_cons; rewrite Hev; [by rewrite lookup_insert_eq|].
rewrite lookup_insert_ne; [by apply Hrec|]. intros Heq. rewrite (Hid x (HP x Hx)) in Hx; done.
- intros i r. rewrite Hev, lookup_insert. case_decide as Hi.
+ intros _ _ _. exists e. split; [left|done].
+ intros Hir Hwr Hty. destruct (Hback i r Hir Hwr Hty) as (x & Hx & ->). exists x. split; [by right|done].
- intros x Hx. rewrite Hev, lookup_insert. case_decide as Heq.
+ intros _. rewrite (Hid x Hx (eq_sym Heq)). left.
+ intros Hr. right. by apply Hnone.
- exists row, n. by rewrite Hb, lookup_insert_eq.
Qed.

Definition row_or_new (s : BillingDB) : WorkspaceBilling :=
default (mk_billing None None "none" "inactive" None false) (bd_billing s !! ws).

Lemma run_ensure s :
ws ∈ bd_workspaces s →
ensure_workspace_billing ws s = (Ok (row_or_new s), s <| bd_billing ::= <[ws := row_or_new s]> |>).
Proof.
intros Hw. unfold ensure_workspace_billing, row_or_new. rewrite run_bind. cbn [gets].
destruct (bd_billing s !! ws) as [row|] eqn:Hr.
- simpl. f_equal. destruct s. unfold over. simpl in *. f_equal. by rewrite insert_id.
- rewrite run_bind. cbn [gets]. by rewrite (bool_decide_eq_true_2 _ Hw).
Qed.

Lemma subscription_event_type t :
existsb (String.eqb t) SUBSCRIPTION_EVENTS = true → String.eqb t "checkout.session.completed" = false.
Proof.
simpl. rewrite orb_false_r, !orb_true_iff, !String.eqb_eq. by intros [->|[->| ->]].
Qed.

(** The newest of the events delivered so far, and one more. *)
Lemma newest_cons n e P : newest n P → se_created e ≤ se_created n → newest n (e :: P).
Proof. intros [Hn Hle] He. split; [by right|]. intros x [->|Hx]%elem_of_cons; auto. Qed.
Lemma newest_head n e P : newest n P → se_created n ≤ se_created e → newest e (e :: P).
Proof.
intros [Hn Hle] He. split; [left|]. intros x [->|Hx]%elem_of_cons; [done|]. specialize (Hle x Hx). lia.
Qed.

(** The row before an event: the mirror of the newest one so far, or as it was. *)
Lemma billing_row_before P s s' :
seen P s → bd_billing s' = bd_billing s →
(P = [] ∨ ∃ n, newest n P ∧ mirrors n (row_or_new s') ∧ tied n P) ∧ free_ids (row_or_new s').
Proof using Hunseen.
intros (_ & _ & _ & _ & _ & Hrow) Hb. unfold row_or_new. rewrite Hb. destruct P as [|x P].
- split; [by left|]. rewrite Hrow. destruct Hunseen as (_ & _ & Hfree).
  destruct (bd_billing s0 !! ws) as [row|] eqn:Hr; simpl.
  + split; intros i r Hi Hir; by apply (Hfree i r Hi Hir).
  + split; intros i r _ _; [by destruct (wb_stripe_subscription_id r)|by destruct (wb_stripe_customer_id r)].
- destruct Hrow as (row & n & -> & Hn & Hm & Ht). simpl. split; [right; by exists n|]. apply Hm.
Qed.

Lemma run_apply P s e s1 obj p c :
seen P s → (∀ x, x ∈ P → x ∈ events) → e ∈ events → e ∉ P → ws ∈ bd_workspaces s →
bd_workspaces s1 = bd_workspaces s → bd_billing s1 = bd_billing s →
bd_events s1 = <[se_id e := receipt_of e]> (bd_events s) →
subscription_status json_text obj = Ok (se_status e) →
mirrored_subscription obj (se_status e) = Ok (mirrored (se_ids e) (se_status e) p c) →
∃ s2 row n, apply_subscription json_text ws obj (se_id e) (Some (se_created e)) s1 = (Ok tt, s2) ∧
bd_workspaces s2 = bd_workspaces s1 ∧ bd_events s2 = bd_events s1 ∧
bd_billing s2 = <[ws := row]> (bd_billing s1) ∧ newest n (e :: P) ∧ mirrors n row ∧ tied n (e :: P).
Proof using Hevents Hdistinct Hunseen.
intros Hseen HP He Hnew Hw Hw1 Hb1 He1 Hst Hmir. unfold apply_subscription.
rewrite (run_bind_ok _ _ _ _ _ (run_ensure s1 ltac:(by rewrite Hw1))).
rewrite run_bind. unfold lift_result at 1. rewrite Hst.
set (s1' := s1 <| bd_billing ::= <[ws := row_or_new s1]> |>).
destruct (latest_seen P s e s1' Hseen HP He Hnew He1) as (latest & Hl & Hlast).
rewrite (run_bind_ok _ _ _ _ _ Hl).
destruct (billing_row_before P s s1 Hseen Hb1) as (Hrow & Hfree).
destruct (out_of_date (Some (se_created e)) latest (se_status e)) eqn:Hold.
- destruct latest as [c'|]; [|done]. destruct Hlast as (n & Hn & <-).
destruct Hrow as [->|(n' & Hn' & Hm' & Ht')]; [destruct Hn as [[]%not_elem_of_nil _]|].
assert (Heq : se_created n = se_created n').
{ pose proof (proj2 Hn' n (proj1 Hn)). pose proof (proj2 Hn n' (proj1 Hn')). lia. }
assert (Hle : se_created e ≤ se_created n' ∧
  (se_created e = se_created n' → active (se_status e) = true)).
{ simpl in Hold. unfold active. apply orb_true_iff in Hold as [Hlt%Z.ltb_lt|[Hx%Z.eqb_eq Ha]%andb_true_iff]; [lia|].
  split; [lia|done]. }
exists s1', (row_or_new s1), n'. split_and!; try done.
+ apply newest_cons; [done|apply Hle].
+ intros Ha x [->|Hx]%elem_of_cons; [by apply Hle|by apply Ht'].
- rewrite run_bind. unfold lift_result at 1. rewrite Hmir.
set (row := mirrored (se_ids e) (se_status e) p c (row_or_new s1)).
pose proof (mirrors_mirrored e (row_or_new s1) p c He Hfree) as Hm. fold row in Hm.
assert (Hset : set_billing ws (mirrored (se_ids e) (se_status e) p c) s1'
  = (Ok tt, s1 <| bd_billing ::= <[ws := row]> |>)).
{ unfold set_billing, update, s1', over. simpl. by rewrite alter_insert_eq. }
rewrite (run_bind_ok _ _ _ _ _ Hset). exists (s1 <| bd_billing ::= <[ws := row]> |>), row, e.
pose proof Hm as (Hm1 & Hm2 & Hm3). split_and!; try done.
+ apply (flush_clear _ row); simpl; [by rewrite lookup_insert_eq| |done].
  intros i Hi. rewrite lookup_insert_ne, Hb1 by done. by apply Hseen.
+ destruct latest as [c'|]; [|subst P; split; [left|by intros x [->|[]%not_elem_of_nil]%elem_of_cons]].
  destruct Hlast as (n & Hn & <-). apply (newest_head n); [done|].
  simpl in Hold. apply orb_false_iff in Hold as [Hge%Z.ltb_ge _]. done.
+ intros Ha x [->|Hx]%elem_of_cons Hxe; [done|]. exfalso.
  destruct latest as [c'|]; [|subst P; by apply not_elem_of_nil in Hx].
  destruct Hlast as (n & Hn & <-). unfold out_of_date in Hold. fold (active (se_status e)) in Hold.
  apply orb_false_iff in Hold as [Hge%Z.ltb_ge Hne]. rewrite Ha, andb_true_r in Hne.
  apply Z.eqb_neq in Hne. pose proof (proj2 Hn x Hx). lia.
Qed.

(** One delivery. *)
Lemma seen_deliver P s e :
seen P s → (∀ x, x ∈ P → x ∈ events) → e ∈ events →
∃ P', seen P' (deliver json_text s (se_payload e)) ∧ ∀ x, x ∈ P' ↔ x = e ∨ x ∈ P.
Proof using Hevents Hdistinct Hunseen.
intros Hseen HP He. unfold deliver. rewrite run_process.
destruct (Hevents e He) as (Hn & Ht & Hc & obj & p & c & Hobj & Hws & Hst & Hmir).
rewrite Hn. pose proof Hseen as (Hw & _ & Hrec & _ & Hnone & _).
destruct (bd_events s !! se_id e) as [r|] eqn:Hr.
{ exists P. split; [done|]. intros x. split; [by right|]. intros [->|Hx]; [|done].
apply Hnone; [done|]. rewrite Hr. by exists r. }
assert (Hnew : e ∉ P) by (intros Hx; by rewrite (Hrec e Hx) in Hr).
assert (Hwin : ws ∈ bd_workspaces s) by (rewrite Hw; apply Hunseen).
rewrite Hobj, Hws, run_bind, run_claim, (bool_decide_eq_true_2 _ Hwin) by done.
rewrite run_bind. unfold apply_event. rewrite (subscription_event_type _ Ht), Ht, Hc.
rewrite run_bind. cbn [mapped_workspace mret st_ret]. rewrite run_bind.
destruct (run_apply P s e (s <| bd_events ::= <[se_id e := receipt_of e]> |>) obj p c Hseen HP He Hnew
Hwin ltac:(done) ltac:(done) ltac:(done) Hst Hmir) as (s2 & row & n & Happ & Hw2 & He2 & Hb2 & Hnn & Hm & Ht2).
change (mk_webhook_event (se_type e) (Some ws) (se_payload e)) with (receipt_of e). rewrite Happ.
exists (e :: P). split; [|intros x; by rewrite elem_of_cons].
apply (seen_next P s _ e row); try done; [|by exists n].
simpl. rewrite He2. simpl. by rewrite alter_insert_eq.
Qed.

Lemma seen_delivered evs P s :
seen P s → (∀ x, x ∈ P → x ∈ events) → (∀ x, x ∈ evs → x ∈ events) →
∃ P', seen P' (delivered json_text (map se_payload evs) s) ∧ ∀ x, x ∈ P' ↔ x ∈ evs ∨ x ∈ P.
Proof using Hevents Hdistinct Hunseen.
revert P s. induction evs as [|e evs IH]; intros P s Hs HP Hevs; simpl.
- exists P. split; [done|]. intros x. split; [by right|]. by intros [[]%not_elem_of_nil|].
- destruct (seen_deliver P s e Hs HP (Hevs e ltac:(left))) as (P1 & Hs1 & HP1).
destruct (IH P1 _ Hs1) as (P' & Hs' & HP').
+ intros x [->|Hx]%HP1; [apply Hevs; left|by apply HP].
+ intros x Hx. apply Hevs. by right.
+ exists P'. split; [done|]. intros x. rewrite HP', HP1, elem_of_cons. tauto.
Qed.
End Converge.

(** *** Receipts stay *)

Lemma process_receipt json_text event s i t w s' :
  process_stripe_event json_text event s = (Ok (StripeProcessed i t w), s') →
  event_names event = Ok (i, t) ∧ bd_events s !! i = None ∧ is_Some (bd_events s' !! i).
Proof.
  rewrite run_process. destruct (event_names event) as [[i' t']|e]; [|done].
  destruct (bd_events s !! i') eqn:Hi; [done|].
  destruct (event_object event) as [obj|e]; [|done].
  destruct (workspace_id_from_metadata json_text obj) as [ws|e]; [|done].
  rewrite run_bind, run_claim by done. destruct (match ws with Some _ => _ | None => _ end); [|done].
  rewrite run_bind. set (s1 := s <| bd_events ::= _ |>).
  pose proof (keeps_apply_event json_text (frame bd_events) t' i' ws obj (created_of event) s1) as Hk.
  destruct (apply_event json_text t' i' ws obj (created_of event) s1) as [[w1|e] s2];
    [|by destruct e]. rewrite run_bind. unfold frame in Hk. simpl in Hk.
  assert (Hn : ∃ s3, name_workspace i' w1 s2 = (Ok tt, s3) ∧ is_Some (bd_events s3 !! i')).
  { unfold name_workspace. destruct w1 as [w1|]; eexists; (split; [reflexivity|]); simpl.
    - rewrite Hk. unfold s1. simpl. rewrite lookup_alter_eq, lookup_insert_eq. by eexists.
    - rewrite Hk. unfold s1. simpl. rewrite lookup_insert_eq. by eexists. }
  destruct Hn as (s3 & -> & Hs3). simpl. intros [= <- <- <- <-]. done.
Qed.

Lemma process_unchanged json_text event s r s' :
  process_stripe_event json_text event s = (r, s') →
  (∃ i t w, r = Ok (StripeProcessed i t w)) ∨ s' = s.
Proof.
  rewrite run_process. destruct (event_names event) as [[i t]|e]; [|intros [= <- <-]; by right].
  destruct (bd_events s !! i); [intros [= <- <-]; by right|].
  destruct (event_object event) as [obj|e]; [|intros [= <- <-]; by right].
  destruct (workspace_id_from_metadata json_text obj) as [ws|e]; [|intros [= <- <-]; by right].
  destruct ((claim_receipt i t ws event;; _) s) as [[x|e] s1] eqn:Hin.
  - intros [= <- <-]. left. apply bind_ok_inv in Hin as ([] & s2 & _ & Hin).
    apply bind_ok_inv in Hin as (w & s3 & _ & Hin). apply bind_ok_inv in Hin as ([] & s4 & _ & Hin).
    injection Hin as <- _. by exists i, t, w.
  - destruct e; intros [= <- <-]; by right.
Qed.

(** *** Where an active status comes from *)

(** Every active row was so before, or [P] accounts for it. *)
Definition active_from (P : positive → string → Prop) : relation BillingDB := λ s s',
  ∀ i row', bd_billing s' !! i = Some row' → active (wb_status row') = true →
    P i (wb_status row') ∨ ∃ row, bd_billing s !! i = Some row ∧ wb_status row = wb_status row'.

#[export] Instance active_from_preorder P : PreOrder (active_from P).
Proof.
  split; [intros s i row' Hi _; right; by exists row'|].
  intros s s' s'' H1 H2 i row'' Hi Ha. destruct (H2 i row'' Hi Ha) as [?|(row' & Hi' & Hs)]; [by left|].
  rewrite <- Hs in *. by apply H1.
Qed.

Lemma active_from_set P ws g :
  (∀ b, active (wb_status (g b)) = true → P ws (wb_status (g b)) ∨ wb_status (g b) = wb_status b) →
  keeps (active_from P) (set_billing ws g).
Proof.
  intros Hg s i row'. simpl. rewrite lookup_alter. case_decide as Hi; [|intros ? _; right; by exists row'].
  subst i. intros (row & Hr & ->)%fmap_Some Ha. destruct (Hg row Ha) as [?|Heq]; [by left|].
  right. exists row. by rewrite Heq.
Qed.

Lemma active_from_ensure P ws : keeps (active_from P) (ensure_workspace_billing ws).
Proof.
  intros s. unfold ensure_workspace_billing. rewrite run_bind. cbn [gets].
  destruct (bd_billing s !! ws) eqn:Hw; [done|]. rewrite run_bind. cbn [gets]. case_bool_decide; [|done].
  intros i row'. simpl. rewrite lookup_insert. case_decide; [by intros [= <-]|].
  intros Hi _. right. by exists row'.
Qed.
#[local] Hint Resolve active_from_ensure : keeps.

Section Active.
Context (json_text : json → string) (P : positive → string → Prop).

Lemma active_from_apply_subscription ws obj i c :
(∀ st, subscription_status json_text obj = Ok st → P ws st) →
keeps (active_from P) (apply_subscription json_text ws obj i c).
Proof.
intros HP. unfold apply_subscription. apply keeps_bind; [apply _|apply active_from_ensure|intros _].
apply keeps_bind_lift; [apply _|intros st Hst]. apply keeps_bind; [apply _|keeps_tac|intros latest].
destruct (out_of_date c latest st); [keeps_tac|].
apply keeps_bind_lift; [apply _|intros g Hg]. apply keeps_bind; [apply _| |keeps_tac].
apply active_from_set. intros b _. left. unfold mirrored_subscription in Hg.
destruct (subscription_ids obj) as [ids|]; [|done].
destruct (period_end_from_subscription obj) as [p|]; [|done].
destruct (py_get obj "cancel_at_period_end") as [cancel|]; [|done]. injection Hg as <-.
rewrite (proj1 (mirrored_columns ids st p (truthy cancel) b)). by apply HP.
Qed.

Lemma active_from_link ws obj : keeps (active_from P) (link_checkout ws obj).
Proof.
assert (Hc : ∀ w c, keeps (active_from P) (set_billing w (λ b, b <| wb_stripe_customer_id := Some c |>)))
by (intros w c; apply active_from_set; intros b _; by right).
assert (Hs : ∀ w c, keeps (active_from P) (set_billing w (λ b, b <| wb_stripe_subscription_id := Some c |>)))
by (intros w c; apply active_from_set; intros b _; by right).
unfold link_checkout. keeps_tac.
Qed.

Lemma active_from_payment_failed ws obj i c : keeps (active_from P) (apply_payment_failed ws obj i c).
Proof.
assert (Hset : ∀ w, keeps (active_from P) (set_billing w (λ b, b <| wb_status := "past_due" |>)))
by (intros w; by apply active_from_set).
unfold apply_payment_failed. keeps_tac.
Qed.
End Active.

(** the workspace the event was for, and the status it gave it *)
Definition granted_by json_text (t : string) (obj : json) (param found : option positive)
    (i : positive) (st : string) : Prop :=
  existsb (String.eqb t) SUBSCRIPTION_EVENTS = true ∧ subscription_status json_text obj = Ok st ∧
  found = Some i ∧ (param = None ∨ param = Some i).

Lemma apply_event_active json_text t i param obj c s w s' :
  apply_event json_text t i param obj c s = (Ok w, s') →
  active_from (granted_by json_text t obj param w) s s'.
Proof.
  unfold apply_event. destruct (String.eqb t "checkout.session.completed").
  { intros Hr. exact (keeps_run _ _ _ _ _ (active_from_link _ param obj) Hr). }
  destruct (existsb (String.eqb t) SUBSCRIPTION_EVENTS) eqn:Ht.
  - intros Hr. apply bind_ok_inv in Hr as (ws & s1 & Hmap & Hr).
    apply bind_ok_inv in Hr as ([] & s2 & Happ & Hr). injection Hr as <- <-.
    assert (Hparam : param = None ∨ param = Some ws).
    { destruct param as [p|]; [|by left]. right. by injection Hmap as -> _. }
    assert (Hs1 : active_from (granted_by json_text t obj param (Some ws)) s s1).
    { refine (keeps_run _ _ _ _ _ _ Hmap). unfold mapped_workspace. keeps_tac. }
    etrans; [exact Hs1|]. refine (keeps_run _ _ _ _ _ _ Happ).
    apply active_from_apply_subscription. intros st Hst. by split_and!.
  - destruct (String.eqb t "invoice.payment_failed"); [|by intros [= <- <-]].
    intros Hr. exact (keeps_run _ _ _ _ _ (active_from_payment_failed _ param obj i c) Hr).
Qed.

(** *** Every request keeps the receipts behind the active rows *)

Lemma backed_quiet json_text s s' :
  active_from (λ _ _, False) s s' → bd_events s' = bd_events s → backed json_text s → backed json_text s'.
Proof.
  intros Ha He Hb ws row' Hr Hact. destruct (Ha ws row' Hr Hact) as [[]|(row & Hr0 & Hs)].
  rewrite He, <- Hs. apply Hb; [done|]. by rewrite Hs.
Qed.

Lemma backed_process json_text event s :
  backed json_text s → backed json_text (process_stripe_event json_text event s).2.
Proof.
  intros Hb. rewrite run_process. destruct (event_names event) as [[i t]|e]; [|done].
  destruct (bd_events s !! i) eqn:Hi; [done|]. destruct (event_object event) as [obj|e] eqn:Hobj; [|done].
  destruct (workspace_id_from_metadata json_text obj) as [param|e]; [|done].
  rewrite run_bind, run_claim by done. destruct (match param with Some _ => _ | None => _ end); [|done].
  rewrite run_bind. set (s1 := s <| bd_events ::= _ |>).
  pose proof (keeps_apply_event json_text (frame bd_events) t i param obj (created_of event) s1) as Hk.
  destruct (apply_event json_text t i param obj (created_of event) s1) as [[w|e] s2] eqn:Happ;
    [|by destruct e]. rewrite run_bind. unfold frame in Hk. simpl in Hk.
  apply apply_event_active in Happ.
  set (f := λ e : BillingWebhookEvent, match we_workspace_id e with
    | None => e <| we_workspace_id := w |> | Some _ => e end).
  assert (Hname : ∃ s3, name_workspace i w s2 = (Ok tt, s3) ∧ bd_billing s3 = bd_billing s2 ∧
    bd_events s3 = alter f i (bd_events s2)).
  { unfold name_workspace. destruct w as [w|]; eexists; (split_and!; [reflexivity|done|]); [done|].
    symmetry. apply map_eq. intros j. rewrite lookup_alter. case_decide; [subst|done].
    destruct (bd_events s2 !! j) as [[ty [ws|] pl]|]; done. }
  destruct Hname as (s3 & -> & Hb3 & He3). simpl. intros ws row' Hr Hact. rewrite Hb3 in Hr.
  destruct (Happ ws row' Hr Hact) as [(Ht & Hst & -> & Hparam)|(row & Hr0 & Hs)].
  - exists i, (mk_webhook_event t (Some ws) event). rewrite He3, Hk. unfold s1. simpl.
    rewrite lookup_alter_eq, lookup_insert_eq. split.
    + by destruct Hparam as [-> | ->].
    + split_and!; [done..|]. by exists obj.
  - rewrite <- Hs in Hact. destruct (Hb ws row Hr0 Hact) as (j & r & Hj & Hg). exists j, r. split.
    + rewrite He3, Hk. unfold s1. simpl. assert (j ≠ i) by congruence.
      by rewrite lookup_alter_ne, lookup_insert_ne.
    + by rewrite <- Hs.
Qed.

Section Requests.
Context (json_text : json → string) (settings : BillingSettings).
Context (stripe_create_customer : option string → positive → string + string).
Context (stripe_create_session : option string → positive → (option string * string) + string).

(** a webhook, a look at the entitlement, a checkout (one transaction each) *)
Inductive billing_request : Type :=
| Webhook (event : json)
| LookUp (ws : positive)
| Checkout (ws : positive) (customer_email : option string).

Definition serve (s : BillingDB) (q : billing_request) : BillingDB :=
match q with
| Webhook event => (process_stripe_event json_text event s).2
| LookUp ws => (get_entitlement settings ws s).2
| Checkout ws email =>
  (savepoint (create_checkout_session settings stripe_create_customer stripe_create_session ws email) s).2
end.

Lemma active_from_checkout P ws email :
keeps (active_from P)
(create_checkout_session settings stripe_create_customer stripe_create_session ws email).
Proof.
assert (Hc : ∀ w c, keeps (active_from P) (set_billing w (λ b, b <| wb_stripe_customer_id := Some c |>)))
by (intros w c; apply active_from_set; intros b _; by right).
unfold create_checkout_session, stripe_customer, require_billing_config. keeps_tac.
Qed.

Lemma backed_serve s q : backed json_text s → backed json_text (serve s q).
Proof.
destruct q as [event|ws|ws email]; [apply backed_process|..]; apply backed_quiet.
- assert (Hk : keeps (active_from (λ _ _, False)) (get_entitlement settings ws))
  by (unfold get_entitlement; keeps_tac). apply Hk.
- assert (Hk : keeps (frame bd_events) (get_entitlement settings ws))
  by (unfold get_entitlement; keeps_tac). apply Hk.
- apply (keeps_savepoint _ _ (active_from_checkout (λ _ _, False) ws email)).
- assert (Hk : keeps (frame bd_events)
  (create_checkout_session settings stripe_create_customer stripe_create_session ws email)).
{ unfold create_checkout_session, stripe_customer, require_billing_config. keeps_tac. }
apply (keeps_savepoint _ _ Hk).
Qed.
End Requests.

(** *** A customer of two workspaces *)

Lemma flush_taken ws i c row row' s :
  bd_billing s !! ws = Some row' → bd_billing s !! i = Some row → i ≠ ws →
  wb_stripe_customer_id row = Some c → wb_stripe_customer_id row' = Some c →
  flush_billing ws s = (Raise (IntegrityError "workspace_billing"), s).
Proof.
  intros Hw Hi Hne Hc Hc'. unfold flush_billing. rewrite run_bind. cbn [gets]. rewrite Hw.
  assert (Hin : (i, row) ∈ rows (taken_from ws row') (bd_billing s)).
  { apply elem_of_rows. split; [done|]. unfold taken_from.
    rewrite (bool_decide_eq_false_2 _ Hne), Hc, Hc'. simpl. by rewrite String.eqb_refl. }
  destruct (rows _ _); [by apply not_elem_of_nil in Hin|done].
Qed.

(** ** Theorems *)

(** C40: webhooks converge: however often and in whatever order the events that
    created, updated and deleted a subscription are delivered, the workspace
    ends with the status of a newest of them, and is entitled exactly when
    every newest one is active: where several bear the same time, one that is
    not active decides.  No such event was applied before, but the row of the
    workspace may be there, linked to its customer and subscription, which are
    no other workspace's.  Events [invoice.payment_failed] are not among them:
    one that comes before the subscription is linked finds no row. *)
Theorem newest_event_wins json_text ws events s n :
  (∀ e, e ∈ events → sub_event json_text ws e) → distinct_events events → unseen ws events s →
  n ∈ events → (∀ e, e ∈ events → se_created e ≤ se_created n) →
  ∃ row m, bd_billing (delivered json_text (map se_payload events) s) !! ws = Some row ∧
    m ∈ events ∧ se_created m = se_created n ∧ wb_status row = se_status m ∧
    (is_entitled (Some row) true = true ↔
     ∀ e, e ∈ events → se_created e = se_created n → active (se_status e) = true).
Proof.
  intros Hev Hd Hu Hn Hle.
  destruct (seen_delivered json_text ws events s Hev Hd Hu events [] s (seen_start ws events s Hu))
    as (P & (_ & _ & _ & _ & _ & Hrow) & HP); [by intros x ?%not_elem_of_nil|done|].
  assert (HPe : ∀ x, x ∈ P ↔ x ∈ events).
  { intros x. rewrite HP. split; [|by left]. intros [?|Hx]; [done|by apply not_elem_of_nil in Hx]. }
  assert (HnP : n ∈ P) by by apply HPe.
  destruct P as [|x P]; [by apply not_elem_of_nil in HnP|].
  destruct Hrow as (row & m & Hrow & [Hm Hmax] & (Hst & Hplan & _) & Htie). exists row, m.
  assert (Hmn : se_created m = se_created n).
  { specialize (Hmax n HnP). specialize (Hle m (proj1 (HPe m) Hm)). lia. }
  split_and!; [done|by apply HPe|done|done|].
  change (String.eqb (wb_plan row) PRO_PLAN && active (wb_status row) = true ↔
    ∀ e, e ∈ events → se_created e = se_created n → active (se_status e) = true).
  rewrite andb_true_iff, Hst. split.
  - intros [_ Ha] e He Hc. apply (Htie Ha e); [by apply HPe|by rewrite Hmn].
  - intros Hall. assert (Ha : active (se_status m) = true) by (apply Hall; [by apply HPe|done]).
    split; [|done]. rewrite Hplan by by rewrite Hst. by apply String.eqb_eq.
Qed.

(** An event is applied once or not at all: when it is processed, its next
    delivery is a duplicate that changes nothing; when it is refused, fails or
    is a duplicate, it changes nothing itself. *)
Theorem stripe_event_atomic json_text event s :
  match process_stripe_event json_text event s with
  | (Ok (StripeProcessed i t _), s') => bd_events s !! i = None ∧
      process_stripe_event json_text event s' = (Ok (StripeDuplicate i t), s')
  | (_, s') => s' = s
  end.
Proof.
  destruct (process_stripe_event json_text event s) as [[[i t|i t w]|e] s'] eqn:Hp.
  - by destruct (process_unchanged _ _ _ _ _ Hp) as [(? & ? & ? & [=])|].
  - destruct (process_receipt _ _ _ _ _ _ _ Hp) as (Hn & Hi & [r Hr]). split; [done|].
    rewrite run_process, Hn, Hr. done.
  - by destruct (process_unchanged _ _ _ _ _ Hp) as [(? & ? & ? & [=])|].
Qed.

(** No entitlement without a receipt: with billing enabled, whatever the
    webhooks and checkouts, a workspace that is entitled has on record a
    verified event of its subscription with that very status. *)
Theorem entitlement_backed json_text settings create_customer create_session requests s ws row :
  backed json_text s →
  let s' := foldl (serve json_text settings create_customer create_session) s requests in
  bd_billing s' !! ws = Some row → is_entitled (Some row) true = true →
  ∃ i r, bd_events s' !! i = Some r ∧ receipt_grants json_text ws (wb_status row) r.
Proof.
  intros Hb s' Hr He. assert (Hb' : backed json_text s').
  { unfold s'. clear s' Hr. revert s Hb. induction requests as [|q requests IH]; intros s Hb; [done|].
    apply IH. by apply backed_serve. }
  apply (Hb' ws row Hr). unfold is_entitled in He. by apply andb_true_iff in He as [_ ?].
Qed.

(** A subscription event whose customer is already another workspace's is
    not applied, and yet it is answered as a duplicate: the violated unique
    column is mistaken for a second delivery, no receipt is kept and nothing
    changes, so that nobody learns of the conflict. *)
Theorem conflict_answered_duplicate json_text ws e s i row c :
  sub_event json_text ws e → ws ∈ bd_workspaces s → bd_events s !! se_id e = None →
  (∀ j r, bd_events s !! j = Some r → we_workspace_id r ≠ Some ws) →
  bd_billing s !! i = Some row → i ≠ ws → wb_stripe_customer_id row = Some c → (se_ids e).2 = Some c →
  process_stripe_event json_text (se_payload e) s = (Ok (StripeDuplicate (se_id e) (se_type e)), s).
Proof.
  intros (Hn & Ht & Hc & obj & p & cancel & Hobj & Hws & Hst & Hmir) Hw Hnew Hnone Hi Hne Hcu Hids.
  rewrite run_process, Hn, Hnew, Hobj, Hws, run_bind, run_claim, (bool_decide_eq_true_2 _ Hw) by done.
  rewrite run_bind. unfold apply_event. rewrite (subscription_event_type _ Ht), Ht, Hc.
  rewrite run_bind. cbn [mapped_workspace mret st_ret]. rewrite run_bind. unfold apply_subscription.
  set (s1 := s <| bd_events ::= _ |>).
  rewrite (run_bind_ok _ _ _ _ _ (run_ensure ws s1 Hw)), run_bind.
  unfold lift_result at 1. rewrite Hst.
  set (s2 := s1 <| bd_billing ::= <[ws := row_or_new ws s1]> |>).
  assert (Hl : latest_applied_event_created ws (se_id e) s2 = (Ok None, s2)).
  { unfold latest_applied_event_created. rewrite run_bind. cbn [gets]. rewrite rows_none; [done|].
    intros j r. simpl. rewrite lookup_insert. unfold applied_for. case_decide as Hj.
    - subst j. by rewrite String.eqb_refl, andb_false_r.
    - intros Hr. by rewrite (bool_decide_eq_false_2 _ (Hnone j r Hr)). }
  rewrite (run_bind_ok _ _ _ _ _ Hl). cbn [out_of_date]. rewrite run_bind. unfold lift_result at 1.
  rewrite Hmir.
  set (row' := mirrored (se_ids e) (se_status e) p cancel (row_or_new ws s1)).
  assert (Hset : ∃ s3, set_billing ws (mirrored (se_ids e) (se_status e) p cancel) s2 = (Ok tt, s3) ∧
    bd_billing s3 = <[ws := row']> (bd_billing s))
    by (eexists; split; [reflexivity|simpl; by rewrite alter_insert_eq]).
  destruct Hset as (s3 & Hset & Hb3). rewrite (run_bind_ok _ _ _ _ _ Hset).
  rewrite (flush_taken ws i c row row' s3); rewrite ?Hb3; try done.
  - by rewrite lookup_insert_eq.
  - by rewrite lookup_insert_ne.
  - destruct (mirrored_columns (se_ids e) (se_status e) p cancel (row_or_new ws s1)) as (_ & _ & _ & Hcol).
    unfold row'. by rewrite Hcol, Hids.
Qed.

(** ** A subscription of workspace 1 *)

Definition demo_text (_ : json) : string := "?".
Definition demo_event (i t : string) (created : Z) (status : string) : json :=
JObj [("id", JStr i); ("type", JStr t); ("created", JNum created 0);
      ("data", JObj [("object", JObj [("id", JStr "sub_1"); ("customer", JStr "cus_1");
        ("status", JStr status); ("metadata", JObj [("workspace_id", JStr (uuid_str 1))])])])].
Definition demo_sub_event (i t : string) (created : Z) (status : string) : SubEvent :=
mk_sub_event i t created status (Some "sub_1", Some "cus_1") (demo_event i t created status).

Definition demo_started := demo_sub_event "evt_1" "customer.subscription.created" 100 "active".
Definition demo_renewed := demo_sub_event "evt_2" "customer.subscription.updated" 200 "active".
Definition demo_ended := demo_sub_event "evt_3" "customer.subscription.deleted" 300 "canceled".

Definition demo_billing : BillingDB := mk_billing_db {[1%positive; 2%positive]} ∅ ∅.
Definition demo_settings : BillingSettings :=
mk_billing_settings true (Some "sk") (Some "wh") (Some "price") (Some "https://ok") (Some "https://no").

Lemma demo_sub_event_ok i t created status :
  i ≠ EmptyString → existsb (String.eqb t) SUBSCRIPTION_EVENTS = true → status ≠ EmptyString →
  sub_event demo_text 1 (demo_sub_event i t created status).
Proof.
  intros Hi Ht Hs. split_and!; [|done|done|].
  - assert (t ≠ EmptyString) by (by intros ->). unfold event_names. simpl.
    by destruct i, t.
  - eexists _, None, false. split_and!; [reflexivity|reflexivity| |].
    + unfold subscription_status, py_or. simpl. by destruct status.
    + reflexivity.
Qed.

(** an update as old as the end, and the row a checkout left *)
Definition demo_tied := demo_sub_event "evt_4" "customer.subscription.updated" 300 "active".
Definition demo_linked : BillingDB :=
mk_billing_db {[1%positive; 2%positive]}
  {[1%positive := mk_billing (Some "cus_1") None "none" "inactive" None false]} ∅.
Definition demo_deliveries : list SubEvent := [demo_started; demo_tied; demo_ended; demo_renewed; demo_started].

Lemma newest_event_wins_witness :
  ∃ row, bd_billing (delivered demo_text (map se_payload demo_deliveries) demo_linked) !! 1%positive
    = Some row ∧ wb_status row = "canceled" ∧ is_entitled (Some row) true ≠ true.
Proof.
  assert (Hin : ∀ P : SubEvent → Prop, P demo_started → P demo_ended → P demo_renewed → P demo_tied →
    ∀ e, e ∈ demo_deliveries → P e).
  { intros P H1 H2 H3 H4 e. unfold demo_deliveries. rewrite !elem_of_cons, elem_of_nil.
    by intros [->|[->|[->|[->|[->|[]]]]]]. }
  destruct (newest_event_wins demo_text 1 demo_deliveries demo_linked demo_ended)
    as (row & m & Hrow & _ & _ & _ & Hent).
  - apply Hin; by apply demo_sub_event_ok.
  - intros e e' He He'. unfold demo_deliveries in He, He'. rewrite !elem_of_cons, elem_of_nil in He, He'.
    destruct He as [->|[->|[->|[->|[->|[]]]]]], He' as [->|[->|[->|[->|[->|[]]]]]]; intros [=]; done.
  - split_and!; [done|intros i r; simpl; by rewrite lookup_empty|].
    intros i r Hi Hr. unfold demo_linked in Hr. cbn [bd_billing] in Hr.
    by apply lookup_singleton_Some in Hr as [<- _].
  - do 2 right. left.
  - apply Hin; done.
  - exists row. split; [exact Hrow|]. split.
    + vm_compute in Hrow. by injection Hrow as <-.
    + intros He. pose proof (proj1 Hent He demo_ended ltac:(do 2 right; left) eq_refl) as Ha. discriminate Ha.
Defined.

Lemma entitlement_backed_witness :
  ∃ row i r, bd_billing (foldl (serve demo_text demo_settings (λ _ _, inl "cus_1") (λ _ _, inr "down"))
      demo_billing [LookUp 1; Checkout 1 None; Webhook (se_payload demo_started)]) !! 1%positive = Some row ∧
    bd_events (foldl (serve demo_text demo_settings (λ _ _, inl "cus_1") (λ _ _, inr "down"))
      demo_billing [LookUp 1; Checkout 1 None; Webhook (se_payload demo_started)]) !! i = Some r ∧
    receipt_grants demo_text 1 (wb_status row) r.
Proof.
  assert (Hb : backed demo_text demo_billing) by (intros ws row; simpl; by rewrite lookup_empty).
  pose proof (entitlement_backed demo_text demo_settings (λ _ _, inl "cus_1") (λ _ _, inr "down")
    [LookUp 1; Checkout 1 None; Webhook (se_payload demo_started)] demo_billing 1) as H.
  set (s' := foldl _ _ _) in *.
  destruct (bd_billing s' !! 1%positive) as [row|] eqn:Hr; [|by vm_compute in Hr].
  assert (He : is_entitled (Some row) true = true) by (vm_compute in Hr; by injection Hr as <-).
  destruct (H row Hb Hr He) as (i & r & Hi & Hg).
  exact (ex_intro _ row (ex_intro _ i (ex_intro _ r (conj eq_refl (conj Hi Hg))))).
Defined.

Definition demo_two_workspaces : BillingDB :=
mk_billing_db {[1%positive; 2%positive]}
  {[2%positive := mk_billing (Some "cus_1") None "pro" "active" None false]} ∅.

Lemma conflict_answered_duplicate_witness :
  process_stripe_event demo_text (se_payload demo_started) demo_two_workspaces
  = (Ok (StripeDuplicate "evt_1" "customer.subscription.created"), demo_two_workspaces) ∧
  bd_billing demo_two_workspaces !! 1%positive = None.
Proof.
  split; [|done].
  apply (conflict_answered_duplicate demo_text 1 demo_started demo_two_workspaces 2
    (mk_billing (Some "cus_1") None "pro" "active" None false) "cus_1"); try done.
  by apply demo_sub_event_ok.
Defined.
