(* ===== verification/LeaseSpec.v ===== *)
(** * What a worker may claim, and do with what it holds

    Acknowledging and renewing succeed exactly while the lease is owned, live
    and short of its limit; a submitted result is recorded once; a claim
    takes the first eligible assignment of a worker fit to take it; and each
    assignment lives the life of AssignmentSpec.v, which a result ends. *)

From S2P Require Import Prelude Models Database Outbox Provenance Assignments Gates Retry Workflow Spend Controller Budgets Recovery Dispatcher ContentDesk System Invariants AssignmentSpec SpendSpec Claiming.

(** ** Definitions *)

Section Definitions.
Context `{Settings}.

(** The worker owns the assignment, which is in flight under a live lease. *)
Definition holds (worker : positive) (a : StageAssignment) (now : time) : Prop :=
asn_worker_id a = Some worker ∧ in_flight a = true ∧
∃ expiry, asn_lease_expires_at a = Some expiry ∧ now ≤ expiry.

(** The lease may be extended to [now + secs]. *)
Definition extendable (worker : positive) (a : StageAssignment) (now secs : Z) : Prop :=
holds worker a now ∧
now + seconds secs ≤ lease_start now a + seconds assignment_max_lease_seconds.

(** the state with row [j] of the assignments updated by [g] *)
Definition with_row (j : positive) (g : StageAssignment → StageAssignment) (w : World) : World :=
w <| w_assignments ::= alter g j |>.

(** the key of an assignment's result *)
Definition stage_run_key (a : StageAssignment) : positive * ContentStage * Z :=
(asn_pipeline_run_id a, asn_stage a, asn_attempt_number a).

Definition lease_refusal (e : exn) : Prop :=
e = LeaseNotOwned ∨ ∃ code, e = LeaseConflict code.
End Definitions.

(** ** Lemmas *)

Section Lemmas.
Context `{Settings}.

Lemma lease_extendable_iff a i t n :
assert_lease_extendable a i t n = Ok tt ↔ extendable i a t n.
Proof.
split; [intros (?&?&?&?)%lease_extendable_inv; by split_and!|].
intros [(Hw & Hf & l & Hl & Hle) Hm]. unfold assert_lease_extendable.
rewrite bool_decide_true, Hf, Hl by done. simpl.
destruct (Z.ltb_spec l t); [lia|].
destruct (Z.ltb_spec (lease_start t a + seconds assignment_max_lease_seconds) (t + seconds n));
  [lia|done].
Qed.

Lemma lease_extendable_refused a i t n :
¬ extendable i a t n → ∃ e, assert_lease_extendable a i t n = Raise e ∧ lease_refusal e.
Proof.
intros Hn. rewrite <- lease_extendable_iff in Hn. unfold lease_refusal.
destruct (assert_lease_extendable a i t n) as [[]|e] eqn:He; [done|]. exists e. split; [done|].
unfold assert_lease_extendable in He. repeat case_match; simplify_eq; eauto.
Qed.

#[export] Instance extendable_dec i a t n : Decision (extendable i a t n).
Proof.
destruct (assert_lease_extendable a i t n) as [[]|e] eqn:He.
- left. by apply lease_extendable_iff.
- right. rewrite <- lease_extendable_iff, He. done.
Defined.

Lemma submit_check_iff a i t : submit_check a (Some i) t = Ok tt ↔ holds i a t.
Proof.
unfold submit_check, holds. rewrite bool_decide_true by done. simpl.
destruct (bool_decide_reflect (asn_worker_id a = Some i)); simpl; [|naive_solver].
destruct (in_flight a); simpl; [|naive_solver].
destruct (asn_lease_expires_at a) as [l|]; [|naive_solver].
destruct (Z.ltb_spec l t); naive_solver lia.
Qed.

Lemma submit_check_closed a i t :
in_flight a = false → ∃ e, submit_check a (Some i) t = Raise e ∧ lease_refusal e.
Proof.
intros Hf. unfold submit_check, lease_refusal. rewrite Hf. simpl.
destruct (negb _); eauto.
Qed.

Lemma insert_stage_run_inv key row w w' :
insert_stage_run key row w = (Ok tt, w') →
w_stage_runs w !! key = None ∧ w_assignments w' = w_assignments w ∧
w_workers w' = w_workers w ∧ w_stage_runs w' = <[key := row]> (w_stage_runs w).
Proof.
unfold insert_stage_run. rewrite run_bind. simpl.
destruct (w_stage_runs w !! key); [done|]. by intros [= <-].
Qed.

(** The reaction to a result leaves assignments, workers and results alone. *)
Lemma reacts_frame {T} (p : World → T) `{!Engine (frame p), !RunStable (frame p),
  !SpendSafe (frame p), !JobRows (frame p), !GateRows (frame p), !Moves (frame p),
  !DeadLetters (frame p)} {a r success res e w x w'} :
sourced (asn_pipeline_run_id a) (asn_stage a) w →
react_to_result a r success res e w = (x, w') → p w' = p w.
Proof.
intros Hs Hr. pose proof (keeps_react_to_result (frame p) a r success res e w Hs) as Hk.
by rewrite Hr in Hk.
Qed.

Lemma asn_open_in_flight a : asn_open a = false → in_flight a = false.
Proof. unfold asn_open, in_flight. by destruct (asn_status a). Qed.

Lemma run_submit_result i j success res e w w' :
submit_result j success res e (Some i) w = (Ok tt, w') →
∃ a, w_assignments w !! j = Some a ∧ holds i a (w_now w) ∧
  w_assignments w' =
    alter (submitted_assignment (w_now w) success res) j (w_assignments w) ∧
  w_workers w' = alter finish_slot i (w_workers w) ∧
  ∀ r, w_runs w !! asn_pipeline_run_id a = Some r →
    w_stage_runs w !! stage_run_key a = None ∧
    w_stage_runs w' =
      <[stage_run_key a := result_row a r success e (w_now w)]> (w_stage_runs w).
Proof.
unfold submit_result. rewrite run_bind. simpl. rewrite run_bind, run_the.
destruct (w_assignments w !! j) as [a|] eqn:Ha; [|done]. rewrite run_bind.
destruct (submit_check a (Some i) (w_now w)) as [[]|x] eqn:Hc; [|done].
pose proof Hc as Hh%submit_check_iff. simpl. rewrite run_bind. simpl.
pose proof Hh as [Hi _]. rewrite Hi, run_bind. simpl. rewrite run_bind. simpl.
set (w1 := over _ _ _). intros Hrun. exists a. split; [done|]. split; [done|].
destruct (w_runs w !! asn_pipeline_run_id a) as [r|] eqn:Hr.
2: { injection Hrun as <-. by split_and!. }
apply bind_ok_inv in Hrun as ([] & w2 & Hins & Hrun).
apply insert_stage_run_inv in Hins as (Hnone & Ha2 & Hw2 & Hs2).
assert (Hsrc : sourced (asn_pipeline_run_id a) (asn_stage a) w2).
{ do 2 right; left. exists j. rewrite Ha2. simpl. eexists.
  split; [by rewrite lookup_alter_eq, Ha|done]. }
split_and!; [transitivity (w_assignments w2)|transitivity (w_workers w2)|]; try done.
- exact (reacts_frame w_assignments Hsrc Hrun).
- exact (reacts_frame w_workers Hsrc Hrun).
- intros r' [= <-]. split; [done|]. transitivity (w_stage_runs w2); [|done].
  exact (reacts_frame w_stage_runs Hsrc Hrun).
Qed.
End Lemmas.

(** ** Theorems *)

Section Theorems.
Context `{Settings}.

(** An acknowledgement of an assignment by a worker succeeds exactly when
  the assignment is dispatched to that worker, its lease is live and the
  extension stays within the longest lease; it then acknowledges the
  assignment and extends its lease from now, and touches nothing else. In
  every other case it is refused and changes nothing. *)
Theorem acknowledge_outcome i j a w :
w_assignments w !! j = Some a →
(extendable i a (w_now w) assignment_lease_seconds ∧ asn_status a = ASN_DISPATCHED →
   acknowledge j None (Some i) w =
   (Ok tt, with_row j (acknowledged_assignment (w_now w) assignment_lease_seconds) w)) ∧
(¬ (extendable i a (w_now w) assignment_lease_seconds ∧ asn_status a = ASN_DISPATCHED) →
   ∃ e, acknowledge j None (Some i) w = (Raise e, w) ∧ lease_refusal e).
Proof.
intros Ha. unfold acknowledge. rewrite run_bind. simpl. rewrite run_bind, run_the, Ha.
unfold check_extendable. split.
- intros [Hx%lease_extendable_iff Hs]. rewrite Hx, Hs. done.
- intros Hn. destruct (decide (extendable i a (w_now w) assignment_lease_seconds)) as [Hx|Hx].
  + pose proof Hx as Hok%lease_extendable_iff. rewrite Hok, run_bind. simpl.
    destruct (bool_decide_reflect (asn_status a = ASN_DISPATCHED)); [naive_solver|].
    eexists. split; [done|]. right. by eexists.
  + apply lease_extendable_refused in Hx as (e & He & Hr). rewrite He. by exists e.
Qed.

(** A renewal succeeds exactly when the worker holds the assignment under a
  live lease and the extension stays within the longest lease; it then only
  extends the lease. In every other case it is refused and changes nothing. *)
Theorem renew_outcome i j a w :
w_assignments w !! j = Some a →
(extendable i a (w_now w) assignment_lease_seconds →
   renew_lease j None (Some i) w =
   (Ok tt, with_row j (extend_lease (w_now w) assignment_lease_seconds) w)) ∧
(¬ extendable i a (w_now w) assignment_lease_seconds →
   ∃ e, renew_lease j None (Some i) w = (Raise e, w) ∧ lease_refusal e).
Proof.
intros Ha. unfold renew_lease. rewrite run_bind. simpl. rewrite run_bind, run_the, Ha.
unfold check_extendable. split.
- intros Hx%lease_extendable_iff. by rewrite Hx.
- intros Hx. apply lease_extendable_refused in Hx as (e & He & Hr). rewrite He. by exists e.
Qed.
(** C36: a result that is accepted is recorded once. The worker held the
  assignment under a live lease; the assignment is closed as completed or
  failed and no other one changes; one slot of the worker is given back; and
  the result is the one row of its run, stage and attempt, which had none. *)
Theorem submit_records_result i j success res e w w' :
submit_result j success res e (Some i) w = (Ok tt, w') →
∃ a, w_assignments w !! j = Some a ∧ holds i a (w_now w) ∧
  w_assignments w' =
    alter (submitted_assignment (w_now w) success res) j (w_assignments w) ∧
  w_workers w' = alter finish_slot i (w_workers w) ∧
  ∀ r, w_runs w !! asn_pipeline_run_id a = Some r →
    w_stage_runs w !! stage_run_key a = None ∧
    w_stage_runs w' =
      <[stage_run_key a := result_row a r success e (w_now w)]> (w_stage_runs w).
Proof. apply run_submit_result. Qed.

(** C34: every trace moves each assignment along the life of an attempt,
  [life_step], which is stated without the program: nothing changes an
  assignment in any other way, or drops one, and a new one starts queued or
  leased.  A result that is accepted ends, as the success or the failure it
  reports, the running lease of the worker that reports it. *)
Theorem assignment_lifecycle sha256 w w' :
reaches sha256 w w' → assignments_below w →
(∀ i a l, w_assignments w !! i = Some a → shows a l →
   ∃ a' l', w_assignments w' !! i = Some a' ∧ shows a' l' ∧ rtc life_step l l') ∧
(∀ i a', w_assignments w !! i = None → w_assignments w' !! i = Some a' →
   ∃ l l', life_start l ∧ rtc life_step l l' ∧ shows a' l') ∧
(∀ i j ok res e w1 a l, submit_result j ok res e (Some i) w' = (Ok tt, w1) →
   w_assignments w' !! j = Some a → shows a l →
   ∃ b s x a1, life_phase l = Leased i b s x ∧ w_now w' ≤ x ∧ w_assignments w1 !! j = Some a1 ∧
     shows a1 (l <| life_phase := Finished i ok res (w_now w') |>)).
Proof.
intros Hr Hb. destruct (reaches_evolution sha256 w w' Hr Hb) as (_ & Hold & Hnew). split_and!.
- intros i a l Hi Hl. destruct (Hold i a Hi) as (a' & Hi' & Hs).
  destruct (asn_steps_life a a' l Hs Hl) as (l' & ? & ?). by exists a', l'.
- intros i a' Hi Hi'. destruct (Hnew i a' Hi' Hi) as (a & Ha & Hs).
  destruct (asn_new_life a Ha) as (l & Hl & Hst). destruct (asn_steps_life a a' l Hs Hl) as (l' & ? & ?).
  by exists l, l'.
- intros i j ok res e w1 a l Hrun Ha Hl.
  destruct (run_submit_result i j ok res e w' w1 Hrun) as (a0 & Ha0 & (Hw & Hf & x & Hx & Hle) & Hrows & _).
  rewrite Ha in Ha0. injection Ha0 as <-. destruct (shows_leased a l Hl Hf) as (i' & b & s & x' & Hph).
  destruct Hl as (H1 & H2 & H3 & H4 & H5 & Hp). rewrite Hph in Hp. destruct Hp as (_ & Hwi & _ & He).
  rewrite Hw in Hwi. injection Hwi as <-. rewrite Hx in He. injection He as <-.
  eexists b, s, x, _. split; [done|]. split; [done|]. split; [by rewrite Hrows, lookup_alter_eq, Ha|].
  by split_and!.
Qed.


(** Once an assignment is closed no worker's result is accepted any more,
  however long it waits to send it: every later submission is refused and
  changes nothing, so that a stage is never completed twice. *)
Theorem closed_rejects_results sha256 i j a success res e w w' :
reaches sha256 w w' → assignments_below w → w_assignments w !! j = Some a →
asn_open a = false →
∃ x, submit_result j success res e (Some i) w' = (Raise x, w') ∧ lease_refusal x.
Proof.
intros Hr Hb Hj Ho. destruct (reaches_evolution sha256 w w' Hr Hb) as (_ & Hs & _).
destruct (Hs j a Hj) as (a' & Hj' & Hsteps). apply asn_steps_closed in Hsteps; [|done].
assert (Hf : in_flight a' = false) by (rewrite Hsteps; by apply asn_open_in_flight).
destruct (submit_check_closed a' i (w_now w') Hf) as (x & Hx & Hrf).
exists x. split; [|done]. unfold submit_result. rewrite run_bind. simpl.
by rewrite run_bind, run_the, Hj', run_bind, Hx.
Qed.
End Theorems.

(** ** The demo deployment *)

(** the assignment the scheduler handed to the worker, and its row *)
Lemma demo_held :
  ∃ a, w_assignments demo_dispatched !! 1007%positive = Some a ∧
    extendable 40 a (w_now demo_dispatched) assignment_lease_seconds ∧ asn_status a = ASN_DISPATCHED.
Proof.
  destruct (passes_some (λ a, bool_decide (extendable 40 a (w_now demo_dispatched)
      assignment_lease_seconds ∧ asn_status a = ASN_DISPATCHED))
    (w_assignments demo_dispatched !! 1007%positive)) as (a & Ha & [Hx Hs]%bool_decide_eq_true);
    [by vm_compute|].
  exact (ex_intro _ a (conj Ha (conj Hx Hs))).
Qed.

Lemma acknowledge_outcome_witness :
  ∃ a, w_assignments demo_dispatched !! 1007%positive = Some a ∧
    acknowledge 1007 None (Some 40%positive) demo_dispatched =
    (Ok tt, with_row 1007 (acknowledged_assignment (w_now demo_dispatched) assignment_lease_seconds)
              demo_dispatched).
Proof.
  destruct demo_held as (a & Ha & Hx & Hs).
  exact (ex_intro _ a (conj Ha (proj1 (acknowledge_outcome 40 1007 a demo_dispatched Ha) (conj Hx Hs)))).
Defined.

Lemma renew_outcome_witness :
  ∃ a, w_assignments demo_dispatched !! 1007%positive = Some a ∧
    renew_lease 1007 None (Some 40%positive) demo_dispatched =
    (Ok tt, with_row 1007 (extend_lease (w_now demo_dispatched) assignment_lease_seconds)
              demo_dispatched).
Proof.
  destruct demo_held as (a & Ha & Hx & _).
  exact (ex_intro _ a (conj Ha (proj1 (renew_outcome 40 1007 a demo_dispatched Ha) Hx))).
Defined.

Lemma demo_submits :
  ∃ w', submit_result 1007 true None EmptyString (Some 40%positive) demo_dispatched = (Ok tt, w').
Proof.
  assert (Hok : match (submit_result 1007 true None EmptyString (Some 40%positive)
                         demo_dispatched).1 with Ok _ => true | Raise _ => false end = true)
    by (by vm_compute).
  destruct (submit_result 1007 true None EmptyString (Some 40%positive) demo_dispatched)
    as [[[]|x] w']; [by exists w'|discriminate Hok].
Qed.

Lemma submit_records_result_witness :
  ∃ a w', submit_result 1007 true None EmptyString (Some 40%positive) demo_dispatched = (Ok tt, w') ∧
    w_assignments demo_dispatched !! 1007%positive = Some a ∧
    holds 40 a (w_now demo_dispatched) ∧
    w_workers w' = alter finish_slot 40%positive (w_workers demo_dispatched).
Proof.
  destruct demo_submits as [w' Hw].
  destruct (submit_records_result 40 1007 true None EmptyString demo_dispatched w' Hw)
    as (a & Ha & Hh & _ & Hwk & _).
  exact (ex_intro _ a (ex_intro _ w' (conj Hw (conj Ha (conj Hh Hwk))))).
Defined.

Lemma closed_rejects_results_witness :
  ∃ x, submit_result 1007 true None EmptyString (Some 40%positive) demo_decided = (Raise x, demo_decided) ∧
    lease_refusal x.
Proof.
  destruct demo_completed as (a & Ha & _ & Ho).
  exact (closed_rejects_results demo_hash 40 1007 a true None EmptyString demo_review demo_decided
           demo_decides demo_review_below Ha Ho).
Defined.

(** * What a claim does *)

(** ** Definitions *)

(** The worker may take work: online, neither draining nor deregistered, its
    heartbeat fresh, a slot free. *)
Definition fit_to_claim `{Settings} (worker : WorkerRegistration) (now : time) : Prop :=
  wrk_drain worker = false ∧ wrk_deregistered_at worker = None ∧
  wrk_status worker = WORKER_ONLINE ∧
  (∃ hb, wrk_last_heartbeat_at worker = Some hb ∧
         now - hb < seconds worker_offline_after_seconds) ∧
  wrk_current_load worker < wrk_max_concurrency worker.

(** Assignment [i] may be handed to the worker. *)
Definition claimable_in (w : World) (worker : WorkerRegistration) (i : positive)
    (a : StageAssignment) : Prop :=
  w_assignments w !! i = Some a ∧ claimable_by worker i a = true ∧
  saturated_provider_pair w a = false.

(** It comes first: the highest effective priority, the oldest on a tie. *)
Definition first_in_line `{Settings} (w : World) (worker : WorkerRegistration)
    (a : StageAssignment) : Prop :=
  ∀ j b, claimable_in w worker j b →
    effective_at (w_now w) b < effective_at (w_now w) a ∨
    (effective_at (w_now w) b = effective_at (w_now w) a ∧ asn_created_at a ≤ asn_created_at b).

(** The cost of the assignment's stage is reserved (if its run exists). *)
Definition funded (w : World) (a : StageAssignment) : Prop :=
  is_Some (w_runs w !! asn_pipeline_run_id a) →
  ∃ rsv r, w_reservations w !! rsv = Some r ∧
    open_for_stage (asn_pipeline_run_id a) (asn_stage a) rsv r = true.

(** ** Lemmas *)

#[local] Arguments claim_scan : simpl never.
#[local] Arguments grant : simpl never.

Section Lemmas.
Context `{Settings}.

Lemma claim_refusal_none worker t :
  claim_refusal worker t = None → fit_to_claim worker t.
Proof.
  intros Hn. pose proof (claim_refusal_free worker t Hn) as Hfree. revert Hn. unfold claim_refusal.
  destruct (wrk_drain worker) eqn:Hd; [done|].
  destruct (bool_decide_reflect (wrk_deregistered_at worker ≠ None)) as [|Hdr]; [done|].
  destruct (bool_decide_reflect (wrk_status worker ≠ WORKER_ONLINE)) as [|Hs]; [done|].
  destruct (wrk_last_heartbeat_at worker) as [hb|] eqn:Hb; [|done]. simpl.
  destruct (Z.leb_spec (seconds worker_offline_after_seconds) (t - hb)); [done|]. intros _.
  unfold fit_to_claim. split_and!; [done|by apply dec_stable|by apply dec_stable|by exists hb|done].
Qed.

Lemma claim_refusal_not_granted worker t o r : claim_refusal worker t = Some (o, r) → o ≠ GRANTED.
Proof. unfold claim_refusal. repeat case_match; naive_solver. Qed.

Lemma run_find_replay i wk tok w r w' : find_replay i wk tok w = (r, w') → w' = w.
Proof.
  unfold find_replay. destruct tok as [tok|]; [|by intros [= _ <-]].
  rewrite run_bind. simpl. unfold scalar_one_or_none. by repeat case_match; intros [= _ <-].
Qed.

Lemma run_refuse i wk o reason row ws w :
  ∃ w', refuse i wk o reason row ws w = (Ok (mk_claim_result None o reason), w') ∧
    w_assignments w' = w_assignments w ∧ w_workers w' = w_workers w ∧
    w_reservations w' = w_reservations w ∧ w_runs w' = w_runs w.
Proof.
  unfold refuse, claim_record.
  destruct row as [[j a]|]; [|destruct (or_id (wrk_workspace_id wk) ws)];
    (eexists; split_and!; reflexivity).
Qed.

Lemma open_for_stage_of run stage i r :
  rsv_pipeline_run_id r = Some run → rsv_stage r = Some stage → rsv_status r = RESERVED →
  open_for_stage run stage i r = true.
Proof. intros. unfold open_for_stage. by rewrite bool_decide_true. Qed.

(** The spend gate leaves assignments and workers alone; if it lets the
    claim through, the cost is reserved. *)
Lemma run_claim_spend_gate a w b w' :
  claim_spend_gate a w = (Ok b, w') →
  w_assignments w' = w_assignments w ∧ w_workers w' = w_workers w ∧
  (b = true → funded w' a).
Proof.
  intros Hg. split_and!.
  - exact (keeps_run (frame w_assignments) _ _ _ _ (keeps_claim_spend_gate _ a) Hg).
  - exact (keeps_run (frame w_workers) _ _ _ _ (keeps_claim_spend_gate _ a) Hg).
  - intros ->. revert Hg. unfold claim_spend_gate. rewrite run_bind. simpl. intros Hg Hrun.
    destruct (w_runs w !! asn_pipeline_run_id a) as [r|] eqn:Hr; [|].
    2: { injection Hg as <-. by rewrite Hr in Hrun. }
    rewrite run_bind in Hg. simpl in Hg. apply bind_ok_inv in Hg as (o & w1 & Ho & Hg).
    apply scalar_one_or_none_inv in Ho as [-> [[Hl ->]|([i x] & Hl & ->)]].
    + apply bind_ok_inv in Hg as (o & w2 & Ho & Hg). injection Hg as Hb <-.
      match type of Ho with reserve_spend _ _ ?p ?e _ = _ =>
        destruct (run_reserve_spend (asn_pipeline_run_id a) (asn_stage a) p e w r Hr)
          as (o' & w3 & r' & Ho' & Hr' & _ & _ & Hm) end.
      rewrite Ho in Ho'. injection Ho' as <- <-. destruct o as [rsv|]; [|done].
      destruct Hm as [Hm _]. eexists rsv, _. split; [exact Hm|]. by apply open_for_stage_of.
    + injection Hg as <-. exists i, x.
      assert (Hin : (i, x) ∈ rows (open_for_stage (asn_pipeline_run_id a) (asn_stage a))
                               (w_reservations w)) by (rewrite Hl; left).
      by apply elem_of_rows in Hin.
Qed.

Lemma head_candidates worker w i a :
  head (candidates worker (w_now w) w) = Some (i, a) →
  claimable_in w worker i a ∧ first_in_line w worker a.
Proof.
  intros Hh. destruct (candidates worker (w_now w) w) as [|row l] eqn:Hc; [done|].
  injection Hh as ->.
  assert (Hmem : ∀ j b, (j, b) ∈ rows (λ i a, claimable_by worker i a
              && negb (saturated_provider_pair w a)) (w_assignments w) ↔ claimable_in w worker j b).
  { intros j b. rewrite elem_of_rows, andb_true_iff, negb_true_iff. done. }
  split.
  - apply Hmem. apply (elem_of_order_by (by_effective_desc (w_now w))).
    fold (candidates worker (w_now w) w). rewrite Hc. left.
  - intros j b Hb%Hmem.
    pose proof (order_by_head_min _ (i, a) _ l (by_effective_desc_total (w_now w))
      (by_effective_desc_trans (w_now w)) Hc (j, b) Hb) as Hle.
    apply by_effective_desc_spec in Hle. simpl in Hle. naive_solver lia.
Qed.

Lemma run_grant i wk j a tok ws w :
  ∃ w' trace, grant i wk (j, a) tok ws w = (Ok (mk_claim_result (Some j) GRANTED "claimed"), w') ∧
    w_assignments w' = alter (granted_assignment i tok (w_now w) trace) j (w_assignments w) ∧
    w_workers w' = alter take_slot i (w_workers w) ∧
    w_reservations w' = w_reservations w ∧ w_runs w' = w_runs w.
Proof.
  unfold grant, claim_record, child_span, or_uuid4.
  destruct (asn_trace_id a), (asn_correlation_id a); eexists _, _; split_and!; reflexivity.
Qed.

(** the worker has been handed the assignment under the token already *)
Definition holds_under (w : World) (i : positive) (wk : WorkerRegistration) (tok : option positive)
    (j : positive) (a : StageAssignment) : Prop :=
  w_assignments w !! j = Some a ∧ asn_status a = ASN_DISPATCHED ∧ asn_claimed_by a = Some i ∧
  tok ≠ None ∧ asn_claim_token a = tok ∧
  ∀ v, wrk_workspace_id wk = Some v → asn_workspace_id a = v.

Lemma holds_under_rows w i wk token j a :
  (j, a) ∈ rows (held_under_token i wk token) (w_assignments w) ↔ holds_under w i wk (Some token) j a.
Proof.
  rewrite elem_of_rows. unfold held_under_token, holds_under. rewrite !andb_true_iff, !bool_decide_eq_true.
  destruct (wrk_workspace_id wk) as [v|]; rewrite ?bool_decide_eq_true; naive_solver.
Qed.

Lemma find_replay_inv w i wk tok r w0 :
  find_replay i wk tok w = (Ok r, w0) →
  match r with
  | Some (j, a) => holds_under w i wk tok j a
  | None => ∀ j a, ¬ holds_under w i wk tok j a
  end.
Proof.
  unfold find_replay. destruct tok as [token|].
  2: { intros [= <- _] j a (_ & _ & _ & Hn & _). done. }
  rewrite run_bind. simpl. intros [_ [[Hl ->]|([j a] & Hl & ->)]]%scalar_one_or_none_inv.
  - intros j a Hh%holds_under_rows. rewrite Hl in Hh. by apply not_elem_of_nil in Hh.
  - apply holds_under_rows. rewrite Hl. left.
Qed.

(** a granted claim hands out again what the worker holds under the token, or
    takes the first in line *)
Lemma claim_inv i tok ws w res w' :
  claim_assignment i tok ws w = (Ok res, w') → cl_outcome res = GRANTED →
  (∃ wk j a, w_workers w !! i = Some wk ∧ holds_under w i wk tok j a ∧
     res = mk_claim_result (Some j) GRANTED "idempotent replay" ∧
     claim_record i wk GRANTED "idempotent replay" (Some (j, a)) ws w = (Ok tt, w')) ∨
  ∃ wk j a w1, w_workers w !! i = Some wk ∧ (∀ j a, ¬ holds_under w i wk tok j a) ∧
    fit_to_claim wk (w_now w) ∧
    claimable_in w wk j a ∧ first_in_line w wk a ∧ claim_spend_gate a w = (Ok true, w1) ∧
    grant i wk (j, a) tok ws w1 = (Ok res, w').
Proof.
  unfold claim_assignment. rewrite run_bind. simpl. rewrite run_bind. simpl.
  destruct (w_workers w !! i) as [wk|] eqn:Hwk; [|by intros [= <- _]].
  intros Hc Hg. apply bind_ok_inv in Hc as (existing & w0 & Hrep & Hc).
  pose proof (find_replay_inv _ _ _ _ _ _ Hrep) as Hheld.
  pose proof (run_find_replay _ _ _ _ _ _ Hrep) as ->.
  destruct existing as [[j a]|].
  { left. apply bind_ok_inv in Hc as ([] & w1 & Hrec & Hc). injection Hc as <- <-. by exists wk, j, a. }
  right. destruct (claim_refusal wk (w_now w)) as [[o r]|] eqn:Href.
  { destruct (run_refuse i wk o r None ws w) as (w1 & Hr1 & _). rewrite Hr1 in Hc.
    injection Hc as <- _. by apply claim_refusal_not_granted in Href. }
  rewrite (run_bind_ok _ _ _ _ _ (run_claim_scan 0 wk (w_now w) w)) in Hc.
  destruct (head _) as [[j a]|] eqn:Hh.
  2: { rewrite run_bind in Hc. simpl in Hc.
       destruct (rows (claimable_by wk) (w_assignments w));
         match type of Hc with refuse ?a ?b ?c ?d ?e ?f ?g = _ =>
           destruct (run_refuse a b c d e f g) as (w1 & Hr1 & _) end;
         rewrite Hr1 in Hc; by injection Hc as <- _. }
  apply head_candidates in Hh as [Hcl Hfirst].
  apply bind_ok_inv in Hc as (b & w1 & Hgate & Hc). destruct b.
  - exists wk, j, a, w1. split_and!; try done. by apply claim_refusal_none.
  - destruct (run_refuse i wk CAPACITY "workspace spend cap reached" (Some (j, a)) ws w1)
      as (w2 & Hr2 & _). rewrite Hr2 in Hc. by injection Hc as <- _.
Qed.
End Lemmas.

(** ** Theorems *)

(** C32: a granted claim is sound.  If the worker was handed an assignment
    under the token of the request before, it is given that one again, fit or
    not, and but for the record of the claim nothing changes.  Otherwise the
    worker was fit to claim; the assignment was pending, of a stage and
    workspace the worker serves, under its provider's budget, and first in
    line by effective priority and age; afterwards it is dispatched to that
    worker under a fresh lease, the worker carries one more assignment, and
    the cost of the stage is reserved. *)
Theorem claim_granted_sound `{Settings} i tok ws w res w' :
  claim_assignment i tok ws w = (Ok res, w') → cl_outcome res = GRANTED →
  ∃ wk j, w_workers w !! i = Some wk ∧ cl_assignment res = Some j ∧
  ((∃ a, cl_reason res = "idempotent replay" ∧ holds_under w i wk tok j a ∧
      w' = w <| w_next := w_next w' |> <| w_claim_audit := w_claim_audit w' |>) ∨
   ∃ a a', cl_reason res = "claimed" ∧ (∀ k b, ¬ holds_under w i wk tok k b) ∧
    fit_to_claim wk (w_now w) ∧ claimable_in w wk j a ∧ first_in_line w wk a ∧
    w_assignments w' !! j = Some a' ∧ asn_status a' = ASN_DISPATCHED ∧
    asn_worker_id a' = Some i ∧ asn_attempt_number a' = asn_attempt_number a ∧
    asn_lease_expires_at a' = Some (w_now w + seconds assignment_lease_seconds) ∧
    (∀ k, k ≠ j → w_assignments w' !! k = w_assignments w !! k) ∧
    w_workers w' = alter take_slot i (w_workers w) ∧ funded w' a).
Proof.
  intros Hc Hg. destruct (claim_inv i tok ws w res w' Hc Hg)
    as [(wk & j & a & Hwk & Hh & -> & Hrec)|(wk & j & a & w1 & Hwk & Hno & Hfit & Hcl & Hfirst & Hgate & Hgr)];
    exists wk, j.
  { split_and!; [done|done|]. left. exists a. split_and!; [done|done|].
    unfold claim_record in Hrec. rewrite run_bind in Hrec. simpl in Hrec. by injection Hrec as <-. }
  destruct (run_claim_spend_gate a w true w1 Hgate) as (Ha & Hw & Hf).
  assert (Hn : w_now w1 = w_now w)
    by exact (keeps_run (frame w_now) _ _ _ _ (keeps_claim_spend_gate _ a) Hgate).
  destruct (run_grant i wk j a tok ws w1) as (w2 & tr & Hgr' & Ha2 & Hw2 & Hrs2 & Hrun2).
  rewrite Hgr in Hgr'. injection Hgr' as -> ->. rewrite Ha, Hn in Ha2. rewrite Hw in Hw2.
  split_and!; [done|done|]. right. exists a, (granted_assignment i tok (w_now w) tr a). split_and!; try done.
  - by rewrite Ha2, lookup_alter_eq, (proj1 Hcl).
  - intros k Hk. by rewrite Ha2, lookup_alter_ne.
  - unfold funded in *. rewrite Hrun2, Hrs2. by apply Hf.
Qed.

(** ** The demo deployment *)

Lemma assignment_lifecycle_witness :
assignments_below demo ∧ w_assignments demo !! 1007%positive = None ∧
∃ a' l l', w_assignments demo_review !! 1007%positive = Some a' ∧ asn_status a' = ASN_COMPLETED ∧
  life_start l ∧ rtc life_step l l' ∧ shows a' l'.
Proof.
split; [exact demo_below|]. split; [reflexivity|].
destruct (assignment_lifecycle demo_hash demo demo_review demo_reaches demo_below) as (_ & Hnew & _).
destruct demo_completed as (a' & Ha' & Hs & _).
destruct (Hnew 1007%positive a' eq_refl Ha') as (l & l' & H1 & H2 & H3).
exists a', l, l'. exact (conj Ha' (conj Hs (conj H1 (conj H2 H3)))).
Defined.

Lemma claim_granted_sound_witness :
  ∃ res w' wk, claim_assignment 40 (Some 77%positive) None demo_queue = (Ok res, w') ∧
    w_workers demo_queue !! 40%positive = Some wk ∧ fit_to_claim wk t0 ∧
    w_workers w' = alter take_slot 40%positive (w_workers demo_queue).
Proof.
  destruct (claim_assignment 40 (Some 77%positive) None demo_queue) as [[res|e] w'] eqn:Hc;
    [|discriminate].
  assert (cl_outcome res = GRANTED ∧ cl_reason res = "claimed") as [Ho Hr].
  { vm_compute in Hc. by injection Hc as <- _. }
  destruct (claim_granted_sound 40 (Some 77%positive) None demo_queue res w' Hc Ho)
    as (wk & j & H1 & _ & [(a & Hx & _)|(a & a' & _ & _ & H2 & _ & _ & _ & _ & _ & _ & _ & _ & H3 & _)]).
  { rewrite Hr in Hx. discriminate Hx. }
  exists res, w', wk. split; [reflexivity|]. split; [exact H1|]. split; [exact H2|exact H3].
Defined.
