(* ===== verification/ControllerSpec.v ===== *)
(** * What the execution controller does

    Routing, ending, cancelling and approving a run, branch by branch. *)

From S2P Require Import Prelude Models Database Outbox Provenance Assignments Gates Retry.
From S2P Require Import Workflow Spend.
From S2P Require Import SpendSafety SpendSpec Controller Relay ContentDesk System.

(** ** Definitions *)

(** The transitions of a definition out of a stage on a trigger. *)
Definition leaving (w : World) (d : positive) (from : ContentStage)
    (tr : WorkflowTransitionTrigger) (t : WorkflowTransition) : Prop :=
  ∃ i, w_transitions w !! i = Some t ∧ transition_applies d from tr i t = true.

(** no reservation of the run is open *)
Definition all_released (run : positive) (w : World) : Prop :=
  ∀ i x, w_reservations w !! i = Some x → open_for_run run i x = false.

(** the run ended with a status *)
Definition run_ended (run : positive) (s : PipelineRunStatus) (w : World) : Prop :=
  ∃ r, w_runs w !! run = Some r ∧ run_status r = s ∧ run_completed_at r = Some (w_now w).

(** ** Lemmas *)

Lemma by_priority_asc_spec a b : by_priority_asc a b ↔ wtr_priority a ≤ wtr_priority b.
Proof. unfold by_priority_asc. by rewrite Is_true_true, Z.leb_le. Qed.

Lemma by_priority_asc_total a b : by_priority_asc a b || by_priority_asc b a.
Proof. rewrite orb_True, !by_priority_asc_spec. lia. Qed.
Lemma by_priority_asc_trans a b c :
  by_priority_asc a b → by_priority_asc b c → by_priority_asc a c.
Proof. rewrite !by_priority_asc_spec. lia. Qed.

(** a successful scan: nothing earlier in the list matches *)
Lemma run_first_matching l c w o w' :
  first_matching l c w = (Ok o, w') →
  w' = w ∧
  match o with
  | None => ∀ t, t ∈ l → evaluate_condition (wtr_condition t) c = Ok false
  | Some t => ∃ l1 l2, l = l1 ++ t :: l2 ∧ evaluate_condition (wtr_condition t) c = Ok true ∧
      ∀ x, x ∈ l1 → evaluate_condition (wtr_condition x) c = Ok false
  end.
Proof.
  induction l as [|x l IH]; simpl.
  { intros [= <- <-]. split; [done|]. intros t []%not_elem_of_nil. }
  intros Hm. apply bind_ok_inv in Hm as (b & w1 & Hc & Hm). unfold lift_result in Hc.
  destruct (evaluate_condition (wtr_condition x) c) as [b'|] eqn:He; [|done].
  injection Hc as -> <-. destruct b.
  - injection Hm as <- <-. split; [done|]. exists [], l. split_and!; [done..|].
    intros y []%not_elem_of_nil.
  - destruct (IH Hm) as [-> Ho]. split; [done|]. destruct o as [t|].
    + destruct Ho as (l1 & l2 & -> & Ht & Hl1). exists (x :: l1), l2. split_and!; [done..|].
      intros y [->|Hy]%elem_of_cons; [done|by apply Hl1].
    + intros y [->|Hy]%elem_of_cons; [done|by apply Ho].
Qed.

Lemma elem_of_leaving w d from tr t :
  t ∈ (rows (transition_applies d from tr) (w_transitions w)).*2 ↔ leaving w d from tr t.
Proof.
  rewrite list_elem_of_fmap. split.
  - intros ([i x] & -> & Hx%elem_of_rows). by exists i.
  - intros (i & Hx). exists (i, t). split; [done|]. by apply elem_of_rows.
Qed.

(** earlier in a sorted list is at most as large *)
Lemma order_by_split {A} (le : A → A → bool) l l1 x l2 :
  (∀ a b, le a b || le b a) → (∀ a b c, le a b → le b c → le a c) →
  order_by le l = l1 ++ x :: l2 → ∀ y, y ∈ l2 → le x y.
Proof.
  intros Htot Htrans Ho y Hy.
  assert (Hs : StronglySorted (λ a b, Is_true (le a b)) (order_by le l)).
  { apply StronglySorted_merge_sort; [exact Htrans|].
    intros a b. specialize (Htot a b). by destruct (le a b), (le b a); auto. }
  rewrite Ho in Hs. clear Ho. induction l1 as [|z l1 IH]; simpl in Hs.
  - apply StronglySorted_inv in Hs as [_ Hf]. by eapply Forall_forall in Hf.
  - apply StronglySorted_inv in Hs as [Hs _]. auto.
Qed.

(** routing reads the transitions only *)
Lemma first_matching_reads l c w : first_matching l c w = ((first_matching l c w).1, w).
Proof.
  revert w. induction l as [|x l IH]; intros w; [done|]. simpl. rewrite run_bind.
  unfold lift_result. destruct (evaluate_condition (wtr_condition x) c) as [[]|e]; simpl; [done|apply IH|done].
Qed.
Lemma first_matching_result l c w w' : (first_matching l c w).1 = (first_matching l c w').1.
Proof.
  induction l as [|x l IH]; [done|]. simpl. rewrite !run_bind.
  unfold lift_result. by destruct (evaluate_condition (wtr_condition x) c) as [[]|e].
Qed.
Lemma find_transition_reads d from tr c w w' o :
  w_transitions w' = w_transitions w → find_transition d from tr c w = (o, w) →
  find_transition d from tr c w' = (o, w').
Proof.
  intros Ht. unfold find_transition. rewrite !run_bind. simpl. rewrite Ht.
  rewrite (first_matching_reads _ _ w), (first_matching_reads _ _ w'). intros [= <-].
  by rewrite (first_matching_result _ _ w w').
Qed.

(** *** Ending a run *)

Section Lemmas.
Context `{Settings}.

Lemma run_release_all run r w :
w_runs w !! run = Some r →
∃ w', release_all_reservations run w = (Ok tt, w') ∧ frame ledger w w' ∧ all_released run w'.
Proof.
intros Hr. unfold release_all_reservations. erewrite run_bind_ok by reflexivity.
destruct (run_release_rows (open_for_run run) run r w (open_for_run_reserved run) Hr)
  as (w' & Hrun & Hl & Hres).
exists w'. split_and!; [done..|]. intros i x. rewrite Hres.
apply released_none, open_for_run_reserved.
Qed.

(** the status and end of a run, once set, are not changed by what follows *)
Lemma run_ended_ledger run s w w' : frame ledger w w' → run_ended run s w → run_ended run s w'.
Proof.
unfold frame, ledger. intros Hl (r & Hr & Hs & Hc). injection Hl as Hn _ _ Hcores.
destruct (run_cores_lookup w w' run r Hcores Hr) as (r' & Hr' & Hcore).
exists r'. split; [done|]. rewrite Hn, <- Hs, <- Hc.
by split; [apply (f_equal run_status) in Hcore|apply (f_equal run_completed_at) in Hcore].
Qed.

Lemma run_fail_run run m r w :
w_runs w !! run = Some r →
∃ w', fail_run run m w = (Ok tt, w') ∧ run_ended run RUN_FAILED w' ∧ all_released run w'.
Proof.
intros Hr. unfold fail_run. do 2 (erewrite run_bind_ok by reflexivity).
set (w1 := over w_runs _ w).
assert (He1 : run_ended run RUN_FAILED w1).
{ eexists. split; [simpl; by rewrite lookup_alter_eq, Hr|done]. }
pose proof He1 as (r1 & Hr1 & _).
destruct (notify_returns run r1 "pipeline.failed" (JObj [("reason", JStr m)]) w1 Hr1)
  as ([] & w2 & H2).
assert (Hl2 : frame ledger w1 w2).
{ refine (keeps_run (frame ledger) _ _ _ _ _ H2). apply keeps_notify; apply _. }
apply bind_ok_inv in H2 as (sp & w3 & H3 & H4).
rewrite (run_bind_ok _ _ _ _ _ H3), (run_bind_ok _ _ _ _ _ H4).
assert (He2 := run_ended_ledger run RUN_FAILED w1 w2 Hl2 He1).
pose proof He2 as (r2 & Hr2 & _).
destruct (run_release_all run r2 w2 Hr2) as (w' & Hrel & Hl & Hall).
exists w'. split_and!; [done|by apply (run_ended_ledger run RUN_FAILED w2)|done].
Qed.

(** bringing a run to a terminal stage ends it *)
Lemma run_succeed run stage sp r w :
w_runs w !! run = Some r →
∃ w' r', succeed_run run stage sp w = (Ok tt, w') ∧ w_runs w' !! run = Some r' ∧
  run_status r' = RUN_SUCCEEDED ∧ run_current_stage r' = stage ∧ w_gates w' = w_gates w.
Proof.
intros Hr. unfold succeed_run. do 2 (erewrite run_bind_ok by reflexivity).
set (w1 := over w_runs _ w).
assert (Hr1 : ∃ r1, w_runs w1 !! run = Some r1 ∧ run_status r1 = RUN_SUCCEEDED ∧
                run_current_stage r1 = stage).
{ eexists. split; [simpl; by rewrite lookup_alter_eq, Hr|done]. }
destruct Hr1 as (r1 & Hr1 & Hs & Hst).
destruct (emit_for_run_returns run r1 "pipeline.succeeded" sp
  (JObj [("final_stage", JStr (ContentStage_value stage))]) w1 Hr1) as ([] & w2 & H2).
assert (Hruns : w_runs w2 = w_runs w1) by (apply (run_frame _ H2); keeps_tac).
exists w2, r1. split_and!; [done|by rewrite Hruns|done..|].
change (w_gates w) with (w_gates w1). apply (run_frame _ H2). keeps_tac.
Qed.

Lemma run_advance_terminal run from tr c r d t sd w :
w_runs w !! run = Some r → run_definition_id r = Some d →
find_transition d from tr c w = (Ok (Some t), w) →
w_stages w !! (d, wtr_to_stage t) = Some sd → wst_is_terminal sd = true →
∃ w' r', advance_or_finish run from tr c w = (Ok tt, w') ∧ w_runs w' !! run = Some r' ∧
  run_status r' = RUN_SUCCEEDED ∧ run_current_stage r' = wtr_to_stage t ∧ w_gates w' = w_gates w.
Proof.
intros Hr Hd Hf Hsd Hterm. unfold advance_or_finish.
erewrite run_bind_ok by (by rewrite run_the, Hr).
unfold run_definition. rewrite Hd. erewrite run_bind_ok by reflexivity.
rewrite (run_bind_ok _ _ _ _ _ Hf). unfold get_stage_def.
erewrite run_bind_ok by (rewrite run_bind; simpl; by rewrite Hsd). rewrite Hterm.
destruct (next_span_returns run r w Hr) as (sp & w1 & H1). rewrite (run_bind_ok _ _ _ _ _ H1).
assert (Hc : run_cores w1 = run_cores w) by (apply (run_frame _ H1); keeps_tac).
assert (Hg : w_gates w1 = w_gates w) by (apply (run_frame _ H1); keeps_tac).
destruct (run_cores_lookup w w1 run r Hc Hr) as (r1 & Hr1 & _).
erewrite run_bind_ok by reflexivity. set (w2 := over w_runs _ w1).
destruct (run_succeed run (wtr_to_stage t) sp (r1 <| run_current_stage := wtr_to_stage t |>) w2)
  as (w' & r' & Hrun & Hr' & Hs & Hst & Hg').
{ simpl. by rewrite lookup_alter_eq, Hr1. }
exists w', r'. split_and!; try done. rewrite Hg'. exact Hg.
Qed.
End Lemmas.

(** ** Theorems *)

Section Theorems.
Context `{Settings}.

(** Routing takes the first transition by priority whose condition holds:
  the one found leaves the stage on the trigger and its condition is true,
  and every other such transition with a smaller priority has a false
  condition; if none is found, all conditions are false. Looking changes
  nothing. *)
Theorem find_transition_first d from tr c w o w' :
find_transition d from tr c w = (Ok o, w') →
w' = w ∧
match o with
| None => ∀ t, leaving w d from tr t → evaluate_condition (wtr_condition t) c = Ok false
| Some t => leaving w d from tr t ∧ evaluate_condition (wtr_condition t) c = Ok true ∧
    ∀ x, leaving w d from tr x → wtr_priority x < wtr_priority t →
      evaluate_condition (wtr_condition x) c = Ok false
end.
Proof.
unfold find_transition. rewrite run_bind. simpl.
intros [-> Ho]%run_first_matching. split; [done|]. destruct o as [t|].
- destruct Ho as (l1 & l2 & Hl & Ht & Hl1).
  assert (Hmem : ∀ x, x ∈ l1 ++ t :: l2 ↔ leaving w d from tr x).
  { intros x. rewrite <- Hl, elem_of_order_by. apply elem_of_leaving. }
  split_and!; [apply Hmem; set_solver|done|].
  intros x [Hx|[->|Hx]%elem_of_cons]%Hmem%elem_of_app Hp; [by apply Hl1|lia|].
  pose proof (order_by_split by_priority_asc _ l1 t l2 by_priority_asc_total
    by_priority_asc_trans Hl x Hx) as Hle.
  apply by_priority_asc_spec in Hle. lia.
- intros t Ht. apply Ho. rewrite elem_of_order_by. by apply elem_of_leaving.
Qed.

(** Cancelling a run that has not ended always succeeds: the run is
  cancelled, its assignments that were still open are cancelled and no other
  one changes, and none of its reservations stays open. Cancelling a run that
  has ended changes nothing. *)
Theorem cancel_run_outcome run r w :
w_runs w !! run = Some r →
(is_terminal (run_status r) = true → cancel_run run w = (Ok tt, w)) ∧
(is_terminal (run_status r) = false →
 ∃ w', cancel_run run w = (Ok tt, w') ∧ run_ended run RUN_CANCELLED w' ∧ all_released run w' ∧
   ∀ i, w_assignments w' !! i =
     (λ a, if open_assignment_of run i a then cancelled_assignment a else a) <$>
     w_assignments w !! i).
Proof.
intros Hr. unfold cancel_run.
split; intros Ht; rewrite run_bind, run_the, Hr, Ht; [done|].
erewrite run_bind_ok by apply run_cancel_assignments.
set (w1 := over w_assignments _ w).
do 2 (erewrite run_bind_ok by reflexivity). set (w2 := over w_runs _ w1).
assert (He : run_ended run RUN_CANCELLED w2).
{ eexists. split; [simpl; by rewrite lookup_alter_eq, Hr|done]. }
assert (Ha : ∀ i, w_assignments w2 !! i =
  (λ a, if open_assignment_of run i a then cancelled_assignment a else a) <$> w_assignments w !! i).
{ intros i. exact (alter_rows_lookup _ cancelled_assignment (w_assignments w) i). }
clearbody w2. clear w1.
pose proof He as (r2 & Hr2 & _).
destruct (next_span_returns run r2 w2 Hr2) as (sp & w3 & H3).
rewrite (run_bind_ok _ _ _ _ _ H3).
assert (Hl3 : frame ledger w2 w3) by (apply (run_frame ledger H3); keeps_tac).
assert (Ha3 : w_assignments w3 = w_assignments w2) by (apply (run_frame _ H3); keeps_tac).
pose proof (run_ended_ledger _ _ _ _ Hl3 He) as He3. pose proof He3 as (r3 & Hr3 & _).
destruct (run_release_all run r3 w3 Hr3) as (w4 & H4 & Hl4 & Hall).
assert (Ha4 : w_assignments w4 = w_assignments w3) by (apply (run_frame _ H4); keeps_tac).
pose proof (run_ended_ledger _ _ _ _ Hl4 He3) as He4. pose proof He4 as (r4 & Hr4 & _).
rewrite (run_bind_ok _ _ _ _ _ H4).
destruct (emit_for_run_returns run r4 "pipeline.cancelled" sp (JObj []) w4 Hr4) as ([] & w5 & H5).
exists w5. split_and!; [exact H5| | |].
- apply (run_ended_ledger _ _ w4); [|done]. apply (run_frame ledger H5). keeps_tac.
- unfold all_released. rewrite (run_frame w_reservations H5); [exact Hall|keeps_tac].
- rewrite (run_frame w_assignments H5), Ha4, Ha3; [exact Ha|keeps_tac].
Qed.

(** The approval of a gate ends its run. If the transition its approval
  takes leads to a terminal stage, the gate is approved now and the run
  succeeds at that stage. The status the run had does not matter: the
  approval also brings a run back that was cancelled or has failed. *)
Theorem approval_succeeds_run gate g r d t sd w :
w_gates w !! gate = Some g → gate_status g = GATE_AWAITING →
w_runs w !! gate_pipeline_run_id g = Some r → run_definition_id r = Some d →
find_transition d (gate_stage g) ON_REVIEW_APPROVED (JObj []) w = (Ok (Some t), w) →
w_stages w !! (d, wtr_to_stage t) = Some sd → wst_is_terminal sd = true →
∃ w' r', resume_from_review gate true w = (Ok tt, w') ∧
  w_gates w' !! gate = Some (resolved_gate true (w_now w) g) ∧
  w_runs w' !! gate_pipeline_run_id g = Some r' ∧
  run_status r' = RUN_SUCCEEDED ∧ run_current_stage r' = wtr_to_stage t.
Proof.
intros Hg Ha Hr Hd Hf Hsd Hterm. unfold resume_from_review.
erewrite run_bind_ok by (by rewrite run_the, Hg). rewrite Ha, bool_decide_true by done. cbn [negb].
erewrite run_bind_ok by reflexivity. rewrite Hr.
do 3 (erewrite run_bind_ok by reflexivity). cbn [negb andb].
erewrite run_bind_ok by reflexivity. set (w1 := over w_runs _ _).
destruct (run_advance_terminal (gate_pipeline_run_id g) (gate_stage g) ON_REVIEW_APPROVED (JObj [])
  (r <| run_status := RUN_RUNNING |> <| run_pause_reason := None |>) d t sd w1)
  as (w' & r' & Hrun & Hr' & Hs & Hst & Hg'); try done.
{ simpl. by rewrite lookup_alter_eq, Hr. }
{ by apply (find_transition_reads d (gate_stage g) _ _ w). }
exists w', r'. split_and!; [exact Hrun| |done..].
rewrite Hg'. simpl. by rewrite lookup_alter_eq, Hg.
Qed.
End Theorems.

(** ** The demo deployment *)

(** the demo run at its gate, and the same run cancelled *)
Definition demo_cancelled : World := step demo_hash demo_review (CancelRun 20).

Lemma demo_stops : ∃ r, w_runs demo_review !! 20%positive = Some r ∧ is_terminal (run_status r) = false.
Proof.
  destruct (passes_some (λ r, negb (is_terminal (run_status r))) (w_runs demo_review !! 20%positive))
    as (r & Hr & Hs%negb_true_iff); [by vm_compute|].
  exact (ex_intro _ r (conj Hr Hs)).
Qed.

Lemma find_transition_first_witness :
  ∃ o, find_transition 10 SCRIPTING ON_SUCCESS (JObj []) demo = (Ok (Some o), demo) ∧
    leaving demo 10 SCRIPTING ON_SUCCESS o.
Proof.
  destruct (find_transition 10 SCRIPTING ON_SUCCESS (JObj []) demo) as [[[t|]|e] w'] eqn:Hf;
    [|discriminate..].
  destruct (find_transition_first 10 SCRIPTING ON_SUCCESS (JObj []) demo (Some t) w' Hf)
    as [Hw [Hl _]].
  exists t. split; [by rewrite Hw|exact Hl].
Defined.

Lemma cancel_run_outcome_witness :
  ∃ w', cancel_run 20 demo_review = (Ok tt, w') ∧ run_ended 20 RUN_CANCELLED w' ∧
    all_released 20 w'.
Proof.
  destruct demo_stops as (r & Hr & Ht).
  destruct (proj2 (cancel_run_outcome 20 r demo_review Hr) Ht) as (w' & Hrun & He & Hall & _).
  exact (ex_intro _ w' (conj Hrun (conj He Hall))).
Defined.

(** The demo run was cancelled; the approval of its gate publishes it. *)
Lemma demo_cancelled_rows :
  ∃ g r t sd, w_gates demo_cancelled !! 1017%positive = Some g ∧ gate_status g = GATE_AWAITING ∧
    w_runs demo_cancelled !! gate_pipeline_run_id g = Some r ∧ run_status r = RUN_CANCELLED ∧
    run_definition_id r = Some 10%positive ∧
    find_transition 10 (gate_stage g) ON_REVIEW_APPROVED (JObj []) demo_cancelled
    = (Ok (Some t), demo_cancelled) ∧
    w_stages demo_cancelled !! (10%positive, wtr_to_stage t) = Some sd ∧ wst_is_terminal sd = true.
Proof.
  destruct (passes_some (λ g, bool_decide (gate_status g = GATE_AWAITING ∧ gate_stage g = REVIEW ∧
      gate_pipeline_run_id g = 20%positive)) (w_gates demo_cancelled !! 1017%positive))
    as (g & Hg & (Ha & Hst & Hrun)%bool_decide_eq_true); [by vm_compute|].
  destruct (passes_some (λ r, bool_decide (run_status r = RUN_CANCELLED ∧
      run_definition_id r = Some 10%positive)) (w_runs demo_cancelled !! 20%positive))
    as (r & Hr & (Hs & Hd)%bool_decide_eq_true); [by vm_compute|].
  assert (Hw : w_transitions demo_cancelled = demo_transitions) by reflexivity.
  exists g, r, (mk_transition 10 REVIEW PUBLISHED ON_REVIEW_APPROVED None 100),
    (desk_stage 1 PUBLISHED 3 3 60 false true).
  rewrite Hrun, Hst. split; [exact Hg|]. split; [exact Ha|]. split; [exact Hr|].
  split; [exact Hs|]. split; [exact Hd|]. split; [|split; [reflexivity|reflexivity]].
  apply (find_transition_reads 10 REVIEW ON_REVIEW_APPROVED (JObj []) demo); [exact Hw|reflexivity].
Qed.

Lemma approval_succeeds_run_witness :
  ∃ g w' r', w_gates demo_cancelled !! 1017%positive = Some g ∧
    resume_from_review 1017 true demo_cancelled = (Ok tt, w') ∧
    w_runs w' !! gate_pipeline_run_id g = Some r' ∧ run_status r' = RUN_SUCCEEDED.
Proof.
  destruct demo_cancelled_rows as (g & r & t & sd & Hg & Ha & Hr & _ & Hd & Hf & Hsd & Hterm).
  destruct (approval_succeeds_run 1017 g r 10 t sd demo_cancelled Hg Ha Hr Hd Hf Hsd Hterm)
    as (w' & r' & Hrun & _ & Hr' & Hs & _).
  exact (ex_intro _ g (ex_intro _ w' (ex_intro _ r' (conj Hg (conj Hrun (conj Hr' Hs)))))).
Defined.
