(* ===== verification/RecoverySpec.v ===== *)
(** * What recovery does

    [recover_assignment] requeues an assignment in flight while it has
    attempts left and fails it, with its run, once they are exhausted; the
    batch over a worker's assignments ends with none of them in flight. *)

From S2P Require Import Prelude Models Database Outbox Provenance Assignments Gates Retry.
From S2P Require Import Workflow Spend.
From S2P Require Import SpendSafety SpendSpec Controller Budgets Recovery ContentDesk System.
From S2P Require Import ControllerSpec.

(** ** Definitions *)

Section Definitions.
Context `{Settings}.

(** the attempts the stage of an assignment allows *)
Definition attempts_allowed (a : StageAssignment) (w : World) : Z :=
match w_runs w !! asn_pipeline_run_id a ≫= run_definition_id with
| None => assignment_default_max_attempts
| Some d => match w_stages w !! (d, asn_stage a) with
            | None => assignment_default_max_attempts
            | Some s => wst_max_attempts s
            end
end.

(** the workers after one gave an assignment back *)
Definition workers_freed (worker : option positive) (w : World) : gmap positive WorkerRegistration :=
match worker with Some i => alter free_slot i (w_workers w) | None => w_workers w end.

(** no reservation of the stage is open *)
Definition stage_released (run : positive) (stage : ContentStage) (w : World) : Prop :=
∀ i x, w_reservations w !! i = Some x → open_for_stage run stage i x = false.

(** another assignment has the key of the next attempt *)
Definition next_attempt_taken (j : positive) (a : StageAssignment) (w : World) : Prop :=
∃ k b, k ≠ j ∧ w_assignments w !! k = Some b ∧
  keyed_as (asn_workspace_id a) (asn_pipeline_run_id a, asn_stage a, asn_attempt_number a + 1) k b
  = true.

(** what recovery may touch, but for runs and records *)
Definition assets (w : World) := (w_assignments w, w_workers w, w_reservations w).

(** what the end of a run leaves alone *)
Definition records (w : World) := (w_assignments w, w_workers w, w_dead_letters w).

(** only row [j] of the assignments may differ *)
Definition rows_but (j : positive) : relation World := λ w w',
∀ k, k ≠ j → w_assignments w' !! k = w_assignments w !! k.
End Definitions.

(** ** Lemmas *)

#[export] Instance rows_but_preorder j : PreOrder (rows_but j).
Proof.
  split; [by intros w k|]. intros w1 w2 w3 H12 H23 k Hk. by rewrite (H23 k Hk), (H12 k Hk).
Qed.

Lemma keeps_rows_but j g : keeps (rows_but j) (modify w_assignments j g).
Proof. intros w k Hk. simpl. by rewrite lookup_alter_ne. Qed.
#[export] Hint Resolve keeps_rows_but : keeps.

Section Lemmas.
Context `{Settings}.

Lemma keeps_recover_but j r d : keeps (rows_but j) (recover_assignment j r d).
Proof. unfold recover_assignment, exhaust_assignment, requeue_assignment. keeps_tac. Qed.

Lemma run_resolve_max_attempts a w : resolve_max_attempts a w = (Ok (attempts_allowed a w), w).
Proof.
unfold resolve_max_attempts, attempts_allowed. rewrite run_bind. simpl.
destruct (w_runs w !! asn_pipeline_run_id a) as [r|]; simpl; [|done].
destruct (run_definition_id r) as [d|]; simpl; [|done].
rewrite run_bind. simpl. by destruct (w_stages w !! (d, asn_stage a)).
Qed.

Lemma run_release_worker_slot worker w :
∃ w', release_worker_slot worker w = (Ok tt, w') ∧ w_workers w' = workers_freed worker w ∧
  w_assignments w' = w_assignments w ∧ w_runs w' = w_runs w ∧ w_stages w' = w_stages w ∧
  w_reservations w' = w_reservations w ∧ w_now w' = w_now w ∧ w_next w' = w_next w.
Proof.
unfold release_worker_slot, workers_freed. destruct worker as [i|]; [|by exists w].
rewrite run_bind. simpl. destruct (w_workers w !! i) as [wk|] eqn:Hi.
- eexists. split; [done|]. by split_and!.
- exists w. rewrite alter_None by done. by split_and!.
Qed.

Lemma clash_taken j a w :
rows (λ i b, negb (bool_decide (i = j)) &&
  keyed_as (asn_workspace_id a) (asn_pipeline_run_id a, asn_stage a, asn_attempt_number a + 1) i b)
  (w_assignments w) ≠ [] ↔ next_attempt_taken j a w.
Proof.
split.
- destruct (rows _ _) as [|[k b] l] eqn:Hr; [done|]. intros _.
  assert (Hin : (k, b) ∈ (k, b) :: l) by left. rewrite <- Hr in Hin.
  apply elem_of_rows in Hin as [Hk [Hj Hkey]%andb_true_iff].
  apply negb_true_iff, bool_decide_eq_false in Hj. by exists k, b.
- intros (k & b & Hne & Hk & Hkey) Hnil. pose proof (rows_nil _ _ k b Hnil Hk) as Hf.
  cbv beta in Hf. by rewrite bool_decide_false, Hkey in Hf.
Qed.

Lemma run_dead_letter ws tb i jt pl fr n t w :
∃ k w' e, route_to_dead_letter ws tb i jt pl fr n t w = (Ok k, w') ∧
  w_dead_letters w' !! k = Some e ∧ dlj_related_id e = i ∧
  (assets w', w_runs w') = (assets w, w_runs w).
Proof.
unfold route_to_dead_letter. eexists _, _, _. split; [reflexivity|].
split; [simpl; by rewrite lookup_insert_eq|]. by split.
Qed.

(** handing an assignment back to the queue *)
Lemma run_requeue j a reason d w :
w_assignments w !! j = Some a →
(next_attempt_taken j a w → ∃ w', requeue_assignment j a reason d w
   = (Raise (IntegrityError "uq_stage_assignments_workspace_idem"), w')) ∧
(¬ next_attempt_taken j a w → ∃ w' tr, requeue_assignment j a reason d w
   = (Ok (mk_recovery_result j REQUEUED (asn_attempt_number a) (Some (asn_attempt_number a + 1))), w') ∧
   w_assignments w' !! j = Some (requeued_assignment a <| asn_trace_id := Some tr |>) ∧
   w_workers w' = w_workers w ∧
   (is_Some (w_runs w !! asn_pipeline_run_id a) →
    stage_released (asn_pipeline_run_id a) (asn_stage a) w')).
Proof.
intros Ha. unfold requeue_assignment. erewrite run_bind_ok by reflexivity.
set (rel := match w_runs w !! asn_pipeline_run_id a with Some _ => _ | None => _ end).
assert (Hrel : ∃ w1, rel w = (Ok tt, w1) ∧ w_assignments w1 = w_assignments w ∧
  w_workers w1 = w_workers w ∧ (is_Some (w_runs w !! asn_pipeline_run_id a) →
    stage_released (asn_pipeline_run_id a) (asn_stage a) w1)).
{ subst rel. destruct (w_runs w !! asn_pipeline_run_id a) as [r|] eqn:Hr.
  - rewrite run_bind. simpl.
    destruct (run_release_rows (open_for_stage (asn_pipeline_run_id a) (asn_stage a)) _ r w
      (open_for_stage_reserved _ _) Hr) as (w1 & Hrun & _ & Hres).
    exists w1. split; [exact Hrun|]. split; [apply (run_frame _ Hrun); keeps_tac|].
    split; [apply (run_frame _ Hrun); keeps_tac|]. intros _ i x. rewrite Hres.
    apply released_none, open_for_stage_reserved.
  - exists w. split_and!; [done..|]. by intros []. }
destruct Hrel as (w1 & Hrun & Ha1 & Hw1 & Hs1). clearbody rel.
rewrite (run_bind_ok _ _ _ _ _ Hrun). erewrite run_bind_ok by reflexivity. rewrite Ha1.
assert (Hj : w_assignments w1 !! j = Some a) by by rewrite Ha1.
pose proof (clash_taken j a w) as Ht. split; intros Hc.
- destruct (rows _ (w_assignments w)) as [|k l]; [by apply Ht in Hc|]. by eexists.
- destruct (rows _ (w_assignments w)) as [|k l]; [|exfalso; by apply Hc, Ht]. clear Ht Hc.
  erewrite run_bind_ok by reflexivity. set (w2 := over w_assignments _ w1).
  destruct (child_span_returns (asn_trace_id a) w2) as (sp & w3 & H3).
  rewrite (run_bind_ok _ _ _ _ _ H3). erewrite run_bind_ok by reflexivity.
  assert (Hf3 : assets w3 = assets w2) by (apply (run_frame assets H3); keeps_tac).
  set (w4 := over w_assignments _ w3).
  match goal with |- ∃ w' tr, ?m w4 = _ ∧ _ =>
    assert (Hm : ∃ w', m w4 = (Ok (mk_recovery_result j REQUEUED (asn_attempt_number a)
                                     (Some (asn_attempt_number a + 1))), w') ∧ assets w' = assets w4) end.
  { apply (yields_frame assets); [|unfold recovery_audit; keeps_tac].
    apply yields_bind; [apply or_uuid4_returns|intros c w5 _].
    apply yields_bind; [apply emit_returns|intros e w6 _].
    apply yields_bind; [by eexists _, _|intros [] w7 _]. apply yields_ret. }
  destruct Hm as (w5 & H5 & Hf5). exists w5, sp.1. split; [exact H5|].
  injection Hf3 as Hfa Hfw Hfr. injection Hf5 as Hga Hgw Hgr.
  split_and!; [rewrite Hga|by rewrite Hgw; simpl; rewrite Hfw|].
  + simpl. rewrite lookup_alter_eq, Hfa. simpl. by rewrite lookup_alter_eq, Hj.
  + unfold stage_released. rewrite Hgr. simpl. by rewrite Hfr.
Qed.

(** the run of an exhausted assignment ends *)
Lemma run_end_run run c msg r w :
w_runs w !! run = Some r →
∃ w', (match run_correlation_id r with
       | Some _ => mret tt
       | None =>
           c ← or_uuid4 c;
           modify w_runs run (λ r, r <| run_correlation_id := Some c |>)
       end;;
       fail_run run msg) w = (Ok tt, w') ∧ records w' = records w ∧
  run_ended run RUN_FAILED w' ∧ all_released run w'.
Proof.
intros Hr. set (pin := match run_correlation_id r with Some _ => _ | None => _ end).
assert (Hp : yields pin w tt).
{ subst pin. destruct (run_correlation_id r); [apply yields_ret|].
  apply yields_bind; [apply or_uuid4_returns|]. intros c' w' _. by eexists. }
destruct Hp as [w1 H1].
assert (Hc1 : run_cores w1 = run_cores w).
{ subst pin. apply (run_frame _ H1). destruct (run_correlation_id r); keeps_tac. }
assert (Hf1 : records w1 = records w).
{ subst pin. apply (run_frame _ H1). destruct (run_correlation_id r); keeps_tac. }
rewrite (run_bind_ok _ _ _ _ _ H1). destruct (run_cores_lookup w w1 run r Hc1 Hr) as (r1 & Hr1 & _).
destruct (run_fail_run run msg r1 w1 Hr1) as (w2 & H2 & He & Hall). exists w2.
split_and!; [done| |done..]. rewrite <- Hf1. apply (run_frame _ H2). unfold fail_run. keeps_tac.
Qed.

(** failing it, with its run *)
Lemma run_exhaust j a reason t n d w :
w_assignments w !! j = Some a →
∃ w', exhaust_assignment j a reason t n d w
   = (Ok (mk_recovery_result j DEAD_LETTERED (asn_attempt_number a) None), w') ∧
   w_assignments w' !! j = Some (exhausted_assignment t a) ∧ w_workers w' = w_workers w ∧
   (∃ i e, w_dead_letters w' !! i = Some e ∧ dlj_related_id e = j) ∧
   (∀ r, w_runs w !! asn_pipeline_run_id a = Some r → is_terminal (run_status r) = false →
      run_ended (asn_pipeline_run_id a) RUN_FAILED w' ∧ all_released (asn_pipeline_run_id a) w').
Proof.
intros Ha. unfold exhaust_assignment. erewrite run_bind_ok by reflexivity.
set (w1 := over w_assignments _ w).
assert (Hj : w_assignments w1 !! j = Some (exhausted_assignment t a)).
{ simpl. by rewrite lookup_alter_eq, Ha. }
erewrite run_bind_ok by (by rewrite run_the, Hj).
match goal with |- context [route_to_dead_letter ?a1 ?a2 ?a3 ?a4 ?a5 ?a6 ?a7 ?a8] =>
  destruct (run_dead_letter a1 a2 a3 a4 a5 a6 a7 a8 w1) as (i & w2 & e & H2 & Hd2 & Hrel & Hf2) end.
rewrite (run_bind_ok _ _ _ _ _ H2). erewrite run_bind_ok by reflexivity.
injection Hf2 as Hfa Hfw _ Hruns. rewrite Hruns. change (w_runs w1) with (w_runs w) in *.
set (endrun := match w_runs w !! _ with Some _ => _ | None => _ end).
assert (He : ∃ w3, endrun w2 = (Ok tt, w3) ∧ records w3 = records w2 ∧
  (∀ r, w_runs w !! asn_pipeline_run_id a = Some r → is_terminal (run_status r) = false →
      run_ended (asn_pipeline_run_id a) RUN_FAILED w3 ∧ all_released (asn_pipeline_run_id a) w3)).
{ subst endrun. destruct (w_runs w !! asn_pipeline_run_id a) as [r|] eqn:Hr; [|by exists w2].
  destruct (is_terminal (run_status r)) eqn:Ht.
  - exists w2. split_and!; [done..|]. intros r' [= <-]. congruence.
  - rewrite <- Hruns in Hr.
    match goal with |- context [fail_run _ ?m] =>
      destruct (run_end_run (asn_pipeline_run_id a) (asn_correlation_id a) m r w2 Hr)
        as (w3 & H3 & Hf3 & He & Hall) end.
    exists w3. by split_and!. }
destruct He as (w3 & H3 & Hf3 & He). clearbody endrun. rewrite (run_bind_ok _ _ _ _ _ H3).
unfold recovery_audit. eexists. split; [reflexivity|]. injection Hf3 as Hga Hgw Hgd.
split_and!; simpl; [by rewrite Hga, Hfa|by rewrite Hgw, Hfw|exists i, e; by rewrite Hgd|exact He].
Qed.
End Lemmas.

Section Outcome.
Context `{Settings}.

(** What [recover_assignment] comes down to for an assignment in flight. *)
Lemma recover_in_flight j a reason d w :
  w_assignments w !! j = Some a → in_flight a = true →
  ∃ w1, w_workers w1 = workers_freed (asn_worker_id a) w ∧ w_assignments w1 = w_assignments w ∧
    w_runs w1 = w_runs w ∧
    recover_assignment j reason d w =
    (if attempts_allowed a w <? asn_attempt_number a + 1
     then exhaust_assignment j a reason (w_now w) (attempts_allowed a w) d
     else requeue_assignment j a reason d) w1.
Proof.
  intros Ha Hf. unfold recover_assignment. erewrite run_bind_ok by reflexivity.
  erewrite run_bind_ok by (by rewrite run_the, Ha). rewrite Hf. cbn [negb].
  destruct (run_release_worker_slot (asn_worker_id a) w)
    as (w1 & H1 & Hw & Ha1 & Hr & Hs & _ & _ & _).
  rewrite (run_bind_ok _ _ _ _ _ H1), (run_bind_ok _ _ _ _ _ (run_resolve_max_attempts a w1)).
  exists w1. split_and!; [done..|]. unfold attempts_allowed. by rewrite Hr, Hs.
Qed.

(** A recovery that returns leaves its assignment out of flight. *)
Lemma recover_lands j reason d w res w' :
  recover_assignment j reason d w = (Ok res, w') →
  ∃ a', w_assignments w' !! j = Some a' ∧ in_flight a' = false.
Proof.
  destruct (w_assignments w !! j) as [a|] eqn:Ha.
  2: { unfold recover_assignment. rewrite run_bind. simpl. by rewrite run_bind, run_the, Ha. }
  destruct (in_flight a) eqn:Hf.
  - destruct (recover_in_flight j a reason d w Ha Hf) as (w1 & _ & Ha1 & _ & ->).
    rewrite <- Ha1 in Ha. destruct (_ <? _).
    + destruct (run_exhaust j a reason (w_now w) (attempts_allowed a w) d w1 Ha)
        as (w2 & -> & Hj & _). intros [= _ <-]. by eexists.
    + destruct (run_requeue j a reason d w1 Ha) as [Htaken Hfree].
      destruct (decide (rows (λ i b, negb (bool_decide (i = j)) && keyed_as (asn_workspace_id a)
        (asn_pipeline_run_id a, asn_stage a, asn_attempt_number a + 1) i b) (w_assignments w1) = []))
        as [Hn|Hn].
      * destruct Hfree as (w2 & tr & -> & Hj & _); [by intros Ht%clash_taken|].
        intros [= _ <-]. by eexists.
      * apply clash_taken, Htaken in Hn as (w2 & ->). done.
  - unfold recover_assignment. rewrite run_bind. simpl. rewrite run_bind, run_the, Ha, Hf.
    cbn [negb]. intros Hr. exists a. split; [|done]. rewrite <- Ha. f_equal.
    apply (run_frame _ Hr). unfold recovery_audit. keeps_tac.
Qed.

Lemma recover_others j reason d w res w' k :
  recover_assignment j reason d w = (res, w') → k ≠ j →
  w_assignments w' !! k = w_assignments w !! k.
Proof.
  intros Hr Hk. pose proof (keeps_recover_but j reason d w) as Hb. rewrite Hr in Hb. by apply Hb.
Qed.

(** The batch: the assignments recovered are out of flight, the others as
    they were. *)
Lemma collect_recover (l : list (positive * StageAssignment)) reason d w outs w' :
  NoDup l.*1 →
  collect l (λ p, recover_assignment p.1 reason d) w = (Ok outs, w') →
  (∀ j, j ∈ l.*1 → ∃ a, w_assignments w' !! j = Some a ∧ in_flight a = false) ∧
  (∀ j, j ∉ l.*1 → w_assignments w' !! j = w_assignments w !! j).
Proof.
  revert w outs. induction l as [|[j a] l IH]; simpl; intros w outs Hnd Hc.
  { injection Hc as _ <-. split; [intros j []%not_elem_of_nil|done]. }
  apply NoDup_cons in Hnd as [Hj Hnd].
  apply bind_ok_inv in Hc as (res & w1 & H1 & Hc).
  apply bind_ok_inv in Hc as (rest & w2 & H2 & Hc). injection Hc as _ <-.
  destruct (IH w1 rest Hnd H2) as [Hin Hout]. split.
  - intros k [->|Hk]%elem_of_cons; [|by apply Hin].
    destruct (recover_lands _ _ _ _ _ _ H1) as (a' & Ha' & Hf). exists a'. by rewrite Hout.
  - intros k [Hne Hk]%not_elem_of_cons. rewrite Hout by done. by apply (recover_others _ _ _ _ _ _ _ H1).
Qed.
End Outcome.

(** ** The batch over a worker's assignments *)

Section Batch.
Context `{Settings}.

(** how many assignments the worker still holds *)
Definition held_count (i : positive) (w : World) : nat :=
  length (rows (held_by i) (w_assignments w)).

Lemma held_by_in_flight i j a : held_by i j a = true → in_flight a = true.
Proof. by intros [_ Hf]%andb_true_iff. Qed.

(** After a batch the worker holds what it held but for the batch. *)
Lemma held_after_batch i k reason d outs w w' :
  let l := take k (rows (held_by i) (w_assignments w)) in
  collect l (λ p, recover_assignment p.1 reason d) w = (Ok outs, w') →
  ∀ j a, w_assignments w' !! j = Some a → held_by i j a = true →
    w_assignments w !! j = Some a ∧ j ∉ l.*1.
Proof.
  intros l Hc j a Hj Hh.
  assert (Hnd : NoDup l.*1).
  { apply NoDup_take_rows. }
  destruct (collect_recover l reason d w outs w' Hnd Hc) as [Hin Hout].
  destruct (decide (j ∈ l.*1)) as [Hm|Hm].
  - destruct (Hin j Hm) as (a' & Ha' & Hf). rewrite Hj in Ha'. injection Ha' as <-.
    apply held_by_in_flight in Hh. congruence.
  - split; [|done]. by rewrite <- Hout.
Qed.

Lemma held_count_batch i k reason d outs w w' :
  collect (take k (rows (held_by i) (w_assignments w)))
    (λ p, recover_assignment p.1 reason d) w = (Ok outs, w') →
  (held_count i w' + length (take k (rows (held_by i) (w_assignments w))) ≤ held_count i w)%nat.
Proof.
  intros Hc. set (l := take k _).
  assert (Hs : (rows (held_by i) (w_assignments w')).*1 ++ l.*1
               ⊆+ (rows (held_by i) (w_assignments w)).*1).
  { apply NoDup_submseteq.
    - apply NoDup_app. split; [apply NoDup_rows_fst|]. split.
      + intros j (p & -> & Hp)%list_elem_of_fmap. destruct p as [j a].
        apply elem_of_rows in Hp as [Hj Hh]. by apply (held_after_batch _ _ _ _ _ _ _ Hc j a).
      + apply NoDup_take_rows.
    - intros j [Hj|Hj]%elem_of_app.
      + apply list_elem_of_fmap in Hj as ([j' a] & -> & [Hj Hh]%elem_of_rows). simpl in *.
        destruct (held_after_batch _ _ _ _ _ _ _ Hc j' a Hj Hh) as [Hw _].
        apply list_elem_of_fmap. exists (j', a). split; [done|]. by apply elem_of_rows.
      + unfold l in Hj. rewrite fmap_take in Hj. by apply elem_of_take in Hj as (? & ?%list_elem_of_lookup_2 & _). }
  apply submseteq_length in Hs. rewrite length_app, !length_fmap in Hs. exact Hs.
Qed.

(** the two ways a recovery can fail: the row is gone, or the next attempt of
    the same stage exists already *)
Definition recovery_error (e : exn) : Prop :=
  e = NoSuchRow "" ∨ e = IntegrityError "uq_stage_assignments_workspace_idem".

Lemma recover_errors j reason d w e w' :
  recover_assignment j reason d w = (Raise e, w') → recovery_error e.
Proof.
  destruct (w_assignments w !! j) as [a|] eqn:Ha.
  2: { unfold recover_assignment. rewrite run_bind. simpl. rewrite run_bind, run_the, Ha.
       intros [= <- _]. by left. }
  destruct (in_flight a) eqn:Hf.
  - destruct (recover_in_flight j a reason d w Ha Hf) as (w1 & _ & Ha1 & _ & ->).
    rewrite <- Ha1 in Ha. destruct (_ <? _).
    + by destruct (run_exhaust j a reason (w_now w) (attempts_allowed a w) d w1 Ha) as (w2 & -> & _).
    + destruct (run_requeue j a reason d w1 Ha) as [Htaken Hfree].
      destruct (decide (rows (λ i b, negb (bool_decide (i = j)) && keyed_as (asn_workspace_id a)
        (asn_pipeline_run_id a, asn_stage a, asn_attempt_number a + 1) i b) (w_assignments w1) = []))
        as [Hn|Hn].
      * by destruct Hfree as (w2 & tr & -> & _); [intros Ht%clash_taken|].
      * apply clash_taken, Htaken in Hn as (w2 & ->). intros [= <- _]. by right.
  - unfold recover_assignment. rewrite run_bind. simpl. rewrite run_bind, run_the, Ha, Hf.
    cbn [negb]. unfold recovery_audit. done.
Qed.

Lemma collect_recover_errors (l : list (positive * StageAssignment)) reason d w e w' :
  collect l (λ p, recover_assignment p.1 reason d) w = (Raise e, w') → recovery_error e.
Proof.
  revert w. induction l as [|p l IH]; simpl; intros w; [done|].
  intros [(res & w1 & _ & Hc)|(x & Hr & [= <-])]%bind_inv; [|by apply recover_errors in Hr].
  apply bind_inv in Hc as [(rest & w2 & _ & [=])|(x & Hr & [= <-])]. by apply (IH w1).
Qed.

(** With a batch of at least one the loop ends within its fuel. *)
Lemma reap_loop_ends fuel i reason k d w :
  (1 ≤ k)%nat → (held_count i w < fuel)%nat →
  match reap_worker_loop fuel i reason k d w with
  | (Ok _, w') => held_count i w' = 0%nat
  | (Raise e, _) => recovery_error e
  end.
Proof.
  intros Hk. revert w. induction fuel as [|fuel IH]; intros w Hf; [lia|].
  cbn [reap_worker_loop]. rewrite run_bind. simpl.
  set (l := take k (rows (held_by i) (w_assignments w))).
  assert (Hl : length l = (k `min` held_count i w)%nat) by (unfold l; by rewrite length_take).
  destruct l as [|p l'] eqn:Hl'.
  { simpl in Hl. simpl. lia. }
  rewrite <- Hl' in *. clear Hl' p l'. rewrite run_bind.
  destruct (collect l (λ p, recover_assignment p.1 reason d) w) as [[outs|e] w1] eqn:Hc;
    [|by apply collect_recover_errors in Hc].
  pose proof (held_count_batch i k reason d outs w w1 Hc) as Hcount. fold l in Hcount.
  destruct (Nat.ltb_spec (length l) k) as [Hlt|Hge]; [simpl; lia|].
  rewrite run_bind. specialize (IH w1 ltac:(lia)).
  by destruct (reap_worker_loop fuel i reason k d w1) as [[more|e] w2].
Qed.
End Batch.

(** a batch over a worker's assignments that ran to its end, or failed *)
Definition taken_back {A} (i : positive) (r : result exn A * World) : Prop :=
match r with
| (Ok _, w') => ∀ j a, w_assignments w' !! j = Some a → held_by i j a = false
| (Raise e, _) => recovery_error e
end.

(** ** Theorems *)

Section Theorems.
Context `{Settings}.

(** Recovering an assignment in flight that has attempts left hands it back
    to the queue: it is pending again, without owner or lease, under the next
    attempt number and key; its worker gets the slot back; no reservation of
    its stage stays open. Only another assignment of that very attempt makes
    the recovery fail, on the unique index. *)
Theorem recover_requeues j a reason d w :
  w_assignments w !! j = Some a → in_flight a = true →
  asn_attempt_number a + 1 ≤ attempts_allowed a w →
  (¬ next_attempt_taken j a w →
   ∃ w' tr, recover_assignment j reason d w
     = (Ok (mk_recovery_result j REQUEUED (asn_attempt_number a) (Some (asn_attempt_number a + 1))), w') ∧
     w_assignments w' !! j = Some (requeued_assignment a <| asn_trace_id := Some tr |>) ∧
     w_workers w' = workers_freed (asn_worker_id a) w ∧
     (is_Some (w_runs w !! asn_pipeline_run_id a) →
      stage_released (asn_pipeline_run_id a) (asn_stage a) w')) ∧
  (next_attempt_taken j a w → ∃ w', recover_assignment j reason d w
     = (Raise (IntegrityError "uq_stage_assignments_workspace_idem"), w')).
Proof.
  intros Ha Hf Hn. destruct (recover_in_flight j a reason d w Ha Hf) as (w1 & Hw1 & Ha1 & Hr1 & ->).
  rewrite (proj2 (Z.ltb_ge _ _) Hn).
  destruct (run_requeue j a reason d w1) as [Htaken Hfree]; [by rewrite Ha1|].
  assert (Ht : next_attempt_taken j a w1 ↔ next_attempt_taken j a w)
    by (unfold next_attempt_taken; by rewrite Ha1).
  split; [rewrite <- Ht, <- Hw1, <- Hr1; exact Hfree|]. intros Hx%Ht. by apply Htaken.
Qed.

(** Recovering an assignment in flight whose attempts are exhausted always
    succeeds: the assignment fails, its worker gets the slot back, a dead
    letter names it, and its run, unless it has ended before, ends as failed
    with none of its reservations open. *)
Theorem recover_exhausts j a reason d w :
  w_assignments w !! j = Some a → in_flight a = true →
  attempts_allowed a w < asn_attempt_number a + 1 →
  ∃ w', recover_assignment j reason d w
     = (Ok (mk_recovery_result j DEAD_LETTERED (asn_attempt_number a) None), w') ∧
     w_assignments w' !! j = Some (exhausted_assignment (w_now w) a) ∧
     w_workers w' = workers_freed (asn_worker_id a) w ∧
     (∃ i e, w_dead_letters w' !! i = Some e ∧ dlj_related_id e = j) ∧
     (∀ r, w_runs w !! asn_pipeline_run_id a = Some r → is_terminal (run_status r) = false →
        run_ended (asn_pipeline_run_id a) RUN_FAILED w' ∧ all_released (asn_pipeline_run_id a) w').
Proof.
  intros Ha Hf Hn. destruct (recover_in_flight j a reason d w Ha Hf) as (w1 & Hw1 & Ha1 & Hr1 & ->).
  rewrite (proj2 (Z.ltb_lt _ _) Hn), <- Hw1, <- Hr1. apply run_exhaust. by rewrite Ha1.
Qed.

(** Taking back everything a worker holds ends: with batches of at least one
    the loop runs out of assignments before it runs out of passes, and when it
    returns the worker holds no assignment in flight. It can only fail on a
    recovery that fails. *)
Theorem reap_worker_completes i reason n d w :
  (1 ≤ default assignment_reaper_batch_size n)%nat →
  taken_back i (reap_worker_assignments i reason n d w).
Proof.
  intros Hk. unfold reap_worker_assignments. erewrite run_bind_ok by reflexivity.
  pose proof (reap_loop_ends (S (held_count i w)) i reason _ d w Hk (Nat.lt_succ_diag_r _)) as Hend.
  unfold held_count in Hend at 1.
  destruct (reap_worker_loop _ _ _ _ _ w) as [[outs|e] w']; [|exact Hend].
  intros j a. apply rows_nil. by apply length_zero_iff_nil.
Qed.
End Theorems.

(** ** The demo deployment *)

(** the same deployment on the last attempt the workflow allows *)
Definition demo_last_attempt : World :=
demo_dispatched <| w_assignments ::= alter (λ a, a <| asn_attempt_number := 3 |>) 1007%positive |>.

Lemma demo_alone : delete 1007%positive (w_assignments demo_dispatched) = ∅.
Proof. vm_compute. reflexivity. Qed.

Lemma demo_next_free a : ¬ next_attempt_taken 1007 a demo_dispatched.
Proof.
  intros (k & b & Hk & Hb & _). by rewrite <- (lookup_delete_ne _ _ _ (not_eq_sym Hk)), demo_alone in Hb.
Qed.

Lemma recover_requeues_witness :
  ∃ a w' tr, w_assignments demo_dispatched !! 1007%positive = Some a ∧ in_flight a = true ∧
    recover_assignment 1007 WORKER_WENT_OFFLINE None demo_dispatched
      = (Ok (mk_recovery_result 1007 REQUEUED (asn_attempt_number a) (Some (asn_attempt_number a + 1))), w') ∧
    w_assignments w' !! 1007%positive = Some (requeued_assignment a <| asn_trace_id := Some tr |>).
Proof.
  destruct (passes_some
    (λ a, in_flight a && (asn_attempt_number a + 1 <=? attempts_allowed a demo_dispatched))
    (w_assignments demo_dispatched !! 1007%positive)) as (a & Ha & [Hf Hn%Z.leb_le]%andb_true_iff);
    [by vm_compute|].
  destruct (proj1 (recover_requeues 1007 a WORKER_WENT_OFFLINE None demo_dispatched Ha Hf Hn) (demo_next_free a))
    as (w' & tr & Hr & Hr' & _).
  exact (ex_intro _ a (ex_intro _ w' (ex_intro _ tr (conj Ha (conj Hf (conj Hr Hr')))))).
Defined.

Lemma recover_exhausts_witness :
  ∃ a w', w_assignments demo_last_attempt !! 1007%positive = Some a ∧
    recover_assignment 1007 LEASE_EXPIRED None demo_last_attempt
      = (Ok (mk_recovery_result 1007 DEAD_LETTERED (asn_attempt_number a) None), w') ∧
    run_ended 20 RUN_FAILED w'.
Proof.
  destruct (passes_some
    (λ a, (in_flight a && bool_decide (asn_pipeline_run_id a = 20%positive))
            && (attempts_allowed a demo_last_attempt <? asn_attempt_number a + 1))
    (w_assignments demo_last_attempt !! 1007%positive))
    as (a & Ha & [[Hf Hrun%bool_decide_eq_true]%andb_true_iff Hn%Z.ltb_lt]%andb_true_iff);
    [by vm_compute|].
  destruct (passes_some (λ r, negb (is_terminal (run_status r))) (w_runs demo_last_attempt !! 20%positive))
    as (r & Hr & Hlive%negb_true_iff); [by vm_compute|].
  destruct (recover_exhausts 1007 a LEASE_EXPIRED None demo_last_attempt Ha Hf Hn)
    as (w' & Hw & _ & _ & _ & Hend).
  rewrite Hrun in Hend. destruct (Hend r Hr Hlive) as [He _].
  exact (ex_intro _ a (ex_intro _ w' (conj Ha (conj Hw He)))).
Defined.

Lemma reap_worker_completes_witness :
  (1 ≤ default assignment_reaper_batch_size None)%nat ∧
  taken_back 40 (reap_worker_assignments 40 WORKER_REVOKED None None demo_dispatched).
Proof.
  assert (Hn : (1 ≤ default assignment_reaper_batch_size None)%nat) by (simpl; lia).
  exact (conj Hn (reap_worker_completes 40 WORKER_REVOKED None None demo_dispatched Hn)).
Defined.
