(* ===== verification/MissionSpec.v ===== *)
(** * What the quick actions do

    An emergency stop takes everything from the workers of the workspace and
    leaves the others alone; a dead letter of a stage that is retried stops
    the scheduler. *)

From S2P Require Import Prelude Models Database Outbox Provenance Assignments Gates Retry.
From S2P Require Import Workflow Spend.
From S2P Require Import SpendSafety SpendSpec Controller Recovery Dispatcher Scheduler.
From S2P Require Import Workers MissionControl ContentDesk Automation System.
From S2P Require Import ControllerSpec RecoverySpec.

(** ** Definitions *)

(** the worker is out of service for the workspace *)
Definition stopped (workspace_id worker : id) (w : World) : Prop :=
(∃ wk, w_workers w !! worker = Some wk ∧ wrk_status wk = WORKER_OFFLINE ∧
   wrk_current_load wk = 0 ∧ wrk_drain wk = true) ∧
(∀ j a, w_assignments w !! j = Some a → held_by worker j a = false) ∧
(∀ c x, w_credentials w !! c = Some x → revocable workspace_id worker c x = false).

(** Workers the workspace does not own, their credentials, and assignments
    that only they hold, are as they were. *)
Definition others_untouched (workspace_id : id) (w w' : World) : Prop :=
(∀ i wk, w_workers w !! i = Some wk → pinned_to workspace_id i wk = false →
   w_workers w' !! i = Some wk ∧
   ∀ j a, w_assignments w !! j = Some a → held_by i j a = true → w_assignments w' !! j = Some a) ∧
(∀ c x, w_credentials w !! c = Some x → cred_workspace_id x ≠ workspace_id →
   w_credentials w' !! c = Some x).

(** what taking work back from some workers leaves alone *)
Definition spares (ws : list id) : relation World := λ w w',
(∀ i, i ∉ ws → w_workers w' !! i = w_workers w !! i) ∧
(∀ i, is_Some (w_workers w !! i) → is_Some (w_workers w' !! i)) ∧
(∀ j a, w_assignments w !! j = Some a → (∀ i, i ∈ ws → held_by i j a = false) →
   w_assignments w' !! j = Some a) ∧
(∀ j a, w_assignments w' !! j = Some a → in_flight a = true → w_assignments w !! j = Some a).

(** the job names a stage by a text that is none *)
Definition misnamed (j : JobSchedule) : Prop :=
(job_type j = JOB_STAGE ∨ job_type j = JOB_RETRY) ∧ no_stage (job_ref_table j).

(** ** Lemmas *)

#[export] Instance spares_preorder ws : PreOrder (spares ws).
Proof.
split; [intros w; by unfold spares; split_and!|]. intros w1 w2 w3 (Hw & Hs & Hr & Hi) (Hw' & Hs' & Hr' & Hi').
split_and!; eauto. intros i Hn. by rewrite Hw', Hw.
Qed.

Lemma spares_weaken ws ws' w w' : ws ⊆ ws' → spares ws w w' → spares ws' w w'.
Proof.
intros Hsub (Hw & Hs & Hr & Hi). split_and!; [|done| |done].
- intros i Hn. apply Hw. by intros ?%Hsub.
- intros j a Hj Hh. apply Hr; [done|]. intros i Hin. by apply Hh, Hsub.
Qed.

Lemma held_by_worker i j a : held_by i j a = true → asn_worker_id a = Some i.
Proof. by intros [Hw%bool_decide_eq_true _]%andb_true_iff. Qed.

Section Stop.
Context `{Settings}.

(** recovering an assignment its worker holds *)
Lemma recover_spares i j a reason d w r w' :
  w_assignments w !! j = Some a → held_by i j a = true →
  recover_assignment j reason d w = (Ok r, w') → spares [i] w w'.
Proof.
  intros Ha Hh Hrun. pose proof (recover_lands _ _ _ _ _ _ Hrun) as (a' & Ha' & Hf').
  assert (Hw : w_workers w' = alter free_slot i (w_workers w)).
  { pose proof (held_by_in_flight _ _ _ Hh) as Hf.
    destruct (recover_in_flight j a reason d w Ha Hf) as (w1 & Hw1 & Ha1 & _ & Heq).
    rewrite Heq in Hrun. clear Heq. rewrite (held_by_worker _ _ _ Hh) in Hw1. simpl in Hw1.
    rewrite <- Ha1 in Ha. destruct (_ <? _).
    - destruct (run_exhaust j a reason (w_now w) (attempts_allowed a w) d w1 Ha)
        as (w2 & Hx & _ & Hw2 & _). rewrite Hx in Hrun. injection Hrun as _ <-. congruence.
    - destruct (run_requeue j a reason d w1 Ha) as [Htaken Hfree].
      destruct (decide (rows (λ i b, negb (bool_decide (i = j)) && keyed_as (asn_workspace_id a)
        (asn_pipeline_run_id a, asn_stage a, asn_attempt_number a + 1) i b) (w_assignments w1) = []))
        as [Hn|Hn].
      + destruct Hfree as (w2 & tr & Hx & _ & Hw2 & _); [by intros Ht%clash_taken|].
        rewrite Hx in Hrun. injection Hrun as _ <-. congruence.
      + apply clash_taken, Htaken in Hn as (w2 & Hx). by rewrite Hx in Hrun. }
  split_and!.
  - intros k Hk. rewrite Hw, lookup_alter_ne; [done|]. intros ->. apply Hk. left.
  - intros k Hk. rewrite Hw. rewrite lookup_alter. case_decide; [subst|done]. by rewrite fmap_is_Some.
  - intros k b Hb Hn. destruct (decide (k = j)) as [->|Hne].
    + rewrite Ha in Hb. injection Hb as <-. rewrite Hn in Hh by left. done.
    + by rewrite (recover_others _ _ _ _ _ _ _ Hrun).
  - intros k b Hb Hf. destruct (decide (k = j)) as [->|Hne]; [congruence|].
    by rewrite <- (recover_others _ _ _ _ _ _ _ Hrun).
Qed.

Lemma collect_spares i (l : list (id * StageAssignment)) reason d w outs w' :
  NoDup l.*1 → (∀ p, p ∈ l → w_assignments w !! p.1 = Some p.2 ∧ held_by i p.1 p.2 = true) →
  collect l (λ p, recover_assignment p.1 reason d) w = (Ok outs, w') → spares [i] w w'.
Proof.
  revert w outs. induction l as [|[j a] l IH]; simpl; intros w outs Hnd Hl Hc.
  { by injection Hc as _ <-. }
  apply NoDup_cons in Hnd as [Hj Hnd].
  apply bind_ok_inv in Hc as (res & w1 & H1 & Hc).
  apply bind_ok_inv in Hc as (rest & w2 & H2 & Hc). injection Hc as _ <-.
  destruct (Hl (j, a) ltac:(left)) as [Ha Hh].
  etrans; [by eapply recover_spares|]. eapply IH; [done| |exact H2].
  intros [k b] Hin. destruct (Hl (k, b) ltac:(by right)) as [Hb Hhb]. split; [|done]. simpl in *.
  rewrite (recover_others _ _ _ _ _ _ _ H1); [done|]. intros ->. apply Hj.
  apply list_elem_of_fmap. by exists (j, b).
Qed.

Lemma loop_spares fuel i reason k d w outs w' :
  reap_worker_loop fuel i reason k d w = (Ok outs, w') → spares [i] w w'.
Proof.
  revert w outs. induction fuel as [|fuel IH]; intros w outs Hr; [done|].
  cbn [reap_worker_loop] in Hr. rewrite run_bind in Hr. simpl in Hr.
  destruct (take k _) as [|p l] eqn:Hl; [by injection Hr as _ <-|]. rewrite <- Hl in Hr.
  apply bind_ok_inv in Hr as (out & w1 & H1 & Hr).
  assert (Hs : spares [i] w w1).
  { eapply collect_spares; [apply NoDup_take_rows| |exact H1]. intros [j a] Hin.
    apply elem_of_take in Hin as (n & Hn & _). apply list_elem_of_lookup_2 in Hn.
    by apply elem_of_rows in Hn. }
  etrans; [exact Hs|]. destruct (_ <? _)%nat; [by injection Hr as _ <-|].
  apply bind_ok_inv in Hr as (more & w2 & H2 & Hr). injection Hr as _ <-. by eapply IH.
Qed.

(** taking back everything a worker holds *)
Lemma reap_takes_back i reason d w :
  (1 ≤ assignment_reaper_batch_size)%nat →
  match reap_worker_assignments i reason None d w with
  | (Ok _, w') => spares [i] w w' ∧ ∀ j a, w_assignments w' !! j = Some a → held_by i j a = false
  | (Raise e, _) => recovery_error e
  end.
Proof.
  intros Hk. unfold reap_worker_assignments. erewrite run_bind_ok by reflexivity.
  pose proof (reap_loop_ends (S (held_count i w)) i reason _ d w Hk (Nat.lt_succ_diag_r _)) as Hend.
  unfold held_count in Hend at 1.
  match goal with |- context [reap_worker_loop ?f ?i ?r ?k ?d w] =>
    change (reap_worker_loop f i r k d w) with
      (reap_worker_loop (S (length (rows (held_by i) (w_assignments w)))) i reason
         assignment_reaper_batch_size d w) end.
  destruct (reap_worker_loop _ _ _ _ _ w) as [[outs|e] w'] eqn:Hr; [|exact Hend].
  split; [by eapply loop_spares|]. intros j a. apply rows_nil. by apply length_zero_iff_nil.
Qed.

(** the credentials the bulk update revokes *)
Definition revoked (c : WorkerCredential) : WorkerCredential := c <| cred_status := CRED_REVOKED |>.

Lemma run_revoke (l : list (id * WorkerCredential)) w :
  for_each l (λ p, modify w_credentials p.1 revoked) w
  = (Ok tt, w <| w_credentials ::= alter_each revoked l.*1 |>).
Proof.
  revert w. induction l as [|[i c] l IH]; intros w; [by destruct w|].
  simpl. rewrite run_bind. simpl. by rewrite IH.
Qed.

(** the whole effect of stopping some workers of a workspace *)
Definition stops (ws : id) (l : list id) (w w' : World) : Prop :=
spares l w w' ∧
(∀ i, i ∈ l → is_Some (w_workers w !! i) → stopped ws i w') ∧
(∀ c, w_credentials w' !! c =
   (λ x, if existsb (λ i, revocable ws i c x) l then revoked x else x) <$> w_credentials w !! c).

Lemma stop_worker_stops ws i w :
  (1 ≤ assignment_reaper_batch_size)%nat →
  match stop_worker ws i w with
  | (Ok _, w') => stops ws [i] w w'
  | (Raise e, _) => recovery_error e
  end.
Proof.
  intros Hk. unfold stop_worker. erewrite run_bind_ok by reflexivity.
  rewrite (run_bind_ok _ _ _ _ _ (run_revoke _ w)). set (w1 := over w_credentials _ w).
  rewrite run_bind. pose proof (reap_takes_back i WORKER_REVOKED None w1 Hk) as Hreap.
  destruct (reap_worker_assignments i WORKER_REVOKED None None w1) as [[outs|e] w2] eqn:Hr;
    [|exact Hreap].
  destruct Hreap as [(Hw & Hs & Hn & Hi) Hheld]. erewrite run_bind_ok by reflexivity. simpl.
  assert (Hc : w_credentials w2 = w_credentials w1) by (apply (run_frame _ Hr); keeps_tac).
  assert (Hcred : ∀ c, w_credentials w2 !! c =
    (λ x, if existsb (λ j, revocable ws j c x) [i] then revoked x else x) <$> w_credentials w !! c).
  { intros c. rewrite Hc. simpl. rewrite alter_rows_lookup.
    by destruct (w_credentials w !! c) as [x|]; simpl; [rewrite orb_false_r|]. }
  unfold stops. split_and!.
  - unfold spares. simpl. split_and!; [| |exact Hn|exact Hi].
    + intros j Hj. rewrite lookup_alter_ne; [by apply Hw|]. intros ->. apply Hj. left.
    + intros j Hj%Hs. rewrite lookup_alter. case_decide; [subst|done]. by rewrite fmap_is_Some.
  - intros j ->%list_elem_of_singleton Hj. apply Hs in Hj as [wk Hwk]. split_and!; [|exact Hheld|].
    + exists (stopped_worker wk). simpl. by rewrite lookup_alter_eq, Hwk.
    + intros c x. simpl. rewrite Hcred. intros (y & _ & ->)%fmap_Some. simpl. rewrite orb_false_r.
      destruct (revocable ws i c y) eqn:Hy; [|done].
      apply bool_decide_eq_false. by intros (_ & _ & ?).
  - exact Hcred.
Qed.

(** a worker that was stopped stays so when others are *)
Lemma stopped_spares ws i l w w' :
  stopped ws i w → i ∉ l → stops ws l w w' → stopped ws i w'.
Proof.
  intros (Hw & Hh & Hc) Hi ((Hw' & _ & _ & Hf) & _ & Hc'). split_and!.
  - by rewrite Hw'.
  - intros j a Hj. destruct (held_by i j a) eqn:Hb; [|done].
    rewrite <- Hb. eapply Hh, Hf; [done|by eapply held_by_in_flight].
  - intros c x. rewrite Hc'. intros (y & Hy & ->)%fmap_Some. specialize (Hc c y Hy).
    case_match; [|done]. apply bool_decide_eq_false. by intros (_ & _ & ?).
Qed.

Lemma stops_cons ws i l w w1 w2 :
  i ∉ l → stops ws [i] w w1 → stops ws l w1 w2 → stops ws (i :: l) w w2.
Proof.
  intros Hi H1 H2. destruct H1 as (Hs1 & Hst1 & Hc1). pose proof H2 as (Hs2 & Hst2 & Hc2).
  unfold stops. split_and!.
  - etrans; [apply (spares_weaken [i]); [set_solver|done]|apply (spares_weaken l); [set_solver|done]].
  - intros j [->|Hj]%elem_of_cons Hsome.
    + eapply stopped_spares; [apply Hst1; [left|done]|done|done].
    + apply Hst2; [done|]. by apply Hs1.
  - intros c. rewrite Hc2, Hc1. destruct (w_credentials w !! c) as [x|]; [|done]. simpl.
    rewrite orb_false_r. destruct (revocable ws i c x) eqn:Hx; [simpl|done]. f_equal.
    by destruct (existsb _ l).
Qed.

Lemma collect_stops ws (l : list (id * WorkerRegistration)) w :
  (1 ≤ assignment_reaper_batch_size)%nat → NoDup l.*1 →
  match collect l (λ p, stop_worker ws p.1) w with
  | (Ok _, w') => stops ws l.*1 w w'
  | (Raise e, _) => recovery_error e
  end.
Proof.
  intros Hk. revert w. induction l as [|[i wk] l IH]; intros w Hnd; simpl.
  { unfold stops. split_and!; [done|by intros i ?%not_elem_of_nil|].
    intros c. by destruct (w_credentials w !! c). }
  apply NoDup_cons in Hnd as [Hi Hnd]. rewrite run_bind.
  pose proof (stop_worker_stops ws i w Hk) as H1.
  destruct (stop_worker ws i w) as [[n|e] w1]; [|exact H1]. rewrite run_bind.
  specialize (IH w1 Hnd). destruct (collect l _ w1) as [[ns|e] w2]; [|exact IH].
  by eapply stops_cons.
Qed.

Lemma for_each_app {A} (l : list A) a l' (f : A → M unit) w w1 e w2 :
  for_each l f w = (Ok tt, w1) → f a w1 = (Raise e, w2) →
  for_each (l ++ a :: l') f w = (Raise e, w2).
Proof.
  intros Hl Ha. revert w Hl. induction l as [|b l IH]; simpl; intros w Hl.
  - injection Hl as <-. by rewrite run_bind, Ha.
  - apply bind_ok_inv in Hl as ([] & w3 & Hb & Hl). rewrite (run_bind_ok _ _ _ _ _ Hb). by apply IH.
Qed.

Lemma blocked_reads ws run w : dispatch_blocked ws run w = ((dispatch_blocked ws run w).1, w).
Proof. unfold dispatch_blocked. rewrite !run_bind. simpl. rewrite !run_bind. simpl. by case_match. Qed.

Lemma blocked_after_uuid o ws run w :
  ∃ c w', or_uuid4 o w = (Ok c, w') ∧
    dispatch_blocked ws run w' = ((dispatch_blocked ws run w).1, w').
Proof.
  destruct o as [c|]; eexists _, _; (split; [reflexivity|]);
    unfold dispatch_blocked; rewrite !run_bind; simpl; rewrite !run_bind; simpl; by case_match.
Qed.

(** what the event of a quick action leaves alone *)
Definition fleet (w : World) := (w_workers w, w_assignments w, w_credentials w).

Lemma record_returns ws u n k d w :
  ∃ w', _record_quick_action ws u n k d w = (Ok tt, w') ∧ fleet w' = fleet w.
Proof.
  apply (yields_frame fleet); [|unfold _record_quick_action; keeps_tac].
  unfold _record_quick_action. apply yields_bind; [by eexists _, _|intros c w1 _].
  apply yields_bind; [apply emit_returns|intros e w2 _]. apply yields_ret.
Qed.
End Stop.

(** ** Theorems *)

Section Theorems.
Context `{Settings}.

(** C21: an emergency stop that succeeds leaves every worker pinned to the
    workspace offline, drained and without load, with nothing in flight and
    without an active credential; the workers of others, what they hold and
    the credentials of other workspaces are as they were. It fails only when
    taking back an assignment fails. *)
Theorem emergency_stop_stops ws actor w :
  (1 ≤ assignment_reaper_batch_size)%nat →
  match emergency_stop ws actor w with
  | (Ok _, w') =>
      (∀ i wk, w_workers w !! i = Some wk → pinned_to ws i wk = true → stopped ws i w') ∧
      others_untouched ws w w'
  | (Raise e, _) => recovery_error e
  end.
Proof.
  intros Hk. unfold emergency_stop. erewrite run_bind_ok by reflexivity. rewrite run_bind.
  set (l := rows (pinned_to ws) (w_workers w)).
  pose proof (collect_stops ws l w Hk (NoDup_rows_fst _ _)) as Hs.
  destruct (collect l _ w) as [[counts|e] w1]; [|exact Hs]. rewrite run_bind.
  match goal with |- context [_record_quick_action ?a ?b ?c ?d ?e w1] =>
    destruct (record_returns a b c d e w1) as (w2 & -> & Hf) end.
  injection Hf as Hfw Hfa Hfc. simpl.
  assert (Hin : ∀ i wk, w_workers w !! i = Some wk → i ∈ l.*1 ↔ pinned_to ws i wk = true).
  { intros i wk Hi. rewrite list_elem_of_fmap. split.
    - intros ([j x] & -> & [Hj Hp]%elem_of_rows). simpl in *. congruence.
    - intros Hp. exists (i, wk). split; [done|]. by apply elem_of_rows. }
  destruct Hs as ((Hw & _ & Hn & _) & Hst & Hc). split; [|split].
  - intros i wk Hi Hp. destruct (Hst i) as (Hx & Hy & Hz); [by eapply Hin|by exists wk|].
    unfold stopped. by rewrite Hfw, Hfa, Hfc.
  - intros i wk Hi Hp.
    assert (Hni : i ∉ l.*1) by (rewrite (Hin i wk Hi); congruence). split.
    + by rewrite Hfw, Hw.
    + intros j a Hj Hh. rewrite Hfa. apply Hn; [done|]. intros k Hkl.
      destruct (held_by k j a) eqn:Hka; [|done].
      apply held_by_worker in Hh, Hka. congruence.
  - intros c x Hx Hne. rewrite Hfc, Hc, Hx. simpl. case_match eqn:He; [|done].
    apply existsb_exists in He as (k & _ & Hr). apply bool_decide_eq_true in Hr. naive_solver.
Qed.

(** One retried job whose stage is a text that is none stops the
    scheduler: when a tick comes to it, and its run may be dispatched, the
    tick fails and is rolled back as a whole, with every job it had leased
    and carried out before, of whatever workspace. *)
Theorem retry_stalls_scheduler before job after j w w0 w1 :
  poll_and_lease scheduler_batch_size w = (Ok (before ++ job :: after), w0) →
  for_each before process_leased_job w0 = (Ok tt, w1) →
  w_jobs w1 !! job = Some j → misnamed j →
  dispatch_blocked (job_workspace_id j) (job_ref_id j) w1 = (Ok None, w1) →
  scheduler_tick w = (Raise (DataError (job_ref_table j)), w).
Proof.
  intros Hp Hpre Hj [Ht Hn] Hb. unfold scheduler_tick, transaction, savepoint.
  rewrite (run_bind_ok _ _ _ _ _ Hp).
  assert (Hx : ∃ w2, process_leased_job job w1 = (Raise (DataError (job_ref_table j)), w2)).
  { unfold process_leased_job. erewrite run_bind_ok by (by rewrite run_the, Hj).
    assert (Hx : ∃ w2, process_stage_job job j w1 = (Raise (DataError (job_ref_table j)), w2));
      [|by destruct Ht as [-> | ->]].
    unfold process_stage_job, dispatch_named. rewrite Hn.
    destruct (blocked_after_uuid (job_correlation_id j) (job_workspace_id j) (job_ref_id j) w1)
      as (c & w2 & Hc & Hd).
    rewrite (run_bind_ok _ _ _ _ _ Hc). rewrite Hb in Hd. rewrite !run_bind, Hd. by eexists. }
  destruct Hx as [w2 Hx]. by rewrite run_bind, (for_each_app _ _ _ _ _ _ _ _ Hpre Hx).
Qed.
End Theorems.

(** ** The demo deployment *)

(** the worker of the demo, pinned to its workspace *)
Definition demo_pinned : World :=
demo_dispatched <| w_workers ::= alter (λ r, r <| wrk_workspace_id := Some 1%positive |>) 40%positive |>.

Lemma emergency_stop_stops_witness :
  ∃ r w', (1 ≤ assignment_reaper_batch_size)%nat ∧ emergency_stop 1 7 demo_pinned = (Ok r, w') ∧
    qa_affected r = 1 ∧ held_by 40 1007 <$> w_assignments demo_pinned !! 1007%positive = Some true ∧
    stopped 1 40 w'.
Proof.
  assert (Hk : (1 ≤ assignment_reaper_batch_size)%nat) by (simpl; lia).
  pose proof (emergency_stop_stops 1 7 demo_pinned Hk) as Hs.
  destruct (passes_some (pinned_to 1 40) (w_workers demo_pinned !! 40%positive)) as (wk & Hwk & Hp);
    [by vm_compute|].
  assert (Hr : match (emergency_stop 1 7 demo_pinned).1 with
    Ok r => bool_decide (qa_affected r = 1) | Raise _ => false end = true) by (by vm_compute).
  destruct (emergency_stop 1 7 demo_pinned) as [[r|e] w']; [|done].
  exists r, w'. split; [exact Hk|]. split; [done|]. split; [by apply bool_decide_eq_true in Hr|].
  split; [by vm_compute|]. exact (proj1 Hs 40%positive wk Hwk Hp).
Defined.

(** The draft fails for good, an administrator retries, the scheduler ticks. *)
Definition demo_retried : World :=
exec demo_hash [SchedulerTick; Ack demo_auth 1007; AdvanceClock (seconds 10);
  Submit demo_auth 1007 false None "bad input" None; RetryFailedJobs (λ _, t0) 1 7] demo.
Definition demo_leased : World := (poll_and_lease scheduler_batch_size demo_retried).2.
Definition demo_before : World := (process_leased_job 1019 demo_leased).2.

Lemma retry_stalls_scheduler_witness :
  ∃ j, w_jobs demo_before !! 1018%positive = Some j ∧ misnamed j ∧
    scheduler_tick demo_retried = (Raise (DataError (job_ref_table j)), demo_retried).
Proof.
  destruct (passes_some (λ j, bool_decide (job_type j = JOB_RETRY)
    && bool_decide (ContentStage_of_value (job_ref_table j) = None)
    && match dispatch_blocked (job_workspace_id j) (job_ref_id j) demo_before with
       | (Ok None, _) => true | _ => false end) (w_jobs demo_before !! 1018%positive))
    as (j & Hj & [[Ht%bool_decide_eq_true Hn%bool_decide_eq_true]%andb_true_iff Hb]%andb_true_iff);
    [by vm_compute|].
  assert (Hm : misnamed j) by (split; [by right|done]).
  exists j. split; [exact Hj|]. split; [exact Hm|].
  apply (retry_stalls_scheduler [1019%positive] 1018 [] j demo_retried demo_leased demo_before).
  - unfold demo_leased. by vm_compute.
  - by vm_compute.
  - exact Hj.
  - exact Hm.
  - rewrite blocked_reads in Hb |- *. by destruct (_.1) as [[]|].
Defined.
