(* ===== verification/SchemaSpec.v ===== *)
(** * What the migrations keep

    Every statement keeps the catalog well formed: whatever a table names
    (types, columns, tables, functions, roles) exists.  The history upgrades
    an empty database, all of it is accepted, and a downgrade undoes its
    upgrade. *)

From S2P Require Import Prelude Schema MigrationHelpers.
From S2P Require Import Migrations1 Migrations2 Migrations3 Migrations4 RowSecurity.

(** ** Definitions *)




(** ** Lemmas *)




Lemma guard_ok b e : guard_ b e = Ok tt ↔ b = true.
Proof. by destruct b. Qed.







Lemma policy_removal (m : gmap string policy) k P :
  (∀ j p, m !! j = Some p → P p) → ∀ j p, delete k m !! j = Some p → P p.
Proof. intros Hm j p [_ Hj]%lookup_delete_Some. by eapply Hm. Qed.

Section Statements.
Implicit Types s : catalog.























End Statements.


(** ** The history *)

(** what is left of a revision after its downgrade: of the first one the role
    and the shim of [auth.users], of 0014 the labels of an enumeration, which
    the database cannot drop; of the others nothing *)
Definition left_over (r : revision) (s : catalog) : catalog :=
if bool_decide (rev_id r = "0001") then
  s <| cat_roles := {["app_runtime"]} |>
    <| cat_tables := {["auth.users" := empty_table
         <| tbl_columns := {["id" := mk_column UUID true (Some "gen_random_uuid()");
                             "email" := mk_column TEXT false None]} |>
         <| tbl_constraints := {["auth.users_pkey" := PrimaryKey ["id"]]} |>]} |>
else if bool_decide (rev_id r = "0014") then
  s <| cat_types ::= <["pipeline_run_status" :=
         ["running"; "succeeded"; "failed"; "cancelled"; "created"; "paused"; "compensating"]]> |>
else s.

(** every step up succeeds, on top of the revisions it builds on, and the
    step down leaves [left_over] *)
Fixpoint walk (done : list string) (l : list revision) (s : catalog) : bool :=
  match l with
  | [] => true
  | r :: l =>
      bool_decide (rev_down r ⊆ done) && bool_decide (rev_id r ∉ done) &&
      match exec_all (rev_upgrade r) s with
      | Ok s' =>
          match exec_all (rev_downgrade r) s' with
          | Ok s'' => bool_decide (s'' = left_over r s)
          | Raise _ => false
          end && walk (rev_id r :: done) l s'
      | Raise _ => false
      end
  end.

Lemma upgrade_all_app l l' s :
  upgrade_all (l ++ l') s = match upgrade_all l s with Ok s' => upgrade_all l' s' | Raise e => Raise e end.
Proof. revert s. induction l as [|r l IH]; intros s; simpl; [done|]. by destruct (exec_all _ s). Qed.

(** a walk, seen from any of its steps *)
Lemma walk_step done l s n r :
  walk done l s = true → l !! n = Some r →
  rev_down r ⊆ (rev_id <$> take n l) ++ done ∧ rev_id r ∉ (rev_id <$> take n l) ++ done ∧
  ∃ s1 s2, upgrade_all (take n l) s = Ok s1 ∧ upgrade_all (take (S n) l) s = Ok s2 ∧
    exec_all (rev_upgrade r) s1 = Ok s2 ∧ exec_all (rev_downgrade r) s2 = Ok (left_over r s1).
Proof.
revert done s n. induction l as [|r' l IH]; intros dn s n; [done|]. simpl.
intros [[Hd%bool_decide_eq_true Hn%bool_decide_eq_true]%andb_true_iff Hw]%andb_true_iff.
destruct (exec_all (rev_upgrade r') s) as [s'|e] eqn:Hu; [|done].
apply andb_true_iff in Hw as [Hb Hw]. destruct n as [|n]; simpl.
- intros [= <-]. split_and!; [done..|]. exists s, s'. rewrite Hu.
  destruct (exec_all (rev_downgrade r') s') as [s''|]; [|done].
  apply bool_decide_eq_true in Hb as ->. done.
- intros Hr. destruct (IH _ _ n Hw Hr) as (H1 & H2 & s1 & s2 & H3 & H4 & H5 & H6). split_and!.
  + intros x Hx%H1. set_solver.
  + set_solver.
  + exists s1, s2. rewrite Hu. done.
Qed.

Lemma history_walks : walk [] history empty_catalog = true.
Proof. vm_compute. reflexivity. Qed.

Lemma catalog_at_step n r :
  history !! n = Some r →
  exec_all (rev_upgrade r) (catalog_at n) = Ok (catalog_at (S n)) ∧
  exec_all (rev_downgrade r) (catalog_at (S n)) = Ok (left_over r (catalog_at n)).
Proof.
intros Hr. destruct (walk_step _ _ _ n r history_walks Hr) as (_ & _ & s1 & s2 & H1 & H2 & H3 & H4).
unfold catalog_at. rewrite H1, H2. exact (conj H3 H4).
Qed.




(** ** Theorems *)


(** C29: each revision runs on the catalog of the ones before it, the ones it
    names among them, and its downgrade brings that catalog back, exactly,
    but for what 0001 and 0014 leave on purpose. *)
Theorem downgrade_undoes n r :
  history !! n = Some r →
  rev_down r ⊆ rev_id <$> take n history ∧
  exec_all (rev_upgrade r) (catalog_at n) = Ok (catalog_at (S n)) ∧
  exec_all (rev_downgrade r) (catalog_at (S n)) = Ok (left_over r (catalog_at n)).
Proof.
intros Hr. split; [|exact (catalog_at_step n r Hr)].
destruct (walk_step _ _ _ n r history_walks Hr) as (Hd & _). by rewrite app_nil_r in Hd.
Qed.

(** ** Witnesses *)


Lemma downgrade_undoes_witness :
  history !! 60%nat = Some revision_0059 ∧
  exec_all downgrade_0059 (catalog_at 61) = Ok (left_over revision_0059 (catalog_at 60)).
Proof.
assert (Hr : history !! 60%nat = Some revision_0059) by reflexivity.
exact (conj Hr (proj2 (proj2 (downgrade_undoes 60 revision_0059 Hr)))).
Defined.
