(* ===== verification/RowSecuritySpec.v ===== *)
(** * Tenants are isolated by the database

    At the head of the migrations a request reads and writes only rows of
    workspaces its user is a member of.  The check is by reflection: the
    policies of every tenant table are tested by [guarded], whose soundness
    is proved once. *)

From S2P Require Import Prelude Schema MigrationHelpers.
From S2P Require Import Migrations1 Migrations2 Migrations3 Migrations4 RowSecurity.

(** ** Definitions *)

Section Definitions.
Context (db : database).

(** the user has a membership of the workspace, with one of some roles *)
Definition member (u ws : id) : Prop :=
∃ m, m ∈ db "workspace_memberships" ∧ m !! "workspace_id" = Some (VUuid ws) ∧
  m !! "user_id" = Some (VUuid u).
Definition member_as (roles : list string) (u ws : id) : Prop :=
∃ m role, m ∈ db "workspace_memberships" ∧ m !! "workspace_id" = Some (VUuid ws) ∧
  m !! "user_id" = Some (VUuid u) ∧ m !! "role" = Some (VText role) ∧ role ∈ roles.
Definition created (u ws : id) : Prop :=
∃ w, w ∈ db "workspaces" ∧ w !! "id" = Some (VUuid ws) ∧ w !! "created_by" = Some (VUuid u).

(** rows have the columns of their tables *)
Definition typed (s : catalog) : Prop :=
∀ n t r c, cat_tables s !! n = Some t → r ∈ db n → is_Some (r !! c) → is_Some (tbl_columns t !! c).

(** what a request reads, replaces or deletes is stored *)
Definition stored (n : string) (a : access) : Prop :=
match a with Reads r | Updates r _ | Deletes r => r ∈ db n | Inserts _ => True end.
End Definitions.

(** the column that names the workspace of a row *)
Definition key (n : string) : string := if bool_decide (n = "workspaces") then "id" else "workspace_id".

(** the access is to a row of the workspace *)
Definition concerns (n : string) (ws : id) (a : access) : Prop :=
match a with
| Reads r | Inserts r | Deletes r => r !! key n = Some (VUuid ws)
| Updates old new => old !! key n = Some (VUuid ws) ∨ new !! key n = Some (VUuid ws)
end.

(** the condition holds of no row of a workspace the user is not in *)
Fixpoint guarded (key : string) (q : sql) : bool :=
  match q with
  | SIsNull (Name c) => bool_decide (c = key)
  | SCall f [Name c; Roles _] =>
      bool_decide (f = "app_user_has_workspace_role") && bool_decide (c = key)
  | SCall f [Name c; CurrentUserId] =>
      (bool_decide (f = "is_workspace_member") || bool_decide (f = "is_workspace_admin"))
      && bool_decide (c = key)
  | SAnd p q => guarded key p || guarded key q
  | SOr p q => guarded key p && guarded key q
  | _ => false
  end.

(** the conditions the policies are built from *)
Definition membership_of (extra : sql → sql) : sql :=
SExists [("workspace_memberships", "workspace_memberships")]
  (SEq (Name "workspace_id") (Name "wsid") AND extra (SEq (Name "user_id") (Name "uid"))).
Definition member_body : sql := membership_of (λ q, q).
Definition admin_body : sql := membership_of (λ q, q AND SEq (Name "role") (Lit "admin")).
Definition creator_body : sql :=
SExists [("workspaces", "workspaces")] (SEq (Name "id") (Name "wsid") AND SEq (Name "created_by") (Name "uid")).
Definition role_body : sql :=
SExists [("workspace_memberships", "m")]
  (SEq (Qual "m" "workspace_id") (Name "p_workspace_id") AND
   SEq (Qual "m" "user_id") CurrentUserId AND SAny (Qual "m" "role") (Name "p_roles")).

Definition is_admin : sql := SCall "is_workspace_admin" [Name "workspace_id"; CurrentUserId].
Definition seeds_admin : sql :=
SEq (Name "user_id") CurrentUserId AND SEq (Name "role") (Lit "admin") AND
SCall "is_workspace_creator" [Name "workspace_id"; CurrentUserId] AND
SNot (SExists [("workspace_memberships", "existing")]
  (SEq (Qual "existing" "workspace_id") (Qual "workspace_memberships" "workspace_id"))).

(** the policies that let in who is not a member *)
Definition exempt : list (string * string * policy) :=
[("workspace_memberships", "memberships_insert",
  mk_policy (Some INSERT) None (Some (is_admin OR seeds_admin)));
 ("workspace_memberships", "memberships_delete",
  mk_policy (Some DELETE) (Some (is_admin OR SEq (Name "user_id") CurrentUserId)) None);
 ("workspaces", "workspaces_insert_any_authenticated",
  mk_policy (Some INSERT) None (Some (SEq (Name "created_by") CurrentUserId)))].

Definition tenant (n : string) (t : table) : bool :=
has (tbl_columns t) (key n) && bool_decide (tbl_grants t ≠ ∅).

Definition policy_ok (n k : string) (p : policy) : bool :=
forallb (guarded (key n)) (policy_exprs p) || bool_decide ((n, k, p) ∈ exempt).

(** a tenant table is under row security, and its policies are guarded *)
Definition tenant_ok (n : string) (t : table) : bool :=
negb (tenant n t) ||
(tbl_row_security t && tbl_force t &&
 bool_decide (map_Forall (λ k p, policy_ok n k p = true) (tbl_policies t))).

Definition functions_ok (s : catalog) : bool :=
bool_decide (cat_functions s !! "app_user_has_workspace_role" =
  Some (Condition ["p_workspace_id"; "p_roles"] false role_body)) &&
bool_decide (cat_functions s !! "is_workspace_member" = Some (Condition ["wsid"; "uid"] true member_body)) &&
bool_decide (cat_functions s !! "is_workspace_admin" = Some (Condition ["wsid"; "uid"] true admin_body)) &&
bool_decide (cat_functions s !! "is_workspace_creator" = Some (Condition ["wsid"; "uid"] true creator_body)).

(** the tables of the functions have no column named as a parameter *)
Definition params_free (s : catalog) : bool :=
forallb (λ n, match cat_tables s !! n with
              | Some t => forallb (λ c, negb (has (tbl_columns t) c)) ["p_workspace_id"; "p_roles"; "wsid"; "uid"]
              | None => false
              end) ["workspace_memberships"; "workspaces"].

Definition isolating (s : catalog) : bool :=
functions_ok s && params_free s && bool_decide (map_Forall (λ n t, tenant_ok n t = true) (cat_tables s)).

Lemma head_isolating : isolating head = true.
Proof. vm_compute. reflexivity. Qed.

(** ** Evaluation, when it holds *)

Lemma search_true {A} (f : A → option bool) l : search f l = Some true → ∃ a, a ∈ l ∧ f a = Some true.
Proof.
induction l as [|a l IH]; simpl; [done|]. destruct (f a) as [[]|] eqn:Ha; simpl; [|intros H|done].
- intros _. exists a. split; [left|done].
- destruct (search f l) as [b|]; [|done]. simpl in H.
  destruct (IH H) as (x & Hx & Hf). exists x. split; [by right|done].
Qed.

Lemma is_true3_inv (o : option truth) : is_true3 <$> o = Some true → o = Some (Some true).
Proof. destruct o as [t|]; [|done]. intros [= H]. unfold is_true3 in H. by apply bool_decide_eq_true in H as ->. Qed.

Lemma or3_true a b : or3 a b = Some true → a = Some true ∨ b = Some true.
Proof. destruct a as [[]|], b as [[]|]; simpl; naive_solver. Qed.
Lemma and3_true a b : and3 a b = Some true → a = Some true ∧ b = Some true.
Proof. destruct a as [[]|], b as [[]|]; simpl; naive_solver. Qed.
Lemma eq3_true a b : eq3 a b = Some true → a = b ∧ a ≠ VNull.
Proof.
destruct a, b; simpl; try done; intros [= H]; by apply bool_decide_eq_true in H as [= ->].
Qed.
Lemma any3_true a b : any3 a b = Some true → ∃ x l, a = VText x ∧ b = VRoles l ∧ x ∈ l.
Proof. destruct a, b; simpl; try done. intros [= H%bool_decide_eq_true]. by eexists _, _. Qed.

Section Truth.
Context (s : catalog) (db : database) (user : option id).
Abbreviation holds f o e q := (eval s db user f o e q = Some (Some true)).

Lemma holds_fuel f o e q : holds f o e q → ∃ f', f = S f'.
Proof. destruct f as [|f']; [done|]. by exists f'. Qed.

Lemma holds_eq f o e a b :
  holds f o e (SEq a b) → eval_term user e a = eval_term user e b ∧ eval_term user e a ≠ VNull.
Proof. intros H. destruct (holds_fuel _ _ _ _ H) as [f' ->]. injection H as H. by apply eq3_true. Qed.
Lemma holds_any f o e a b :
  holds f o e (SAny a b) → ∃ x l, eval_term user e a = VText x ∧ eval_term user e b = VRoles l ∧ x ∈ l.
Proof. intros H. destruct (holds_fuel _ _ _ _ H) as [f' ->]. injection H as H. by apply any3_true. Qed.
Lemma holds_null f o e a : holds f o e (SIsNull a) → eval_term user e a = VNull.
Proof.
  intros H. destruct (holds_fuel _ _ _ _ H) as [f' ->]. simpl in H. injection H as H.
  by apply bool_decide_eq_true in H.
Qed.
Lemma holds_and f o e p q : holds f o e (SAnd p q) → ∃ f', holds f' o e p ∧ holds f' o e q.
Proof.
  intros H. destruct (holds_fuel _ _ _ _ H) as [f' ->]. simpl in H. exists f'.
  destruct (eval _ _ _ f' o e p) as [a|]; [|done]. simpl in H.
  destruct (eval _ _ _ f' o e q) as [b|]; [|done]. simpl in H. injection H as H.
  by apply and3_true in H as [-> ->].
Qed.
Lemma holds_or f o e p q : holds f o e (SOr p q) → ∃ f', holds f' o e p ∨ holds f' o e q.
Proof.
  intros H. destruct (holds_fuel _ _ _ _ H) as [f' ->]. simpl in H. exists f'.
  destruct (eval _ _ _ f' o e p) as [a|]; [|done]. simpl in H.
  destruct (eval _ _ _ f' o e q) as [b|]; [|done]. simpl in H. injection H as H.
  apply or3_true in H as [-> | ->]; auto.
Qed.
Lemma holds_call f o e g args params definer b :
  cat_functions s !! g = Some (Condition params definer b) → holds f o e (SCall g args) →
  ∃ f', holds f' (o || definer) [(g, list_to_map (zip params (eval_term user e <$> args)))] b.
Proof.
  intros Hg H. destruct (holds_fuel _ _ _ _ H) as [f' ->]. simpl in H. rewrite Hg in H. by exists f'.
Qed.
Lemma holds_exists f o e n a q :
  holds f o e (SExists [(n, a)] q) → ∃ r f', r ∈ db n ∧ holds f' o ((a, r) :: e) q.
Proof.
  intros H. destruct (holds_fuel _ _ _ _ H) as [f' ->]. simpl in H.
  destruct (search _ (db n)) as [b|] eqn:Hs; [|done]. injection H as ->.
  apply search_true in Hs as (r & Hr & Hs). exists r, f'. split; [done|].
  destruct (if o then _ else _) as [[]|]; try done. simpl in Hs. by apply is_true3_inv in Hs.
Qed.
End Truth.

(** ** The functions of the policies *)

(** a value a row has under its own name *)
Lemma lookup_name_here a r e c :
  is_Some (r !! c) → lookup_name ((a, r) :: e) c = default VNull (r !! c).
Proof. intros Hc. unfold lookup_name. simpl. by rewrite decide_True. Qed.
Lemma lookup_name_skip a r e c : r !! c = None → lookup_name ((a, r) :: e) c = lookup_name e c.
Proof.
  intros Hc. unfold lookup_name. simpl. rewrite decide_False by (rewrite Hc; by intros []).
  by destruct (list_find _ e) as [[]|].
Qed.
Lemma name_value a r e c :
  lookup_name ((a, r) :: e) c ≠ VNull → lookup_name e c = VNull →
  r !! c = Some (lookup_name ((a, r) :: e) c).
Proof.
  destruct (r !! c) as [v|] eqn:Hc; [|by rewrite lookup_name_skip].
  rewrite lookup_name_here by (by rewrite Hc). by rewrite Hc.
Qed.

Lemma qual_value a r e k :
  lookup_qual ((a, r) :: e) a k ≠ VNull → r !! k = Some (lookup_qual ((a, r) :: e) a k).
Proof.
  unfold lookup_qual. simpl. rewrite decide_True by done. simpl. by destruct (r !! k).
Qed.

Definition args2 (v w : value) : row := list_to_map (zip ["wsid"; "uid"] [v; w]).
Lemma args2_values g v w :
  lookup_name [(g, args2 v w)] "wsid" = v ∧ lookup_name [(g, args2 v w)] "uid" = w ∧
  ∀ c, c ∉ ["wsid"; "uid"] → lookup_name [(g, args2 v w)] c = VNull.
Proof.
  split_and!; [done..|]. intros c Hc. unfold lookup_name. simpl. rewrite decide_False; [done|].
  unfold args2. simpl. rewrite lookup_insert_ne, lookup_insert_ne, lookup_empty; [by intros []|set_solver..].
Qed.

Section Functions.
Context (s : catalog) (db : database) (user : option id).
Context (Hs : isolating s = true) (Ht : typed db s).

Lemma params_absent n c :
  n = "workspace_memberships" ∨ n = "workspaces" →
  c ∈ ["p_workspace_id"; "p_roles"; "wsid"; "uid"] → ∀ r, r ∈ db n → r !! c = None.
Proof using Hs Ht.
  intros Hn Hc r Hr. unfold isolating in Hs. apply andb_true_iff in Hs as [[_ Hp]%andb_true_iff _].
  unfold params_free in Hp. rewrite forallb_forall in Hp.
  specialize (Hp n ltac:(destruct Hn as [-> | ->]; simpl; auto)).
  destruct (cat_tables s !! n) as [t|] eqn:Hnt; [|done]. rewrite forallb_forall in Hp.
  specialize (Hp c ltac:(by apply list_elem_of_In)). destruct (r !! c) as [v|] eqn:Hrc; [|done]. exfalso.
  destruct (Ht n t r c Hnt Hr ltac:(by exists v)) as [x Hx]. unfold has in Hp. rewrite Hx in Hp. done.
Qed.

(** a membership found by its two columns *)
Lemma membership_found f o g v w p q :
  (∀ f' e, eval s db user f' o e q = Some (Some true) →
     ∃ f'', eval s db user f'' o e (SEq (Name "user_id") (Name "uid")) = Some (Some true)) →
  p = SExists [("workspace_memberships", "workspace_memberships")]
        (SEq (Name "workspace_id") (Name "wsid") AND q) →
  eval s db user f o [(g, args2 v w)] p = Some (Some true) →
  ∃ m, m ∈ db "workspace_memberships" ∧ m !! "workspace_id" = Some v ∧ m !! "user_id" = Some w ∧ w ≠ VNull.
Proof using Hs Ht.
  intros Hq -> (m & f1 & Hm & (f2 & Hws & (f3 & Hu)%Hq)%holds_and)%holds_exists.
  apply holds_eq in Hws as [Hws Hws'], Hu as [Hu Hu']. simpl in *.
  destruct (args2_values g v w) as (Hv & Hw & Hno).
  rewrite (lookup_name_skip _ m _ "wsid") in Hws by (apply (params_absent "workspace_memberships"); set_solver).
  rewrite (lookup_name_skip _ m _ "uid") in Hu by (apply (params_absent "workspace_memberships"); set_solver).
  rewrite Hv in Hws. rewrite Hw in Hu. exists m. split; [done|].
  split_and!; [rewrite <- Hws|rewrite <- Hu|by rewrite <- Hu]; apply name_value; try done;
    apply Hno; set_solver.
Qed.

Lemma functions_at_head :
  cat_functions s !! "app_user_has_workspace_role" = Some (Condition ["p_workspace_id"; "p_roles"] false role_body) ∧
  cat_functions s !! "is_workspace_member" = Some (Condition ["wsid"; "uid"] true member_body) ∧
  cat_functions s !! "is_workspace_admin" = Some (Condition ["wsid"; "uid"] true admin_body) ∧
  cat_functions s !! "is_workspace_creator" = Some (Condition ["wsid"; "uid"] true creator_body).
Proof using Hs.
  unfold isolating, functions_ok in Hs. rewrite !andb_true_iff, !bool_decide_eq_true in Hs. tauto.
Qed.

(** a row that names its workspace *)
Section Row.
Context (n c : string) (r : row) (ws : id) (Hr : r !! c = Some (VUuid ws)).

Lemma row_name : lookup_name [(n, r)] c = VUuid ws.
Proof using Hr. rewrite lookup_name_here by (by rewrite Hr). by rewrite Hr. Qed.

Lemma member_call f g :
  g = "is_workspace_member" ∨ g = "is_workspace_admin" →
  eval s db user f false [(n, r)] (SCall g [Name c; CurrentUserId]) = Some (Some true) →
  ∃ u, user = Some u ∧ member db u ws.
Proof using Hs Ht Hr.
  intros Hg H. destruct functions_at_head as (_ & Hm & Ha & _).
  assert (Hf : ∃ f' q p, eval s db user f' true [(g, args2 (VUuid ws) (eval_term user [] CurrentUserId))] p
      = Some (Some true) ∧ p = SExists [("workspace_memberships", "workspace_memberships")]
        (SEq (Name "workspace_id") (Name "wsid") AND q) ∧
      (∀ f' e, eval s db user f' true e q = Some (Some true) →
       ∃ f'', eval s db user f'' true e (SEq (Name "user_id") (Name "uid")) = Some (Some true))).
  { destruct Hg as [-> | ->]; eapply holds_call in H as [f' H]; [|exact Hm| |exact Ha];
      simpl in H; rewrite row_name in H; exists f'; eexists _, _; (split; [exact H|]);
      (split; [reflexivity|]).
    - eauto.
    - intros f1 e (f2 & Hu & _)%holds_and. eauto. }
  destruct Hf as (f' & q & p & Hf & Hp & Hq).
  destruct (membership_found _ _ _ _ _ _ _ Hq Hp Hf) as (m & Hm' & Hw & Hu & Hnn). simpl in Hu, Hnn.
  destruct user as [u|]; [|done]. exists u. split; [done|]. by exists m.
Qed.

Lemma role_call f roles :
  eval s db user f false [(n, r)] (SCall "app_user_has_workspace_role" [Name c; Roles roles]) = Some (Some true) →
  ∃ u, user = Some u ∧ member_as db roles u ws.
Proof using Hs Ht Hr.
  intros H. destruct functions_at_head as (Hf & _).
  eapply holds_call in H as [f1 H]; [|exact Hf].
  apply holds_exists in H as (m & f2 & Hm & (f3 & Hw & (f4 & Hu & Ha)%holds_and)%holds_and).
  apply holds_eq in Hw as [Hw Hwn], Hu as [Hu Hun]. apply holds_any in Ha as (x & l & Hx & Hl & Hin).
  simpl in Hw, Hwn, Hu, Hun, Hx, Hl. rewrite row_name in Hw, Hwn, Hu, Hun, Hx, Hl.
  rewrite lookup_name_skip in Hw by (apply (params_absent "workspace_memberships"); set_solver).
  rewrite lookup_name_skip in Hl by (apply (params_absent "workspace_memberships"); set_solver).
  change (VRoles roles = VRoles l) in Hl. injection Hl as <-.
  destruct user as [u|]; [|exfalso; apply Hun; exact Hu]. apply qual_value in Hwn, Hun.
  assert (Hx' : m !! "role" = Some (VText x)) by (rewrite <- Hx; apply qual_value; by rewrite Hx).
  assert (Hwm : m !! "workspace_id" = Some (VUuid ws)) by (rewrite Hwn; f_equal; exact Hw).
  assert (Hum : m !! "user_id" = Some (VUuid u)) by (rewrite Hun; f_equal; exact Hu).
  exists u. split; [done|]. by exists m, x.
Qed.

Lemma guarded_member f q :
  guarded c q = true → eval s db user f false [(n, r)] q = Some (Some true) →
  ∃ u, user = Some u ∧ member db u ws.
Proof using Hs Ht Hr.
  revert f. induction q as [| |a| |p IHp p' IHp'|p IHp p' IHp'| |g args|]; simpl; intros f Hg H; try done.
  - destruct a as [k| | | |]; try done. apply bool_decide_eq_true in Hg as ->.
    apply holds_null in H. simpl in H. by rewrite row_name in H.
  - apply holds_and in H as (f' & H1 & H2). apply orb_true_iff in Hg as [Hg|Hg]; eauto.
  - apply andb_true_iff in Hg as [Hg Hg']. apply holds_or in H as (f' & [H|H]); eauto.
  - destruct args as [|[k| | | |] [|a [|b args]]]; try done; [|by destruct a].
    destruct a as [| | |roles|]; try done.
    + apply andb_true_iff in Hg as [->%bool_decide_eq_true ->%bool_decide_eq_true].
      destruct (role_call _ _ H) as (u & Hu & m & x & Hm & Hw & Hx & _). exists u. split; [done|].
      by exists m.
    + apply andb_true_iff in Hg as [Hg ->%bool_decide_eq_true]. apply (member_call f g); [|done].
      apply orb_true_iff in Hg as [Hg|Hg]; apply bool_decide_eq_true in Hg; auto.
Qed.

Lemma creator_call f :
  eval s db user f false [(n, r)] (SCall "is_workspace_creator" [Name c; CurrentUserId]) = Some (Some true) →
  ∃ u, user = Some u ∧ created db u ws.
Proof using Hs Ht Hr.
  intros H. destruct functions_at_head as (_ & _ & _ & Hf).
  eapply holds_call in H as [f1 H]; [|exact Hf].
  change (list_to_map (zip ["wsid"; "uid"] (eval_term user [(n, r)] <$> [Name c; CurrentUserId])))
    with (args2 (lookup_name [(n, r)] c) (eval_term user [] CurrentUserId)) in H.
  rewrite row_name in H. destruct (args2_values "is_workspace_creator" (VUuid ws) (eval_term user [] CurrentUserId))
    as (Hv & Hw & Hno).
  apply holds_exists in H as (w & f2 & Hin & (f3 & H1 & H2)%holds_and).
  apply holds_eq in H1 as [H1 H1'], H2 as [H2 H2'].
  change (eval_term user ?e (Name ?k)) with (lookup_name e k) in *.
  rewrite (lookup_name_skip _ w _ "wsid"), Hv in H1 by (apply (params_absent "workspaces"); set_solver).
  rewrite (lookup_name_skip _ w _ "uid"), Hw in H2 by (apply (params_absent "workspaces"); set_solver).
  rewrite H2 in H2'. destruct user as [u|]; [|done]. exists u. split; [done|]. exists w.
  split; [done|]. change (eval_term (Some u) [] CurrentUserId) with (VUuid u) in H2.
  rewrite <- H1, <- H2. split; apply name_value; try (by rewrite ?H1, ?H2); apply Hno; set_solver.
Qed.
End Row.

(** ** Accesses *)

(** an insertion that the creator of the workspace may make *)
Definition by_creator (n : string) (u ws : id) (a : access) : Prop :=
∃ r, a = Inserts r ∧
  ((n = "workspace_memberships" ∧ created db u ws ∧ r !! "user_id" = Some (VUuid u)) ∨
   (n = "workspaces" ∧ r !! "created_by" = Some (VUuid u))).

Lemma passes_inv fuel clause cmd n t r :
  passes_some s db user fuel clause cmd n t r = Some true →
  ∃ k p q, tbl_policies t !! k = Some p ∧ applies cmd p = true ∧ clause p = Some q ∧
    eval s db user fuel false [(n, r)] q = Some (Some true).
Proof.
  intros (p & Hp & Hq)%search_true. apply list_elem_of_filter in Hp as [Ha Hp].
  apply list_elem_of_fmap in Hp as ([k p'] & -> & Hk%elem_of_map_to_list). simpl in *.
  destruct (clause p') as [q|] eqn:Hcl; [|done]. apply is_true3_inv in Hq. by exists k, p', q.
Qed.

Lemma own_column n r c e :
  eval s db user e false [(n, r)] (SEq (Name c) CurrentUserId) = Some (Some true) →
  ∃ u, user = Some u ∧ r !! c = Some (VUuid u).
Proof.
  intros [H1 H2]%holds_eq. change (eval_term user ?e (Name ?k)) with (lookup_name e k) in *.
  destruct user as [u|]; [|exfalso; apply H2; exact H1]. exists u. split; [done|].
  change (lookup_name [(n, r)] c = VUuid u) in H1. rewrite <- H1. by apply name_value.
Qed.

(** a policy that lets a row of the workspace through *)
Lemma policy_member n k p q r ws fuel cmd :
  policy_ok n k p = true → q ∈ policy_exprs p → applies cmd p = true → r !! key n = Some (VUuid ws) →
  (cmd = DELETE → r ∈ db n) → eval s db user fuel false [(n, r)] q = Some (Some true) →
  ∃ u, user = Some u ∧ (member db u ws ∨ cmd = INSERT ∧ by_creator n u ws (Inserts r)).
Proof using Hs Ht.
  intros Hok Hq Ha Hr Hst Hev. unfold policy_ok in Hok. apply orb_true_iff in Hok as [Hg|Hex].
  { rewrite forallb_forall in Hg. specialize (Hg q ltac:(by apply list_elem_of_In)).
    destruct (guarded_member n (key n) r ws Hr fuel q Hg Hev) as (u & Hu & Hm). exists u. auto. }
  apply bool_decide_eq_true in Hex. unfold exempt in Hex.
  apply elem_of_cons in Hex as [[= -> -> ->]|[[= -> -> ->]|[[= -> -> ->]|Hn%not_elem_of_nil]%elem_of_cons]%elem_of_cons];
    [| | |done]; apply bool_decide_eq_true in Ha as <-; apply list_elem_of_singleton in Hq as ->.
  - change (key "workspace_memberships") with "workspace_id" in Hr.
    apply holds_or in Hev as (f & [Hev|Hev]).
    + destruct (member_call _ _ r ws Hr f "is_workspace_admin" ltac:(by right) Hev) as (u & Hu & Hm).
      exists u. auto.
    + apply holds_and in Hev as (f1 & H1 & (f2 & _ & (f3 & Hc & _)%holds_and)%holds_and).
      destruct (own_column _ _ _ _ H1) as (u & Hu & Hur).
      destruct (creator_call _ _ r ws Hr _ Hc) as (u' & Hu' & Hcr).
      assert (u' = u) as -> by congruence. exists u. split; [done|]. right. split; [done|].
      exists r. split; [done|]. by left.
  - change (key "workspace_memberships") with "workspace_id" in Hr.
    apply holds_or in Hev as (f & [Hev|Hev]).
    + destruct (member_call _ _ r ws Hr f "is_workspace_admin" ltac:(by right) Hev) as (u & Hu & Hm).
      exists u. auto.
    + destruct (own_column _ _ _ _ Hev) as (u & Hu & Hur). exists u. split; [done|]. left.
      exists r. by split; [apply Hst|].
  - destruct (own_column _ _ _ _ Hev) as (u & Hu & Hur). exists u. split; [done|]. right.
    split; [done|]. exists r. split; [done|]. by right.
Qed.

Lemma passes_member n t r ws fuel clause cmd :
  cat_tables s !! n = Some t → tenant n t = true → r !! key n = Some (VUuid ws) →
  (clause = pol_using ∨ clause = check_clause) → (cmd = DELETE → r ∈ db n) →
  passes_some s db user fuel clause cmd n t r = Some true →
  ∃ u, user = Some u ∧ (member db u ws ∨ cmd = INSERT ∧ by_creator n u ws (Inserts r)).
Proof using Hs Ht.
  intros Hn Hten Hr Hcl Hst (k & p & q & Hp & Ha & Hq & Hev)%passes_inv.
  assert (Hok : policy_ok n k p = true).
  { unfold isolating in Hs. apply andb_true_iff in Hs as [_ Hall%bool_decide_eq_true].
    specialize (Hall n t Hn). cbv beta in Hall. unfold tenant_ok in Hall. rewrite Hten in Hall.
    simpl in Hall. apply andb_true_iff in Hall as [_ Hpol%bool_decide_eq_true]. by apply Hpol in Hp. }
  eapply policy_member; [exact Hok| |exact Ha|exact Hr|exact Hst|exact Hev].
  unfold policy_exprs. destruct Hcl as [-> | ->]; [by rewrite Hq; left|].
  unfold check_clause in Hq. apply elem_of_app.
  destruct (pol_check p) as [q'|]; [injection Hq as ->; right|left; rewrite Hq]; by left.
Qed.

Lemma access_member fuel n t a ws :
  cat_tables s !! n = Some t → has (tbl_columns t) (key n) = true → concerns n ws a →
  stored db n a → allowed s db user fuel n a = Some true →
  ∃ u, user = Some u ∧ (member db u ws ∨ by_creator n u ws a).
Proof using Hs Ht.
  intros Hn Hcol Hc Hst. unfold allowed. rewrite Hn.
  destruct (granted _ t && _) eqn:Hg; [|done]. apply andb_true_iff in Hg as [Hg _].
  assert (Hten : tenant n t = true).
  { unfold tenant. rewrite Hcol. apply bool_decide_eq_true. intros He. unfold granted in Hg.
    by rewrite He, elements_empty in Hg. }
  assert (Hrls : tbl_row_security t = true).
  { unfold isolating in Hs. apply andb_true_iff in Hs as [_ Hall%bool_decide_eq_true].
    specialize (Hall n t Hn). cbv beta in Hall. unfold tenant_ok in Hall. rewrite Hten in Hall.
    simpl in Hall. by do 2 apply andb_true_iff in Hall as [Hall _]. }
  rewrite Hrls. destruct a as [r|r|old new|r]; simpl in *; intros Hp.
  - apply passes_member with (r := r) (ws := ws) in Hp as (u & Hu & [Hm|[? _]]); eauto. done.
  - apply passes_member with (r := r) (ws := ws) in Hp as (u & Hu & [Hm|[_ Hm]]); eauto. done.
  - destruct (passes_some _ _ _ _ pol_using _ _ _ _) as [[]|] eqn:H1; simpl in Hp; try done.
    2: by destruct (passes_some _ _ _ _ check_clause _ _ _ _).
    destruct (passes_some _ _ _ _ check_clause _ _ _ _) as [b|] eqn:H2; simpl in Hp; [|done].
    injection Hp as ->. destruct Hc as [Hc|Hc].
    + apply passes_member with (r := old) (ws := ws) in H1 as (u & Hu & [Hm|[? _]]); eauto; done.
    + apply passes_member with (r := new) (ws := ws) in H2 as (u & Hu & [Hm|[? _]]); eauto; done.
  - apply passes_member with (r := r) (ws := ws) in Hp as (u & Hu & [Hm|[? _]]); eauto. done.
Qed.
End Functions.

(** ** Termination *)

Section Enough.
Context (s : catalog).

(** the fuel is enough for the expression, whatever the rows *)
Fixpoint enough (fuel : nat) (owner : bool) (q : sql) {struct fuel} : bool :=
match fuel with
| O => false
| S fuel =>
    match q with
    | SEq _ _ | SAny _ _ | SIsNull _ | SNotNull _ => true
    | SAnd p q | SOr p q => enough fuel owner p && enough fuel owner q
    | SNot p => enough fuel owner p
    | SCall f _ =>
        match cat_functions s !! f with
        | Some (Condition _ definer body) => enough fuel (owner || definer) body
        | _ => false
        end
    | SExists from p =>
        enough fuel owner p && (owner || forallb (λ x, enough_visible fuel x.1) from)
    end
end
with enough_visible (fuel : nat) (n : string) {struct fuel} : bool :=
match fuel with
| O => false
| S fuel =>
    match cat_tables s !! n with
    | None => false
    | Some t =>
        negb (tbl_row_security t) ||
        forallb (λ p, match pol_using p with Some q => enough fuel false q | None => true end)
          (policies_for SELECT t)
    end
end.

Lemma search_total {A} (f : A → option bool) l :
  (∀ a, a ∈ l → is_Some (f a)) → is_Some (search f l).
Proof.
  induction l as [|a l IH]; intros Hf; [by eexists|]. simpl.
  destruct (Hf a ltac:(left)) as [b ->]. simpl. destruct IH as [c ->]; [|by eexists].
  intros x Hx. apply Hf. by right.
Qed.

Context (db : database) (user : option id).

Lemma enough_total fuel :
  (∀ o e q, enough fuel o q = true → is_Some (eval s db user fuel o e q)) ∧
  (∀ n r, enough_visible fuel n = true → is_Some (visible s db user fuel n r)).
Proof.
  induction fuel as [|fuel [IHe IHv]]; [done|]. split.
  - intros o e [a b|a b|a|a|p q|p q|p|f args|from p]; simpl; try (intros _; by eexists).
    + intros [Hp Hq]%andb_true_iff. destruct (IHe o e p Hp) as [x ->], (IHe o e q Hq) as [y ->]. by eexists.
    + intros [Hp Hq]%andb_true_iff. destruct (IHe o e p Hp) as [x ->], (IHe o e q Hq) as [y ->]. by eexists.
    + intros Hp. destruct (IHe o e p Hp) as [x ->]. by eexists.
    + destruct (cat_functions s !! f) as [[]|]; try done. apply IHe.
    + intros [Hp Hv]%andb_true_iff. apply fmap_is_Some.
      assert (Hfrom : o = true ∨ forallb (λ x, enough_visible fuel x.1) from = true).
      { apply orb_true_iff in Hv as [?|?]; auto. }
      clear Hv. revert e. induction from as [|[n a] from IH]; intros e.
      * apply fmap_is_Some. by apply IHe.
      * apply search_total. intros r _.
        assert (Hv : is_Some (if o then Some true else visible s db user fuel n r)).
        { destruct o; [by eexists|]. destruct Hfrom as [?|Hf]; [done|].
          simpl in Hf. apply andb_true_iff in Hf as [Hf _]. by apply IHv. }
        destruct Hv as [[] ->]; simpl; [|by eexists]. apply IH.
        destruct Hfrom as [?|Hf]; [by left|]. right. simpl in Hf. by apply andb_true_iff in Hf as [_ ?].
  - intros n r. simpl. destruct (cat_tables s !! n) as [t|]; [|done].
    destruct (tbl_row_security t); [|by eexists]. simpl. intros Hall. apply search_total.
    intros p Hp. rewrite forallb_forall in Hall. specialize (Hall p ltac:(by apply list_elem_of_In)).
    destruct (pol_using p) as [q|]; [|by eexists]. apply fmap_is_Some. by apply IHe.
Qed.

Lemma enough_more fuel :
  (∀ o q, enough fuel o q = true → enough (S fuel) o q = true) ∧
  (∀ n, enough_visible fuel n = true → enough_visible (S fuel) n = true).
Proof.
  induction fuel as [|fuel [IHe IHv]]; [done|]. split.
  - intros o [a b|a b|a|a|p q|p q|p|f args|from p] H; try done.
    + apply andb_true_iff in H as [Hp Hq]. apply andb_true_iff. by split; apply IHe.
    + apply andb_true_iff in H as [Hp Hq]. apply andb_true_iff. by split; apply IHe.
    + by apply IHe.
    + simpl in H. change (match cat_functions s !! f with
        | Some (Condition _ definer body) => enough (S fuel) (o || definer) body
        | _ => false end = true). destruct (cat_functions s !! f) as [[]|]; try done. by apply IHe.
    + apply andb_true_iff in H as [Hp Hf]. apply andb_true_iff. split; [by apply IHe|].
      apply orb_true_iff in Hf as [->|Hf]; [done|]. apply orb_true_iff. right.
      rewrite forallb_forall in *. intros x Hx. apply IHv. by apply Hf.
  - intros n H. simpl in H. change (match cat_tables s !! n with
      | None => false
      | Some t => negb (tbl_row_security t) ||
          forallb (λ p, match pol_using p with Some q => enough (S fuel) false q | None => true end)
            (policies_for SELECT t) end = true).
    destruct (cat_tables s !! n) as [t|]; [|done]. apply orb_true_iff in H as [->|H]; [done|].
    apply orb_true_iff. right. rewrite forallb_forall in *. intros p Hp. specialize (H p Hp).
    destruct (pol_using p); [by apply IHe|done].
Qed.

Lemma search_more {A} (f g : A → option bool) l b :
  (∀ a c, a ∈ l → f a = Some c → g a = Some c) → search f l = Some b → search g l = Some b.
Proof.
  revert b. induction l as [|a l IH]; intros b Hfg; [done|]. simpl.
  destruct (f a) as [x|] eqn:Hf; [|done]. rewrite (Hfg a x ltac:(left) Hf). simpl.
  destruct (search f l) as [y|]; [|done]. simpl. intros [= <-]. rewrite (IH y); [done| |done].
  intros z c Hz. apply Hfg. by right.
Qed.

Lemma fmap_more {A B} (h : A → B) (x y : option A) b :
  (∀ c, x = Some c → y = Some c) → h <$> x = Some b → h <$> y = Some b.
Proof. intros Hxy. destruct x as [c|]; [|done]. by rewrite (Hxy c). Qed.

Abbreviation ev := (eval s db user).
Lemma eval_and f o e p q :
  ev (S f) o e (SAnd p q) = (a ← ev f o e p; b ← ev f o e q; Some (and3 a b)).
Proof. reflexivity. Qed.
Lemma eval_or f o e p q :
  ev (S f) o e (SOr p q) = (a ← ev f o e p; b ← ev f o e q; Some (or3 a b)).
Proof. reflexivity. Qed.
Lemma eval_not f o e p : ev (S f) o e (SNot p) = (a ← ev f o e p; Some (not3 a)).
Proof. reflexivity. Qed.
Lemma eval_call f o e g args :
  ev (S f) o e (SCall g args) =
  match cat_functions s !! g with
  | Some (Condition params definer body) =>
      ev f (o || definer) [(g, list_to_map (zip params (eval_term user e <$> args)))] body
  | _ => None
  end.
Proof. reflexivity. Qed.
Lemma eval_exists_nil f o e p :
  ev (S f) o e (SExists [] p) = (λ b : bool, Some b) <$> (is_true3 <$> ev f o e p).
Proof. reflexivity. Qed.
Lemma eval_exists_cons f o e n a from p :
  ev (S f) o e (SExists ((n, a) :: from) p) =
  (λ b : bool, Some b) <$> search (λ r,
    v ← (if o then Some true else visible s db user f n r);
    if v : bool then default false <$> ev (S f) o ((a, r) :: e) (SExists from p) else Some false) (db n).
Proof.
  simpl. f_equal. induction (db n) as [|r l IH]; [done|]. simpl. rewrite IH. f_equal.
  destruct (if o then _ else _) as [[]|]; simpl; [|done..].
  by destruct ((fix scan (from : list (string * string)) (e : env) : option bool := _) from _).
Qed.
Lemma visible_S f n r :
  visible s db user (S f) n r =
  match cat_tables s !! n with
  | None => None
  | Some t =>
      if tbl_row_security t then
        search (λ p, match pol_using p with
                     | Some q => is_true3 <$> ev f false [(n, r)] q
                     | None => Some false
                     end) (policies_for SELECT t)
      else Some true
  end.
Proof. reflexivity. Qed.

Lemma bind_more {A B} (x y : option A) (h h' : A → option B) b :
  (∀ c, x = Some c → y = Some c) → (∀ c, h c = Some b → h' c = Some b) →
  x ≫= h = Some b → y ≫= h' = Some b.
Proof. intros Hxy Hh. destruct x as [c|]; [|done]. rewrite (Hxy c eq_refl). apply Hh. Qed.

(** more fuel gives the same answer *)
Lemma eval_more fuel :
  (∀ o e q t, ev fuel o e q = Some t → ev (S fuel) o e q = Some t) ∧
  (∀ n r b, visible s db user fuel n r = Some b → visible s db user (S fuel) n r = Some b).
Proof.
  induction fuel as [|fuel [IHe IHv]]; [done|]. split.
  - intros o e [a b|a b|a|a|p q|p q|p|f args|from p] t; [trivial..| | | | |].
    + rewrite !eval_and. apply bind_more; [by apply IHe|]. intros x. apply bind_more; [by apply IHe|done].
    + rewrite !eval_or. apply bind_more; [by apply IHe|]. intros x. apply bind_more; [by apply IHe|done].
    + rewrite !eval_not. apply bind_more; [by apply IHe|done].
    + rewrite !eval_call. destruct (cat_functions s !! f) as [[]|]; try done. apply IHe.
    + revert e t. induction from as [|[n a] from IH]; intros e t.
      * rewrite !eval_exists_nil. apply fmap_more. intros c. apply fmap_more. apply IHe.
      * rewrite !eval_exists_cons. apply fmap_more. intros c. apply search_more. intros r d _.
        apply bind_more; [intros v; destruct o; [done|apply IHv]|].
        intros []; [|done]. apply fmap_more. intros x. apply IH.
  - intros n r b. rewrite !visible_S. destruct (cat_tables s !! n) as [t|]; [|done].
    destruct (tbl_row_security t); [|done]. apply search_more. intros p c _.
    destruct (pol_using p); [|done]. apply fmap_more. intros t'. apply IHe.
Qed.

Lemma eval_le f f' o e q t : (f ≤ f')%nat → ev f o e q = Some t → ev f' o e q = Some t.
Proof. induction 1 as [|f' _ IH]; [done|]. intros H. by apply eval_more, IH. Qed.

Lemma allowed_more fuel n a b :
  allowed s db user fuel n a = Some b → allowed s db user (S fuel) n a = Some b.
Proof.
  unfold allowed. destruct (cat_tables s !! n) as [t|]; [|done]. destruct (_ && _); [|done].
  destruct (tbl_row_security t); [|done].
  assert (Hp : ∀ clause c r d, passes_some s db user fuel clause c n t r = Some d →
    passes_some s db user (S fuel) clause c n t r = Some d).
  { intros clause c r d. apply search_more. intros p x _. destruct (clause p); [|done].
    apply fmap_more. intros t'. apply eval_more. }
  destruct a as [r|r|old new|r]; simpl; [apply Hp..| |apply Hp].
  apply bind_more; [by apply Hp|]. intros x. apply bind_more; [by apply Hp|done].
Qed.

Lemma enough_le f f' o q : (f ≤ f')%nat → enough f o q = true → enough f' o q = true.
Proof. induction 1 as [|f' _ IH]; [done|]. intros H. by apply enough_more, IH. Qed.

(** every policy of every table can be evaluated with so much fuel *)
Definition terminating (fuel : nat) : bool :=
bool_decide (map_Forall (λ _ t, rows_all (λ p, forallb (enough fuel false) (policy_exprs p))
  (tbl_policies t) = true) (cat_tables s)).

Lemma terminating_enough f fuel n t c p q :
  terminating f = true → (f ≤ fuel)%nat → cat_tables s !! n = Some t → p ∈ policies_for c t →
  pol_using p = Some q ∨ check_clause p = Some q → enough fuel false q = true.
Proof.
  intros Ht Hle Hn Hp Hq. apply bool_decide_eq_true in Ht. specialize (Ht n t Hn). cbv beta in Ht.
  apply (enough_le f); [done|].
  apply list_elem_of_filter in Hp as [_ Hp]. apply list_elem_of_fmap in Hp as ([k p'] & -> & Hk%elem_of_map_to_list).
  unfold rows_all in Ht. apply bool_decide_eq_true in Ht. specialize (Ht k p' Hk). cbv beta in Ht.
  rewrite forallb_forall in Ht. apply Ht, list_elem_of_In. clear Ht. simpl in Hq.
  unfold check_clause, policy_exprs in *. destruct Hq as [Hq|Hq].
  - rewrite Hq. left.
  - destruct (pol_check p') as [q'|]; apply elem_of_app; [right|left; rewrite Hq; left].
    injection Hq as ->. left.
Qed.

Lemma policy_decided f fuel n t c clause p r :
  terminating f = true → (f ≤ fuel)%nat → cat_tables s !! n = Some t →
  clause = pol_using ∨ clause = check_clause → p ∈ policies_for c t →
  is_Some (match clause p with Some q => is_true3 <$> ev fuel false [(n, r)] q | None => Some false end).
Proof.
  intros Ht Hle Hn Hcl Hp. destruct (clause p) as [q|] eqn:Hq; [|by eexists].
  apply fmap_is_Some, enough_total. apply (terminating_enough f fuel n t c p q); try done.
  destruct Hcl as [-> | ->]; auto.
Qed.

Lemma passes_decided f fuel n t c clause r :
  terminating f = true → (f ≤ fuel)%nat → cat_tables s !! n = Some t →
  clause = pol_using ∨ clause = check_clause → is_Some (passes_some s db user fuel clause c n t r).
Proof.
  intros Ht Hle Hn Hcl. apply search_total. intros p Hp. by eapply policy_decided.
Qed.

Lemma terminating_allowed f fuel n a :
  terminating f = true → (f ≤ fuel)%nat → is_Some (allowed s db user fuel n a).
Proof.
  intros Ht Hle. unfold allowed. destruct (cat_tables s !! n) as [t|] eqn:Hn; [|by eexists].
  assert (Hpass : ∀ clause c r, clause = pol_using ∨ clause = check_clause →
    is_Some (passes_some s db user fuel clause c n t r)).
  { intros clause c r. by apply (passes_decided f). }
  destruct (_ && _); [|by eexists]. destruct (tbl_row_security t); [|by eexists].
  destruct a as [r|r|old new|r]; simpl; [by apply Hpass; auto..| |by apply Hpass; auto].
  destruct (Hpass pol_using UPDATE old ltac:(by left)) as [x ->],
    (Hpass check_clause UPDATE new ltac:(by right)) as [y ->]. by eexists.
Qed.
End Enough.

Lemma head_terminating : terminating head 11 = true.
Proof. vm_compute. reflexivity. Qed.

(** ** Evaluation, towards what holds *)

Lemma search_complete {A} (f : A → option bool) l a :
  (∀ x, x ∈ l → is_Some (f x)) → a ∈ l → f a = Some true → search f l = Some true.
Proof.
induction l as [|x l IH]; intros Hf Ha Hfa; [by apply not_elem_of_nil in Ha|]. simpl.
destruct (Hf x ltac:(left)) as [b Hb]. rewrite Hb. simpl.
destruct (search_total f l) as [c Hc]; [intros y Hy; apply Hf; by right|]. rewrite Hc. simpl.
apply elem_of_cons in Ha as [->|Ha].
- rewrite Hfa in Hb. by injection Hb as <-.
- rewrite (IH (λ y Hy, Hf y ltac:(by right)) Ha Hfa) in Hc. injection Hc as <-. by rewrite orb_true_r.
Qed.

Section Holds.
Context (s : catalog) (db : database) (user : option id).
Abbreviation holds f o e q := (eval s db user f o e q = Some (Some true)).

Lemma hold_and f o e p q : holds f o e p → holds f o e q → holds (S f) o e (SAnd p q).
Proof. intros Hp Hq. simpl. rewrite Hp. simpl. by rewrite Hq. Qed.
Lemma hold_or_right f o e p q :
  is_Some (eval s db user f o e p) → holds f o e q → holds (S f) o e (SOr p q).
Proof. intros [t Ht] Hq. simpl. rewrite Ht. simpl. rewrite Hq. simpl. by destruct t as [[]|]. Qed.
Lemma hold_eq f o e a b v :
  eval_term user e a = v → eval_term user e b = v → v ≠ VNull → holds (S f) o e (SEq a b).
Proof.
  intros Ha Hb Hv. simpl. rewrite Ha, Hb. by destruct v; simpl; rewrite ?bool_decide_true.
Qed.
Lemma hold_any f o e a b x l :
  eval_term user e a = VText x → eval_term user e b = VRoles l → x ∈ l → holds (S f) o e (SAny a b).
Proof. intros Ha Hb Hx. simpl. rewrite Ha, Hb. simpl. by rewrite bool_decide_true. Qed.
Lemma hold_call f o e g args params definer b :
  cat_functions s !! g = Some (Condition params definer b) →
  holds f (o || definer) [(g, list_to_map (zip params (eval_term user e <$> args)))] b →
  holds (S f) o e (SCall g args).
Proof. intros Hg Hb. simpl. by rewrite Hg. Qed.

Lemma visible_rows f n r t :
  cat_tables s !! n = Some t → tbl_row_security t = true →
  visible s db user (S f) n r =
    search (λ p, match pol_using p with
                 | Some q => is_true3 <$> eval s db user f false [(n, r)] q
                 | None => Some false
                 end) (policies_for SELECT t).
Proof. intros Hn Hr. simpl. by rewrite Hn, Hr. Qed.

Lemma hold_exists f o e n a q r :
  enough s f o q = true → (o = true ∨ enough_visible s f n = true) →
  r ∈ db n → (o = true ∨ visible s db user f n r = Some true) → holds f o ((a, r) :: e) q →
  holds (S f) o e (SExists [(n, a)] q).
Proof.
  intros Hq Hn Hr Hv Hh. simpl. erewrite search_complete; [done| |exact Hr|].
  - intros x _. assert (Hx : is_Some (if o then Some true else visible s db user f n x)).
    { destruct o; [by eexists|]. destruct Hn as [?|Hn]; [done|]. by apply enough_total. }
    destruct Hx as [[] ->]; simpl; [|by eexists]. apply fmap_is_Some. by apply enough_total.
  - assert (Hx : (if o then Some true else visible s db user f n r) = Some true).
    { destruct o; [done|]. by destruct Hv as [?|Hv]. }
    rewrite Hx. simpl. rewrite Hh. simpl. unfold is_true3. by rewrite bool_decide_true.
Qed.

(** no row passes *)
Lemma hold_not_exists f o e n a q :
  enough s f o q = true → (o = true ∨ enough_visible s f n = true) →
  (∀ r, r ∈ db n → o = true ∨ visible s db user f n r = Some true → ¬ holds f o ((a, r) :: e) q) →
  holds (S (S f)) o e (SNot (SExists [(n, a)] q)).
Proof.
  intros Hq Hn Hno. change (eval s db user (S (S f)) o e (SNot (SExists [(n, a)] q)))
    with (a ← eval s db user (S f) o e (SExists [(n, a)] q); Some (not3 a)).
  assert (Ht : is_Some (eval s db user (S f) o e (SExists [(n, a)] q))).
  { apply enough_total. simpl. rewrite Hq. simpl. destruct Hn as [->|Hn]; [done|].
    rewrite Hn. simpl. by rewrite orb_true_r. }
  destruct Ht as [t Ht]. rewrite Ht. simpl.
  assert (Hf : t = Some false); [|by rewrite Hf].
  simpl in Ht. destruct (search _ (db n)) as [[]|] eqn:Hs; simpl in Ht; try done; [|by injection Ht as <-].
  exfalso. apply search_true in Hs as (r & Hr & Hs).
  destruct (if o then _ else _) as [[]|] eqn:Hv; simpl in Hs; try done.
  apply is_true3_inv in Hs. apply (Hno r Hr); [|done]. destruct o; auto.
Qed.
End Holds.

(** ** Access by role *)

Definition select_memberships : policy :=
mk_policy (Some SELECT) (Some (SCall "is_workspace_member" [Name "workspace_id"; CurrentUserId])) None.
Definition insert_memberships : policy := mk_policy (Some INSERT) None (Some (is_admin OR seeds_admin)).

(** a member sees the memberships of the workspace, and nobody else does *)
Definition memberships_ok (s : catalog) : bool :=
match cat_tables s !! "workspace_memberships" with
| Some t =>
    tbl_row_security t && bool_decide (policies_for SELECT t = [select_memberships]) &&
    bool_decide (policies_for INSERT t = [insert_memberships]) &&
    granted INSERT t && negb (raises s INSERT t)
| None => false
end.
Lemma head_memberships : memberships_ok head = true.
Proof. vm_compute. reflexivity. Qed.

Section Roles.
Context (s : catalog) (db : database) (u : id).
Context (Hs : isolating s = true) (Hm : memberships_ok s = true) (Ht : typed db s).
Abbreviation holds f o e q := (eval s db (Some u) f o e q = Some (Some true)).

Lemma memberships_table :
  ∃ t, cat_tables s !! "workspace_memberships" = Some t ∧ tbl_row_security t = true ∧
    policies_for SELECT t = [select_memberships] ∧ policies_for INSERT t = [insert_memberships] ∧
    granted INSERT t = true ∧ raises s INSERT t = false.
Proof using Hm.
  unfold memberships_ok in Hm. destruct (cat_tables s !! _) as [t|]; [|discriminate Hm]. exists t.
  rewrite !andb_true_iff, !bool_decide_eq_true, negb_true_iff in Hm. tauto.
Qed.

Lemma enough_members k : enough_visible s (5 + k) "workspace_memberships" = true.
Proof using Hs Hm.
  destruct (functions_at_head s Hs) as (_ & Hmem & _).
  destruct memberships_table as (t & Hn & Hrls & Hp & _).
  induction k as [|k IH]; [|rewrite Nat.add_succ_r; by apply enough_more].
  cbn [enough_visible Nat.add]. rewrite Hn, Hrls, Hp. simpl. by rewrite Hmem.
Qed.

(** the membership of a user by the function that runs as the owner *)
Lemma member_holds k a r c ws m :
  r !! c = Some (VUuid ws) → m ∈ db "workspace_memberships" →
  m !! "workspace_id" = Some (VUuid ws) → m !! "user_id" = Some (VUuid u) →
  holds (4 + k) false [(a, r)] (SCall "is_workspace_member" [Name c; CurrentUserId]).
Proof using Hs Hm Ht.
  intros Hr Hin Hws Hu. destruct (functions_at_head s Hs) as (_ & Hmem & _).
  eapply (hold_call s db (Some u) (3 + k)); [exact Hmem|].
  change (list_to_map (zip ["wsid"; "uid"] (eval_term (Some u) [(a, r)] <$> [Name c; CurrentUserId])))
    with (args2 (lookup_name [(a, r)] c) (VUuid u)).
  rewrite (row_name a c r ws Hr).
  eapply (hold_exists s db (Some u) (2 + k)); [done|by left|exact Hin|by left|].
  destruct (args2_values "is_workspace_member" (VUuid ws) (VUuid u)) as (Hv & Hw & _).
  apply (hold_and s db (Some u) (1 + k)); [apply (hold_eq s db (Some u) k _ _ _ _ (VUuid ws))
    |apply (hold_eq s db (Some u) k _ _ _ _ (VUuid u))]; try done;
    change (eval_term (Some u) ?e (Name ?x)) with (lookup_name e x).
  - by rewrite lookup_name_here, Hws by (by rewrite Hws).
  - by rewrite lookup_name_skip by (apply (params_absent s db Hs Ht "workspace_memberships"); set_solver).
  - by rewrite lookup_name_here, Hu by (by rewrite Hu).
  - by rewrite lookup_name_skip by (apply (params_absent s db Hs Ht "workspace_memberships"); set_solver).
Qed.

Lemma own_membership_visible k ws m :
  m ∈ db "workspace_memberships" → m !! "workspace_id" = Some (VUuid ws) →
  m !! "user_id" = Some (VUuid u) →
  visible s db (Some u) (5 + k) "workspace_memberships" m = Some true.
Proof using Hs Hm Ht.
  intros Hin Hws Hu. destruct memberships_table as (t & Hn & Hrls & Hp & _).
  change (5 + k)%nat with (S (4 + k)).
  rewrite (visible_rows s db (Some u) (4 + k) _ m t Hn Hrls), Hp.
  cbn [search pol_using select_memberships].
  rewrite (member_holds k "workspace_memberships" m "workspace_id" ws m Hws Hin Hws Hu).
  reflexivity.
Qed.

Lemma role_holds k a r c ws roles :
  r !! c = Some (VUuid ws) → member_as db roles u ws →
  holds (7 + k) false [(a, r)] (SCall "app_user_has_workspace_role" [Name c; Roles roles]).
Proof using Hs Hm Ht.
  intros Hr (m & x & Hin & Hws & Hu & Hx & Hroles). destruct (functions_at_head s Hs) as (Hf & _).
  eapply (hold_call s db (Some u) (6 + k)); [exact Hf|].
  eapply (hold_exists s db (Some u) (5 + k)); [done|right; apply enough_members|exact Hin
    |right; by apply (own_membership_visible k ws)|].
  set (e := [("m", m); _]).
  assert (Hq : ∀ y v, m !! y = Some v → eval_term (Some u) e (Qual "m" y) = v).
  { intros y v Hy. change (default VNull (m !! y) = v). by rewrite Hy. }
  assert (Hskip : ∀ y, y ∈ ["p_workspace_id"; "p_roles"; "wsid"; "uid"] → eval_term (Some u) e (Name y) =
    eval_term (Some u) (tail e) (Name y)).
  { intros y Hy. apply lookup_name_skip.
    by apply (params_absent s db Hs Ht "workspace_memberships"); [left|..]. }
  apply (hold_and s db (Some u) (4 + k)); [|apply (hold_and s db (Some u) (3 + k))].
  - apply (hold_eq s db (Some u) (3 + k) _ _ _ _ (VUuid ws)); [by apply Hq| |done].
    rewrite Hskip by set_solver. change (lookup_name [(a, r)] c = VUuid ws). by apply row_name.
  - apply (hold_eq s db (Some u) (2 + k) _ _ _ _ (VUuid u)); [by apply Hq|done|done].
  - apply (hold_any s db (Some u) (2 + k) _ _ _ _ x roles); [by apply Hq| |done].
    by rewrite Hskip by set_solver.
Qed.
End Roles.

(** every row of the access is of the workspace *)
Definition within (ws : id) (a : access) : Prop :=
match a with
| Reads r | Inserts r | Deletes r => r !! "workspace_id" = Some (VUuid ws)
| Updates old new => old !! "workspace_id" = Some (VUuid ws) ∧ new !! "workspace_id" = Some (VUuid ws)
end.

(** the one policy of the table for the command asks for a role *)
Definition role_only (s : catalog) (n : string) (c : command) (roles : list string) : bool :=
match cat_tables s !! n with
| Some t =>
    tbl_row_security t && granted c t && negb (raises s c t) &&
    match policies_for c t with
    | [p] => (bool_decide (c = INSERT) || bool_decide (pol_using p = Some (has_role roles))) &&
             (bool_decide (c = SELECT) || bool_decide (c = DELETE) ||
              bool_decide (check_clause p = Some (has_role roles)))
    | _ => false
    end
| None => false
end.

Section Access.
Context (s : catalog) (db : database) (user : option id).
Context (Hs : isolating s = true) (Hm : memberships_ok s = true) (Ht : typed db s).

(** the truth of the role condition at a row of a workspace *)
Lemma role_passes fuel n t c clause p roles r ws :
  (7 ≤ fuel)%nat → policies_for c t = [p] → clause p = Some (has_role roles) →
  r !! "workspace_id" = Some (VUuid ws) →
  (passes_some s db user fuel clause c n t r = Some true ↔
   ∃ u, user = Some u ∧ member_as db roles u ws).
Proof using Hs Hm Ht.
  intros Hf Hp Hcl Hr. split.
  - intros (k & p' & q & Hk & Ha & Hq & He)%passes_inv.
    assert (Hin : p' ∈ policies_for c t).
    { apply list_elem_of_filter. split; [exact Ha|]. apply list_elem_of_fmap.
      exists (k, p'). split; [reflexivity|]. by apply elem_of_map_to_list. }
    rewrite Hp in Hin. apply list_elem_of_singleton in Hin as ->. rewrite Hcl in Hq. injection Hq as <-.
    exact (role_call s db user Hs Ht n "workspace_id" r ws Hr fuel roles He).
  - intros (u & -> & Hmem). unfold passes_some. rewrite Hp. cbn [search]. rewrite Hcl.
    destruct (Nat.le_exists_sub 7 fuel Hf) as (k & -> & _). rewrite (Nat.add_comm k 7).
    unfold has_role. rewrite (role_holds s db u Hs Hm Ht k n r "workspace_id" ws roles Hr Hmem).
    reflexivity.
Qed.

Lemma role_only_access fuel n c roles a ws :
  (7 ≤ fuel)%nat → role_only s n c roles = true → command_of a = c → within ws a →
  (allowed s db user fuel n a = Some true ↔ ∃ u, user = Some u ∧ member_as db roles u ws).
Proof using Hs Hm Ht.
  intros Hf Hrole Hc Hw. unfold role_only in Hrole. unfold allowed. rewrite Hc.
  destruct (cat_tables s !! n) as [t|]; [|discriminate Hrole].
  apply andb_true_iff in Hrole as [[[Hrls Hg]%andb_true_iff Hr]%andb_true_iff Hp].
  rewrite Hg, Hr, Hrls. cbn [andb].
  destruct (policies_for c t) as [|p [|]] eqn:Hpol; try discriminate Hp.
  rewrite andb_true_iff, !orb_true_iff, !bool_decide_eq_true in Hp. destruct Hp as [Hu Hk].
  destruct a as [r|r|old new|r]; simpl in Hc, Hw |- *; subst c.
  - destruct Hu as [?|Hu]; [discriminate|]. exact (role_passes fuel n t _ _ p roles r ws Hf Hpol Hu Hw).
  - destruct Hk as [[?|?]|Hk]; [discriminate..|]. exact (role_passes fuel n t _ _ p roles r ws Hf Hpol Hk Hw).
  - destruct Hu as [?|Hu], Hk as [[?|?]|Hk]; try discriminate. destruct Hw as [Ho Hn].
    rewrite <- (role_passes fuel n t _ _ p roles old ws Hf Hpol Hu Ho).
    assert (Hiff := role_passes fuel n t _ _ p roles new ws Hf Hpol Hk Hn).
    rewrite <- (role_passes fuel n t _ _ p roles old ws Hf Hpol Hu Ho) in Hiff.
    destruct (passes_some s db user fuel pol_using UPDATE n t old) as [[]|];
      destruct (passes_some s db user fuel check_clause UPDATE n t new) as [[]|]; simpl; naive_solver.
  - destruct Hu as [?|Hu]; [discriminate|]. exact (role_passes fuel n t _ _ p roles r ws Hf Hpol Hu Hw).
Qed.

(** a user who is in no membership of the workspace sees none of them *)
Lemma foreign_memberships_hidden fuel u ws r :
  user = Some u → ¬ member db u ws → r !! "workspace_id" = Some (VUuid ws) →
  visible s db user fuel "workspace_memberships" r ≠ Some true.
Proof using Hs Hm Ht.
  intros Hu Hno Hr. destruct fuel as [|fuel]; [discriminate|].
  destruct (memberships_table s Hm) as (t & Hn & Hrls & Hp & _).
  rewrite (visible_rows s db user fuel _ r t Hn Hrls), Hp. cbn [search pol_using select_memberships].
  intros Hv. destruct (is_true3 <$> _) as [b|] eqn:He in Hv; [|discriminate Hv].
  simpl in Hv. rewrite orb_false_r in Hv. injection Hv as ->. apply is_true3_inv in He.
  apply (member_call s db user Hs Ht "workspace_memberships" "workspace_id" r ws Hr) in He
    as (u' & Hu' & Hmem); [|by left]. rewrite Hu in Hu'. injection Hu' as <-. by apply Hno.
Qed.

(** the owner's search for the creator of a workspace *)
Lemma creator_holds k u a r c ws :
  user = Some u → r !! c = Some (VUuid ws) → created db u ws →
  eval s db user (4 + k) false [(a, r)] (SCall "is_workspace_creator" [Name c; CurrentUserId]) = Some (Some true).
Proof using Hs Hm Ht.
  intros Hu Hr (w & Hin & Hi & Hc). destruct (functions_at_head s Hs) as (_ & _ & _ & Hf).
  eapply (hold_call s db user (3 + k)); [exact Hf|].
  change (list_to_map (zip ["wsid"; "uid"] (eval_term user [(a, r)] <$> [Name c; CurrentUserId])))
    with (args2 (lookup_name [(a, r)] c) (eval_term user [] CurrentUserId)).
  rewrite Hu, (row_name a c r ws Hr).
  eapply (hold_exists s db (Some u) (2 + k)); [done|by left|exact Hin|by left|].
  destruct (args2_values "is_workspace_creator" (VUuid ws) (VUuid u)) as (Hv & Hw & _).
  apply (hold_and s db (Some u) (1 + k)); [apply (hold_eq s db (Some u) k _ _ _ _ (VUuid ws))
    |apply (hold_eq s db (Some u) k _ _ _ _ (VUuid u))]; try done;
    change (eval_term (Some u) ?e (Name ?x)) with (lookup_name e x).
  - by rewrite lookup_name_here, Hi by (by rewrite Hi).
  - by rewrite lookup_name_skip by (apply (params_absent s db Hs Ht "workspaces"); set_solver).
  - by rewrite lookup_name_here, Hc by (by rewrite Hc).
  - by rewrite lookup_name_skip by (apply (params_absent s db Hs Ht "workspaces"); set_solver).
Qed.

(** the creator of a workspace who has left it may add himself again *)
Lemma creator_inserts k u r ws :
  user = Some u → created db u ws → ¬ member db u ws →
  r !! "workspace_id" = Some (VUuid ws) → r !! "user_id" = Some (VUuid u) →
  r !! "role" = Some (VText "admin") →
  allowed s db user (11 + k) "workspace_memberships" (Inserts r) = Some true.
Proof using Hs Hm Ht.
  intros Hu Hc Hno Hr Hru Hrole. unfold allowed.
  destruct (memberships_table s Hm) as (t & Hn & Hrls & _ & Hp & Hg & Hra).
  rewrite Hn, Hrls. cbn [command_of]. rewrite Hg, Hra. cbn [andb negb rows_pass].
  unfold passes_some. rewrite Hp. cbn [search check_clause insert_memberships pol_check pol_using].
  set (e := [("workspace_memberships", r)]).
  assert (Hname : ∀ c v, r !! c = Some v → eval_term user e (Name c) = v ∧
      eval_term user e (Qual "workspace_memberships" c) = v).
  { intros c v Hv. split; [|change (default VNull (r !! c) = v); by rewrite Hv].
    change (lookup_name e c = v). unfold e. rewrite lookup_name_here by (by rewrite Hv). by rewrite Hv. }
  assert (Hok : eval s db user (11 + k) false e (is_admin OR seeds_admin) = Some (Some true)).
  2: { rewrite Hok. reflexivity. }
  apply (hold_or_right s db user (10 + k)).
  { apply enough_total. destruct (functions_at_head s Hs) as (_ & _ & Ha & _).
    apply (enough_le s 6 (10 + k)); [lia|]. simpl. rewrite Ha. reflexivity. }
  apply (hold_and s db user (9 + k)); [|apply (hold_and s db user (8 + k));
    [|apply (hold_and s db user (7 + k))]].
  - apply (hold_eq s db user (8 + k) _ _ _ _ (VUuid u)); [by apply Hname|by rewrite Hu|done].
  - by apply (hold_eq s db user (7 + k) _ _ _ _ (VText "admin")); [apply Hname|..].
  - exact (creator_holds (3 + k) u "workspace_memberships" r "workspace_id" ws Hu Hr Hc).
  - apply (hold_not_exists s db user (5 + k)); [done|right; exact (enough_members s Hs Hm k)|].
    intros x Hx [?|Hv] Heq; [done|]. apply holds_eq in Heq as [Heq Hnn].
    change (default VNull (x !! "workspace_id") = eval_term user e (Qual "workspace_memberships" "workspace_id")) in Heq.
    rewrite (proj2 (Hname _ _ Hr)) in Heq.
    apply (foreign_memberships_hidden (5 + k) u ws x Hu Hno); [|exact Hv].
    destruct (x !! "workspace_id") as [v|]; [|discriminate Heq]. by f_equal.
Qed.
End Access.

(** ** The policies before revision 0021 *)

(** the condition searches the memberships first of all *)
Definition searches_memberships (q : option sql) : bool :=
match q with
| Some (SExists [(n, _)] _) => bool_decide (n = "workspace_memberships")
| _ => false
end.

Definition recursive_ok (s : catalog) : bool :=
match cat_tables s !! "workspace_memberships" with
| Some t =>
    tbl_row_security t && granted SELECT t && negb (raises s SELECT t) &&
    match policies_for SELECT t with
    | p :: _ => searches_memberships (pol_using p)
    | [] => false
    end
| None => false
end.
Lemma catalog_20_recursive : recursive_ok (catalog_at 20) = true.
Proof. vm_compute. reflexivity. Qed.

Section Recursive.
Context (s : catalog) (db : database) (user : option id) (m : row).
Context (Hrec : recursive_ok s = true) (Hm : db "workspace_memberships" = [m]).

Lemma recursive_table :
  ∃ t p l a q, cat_tables s !! "workspace_memberships" = Some t ∧ tbl_row_security t = true ∧
    granted SELECT t && negb (raises s SELECT t) = true ∧
    policies_for SELECT t = p :: l ∧ pol_using p = Some (SExists [("workspace_memberships", a)] q).
Proof using Hrec.
  unfold recursive_ok in Hrec. destruct (cat_tables s !! _) as [t|]; [|discriminate Hrec].
  apply andb_true_iff in Hrec as [[[Hr Hg]%andb_true_iff Hn]%andb_true_iff Hp].
  destruct (policies_for SELECT t) as [|p l] eqn:Hpol; [discriminate Hp|].
  unfold searches_memberships in Hp. destruct (pol_using p) as [[]|] eqn:Hu; try discriminate Hp.
  destruct from as [|[n a] []]; try discriminate Hp. apply bool_decide_eq_true in Hp as ->.
  exists t, p, l, a, where_. rewrite Hg, Hn. auto.
Qed.

(** a search of the memberships tests the one there is first *)
Lemma memberships_scan f e a q :
  visible s db user f "workspace_memberships" m = None →
  eval s db user (S f) false e (SExists [("workspace_memberships", a)] q) = None.
Proof using Hm. intros Hv. rewrite eval_exists_cons, Hm. simpl. by rewrite Hv. Qed.

Lemma membership_never f : visible s db user f "workspace_memberships" m = None.
Proof using Hrec Hm.
  destruct recursive_table as (t & p & l & a & q & Hn & Hr & Hg & Hp & Hq).
  induction f as [f IH] using lt_wf_ind. destruct f as [|f]; [done|].
  rewrite visible_S, Hn, Hr, Hp. cbn [search]. rewrite Hq. destruct f as [|f]; [done|].
  rewrite memberships_scan; [done|]. apply IH. lia.
Qed.

Lemma recursive_never r f : allowed s db user f "workspace_memberships" (Reads r) = None.
Proof using Hrec Hm.
  destruct recursive_table as (t & p & l & a & q & Hn & Hr & Hg & Hp & Hq).
  unfold allowed. rewrite Hn. cbn [command_of]. rewrite Hg, Hr.
  cbn [rows_pass]. unfold passes_some. rewrite Hp. cbn [search]. rewrite Hq.
  destruct f as [|f]; [reflexivity|]. rewrite memberships_scan by apply membership_never. reflexivity.
Qed.
End Recursive.

(** ** Databases given by their rows *)

Definition db_of (l : list (string * list row)) : database :=
λ n, l ≫= λ p, if bool_decide (p.1 = n) then p.2 else [].

Definition typed_rows (s : catalog) (l : list (string * list row)) : bool :=
forallb (λ p, match cat_tables s !! p.1 with
              | Some t => forallb (λ r, forallb (λ c, has (tbl_columns t) c) (map_to_list r).*1) p.2
              | None => true
              end) l.

Lemma db_of_typed s l : typed_rows s l = true → typed (db_of l) s.
Proof.
  intros Hl n t r c Hn Hr [v Hv]. unfold typed_rows in Hl. rewrite forallb_forall in Hl.
  apply list_elem_of_bind in Hr as (p & Hr & Hp). case_bool_decide as Heq; [|by apply not_elem_of_nil in Hr].
  specialize (Hl p ltac:(by apply list_elem_of_In)). rewrite Heq, Hn in Hl.
  rewrite forallb_forall in Hl. specialize (Hl r ltac:(by apply list_elem_of_In)).
  rewrite forallb_forall in Hl. specialize (Hl c). unfold has in Hl. rewrite bool_decide_eq_true in Hl.
  apply Hl, list_elem_of_In, list_elem_of_fmap. exists (c, v). split; [done|]. by apply elem_of_map_to_list.
Qed.

(** ** The properties *)

(** C4: what the database lets a request do at the head of the migrations stays within the
    workspaces of its user.  A row that a request reads, inserts, updates (before and after) or
    deletes, in any table with a workspace (or in [workspaces]), is of a workspace the user is a
    member of; the exceptions are two insertions, of a new workspace by the user it names as its
    creator, and of the creator's own membership. *)
Theorem tenants_isolated (db : database) (user : option id) (fuel : nat) (n : string) (t : table)
  (a : access) (ws : id) :
  typed db head → cat_tables head !! n = Some t → has (tbl_columns t) (key n) = true →
  concerns n ws a → stored db n a → allowed head db user fuel n a = Some true →
  ∃ u, user = Some u ∧
    (member db u ws ∨
     ∃ r, a = Inserts r ∧
       (n = "workspace_memberships" ∧ created db u ws ∧ r !! "user_id" = Some (VUuid u) ∨
        n = "workspaces" ∧ r !! "created_by" = Some (VUuid u))).
Proof.
  intros Ht Hn Hcol Hc Hst Hal.
  exact (access_member head db user head_isolating Ht fuel n t a ws Hn Hcol Hc Hst Hal).
Qed.

(** C22: no command of a request makes the evaluation of its policies run for ever: every
    access to every table of the head has an answer, found with any fuel from 11 on.  Up
    to revision 0020 a single membership made the policies of the memberships, and so every
    access to them, refer to themselves without end; no fuel was enough. *)
Theorem policies_terminate (db : database) (user : option id) (n : string) (a : access)
  (m r : row) :
  (∃ b, ∀ fuel, (11 ≤ fuel)%nat → allowed head db user fuel n a = Some b) ∧
  (db "workspace_memberships" = [m] →
   ∀ fuel, allowed (catalog_at 20) db user fuel "workspace_memberships" (Reads r) = None).
Proof.
  split.
  - destruct (terminating_allowed head db user 11 11 n a head_terminating (le_n 11)) as [b Hb].
    exists b. intros fuel Hf. induction Hf as [|fuel _ IH]; [exact Hb|]. by apply allowed_more.
  - intros Hm fuel. exact (recursive_never (catalog_at 20) db user m catalog_20_recursive Hm r fuel).
Qed.

(** C5: where the one policy for a command asks for a role, the command is allowed on rows of a
    workspace exactly when the user is a member of it with one of the roles. *)
Theorem access_by_role (db : database) (user : option id) (fuel : nat) (n : string) (c : command)
  (roles : list string) (a : access) (ws : id) :
  typed db head → role_only head n c roles = true → (11 ≤ fuel)%nat →
  command_of a = c → within ws a →
  ∃ b, allowed head db user fuel n a = Some b ∧
    (b = true ↔ ∃ u, user = Some u ∧ member_as db roles u ws).
Proof.
  intros Ht Hrole Hf Hc Hw.
  destruct (terminating_allowed head db user 11 fuel n a head_terminating Hf) as [b Hb].
  exists b. split; [exact Hb|].
  rewrite <- (role_only_access head db user head_isolating head_memberships Ht fuel n c roles a ws
    ltac:(lia) Hrole Hc Hw), Hb. split; [by intros ->|by intros [= ->]].
Qed.

(** The creator of a workspace who is not a member of it may insert himself as its admin, even
    when the workspace has other members: the search for an existing membership is
    itself restricted to the rows the user may see. *)
Theorem creator_returns (db : database) (u ws : id) (fuel : nat) (r : row) :
  typed db head → (11 ≤ fuel)%nat → created db u ws → ¬ member db u ws →
  r !! "workspace_id" = Some (VUuid ws) → r !! "user_id" = Some (VUuid u) →
  r !! "role" = Some (VText "admin") →
  allowed head db (Some u) fuel "workspace_memberships" (Inserts r) = Some true.
Proof.
  intros Ht Hf Hc Hno Hr Hu Hrole. destruct (Nat.le_exists_sub 11 fuel Hf) as (k & -> & _).
  rewrite (Nat.add_comm k 11).
  exact (creator_inserts head db (Some u) head_isolating head_memberships Ht k u r ws
    eq_refl Hc Hno Hr Hu Hrole).
Qed.

(** ** Witnesses *)

(** two workspaces: user 1 created both and is a member of the first, where user 2 is an editor;
    user 3 is the only member of the second *)
Definition membership_row (u ws : id) (role : string) : row :=
{["workspace_id" := VUuid ws; "user_id" := VUuid u; "role" := VText role]}.
Definition lead_row (ws : id) : row := {["workspace_id" := VUuid ws; "id" := VUuid 7]}.
Definition two_workspaces : list (string * list row) :=
[("workspaces", [{["id" := VUuid 10; "created_by" := VUuid 1]}; {["id" := VUuid 20; "created_by" := VUuid 1]}]);
 ("workspace_memberships", [membership_row 1 10 "admin"; membership_row 2 10 "editor"; membership_row 3 20 "admin"]);
 ("leads", [lead_row 10; lead_row 20])].

Lemma two_workspaces_typed : typed (db_of two_workspaces) head.
Proof. apply db_of_typed. vm_compute. reflexivity. Qed.

Definition leads : table := default empty_table (cat_tables head !! "leads").

Lemma leads_ok : cat_tables head !! "leads" = Some leads ∧ has (tbl_columns leads) (key "leads") = true.
Proof.
  assert (H : bool_decide (is_Some (cat_tables head !! "leads")) && has (tbl_columns leads) (key "leads") = true)
    by (vm_compute; reflexivity).
  apply andb_true_iff in H as [[t H]%bool_decide_eq_true Hc]. split; [|exact Hc].
  unfold leads. rewrite H. reflexivity.
Qed.

Lemma tenants_isolated_witness :
  allowed head (db_of two_workspaces) (Some 2%positive) 11 "leads" (Inserts (lead_row 10)) = Some true ∧
  ∃ u, Some 2%positive = Some u ∧
    (member (db_of two_workspaces) u 10 ∨
     ∃ r, Inserts (lead_row 10) = Inserts r ∧
       ("leads" = "workspace_memberships" ∧ created (db_of two_workspaces) u 10 ∧ r !! "user_id" = Some (VUuid u) ∨
        "leads" = "workspaces" ∧ r !! "created_by" = Some (VUuid u))).
Proof.
  assert (H : allowed head (db_of two_workspaces) (Some 2%positive) 11 "leads" (Inserts (lead_row 10)) = Some true)
    by (vm_compute; reflexivity).
  split; [exact H|].
  exact (tenants_isolated (db_of two_workspaces) (Some 2%positive) 11 "leads" leads (Inserts (lead_row 10)) 10
    two_workspaces_typed (proj1 leads_ok) (proj2 leads_ok) eq_refl I H).
Defined.

Lemma policies_terminate_witness :
  (∃ b, ∀ fuel, (11 ≤ fuel)%nat →
    allowed head (db_of [("workspace_memberships", [membership_row 1 10 "admin"])]) (Some 1%positive) fuel
      "workspaces" (Reads {["id" := VUuid 10]}) = Some b) ∧
  ∀ fuel, allowed (catalog_at 20) (db_of [("workspace_memberships", [membership_row 1 10 "admin"])])
    (Some 1%positive) fuel "workspace_memberships" (Reads (membership_row 1 10 "admin")) = None.
Proof.
  set (db := db_of _). set (m := membership_row 1 10 "admin").
  split; [exact (proj1 (policies_terminate db (Some 1%positive) "workspaces" (Reads {["id" := VUuid 10]}) m m))
    |exact (proj2 (policies_terminate db (Some 1%positive) "workspaces" (Reads {["id" := VUuid 10]}) m m) eq_refl)].
Defined.

Lemma access_by_role_witness :
  (∃ b, allowed head (db_of two_workspaces) (Some 2%positive) 11 "leads" (Reads (lead_row 10)) = Some b ∧
    (b = true ↔ ∃ u, Some 2%positive = Some u ∧ member_as (db_of two_workspaces) _ALL u 10)) ∧
  allowed head (db_of two_workspaces) (Some 2%positive) 11 "leads" (Reads (lead_row 10)) = Some true ∧
  allowed head (db_of two_workspaces) (Some 2%positive) 11 "leads" (Reads (lead_row 20)) = Some false.
Proof.
  split; [|vm_compute; auto].
  assert (Hr : role_only head "leads" SELECT _ALL = true) by (vm_compute; reflexivity).
  exact (access_by_role (db_of two_workspaces) (Some 2%positive) 11 "leads" SELECT _ALL (Reads (lead_row 10)) 10
    two_workspaces_typed Hr (le_n 11) eq_refl eq_refl).
Defined.

Lemma creator_returns_witness :
  allowed head (db_of two_workspaces) (Some 1%positive) 11 "workspace_memberships"
    (Inserts (membership_row 1 20 "admin")) = Some true.
Proof.
  apply (creator_returns (db_of two_workspaces) 1 20 11 (membership_row 1 20 "admin") two_workspaces_typed (le_n 11)).
  - exists {["id" := VUuid 20; "created_by" := VUuid 1]}. split; [|done]. right. left.
  - intros (m & Hm & Hw & Hu).
    assert (Hb : forallb (λ m, negb (bool_decide (m !! "workspace_id" = Some (VUuid 20)) &&
      bool_decide (m !! "user_id" = Some (VUuid 1)))) (db_of two_workspaces "workspace_memberships") = true)
      by (vm_compute; reflexivity).
    rewrite forallb_forall in Hb. specialize (Hb m ltac:(by apply list_elem_of_In)).
    rewrite Hw, Hu in Hb. discriminate Hb.
  - reflexivity.
  - reflexivity.
  - reflexivity.
Defined.
