(* ===== verification/DataGovernanceSpec.v ===== *)
(** * What an export holds and what a deletion leaves

    The statements of an administrator reach every row of the workspace in
    every table the two requests touch: the policies of these tables are
    tested by [admin_holds], whose soundness is proved once.  From there the
    bundle and the database after a deletion follow, table by table. *)

From S2P Require Import Prelude Schema MigrationHelpers RowSecurity RowSecuritySpec DataGovernance.

(** ** Policies that an administrator passes *)

(** the condition holds of a row of the workspace for an administrator;
    [deleted] is the nullness of its [deleted_at] *)
Fixpoint admin_holds (null_deleted : bool) (key : string) (q : sql) : bool :=
match q with
| SIsNull (Name c) => bool_decide (c = "deleted_at") && null_deleted
| SNotNull (Name c) => bool_decide (c = "deleted_at") && negb null_deleted || bool_decide (c = key)
| SAnd p q => admin_holds null_deleted key p && admin_holds null_deleted key q
| SOr p q => admin_holds null_deleted key p || admin_holds null_deleted key q
| SCall f [Name c; Roles roles] =>
    bool_decide (f = "app_user_has_workspace_role") && bool_decide (c = key) && bool_decide ("admin" ∈ roles)
| SCall f [Name c; CurrentUserId] => bool_decide (f = "is_workspace_member") && bool_decide (c = key)
| _ => false
end.

Definition admin_may (s : catalog) (c : command) (clause : policy → option sql) (n : string) : bool :=
match cat_tables s !! n with
| Some t =>
    forallb (λ b, existsb (λ p, match clause p with Some q => admin_holds b (key n) q | None => false end)
      (policies_for c t)) [true; false]
| None => false
end.

Definition is_null (r : row) (c : string) : bool := bool_decide (default VNull (r !! c) = VNull).

Lemma lookup_name_single a (r : row) c : lookup_name [(a, r)] c = default VNull (r !! c).
Proof.
  destruct (r !! c) as [v|] eqn:Hc; [by rewrite lookup_name_here, Hc by (by rewrite Hc)|].
  by rewrite lookup_name_skip.
Qed.

Section Admin.
Context (s : catalog) (db : database) (u ws : id).
Context (Hs : isolating s = true) (Hm : memberships_ok s = true) (Ht : typed db s)
  (Hterm : terminating s 11 = true) (Hadm : member_as db ["admin"] u ws).
Abbreviation ev := (eval s db (Some u)).

(** with enough fuel the value is the one of any larger fuel *)
Lemma settled fuel f o e q t : enough s fuel o q = true → (fuel ≤ f)%nat → ev f o e q = Some t → ev fuel o e q = Some t.
Proof.
  intros Hen Hle Hf. destruct (proj1 (enough_total s db (Some u) fuel) o e q Hen) as [t' Ht'].
  rewrite Ht'. rewrite <- Hf. symmetry. by apply (eval_le s db (Some u) fuel f).
Qed.

Lemma admin_holds_sound a r b k q : ∀ fuel,
  enough s fuel false q = true → admin_holds b k q = true → r !! k = Some (VUuid ws) →
  is_null r "deleted_at" = b → ev fuel false [(a, r)] q = Some (Some true).
Proof using Hs Hm Ht Hadm.
  induction q as [| |x|x|p IHp q IHq|p IHp q IHq| |f args|]; intros fuel Hen Hh Hk Hb; try discriminate Hh;
    (destruct fuel as [|fuel]; [discriminate Hen|]).
  - destruct x as [c| | | |]; try discriminate Hh. apply andb_true_iff in Hh as [->%bool_decide_eq_true Hh].
    simpl. rewrite lookup_name_single. unfold is_null in Hb. by rewrite Hb, Hh.
  - destruct x as [c| | | |]; try discriminate Hh. simpl. rewrite lookup_name_single.
    apply orb_true_iff in Hh as [[->%bool_decide_eq_true Hh]%andb_true_iff | ->%bool_decide_eq_true].
    + unfold is_null in Hb. by rewrite Hb, Hh.
    + by rewrite Hk.
  - apply andb_true_iff in Hh as [H1 H2]. apply andb_true_iff in Hen as [E1 E2].
    apply hold_and; auto.
  - apply andb_true_iff in Hen as [E1 E2]. rewrite eval_or. apply orb_true_iff in Hh as [H1|H2].
    + rewrite (IHp fuel E1 H1 Hk Hb). destruct (proj1 (enough_total s db (Some u) fuel) _ [(a, r)] _ E2) as [y Hy].
      rewrite Hy. reflexivity.
    + destruct (proj1 (enough_total s db (Some u) fuel) _ [(a, r)] _ E1) as [y Hy]. rewrite Hy.
      rewrite (IHq fuel E2 H2 Hk Hb). by destruct y as [[]|].
  - destruct args as [|[c| | | |] [|x [|]]]; try discriminate Hh; [|by destruct x].
    destruct x as [| | |roles|]; try discriminate Hh.
    + apply andb_true_iff in Hh as [[->%bool_decide_eq_true ->%bool_decide_eq_true]%andb_true_iff Hr%bool_decide_eq_true].
      apply (settled (S fuel) (7 + S fuel) _ _ _ _ Hen ltac:(lia)).
      apply (role_holds s db u Hs Hm Ht (S fuel) a r k ws roles Hk).
      destruct Hadm as (m & x & H1 & H2 & H3 & H4 & H5). exists m, x. split_and!; try done.
      by apply list_elem_of_singleton in H5 as ->.
    + apply andb_true_iff in Hh as [->%bool_decide_eq_true ->%bool_decide_eq_true].
      apply (settled (S fuel) (4 + S fuel) _ _ _ _ Hen ltac:(lia)).
      destruct Hadm as (m & x & H1 & H2 & H3 & _).
      exact (member_holds s db u Hs Hm Ht (S fuel) a r k ws m Hk H1 H2 H3).
Qed.

Lemma admin_passes fuel n t c clause r :
  (11 ≤ fuel)%nat → cat_tables s !! n = Some t → clause = pol_using ∨ clause = check_clause →
  admin_may s c clause n = true → r !! key n = Some (VUuid ws) →
  passes_some s db (Some u) fuel clause c n t r = Some true.
Proof using Hs Hm Ht Hadm Hterm.
  intros Hf Hn Hcl Hmay Hr. unfold admin_may in Hmay. rewrite Hn, forallb_forall in Hmay.
  specialize (Hmay (is_null r "deleted_at")). apply existsb_exists in Hmay as (p & Hp%list_elem_of_In & Hq).
  2: { destruct (is_null r "deleted_at"); simpl; auto. }
  destruct (clause p) as [q|] eqn:Hc; [|discriminate Hq].
  eapply search_complete; [|exact Hp|].
  - intros x Hx. by apply (policy_decided s db (Some u) 11 fuel n t c).
  - rewrite Hc.
    assert (Hen : enough s fuel false q = true).
    { apply (terminating_enough s 11 fuel n t c p q); try done. destruct Hcl as [-> | ->]; auto. }
    rewrite (admin_holds_sound n r _ (key n) q fuel Hen Hq Hr eq_refl). reflexivity.
Qed.
End Admin.

(** ** Statements *)

Section Statements.
Context (s : catalog) (db : database) (user : option id) (fuel : nat).

Lemma matching_all n t where_ l :
  (∀ r, r ∈ l → where_ r = true → reaches s db user fuel SELECT n t r = Some true) →
  matching s db user fuel n t where_ l = Ok (filter (λ r, where_ r = true) l).
Proof.
  induction l as [|r l IH]; intros Hl; [done|]. cbn [matching]. rewrite filter_cons.
  rewrite IH by (intros x Hx; apply Hl; by right). destruct (where_ r) eqn:Hr.
  - rewrite (Hl r ltac:(left) Hr). by rewrite decide_True.
  - by rewrite decide_False.
Qed.

Lemma matching_some n t where_ l :
  (∀ r, is_Some (reaches s db user fuel SELECT n t r)) →
  ∃ l', matching s db user fuel n t where_ l = Ok l' ∧ ∀ r, r ∈ l' → r ∈ l ∧ where_ r = true.
Proof.
  intros Hre. induction l as [|r l (l' & Hl & Hin)].
  - exists []. split; [done|]. intros r Hr. by apply not_elem_of_nil in Hr.
  - cbn [matching]. rewrite Hl. destruct (where_ r) eqn:Hr.
    + destruct (Hre r) as [[] ->]; cbn; [exists (r :: l')|exists l']; (split; [done|]); intros x Hx.
      * apply elem_of_cons in Hx as [->|Hx]; [by split; [left|]|].
        destruct (Hin x Hx). split; [by right|done].
      * destruct (Hin x Hx). split; [by right|done].
    + cbn. exists l'. split; [done|]. intros x Hx. destruct (Hin x Hx). split; [by right|done].
Qed.

Lemma update_each_all now n t where_ set g l :
  (∀ r, r ∈ l → where_ r = true → reaches s db user fuel UPDATE n t r = Some true ∧
     before s now UPDATE t r (set r) = Ok (g r) ∧ accepts s db user fuel UPDATE n t (g r) = Some true) →
  update_each s db user fuel now n t where_ set l =
    Ok ((λ r, if where_ r then g r else r) <$> l, Z.of_nat (length (filter (λ r, where_ r = true) l))).
Proof.
  induction l as [|r l IH]; intros Hl; [done|]. cbn [update_each]. rewrite filter_cons, fmap_cons.
  rewrite IH by (intros x Hx; apply Hl; by right). destruct (where_ r) eqn:Hr.
  - destruct (Hl r ltac:(left) Hr) as (H1 & H2 & H3). rewrite H1. cbn. rewrite H2. cbn. rewrite H3. cbn.
    rewrite decide_True by done. cbn [length]. do 2 f_equal. lia.
  - cbn. by rewrite decide_False.
Qed.

Lemma delete_each_all now n t where_ l :
  (∀ r, r ∈ l → where_ r = true → reaches s db user fuel DELETE n t r = Some true ∧
     before s now DELETE t r r = Ok r) →
  delete_each s db user fuel now n t where_ l =
    Ok (filter (λ r, where_ r ≠ true) l, Z.of_nat (length (filter (λ r, where_ r = true) l))).
Proof.
  induction l as [|r l IH]; intros Hl; [done|]. cbn [delete_each]. rewrite !filter_cons.
  rewrite IH by (intros x Hx; apply Hl; by right). destruct (where_ r) eqn:Hr.
  - destruct (Hl r ltac:(left) Hr) as (H1 & H2). rewrite H1. cbn. rewrite H2. cbn.
    rewrite decide_False by congruence. rewrite decide_True by done. cbn [length]. do 2 f_equal. lia.
  - cbn. rewrite decide_True by congruence. rewrite decide_False by congruence. done.
Qed.
End Statements.

Lemma of_workspace_true c ws r : of_workspace c ws r = true ↔ r !! c = Some (VUuid ws).
Proof.
  unfold of_workspace, is_true3. rewrite bool_decide_eq_true. split.
  - intros H. apply eq3_true in H as [H _]. destruct (r !! c) as [v|]; [by f_equal|discriminate H].
  - intros ->. simpl. by rewrite bool_decide_true.
Qed.

(** the rows of the workspace *)
Definition rows_of (db : database) (ws : id) (n : string) : list row :=
filter (λ r, of_workspace (key n) ws r = true) (db n).

(** ** What the catalog must say of the tables *)

Definition exported_ok (s : catalog) (present scoped : gset string) (n : string) : bool :=
bool_decide (n ∉ EXPORT_DENYLIST) && bool_decide (n ∈ present) &&
(bool_decide (n = "workspaces") || bool_decide (n ∈ scoped)) &&
match cat_tables s !! n with
| Some t => may SELECT (map_to_list (tbl_columns t)).*1 t && admin_may s SELECT pol_using n
| None => false
end.

(** the one trigger of the table counts its versions *)
Definition versioned (s : catalog) (t : table) : bool :=
match (map_to_list (tbl_triggers t)).*2 with
| [g] => bool_decide (trg_moment g = BEFORE ∧ trg_event g = UPDATE) &&
         bool_decide (cat_functions s !! trg_function g = Some SetVersion)
| _ => false
end.

Definition withdrawn_ok (s : catalog) (present scoped : gset string) (n : string) : bool :=
bool_decide (n ∈ present) && bool_decide (n ∈ scoped) &&
bool_decide (n ≠ "workspaces" ∧ n ≠ "workspace_memberships") &&
match cat_tables s !! n with
| Some t =>
    may SELECT ["workspace_id"; "deleted_at"] t && may UPDATE ["deleted_at"] t && versioned s t &&
    admin_may s SELECT pol_using n && admin_may s UPDATE pol_using n && admin_may s UPDATE check_clause n &&
    forallb (has (tbl_columns t)) ["deleted_at"; "version"; "updated_at"]
| None => false
end.

Definition erased_ok (s : catalog) (present scoped : gset string) (n : string) : bool :=
bool_decide (n ∈ present) && bool_decide (n ∈ scoped) &&
bool_decide (n ≠ "workspaces" ∧ n ≠ "workspace_memberships") &&
match cat_tables s !! n with
| Some t =>
    may SELECT ["workspace_id"] t && may DELETE [] t &&
    forallb (λ g, negb (bool_decide (trg_moment g = BEFORE ∧ trg_event g = DELETE))) (map_to_list (tbl_triggers t)).*2 &&
    admin_may s SELECT pol_using n && admin_may s DELETE pol_using n
| None => false
end.

Definition governed (s : catalog) : bool :=
let present := _existing_tables s in
let scoped := _tables_with_workspace_column s in
forallb (exported_ok s present scoped) EXPORTABLE_TABLES &&
forallb (withdrawn_ok s present scoped) SOFT_DELETABLE_TABLES &&
forallb (erased_ok s present scoped) HARD_DELETABLE_TABLES &&
forallb (λ n, bool_decide (n ∈ EXPORTABLE_TABLES ++ EXPORT_DENYLIST)) (elements scoped).

Lemma head_governed : governed head = true.
Proof. vm_compute. reflexivity. Qed.

(** ** The requests of an administrator *)

(** the row after its withdrawal *)
Definition withdraw (now : Z) (r : row) : row :=
<["updated_at" := VTime now]> (<["version" := next_version (r !! "version")]>
  (<["deleted_at" := VTime now]> r)).
Definition live (ws : id) (r : row) : bool := of_workspace "workspace_id" ws r && is_null r "deleted_at".

Lemma withdraw_other now r c :
  c ≠ "updated_at" → c ≠ "version" → c ≠ "deleted_at" → withdraw now r !! c = r !! c.
Proof. intros. unfold withdraw. by rewrite !lookup_insert_ne. Qed.

(** the database after the withdrawals and the erasures *)
Definition withdrawn (now : Z) (ws : id) (n : string) (db : database) : database :=
put_rows db n ((λ r, if live ws r then withdraw now r else r) <$> db n).
Definition erased (ws : id) (n : string) (db : database) : database :=
put_rows db n (filter (λ r, of_workspace "workspace_id" ws r ≠ true) (db n)).

Definition administrator (db : database) (u ws : id) : Prop :=
member_as db ["admin"] u ws ∧
∀ m, m ∈ db "workspace_memberships" → m !! "workspace_id" = Some (VUuid ws) →
  m !! "user_id" = Some (VUuid u) → m !! "role" = Some (VText "admin").

Section Requests.
Context (s : catalog) (u ws : id) (fuel : nat) (now : Z).
Context (Hs : isolating s = true) (Hm : memberships_ok s = true) (Hterm : terminating s 11 = true) (Hf : (11 ≤ fuel)%nat).

Section One.
Context (db : database) (Ht : typed db s) (Hadm : member_as db ["admin"] u ws).

Lemma admin_reaches c n t r :
  cat_tables s !! n = Some t → admin_may s SELECT pol_using n = true → admin_may s c pol_using n = true →
  r !! key n = Some (VUuid ws) → reaches s db (Some u) fuel c n t r = Some true.
Proof using Hs Hm Hterm Hf Ht Hadm.
  intros Hn H1 H2 Hr. unfold reaches. destruct (tbl_row_security t); [|done].
  rewrite !(admin_passes s db u ws Hs Hm Ht Hterm Hadm fuel n t _ pol_using r Hf Hn); try done; by left.
Qed.

Lemma admin_selects n present scoped :
  exported_ok s present scoped n = true →
  select_rows s db (Some u) fuel n (of_workspace (key n) ws) = Ok (rows_of db ws n).
Proof using Hs Hm Hterm Hf Ht Hadm.
  unfold exported_ok, select_rows. intros Hok. apply andb_true_iff in Hok as [_ Hok].
  destruct (cat_tables s !! n) as [t|] eqn:Hn; [|discriminate Hok].
  apply andb_true_iff in Hok as [-> Hmay]. apply matching_all. intros r _ Hr.
  apply (admin_reaches SELECT n t r Hn Hmay Hmay). by apply of_workspace_true.
Qed.

Lemma key_workspace_id n : n ≠ "workspaces" → key n = "workspace_id".
Proof. intros Hn. unfold key. by rewrite bool_decide_false. Qed.

(** a withdrawal keeps what the next statements rely on *)
Lemma withdrawn_typed n present scoped :
  withdrawn_ok s present scoped n = true → typed (withdrawn now ws n db) s.
Proof using Ht.
  intros Hok n' t r c Hn Hr Hc. unfold withdrawn, put_rows in Hr. case_bool_decide as Heq; [subst n'|eauto].
  apply list_elem_of_fmap in Hr as (r0 & -> & Hr0).
  destruct (live ws r0); [|eauto]. unfold withdrawn_ok in Hok. rewrite Hn in Hok.
  apply andb_true_iff in Hok as [_ [_ Hcols]%andb_true_iff].
  assert (Hhas : ∀ k, k ∈ ["deleted_at"; "version"; "updated_at"] → is_Some (tbl_columns t !! k)).
  { intros k Hk. rewrite forallb_forall in Hcols. specialize (Hcols k ltac:(by apply list_elem_of_In)).
    by apply bool_decide_eq_true in Hcols. }
  destruct (decide (c = "updated_at")) as [->|H1]; [apply Hhas; right; right; left|].
  destruct (decide (c = "version")) as [->|H2]; [apply Hhas; right; left|].
  destruct (decide (c = "deleted_at")) as [->|H3]; [apply Hhas; left|].
  rewrite withdraw_other in Hc by done. eauto.
Qed.

Lemma erased_typed n : typed (erased ws n db) s.
Proof using Ht.
  intros n' t r c Hn Hr Hc. unfold erased, put_rows in Hr. case_bool_decide as Heq; [subst n'|eauto].
  apply list_elem_of_filter in Hr as [_ Hr]. eauto.
Qed.

Lemma admin_withdraws n present scoped cs :
  withdrawn_ok s present scoped n = true →
  soft_delete s (Some u) fuel now present scoped ws n (db, cs) =
    Ok (withdrawn now ws n db, cs ++ [(n, Z.of_nat (length (filter (λ r, live ws r = true) (db n))))]).
Proof using Hs Hm Hterm Hf Ht Hadm.
  intros Hok. unfold withdrawn_ok in Hok.
  apply andb_true_iff in Hok as [[[Hp Hw]%andb_true_iff Hk%bool_decide_eq_true]%andb_true_iff Hok].
  unfold soft_delete, update_rows, with_table. rewrite Hp, Hw. cbn [negb fst snd].
  destruct (cat_tables s !! n) as [t|] eqn:Hn; [|discriminate Hok].
  apply andb_true_iff in Hok as [[[[[[H1 H2]%andb_true_iff H3]%andb_true_iff H4]%andb_true_iff
    H5]%andb_true_iff H6]%andb_true_iff _].
  rewrite H1, H2. cbn [andb mbind result_bind].
  rewrite (update_each_all s db (Some u) fuel now n t _ _ (withdraw now)); [reflexivity|].
  intros r _ Hr. apply andb_true_iff in Hr as [Hr%of_workspace_true _].
  assert (Hkey : r !! key n = Some (VUuid ws)) by (by rewrite (key_workspace_id n (proj1 Hk))).
  split; [exact (admin_reaches UPDATE n t r Hn H4 H5 Hkey)|]. split.
  - unfold before, versioned in *. destruct ((map_to_list (tbl_triggers t)).*2) as [|g [|]]; try discriminate H3.
    apply andb_true_iff in H3 as [Hg1 Hg2%bool_decide_eq_true]. cbn [fire]. rewrite Hg1, Hg2. reflexivity.
  - unfold accepts. destruct (tbl_row_security t); [|done].
    assert (Hnew : withdraw now r !! key n = Some (VUuid ws)).
    { rewrite key_workspace_id in Hkey |- * by (exact (proj1 Hk)). by rewrite withdraw_other. }
    rewrite (admin_passes s db u ws Hs Hm Ht Hterm Hadm fuel n t _ check_clause _ Hf Hn ltac:(by right) H6 Hnew).
    rewrite (admin_passes s db u ws Hs Hm Ht Hterm Hadm fuel n t _ pol_using _ Hf Hn ltac:(by left) H4 Hnew).
    reflexivity.
Qed.

Lemma admin_erases n present scoped cs :
  erased_ok s present scoped n = true →
  hard_delete s (Some u) fuel now present scoped ws n (db, cs) =
    Ok (erased ws n db, cs ++ [(n, Z.of_nat (length (rows_of db ws n)))]).
Proof using Hs Hm Hterm Hf Ht Hadm.
  intros Hok. unfold erased_ok in Hok.
  apply andb_true_iff in Hok as [[[Hp Hw]%andb_true_iff Hk%bool_decide_eq_true]%andb_true_iff Hok].
  unfold hard_delete, delete_rows, with_table. rewrite Hp, Hw. cbn [negb fst snd].
  destruct (cat_tables s !! n) as [t|] eqn:Hn; [|discriminate Hok].
  apply andb_true_iff in Hok as [[[[H1 H2]%andb_true_iff H3]%andb_true_iff H4]%andb_true_iff H5].
  rewrite H1, H2. cbn [andb mbind result_bind].
  rewrite (delete_each_all s db (Some u) fuel now n t); [unfold rows_of; rewrite (key_workspace_id n (proj1 Hk)); reflexivity|].
  intros r _ Hr%of_workspace_true.
  assert (Hkey : r !! key n = Some (VUuid ws)) by (by rewrite (key_workspace_id n (proj1 Hk))).
  split; [exact (admin_reaches DELETE n t r Hn H4 H5 Hkey)|].
  unfold before. induction ((map_to_list (tbl_triggers t)).*2) as [|g l IH]; [done|].
  cbn [forallb] in H3. apply andb_true_iff in H3 as [Hno%negb_true_iff H3]. cbn [fire]. rewrite Hno.
  cbn [mbind result_bind]. by apply IH.
Qed.
End One.

Lemma put_rows_other db n rows n' : n' ≠ n → put_rows db n rows n' = db n'.
Proof. intros Hn. unfold put_rows. by rewrite bool_decide_false. Qed.

Lemma member_as_rows db db' roles :
  db' "workspace_memberships" = db "workspace_memberships" → member_as db roles u ws → member_as db' roles u ws.
Proof. unfold member_as. by intros ->. Qed.

(** a whole list of tables *)
Definition withdrawals (l : list string) (db : database) : database :=
fold_left (λ db n, withdrawn now ws n db) l db.
Definition erasures (l : list string) (db : database) : database :=
fold_left (λ db n, erased ws n db) l db.

Lemma withdrawn_ok_other present scoped n :
  withdrawn_ok s present scoped n = true → n ≠ "workspace_memberships".
Proof.
  intros Hok. unfold withdrawn_ok in Hok.
  by apply andb_true_iff in Hok as [[_ [_ Hk]%bool_decide_eq_true]%andb_true_iff _].
Qed.
Lemma erased_ok_other present scoped n :
  erased_ok s present scoped n = true → n ≠ "workspace_memberships".
Proof.
  intros Hok. unfold erased_ok in Hok.
  by apply andb_true_iff in Hok as [[_ [_ Hk]%bool_decide_eq_true]%andb_true_iff _].
Qed.

Lemma withdrawals_run l present scoped : ∀ db cs,
  forallb (withdrawn_ok s present scoped) l = true → NoDup l → typed db s → member_as db ["admin"] u ws →
  each (soft_delete s (Some u) fuel now present scoped ws) l (db, cs) =
    Ok (withdrawals l db, cs ++ ((λ n, (n, Z.of_nat (length (filter (λ r, live ws r = true) (db n))))) <$> l)) ∧
  typed (withdrawals l db) s ∧ member_as (withdrawals l db) ["admin"] u ws ∧
  (∀ n, withdrawals l db n =
     if bool_decide (n ∈ l) then (λ r, if live ws r then withdraw now r else r) <$> db n else db n).
Proof using Hs Hm Hterm Hf.
  induction l as [|n l IH]; intros db cs Hok Hnd Ht Hadm; [by rewrite app_nil_r|].
  cbn [forallb] in Hok. apply andb_true_iff in Hok as [Hn Hok]. apply NoDup_cons in Hnd as [Hnl Hnd].
  cbn [each]. rewrite (admin_withdraws db Ht Hadm n present scoped cs Hn). cbn [mbind result_bind].
  assert (Ht' := withdrawn_typed db Ht n present scoped Hn).
  assert (Hadm' : member_as (withdrawn now ws n db) ["admin"] u ws).
  { apply (member_as_rows db); [|done]. apply put_rows_other. intros E. by apply (withdrawn_ok_other _ _ _ Hn). }
  destruct (IH (withdrawn now ws n db) (cs ++ [(n, Z.of_nat (length (filter (λ r, live ws r = true) (db n))))])
    Hok Hnd Ht' Hadm') as (H1 & H2 & H3 & H4).
  split_and!; [|exact H2|exact H3|].
  - rewrite H1, <- app_assoc. do 3 f_equal. cbn. f_equal. apply list_fmap_ext. intros i x Hx.
    unfold withdrawn. rewrite put_rows_other; [done|]. intros ->. apply Hnl. by apply list_elem_of_lookup_2 in Hx.
  - intros k. change (withdrawals (n :: l) db) with (withdrawals l (withdrawn now ws n db)). rewrite H4.
    unfold withdrawn. destruct (decide (k = n)) as [->|Hkn].
    + rewrite (bool_decide_false _ Hnl), bool_decide_true by left. unfold put_rows. by rewrite bool_decide_true.
    + rewrite put_rows_other by done. by rewrite (bool_decide_ext (k ∈ n :: l) (k ∈ l)) by (rewrite elem_of_cons; tauto).
Qed.

Lemma erasures_run l present scoped : ∀ db cs,
  forallb (erased_ok s present scoped) l = true → NoDup l → typed db s → member_as db ["admin"] u ws →
  each (hard_delete s (Some u) fuel now present scoped ws) l (db, cs) =
    Ok (erasures l db, cs ++ ((λ n, (n, Z.of_nat (length (rows_of db ws n)))) <$> l)) ∧
  (∀ n, erasures l db n =
     if bool_decide (n ∈ l) then filter (λ r, of_workspace "workspace_id" ws r ≠ true) (db n) else db n).
Proof using Hs Hm Hterm Hf.
  induction l as [|n l IH]; intros db cs Hok Hnd Ht Hadm; [by rewrite app_nil_r|].
  cbn [forallb] in Hok. apply andb_true_iff in Hok as [Hn Hok]. apply NoDup_cons in Hnd as [Hnl Hnd].
  cbn [each]. rewrite (admin_erases db Ht Hadm n present scoped cs Hn). cbn [mbind result_bind].
  assert (Hadm' : member_as (erased ws n db) ["admin"] u ws).
  { apply (member_as_rows db); [|done]. apply put_rows_other. intros E. by apply (erased_ok_other _ _ _ Hn). }
  destruct (IH (erased ws n db) (cs ++ [(n, Z.of_nat (length (rows_of db ws n)))])
    Hok Hnd (erased_typed db Ht n) Hadm') as (H1 & H4).
  split.
  - rewrite H1, <- app_assoc. do 3 f_equal. cbn. f_equal. apply list_fmap_ext. intros i x Hx.
    unfold rows_of, erased. rewrite put_rows_other; [done|]. intros ->. apply Hnl. by apply list_elem_of_lookup_2 in Hx.
  - intros k. change (erasures (n :: l) db) with (erasures l (erased ws n db)). rewrite H4.
    unfold erased. destruct (decide (k = n)) as [->|Hkn].
    + rewrite (bool_decide_false _ Hnl), bool_decide_true by left. unfold put_rows. by rewrite bool_decide_true.
    + rewrite put_rows_other by done. by rewrite (bool_decide_ext (k ∈ n :: l) (k ∈ l)) by (rewrite elem_of_cons; tauto).
Qed.
End Requests.

(** ** The export *)

Section Exporting.
Context (s : catalog) (db : database) (u ws : id) (fuel : nat) (now : Z) (datetime_str : Z → string).
Context (Hs : isolating s = true) (Hm : memberships_ok s = true) (Ht : typed db s)
  (Hterm : terminating s 11 = true) (Hf : (11 ≤ fuel)%nat) (Hadm : member_as db ["admin"] u ws).

(** what the bundle shows of a table *)
Definition exported (n : string) : list record :=
serialise datetime_str <$> take (Z.to_nat EXPORT_MAX_ROWS_PER_TABLE) (rows_of db ws n).
Definition over_limit (n : string) : bool :=
bool_decide (EXPORT_MAX_ROWS_PER_TABLE < Z.of_nat (length (rows_of db ws n))).

Lemma limited_rows {A} (m : Z) (rows : list A) :
  0 ≤ m →
  let fetched := take (Z.to_nat (m + 1)) rows in
  bool_decide (m < Z.of_nat (length fetched)) = bool_decide (m < Z.of_nat (length rows)) ∧
  (if bool_decide (m < Z.of_nat (length fetched)) then take (Z.to_nat m) fetched else fetched) =
    take (Z.to_nat m) rows.
Proof.
  intros Hm0 fetched. subst fetched. rewrite length_take. split.
  - apply bool_decide_ext. lia.
  - case_bool_decide as H.
    + rewrite take_take. f_equal. lia.
    + rewrite !take_ge; [done|lia..].
Qed.
Lemma whole_rows {A} (m : Z) (rows : list A) :
  0 ≤ m → (if bool_decide (m < Z.of_nat (length rows)) then take (Z.to_nat m) rows else rows) = take (Z.to_nat m) rows.
Proof. intros Hm0. case_bool_decide; [done|]. rewrite take_ge; [done|lia]. Qed.

Lemma export_step n present scoped tables counts truncated :
  exported_ok s present scoped n = true →
  export_table s (Some u) fuel datetime_str db present scoped ws n (tables, counts, truncated) =
    Ok (tables ++ [(n, exported n)], counts ++ [(n, Z.of_nat (length (exported n)))],
        if over_limit n then truncated ++ [n] else truncated).
Proof using Hs Hm Hterm Hf Ht Hadm.
  intros Hok. assert (Hsel := admin_selects s u ws fuel Hs Hm Hterm Hf db Ht Hadm n present scoped Hok).
  unfold exported_ok in Hok.
  apply andb_true_iff in Hok as [[[H1%bool_decide_eq_true H2]%andb_true_iff H3]%andb_true_iff _].
  assert (H0 : 0 ≤ EXPORT_MAX_ROWS_PER_TABLE) by done.
  unfold export_table, exported, over_limit. rewrite (bool_decide_false _ H1), H2. cbn [negb].
  generalize dependent EXPORT_MAX_ROWS_PER_TABLE. intros m Hm0. destruct (String.eqb n "workspaces") eqn:Hn.
  - apply String.eqb_eq in Hn as ->. change (key "workspaces") with "id" in Hsel. rewrite Hsel.
    cbn [on_db mbind result_bind]. by rewrite whole_rows.
  - apply String.eqb_neq in Hn. rewrite (key_workspace_id n Hn) in Hsel. rewrite Hsel.
    rewrite (bool_decide_false _ Hn) in H3. cbn [orb] in H3. rewrite H3. cbn [on_db mbind result_bind].
    destruct (limited_rows m (rows_of db ws n) Hm0) as [E1 E2]. rewrite E2, E1. reflexivity.
Qed.

Lemma export_run present scoped l : ∀ tables counts truncated,
  forallb (exported_ok s present scoped) l = true →
  each (export_table s (Some u) fuel datetime_str db present scoped ws) l (tables, counts, truncated) =
    Ok (tables ++ ((λ n, (n, exported n)) <$> l),
        counts ++ ((λ n, (n, Z.of_nat (length (exported n)))) <$> l),
        truncated ++ filter (λ n, over_limit n = true) l).
Proof using Hs Hm Hterm Hf Ht Hadm.
  induction l as [|n l IH]; intros tables counts truncated Hok; [by rewrite !app_nil_r|].
  cbn [forallb] in Hok. apply andb_true_iff in Hok as [Hn Hok]. cbn [each].
  rewrite (export_step n present scoped _ _ _ Hn). cbn [mbind result_bind]. rewrite (IH _ _ _ Hok).
  rewrite filter_cons, <- !app_assoc. destruct (over_limit n) eqn:Ho; cbn; by rewrite <- ?app_assoc.
Qed.
End Exporting.

(** ** The guard *)

Section Guard.
Context (s : catalog) (db : database) (fuel : nat).
Context (Hs : isolating s = true) (Hm : memberships_ok s = true) (Ht : typed db s)
  (Hterm : terminating s 11 = true) (Hf : (11 ≤ fuel)%nat) (Hg : governed s = true).

Definition of_user (u ws : id) (m : row) : bool :=
of_workspace "workspace_id" ws m && of_workspace "user_id" u m.

Lemma of_user_true u ws m :
  of_user u ws m = true ↔ m !! "workspace_id" = Some (VUuid ws) ∧ m !! "user_id" = Some (VUuid u).
Proof. unfold of_user. by rewrite andb_true_iff, !of_workspace_true. Qed.

Lemma memberships_exported :
  ∃ t, cat_tables s !! "workspace_memberships" = Some t ∧
    may SELECT (map_to_list (tbl_columns t)).*1 t = true ∧ admin_may s SELECT pol_using "workspace_memberships" = true.
Proof using Hg.
  unfold governed in Hg. apply andb_true_iff in Hg as [[[Hex _]%andb_true_iff _]%andb_true_iff _].
  rewrite forallb_forall in Hex. specialize (Hex "workspace_memberships" ltac:(right; left; reflexivity)).
  unfold exported_ok in Hex. apply andb_true_iff in Hex as [_ Hex].
  destruct (cat_tables s !! "workspace_memberships") as [t|]; [|discriminate Hex].
  exists t. apply andb_true_iff in Hex as [H1 H2]. auto.
Qed.

Lemma guard_admin u ws :
  administrator db u ws → require_workspace_admin s (Some u) fuel db ws = Answer tt.
Proof using Hs Hm Ht Hterm Hf Hg.
  intros [Hadm Hall]. unfold require_workspace_admin, select_rows.
  destruct memberships_exported as (t & Hn & Hmay & Hadmin). rewrite Hn, Hmay.
  rewrite matching_all.
  2: { intros r _ Hr. apply of_user_true in Hr as [Hr _].
       by apply (admin_reaches s u ws fuel Hs Hm Hterm Hf db Ht Hadm). }
  destruct (filter _ _) as [|m l] eqn:Hl.
  - destruct Hadm as (m & x & Hin & Hw & Hu & _). exfalso. apply (not_elem_of_nil m). rewrite <- Hl.
    apply list_elem_of_filter. split; [by apply of_user_true|done].
  - assert (Hin : m ∈ m :: l) by left. rewrite <- Hl in Hin.
    apply list_elem_of_filter in Hin as [[Hw Hu]%of_user_true Hin].
    by rewrite (bool_decide_true _ (Hall m Hin Hw Hu)).
Qed.

Lemma guard_refuses user ws :
  (∀ u m, user = Some u → m ∈ db "workspace_memberships" → m !! "workspace_id" = Some (VUuid ws) →
     m !! "user_id" = Some (VUuid u) → m !! "role" ≠ Some (VText "admin")) →
  ∃ code detail, require_workspace_admin s user fuel db ws = Http code detail ∧ (code = 401 ∨ code = 403).
Proof using Hs Hm Ht Hterm Hf Hg.
  intros Hno. unfold require_workspace_admin. destruct user as [u|]; [|by eauto].
  unfold select_rows. destruct memberships_exported as (t & Hn & Hmay & _). rewrite Hn, Hmay.
  destruct (matching_some s db (Some u) fuel "workspace_memberships" t (of_user u ws) (db "workspace_memberships"))
    as (l & Hl & Hin).
  { intros r. unfold reaches. destruct (tbl_row_security t); [|by eexists].
    destruct (passes_decided s db (Some u) 11 fuel "workspace_memberships" t SELECT pol_using r Hterm Hf Hn
      ltac:(by left)) as [x Hx]. rewrite Hx. by eexists. }
  unfold of_user in Hl. rewrite Hl. destruct l as [|m l]; [by eauto|].
  destruct (Hin m ltac:(left)) as (Hm' & [Hw Hu]%of_user_true).
  rewrite (bool_decide_false _ (Hno u m eq_refl Hm' Hw Hu)). eauto.
Qed.

Lemma refused_requests user ws confirm now datetime_str :
  (∀ u m, user = Some u → m ∈ db "workspace_memberships" → m !! "workspace_id" = Some (VUuid ws) →
     m !! "user_id" = Some (VUuid u) → m !! "role" ≠ Some (VText "admin")) →
  ∃ code detail, (code = 401 ∨ code = 403) ∧
    export_workspace_data s user fuel now datetime_str db ws = Http code detail ∧
    request_workspace_deletion s user fuel now db ws confirm = (Http code detail, db).
Proof using Hs Hm Ht Hterm Hf Hg.
  intros Hno. destruct (guard_refuses user ws Hno) as (code & detail & H & Hc).
  exists code, detail. unfold export_workspace_data, request_workspace_deletion. rewrite H. auto.
Qed.

Lemma unconfirmed_request u ws confirm now :
  administrator db u ws → confirm ≠ ws →
  ∃ detail, request_workspace_deletion s (Some u) fuel now db ws confirm = (Http 400 detail, db).
Proof using Hs Hm Ht Hterm Hf Hg.
  intros Hadm Hne. unfold request_workspace_deletion. rewrite (guard_admin u ws Hadm).
  unfold delete_workspace_content. rewrite (bool_decide_false _ Hne). cbn [negb]. eexists. reflexivity.
Qed.
End Guard.

(** ** The requests of an administrator, as a whole *)

Lemma pairs_fst {A B} (f : A → B) l : ((λ x, (x, f x)) <$> l).*1 = l.
Proof. induction l as [|x l IH]; [done|]. cbn. by f_equal. Qed.

Lemma governed_covers s n :
  governed s = true → n ∈ _tables_with_workspace_column s → n ∈ EXPORTABLE_TABLES ++ EXPORT_DENYLIST.
Proof.
  intros Hg Hn. unfold governed in Hg. apply andb_true_iff in Hg as [_ Hcov]. rewrite forallb_forall in Hcov.
  apply elem_of_elements, list_elem_of_In in Hn. specialize (Hcov n Hn). by apply bool_decide_eq_true in Hcov.
Qed.

Lemma soft_not_hard n : n ∈ SOFT_DELETABLE_TABLES → n ∉ HARD_DELETABLE_TABLES.
Proof.
  intros Hs.
  assert (Hb : forallb (λ n, bool_decide (n ∉ HARD_DELETABLE_TABLES)) SOFT_DELETABLE_TABLES = true)
    by (vm_compute; reflexivity).
  rewrite forallb_forall in Hb. specialize (Hb n ltac:(by apply list_elem_of_In)).
  by apply bool_decide_eq_true in Hb.
Qed.

Section Whole.
Context (s : catalog) (db : database) (fuel : nat).
Context (Hs : isolating s = true) (Hm : memberships_ok s = true) (Ht : typed db s)
  (Hterm : terminating s 11 = true) (Hf : (11 ≤ fuel)%nat) (Hg : governed s = true).
Context (u ws : id) (now : Z) (Hadm : administrator db u ws).

Lemma admin_exports (datetime_str : Z → string) :
  ∃ b, export_workspace_data s (Some u) fuel now datetime_str db ws = Answer b ∧
    eb_tables b = (λ n, (n, exported db ws datetime_str n)) <$> EXPORTABLE_TABLES ∧
    eb_row_counts b = (λ n, (n, Z.of_nat (length (exported db ws datetime_str n)))) <$> EXPORTABLE_TABLES ∧
    eb_truncated_tables b = filter (λ n, over_limit db ws n = true) EXPORTABLE_TABLES ∧
    ∀ n, n ∈ _tables_with_workspace_column s → n ∈ (eb_tables b).*1 ∨ n ∈ eb_excluded_tables b.
Proof using Hs Hm Ht Hterm Hf Hg Hadm.
  unfold export_workspace_data.
  rewrite (guard_admin s db fuel Hs Hm Ht Hterm Hf Hg u ws Hadm).
  assert (Hg' := Hg). unfold governed in Hg'. apply andb_true_iff in Hg' as [[[Hex _]%andb_true_iff _]%andb_true_iff _].
  unfold export_workspace.
  rewrite (export_run s db u ws fuel datetime_str Hs Hm Ht Hterm Hf
    (proj1 Hadm) _ _ _ [] [] [] Hex).
  cbn [mbind result_bind answer]. eexists. split; [reflexivity|].
  cbn [eb_tables eb_row_counts eb_truncated_tables eb_excluded_tables]. split_and!; [reflexivity..|].
  intros n Hn. destruct (proj1 (elem_of_app _ _ _) (governed_covers s n Hg Hn)) as [Hn'|Hn'].
  - left. change (n ∈ ((λ n, (n, exported db ws datetime_str n)) <$> EXPORTABLE_TABLES).*1).
    rewrite pairs_fst. exact Hn'.
  - right. unfold Research.sorted_strings. by apply elem_of_order_by.
Qed.

Lemma admin_deletes :
  ∃ outcome db', request_workspace_deletion s (Some u) fuel now db ws ws = (Answer outcome, db') ∧
    (∀ n, db' n =
       if bool_decide (n ∈ SOFT_DELETABLE_TABLES) then (λ r, if live ws r then withdraw now r else r) <$> db n
       else if bool_decide (n ∈ HARD_DELETABLE_TABLES) then
         filter (λ r, of_workspace "workspace_id" ws r ≠ true) (db n)
       else db n) ∧
    do_soft_deleted_counts outcome =
      (λ n, (n, Z.of_nat (length (filter (λ r, live ws r = true) (db n))))) <$> SOFT_DELETABLE_TABLES ∧
    do_hard_deleted_counts outcome =
      (λ n, (n, Z.of_nat (length (rows_of db ws n)))) <$> HARD_DELETABLE_TABLES.
Proof using Hs Hm Ht Hterm Hf Hg Hadm.
  unfold request_workspace_deletion.
  rewrite (guard_admin s db fuel Hs Hm Ht Hterm Hf Hg u ws Hadm).
  assert (Hg' := Hg). unfold governed in Hg'. apply andb_true_iff in Hg' as [[[_ Hsoft]%andb_true_iff Hhard]%andb_true_iff _].
  unfold delete_workspace_content. rewrite (bool_decide_true (ws = ws)) by done. cbn [negb].
  assert (Hn1 : NoDup SOFT_DELETABLE_TABLES) by (apply (bool_decide_unpack _); vm_compute; exact I).
  assert (Hn2 : NoDup HARD_DELETABLE_TABLES) by (apply (bool_decide_unpack _); vm_compute; exact I).
  destruct (withdrawals_run s u ws fuel now Hs Hm Hterm Hf
    _ _ _ db [] Hsoft Hn1 Ht (proj1 Hadm)) as (R1 & Ht1 & Ha1 & E1).
  rewrite R1. cbn [mbind result_bind fst snd].
  destruct (erasures_run s u ws fuel now Hs Hm Hterm Hf
    _ _ _ (withdrawals ws now SOFT_DELETABLE_TABLES db) [] Hhard Hn2 Ht1 Ha1) as (R2 & E2).
  rewrite R2. cbn [mbind result_bind fst snd]. eexists _, _. split; [reflexivity|].
  cbn [do_soft_deleted_counts do_hard_deleted_counts]. split_and!; [|reflexivity|].
  - intros n. rewrite E2, E1. destruct (decide (n ∈ SOFT_DELETABLE_TABLES)) as [Hn|Hn].
    + rewrite (bool_decide_true _ Hn), bool_decide_false; [done|]. clear -Hn. intros Hh.
      by apply (soft_not_hard n).
    + by rewrite (bool_decide_false _ Hn).
  - cbn [app]. apply list_fmap_ext. intros i n Hn%list_elem_of_lookup_2. unfold rows_of. rewrite E1.
    rewrite bool_decide_false; [done|]. intros Hs'. by apply (soft_not_hard n).
Qed.
End Whole.

(** ** The properties *)

(** C12: an administrator's export holds, for every exportable table, the workspace's own rows and no
    others, up to the ceiling; each table cut at the ceiling is named, the counts are those of the
    rows shown, and every table of the database with a workspace column is in the bundle or
    named as excluded. *)
Theorem export_complete (db : database) (u ws : id) (fuel : nat) (now : Z) (datetime_str : Z → string) :
  typed db head → administrator db u ws → (11 ≤ fuel)%nat →
  ∃ b, export_workspace_data head (Some u) fuel now datetime_str db ws = Answer b ∧
    eb_tables b = (λ n, (n, exported db ws datetime_str n)) <$> EXPORTABLE_TABLES ∧
    eb_row_counts b = (λ n, (n, Z.of_nat (length (exported db ws datetime_str n)))) <$> EXPORTABLE_TABLES ∧
    eb_truncated_tables b = filter (λ n, over_limit db ws n = true) EXPORTABLE_TABLES ∧
    ∀ n, n ∈ _tables_with_workspace_column head → n ∈ (eb_tables b).*1 ∨ n ∈ eb_excluded_tables b.
Proof.
  intros Ht Hadm Hf.
  exact (admin_exports head db fuel head_isolating head_memberships Ht head_terminating Hf head_governed
    u ws now Hadm datetime_str).
Qed.

(** C11: an administrator's deletion, confirmed with the same workspace, withdraws every live row of
    the workspace in the four content tables (tombstone and next version), erases its rows in
    the three tables that allow it, reports the counts of both, and leaves every
    other row of the database as it was. *)
Theorem deletion_withdraws (db : database) (u ws : id) (fuel : nat) (now : Z) :
  typed db head → administrator db u ws → (11 ≤ fuel)%nat →
  ∃ outcome db', request_workspace_deletion head (Some u) fuel now db ws ws = (Answer outcome, db') ∧
    (∀ n, db' n =
       if bool_decide (n ∈ SOFT_DELETABLE_TABLES) then (λ r, if live ws r then withdraw now r else r) <$> db n
       else if bool_decide (n ∈ HARD_DELETABLE_TABLES) then
         filter (λ r, of_workspace "workspace_id" ws r ≠ true) (db n)
       else db n) ∧
    do_soft_deleted_counts outcome =
      (λ n, (n, Z.of_nat (length (filter (λ r, live ws r = true) (db n))))) <$> SOFT_DELETABLE_TABLES ∧
    do_hard_deleted_counts outcome =
      (λ n, (n, Z.of_nat (length (rows_of db ws n)))) <$> HARD_DELETABLE_TABLES.
Proof.
  intros Ht Hadm Hf.
  exact (admin_deletes head db fuel head_isolating head_memberships Ht head_terminating Hf head_governed
    u ws now Hadm).
Qed.

(** Neither request does anything for who is not an administrator of the workspace: it is
    answered 401 or 403, and the database stays as it was.  A deletion that names another
    workspace in its confirmation changes nothing either, and is answered 400 to an
    administrator. *)
Theorem data_requests_refused (db : database) (user : option id) (ws confirm : id) (fuel : nat) (now : Z)
  (datetime_str : Z → string) :
  typed db head → (11 ≤ fuel)%nat →
  ((∀ u m, user = Some u → m ∈ db "workspace_memberships" → m !! "workspace_id" = Some (VUuid ws) →
      m !! "user_id" = Some (VUuid u) → m !! "role" ≠ Some (VText "admin")) →
   ∃ code detail, (code = 401 ∨ code = 403) ∧
     export_workspace_data head user fuel now datetime_str db ws = Http code detail ∧
     request_workspace_deletion head user fuel now db ws confirm = (Http code detail, db)) ∧
  (∀ u, user = Some u → administrator db u ws → confirm ≠ ws →
   ∃ detail, request_workspace_deletion head user fuel now db ws confirm = (Http 400 detail, db)).
Proof.
  intros Ht Hf. split.
  - exact (refused_requests head db fuel head_isolating head_memberships Ht head_terminating Hf head_governed
      user ws confirm now datetime_str).
  - intros u -> Hadm Hne.
    exact (unconfirmed_request head db fuel head_isolating head_memberships Ht head_terminating Hf head_governed
      u ws confirm now Hadm Hne).
Qed.

(** ** Witnesses *)

(** user 1 is an administrator of workspace 10, user 3 of workspace 20 *)
Definition lead (ws i : id) : row := {["workspace_id" := VUuid ws; "id" := VUuid i]}.
Definition item (ws i : id) (deleted_at : value) : row :=
{["workspace_id" := VUuid ws; "id" := VUuid i; "deleted_at" := deleted_at; "version" := VInt 1]}.
Definition two_tenants : list (string * list row) :=
[("workspaces", [{["id" := VUuid 10; "created_by" := VUuid 1]}; {["id" := VUuid 20; "created_by" := VUuid 3]}]);
 ("workspace_memberships", [membership_row 1 10 "admin"; membership_row 2 10 "editor"; membership_row 3 20 "admin"]);
 ("leads", [lead 10 5; lead 20 6]);
 ("content_items", [item 10 7 VNull; item 10 8 (VTime 3); item 20 9 VNull])].

Lemma two_tenants_typed : typed (db_of two_tenants) head.
Proof. apply db_of_typed. vm_compute. reflexivity. Qed.

Lemma two_tenants_admin : administrator (db_of two_tenants) 1 10.
Proof.
  split.
  - exists (membership_row 1 10 "admin"), "admin". split; [left|]. split_and!; try reflexivity. left.
  - assert (Hb : forallb (λ m, negb (bool_decide (m !! "workspace_id" = Some (VUuid 10)) &&
      bool_decide (m !! "user_id" = Some (VUuid 1))) || bool_decide (m !! "role" = Some (VText "admin")))
      (db_of two_tenants "workspace_memberships") = true) by (vm_compute; reflexivity).
    rewrite forallb_forall in Hb. intros m Hin Hw Hu. specialize (Hb m ltac:(by apply list_elem_of_In)).
    rewrite Hw, Hu in Hb. rewrite !bool_decide_true in Hb by reflexivity. by apply bool_decide_eq_true in Hb.
Qed.

Lemma export_complete_witness :
  ∃ b, export_workspace_data head (Some 1%positive) 11 0 pretty (db_of two_tenants) 10 = Answer b ∧
    eb_truncated_tables b = [] ∧ ("leads", [serialise pretty (lead 10 5)]) ∈ eb_tables b.
Proof.
  destruct (export_complete (db_of two_tenants) 1 10 11 0 pretty two_tenants_typed two_tenants_admin (le_n 11))
    as (b & H1 & H2 & _ & H4 & _).
  exists b. split; [exact H1|]. split; [rewrite H4; vm_compute; reflexivity|].
  rewrite H2. apply list_elem_of_fmap. exists "leads". split; [vm_compute; reflexivity|].
  apply (bool_decide_unpack _). vm_compute. exact I.
Defined.

Lemma deletion_withdraws_witness :
  ∃ outcome db', request_workspace_deletion head (Some 1%positive) 11 9 (db_of two_tenants) 10 10 =
      (Answer outcome, db') ∧
    db' "leads" = [lead 20 6] ∧
    db' "content_items" = [withdraw 9 (item 10 7 VNull); item 10 8 (VTime 3); item 20 9 VNull] ∧
    do_soft_deleted_counts outcome =
      [("publish_jobs", 0); ("assets", 0); ("content_items", 1); ("content_pillars", 0)].
Proof.
  destruct (deletion_withdraws (db_of two_tenants) 1 10 11 9 two_tenants_typed two_tenants_admin (le_n 11))
    as (o & db' & H1 & H2 & H3 & _).
  exists o, db'. split; [exact H1|]. split_and!.
  - rewrite (H2 "leads"). vm_compute. reflexivity.
  - rewrite (H2 "content_items"). vm_compute. reflexivity.
  - rewrite H3. vm_compute. reflexivity.
Defined.

Lemma data_requests_refused_witness :
  (request_workspace_deletion head (Some 1%positive) 11 9 (db_of two_tenants) 20 20).1 =
    Http 403 "not a member of this workspace" ∧
  ∃ code detail, (code = 401 ∨ code = 403) ∧
    export_workspace_data head (Some 1%positive) 11 9 pretty (db_of two_tenants) 20 = Http code detail ∧
    request_workspace_deletion head (Some 1%positive) 11 9 (db_of two_tenants) 20 20 = (Http code detail, db_of two_tenants).
Proof.
  split; [vm_compute; reflexivity|].
  apply (data_requests_refused (db_of two_tenants) (Some 1%positive) 20 20 11 9 pretty two_tenants_typed (le_n 11)).
  intros u m [= <-] Hin Hw Hu.
  assert (Hb : forallb (λ m, negb (bool_decide (m !! "workspace_id" = Some (VUuid 20)) &&
    bool_decide (m !! "user_id" = Some (VUuid 1)))) (db_of two_tenants "workspace_memberships") = true)
    by (vm_compute; reflexivity).
  rewrite forallb_forall in Hb. specialize (Hb m ltac:(by apply list_elem_of_In)).
  rewrite Hw, Hu in Hb. discriminate Hb.
Defined.
