(* ===== verification/EvidenceSpec.v ===== *)
(** * Nothing is produced without evidence

    Along every trace of the departments a production job rests on a chain of
    independent audits: four content audits of its package, a strategy audit
    of the package's brief, a research audit of every opportunity the brief
    was made from, and two sources at least behind each of those.  The audit
    tables only grow, so a pass that was seen by a gate stays on record. *)

From S2P Require Import Prelude Models Database Outbox PyJson StudioModels System Portal.
From S2P Require Research Strategy ContentDepartment Production Compliance.

(** ** What is on record *)

Definition passing_research (o : id) (s : Studio) : Prop :=
  ∃ i a, st_research_audits s !! i = Some a ∧ raud_opportunity_id a = o ∧ raud_state a = "pass".
Definition passing_strategy (b : id) (s : Studio) : Prop :=
  ∃ i a, st_strategy_audits s !! i = Some a ∧ saud_strategy_brief_id a = b ∧ saud_state a = "pass".
Definition passing_content (p : id) (kind : string) (s : Studio) : Prop :=
  ∃ i a, st_content_audits s !! i = Some a ∧ caud_content_package_id a = p ∧
    caud_auditor_type a = kind ∧ caud_state a = "pass".
Definition linked (b : id) (s : Studio) : Prop :=
  ∃ k l, st_brief_links s !! k = Some l ∧ link_strategy_brief_id l = b.
(** all four auditors passed the package *)
Definition fully_audited (p : id) (s : Studio) : Prop :=
  ∀ kind, kind ∈ ContentDepartment._MANDATORY_AUDITORS → passing_content p kind s.

(** Rows of the four tables of evidence stay as they are, and no package goes. *)
Definition evidence_stays (s s' : Studio) : Prop :=
  st_research_audits s ⊆ st_research_audits s' ∧ st_strategy_audits s ⊆ st_strategy_audits s' ∧
  st_content_audits s ⊆ st_content_audits s' ∧ st_brief_links s ⊆ st_brief_links s' ∧
  ∀ i, is_Some (st_packages s !! i) → is_Some (st_packages s' !! i).

Definition ids_below (s : Studio) : Prop :=
  let n := w_next (st_world s) in
  below n (st_research_audits s) ∧ below n (st_strategy_audits s) ∧
  below n (st_content_audits s) ∧ below n (st_brief_links s).

(** the invariant *)
Definition research_ok (s : Studio) : Prop :=
  ∀ i a, st_research_audits s !! i = Some a → raud_state a = "pass" →
    (2 ≤ length (raud_findings a))%nat.
Definition links_ok (s : Studio) : Prop :=
  ∀ k l, st_brief_links s !! k = Some l → passing_research (link_opportunity_id l) s.
Definition strategy_ok (s : Studio) : Prop :=
  ∀ i a, st_strategy_audits s !! i = Some a → saud_state a = "pass" →
    linked (saud_strategy_brief_id a) s.
Definition packages_ok (s : Studio) : Prop :=
  ∀ i p, st_packages s !! i = Some p → passing_strategy (pkg_strategy_brief_id p) s ∧
    (pkg_audit_gate_status p = "pass" → fully_audited i s).
Definition jobs_ok (s : Studio) : Prop :=
  ∀ j job, st_production_jobs s !! j = Some job →
    is_Some (st_packages s !! pjob_content_package_id job) ∧
    fully_audited (pjob_content_package_id job) s.

Definition evidenced (s : Studio) : Prop :=
  ids_below s ∧ research_ok s ∧ links_ok s ∧ strategy_ok s ∧ packages_ok s ∧ jobs_ok s.

(** ** The relation an operation keeps *)

Definition sound : relation Studio := λ s s',
  evidenced s → evidenced s' ∧ evidence_stays s s'.
#[export] Instance evidence_stays_preorder : PreOrder evidence_stays.
Proof.
  unfold evidence_stays. split; [by intros s|].
  intros s t u (?&?&?&?&?) (?&?&?&?&?). split_and!; [by etrans..|auto].
Qed.
#[export] Instance sound_preorder : PreOrder sound.
Proof.
  unfold sound. split; [done|]. intros s t u Hst Htu Hs.
  destruct (Hst Hs) as [Ht ?]. destruct (Htu Ht) as [Hu ?]. split; [done|by etrans].
Qed.

(** Evidence seen at one point of an operation is there at every later one. *)
Class Stays (P : Studio → Prop) : Prop :=
  stays : ∀ s s', evidence_stays s s' → P s → P s'.

#[export] Instance stays_research o : Stays (passing_research o).
Proof. intros s s' (Hr & _) (i & a & Hi & Ha). exists i, a. split; [by eapply lookup_weaken|done]. Qed.
#[export] Instance stays_strategy b : Stays (passing_strategy b).
Proof. intros s s' (_ & Hr & _) (i & a & Hi & Ha). exists i, a. split; [by eapply lookup_weaken|done]. Qed.
#[export] Instance stays_content p k : Stays (passing_content p k).
Proof. intros s s' (_ & _ & Hr & _) (i & a & Hi & Ha). exists i, a. split; [by eapply lookup_weaken|done]. Qed.
#[export] Instance stays_linked b : Stays (linked b).
Proof. intros s s' (_ & _ & _ & Hr & _) (i & a & Hi & Ha). exists i, a. split; [by eapply lookup_weaken|done]. Qed.
#[export] Instance stays_package p : Stays (λ s, is_Some (st_packages s !! p)).
Proof. intros s s' (_ & _ & _ & _ & Hr). apply Hr. Qed.
#[export] Instance stays_and P Q `{!Stays P, !Stays Q} : Stays (λ s, P s ∧ Q s).
Proof. intros s s' He [Hp Hq]. split; by eapply stays. Qed.
#[export] Instance stays_pure (Q : Prop) : Stays (λ _, Q).
Proof. by intros s s'. Qed.
#[export] Instance stays_all {A} (P : A → Studio → Prop) `{!∀ x, Stays (P x)} : Stays (λ s, ∀ x, P x s).
Proof. intros s s' He Hp x. by eapply stays. Qed.
#[export] Instance stays_impl (Q : Prop) (P : Studio → Prop) `{!Stays P} : Stays (λ s, Q → P s).
Proof. intros s s' He Hp Hq. eapply stays; [done|auto]. Qed.
#[export] Instance stays_audited p : Stays (fully_audited p).
Proof. unfold fully_audited. apply _. Qed.

(** *** Computing under evidence *)

Definition with_evidence (P : Studio → Prop) (s : Studio) : Prop := evidenced s ∧ P s.

Section Carry.
Context {A B : Type}.

Lemma sound_under (m : SM A) : keeps_under (with_evidence (λ _, True)) sound m → keeps sound m.
Proof. intros Hm s He. by apply (Hm s (conj He I)). Qed.

Lemma sound_seq (P : Studio → Prop) (Q : A → Studio → Prop) (m : SM A) (k : A → SM B) :
  keeps sound m → (∀ s a s', evidenced s → P s → m s = (Ok a, s') → Q a s') →
  (∀ a, keeps_under (with_evidence (Q a)) sound (k a)) →
  keeps_under (with_evidence P) sound (m ≫= k).
Proof.
  intros Hm Hq Hk s [He Hp]. pose proof (Hm s He) as [He' Hst]. rewrite run_bind.
  destruct (m s) as [[a|e] s'] eqn:Hms; simpl in *; [|done].
  intros _. pose proof (Hq _ _ _ He Hp Hms) as Hq'.
  destruct (Hk a s' (conj He' Hq') He') as [He'' Hst']. split; [done|].
  by etrans.
Qed.

(** [P] is carried over a computation. *)
Lemma sound_carry (P : Studio → Prop) `{!Stays P} (m : SM A) (k : A → SM B) :
  keeps sound m → (∀ a, keeps_under (with_evidence P) sound (k a)) →
  keeps_under (with_evidence P) sound (m ≫= k).
Proof.
  intros Hm Hk s [He Hp]. pose proof (Hm s He) as [He' Hst]. rewrite run_bind.
  destruct (m s) as [[a|e] s'] eqn:Hms; simpl in *; [|done].
  intros _. destruct (Hk a s' (conj He' (stays _ _ Hst Hp)) He') as [He'' Hst']. split; [done|].
  by etrans.
Qed.

(** What a computation finds out is carried by the rest. *)
Lemma sound_post (Q : A → Studio → Prop) (m : SM A) (k : A → SM B) :
  keeps sound m → (∀ s a s', evidenced s → m s = (Ok a, s') → Q a s') →
  (∀ a, keeps_under (with_evidence (Q a)) sound (k a)) → keeps sound (m ≫= k).
Proof.
  intros Hm Hq Hk s He. pose proof (Hm s He) as [He' Hst]. rewrite run_bind.
  destruct (m s) as [[a|e] s'] eqn:Hms; simpl in *; [|done].
  destruct (Hk a s' (conj He' (Hq _ _ _ He Hms)) He') as [He'' Hst']. split; [done|].
  by etrans.
Qed.

Lemma sound_weaken (P : Studio → Prop) (m : SM A) : keeps sound m → keeps_under (with_evidence P) sound m.
Proof. intros Hm s _. apply Hm. Qed.

Lemma sound_imply (P Q : Studio → Prop) (m : SM A) :
  (∀ s, evidenced s → P s → Q s) → keeps_under (with_evidence Q) sound m →
  keeps_under (with_evidence P) sound m.
Proof. intros Hpq Hm s [He Hp]. apply Hm. split; auto. Qed.
End Carry.

(** *** Automation: what is known is carried as far as the computation allows *)

Ltac carry_tac :=
  repeat lazymatch goal with
  | |- ∀ _, _ => intro
  | |- keeps_under (with_evidence _) sound (_ ≫= _) =>
      apply sound_carry; [apply _|solve [keeps_tac]|]
  | |- keeps_under _ _ (match ?x with _ => _ end) => destruct x
  | |- keeps_under _ _ (if ?x then _ else _) => destruct x
  | |- keeps_under (with_evidence _) sound _ => apply sound_weaken; solve [keeps_tac]
  end.

Lemma sound_for_each {A} (P : Studio → Prop) `{!Stays P} (l : list A) (f : A → SM unit) :
  (∀ a, a ∈ l → keeps_under (with_evidence P) sound (f a)) →
  keeps_under (with_evidence P) sound (for_each l f).
Proof.
  induction l as [|a l IH]; intros Hf; [by intros s _|]. simpl. intros s [He Hp].
  pose proof (Hf a ltac:(left) s (conj He Hp)) as Ha. pose proof (Ha He) as [He' Hst].
  rewrite run_bind. destruct (f a s) as [[[]|e] s']; simpl in *; [|done].
  etrans; [exact Ha|]. apply IH; [intros b Hb; apply Hf; by right|].
  split; [done|by apply (stays (P := P) s)].
Qed.

(** *** The shared tables *)

Lemma sound_on_world {A} (m : M A) : keeps ids_grow m → keeps sound (on_world m).
Proof.
  intros Hm s (Hb & He). unfold on_world. specialize (Hm (st_world s)).
  destruct (m (st_world s)) as [r w]. split; [|done]. split; [|exact He].
  destruct Hb as (H1 & H2 & H3 & H4). by split_and!; eapply below_weaken.
Qed.
#[export] Hint Resolve sound_on_world : keeps.

(** a computation that only looks *)
Definition reads {A} (m : SM A) : Prop := ∀ s, (m s).2 = s.

Lemma keeps_reads (R : relation Studio) `{!PreOrder R} {A} (m : SM A) : reads m → keeps R m.
Proof. intros Hm s. by rewrite Hm. Qed.
Lemma reads_ok {A} (m : SM A) s a s' : reads m → m s = (Ok a, s') → s' = s.
Proof. intros Hm Hs. specialize (Hm s). by rewrite Hs in Hm. Qed.

Lemma reads_now : reads (on_world now).
Proof. by intros []. Qed.
Ltac reads_tac := first [exact reads_now | intros ?; reflexivity].

#[export] Hint Extern 2 (keeps sound _) => (apply keeps_reads; [apply _|reads_tac]) : keeps.

Lemma under_read {A B} (P : Studio → Prop) (m : SM A) (k : A → SM B) :
  reads m → (∀ a, keeps_under P sound (k a)) → keeps_under P sound (m ≫= k).
Proof.
  intros Hm Hk s Hp. pose proof (Hm s) as Hs. rewrite run_bind.
  destruct (m s) as [[a|e] s'] eqn:Hms; simpl in *; subst; [by apply Hk|done].
Qed.

(** *** A fresh identifier *)

Definition unused (i : id) (s : Studio) : Prop :=
  (i < w_next (st_world s))%positive ∧
  st_research_audits s !! i = None ∧ st_strategy_audits s !! i = None ∧
  st_content_audits s !! i = None ∧ st_brief_links s !! i = None.

Lemma sound_fresh {B} (P : Studio → Prop) `{!Stays P} (k : id → SM B) :
  (∀ i, keeps_under (with_evidence (λ s, P s ∧ unused i s)) sound (k i)) →
  keeps_under (with_evidence P) sound (on_world uuid4 ≫= k).
Proof.
  intros Hk. apply (sound_seq P (λ i s, P s ∧ unused i s)); [auto with keeps typeclass_instances| |done].
  intros s i s' [Hb _] Hp [= <- <-]. split; [by apply (stays (P:=P) s); [split_and!|]|].
  destruct Hb as (H1 & H2 & H3 & H4). split; [simpl; lia|].
  split_and!; by apply below_fresh.
Qed.

Lemma under_insert_unique {A} (P : Studio → Prop) (t : Studio → gmap id A) `{!Setter t} c same i x :
  keeps_under P sound (insert_row t i x) → keeps_under P sound (insert_unique t c same i x).
Proof.
  intros Hi. unfold insert_unique. apply under_read; [done|]. intros [|? ?]; [done|].
  intros s Hp. reflexivity.
Qed.

(** *** The rows of evidence *)

Section Rows.
Context (s : Studio) (He : evidenced s) (i : id) (Hu : unused i s).

Lemma sound_add_research a :
  (raud_state a = "pass" → (2 ≤ length (raud_findings a))%nat) →
  sound s (s <| st_research_audits ::= <[i := a]> |>).
Proof using He Hu.
  intros Ha _. destruct He as (Hb & Hr & Hl & Hs & Hp & Hj), Hu as (Hi & H1 & H2 & H3 & H4).
  assert (Hst : evidence_stays s (s <| st_research_audits ::= <[i := a]> |>)).
  { split_and!; [by apply insert_subseteq|done..]. }
  split; [|done]. split_and!; [| | |exact Hs|exact Hp|exact Hj].
  - destruct Hb as (B1 & B2 & B3 & B4). split_and!; [by apply below_insert|done..].
  - intros j b. simpl. rewrite lookup_insert. case_decide; [intros [= <-]; auto|apply Hr].
  - intros k l Hk. apply (stays _ _ Hst). by apply (Hl k).
Qed.

Lemma sound_add_link l :
  passing_research (link_opportunity_id l) s →
  sound s (s <| st_brief_links ::= <[i := l]> |>).
Proof using He Hu.
  intros Ha _. destruct He as (Hb & Hr & Hl & Hs & Hp & Hj), Hu as (Hi & H1 & H2 & H3 & H4).
  assert (Hst : evidence_stays s (s <| st_brief_links ::= <[i := l]> |>)).
  { split_and!; [done..|by apply insert_subseteq|done]. }
  split; [|done]. split_and!; [|exact Hr| | |exact Hp|exact Hj].
  - destruct Hb as (B1 & B2 & B3 & B4). split_and!; [done..|by apply below_insert].
  - intros k l'. simpl. rewrite lookup_insert. case_decide; [intros [= <-]; exact Ha|apply Hl].
  - intros j a Hj' Hpass. apply (stays _ _ Hst). by apply (Hs j).
Qed.

Lemma sound_add_strategy a :
  (saud_state a = "pass" → linked (saud_strategy_brief_id a) s) →
  sound s (s <| st_strategy_audits ::= <[i := a]> |>).
Proof using He Hu.
  intros Ha _. destruct He as (Hb & Hr & Hl & Hs & Hp & Hj), Hu as (Hi & H1 & H2 & H3 & H4).
  assert (Hst : evidence_stays s (s <| st_strategy_audits ::= <[i := a]> |>)).
  { split_and!; [done|by apply insert_subseteq|done..]. }
  split; [|done]. split_and!; [|exact Hr|exact Hl| | |exact Hj].
  - destruct Hb as (B1 & B2 & B3 & B4). split_and!; [done|by apply below_insert|done..].
  - intros j b. simpl. rewrite lookup_insert. case_decide; [intros [= <-]; exact Ha|apply Hs].
  - intros j p Hj'. destruct (Hp j p Hj') as [Hp1 Hp2]. split; [by apply (stays _ _ Hst)|].
    intros Hg. apply (stays _ _ Hst). auto.
Qed.

Lemma sound_add_content a : sound s (s <| st_content_audits ::= <[i := a]> |>).
Proof using He Hu.
  intros _. destruct He as (Hb & Hr & Hl & Hs & Hp & Hj), Hu as (Hi & H1 & H2 & H3 & H4).
  assert (Hst : evidence_stays s (s <| st_content_audits ::= <[i := a]> |>)).
  { split_and!; [done|done|by apply insert_subseteq|done..]. }
  split; [|done]. split_and!; [|exact Hr|exact Hl|exact Hs| |].
  - destruct Hb as (B1 & B2 & B3 & B4). split_and!; [done|done|by apply below_insert|done].
  - intros j p Hj'. destruct (Hp j p Hj') as [Hp1 Hp2]. split; [exact Hp1|].
    intros Hg. apply (stays _ _ Hst). auto.
  - intros j job Hj'. destruct (Hj j job Hj') as [Hp1 Hp2]. split; [exact Hp1|].
    by apply (stays _ _ Hst).
Qed.
End Rows.

(** *** Packages and jobs *)

Lemma sound_modify_package i g :
  (∀ p, pkg_strategy_brief_id (g p) = pkg_strategy_brief_id p ∧
        (pkg_audit_gate_status (g p) = "pass" → pkg_audit_gate_status p = "pass")) →
  keeps sound (modify st_packages i g).
Proof.
  intros Hg s (Hb & Hr & Hl & Hs & Hp & Hj).
  split; [|split_and!; [done..|intros j; apply lookup_alter_is_Some]].
  split_and!; [exact Hb|exact Hr|exact Hl|exact Hs| |].
  - intros j p. simpl. rewrite lookup_alter. case_decide; [|apply Hp].
    intros (q & Hq & ->)%fmap_Some. destruct (Hg q) as [-> Hpass].
    destruct (Hp j q) as [H1 H2]; [by subst|]. split; [exact H1|]. intros Hx. by apply H2, Hpass.
  - intros j job Hjob. destruct (Hj j job Hjob) as [Hx Ha]. split; [|exact Ha].
    simpl. by apply lookup_alter_is_Some.
Qed.

Lemma sound_gate i states :
  keeps_under (with_evidence (λ s, Forall (eq "pass") states → fully_audited i s)) sound
    (modify st_packages i (ContentDepartment.gated_package states)).
Proof.
  intros s [_ Ha] (Hb & Hr & Hl & Hs & Hp & Hj).
  split; [|split_and!; [done..|intros j; apply lookup_alter_is_Some]].
  split_and!; [exact Hb|exact Hr|exact Hl|exact Hs| |].
  - intros j p. simpl. rewrite lookup_alter. case_decide; [|apply Hp]. subst j.
    intros (q & Hq & ->)%fmap_Some. destruct (Hp i q Hq) as [H1 _].
    unfold ContentDepartment.gated_package, ContentDepartment.package_gate.
    destruct (existsb _ _); [by split|].
    destruct (forallb _ _) eqn:Hall; [|by split]. split; [exact H1|]. intros _. apply Ha.
    apply Forall_forall. intros x Hx. rewrite forallb_forall in Hall.
    symmetry. by apply String.eqb_eq, Hall, list_elem_of_In.
  - intros j job Hjob. destruct (Hj j job Hjob) as [Hx Hf]. split; [|exact Hf].
    simpl. by apply lookup_alter_is_Some.
Qed.

Lemma sound_add_package s i p :
  passing_strategy (pkg_strategy_brief_id p) s → pkg_audit_gate_status p ≠ "pass" →
  sound s (s <| st_packages ::= <[i := p]> |>).
Proof.
  intros Hs Hg (Hb & Hr & Hl & Hst & Hp & Hj).
  split; [|split_and!; [done..|intros j ?; simpl; rewrite lookup_insert; by case_decide]].
  split_and!; [exact Hb|exact Hr|exact Hl|exact Hst| |].
  - intros j q. simpl. rewrite lookup_insert. case_decide; [intros [= <-]; by split|apply Hp].
  - intros j job Hjob. destruct (Hj j job Hjob) as [Hx Hf]. split; [|exact Hf].
    simpl. rewrite lookup_insert. by case_decide.
Qed.

Lemma sound_add_job s j job :
  is_Some (st_packages s !! pjob_content_package_id job) →
  fully_audited (pjob_content_package_id job) s →
  sound s (s <| st_production_jobs ::= <[j := job]> |>).
Proof.
  intros Hi Ha (Hb & Hr & Hl & Hst & Hp & Hj). split; [|done].
  split_and!; [exact Hb|exact Hr|exact Hl|exact Hst|exact Hp|].
  intros k q. simpl. rewrite lookup_insert. case_decide; [intros [= <-]; by split|apply Hj].
Qed.

(** ** Every operation is sound *)

Section Operations.
Context `{Settings} `{Unordered} (ip6 : string → option bool) (sha256 : string → string)
  (json_text : json → string) (environment : string).

(** *** Research *)

Lemma sound_research_emit i r ty pl : keeps sound (Research._emit_run i r ty pl).
Proof. unfold Research._emit_run. keeps_tac. Qed.
#[local] Hint Resolve sound_research_emit : keeps.

Lemma sound_research_request ws u p : keeps sound (Research.create_manual_run ws u p).
Proof. unfold Research.create_manual_run, Research.add_run. keeps_tac. Qed.

Lemma sound_record_source i r t item :
  keeps sound (Research.record_source ip6 sha256 json_text i r t item).
Proof. unfold Research.record_source. keeps_tac. Qed.
Lemma sound_propose i ws u t f l :
  keeps sound (Research.propose_opportunity sha256 json_text i ws u t f l).
Proof. unfold Research.propose_opportunity. keeps_tac. Qed.
#[local] Hint Resolve sound_record_source sound_propose : keeps.

Lemma sound_research_fixture ws u o l f :
  keeps sound (Research.record_fixture_run ip6 sha256 json_text environment ws u o l f).
Proof. unfold Research.record_fixture_run, Research.add_run, Research.link_source. keeps_tac. Qed.

(** A research audit that passes has two findings at least. *)
Lemma audit_sources_pass l :
  Research.verdict_state (Research.audit_sources l) = "pass" →
  (2 ≤ length (Research.verdict_findings (Research.audit_sources l)))%nat.
Proof.
  unfold Research.audit_sources. cbn [Research.verdict_state Research.verdict_findings].
  rewrite length_map. destruct (filter _ l) as [|a [|b l']]; [done| |simpl; lia].
  repeat case_match; done.
Qed.

Lemma sound_audit_opportunity ws o : keeps sound (Research.audit_opportunity ws o).
Proof.
  unfold Research.audit_opportunity. apply keeps_bind; [apply _|auto with keeps|].
  intros [opp|]; [|keeps_tac]. apply keeps_bind; [apply _|auto with keeps|]. intros evidence.
  apply sound_under, (sound_fresh (λ _, True)).
  intros i. apply under_read; [reads_tac|]. intros t. apply keeps_under_last; [apply _| |keeps_tac].
  intros s [He [_ Hu]]. apply sound_add_research; [done..|]. apply audit_sources_pass.
Qed.

Lemma sound_strategist_gate ws o : keeps sound (Research.strategist_gate ws o).
Proof. unfold Research.strategist_gate. keeps_tac. Qed.
#[local] Hint Resolve sound_strategist_gate : keeps.

(** *** Strategy *)

Lemma latest_research ws o s r s' :
  Research.latest_audit ws o s = (Ok r, s') →
  s' = s ∧ ∀ a, r = Some a → ∃ i, st_research_audits s !! i = Some a ∧ raud_opportunity_id a = o.
Proof.
  intros [= <- <-]. split; [done|]. intros a ([i b] & Hl & ->)%fmap_Some.
  apply latest_by_in in Hl as [[Hi Ha]%elem_of_rows _]. exists i. split; [exact Hi|].
  unfold Research.audits_of in Ha. by apply andb_true_iff in Ha as [_ Ha%bool_decide_eq_true].
Qed.

Lemma frame_strategist_gate ws o :
  keeps (frame st_research_audits) (Research.strategist_gate ws o).
Proof.
  unfold Research.strategist_gate, Research.get_opportunity, Research.latest_audit, Research.get_run,
    Research._emit_run. keeps_tac.
Qed.

Lemma strategist_gate_passes ws o s s' :
  Research.strategist_gate ws o s = (Ok tt, s') → passing_research o s'.
Proof.
  intros Hrun. pose proof (run_frame st_research_audits Hrun (frame_strategist_gate ws o)) as Hf.
  unfold passing_research. rewrite Hf. unfold Research.strategist_gate in Hrun.
  apply bind_ok_inv in Hrun as ([opp|] & s1 & Ho & Hrun); [|done]. injection Ho as _ <-.
  apply bind_ok_inv in Hrun as (r & s2 & [-> Hr]%latest_research & Hrun).
  destruct (negb _) eqn:Hp in Hrun.
  - apply bind_ok_inv in Hrun as (? & ? & _ & Hrun). by apply bind_ok_inv in Hrun as (? & ? & _ & ?).
  - destruct r as [a|]; [|done]. destruct (Hr a eq_refl) as (i & Hi & Ho).
    exists i, a. split_and!; [done..|]. apply negb_false_iff in Hp. by apply String.eqb_eq.
Qed.

Lemma catch_raise_ok {A} (m : SM A) (h : exn → SM A) s a s' :
  (∀ e t, ∃ e', (h e t).1 = Raise e') → catch m h s = (Ok a, s') → m s = (Ok a, s').
Proof.
  intros Hh. unfold catch. destruct (m s) as [[b|e] t]; [done|]. intros Hc.
  destruct (Hh e t) as [e' He']. by rewrite Hc in He'.
Qed.

Lemma require_research_passes ws ids s l s' :
  Strategy._require_research_pass ws ids s = (Ok l, s') →
  ∀ o, o ∈ ids → passing_research o s'.
Proof.
  unfold Strategy._require_research_pass. revert s l.
  induction ids as [|i ids IH]; intros s l Hrun o; [by intros ?%not_elem_of_nil|].
  simpl in Hrun. apply bind_ok_inv in Hrun as (opp & s1 & Hc & Hrun).
  apply bind_ok_inv in Hrun as (l' & s2 & Hrest & [= _ <-]).
  intros [->|Hin]%elem_of_cons; [|by eapply IH].
  apply bind_ok_inv in Hc as ([] & s0 & Hg & Hc).
  apply catch_raise_ok in Hg; [|intros [] ?; by eexists].
  apply strategist_gate_passes in Hg as (j & a & Hj & Ha). exists j, a. split; [|exact Ha].
  apply bind_ok_inv in Hc as (q & s3 & [= <- <-] & Hc).
  assert (s1 = s0) as -> by (by case_match; injection Hc). clear Hc.
  rewrite <- Hj. f_equal. refine (run_frame st_research_audits Hrest _).
  pose proof (frame_strategist_gate ws). unfold Research.get_opportunity. keeps_tac.
Qed.

Lemma sound_require_research ws ids : keeps sound (Strategy._require_research_pass ws ids).
Proof. unfold Strategy._require_research_pass. keeps_tac. Qed.
Lemma sound_strategy_emit i r ty pl : keeps sound (Strategy._emit_run i r ty pl).
Proof. unfold Strategy._emit_run. keeps_tac. Qed.
Lemma sound_context ws : keeps sound (Strategy.get_business_context_state ws).
Proof. unfold Strategy.get_business_context_state. keeps_tac. Qed.
#[local] Hint Resolve sound_require_research sound_strategy_emit sound_context : keeps.

Lemma sound_strategy_request ws u p : keeps sound (Strategy.create_manual_run ws u p).
Proof. unfold Strategy.create_manual_run, Strategy.add_run. keeps_tac. Qed.

Lemma sound_link (P : Studio → Prop) `{!Stays P} ws b o :
  (∀ s, P s → passing_research o s) →
  keeps_under (with_evidence P) sound (Strategy.link_opportunity ws b o).
Proof.
  intros Ho. unfold Strategy.link_opportunity. apply sound_fresh; [done|]. intros i.
  apply under_read; [reads_tac|]. intros t. apply under_insert_unique.
  intros s [He [Hp Hu]]. apply sound_add_link; [done..|]. by apply Ho.
Qed.

Lemma sound_fixture_row ws u r f o e g h t :
  keeps sound (Strategy.fixture_row json_text ws u r f o e g h t).
Proof. unfold Strategy.fixture_row, Strategy.optional, Strategy.list_field, Strategy.dict_field. keeps_tac. Qed.
Lemma sound_fixture_fingerprint f ids o :
  keeps sound (Strategy.fixture_fingerprint sha256 f ids o).
Proof. unfold Strategy.fixture_fingerprint, Strategy.fingerprint_field. keeps_tac. Qed.
#[local] Hint Resolve sound_fixture_row sound_fixture_fingerprint : keeps.

Lemma sound_brief_fixture ws u o l f :
  keeps sound (Strategy.record_fixture_brief sha256 json_text environment ws u o l f).
Proof.
  unfold Strategy.record_fixture_brief, Strategy.add_run.
  destruct (negb _); [keeps_tac|]. apply keeps_bind; [apply _|keeps_tac|]. intros clean.
  apply (sound_post (λ _ s, ∀ o, o ∈ l → passing_research o s)); [keeps_tac| |].
  { intros s a s' _ Hrun. by eapply require_research_passes. }
  intros opportunities. carry_tac.
  apply keeps_under_last; [apply _| |keeps_tac].
  apply sound_for_each; [apply _|]. intros x Hx. apply sound_link; [apply _|]. intros ? Hs. by apply Hs.
Qed.
#[local] Hint Resolve sound_brief_fixture sound_strategy_request : keeps.

Lemma brief_ids_linked ws b s ids s' :
  Strategy.brief_opportunity_ids ws b s = (Ok ids, s') → ids ≠ [] → linked b s'.
Proof.
  intros [= <- <-] Hne. destruct (rows _ _) as [|[k l] rest] eqn:Hr; [done|].
  assert (Hin : (k, l) ∈ (k, l) :: rest) by left. rewrite <- Hr in Hin.
  apply elem_of_rows in Hin as [Hk Hl]. simpl in Hl.
  apply andb_true_iff in Hl as [_ Hl%bool_decide_eq_true]. by exists k, l.
Qed.

Lemma sound_trace ws ids : keeps sound (Strategy.trace_sources ws ids).
Proof. induction ids as [|o ids IH]; simpl; unfold Research.latest_audit; keeps_tac. Qed.
#[local] Hint Resolve sound_trace : keeps.

Lemma sound_audit_brief ws b : keeps sound (Strategy.audit_brief ws b).
Proof.
  unfold Strategy.audit_brief. apply keeps_bind; [apply _|auto with keeps|].
  intros [brief|]; [|keeps_tac].
  apply (sound_post (λ ids s, ids ≠ [] → linked b s)); [auto with keeps| |].
  { intros s ids s' _. apply brief_ids_linked. }
  intros ids. apply sound_carry; [apply _|auto with keeps|]. intros traced. cbv zeta.
  apply sound_fresh; [apply _|]. intros i. apply under_read; [reads_tac|]. intros t.
  apply keeps_under_last; [apply _| |keeps_tac].
  intros s [He [Hl Hu]]. apply sound_add_strategy; [done..|].
  cbn [saud_state saud_strategy_brief_id]. intros Hpass. apply Hl. by intros ->.
Qed.

Lemma latest_strategy ws b s r s' :
  Strategy.latest_audit ws b s = (Ok r, s') →
  s' = s ∧ ∀ a, r = Some a → ∃ i, st_strategy_audits s !! i = Some a ∧ saud_strategy_brief_id a = b.
Proof.
  intros [= <- <-]. split; [done|]. intros a ([i c] & Hl & ->)%fmap_Some.
  apply latest_by_in in Hl as [[Hi Ha]%elem_of_rows _]. exists i. split; [exact Hi|].
  unfold Strategy.audits_of in Ha. by apply andb_true_iff in Ha as [_ Ha%bool_decide_eq_true].
Qed.

Lemma frame_writer_gate ws b : keeps (frame st_strategy_audits) (Strategy.writer_gate ws b).
Proof.
  unfold Strategy.writer_gate, Strategy.get_brief, Strategy.latest_audit, Strategy.get_run,
    Strategy._emit_run. keeps_tac.
Qed.
Lemma sound_writer_gate ws b : keeps sound (Strategy.writer_gate ws b).
Proof. unfold Strategy.writer_gate. keeps_tac. Qed.
#[local] Hint Resolve sound_writer_gate : keeps.

Lemma writer_gate_passes ws b s s' :
  Strategy.writer_gate ws b s = (Ok tt, s') → passing_strategy b s'.
Proof.
  intros Hrun. pose proof (run_frame st_strategy_audits Hrun (frame_writer_gate ws b)) as Hf.
  unfold passing_strategy. rewrite Hf. unfold Strategy.writer_gate in Hrun.
  apply bind_ok_inv in Hrun as ([brief|] & s1 & Ho & Hrun); [|done]. injection Ho as _ <-.
  apply bind_ok_inv in Hrun as (r & s2 & [-> Hr]%latest_strategy & Hrun).
  destruct (negb _) eqn:Hp in Hrun.
  - apply bind_ok_inv in Hrun as (? & ? & _ & Hrun). by apply bind_ok_inv in Hrun as (? & ? & _ & ?).
  - destruct r as [a|]; [|done]. destruct (Hr a eq_refl) as (i & Hi & Ho).
    exists i, a. split_and!; [done..|]. apply negb_false_iff in Hp. by apply String.eqb_eq.
Qed.

(** *** The content department *)

Lemma sound_require_strategy ws b : keeps sound (ContentDepartment._require_strategy_pass ws b).
Proof. unfold ContentDepartment._require_strategy_pass. keeps_tac. Qed.
Lemma sound_content_emit i r ty pl : keeps sound (ContentDepartment._emit_run i r ty pl).
Proof. unfold ContentDepartment._emit_run. keeps_tac. Qed.
#[local] Hint Resolve sound_require_strategy sound_content_emit : keeps.

Lemma sound_content_request ws u p : keeps sound (ContentDepartment.create_manual_run ws u p).
Proof. unfold ContentDepartment.create_manual_run, ContentDepartment.add_run. keeps_tac. Qed.

Lemma require_strategy_passes ws b s brief s' :
  ContentDepartment._require_strategy_pass ws b s = (Ok brief, s') → passing_strategy b s'.
Proof.
  intros Hrun. apply bind_ok_inv in Hrun as ([] & s0 & Hg & Hrun).
  apply catch_raise_ok in Hg; [|intros [] ?; by eexists]. apply writer_gate_passes in Hg.
  apply bind_ok_inv in Hrun as (q & s1 & [= <- <-] & Hrun).
  by case_match; injection Hrun as _ <-.
Qed.

Lemma sound_new_package (P : Studio → Prop) `{!Stays P} ws u r d b i v q f o h t c :
  (∀ s, P s → passing_strategy b s) →
  keeps_under (with_evidence P) sound
    (ContentDepartment.add_package ws u r d b i v q f o h t c).
Proof.
  intros Hb. unfold ContentDepartment.add_package, ContentDepartment.text_field. carry_tac.
  all: apply keeps_under_last; [apply _| |keeps_tac]; apply under_insert_unique.
  all: intros s [He Hp]; apply sound_add_package; [by apply Hb|done].
Qed.

Lemma sound_direction ws u r b q f o c :
  keeps sound (ContentDepartment.add_direction ws u r b q f o c).
Proof.
  unfold ContentDepartment.add_direction, ContentDepartment.text_field,
    ContentDepartment.list_field. keeps_tac.
Qed.
Lemma sound_content ws u f o h b c : keeps sound (ContentDepartment.add_content ws u f o h b c).
Proof. unfold ContentDepartment.add_content. keeps_tac. Qed.
Lemma sound_claim ws u p v c : keeps sound (ContentDepartment.add_claim json_text ws u p v c).
Proof. unfold ContentDepartment.add_claim. keeps_tac. Qed.
Lemma sound_prior ws p : keeps sound (ContentDepartment.prior_package ws p).
Proof. unfold ContentDepartment.prior_package. keeps_tac. Qed.
Lemma sound_originality ws u p v h b c :
  keeps sound (ContentDepartment.check_originality sha256 ws u p v h b c).
Proof.
  unfold ContentDepartment.check_originality. keeps_tac. by apply sound_modify_package.
Qed.
Lemma sound_supersede ws u i q : keeps sound (ContentDepartment.supersede ws u i q).
Proof.
  unfold ContentDepartment.supersede, ContentDepartment.invalidate_audit. keeps_tac.
  by apply sound_modify_package.
Qed.
#[local] Hint Resolve sound_direction sound_content sound_claim sound_prior sound_originality
  sound_supersede : keeps.

Lemma sound_package_fixture ws u b f prior :
  keeps sound (ContentDepartment.record_fixture_package sha256 json_text environment ws u b f prior).
Proof.
  unfold ContentDepartment.record_fixture_package, ContentDepartment.safe_field,
    ContentDepartment.add_run.
  destruct (negb _); [keeps_tac|].
  apply (sound_post (λ _, passing_strategy b)); [keeps_tac| |].
  { intros s a s' _. apply require_strategy_passes. }
  intros brief. carry_tac.
  all: apply keeps_under_last; [apply _|by apply sound_new_package; [apply _|]|keeps_tac].
Qed.

(** the states of the latest audits are on record *)
Lemma latest_content ws p kind s r s' :
  ContentDepartment._latest_audit ws p kind s = (Ok r, s') →
  s' = s ∧ ∀ a, r = Some a → caud_state a = "pass" → passing_content p kind s.
Proof.
  intros [= <- <-]. split; [done|]. intros a ([i b] & Hl & ->)%fmap_Some Hpass.
  apply latest_by_in in Hl as [[Hi Ha]%elem_of_rows _]. exists i, b.
  unfold ContentDepartment.audits_of in Ha. simpl in *.
  apply andb_true_iff in Ha as [[_ Ha%bool_decide_eq_true]%andb_true_iff Hk%String.eqb_eq].
  by split_and!.
Qed.

Lemma collect_states ws p kinds s states s' :
  collect kinds (λ kind,
    audit ← ContentDepartment._latest_audit ws p kind;
    mret (match audit with Some a => caud_state a | None => "not_run" end)) s = (Ok states, s') →
  s' = s ∧ (Forall (eq "pass") states → ∀ kind, kind ∈ kinds → passing_content p kind s).
Proof.
  revert states s'. induction kinds as [|kind kinds IH]; intros states s'; simpl.
  - intros [= <- <-]. split; [done|]. by intros _ kind ?%not_elem_of_nil.
  - intros Hrun. apply bind_ok_inv in Hrun as (st & s1 & Hk & Hrun).
    apply bind_ok_inv in Hk as (r & s2 & [-> Hr]%latest_content & [= <- <-]).
    apply bind_ok_inv in Hrun as (rest & s3 & [-> Hrest]%IH & [= <- <-]).
    split; [done|]. intros [Hp Hall]%Forall_cons k [->|Hin]%elem_of_cons; [|by apply Hrest].
    destruct r as [a|]; [|done]. by apply (Hr a).
Qed.

Lemma sound_recalculate ws p : keeps sound (ContentDepartment._recalculate_package_gate ws p).
Proof.
  unfold ContentDepartment._recalculate_package_gate.
  apply (sound_post (λ states s, Forall (eq "pass") states → fully_audited p s)).
  - unfold ContentDepartment.audit_states, ContentDepartment._latest_audit. keeps_tac.
  - intros s states s' _ [-> Hall]%collect_states. exact Hall.
  - intros states. apply sound_gate.
Qed.
#[local] Hint Resolve sound_recalculate : keeps.

Lemma sound_audit_package ws u p k st f w b e :
  keeps sound (ContentDepartment.record_fixture_audit environment ws u p k st f w b e).
Proof.
  unfold ContentDepartment.record_fixture_audit.
  destruct (negb _); [keeps_tac|]. destruct (negb _); [keeps_tac|]. destruct (negb _); [keeps_tac|].
  apply keeps_bind; [apply _|auto with keeps|]. intros [pkg|]; [|keeps_tac].
  apply keeps_bind; [apply _|unfold ContentDepartment.direction_of; keeps_tac|]. intros d. cbv zeta.
  destruct (bool_decide _); [keeps_tac|].
  apply sound_under, (sound_fresh (λ _, True)). intros i.
  apply under_read; [reads_tac|]. intros t. apply keeps_under_last; [apply _| |keeps_tac].
  intros s [He [_ Hu]]. by apply sound_add_content.
Qed.

Lemma sound_producer_gate ws p : keeps sound (ContentDepartment.producer_gate ws p).
Proof. unfold ContentDepartment.producer_gate. keeps_tac. Qed.

(** *** Production and compliance *)

Lemma sound_production_request ws u p l : keeps sound (Production.create_production_run ws u p l).
Proof.
  unfold Production.create_production_run.
  apply (sound_post (λ q s, is_Some (st_packages s !! p) ∧
           (pkg_audit_gate_status q = "pass" → fully_audited p s))).
  { unfold Production._package. keeps_tac. }
  { intros s q s' (_ & _ & _ & _ & Hp & _) Hrun.
    apply bind_ok_inv in Hrun as (o & s1 & [= <- <-] & Hrun).
    destruct (st_packages s !! p) as [q'|] eqn:Hq; [|done].
    destruct (in_workspace _ _); [|done]. injection Hrun as -> ->.
    split; [by eexists|]. by apply Hp. }
  intros q. destruct (negb _) eqn:Hq; [apply sound_weaken; keeps_tac|].
  carry_tac. apply keeps_under_last; [apply _| |keeps_tac].
  intros s [He [Hi Ha]]. apply sound_add_job; [exact Hi|]. apply Ha.
  apply negb_false_iff in Hq. by apply String.eqb_eq.
Qed.

Lemma sound_artifact_fixture ws u j h w : keeps sound (Production.create_test_fixture_artifact ws u j h w).
Proof. unfold Production.create_test_fixture_artifact, Production.get_job. keeps_tac. Qed.
Lemma sound_media_qa ws u a q w st : keeps sound (Production.create_test_media_qa ws u a q w st).
Proof. unfold Production.create_test_media_qa, Production._artifact. keeps_tac. Qed.
Lemma sound_invalidate ws u a r : keeps sound (Production.invalidate_artifact ws u a r).
Proof. unfold Production.invalidate_artifact, Production._artifact, Production.readiness_of. keeps_tac. Qed.
Lemma sound_compliance_request ws u a p l :
  keeps sound (Compliance.create_compliance_run ws u a p l).
Proof.
  unfold Compliance.create_compliance_run, Compliance._artifact, Production._artifact. keeps_tac.
Qed.
Lemma sound_compliance_pass ws u a w : keeps sound (Compliance.create_test_compliance_pass ws u a w).
Proof.
  unfold Compliance.create_test_compliance_pass, Compliance._artifact, Production._artifact. keeps_tac.
Qed.
Lemma sound_chief_audit ws u a w : keeps sound (Compliance.run_test_chief_audit ws u a w).
Proof.
  unfold Compliance.run_test_chief_audit, Compliance.create_test_manifest, Compliance._artifact,
    Production._artifact. keeps_tac.
Qed.
Lemma sound_invalidate_compliance ws u c r :
  keeps sound (Compliance.invalidate_compliance ws u c r).
Proof. unfold Compliance.invalidate_compliance. keeps_tac. Qed.
Lemma sound_eligibility ws u a p : keeps sound (Compliance.publication_eligibility ws u a p).
Proof.
  unfold Compliance.publication_eligibility, Compliance._artifact, Production._artifact,
    Production.readiness_of. keeps_tac.
Qed.

Lemma sound_engine o : op_ok o → keeps sound (on_world (run_op sha256 o)).
Proof. intros Ho. apply sound_on_world. intros w. by apply ids_grow_step. Qed.

Lemma sound_step o :
  studio_op_ok o → keeps sound (run_studio_op ip6 sha256 json_text environment o).
Proof.
  intros Ho. destruct o; simpl in *; try apply keeps_quietly; try apply _.
  - by apply sound_engine.
  - apply sound_research_request.
  - apply sound_research_fixture.
  - apply sound_audit_opportunity.
  - apply sound_strategist_gate.
  - apply sound_strategy_request.
  - apply sound_brief_fixture.
  - apply sound_audit_brief.
  - apply sound_writer_gate.
  - apply sound_content_request.
  - apply sound_package_fixture.
  - apply sound_audit_package.
  - apply sound_producer_gate.
  - apply sound_production_request.
  - apply sound_artifact_fixture.
  - apply sound_media_qa.
  - apply sound_invalidate.
  - apply sound_compliance_request.
  - apply sound_compliance_pass.
  - apply sound_chief_audit.
  - apply sound_invalidate_compliance.
  - apply sound_eligibility.
Qed.

Lemma evidenced_exec ops s :
  Forall studio_op_ok ops → evidenced s →
  evidenced (studio_exec ip6 sha256 json_text environment ops s).
Proof.
  apply (studio_invariant ip6 sha256 json_text environment evidenced).
  intros o Ho s' He. by apply (sound_step o Ho s' He).
Qed.
End Operations.

Lemma evidenced_empty w : evidenced (empty_studio w).
Proof. by split_and!; [split_and!; apply below_empty|..]. Qed.

(** ** The theorem *)

(** the chain of evidence behind a production job *)
Definition rests_on_evidence (s : Studio) (job : ProductionJob) : Prop :=
  ∃ p, st_packages s !! pjob_content_package_id job = Some p ∧
    fully_audited (pjob_content_package_id job) s ∧
    passing_strategy (pkg_strategy_brief_id p) s ∧
    linked (pkg_strategy_brief_id p) s ∧
    ∀ k l, st_brief_links s !! k = Some l →
      link_strategy_brief_id l = pkg_strategy_brief_id p →
      ∃ i a, st_research_audits s !! i = Some a ∧
        raud_opportunity_id a = link_opportunity_id l ∧ raud_state a = "pass" ∧
        (2 ≤ length (raud_findings a))%nat.

(** C7: no production without evidence: whatever operations of the
    departments and the engine run, every production job is about a package
    with a passing audit of each of the four content auditors, written from a
    brief with a passing strategy audit, made from at least one opportunity,
    each of which has a passing research audit with at least two sources. *)
Theorem production_needs_evidence `{Settings} `{Unordered} ip6 sha256 json_text environment ops w j job :
  Forall studio_op_ok ops →
  let s := studio_exec ip6 sha256 json_text environment ops (empty_studio w) in
  st_production_jobs s !! j = Some job → rests_on_evidence s job.
Proof.
  intros Hops s Hj.
  destruct (evidenced_exec ip6 sha256 json_text environment ops _ Hops (evidenced_empty w))
    as (_ & Hr & Hl & Hs & Hp & Hjobs).
  destruct (Hjobs j job Hj) as [[p Hpk] Ha]. exists p.
  destruct (Hp _ p Hpk) as [Hstr _]. split_and!; [exact Hpk|exact Ha|exact Hstr| |].
  - destruct Hstr as (i & a & Hi & <- & Hpass). by apply (Hs i a).
  - intros k l Hk _. destruct (Hl k l Hk) as (i & a & Hi & Ho & Hpass).
    exists i, a. split_and!; [exact Hi|exact Ho|exact Hpass|]. by apply (Hr i).
Qed.

(** ** A trace that produces *)

Section Demo.
#[local] Existing Instance default_settings.
#[local] Instance demo_order : Unordered := head_first.

Definition demo_source (url excerpt : string) : pydict :=
  [("url", JStr url); ("excerpt", JStr excerpt)].
Definition demo_opportunity : pydict :=
  [("topic", JStr "Invoices"); ("proposed_angle", JStr "Plain words"); ("title", JStr "Pay on time");
   ("summary", JStr "What late payment costs")].
Definition demo_brief : pydict :=
  [("target_platform", JStr "youtube"); ("content_format", JStr "short");
   ("business_goal", JStr "leads")].
Definition demo_limits : Production.ProductionLimits :=
  Production.mk_production_limits None None None 0 0 0 1 0 900.
Definition demo_audit (kind : string) : studio_op := AuditPackage 1 2 30 kind "pass" [] [] [] [].
Definition demo_ops : list studio_op :=
  [ResearchFixture 1 2 "late payment"
     [demo_source "https://a.example/x" "One"; demo_source "https://b.example/y" "Two"]
     demo_opportunity;
   AuditOpportunity 1 8;
   BriefFixture 1 2 "late payment" [8%positive] demo_brief;
   AuditBrief 1 19;
   PackageFixture 1 2 19 [] None] ++
  map demo_audit ContentDepartment._MANDATORY_AUDITORS ++ [ProductionRequest 1 2 30 demo_limits].
Definition demo_studio (ops : list studio_op) : Studio :=
  studio_exec Url.no_ip6 (λ s, s) (λ _, EmptyString) "test" ops (empty_studio (empty_world 0)).

Lemma demo_studio_ok : Forall studio_op_ok demo_ops.
Proof. by repeat constructor. Qed.
End Demo.

Lemma production_needs_evidence_witness :
  is_Some (st_production_jobs (demo_studio demo_ops) !! 41%positive) ∧
  ∀ job, st_production_jobs (demo_studio demo_ops) !! 41%positive = Some job →
    rests_on_evidence (demo_studio demo_ops) job.
Proof.
  split.
  { destruct (passes_some (λ _, true) (st_production_jobs (demo_studio demo_ops) !! 41%positive))
      as (job & Hj & _); [by vm_compute|exact (ex_intro _ job Hj)]. }
  intros job. exact (production_needs_evidence (H := default_settings) (H0 := head_first)
    Url.no_ip6 (λ s, s) (λ _, EmptyString) "test" demo_ops (empty_world 0) 41 job demo_studio_ok).
Defined.
