(* ===== verification/DepartmentSpec.v ===== *)
(** * What the departments' gates do

    The research audit, branch by branch; what the redaction of a source
    leaves readable; that no artifact is ever eligible for publication; and
    what an invalidation does not stop. *)

From S2P Require Import Prelude Models Database Outbox Text PyJson Regex StudioModels System Portal.
From S2P Require Research Strategy ContentDepartment Production Compliance.
From S2P Require Import EvidenceSpec.

(** ** External publishing is disabled *)

Definition never_eligible (s : Studio) : Prop :=
  ∀ i e, st_artifact_eligibility s !! i = Some e →
    elig_publication_eligible e = false ∧ elig_status e = "blocked" ∧
    "external_publishing_disabled" ∈ elig_blocking_reasons e.

Definition stays_disabled : relation Studio := preserved never_eligible.

Section Eligibility.
Context `{Settings} `{Unordered} (ip6 : string → option bool) (sha256 : string → string)
  (json_text : json → string) (environment : string).

#[local] Instance stays_disabled_preorder : PreOrder stays_disabled.
Proof. apply preserved_preorder. Qed.

Lemma disabled_insert i e :
  elig_publication_eligible e = false → elig_status e = "blocked" →
  "external_publishing_disabled" ∈ elig_blocking_reasons e →
  keeps stays_disabled (insert_row st_artifact_eligibility i e).
Proof.
  intros H1 H2 H3 s Hs j e'. simpl. rewrite lookup_insert.
  case_decide; [by intros [= <-]|apply Hs].
Qed.

Lemma disabled_request ws u a p :
  keeps stays_disabled (Compliance.publication_eligibility ws u a p).
Proof.
  unfold Compliance.publication_eligibility, Compliance._artifact, Production._artifact,
    Production.readiness_of, Compliance.chief_of, insert_unique. keeps_tac.
  apply disabled_insert; [done..|]. cbn [elig_blocking_reasons]. rewrite !elem_of_app. right. right. by left.
Qed.

Lemma keeps_trace ws ids : keeps stays_disabled (Strategy.trace_sources ws ids).
Proof. induction ids as [|o ids IH]; simpl; unfold Research.latest_audit; keeps_tac. Qed.

Lemma disabled_step o :
  keeps stays_disabled (run_studio_op ip6 sha256 json_text environment o).
Proof.
  destruct o; simpl; try apply keeps_quietly; try apply _; try (by apply disabled_request).
  1: by apply keeps_on_world; apply _.
  all: pose proof keeps_trace; solve [keeps_all].
Qed.
End Eligibility.

(** External publishing is disabled: whatever operations of the
    departments and the engine run, no artifact is ever recorded as eligible
    for publication, and every record says that external publishing is
    disabled. *)
Theorem publishing_stays_disabled `{Settings} `{Unordered} ip6 sha256 json_text environment ops s :
  Forall studio_op_ok ops → never_eligible s →
  never_eligible (studio_exec ip6 sha256 json_text environment ops s).
Proof. apply studio_invariant. intros o _ s'. apply disabled_step. Qed.

Section EligibilityDemo.
#[local] Existing Instance default_settings.
#[local] Instance demo_order : Unordered := head_first.

(** an artifact that is there, its eligibility requested for two platforms *)
Definition demo_artifact : FinalArtifact :=
  {| art_workspace_id := 1; art_production_job_id := 3; art_content_item_id := 4;
     art_content_version_id := 5; art_render_asset_id := None; art_render_provider := "test_fixture";
     art_render_job_id := None; art_artifact_hash := "h"; art_storage_reference := JObj [];
     art_duration_seconds := None; art_resolution := JObj []; art_aspect_ratio := None;
     art_container := None; art_codec := None; art_cost_usd := 0; art_status := "ready";
     art_test_data := true; art_created_at := 0; art_created_by := None |}.
Definition demo_gallery : Studio :=
  (empty_studio (empty_world 0)) <| st_artifacts := {[ 6%positive := demo_artifact ]} |>.
Definition demo_requests : list studio_op :=
  [MediaQaFixture 1 2 6 "auditor" "producer" "pass"; CompliancePass 1 2 6 "compliance";
   ChiefAuditFixture 1 2 6 "chief"; EligibilityRequest 1 2 6 "youtube";
   EligibilityRequest 1 2 6 "tiktok"].
Definition demo_gallery_after : Studio :=
  studio_exec Url.no_ip6 (λ s, s) (λ _, EmptyString) "test" demo_requests demo_gallery.
End EligibilityDemo.

Lemma publishing_stays_disabled_witness :
  size (st_artifact_eligibility demo_gallery_after) = 2%nat ∧ never_eligible demo_gallery_after.
Proof.
  split; [by vm_compute|].
  apply (publishing_stays_disabled (H := default_settings) (H0 := head_first)
           Url.no_ip6 (λ s, s) (λ _, EmptyString) "test" demo_requests demo_gallery);
    [by repeat constructor|by intros i e].
Defined.

(** ** The research audit, on every branch *)

Section ResearchAudit.
Context `{Unordered}.

(** the link [k] backs the opportunity with the stored source [x] *)
Definition supports (ws o : id) (s : Studio) (k : id) (x : ResearchSource) : Prop :=
  ∃ e, st_evidence s !! k = Some e ∧ evi_workspace_id e = ws ∧ evi_opportunity_id e = o ∧
    st_research_sources s !! evi_source_id e = Some x ∧ src_workspace_id x = ws.
Definition accepted (x : ResearchSource) : Prop := src_handling_state x = "accepted".
Definition rejected (x : ResearchSource) : Prop := src_handling_state x = "rejected".
Definition stale (x : ResearchSource) : Prop := src_freshness x = "stale" ∨ src_freshness x = "unknown".

(** no accepted source, a rejected one, or two with the same content *)
Definition discredited (ws o : id) (s : Studio) : Prop :=
  (∀ k x, supports ws o s k x → ¬ accepted x) ∨
  (∃ k x, supports ws o s k x ∧ rejected x) ∨
  (∃ k1 k2 x1 x2, k1 ≠ k2 ∧ supports ws o s k1 x1 ∧ supports ws o s k2 x2 ∧
     accepted x1 ∧ accepted x2 ∧ src_content_digest x1 = src_content_digest x2).
(** two accepted sources, and every accepted one fresh *)
Definition well_supported (ws o : id) (s : Studio) : Prop :=
  (∃ k1 k2 x1 x2, k1 ≠ k2 ∧ supports ws o s k1 x1 ∧ supports ws o s k2 x2 ∧
     accepted x1 ∧ accepted x2) ∧
  (∀ k x, supports ws o s k x → accepted x → ¬ stale x).

(** the joined rows, under the key of their link *)
Definition support_rows (ws o : id) (s : Studio) : list (id * (id * ResearchSource)) :=
  omap (λ p : id * OpportunityEvidence,
          match st_research_sources s !! evi_source_id p.2 with
          | Some x => if in_workspace ws (src_workspace_id x) then Some (p.1, (evi_source_id p.2, x)) else None
          | None => None
          end)
    (rows (λ _ e, in_workspace ws (evi_workspace_id e) && bool_decide (evi_opportunity_id e = o))
       (st_evidence s)).

Lemma elem_of_support_rows ws o s k x :
  (∃ i, (k, (i, x)) ∈ support_rows ws o s) ↔ supports ws o s k x.
Proof.
  unfold support_rows, supports. setoid_rewrite list_elem_of_omap. split.
  - intros (i & [k' e] & [He Hp]%elem_of_rows & Hf). simpl in *. case_match eqn:Hx; [|done].
    destruct (in_workspace ws _) eqn:Hw in Hf; [|done]. injection Hf as <- <- <-.
    apply andb_true_iff in Hp as [Hp Hq%bool_decide_eq_true].
    apply in_workspace_true in Hp, Hw. by exists e.
  - intros (e & He & Hw & Ho & Hx & Hxw). exists (evi_source_id e), (k, e). split.
    + apply elem_of_rows. split; [exact He|]. simpl. apply andb_true_iff.
      split; [by apply in_workspace_true|by apply bool_decide_eq_true].
    + simpl. rewrite Hx. apply in_workspace_true in Hxw. by rewrite Hxw.
Qed.

Lemma support_rows_nodup ws o s : NoDup (support_rows ws o s).*1.
Proof.
  unfold support_rows. set (f := λ p, _).
  assert (Hr : NoDup (rows (λ _ e, in_workspace ws (evi_workspace_id e) &&
            bool_decide (evi_opportunity_id e = o)) (st_evidence s)).*1).
  { apply NoDup_fmap_fst; [|apply NoDup_filter, NoDup_map_to_list].
    intros k e1 e2 [H1 _]%elem_of_rows [H2 _]%elem_of_rows. congruence. }
  induction (rows _ _) as [|[k e] l IH]; [constructor|].
  apply NoDup_cons in Hr as [Hk Hr]. specialize (IH Hr). csimpl. unfold f at 1.
  destruct (st_research_sources s !! _) as [x|]; [|done]. destruct (in_workspace ws _); [|done].
  csimpl. apply NoDup_cons. split; [|done]. contradict Hk.
  apply list_elem_of_fmap in Hk as ([k' y] & -> & Hy).
  apply list_elem_of_omap in Hy as ([k'' e'] & He' & Hf). subst f. simpl in Hf.
  repeat case_match; try done. injection Hf as -> _. apply list_elem_of_fmap. by exists (k', e').
Qed.

(** *** Lists of keyed rows *)

Section Keyed.
Context {K A B : Type} `{EqDecision B} (f : A → B).
Implicit Types r : list (K * A).

Lemma fmap_filter_snd (P : A → Prop) `{!∀ x, Decision (P x)} r :
  filter P r.*2 = (filter (λ p, P p.2) r).*2.
Proof.
  induction r as [|[k x] r IH]; [done|]. csimpl. rewrite !filter_cons. simpl.
  destruct (decide (P x)); csimpl; by rewrite IH.
Qed.

Lemma two_keyed r :
  NoDup r.*1 → (2 ≤ length r)%nat ↔ ∃ k1 k2 x1 x2, k1 ≠ k2 ∧ (k1, x1) ∈ r ∧ (k2, x2) ∈ r.
Proof.
  intros Hr. split.
  - destruct r as [|[k1 x1] [|[k2 x2] r]]; simpl; [lia|lia|]. intros _.
    exists k1, k2, x1, x2. split_and!; [|by left|by right; left].
    apply NoDup_cons in Hr as [Hk _]. contradict Hk. rewrite Hk. by left.
  - intros (k1 & k2 & x1 & x2 & Hne & H1 & H2).
    destruct r as [|p [|q r]]; simpl; [by apply not_elem_of_nil in H1| |lia].
    apply list_elem_of_singleton in H1, H2. congruence.
Qed.

Lemma nodup_keyed r :
  NoDup r.*1 →
  NoDup (f <$> r.*2) ↔
  ¬ ∃ k1 k2 x1 x2, k1 ≠ k2 ∧ (k1, x1) ∈ r ∧ (k2, x2) ∈ r ∧ f x1 = f x2.
Proof.
  induction r as [|[k x] r IH]; intros Hr; csimpl in *.
  { split; [|constructor]. intros _ (?&?&?&?&?&[]%not_elem_of_nil&_). }
  apply NoDup_cons in Hr as [Hk Hr]. specialize (IH Hr). rewrite NoDup_cons, IH. split.
  - intros [Hx Hd] (k1 & k2 & x1 & x2 & Hne & H1 & H2 & Hf).
    assert (Hin : ∀ k' y, (k', y) ∈ r → f y ∈ f <$> r.*2).
    { intros k' y Hy. apply list_elem_of_fmap_2, list_elem_of_fmap. by exists (k', y). }
    apply elem_of_cons in H1 as [[= -> ->]|H1], H2 as [[= -> ->]|H2].
    + done.
    + apply Hx. rewrite Hf. by eapply Hin.
    + apply Hx. rewrite <- Hf. by eapply Hin.
    + apply Hd. by exists k1, k2, x1, x2.
  - intros Hd. split.
    + intros (y & Hf & (p & -> & Hp)%list_elem_of_fmap)%list_elem_of_fmap. apply Hd.
      exists k, p.1, x, p.2. split_and!; [|by left|right; by destruct p|done].
      intros ->. apply Hk. apply list_elem_of_fmap. by exists p.
    + contradict Hd. destruct Hd as (k1 & k2 & x1 & x2 & Hne & H1 & H2 & Hf).
      exists k1, k2, x1, x2. split_and!; [done|by right|by right|done].
Qed.

Lemma dup_keyed r :
  NoDup r.*1 → ¬ NoDup (f <$> r.*2) →
  ∃ k1 k2 x1 x2, k1 ≠ k2 ∧ (k1, x1) ∈ r ∧ (k2, x2) ∈ r ∧ f x1 = f x2.
Proof.
  induction r as [|[k x] r IH]; intros Hr Hd; csimpl in *; [destruct Hd; constructor|].
  apply NoDup_cons in Hr as [Hk Hr]. destruct (decide (f x ∈ f <$> r.*2)) as [Hin|Hout].
  - apply list_elem_of_fmap in Hin as (y & Hf & (p & -> & Hp)%list_elem_of_fmap).
    exists k, p.1, x, p.2. split_and!; [|by left|right; by destruct p|done].
    intros ->. apply Hk. apply list_elem_of_fmap. by exists p.
  - destruct IH as (k1 & k2 & x1 & x2 & Hne & H1 & H2 & Hf); [done|contradict Hd; by constructor|].
    exists k1, k2, x1, x2. split_and!; [done|by right|by right|done].
Qed.
End Keyed.

Lemma has_duplicates_false l : Research.has_duplicates l = false ↔ NoDup l.
Proof.
  unfold Research.has_duplicates. rewrite negb_false_iff, bool_decide_eq_true.
  split; [|intros Hl; induction Hl as [|x l Hx Hl IH]; simpl; [done|by case_decide; simpl; [|rewrite IH]]].
  assert (Hle : ∀ l' : list string, (length (remove_dups l') ≤ length l')%nat).
  { intros l'. induction l' as [|x l' IH]; simpl; [done|]. case_decide; simpl; lia. }
  induction l as [|x l IH]; [constructor|]. simpl. case_decide; simpl.
  - intros Hl. specialize (Hle l). lia.
  - intros [= Hl]. constructor; auto.
Qed.

(** *** The verdict *)

Section Verdict.
Context (l : list (id * ResearchSource)) (r : list (id * (id * ResearchSource))).
Context (Hl : l ≡ₚ r.*2) (Hr : NoDup r.*1).
Definition entry (k : id) (x : ResearchSource) : Prop := ∃ i, (k, (i, x)) ∈ r.

Definition in_state (state : string) (p : id * ResearchSource) : Prop :=
  String.eqb (src_handling_state p.2) state = true.
#[local] Instance in_state_dec state p : Decision (in_state state p).
Proof. unfold in_state. apply _. Defined.
Definition rows_in (state : string) : list (id * (id * ResearchSource)) :=
  filter (λ p, String.eqb (src_handling_state p.2.2) state = true) r.

Lemma filter_in_state state : filter (in_state state) l ≡ₚ (rows_in state).*2.
Proof using Hl.
  rewrite Hl. unfold in_state, rows_in. by rewrite (fmap_filter_snd (λ p, String.eqb _ _ = true)).
Qed.
Lemma rows_in_nodup state : NoDup (rows_in state).*1.
Proof using Hr.
  unfold rows_in. clear Hl. induction r as [|[k x] r' IH]; [constructor|].
  apply NoDup_cons in Hr as [Hk Hr']. rewrite filter_cons. case_decide; [|auto]. csimpl.
  apply NoDup_cons. split; [|auto]. contradict Hk.
  apply list_elem_of_fmap in Hk as (p & -> & [_ Hp]%list_elem_of_filter).
  apply list_elem_of_fmap. by exists p.
Qed.
Lemma elem_of_rows_in state k i x :
  (k, (i, x)) ∈ rows_in state ↔ (k, (i, x)) ∈ r ∧ src_handling_state x = state.
Proof. unfold rows_in. rewrite list_elem_of_filter, String.eqb_eq. simpl. tauto. Qed.

Lemma none_in state :
  filter (in_state state) l = [] ↔ ∀ k x, entry k x → src_handling_state x ≠ state.
Proof using Hl.
  split.
  - intros Hnil k x [i Hi] Hx.
    assert (Hin : (k, (i, x)) ∈ rows_in state) by (by apply elem_of_rows_in).
    pose proof (filter_in_state state) as Hp. rewrite Hnil in Hp.
    apply Permutation_nil_l in Hp. destruct (rows_in state); [|done]. by apply not_elem_of_nil in Hin.
  - intros Hn. apply Permutation_nil_r. rewrite filter_in_state.
    destruct (rows_in state) as [|[k [i x]] rest] eqn:He; [done|].
    assert (Hin : (k, (i, x)) ∈ rows_in state) by (rewrite He; by left).
    apply elem_of_rows_in in Hin as [Hin Hx]. by destruct (Hn k x); [exists i|].
Qed.

Lemma some_in state :
  filter (in_state state) l ≠ [] ↔ ∃ k x, entry k x ∧ src_handling_state x = state.
Proof using Hl.
  split.
  - intros Hn. destruct (filter _ l) as [|[i x] rest] eqn:Hf; [done|].
    assert (Hin : (i, x) ∈ (rows_in state).*2) by (rewrite <- filter_in_state, Hf; by left).
    apply list_elem_of_fmap in Hin as ([k [j y]] & [= -> ->] & Hin).
    apply elem_of_rows_in in Hin as [Hin Hx]. exists k, y. split; [by exists j|done].
  - intros (k & x & He & Hx) Hnil. by apply (proj1 (none_in state) Hnil k x).
Qed.

Definition well_stocked : Prop :=
  ∃ k1 k2 x1 x2, k1 ≠ k2 ∧ entry k1 x1 ∧ entry k2 x2 ∧ accepted x1 ∧ accepted x2.
Definition repetitive : Prop :=
  ∃ k1 k2 x1 x2, k1 ≠ k2 ∧ entry k1 x1 ∧ entry k2 x2 ∧ accepted x1 ∧ accepted x2 ∧
    src_content_digest x1 = src_content_digest x2.

Lemma two_accepted : (2 ≤ length (filter (in_state "accepted") l))%nat ↔ well_stocked.
Proof using Hl Hr.
  rewrite filter_in_state, length_fmap, two_keyed by apply rows_in_nodup. unfold well_stocked. split.
  - intros (k1 & k2 & [i1 x1] & [i2 x2] & Hne & [? ?]%elem_of_rows_in & [? ?]%elem_of_rows_in).
    exists k1, k2, x1, x2. split_and!; [done|by eexists|by eexists|done|done].
  - intros (k1 & k2 & x1 & x2 & Hne & [i1 ?] & [i2 ?] & ? & ?).
    exists k1, k2, (i1, x1), (i2, x2). split_and!; [done|by apply elem_of_rows_in..].
Qed.

Lemma duplicates_accepted :
  Research.has_duplicates (map (λ p, src_content_digest p.2) (filter (in_state "accepted") l)) = true ↔
  repetitive.
Proof using Hl Hr.
  set (d := λ p : id * ResearchSource, src_content_digest p.2).
  assert (Hp : NoDup (map d (filter (in_state "accepted") l)) ↔ NoDup (d <$> (rows_in "accepted").*2)).
  { change (map d) with (fmap (M := list) d). by rewrite filter_in_state. }
  rewrite <- not_false_iff_true, has_duplicates_false, Hp. unfold repetitive. split.
  - intros (k1 & k2 & [i1 x1] & [i2 x2] & Hne & [? ?]%elem_of_rows_in & [? ?]%elem_of_rows_in & Hd)%dup_keyed;
      [|apply rows_in_nodup].
    exists k1, k2, x1, x2. split_and!; [done|by eexists|by eexists|done|done|exact Hd].
  - intros (k1 & k2 & x1 & x2 & Hne & [i1 ?] & [i2 ?] & ? & ? & Hd).
    rewrite nodup_keyed by apply rows_in_nodup. intros Hn. apply Hn.
    exists k1, k2, (i1, x1), (i2, x2). split_and!; [done|by apply elem_of_rows_in..|exact Hd].
Qed.

Lemma stale_accepted :
  existsb (λ p, bool_decide (src_freshness p.2 ∈ ["stale"; "unknown"])) (filter (in_state "accepted") l) = false ↔
  ∀ k x, entry k x → accepted x → ¬ stale x.
Proof using Hl Hr.
  rewrite <- not_true_iff_false, existsb_exists. unfold stale. split.
  - intros Hn k x [i Hi] Ha Hs. apply Hn. exists (i, x). split; [|by apply bool_decide_eq_true; rewrite elem_of_cons, list_elem_of_singleton].
    apply list_elem_of_In. rewrite filter_in_state. apply list_elem_of_fmap. exists (k, (i, x)).
    split; [done|]. by apply elem_of_rows_in.
  - intros Hn ([i x] & Hin%list_elem_of_In & Hs%bool_decide_eq_true). rewrite filter_in_state in Hin.
    apply list_elem_of_fmap in Hin as ([k [j y]] & [= -> ->] & [Hin Ha]%elem_of_rows_in).
    apply (Hn k y); [by exists j|exact Ha|]. by rewrite elem_of_cons, list_elem_of_singleton in Hs.
Qed.

(** the verdict, whatever the order of the rows *)
Lemma audit_sources_state :
  let state := Research.verdict_state (Research.audit_sources l) in
  (state = "blocked" ↔
     (∀ k x, entry k x → ¬ accepted x) ∨ (∃ k x, entry k x ∧ rejected x) ∨ repetitive) ∧
  (state = "pass" ↔ state ≠ "blocked" ∧ well_stocked ∧ ∀ k x, entry k x → accepted x → ¬ stale x) ∧
  (state = "pass_with_warning" ∨ state = "pass" ∨ state = "blocked").
Proof using Hl Hr.
  unfold accepted at 1, rejected. rewrite <- none_in, <- some_in, <- duplicates_accepted,
    <- two_accepted, <- stale_accepted.
  unfold Research.audit_sources. cbn [Research.verdict_state].
  change (filter (λ p, String.eqb (src_handling_state p.2) "accepted" = true) l)
    with (filter (in_state "accepted") l).
  change (filter (λ p, String.eqb (src_handling_state p.2) "rejected" = true) l)
    with (filter (in_state "rejected") l).
  generalize (filter (in_state "accepted") l), (filter (in_state "rejected") l). intros acc rej.
  destruct acc as [|a [|b acc]], rej as [|c rej]; destruct (Research.has_duplicates _);
    destruct (existsb _ _); simpl; intuition (try congruence; try lia).
Qed.
End Verdict.

Lemma entry_supports ws o s k x : entry (support_rows ws o s) k x ↔ supports ws o s k x.
Proof. apply elem_of_support_rows. Qed.

Lemma evidence_rows ws o s evidence s' :
  Research.opportunity_evidence ws o s = (Ok evidence, s') →
  s' = s ∧ map snd evidence ≡ₚ (support_rows ws o s).*2.
Proof.
  intros [= <- <-]. split; [done|]. unfold desc_by. match goal with |- map ?f ?l ≡ₚ _ => change (map f l) with (f <$> l) end.
  rewrite order_by_Permutation. unfold support_rows.
  induction (rows _ _) as [|[k e] l IH]; [done|]. csimpl.
  destruct (st_research_sources s !! _) as [x|]; [|done]. destruct (in_workspace ws _); [|done].
  csimpl. by rewrite IH.
Qed.

Lemma frame_audit_tail {A} ws i (state : string) (k : A) tail :
  keeps (frame (λ s, (st_research_audits s, st_opportunities s)))
    (run ← Research.get_run ws i;
     match run with
     | None => on_world flush
     | Some (run_id, run) =>
         modify st_research_runs run_id (λ r, r <| rrun_audited_opportunity_count ::= Z.add 1 |>);;
         when (String.eqb state "blocked")
           (modify st_research_runs run_id (λ r, r <| rrun_blocked_opportunity_count ::= Z.add 1 |>));;
         on_world flush;;
         Research._emit_run run_id run ("research.audit." +:+ state) tail
     end;; mret k).
Proof. unfold Research.get_run, Research._emit_run. keeps_tac. Qed.

(** The research audit, on every branch: it is recorded beside the audits
    before it; it blocks exactly when no accepted source supports the
    opportunity, or a rejected one does, or two accepted ones have the same
    content; it passes exactly when it does not block, two accepted sources
    support the opportunity and none is stale; else it passes with a warning;
    and the opportunity carries the verdict. *)
Theorem research_audit_exactly ws o s i a s' :
  Research.audit_opportunity ws o s = (Ok (i, a), s') →
  st_research_audits s' = <[i := a]> (st_research_audits s) ∧
  raud_workspace_id a = ws ∧ raud_opportunity_id a = o ∧
  (raud_state a = "blocked" ↔ discredited ws o s) ∧
  (raud_state a = "pass" ↔ raud_state a ≠ "blocked" ∧ well_supported ws o s) ∧
  (raud_state a = "pass_with_warning" ∨ raud_state a = "pass" ∨ raud_state a = "blocked") ∧
  ∃ opp, st_opportunities s' !! o = Some opp ∧ opp_audit_gate_status opp = raud_state a ∧
    (raud_state a = "blocked" → opp_status opp = "blocked").
Proof.
  unfold Research.audit_opportunity. intros Hrun.
  apply bind_ok_inv in Hrun as ([opp|] & s1 & Ho & Hrun); [|done].
  apply bind_ok_inv in Ho as (q & s0 & [= <- <-] & Ho).
  destruct (st_opportunities s !! o) as [q|] eqn:Hq; [|done].
  destruct (_ && _) in Ho; [|done]. injection Ho as -> <-.
  apply bind_ok_inv in Hrun as (evidence & s1 & [-> Hev]%evidence_rows & Hrun).
  destruct (audit_sources_state _ _ Hev (support_rows_nodup ws o s)) as (Hb & Hp & Ht).
  revert Hb Hp Ht Hrun. generalize (Research.audit_sources (map snd evidence)). intros v Hb Hp Ht Hrun.
  cbv zeta in Hb, Hp, Ht, Hrun.
  apply bind_ok_inv in Hrun as (j & s1 & [= <- <-] & Hrun).
  apply bind_ok_inv in Hrun as (t & s1 & [= <- <-] & Hrun).
  apply bind_ok_inv in Hrun as ([] & s1 & [= <-] & Hrun).
  apply bind_ok_inv in Hrun as ([] & s2 & [= <-] & Hrun).
  apply bind_ok_inv in Hrun as ([] & s3 & Hs3 & Hrun).
  pose proof (run_frame (λ s, (st_research_audits s, st_opportunities s)) Hrun
    (frame_audit_tail _ _ _ _ _)) as [= Ha Hopp].
  apply bind_ok_inv in Hrun as (run & s4 & _ & Hrun).
  apply bind_ok_inv in Hrun as ([] & s5 & _ & [= <- <- _]).
  rewrite Ha, Hopp. cbn [raud_state raud_workspace_id raud_opportunity_id].
  unfold when in Hs3. split_and!.
  - by destruct (String.eqb _ "blocked"); injection Hs3 as <-.
  - done.
  - done.
  - rewrite Hb. unfold discredited, repetitive. by setoid_rewrite entry_supports.
  - rewrite Hp. unfold well_supported, well_stocked. by setoid_rewrite entry_supports.
  - tauto.
  - destruct (String.eqb_spec (Research.verdict_state v) "blocked") as [Hbl|Hbl];
      injection Hs3 as <-; simpl; rewrite !lookup_alter_eq, Hq; by eexists.
Qed.
End ResearchAudit.

Section AuditDemo.
#[local] Instance audit_demo_order : Unordered := head_first.
Definition demo_proposed : Studio := demo_studio (take 1 demo_ops).
Definition demo_research_audit : result exn (id * ResearchAudit) * Studio :=
  Research.audit_opportunity 1 8 demo_proposed.
End AuditDemo.

Lemma research_audit_exactly_witness :
  match demo_research_audit.1 with Ok p => raud_state p.2 = "pass" | Raise _ => False end ∧
  ∀ i a s', demo_research_audit = (Ok (i, a), s') →
    raud_state a = "pass" ↔ raud_state a ≠ "blocked" ∧ well_supported 1 8 demo_proposed.
Proof.
  split; [by vm_compute|]. intros i a s' Hrun.
  apply (research_audit_exactly 1 8 demo_proposed i a s' Hrun).
Defined.

(** ** What redaction leaves readable *)

Lemma length_append p s : String.length (p +:+ s) = (String.length p + String.length s)%nat.
Proof. induction p as [|c p IH]; [done|]. change (S (String.length (p +:+ s)) = S (String.length p + String.length s)). by rewrite IH. Qed.

Lemma sub_from_skip r repl p s : sub_from r repl (p +:+ s) (String.length p) = sub_from r repl s 0.
Proof. induction p as [|c p IH]; [done|exact IH]. Qed.

Lemma sub_none r repl s : search r s = false → sub_from r repl s 0 = s.
Proof.
  induction s as [|c s IH]; [done|]. cbn [search sub_from].
  destruct (match_prefix r (String c s)); [done|]. intros Hs. by rewrite IH.
Qed.

Lemma substring_whole s n : (String.length s ≤ n)%nat → String.substring 0 n s = s.
Proof.
  revert n. induction s as [|c s IH]; intros [|n] Hn; simpl in *; [done|done|lia|].
  f_equal. apply IH. lia.
Qed.

Definition bearer : string := "Authorization: Bearer ".

(** a match at the start is replaced, and the rest is searched *)
Lemma sub_from_match r repl c p s :
  match_prefix r (String c (p +:+ s)) = Some s →
  sub_from r repl (String c (p +:+ s)) 0 = repl +:+ sub_from r repl s 0.
Proof.
  intros Hm. cbn [sub_from]. rewrite Hm.
  replace (_ - _)%nat with (String.length p) by (rewrite length_append; lia).
  by rewrite sub_from_skip.
Qed.
Lemma sub_from_pass r repl c s :
  match_prefix r (String c s) = None → sub_from r repl (String c s) 0 = String c (sub_from r repl s 0).
Proof. intros Hm. cbn [sub_from]. by rewrite Hm. Qed.

Lemma bearer_match t :
  match_prefix _SECRET_PATTERN (String "A" ("uthorization: Bearer" +:+ String " " t)) =
  Some (String " " t).
Proof. vm_compute. reflexivity. Qed.
Lemma blank_no_match t : match_prefix _SECRET_PATTERN (String " " t) = None.
Proof. vm_compute. reflexivity. Qed.

Lemma sub_bearer t :
  search _SECRET_PATTERN t = false →
  sub _SECRET_PATTERN "[REDACTED_SECRET]" (bearer +:+ t) = "[REDACTED_SECRET] " +:+ t.
Proof.
  intros Ht. unfold sub.
  transitivity ("[REDACTED_SECRET]" +:+ sub_from _SECRET_PATTERN "[REDACTED_SECRET]" (String " " t) 0).
  - exact (sub_from_match _ _ _ _ _ (bearer_match t)).
  - by rewrite (sub_from_pass _ _ _ _ (blank_no_match t)), sub_none.
Qed.

(** The redaction takes the word before a bearer token and leaves the
    token: a source whose text is an [Authorization] header is stored with
    its token readable. *)
Theorem bearer_token_survives t :
  let s := bearer +:+ t in
  strip s = s → (String.length s ≤ Research.MAX_FIXTURE_EXCERPT)%nat →
  search _UNTRUSTED_INSTRUCTION s = false → search _SECRET_PATTERN t = false →
  Research._safe_excerpt (Some s) = (Some ("[REDACTED_SECRET] " +:+ t), None).
Proof.
  intros s Hs Hl Hu Ht. unfold Research._safe_excerpt. rewrite Hs.
  rewrite substring_whole by done. rewrite Hu. subst s. by rewrite sub_bearer.
Qed.

Lemma bearer_token_survives_witness :
  Research._safe_excerpt (Some (bearer +:+ "abc123")) = (Some ("[REDACTED_SECRET] " +:+ "abc123"), None).
Proof.
  apply (bearer_token_survives "abc123");
    [reflexivity|apply Nat.leb_le; vm_compute; reflexivity|reflexivity|reflexivity].
Defined.

(** ** What an invalidation does not stop *)

(** a package is audited and superseded by a second one; one more audit of
    the first, and it is asked to be produced *)
Definition demo_package (script : string) (prior : option id) : studio_op :=
  PackageFixture 1 2 19 [("script", JStr script)] prior.
Definition demo_audited : list studio_op :=
  take 4 demo_ops ++ [demo_package "One way to send an invoice." None] ++
  map demo_audit ContentDepartment._MANDATORY_AUDITORS.
Definition demo_superseded : list studio_op :=
  demo_audited ++ [demo_package "Another way to send it." (Some 30%positive)].
Definition demo_revived : list studio_op :=
  demo_superseded ++ [demo_audit "fact"; ProductionRequest 1 2 30 demo_limits].

(** An invalidation is forgotten: a package that a newer version
    superseded, its gate invalidated, passes its gate again after one more
    audit, and a production job is made for it although it is invalidated. *)
Theorem superseded_package_revives :
  (∃ p, st_packages (demo_studio demo_superseded) !! 30%positive = Some p ∧
     pkg_audit_gate_status p = "invalidated") ∧
  (∃ p, st_packages (demo_studio demo_revived) !! 30%positive = Some p ∧
     is_Some (pkg_invalidated_at p) ∧ pkg_audit_gate_status p = "pass") ∧
  (∃ j, st_production_jobs (demo_studio demo_revived) !! 56%positive = Some j ∧
     pjob_content_package_id j = 30%positive).
Proof.
  split_and!.
  - destruct (passes_some (λ p, String.eqb (pkg_audit_gate_status p) "invalidated")
      (st_packages (demo_studio demo_superseded) !! 30%positive)) as (p & Hp & Hg); [by vm_compute|].
    exists p. split; [exact Hp|by apply String.eqb_eq].
  - destruct (passes_some (λ p, negb (live (pkg_invalidated_at p)) &&
        String.eqb (pkg_audit_gate_status p) "pass")
      (st_packages (demo_studio demo_revived) !! 30%positive)) as (p & Hp & [Hi Hg]%andb_true_iff);
      [by vm_compute|].
    exists p. split_and!; [exact Hp| |by apply String.eqb_eq].
    by destruct (pkg_invalidated_at p).
  - destruct (passes_some (λ j, bool_decide (pjob_content_package_id j = 30%positive))
      (st_production_jobs (demo_studio demo_revived) !! 56%positive)) as (j & Hj & Hi); [by vm_compute|].
    exists j. split; [exact Hj|by apply bool_decide_eq_true in Hi].
Qed.
