(* ===== verification/DepartmentRoutesSpec.v ===== *)
(** * What the routes of the departments let through

    Nobody but an administrator of the workspace gets past the guard; what a
    request answers depends on the rows of its workspace only; and a run that
    a request starts stays within the limits of its body.  The content desk
    asks for an author or a reviewer. *)

From S2P Require Import Decimal Prelude Models Database StudioModels Accounts DepartmentRoutes.
From S2P Require Research Strategy ContentDepartment Production Compliance.

(** ** The tables of a tenant *)

(** a table with the column that names the workspace of a row *)
Inductive tenant_table : ∀ {A}, (Studio → gmap id A) → (A → id) → Prop :=
| T_memberships : tenant_table st_memberships mem_workspace_id
| T_research_runs : tenant_table st_research_runs rrun_workspace_id
| T_sources : tenant_table st_research_sources src_workspace_id
| T_opportunities : tenant_table st_opportunities opp_workspace_id
| T_evidence : tenant_table st_evidence evi_workspace_id
| T_research_audits : tenant_table st_research_audits raud_workspace_id
| T_research_schedules : tenant_table st_research_schedules rsch_workspace_id
| T_strategy_runs : tenant_table st_strategy_runs srun_workspace_id
| T_briefs : tenant_table st_briefs brief_workspace_id
| T_brief_links : tenant_table st_brief_links link_workspace_id
| T_strategy_audits : tenant_table st_strategy_audits saud_workspace_id
| T_strategy_schedules : tenant_table st_strategy_schedules ssch_workspace_id
| T_content_profiles : tenant_table st_content_profiles prof_workspace_id
| T_content_runs : tenant_table st_content_runs crun_workspace_id
| T_directions : tenant_table st_directions dir_workspace_id
| T_packages : tenant_table st_packages pkg_workspace_id
| T_claims : tenant_table st_claims claim_workspace_id
| T_content_audits : tenant_table st_content_audits caud_workspace_id
| T_audit_invalidations : tenant_table st_audit_invalidations cinv_workspace_id
| T_fingerprints : tenant_table st_fingerprints orig_workspace_id
| T_production_jobs : tenant_table st_production_jobs pjob_workspace_id
| T_production_assets : tenant_table st_production_assets past_workspace_id
| T_artifacts : tenant_table st_artifacts art_workspace_id
| T_media_qa : tenant_table st_media_qa mqa_workspace_id
| T_repairs : tenant_table st_repairs prep_workspace_id
| T_readiness : tenant_table st_readiness rdy_workspace_id
| T_compliance_audits : tenant_table st_compliance_audits comp_workspace_id
| T_chief_audits : tenant_table st_chief_audits chief_workspace_id
| T_review_packages : tenant_table st_review_packages hrp_workspace_id
| T_eligibility : tenant_table st_artifact_eligibility elig_workspace_id.
#[local] Hint Constructors tenant_table : core.

Definition of_tenant {A} (own : A → id) (ws : id) (m : gmap id A) : list (id * A) :=
rows (λ _ r, in_workspace ws (own r)) m.

(** two databases that a workspace cannot tell apart: at the same instant,
    with the same rows of it in the same order *)
Definition agree (ws : id) (s s' : Studio) : Prop :=
w_now (st_world s) = w_now (st_world s') ∧
∀ A (t : Studio → gmap id A) own, tenant_table t own → of_tenant own ws (t s) = of_tenant own ws (t s').

(** a computation that only looks, and only at the workspace *)
Definition reads {A} (ws : id) (m : SM A) : Prop :=
∀ s s', agree ws s s' → (m s).1 = (m s').1 ∧ (m s).2 = s ∧ (m s').2 = s'.

Section Reads.
Context (ws : id).

Lemma reads_ret {A} (a : A) : reads ws (mret a).
Proof. done. Qed.
Lemma reads_raise {A} e : reads ws (raise (A := A) e).
Proof. done. Qed.
Lemma reads_lift {A} (r : result exn A) : reads ws (lift_result r).
Proof. done. Qed.
Lemma reads_bind {A B} (m : SM A) (k : A → SM B) :
  reads ws m → (∀ a, reads ws (k a)) → reads ws (m ≫= k).
Proof.
  intros Hm Hk s s' Ha. destruct (Hm s s' Ha) as (H1 & H2 & H3). rewrite !run_bind.
  destruct (m s) as [r s1], (m s') as [r' s1']. simpl in *. subst. destruct r' as [a|e]; [by apply Hk|done].
Qed.
Lemma reads_catch {A} (m : SM A) h : reads ws m → (∀ e, reads ws (h e)) → reads ws (catch m h).
Proof.
  intros Hm Hh s s' Ha. destruct (Hm s s' Ha) as (H1 & H2 & H3). unfold catch.
  destruct (m s) as [r s1], (m s') as [r' s1']. simpl in *. subst. destruct r' as [a|e]; [done|by apply Hh].
Qed.
Lemma reads_except {A} clauses (m : SM A) : reads ws m → reads ws (except clauses m).
Proof. intros Hm. apply reads_catch; [done|]. intros e. by destruct (list_find _ _) as [[? ?]|]. Qed.
Lemma reads_found {A} detail (o : option A) : reads ws (found detail o).
Proof. by destruct o. Qed.
Lemma reads_scoped {A} (m : SM A) : reads ws m → reads ws (scoped m).
Proof.
  intros Hm s s' Ha. destruct (Hm s s' Ha) as (H1 & H2 & H3). unfold scoped, savepoint.
  destruct (m s) as [r s1], (m s') as [r' s1']. simpl in *. subst. by destruct r'.
Qed.
Lemma reads_clock : reads ws (on_world now).
Proof. intros s s' [Hn _]. unfold on_world, now, gets. simpl. rewrite Hn. by destruct s, s'. Qed.
Lemma reads_scalar {A} (l : list A) : reads ws (scalar_one_or_none l).
Proof. by destruct l as [|x [|y l]]. Qed.

Section Table.
Context {A} (t : Studio → gmap id A) (own : A → id) (Ht : tenant_table t own).

Lemma reads_select P :
  (∀ i r, P i r = true → own r = ws) → reads ws (select t P).
Proof using Ht.
  intros HP s s' [_ Ha]. unfold select, gets. simpl. split; [|done]. f_equal.
  assert (Hrows : ∀ m : gmap id A, rows P m = filter (λ p, P p.1 p.2 = true) (of_tenant own ws m)).
  { intros m. unfold rows, of_tenant, rows. rewrite list_filter_filter.
    apply list_filter_iff. intros [i r]. simpl. split; [|tauto]. intros Hp. split; [done|].
    apply in_workspace_true. by apply (HP i). }
  rewrite !Hrows. by rewrite (Ha A t own Ht).
Qed.

Lemma tsum_tenant f (m : gmap id A) :
  (∀ i r, f i r ≠ 0 → own r = ws) →
  tsum f m = foldr (λ p acc, f p.1 p.2 + acc) 0 (of_tenant own ws m).
Proof.
  intros Hf. unfold tsum, of_tenant, rows. rewrite map_fold_foldr.
  induction (map_to_list m) as [|[i r] l IH]; [done|]. rewrite filter_cons. simpl. rewrite IH.
  destruct (in_workspace ws (own r)) eqn:Hr.
  - by rewrite decide_True.
  - rewrite decide_False by done. destruct (decide (f i r = 0)) as [->|Hn]; [done|].
    apply Hf in Hn. apply in_workspace_true in Hn. congruence.
Qed.

Lemma reads_sum f : (∀ i r, f i r ≠ 0 → own r = ws) → reads ws (select_sum t f).
Proof using Ht.
  intros Hf s s' [_ Ha]. unfold select_sum, gets. simpl. split; [|done]. f_equal.
  rewrite !(tsum_tenant f _ Hf). by rewrite (Ha A t own Ht).
Qed.
Lemma reads_count P : (∀ i r, P i r = true → own r = ws) → reads ws (select_count t P).
Proof using Ht.
  intros HP. unfold select_count, tcount. apply (reads_sum (λ i r, if P i r then 1 else 0)).
  intros i r. destruct (P i r) eqn:Hp; [|done]. intros _. by apply (HP i).
Qed.

Lemma lookup_tenant (m : gmap id A) i r : m !! i = Some r → own r = ws → (i, r) ∈ of_tenant own ws m.
Proof.
  intros Hi Hr. unfold of_tenant, rows. apply list_elem_of_filter. split.
  - simpl. by apply in_workspace_true.
  - by apply elem_of_map_to_list.
Qed.
Lemma tenant_lookup (m : gmap id A) i r : (i, r) ∈ of_tenant own ws m → m !! i = Some r ∧ own r = ws.
Proof.
  intros Hi. apply list_elem_of_filter in Hi as [Hr Hi]. split; [by apply elem_of_map_to_list|].
  by apply in_workspace_true in Hr.
Qed.

(** a row that is read by its key is of no matter when it is another's *)
Lemma lookup_agree s s' i :
  agree ws s s' →
  t s !! i = t s' !! i ∨
  (∀ r, t s !! i = Some r → own r ≠ ws) ∧ (∀ r, t s' !! i = Some r → own r ≠ ws).
Proof using Ht.
  intros [_ Ha]. specialize (Ha A t own Ht).
  destruct (t s !! i) as [r|] eqn:Hi; [destruct (decide (own r = ws)) as [Hr|Hr]|].
  - left. apply (lookup_tenant _ _ _ Hi) in Hr. rewrite Ha in Hr. by apply tenant_lookup in Hr as [-> _].
  - right. split; [by intros x [= <-]|]. intros x Hx Hws. apply (lookup_tenant _ _ _ Hx) in Hws.
    rewrite <- Ha in Hws. apply tenant_lookup in Hws as [Hx' ?]. congruence.
  - right. split; [done|]. intros x Hx Hws. apply (lookup_tenant _ _ _ Hx) in Hws.
    rewrite <- Ha in Hws. apply tenant_lookup in Hws as [Hx' ?]. congruence.
Qed.

Lemma reads_get {B} i (k : option A → SM B) :
  (∀ r, own r ≠ ws → k (Some r) = k None) → (∀ o, reads ws (k o)) → reads ws (session_get t i ≫= k).
Proof using Ht.
  intros Hk Hr s s' Ha. rewrite !run_bind. unfold session_get, gets.
  assert (Hsame : k (t s !! i) = k (t s' !! i)).
  { destruct (lookup_agree s s' i Ha) as [->|[H1 H2]]; [done|].
    destruct (t s !! i) as [r|], (t s' !! i) as [r'|]; rewrite ?Hk by auto; done. }
  rewrite Hsame. by apply Hr.
Qed.
End Table.
End Reads.

(** ** The queries of the services *)

Lemma in_workspace_false ws ws' : ws' ≠ ws → in_workspace ws ws' = false.
Proof. intros H. unfold in_workspace. by apply bool_decide_eq_false. Qed.

(** the condition of a query names the workspace *)
Ltac tenant_side :=
  simpl; intros;
  repeat match goal with
    | H : _ && _ = true |- _ => apply andb_true_iff in H as [? ?]
    | H : in_workspace _ _ = true |- _ => apply in_workspace_true in H
    | H : (if in_workspace ?a ?b && ?c then _ else _) ≠ 0 |- _ =>
        let E := fresh in destruct (in_workspace a b && c) eqn:E; [|done]
    | H : (if in_workspace ?a ?b then _ else _) ≠ 0 |- _ =>
        let E := fresh in destruct (in_workspace a b) eqn:E; [|done]
    end; done.
(** a row of another workspace is as good as none *)
Ltac foreign := intros ? ?; simpl; by rewrite ?in_workspace_false.

Create HintDb reads.
Ltac reads_step :=
  match goal with
  | |- reads _ (mret _) => apply reads_ret
  | |- reads _ (raise _) => apply reads_raise
  | |- reads _ (lift_result _) => apply reads_lift
  | |- reads _ (on_world now) => apply reads_clock
  | |- reads _ (scalar_one_or_none _) => apply reads_scalar
  | |- reads _ (found _ _) => apply reads_found
  | |- reads _ (scoped _) => apply reads_scoped
  | |- reads _ (except _ _) => apply reads_except
  | |- reads _ (select _ _) => eapply reads_select; [auto with reads|tenant_side]
  | |- reads _ (select_count _ _) => eapply reads_count; [auto with reads|tenant_side]
  | |- reads _ (select_sum _ _) => eapply reads_sum; [auto with reads|tenant_side]
  | |- reads _ (session_get _ _ ≫= _) =>
      eapply reads_get; [auto with reads|foreign|intros [?|]]
  | |- reads _ _ => solve [eauto 2 with reads nocore]
  | |- reads _ (_ ≫= _) => apply reads_bind; [|intros ?]
  | |- reads _ (if ?b then _ else _) => destruct b
  | |- reads _ (match ?x with _ => _ end) => destruct x
  end.
Ltac reads_tac := cbv zeta; repeat (reads_step; cbv zeta).
#[local] Hint Constructors tenant_table : reads.

Section Queries.
Context `{Unordered} (ws : id).

Lemma reads_guard user : reads ws (require_workspace_admin ws user).
Proof.
  unfold require_workspace_admin, require_workspace_role, get_membership.
  apply reads_bind; [|intros [m|]; [reads_tac|reads_tac]].
  apply reads_bind; [reads_tac|]. intros u. apply reads_bind; [|intros l; reads_tac].
  eapply reads_select; [auto with reads|]. unfold membership_of. tenant_side.
Qed.
#[local] Hint Resolve reads_guard : reads.

Lemma reads_research_runs n : reads ws (Research.list_runs ws n).
Proof. unfold Research.list_runs. reads_tac. Qed.
#[local] Hint Resolve reads_research_runs : reads.
Lemma reads_research_run i : reads ws (Research.get_run ws i).
Proof. unfold Research.get_run. reads_tac. Qed.
#[local] Hint Resolve reads_research_run : reads.
Lemma reads_opportunities n : reads ws (Research.list_opportunities ws n).
Proof. unfold Research.list_opportunities. reads_tac. Qed.
#[local] Hint Resolve reads_opportunities : reads.
Lemma reads_opportunity i : reads ws (Research.get_opportunity ws i).
Proof. unfold Research.get_opportunity. reads_tac. Qed.
#[local] Hint Resolve reads_opportunity : reads.
Lemma reads_evidence i : reads ws (Research.opportunity_evidence ws i).
Proof.
  unfold Research.opportunity_evidence. apply reads_bind; [reads_tac|]. intros links s s' Ha.
  split; [|done]. simpl. do 2 f_equal. apply list_omap_ext. apply Forall2_same_length_lookup_2; [done|].
  intros j p p' Hp Hp'. rewrite Hp in Hp'. injection Hp' as <-.
  destruct (lookup_agree ws _ _ T_sources s s' (evi_source_id p.2) Ha) as [->|[H1 H2]]; [done|].
  assert (Hno : ∀ o : option ResearchSource, (∀ r, o = Some r → src_workspace_id r ≠ ws) →
    match o with Some r => if in_workspace ws (src_workspace_id r)
                           then Some (p.2, (evi_source_id p.2, r)) else None | None => None end = None).
  { intros [r|] Hr; [|done]. by rewrite (in_workspace_false ws _ (Hr r eq_refl)). }
  by rewrite (Hno _ H1), (Hno _ H2).
Qed.
#[local] Hint Resolve reads_evidence : reads.
Lemma reads_research_audit i : reads ws (Research.latest_audit ws i).
Proof. unfold Research.latest_audit, Research.audits_of. reads_tac. Qed.
#[local] Hint Resolve reads_research_audit : reads.

Lemma reads_business : reads ws (Strategy.get_business_context_state ws).
Proof. unfold Strategy.get_business_context_state. reads_tac. Qed.
#[local] Hint Resolve reads_business : reads.
Lemma reads_strategy_run i : reads ws (Strategy.get_run ws i).
Proof. unfold Strategy.get_run. reads_tac. Qed.
#[local] Hint Resolve reads_strategy_run : reads.
Lemma reads_strategy_runs : reads ws (Strategy.list_runs ws).
Proof. unfold Strategy.list_runs. reads_tac. Qed.
#[local] Hint Resolve reads_strategy_runs : reads.
Lemma reads_brief i : reads ws (Strategy.get_brief ws i).
Proof. unfold Strategy.get_brief. reads_tac. Qed.
#[local] Hint Resolve reads_brief : reads.
Lemma reads_briefs : reads ws (Strategy.list_briefs ws).
Proof. unfold Strategy.list_briefs. reads_tac. Qed.
#[local] Hint Resolve reads_briefs : reads.
Lemma reads_brief_links i : reads ws (Strategy.brief_opportunity_ids ws i).
Proof. unfold Strategy.brief_opportunity_ids. reads_tac. Qed.
#[local] Hint Resolve reads_brief_links : reads.
Lemma reads_strategy_audit i : reads ws (Strategy.latest_audit ws i).
Proof. unfold Strategy.latest_audit, Strategy.audits_of. reads_tac. Qed.
#[local] Hint Resolve reads_strategy_audit : reads.

Lemma reads_content_run i : reads ws (ContentDepartment.get_run ws i).
Proof. unfold ContentDepartment.get_run. reads_tac. Qed.
#[local] Hint Resolve reads_content_run : reads.
Lemma reads_package i : reads ws (ContentDepartment.get_package ws i).
Proof. unfold ContentDepartment.get_package. reads_tac. Qed.
#[local] Hint Resolve reads_package : reads.
Lemma reads_packages : reads ws (ContentDepartment.list_packages ws).
Proof. unfold ContentDepartment.list_packages. reads_tac. Qed.
#[local] Hint Resolve reads_packages : reads.
Lemma reads_direction p : reads ws (ContentDepartment.direction_of ws p).
Proof. unfold ContentDepartment.direction_of. reads_tac. Qed.
#[local] Hint Resolve reads_direction : reads.

Lemma reads_research_summary : reads ws (Research.summary ws).
Proof. unfold Research.summary. reads_tac. Qed.
#[local] Hint Resolve reads_research_summary : reads.
Lemma reads_strategy_summary : reads ws (Strategy.summary ws).
Proof. unfold Strategy.summary. reads_tac. Qed.
#[local] Hint Resolve reads_strategy_summary : reads.
Lemma reads_content_summary : reads ws (ContentDepartment.summary ws).
Proof. unfold ContentDepartment.summary. reads_tac. Qed.
#[local] Hint Resolve reads_content_summary : reads.
Lemma reads_package_detail i : reads ws (ContentDepartment.package_detail ws i).
Proof. unfold ContentDepartment.package_detail. reads_tac. Qed.
#[local] Hint Resolve reads_package_detail : reads.
Lemma reads_producer_gate i : reads ws (ContentDepartment.producer_gate ws i).
Proof. unfold ContentDepartment.producer_gate. reads_tac. Qed.
#[local] Hint Resolve reads_producer_gate : reads.

Lemma reads_job i : reads ws (Production.get_job ws i).
Proof. unfold Production.get_job. reads_tac. Qed.
#[local] Hint Resolve reads_job : reads.
Lemma reads_readiness i : reads ws (Production.readiness_of ws i).
Proof. unfold Production.readiness_of. reads_tac. Qed.
#[local] Hint Resolve reads_readiness : reads.
Lemma reads_jobs : reads ws (Production.list_jobs ws).
Proof. unfold Production.list_jobs. reads_tac. Qed.
#[local] Hint Resolve reads_jobs : reads.
Lemma reads_job_detail i : reads ws (Production.job_detail ws i).
Proof. unfold Production.job_detail. reads_tac. Qed.
#[local] Hint Resolve reads_job_detail : reads.
Lemma reads_production_summary : reads ws (Production.summary ws).
Proof. unfold Production.summary. reads_tac. Qed.
#[local] Hint Resolve reads_production_summary : reads.

Lemma reads_compliance_summary : reads ws (Compliance.summary ws).
Proof. unfold Compliance.summary. reads_tac. Qed.
#[local] Hint Resolve reads_compliance_summary : reads.
Lemma reads_audits : reads ws (Compliance.list_audits ws).
Proof. unfold Compliance.list_audits. reads_tac. Qed.
#[local] Hint Resolve reads_audits : reads.
Lemma reads_chief_audits : reads ws (Compliance.list_chief_audits ws).
Proof. unfold Compliance.list_chief_audits. reads_tac. Qed.
#[local] Hint Resolve reads_chief_audits : reads.
Lemma reads_review_packages : reads ws (Compliance.list_review_packages ws).
Proof. unfold Compliance.list_review_packages. reads_tac. Qed.
#[local] Hint Resolve reads_review_packages : reads.
End Queries.
#[local] Hint Resolve reads_guard reads_research_runs reads_research_run reads_opportunities reads_opportunity reads_evidence reads_research_audit reads_business reads_strategy_run reads_strategy_runs reads_brief reads_briefs reads_brief_links reads_strategy_audit reads_content_run reads_package reads_packages reads_direction reads_research_summary reads_strategy_summary reads_content_summary reads_package_detail reads_producer_gate reads_job reads_readiness reads_jobs reads_job_detail reads_production_summary reads_compliance_summary reads_audits reads_chief_audits reads_review_packages : reads.

Lemma reads_served `{Unordered} {A} ws user (q : department_get A) : reads ws (serve_get ws user q).
Proof.
  destruct q; simpl; unfold research_runs, research_run_detail, research_summary, opportunities,
    opportunity_detail, opportunity_sources, research_audit_detail, strategy_runs, strategy_run_detail,
    strategy_summary, briefs, brief_detail, strategy_audit_detail, content_run_detail, department_summary,
    packages, package_detail, producer_gate, production_summary, production_runs, production_run_detail,
    artifact_detail, artifact_qa, artifact_readiness, compliance_summary, get_audits, get_chief_audits,
    get_human_review_packages, admin_route.
  all: reads_tac.
Qed.

(** ** The limits of a run *)

(** what a body may ask for *)
Definition research_limits (r : ResearchRun) : Prop :=
1 ≤ rrun_max_searches r ≤ 25 ∧ 0 ≤ rrun_max_provider_calls r ≤ 25 ∧ 0 ≤ rrun_max_tokens r ≤ 100000 ∧
0 ≤ rrun_max_cost_usd r ≤ 250000 ∧ 1 ≤ rrun_max_attempts r ≤ 5.
Definition strategy_limits (r : StrategyRun) : Prop :=
0 ≤ srun_max_provider_calls r ≤ 25 ∧ 0 ≤ srun_max_tokens r ≤ 100000 ∧
0 ≤ srun_max_cost_usd r ≤ 250000 ∧ 1 ≤ srun_max_attempts r ≤ 5.
Definition content_limits (r : ContentDepartmentRun) : Prop :=
0 ≤ crun_max_provider_calls r ≤ 25 ∧ 0 ≤ crun_max_tokens r ≤ 100000 ∧
0 ≤ crun_max_cost_usd r ≤ 250000 ∧ 1 ≤ crun_max_attempts r ≤ 5 ∧ 30 ≤ crun_timeout_seconds r ≤ 3600.
Definition production_limits (j : ProductionJob) : Prop :=
0 ≤ pjob_max_provider_calls j ≤ 20 ∧ 0 ≤ pjob_max_render_calls j ≤ 8 ∧
0 ≤ pjob_max_cost_usd j ≤ 5000000 ∧ pjob_max_total_cost_usd j = pjob_max_cost_usd j ∧
1 ≤ pjob_max_attempts j ≤ 8 ∧ 0 ≤ pjob_max_repair_cycles j ≤ 5 ∧ 30 ≤ pjob_timeout_seconds j ≤ 14400.

Definition limits_hold (s : Studio) : Prop :=
map_Forall (λ _, research_limits) (st_research_runs s) ∧
map_Forall (λ _, strategy_limits) (st_strategy_runs s) ∧
map_Forall (λ _, content_limits) (st_content_runs s) ∧
map_Forall (λ _, production_limits) (st_production_jobs s).

Definition bounded : relation Studio := preserved limits_hold.

(** a request of somebody *)
Inductive department_request : Type :=
| Posted {A} (ws : id) (user : AuthenticatedUser) (q : department_post A).

Section Limits.
Context `{Unordered}.

#[local] Instance bounded_preorder : PreOrder bounded.
Proof. apply preserved_preorder. Qed.

Definition run_request (r : department_request) : SM unit :=
match r with Posted ws user q => serve_post ws user q;; mret tt end.
Definition requests_exec (l : list department_request) (s : Studio) : Studio :=
foldl (λ s r, (run_request r s).2) s l.

Lemma within_spec lo hi x : within lo hi x = true ↔ lo ≤ x ≤ hi.
Proof. unfold within. rewrite andb_true_iff, !Z.leb_le. done. Qed.

Lemma bounded_insert_research i r : research_limits r → keeps bounded (insert_row st_research_runs i r).
Proof. intros Hr s (H1 & H2 & H3 & H4). split_and!; try done. by apply map_Forall_insert_2. Qed.
Lemma bounded_insert_strategy i r : strategy_limits r → keeps bounded (insert_row st_strategy_runs i r).
Proof. intros Hr s (H1 & H2 & H3 & H4). split_and!; try done. by apply map_Forall_insert_2. Qed.
Lemma bounded_insert_content i r : content_limits r → keeps bounded (insert_row st_content_runs i r).
Proof. intros Hr s (H1 & H2 & H3 & H4). split_and!; try done. by apply map_Forall_insert_2. Qed.
Lemma bounded_insert_job i r : production_limits r → keeps bounded (insert_row st_production_jobs i r).
Proof. intros Hr s (H1 & H2 & H3 & H4). split_and!; try done. by apply map_Forall_insert_2. Qed.

Lemma bounded_modify_research i g :
  (∀ r, research_limits r → research_limits (g r)) → keeps bounded (modify st_research_runs i g).
Proof. intros Hg s (H1 & H2 & H3 & H4). split_and!; try done. intros j r Hj.
  change (alter g i (st_research_runs s) !! j = Some r) in Hj.
  apply lookup_alter_Some in Hj as [(-> & y & Hy & ->)|[_ Hj]]; [apply Hg; by apply (H1 j)|by apply (H1 j)].
Qed.

#[local] Hint Extern 2 (keeps bounded (modify st_research_runs _ _)) =>
  (apply bounded_modify_research; trivial) : keeps.

Lemma bounded_trace ws ids : keeps bounded (Strategy.trace_sources ws ids).
Proof. induction ids as [|o ids IH]; simpl; unfold Research.latest_audit; keeps_tac. Qed.
#[local] Hint Resolve bounded_trace : keeps.

(** a body that passed its checks *)
Lemma bounded_body {P B} (check : P → result exn P) (ok : P → Prop) (k : P → SM B) p :
  (∀ p', check p = Ok p' → ok p') → (∀ p', ok p' → keeps bounded (k p')) →
  keeps bounded (lift_result (check p) ≫= k).
Proof.
  intros Hok Hk s. rewrite run_bind. unfold lift_result. destruct (check p) as [p'|e] eqn:Hp.
  - by apply Hk, Hok.
  - apply (reflexivity (R := bounded)).
Qed.

Definition research_ok (p : Research.ResearchRunCreate) : Prop :=
1 ≤ Research.rc_max_searches p ≤ 25 ∧ 0 ≤ Research.rc_max_provider_calls p ≤ 25 ∧
0 ≤ Research.rc_max_tokens p ≤ 100000 ∧ 0 ≤ Research.rc_max_cost_usd p ≤ 250000 ∧
1 ≤ Research.rc_max_attempts p ≤ 5.
Definition strategy_ok (p : Strategy.StrategyRunCreate) : Prop :=
0 ≤ Strategy.sc_max_provider_calls p ≤ 25 ∧ 0 ≤ Strategy.sc_max_tokens p ≤ 100000 ∧
0 ≤ Strategy.sc_max_cost_usd p ≤ 250000 ∧ 1 ≤ Strategy.sc_max_attempts p ≤ 5.
Definition content_ok (p : ContentDepartment.ContentDepartmentRunCreate) : Prop :=
0 ≤ ContentDepartment.cc_max_provider_calls p ≤ 25 ∧ 0 ≤ ContentDepartment.cc_max_tokens p ≤ 100000 ∧
0 ≤ ContentDepartment.cc_max_cost_usd p ≤ 250000 ∧ 1 ≤ ContentDepartment.cc_max_attempts p ≤ 5 ∧
30 ≤ ContentDepartment.cc_timeout_seconds p ≤ 3600.
Definition production_ok (p : Production.ProductionLimits) : Prop :=
0 ≤ Production.pl_max_provider_calls p ≤ 20 ∧ 0 ≤ Production.pl_max_render_calls p ≤ 8 ∧
0 ≤ Production.pl_max_cost_usd p ≤ 5000000 ∧ 1 ≤ Production.pl_max_attempts p ≤ 8 ∧
0 ≤ Production.pl_max_repair_cycles p ≤ 5 ∧ 30 ≤ Production.pl_timeout_seconds p ≤ 14400.

Ltac body_ok := unfold checked; intros Hp;
  repeat match type of Hp with
    | (match ?x with _ => _ end) = Ok _ => destruct x eqn:?; [|discriminate Hp]
    | (if ?x then _ else _) = Ok _ => destruct x eqn:?; [|discriminate Hp]
    end;
  injection Hp as <-; repeat match goal with H : _ && _ = true |- _ => apply andb_true_iff in H as [? ?] end;
  repeat match goal with H : within _ _ _ = true |- _ => apply within_spec in H end.

Lemma research_body p p' : ResearchRunCreate_of p = Ok p' → research_ok p'.
Proof. unfold ResearchRunCreate_of. body_ok. unfold research_ok. simpl. auto. Qed.
Lemma strategy_body p p' : StrategyRunCreate_of p = Ok p' → strategy_ok p'.
Proof. unfold StrategyRunCreate_of. body_ok. unfold strategy_ok. auto. Qed.
Lemma content_body p p' : ContentDepartmentRunCreate_of p = Ok p' → content_ok p'.
Proof. unfold ContentDepartmentRunCreate_of. body_ok. unfold content_ok. auto. Qed.
Lemma production_body p p' : ProductionRunCreate_of p = Ok p' → production_ok p'.
Proof. unfold ProductionRunCreate_of. body_ok. unfold production_ok. auto 10. Qed.

(** a row made from a body that passed its checks *)
Ltac limits_side :=
  unfold research_limits, strategy_limits, content_limits, production_limits,
    research_ok, strategy_ok, content_ok, production_ok in *;
  simpl; tauto.
#[local] Hint Extern 2 (keeps bounded (insert_row st_research_runs _ _)) =>
  (apply bounded_insert_research; limits_side) : keeps.
#[local] Hint Extern 2 (keeps bounded (insert_row st_strategy_runs _ _)) =>
  (apply bounded_insert_strategy; limits_side) : keeps.
#[local] Hint Extern 2 (keeps bounded (insert_row st_content_runs _ _)) =>
  (apply bounded_insert_content; limits_side) : keeps.
#[local] Hint Extern 2 (keeps bounded (insert_row st_production_jobs _ _)) =>
  (apply bounded_insert_job; limits_side) : keeps.

Lemma bounded_modify_strategy i g :
  (∀ r, strategy_limits r → strategy_limits (g r)) → keeps bounded (modify st_strategy_runs i g).
Proof.
  intros Hg s (H1 & H2 & H3 & H4). split_and!; try done. intros j r Hj.
  change (alter g i (st_strategy_runs s) !! j = Some r) in Hj.
  apply lookup_alter_Some in Hj as [(-> & y & Hy & ->)|[_ Hj]]; [apply Hg; by apply (H2 j)|by apply (H2 j)].
Qed.
#[local] Hint Extern 2 (keeps bounded (modify st_strategy_runs _ _)) =>
  (apply bounded_modify_strategy; intros ?; try case_match; trivial) : keeps.

Lemma bounded_guarded {A} ws user (m : SM A) : keeps bounded m → keeps bounded (admin_route ws user m).
Proof.
  intros Hm. unfold admin_route, scoped, require_workspace_admin, require_workspace_role, get_membership.
  keeps_tac.
Qed.
Lemma bounded_except {A} clauses (m : SM A) : keeps bounded m → keeps bounded (except clauses m).
Proof. intros Hm. unfold except. keeps_tac. Qed.

Lemma bounded_served {A} ws user (q : department_post A) : keeps bounded (serve_post ws user q).
Proof.
  destruct q; simpl; apply bounded_guarded.
  - apply (bounded_body _ research_ok); [apply research_body|]. intros p Hp. keeps_all.
  - apply bounded_except. keeps_all.
  - apply bounded_except. keeps_all.
  - apply (bounded_body _ strategy_ok); [apply strategy_body|]. intros p Hp. apply bounded_except. keeps_all.
  - apply bounded_except. keeps_all.
  - apply bounded_except. keeps_all.
  - apply (bounded_body _ content_ok); [apply content_body|]. intros p Hp. apply bounded_except. keeps_all.
  - apply (bounded_body _ production_ok); [apply production_body|]. intros p Hp.
    apply keeps_bind; [apply _|apply bounded_except; keeps_all|intros ?; keeps_tac].
  - keeps_all. 
  - apply bounded_except. keeps_all.
Qed.
End Limits.

(** ** The guard *)

Definition not_admin (s : Studio) (ws u : id) : Prop :=
∀ i m, st_memberships s !! i = Some m → mem_workspace_id m = ws → mem_user_id m = u →
  mem_role m ≠ ROLE_ADMIN.
(** what the guard answers; a user has one membership of a workspace at most *)
Definition refusal (e : exn) : Prop :=
(∃ detail, e = HTTPException 403 detail) ∨ e = MultipleResultsFound.

(** the user has none of the roles in the workspace *)
Definition without_role (roles : list WorkspaceRole) (s : Studio) (ws u : id) : Prop :=
∀ i m, st_memberships s !! i = Some m → mem_workspace_id m = ws → mem_user_id m = u →
  mem_role m ∉ roles.

Lemma role_refuses roles ws user u s :
  user_uuid user = Ok u → without_role roles s ws u →
  ∃ e, require_workspace_role roles ws user s = (Raise e, s) ∧ refusal e.
Proof.
  intros Hu Hno. unfold require_workspace_role, get_membership, lift_result.
  rewrite !run_bind, Hu. cbn [mbind st_bind]. rewrite run_bind. unfold select, gets.
  destruct (rows _ _) as [|[i m] [|p l]] eqn:Hl; cbn.
  - eexists. split; [reflexivity|]. left. eauto.
  - assert (Hin : (i, m) ∈ rows (membership_of ws u) (st_memberships s)) by (rewrite Hl; left).
    apply list_elem_of_filter in Hin as [Hm Hin]. apply elem_of_map_to_list in Hin.
    unfold membership_of in Hm. apply andb_true_iff in Hm as [Hw%in_workspace_true Hx%bool_decide_eq_true].
    rewrite bool_decide_false by exact (Hno i m Hin Hw Hx).
    eexists. split; [reflexivity|]. left. eauto.
  - eexists. split; [reflexivity|]. by right.
Qed.

Lemma role_route_refuses {A} roles ws user u s (m : SM A) :
  user_uuid user = Ok u → without_role roles s ws u →
  ∃ e, scoped (require_workspace_role roles ws user;; m) s = (Raise e, s) ∧ refusal e.
Proof.
  intros Hu Hno. destruct (role_refuses roles ws user u s Hu Hno) as (e & He & Hr). exists e.
  unfold scoped, savepoint. rewrite run_bind, He. auto.
Qed.

(** A job is created and a draft edited by an author, and a gate decided by a
    reviewer: anybody else is refused without a trace. *)
Lemma desk_requests_guarded `{Settings} settings billing ws user u s :
  user_uuid user = Ok u →
  (without_role [ROLE_ADMIN; ROLE_EDITOR] s ws u →
   (∀ payload, ∃ e, create_content_job_route ws user settings billing payload s = (Raise e, s) ∧ refusal e) ∧
   (∀ gate payload, ∃ e, edit_review_gate_route ws user gate payload s = (Raise e, s) ∧ refusal e)) ∧
  (without_role [ROLE_ADMIN; ROLE_REVIEWER] s ws u →
   ∀ gate payload, ∃ e, decide_review_gate_route ws user gate payload s = (Raise e, s) ∧ refusal e).
Proof.
  intros Hu. split; intros Hno; [split|]; intros; by apply (role_route_refuses _ ws user u s _ Hu Hno).
Qed.

Lemma route_refuses {A} ws user u s (m : SM A) :
  user_uuid user = Ok u → not_admin s ws u →
  ∃ e, admin_route ws user m s = (Raise e, s) ∧ refusal e.
Proof.
  intros Hu Hno. apply (role_route_refuses [ROLE_ADMIN] ws user u s m Hu).
  intros i x Hi Hw Hx. rewrite list_elem_of_singleton. by apply (Hno i x).
Qed.

(** ** The properties *)

Section Properties.
Context `{Unordered}.

(** C14: Who is not an administrator of the workspace is refused by every request to a
    department, whatever it asks for, and the request leaves no trace. *)
Theorem department_requests_guarded (ws : id) (user : AuthenticatedUser) (u : id) (s : Studio) :
  user_uuid user = Ok u → not_admin s ws u →
  (∀ A (q : department_get A), ∃ e, serve_get ws user q s = (Raise e, s) ∧ refusal e) ∧
  (∀ A (q : department_post A), ∃ e, serve_post ws user q s = (Raise e, s) ∧ refusal e).
Proof.
  intros Hu Hno. split; intros A q; destruct q; by apply (route_refuses ws user u s _ Hu Hno).
Qed.

(** C13: What a department answers to a question about a workspace, refusals and errors included,
    depends on the rows of that workspace only: two databases that agree on them give the
    same answer, and neither is changed. *)
Theorem department_reads_confined {A} (ws : id) (user : AuthenticatedUser) (q : department_get A)
  (s s' : Studio) :
  agree ws s s' →
  (serve_get ws user q s).1 = (serve_get ws user q s').1 ∧
  (serve_get ws user q s).2 = s ∧ (serve_get ws user q s').2 = s'.
Proof. apply reads_served. Qed.

(** C20: Whatever requests are made to the departments, by whomever, every research, strategy,
    content and production run keeps its limits (calls, tokens, money, attempts, time) within the
    bounds of the request bodies. *)
Theorem department_runs_bounded (l : list department_request) (s : Studio) :
  limits_hold s → limits_hold (requests_exec l s).
Proof.
  revert s. induction l as [|[A ws user q] l IH]; intros s Hs; [done|]. apply IH.
  apply (keeps_bind bounded (serve_post ws user q) (λ _, mret tt)); [apply bounded_served| |exact Hs].
  intros a s1. apply (reflexivity (R := preserved limits_hold)).
Qed.
End Properties.

(** ** Witnesses *)

Section Demo.
#[local] Instance demo_order : Unordered := head_first.

Definition demo_user (u : id) : AuthenticatedUser := mk_user (JStr (uuid_str u)) JNull.
Definition demo_opportunity (ws : id) (title : string) : Opportunity :=
  {| opp_workspace_id := ws; opp_research_run_id := 3; opp_title := title; opp_topic := "t";
     opp_summary := "s"; opp_proposed_angle := "a"; opp_target_audience := None;
     opp_target_platform := None; opp_suggested_format := None; opp_discovered_at := 0;
     opp_freshness := "fresh"; opp_source_count := 0; opp_confidence := Finite 0 0; opp_risk := "low";
     opp_status := "new"; opp_created_by_worker := "scout"; opp_component_scores := JObj [];
     opp_score_reasoning := JObj []; opp_dedupe_key := title; opp_audit_gate_status := "not_run";
     opp_performance_data_state := "none"; opp_strategist_state := "not_eligible";
     opp_test_data := true; opp_created_at := 0; opp_created_by := None; opp_updated_by := None;
     opp_deleted_at := None |}.

(** user 2 is an administrator of workspace 1, user 6 an editor of it and an
    administrator of workspace 5, whose only opportunity has some title *)
Definition two_studios (title : string) : Studio :=
  (empty_studio (empty_world 0))
    <| st_memberships := {[ 11%positive := mk_mem 1 2 ROLE_ADMIN 0; 12%positive := mk_mem 1 6 ROLE_EDITOR 0;
                            13%positive := mk_mem 5 6 ROLE_ADMIN 0 ]} |>
    <| st_opportunities := {[ 21%positive := demo_opportunity 1 "ours";
                              22%positive := demo_opportunity 5 title ]} |>.

Definition demo_body : Research.ResearchRunCreate :=
  Research.mk_research_run_create "what is new" [" https://example.org "] 5 5 4000 250000 3.
End Demo.

Lemma department_requests_guarded_witness :
  (∃ e, serve_post (H := head_first) 1 (demo_user 6) (PostResearchRun demo_body) (two_studios "t") =
     (Raise e, two_studios "t") ∧ refusal e).
Proof.
  refine (proj2 (department_requests_guarded (H := head_first) 1 (demo_user 6) 6 (two_studios "t") _ _) _
    (PostResearchRun demo_body)); [reflexivity|].
  intros i m Hi Hw Hu.
  assert (Hb : map_Forall (λ _ m, mem_workspace_id m = 1%positive → mem_user_id m = 6%positive →
    mem_role m ≠ ROLE_ADMIN) (st_memberships (two_studios "t"))).
  { apply (bool_decide_unpack _). vm_compute. exact I. }
  exact (Hb i m Hi Hw Hu).
Defined.

Lemma department_reads_confined_witness :
  agree 1 (two_studios "one") (two_studios "another") ∧
  (serve_get (H := head_first) 1 (demo_user 2) GetOpportunities (two_studios "one")).1 =
    (serve_get (H := head_first) 1 (demo_user 2) GetOpportunities (two_studios "another")).1 ∧
  (serve_get (H := head_first) 1 (demo_user 2) GetOpportunities (two_studios "one")).1 =
    Ok [(21%positive, demo_opportunity 1 "ours")].
Proof.
  assert (Ha : agree 1 (two_studios "one") (two_studios "another")).
  { split; [reflexivity|]. intros A t own Ht. destruct Ht; vm_compute; reflexivity. }
  split; [exact Ha|]. split; [|vm_compute; reflexivity].
  exact (proj1 (department_reads_confined (H := head_first) 1 (demo_user 2) GetOpportunities
    (two_studios "one") (two_studios "another") Ha)).
Defined.

Lemma department_runs_bounded_witness :
  size (st_research_runs (requests_exec (H := head_first)
    [Posted 1 (demo_user 2) (PostResearchRun demo_body)] (two_studios "t"))) = 1%nat ∧
  limits_hold (requests_exec (H := head_first)
    [Posted 1 (demo_user 2) (PostResearchRun demo_body)] (two_studios "t")).
Proof.
  split; [vm_compute; reflexivity|].
  apply (department_runs_bounded (H := head_first)). split_and!; apply map_Forall_empty.
Defined.
