(* ===== verification/VoiceRouteSpec.v ===== *)
(** * The voice route reads what was sent, and answers every failure

    What the route of VoiceRoute.v accepts as audio and what it makes of its
    name and type; that no exception but an HTTP error leaves it once the
    token is right; and that the audio of the reply can be decoded back. *)

From S2P Require Import Prelude Models Database Text Spend Decimal PyJson Regex Url LeonVoice VoiceRoute VoiceSpec.
From S2P Require Accounts.

(** ** Lengths *)

Lemma len_app s t : len (s +:+ t) = len s + len t.
Proof. unfold len. rewrite <- Nat2Z.inj_add. f_equal. induction s as [|c s IH]; cbn; [done|]. exact (f_equal S IH). Qed.
Lemma len_nonneg s : 0 ≤ len s.
Proof. unfold len. lia. Qed.
Lemma len_cons c s : len (String c s) = len s + 1.
Proof. unfold len. cbn. lia. Qed.
Lemma len_zero s : len s = 0 → s = EmptyString.
Proof. destruct s; [done|]. rewrite len_cons. pose proof (len_nonneg s). lia. Qed.

(** ** Reading in chunks *)

Lemma read_split n file : let '(a, b) := read n file in file = a +:+ b ∧ len a = Z.min (Z.max 0 n) (len file).
Proof.
  revert n. induction file as [|c file IH]; intros n; cbn [read]; destruct (Z.leb_spec n 0).
  - split; [done|]. unfold len. cbn. lia.
  - split; [done|]. unfold len. cbn. lia.
  - split; [done|]. pose proof (len_nonneg (String c file)). unfold len at 1. cbn. lia.
  - specialize (IH (n - 1)). destruct (read (n - 1) file) as [a b]. destruct IH as [-> Hl].
    split; [done|]. rewrite !len_cons, Hl. pose proof (len_nonneg (a +:+ b)). lia.
Qed.

(** after the chunks read so far, the loop holds the start of the file, up to
    one byte more than the limit *)
Lemma read_chunks_spec fuel chunks file :
  len chunks ≤ MAX_AUDIO_BYTES + 1 → MAX_AUDIO_BYTES + 1 - len chunks < Z.of_nat fuel * _AUDIO_READ_CHUNK_BYTES →
  ∃ data rest, read_chunks fuel chunks file = Some (data, rest) ∧ chunks +:+ file = data +:+ rest ∧
    len data = Z.min (len (chunks +:+ file)) (MAX_AUDIO_BYTES + 1).
Proof.
  revert chunks file. induction fuel as [|fuel IH]; intros chunks file Hle Hfuel;
    cbn [read_chunks]; (destruct (Z.leb_spec (len chunks) MAX_AUDIO_BYTES) as [Hc|Hc];
    [|exists chunks, file; split_and!; [done|done|]; rewrite len_app; pose proof (len_nonneg file); lia]).
  { unfold _AUDIO_READ_CHUNK_BYTES in Hfuel. lia. }
  pose proof (read_split (Z.min _AUDIO_READ_CHUNK_BYTES (MAX_AUDIO_BYTES + 1 - len chunks)) file) as Hr.
  destruct (read _ file) as [chunk rest]. destruct Hr as [-> Hl].
  assert (Hpos : 0 < Z.min _AUDIO_READ_CHUNK_BYTES (MAX_AUDIO_BYTES + 1 - len chunks)).
  { unfold _AUDIO_READ_CHUNK_BYTES. lia. }
  rewrite Z.max_r in Hl by lia. rewrite len_app in Hl.
  pose proof (len_nonneg chunk). pose proof (len_nonneg rest).
  destruct (String.eqb_spec chunk EmptyString) as [->|Hne].
  - change (len EmptyString) with 0 in Hl. assert (rest = EmptyString) as -> by (apply len_zero; lia).
    exists chunks, EmptyString. split_and!; [done|done|]. change (EmptyString +:+ EmptyString) with EmptyString. rewrite string_app_nil. lia.
  - assert (Hge : len chunk = _AUDIO_READ_CHUNK_BYTES ∨ len chunk = MAX_AUDIO_BYTES + 1 - len chunks ∨ rest = EmptyString).
    { destruct (Z.eq_dec (len rest) 0) as [Hz|Hz]; [right; right; by apply len_zero|]. lia. }
    destruct Hge as [Hge|[Hge| ->]].
    + destruct (IH (chunks +:+ chunk) rest) as (data & r & -> & Heq & Hd); rewrite ?len_app; [lia|lia|].
      rewrite string_app_assoc in Heq, Hd. rewrite !len_app in Hd. exists data, r. split_and!; [done|exact Heq|exact Hd].
    + destruct fuel as [|fuel]; cbn [read_chunks]; rewrite len_app;
        (destruct (Z.leb_spec (len chunks + len chunk) MAX_AUDIO_BYTES); [lia|]);
        (exists (chunks +:+ chunk), rest; rewrite string_app_assoc; split_and!; [done|done|]; rewrite !len_app; lia).
    + rewrite string_app_nil in *. 
      assert (Hend : ∀ f, read_chunks f (chunks +:+ chunk) EmptyString = Some (chunks +:+ chunk, EmptyString)).
      { intros f. destruct f; cbn [read_chunks]; destruct (len (chunks +:+ chunk) <=? MAX_AUDIO_BYTES); try done;
          cbn [read]; by destruct (_ <=? 0). }
      rewrite Hend. exists (chunks +:+ chunk), EmptyString. rewrite string_app_nil. split_and!; [done|done|].
      rewrite len_app in *. lia.
Qed.

Lemma read_audio_exact file :
  _read_audio_bounded file = if MAX_AUDIO_BYTES <? len file then Raise too_large else Ok file.
Proof.
  unfold _read_audio_bounded.
  destruct (read_chunks_spec read_fuel EmptyString file) as (data & rest & -> & Heq & Hl).
  { vm_compute. congruence. }
  { vm_compute. congruence. }
  change (EmptyString +:+ file) with file in *. subst file. rewrite len_app in Hl. pose proof (len_nonneg rest).
  rewrite len_app. destruct (Z.ltb_spec MAX_AUDIO_BYTES (len data)), (Z.ltb_spec MAX_AUDIO_BYTES (len data + len rest));
    try lia; try done.
  assert (rest = EmptyString) as -> by (apply len_zero; lia). by rewrite string_app_nil.
Qed.

Lemma read_stream_exact total stream :
  len total ≤ MAX_AUDIO_BYTES →
  read_stream total stream =
  if MAX_AUDIO_BYTES <? len (total +:+ concat_strings stream) then Raise too_large
  else Ok (total +:+ concat_strings stream).
Proof.
  revert total. induction stream as [|chunk stream IH]; intros total Ht; cbn [read_stream concat_strings foldr].
  - rewrite string_app_nil. destruct (Z.ltb_spec MAX_AUDIO_BYTES (len total)); [lia|done].
  - change (foldr String.append EmptyString stream) with (concat_strings stream).
    destruct (String.eqb_spec chunk EmptyString) as [->|Hne]; [by apply IH|].
    destruct (Z.ltb_spec MAX_AUDIO_BYTES (len total + len chunk)).
    + rewrite !len_app. pose proof (len_nonneg (concat_strings stream)).
      destruct (Z.ltb_spec MAX_AUDIO_BYTES (len total + (len chunk + len (concat_strings stream)))); [done|lia].
    + rewrite IH by (rewrite len_app; lia). by rewrite string_app_assoc.
Qed.
Lemma read_stream_bounded_exact stream :
  _read_stream_bounded stream =
  if MAX_AUDIO_BYTES <? len (concat_strings stream) then Raise too_large else Ok (concat_strings stream).
Proof. unfold _read_stream_bounded. by rewrite read_stream_exact by (vm_compute; congruence). Qed.

(** ** Names and types *)

Definition audio_formats : list string := ["flac"; "m4a"; "mp3"; "mp4"; "ogg"; "wav"; "webm"].

Lemma table_get_Some {A} (table : list (string * A)) key v : table_get table key = Some v → (key, v) ∈ table.
Proof.
  unfold table_get. destruct (find _ table) as [[k x]|] eqn:Hf; [|done]. intros [= <-].
  apply find_some in Hf as [Hin Hk%String.eqb_eq]. cbn in Hk. subst k. by apply list_elem_of_In.
Qed.

Ltac list_cases :=
  repeat match goal with
  | H : _ ∈ _ :: _ |- _ => apply elem_of_cons in H as [H|H]
  | H : _ ∈ [] |- _ => by apply not_elem_of_nil in H
  | H : (_, _) = (_, _) |- _ => injection H as ? ?; subst
  end.

Lemma magic_known data f : _audio_format_from_magic data = Some f → f ∈ audio_formats.
Proof. unfold _audio_format_from_magic. repeat case_match; intros [= <-]; unfold audio_formats; set_solver. Qed.
Lemma extension_known filename f : _audio_format_from_extension filename = Some f → f ∈ audio_formats.
Proof.
  unfold _audio_format_from_extension. intros H%table_get_Some. unfold _EXTENSION_TO_AUDIO_FORMAT in H.
  list_cases; intros; subst; unfold audio_formats; set_solver.
Qed.
Lemma content_type_known ct f : mjoin (table_get _CONTENT_TYPE_TO_AUDIO_FORMAT ct) = Some f → f ∈ audio_formats.
Proof.
  destruct (table_get _CONTENT_TYPE_TO_AUDIO_FORMAT ct) as [o|] eqn:H; [|done]. cbn. intros ->.
  apply table_get_Some in H. unfold _CONTENT_TYPE_TO_AUDIO_FORMAT in H.
  list_cases; intros; simplify_eq; unfold audio_formats; set_solver.
Qed.

Lemma known_item (table : list (string * string)) f :
  f ∈ table.*1 → ∃ v, table_item table f = Ok v ∧ (f, v) ∈ table.
Proof.
  intros Hf. unfold table_item. destruct (table_get table f) as [v|] eqn:Hg.
  - exists v. split; [done|by apply table_get_Some].
  - exfalso. unfold table_get in Hg. destruct (find _ table) as [p|] eqn:He; [done|].
    apply list_elem_of_fmap in Hf as ([k v] & -> & Hin). apply list_elem_of_In in Hin.
    pose proof (find_none _ _ He _ Hin) as Hk. cbn in Hk. by rewrite String.eqb_refl in Hk.
Qed.

Lemma all_chars_map p f s : (∀ c, p (f c) = true) → all_chars p (map_chars f s) = true.
Proof. intros Hf. induction s as [|c s IH]; cbn; [done|]. by rewrite Hf, IH. Qed.
Lemma all_chars_lstrip p s : all_chars p s = true → all_chars p (lstrip_edge s) = true.
Proof.
  induction s as [|c s IH]; [done|]. cbn. intros H. destruct (edge_char c); [|exact H].
  apply andb_true_iff in H as [_ H]. by apply IH.
Qed.
Lemma all_chars_rstrip p s : all_chars p s = true → all_chars p (rstrip_edge s) = true.
Proof.
  induction s as [|c s IH]; [done|]. cbn. intros [Hc Hs]%andb_true_iff. specialize (IH Hs).
  destruct (rstrip_edge s) as [|d t]; [destruct (edge_char c); [done|]; cbn; by rewrite Hc|].
  change (all_chars p (String c (String d t))) with (p c && all_chars p (String d t)). by rewrite Hc, IH.
Qed.

Definition safe_name (stem : string) : Prop := stem ≠ EmptyString ∧ all_chars safe_char stem = true.
Lemma cleaned_safe stem :
  let cleaned := rstrip_edge (lstrip_edge (map_chars dash stem)) in
  safe_name (if String.eqb cleaned EmptyString then "speech" else cleaned).
Proof.
  cbv zeta. unfold safe_name.
  destruct (String.eqb_spec (rstrip_edge (lstrip_edge (map_chars dash stem))) EmptyString) as [_|Hne].
  - split; [done|by vm_compute].
  - split; [exact Hne|]. apply all_chars_rstrip, all_chars_lstrip, all_chars_map. intros c. unfold dash.
    destruct (safe_char c) eqn:Hc; [exact Hc|done].
Qed.
Lemma stem_safe filename : safe_name (_safe_filename_stem filename).
Proof. unfold _safe_filename_stem. cbv zeta. apply cleaned_safe. Qed.

Lemma extension_ok fmt filename ct :
  fmt ∈ audio_formats → ∃ ext, _resolved_audio_extension fmt filename ct = Ok ext ∧ ext ∈ audio_formats.
Proof.
  intros Hf. unfold _resolved_audio_extension. cbv zeta. destruct (bool_decide (path_suffix filename ∈ _)) eqn:Hs; cbn [andb].
  - apply bool_decide_eq_true in Hs. destruct (bool_decide (fmt ∈ _)).
    + eexists. split; [reflexivity|]. list_cases; rewrite Hs; cbn; unfold audio_formats; set_solver.
    + destruct (String.eqb _ "video/mp4"); [eexists; split; [reflexivity|]; unfold audio_formats; set_solver|].
      destruct (known_item _AUDIO_FORMAT_TO_EXTENSION fmt) as (v & -> & Hv); [exact Hf|].
      exists v. split; [done|]. unfold _AUDIO_FORMAT_TO_EXTENSION in Hv. list_cases; intros; subst; unfold audio_formats; set_solver.
  - destruct (String.eqb _ "video/mp4"); [eexists; split; [reflexivity|]; unfold audio_formats; set_solver|].
    destruct (known_item _AUDIO_FORMAT_TO_EXTENSION fmt) as (v & -> & Hv); [exact Hf|].
    exists v. split; [done|]. unfold _AUDIO_FORMAT_TO_EXTENSION in Hv. list_cases; intros; subst; unfold audio_formats; set_solver.
Qed.

(** what the audio handed to the turn is like *)
Record sound_upload (a : _AudioUpload) : Prop := {
  su_bounded : len (au_data a) ≤ MAX_AUDIO_BYTES;
  su_count : au_byte_count a = len (au_data a);
  su_type : (au_container a, au_content_type a) ∈ _AUDIO_FORMAT_TO_CONTENT_TYPE;
  su_name : ∃ stem ext, au_filename a = stem +:+ "." +:+ ext ∧ safe_name stem ∧ ext ∈ audio_formats;
  su_magic : ∀ f, _audio_format_from_magic (au_data a) = Some f → au_container a = f;
  su_wav : au_container a = "wav" → String.prefix "RIFF" (au_data a) = true ∧
    String.substring 8 4 (au_data a) = "WAVE"
}.

Lemma wav_magic data :
  _audio_format_from_magic data = Some "wav" → String.prefix "RIFF" data = true ∧ String.substring 8 4 data = "WAVE".
Proof.
  unfold _audio_format_from_magic. destruct (_ && _ && _) eqn:H; [|by repeat case_match].
  intros _. apply andb_true_iff in H as [[_ H1]%andb_true_iff H2%String.eqb_eq]. done.
Qed.

(** an upload is normalised, or refused as no known audio *)
Lemma normalized data filename ct rid :
  len data ≤ MAX_AUDIO_BYTES →
  (∃ a, _normalize_audio_upload data filename ct rid = Ok a ∧ au_data a = data ∧ sound_upload a) ∨
  ∃ message, _normalize_audio_upload data filename ct rid =
    Raise (parsing_error 415 message "unsupported_audio_format" rid).
Proof.
  intros Hlen. unfold _normalize_audio_upload. cbv zeta.
  set (o := match _audio_format_from_magic data with Some f => Some f | None => _ end).
  assert (Ho : ∀ f, o = Some f → f ∈ audio_formats ∧ ∀ g, _audio_format_from_magic data = Some g → f = g).
  { subst o. intros f. destruct (_audio_format_from_magic data) as [g|] eqn:Hm.
    - intros [= <-]. split; [by apply (magic_known data)|congruence].
    - destruct (_audio_format_from_extension filename) as [g|] eqn:He.
      + intros [= <-]. split; [by apply (extension_known filename)|done].
      + intros Hc. split; [by apply content_type_known in Hc|done]. }
  destruct o as [fmt|] eqn:Hfmt; [|right; eauto]. destruct (Ho fmt eq_refl) as [Hk Hmag]. clear Ho.
  destruct (String.eqb fmt "wav" && negb (bool_decide (_audio_format_from_magic data = Some "wav"))) eqn:Hw;
    [right; eauto|left].
  destruct (extension_ok fmt filename (_normalized_content_type ct) Hk) as (ext & -> & Hext).
  destruct (known_item _AUDIO_FORMAT_TO_CONTENT_TYPE fmt) as (v & Hv & Hin); [exact Hk|].
  cbn [mbind result_bind]. rewrite Hv. eexists. split; [reflexivity|]. cbn. split; [done|]. split; cbn; try done.
  - exists (_safe_filename_stem filename), ext. split_and!; [done|apply stem_safe|exact Hext].
  - intros ->. rewrite String.eqb_refl in Hw. apply negb_false_iff, bool_decide_eq_true in Hw. by apply wav_magic.
Qed.

(** ** What a computation may raise *)

Definition http_status (e : exn) : option Z :=
match e with HTTPException s _ | HTTPExceptionDetail s _ => Some s | _ => None end.

Definition raises_only {S A} (P : exn → Prop) (m : ST S exn A) : Prop :=
∀ s e s', m s = (Raise e, s') → P e.

Section RaisesOnly.
Context {S : Type} (P : exn → Prop).

Lemma raises_ret {A} (a : A) : raises_only P (mret a : ST S exn A).
Proof. by intros s e s' [=]. Qed.
Lemma raises_raise {A} e : P e → raises_only P (raise e : ST S exn A).
Proof. intros He s e' s' [= <- _]. exact He. Qed.
Lemma raises_lift {A} (r : result exn A) : (∀ e, r = Raise e → P e) → raises_only P (lift_result r : ST S exn A).
Proof. intros Hr s e s' [= Hre _]. by apply Hr. Qed.
Lemma raises_gets {A} (f : S → A) : raises_only P (gets f : ST S exn A).
Proof. by intros s e s' [=]. Qed.
Lemma raises_bind {A B} (m : ST S exn A) (k : A → ST S exn B) :
  raises_only P m → (∀ a, raises_only P (k a)) → raises_only P (m ≫= k).
Proof.
  intros Hm Hk s e s'. rewrite run_bind. destruct (m s) as [[a|x] s1] eqn:Hs; [apply Hk|].
  intros [= <- <-]. by apply (Hm s x s1).
Qed.
Lemma raises_savepoint {A} (m : ST S exn A) : raises_only P m → raises_only P (savepoint m).
Proof.
  intros Hm s e s'. unfold savepoint. destruct (m s) as [[a|x] s1] eqn:Hs; intros [=]. subst. by apply (Hm _ _ _ Hs).
Qed.
Lemma raises_catch {A} (m : ST S exn A) h :
  raises_only (λ e, raises_only P (h e)) m → raises_only P (catch m h).
Proof.
  intros Hm s e s'. unfold catch. destruct (m s) as [[a|x] s1] eqn:Hs; [done|]. apply (Hm s x s1 Hs).
Qed.
End RaisesOnly.
Lemma raises_weaken {S A} (P Q : exn → Prop) (m : ST S exn A) :
  (∀ e, P e → Q e) → raises_only P m → raises_only Q m.
Proof. intros H Hm s e s' Hs. by apply H, (Hm s e s'). Qed.

Ltac raises_tac :=
  repeat lazymatch goal with
  | |- ∀ _, _ => intro
  | |- raises_only _ (_ ≫= _) => apply raises_bind
  | |- raises_only _ (mret _) => apply raises_ret
  | |- raises_only _ (raise _) => apply raises_raise; try done
  | |- raises_only _ (gets _) => apply raises_gets
  | |- raises_only _ (savepoint _) => apply raises_savepoint
  | |- raises_only _ (match ?x with _ => _ end) => destruct x eqn:?
  | |- raises_only _ (if ?x then _ else _) => destruct x
  | |- raises_only _ (let _ := _ in _) => cbv zeta
  | |- raises_only _ (update _ _) => intros ?; intros ? ? [=]
  | |- raises_only _ (session_get _ _) => intros ?; intros ? ? [=]
  | |- raises_only _ (insert_row _ _ _) => intros ?; intros ? ? [=]
  | |- raises_only _ (modify _ _ _) => intros ?; intros ? ? [=]
  | |- raises_only _ now => intros ?; intros ? ? [=]
  | |- raises_only _ uuid4 => intros ?; intros ? ? [=]
  | |- raises_only _ (spend_committed_plus_reserved _ _ _) => intros ?; intros ? ? [=]
  end.

Definition internal (e : exn) : Prop := http_status e = None.

(** results, by cases *)
Ltac internal_cases :=
  intros ?; unfold mbind, result_bind, mret, result_ret; repeat case_match; intros; simplify_eq; done.

Lemma internal_quantize x e : quantize_usd x = Raise e → internal e.
Proof. revert e. unfold quantize_usd, quantize. internal_cases. Qed.

Section TurnRaises.
Context `{VoiceSettings} (provider : call → upstream).

Lemma internal_reserve name e : raises_only internal (_reserve_or_fail name e).
Proof.
  unfold _reserve_or_fail. apply raises_catch. unfold reserve, _load_cap_for_update. raises_tac; cbn; raises_tac.
Qed.
Lemma internal_commit i a : raises_only internal (commit i a).
Proof. unfold commit, open_reservation. raises_tac. Qed.
Lemma internal_release i : raises_only internal (release i).
Proof. unfold release, open_reservation. raises_tac. Qed.
Lemma internal_fail {A} i d s : raises_only internal (fail_call (A := A) i d s).
Proof. unfold fail_call. apply raises_bind; [apply internal_release|]. raises_tac. Qed.
Lemma internal_or_release {A} i (r : result exn A) : (∀ e, r = Raise e → internal e) → raises_only internal (or_release i r).
Proof.
  intros Hr. unfold or_release. destruct r as [a|e]; [raises_tac|]. specialize (Hr e eq_refl).
  destruct e; try (apply raises_raise, Hr). apply internal_fail.
Qed.

Lemma internal_key stage e : _require_openai_key stage = Raise e → internal e.
Proof. revert e. unfold _require_openai_key. internal_cases. Qed.
Lemma internal_json body stage fallback e : _safe_json body stage fallback = Raise e → internal e.
Proof. revert e. unfold _safe_json. internal_cases. Qed.
Lemma internal_reply body e : reply_of body = Raise e → internal e.
Proof. revert e. unfold reply_of, unexpected_reply. internal_cases. Qed.
Lemma internal_stt v e : stt_actual_cost_usd v = Raise e → internal e.
Proof.
  unfold stt_actual_cost_usd, stt_reserve_estimate_usd.
  repeat case_match; try apply internal_quantize. by intros [= <-].
Qed.

Create HintDb internal discriminated.
#[local] Hint Resolve internal_quantize internal_key internal_json internal_reply internal_stt : internal.

Ltac turn_raises :=
  repeat (raises_tac; try lazymatch goal with
  | |- raises_only _ (_reserve_or_fail _ _) => apply internal_reserve
  | |- raises_only _ (commit _ _) => apply internal_commit
  | |- raises_only _ (fail_call _ _ _) => apply internal_fail
  | |- raises_only _ (or_release _ _) => apply internal_or_release
  | |- raises_only _ (lift_result _) => apply raises_lift
  end).

Lemma internal_transcribe audio filename ct : raises_only internal (transcribe_audio provider audio filename ct).
Proof. unfold transcribe_audio. turn_raises; eauto with internal. Qed.
Lemma internal_generate text history : raises_only internal (generate_reply provider text history).
Proof.
  unfold generate_reply, reported_cost, llm_reserve_estimate_usd, llm_actual_cost_usd, llm_cost_usd.
  turn_raises; eauto with internal.
  match goal with Hx : _ ≫= _ = Raise _ |- _ => revert Hx end. unfold mbind, result_bind.
  destruct (_safe_json _ _ _) eqn:Hj; [destruct (reply_of _) eqn:Hr|]; intros; simplify_eq; eauto with internal.
Qed.
Lemma internal_synthesize text : raises_only internal (synthesize_speech provider text).
Proof. unfold synthesize_speech, tts_cost_usd. turn_raises; eauto with internal. Qed.
Lemma internal_turn text audio filename ct history :
  raises_only internal (run_voice_turn provider text audio filename ct history).
Proof.
  unfold run_voice_turn. cbv zeta. apply raises_bind.
  - raises_tac; apply internal_transcribe.
  - intros t. apply raises_bind; [apply internal_generate|]. intros r.
    apply raises_bind; [apply internal_synthesize|]. raises_tac.
Qed.
End TurnRaises.

(** ** Parsing a request *)

(** the bytes a request carries as audio *)
Definition sent (request : VoiceRequest) : bytes :=
if bool_decide (_normalized_content_type (vr_content_type request) ∈ _FORM_CONTENT_TYPES) then
  match vr_form request with
  | FormData form => match form_upload form with Some (FormUpload _ _ file) => file | _ => EmptyString end
  | _ => EmptyString
  end
else concat_strings (vr_stream request).

Definition answered (statuses : list Z) (e : exn) : Prop := ∃ s, http_status e = Some s ∧ s ∈ statuses.
(** what reading the form raised by itself *)
Definition of_form (request : VoiceRequest) (e : exn) : Prop :=
(∃ s d, vr_form request = FormHTTP s d ∧ e = HTTPException s d) ∨ vr_form request = FormFailed e.
Definition parse_refusal (request : VoiceRequest) (e : exn) : Prop := answered [400; 413; 415] e ∨ of_form request e.

(** what parsing comes to: audio that is sound and the bytes sent, or a refusal *)
Definition parsed_well (request : VoiceRequest) (r : result exn _VoiceTurnRequest) : Prop :=
match r with
| Ok parsed => ∀ a, tr_audio parsed = Some a → au_data a = sent request ∧ sound_upload a
| Raise e => parse_refusal request e
end.

Lemma answered_parsing request status message code rid :
  status ∈ [400; 413; 415] → parse_refusal request (parsing_error status message code rid).
Proof. left. by exists status. Qed.
Lemma answered_large request : parse_refusal request too_large.
Proof. left. exists 413. split; [done|set_solver]. Qed.

Lemma coerced form field rid :
  (∃ o, _coerce_optional_form_text form field rid = Ok o) ∨
  ∃ message, _coerce_optional_form_text form field rid = Raise (parsing_error 400 message "invalid_form_field" rid).
Proof. unfold _coerce_optional_form_text. destruct (form field) as [[]|]; eauto. Qed.

(** bytes within the limit are normalised to a sound upload *)
Lemma normalized_well request data filename ct rid text history :
  data = sent request → len data ≤ MAX_AUDIO_BYTES →
  parsed_well request (audio ← _normalize_audio_upload data filename ct rid;
                       Ok (mk_turn_request text history (Some audio))).
Proof.
  intros Hd Hlen. destruct (normalized data filename ct rid Hlen) as [(a & -> & Ha & Hs)|(m & ->)]; cbn.
  - intros ? [= <-]. split; [congruence|done].
  - apply answered_parsing. set_solver.
Qed.

Lemma parse_well request : parsed_well request (_parse_voice_turn_request request).
Proof.
  unfold _parse_voice_turn_request. cbv zeta. unfold sent.
  destruct (String.eqb_spec (_normalized_content_type (vr_content_type request)) EmptyString) as [Hct|Hct].
  { rewrite read_stream_bounded_exact. destruct (_ <? _); [apply answered_large|]. cbn.
    destruct (String.eqb _ EmptyString); [done|apply answered_parsing; set_solver]. }
  destruct (bool_decide (_normalized_content_type (vr_content_type request) ∈ _FORM_CONTENT_TYPES)) eqn:Hform.
  - unfold _read_request_form. cbv zeta. destruct (vr_form request) as [form|s d| |e] eqn:Hf; cbn.
    + destruct (coerced form "text" (vr_request_id request)) as [(text & ->)|(m & ->)];
        [|apply answered_parsing; set_solver]. cbn.
      destruct (coerced form "history" (vr_request_id request)) as [(history & ->)|(m & ->)];
        [|apply answered_parsing; set_solver]. cbn.
      destruct (form_upload form) as [[v|filename ct file]|] eqn:Hu; [apply answered_parsing; set_solver| |done].
      rewrite read_audio_exact. destruct (Z.ltb_spec MAX_AUDIO_BYTES (len file)); [apply answered_large|].
      apply normalized_well; [|done]. unfold sent. by rewrite Hform, Hf, Hu.
    + destruct (Z.eqb_spec s 400); [apply answered_parsing; set_solver|]. right. left. by exists s, d.
    + apply answered_parsing. set_solver.
    + right. by right.
  - destruct (table_get _ _) as [o|]; [|apply answered_parsing; set_solver].
    rewrite read_stream_bounded_exact. destruct (Z.ltb_spec MAX_AUDIO_BYTES (len (concat_strings (vr_stream request))));
      [apply answered_large|]. cbn. destruct (String.eqb _ EmptyString); [done|].
    apply normalized_well; [|done]. unfold sent. by rewrite Hform.
Qed.

(** ** The route *)

Section Token.
Context (leon_voice_app_token : option string).

Definition expected_token : string := strip (str_or leon_voice_app_token EmptyString).
Definition authorised (request : VoiceRequest) : Prop :=
expected_token ≠ EmptyString ∧ is_ascii expected_token = true ∧
presented_token (vr_authorization request) = expected_token.

Lemma token_checked request :
  match _require_app_token leon_voice_app_token (vr_authorization request) with
  | Ok _ => authorised request
  | Raise e => ¬ authorised request ∧ (answered [401; 503] e ∨ e = TypeError)
  end.
Proof.
  unfold _require_app_token, authorised. cbv zeta. fold expected_token.
  set (presented := presented_token (vr_authorization request)).
  assert (H401 : answered [401; 503] bad_token ∨ bad_token = TypeError).
  { left. exists 401. split; [done|set_solver]. }
  destruct (String.eqb_spec expected_token EmptyString) as [He|He].
  { split; [naive_solver|]. left. exists 503. split; [done|set_solver]. }
  destruct (String.eqb_spec presented EmptyString) as [Hp|Hp]; [split; [intros (_ & _ & Hx); congruence|done]|].
  cbn [orb]. destruct (Z.eqb_spec (len presented) (len expected_token)) as [Hl|Hl];
    [|split; [intros (_ & _ & Hx); congruence|done]]. cbn [negb].
  unfold compare_digest. destruct (is_ascii presented) eqn:Ha, (is_ascii expected_token) eqn:Hb; cbn.
  - destruct (String.eqb_spec presented expected_token); [done|]. split; [naive_solver|done].
  - split; [naive_solver|]. by right.
  - split; [intros (_ & _ & Hx); congruence|]. by right.
  - split; [naive_solver|]. by right.
Qed.
End Token.

Lemma run_on_failure {A} rid stage e w :
  ∃ e', on_failure (A := A) rid stage e w = (Raise e', w) ∧ (is_Some (http_status e) → e' = e) ∧
    (internal e → answered [402; 500; 502] e').
Proof.
  destruct e; cbn [on_failure]; try (eexists; split; [reflexivity|]; split; [by intros [? [=]]|];
    intros _; eexists; split; [reflexivity|set_solver]).
  - destruct (String.eqb stage0 "spend"); (eexists; split; [reflexivity|]; split; [by intros [? [=]]|];
      intros _; eexists; split; [reflexivity|set_solver]).
  - eexists. split; [reflexivity|]. split; done.
  - eexists. split; [reflexivity|]. split; done.
Qed.

(** a stage that raises [P] or an internal error answers by [P] or a status *)
Lemma raises_stage {A} (P : exn → Prop) rid stage (m : M A) :
  (∀ e, P e → is_Some (http_status e)) → raises_only (λ e, P e ∨ internal e) m →
  raises_only (λ e, P e ∨ answered [402; 500; 502] e) (in_stage rid stage m).
Proof.
  intros HP Hm. apply raises_catch. apply (raises_weaken (λ e, P e ∨ internal e)); [|exact Hm].
  intros e He s e' s' Hrun. destruct (run_on_failure (A := A) rid stage e s) as (x & Hx & Hhttp & Hint).
  rewrite Hrun in Hx. injection Hx as <- <-. destruct He as [He|He]; [left; by rewrite Hhttp by auto|auto].
Qed.

Lemma known_role_internal role e : known_role role = Raise e → internal e.
Proof. revert e. unfold known_role. internal_cases. Qed.
Lemma history_internal items e : history_turns items = Raise e → internal e.
Proof.
  revert e. induction items as [|item items IH]; [done|]. intros e. cbn [history_turns].
  destruct item; try apply IH. cbv zeta. destruct (known_role _) as [k|x] eqn:Hk.
  - cbn. destruct (history_turns items) as [t|x]; cbn; [done|]. intros [= <-]. by apply IH.
  - cbn. intros [= <-]. by apply (known_role_internal _ _ Hk).
Qed.
Lemma check_text_raises parsed e : check_text parsed = Raise e → answered [400] e.
Proof.
  unfold check_text. repeat case_match; intros; simplify_eq; (exists 400; split; [done|set_solver]).
Qed.

Lemma stage_state {A} rid stage (r : result exn A) w : (in_stage rid stage (lift_result r) w).2 = w.
Proof.
  unfold in_stage, catch, lift_result. destruct r as [a|e]; [done|].
  destruct (run_on_failure (A := A) rid stage e w) as (x & -> & _). done.
Qed.
Lemma stage_ok {A} rid stage (r : result exn A) w a w' :
  in_stage rid stage (lift_result r) w = (Ok a, w') → r = Ok a ∧ w' = w.
Proof.
  unfold in_stage, catch, lift_result. destruct r as [x|e]; [by intros [= <- <-]|].
  destruct (run_on_failure (A := A) rid stage e w) as (x & -> & _). done.
Qed.

(** the statuses of the route *)
Definition statuses : list Z := [400; 402; 413; 415; 500; 502].
Lemma answered_weaken l l' e : l ⊆ l' → answered l e → answered l' e.
Proof. intros Hl (s & Hs & Hin). exists s. split; [done|by apply Hl]. Qed.

Section Route.
Context `{VoiceSettings} (json_loads : string → result exn json) (provider : call → upstream).
Hypothesis json_loads_internal : ∀ s e, json_loads s = Raise e → internal e.

Lemma parse_history_raises raw e :
  _parse_history json_loads raw = Raise e → answered [400] e ∨ internal e.
Proof.
  unfold _parse_history. cbv zeta. destruct (str_or raw EmptyString); [done|].
  assert (Hnot : ∀ x, Raise (A := list (string * string)) (HTTPException 400 "history must be a JSON array") = Raise x →
    answered [400] x ∨ internal x). { intros x [= <-]. left. exists 400. split; [done|set_solver]. }
  destruct (json_loads _) as [[]|x] eqn:Hj; try apply Hnot.
  - intros He. right. by apply (history_internal _ _ He).
  - apply json_loads_internal in Hj. destruct x; try apply Hnot; intros [= <-]; by right.
Qed.
(** the request reaches the provider *)
Definition ready (request : VoiceRequest) : Prop :=
∃ parsed history, _parse_voice_turn_request request = Ok parsed ∧ check_text parsed = Ok () ∧
  _parse_history json_loads (tr_history parsed) = Ok history.

(** the turn after the token *)
Definition voice_answer_of (request : VoiceRequest) : M LeonVoiceTurnOut :=
_ ← lift_result (Ok ()); 
parsed ← in_stage (vr_request_id request) "request_parsing" (lift_result (_parse_voice_turn_request request));
in_stage (vr_request_id request) "request_validation" (lift_result (check_text parsed));;
answer ← in_stage (vr_request_id request) "voice_turn"
  (history ← lift_result (_parse_history json_loads (tr_history parsed));
   run_voice_turn provider (tr_text parsed) (au_data <$> tr_audio parsed)
     (str_or (au_filename <$> tr_audio parsed) "speech.m4a")
     (str_or (au_content_type <$> tr_audio parsed) "audio/m4a") history);
lift_result (Accounts.audit "leon_voice_turn_completed" ["had_audio"; "user_text_length"; "reply_text_length"]);;
mret (mk_turn_out (va_user_text answer) (va_reply_text answer) (encode_audio_base64 (va_reply_audio answer))
        "audio/mpeg").

Lemma answer_raises request :
  raises_only (λ e, answered statuses e ∨ of_form request e) (voice_answer_of request).
Proof using json_loads_internal.
  unfold voice_answer_of. apply raises_bind; [by apply raises_lift|]. intros _.
  set (P := λ e, answered [400; 413; 415] e ∨ of_form request e ∧ is_Some (http_status e)).
  assert (Hstage : ∀ A stage (m : M A), raises_only (λ e, P e ∨ internal e) m →
    raises_only (λ e, answered statuses e ∨ of_form request e) (in_stage (vr_request_id request) stage m)).
  { intros A stage m Hm. eapply raises_weaken; [|apply (raises_stage P); [|exact Hm]].
    - intros e [[Ha|[Hf _]]|Ha]; [left; revert Ha; apply answered_weaken; set_solver|by right|
        left; revert Ha; apply answered_weaken; set_solver].
    - intros e [(s & Hs & _)|[_ Hs]]; [by exists s|exact Hs]. }
  apply raises_bind.
  { apply Hstage, raises_lift. intros e He. pose proof (parse_well request) as Hp. rewrite He in Hp.
    destruct Hp as [Hp|Hp]; [by left; left|].
    destruct (http_status e) as [s|] eqn:Hs; [left; right; split; [done|by exists s]|by right]. }
  intros parsed. apply raises_bind.
  { apply Hstage, raises_lift. intros e He%check_text_raises. left. left. revert He. apply answered_weaken. set_solver. }
  intros _. apply raises_bind.
  { apply Hstage, raises_bind.
    - apply raises_lift. intros e [He|He]%parse_history_raises; [left; left|by right].
      revert He. apply answered_weaken. set_solver.
    - intros history. eapply raises_weaken; [|apply internal_turn]. intros e He. by right. }
  intros answer. apply raises_bind; [by apply raises_lift|]. intros _. apply raises_ret.
Qed.
End Route.

(** C26: Without the shared token a voice turn is refused with 401 or 503 (or the error Python raises
    for a token that is not ASCII) and nothing happens; with it, the turn is answered, or refused
    with one of six statuses or as the framework refused the form, never by another exception; and
    a request whose parsing, text or history is refused costs nothing. *)
Theorem voice_route_answers `{VoiceSettings} token anthropic json_loads provider request w :
  (∀ s e, json_loads s = Raise e → internal e) →
  let run := voice_turn token json_loads provider request w in
  (¬ authorised token request → ∃ e, run = (Raise e, w) ∧ (answered [401; 503] e ∨ e = TypeError)) ∧
  (authorised token request →
     (∀ e, run.1 = Raise e → answered statuses e ∨ of_form request e) ∧
     (¬ ready json_loads request → run.2 = w)) ∧
  (voice_status token anthropic request = Ok (mk_voice_status (given token && given openai_api_key)
     (given anthropic) (given openai_api_key) (vr_request_id request)) ↔ authorised token request).
Proof.
  intros Hjson run. pose proof (token_checked token request) as Htok. subst run. unfold voice_status.
  destruct (_require_app_token token (vr_authorization request)) as [[]|x] eqn:Hr.
  - assert (Heq : voice_turn token json_loads provider request w = voice_answer_of json_loads provider request w).
    { unfold voice_turn. cbv zeta. by rewrite Hr. }
    split; [done|]. split; [|done]. intros _. rewrite Heq. split.
    + intros e He. destruct (voice_answer_of json_loads provider request w) as [r w'] eqn:Hrun. cbn in He. subst r.
      by apply (answer_raises json_loads provider Hjson request w e w').
    + intros Hnot. unfold voice_answer_of. rewrite run_bind. cbn [lift_result].
      pose proof (stage_state (vr_request_id request) "request_parsing" (_parse_voice_turn_request request) w) as Hs1.
      rewrite run_bind. destruct (in_stage _ _ (lift_result (_parse_voice_turn_request request)) w) as [[parsed|e] w1] eqn:H1;
        cbn in Hs1; [|exact Hs1]. apply stage_ok in H1 as [Hp ->]. clear Hs1.
      pose proof (stage_state (vr_request_id request) "request_validation" (check_text parsed) w) as Hs2.
      rewrite run_bind. destruct (in_stage _ _ (lift_result (check_text parsed)) w) as [[[]|e] w2] eqn:H2;
        cbn in Hs2; [|exact Hs2]. apply stage_ok in H2 as [Hc ->]. clear Hs2.
      destruct (_parse_history json_loads (tr_history parsed)) as [history|e] eqn:Hh;
        [exfalso; apply Hnot; by exists parsed, history|].
      rewrite run_bind. unfold in_stage, catch. rewrite run_bind. unfold lift_result at 1.
      by destruct (run_on_failure (A := voice_answer) (vr_request_id request) "voice_turn" e w) as (x & -> & _).
  - destruct Htok as [Hno Hx]. split; [|split; [done|]].
    + intros _. exists x. split; [|exact Hx]. unfold voice_turn. cbv zeta. by rewrite Hr.
    + split; [done|]. intros Hyes. by destruct Hno.
Qed.

(** C27: The audio handed to a turn is exactly the bytes sent, at most fifteen megabytes of them; it has
    a known container, decided by its first bytes where they are known, the content type of that
    container, and a name of letters, digits, dashes and underscores with a known extension; and
    what is called WAV is WAV.  Everything else is refused with 400, 413 or 415, and a body read
    as a stream or a file over the limit is refused as too large. *)
Theorem voice_uploads_sound request :
  (∀ parsed a, _parse_voice_turn_request request = Ok parsed → tr_audio parsed = Some a →
     au_data a = sent request ∧ sound_upload a) ∧
  (∀ e, _parse_voice_turn_request request = Raise e → answered [400; 413; 415] e ∨ of_form request e) ∧
  (∀ file, _read_audio_bounded file = if MAX_AUDIO_BYTES <? len file then Raise too_large else Ok file) ∧
  (∀ stream, _read_stream_bounded stream =
     if MAX_AUDIO_BYTES <? len (concat_strings stream) then Raise too_large else Ok (concat_strings stream)).
Proof.
  pose proof (parse_well request) as Hp. split_and!.
  - intros parsed a Ho. rewrite Ho in Hp. apply Hp.
  - intros e He. rewrite He in Hp. exact Hp.
  - apply read_audio_exact.
  - apply read_stream_bounded_exact.
Qed.

(** ** Base 64 *)

Definition b64_value (c : ascii) : option Z :=
let n := byte_of c in
if (65 <=? n) && (n <=? 90) then Some (n - 65)
else if (97 <=? n) && (n <=? 122) then Some (n - 71)
else if (48 <=? n) && (n <=? 57) then Some (n + 4)
else if n =? 43 then Some 62 else if n =? 47 then Some 63 else None.

(** what a client does: four characters at a time, "=" for none *)
Fixpoint b64decode (s : string) : option bytes :=
match s with
| EmptyString => Some EmptyString
| String a (String b (String c (String d s))) =>
    x ← b64_value a;
    y ← b64_value b;
    let first := byte_chr (4 * x + y / 16) in
    match b64_value c, b64_value d with
    | None, None => if String.eqb (String c (String d s)) "==" then Some (String first EmptyString) else None
    | Some z, None =>
        if String.eqb (String d s) "="
        then Some (String first (String (byte_chr (y mod 16 * 16 + z / 4)) EmptyString)) else None
    | Some z, Some w =>
        rest ← b64decode s;
        Some (String first (String (byte_chr (y mod 16 * 16 + z / 4)) (String (byte_chr (z mod 4 * 64 + w)) rest)))
    | None, Some _ => None
    end
| _ => None
end.

Lemma byte_of_range c : 0 ≤ byte_of c < 256.
Proof. unfold byte_of. pose proof (nat_ascii_bounded c). lia. Qed.
Lemma byte_chr_of c n : n = byte_of c → byte_chr n = c.
Proof. intros ->. unfold byte_chr, byte_of. by rewrite Nat2Z.id, ascii_nat_embedding. Qed.
Lemma b64_value_char n : 0 ≤ n < 64 → b64_value (b64_char n) = Some n.
Proof.
  intros Hn. assert (Hall : forallb (λ k, bool_decide (b64_value (b64_char k) = Some k)) (seqZ 0 64) = true)
    by (vm_compute; reflexivity).
  rewrite forallb_forall in Hall. specialize (Hall n). apply bool_decide_eq_true in Hall; [exact Hall|].
  apply list_elem_of_In, elem_of_seqZ. lia.
Qed.

Ltac b64_lia := Z.to_euclidean_division_equations; lia.

Lemma b64decode_encode : ∀ s, b64decode (b64encode s) = Some s.
Proof.
  fix IH 1. intros [|a [|b [|c s]]]; [done| | |].
  - pose proof (byte_of_range a). cbn [b64encode b64decode].
    rewrite !b64_value_char by b64_lia. apply (f_equal Some), (f_equal2 String); [apply byte_chr_of; b64_lia|done].
  - pose proof (byte_of_range a). pose proof (byte_of_range b). cbn [b64encode b64decode].
    rewrite !b64_value_char by b64_lia. apply (f_equal Some).
    do 2 (apply (f_equal2 String); [apply byte_chr_of; b64_lia|]). done.
  - pose proof (byte_of_range a). pose proof (byte_of_range b). pose proof (byte_of_range c).
    cbn [b64encode b64decode]. rewrite !b64_value_char by b64_lia.
    cbn [mbind option_bind]. rewrite IH. apply (f_equal Some).
    do 3 (apply (f_equal2 String); [apply byte_chr_of; b64_lia|]). done.
Qed.

(** What a voice turn answers as audio decodes to the bytes the provider synthesised, and is
    text of base 64. *)
Theorem reply_audio_roundtrip `{VoiceSettings} token json_loads provider request w out w' :
  voice_turn token json_loads provider request w = (Ok out, w') →
  ∃ parsed history answer w1, _parse_voice_turn_request request = Ok parsed ∧
    _parse_history json_loads (tr_history parsed) = Ok history ∧
    run_voice_turn provider (tr_text parsed) (au_data <$> tr_audio parsed)
      (str_or (au_filename <$> tr_audio parsed) "speech.m4a")
      (str_or (au_content_type <$> tr_audio parsed) "audio/m4a") history w = (Ok answer, w1) ∧
    b64decode (to_reply_audio_base64 out) = Some (va_reply_audio answer) ∧
    to_user_text out = va_user_text answer ∧ to_reply_text out = va_reply_text answer.
Proof.
  intros H0. unfold voice_turn in H0. cbv zeta in H0.
  apply bind_ok_inv in H0 as (u & s0 & Ht & H0). injection Ht as _ <-.
  apply bind_ok_inv in H0 as (parsed & s1 & Hp & H0). apply stage_ok in Hp as [Hp ->].
  apply bind_ok_inv in H0 as (u1 & s2 & Hc & H0). apply stage_ok in Hc as [Hc ->].
  apply bind_ok_inv in H0 as (answer & s3 & Ha & H0).
  apply bind_ok_inv in H0 as (u2 & s4 & Hau & H0). injection H0 as <- <-.
  unfold in_stage, catch in Ha. rewrite run_bind in Ha. unfold lift_result in Ha.
  destruct (_parse_history json_loads (tr_history parsed)) as [history|e] eqn:Hh.
  2: { destruct (run_on_failure (A := voice_answer) (vr_request_id request) "voice_turn" e w) as (x & Hx & _).
       by rewrite Hx in Ha. }
  destruct (run_voice_turn _ _ _ _ _ history w) as [[ans|e] w1] eqn:Hrun.
  2: { destruct (run_on_failure (A := voice_answer) (vr_request_id request) "voice_turn" e w1) as (x & Hx & _).
       by rewrite Hx in Ha. }
  injection Ha as -> ->. exists parsed, history, answer, s3. cbn. split_and!; [done|exact Hh|exact Hrun| |done|done].
  apply b64decode_encode.
Qed.

(** ** Witnesses *)

(** a recording in a form, with a name to clean *)
Definition wav_bytes : bytes := "RIFF....WAVEfmt ".
Definition demo_form (field : string) : option form_value :=
if String.eqb field "audio" then Some (FormUpload (Some "../up/my song.WAV") (Some "video/mp4") wav_bytes)
else if String.eqb field "history" then Some (FormText "[]") else None.
Definition demo_request (token : string) : VoiceRequest :=
mk_voice_request (Some ("Bearer " +:+ token)) (Some "req-1") (Some "Multipart/Form-Data; boundary=x") []
  (FormData demo_form).
Definition demo_loads (s : string) : result exn json := if String.eqb s "[]" then Ok (JList []) else Raise (ValueError s).

Lemma voice_route_answers_witness :
  authorised (Some "s3cret") (demo_request "s3cret") ∧
  ¬ authorised (Some "s3cret") (demo_request "guess") ∧
  ∃ e, voice_turn (H := voice_demo_settings) (Some "s3cret") demo_loads voice_demo_provider (demo_request "guess")
    voice_demo_world = (Raise e, voice_demo_world) ∧ (answered [401; 503] e ∨ e = TypeError).
Proof.
  assert (Hyes : authorised (Some "s3cret") (demo_request "s3cret")).
  { split_and!; [intros H; by vm_compute in H|by vm_compute|by vm_compute]. }
  assert (Hno : ¬ authorised (Some "s3cret") (demo_request "guess")).
  { intros (_ & _ & H). by vm_compute in H. }
  split; [exact Hyes|]. split; [exact Hno|].
  refine (proj1 (voice_route_answers (H := voice_demo_settings) (Some "s3cret") None demo_loads voice_demo_provider
    (demo_request "guess") voice_demo_world _) Hno).
  intros s e. unfold demo_loads. destruct (String.eqb s "[]"); [done|]. by intros [= <-].
Defined.

Lemma voice_uploads_sound_witness :
  ∃ parsed a, _parse_voice_turn_request (demo_request "s3cret") = Ok parsed ∧ tr_audio parsed = Some a ∧
    sound_upload a ∧ au_filename a = "my-song.mp4" ∧ au_content_type a = "audio/wav".
Proof.
  destruct (_parse_voice_turn_request (demo_request "s3cret")) as [parsed|e] eqn:Hp; [|by vm_compute in Hp].
  destruct (tr_audio parsed) as [a|] eqn:Ha.
  - exists parsed, a. split; [done|]. split; [done|].
    split; [exact (proj2 (proj1 (voice_uploads_sound (demo_request "s3cret")) parsed a Hp Ha))|].
    vm_compute in Hp. injection Hp as <-. vm_compute in Ha. injection Ha as <-. split; vm_compute; reflexivity.
  - exfalso. vm_compute in Hp. injection Hp as <-. by vm_compute in Ha.
Defined.

Lemma reply_audio_roundtrip_witness :
  ∃ out w' parsed answer, voice_turn (H := voice_demo_settings) (Some "s3cret") demo_loads voice_demo_provider
      (demo_request "s3cret") voice_demo_world = (Ok out, w') ∧
    _parse_voice_turn_request (demo_request "s3cret") = Ok parsed ∧
    b64decode (to_reply_audio_base64 out) = Some (va_reply_audio answer) ∧ to_reply_audio_base64 out = "bXAz".
Proof.
  destruct (voice_turn (H := voice_demo_settings) (Some "s3cret") demo_loads voice_demo_provider
    (demo_request "s3cret") voice_demo_world) as [[out|e] w'] eqn:Hrun; [|exfalso; by vm_compute in Hrun].
  destruct (reply_audio_roundtrip (H := voice_demo_settings) (Some "s3cret") demo_loads voice_demo_provider
    (demo_request "s3cret") voice_demo_world out w' Hrun) as (parsed & history & answer & w1 & Hp & _ & _ & Hd & _).
  exists out, w', parsed, answer. split; [done|]. split; [exact Hp|]. split; [exact Hd|].
  assert (H1 : (voice_turn (H := voice_demo_settings) (Some "s3cret") demo_loads voice_demo_provider
    (demo_request "s3cret") voice_demo_world).1 = Ok out) by (by rewrite Hrun).
  vm_compute in H1. by injection H1 as <-.
Defined.
