(* ===== verification/AuthSpec.v ===== *)
(** * What the local login promises

    An attacker gets at most ten judged guesses in fifteen minutes, the owner
    is never locked out for longer than that, and who signed up can log in
    with the password given and with no other. *)

From S2P Require Import Prelude Models Database Outbox Text PyJson Regex Url StudioModels LocalAuth.

(** ** One account *)

Section Account.
Context (pbkdf2 : string → string → Z → result exn string) (jwt_encode : json → string)
  (audience : string).
Context (email : string) (u : id) (owner : string).

Abbreviation login_route := (login_route pbkdf2 jwt_encode "local" audience).
Abbreviation verify := (verify_password pbkdf2).

(** [c] is the one credential of the address *)
Definition sole (c : LocalAuthCredential) (s : Studio) : Prop :=
st_credentials s !! u = Some c ∧ cred_email c = lower (strip email) ∧
∀ i x, st_credentials s !! i = Some x → cred_email x = lower (strip email) → i = u.

Lemma rows_singleton {A} (m : gmap id A) (P : id → A → bool) i x :
  m !! i = Some x → P i x = true → (∀ j y, m !! j = Some y → P j y = true → j = i) →
  rows P m = [(i, x)].
Proof.
  intros Hi HP Hone.
  assert (Hnd : NoDup (rows P m)) by (apply NoDup_filter, NoDup_map_to_list).
  assert (Hin : (i, x) ∈ rows P m) by (by apply elem_of_rows).
  assert (Hall : ∀ p, p ∈ rows P m → p = (i, x)).
  { intros [j y] [Hj HPj]%elem_of_rows. pose proof (Hone j y Hj HPj) as ->. congruence. }
  destruct (rows P m) as [|p [|q l]]; [by apply not_elem_of_nil in Hin|by rewrite (Hall p ltac:(left))|].
  apply NoDup_cons in Hnd as [Hp _]. destruct Hp.
  rewrite (Hall p ltac:(left)), (Hall q ltac:(right; left)). left.
Qed.

Lemma sole_rows c s :
  sole c s → rows (λ _ c, String.eqb (cred_email c) (lower (strip email))) (st_credentials s) = [(u, c)].
Proof.
  intros (Hu & He & Hone). apply rows_singleton; [done|by apply String.eqb_eq|].
  intros j y Hj Hy%String.eqb_eq. by eapply Hone.
Qed.

(** the clock is set, and a password is tried *)
Definition at_time (t : time) (s : Studio) : Studio := s <| st_world ::= λ w, w <| w_now := t |> |>.
Definition try_login (a : time * string) (s : Studio) : result exn AuthToken * Studio :=
login_route email a.2 (at_time a.1 s).

(** what an attempt does to the credential *)
Definition tried (t : time) (right : bool) (c : LocalAuthCredential) : LocalAuthCredential :=
if locked t c then c else if right then cleared_login c else failed_login t c.
Definition granted (t : time) (right : bool) (c : LocalAuthCredential) : result exn AuthToken :=
if negb (locked t c) && right
then Ok (token_for jwt_encode audience u (cred_email c) t)
else Raise (HTTPException 401 "invalid email or password").

Lemma tried_email t right c : cred_email (tried t right c) = cred_email c.
Proof. unfold tried, failed_login. repeat case_match; done. Qed.
Lemma tried_hash t right c : cred_password_hash (tried t right c) = cred_password_hash c.
Proof. unfold tried, failed_login. repeat case_match; done. Qed.

Lemma sole_alter c g s :
  sole c s → (∀ x, cred_email (g x) = cred_email x) →
  sole (g c) (s <| st_credentials ::= alter g u |>).
Proof.
  intros (Hu & He & Hone) Hg. split_and!; [by simpl; rewrite lookup_alter_eq, Hu|by rewrite Hg|].
  intros i x. simpl. rewrite lookup_alter. case_decide; [done|]. apply Hone.
Qed.

Lemma run_credential_of c s :
  sole c s → credential_of (lower (strip email)) s = (Ok (Some (u, c)), s).
Proof.
  intros Hs. unfold credential_of. rewrite run_bind. unfold select. simpl.
  by rewrite (sole_rows c s Hs).
Qed.

Lemma run_login t pw right c s :
  sole c s → w_now (st_world s) = t → verify pw (cred_password_hash c) = Ok right →
  ∃ s', login pbkdf2 jwt_encode "local" audience email pw s =
          (if negb (locked t c) && right then Ok (token_for jwt_encode audience u (cred_email c) t)
           else Raise invalid_credentials, s') ∧ sole (tried t right c) s'.
Proof.
  intros Hs <- Hv. unfold login.
  change (negb (String.eqb "local" "local")) with false. cbv iota zeta.
  rewrite (run_bind_ok (on_world now) _ s (w_now (st_world s)) s) by (by destruct s).
  rewrite (run_bind_ok _ _ s _ s (run_credential_of c s Hs)). unfold tried, granted.
  destruct (locked (w_now (st_world s)) c) eqn:Hl; simpl.
  - rewrite run_bind. unfold lift_result. rewrite Hv. by exists s.
  - rewrite run_bind, Hv. simpl. destruct right; simpl.
    + eexists. split; [reflexivity|].
      by apply (sole_alter c cleared_login s Hs).
    + eexists. split; [reflexivity|]. apply (sole_alter c (failed_login _) s Hs).
      intros x. unfold failed_login. by repeat case_match.
Qed.

Lemma run_try t pw right c s :
  sole c s → verify pw (cred_password_hash c) = Ok right →
  ∃ s', try_login (t, pw) s = (granted t right c, s') ∧ sole (tried t right c) s'.
Proof.
  intros Hs Hv. unfold try_login, LocalAuth.login_route. cbn [fst snd].
  destruct (run_login t pw right c (at_time t s) Hs eq_refl Hv) as (s' & Hrun & Hs').
  exists s'. split; [|exact Hs']. rewrite run_bind. simpl. rewrite run_bind. unfold savepoint, catch.
  rewrite run_bind, Hrun. unfold granted. destruct (negb _ && right); reflexivity.
Qed.

(** ** A sequence of attempts *)

Fixpoint try_all (l : list (time * string)) (s : Studio) : Studio :=
match l with [] => s | a :: l => try_all l (try_login a s).2 end.

(** the attempt has a chance: at this time, in this state, the password of the
    owner would be let in *)
Definition is_judged (t : time) (s : Studio) : bool :=
match (try_login (t, owner) s).1 with Ok _ => true | Raise _ => false end.
Fixpoint judged (l : list (time * string)) (s : Studio) : Z :=
match l with
| [] => 0
| a :: l => (if is_judged a.1 s then 1 else 0) + judged l (try_login a s).2
end.

Definition in_window (t0 t : time) : Prop := t0 ≤ t < t0 + seconds LOCKOUT_SECONDS.

(** [j] attempts were judged, and failed, in the window *)
Definition counted (t0 : time) (j : Z) (c : LocalAuthCredential) : Prop :=
j = 0 ∨ 0 < j ≤ MAX_FAILED_ATTEMPTS ∧ j ≤ cred_failed_attempts c ∧
  (∃ last, cred_last_failed_at c = Some last ∧ in_window t0 last) ∧
  (j = MAX_FAILED_ATTEMPTS →
     ∃ lim, cred_locked_until c = Some lim ∧ t0 + seconds LOCKOUT_SECONDS ≤ lim).

Lemma counted_unlocked t0 t j c :
  counted t0 j c → in_window t0 t → locked t c = false → 0 ≤ j < MAX_FAILED_ATTEMPTS.
Proof.
  unfold locked, in_window, counted. intros [->|(Hj & _ & _ & Hlock)] Ht Hl; [done|].
  assert (j ≠ MAX_FAILED_ATTEMPTS); [|lia]. intros Hmax.
  destruct (Hlock Hmax) as (lim & Hu & Hle). rewrite Hu in Hl. apply Z.ltb_ge in Hl. lia.
Qed.

Lemma counted_fails t0 t j c :
  counted t0 j c → in_window t0 t → locked t c = false → 0 ≤ j < MAX_FAILED_ATTEMPTS →
  (j = 0 → 0 ≤ cred_failed_attempts c) → counted t0 (j + 1) (failed_login t c).
Proof.
  intros Hc Ht Hl Hj H0. right. unfold failed_login.
  assert (Hn : j + 1 ≤ (if stale t c then 1 else cred_failed_attempts c + 1)).
  { destruct Hc as [->|(_ & Hn & (last & Hlast & Hw) & _)]; [destruct (stale t c); lia|].
    unfold stale. rewrite Hlast. unfold in_window, FAILURE_WINDOW_SECONDS, LOCKOUT_SECONDS in *.
    destruct (Z.ltb_spec (seconds 900) (t - last)); lia. }
  destruct (Z.leb_spec MAX_FAILED_ATTEMPTS (if stale t c then 1 else cred_failed_attempts c + 1));
    simpl; (split_and!; [lia|lia|exact Hn|by exists t|]).
  - intros _. eexists. split; [done|]. unfold in_window in Ht. lia.
  - intros Hmax. lia.
Qed.

Lemma is_judged_unlocked t c s :
  sole c s → verify owner (cred_password_hash c) = Ok true → is_judged t s = negb (locked t c).
Proof.
  intros Hs Hv. destruct (run_try t owner true c s Hs Hv) as (s' & Hrun & _).
  unfold is_judged. rewrite Hrun. unfold granted. by destruct (locked t c).
Qed.

Lemma judged_bounded t0 l final c s j :
  sole c s → verify owner (cred_password_hash c) = Ok true → counted t0 j c → (j = 0 → 0 ≤ cred_failed_attempts c) →
  Forall (λ a, in_window t0 a.1 ∧ verify a.2 (cred_password_hash c) = Ok false) l →
  in_window t0 final.1 → (∃ right, verify final.2 (cred_password_hash c) = Ok right) →
  j + judged (l ++ [final]) s ≤ Z.max j MAX_FAILED_ATTEMPTS.
Proof.
  revert c s j. induction l as [|[t pw] l IH]; intros c s j Hs Ho Hc H0 Hl Hf [right Hr]; cbn [app judged].
  - rewrite (is_judged_unlocked _ c s Hs Ho). destruct (locked final.1 c) eqn:Hlk; simpl; [lia|].
    pose proof (counted_unlocked _ _ _ _ Hc Hf Hlk). lia.
  - apply Forall_cons in Hl as [[Ht Hv] Hl]. cbn [fst snd] in *.
    rewrite (is_judged_unlocked _ c s Hs Ho).
    destruct (run_try t pw false c s Hs Hv) as (s' & -> & Hs'). cbn [snd]. unfold tried in Hs'. destruct (locked t c) eqn:Hlk; cbn [negb].
    + rewrite Z.add_0_l. apply (IH c s' j); eauto.
    + pose proof (counted_unlocked _ _ _ _ Hc Ht Hlk) as Hj.
      pose proof (counted_fails _ _ _ _ Hc Ht Hlk Hj H0) as Hc'.
      assert (Hh : cred_password_hash (failed_login t c) = cred_password_hash c)
        by (unfold failed_login; by repeat case_match).
      specialize (IH (failed_login t c) s' (j + 1) Hs'). rewrite Hh in IH.
      specialize (IH Ho Hc' ltac:(lia) Hl Hf (ex_intro _ right Hr)). lia.
Qed.

(** the lock, when there is one, ends within fifteen minutes of [t] *)
Definition lock_bounded (t : time) (c : LocalAuthCredential) : Prop :=
∀ lim, cred_locked_until c = Some lim → lim ≤ t + seconds LOCKOUT_SECONDS.

Lemma lock_bounded_tried t0 t right c :
  t0 ≤ t → lock_bounded t0 c → lock_bounded t (tried t right c).
Proof.
  intros Ht Hb lim. unfold tried, failed_login, cleared_login.
  assert (Hold : cred_locked_until c = Some lim → lim ≤ t + seconds LOCKOUT_SECONDS).
  { intros Hu. specialize (Hb lim Hu). lia. }
  repeat case_match; simpl; try exact Hold; try discriminate. intros [= <-]. lia.
Qed.

Lemma lock_bounded_all l c s t0 :
  sole c s → lock_bounded t0 c → (∀ pw, ∃ b, verify pw (cred_password_hash c) = Ok b) →
  ∀ t, Forall (λ a, t0 ≤ a.1) l → StronglySorted Z.le l.*1 → Forall (λ a, a.1 ≤ t) l → t0 ≤ t →
  ∃ c', sole c' (try_all l s) ∧ lock_bounded t c' ∧ cred_password_hash c' = cred_password_hash c ∧
    cred_email c' = cred_email c.
Proof.
  revert c s t0. induction l as [|[t1 pw] l IH]; intros c s t0 Hs Hb Hv t H0 Hsort Ht Hle.
  - exists c. split_and!; [done| |done|done]. intros lim Hu. specialize (Hb lim Hu). lia.
  - apply Forall_cons in H0 as [H01 H0], Ht as [Ht1 Ht]. cbn [fst] in *.
    csimpl in Hsort. apply StronglySorted_inv in Hsort as [Hsort Hfst].
    destruct (Hv pw) as [b Hb']. destruct (run_try t1 pw b c s Hs Hb') as (s' & Hrun & Hs').
    cbn [try_all]. rewrite Hrun. cbn [snd].
    destruct (IH _ s' t1 Hs' (lock_bounded_tried _ _ _ _ H01 Hb)) with (t := t)
      as (c' & H1 & H2 & H3 & H4); [by rewrite tried_hash| |done|done|done|].
    { by rewrite Forall_fmap in Hfst. }
    exists c'. split_and!; [done|done|by rewrite H3, tried_hash|by rewrite H4, tried_email].
Qed.

Lemma owner_enters t pw c s :
  sole c s → verify pw (cred_password_hash c) = Ok true →
  lock_bounded (t - seconds LOCKOUT_SECONDS) c →
  (try_login (t, pw) s).1 = Ok (token_for jwt_encode audience u (cred_email c) t).
Proof.
  intros Hs Hv Hb. destruct (run_try t pw true c s Hs Hv) as (s' & -> & _). cbn [fst].
  unfold granted, locked. destruct (cred_locked_until c) as [lim|] eqn:Hu; [|done].
  specialize (Hb lim Hu). by rewrite (proj2 (Z.ltb_ge t lim)) by lia.
Qed.
End Account.

(** C8: an attacker gets ten guesses: of the attempts made at an account
    within fifteen minutes, in whatever number and at whatever times, up to
    and with the first that is right, at most ten have a chance: at the time
    of any other one the owner's own password would be refused. *)
Theorem guesses_bounded pbkdf2 jwt_encode audience email u owner t0 l final c s :
  sole email u c s → 0 ≤ cred_failed_attempts c →
  verify_password pbkdf2 owner (cred_password_hash c) = Ok true →
  Forall (λ a, in_window t0 a.1 ∧ verify_password pbkdf2 a.2 (cred_password_hash c) = Ok false) l →
  in_window t0 final.1 → (∃ right, verify_password pbkdf2 final.2 (cred_password_hash c) = Ok right) →
  judged pbkdf2 jwt_encode audience email owner (l ++ [final]) s ≤ MAX_FAILED_ATTEMPTS.
Proof.
  intros Hs H0 Ho Hl Hf Hr.
  pose proof (judged_bounded pbkdf2 jwt_encode audience email u owner t0 l final c s 0 Hs Ho
    (or_introl eq_refl) (λ _, H0) Hl Hf Hr). unfold MAX_FAILED_ATTEMPTS in *. lia.
Qed.

(** C30: a lockout ends: whatever was tried against an account, fifteen minutes
    after the last attempt the right password logs its owner in. *)
Theorem lockout_ends pbkdf2 jwt_encode audience email u l c s t0 t pw :
  sole email u c s → lock_bounded t0 c →
  (∀ pw, ∃ b, verify_password pbkdf2 pw (cred_password_hash c) = Ok b) →
  Forall (λ a, t0 ≤ a.1) l → StronglySorted Z.le l.*1 →
  Forall (λ a, a.1 + seconds LOCKOUT_SECONDS ≤ t) l → t0 + seconds LOCKOUT_SECONDS ≤ t →
  verify_password pbkdf2 pw (cred_password_hash c) = Ok true →
  (try_login pbkdf2 jwt_encode audience email (t, pw)
     (try_all pbkdf2 jwt_encode audience email l s)).1
  = Ok (token_for jwt_encode audience u (cred_email c) t).
Proof.
  intros Hs Hb Hv H0 Hsort Ht Hle Hright.
  destruct (lock_bounded_all pbkdf2 jwt_encode audience email u l c s t0 Hs Hb Hv
    (t - seconds LOCKOUT_SECONDS) H0 Hsort) as (c' & Hs' & Hb' & Hh & He);
    [eapply Forall_impl; [exact Ht|intros a Ha; simpl in Ha; lia]|lia|].
  rewrite <- He. apply owner_enters; [exact Hs'|by rewrite Hh|exact Hb'].
Qed.

(** ** Signing up and logging in *)

Definition free_of (c : ascii) (s : string) : Prop := all_chars (λ d, negb (Ascii.eqb d c)) s = true.

Lemma partition_app c s t : free_of c s → partition c (s +:+ String c t) = (s, true, t).
Proof.
  unfold free_of. induction s as [|d s IH]; simpl.
  - intros _. by rewrite Ascii.eqb_refl.
  - intros [Hd Hs]%andb_true_iff. apply negb_true_iff in Hd. rewrite Hd.
    by rewrite (IH Hs : partition c (String.append s (String c t)) = _).
Qed.

Lemma split_hash salt d :
  free_of "$" salt →
  split4 "$" ("pbkdf2_sha256$200000$" +:+ salt +:+ "$" +:+ d) = Some ("pbkdf2_sha256", "200000", salt, d).
Proof.
  intros Hs. unfold split4.
  change ("pbkdf2_sha256$200000$" +:+ salt +:+ "$" +:+ d)
    with ("pbkdf2_sha256" +:+ String "$" ("200000" +:+ String "$" (salt +:+ String "$" d))).
  by rewrite !partition_app.
Qed.

Lemma verify_hash pbkdf2 salt pw dg dg' :
  free_of "$" salt → pbkdf2 pw salt 200000 = Ok dg' →
  verify_password pbkdf2 pw ("pbkdf2_sha256$200000$" +:+ salt +:+ "$" +:+ dg) = Ok (String.eqb dg' dg).
Proof.
  intros Hs Hd. unfold verify_password. rewrite split_hash by done.
  change (parse_int "200000") with (Some 200000).
  change (negb (String.eqb "pbkdf2_sha256" "pbkdf2_sha256")) with false. cbv iota.
  by rewrite Hd.
Qed.

(** what a successful sign-up leaves behind *)
Lemma signup_ok pbkdf2 jwt_encode audience email pw name salt s tok s' :
  signup_route pbkdf2 jwt_encode "local" audience email pw name salt s = (Ok tok, s') →
  ∃ dg t, pbkdf2 pw salt 200000 = Ok dg ∧
    sole email (at_user_id tok)
      (mk_cred (lower (strip email)) ("pbkdf2_sha256$200000$" +:+ salt +:+ "$" +:+ dg) t 0 None None) s' ∧
    w_now (st_world s') = w_now (st_world s).
Proof.
  unfold signup_route, catch, savepoint. rewrite run_bind. simpl.
  destruct (signup _ _ _ _ _ _ _ _ s) as [[tok'|e] s1] eqn:Hrun; [|by destruct e].
  intros [= <- <-]. unfold signup in Hrun. change (negb (String.eqb "local" "local")) with false in Hrun.
  cbv iota zeta in Hrun. destruct (_ <? _)%nat in Hrun; [done|].
  apply bind_ok_inv in Hrun as (existing & s2 & He & Hrun).
  unfold credential_of in He. apply bind_ok_inv in He as (l & s3 & [= <- <-] & He).
  apply scalar_one_or_none_inv in He as [-> He].
  destruct existing as [|]; [done|]. destruct He as [[Hnone _]|(x & _ & ?)]; [|done].
  apply bind_ok_inv in Hrun as (i & s4 & [= <- <-] & Hrun).
  apply bind_ok_inv in Hrun as (t & s4 & [= <- <-] & Hrun).
  apply bind_ok_inv in Hrun as (q & s4 & [= <- <-] & Hrun).
  apply bind_ok_inv in Hrun as ([] & s4 & Hs4 & Hrun).
  assert (Hf : st_credentials s4 = st_credentials s ∧ w_now (st_world s4) = w_now (st_world s)).
  { by destruct (st_profiles s !! _); injection Hs4 as <-. }
  destruct Hf as [Hcreds Hnow].
  apply bind_ok_inv in Hrun as (h & s5 & Hh & Hrun). unfold hash_password in Hh.
  destruct (pbkdf2 pw salt 200000) as [dg|] eqn:Hd; [|done]. injection Hh as <- <-.
  apply bind_ok_inv in Hrun as ([] & s6 & Hi & Hrun).
  unfold insert_unique in Hi. apply bind_ok_inv in Hi as (clash & s7 & [= <- <-] & Hi).
  destruct (rows _ _) in Hi; [|done]. injection Hi as <-.
  apply bind_ok_inv in Hrun as ([] & s8 & [= <-] & [= <- <-]).
  exists dg, (w_now (st_world s)). split; [done|]. split; [|exact Hnow]. split_and!.
  - simpl. by rewrite lookup_insert_eq.
  - done.
  - intros j x. simpl. rewrite Hcreds, lookup_insert. case_decide as Hj; [done|].
    intros Hx He. exfalso.
    assert (Hin : (j, x) ∈ rows (λ _ c, String.eqb (cred_email c) (lower (strip email))) (st_credentials s)).
    { apply elem_of_rows. split; [done|by apply String.eqb_eq]. }
    rewrite Hnone in Hin. by apply not_elem_of_nil in Hin.
Qed.

(** Who signed up can log in, and nobody else: after a sign-up, a login
    under the same address (up to case and surrounding blanks) is granted for
    that account when the password derives the same digest, and refused when
    it derives another. *)
Theorem signup_login_roundtrip pbkdf2 jwt_encode audience email pw name salt s tok s' email' pw' dg dg' :
  signup_route pbkdf2 jwt_encode "local" audience email pw name salt s = (Ok tok, s') →
  free_of "$" salt → lower (strip email') = lower (strip email) →
  pbkdf2 pw salt 200000 = Ok dg → pbkdf2 pw' salt 200000 = Ok dg' →
  (login_route pbkdf2 jwt_encode "local" audience email' pw' s').1 =
  if String.eqb dg' dg
  then Ok (token_for jwt_encode audience (at_user_id tok) (lower (strip email)) (w_now (st_world s)))
  else Raise (HTTPException 401 "invalid email or password").
Proof.
  intros Hrun Hsalt He Hd Hd'.
  destruct (signup_ok _ _ _ _ _ _ _ _ _ _ Hrun) as (dg0 & t & Hd0 & Hs & Hnow).
  rewrite Hd in Hd0. injection Hd0 as <-.
  assert (Hs' : sole email' (at_user_id tok) (mk_cred (lower (strip email))
    ("pbkdf2_sha256$200000$" +:+ salt +:+ "$" +:+ dg) t 0 None None) s') by (unfold sole; by rewrite He).
  destruct (run_try pbkdf2 jwt_encode audience email' (at_user_id tok) (w_now (st_world s)) pw'
    (String.eqb dg' dg) _ s' Hs') as (s2 & Htry & _); [by apply verify_hash|].
  unfold try_login in Htry. cbn [fst snd] in Htry.
  replace (at_time (w_now (st_world s)) s') with s' in Htry; [|rewrite <- Hnow; by destruct s' as [[]]].
  rewrite Htry. cbn [fst]. unfold granted. cbn [locked cred_locked_until negb andb].
  by destruct (String.eqb dg' dg).
Qed.

(** ** Witnesses *)

(** a derivation that keeps the password readable *)
Definition demo_pbkdf2 (pw salt : string) (rounds : Z) : result exn string := Ok (salt +:+ ":" +:+ pw).
Definition demo_jwt (payload : json) : string := "token".
Definition auth_demo_empty : Studio := empty_studio (empty_world 0).
Definition auth_demo_signup : result exn AuthToken * Studio :=
signup_route demo_pbkdf2 demo_jwt "local" "authenticated" " Ann@example.org" "correct horse battery" None
  "5a17" auth_demo_empty.
Definition auth_demo : Studio := auth_demo_signup.2.
Definition auth_demo_row : LocalAuthCredential :=
mk_cred "ann@example.org" "pbkdf2_sha256$200000$5a17$5a17:correct horse battery" 0 0 None None.

Lemma auth_demo_sole : sole "ann@example.org" 1%positive auth_demo_row auth_demo.
Proof.
  split_and!; [by vm_compute|done|]. intros i x.
  change (st_credentials auth_demo) with ({[ 1%positive := auth_demo_row ]} : gmap id LocalAuthCredential).
  by intros [<- _]%lookup_singleton_Some.
Qed.

Lemma signup_login_roundtrip_witness :
  auth_demo_signup.1 = Ok (token_for demo_jwt "authenticated" 1 "ann@example.org" 0) ∧
  (login_route demo_pbkdf2 demo_jwt "local" "authenticated" "ANN@example.org " "correct horse battery"
     auth_demo).1 = Ok (token_for demo_jwt "authenticated" 1 "ann@example.org" 0) ∧
  (login_route demo_pbkdf2 demo_jwt "local" "authenticated" "ANN@example.org " "guess" auth_demo).1 =
    Raise (HTTPException 401 "invalid email or password").
Proof.
  split_and!; [by vm_compute| |].
  - exact (signup_login_roundtrip demo_pbkdf2 demo_jwt "authenticated" " Ann@example.org"
      "correct horse battery" None "5a17" auth_demo_empty _ auth_demo "ANN@example.org "
      "correct horse battery" _ _ eq_refl eq_refl eq_refl eq_refl eq_refl).
  - exact (signup_login_roundtrip demo_pbkdf2 demo_jwt "authenticated" " Ann@example.org"
      "correct horse battery" None "5a17" auth_demo_empty _ auth_demo "ANN@example.org "
      "guess" _ _ eq_refl eq_refl eq_refl eq_refl eq_refl).
Defined.

(** a wrong guess every minute, then the right password *)
Definition demo_guesses : list (time * string) :=
map (λ n, (seconds (60 * Z.of_nat n), "guess")) (seq 0 12).
Definition demo_final : time * string := (seconds 800, "correct horse battery").

Lemma guesses_bounded_witness :
  length (demo_guesses ++ [demo_final]) = 13%nat ∧
  judged demo_pbkdf2 demo_jwt "authenticated" "ann@example.org" "correct horse battery"
    (demo_guesses ++ [demo_final]) auth_demo ≤ MAX_FAILED_ATTEMPTS.
Proof.
  split; [done|].
  apply (guesses_bounded demo_pbkdf2 demo_jwt "authenticated" "ann@example.org" 1
    "correct horse battery" 0 demo_guesses demo_final auth_demo_row auth_demo auth_demo_sole).
  - done.
  - by vm_compute.
  - unfold demo_guesses. repeat (apply Forall_cons; split; [split; [split; vm_compute; congruence|by vm_compute]|]).
    constructor.
  - split; vm_compute; congruence.
  - by exists true.
Defined.

Lemma lockout_ends_witness :
  (try_login demo_pbkdf2 demo_jwt "authenticated" "ann@example.org" (seconds 1560, "correct horse battery")
     (try_all demo_pbkdf2 demo_jwt "authenticated" "ann@example.org" demo_guesses auth_demo)).1
  = Ok (token_for demo_jwt "authenticated" 1 "ann@example.org" (seconds 1560)).
Proof.
  apply (lockout_ends demo_pbkdf2 demo_jwt "authenticated" "ann@example.org" 1 demo_guesses auth_demo_row
    auth_demo 0 (seconds 1560) "correct horse battery" auth_demo_sole).
  - done.
  - intros pw. by eexists.
  - unfold demo_guesses. repeat (apply Forall_cons; split; [vm_compute; congruence|]). constructor.
  - unfold demo_guesses. simpl. repeat (constructor; [|repeat (constructor; [vm_compute; congruence|]); constructor]). constructor.
  - unfold demo_guesses. repeat (apply Forall_cons; split; [vm_compute; congruence|]). constructor.
  - vm_compute; congruence.
  - by vm_compute.
Defined.
