(* ===== verification/ConfigSpec.v ===== *)
(** * What starts, and what it then accepts

    The settings a process starts with (Config.v) exactly; the role it
    connects as has no power over row-level security once provisioned
    (RuntimeRole.v); and the tokens it mints (LocalAuth.v) are the ones it
    accepts (Accounts.v) under the issuer it started with. *)

From S2P Require Import Prelude Models Text Url LocalAuth Accounts Config.

Lemma member_spec x l : member x l = true ↔ x ∈ l.
Proof.
  unfold member. rewrite existsb_exists. setoid_rewrite String.eqb_eq. setoid_rewrite <- list_elem_of_In.
  naive_solver.
Qed.
Lemma member_false x l : member x l = false ↔ x ∉ l.
Proof. rewrite <- member_spec. destruct (member x l); naive_solver. Qed.

Lemma result_bind_ok {A B} (r : result exn A) (k : A → result exn B) b :
  r ≫= k = Ok b ↔ ∃ a, r = Ok a ∧ k a = Ok b.
Proof. destruct r; cbn; naive_solver. Qed.

(** [if b then Raise e else r = Ok x] *)
Lemma if_raise_ok {A} (b : bool) e (r : result exn A) x : (if b then Raise e else r) = Ok x ↔ b = false ∧ r = Ok x.
Proof. destruct b; naive_solver. Qed.

(** ** The settings *)

Definition in_local s : Prop := env_name (environment s) ∈ ["test"; "development"; "dev"].
Definition in_test s : Prop := env_name (environment s) = "test".
Definition in_production s : Prop := env_name (environment s) ∈ ["production"; "prod"].
Definition mode s : string := lower (strip (auth_mode s)).
(** the issuer given, blanks apart *)
Definition stated_issuer s : option string :=
match supabase_jwt_issuer s with
| Some raw => if blank raw then None else Some (strip raw)
| None => None
end.

(** a user and a password fit to connect outside a local environment *)
Definition rotated (c : string * string) : Prop :=
c.1 ≠ EmptyString ∧ strip c.2 ≠ EmptyString ∧ lower (strip c.2) ∉ ["postgres"; "app_runtime"].
(** the owner and the runtime connect as different roles, with different passwords *)
Definition separated (owner runtime : string * string) : Prop :=
lower (database_role_name runtime.1) = "app_runtime" ∧
lower (database_role_name owner.1) ≠ "app_runtime" ∧ lower owner.2 ≠ lower runtime.2.

Definition connections_ok s : Prop :=
∃ owner runtime, _dsn_credentials (database_url s) = Ok owner ∧
  _dsn_credentials (app_database_url s) = Ok runtime ∧ rotated owner ∧ rotated runtime ∧
  separated owner runtime.
Definition strong_secret (secret : string) : Prop :=
32 ≤ Z.of_nat (String.length secret) ∧ 8 ≤ distinct_chars secret ∧
lower (strip secret) ∉ "hgcibrowsersmokejwt9f3a7c2e1b8d0465k4m2" :: _KNOWN_WEAK_JWT_SECRETS.

Record startup_ok (s : AppSettings) : Prop := {
  so_connections : ¬ in_local s → connections_ok s;
  so_secret : ¬ in_test s → strong_secret (supabase_jwt_secret s);
  so_cors : ∀ origin, origin ∈ cors_allow_origins s → strip origin ≠ "*";
  so_mode : mode s = "local" ∨ mode s = "supabase";
  so_production : in_production s → mode s = "local" → allow_local_auth_in_production s = true;
  so_local : mode s = "local" → stated_issuer s = None ∨ stated_issuer s = Some LOCAL_JWT_ISSUER;
  so_supabase : mode s = "supabase" → ¬ in_test s → is_Some (stated_issuer s)
}.
(** what the checks make of the fields *)
Definition started s : AppSettings :=
s <| auth_mode := mode s |>
  <| supabase_jwt_issuer := Some (if String.eqb (mode s) "local" then LOCAL_JWT_ISSUER
                                  else default LOCAL_JWT_ISSUER (stated_issuer s)) |>.

Lemma rotated_spec label c : check_credentials label c = Ok () ↔ rotated c.
Proof.
  destruct c as [u p]. unfold check_credentials, rotated, blank. cbn [fst snd].
  rewrite !if_raise_ok, !String.eqb_neq, member_false. naive_solver.
Qed.

Lemma database_ok s s' :
  _validate_database_credentials s = Ok s' ↔ s' = s ∧ (¬ in_local s → connections_ok s).
Proof.
  unfold _validate_database_credentials, is_local_environment, in_local, connections_ok.
  destruct (member _ _) eqn:Hm.
  - apply member_spec in Hm. split; [intros [= <-]; naive_solver|intros [-> _]; done].
  - apply member_false in Hm. rewrite result_bind_ok. setoid_rewrite result_bind_ok.
    setoid_rewrite result_bind_ok. setoid_rewrite result_bind_ok. repeat setoid_rewrite if_raise_ok. unfold separated.
    split.
    + intros (o & Ho & r & Hr & u & Co & v & Cr & Hc & Hn & Hp & [= <-]).
      destruct u, v. apply rotated_spec in Co, Cr.
      split; [done|]. intros _. exists o, r. apply negb_false_iff, String.eqb_eq in Hc.
      rewrite Hc in Hn. apply String.eqb_neq in Hn. apply orb_false_iff in Hp as [_ Hp%String.eqb_neq]. done.
    + intros [-> H]. destruct (H Hm) as (o & r & Ho & Hr & Co & Cr & Hc & Hn & Hp). exists o.
      split; [done|]. exists r. split; [done|]. exists (). split; [by apply rotated_spec|]. exists ().
      split; [by apply rotated_spec|]. rewrite Hc. split; [done|]. split; [by apply String.eqb_neq|].
      split; [|done]. apply orb_false_iff. rewrite !String.eqb_neq. split; [|done]. congruence.
Qed.

Lemma secret_ok s s' :
  _validate_jwt_secret s = Ok s' ↔ s' = s ∧ (¬ in_test s → strong_secret (supabase_jwt_secret s)).
Proof.
  unfold _validate_jwt_secret, in_test, strong_secret. destruct (String.eqb_spec (env_name (environment s)) "test").
  - split; [intros [= <-]; naive_solver|intros [-> _]; done].
  - change (map _ _RETIRED_JWT_SECRET_PARTS) with ["hgcibrowsersmokejwt9f3a7c2e1b8d0465k4m2"].
    cbv zeta. rewrite !if_raise_ok, orb_false_iff, !member_false, !Z.ltb_ge.
    generalize _KNOWN_WEAK_JWT_SECRETS. intros weak. set_unfold. naive_solver.
Qed.

Lemma cors_ok s s' :
  _validate_cors_origins s = Ok s' ↔ s' = s ∧ (∀ o, o ∈ cors_allow_origins s → strip o ≠ "*").
Proof.
  unfold _validate_cors_origins. rewrite if_raise_ok, <- not_true_iff_false, existsb_exists.
  setoid_rewrite String.eqb_eq. setoid_rewrite <- list_elem_of_In. naive_solver.
Qed.

Lemma mode_ok s s' :
  _validate_auth_mode s = Ok s' ↔
  s' = s <| auth_mode := mode s |> ∧ (mode s = "local" ∨ mode s = "supabase") ∧
  (in_production s → mode s = "local" → allow_local_auth_in_production s = true).
Proof.
  unfold _validate_auth_mode, in_production. fold (mode s). cbv zeta. rewrite !if_raise_ok, negb_false_iff, member_spec.
  change (environment (s <| auth_mode := mode s |>)) with (environment s).
  change (allow_local_auth_in_production (s <| auth_mode := mode s |>)) with (allow_local_auth_in_production s).
  rewrite !andb_false_iff, negb_false_iff, member_false, String.eqb_neq, elem_of_cons, list_elem_of_singleton.
  split; [intros (Hm & Hp & [= <-]); naive_solver|].
  intros (-> & Hm & Hp). split_and!; [done| |done].
  destruct (decide (env_name (environment s) ∈ ["production"; "prod"])); [|by left; left].
  destruct (decide (mode s = "local")); [right; auto|by left; right].
Qed.

Lemma issuer_ok s s' :
  mode s = auth_mode s → mode s = "local" ∨ mode s = "supabase" →
  _validate_jwt_issuer s = Ok s' ↔
  s' = started s ∧ (mode s = "local" → stated_issuer s = None ∨ stated_issuer s = Some LOCAL_JWT_ISSUER) ∧
  (mode s = "supabase" → ¬ in_test s → is_Some (stated_issuer s)).
Proof.
  intros Hmode Hm. unfold _validate_jwt_issuer. cbv zeta.
  change (match supabase_jwt_issuer s with None => None | Some raw => _ end) with (stated_issuer s).
  assert (Hs : ∀ i, s <| supabase_jwt_issuer := i |> = s <| auth_mode := mode s |> <| supabase_jwt_issuer := i |>).
  { intros i. rewrite Hmode. by destruct s. }
  unfold started, in_test. rewrite <- Hmode. destruct Hm as [Hm|Hm]; rewrite Hm; simpl.
  - destruct (stated_issuer s) as [i|]; [rewrite if_raise_ok, negb_false_iff, String.eqb_eq|];
      rewrite Hs, Hm; naive_solver.
  - destruct (String.eqb_spec (env_name (environment s)) "test"); [rewrite Hs, Hm; naive_solver|].
    destruct (stated_issuer s) as [i|]; rewrite ?Hs, ?Hm; naive_solver.
Qed.

(** ** The runtime role *)

Section Role.
Context (make_url : string → result exn (option string * option string)).
Context (pg_format : string → list string → option string) (parse_sql : string → option sql).
Context (connect : string → result exn unit) (permitted : sql → bool) (current_database : option string).

(** [%I] and [%L] quote: the statement names the role, the password and the
    database given, whatever characters they have *)
Record quotes : Prop := {
  q_create u p : ∃ t, pg_format "CREATE ROLE %I LOGIN PASSWORD %L" [u; p] = Some t ∧
    t ≠ EmptyString ∧ parse_sql t = Some (CREATE_ROLE u p);
  q_alter u p : ∃ t, pg_format "ALTER ROLE %I WITH LOGIN PASSWORD %L" [u; p] = Some t ∧
    t ≠ EmptyString ∧ parse_sql t = Some (ALTER_ROLE u p);
  q_grant d u : ∃ t, pg_format "GRANT CONNECT ON DATABASE %I TO %I" [d; u] = Some t ∧
    t ≠ EmptyString ∧ parse_sql t = Some (GRANT_CONNECT d u)
}.

Definition run_sql (q : sql) : PG unit :=
if permitted q then execute_sql q else raise (PostgresError "permission denied").

Lemma bind_ext {A B} (m m' : PG A) (k k' : A → PG B) :
  (∀ s, m s = m' s) → (∀ a s, k a s = k' a s) → ∀ s, (m ≫= k) s = (m' ≫= k') s.
Proof. intros Hm Hk s. rewrite !run_bind, Hm. destruct (m' s) as [[a|e] s']; auto. Qed.

Lemma run_formatted {B} q template params (k : unit → PG B) s :
  (∃ t, pg_format template params = Some t ∧ t ≠ EmptyString ∧ parse_sql t = Some q) →
  (t ← _formatted_sql pg_format template params; execute parse_sql permitted t ≫= k) s = (run_sql q ≫= k) s.
Proof.
  intros (t & Hf & Ht%String.eqb_neq & Hq). unfold _formatted_sql, execute. rewrite Hf, Ht, run_bind. cbn.
  by rewrite Hq.
Qed.
Lemma run_formatted_last q template params s :
  (∃ t, pg_format template params = Some t ∧ t ≠ EmptyString ∧ parse_sql t = Some q) →
  (t ← _formatted_sql pg_format template params; execute parse_sql permitted t) s = run_sql q s.
Proof.
  intros (t & Hf & Ht%String.eqb_neq & Hq). unfold _formatted_sql, execute. rewrite Hf, Ht, run_bind. cbn.
  by rewrite Hq.
Qed.

(** the checks of the arguments *)
Definition fit (user password : string) : Prop :=
user = "app_runtime" ∧ password ≠ EmptyString ∧ lower (strip password) ∉ _KNOWN_DEFAULT_PASSWORDS.

(** what follows them *)
Definition provisioning (owner_dsn password : string) : PG unit :=
lift_result (connect (plain_url owner_dsn));;
existing ← gets (λ c, pg_roles c !! "app_runtime");
match existing with Some _ => mret tt | None => run_sql (CREATE_ROLE "app_runtime" password) end;;
run_sql (ALTER_ROLE "app_runtime" password);;
attrs ← gets (λ c, pg_roles c !! "app_runtime");
match attrs with
| None => raise (RuntimeRoleError "runtime role was not found after provisioning")
| Some attrs =>
    if overprivileged attrs
    then raise (RuntimeRoleError "runtime role has SUPERUSER, BYPASSRLS, CREATEROLE, or CREATEDB set")
    else match current_database with
         | None => raise (RuntimeRoleError "owner connection has no current database")
         | Some database =>
             if String.eqb database EmptyString
             then raise (RuntimeRoleError "owner connection has no current database")
             else run_sql (GRANT_CONNECT database "app_runtime")
         end
end.

Lemma run_provision owner_dsn user password s :
  quotes →
  provision_runtime_role pg_format parse_sql connect permitted current_database owner_dsn user password s =
    provisioning owner_dsn password s ∧ fit user password ∨
  ∃ e, provision_runtime_role pg_format parse_sql connect permitted current_database owner_dsn user password s =
    (Raise e, s) ∧ ¬ fit user password.
Proof.
  intros Hq. unfold provision_runtime_role, fit.
  destruct (is_role_name user) eqn:Hn; [|right; eexists; split; [reflexivity|]; intros (-> & _); by vm_compute in Hn].
  destruct (String.eqb_spec user CANONICAL_RUNTIME_ROLE) as [->|Hu];
    [|right; eexists; split; [reflexivity|]; intros (-> & _); by apply Hu].
  destruct (String.eqb_spec password EmptyString) as [->|Hp];
    [right; eexists; split; [reflexivity|]; naive_solver|].
  destruct (member _ _) eqn:Hm;
    [right; eexists; split; [reflexivity|]; apply member_spec in Hm; naive_solver|].
  apply member_false in Hm. left. split; [|done]. cbn [negb]. unfold provisioning.
  apply bind_ext; [done|]. intros _ s1. apply bind_ext; [done|]. intros existing s2.
  apply bind_ext.
  { intros s3. destruct existing; [done|]. apply run_formatted_last, (q_create Hq). }
  intros _ s3. rewrite (run_formatted _ _ _ _ _ (q_alter Hq CANONICAL_RUNTIME_ROLE password)).
  apply bind_ext; [done|]. intros _ s4. apply bind_ext; [done|]. intros attrs s5.
  repeat case_match; try done. apply run_formatted_last, (q_grant Hq).
Qed.

(** only the runtime role changes, and it gains no power *)
Definition powers (r : role) := (rolsuper r, rolbypassrls r, rolcreaterole r, rolcreatedb r).
Definition powerless (r : role) : Prop := powers r = (false, false, false, false).
Definition harmless (c c' : Cluster) : Prop :=
(∀ name, name ≠ "app_runtime" → pg_roles c' !! name = pg_roles c !! name) ∧
(∀ d name, (d, name) ∈ pg_connect c' → (d, name) ∈ pg_connect c ∨ name = "app_runtime") ∧
(∀ r', pg_roles c' !! "app_runtime" = Some r' →
   powerless r' ∨ ∃ r, pg_roles c !! "app_runtime" = Some r ∧ powers r' = powers r).
#[global] Instance harmless_preorder : PreOrder harmless.
Proof.
  split.
  - intros c. split_and!; [done|by left|]. intros r Hr. right. eauto.
  - intros c1 c2 c3 (H1 & H2 & H3) (K1 & K2 & K3). split_and!.
    + intros n Hn. by rewrite K1, H1.
    + intros d n [Hd|]%K2; [by apply H2|by right].
    + intros r [Hr|(r2 & [Hr|(r1 & Hr1 & Hp)]%H3 & Hq)]%K3; [by left| |].
      * left. unfold powerless in *. congruence.
      * right. exists r1. split; [done|]. congruence.
Qed.

Definition about_runtime (q : sql) : Prop :=
match q with
| CREATE_ROLE n _ | ALTER_ROLE n _ | GRANT_CONNECT _ n => n = "app_runtime"
end.
Lemma keeps_run_sql q : about_runtime q → keeps harmless (run_sql q).
Proof.
  intros Hq s. unfold run_sql. destruct (permitted q); [|by apply (reflexivity (R := harmless))].
  destruct q as [n p|n p|d n]; simpl in Hq; subst n; unfold execute_sql; rewrite run_bind; cbn;
    destruct (pg_roles s !! "app_runtime") as [r|] eqn:Hr; try (by apply (reflexivity (R := harmless))).
  - split_and!; simpl; [intros n Hn; by rewrite lookup_insert_ne|by left|].
    intros r'. rewrite lookup_insert_eq. intros [= <-]. by left.
  - split_and!; simpl; [intros n Hn; by rewrite lookup_alter_ne|by left|].
    intros r'. rewrite lookup_alter_eq, Hr. intros [= <-]. right. by exists r.
  - split_and!; simpl; [done|set_solver|]. intros r' Hr'. right. exists r'. by split.
Qed.

Lemma keeps_provisioning owner_dsn password : keeps harmless (provisioning owner_dsn password).
Proof. unfold provisioning. pose proof keeps_run_sql. keeps_tac; by apply keeps_run_sql. Qed.
(** what provisioning promises *)
Definition provisioned (password : string) (c : Cluster) : Prop :=
∃ r d, pg_roles c !! "app_runtime" = Some r ∧ rolcanlogin r = true ∧ rolpassword r = Some password ∧
  powerless r ∧ current_database = Some d ∧ (d, "app_runtime") ∈ pg_connect c.

Lemma powerless_spec r : overprivileged r = false ↔ powerless r.
Proof. unfold overprivileged, powerless, powers. destruct r as [? ? [] [] [] []]; naive_solver. Qed.

Lemma run_sql_ok q c a c' : run_sql q c = (Ok a, c') → permitted q = true ∧ execute_sql q c = (Ok a, c').
Proof. unfold run_sql. destruct (permitted q); done. Qed.

(** a role that is in place stays as it is *)
Lemma provisioning_steady owner_dsn password c :
  provisioned password c → connect (plain_url owner_dsn) = Ok () →
  permitted (ALTER_ROLE "app_runtime" password) = true →
  (∀ d, current_database = Some d → d ≠ EmptyString ∧ permitted (GRANT_CONNECT d "app_runtime") = true) →
  provisioning owner_dsn password c = (Ok (), c).
Proof.
  intros (r & d & Hr & Hl & Hp & Hn%powerless_spec & Hd & Hin) Hconn Ha Hg.
  destruct (Hg d Hd) as [Hne%String.eqb_neq Hpg].
  assert (Halter : over pg_roles (alter (λ r, r <| rolcanlogin := true |> <| rolpassword := Some password |>)
    "app_runtime") c = c).
  { destruct c as [roles g]. unfold over. cbn. f_equal. apply map_eq. intros i. rewrite lookup_alter.
    case_decide as Hi; [|done]. subst i. cbn in Hr. rewrite Hr. cbn. f_equal. destruct r; cbn in *. congruence. }
  assert (Hgrant : over pg_connect (λ g, {[ (d, "app_runtime") ]} ∪ g) c = c).
  { destruct c as [roles g]. unfold over. cbn in *. f_equal. set_solver. }
  assert (Hra : run_sql (ALTER_ROLE "app_runtime" password) c = (Ok (), c)).
  { unfold run_sql, execute_sql. rewrite Ha, run_bind. unfold gets. rewrite Hr. unfold update. by rewrite Halter. }
  assert (Hrg : run_sql (GRANT_CONNECT d "app_runtime") c = (Ok (), c)).
  { unfold run_sql, execute_sql. rewrite Hpg, run_bind. unfold gets. rewrite Hr. unfold update. by rewrite Hgrant. }
  unfold provisioning. rewrite run_bind. unfold lift_result at 1. rewrite Hconn.
  rewrite run_bind. unfold gets at 1. rewrite Hr. rewrite run_bind. cbn [mret st_ret].
  rewrite (run_bind_ok _ _ c () c Hra). rewrite run_bind. unfold gets. by rewrite Hr, Hn, Hd, Hne.
Qed.

Lemma provisioning_ok owner_dsn password c c' :
  provisioning owner_dsn password c = (Ok (), c') →
  provisioned password c' ∧ provisioning owner_dsn password c' = (Ok (), c').
Proof.
  intros Hrun. assert (H := Hrun). unfold provisioning in H.
  apply bind_ok_inv in H as ([] & c0 & Hconn & H). injection Hconn as Hconn <-.
  apply bind_ok_inv in H as (x & c1 & [= <- <-] & H).
  apply bind_ok_inv in H as ([] & c2 & Hc & H).
  apply bind_ok_inv in H as ([] & c3 & [Hpa Ha]%run_sql_ok & H).
  apply bind_ok_inv in H as (y & c4 & [= <- <-] & H).
  unfold execute_sql in Ha. rewrite run_bind in Ha. cbn in Ha.
  destruct (pg_roles c2 !! "app_runtime") as [r|] eqn:Hr; [|done]. injection Ha as <-. cbn in H.
  rewrite lookup_alter_eq, Hr in H. cbn in H. destruct (overprivileged _) eqn:Ho; [done|].
  apply powerless_spec in Ho. destruct current_database as [d|] eqn:Hdb; [|done].
  destruct (String.eqb_spec d EmptyString) as [|Hd]; [done|]. apply run_sql_ok in H as [Hpg Hg].
  unfold execute_sql in Hg. rewrite run_bind in Hg. cbn in Hg. rewrite lookup_alter_eq, Hr in Hg.
  injection Hg as <-.
  assert (Hok : provisioned password (over pg_connect (λ g, {[ (d, "app_runtime") ]} ∪ g)
    (over pg_roles (alter (λ r, r <| rolcanlogin := true |> <| rolpassword := Some password |>) "app_runtime") c2))).
  { exists (r <| rolcanlogin := true |> <| rolpassword := Some password |>), d. cbn.
    rewrite lookup_alter_eq, Hr. split_and!; try done. set_solver. }
  split; [exact Hok|]. apply provisioning_steady; try done. intros d' Hd'. rewrite Hdb in Hd'. by injection Hd' as <-.
Qed.
(** the owner can do what is needed, and the role has no power to take away *)
Definition able (owner_dsn : string) (c : Cluster) : Prop :=
connect (plain_url owner_dsn) = Ok () ∧ (∀ q, permitted q = true) ∧
(∃ d, current_database = Some d ∧ d ≠ EmptyString) ∧
(∀ r, pg_roles c !! "app_runtime" = Some r → powerless r).

Lemma provisioning_runs owner_dsn password c :
  able owner_dsn c → ∃ c', provisioning owner_dsn password c = (Ok (), c').
Proof.
  intros (Hconn & Hp & (d & Hd & Hne%String.eqb_neq) & Hpow).
  assert (Hex : ∃ c1 r, (match pg_roles c !! "app_runtime" with
      | Some _ => mret () | None => run_sql (CREATE_ROLE "app_runtime" password) end) c = (Ok (), c1) ∧
      pg_roles c1 !! "app_runtime" = Some r ∧ overprivileged r = false).
  { destruct (pg_roles c !! "app_runtime") as [r|] eqn:Hr.
    - exists c, r. split_and!; [done|done|by apply powerless_spec, Hpow].
    - unfold run_sql, execute_sql. rewrite Hp, run_bind. unfold gets. rewrite Hr. do 2 eexists.
      split; [reflexivity|]. split; [cbn; apply lookup_insert_eq|reflexivity]. }
  destruct Hex as (c1 & r & H1 & Hr & Ho).
  unfold provisioning. rewrite run_bind. unfold lift_result at 1. rewrite Hconn, run_bind. unfold gets at 1.
  rewrite (run_bind_ok _ _ _ _ _ H1).
  set (g := λ r, r <| rolcanlogin := true |> <| rolpassword := Some password |>).
  set (c2 := over pg_roles (alter g "app_runtime") c1).
  assert (Hr2 : pg_roles c2 !! "app_runtime" = Some (g r)) by (cbn; rewrite lookup_alter_eq; by rewrite Hr).
  assert (Hra : run_sql (ALTER_ROLE "app_runtime" password) c1 = (Ok (), c2)).
  { unfold run_sql, execute_sql. rewrite Hp, run_bind. unfold gets. by rewrite Hr. }
  rewrite (run_bind_ok _ _ _ _ _ Hra), run_bind. unfold gets. rewrite Hr2.
  change (overprivileged (g r)) with (overprivileged r). rewrite Ho, Hd, Hne.
  unfold run_sql, execute_sql. rewrite Hp, run_bind. unfold gets. rewrite Hr2. eexists. reflexivity.
Qed.

(** the credentials of a URL, fit for provisioning *)
Lemma parsed_credentials dsn c :
  parse_runtime_credentials make_url dsn = Ok c → fit c.1 c.2.
Proof.
  unfold parse_runtime_credentials. rewrite result_bind_ok. intros (url & _ & H). revert H. cbv zeta.
  rewrite !if_raise_ok, negb_false_iff, negb_false_iff, String.eqb_eq, !String.eqb_neq, member_false.
  intros (_ & _ & Hu & Hp & Hm & [= <-]). done.
Qed.

(** C24: provisioning touches no role but [app_runtime] and never adds to its powers, however it
    ends; when it succeeds the role logs in with the password of the URL, has no power above
    row-level security, may connect, and a second run changes nothing; and it succeeds whenever
    the URLs are in order, the owner may do it and the role had no such power. *)
Theorem runtime_role_powerless (DATABASE_URL APP_DATABASE_URL : option string) (c : Cluster) :
  quotes →
  let run := provision_from_env make_url pg_format parse_sql connect permitted current_database
    DATABASE_URL APP_DATABASE_URL in
  harmless c (run c).2 ∧
  ((run c).1 = Ok () →
     (∃ user password, parse_runtime_credentials make_url (strip (default EmptyString APP_DATABASE_URL)) =
        Ok (user, password) ∧ provisioned password (run c).2) ∧
     run (run c).2 = (Ok (), (run c).2)) ∧
  (∀ owner_dsn app_dsn user password owner,
     DATABASE_URL = Some owner_dsn → strip owner_dsn ≠ EmptyString →
     APP_DATABASE_URL = Some app_dsn → strip app_dsn ≠ EmptyString →
     parse_runtime_credentials make_url (strip app_dsn) = Ok (user, password) →
     make_url (plain_url (strip owner_dsn)) = Ok owner →
     lower (strip (default EmptyString owner.1)) ≠ "app_runtime" → able (strip owner_dsn) c →
     (run c).1 = Ok ()).
Proof.
  intros Hq run.
  assert (Hrun : ∀ c, (∃ e, run c = (Raise e, c)) ∨
    ∃ user password, parse_runtime_credentials make_url (strip (default EmptyString APP_DATABASE_URL)) =
        Ok (user, password) ∧ ∀ c, run c = provisioning (strip (default EmptyString DATABASE_URL)) password c).
  { intros s. unfold run, provision_from_env. cbv zeta. destruct (_ || _); [left; eauto|].
    destruct (parse_runtime_credentials _ _) as [[user password]|e] eqn:Hc; [|left; eexists; reflexivity].
    destruct (make_url (plain_url (strip (default EmptyString DATABASE_URL)))) as [owner|e] eqn:Ho;
      [|left; rewrite run_bind; cbn; rewrite run_bind; cbn; eauto].
    destruct (String.eqb (lower (strip (default EmptyString owner.1))) (lower user)) eqn:Hl.
    { left. rewrite run_bind. cbn. rewrite run_bind. cbn. rewrite Hl. eauto. }
    right. exists user, password. split; [done|]. intros c1. rewrite run_bind. cbn. rewrite run_bind. cbn.
    rewrite Hl. pose proof (parsed_credentials _ _ Hc) as Hfit.
    destruct (run_provision (strip (default EmptyString DATABASE_URL)) user password c1 Hq) as [[H _]|(e & _ & H)];
      [exact H|by destruct H]. }
  split_and!.
  - destruct (Hrun c) as [[e ->]|(user & password & _ & ->)]; [by apply (reflexivity (R := harmless))|].
    apply keeps_provisioning.
  - destruct (Hrun c) as [[e ->]|(user & password & Hc & Heq)]; [done|]. rewrite Heq. intros Hok.
    destruct (provisioning _ password c) as [[[]|e] c'] eqn:Hp; [|done].
    apply provisioning_ok in Hp as [Hp Hagain]. cbn. split; [eauto|by rewrite Heq].
  - intros owner_dsn app_dsn user password owner -> Ho -> Ha Hc Hown Hdiff Hable.
    pose proof (parsed_credentials _ _ Hc) as Hfit. assert (Hu : user = "app_runtime") by apply Hfit. subst user.
    unfold run, provision_from_env. apply String.eqb_neq in Ho, Ha, Hdiff. cbv zeta.
    change (default EmptyString (Some owner_dsn)) with owner_dsn.
    change (default EmptyString (Some app_dsn)) with app_dsn. rewrite Ho, Ha. cbn [orb]. rewrite run_bind. unfold lift_result. rewrite Hc, run_bind, Hown.
    change (lower "app_runtime") with "app_runtime". rewrite Hdiff.
    destruct (run_provision (strip owner_dsn) "app_runtime" password c Hq) as [[-> _]|(e & _ & H)]; [|by destruct H].
    by destruct (provisioning_runs (strip owner_dsn) password c Hable) as (c' & ->).
Qed.
End Role.

(** ** The properties of the settings *)

(** [Settings()] is constructed exactly when: outside a local environment the owner and the
    runtime connect with rotated, different credentials, the runtime as [app_runtime] and the
    owner as another role; outside the tests the JWT secret is long, varied and no known one; no
    origin is a wildcard; the auth mode is known, and local in production only by the override;
    and the issuer fits the mode.  The mode and the issuer are then normalised. *)
Theorem settings_fail_closed s s' : construct s = Ok s' ↔ startup_ok s ∧ s' = started s.
Proof.
  unfold construct. rewrite result_bind_ok. setoid_rewrite database_ok. setoid_rewrite result_bind_ok.
  setoid_rewrite secret_ok. setoid_rewrite result_bind_ok. setoid_rewrite cors_ok.
  setoid_rewrite result_bind_ok. setoid_rewrite mode_ok.
  assert (Hm : mode (s <| auth_mode := mode s |>) = mode s).
  { change (lower (strip (lower (strip (auth_mode s)))) = lower (strip (auth_mode s))).
    by rewrite strip_lower_strip, lower_idemp. }
  split.
  - intros (? & [-> Hc] & ? & [-> Hs] & ? & [-> Ho] & ? & (-> & Hmode & Hp) & Hi).
    apply issuer_ok in Hi as (-> & Hl & Hsu); [|exact Hm|by rewrite Hm]. rewrite Hm in Hl, Hsu. split; [by split|].
    unfold started. by rewrite Hm.
  - intros [[Hc Hs Ho Hmode Hp Hl Hsu] ->]. exists s. split; [done|]. exists s. split; [done|]. exists s.
    split; [done|]. exists (s <| auth_mode := mode s |>). split; [done|]. apply issuer_ok; [exact Hm|by rewrite Hm|].
    rewrite Hm. split; [|done]. unfold started. by rewrite Hm.
Qed.

(** a claim set the library takes, issuer apart: for the audience, before it expires *)
Definition current (audience : string) (clock : Z) (claims : PyJson.pydict) : Prop :=
obj_get claims "aud" = Some (JStr audience) ∧ ∃ exp, obj_get claims "exp" = Some (int_json exp) ∧ clock < exp.

Lemma issuer_nonempty s s' :
  construct s = Ok s' → ∃ issuer, supabase_jwt_issuer s' = Some issuer ∧ issuer ≠ EmptyString ∧
    strip issuer = issuer ∧ (auth_mode s' = "local" → issuer = LOCAL_JWT_ISSUER).
Proof.
  intros H. assert (Hs : s' = started s).
  { unfold construct in H. apply result_bind_ok in H as (? & [-> _]%database_ok & H).
    apply result_bind_ok in H as (? & [-> _]%secret_ok & H). apply result_bind_ok in H as (? & [-> _]%cors_ok & H).
    apply result_bind_ok in H as (? & (-> & Hmode & _)%mode_ok & H).
    assert (Hm : mode (s <| auth_mode := mode s |>) = mode s).
    { change (lower (strip (lower (strip (auth_mode s)))) = lower (strip (auth_mode s))).
      by rewrite strip_lower_strip, lower_idemp. }
    apply issuer_ok in H as (-> & _); [|exact Hm|by rewrite Hm]. unfold started. by rewrite Hm. }
  subst s'. eexists. split; [reflexivity|].
  change (auth_mode (started s)) with (mode s).
  destruct (String.eqb_spec (mode s) "local") as [Hm|Hm]; [by split_and!|].
  unfold stated_issuer. destruct (supabase_jwt_issuer s) as [raw|]; [|by split_and!].
  unfold blank. destruct (String.eqb_spec (strip raw) EmptyString) as [Hb|Hb]; [by split_and!|].
  cbn. split_and!; [done|apply strip_idemp|done].
Qed.

(** C25: a process started in local mode takes the tokens it mints for their users; started in
    supabase mode with an issuer of its own it refuses them, and in either mode every token it takes
    carries its issuer, which is never empty.  PyJWT is assumed to return the claims that were
    encoded as long as they are current and of the issuer asked for, and none of another issuer. *)
Theorem tokens_of_the_issuer (jwt_encode : json → string) (jwt_decode : string → string → option PyJson.pydict)
  (json_text : json → string) (audience : string) (clock : Z) s s' :
  construct s = Ok s' →
  (∀ token issuer claims, jwt_decode token issuer = Some claims → obj_get claims "iss" = Some (JStr issuer)) →
  (∀ claims issuer, current audience clock claims → obj_get claims "iss" = Some (JStr issuer) →
     jwt_decode (jwt_encode (JObj claims)) issuer = Some claims) →
  (∀ claims issuer, obj_get claims "iss" ≠ Some (JStr issuer) → jwt_decode (jwt_encode (JObj claims)) issuer = None) →
  let accepts := get_current_user jwt_decode json_text (supabase_jwt_issuer s') in
  ∃ issuer, supabase_jwt_issuer s' = Some issuer ∧ issuer ≠ EmptyString ∧
    (auth_mode s' = "local" → issuer = LOCAL_JWT_ISSUER) ∧
    (∀ token user, accepts (Some token) = Ok user →
       ∃ claims, jwt_decode token issuer = Some claims ∧ obj_get claims "iss" = Some (JStr issuer) ∧
         obj_get claims "sub" = Some (au_id user)) ∧
    (∀ u email seconds t, clock < t / 1000000 + seconds →
       accepts (Some (mint_access_token jwt_encode audience u email seconds t)) =
       if String.eqb issuer LOCAL_JWT_ISSUER then Ok (mk_user (JStr (uuid_str u)) (JStr email))
       else Raise (unauthorized "invalid or expired token")).
Proof.
  intros Hs Hiss Hdec Hno. destruct (issuer_nonempty s s' Hs) as (issuer & Hi & Hne & Hstrip & Hl).
  cbv zeta. exists issuer. split_and!; [done..| |].
  - intros token user. unfold get_current_user, _decode_supabase_jwt, _required_jwt_issuer. rewrite Hi.
    change (default EmptyString (Some issuer)) with issuer. rewrite Hstrip. apply String.eqb_neq in Hne. rewrite Hne.
    cbn. destruct (jwt_decode token issuer) as [claims|] eqn:Hd; [|done]. cbn.
    unfold PyJson.dict_get. destruct (obj_get claims "sub") as [sub|] eqn:Hsub; [|done]. cbn.
    destruct (PyJson.truthy sub); [|done]. cbn. destruct (uuid_parse _); [|done]. intros [= <-].
    exists claims. split_and!; [done|by apply (Hiss token)|done].
  - intros u email secs t Hexp. unfold get_current_user, _decode_supabase_jwt, _required_jwt_issuer. rewrite Hi.
    change (default EmptyString (Some issuer)) with issuer. rewrite Hstrip. apply String.eqb_neq in Hne. rewrite Hne.
    unfold mint_access_token. destruct (String.eqb_spec issuer LOCAL_JWT_ISSUER) as [->|Hn].
    + assert (Ht : String.eqb (uuid_str u) EmptyString = false) by (by destruct u).
      cbn. rewrite Hdec; [|split; [done|by eexists]|done].
      cbn. unfold PyJson.dict_get. cbn. rewrite Ht. cbn. by rewrite uuid_parse_str.
    + cbn. rewrite Hno; [done|]. cbn. intros [= <-]. by apply Hn.
Qed.

(** ** Witnesses *)

Definition demo_settings : AppSettings :=
{| environment := " Staging";
   database_url := [mk_url_host (Some "owner") (Some "0wner%21secret")];
   app_database_url := [mk_url_host (Some "app_runtime.abcdefghijklmnopqrst") (Some "r%75ntime-secret")];
   supabase_jwt_secret := "0123456789abcdefghijklmnopqrstuvwxyz";
   supabase_jwt_issuer := None; auth_mode := "LOCAL "; allow_local_auth_in_production := false;
   cors_allow_origins := ["https://app.example.org"] |}.

(** a quoting and a reading of SQL: the code of the template and its arguments *)
Definition demo_format (template : string) (params : list string) : option string :=
Some (uuid_str (encode (template, params))).
Definition demo_parse (t : string) : option sql :=
match uuid_parse t ≫= decode (A := string * list string) with
| Some ("CREATE ROLE %I LOGIN PASSWORD %L", [u; p]) => Some (CREATE_ROLE u p)
| Some ("ALTER ROLE %I WITH LOGIN PASSWORD %L", [u; p]) => Some (ALTER_ROLE u p)
| Some ("GRANT CONNECT ON DATABASE %I TO %I", [d; u]) => Some (GRANT_CONNECT d u)
| _ => None
end.
Lemma demo_quotes : quotes demo_format demo_parse.
Proof.
  split; intros a b; eexists; (split; [reflexivity|]); (split; [by destruct (encode _)|]);
    unfold demo_parse; rewrite uuid_parse_str; cbn [mbind option_bind]; by rewrite decode_encode.
Qed.
(** [make_url] of the two URLs below *)
Definition demo_make_url (dsn : string) : result exn (option string * option string) :=
if String.eqb dsn "postgresql://owner:pw1@db/app" then Ok (Some "owner", Some "pw1")
else if String.eqb dsn "postgresql://app_runtime:pw2@db/app" then Ok (Some "app_runtime", Some "pw2")
else Raise (ValueError "could not parse the URL").
Definition demo_cluster (powerful : bool) : Cluster :=
mk_cluster {[ "app_runtime" := mk_role true (Some "app_runtime") powerful false false false ]} ∅.

Lemma runtime_role_powerless_witness :
  (provision_from_env demo_make_url demo_format demo_parse (λ _, Ok ()) (λ _, true) (Some "app")
     (Some "postgresql+asyncpg://owner:pw1@db/app") (Some "postgresql+asyncpg://app_runtime:pw2@db/app")
     (demo_cluster false)).1 = Ok () ∧
  harmless (demo_cluster true) (provision_from_env demo_make_url demo_format demo_parse (λ _, Ok ()) (λ _, true)
    (Some "app") (Some "postgresql+asyncpg://owner:pw1@db/app")
    (Some "postgresql+asyncpg://app_runtime:pw2@db/app") (demo_cluster true)).2.
Proof.
  split.
  - refine (proj2 (proj2 (runtime_role_powerless demo_make_url demo_format demo_parse (λ _, Ok ()) (λ _, true) (Some "app")
      (Some "postgresql+asyncpg://owner:pw1@db/app") (Some "postgresql+asyncpg://app_runtime:pw2@db/app")
      (demo_cluster false) demo_quotes)) _ _ "app_runtime" "pw2" (Some "owner", Some "pw1") eq_refl _ eq_refl _ _ _ _ _).
    1,2,5: by vm_compute. 1,2: by vm_compute.
    split_and!; [done|done|by exists "app"|]. intros r Hr. vm_compute in Hr. injection Hr as <-. reflexivity.
  - exact (proj1 (runtime_role_powerless demo_make_url demo_format demo_parse (λ _, Ok ()) (λ _, true) (Some "app")
      (Some "postgresql+asyncpg://owner:pw1@db/app") (Some "postgresql+asyncpg://app_runtime:pw2@db/app")
      (demo_cluster true) demo_quotes)).
Defined.

(** values as trees, to give each a code *)
Fixpoint json_tree (j : json) : gen_tree (bool + Z * nat + string) :=
match j with
| JNull => GenNode 0 []
| JBool b => GenLeaf (inl (inl b))
| JNum m e => GenLeaf (inl (inr (m, e)))
| JStr s => GenLeaf (inr s)
| JList l => GenNode 1 (map json_tree l)
| JObj kv => GenNode 2 (map (λ p, GenNode 3 [GenLeaf (inr p.1); json_tree p.2]) kv)
end.
Fixpoint tree_json (t : gen_tree (bool + Z * nat + string)) : json :=
match t with
| GenLeaf (inl (inl b)) => JBool b
| GenLeaf (inl (inr (m, e))) => JNum m e
| GenLeaf (inr s) => JStr s
| GenNode 1 l => JList (map tree_json l)
| GenNode 2 l => JObj (map (λ t, match t with
                             | GenNode _ [GenLeaf (inr k); v] => (k, tree_json v)
                             | _ => (EmptyString, JNull)
                             end) l)
| _ => JNull
end.
Lemma tree_json_tree : ∀ j, tree_json (json_tree j) = j.
Proof.
  fix IH 1. intros [| | | |l|kv]; cbn; try done; f_equal.
  - induction l as [|j l IHl]; cbn; [done|]. f_equal; [apply IH|exact IHl].
  - induction kv as [|[k v] kv IHkv]; cbn; [done|]. f_equal; [by rewrite IH|exact IHkv].
Qed.

(** claims are encoded by their code, and returned when their issuer is the one asked for *)
Definition demo_issue (claims : json) : string := uuid_str (encode (json_tree claims)).
Definition demo_verify (token issuer : string) : option PyJson.pydict :=
match tree_json <$> (uuid_parse token ≫= decode) with
| Some (JObj claims) =>
    match obj_get claims "iss" with
    | Some (JStr i) => if String.eqb i issuer then Some claims else None
    | _ => None
    end
| _ => None
end.
Lemma demo_verify_issue claims issuer :
  demo_verify (demo_issue (JObj claims)) issuer =
  match obj_get claims "iss" with
  | Some (JStr i) => if String.eqb i issuer then Some claims else None
  | _ => None
  end.
Proof.
  unfold demo_verify, demo_issue. rewrite uuid_parse_str. cbn [mbind option_bind]. rewrite decode_encode.
  cbn [fmap option_fmap option_map]. by rewrite tree_json_tree.
Qed.

Lemma settings_fail_closed_witness :
  construct demo_settings = Ok (started demo_settings) ∧ startup_ok demo_settings ∧
  supabase_jwt_issuer (started demo_settings) = Some LOCAL_JWT_ISSUER ∧
  construct (demo_settings <| app_database_url := [mk_url_host (Some "owner") (Some "runtime")] |>) =
    Raise (ValueError "APP_DATABASE_URL must use the canonical app_runtime role").
Proof.
  assert (H : construct demo_settings = Ok (started demo_settings)) by (vm_compute; reflexivity).
  split; [exact H|]. split; [exact (proj1 (proj1 (settings_fail_closed demo_settings _) H))|].
  split; vm_compute; reflexivity.
Defined.

Lemma tokens_of_the_issuer_witness :
  get_current_user demo_verify (λ _, EmptyString) (supabase_jwt_issuer (started demo_settings))
    (Some (mint_access_token demo_issue "authenticated" 7 "ann@example.org" 3600 5000000)) =
  Ok (mk_user (JStr (uuid_str 7)) (JStr "ann@example.org")).
Proof.
  assert (H : construct demo_settings = Ok (started demo_settings)) by (vm_compute; reflexivity).
  destruct (tokens_of_the_issuer demo_issue demo_verify (λ _, EmptyString) "authenticated" 100 demo_settings
    (started demo_settings) H) as (issuer & Hi & _ & Hl & _ & Hm).
  - intros token issuer claims. unfold demo_verify. destruct (tree_json <$> _) as [[]|]; try done.
    destruct (obj_get kv "iss") as [[]|] eqn:Hk; try done. destruct (String.eqb_spec s issuer); [|done].
    intros [= <-]. by subst.
  - intros claims issuer _ Hi. rewrite demo_verify_issue, Hi. by rewrite String.eqb_refl.
  - intros claims issuer Hn. rewrite demo_verify_issue. destruct (obj_get claims "iss") as [[]|]; try done.
    destruct (String.eqb_spec s issuer); [by subst|done].
  - rewrite Hm by (vm_compute; reflexivity). by rewrite (Hl eq_refl).
Defined.
