(* ===== verification/AccountSpec.v ===== *)
(** * Every workspace keeps an admin *)

From S2P Require Import Prelude Models Database Outbox Provenance Assignments Gates Workflow Spend Controller.
From S2P Require Import Recovery Scheduler Relay Workers ContentDesk Automation StudioModels System Portal.
From S2P Require Import Accounts Limits LocalAuth LeonVoice Portal.
From S2P Require Strategy Research Url AuthSpec.

(** ** What the other operations leave alone *)

Definition same_workspaces : relation World := λ w w',
(w_next w ≤ w_next w')%positive ∧ ∀ i, is_Some (w_workspaces w' !! i) ↔ is_Some (w_workspaces w !! i).
#[export] Instance same_workspaces_preorder : PreOrder same_workspaces.
Proof.
  unfold same_workspaces. split; [intros w; split; [lia|done]|].
  intros x y z [H1 H2] [H3 H4]. split; [lia|]. intros i. by rewrite H4.
Qed.
Lemma same_workspaces_uuid4 : keeps same_workspaces uuid4.
Proof. intros w. split; [simpl; lia|done]. Qed.
#[export] Instance engine_same_workspaces : Engine same_workspaces.
Proof. apply (engine_of_uuid4 _ same_workspaces_uuid4). Qed.
#[export] Instance emit_any_same_workspaces : EmitAny same_workspaces.
Proof. apply (emit_any_of_uuid4 _ same_workspaces_uuid4). Qed.

#[export] Instance engine_frame_workspaces : Engine (frame w_workspaces).
Proof. apply (engine_of_uuid4 _). by intros w. Qed.
#[export] Instance emit_any_frame_workspaces : EmitAny (frame w_workspaces).
Proof. apply (emit_any_of_uuid4 _). by intros w. Qed.
Lemma frame_workspaces_op `{Settings} sha256 o w : op_ok o → frame w_workspaces w (step sha256 w o).
Proof. apply keeps_step; try apply _. done. Qed.
Lemma same_workspaces_op `{Settings} sha256 o : op_ok o → keeps same_workspaces (run_op sha256 o).
Proof.
  intros Ho w. pose proof (ids_grow_step sha256 o w Ho) as Hi.
  pose proof (frame_workspaces_op sha256 o w Ho) as Hf. split; [exact Hi|].
  intros i. unfold frame, step in Hf. by rewrite Hf.
Qed.

Definition quiet : relation Studio := both same_workspaces (frame st_memberships).
Lemma quiet_on_world {A} (m : M A) : keeps same_workspaces m → keeps quiet (on_world m).
Proof. apply both_on_world; apply _. Qed.
Lemma same_workspaces_modify i f : keeps same_workspaces (modify w_workspaces i f).
Proof.
  intros w. split; [simpl; lia|]. intros j. simpl. rewrite lookup_alter. case_decide as Hj; [subst|done].
  by rewrite fmap_is_Some.
Qed.
#[local] Hint Resolve quiet_on_world same_workspaces_modify engine_uuid4 engine_flush : keeps.

Section Quiet.
Context `{Settings} `{Unordered} `{VoiceSettings} (ip6 : string → option bool) (sha256 : string → string)
  (json_text : json → string) (environment : string)
  (pbkdf2 : string → string → Z → result exn string) (jwt_encode : json → string)
  (auth_mode audience : string).

#[local] Instance quiet_preorder : PreOrder quiet.
Proof. unfold quiet. apply _. Qed.

Lemma quiet_trace ws ids : keeps quiet (Strategy.trace_sources ws ids).
Proof. induction ids as [|o ids IH]; simpl; unfold Research.latest_audit; keeps_tac. Qed.

Lemma quiet_department o :
  studio_op_ok o → keeps quiet (run_studio_op ip6 sha256 json_text environment o).
Proof.
  intros Ho. destruct o; simpl in *; try apply keeps_quietly; try apply _.
  1: by apply quiet_on_world, same_workspaces_op.
  all: pose proof quiet_trace; solve [keeps_all].
Qed.
End Quiet.

(** ** The invariant *)

Definition has_admin (ws : id) (s : Studio) : Prop :=
∃ i m, st_memberships s !! i = Some m ∧ mem_workspace_id m = ws ∧ mem_role m = ROLE_ADMIN.
#[local] Instance quiet_preorder' : PreOrder quiet.
Proof. unfold quiet. apply _. Qed.

(** [keeps_all], entering the engine's operations as well *)
Ltac quiet_all :=
  keeps_tac;
  lazymatch goal with
  | |- keeps quiet (on_world _) => apply quiet_on_world; keeps_all
  | |- keeps quiet ?m => let f := head_of m in unfold f; quiet_all
  | |- _ => idtac
  end.

Lemma quiet_ok {A} (m : SM A) s a s' : keeps quiet m → m s = (Ok a, s') → quiet s s'.
Proof. intros Hm Hrun. specialize (Hm s). by rewrite Hrun in Hm. Qed.

Lemma quiet_guard allowed ws user : keeps quiet (require_workspace_role allowed ws user).
Proof. keeps_all. Qed.
#[local] Hint Resolve quiet_guard : keeps.


Lemma has_admin_insert ws s i m :
  st_memberships s !! i = None → has_admin ws s →
  has_admin ws (s <| st_memberships ::= <[i := m]> |>).
Proof.
  intros Hi (j & x & Hj & H1 & H2). exists j, x. split; [|done]. simpl.
  rewrite lookup_insert_ne; [done|]. by intros ->; rewrite Hi in Hj.
Qed.

(** the member found is the row that is there *)
Lemma run_target ws u s r s' :
  _get_target_membership ws u s = (Ok r, s') →
  s' = s ∧ ∀ i m, r = Some (i, m) → st_memberships s !! i = Some m ∧ mem_workspace_id m = ws.
Proof.
  intros Hrun. apply bind_ok_inv in Hrun as (l & s1 & [= <- <-] & Hrun).
  apply scalar_one_or_none_inv in Hrun as [-> Hr]. split; [done|]. intros i m ->.
  destruct Hr as [[_ ?]|(p & Hl & [= <-])]; [done|].
  assert (Hin : (i, m) ∈ rows (membership_of ws u) (st_memberships s)) by (rewrite Hl; left).
  apply elem_of_rows in Hin as [Hi Hm]. split; [done|].
  apply andb_true_iff in Hm as [Hm _]. by apply in_workspace_true.
Qed.

(** another admin stays when one goes *)
Lemma other_admin ws s i m :
  st_memberships s !! i = Some m → 1 < tcount (is_admin_of ws) (st_memberships s) →
  ∃ j x, j ≠ i ∧ st_memberships s !! j = Some x ∧ mem_workspace_id x = ws ∧ mem_role x = ROLE_ADMIN.
Proof.
  intros Hi Hc. unfold tcount in Hc. rewrite (tsum_delete _ _ i m Hi) in Hc.
  assert (Hc' : 0 < tcount (is_admin_of ws) (delete i (st_memberships s))).
  { unfold tcount. destruct (is_admin_of ws i m); lia. }
  rewrite tcount_rows in Hc'. destruct (rows _ _) as [|[j x] l] eqn:Hl; [simpl in Hc'; lia|].
  assert (Hin : (j, x) ∈ rows (is_admin_of ws) (delete i (st_memberships s))) by (rewrite Hl; left).
  apply elem_of_rows in Hin as [[Hne Hj]%lookup_delete_Some Hx].
  apply andb_true_iff in Hx as [Hx Hr%bool_decide_eq_true]. apply in_workspace_true in Hx.
  exists j, x. split_and!; [congruence|done|done|done].
Qed.

Lemma run_keeps_an_admin ws u s p s' :
  _ensure_admin_mutation_keeps_an_admin ws u s = (Ok p, s') →
  s' = s ∧ st_memberships s !! p.1 = Some p.2 ∧ mem_workspace_id p.2 = ws ∧
  (mem_role p.2 = ROLE_ADMIN → 1 < tcount (is_admin_of ws) (st_memberships s)).
Proof.
  intros Hrun. apply bind_ok_inv in Hrun as (n & s1 & [= <- <-] & Hrun).
  apply bind_ok_inv in Hrun as ([[i m]|] & s2 & Ht & Hrun); [|done].
  apply run_target in Ht as [-> Ht]. destruct (Ht i m eq_refl) as [Hi Hws].
  destruct (_ && _) eqn:Hb in Hrun; [done|]. injection Hrun as <- <-. split_and!; [done|done|done|].
  intros Hr. apply andb_false_iff in Hb as [Hb|Hb]; [by rewrite bool_decide_eq_false in Hb|].
  by apply Z.leb_gt in Hb.
Qed.

(** a membership is added beside those that are there *)
Lemma run_add_membership ws u role s p s' :
  add_membership ws u role s = (Ok p, s') →
  ∃ i, i = w_next (st_world s) ∧ mem_workspace_id p.2 = ws ∧ mem_role p.2 = role ∧
    st_memberships s' = <[i := p.2]> (st_memberships s) ∧
    w_next (st_world s') = Pos.succ i ∧ w_workspaces (st_world s') = w_workspaces (st_world s).
Proof.
  intros Hrun. apply bind_ok_inv in Hrun as (i & s1 & [= <- <-] & Hrun).
  apply bind_ok_inv in Hrun as (t & s1 & [= <- <-] & Hrun).
  apply bind_ok_inv in Hrun as ([q|] & s1 & [= _ <-] & Hrun); [|done].
  apply bind_ok_inv in Hrun as ([] & s2 & Hi & Hrun).
  unfold insert_unique in Hi. apply bind_ok_inv in Hi as (l & s3 & [= <- <-] & Hi).
  destruct (rows _ _) in Hi; [|done]. injection Hi as <-.
  apply bind_ok_inv in Hrun as ([] & s4 & [= <-] & [= <- <-]). by eexists.
Qed.

Lemma lift_result_ok_inv {A} (r : result exn A) (s : Studio) a s' :
  lift_result r s = (Ok a, s') → r = Ok a ∧ s' = s.
Proof. destruct r; [|done]. by intros [= -> ->]. Qed.


Section Invariant.
Context (desk : id).

(** the workspace, once it exists, has an admin *)
Definition administered (s : Studio) : Prop :=
below (w_next (st_world s)) (st_memberships s) ∧
(is_Some (w_workspaces (st_world s) !! desk) → has_admin desk s).

Lemma quiet_administered s s' : quiet s s' → administered s → administered s'.
Proof.
  intros [[Hn Hw] Hm] [Hb Ha]. unfold frame in Hm. split.
  - rewrite Hm. by eapply below_weaken.
  - intros Hws. destruct Ha as (i & m & Hi & H1); [by apply Hw|]. exists i, m. by rewrite Hm.
Qed.
Lemma keeps_quiet {A} (m : SM A) : keeps quiet m → keeps (preserved administered) m.
Proof. intros Hm s. exact (quiet_administered s _ (Hm s)). Qed.
(** a change of one row, if there, that leaves its workspace an admin *)
Lemma administered_alter s i g :
  (∀ x, mem_workspace_id (g x) = mem_workspace_id x) →
  (∀ m, st_memberships s !! i = Some m → mem_role m = ROLE_ADMIN →
     mem_role (g m) = ROLE_ADMIN ∨
     1 < tcount (is_admin_of (mem_workspace_id m)) (st_memberships s)) →
  administered s → administered (s <| st_memberships ::= alter g i |>).
Proof.
  intros Hg Hadm [Hb Ha]. split; [by apply below_alter|]. intros Hws.
  destruct (Ha Hws) as (j & x & Hj & Hxw & Hxr). destruct (decide (j = i)) as [->|Hne].
  - destruct (Hadm x Hj Hxr) as [Hr|Hc].
    + exists i, (g x). simpl. rewrite lookup_alter_eq, Hj. split_and!; [done|by rewrite Hg|done].
    + rewrite Hxw in Hc. destruct (other_admin desk s i x Hj Hc) as (k & y & Hk & Hy & H1 & H2).
      exists k, y. simpl. by rewrite lookup_alter_ne.
  - exists j, x. simpl. by rewrite lookup_alter_ne.
Qed.

Lemma administered_delete s i :
  (∀ m, st_memberships s !! i = Some m → mem_role m = ROLE_ADMIN →
     1 < tcount (is_admin_of (mem_workspace_id m)) (st_memberships s)) →
  administered s → administered (s <| st_memberships ::= delete i |>).
Proof.
  intros Hadm [Hb Ha]. split.
  { intros j x. simpl. intros [_ Hj]%lookup_delete_Some. by apply (Hb j x). }
  intros Hws. destruct (Ha Hws) as (j & x & Hj & Hxw & Hxr).
  destruct (decide (j = i)) as [->|Hne].
  - specialize (Hadm x Hj Hxr). rewrite Hxw in Hadm.
    destruct (other_admin desk s i x Hj Hadm) as (k & y & Hk & Hy & H1 & H2).
    exists k, y. simpl. by rewrite lookup_delete_ne.
  - exists j, x. simpl. by rewrite lookup_delete_ne.
Qed.

(** ** The operations *)

Lemma administered_add s s' i m :
  i = w_next (st_world s) → st_memberships s' = <[i := m]> (st_memberships s) →
  w_next (st_world s') = Pos.succ i → w_workspaces (st_world s') = w_workspaces (st_world s) →
  administered s → administered s'.
Proof.
  intros -> Hm Hn Hw [Hb Ha]. split.
  - rewrite Hm, Hn. apply below_insert; [lia|]. eapply below_weaken; [|done]. lia.
  - rewrite Hw. intros Hws. destruct (Ha Hws) as (j & x & Hj & H1 & H2).
    exists j, x. rewrite Hm. split; [|done]. rewrite lookup_insert_ne; [done|].
    intros <-. by rewrite (below_fresh _ _ Hb) in Hj.
Qed.

Lemma administered_invite ws user u role s p s' :
  administered s → invite_member ws user u role s = (Ok p, s') → administered s'.
Proof.
  intros Hs Hrun. unfold invite_member in Hrun. apply bind_ok_inv in Hrun as (g & s1 & Hg & Hrun).
  apply (quiet_ok _ _ _ _ (quiet_guard _ ws user)) in Hg. apply (quiet_administered _ _ Hg) in Hs.
  apply bind_ok_inv in Hrun as ([t|] & s2 & [-> _]%run_target & Hrun); [done|].
  apply bind_ok_inv in Hrun as (q & s3 & (i & Hi & _ & _ & Hm & Hn & Hw)%run_add_membership & Hrun).
  apply bind_ok_inv in Hrun as (v & s4 & [= _ <-] & [= _ <-]). by eapply administered_add.
Qed.

(** the row read, [t], and the row there now: an admin now was one then *)
Definition not_promoted (t : id * WorkspaceMembership) (s : Studio) : Prop :=
  ∀ m, st_memberships s !! t.1 = Some m → mem_role m = ROLE_ADMIN → mem_role t.2 = ROLE_ADMIN.

(** the row the rest of a request goes on with: there, with admins to spare,
    or read before and no admin *)
Lemma run_checked (b : bool) ws member t s p s' :
  not_promoted t s → (b = false → mem_role t.2 ≠ ROLE_ADMIN) →
  (if b then _ensure_admin_mutation_keeps_an_admin ws member else mret t) s = (Ok p, s') →
  s' = s ∧ ∀ m, st_memberships s !! p.1 = Some m → mem_role m = ROLE_ADMIN →
    1 < tcount (is_admin_of (mem_workspace_id m)) (st_memberships s).
Proof.
  intros Hn Hb. destruct b.
  - intros (-> & Hi & <- & Hadm)%run_keeps_an_admin. split; [done|]. rewrite Hi. intros m [= <-]. exact Hadm.
  - intros [= <- <-]. split; [done|]. intros m Hi Hr. by destruct (Hb eq_refl); apply (Hn m).
Qed.

Lemma administered_change ws member role t s p s' :
  not_promoted t s → administered s → change_member_role ws member role t s = (Ok p, s') →
  administered s'.
Proof.
  intros Hn Hs Hrun. unfold change_member_role in Hrun.
  apply bind_ok_inv in Hrun as (q & s1 & Hc & Hrun).
  assert (Hx : s1 = s ∧ ∀ m, st_memberships s !! q.1 = Some m → mem_role m = ROLE_ADMIN →
    role = ROLE_ADMIN ∨ 1 < tcount (is_admin_of (mem_workspace_id m)) (st_memberships s)).
  { destruct (bool_decide_reflect (role = ROLE_ADMIN)) as [Hr|Hr].
    - rewrite andb_false_r in Hc. injection Hc as <- <-. split; [done|]. by left.
    - rewrite andb_true_r in Hc. apply run_checked in Hc as [-> Hq]; [|done|by intros H%bool_decide_eq_false].
      split; [done|]. intros m Hi Hm. right. by apply Hq. }
  destruct Hx as [-> Hq]. clear Hc. apply bind_ok_inv in Hrun as ([] & s4 & Hw & Hrun).
  apply bind_ok_inv in Hrun as ([] & s5 & [= <-] & Hrun).
  apply bind_ok_inv in Hrun as ([] & s6 & [= <-] & [= _ <-]). case_bool_decide.
  { injection Hw as <-. eapply quiet_administered; [|exact Hs]. by split. }
  apply bind_ok_inv in Hw as (m & s5 & Hw & [= <-]).
  rewrite run_the in Hw. assert (s5 = s) as -> by (by destruct (st_memberships s !! q.1); simplify_eq). clear Hw.
  eapply quiet_administered; [|eapply (administered_alter s q.1 (λ m, m <| mem_role := role |>)); [|exact Hq|exact Hs]; done].
  by split.
Qed.

Lemma administered_withdraw ws member t s p s' :
  not_promoted t s → administered s → delete_member ws member t s = (Ok p, s') → administered s'.
Proof.
  intros Hn Hs Hrun. unfold delete_member in Hrun.
  apply bind_ok_inv in Hrun as (q & s1 & Hc & Hrun).
  apply run_checked in Hc as [-> Hq]; [|done|by intros H%bool_decide_eq_false].
  apply bind_ok_inv in Hrun as ([] & s4 & [= <-] & Hrun).
  apply bind_ok_inv in Hrun as ([] & s5 & [= <-] & [= _ <-]).
  eapply quiet_administered; [|exact (administered_delete s q.1 Hq Hs)]. by split.
Qed.

(** a row just read was not promoted since *)
Lemma read_not_promoted i m s : st_memberships s !! i = Some m → not_promoted (i, m) s.
Proof. intros Hi x Hx. simpl in *. rewrite Hi in Hx. by injection Hx as <-. Qed.

Lemma administered_role ws user u role s p s' :
  administered s → update_member_role ws user u role s = (Ok p, s') → administered s'.
Proof.
  intros Hs Hrun. unfold update_member_role in Hrun. apply bind_ok_inv in Hrun as (g & s1 & Hg & Hrun).
  apply (quiet_ok _ _ _ _ (quiet_guard _ ws user)) in Hg. apply (quiet_administered _ _ Hg) in Hs.
  apply bind_ok_inv in Hrun as ([[i m]|] & s2 & [-> Ht]%run_target & Hrun); [|done].
  destruct (Ht i m eq_refl) as [Hi _].
  by eapply administered_change, Hrun; [apply read_not_promoted|].
Qed.

Lemma administered_remove ws user u s p s' :
  administered s → remove_member ws user u s = (Ok p, s') → administered s'.
Proof.
  intros Hs Hrun. unfold remove_member in Hrun. apply bind_ok_inv in Hrun as (g & s1 & Hg & Hrun).
  assert (Hq : quiet s s1) by (eapply quiet_ok; [|exact Hg]; keeps_all).
  apply (quiet_administered _ _ Hq) in Hs. clear Hg Hq.
  destruct g as [caller|]; [|done]. cbv zeta in Hrun. destruct (_ && _) in Hrun; [done|].
  apply bind_ok_inv in Hrun as ([[i m]|] & s2 & [-> Ht]%run_target & Hrun); [|done].
  destruct (Ht i m eq_refl) as [Hi _].
  by eapply administered_withdraw, Hrun; [apply read_not_promoted|].
Qed.

(** a workspace is created with its first admin *)
Lemma administered_create `{Settings} user name s ws s' :
  administered s → create_workspace user name s = (Ok ws, s') → administered s'.
Proof.
  intros [Hb Ha] Hrun. unfold create_workspace in Hrun.
  apply bind_ok_inv in Hrun as (creator & s1 & Hl & Hrun).
  apply lift_result_ok_inv in Hl as [_ ->].
  apply bind_ok_inv in Hrun as (w & s2 & [= <- <-] & Hrun).
  apply bind_ok_inv in Hrun as (t & s3 & [= _ <-] & Hrun).
  apply bind_ok_inv in Hrun as ([q|] & s3 & [= _ <-] & Hrun); [|done].
  apply bind_ok_inv in Hrun as ([] & s4 & [= <-] & Hrun).
  apply bind_ok_inv in Hrun as ([] & s5 & [= <-] & Hrun).
  apply bind_ok_inv in Hrun as (p & s6 & (i & Hi & Hpw & Hpr & Hm & Hn & Hw)%run_add_membership & Hrun).
  apply bind_ok_inv in Hrun as (c & s7 & Hcap & Hrun).
  assert (Hq : quiet s6 s7) by 
    (apply (quiet_ok (on_world (ensure_default_spend_cap (w_next (st_world s)) creator None None)) _ c);
     [apply quiet_on_world; keeps_all|exact Hcap]).
  clear Hcap.
  apply bind_ok_inv in Hrun as ([] & s8 & [= <-] & Hrun).
  apply bind_ok_inv in Hrun as ([] & s9 & [_ ->]%lift_result_ok_inv & [= _ <-]).
  apply (quiet_administered _ _ Hq). clear Hq. simpl in *. subst i. split.
  - rewrite Hm, Hn. apply below_insert; [lia|]. eapply below_weaken; [|exact Hb]. lia.
  - rewrite Hw. intros Hv. destruct (decide (desk = w_next (st_world s))) as [->|Hne].
    { eexists _, _. rewrite Hm, lookup_insert_eq. by split_and!. }
    rewrite lookup_insert_ne in Hv by done. destruct (Ha Hv) as (j & x & Hj & Hx).
    exists j, x. rewrite Hm. split; [|done]. rewrite lookup_insert_ne; [done|].
    intros <-. specialize (Hb _ _ Hj). lia.
Qed.

End Invariant.

(** ** Every operation of the application *)

Section Portal.
Context `{Settings} `{Unordered} `{VoiceSettings} (ip6 : string → option bool) (sha256 : string → string)
  (json_text : json → string) (environment : string)
  (pbkdf2 : string → string → Z → result exn string) (jwt_encode : json → string)
  (auth_mode audience : string).

Abbreviation run_portal_op :=
  (run_portal_op ip6 sha256 json_text environment pbkdf2 jwt_encode auth_mode audience).
Abbreviation portal_exec :=
  (portal_exec ip6 sha256 json_text environment pbkdf2 jwt_encode auth_mode audience).

(** what [LateRoleUpdate] and [LateRemoval] go on with was not promoted since
    it was read *)
Definition timely (o : portal_op) (s : Studio) : Prop :=
  match o with
  | LateRoleUpdate _ _ _ t | LateRemoval _ _ t => not_promoted t s
  | _ => True
  end.

Lemma administered_op desk o s :
  portal_op_ok o → timely o s → administered desk s → administered desk (run_portal_op o s).2.
Proof.
  assert (Hq : keeps quiet (run_portal_op o) → administered desk s →
               administered desk (run_portal_op o s).2).
  { intros Hk. by apply (keeps_quiet desk). }
  assert (Hok : ∀ A (m : SM A), (∀ a s', administered desk s → m s = (Ok a, s') →
                   administered desk s') →
                 administered desk s → administered desk (served (scoped m) s).2).
  { intros A m Hm Hs. unfold served, scoped, savepoint. rewrite run_bind.
    destruct (m s) as [[a|e] s'] eqn:Hrun; [by apply (Hm a s')|exact Hs]. }
  intros Ho Ht. destruct o; simpl in *.
  1: by apply Hq, quiet_department.
  1, 3, 4, 5, 6, 7: apply Hok; intros x s' Hs; first
    [ by apply administered_create | by apply administered_invite | by apply administered_role
    | by apply administered_remove | by apply administered_change | by apply administered_withdraw ].
  all: apply Hq; solve [quiet_all].
Qed.

Fixpoint all_timely (ops : list portal_op) (s : Studio) : Prop :=
  match ops with
  | [] => True
  | o :: ops => timely o s ∧ all_timely ops (run_portal_op o s).2
  end.

(** C3: the requests to accounts, workspaces, limits, the voice companion, the
    departments and the engine, in any order, leave a workspace that had an
    admin, or that they created, with an admin.  A request that changes a
    membership read it before it locked anything: its rest may come any time
    later, as long as the member was not made an admin in between
    ([promotion_in_between] shows the need). *)
Theorem workspaces_keep_an_admin ops s ws :
  let s' := portal_exec ops s in
  below (w_next (st_world s)) (st_memberships s) →
  (is_Some (w_workspaces (st_world s) !! ws) → has_admin ws s) →
  Forall portal_op_ok ops → all_timely ops s →
  is_Some (w_workspaces (st_world s') !! ws) → has_admin ws s'.
Proof.
  cbv zeta. intros Hb Hadm Hops. assert (Hs : administered ws s) by by split. clear Hb Hadm.
  revert s Hs. induction Hops as [|o ops Ho Hops IH]; intros s Hs; [by destruct Hs|].
  intros [Ht Hts] Hws. apply (IH (run_portal_op o s).2); [|done|exact Hws].
  by apply administered_op.
Qed.
End Portal.

(** ** A workspace with two members *)

Definition demo_user (i : id) : AuthenticatedUser := mk_user (JStr (uuid_str i)) JNull.
Definition demo_people : Studio :=
(empty_studio ((empty_world 0) <| w_next := 100%positive |>))
  <| st_profiles := {[ 7%positive := mk_profile "ann@example.org" None 0;
                       8%positive := mk_profile "ben@example.org" None 0 ]} |>.

(** Ben's membership, as an editor *)
Definition demo_ben : id * WorkspaceMembership := (102%positive, mk_mem 100 8 ROLE_EDITOR 0).

(** Ann opens a workspace (100) and invites Ben; a request that read him then
    makes him a reviewer; Ann promotes him, may not leave while she is the
    only admin, and leaves when she is not; Ben stays *)
Definition demo_account_ops : list portal_op :=
[CreateWorkspace (demo_user 7) "desk"; InviteMember 100 (demo_user 7) 8 ROLE_EDITOR;
 RemoveMember 100 (demo_user 7) 7; LateRoleUpdate 100 8 ROLE_REVIEWER demo_ben;
 UpdateMemberRole 100 (demo_user 7) 8 ROLE_ADMIN; RemoveMember 100 (demo_user 7) 7;
 UpdateMemberRole 100 (demo_user 8) 8 ROLE_EDITOR].

(** Ben is made an admin and Ann steps down while a request that read Ben as
    an editor waits *)
Definition demo_promotion_ops : list portal_op :=
[UpdateMemberRole 100 (demo_user 7) 8 ROLE_ADMIN; UpdateMemberRole 100 (demo_user 7) 7 ROLE_EDITOR].

Section DemoRun.
#[local] Existing Instance default_settings.
#[local] Instance demo_account_order : Unordered := head_first.
#[local] Instance demo_voice : VoiceSettings := default_voice_settings None.

Definition demo_accounts (ops : list portal_op) : Studio :=
portal_exec Url.no_ip6 (λ s, s) (λ _, EmptyString) "test" AuthSpec.demo_pbkdf2 AuthSpec.demo_jwt
  "local" "authenticated" ops demo_people.
End DemoRun.

(** The request that demotes the editor Ben reads him without a lock; when he
    is promoted and the other admin steps down before it goes on, it demotes
    the only admin. *)
Example promotion_in_between :
  let s := demo_accounts (take 2 demo_account_ops) in
  _get_target_membership 100 8 s = (Ok (Some demo_ben), s) ∧
  map (λ p, (mem_user_id p.2, mem_role p.2))
    (rows (is_admin_of 100) (st_memberships s)) = [(7%positive, ROLE_ADMIN)] ∧
  map (λ p, (mem_user_id p.2, mem_role p.2))
    (rows (is_admin_of 100) (st_memberships (demo_accounts (take 2 demo_account_ops ++ demo_promotion_ops))))
    = [(8%positive, ROLE_ADMIN)] ∧
  rows (is_admin_of 100) (st_memberships (demo_accounts (take 2 demo_account_ops ++ demo_promotion_ops ++
    [LateRoleUpdate 100 8 ROLE_REVIEWER demo_ben]))) = [].
Proof. split_and!; by vm_compute. Qed.

Lemma workspaces_keep_an_admin_witness :
  map (λ p, mem_user_id p.2) (map_to_list (st_memberships (demo_accounts demo_account_ops))) = [8%positive] ∧
  has_admin 100 (demo_accounts demo_account_ops).
Proof.
  split; [by vm_compute|].
  apply (workspaces_keep_an_admin (H := default_settings) (H0 := head_first)
    (H1 := default_voice_settings None) Url.no_ip6 (λ s, s) (λ _, EmptyString) "test"
    AuthSpec.demo_pbkdf2 AuthSpec.demo_jwt "local" "authenticated" demo_account_ops demo_people).
  - by intros i m.
  - by intros [w Hw].
  - by repeat constructor.
  - unfold demo_account_ops. cbn [all_timely]. split_and!; try exact I.
    intros m. simpl fst. vm_compute. by intros [= <-].
  - by apply (bool_decide_unpack _); vm_compute.
Defined.
