(* ===== verification/Dashboard.v ===== *)
(** * The operations dashboard (services/operations_dashboard.py)

    What an administrator sees of a workspace: counts over the engine's
    tables, its workers, its runs, its spend, its customers and what needs
    attention; and the leads, which the dashboard keeps itself.  [Board] is
    the database with the tables and columns only the dashboard looks at.  A
    query is the rows of the workspace, with the instant a trigger last
    touched each, filtered and grouped as lists. *)

From S2P Require Import Prelude Models Database Text Decimal PyJson StudioModels Spend Workers Billing Accounts.

(** ** The database behind the dashboard *)

Inductive PublishJobStatus : Type :=
| PUBLISH_PENDING | PUBLISH_PUBLISHING | PUBLISH_PUBLISHED | PUBLISH_FAILED | PUBLISH_CANCELLED.
#[export] Instance PublishJobStatus_eq_dec : EqDecision PublishJobStatus.
Proof. solve_decision. Defined.

Inductive WebhookStatus : Type :=
| WEBHOOK_RECEIVED | WEBHOOK_PROCESSED | WEBHOOK_FAILED | WEBHOOK_DUPLICATE.
#[export] Instance WebhookStatus_eq_dec : EqDecision WebhookStatus.
Proof. solve_decision. Defined.

(** [models/delivery.py] *)
Record PublishJob : Type := mk_publish_job {
  pub_workspace_id : id;
  pub_status : PublishJobStatus;
  pub_deleted_at : option time
}.

(** [models/operations.py] *)
Record WebhookEvent : Type := mk_webhook {
  wh_workspace_id : id;
  wh_status : WebhookStatus
}.

Inductive AssetType : Type := ASSET_SCRIPT | ASSET_AUDIO | ASSET_VISUAL | ASSET_RENDER.
Definition AssetType_value (x : AssetType) : string :=
  match x with
  | ASSET_SCRIPT => "script" | ASSET_AUDIO => "audio" | ASSET_VISUAL => "visual" | ASSET_RENDER => "render"
  end.
#[export] Instance AssetType_eq_dec : EqDecision AssetType.
Proof. solve_decision. Defined.

Inductive AssetStatus : Type := ASSET_PENDING | ASSET_READY | ASSET_FAILED.
Definition AssetStatus_value (x : AssetStatus) : string :=
  match x with ASSET_PENDING => "pending" | ASSET_READY => "ready" | ASSET_FAILED => "failed" end.
#[export] Instance AssetStatus_eq_dec : EqDecision AssetStatus.
Proof. solve_decision. Defined.

(** [models/delivery.py] *)
Record Asset : Type := mk_asset {
  ast_workspace_id : id;
  ast_content_item_id : id;
  ast_type : AssetType;
  ast_status : AssetStatus;
  ast_url : option string;
  ast_storage_object_key : option string;
  ast_deleted_at : option time
}.

(** [models/leads.py]; a trigger writes [updated_at] *)
Record Lead : Type := mk_lead {
  lead_workspace_id : id;
  lead_name : string;
  lead_company : option string;
  lead_email : string;
  lead_source : string;
  lead_status : string;
  lead_notes : option string;
  lead_follow_up_date : option Z;
  lead_created_at : time
}.
#[export] Instance lead_settable : Settable Lead := λ r,
  mk_lead (lead_workspace_id r) (lead_name r) (lead_company r) (lead_email r) (lead_source r)
    (lead_status r) (lead_notes r) (lead_follow_up_date r) (lead_created_at r).
#[export] Instance Lead_eq_dec : EqDecision Lead.
Proof. solve_decision. Defined.

(** the tables only the dashboard reads, and by the key of the row the columns
    no other file needs: [updated_at], [created_at] of a run, [id] and
    [processed_at] of a receipt, [deleted_at] of a content item, [cost_usd] and [provider] of
    a stage run *)
Record Board : Type := mk_board {
  ob_studio : Studio;
  ob_billing : gmap id WorkspaceBilling;
  ob_receipts : gmap string BillingWebhookEvent;
  ob_receipt_id : string → id;
  ob_processed_at : string → time;
  ob_leads : gmap id Lead;
  ob_publish_jobs : gmap id PublishJob;
  ob_webhooks : gmap id WebhookEvent;
  ob_assets : gmap id Asset;
  ob_updated_at : id → time;
  ob_run_created_at : id → time;
  ob_item_deleted_at : id → option time;
  ob_stage_cost : id * ContentStage * Z → option usd;
  ob_stage_provider : id * ContentStage * Z → option string
}.
#[export] Instance board_settable : Settable Board := λ r,
  mk_board (ob_studio r) (ob_billing r) (ob_receipts r) (ob_receipt_id r) (ob_processed_at r) (ob_leads r)
    (ob_publish_jobs r) (ob_webhooks r) (ob_assets r) (ob_updated_at r) (ob_run_created_at r)
    (ob_item_deleted_at r) (ob_stage_cost r) (ob_stage_provider r).

Abbreviation OM := (ST Board exn).

Definition on_studio {A} (m : SM A) : OM A := λ b,
  let '(r, s) := m (ob_studio b) in (r, b <| ob_studio := s |>).

Definition ob_world (b : Board) : World := st_world (ob_studio b).
Definition board_now : OM time := gets (λ b, w_now (ob_world b)).

(** ** Queries *)

(** a row a query returns, with its key and its [updated_at] *)
Record row (A : Type) : Type := mk_row { row_id : id; row_data : A; row_updated_at : time }.
Arguments mk_row {A} _ _ _.
Arguments row_id {A} _.
Arguments row_data {A} _.
Arguments row_updated_at {A} _.

Definition dated {A} (b : Board) (p : id * A) : row A := mk_row p.1 p.2 (ob_updated_at b p.1).

(** the rows of a table that [seen] lets through *)
Definition seen_rows {A} (t : Board → gmap id A) (seen : A → bool) (b : Board) : list (row A) :=
map (dated b) (rows (λ _, seen) (t b)).
(** [SELECT ... WHERE seen AND P] *)
Definition query {A} (t : Board → gmap id A) (seen : A → bool) (P : row A → bool) : OM (list (row A)) :=
gets (λ b, List.filter P (seen_rows t seen b)).
Definition len {A} (l : list A) : Z := Z.of_nat (length l).
Definition count {A} (P : A → bool) (l : list A) : Z := len (List.filter P l).
(** [COUNT(id)] *)
Definition count_rows {A} (t : Board → gmap id A) (seen : A → bool) (P : row A → bool) : OM Z :=
l ← query t seen P;
mret (len l).

Definition total {A} (f : A → Z) (l : list A) : Z := foldr (λ x acc, f x + acc) 0 l.

(** [GROUP BY key]: the groups, a row without a key being in none *)
Definition group_by {K A} `{EqDecision K} (key : A → option K) (l : list A) : list (K * list A) :=
map (λ k, (k, List.filter (λ x, bool_decide (key x = Some k)) l)) (remove_dups (omap key l)).
Definition groups {K A B} `{Countable K} (key : A → option K) (f : list A → B) (l : list A) : gmap K B :=
list_to_map (map (λ g, (g.1, f g.2)) (group_by key l)).

(** [dict.fromkeys(l)]: each key where it comes first *)
Fixpoint fromkeys {K} `{EqDecision K} (l : list K) : list K :=
match l with
| [] => []
| k :: l => k :: List.filter (λ x, negb (bool_decide (x = k))) (fromkeys l)
end.

Definition t_assignments (b : Board) := w_assignments (ob_world b).
Definition t_workers (b : Board) := w_workers (ob_world b).
Definition t_runs (b : Board) := w_runs (ob_world b).
Definition t_jobs (b : Board) := w_jobs (ob_world b).
Definition t_gates (b : Board) := w_gates (ob_world b).
Definition t_spend (b : Board) := w_spend_logs (ob_world b).
Definition t_dead_letters (b : Board) := w_dead_letters (ob_world b).
Definition t_items (b : Board) := w_items (ob_world b).
Definition t_memberships (b : Board) := st_memberships (ob_studio b).

(** the tables, seen by the workspace *)
Section Tables.
Context (workspace_id : id).
Definition of_assignment (a : StageAssignment) : bool := in_workspace workspace_id (asn_workspace_id a).
Definition of_run (r : PipelineRun) : bool := in_workspace workspace_id (run_workspace_id r).
Definition of_job (j : JobSchedule) : bool := in_workspace workspace_id (job_workspace_id j).
Definition of_gate (g : ReviewGate) : bool := in_workspace workspace_id (gate_workspace_id g).
Definition of_spend (l : SpendLog) : bool := in_workspace workspace_id (slog_workspace_id l).
Definition of_letter (e : DeadLetterJob) : bool := in_workspace workspace_id (dlj_workspace_id e).
Definition of_membership (m : WorkspaceMembership) : bool := in_workspace workspace_id (mem_workspace_id m).
Definition of_lead (l : Lead) : bool := in_workspace workspace_id (lead_workspace_id l).
Definition of_publish_job (p : PublishJob) : bool := in_workspace workspace_id (pub_workspace_id p).
Definition of_webhook (e : WebhookEvent) : bool := in_workspace workspace_id (wh_workspace_id e).
Definition of_item (i : ContentItem) : bool := in_workspace workspace_id (item_workspace_id i).
Definition of_asset (a : Asset) : bool := in_workspace workspace_id (ast_workspace_id a).
(** registered, and pinned to the workspace or shared by all *)
Definition of_worker (r : WorkerRegistration) : bool :=
bool_decide (wrk_deregistered_at r = None) &&
match wrk_workspace_id r with None => true | Some w => in_workspace workspace_id w end.
(** a receipt of an event about the workspace *)
Definition of_receipt (e : BillingWebhookEvent) : bool :=
match we_workspace_id e with None => false | Some w => in_workspace workspace_id w end.
End Tables.

Definition has_status (s : StageAssignmentStatus) (a : row StageAssignment) : bool :=
bool_decide (asn_status (row_data a) = s).
Definition in_progress (a : row StageAssignment) : bool :=
bool_decide (asn_status (row_data a) ∈ [ASN_DISPATCHED; ASN_ACKNOWLEDGED]).
Definition touched_since {A} (t : time) (r : row A) : bool := t <=? row_updated_at r.
Definition run_is (l : list PipelineRunStatus) (r : row PipelineRun) : bool :=
bool_decide (run_status (row_data r) ∈ l).
Definition job_waits (j : row JobSchedule) : bool := bool_decide (job_status (row_data j) = JOB_PENDING).
Definition gate_waits (g : row ReviewGate) : bool := bool_decide (gate_status (row_data g) = GATE_AWAITING).
Definition letter_waits (e : row DeadLetterJob) : bool := bool_decide (dlj_status (row_data e) = DEAD_PENDING).
Definition live_publish (l : list PublishJobStatus) (p : row PublishJob) : bool :=
live (pub_deleted_at (row_data p)) && bool_decide (pub_status (row_data p) ∈ l).
(** [completed_at >= t] of a column that may be null *)
Definition opt_since (t : time) (o : option time) : bool :=
match o with Some x => t <=? x | None => false end.
(** completed, and finished or touched since *)
Definition completed_since (t : time) (a : row StageAssignment) : bool :=
has_status ASN_COMPLETED a && (opt_since t (asn_completed_at (row_data a)) || touched_since t a).

(** ** Floats read from a worker's report

    A binary64 number [n * 2^k]: the nearest to [m * 10^x], ties to even;
    [None] beyond the largest. *)

Definition float64 (m x : Z) : option (Z * Z) :=
let num := if 0 <=? x then Z.abs m * 10 ^ x else Z.abs m in
let den := if 0 <=? x then 1 else 10 ^ (- x) in
let nearest k := if 0 <=? k then half_even num (den * 2 ^ k) else half_even (num * 2 ^ (- k)) den in
let k := Z.max (-1074) (Z.log2 num - Z.log2 den - 53) in
let k := if nearest k <? 2 ^ 53 then k else k + 1 in
let n := nearest k in
if 1024 <=? Z.log2 n + k then None else Some (with_sign m n, k).

(** [0 <= f <= 100] *)
Definition is_percent (f : Z * Z) : bool :=
(0 <=? f.1) && (if 0 <=? f.2 then f.1 * 2 ^ f.2 <=? 100 else f.1 <=? 100 * 2 ^ (- f.2)).

(** every underscore stands between two digits *)
Fixpoint digit_underscores (after_digit : bool) (s : string) : bool :=
match s with
| EmptyString => true
| String c s' =>
    let is_digit := match digit c with Some _ => true | None => false end in
    if Ascii.eqb c "_"%char
    then after_digit && match s' with
                        | String d _ => match digit d with Some _ => true | None => false end
                        | EmptyString => false
                        end && digit_underscores false s'
    else digit_underscores is_digit s'
end.

(** [float(v)]; [Ok None] is an infinity or no number, which no comparison
    with a bound accepts *)
Definition py_float (v : json) : result exn (option (Z * Z)) :=
match v with
| JNum m e => match float64 m (- Z.of_nat e), e with
              | Some f, _ => Ok (Some f)
              | None, O => Raise OverflowError
              | None, S _ => Ok None
              end
| JBool b => Ok (Some (if b then 1 else 0, 0))
| JStr s =>
    if digit_underscores false (strip s)
    then match parse_decimal s with
         | Some (Finite m x) => Ok (float64 m x)
         | Some _ => Ok None
         | None => Raise (ValueError s)
         end
    else Raise (ValueError s)
| _ => Raise TypeError
end.

Definition resource_value (capabilities : list (string * json)) (key : string) : json :=
match dict_get capabilities key JNull with
| JNull => match dict_get capabilities "resources" JNull with
           | JObj resources => dict_get resources key JNull
           | _ => JNull
           end
| v => v
end.

Fixpoint _resource_percent (capabilities : json) (keys : list string) : result exn (option (Z * Z)) :=
match capabilities, keys with
| JObj kv, key :: keys =>
    match resource_value kv key with
    | JNull => _resource_percent capabilities keys
    | v => match py_float v with
           | Ok (Some f) => if is_percent f then Ok (Some f) else _resource_percent capabilities keys
           | Ok None | Raise TypeError | Raise (ValueError _) => _resource_percent capabilities keys
           | Raise e => Raise e
           end
    end
| _, _ => Ok None
end.

Example percent_ex : _resource_percent (JObj [("cpu", JStr "12.5"); ("resources", JObj [("cpu_percent", JNum 10001 2)])])
  ["cpu_percent"; "cpu"] = Ok (Some (7036874417766400, -49)).
Proof. vm_compute. reflexivity. Qed.

(** ** The deployment *)

Record DeploymentSettings : Type := mk_deployment_settings {
  deployment_ci_status : option string;
  deployment_ci_url : option string;
  deployment_git_branch : option string;
  deployment_commit_sha : option string;
  deployment_at : option string
}.
Record DeploymentInfo : Type := mk_deployment_info {
  di_ci_status : string;
  di_ci_url : option string;
  di_git_branch : option string;
  di_commit_sha : option string;
  di_deployed_at : option time
}.

(** [x or dflt] of an optional text *)
Definition text_or (dflt : string) (o : option string) : string :=
match o with Some EmptyString | None => dflt | Some s => s end.

Section Deployment.
(** [datetime.fromisoformat] *)
Context (fromisoformat : string → option time) (settings : DeploymentSettings).

(** [s.replace("Z", "+00:00")] *)
Fixpoint replace_z (s : string) : string :=
match s with
| EmptyString => EmptyString
| String c s => if Ascii.eqb c "Z"%char then "+00:00" +:+ replace_z s else String c (replace_z s)
end.

Definition deployment_info : DeploymentInfo :=
mk_deployment_info (lower (strip (text_or "unavailable" (deployment_ci_status settings))))
  (deployment_ci_url settings) (deployment_git_branch settings) (deployment_commit_sha settings)
  (match deployment_at settings with
   | Some EmptyString | None => None
   | Some s => fromisoformat (replace_z s)
   end).
End Deployment.

(** ** Per worker *)

Record WorkerTotals : Type := mk_totals {
  wt_jobs_completed : Z;
  wt_jobs_failed : Z;
  wt_retry_count : Z;
  wt_completed_today : Z;
  wt_failed_today : Z
}.
Definition _EMPTY_WORKER_TOTALS : WorkerTotals := mk_totals 0 0 0 0 0.

Definition retried (a : row StageAssignment) : bool := 1 <? asn_attempt_number (row_data a).
(** the aggregates over the assignments of a worker *)
Definition totals_of (day_start : time) (l : list (row StageAssignment)) : WorkerTotals :=
mk_totals (count (has_status ASN_COMPLETED) l) (count (has_status ASN_FAILED) l) (count retried l)
  (count (completed_since day_start) l)
  (count (λ a, has_status ASN_FAILED a && touched_since day_start a) l).

Definition worker_of (a : row StageAssignment) : option id := asn_worker_id (row_data a).
(** [worker_id IN (...)] *)
Definition worked_by (worker_ids : list id) (a : row StageAssignment) : bool :=
match worker_of a with Some w => bool_decide (w ∈ worker_ids) | None => false end.

Definition _worker_assignment_totals (workspace_id : id) (worker_ids : list id) (day_start : time) :
  OM (gmap id WorkerTotals) :=
match worker_ids with
| [] => mret ∅
| _ => l ← query t_assignments (of_assignment workspace_id) (worked_by worker_ids);
       mret (groups worker_of (totals_of day_start) l)
end.

(** the stage of a pending assignment, as a key *)
Definition stage_key (a : row StageAssignment) : option string :=
Some (ContentStage_value (asn_stage (row_data a))).

Definition _pending_counts_by_stage (workspace_id : id) : OM (gmap string Z) :=
l ← query t_assignments (of_assignment workspace_id) (has_status ASN_PENDING);
mret (groups stage_key len l).

Record WorkerMonitorRow : Type := mk_monitor_row {
  mr_id : id;
  mr_name : string;
  mr_status : string;
  mr_current_job : option string;
  mr_queue : Z;
  mr_last_heartbeat_at : option time;
  mr_totals : WorkerTotals;
  mr_cpu_percent : option (Z * Z);
  mr_memory_percent : option (Z * Z);
  mr_lease_status : string
}.

Section Workers.
Context `{Settings, Unordered}.
(** the order of the database's texts *)
Context (collate : string → string → bool).

(** [DISTINCT ON (worker_id) ... ORDER BY worker_id, updated_at DESC] *)
Definition _worker_active_assignments (workspace_id : id) (worker_ids : list id) :
  OM (gmap id (option (row StageAssignment))) :=
match worker_ids with
| [] => mret ∅
| _ => l ← query t_assignments (of_assignment workspace_id) (λ a, worked_by worker_ids a && in_progress a);
       mret (groups worker_of (latest_by row_updated_at) l)
end.

Definition display_status (t : time) (w : WorkerRegistration) : string :=
match compute_liveness (wrk_last_heartbeat_at w) t worker_suspect_after_seconds
        worker_offline_after_seconds with
| LIVENESS_DEAD => WorkerStatus_value WORKER_OFFLINE
| LIVENESS_SUSPECT => "suspect"
| LIVENESS_HEALTHY => WorkerStatus_value (wrk_status w)
end.

Definition current_job (a : row StageAssignment) : string :=
ContentStage_value (asn_stage (row_data a)) +:+ " · " +:+ uuid_str (asn_pipeline_run_id (row_data a)).

Definition lease_status (t : time) (active : option (row StageAssignment)) : string :=
match active with
| Some a => match asn_lease_expires_at (row_data a) with
            | Some e => if e <=? t then "expired" else "active"
            | None => "none"
            end
| None => "none"
end.

Definition monitor_row (t : time) (tally : WorkerTotals) (active : option (row StageAssignment)) (queue : Z)
  (worker : row WorkerRegistration) : result exn WorkerMonitorRow :=
let w := row_data worker in
cpu ← _resource_percent (wrk_capabilities w) ["cpu_percent"; "cpu"; "cpu_usage"];
memory ← _resource_percent (wrk_capabilities w) ["memory_percent"; "memory"; "mem_percent"];
Ok (mk_monitor_row (row_id worker) (wrk_name w) (display_status t w) (current_job <$> active) queue
      (wrk_last_heartbeat_at w) tally cpu memory (lease_status t active)).

Definition registrations (workspace_id : id) : OM (list (row WorkerRegistration)) :=
l ← query t_workers (of_worker workspace_id) (λ _, true);
mret (order_by (λ x y, collate (wrk_name (row_data x)) (wrk_name (row_data y))) l).

Definition workers (workspace_id : id) : OM (list WorkerMonitorRow) :=
registrations ← registrations workspace_id;
t ← board_now;
let worker_ids := map row_id registrations in
totals ← _worker_assignment_totals workspace_id worker_ids (utc_day_start t);
active_by_worker ← _worker_active_assignments workspace_id worker_ids;
pending_by_stage ← _pending_counts_by_stage workspace_id;
collect registrations (λ worker,
  let tally := default _EMPTY_WORKER_TOTALS (totals !! row_id worker) in
  let active := default None (active_by_worker !! row_id worker) in
  let queue := total (λ stage, default 0 (pending_by_stage !! stage))
                 (fromkeys (wrk_supported_stages (row_data worker))) in
  lift_result (monitor_row t tally active queue worker)).
End Workers.

(** ** Spend *)

(** 1970-01-01 was a Thursday, day 3 of the week *)
Definition weekday (days : Z) : Z := (days + 3) mod 7.
Definition utc_week_start (t : time) : time := utc_day_start t - weekday (t / day_us) * day_us.

Definition spent (l : list (row SpendLog)) : usd := total (λ r, slog_cost_usd (row_data r)) l.
Definition occurred_since (t : time) (r : row SpendLog) : bool := t <=? slog_occurred_at (row_data r).
(** [SUM(cost_usd) FILTER (WHERE occurred_at >= t)] *)
Definition spent_since (t : time) (l : list (row SpendLog)) : usd := spent (List.filter (occurred_since t) l).

Definition spend_totals (workspace_id : id) : OM (usd * usd) :=
t ← board_now;
l ← query t_spend (of_spend workspace_id) (λ _, true);
mret (spent_since (utc_day_start t) l, spent_since (utc_month_start t) l).

Record SpendProviderRow : Type := mk_provider_row {
  sp_provider : string;
  sp_today_usd : usd;
  sp_week_usd : usd;
  sp_month_usd : usd
}.
Record SpendOut : Type := mk_spend_out {
  so_today_usd : usd;
  so_week_usd : usd;
  so_month_usd : usd;
  so_by_provider : list SpendProviderRow;
  so_daily_cap_usd : option usd;
  so_monthly_cap_usd : option usd;
  so_budget_remaining_daily_usd : option usd;
  so_budget_remaining_monthly_usd : option usd
}.

Definition workspace_cap (workspace_id : id) : OM (option SpendCap) :=
gets (λ b, w_caps (ob_world b) !! (workspace_id, None)).

(** the groups of [GROUP BY provider] *)
Definition provider_of (r : row SpendLog) : option string := Some (slog_provider (row_data r)).
Definition provider_row (day week month : time) (g : string * list (row SpendLog)) : SpendProviderRow :=
mk_provider_row g.1 (spent_since day g.2) (spent_since week g.2) (spent_since month g.2).

Definition spend (collate : string → string → bool) (workspace_id : id) : OM SpendOut :=
t ← board_now;
let day_start := utc_day_start t in
let week_start := utc_week_start t in
let month_start := utc_month_start t in
l ← query t_spend (of_spend workspace_id) (λ _, true);
let today := spent_since day_start l in
let week := spent_since week_start l in
let month := spent_since month_start l in
let by_provider := map (provider_row day_start week_start month_start)
  (order_by (λ x y, collate x.1 y.1) (group_by provider_of l)) in
cap ← workspace_cap workspace_id;
let daily_cap := cap_daily_cap_usd <$> cap in
let monthly_cap := cap_monthly_cap_usd <$> cap in
mret (mk_spend_out today week month by_provider daily_cap monthly_cap
        ((λ c, Z.max (c - today) 0) <$> daily_cap) ((λ c, Z.max (c - month) 0) <$> monthly_cap)).

(** ** The overview *)

Record ExecutiveDashboardOut : Type := mk_executive {
  ex_workers_online : Z;
  ex_workers_busy : Z;
  ex_jobs_running : Z;
  ex_jobs_queued : Z;
  ex_jobs_failed : Z;
  ex_human_reviews_waiting : Z;
  ex_spend_today_usd : usd;
  ex_spend_month_usd : usd;
  ex_active_workspaces : Z;
  ex_deployment : DeploymentInfo
}.

Definition worker_status_of (r : row WorkerRegistration) : option string :=
Some (WorkerStatus_value (wrk_status (row_data r))).

Definition executive (deployment : DeploymentInfo) (workspace_id : id) : OM ExecutiveDashboardOut :=
l ← query t_workers (of_worker workspace_id) (λ _, true);
let worker_counts := groups worker_status_of len l in
jobs_running ← count_rows t_assignments (of_assignment workspace_id) in_progress;
jobs_queued ← count_rows t_jobs (of_job workspace_id) job_waits;
jobs_failed ← count_rows t_assignments (of_assignment workspace_id) (has_status ASN_FAILED);
reviews ← count_rows t_gates (of_gate workspace_id) gate_waits;
spend ← spend_totals workspace_id;
workspace_exists ← gets (λ b, if bool_decide (is_Some (w_workspaces (ob_world b) !! workspace_id)) then 1 else 0);
mret (mk_executive (default 0 (worker_counts !! WorkerStatus_value WORKER_ONLINE))
        (default 0 (worker_counts !! WorkerStatus_value WORKER_BUSY))
        jobs_running jobs_queued jobs_failed reviews spend.1 spend.2 workspace_exists deployment).

(** ** Pipelines *)

Record PipelineRow : Type := mk_pipeline_row {
  pr_id : id;
  pr_status : string;
  pr_current_stage : string;
  pr_pause_reason : option PauseReason;
  pr_created_at : time;
  pr_updated_at : time
}.
(** fields that repeat another are left out *)
Record PipelineMonitorOut : Type := mk_pipelines {
  pm_active_pipelines : Z;
  pm_queue_depth : Z;
  pm_failed_pipelines : Z;
  pm_retrying_pipelines : Z;
  pm_dead_letter_queue : Z;
  pm_review_gates : Z;
  pm_publish_queue : Z;
  pm_jobs_completed : Z;
  pm_jobs_failed : Z;
  pm_pipelines : list PipelineRow
}.

Definition active_statuses : list PipelineRunStatus :=
[RUN_CREATED; RUN_RUNNING; RUN_PAUSED; RUN_COMPENSATING].
(** a retry that is pending or leased *)
Definition retry_queued (j : row JobSchedule) : bool :=
bool_decide (job_type (row_data j) = JOB_RETRY) &&
bool_decide (job_status (row_data j) ∈ [JOB_PENDING; JOB_LEASED]).

Definition pipeline_row (created_at : id → time) (r : row PipelineRun) : PipelineRow :=
mk_pipeline_row (row_id r) (PipelineRunStatus_value (run_status (row_data r)))
  (ContentStage_value (run_current_stage (row_data r))) (run_pause_reason (row_data r))
  (created_at (row_id r)) (row_updated_at r).

Definition pipeline_rows (workspace_id : id) : OM (list PipelineRow) :=
l ← query t_runs (of_run workspace_id) (run_is (active_statuses ++ [RUN_FAILED]));
created_at ← gets ob_run_created_at;
mret (map (pipeline_row created_at) (take 100 (desc_by row_updated_at l))).

Definition pipelines (workspace_id : id) : OM PipelineMonitorOut :=
active ← count_rows t_runs (of_run workspace_id) (run_is active_statuses);
failed ← count_rows t_runs (of_run workspace_id) (run_is [RUN_FAILED]);
queued ← count_rows t_jobs (of_job workspace_id) job_waits;
retries ← query t_jobs (of_job workspace_id) retry_queued;
let retrying := len (remove_dups (map (λ j, job_ref_id (row_data j)) retries)) in
dlq ← count_rows t_dead_letters (of_letter workspace_id) letter_waits;
reviews ← count_rows t_gates (of_gate workspace_id) gate_waits;
publish_queue ← count_rows ob_publish_jobs (of_publish_job workspace_id)
                  (live_publish [PUBLISH_PENDING; PUBLISH_PUBLISHING]);
jobs_completed ← count_rows t_assignments (of_assignment workspace_id) (has_status ASN_COMPLETED);
jobs_failed ← count_rows t_assignments (of_assignment workspace_id) (has_status ASN_FAILED);
rows ← pipeline_rows workspace_id;
mret (mk_pipelines active queued failed retrying dlq reviews publish_queue jobs_completed jobs_failed rows).

(** ** Leads *)

Definition LEAD_STATUSES : list string :=
["new"; "contacted"; "qualified"; "negotiation"; "won"; "lost"; "nurturing"].

(** [LIKE]: a percent sign stands for any text, an underscore for a character,
    and a backslash takes the next character as it is *)
Fixpoint like (pattern : string) : string → bool :=
match pattern with
| EmptyString => λ s, String.eqb s EmptyString
| String c p =>
    if Ascii.eqb c "%"%char then
      fix any s := like p s || match s with EmptyString => false | String _ s => any s end
    else if Ascii.eqb c "_"%char then
      λ s, match s with String _ s => like p s | EmptyString => false end
    else if Ascii.eqb c "\"%char then
      match p with
      | String d p => λ s, match s with String x s => Ascii.eqb x d && like p s | EmptyString => false end
      | EmptyString => λ _, false
      end
    else λ s, match s with String x s => Ascii.eqb x c && like p s | EmptyString => false end
end.
(** of a column that may be null *)
Definition ilike (pattern : string) (o : option string) : bool :=
match o with Some s => like (lower pattern) (lower s) | None => false end.

Example like_ex : map (like "%a_c\%%") ["xxabc%yy"; "abc"; "ac%"] = [true; false; false].
Proof. reflexivity. Qed.

Definition lead_matches (pattern : string) (r : row Lead) : bool :=
let l := row_data r in
ilike pattern (Some (lead_name l)) || ilike pattern (Some (lead_email l)) ||
ilike pattern (lead_company l) || ilike pattern (lead_notes l).

(** [if x: stmt.where(f x)] *)
Definition where_given {A} (o : option string) (f : string → A → bool) (x : A) : bool :=
match o with Some EmptyString | None => true | Some s => f s x end.

(** latest [updated_at] first, then the greatest identifier *)
Definition newest_lead (x y : row Lead) : bool :=
(row_updated_at y <? row_updated_at x) ||
((row_updated_at y =? row_updated_at x) && (row_id y <=? row_id x)%positive).

Definition list_leads (workspace_id : id) (search status source : option string) (limit offset : nat) :
  OM (list (row Lead) * Z) :=
l ← query ob_leads (of_lead workspace_id) (λ r,
  where_given status (λ s r, String.eqb (lead_status (row_data r)) s) r &&
  where_given source (λ s r, String.eqb (lead_source (row_data r)) s) r &&
  where_given search (λ s, lead_matches ("%" +:+ strip s +:+ "%")) r);
mret (take limit (drop offset (order_by newest_lead l)), len l).

Record LeadCreate : Type := mk_lead_create {
  lc_name : string;
  lc_company : option string;
  lc_email : string;
  lc_source : string;
  lc_status : string;
  lc_notes : option string;
  lc_follow_up_date : option Z
}.

(** a field of a partial update: not given, or given, perhaps as null *)
Abbreviation given A := (option (option A)).
Record LeadUpdate : Type := mk_lead_update {
  lu_name : given string;
  lu_company : given string;
  lu_email : given string;
  lu_source : given string;
  lu_status : given string;
  lu_notes : given string;
  lu_follow_up_date : given Z
}.

(** ["@" in s] *)
Definition has_at (s : string) : bool := contains "@" s.
Definition starts_at (s : string) : bool := String.prefix "@" s.
Fixpoint ends_at (s : string) : bool :=
match s with
| EmptyString => false
| String c EmptyString => Ascii.eqb c "@"%char
| String _ s => ends_at s
end.

(** the checks of the table (migration 0034), made when the row is flushed *)
Definition lead_checks (l : Lead) : OM unit :=
if negb (bool_decide (lead_status l ∈ LEAD_STATUSES)) then raise (IntegrityError "leads_status_chk")
else if negb (has_at (lead_email l)) || starts_at (lead_email l) then raise (IntegrityError "leads_email_chk")
else mret tt.

(** [session.get] of a row that is there, as it is *)
Definition lead_out (lead_id : id) : OM (row Lead) :=
o ← gets (λ b, (λ l, dated b (lead_id, l)) <$> ob_leads b !! lead_id);
match o with Some r => mret r | None => raise (NoSuchRow "leads") end.

Definition touch (i : id) : OM unit :=
t ← board_now;
update ob_updated_at (λ f, λ j, if bool_decide (j = i) then t else f j).

Definition create_lead (workspace_id : id) (payload : LeadCreate) : OM (row Lead) :=
let status := lower (strip (lc_status payload)) in
if negb (bool_decide (status ∈ LEAD_STATUSES))
then raise (ValueError ("invalid lead status: " +:+ lc_status payload)) else
let email := lower (strip (lc_email payload)) in
if negb (has_at email) || starts_at email || ends_at email then raise (ValueError "invalid lead email") else
lead_id ← on_studio (on_world uuid4);
t ← board_now;
let company := match lc_company payload with
               | Some EmptyString | None => None
               | Some c => Some (strip c)
               end in
let lead := mk_lead workspace_id (strip (lc_name payload)) company email (strip (lc_source payload)) status
  (lc_notes payload) (lc_follow_up_date payload) t in
lead_checks lead;;
insert_row ob_leads lead_id lead;;
touch lead_id;;
lead_out lead_id.

(** [setattr] of a column that takes no null; the flush refuses one *)
Definition set_text (column : string) (o : given string) (f : string → string) (old : string) : OM string :=
match o with
| None => mret old
| Some None => raise (IntegrityError column)
| Some (Some s) => mret (f s)
end.
Definition set_null {A} (o : given A) (f : A → option A) (old : option A) : option A :=
match o with None => old | Some v => v ≫= f end.

Definition some_text (s : string) : option string := if String.eqb s EmptyString then None else Some s.

Definition check_status (o : given string) : OM unit :=
match o with
| Some (Some s) => if bool_decide (lower (strip s) ∈ LEAD_STATUSES) then mret tt
                   else raise (ValueError ("invalid lead status: " +:+ s))
| _ => mret tt
end.

(** The flush writes the row when a column changed. *)
Definition update_lead (workspace_id lead_id : id) (payload : LeadUpdate) : OM (option (row Lead)) :=
lead ← session_get ob_leads lead_id;
match lead with
| None => mret None
| Some l =>
    if negb (in_workspace workspace_id (lead_workspace_id l)) then mret None else
    check_status (lu_status payload);;
    name ← set_text "name" (lu_name payload) strip (lead_name l);
    email ← set_text "email" (lu_email payload) (λ s, lower (strip s)) (lead_email l);
    source ← set_text "source" (lu_source payload) strip (lead_source l);
    status ← set_text "status" (lu_status payload) (λ s, lower (strip s)) (lead_status l);
    let l' := mk_lead (lead_workspace_id l) name
      (set_null (lu_company payload) (λ s, some_text (strip s)) (lead_company l)) email source status
      (set_null (lu_notes payload) Some (lead_notes l))
      (set_null (lu_follow_up_date payload) Some (lead_follow_up_date l)) (lead_created_at l) in
    when (negb (bool_decide (l' = l)))
      (lead_checks l';; insert_row ob_leads lead_id l';; touch lead_id);;
    r ← lead_out lead_id;
    mret (Some r)
end.

(** ** Customers *)

(** a paid amount in cents: the first of the keys that holds an amount;
    [None] is the [Decimal("0")] when none does *)
Fixpoint first_amount (obj : list (string * json)) (keys : list string) : result exn (option Z) :=
match keys with
| [] => Ok None
| key :: keys =>
    match dict_get obj key JNull with
    | JNull => first_amount obj keys
    | raw =>
        match decimal_of_json raw with
        | None => first_amount obj keys
        | Some NaN => Raise InvalidOperation
        | Some (Infinite negative) => if negative then first_amount obj keys else Raise InvalidOperation
        | Some (Finite m x) =>
            if 0 <=? m then cents ← quantize 2 (dec_div (m, x) (dec_of 100)); Ok (Some cents)
            else first_amount obj keys
        end
    end
end.

Definition revenue_from_payload (payload : json) : result exn (option Z) :=
match payload with
| JObj kv =>
    match dict_get kv "data" (JObj []) with
    | JObj d => match dict_get d "object" (JObj []) with
                | JObj obj => first_amount obj ["amount_paid"; "amount_due"; "total"]
                | _ => Ok None
                end
    | _ => Raise AttributeError
    end
| _ => Ok None
end.

(** [payload or {}] *)
Definition receipt_revenue (e : BillingWebhookEvent) : result exn (option Z) :=
revenue_from_payload (py_or (we_payload e) (JObj [])).

Definition dollars (cents : option Z) : dec := match cents with Some n => (n, -2) | None => dec_of 0 end.
(** [revenue += ...] *)
Fixpoint add_revenue (l : list BillingWebhookEvent) (revenue : dec) : result exn dec :=
match l with
| [] => Ok revenue
| e :: l => cents ← receipt_revenue e; add_revenue l (dec_add revenue (dollars cents))
end.

Record CustomerRow : Type := mk_customer {
  cu_workspace_id : id;
  cu_name : string;
  cu_plan : string;
  cu_subscription_status : string;
  cu_member_count : Z;
  cu_stripe_customer_id : option string;
  cu_current_period_end : option time;
  cu_cancel_at_period_end : bool;
  cu_created_at : time
}.
Record CustomersOut : Type := mk_customers {
  co_beta_users : Z;
  co_active_users : Z;
  co_paying_users : Z;
  co_trial_users : Z;
  co_revenue_mtd_usd : dec;
  co_customers : list CustomerRow
}.

Definition customer_row (billing : gmap id WorkspaceBilling) (member_counts : gmap id Z)
  (p : id * Workspace) : CustomerRow :=
let row := billing !! p.1 in
mk_customer p.1 (ws_name p.2) (default "none" (wb_plan <$> row)) (default "inactive" (wb_status <$> row))
  (default 0 (member_counts !! p.1)) (row ≫= wb_stripe_customer_id) (row ≫= wb_current_period_end)
  (default false (wb_cancel_at_period_end <$> row)) (ws_created_at p.2).

Definition on_trial (c : CustomerRow) : bool :=
String.eqb (cu_subscription_status c) "trialing" && String.eqb (cu_plan c) PRO_PLAN.
Definition paying (c : CustomerRow) : bool :=
String.eqb (cu_subscription_status c) "active" && String.eqb (cu_plan c) PRO_PLAN.

(** the counters of the loop over the workspaces: beta, active, paying, trial *)
Fixpoint count_users (l : list CustomerRow) (acc : Z * Z * Z * Z) : Z * Z * Z * Z :=
match l with
| [] => acc
| c :: l =>
    let '(beta, active, paying_users, trial) := acc in
    let members := cu_member_count c in
    count_users l
      (if on_trial c then (beta, active + members, paying_users, trial + members)
       else if paying c then (beta, active + members, paying_users + members, trial)
       else (beta + members, active, paying_users, trial))
end.

(** the memberships that make the user an administrator, of one workspace or of all *)
Definition administers (admin_user_id : id) (workspace_id : option id) (m : row WorkspaceMembership) : bool :=
let m := row_data m in
bool_decide (mem_user_id m = admin_user_id) && bool_decide (mem_role m = ROLE_ADMIN) &&
match workspace_id with Some w => in_workspace w (mem_workspace_id m) | None => true end.

Definition is_payment (e : BillingWebhookEvent) : bool :=
bool_decide (we_event_type e ∈ ["invoice.paid"; "invoice.payment_succeeded"]).

(** a receipt with its identifier and the instant it was processed *)
Record receipt : Type := mk_receipt {
  rc_stripe_event_id : string;
  rc_id : id;
  rc_event : BillingWebhookEvent;
  rc_processed_at : time
}.
Definition receipts (P : BillingWebhookEvent → bool) : OM (list receipt) :=
gets (λ b, map (λ p, mk_receipt p.1 (ob_receipt_id b p.1) p.2 (ob_processed_at b p.1))
             (rows (λ _, P) (ob_receipts b))).

Definition member_workspace (m : row WorkspaceMembership) : option id := Some (mem_workspace_id (row_data m)).

Definition customers (admin_user_id : id) (workspace_id : option id) : OM CustomersOut :=
t ← board_now;
let month_start := utc_month_start t in
memberships ← query t_memberships (λ _, true) (administers admin_user_id workspace_id);
workspaces ← gets (λ b, w_workspaces (ob_world b));
let admin_ws := desc_by (λ p, ws_created_at p.2)
  (omap (λ m, pair (mem_workspace_id (row_data m)) <$> workspaces !! mem_workspace_id (row_data m)) memberships) in
let workspace_ids := map fst admin_ws in
match workspace_ids with
| [] => mret (mk_customers 0 0 0 0 (dec_of 0) [])
| _ =>
    billing ← gets ob_billing;
    members ← query t_memberships (λ m, bool_decide (mem_workspace_id m ∈ workspace_ids)) (λ _, true);
    let member_counts := groups member_workspace len members in
    let rows := map (customer_row billing member_counts) admin_ws in
    let '(beta, active, paying_users, trial) := count_users rows (0, 0, 0, 0) in
    events ← receipts (λ e, match we_workspace_id e with
                            | Some w => bool_decide (w ∈ workspace_ids)
                            | None => false
                            end && is_payment e);
    revenue ← lift_result (add_revenue
      (map rc_event (List.filter (λ r, month_start <=? rc_processed_at r) events)) (dec_of 0));
    mret (mk_customers beta active paying_users trial revenue rows)
end.

(** ** Alerts *)

Record OperationsAlert : Type := mk_alert {
  al_key : string;
  al_severity : string;
  al_title : string;
  al_count : Z;
  al_message : string;
  al_occurred_at : time
}.

(** [:.4f] of an amount *)
Definition usd_text (a : usd) : string :=
let digits := pretty (Z.abs a mod 10000) in
(if a <? 0 then "-" else "") +:+ pretty (Z.abs a / 10000) +:+ "." +:+
  String.substring 0 (4 - String.length digits) "0000" +:+ digits.

Section Alerts.
Context `{Settings}.

Definition offline_workers (t : time) (l : list (row WorkerRegistration)) : Z :=
count (λ w, match compute_liveness (wrk_last_heartbeat_at (row_data w)) t worker_suspect_after_seconds
                    worker_offline_after_seconds with
            | LIVENESS_DEAD => true | _ => false end) l.

(** [limit or default]: zero is no limit *)
Definition limit_or (o : option Z) (dflt : Z) : Z :=
match o with Some l => if l =? 0 then dflt else l | None => dflt end.
Definition soft_limit (workspace_id : id) : OM Z :=
o ← gets (λ b, lim_queue_soft_limit <$> w_limits (ob_world b) !! workspace_id);
mret (limit_or o queue_soft_limit_default).

Definition webhook_failed (since : time) (e : row WebhookEvent) : bool :=
bool_decide (wh_status (row_data e) = WEBHOOK_FAILED) && touched_since since e.
Definition failed_webhooks (workspace_id : id) (since : time) : OM Z :=
webhooks ← count_rows ob_webhooks (of_webhook workspace_id) (webhook_failed since);
l ← receipts (λ e, of_receipt workspace_id e && String.eqb (we_event_type e) "invoice.payment_failed");
mret (webhooks + count (λ r, since <=? rc_processed_at r) l).

(** the spend of the day or of the month has come to eight tenths of its cap *)
Definition near_cap (cap spent : usd) : bool := (0 <? cap) && (cap * 8 <=? spent * 10).

Definition spend_message (cap : option SpendCap) (spend : usd * usd) : string :=
match cap with
| None => "No workspace-wide spend cap configured"
| Some c => "$" +:+ usd_text spend.1 +:+ " today / $" +:+ usd_text (cap_daily_cap_usd c) +:+ " cap; $" +:+
            usd_text spend.2 +:+ " month / $" +:+ usd_text (cap_monthly_cap_usd c) +:+ " cap"
end.

Definition ci_fine (status : string) : bool :=
bool_decide (status ∈ ["success"; "passing"; "green"; "unavailable"]).

(** [add(...)]: an alert is listed when it counts something *)
Definition alert (t : time) (key title : string) (n : Z) (message severity : string) : list OperationsAlert :=
if 0 <? n then [mk_alert key severity title n message t] else [].

Definition build_alerts (deployment : DeploymentInfo) (workspace_id : id) : OM (list OperationsAlert) :=
t ← board_now;
let since := t - day_us in
workers ← query t_workers (of_worker workspace_id) (λ _, true);
let offline_count := offline_workers t workers in
failed_jobs ← count_rows t_assignments (of_assignment workspace_id)
                (λ a, has_status ASN_FAILED a && touched_since since a);
pipeline_failed ← count_rows t_runs (of_run workspace_id) (λ r, run_is [RUN_FAILED] r && touched_since since r);
reviews ← count_rows t_gates (of_gate workspace_id) gate_waits;
queue ← count_rows t_jobs (of_job workspace_id) job_waits;
soft_limit ← soft_limit workspace_id;
failed_webhooks ← failed_webhooks workspace_id since;
new_leads ← count_rows ob_leads (of_lead workspace_id) (λ l, since <=? lead_created_at (row_data l));
customer_signups ← count_rows t_memberships (of_membership workspace_id)
                     (λ m, since <=? mem_created_at (row_data m));
spend ← spend_totals workspace_id;
cap ← workspace_cap workspace_id;
let spend_warning := match cap with
  | Some c => near_cap (cap_daily_cap_usd c) spend.1 || near_cap (cap_monthly_cap_usd c) spend.2
  | None => false
  end in
let ci_status := di_ci_status deployment in
let text n s := pretty n +:+ s in
mret (
  alert t "worker_offline" "Worker Offline" offline_count
    (text offline_count " registered worker(s) are offline") "critical" ++
  alert t "pipeline_failed" "Pipeline Failed" pipeline_failed
    (text pipeline_failed " pipeline run(s) failed in the last 24 hours") "critical" ++
  alert t "failed_jobs" "Failed Jobs" failed_jobs
    (text failed_jobs " assignment(s) failed in the last 24 hours") "critical" ++
  alert t "failed_ci" "CI Failed" (if ci_fine ci_status then 0 else 1)
    ("Deployment CI status is " +:+ ci_status) "critical" ++
  alert t "spend_warning" "Spend Warning" (if spend_warning then 1 else 0) (spend_message cap spend) "warning" ++
  alert t "review_required" "Review Required" reviews (text reviews " Human Review Gate(s) are waiting") "warning" ++
  alert t "review_waiting" "Review Waiting" reviews (text reviews " Human Review Gate(s) are waiting") "warning" ++
  alert t "queue_backlog" "Queue Backlog" (if soft_limit <=? queue then queue else 0)
    ("Queue depth " +:+ text queue " reached soft limit " +:+ pretty soft_limit) "warning" ++
  alert t "failed_webhooks" "Failed Webhooks" failed_webhooks
    (text failed_webhooks " webhook failure(s) in the last 24 hours") "critical" ++
  alert t "new_lead" "New Lead" new_leads (text new_leads " lead(s) created in the last 24 hours") "info" ++
  alert t "customer_signup" "Customer Signup" customer_signups
    (text customer_signups " membership signup(s) in the last 24 hours") "info").

Definition v1_keys : list string :=
["worker_offline"; "failed_jobs"; "failed_ci"; "spend_warning"; "review_waiting"; "queue_backlog"; "failed_webhooks"].

Definition alerts (deployment : DeploymentInfo) (workspace_id : id) : OM (list OperationsAlert) :=
items ← build_alerts deployment workspace_id;
mret (List.filter (λ a, bool_decide (al_key a ∈ v1_keys)) items).

Definition notifications (deployment : DeploymentInfo) (workspace_id : id) : OM (list OperationsAlert) :=
items ← build_alerts deployment workspace_id;
mret (List.filter (λ a, negb (String.eqb (al_key a) "review_waiting")) items).
End Alerts.
