(* ===== verification/MissionPanels.v ===== *)
(** * Mission Control's panels (services/operations_mission.py, operations_v4.py)

    What the dashboard derives from the tables and from its own counts: the
    feed of what happened, the health of the system, the cost of the month,
    the workers' recent jobs, the content in progress, the logs, and the
    summaries made of them.  What GitHub answered is an argument.  Quantities
    that Python computes with floats are exact here: percentages in
    hundredths, durations in microseconds and their averages in milliseconds. *)

From S2P Require Import Prelude Models Database Text Decimal PyJson StudioModels Spend Workers Billing Accounts Automation Dashboard.

(** ** GitHub (schemas/operations_dashboard.py) *)

Record GitHubCommit : Type := mk_commit {
  gc_sha : string;
  gc_message : string;
  gc_author : option string;
  gc_committed_at : option time;
  gc_url : option string
}.
Record GitHubPullRequest : Type := mk_pull_request {
  gp_number : Z;
  gp_title : string;
  gp_state : string;
  gp_author : option string;
  gp_updated_at : option time;
  gp_url : option string;
  gp_merged_at : option time
}.
Record GitHubOut : Type := mk_github {
  gh_available : bool;
  gh_unavailable_reason : option string;
  gh_repository : option string;
  gh_latest_commits : list GitHubCommit;
  gh_open_pull_requests : list GitHubPullRequest;
  gh_recently_merged_pull_requests : list GitHubPullRequest;
  gh_failed_actions : list string
}.

(** ** The activity feed *)

Record ActivityItem : Type := mk_activity {
  ai_id : string;
  ai_kind : string;
  ai_title : string;
  ai_detail : option string;
  ai_severity : string;
  ai_occurred_at : time;
  ai_source : string
}.

Definition _EVENT_LABELS : list (string * (string * string)) :=
[("stage.assigned", ("Worker started job", "info"));
 ("stage.completed", ("Worker completed job", "info"));
 ("stage.failed", ("Job failed", "critical"));
 ("review.requested", ("Human review requested", "warning"));
 ("publish.completed", ("Publish completed", "info"));
 ("pipeline.failed", ("Pipeline failed", "critical"));
 ("pipeline.succeeded", ("Pipeline succeeded", "info"));
 ("operations.action.executed", ("Mission Control action executed", "warning"))].

Definition upper_ascii (c : ascii) : ascii :=
let n := nat_of_ascii c in if (97 <=? n)%nat && (n <=? 122)%nat then ascii_of_nat (n - 32) else c.
Definition is_letter (c : ascii) : bool :=
let n := nat_of_ascii (lower_ascii c) in (97 <=? n)%nat && (n <=? 122)%nat.
(** [s.title()]: a letter after a letter is lowered, any other is raised *)
Fixpoint title (after_letter : bool) (s : string) : string :=
match s with
| EmptyString => EmptyString
| String c s => String (if after_letter then lower_ascii c else upper_ascii c) (title (is_letter c) s)
end.
(** [s.replace(".", " ")] *)
Fixpoint dots_to_spaces (s : string) : string :=
match s with
| EmptyString => EmptyString
| String c s => String (if Ascii.eqb c "."%char then " "%char else c) (dots_to_spaces s)
end.

Fixpoint assoc {A} (key : string) (l : list (string * A)) : option A :=
match l with
| [] => None
| (k, v) :: l => if String.eqb k key then Some v else assoc key l
end.
Definition event_label (event_type : string) : string * string :=
default (title false (dots_to_spaces event_type), "info") (assoc event_type _EVENT_LABELS).

Example event_label_ex : event_label "backpressure.entered" = ("Backpressure Entered", "info").
Proof. reflexivity. Qed.

(** the rows of a query, latest first *)
Definition newest {A} (limit : nat) (key : A → time) (l : list A) : list A := take limit (desc_by key l).

Section Panels.
Context `{Settings, Unordered}.
Context (collate : string → string → bool) (deployment : DeploymentInfo) (github : GitHubOut).
(** [str(v)] of a JSON value that is no text *)
Context (json_text : json → string).

Definition t_outbox (b : Board) := w_outbox (ob_world b).
Definition of_event (workspace_id : id) (e : OutboxEvent) : bool := in_workspace workspace_id (ev_workspace_id e).

Definition event_detail (aggregate_id : id) (payload : json) : option string :=
match py_or payload (JObj []) with
| JObj kv =>
    let v := py_or (dict_get kv "stage" JNull) (py_or (dict_get kv "topic" JNull)
               (py_or (dict_get kv "failure_reason" JNull) (JStr (uuid_str aggregate_id)))) in
    match v with JNull => None | JStr s => Some s | _ => Some (json_text v) end
| _ => None
end.

Definition event_item (r : row OutboxEvent) : ActivityItem :=
let e := row_data r in
let '(label, severity) := event_label (ev_type e) in
mk_activity ("outbox:" +:+ uuid_str (row_id r)) (ev_type e) label
  (event_detail (ev_aggregate_id e) (ev_payload e)) severity (ev_occurred_at e) "outbox_events".

Definition lead_item (r : row Lead) : ActivityItem :=
mk_activity ("lead:" +:+ uuid_str (row_id r)) "lead.created" "New lead"
  (Some (lead_name (row_data r) +:+ " · " +:+ lead_email (row_data r))) "info"
  (lead_created_at (row_data r)) "leads".

Definition signup_item (r : row WorkspaceMembership) : ActivityItem :=
mk_activity ("signup:" +:+ uuid_str (row_id r)) "customer.signup" "Customer signup"
  (Some ("member " +:+ uuid_str (mem_user_id (row_data r)) +:+ " · role " +:+
         WorkspaceRole_value (mem_role (row_data r)))) "info"
  (mem_created_at (row_data r)) "workspace_memberships".

(** [str] of an amount in cents *)
Definition cents_text (n : Z) : string :=
let digits := pretty (n mod 100) in
pretty (n / 100) +:+ "." +:+ String.substring 0 (2 - String.length digits) "00" +:+ digits.

Definition payment_item (r : receipt) : result exn ActivityItem :=
amount ← receipt_revenue (rc_event r);
Ok (mk_activity ("payment:" +:+ uuid_str (rc_id r)) "payment.received" "Payment received"
  (Some ("$" +:+ (match amount with Some n => cents_text n | None => "0" end) +:+ " · " +:+ we_event_type (rc_event r)))
  "info" (rc_processed_at r) "billing_webhook_events").

Definition alert_item (a : OperationsAlert) : ActivityItem :=
mk_activity ("alert:" +:+ al_key a) "alert.created" "Alert created"
  (Some (al_title a +:+ ": " +:+ al_message a)) (al_severity a) (al_occurred_at a) "operations_alerts".

Definition merge_item (p : GitHubPullRequest) : option ActivityItem :=
merged_at ← gp_merged_at p;
Some (mk_activity ("github-merge:" +:+ pretty (gp_number p)) "github.merge" "GitHub merge"
  (Some ("#" +:+ pretty (gp_number p) +:+ " " +:+ gp_title p)) "info" merged_at "github_api").

Definition activity_feed (workspace_id : id) (limit : nat) : OM (list ActivityItem) :=
events ← query t_outbox (of_event workspace_id) (λ _, true);
leads ← query ob_leads (of_lead workspace_id) (λ _, true);
memberships ← query t_memberships (of_membership workspace_id) (λ _, true);
payments ← receipts (λ e, of_receipt workspace_id e && is_payment e);
paid ← collect (newest 20 rc_processed_at payments) (λ p, lift_result (payment_item p));
alerts ← build_alerts deployment workspace_id;
let items :=
  map event_item (newest limit (λ r, ev_occurred_at (row_data r)) events) ++
  map lead_item (newest 20 (λ r, lead_created_at (row_data r)) leads) ++
  map signup_item (newest 20 (λ r, mem_created_at (row_data r)) memberships) ++
  paid ++ map alert_item alerts ++
  (if gh_available github then omap merge_item (gh_recently_merged_pull_requests github) else []) in
mret (newest limit ai_occurred_at items).

(** ** The health of the system *)

Record HealthIndicator : Type := mk_indicator {
  hi_key : string;
  hi_label : string;
  hi_status : string;
  hi_detail : string
}.

Definition hard_limit (workspace_id : id) : OM Z :=
o ← gets (λ b, lim_queue_hard_limit <$> w_limits (ob_world b) !! workspace_id);
mret (limit_or o queue_hard_limit_default).

Definition workers_indicator (t : time) (l : list (row WorkerRegistration)) : HealthIndicator :=
match l with
| [] => mk_indicator "workers" "Worker Health" "amber" "No workers registered"
| _ =>
    let offline := offline_workers t l in
    mk_indicator "workers" "Worker Health"
      (if offline =? 0 then "green" else if 2 * offline <? len l then "amber" else "red")
      (pretty (len l - offline) +:+ "/" +:+ pretty (len l) +:+ " workers live")
end.

Definition queue_indicator (queue soft hard : Z) : HealthIndicator :=
let '(status, detail) :=
  if hard <=? queue then ("red", "Queue depth " +:+ pretty queue +:+ " at/above hard limit " +:+ pretty hard)
  else if soft <=? queue then ("amber", "Queue depth " +:+ pretty queue +:+ " at/above soft limit " +:+ pretty soft)
  else ("green", "Queue depth " +:+ pretty queue +:+ " (soft " +:+ pretty soft +:+ ")") in
mk_indicator "queue" "Queue Health" status detail.

Definition github_indicator : HealthIndicator :=
let ci := di_ci_status deployment in
let '(status, detail) :=
  if bool_decide (ci ∈ ["success"; "passing"; "green"]) then ("green", "Deploy CI " +:+ ci)
  else if String.eqb ci "unavailable" && negb (gh_available github)
  then ("amber", "GitHub Actions metadata unavailable")
  else if gh_available github && negb (bool_decide (gh_failed_actions github = []))
  then ("red", pretty (len (gh_failed_actions github)) +:+ " failed Actions run(s)")
  else if negb (ci_fine ci) then ("red", "Deploy CI " +:+ ci)
  else ("green", "No failed Actions detected") in
mk_indicator "github_actions" "GitHub Actions" status detail.

Definition webhooks_indicator (failed : Z) : HealthIndicator :=
mk_indicator "webhooks" "Webhook Health"
  (if failed =? 0 then "green" else if failed <? 3 then "amber" else "red")
  (pretty failed +:+ " failure(s) in last 24h").

(** the scheduler's part of the automation's health, from its lease *)
Definition scheduler_indicator (environment : string) (t : time) (lease : option AutomationLease) : HealthIndicator :=
let '(loop_status, active) := row_status lease t in
let '(status, detail) :=
  match lease ≫= lse_last_error with
  | Some (String c e) => ("red", String c e)
  | _ =>
      if bool_decide (loop_status = LOOP_RUNNING) && active
      then ("green", "Scheduler ticks=" +:+ pretty (default 0 (lse_tick_count <$> lease)))
      else if bool_decide (loop_status = LOOP_STALE) then ("red", "Scheduler lease stale")
      else if String.eqb environment "test" then ("amber", "Scheduler idle in test environment")
      else if active then ("amber", "Scheduler transitioning")
      else ("amber", "Scheduler state unavailable")
  end in
mk_indicator "scheduler" "Scheduler Health" status detail.

Definition system_health (environment : string) (workspace_id : id) : OM (list HealthIndicator) :=
t ← board_now;
workers ← query t_workers (of_worker workspace_id) (λ _, true);
queue ← count_rows t_jobs (of_job workspace_id) job_waits;
soft ← soft_limit workspace_id;
hard ← hard_limit workspace_id;
failed ← failed_webhooks workspace_id (t - day_us);
lease ← gets (λ b, w_leases (ob_world b) !! "scheduler");
mret [mk_indicator "api" "API Health" "green" "Operations API responding";
      mk_indicator "database" "Database Health" "green" "SELECT 1 succeeded";
      workers_indicator t workers; queue_indicator queue soft hard; github_indicator;
      webhooks_indicator failed; scheduler_indicator environment t lease].

(** ** The cost of the month *)

Record ExpensiveJobRow : Type := mk_expensive {
  ej_pipeline_run_id : option id;
  ej_content_item_id : option id;
  ej_topic : option string;
  ej_stage : option string;
  ej_provider : option string;
  ej_cost_usd : usd;
  ej_completed_at : option time
}.
Record CostControlOut : Type := mk_cost_control {
  cc_daily_ai_spend_usd : usd;
  cc_monthly_ai_spend_usd : usd;
  cc_budget_remaining_daily_usd : option usd;
  cc_budget_remaining_monthly_usd : option usd;
  cc_by_provider : list SpendProviderRow;
  cc_top_expensive_jobs : list ExpensiveJobRow;
  cc_projected_month_end_usd : usd
}.

(** [calendar.monthrange(year, month)[1]], walking the calendar as [day_in] does *)
Fixpoint month_length_in (lengths : list Z) (d : Z) : Z :=
match lengths with
| [] => 31
| l :: ls => if d <? l then l else month_length_in ls (d - l)
end.
Definition days_in_month (days : Z) : Z := month_length_in month_cycle ((days - 10957) mod 146097).

(** the month's spend, extrapolated from the days so far to all of them *)
Definition projected_month_end (t : time) (month : usd) : result exn usd :=
let days := t / day_us in
quantize 4 (dec_mul (dec_div (month, -4) (dec_of (Z.max (day_of_month days) 1))) (dec_of (days_in_month days))).

(** the content item a row names, if it exists *)
Definition item_of (items : gmap id ContentItem) (o : option id) : option ContentItem := o ≫= (items !!.).

(** stage runs with a cost, joined to their content items *)
Definition costly_stage_run (b : Board) (p : (id * ContentStage * Z) * PipelineStageRun) : option ExpensiveJobRow :=
cost ← ob_stage_cost b p.1;
item ← item_of (t_items b) (srun_content_item_id p.2);
guard (0 < cost);;
Some (mk_expensive (Some (srun_pipeline_run_id p.2)) (srun_content_item_id p.2) (Some (item_topic item))
  (Some (ContentStage_value (srun_stage p.2))) (ob_stage_provider b p.1) cost (srun_completed_at p.2)).

Definition of_stage_run (workspace_id : id) (s : PipelineStageRun) : bool :=
in_workspace workspace_id (Models.srun_workspace_id s).
Definition costly_stage_runs (workspace_id : id) : OM (list ExpensiveJobRow) :=
gets (λ b, omap (costly_stage_run b) (rows (λ _, of_stage_run workspace_id) (w_stage_runs (ob_world b)))).

(** the columns the spend of the month is grouped by *)
Definition spend_key (items : gmap id ContentItem) (r : row SpendLog) :
  option (option id * option string * option ContentStage * string) :=
let l := row_data r in
Some (slog_content_item_id l, item_topic <$> item_of items (slog_content_item_id l), slog_stage l, slog_provider l).
Definition spend_group_row (g : (option id * option string * option ContentStage * string) * list (row SpendLog)) :
  ExpensiveJobRow :=
let '(item, topic, stage, provider) := g.1 in
mk_expensive None item topic (ContentStage_value <$> stage) (Some provider) (spent g.2)
  (match map (λ r, slog_occurred_at (row_data r)) g.2 with [] => None | t :: l => Some (foldr Z.max t l) end).

Definition spend_groups (workspace_id : id) (since : time) :
  OM (list ((option id * option string * option ContentStage * string) * list (row SpendLog))) :=
l ← query t_spend (of_spend workspace_id) (occurred_since since);
items ← gets t_items;
mret (group_by (spend_key items) l).

Definition top_expensive_jobs (workspace_id : id) (month_start : time) : OM (list ExpensiveJobRow) :=
stage_runs ← costly_stage_runs workspace_id;
match newest 10 ej_cost_usd stage_runs with
| [] => groups ← spend_groups workspace_id month_start;
        mret (newest 10 ej_cost_usd (map spend_group_row groups))
| top => mret top
end.

Definition cost_control (workspace_id : id) : OM CostControlOut :=
t ← board_now;
spend ← spend collate workspace_id;
projected ← lift_result (projected_month_end t (so_month_usd spend));
top ← top_expensive_jobs workspace_id (utc_month_start t);
mret (mk_cost_control (so_today_usd spend) (so_month_usd spend) (so_budget_remaining_daily_usd spend)
        (so_budget_remaining_monthly_usd spend) (so_by_provider spend) top projected).

(** ** The workers' recent jobs *)

(** before it in its partition: touched later, or at once with a greater identifier *)
Definition precedes (x y : row StageAssignment) : bool :=
(row_updated_at y <? row_updated_at x) ||
((row_updated_at x =? row_updated_at y) && (row_id y <? row_id x)%positive).
(** [ROW_NUMBER() OVER (PARTITION BY worker_id ORDER BY updated_at DESC, id DESC)] *)
Definition row_number (l : list (row StageAssignment)) (a : row StageAssignment) : Z :=
1 + count (λ x, bool_decide (worker_of x = worker_of a) && precedes x a) l.
(** [ORDER BY updated_at DESC, id DESC] *)
Definition latest_first (x y : row StageAssignment) : bool := negb (precedes y x).

Definition _recent_assignments_by_worker (workspace_id : id) (worker_ids : list id) (per_worker_limit : Z) :
  OM (gmap id (list (row StageAssignment))) :=
match worker_ids with
| [] => mret ∅
| _ => l ← query t_assignments (of_assignment workspace_id) (worked_by worker_ids);
       mret (groups worker_of (order_by latest_first) (List.filter (λ a, row_number l a <=? per_worker_limit) l))
end.

Record WorkerJobRow : Type := mk_job_row {
  jr_assignment_id : id;
  jr_pipeline_run_id : id;
  jr_stage : string;
  jr_status : string;
  jr_attempt_number : Z;
  jr_dispatched_at : option time;
  jr_completed_at : option time;
  jr_duration : option Z
}.
Record WorkerTimelineRow : Type := mk_timeline_row {
  tr_worker_id : id;
  tr_name : string;
  tr_status : string;
  tr_current_task : option string;
  tr_last_heartbeat_at : option time;
  tr_average_execution : option Z;
  tr_failure_percent : Z;
  tr_retry_percent : Z;
  tr_jobs : list WorkerJobRow
}.

Definition duration_of (a : StageAssignment) : option Z :=
completed ← asn_completed_at a; dispatched ← asn_dispatched_at a; Some (completed - dispatched).
Definition job_row (r : row StageAssignment) : WorkerJobRow :=
let a := row_data r in
mk_job_row (row_id r) (asn_pipeline_run_id a) (ContentStage_value (asn_stage a))
  (StageAssignmentStatus_value (asn_status a)) (asn_attempt_number a) (asn_dispatched_at a)
  (asn_completed_at a) (duration_of a).

(** the mean in milliseconds of durations in microseconds, and a part of a
    whole in hundredths of a percent *)
Definition mean_ms (l : list Z) : option Z :=
match l with [] => None | _ => Some (half_even (total (λ d, d) l) (1000 * len l)) end.
Definition percent_of (part whole : Z) : Z := half_even (10000 * part) whole.

Definition timeline_row (t : time) (assignments : list (row StageAssignment)) (worker : row WorkerRegistration) :
  WorkerTimelineRow :=
let w := row_data worker in
let durations := List.filter (λ d, 0 <=? d) (omap (λ a, duration_of (row_data a)) assignments) in
let n := Z.max 1 (len assignments) in
mk_timeline_row (row_id worker) (wrk_name w) (display_status t w)
  (current_job <$> head (List.filter in_progress assignments)) (wrk_last_heartbeat_at w)
  (mean_ms durations) (percent_of (count (has_status ASN_FAILED) assignments) n)
  (percent_of (count retried assignments) n) (map job_row assignments).

Definition worker_timeline (workspace_id : id) : OM (list WorkerTimelineRow) :=
t ← board_now;
workers ← registrations collate workspace_id;
assignments_by_worker ← _recent_assignments_by_worker workspace_id (map row_id workers) 20;
mret (map (λ w, timeline_row t (default [] (assignments_by_worker !! row_id w)) w) workers).

(** ** The content in progress *)

Record ContentCommandCenterOut : Type := mk_command_center {
  cm_ideas : Z;
  cm_scripts : Z;
  cm_voiceovers : Z;
  cm_videos_rendering : Z;
  cm_ready_for_review : Z;
  cm_waiting_for_approval : Z;
  cm_publishing : Z;
  cm_published : Z;
  cm_failed : Z
}.

(** the content items of the workspace that are not deleted *)
Definition live_items (workspace_id : id) : OM (list (row ContentItem)) :=
l ← query t_items (of_item workspace_id) (λ _, true);
deleted_at ← gets ob_item_deleted_at;
mret (List.filter (λ i, live (deleted_at (row_id i))) l).
Definition stage_count (workspace_id : id) (stages : list ContentStage) : OM Z :=
l ← live_items workspace_id;
mret (count (λ i, bool_decide (item_current_stage (row_data i) ∈ stages) &&
                  bool_decide (item_status (row_data i) = CONTENT_ACTIVE)) l).

Definition content_command_center (workspace_id : id) : OM ContentCommandCenterOut :=
ideas ← stage_count workspace_id [IDEA];
scripts ← stage_count workspace_id [SCRIPTING];
voiceovers ← stage_count workspace_id [VOICEOVER];
videos_rendering ← stage_count workspace_id [VISUALS; RENDERING];
ready_for_review ← stage_count workspace_id [REVIEW; SEO];
waiting ← count_rows t_gates (of_gate workspace_id) gate_waits;
publishing ← count_rows ob_publish_jobs (of_publish_job workspace_id)
               (live_publish [PUBLISH_PENDING; PUBLISH_PUBLISHING]);
published ← stage_count workspace_id [PUBLISHED; SCHEDULED];
posted ← count_rows ob_publish_jobs (of_publish_job workspace_id) (live_publish [PUBLISH_PUBLISHED]);
items ← live_items workspace_id;
let failed := count (λ i, bool_decide (item_status (row_data i) = CONTENT_FAILED)) items in
failed_runs ← count_rows t_runs (of_run workspace_id) (run_is [RUN_FAILED]);
mret (mk_command_center ideas scripts voiceovers videos_rendering ready_for_review waiting publishing
        (published + posted) (failed + failed_runs)).

(** ** The executive insights *)

Record ExecutiveInsightsOut : Type := mk_insights {
  in_todays_achievements : list string;
  in_todays_failures : list string;
  in_highest_risk : string;
  in_suggested_next_action : string;
  in_biggest_cost_today_usd : usd;
  in_biggest_cost_today_label : option string;
  in_most_active_worker : option string;
  in_most_active_customer : option string
}.

(** a line of the summary when there is something to say *)
Definition counted (n : Z) (what : string) : list string := if n =? 0 then [] else [pretty n +:+ what].
Definition or_line (l : list string) (line : string) : list string := match l with [] => [line] | _ => l end.

(** [max(l, key=...)]: the first of the greatest *)
Fixpoint first_max {A} (key : A → Z) (x : A) (l : list A) : A :=
match l with
| [] => x
| y :: l => first_max key (if key x <? key y then y else x) l
end.

(** the workers of the day with their assignments, by name *)
Definition worker_name_of (workers : gmap id WorkerRegistration) (a : row StageAssignment) : option string :=
w ← worker_of a; wrk_name <$> workers !! w.

Definition worker_activity (workspace_id : id) (since : time) : OM (list (string * Z)) :=
active ← query t_assignments (of_assignment workspace_id) (touched_since since);
workers ← gets t_workers;
mret (map (λ g, (g.1, len g.2)) (group_by (worker_name_of workers) active)).

(** what matters most, and what to do about it *)
Definition risk_and_action (dlq reviews failed pipeline_failed : Z) (near_daily_cap : bool) : string * string :=
if negb (dlq =? 0)
then (pretty dlq +:+ " dead-letter job(s) pending", "Retry failed jobs or clear the dead-letter queue")
else if negb (reviews =? 0)
then (pretty reviews +:+ " Human Review Gate(s) waiting", "Open review gates and approve or reject waiting content")
else if negb (failed =? 0) || negb (pipeline_failed =? 0)
then ("Elevated failure rate today", "Inspect AI Pipeline failures and retry recoverable jobs")
else if near_daily_cap
then ("Daily spend approaching cap", "Review Cost Control and pause non-critical workers if needed")
else ("No critical risks detected", "Review Live Activity Feed and Content Command Center").

Definition executive_insights (workspace_id admin_user_id : id) : OM ExecutiveInsightsOut :=
t ← board_now;
let day_start := utc_day_start t in
completed ← count_rows t_assignments (of_assignment workspace_id) (completed_since day_start);
published ← count_rows ob_publish_jobs (of_publish_job workspace_id)
  (λ p, bool_decide (pub_status (row_data p) = PUBLISH_PUBLISHED) && touched_since day_start p);
new_leads ← count_rows ob_leads (of_lead workspace_id) (λ l, day_start <=? lead_created_at (row_data l));
failed ← count_rows t_assignments (of_assignment workspace_id)
  (λ a, has_status ASN_FAILED a && touched_since day_start a);
pipeline_failed ← count_rows t_runs (of_run workspace_id)
  (λ r, run_is [RUN_FAILED] r && touched_since day_start r);
reviews ← count_rows t_gates (of_gate workspace_id) gate_waits;
dlq ← count_rows t_dead_letters (of_letter workspace_id) letter_waits;
spend ← spend_totals workspace_id;
cap ← workspace_cap workspace_id;
let near := match cap with Some c => near_cap (cap_daily_cap_usd c) spend.1 | None => false end in
let '(highest_risk, next_action) := risk_and_action dlq reviews failed pipeline_failed near in
spent_today ← query t_spend (of_spend workspace_id) (occurred_since day_start);
let biggest := latest_by snd (map (λ g, (g.1, spent g.2)) (group_by provider_of spent_today)) in
activity ← worker_activity workspace_id day_start;
let worker_activity := latest_by snd activity in
customers ← customers admin_user_id (Some workspace_id);
let most_active_customer := match co_customers customers with
  | [] => None
  | c :: l => Some (cu_name (first_max cu_member_count c l))
  end in
mret (mk_insights
  (or_line (counted completed " stage job(s) completed today" ++ counted published " publish job(s) completed today" ++
            counted new_leads " new lead(s) today") "No completed achievements recorded yet today")
  (or_line (counted failed " stage job(s) failed today" ++ counted pipeline_failed " pipeline(s) failed today")
     "No failures recorded yet today")
  highest_risk next_action (default 0 (snd <$> biggest)) (fst <$> biggest) (fst <$> worker_activity)
  most_active_customer).
End Panels.
