(* ===== verification/MissionSummary.v ===== *)
(** * The integrated views and the routes of the dashboard
    (services/operations_v4.py, api/routes/operations_dashboard.py)

    The search over everything a workspace has, the live logs, the one
    timeline and the executive view, all made of the panels of
    Dashboard.v and MissionPanels.v; then every request of the router behind
    its guard, the quick actions of MissionControl.v among them. *)

From S2P Require Import Prelude Models Database Text Decimal PyJson StudioModels Spend Workers Billing Accounts Automation Dashboard MissionPanels MissionControl.
From S2P Require DepartmentRoutes.

(** ** The live logs *)

Record WorkerLogOut : Type := mk_log_out {
  lo_id : id;
  lo_worker_name : string;
  lo_log : WorkerLog
}.

Definition t_worker_logs (b : Board) := w_worker_logs (ob_world b).
Definition of_log (workspace_id : id) (l : WorkerLog) : bool := in_workspace workspace_id (wlog_workspace_id l).

(** the join with the worker of a log *)
Definition log_out (workers : gmap id WorkerRegistration) (r : row WorkerLog) : option WorkerLogOut :=
w ← workers !! wlog_worker_id (row_data r);
Some (mk_log_out (row_id r) (wrk_name w) (row_data r)).

(** [if x: stmt.where(column == x)] *)
Definition where_id (o : option id) (column : option id) : bool :=
match o with None => true | Some i => bool_decide (column = Some i) end.

Definition logs_with_worker (workspace_id : id) (P : row WorkerLog → bool) : OM (list WorkerLogOut) :=
l ← query t_worker_logs (of_log workspace_id) P;
workers ← gets t_workers;
mret (omap (log_out workers) l).

Definition live_logs (workspace_id : id) (worker_id pipeline_id job_id : option id) (severity : option string)
  (limit : nat) : OM (list WorkerLogOut) :=
l ← logs_with_worker workspace_id (λ r,
  where_id worker_id (Some (wlog_worker_id (row_data r))) &&
  where_id pipeline_id (wlog_pipeline_run_id (row_data r)) &&
  where_id job_id (wlog_assignment_id (row_data r)) &&
  where_given severity (λ s r, String.eqb (wlog_severity (row_data r)) s) r);
mret (newest limit (λ o, wlog_occurred_at (lo_log o)) l).

(** ** Topics *)

(** the topic of the content item a run is about *)
Definition topic_of (items : gmap id ContentItem) (r : PipelineRun) : option string :=
item_topic <$> item_of items (run_content_item_id r).
(** rows with the topic they are joined to *)
Definition with_topic {A} (topic : row A → option string) (l : list (row A)) : list (row A * string) :=
omap (λ r, pair r <$> topic r) l.

(** the assets with the topics of their content items *)
Definition asset_topic (items : gmap id ContentItem) (r : row Asset) : option string :=
item_topic <$> items !! ast_content_item_id (row_data r).
Definition assets_with_topic (workspace_id : id) (P : row Asset → bool) : OM (list (row Asset * string)) :=
l ← query ob_assets (of_asset workspace_id) P;
items ← gets t_items;
mret (with_topic (asset_topic items) l).

(** ** The executive view *)

Record ExecutiveModeOut : Type := mk_executive_mode {
  em_health : list HealthIndicator;
  em_revenue_mtd_usd : dec;
  em_spend_today_usd : usd;
  em_spend_month_usd : usd;
  em_workers_online : Z;
  em_workers_total : Z;
  em_jobs_running : Z;
  em_jobs_waiting : Z;
  em_jobs_failed_today : Z;
  em_critical_alerts : Z;
  em_reviews_waiting : Z;
  em_new_customers_today : Z;
  em_todays_summary : list string
}.

(** ** Search *)

Record SearchResult : Type := mk_search_result {
  sr_type : string;
  sr_id : string;
  sr_title : string;
  sr_subtitle : option string;
  sr_status : option string;
  sr_occurred_at : option time;
  sr_url : option string
}.
Record GlobalSearchOut : Type := mk_search_out {
  gs_query : string;
  gs_results : list SearchResult;
  gs_total : Z
}.

(** latest first; a result without an instant comes last *)
Definition later (x y : SearchResult) : bool :=
match sr_occurred_at x, sr_occurred_at y with
| Some a, Some b => b <=? a
| _, None => true
| None, Some _ => false
end.

Section Summary.
Context `{Settings, Unordered}.
Context (collate : string → string → bool) (deployment : DeploymentInfo) (github : GitHubOut).
Context (json_text : json → string) (environment : string).

(** ** The timeline *)

Definition log_item (o : WorkerLogOut) : ActivityItem :=
let l := lo_log o in
mk_activity ("worker-log:" +:+ uuid_str (lo_id o)) "worker.log" (lo_worker_name o +:+ " · " +:+ wlog_severity l)
  (Some (wlog_message l)) (if bool_decide (wlog_severity l ∈ ["error"; "critical"]) then "critical" else "info")
  (wlog_occurred_at l) "worker_logs".

Definition asset_title (a : Asset) : string :=
match ast_type a, ast_status a with
| ASSET_RENDER, ASSET_READY => "Video rendered"
| ASSET_SCRIPT, _ => "Script generated"
| ASSET_AUDIO, _ => "Voice created"
| ASSET_VISUAL, _ => "Visual created"
| ASSET_RENDER, _ => "Video rendering"
end.

Definition asset_item (p : row Asset * string) : ActivityItem :=
let r := p.1 in
let a := row_data r in
mk_activity ("asset:" +:+ uuid_str (row_id r))
  ("asset." +:+ AssetType_value (ast_type a) +:+ "." +:+ AssetStatus_value (ast_status a)) (asset_title a)
  (Some p.2) (if bool_decide (ast_status a = ASSET_FAILED) then "critical" else "info")
  (row_updated_at r) "assets".

Definition upgrade_item (r : receipt) : ActivityItem :=
mk_activity ("billing-upgrade:" +:+ uuid_str (rc_id r)) "customer.upgraded" "Customer upgraded"
  (Some (rc_stripe_event_id r)) "info" (rc_processed_at r) "billing_webhook_events".

Definition universal_timeline (workspace_id : id) (limit : nat) : OM (list ActivityItem) :=
base ← activity_feed deployment github json_text workspace_id limit;
logs ← live_logs workspace_id None None None None (Nat.min limit 50);
assets ← assets_with_topic workspace_id (λ a, live (ast_deleted_at (row_data a)));
upgrades ← receipts (λ e, of_receipt workspace_id e && String.eqb (we_event_type e) "customer.subscription.updated");
mret (newest limit ai_occurred_at
  (base ++ map log_item logs ++ newest 50 ai_occurred_at (map asset_item assets) ++
   map upgrade_item (newest 20 rc_processed_at upgrades))).

Definition executive_mode (workspace_id admin_user_id : id) : OM ExecutiveModeOut :=
t ← board_now;
let day_start := utc_day_start t in
health ← system_health deployment github environment workspace_id;
customers ← customers admin_user_id (Some workspace_id);
spend ← spend collate workspace_id;
workers ← workers collate workspace_id;
pipelines ← pipelines workspace_id;
executive ← executive deployment workspace_id;
alerts ← notifications deployment workspace_id;
insights ← executive_insights workspace_id admin_user_id;
failed_today ← count_rows t_assignments (of_assignment workspace_id)
  (λ a, has_status ASN_FAILED a && touched_since day_start a);
new_customers ← count_rows t_memberships (of_membership workspace_id)
  (λ m, day_start <=? mem_created_at (row_data m));
mret (mk_executive_mode health (co_revenue_mtd_usd customers) (so_today_usd spend) (so_month_usd spend)
  (count (λ w, bool_decide (mr_status w ∈ [WorkerStatus_value WORKER_ONLINE; WorkerStatus_value WORKER_BUSY])) workers)
  (len workers) (ex_jobs_running executive) (pm_queue_depth pipelines) failed_today
  (total al_count (List.filter (λ a, String.eqb (al_severity a) "critical") alerts))
  (pm_review_gates pipelines) new_customers
  (in_todays_achievements insights ++ in_todays_failures insights ++
   ["Highest risk: " +:+ in_highest_risk insights])).

(** ** The search *)

(** the text of a uuid, as [str] and the database's cast write it *)
Context (uuid_text : id → string).

(** some column matches *)
Definition matches_any (pattern : string) (columns : list (option string)) : bool :=
existsb (ilike pattern) columns.

Definition customer_hit (pattern : string) (p : id * Workspace) : bool :=
matches_any pattern [Some (ws_name p.2); Some (uuid_text p.1)].
Definition customer_result (p : row Workspace) : SearchResult :=
mk_search_result "customer" (uuid_text (row_id p)) (ws_name (row_data p)) (Some "Workspace customer") None
  (Some (row_updated_at p)) None.
(** the workspace, once for each membership that makes the user its administrator *)
Definition search_customers (workspace_id admin_user_id : id) (pattern : string) : OM (list SearchResult) :=
memberships ← query t_memberships (λ _, true) (administers admin_user_id (Some workspace_id));
found ← gets (λ b, omap (λ _, dated b ∘ pair workspace_id <$> w_workspaces (ob_world b) !! workspace_id) memberships);
mret (map customer_result (newest 10 row_updated_at
  (List.filter (λ p, customer_hit pattern (row_id p, row_data p)) found))).

Definition lead_result (r : row Lead) : SearchResult :=
let l := row_data r in
mk_search_result "lead" (uuid_text (row_id r)) (lead_name l)
  (Some (text_or "No company" (lead_company l) +:+ " · " +:+ lead_email l)) (Some (lead_status l))
  (Some (row_updated_at r)) None.
Definition search_leads (workspace_id : id) (pattern : string) : OM (list SearchResult) :=
l ← query ob_leads (of_lead workspace_id) (λ r, let l := row_data r in
  matches_any pattern [Some (lead_name l); lead_company l; Some (lead_email l); lead_notes l]);
mret (map lead_result (newest 10 row_updated_at l)).

Definition pipeline_hit (pattern : string) (p : row PipelineRun * string) : bool :=
matches_any pattern [Some p.2; Some (uuid_text (row_id p.1));
  Some (PipelineRunStatus_value (run_status (row_data p.1)));
  Some (ContentStage_value (run_current_stage (row_data p.1)))].
Definition pipeline_result (p : row PipelineRun * string) : SearchResult :=
mk_search_result "pipeline" (uuid_text (row_id p.1)) p.2
  (Some ("Stage " +:+ ContentStage_value (run_current_stage (row_data p.1))))
  (Some (PipelineRunStatus_value (run_status (row_data p.1)))) (Some (row_updated_at p.1)) None.
Definition runs_with_topic (workspace_id : id) : OM (list (row PipelineRun * string)) :=
l ← query t_runs (of_run workspace_id) (λ _, true);
items ← gets t_items;
mret (with_topic (λ r, topic_of items (row_data r)) l).
Definition search_pipelines (workspace_id : id) (pattern : string) : OM (list SearchResult) :=
l ← runs_with_topic workspace_id;
mret (map pipeline_result (newest 10 (λ p, row_updated_at p.1) (List.filter (pipeline_hit pattern) l))).

Definition worker_hit (pattern : string) (r : row WorkerRegistration) : bool :=
matches_any pattern [Some (wrk_name (row_data r)); Some (uuid_text (row_id r));
  Some (WorkerStatus_value (wrk_status (row_data r)))].
Definition worker_result (r : row WorkerRegistration) : SearchResult :=
let w := row_data r in
mk_search_result "worker" (uuid_text (row_id r)) (wrk_name w)
  (Some ("Load " +:+ pretty (wrk_current_load w) +:+ "/" +:+ pretty (wrk_max_concurrency w)))
  (Some (WorkerStatus_value (wrk_status w))) (wrk_last_heartbeat_at w) None.
Definition search_workers (workspace_id : id) (pattern : string) : OM (list SearchResult) :=
l ← registrations collate workspace_id;
mret (map worker_result (take 10 (List.filter (worker_hit pattern) l))).

Definition job_hit (pattern : string) (r : row StageAssignment) : bool :=
let a := row_data r in
matches_any pattern [Some (uuid_text (row_id r)); Some (uuid_text (asn_pipeline_run_id a));
  Some (ContentStage_value (asn_stage a)); Some (StageAssignmentStatus_value (asn_status a)); asn_provider a].
Definition job_result (r : row StageAssignment) : SearchResult :=
let a := row_data r in
mk_search_result "job" (uuid_text (row_id r)) (ContentStage_value (asn_stage a) +:+ " job")
  (Some ("Pipeline " +:+ uuid_text (asn_pipeline_run_id a))) (Some (StageAssignmentStatus_value (asn_status a)))
  (Some (row_updated_at r)) None.
Definition search_jobs (workspace_id : id) (pattern : string) : OM (list SearchResult) :=
l ← query t_assignments (of_assignment workspace_id) (job_hit pattern);
mret (map job_result (newest 10 row_updated_at l)).

Definition content_hit (pattern : string) (r : row ContentItem) : bool :=
let i := row_data r in
matches_any pattern [Some (item_topic i); Some (uuid_text (row_id r));
  Some (ContentStage_value (item_current_stage i)); Some (ContentStatus_value (item_status i))].
Definition content_result (r : row ContentItem) : SearchResult :=
let i := row_data r in
mk_search_result "content" (uuid_text (row_id r)) (item_topic i)
  (Some ("Stage " +:+ ContentStage_value (item_current_stage i))) (Some (ContentStatus_value (item_status i)))
  (Some (row_updated_at r)) None.
Definition search_content (workspace_id : id) (pattern : string) : OM (list SearchResult) :=
l ← live_items workspace_id;
mret (map content_result (newest 10 row_updated_at (List.filter (content_hit pattern) l))).

(** a gate's topic is that of its run *)
Definition gate_topic (runs : gmap id PipelineRun) (items : gmap id ContentItem) (r : row ReviewGate) :
  option string :=
run ← runs !! gate_pipeline_run_id (row_data r); topic_of items run.
Definition review_hit (pattern : string) (p : row ReviewGate * string) : bool :=
matches_any pattern [Some p.2; Some (uuid_text (row_id p.1)); Some (ReviewGateStatus_value (gate_status (row_data p.1)))].
Definition review_result (p : row ReviewGate * string) : SearchResult :=
mk_search_result "review" (uuid_text (row_id p.1)) p.2
  (Some ("Review gate · " +:+ ContentStage_value (gate_stage (row_data p.1))))
  (Some (ReviewGateStatus_value (gate_status (row_data p.1)))) (Some (row_updated_at p.1)) None.
(** the gates of the workspace with their topics *)
Definition gates_with_topic (workspace_id : id) (P : row ReviewGate → bool) : OM (list (row ReviewGate * string)) :=
l ← query t_gates (of_gate workspace_id) P;
tables ← gets (λ b, (t_runs b, t_items b));
mret (with_topic (gate_topic tables.1 tables.2) l).
Definition search_reviews (workspace_id : id) (pattern : string) : OM (list SearchResult) :=
l ← gates_with_topic workspace_id (λ _, true);
mret (map review_result (newest 10 (λ p, row_updated_at p.1) (List.filter (review_hit pattern) l))).

Definition video_hit (pattern : string) (p : row Asset * string) : bool :=
let a := row_data p.1 in
matches_any pattern [Some p.2; Some (uuid_text (row_id p.1)); Some (AssetStatus_value (ast_status a));
  ast_storage_object_key a].
Definition video_result (p : row Asset * string) : SearchResult :=
let a := row_data p.1 in
mk_search_result "video" (uuid_text (row_id p.1)) p.2 (Some (AssetType_value (ast_type a) +:+ " asset"))
  (Some (AssetStatus_value (ast_status a))) (Some (row_updated_at p.1)) (ast_url a).
Definition search_videos (workspace_id : id) (pattern : string) : OM (list SearchResult) :=
l ← assets_with_topic workspace_id (λ a,
  live (ast_deleted_at (row_data a)) && bool_decide (ast_type (row_data a) ∈ [ASSET_VISUAL; ASSET_RENDER]));
mret (map video_result (newest 10 (λ p, row_updated_at p.1) (List.filter (video_hit pattern) l))).

Definition log_hit (pattern : string) (o : WorkerLogOut) : bool :=
let l := lo_log o in
matches_any pattern [Some (wlog_message l); Some (uuid_text (lo_id o)); uuid_text <$> wlog_pipeline_run_id l;
  uuid_text <$> wlog_assignment_id l; Some (lo_worker_name o); Some (wlog_severity l)].
Definition log_result (o : WorkerLogOut) : SearchResult :=
let l := lo_log o in
mk_search_result "log" (uuid_text (lo_id o)) (wlog_message l)
  (Some (lo_worker_name o +:+ " · " +:+ wlog_severity l)) (Some (wlog_severity l)) (Some (wlog_occurred_at l)) None.
Definition search_logs (workspace_id : id) (pattern : string) : OM (list SearchResult) :=
l ← logs_with_worker workspace_id (λ _, true);
mret (map log_result (newest 10 (λ o, wlog_occurred_at (lo_log o)) (List.filter (log_hit pattern) l))).

Definition commit_result (c : GitHubCommit) : SearchResult :=
mk_search_result "github" (gc_sha c) (gc_message c) (Some ("Commit · " +:+ text_or "unknown" (gc_author c)))
  (Some "commit") (gc_committed_at c) (gc_url c).
Definition pull_request_result (p : GitHubPullRequest) : SearchResult :=
mk_search_result "github" (pretty (gp_number p)) ("#" +:+ pretty (gp_number p) +:+ " " +:+ gp_title p)
  (Some ("Pull request · " +:+ text_or "unknown" (gp_author p))) (Some (gp_state p))
  (match gp_merged_at p with Some t => Some t | None => gp_updated_at p end) (gp_url p).
Definition search_github (lowered : string) : list SearchResult :=
if gh_available github then
  map commit_result (List.filter (λ c, contains lowered (lower (gc_message c)) || contains lowered (lower (gc_sha c)))
    (gh_latest_commits github)) ++
  map pull_request_result
    (List.filter (λ p, contains lowered (lower (gp_title p)) || contains lowered (pretty (gp_number p)))
      (gh_open_pull_requests github ++ gh_recently_merged_pull_requests github))
else [].

Definition global_search (workspace_id admin_user_id : id) (query : string) : OM GlobalSearchOut :=
let q := strip query in
let pattern := "%" +:+ q +:+ "%" in
customers ← search_customers workspace_id admin_user_id pattern;
leads ← search_leads workspace_id pattern;
pipelines ← search_pipelines workspace_id pattern;
workers ← search_workers workspace_id pattern;
jobs ← search_jobs workspace_id pattern;
content ← search_content workspace_id pattern;
reviews ← search_reviews workspace_id pattern;
videos ← search_videos workspace_id pattern;
logs ← search_logs workspace_id pattern;
let results := order_by later (customers ++ leads ++ pipelines ++ workers ++ jobs ++ content ++ reviews ++
                               videos ++ logs ++ search_github (lower q)) in
mret (mk_search_out q (take 50 results) (len results)).
End Summary.

(** ** The routes *)

(** [Field(max_length=...)] and [Query(ge=..., le=...)] *)
Definition text_within (lo hi : Z) (s : string) : bool := DepartmentRoutes.length_within lo hi s.
Definition opt_text_within (lo hi : Z) (o : option string) : bool := DepartmentRoutes.opt_within (text_within lo hi) o.
Definition given_within (lo hi : Z) (o : given string) : bool := DepartmentRoutes.opt_within (opt_text_within lo hi) o.
Definition valid (ok : bool) : OM unit := if ok then mret tt else raise DepartmentRoutes.unprocessable.

Definition LeadCreate_ok (p : LeadCreate) : bool :=
text_within 1 200 (lc_name p) && opt_text_within 0 200 (lc_company p) && text_within 3 320 (lc_email p) &&
text_within 1 100 (lc_source p) && text_within 1 32 (lc_status p) && opt_text_within 0 4000 (lc_notes p).
Definition LeadUpdate_ok (p : LeadUpdate) : bool :=
given_within 1 200 (lu_name p) && given_within 0 200 (lu_company p) && given_within 3 320 (lu_email p) &&
given_within 1 100 (lu_source p) && given_within 1 32 (lu_status p) && given_within 0 4000 (lu_notes p).

Definition log_severities : list string := ["debug"; "info"; "warning"; "error"; "critical"].

(** what is read: a request for each panel *)
Inductive board_get : Type → Type :=
| GetExecutive : board_get ExecutiveDashboardOut
| GetWorkers : board_get (list WorkerMonitorRow)
| GetPipelines : board_get PipelineMonitorOut
| GetAlerts : board_get (list OperationsAlert)
| GetNotifications : board_get (list OperationsAlert)
| GetLeads (search status source : option string) (limit offset : Z) : board_get (list (row Lead) * Z)
| GetCustomers : board_get CustomersOut
| GetSpend : board_get SpendOut
| GetGitHub : board_get GitHubOut
| GetActivity : board_get (list ActivityItem)
| GetHealth : board_get (list HealthIndicator)
| GetCostControl : board_get CostControlOut
| GetWorkerTimeline : board_get (list WorkerTimelineRow)
| GetContentCommand : board_get ContentCommandCenterOut
| GetInsights : board_get ExecutiveInsightsOut
| GetSearch (q : string) : board_get GlobalSearchOut
| GetTimeline : board_get (list ActivityItem)
| GetLogs (worker_id pipeline_id job_id : option id) (severity : option string) (limit : Z) :
    board_get (list WorkerLogOut)
| GetExecutiveMode : board_get ExecutiveModeOut.

(** what is written: the leads and the quick actions *)
Inductive board_post : Type → Type :=
| PostLead (payload : LeadCreate) : board_post (row Lead)
| PatchLead (lead_id : id) (payload : LeadUpdate) : board_post (row Lead)
| PostPauseWorkers : board_post QuickActionResult
| PostResumeWorkers : board_post QuickActionResult
| PostEmergencyStop : board_post QuickActionResult
| PostRetryFailedJobs : board_post QuickActionResult
| PostClearDeadLetter : board_post QuickActionResult
| PostSyncGitHub : board_post QuickActionResult.

(** [except ValueError as exc: raise HTTPException(422, str(exc))] *)
Definition value_error_422 {A} (m : OM A) : OM A :=
catch m (λ e, match e with ValueError msg => raise (HTTPException 422 msg) | e => raise e end).

Definition quick_action (m : M QuickActionResult) : OM QuickActionResult := on_studio (on_world m).

Section Routes.
Context `{Settings, Unordered}.
Context (collate : string → string → bool) (deployment : DeploymentInfo) (github : GitHubOut).
Context (json_text : json → string) (environment : string) (uuid_text : id → string).
Context (workspace_id : id) (user : AuthenticatedUser).

Definition board_route {A} (m : OM A) : OM A :=
savepoint (on_studio (require_workspace_admin workspace_id user);; m).

Definition sync_github : QuickActionResult :=
mk_quick_action "sync_github" (gh_available github)
  (len (gh_latest_commits github) + len (gh_open_pull_requests github))
  (if gh_available github then "Synced " +:+ default "None" (gh_repository github)
   else text_or "GitHub unavailable" (gh_unavailable_reason github))
  [("available", JBool (gh_available github));
   ("repository", match gh_repository github with Some r => JStr r | None => JNull end);
   ("commits", int_json (len (gh_latest_commits github)));
   ("open_prs", int_json (len (gh_open_pull_requests github)));
   ("failed_actions", int_json (len (gh_failed_actions github)))].

Definition get_panel {A} (q : board_get A) : OM A :=
match q in board_get A return OM A with
| GetExecutive => executive deployment workspace_id
| GetWorkers => workers collate workspace_id
| GetPipelines => pipelines workspace_id
| GetAlerts => alerts deployment workspace_id
| GetNotifications => notifications deployment workspace_id
| GetLeads search status source limit offset =>
    valid (opt_text_within 0 200 search && opt_text_within 0 32 status && opt_text_within 0 100 source &&
           (1 <=? limit) && (limit <=? 500) && (0 <=? offset) && (offset <=? 10000));;
    list_leads workspace_id search status source (Z.to_nat limit) (Z.to_nat offset)
| GetCustomers => admin ← lift_result (user_uuid user); customers admin None
| GetSpend => spend collate workspace_id
| GetGitHub => mret github
| GetActivity => activity_feed deployment github json_text workspace_id 75
| GetHealth => system_health deployment github environment workspace_id
| GetCostControl => cost_control collate workspace_id
| GetWorkerTimeline => worker_timeline collate workspace_id
| GetContentCommand => content_command_center workspace_id
| GetInsights => admin ← lift_result (user_uuid user); executive_insights workspace_id admin
| GetSearch q =>
    valid (text_within 1 200 q);;
    admin ← lift_result (user_uuid user);
    global_search collate github uuid_text workspace_id admin q
| GetTimeline => universal_timeline deployment github json_text workspace_id 100
| GetLogs worker_id pipeline_id job_id severity limit =>
    valid (match severity with Some s => bool_decide (s ∈ log_severities) | None => true end &&
           (1 <=? limit) && (limit <=? 1000));;
    live_logs workspace_id worker_id pipeline_id job_id severity (Z.to_nat limit)
| GetExecutiveMode =>
    admin ← lift_result (user_uuid user);
    executive_mode collate deployment github environment workspace_id admin
end.

Definition post_request {A} (q : board_post A) : OM A :=
match q in board_post A return OM A with
| PostLead payload =>
    valid (LeadCreate_ok payload);; value_error_422 (create_lead workspace_id payload)
| PatchLead lead_id payload =>
    valid (LeadUpdate_ok payload);;
    lead ← value_error_422 (update_lead workspace_id lead_id payload);
    match lead with Some r => mret r | None => raise (HTTPException 404 "lead not found") end
| PostPauseWorkers => actor ← lift_result (user_uuid user); quick_action (pause_workers workspace_id actor)
| PostResumeWorkers => actor ← lift_result (user_uuid user); quick_action (resume_workers workspace_id actor)
| PostEmergencyStop => actor ← lift_result (user_uuid user); quick_action (emergency_stop workspace_id actor)
| PostRetryFailedJobs =>
    actor ← lift_result (user_uuid user);
    updated_at ← gets ob_updated_at;
    quick_action (retry_failed_jobs updated_at workspace_id actor)
| PostClearDeadLetter =>
    actor ← lift_result (user_uuid user); quick_action (clear_dead_letter_queue workspace_id actor)
| PostSyncGitHub => mret sync_github
end.

Definition serve_board_get {A} (q : board_get A) : OM A := board_route (get_panel q).
Definition serve_board_post {A} (q : board_post A) : OM A := board_route (post_request q).
End Routes.
