(* ===== verification/DashboardSpec.v ===== *)
(** * What the dashboard says of a workspace

    The worker monitor's set-wide queries answer as one query per worker
    would, and the window function as the twenty latest rows of each worker;
    what the spend panel says remains is an upper bound of what may still be
    reserved; a panel depends on what its workspace may see only; and a lead
    stays valid and in its workspace, and only its administrators change it. *)

From S2P Require Import Prelude Models Database Outbox Provenance Assignments Gates Workflow Spend Controller Recovery Scheduler.
From S2P Require Import Relay Workers ContentDesk Automation Text Decimal PyJson StudioModels SpendSafety SpendSpec Billing.
From S2P Require Import Accounts MissionControl System Portal.
From S2P Require Import Dashboard MissionPanels MissionSummary.
From S2P Require DepartmentRoutes.

(** ** Lists *)

Section Lists.
Context {A : Type}.
Implicit Types l : list A.

Lemma filter_filter (P Q : A → bool) l : List.filter P (List.filter Q l) = List.filter (λ x, Q x && P x) l.
Proof. induction l as [|x l IH]; simpl; [done|]. destruct (Q x) eqn:HQ; simpl; rewrite ?IH; done. Qed.

Lemma filter_ext_in (P Q : A → bool) l : (∀ x, x ∈ l → P x = Q x) → List.filter P l = List.filter Q l.
Proof. intros H. apply List.filter_ext_in. intros x Hx. apply H. by apply list_elem_of_In. Qed.

Lemma count_cons (P : A → bool) x l : count P (x :: l) = (if P x then 1 else 0) + count P l.
Proof. unfold count, len. simpl. destruct (P x); simpl; lia. Qed.
Lemma rows_len_cons x l : len (x :: l) = 1 + len l.
Proof. unfold len. simpl. lia. Qed.
Lemma rows_len_nonneg l : 0 ≤ len l.
Proof. unfold len. lia. Qed.

Lemma count_ext (P Q : A → bool) l : (∀ x, x ∈ l → P x = Q x) → count P l = count Q l.
Proof. intros H. unfold count. f_equal. by apply filter_ext_in. Qed.

Lemma count_filter (P Q : A → bool) l : count P (List.filter Q l) = count (λ x, Q x && P x) l.
Proof. unfold count. by rewrite filter_filter. Qed.

Lemma count_or (P Q : A → bool) l :
  (∀ x, x ∈ l → P x = true → Q x = false) → count (λ x, P x || Q x) l = count P l + count Q l.
Proof.
  induction l as [|x l IH]; [done|]. intros H. rewrite !count_cons, IH.
  - specialize (H x). destruct (P x) eqn:HP; simpl; [rewrite H by (done || by left)|destruct (Q x)]; lia.
  - intros y Hy. apply H. by right.
Qed.

Lemma count_none (P : A → bool) l : (∀ x, x ∈ l → P x = false) → count P l = 0.
Proof.
  induction l as [|x l IH]; [done|]. intros H. rewrite count_cons, IH by (intros; apply H; by right).
  by rewrite H by (by left).
Qed.

(** the groups, and what a dictionary made of them answers *)
Context {K B : Type} `{Countable K} (key : A → option K) (f : list A → B).

Definition keyed (k : K) (l : list A) : list A := List.filter (λ x, bool_decide (key x = Some k)) l.

Lemma groups_lookup l k : groups key f l !! k = if decide (k ∈ omap key l) then Some (f (keyed k l)) else None.
Proof.
  unfold groups, group_by. rewrite map_map. simpl.
  set (m := map _ _). assert (Hfst : m.*1 = remove_dups (omap key l)).
  { subst m. rewrite <- list_fmap_compose. rewrite <- (list_fmap_id (remove_dups _)) at 2. done. }
  assert (Hnd : NoDup m.*1) by (rewrite Hfst; apply NoDup_remove_dups).
  case_decide as Hk.
  - apply elem_of_list_to_map_1; [done|]. subst m. apply list_elem_of_fmap. exists k. split; [done|].
    by apply elem_of_remove_dups.
  - apply not_elem_of_list_to_map_1. rewrite Hfst. by rewrite elem_of_remove_dups.
Qed.

Lemma keyed_none l k : k ∉ omap key l → keyed k l = [].
Proof.
  intros Hk. unfold keyed. induction l as [|x l IH]; [done|]. simpl. rewrite bool_decide_eq_false_2.
  - apply IH. contradict Hk. simpl. destruct (key x); [by right|done].
  - intros Hx. apply Hk. simpl. rewrite Hx. by left.
Qed.

Lemma groups_default l k d : f [] = d → default d (groups key f l !! k) = f (keyed k l).
Proof. intros <-. rewrite groups_lookup. case_decide as Hk; [done|]. by rewrite (keyed_none l k Hk). Qed.
End Lists.

Lemma elem_of_fromkeys {K} `{EqDecision K} (l : list K) k : k ∈ fromkeys l ↔ k ∈ l.
Proof.
  induction l as [|x l IH]; [done|]. simpl. rewrite !elem_of_cons.
  rewrite (list_elem_of_In _ k), filter_In, <- list_elem_of_In, IH, negb_true_iff, bool_decide_eq_false.
  destruct (decide (k = x)); naive_solver.
Qed.

Lemma NoDup_fromkeys {K} `{EqDecision K} (l : list K) : NoDup (fromkeys l).
Proof.
  induction l as [|x l IH]; simpl; [constructor|]. constructor.
  - rewrite list_elem_of_In, filter_In, negb_true_iff, bool_decide_eq_false. by intros [_ ?].
  - apply NoDup_ListNoDup, List.NoDup_filter, NoDup_ListNoDup, IH.
Qed.

(** the keys partition what has one of them *)
Lemma total_counts {K A} `{EqDecision K} (key : A → option K) (l : list A) (ks : list K) :
  NoDup ks →
  total (λ k, count (λ a, bool_decide (key a = Some k)) l) ks
  = count (λ a, match key a with Some k => bool_decide (k ∈ ks) | None => false end) l.
Proof.
  induction 1 as [|k ks Hk Hks IH]; simpl.
  { symmetry. apply count_none. intros a _. by destruct (key a). }
  rewrite IH, <- count_or.
  - apply count_ext. intros a _. destruct (key a) as [k'|]; [|done].
    destruct (decide (k' = k)) as [->|Hn].
    + rewrite (bool_decide_eq_true_2 (Some k = Some k)), (bool_decide_eq_true_2 (k ∈ k :: ks)) by (done || by left).
      done.
    + rewrite (bool_decide_eq_false_2 (Some k' = Some k)) by congruence. simpl.
      apply bool_decide_ext. rewrite elem_of_cons. tauto.
  - intros a _ Ha%bool_decide_eq_true. rewrite Ha. by apply bool_decide_eq_false_2.
Qed.

(** ** A worker's row *)

Section Monitor.
Context `{Settings, Unordered}.
Context (collate : string → string → bool) (workspace_id : id).

(** the assignments of one worker in the workspace *)
Definition assignments_of (worker : id) (b : Board) : list (row StageAssignment) :=
keyed worker_of worker (seen_rows t_assignments (of_assignment workspace_id) b).
(** the pending assignments of the stages a worker supports *)
Definition pending_for (stages : list string) (b : Board) : Z :=
count (λ a, has_status ASN_PENDING a && bool_decide (ContentStage_value (asn_stage (row_data a)) ∈ stages))
  (seen_rows t_assignments (of_assignment workspace_id) b).
(** the row, asked for by itself *)
Definition row_by_itself (t : time) (b : Board) (worker : row WorkerRegistration) : result exn WorkerMonitorRow :=
let mine := assignments_of (row_id worker) b in
monitor_row t (totals_of (utc_day_start t) mine) (latest_by row_updated_at (List.filter in_progress mine))
  (pending_for (wrk_supported_stages (row_data worker)) b) worker.

Lemma worked_by_keyed ids w (P : row StageAssignment → bool) l :
  w ∈ ids → keyed worker_of w (List.filter (λ a, worked_by ids a && P a) l) = List.filter P (keyed worker_of w l).
Proof.
  intros Hw. unfold keyed. rewrite !filter_filter. apply filter_ext_in. intros a _. unfold worked_by.
  destruct (worker_of a) as [w'|]; [|done]. destruct (decide (w' = w)) as [->|Hn].
  - rewrite (bool_decide_eq_true_2 (w ∈ ids)), (bool_decide_eq_true_2 (Some w = Some w)) by done. by destruct (P a).
  - rewrite (bool_decide_eq_false_2 (Some w' = Some w)) by congruence. by rewrite andb_false_r.
Qed.

Lemma worked_by_all ids w l :
  w ∈ ids → keyed worker_of w (List.filter (worked_by ids) l) = keyed worker_of w l.
Proof.
  intros Hw. rewrite <- (List.filter_true (keyed worker_of w l)).
  rewrite <- (worked_by_keyed ids w (λ _, true)) by done. f_equal. apply filter_ext_in.
  intros a _. by rewrite andb_true_r.
Qed.

Lemma latest_by_nil {A} (key : A → time) : latest_by key [] = None.
Proof.
  destruct (latest_by key []) as [x|] eqn:Hx; [|done]. apply latest_by_in in Hx as [Hx _].
  by apply not_elem_of_nil in Hx.
Qed.

Lemma run_totals ids day b :
  _worker_assignment_totals workspace_id ids day b
  = (Ok (match ids with [] => ∅ | _ => groups worker_of (totals_of day)
           (List.filter (worked_by ids) (seen_rows t_assignments (of_assignment workspace_id) b)) end), b).
Proof. by destruct ids. Qed.
Lemma run_active ids b :
  _worker_active_assignments workspace_id ids b
  = (Ok (match ids with [] => ∅ | _ => groups worker_of (latest_by row_updated_at)
           (List.filter (λ a, worked_by ids a && in_progress a)
             (seen_rows t_assignments (of_assignment workspace_id) b)) end), b).
Proof. by destruct ids. Qed.

Lemma queue_by_stage stages b :
  total (λ stage, default 0 (groups stage_key len (List.filter (has_status ASN_PENDING)
           (seen_rows t_assignments (of_assignment workspace_id) b)) !! stage)) (fromkeys stages)
  = pending_for stages b.
Proof.
  set (l := seen_rows _ _ _). unfold pending_for. fold l.
  transitivity (total (λ k, count (λ a, bool_decide (stage_key a = Some k)) (List.filter (has_status ASN_PENDING) l))
                  (fromkeys stages)).
  { induction (fromkeys stages) as [|k ks IH]; [done|]. simpl. rewrite IH.
    by rewrite (groups_default stage_key len _ k 0). }
  rewrite total_counts by apply NoDup_fromkeys. rewrite count_filter. apply count_ext. intros a _. f_equal.
  apply bool_decide_ext. apply elem_of_fromkeys.
Qed.

Lemma collect_ext {S E A B} (l : list A) (f g : A → ST S E B) s :
  (∀ x, x ∈ l → f x = g x) → collect l f s = collect l g s.
Proof.
  revert s. induction l as [|x l IH]; intros s Hfg; [done|]. simpl. rewrite (Hfg x) by (by left).
  rewrite !run_bind. destruct (g x s) as [[b|e] s']; [|done].
  rewrite !run_bind. rewrite IH; [done|]. intros y Hy. apply Hfg. by right.
Qed.

Lemma run_workers b regs :
  registrations collate workspace_id b = (Ok regs, b) →
  workers collate workspace_id b = collect regs (λ w, lift_result (row_by_itself (w_now (ob_world b)) b w)) b.
Proof.
  intros Hregs. unfold workers. rewrite run_bind, Hregs. unfold board_now.
  erewrite run_bind_ok by reflexivity. erewrite run_bind_ok by apply run_totals.
  erewrite run_bind_ok by apply run_active. erewrite run_bind_ok by reflexivity.
  apply collect_ext. intros w Hw. f_equal. unfold row_by_itself.
  assert (Hid : row_id w ∈ map row_id regs) by (by apply list_elem_of_fmap_2).
  destruct regs as [|r regs]; [by apply not_elem_of_nil in Hw|]. cbn [map] in *. f_equal.
  - rewrite (groups_default worker_of (totals_of _) _ _ _EMPTY_WORKER_TOTALS eq_refl). by rewrite worked_by_all.
  - rewrite (groups_default worker_of (latest_by row_updated_at)) by apply latest_by_nil.
    by rewrite worked_by_keyed.
  - apply queue_by_stage.
Qed.
End Monitor.

(** ** The recent assignments of a worker *)

Section Timeline.
Implicit Types x y z : row StageAssignment.

Lemma precedes_spec x y :
  precedes x y = true ↔
  row_updated_at y < row_updated_at x ∨ row_updated_at x = row_updated_at y ∧ (row_id y < row_id x)%positive.
Proof. unfold precedes. rewrite orb_true_iff, andb_true_iff, Z.ltb_lt, Z.eqb_eq, Pos.ltb_lt. done. Qed.

Lemma latest_first_spec x y :
  latest_first x y = true ↔
  row_updated_at y < row_updated_at x ∨ row_updated_at x = row_updated_at y ∧ (row_id y ≤ row_id x)%positive.
Proof.
  unfold latest_first. rewrite negb_true_iff, <- not_true_iff_false, precedes_spec. lia.
Qed.

(** no row precedes itself, and two rows with different identifiers are in order *)
Lemma precedes_irrefl x : precedes x x = false.
Proof. apply not_true_iff_false. rewrite precedes_spec. lia. Qed.
Lemma latest_first_precedes x y : row_id x ≠ row_id y → latest_first x y = precedes x y.
Proof. intros Hn. apply eq_bool_prop_intro. rewrite !Is_true_true, latest_first_spec, precedes_spec. lia. Qed.

Abbreviation sorted := (StronglySorted (λ x y, Is_true (latest_first x y))).

Lemma sorted_latest l : sorted (order_by latest_first l).
Proof.
  apply StronglySorted_merge_sort.
  - intros x y z. rewrite !Is_true_true, !latest_first_spec. lia.
  - intros x y. rewrite !Is_true_true, !latest_first_spec. lia.
Qed.

Lemma sorted_filter P l : sorted l → sorted (List.filter P l).
Proof.
  induction 1 as [|x l Hl IH Hx]; simpl; [constructor|]. destruct (P x); [|done]. constructor; [done|].
  rewrite List.Forall_forall in *. intros y [Hy _]%filter_In. by apply Hx.
Qed.

(** in a sorted list, what precedes a row stands before it *)
Lemma rank_in_sorted n pre l :
  NoDup (map row_id (pre ++ l)) → sorted (pre ++ l) →
  List.filter (λ a, 1 + count (λ x, precedes x a) (pre ++ l) <=? n) l = take (Z.to_nat (n - len pre)) l.
Proof.
  revert pre. induction l as [|a l IH]; intros pre Hnd Hs; [by rewrite take_nil|].
  assert (Hcount : count (λ x, precedes x a) (pre ++ a :: l) = len pre).
  { clear IH. revert Hnd Hs. induction pre as [|p pre IHp]; simpl; intros Hnd Hs.
    - rewrite count_cons, precedes_irrefl. rewrite count_none; [done|]. intros x Hx.
      apply StronglySorted_inv in Hs as [_ Hs]. rewrite List.Forall_forall in Hs.
      apply list_elem_of_In in Hx. specialize (Hs x Hx). unfold latest_first in Hs.
      by destruct (precedes x a).
    - apply NoDup_cons in Hnd as [Hp Hnd]. apply StronglySorted_inv in Hs as [Hs Hf].
      rewrite count_cons, rows_len_cons, IHp by done. rewrite List.Forall_forall in Hf.
      assert (Hpa : row_id p ≠ row_id a).
      { intros He. apply Hp. rewrite He. apply list_elem_of_fmap_2, elem_of_app. right. by left. }
      rewrite <- (latest_first_precedes p a Hpa).
      specialize (Hf a ltac:(apply in_or_app; right; by left)). by apply Is_true_true in Hf as ->. }
  simpl. rewrite Hcount.
  assert (Happ : pre ++ a :: l = (pre ++ [a]) ++ l) by (by rewrite <- app_assoc).
  assert (Hlen : len (pre ++ [a]) = 1 + len pre) by (unfold len; rewrite length_app; simpl; lia).
  rewrite Happ in *. specialize (IH (pre ++ [a]) Hnd Hs). rewrite Hlen in IH.
  destruct (Z.leb_spec (1 + len pre) n) as [Hle|Hgt].
  - rewrite IH. replace (Z.to_nat (n - len pre)) with (S (Z.to_nat (n - (1 + len pre)))) by lia. done.
  - rewrite IH. replace (Z.to_nat (n - len pre)) with 0%nat by lia.
    replace (Z.to_nat (n - (1 + len pre))) with 0%nat by lia. by destruct l.
Qed.

Lemma Permutation_filter P (l l' : list (row StageAssignment)) :
  l ≡ₚ l' → List.filter P l ≡ₚ List.filter P l'.
Proof.
  induction 1 as [|x l l' _ IH|x y l|l1 l2 l3 _ IH1 _ IH2]; simpl; [done| | |by etrans].
  - destruct (P x); [by constructor|done].
  - destruct (P x), (P y); try done. constructor.
Qed.
Lemma count_Permutation P (l l' : list (row StageAssignment)) : l ≡ₚ l' → count P l = count P l'.
Proof. intros Hl. unfold count, len. by rewrite (Permutation_filter P _ _ Hl). Qed.

(** numbering the rows of a worker and keeping the first [n] is taking [n] of
    them in order *)
Lemma recent_take n (l : list (row StageAssignment)) :
  NoDup (map row_id l) →
  order_by latest_first (List.filter (λ a, 1 + count (λ x, precedes x a) l <=? n) l)
  = take (Z.to_nat n) (order_by latest_first l).
Proof.
  intros Hnd. set (s := order_by latest_first l).
  assert (Hp : s ≡ₚ l) by apply order_by_Permutation.
  assert (Hnds : NoDup (map row_id s)) by (unfold s; by rewrite (order_by_Permutation latest_first l)).
  pose proof (rank_in_sorted n [] s Hnds (sorted_latest l)) as Hrank. simpl in Hrank.
  rewrite Z.sub_0_r in Hrank. rewrite <- Hrank.
  assert (Hcount : ∀ a, count (λ x, precedes x a) l = count (λ x, precedes x a) s).
  { intros a. by apply count_Permutation. }
  rewrite (filter_ext_in _ (λ a, 1 + count (λ x, precedes x a) s <=? n) l) by (intros a _; by rewrite Hcount).
  apply (StronglySorted_unique_strong (λ x y, Is_true (latest_first x y))).
  - intros x y Hx Hy. rewrite !Is_true_true, !latest_first_spec. intros H1 H2.
    assert (Hid : row_id x = row_id y) by lia.
    rewrite elem_of_order_by in Hx. apply list_elem_of_In, filter_In in Hx as [Hx _].
    apply list_elem_of_In, filter_In in Hy as [Hy _]. apply list_elem_of_In in Hx, Hy. rewrite Hp in Hy.
    apply list_elem_of_lookup in Hx as [i Hi], Hy as [j Hj].
    assert (i = j) as ->.
    { eapply (NoDup_lookup (map row_id l)); [done| |]; rewrite list_lookup_fmap, ?Hi, ?Hj; simpl; [done|].
      by rewrite Hid. }
    congruence.
  - apply sorted_latest.
  - apply sorted_filter, sorted_latest.
  - rewrite order_by_Permutation. by apply Permutation_filter.
Qed.
End Timeline.

Lemma NoDup_seen {A} (t : Board → gmap id A) seen b : NoDup (map row_id (seen_rows t seen b)).
Proof.
  unfold seen_rows. rewrite map_map. simpl.
  exact (NoDup_rows_fst (λ _ : id, seen) (t b)).
Qed.

Lemma NoDup_keyed {A} (key : row A → option id) k (l : list (row A)) :
  NoDup (map row_id l) → NoDup (map row_id (keyed key k l)).
Proof.
  induction l as [|x l IH]; [done|]. simpl. intros [Hx Hl]%NoDup_cons. unfold keyed in *. simpl.
  case_bool_decide; [|by apply IH]. simpl. constructor; [|by apply IH].
  contradict Hx. apply list_elem_of_fmap in Hx as (y & -> & Hy).
  apply list_elem_of_In, filter_In in Hy as [Hy _]. apply list_elem_of_fmap_2. by apply list_elem_of_In.
Qed.

Lemma keyed_numbered n w l :
  keyed worker_of w (List.filter (λ a, row_number l a <=? n) l)
  = List.filter (λ a, 1 + count (λ x, precedes x a) (keyed worker_of w l) <=? n) (keyed worker_of w l).
Proof.
  unfold keyed at 1 3. rewrite !filter_filter. apply filter_ext_in. intros a _. rewrite andb_comm.
  destruct (decide (worker_of a = Some w)) as [Ha|Ha].
  - rewrite bool_decide_eq_true_2 by done. simpl. unfold row_number, keyed. rewrite count_filter, Ha. done.
  - rewrite bool_decide_eq_false_2 by done. done.
Qed.

Section TimelineRuns.
Context `{Settings, Unordered}.
Context (collate : string → string → bool) (workspace_id : id).

(** the twenty assignments of a worker that were touched last *)
Definition last_assignments (worker : id) (b : Board) : list (row StageAssignment) :=
take 20 (order_by latest_first (assignments_of workspace_id worker b)).

Lemma run_recent ids b :
  _recent_assignments_by_worker workspace_id ids 20 b
  = (Ok (match ids with [] => ∅ | _ =>
           let l := List.filter (worked_by ids) (seen_rows t_assignments (of_assignment workspace_id) b) in
           groups worker_of (order_by latest_first) (List.filter (λ a, row_number l a <=? 20) l) end), b).
Proof. by destruct ids. Qed.

Lemma run_worker_timeline b regs :
  registrations collate workspace_id b = (Ok regs, b) →
  worker_timeline collate workspace_id b
  = (Ok (map (λ w, timeline_row (w_now (ob_world b)) (last_assignments (row_id w) b) w) regs), b).
Proof.
  intros Hregs. unfold worker_timeline. erewrite run_bind_ok by reflexivity. rewrite run_bind, Hregs.
  erewrite run_bind_ok by apply run_recent. unfold mret, st_ret. do 2 f_equal.
  apply List.map_ext_in. intros w Hw%list_elem_of_In.
  assert (Hid : row_id w ∈ map row_id regs) by (by apply list_elem_of_fmap_2).
  destruct regs as [|r regs]; [by apply not_elem_of_nil in Hw|]. cbn [map] in *. cbv zeta. f_equal.
  rewrite (groups_default worker_of (order_by latest_first)) by done.
  rewrite keyed_numbered. rewrite worked_by_all by done.
  unfold last_assignments, assignments_of. apply (recent_take 20). apply NoDup_keyed, NoDup_seen.
Qed.

Lemma run_registrations b : ∃ regs, registrations collate workspace_id b = (Ok regs, b).
Proof. eexists. reflexivity. Qed.

(** C17: the worker monitor, whose three queries are made over all workers at
    once, answers for each worker what queries of its own would: its tallies,
    its latest assignment in progress, and the pending assignments of the
    stages it supports, a stage listed twice counted once. *)
Theorem worker_monitor_equivalent b :
  workers collate workspace_id b
  = (regs ← registrations collate workspace_id;
     collect regs (λ w, lift_result (row_by_itself workspace_id (w_now (ob_world b)) b w))) b.
Proof.
  destruct (run_registrations b) as [regs Hregs]. rewrite run_bind, Hregs. by apply run_workers.
Qed.

(** C18: the worker timeline numbers the assignments of each worker within one
    query and keeps the first twenty: what it shows are the twenty the worker
    touched last, latest first. *)
Theorem worker_timeline_equivalent b :
  worker_timeline collate workspace_id b
  = (regs ← registrations collate workspace_id;
     mret (map (λ w, timeline_row (w_now (ob_world b)) (last_assignments (row_id w) b) w) regs)) b.
Proof.
  destruct (run_registrations b) as [regs Hregs]. rewrite run_bind, Hregs. by apply run_worker_timeline.
Qed.
End TimelineRuns.

(** ** Spend *)

Lemma total_map {A B} (f : B → Z) (g : A → B) (l : list A) : total f (map g l) = total (λ x, f (g x)) l.
Proof. induction l as [|x l IH]; [done|]. simpl. by rewrite IH. Qed.

Section Totals.
Context {A : Type}.
Implicit Types l : list A.

Lemma total_cons (f : A → Z) x l : total f (x :: l) = f x + total f l.
Proof. done. Qed.
Lemma total_ext (f g : A → Z) l : (∀ x, x ∈ l → f x = g x) → total f l = total g l.
Proof.
  induction l as [|x l IH]; [done|]. intros Hfg. rewrite !total_cons, IH by (intros; apply Hfg; by right).
  by rewrite Hfg by (by left).
Qed.
Lemma total_Permutation (f : A → Z) l l' : l ≡ₚ l' → total f l = total f l'.
Proof. induction 1; rewrite ?total_cons in *; lia. Qed.
Lemma total_filter (f : A → Z) P l : total f (List.filter P l) = total (λ x, if P x then f x else 0) l.
Proof. induction l as [|x l IH]; [done|]. simpl. destruct (P x); rewrite ?total_cons, IH; done. Qed.

Context {K : Type} `{EqDecision K} (key : A → option K).

Lemma total_keyed (f : A → Z) l (ks : list K) :
  NoDup ks →
  total (λ k, total f (List.filter (λ x, bool_decide (key x = Some k)) l)) ks
  = total (λ x, match key x with Some k => if bool_decide (k ∈ ks) then f x else 0 | None => 0 end) l.
Proof.
  induction 1 as [|k ks Hk Hks IH]; simpl.
  { induction l as [|x l IHl]; [done|]. rewrite total_cons, <- IHl. by destruct (key x). }
  rewrite IH, total_filter. clear IH. induction l as [|x l IHl]; [done|]. rewrite !total_cons.
  rewrite <- IHl. destruct (key x) as [k'|]; [|rewrite bool_decide_eq_false_2 by done; lia].
  destruct (decide (k' = k)) as [->|Hn].
  - rewrite (bool_decide_eq_true_2 (Some k = Some k)), (bool_decide_eq_false_2 (k ∈ ks)),
      (bool_decide_eq_true_2 (k ∈ k :: ks)) by (done || by left). lia.
  - rewrite (bool_decide_eq_false_2 (Some k' = Some k)) by congruence.
    rewrite (bool_decide_ext (k' ∈ k :: ks) (k' ∈ ks)) by (rewrite elem_of_cons; tauto). lia.
Qed.

(** the groups together hold what was grouped *)
Lemma total_group_by (f : A → Z) l :
  (∀ x, x ∈ l → is_Some (key x)) → total (λ g, total f g.2) (group_by key l) = total f l.
Proof.
  intros Hkey. unfold group_by. rewrite total_map. simpl. rewrite total_keyed by apply NoDup_remove_dups.
  apply total_ext. intros x Hx. destruct (Hkey x Hx) as [k Hk]. rewrite Hk.
  rewrite bool_decide_eq_true_2; [done|]. apply elem_of_remove_dups, list_elem_of_omap. eauto.
Qed.
End Totals.

Lemma spent_since_total t l :
  spent_since t l = total (λ r, if occurred_since t r then slog_cost_usd (row_data r) else 0) l.
Proof. unfold spent_since, spent. apply total_filter. Qed.

(** the sum of a query is the sum over the table *)
Lemma spent_since_tsum ws t b :
  spent_since t (seen_rows t_spend (of_spend ws) b) = tsum (log_counts ws None (Some t)) (t_spend b).
Proof.
  rewrite spent_since_total. unfold seen_rows, rows, tsum. rewrite map_fold_foldr. rewrite total_map.
  induction (map_to_list (t_spend b)) as [|[i r] l IH]; [done|]. rewrite filter_cons.
  simpl. unfold log_counts at 1. rewrite <- IH. clear IH. unfold of_spend at 1, in_workspace at 1.
  unfold occurred_since at 1.
  case_decide as Hd; simpl.
  - unfold of_spend, in_workspace in Hd. rewrite Hd. simpl. rewrite andb_true_r. done.
  - unfold of_spend, in_workspace in Hd. apply not_true_is_false in Hd. rewrite Hd. done.
Qed.

Section SpendPanel.
Context (collate : string → string → bool).

Lemma by_provider_total (get : SpendProviderRow → usd) t d w m l :
  (∀ g, get (provider_row d w m g) = spent_since t g.2) →
  total get (map (provider_row d w m) (order_by (λ x y, collate x.1 y.1) (group_by provider_of l)))
  = spent_since t l.
Proof.
  intros Hget. rewrite total_map.
  rewrite (total_ext _ (λ g, total (λ r, if occurred_since t r then slog_cost_usd (row_data r) else 0) g.2)).
  - rewrite (total_Permutation _ _ _ (order_by_Permutation _ _)), total_group_by by eauto.
    by rewrite spent_since_total.
  - intros g _. by rewrite Hget, spent_since_total.
Qed.

(** what is left of a cap when nothing that is open counts *)
Definition left_of (cap spent : usd) : usd := Z.max (cap - spent) 0.

Lemma run_spend ws b :
  ∃ o, spend collate ws b = (Ok o, b) ∧
    so_today_usd o = tsum (log_counts ws None (Some (utc_day_start (w_now (ob_world b))))) (t_spend b) ∧
    so_month_usd o = tsum (log_counts ws None (Some (utc_month_start (w_now (ob_world b))))) (t_spend b) ∧
    so_today_usd o = total sp_today_usd (so_by_provider o) ∧
    so_week_usd o = total sp_week_usd (so_by_provider o) ∧
    so_month_usd o = total sp_month_usd (so_by_provider o) ∧
    (∀ c, w_caps (ob_world b) !! (ws, None) = Some c →
       so_budget_remaining_daily_usd o = Some (left_of (cap_daily_cap_usd c) (so_today_usd o)) ∧
       so_budget_remaining_monthly_usd o = Some (left_of (cap_monthly_cap_usd c) (so_month_usd o))).
Proof.
  eexists. split.
  { unfold spend, board_now, query, workspace_cap.
    do 2 (erewrite run_bind_ok by reflexivity; cbv zeta). erewrite run_bind_ok by reflexivity. reflexivity. }
  cbn [so_today_usd so_week_usd so_month_usd so_by_provider
    so_budget_remaining_daily_usd so_budget_remaining_monthly_usd].
  rewrite List.filter_true. split_and!; try by rewrite spent_since_tsum.
  1-3: symmetry; by apply by_provider_total.
  intros c Hc. by rewrite Hc.
Qed.

Lemma usage_besides_spent run stage ws s w :
  (∀ i x, w_reservations w !! i = Some x → 0 ≤ rsv_estimated_cost_usd x) →
  tsum (log_counts ws None (Some s)) (w_spend_logs w) ≤ usage_besides run stage ws None s w.
Proof.
  intros Hpos. unfold usage_besides.
  match goal with |- _ ≤ _ + tsum ?f ?m => assert (0 ≤ tsum f m); [|lia] end.
  apply tsum_nonneg. intros i x Hx. unfold reservation_counts. specialize (Hpos i x Hx).
  repeat case_match; lia.
Qed.

(** C19: the spend panel's totals are the sums of its rows by provider, and what
    it says remains of the day's and of the month's budget bounds what may
    still be reserved: a reservation for a provider without a cap of its own
    is only granted within both. *)
Theorem spend_panel_bounds_reservations ws b :
  (∀ i x, w_reservations (ob_world b) !! i = Some x → 0 ≤ rsv_estimated_cost_usd x) →
  (∀ c, w_caps (ob_world b) !! (ws, None) = Some c → cap_provider c = None) →
  ∃ o, spend collate ws b = (Ok o, b) ∧
    so_today_usd o = total sp_today_usd (so_by_provider o) ∧
    so_week_usd o = total sp_week_usd (so_by_provider o) ∧
    so_month_usd o = total sp_month_usd (so_by_provider o) ∧
    ∀ run r stage provider e rsv w',
      w_runs (ob_world b) !! run = Some r → run_workspace_id r = ws →
      w_caps (ob_world b) !! (ws, Some provider) = None →
      reserve_spend run stage provider e (ob_world b) = (Ok (Some rsv), w') →
      ∃ d m, so_budget_remaining_daily_usd o = Some d ∧ so_budget_remaining_monthly_usd o = Some m ∧
        e ≤ d ∧ e ≤ m.
Proof.
  intros Hpos Hprov. destruct (run_spend ws b) as (o & Hrun & Ht & Hm & H1 & H2 & H3 & Hcap).
  exists o. split_and!; try done. intros run r stage provider e rsv w' Hr Hws Hown Hres.
  destruct (run_reserve_spend run stage provider e (ob_world b) r Hr)
    as (o' & w'' & r' & Hrun' & _ & [Hadm _] & _). rewrite Hres in Hrun'. injection Hrun' as <- <-.
  destruct (Hadm ltac:(by eexists)) as (c & Hc & Hday & Hmonth). subst ws.
  unfold loaded_cap in Hc. rewrite Hown in Hc. unfold cap_scope in *.
  rewrite (Hprov c Hc) in Hday, Hmonth. destruct (Hcap c Hc) as [Hd Hmo].
  pose proof (usage_besides_spent run stage (run_workspace_id r) (utc_day_start (w_now (ob_world b))) _ Hpos).
  pose proof (usage_besides_spent run stage (run_workspace_id r) (utc_month_start (w_now (ob_world b))) _ Hpos).
  unfold t_spend in *. eexists _, _. split_and!; [exact Hd|exact Hmo| |]; unfold left_of; lia.
Qed.
End SpendPanel.

(** ** Leads *)

Definition lead_ok (l : Lead) : Prop :=
lead_status l ∈ LEAD_STATUSES ∧ has_at (lead_email l) = true ∧ starts_at (lead_email l) = false.

Definition leads_ok (b : Board) : Prop :=
below (w_next (ob_world b)) (ob_leads b) ∧ map_Forall (λ _, lead_ok) (ob_leads b).

(** what a request on workspace [ws] does to the leads, which are another's
    or keep their workspace and the instant they were created *)
Definition lead_moves (ws : id) (l l' : Lead) : Prop :=
lead_workspace_id l' = lead_workspace_id l ∧ lead_created_at l' = lead_created_at l ∧
(lead_workspace_id l ≠ ws → l' = l).

Definition leads_step (ws : id) : relation Board := λ b b',
st_memberships (ob_studio b') = st_memberships (ob_studio b) ∧
(leads_ok b → leads_ok b' ∧
  ∀ i l, ob_leads b !! i = Some l → ∃ l', ob_leads b' !! i = Some l' ∧ lead_moves ws l l').

Lemma lead_moves_refl ws l : lead_moves ws l l.
Proof. done. Qed.
#[export] Instance leads_step_preorder ws : PreOrder (leads_step ws).
Proof.
  split.
  - intros b. split; [done|]. intros Hb. split; [done|]. intros i l Hi. exists l. by split.
  - intros b1 b2 b3 [Hm1 H1] [Hm2 H2]. split; [congruence|]. intros Hb1.
    destruct (H1 Hb1) as [Hb2 Hs1]. destruct (H2 Hb2) as [Hb3 Hs2]. split; [done|].
    intros i l Hi. destruct (Hs1 i l Hi) as (l2 & Hi2 & Hw2 & Hc2 & He2).
    destruct (Hs2 i l2 Hi2) as (l3 & Hi3 & Hw3 & Hc3 & He3). exists l3. split; [done|].
    unfold lead_moves. split_and!; [congruence|congruence|]. intros Hn. rewrite He3 by congruence. by apply He2.
Qed.

(** what leaves the leads and the memberships alone *)
Lemma leads_step_same ws b b' :
  ob_leads b' = ob_leads b → st_memberships (ob_studio b') = st_memberships (ob_studio b) →
  (w_next (ob_world b) ≤ w_next (ob_world b'))%positive → leads_step ws b b'.
Proof.
  intros Hl Hm Hn. split; [done|]. intros [Hb Hok]. unfold leads_ok. rewrite Hl.
  split_and!; [by eapply below_weaken|done|]. intros i l Hi. exists l. by split.
Qed.

Lemma run_lead_checks l b :
  (lead_checks l b = (Ok tt, b) ∧ lead_ok l) ∨ ∃ e, lead_checks l b = (Raise e, b).
Proof.
  unfold lead_checks, lead_ok. case_bool_decide; simpl; [|by right; eexists].
  destruct (has_at (lead_email l)) eqn:Ha; simpl; [|by right; eexists].
  destruct (starts_at (lead_email l)) eqn:Hs; [by right; eexists|by left].
Qed.

(** the state after a row was written *)
Definition written (i : id) (l : Lead) (b : Board) : Board := ((insert_row ob_leads i l;; touch i) b).2.

Lemma run_write i l b : (insert_row ob_leads i l;; touch i) b = (Ok tt, written i l b).
Proof. reflexivity. Qed.
Lemma run_read_back i l b : lead_out i (written i l b) = (Ok (dated (written i l b) (i, l)), written i l b).
Proof.
  unfold lead_out. rewrite run_bind. unfold gets. cbv beta iota.
  assert (Hl : ob_leads (written i l b) !! i = Some l) by apply lookup_insert_eq.
  rewrite Hl. reflexivity.
Qed.
Lemma run_write_read i l b :
  (insert_row ob_leads i l;; touch i;; lead_out i) b
  = (Ok (dated (written i l b) (i, l)), written i l b).
Proof.
  rewrite <- run_read_back. pose proof (run_write i l b) as Hw. rewrite run_bind in Hw.
  rewrite run_bind. destruct (insert_row ob_leads i l b) as [[[]|e] b1]; [|done].
  by rewrite run_bind, Hw.
Qed.

Lemma leads_step_written ws i l b0 b :
  leads_step ws b0 b → ob_leads b = ob_leads b0 → (leads_ok b0 → (i < w_next (ob_world b))%positive) → lead_ok l →
  (leads_ok b0 → ∀ l0, ob_leads b0 !! i = Some l0 → lead_moves ws l0 l) →
  leads_step ws b0 (written i l b).
Proof.
  intros [Hmem Hstep] Hsame Hi Hok Hmove. split; [exact Hmem|]. intros Hb0.
  destruct (Hstep Hb0) as [[Hbelow Hall] _].
  change (ob_leads (written i l b)) with (<[i := l]> (ob_leads b)). split; [split|].
  - apply below_insert; [by apply Hi|done].
  - by apply map_Forall_insert_2.
  - intros j l0 Hj. rewrite lookup_insert. case_decide as Hij; [subst; eauto|].
    exists l0. by rewrite Hsame.
Qed.

Lemma keeps_create_lead ws payload : keeps (leads_step ws) (create_lead ws payload).
Proof.
  intros b. unfold create_lead.
  destruct (negb _); [reflexivity|]. cbv zeta. destruct (_ || _ || _); [reflexivity|].
  erewrite run_bind_ok by reflexivity. erewrite run_bind_ok by reflexivity.
  match goal with |- context [lead_checks ?x] => set (l := x) end.
  match goal with |- leads_step _ _ (?m ?s).2 => set (b1 := s) end.
  change (w_next (st_world (ob_studio b))) with (w_next (ob_world b)).
  assert (Hn : w_next (ob_world b1) = Pos.succ (w_next (ob_world b))) by reflexivity.
  assert (Hstep : leads_step ws b b1).
  { apply leads_step_same; [done|done|]. rewrite Hn. apply Pos.lt_le_incl, Pos.lt_succ_diag_r. }
  rewrite run_bind. destruct (run_lead_checks l b1) as [[-> Hok]|(e & ->)]; [|exact Hstep].
  rewrite run_write_read. apply leads_step_written; [exact Hstep|done| |done|].
  - intros _. rewrite Hn. apply Pos.lt_succ_diag_r.
  - intros [Hb _] l0 Hl0. exfalso. by apply (Pos.lt_irrefl (w_next (ob_world b))), (Hb _ l0).
Qed.

(** a step that only looks, before the rest *)
Lemma after_looking {A B} (R : relation Board) `{!PreOrder R} (m : OM A) (k : A → OM B) b :
  (m b).2 = b → (∀ a, R b (k a b).2) → R b ((m ≫= k) b).2.
Proof.
  intros Hm Hk. rewrite run_bind. destruct (m b) as [[a|e] b']; simpl in Hm; subst b'; [apply Hk|reflexivity].
Qed.

Lemma looks_set_text column o f old b : (set_text column o f old b).2 = b.
Proof. by destruct o as [[?|]|]. Qed.
Lemma looks_check_status o b : (check_status o b).2 = b.
Proof. unfold check_status. by repeat case_match. Qed.
Lemma looks_lead_out i b : (lead_out i b).2 = b.
Proof. unfold lead_out. rewrite run_bind. unfold gets. cbv beta iota. by destruct (_ <$> _). Qed.

Lemma keeps_update_lead ws i payload : keeps (leads_step ws) (update_lead ws i payload).
Proof.
  intros b. unfold update_lead. rewrite run_bind. unfold session_get, gets. cbv beta iota.
  destruct (ob_leads b !! i) as [l|] eqn:Hl; [|reflexivity].
  destruct (in_workspace ws (lead_workspace_id l)) eqn:Hws; [simpl|reflexivity]. apply in_workspace_true in Hws.
  apply after_looking; [apply _|apply looks_check_status|intros _].
  do 4 (apply after_looking; [apply _|apply looks_set_text|intros ?]). cbv zeta.
  match goal with |- context [lead_checks ?x] => set (l' := x) end.
  unfold when. case_bool_decide; simpl negb; cbv iota.
  { erewrite run_bind_ok by reflexivity. apply after_looking; [apply _|apply looks_lead_out|]. reflexivity. }
  rewrite run_bind, run_bind. destruct (run_lead_checks l' b) as [[-> Hok]|(e & ->)]; [|reflexivity].
  rewrite run_write. rewrite run_bind, run_read_back.
  change (leads_step ws b (written i l' b)).
  apply leads_step_written; [reflexivity|done| |done|].
  - intros [Hb _]. by apply (Hb i l).
  - intros _ l0 Hl0. rewrite Hl in Hl0. injection Hl0 as <-. by split_and!.
Qed.

(** ** Requests *)

Section Requests.
Context `{Settings, Unordered}.
Context (github : GitHubOut).

(** a request of somebody on a workspace *)
Inductive board_request : Type :=
| Request {A} (ws : id) (user : AuthenticatedUser) (q : board_post A).

Definition run_board_request (r : board_request) : OM unit :=
match r with Request ws user q => serve_board_post github ws user q;; mret tt end.
Definition board_exec (l : list board_request) (b : Board) : Board :=
foldl (λ b r, (run_board_request r b).2) b l.

(** the user is an administrator of the workspace *)
Definition administrator (ws : id) (user : AuthenticatedUser) (b : Board) : Prop :=
∃ i u m, user_uuid user = Ok u ∧ st_memberships (ob_studio b) !! i = Some m ∧
  mem_workspace_id m = ws ∧ mem_user_id m = u ∧ mem_role m = ROLE_ADMIN.

Lemma guard_granted ws user s m s' :
  require_workspace_admin ws user s = (Ok m, s') →
  s' = s ∧ st_memberships s !! m.1 = Some m.2 ∧ mem_workspace_id m.2 = ws ∧
  user_uuid user = Ok (mem_user_id m.2) ∧ mem_role m.2 = ROLE_ADMIN.
Proof.
  unfold require_workspace_admin, require_workspace_role, get_membership. intros Hrun.
  rewrite !run_bind in Hrun. unfold lift_result in Hrun.
  destruct (user_uuid user) as [u|e]; [|done]. rewrite run_bind in Hrun.
  change (select st_memberships (membership_of ws u) s)
    with (Ok (rows (membership_of ws u) (st_memberships s)) : result exn _, s) in Hrun. cbv beta iota in Hrun.
  destruct (scalar_one_or_none (rows (membership_of ws u) (st_memberships s)) s) as [[o|e] s1] eqn:Ho; [|done].
  apply scalar_one_or_none_inv in Ho as [-> [[_ ->]|(x & Hx & ->)]]; [done|].
  case_bool_decide as Hr; [|done]. injection Hrun as <- <-. split; [done|].
  assert (Hin : x ∈ rows (membership_of ws u) (st_memberships s)) by (rewrite Hx; by left).
  destruct x as [i x]. apply elem_of_rows in Hin as [Hi Hm]. unfold membership_of in Hm.
  apply andb_true_iff in Hm as [Hm%in_workspace_true Hu%bool_decide_eq_true]. simpl in *.
  split_and!; [done|done|congruence|]. set_solver.
Qed.

Lemma leads_on_world {A} ws (m : M A) : keeps ids_grow m → keeps (leads_step ws) (on_studio (on_world m)).
Proof.
  intros Hm b. specialize (Hm (st_world (ob_studio b))). unfold on_studio, on_world.
  destruct (m (st_world (ob_studio b))) as [r w]. by apply leads_step_same.
Qed.

Lemma keeps_value_error (R : relation Board) `{!PreOrder R} {A} (m : OM A) : keeps R m → keeps R (value_error_422 m).
Proof. intros Hm. unfold value_error_422. apply keeps_catch; [done|done|]. intros []; keeps_tac. Qed.
Lemma keeps_valid (R : relation Board) `{!PreOrder R} ok : keeps R (valid ok).
Proof. unfold valid. destruct ok; keeps_tac. Qed.

Lemma keeps_acting ws user (f : id → M QuickActionResult) :
  (∀ u, keeps ids_grow (f u)) →
  keeps (leads_step ws) (actor ← lift_result (user_uuid user); quick_action (f actor)).
Proof.
  intros Hf. apply keeps_bind; [apply _|apply keeps_lift_result, _|intros u]. by apply leads_on_world.
Qed.

Lemma keeps_post_request {A} ws user (q : board_post A) : keeps (leads_step ws) (post_request github ws user q).
Proof.
  destruct q; cbv beta iota delta [post_request].
  - apply keeps_bind; [apply _|apply keeps_valid, _|intros _]. apply keeps_value_error; [apply _|].
    apply keeps_create_lead.
  - apply keeps_bind; [apply _|apply keeps_valid, _|intros _].
    apply keeps_bind; [apply _| |intros [r|]; [apply keeps_ret, _|apply keeps_raise, _]].
    apply keeps_value_error; [apply _|]. apply keeps_update_lead.
  - apply keeps_acting. intros u. by apply keeps_pause_workers; try apply _.
  - apply keeps_acting. intros u. by apply keeps_resume_workers; try apply _.
  - apply keeps_acting. intros u. by apply keeps_emergency_stop; try apply _.
  - apply keeps_bind; [apply _|apply keeps_lift_result, _|intros u].
    apply keeps_bind; [apply _|apply keeps_gets, _|intros f]. apply leads_on_world, retrying.
  - apply keeps_acting. intros u. by apply keeps_clear_dead_letter_queue; try apply _.
  - apply keeps_ret, _.
Qed.

(** a guarded route: refused, with nothing changed, but to an administrator *)
Lemma board_route_guarded {A} ws user (m : OM A) b :
  ((board_route ws user m b).2 = b ∧ ∃ e, (board_route ws user m b).1 = Raise e) ∨
  administrator ws user b ∧ board_route ws user m b = savepoint m b.
Proof.
  unfold board_route, savepoint. rewrite run_bind. unfold on_studio.
  destruct (require_workspace_admin ws user (ob_studio b)) as [[p|e] s] eqn:Hg; [|left; by eauto].
  apply guard_granted in Hg as (-> & Hi & Hw & Hu & Hr). right. split; [by eexists _, _, _|].
  assert (Hb : b <| ob_studio := ob_studio b |> = b) by (by destruct b). by rewrite Hb.
Qed.

Definition request_ws (r : board_request) : id := match r with Request ws _ _ => ws end.
Definition by_admin (b : Board) (r : board_request) : Prop :=
match r with Request ws user _ => administrator ws user b end.

Lemma run_request_cases r b :
  (run_board_request r b).2 = b ∨ by_admin b r ∧ leads_step (request_ws r) b (run_board_request r b).2.
Proof.
  destruct r as [A ws user q]. simpl. unfold serve_board_post. rewrite run_bind.
  destruct (board_route_guarded ws user (post_request github ws user q) b) as [[Hs [e He]]|[Hadm Hrun]].
  - left. destruct (board_route ws user (post_request github ws user q) b) as [r b']. simpl in *. by subst.
  - right. split; [done|]. rewrite Hrun.
    pose proof (keeps_savepoint (leads_step ws) _ (keeps_post_request ws user q) b) as Hk.
    destruct (savepoint (post_request github ws user q) b) as [[a|e] b']; exact Hk.
Qed.

Lemma administrator_same ws user b b' :
  st_memberships (ob_studio b') = st_memberships (ob_studio b) → administrator ws user b' → administrator ws user b.
Proof. unfold administrator. by intros ->. Qed.

(** C16: along every sequence of requests to the dashboard a lead has a known
    status and an address with an at-sign that does not come first (an update,
    unlike a creation, takes one that comes last); no lead disappears
    or changes its workspace or the instant it was created; and a lead whose
    workspace got no request of one of its administrators is as it was. *)
Theorem leads_guarded l b :
  leads_ok b →
  leads_ok (board_exec l b) ∧
  ∀ i x, ob_leads b !! i = Some x →
    ∃ x', ob_leads (board_exec l b) !! i = Some x' ∧
      lead_workspace_id x' = lead_workspace_id x ∧ lead_created_at x' = lead_created_at x ∧
      (Forall (λ r, request_ws r = lead_workspace_id x → ¬ by_admin b r) l → x' = x).
Proof.
  revert b. induction l as [|r l IH]; intros b Hb.
  { split; [done|]. intros i x Hi. exists x. by split. }
  change (board_exec (r :: l) b) with (board_exec l (run_board_request r b).2).
  assert (Hstep : st_memberships (ob_studio (run_board_request r b).2) = st_memberships (ob_studio b) ∧
    leads_ok (run_board_request r b).2 ∧ ∀ i x, ob_leads b !! i = Some x →
      ∃ x', ob_leads (run_board_request r b).2 !! i = Some x' ∧ lead_moves (request_ws r) x x' ∧
        (¬ by_admin b r → x' = x)).
  { destruct (run_request_cases r b) as [->|[Hadm [Hm Hs]]].
    - split_and!; [done|done|]. intros i x Hi. exists x. by split_and!.
    - destruct (Hs Hb) as [Hok Hl]. split_and!; [done|done|]. intros i x Hi.
      destruct (Hl i x Hi) as (x' & Hi' & Hmv). by exists x'. }
  destruct Hstep as (Hmem & Hok & Hl). destruct (IH _ Hok) as [Hok' Hl']. split; [done|].
  intros i x Hi. destruct (Hl i x Hi) as (x1 & Hi1 & (Hw1 & Hc1 & He1) & Hn1).
  destruct (Hl' i x1 Hi1) as (x2 & Hi2 & Hw2 & Hc2 & He2). exists x2.
  split_and!; [done|congruence|congruence|]. intros [Hr Hrest]%Forall_cons.
  assert (x1 = x) as Hx.
  { destruct (decide (request_ws r = lead_workspace_id x)) as [Hws|Hws]; [by apply Hn1, Hr|by apply He1]. }
  subst x1. apply He2. eapply Forall_impl; [exact Hrest|]. intros r' Hr' Hws Hadm. apply (Hr' Hws).
  destruct r'. by eapply administrator_same.
Qed.
End Requests.

(** ** What a panel looks at *)

(** a table, and the rows of it that a workspace sees *)
Inductive board_table (ws : id) : ∀ {A}, (Board → gmap id A) → (A → bool) → Prop :=
| T_workers : board_table ws t_workers (of_worker ws)
| T_assignments : board_table ws t_assignments (of_assignment ws)
| T_runs : board_table ws t_runs (of_run ws)
| T_jobs : board_table ws t_jobs (of_job ws)
| T_gates : board_table ws t_gates (of_gate ws)
| T_spend : board_table ws t_spend (of_spend ws)
| T_dead_letters : board_table ws t_dead_letters (of_letter ws)
| T_items : board_table ws t_items (of_item ws)
| T_memberships : board_table ws t_memberships (of_membership ws)
| T_leads : board_table ws ob_leads (of_lead ws)
| T_publish_jobs : board_table ws ob_publish_jobs (of_publish_job ws)
| T_webhooks : board_table ws ob_webhooks (of_webhook ws)
| T_assets : board_table ws ob_assets (of_asset ws)
| T_outbox : board_table ws t_outbox (of_event ws)
| T_worker_logs : board_table ws t_worker_logs (of_log ws).

(** the receipts about a workspace, the row of the workspace and what is kept
    under its identifier, and the lease of the scheduler *)
Definition receipts_of (ws : id) (b : Board) : list receipt :=
map (λ p, mk_receipt p.1 (ob_receipt_id b p.1) p.2 (ob_processed_at b p.1)) (rows (λ _, of_receipt ws) (ob_receipts b)).
Definition own_rows (ws : id) (b : Board) :=
(dated b ∘ pair ws <$> w_workspaces (ob_world b) !! ws, ob_billing b !! ws,
 w_caps (ob_world b) !! (ws, None), w_limits (ob_world b) !! ws, w_leases (ob_world b) !! "scheduler").
Definition stage_runs_of (ws : id) (b : Board) : list ((id * ContentStage * Z) * PipelineStageRun) :=
rows (λ _, of_stage_run ws) (w_stage_runs (ob_world b)).

(** a worker pinned to the workspace or shared by all, registered or not *)
Definition visible_worker (ws : id) (r : WorkerRegistration) : bool :=
match wrk_workspace_id r with None => true | Some w => in_workspace ws w end.

(** the same rows of a workspace at the same instant: of every table of the
    board, the workers it may see (its own and the shared ones), its receipts,
    its stage runs, and the columns the models do not have; and the lease of
    the scheduler, which is nobody's *)
Record same_rows (ws : id) (b b' : Board) : Prop := {
  same_now : w_now (ob_world b) = w_now (ob_world b');
  same_tables : ∀ A (t : Board → gmap id A) seen, board_table ws t seen → seen_rows t seen b = seen_rows t seen b';
  same_workers : seen_rows t_workers (visible_worker ws) b = seen_rows t_workers (visible_worker ws) b';
  same_receipts : receipts_of ws b = receipts_of ws b';
  same_own : own_rows ws b = own_rows ws b';
  same_stage_runs : stage_runs_of ws b = stage_runs_of ws b';
  same_stage_costs : ∀ p, p ∈ stage_runs_of ws b →
    ob_stage_cost b p.1 = ob_stage_cost b' p.1 ∧ ob_stage_provider b p.1 = ob_stage_provider b' p.1;
  same_run_ages : ∀ r, r ∈ seen_rows t_runs (of_run ws) b →
    ob_run_created_at b (row_id r) = ob_run_created_at b' (row_id r);
  same_item_deletions : ∀ r, r ∈ seen_rows t_items (of_item ws) b →
    ob_item_deleted_at b (row_id r) = ob_item_deleted_at b' (row_id r)
}.

(** the row a key names, if there, is of the workspace *)
Definition names {A} (t : Board → gmap id A) (own : A → bool) (b : Board) (i : id) : Prop :=
∀ x, t b !! i = Some x → own x = true.

(** the rows of a workspace refer to content items and runs of the workspace,
    and to workers it may see *)
Record self_contained (ws : id) (b : Board) : Prop := {
  runs_name_items : ∀ r j, r ∈ seen_rows t_runs (of_run ws) b → run_content_item_id (row_data r) = Some j →
    names t_items (of_item ws) b j;
  logs_name_items : ∀ r j, r ∈ seen_rows t_spend (of_spend ws) b → slog_content_item_id (row_data r) = Some j →
    names t_items (of_item ws) b j;
  results_name_items : ∀ p j, p ∈ stage_runs_of ws b → srun_content_item_id p.2 = Some j →
    names t_items (of_item ws) b j;
  assets_name_items : ∀ r, r ∈ seen_rows ob_assets (of_asset ws) b →
    names t_items (of_item ws) b (ast_content_item_id (row_data r));
  gates_name_runs : ∀ r, r ∈ seen_rows t_gates (of_gate ws) b →
    names t_runs (of_run ws) b (gate_pipeline_run_id (row_data r));
  assignments_name_workers : ∀ r w, r ∈ seen_rows t_assignments (of_assignment ws) b → worker_of r = Some w →
    names t_workers (visible_worker ws) b w;
  worker_logs_name_workers : ∀ r, r ∈ seen_rows t_worker_logs (of_log ws) b →
    names t_workers (visible_worker ws) b (wlog_worker_id (row_data r))
}.

(** what the panels look at, joins included *)
Record alike (ws : id) (b b' : Board) : Prop := {
  alike_now : w_now (ob_world b) = w_now (ob_world b');
  alike_rows : ∀ A (t : Board → gmap id A) seen, board_table ws t seen → seen_rows t seen b = seen_rows t seen b';
  alike_receipts : receipts_of ws b = receipts_of ws b';
  alike_own : own_rows ws b = own_rows ws b';
  alike_runs : ∀ r, r ∈ seen_rows t_runs (of_run ws) b →
    ob_run_created_at b (row_id r) = ob_run_created_at b' (row_id r) ∧
    topic_of (t_items b) (row_data r) = topic_of (t_items b') (row_data r);
  alike_items : ∀ r, r ∈ seen_rows t_items (of_item ws) b →
    ob_item_deleted_at b (row_id r) = ob_item_deleted_at b' (row_id r);
  alike_spend : ∀ r, r ∈ seen_rows t_spend (of_spend ws) b → spend_key (t_items b) r = spend_key (t_items b') r;
  alike_assets : ∀ r, r ∈ seen_rows ob_assets (of_asset ws) b →
    asset_topic (t_items b) r = asset_topic (t_items b') r;
  alike_gates : ∀ r, r ∈ seen_rows t_gates (of_gate ws) b →
    gate_topic (t_runs b) (t_items b) r = gate_topic (t_runs b') (t_items b') r;
  alike_logs : ∀ r, r ∈ seen_rows t_worker_logs (of_log ws) b →
    t_workers b !! wlog_worker_id (row_data r) = t_workers b' !! wlog_worker_id (row_data r);
  alike_workers : ∀ r, r ∈ seen_rows t_assignments (of_assignment ws) b →
    worker_name_of (t_workers b) r = worker_name_of (t_workers b') r;
  alike_stage_runs : omap (costly_stage_run b) (stage_runs_of ws b) = omap (costly_stage_run b') (stage_runs_of ws b')
}.

Lemma omap_ext_in {A B} (f g : A → option B) (l : list A) : (∀ x, x ∈ l → f x = g x) → omap f l = omap g l.
Proof.
  induction l as [|x l IH]; [done|]. intros Hfg.
  change (match f x with Some y => y :: omap f l | None => omap f l end
          = match g x with Some y => y :: omap g l | None => omap g l end).
  rewrite (Hfg x), IH by (by left || (intros; apply Hfg; by right)). done.
Qed.
(** *** The joins stay in the workspace *)

Lemma seen_lookup {A} (t : Board → gmap id A) (seen : A → bool) b b' i x :
  seen_rows t seen b = seen_rows t seen b' → t b !! i = Some x → seen x = true → t b' !! i = Some x.
Proof.
  intros He Hi Hx.
  assert (Hin : dated b (i, x) ∈ seen_rows t seen b').
  { rewrite <- He. apply list_elem_of_In, in_map, list_elem_of_In. by apply elem_of_rows. }
  apply list_elem_of_In, in_map_iff in Hin as ([j y] & Hd & Hin). apply list_elem_of_In, elem_of_rows in Hin as [Hj _].
  by injection Hd as <- <- _.
Qed.

Lemma named_same {A} (t : Board → gmap id A) (own : A → bool) b b' i :
  seen_rows t own b = seen_rows t own b' → names t own b i → names t own b' i → t b !! i = t b' !! i.
Proof.
  intros He Hn Hn'. destruct (t b !! i) as [x|] eqn:Hi.
  - symmetry. by apply (seen_lookup t own b b'); [|exact Hi|apply Hn].
  - destruct (t b' !! i) as [x|] eqn:Hi'; [|done].
    rewrite (seen_lookup t own b' b i x (eq_sym He) Hi' (Hn' x Hi')) in Hi. done.
Qed.

Section Joined.
Context (ws : id) (b b' : Board) (Hs : same_rows ws b b') (Hc : self_contained ws b) (Hc' : self_contained ws b').

Lemma item_named_same o :
  (∀ j, o = Some j → names t_items (of_item ws) b j ∧ names t_items (of_item ws) b' j) →
  item_of (t_items b) o = item_of (t_items b') o.
Proof using Hs.
  intros Hn. destruct o as [j|]; [|done]. destruct (Hn j eq_refl). unfold item_of. simpl.
  by apply (named_same t_items (of_item ws)); [apply (same_tables _ _ _ Hs), T_items|..].
Qed.

Lemma run_topic_same r :
  r ∈ seen_rows t_runs (of_run ws) b → topic_of (t_items b) (row_data r) = topic_of (t_items b') (row_data r).
Proof using Hs Hc Hc'.
  intros Hr. unfold topic_of. f_equal. apply item_named_same. intros j Hj.
  split; [by apply (runs_name_items _ _ Hc r)|].
  apply (runs_name_items _ _ Hc' r); [|done]. by rewrite <- (same_tables _ _ _ Hs _ _ _ (T_runs ws)).
Qed.

Lemma gate_topic_same r :
  r ∈ seen_rows t_gates (of_gate ws) b →
  gate_topic (t_runs b) (t_items b) r = gate_topic (t_runs b') (t_items b') r.
Proof using Hs Hc Hc'.
  intros Hr. assert (Hr' : r ∈ seen_rows t_gates (of_gate ws) b')
    by (by rewrite <- (same_tables _ _ _ Hs _ _ _ (T_gates ws))).
  unfold gate_topic. pose proof (gates_name_runs _ _ Hc r Hr) as Hn.
  rewrite <- (named_same t_runs (of_run ws) b b' _ (same_tables _ _ _ Hs _ _ _ (T_runs ws)) Hn
    (gates_name_runs _ _ Hc' r Hr')).
  destruct (t_runs b !! _) as [run|] eqn:Hrun; [|done]. simpl.
  apply (run_topic_same (dated b (gate_pipeline_run_id (row_data r), run))).
  apply list_elem_of_In, in_map, list_elem_of_In, elem_of_rows. split; [done|by apply Hn].
Qed.

Lemma costly_same p : p ∈ stage_runs_of ws b → costly_stage_run b p = costly_stage_run b' p.
Proof using Hs Hc Hc'.
  intros Hp. destruct (same_stage_costs _ _ _ Hs p Hp) as [H1 H2]. unfold costly_stage_run. rewrite H1, H2.
  rewrite (item_named_same (srun_content_item_id p.2)); [done|]. intros j Hj.
  split; [by apply (results_name_items _ _ Hc p)|]. apply (results_name_items _ _ Hc' p); [|done].
  by rewrite <- (same_stage_runs _ _ _ Hs).
Qed.

Lemma worker_named_same w :
  names t_workers (visible_worker ws) b w → names t_workers (visible_worker ws) b' w →
  t_workers b !! w = t_workers b' !! w.
Proof using Hs. apply named_same, (same_workers _ _ _ Hs). Qed.

Lemma same_alike : alike ws b b'.
Proof using Hs Hc Hc'.
  pose proof (same_tables _ _ _ Hs) as Ht. split.
  - apply Hs.
  - apply Ht.
  - apply Hs.
  - apply Hs.
  - intros r Hr. split; [by apply Hs|by apply run_topic_same].
  - apply Hs.
  - intros r Hr. unfold spend_key. do 2 f_equal. f_equal. f_equal. f_equal. apply item_named_same. intros j Hj.
    split; [by apply (logs_name_items _ _ Hc r)|]. apply (logs_name_items _ _ Hc' r); [|done].
    by rewrite <- (Ht _ _ _ (T_spend ws)).
  - intros r Hr. unfold asset_topic. f_equal.
    apply (named_same t_items (of_item ws)); [apply Ht, T_items|by apply (assets_name_items _ _ Hc)|].
    apply (assets_name_items _ _ Hc'). by rewrite <- (Ht _ _ _ (T_assets ws)).
  - apply gate_topic_same.
  - intros r Hr. apply worker_named_same; [by apply (worker_logs_name_workers _ _ Hc)|].
    apply (worker_logs_name_workers _ _ Hc'). by rewrite <- (Ht _ _ _ (T_worker_logs ws)).
  - intros r Hr. unfold worker_name_of. destruct (worker_of r) as [w|] eqn:Hw; [|done]. simpl. f_equal.
    apply worker_named_same; [by apply (assignments_name_workers _ _ Hc r)|].
    apply (assignments_name_workers _ _ Hc' r); [|done]. by rewrite <- (Ht _ _ _ (T_assignments ws)).
  - rewrite <- (same_stage_runs _ _ _ Hs). apply omap_ext_in. apply costly_same.
Qed.
End Joined.

(** a computation that only looks, and only at the workspace *)
Definition confined {A} (ws : id) (m : OM A) : Prop :=
∀ b b', alike ws b b' → (m b).1 = (m b').1 ∧ (m b).2 = b ∧ (m b').2 = b'.

Section Confined.
Context (ws : id).

Lemma confined_ret {A} (a : A) : confined ws (mret a).
Proof. done. Qed.
Lemma confined_raise {A} e : confined ws (raise (A := A) e).
Proof. done. Qed.
Lemma confined_lift {A} (r : result exn A) : confined ws (lift_result r).
Proof. done. Qed.
Lemma confined_bind {A B} (m : OM A) (k : A → OM B) :
  confined ws m → (∀ a, confined ws (k a)) → confined ws (m ≫= k).
Proof.
  intros Hm Hk b b' Ha. destruct (Hm b b' Ha) as (H1 & H2 & H3). rewrite !run_bind.
  destruct (m b) as [r b1], (m b') as [r' b1']. simpl in *. subst. destruct r' as [a|e]; [by apply Hk|done].
Qed.
Lemma confined_collect {A B} (l : list A) (f : A → OM B) : (∀ x, confined ws (f x)) → confined ws (collect l f).
Proof.
  intros Hf. induction l as [|x l IH]; [apply confined_ret|]. simpl.
  apply confined_bind; [apply Hf|intros y]. apply confined_bind; [done|intros ys; apply confined_ret].
Qed.
(** a question whose answer the workspace's rows determine *)
Lemma confined_gets {A} (f : Board → A) : (∀ b b', alike ws b b' → f b = f b') → confined ws (gets f).
Proof. intros Hf b b' Ha. unfold gets. simpl. by rewrite (Hf b b' Ha). Qed.
Lemma confined_now : confined ws board_now.
Proof. apply confined_gets. intros b b' Ha. apply (alike_now _ _ _ Ha). Qed.

Section Table.
Context {A} (t : Board → gmap id A) (seen : A → bool) (Ht : board_table ws t seen).
Lemma confined_query P : confined ws (query t seen P).
Proof using Ht. apply confined_gets. intros b b' Ha. by rewrite (alike_rows _ _ _ Ha _ t seen Ht). Qed.
Lemma confined_count P : confined ws (count_rows t seen P).
Proof using Ht. apply confined_bind; [apply confined_query|intros l; apply confined_ret]. Qed.
(** a query and what is made of its rows with another table at hand *)
Lemma confined_joined {B C} P (g : Board → C) (k : list (row A) → C → B) :
  (∀ b b', alike ws b b' → ∀ l, (∀ r, r ∈ l → r ∈ seen_rows t seen b) → k l (g b) = k l (g b')) →
  confined ws (l ← query t seen P; c ← gets g; mret (k l c)).
Proof using Ht.
  intros Hk.
  assert (Hrun : ∀ b, (l ← query t seen P; c ← gets g; mret (k l c)) b
    = (Ok (k (List.filter P (seen_rows t seen b)) (g b)), b)) by reflexivity.
  intros b b' Ha. rewrite !Hrun, <- (alike_rows _ _ _ Ha _ t seen Ht). split; [|done]. simpl. f_equal.
  apply (Hk b b' Ha). intros r [Hr _]%list_elem_of_In%filter_In. by apply list_elem_of_In.
Qed.
End Table.

End Confined.

#[local] Hint Constructors board_table : core.
#[local] Hint Resolve confined_ret confined_raise confined_lift confined_now confined_query confined_count : confined.

Lemma with_topic_ext {A} (f g : row A → option string) l :
  (∀ r, r ∈ l → f r = g r) → with_topic f l = with_topic g l.
Proof. intros Hfg. apply omap_ext_in. intros r Hr. by rewrite (Hfg r Hr). Qed.

Lemma group_by_ext {K A} `{EqDecision K} (f g : A → option K) (l : list A) :
  (∀ x, x ∈ l → f x = g x) → group_by f l = group_by g l.
Proof.
  intros Hfg. unfold group_by. rewrite (omap_ext_in f g l Hfg). apply List.map_ext_in. intros k _. f_equal.
  apply filter_ext_in. intros x Hx. by rewrite (Hfg x Hx).
Qed.

Section Joins.
Context (ws : id).

Ltac joined := first [by constructor | intros b b' Ha l Hl].

Lemma confined_pipeline_rows : confined ws (pipeline_rows ws).
Proof.
  apply (confined_joined ws); joined. apply List.map_ext_in. intros r Hr. unfold pipeline_row.
  f_equal. apply (alike_runs _ _ _ Ha). apply Hl. apply list_elem_of_In, elem_of_take in Hr as (k & Hk & _).
  apply list_elem_of_lookup_2 in Hk. by apply elem_of_order_by in Hk.
Qed.
Lemma confined_spend_groups since : confined ws (spend_groups ws since).
Proof. apply (confined_joined ws); joined. apply group_by_ext. intros r Hr. apply (alike_spend _ _ _ Ha), Hl, Hr. Qed.
Lemma confined_live_items : confined ws (live_items ws).
Proof.
  apply (confined_joined ws); joined. apply filter_ext_in. intros r Hr.
  by rewrite (alike_items _ _ _ Ha r (Hl r Hr)).
Qed.
Lemma confined_worker_activity since : confined ws (worker_activity ws since).
Proof.
  apply (confined_joined ws); joined. f_equal. apply group_by_ext. intros r Hr.
  apply (alike_workers _ _ _ Ha), Hl, Hr.
Qed.
Lemma confined_logs P : confined ws (logs_with_worker ws P).
Proof.
  apply (confined_joined ws); joined. apply omap_ext_in. intros r Hr. unfold log_out.
  by rewrite (alike_logs _ _ _ Ha r (Hl r Hr)).
Qed.
Lemma confined_assets P : confined ws (assets_with_topic ws P).
Proof.
  apply (confined_joined ws); joined. apply with_topic_ext. intros r Hr. apply (alike_assets _ _ _ Ha), Hl, Hr.
Qed.
Lemma confined_runs_with_topic : confined ws (runs_with_topic ws).
Proof.
  apply (confined_joined ws); joined. apply with_topic_ext. intros r Hr. by apply (alike_runs _ _ _ Ha), Hl.
Qed.
Lemma confined_gates_with_topic P : confined ws (gates_with_topic ws P).
Proof.
  apply (confined_joined ws); joined. apply with_topic_ext. intros r Hr. apply (alike_gates _ _ _ Ha), Hl, Hr.
Qed.
Lemma confined_costly : confined ws (costly_stage_runs ws).
Proof. apply confined_gets. intros b b' Ha. apply (alike_stage_runs _ _ _ Ha). Qed.

(** what is kept under the workspace's identifier *)
Lemma confined_own {A} (f : Board → A) :
  (∀ b b', own_rows ws b = own_rows ws b' → f b = f b') → confined ws (gets f).
Proof. intros Hf. apply confined_gets. intros b b' Ha. apply Hf, (alike_own _ _ _ Ha). Qed.

Lemma confined_cap : confined ws (workspace_cap ws).
Proof. apply confined_own. intros b b'. unfold own_rows. congruence. Qed.
Lemma confined_soft_limit `{Settings} : confined ws (soft_limit ws).
Proof.
  apply confined_bind; [|intros; apply confined_ret]. apply confined_own. intros b b'. unfold own_rows. congruence.
Qed.
Lemma confined_hard_limit `{Settings} : confined ws (hard_limit ws).
Proof.
  apply confined_bind; [|intros; apply confined_ret]. apply confined_own. intros b b'. unfold own_rows. congruence.
Qed.
Lemma confined_lease : confined ws (gets (λ b, w_leases (ob_world b) !! "scheduler")).
Proof. apply confined_own. intros b b'. unfold own_rows. congruence. Qed.
Lemma confined_exists :
  confined ws (gets (λ b, if bool_decide (is_Some (w_workspaces (ob_world b) !! ws)) then 1 else 0)).
Proof.
  apply confined_own. intros b b'. unfold own_rows. intros [= Hw _ _ _ _].
  destruct (w_workspaces (ob_world b) !! ws), (w_workspaces (ob_world b') !! ws); done.
Qed.

Lemma rows_filter {K A} `{Countable K} (P Q : A → bool) (m : gmap K A) :
  (∀ x, P x = true → Q x = true) → rows (λ _, P) m = List.filter (λ p, P p.2) (rows (λ _, Q) m).
Proof.
  intros HPQ. unfold rows. induction (map_to_list m) as [|[k x] l IH]; [done|]. rewrite !filter_cons. simpl.
  destruct (P x) eqn:HP.
  - rewrite decide_True by done. rewrite decide_True by (by apply HPQ). simpl. by rewrite HP, IH.
  - rewrite decide_False by done. destruct (Q x); [rewrite decide_True by done|rewrite decide_False by done];
      simpl; rewrite ?HP; apply IH.
Qed.

Lemma receipts_narrowed P b :
  (∀ e, P e = true → of_receipt ws e = true) →
  map (λ p, mk_receipt p.1 (ob_receipt_id b p.1) p.2 (ob_processed_at b p.1)) (rows (λ _, P) (ob_receipts b))
  = List.filter (λ r, P (rc_event r)) (receipts_of ws b).
Proof.
  intros HP. unfold receipts_of. rewrite (rows_filter P (of_receipt ws)) by done.
  induction (rows (λ _, of_receipt ws) (ob_receipts b)) as [|p l IH]; [done|]. simpl.
  destruct (P p.2); simpl; by rewrite IH.
Qed.
Lemma confined_receipts P : (∀ e, P e = true → of_receipt ws e = true) → confined ws (receipts P).
Proof.
  intros HP. apply confined_gets. intros b b' Ha. rewrite !receipts_narrowed by done.
  by rewrite (alike_receipts _ _ _ Ha).
Qed.
Lemma confined_receipts_of P : confined ws (receipts (λ e, of_receipt ws e && P e)).
Proof. apply confined_receipts. intros e. by destruct (of_receipt ws e). Qed.
End Joins.

(** ** Customers of one workspace *)

Section CustomersConfined.
Context (ws : id).

Lemma seen_narrowed {A} (t : Board → gmap id A) (seen : A → bool) P b :
  (∀ r, P r = true → seen (row_data r) = true) →
  List.filter P (seen_rows t (λ _, true) b) = List.filter P (seen_rows t seen b).
Proof.
  intros HP. unfold seen_rows. rewrite (rows_filter seen (λ _, true)) by done.
  induction (rows (λ _ _, true) (t b)) as [|p l IH]; [done|]. simpl.
  destruct (seen p.2) eqn:Hs; simpl; [by rewrite IH|].
  destruct (P (dated b p)) eqn:Hp; [|done]. apply HP in Hp. simpl in Hp. congruence.
Qed.

Lemma seen_ext {A} (t : Board → gmap id A) (seen seen' : A → bool) b :
  (∀ x, seen x = seen' x) → seen_rows t seen b = seen_rows t seen' b.
Proof. intros Hs. unfold seen_rows. f_equal. apply list_filter_iff. intros p. by rewrite Hs. Qed.

(** the memberships that make the user an administrator of the workspace *)
Definition admin_rows (u : id) (b : Board) : list (row WorkspaceMembership) :=
List.filter (administers u (Some ws)) (seen_rows t_memberships (λ _, true) b).

Lemma administers_here u m : administers u (Some ws) m = true → mem_workspace_id (row_data m) = ws.
Proof. unfold administers. rewrite !andb_true_iff. intros [_ Hw]. by apply in_workspace_true in Hw. Qed.
Lemma admin_rows_here u b m : m ∈ admin_rows u b → mem_workspace_id (row_data m) = ws.
Proof. intros [_ Hm]%list_elem_of_In%filter_In. by eapply administers_here. Qed.
Lemma admin_rows_alike u b b' : alike ws b b' → admin_rows u b = admin_rows u b'.
Proof.
  intros Ha. unfold admin_rows. rewrite !(seen_narrowed t_memberships (of_membership ws)).
  - by rewrite (alike_rows _ _ _ Ha _ _ _ (T_memberships ws)).
  - intros r Hr. apply in_workspace_true. by eapply administers_here.
  - intros r Hr. apply in_workspace_true. by eapply administers_here.
Qed.

(** the workspaces of the rows *)
Definition admin_workspaces (u : id) (b : Board) : list (id * Workspace) :=
desc_by (λ p, ws_created_at p.2)
  (omap (λ m, pair (mem_workspace_id (row_data m)) <$> w_workspaces (ob_world b) !! mem_workspace_id (row_data m))
    (admin_rows u b)).

Lemma own_workspace b b' : alike ws b b' → w_workspaces (ob_world b) !! ws = w_workspaces (ob_world b') !! ws.
Proof.
  intros Ha. pose proof (alike_own _ _ _ Ha) as Ho. unfold own_rows in Ho. injection Ho as Hw _ _ _ _.
  destruct (w_workspaces (ob_world b) !! ws), (w_workspaces (ob_world b') !! ws); simpl in Hw; try done.
  by injection Hw as ->.
Qed.

Lemma admin_workspaces_alike u b b' : alike ws b b' → admin_workspaces u b = admin_workspaces u b'.
Proof.
  intros Ha. unfold admin_workspaces. rewrite <- (admin_rows_alike u b b' Ha). f_equal. apply omap_ext_in.
  intros m Hm%admin_rows_here. rewrite Hm. by rewrite (own_workspace _ _ Ha).
Qed.
Lemma admin_workspaces_here u b p : p ∈ admin_workspaces u b → p.1 = ws.
Proof.
  intros Hp. apply elem_of_order_by, list_elem_of_omap in Hp as (m & Hm & Hp). apply admin_rows_here in Hm.
  destruct (w_workspaces (ob_world b) !! _); [|done]. injection Hp as <-. exact Hm.
Qed.

(** what [customers] answers, once the workspaces are known *)
Definition customers_value (month_start : time) (admin_ws : list (id * Workspace)) (b : Board) : result exn CustomersOut :=
match map fst admin_ws with
| [] => Ok (mk_customers 0 0 0 0 (dec_of 0) [])
| ids =>
    let members := seen_rows t_memberships (λ m, bool_decide (mem_workspace_id m ∈ ids)) b in
    let rows := map (customer_row (ob_billing b) (groups member_workspace len members)) admin_ws in
    let '(beta, active, paying_users, trial) := count_users rows (0, 0, 0, 0) in
    revenue ← add_revenue
      (map rc_event (List.filter (λ r, month_start <=? rc_processed_at r)
        (map (λ p, mk_receipt p.1 (ob_receipt_id b p.1) p.2 (ob_processed_at b p.1))
          (Prelude.rows (λ _ e, match we_workspace_id e with
                                | Some w => bool_decide (w ∈ ids)
                                | None => false
                                end && is_payment e) (ob_receipts b))))) (dec_of 0);
    Ok (mk_customers beta active paying_users trial revenue rows)
end.

Lemma run_customers u b :
  customers u (Some ws) b
  = (customers_value (utc_month_start (w_now (ob_world b))) (admin_workspaces u b) b, b).
Proof.
  unfold customers. erewrite run_bind_ok by reflexivity. cbv zeta.
  erewrite run_bind_ok by reflexivity. erewrite run_bind_ok by reflexivity.
  fold (admin_rows u b). fold (admin_workspaces u b). unfold customers_value.
  destruct (map fst (admin_workspaces u b)) as [|i ids]; [reflexivity|].
  erewrite run_bind_ok by reflexivity. erewrite run_bind_ok by (unfold query; rewrite ?List.filter_true; reflexivity).
  cbv zeta. rewrite ?List.filter_true.
  match goal with |- context [count_users ?r ?z] => destruct (count_users r z) as [[[? ?] ?] ?] end.
  erewrite run_bind_ok by reflexivity. rewrite run_bind. unfold lift_result.
  match goal with |- context [add_revenue ?l ?z] => destruct (add_revenue l z) end; reflexivity.
Qed.

Lemma customers_value_alike t l b b' :
  alike ws b b' → (∀ p, p ∈ l → p.1 = ws) → customers_value t l b = customers_value t l b'.
Proof.
  intros Ha Hl. unfold customers_value. destruct (map fst l) as [|i ids] eqn:Hids; [done|]. rewrite <- !Hids.
  assert (Hin : ∀ x, bool_decide (x ∈ map fst l) = in_workspace ws x).
  { intros x. unfold in_workspace. apply bool_decide_ext. split.
    - intros (p & -> & Hp)%list_elem_of_fmap. by apply Hl.
    - intros ->. destruct l as [|p l]; [done|]. apply list_elem_of_fmap. exists p. split; [|by left].
      symmetry. apply Hl. by left. }
  cbv zeta.
  assert (Hm : ∀ b, seen_rows t_memberships (λ m, bool_decide (mem_workspace_id m ∈ map fst l)) b
                  = seen_rows t_memberships (of_membership ws) b).
  { intros b0. apply seen_ext. intros m. apply Hin. }
  rewrite !Hm, (alike_rows _ _ _ Ha _ _ _ (T_memberships ws)).
  pose proof (alike_own _ _ _ Ha) as Ho. unfold own_rows in Ho. injection Ho as _ Hbill _ _ _.
  set (counts := groups _ _ _).
  assert (Hrows : map (customer_row (ob_billing b) counts) l = map (customer_row (ob_billing b') counts) l).
  { apply List.map_ext_in. intros p Hp%list_elem_of_In. unfold customer_row. by rewrite (Hl p Hp), Hbill. }
  rewrite Hrows. destruct (count_users _ _) as [[[? ?] ?] ?].
  rewrite !(receipts_narrowed ws), (alike_receipts _ _ _ Ha); [done| |].
  all: intros e; unfold of_receipt; destruct (we_workspace_id e); [|done]; rewrite Hin;
    by intros [? _]%andb_true_iff.
Qed.

Lemma confined_customers u : confined ws (customers u (Some ws)).
Proof.
  intros b b' Ha. rewrite !run_customers. split; [|done]. cbn [fst].
  rewrite (alike_now _ _ _ Ha), (admin_workspaces_alike u b b' Ha). apply customers_value_alike; [done|].
  intros p. apply admin_workspaces_here.
Qed.
End CustomersConfined.

(** ** Every panel *)

#[local] Hint Resolve confined_pipeline_rows confined_spend_groups confined_live_items confined_worker_activity
  confined_logs confined_assets confined_runs_with_topic confined_gates_with_topic confined_costly confined_cap
  confined_soft_limit confined_hard_limit confined_lease confined_exists confined_receipts confined_receipts_of
  confined_customers : confined.
#[local] Hint Extern 1 (board_table _ _ _) => constructor : confined.

Ltac confined_tac :=
  repeat (progress (cbv zeta) ||
    lazymatch goal with
    | |- confined _ (_ ≫= _) => apply confined_bind; [|intros ?]
    | |- confined _ (collect _ _) => apply confined_collect; intros ?
    | |- confined _ (match ?x with _ => _ end) => destruct x
    | |- confined _ (if ?x then _ else _) => destruct x
    end);
  eauto with confined.

Section Panels.
Context `{Settings, Unordered}.
Context (collate : string → string → bool) (deployment : DeploymentInfo) (github : GitHubOut).
Context (json_text : json → string) (environment : string) (uuid_text : id → string) (ws : id).

Lemma confined_registrations : confined ws (registrations collate ws).
Proof. unfold registrations. confined_tac. Qed.
#[local] Hint Resolve confined_registrations : confined.
Lemma confined_workers : confined ws (workers collate ws).
Proof. unfold workers, _worker_assignment_totals, _worker_active_assignments, _pending_counts_by_stage. confined_tac. Qed.
Lemma confined_spend_totals : confined ws (spend_totals ws).
Proof. unfold spend_totals. confined_tac. Qed.
#[local] Hint Resolve confined_workers confined_spend_totals : confined.
Lemma confined_executive : confined ws (executive deployment ws).
Proof. unfold executive. confined_tac. Qed.
Lemma confined_pipelines : confined ws (pipelines ws).
Proof. unfold pipelines. confined_tac. Qed.
Lemma confined_failed_webhooks since : confined ws (failed_webhooks ws since).
Proof. unfold failed_webhooks. confined_tac. Qed.
#[local] Hint Resolve confined_executive confined_pipelines confined_failed_webhooks : confined.
Lemma confined_build_alerts : confined ws (build_alerts deployment ws).
Proof. unfold build_alerts. confined_tac. Qed.
#[local] Hint Resolve confined_build_alerts : confined.
Lemma confined_notifications : confined ws (notifications deployment ws).
Proof. unfold notifications. confined_tac. Qed.
Lemma confined_spend : confined ws (spend collate ws).
Proof. unfold spend. confined_tac. Qed.
Lemma confined_activity limit : confined ws (activity_feed deployment github json_text ws limit).
Proof. unfold activity_feed. confined_tac. Qed.
Lemma confined_health : confined ws (system_health deployment github environment ws).
Proof. unfold system_health. confined_tac. Qed.
#[local] Hint Resolve confined_notifications confined_spend confined_activity confined_health : confined.
Lemma confined_cost_control : confined ws (cost_control collate ws).
Proof. unfold cost_control, top_expensive_jobs. confined_tac. Qed.
Lemma confined_timeline : confined ws (worker_timeline collate ws).
Proof. unfold worker_timeline, _recent_assignments_by_worker. confined_tac. Qed.
Lemma confined_stage_count l : confined ws (stage_count ws l).
Proof. unfold stage_count. confined_tac. Qed.
#[local] Hint Resolve confined_stage_count : confined.
Lemma confined_command : confined ws (content_command_center ws).
Proof. unfold content_command_center. confined_tac. Qed.
Lemma confined_insights u : confined ws (executive_insights ws u).
Proof. unfold executive_insights. confined_tac. Qed.
Lemma confined_live_logs w p j s n : confined ws (live_logs ws w p j s n).
Proof. unfold live_logs. confined_tac. Qed.
#[local] Hint Resolve confined_cost_control confined_timeline confined_command confined_insights confined_live_logs : confined.
Lemma confined_universal limit : confined ws (universal_timeline deployment github json_text ws limit).
Proof. unfold universal_timeline. confined_tac. Qed.
Lemma confined_mode u : confined ws (executive_mode collate deployment github environment ws u).
Proof. unfold executive_mode. confined_tac. Qed.
#[local] Hint Resolve confined_universal confined_mode : confined.

Lemma confined_search_customers u pattern : confined ws (search_customers uuid_text ws u pattern).
Proof.
  assert (Hrun : ∀ b, search_customers uuid_text ws u pattern b
    = (Ok (map (customer_result uuid_text) (newest 10 row_updated_at
         (List.filter (λ p, customer_hit uuid_text pattern (row_id p, row_data p))
           (omap (λ _, dated b ∘ pair ws <$> w_workspaces (ob_world b) !! ws) (admin_rows ws u b))))), b))
    by reflexivity.
  intros b b' Ha. rewrite !Hrun. split; [|done]. cbn [fst].
  pose proof (alike_own _ _ _ Ha) as Ho. unfold own_rows in Ho. injection Ho as Hw _ _ _ _.
  by rewrite (admin_rows_alike ws u b b' Ha), Hw.
Qed.
#[local] Hint Resolve confined_search_customers : confined.

Lemma confined_search u q : confined ws (global_search collate github uuid_text ws u q).
Proof.
  unfold global_search, search_leads, search_pipelines, search_workers, search_jobs, search_content,
    search_reviews, search_videos, search_logs. confined_tac.
Qed.
#[local] Hint Resolve confined_search : confined.

Lemma confined_valid ok : confined ws (valid ok).
Proof. by destruct ok. Qed.
#[local] Hint Resolve confined_valid : confined.

(** the panel that shows all the workspaces its user administers *)
Definition portfolio {A} (q : board_get A) : bool := match q with GetCustomers => true | _ => false end.

Lemma confined_panel {A} (user : AuthenticatedUser) (q : board_get A) :
  portfolio q = false →
  confined ws (get_panel collate deployment github json_text environment uuid_text ws user q).
Proof.
  destruct q; cbv beta iota delta [get_panel]; try done; intros _; unfold alerts, list_leads; confined_tac.
Qed.

(** the guard reads the memberships of the workspace *)
Lemma guard_alike (user : AuthenticatedUser) b b' :
  alike ws b b' →
  (require_workspace_admin ws user (ob_studio b)).1 = (require_workspace_admin ws user (ob_studio b')).1.
Proof.
  intros Ha. unfold require_workspace_admin, require_workspace_role, get_membership. rewrite !run_bind.
  unfold lift_result. destruct (user_uuid user) as [u|e]; [|done]. rewrite !run_bind.
  unfold select, gets. cbv beta iota.
  assert (Hrows : rows (membership_of ws u) (st_memberships (ob_studio b))
                = rows (membership_of ws u) (st_memberships (ob_studio b'))).
  { unfold membership_of. pose proof (alike_rows _ _ _ Ha _ _ _ (T_memberships ws)) as Hr.
    assert (Heq : ∀ b, rows (λ _ m, in_workspace ws (mem_workspace_id m) && bool_decide (mem_user_id m = u))
              (t_memberships b)
            = map (λ r, (row_id r, row_data r)) (List.filter (λ r, bool_decide (mem_user_id (row_data r) = u))
                (seen_rows t_memberships (of_membership ws) b))).
    { intros b0. rewrite (rows_filter _ (of_membership ws)) by (intros m; unfold of_membership; by destruct (in_workspace _ _)).
      unfold seen_rows.
      assert (Hin : ∀ p, p ∈ rows (λ _, of_membership ws) (t_memberships b0) → in_workspace ws (mem_workspace_id p.2) = true).
      { intros [i m] [_ Hm]%elem_of_rows. exact Hm. }
      induction (rows (λ _, of_membership ws) (t_memberships b0)) as [|[i m] l IH]; [done|]. simpl.
      pose proof (Hin (i, m) ltac:(by left)) as Hm. simpl in Hm. rewrite Hm. simpl.
      specialize (IH (λ p Hp, Hin p ltac:(by right))). destruct (bool_decide _); simpl; by rewrite IH. }
    etrans; [exact (Heq b)|]. rewrite Hr. symmetry. exact (Heq b'). }
  rewrite Hrows. destruct (rows (membership_of ws u) (st_memberships (ob_studio b'))) as [|x [|y l]]; [reflexivity| |reflexivity].
  cbn. by case_bool_decide.
Qed.

Lemma alike_refl b : alike ws b b.
Proof. by split. Qed.
Lemma looks_customers u o b : (customers u o b).2 = b.
Proof.
  symmetry. revert b. change (keeps (=) (customers u o)). unfold customers, board_now, query, receipts. keeps_tac.
Qed.
Lemma looks_panel {A} (user : AuthenticatedUser) (q : board_get A) b :
  (get_panel collate deployment github json_text environment uuid_text ws user q b).2 = b.
Proof.
  destruct (portfolio q) eqn:Hq.
  - destruct q; try done. cbv beta iota delta [get_panel]. rewrite run_bind. unfold lift_result.
    destruct (user_uuid user) as [u|e]; [apply looks_customers|done].
  - by apply (confined_panel user q Hq b b (alike_refl b)).
Qed.

(** C15: no request for a panel changes anything, whatever comes of it; and but
    for the one that shows every workspace its user administers, what a panel
    answers is determined by the rows the workspace may see (its own, the
    shared workers, the lease of the scheduler): the same for two databases
    with the same such rows, however the rest of them differs, as long as in
    both the workspace's rows refer to rows it may see (the panels join
    workers and content items by key alone, see [foreign_worker_shown]). *)
Theorem panels_confined {A} (user : AuthenticatedUser) (q : board_get A) b b' :
  let serve := serve_board_get collate deployment github json_text environment uuid_text ws user q in
  (serve b).2 = b ∧
  (portfolio q = false → same_rows ws b b' → self_contained ws b → self_contained ws b' →
   (serve b).1 = (serve b').1).
Proof.
  cbv zeta. unfold serve_board_get. split.
  - destruct (board_route_guarded ws user
      (get_panel collate deployment github json_text environment uuid_text ws user q) b) as [[Hs _]|[_ ->]]; [done|].
    unfold savepoint. pose proof (looks_panel user q b) as Hl.
    destruct (get_panel _ _ _ _ _ _ _ _ _ b) as [[a|e] b1]; done.
  - intros Hq Hsame Hc Hc'. pose proof (same_alike ws b b' Hsame Hc Hc') as Ha.
    pose proof (guard_alike user b b' Ha) as Hg.
    destruct (confined_panel user q Hq b b' Ha) as (H1 & _ & _).
    unfold board_route, savepoint. rewrite !run_bind. unfold on_studio.
    pose proof (guard_granted ws user (ob_studio b)) as Hs. pose proof (guard_granted ws user (ob_studio b')) as Hs'.
    destruct (require_workspace_admin ws user (ob_studio b)) as [[p|e] s],
      (require_workspace_admin ws user (ob_studio b')) as [[p'|e'] s']; simpl in Hg; try done.
    + destruct (Hs _ _ eq_refl) as (-> & _), (Hs' _ _ eq_refl) as (-> & _).
      assert (Hb : ∀ b, b <| ob_studio := ob_studio b |> = b) by (by intros []). rewrite !Hb.
      destruct (get_panel _ _ _ _ _ _ _ _ _ b) as [[a|e] b1], (get_panel _ _ _ _ _ _ _ _ _ b') as [[a'|e'] b1'];
        simpl in *; congruence.
    + by injection Hg as <-.
Qed.
End Panels.

(** ** The demo deployment *)

Definition demo_lead : Lead := mk_lead 1 "Ada" None "ada@example.com" "manual" "new" None None t0.
Definition demo_board : Board :=
mk_board ((empty_studio demo) <| st_memberships := {[ 60%positive := mk_mem 1 2 ROLE_ADMIN t0 ]} |>)
  ∅ ∅ (λ _, 1%positive) (λ _, 0) {[ 70%positive := demo_lead ]} ∅ ∅ ∅ (λ _, t0) (λ _, t0) (λ _, None)
  (λ _, None) (λ _, None).
(** the workers of a board changed *)
Definition with_worker (i : id) (r : WorkerRegistration) (b : Board) : Board :=
b <| ob_studio ::= λ s, s <| st_world ::= λ w, w <| w_workers ::= <[i := r]> |> |> |>.
Definition foreign_worker (name : string) : WorkerRegistration :=
demo_worker <| wrk_workspace_id := Some 9%positive |> <| wrk_name := name |>.
(** the same with a lead and a worker of another workspace *)
Definition demo_board' : Board :=
with_worker 42 (foreign_worker "night shift") demo_board
  <| ob_leads ::= <[71%positive := mk_lead 9 "Bob" None "bob@example.com" "manual" "won" None None t0]> |>.
(** a log of workspace 1 by a worker of workspace 9, of some name *)
Definition demo_foreign_log (name : string) : Board :=
with_worker 42 (foreign_worker name) demo_board
  <| ob_studio ::= λ s, s <| st_world ::= λ w,
       w <| w_worker_logs := {[ 80%positive := mk_worker_log 1 42 None None "info" "hello" JNull t0 t0 ]} |> |> |>.
Definition demo_admin : AuthenticatedUser := mk_user (JStr (uuid_str 2)) JNull.
Definition demo_github : GitHubOut := mk_github false None None [] [] [] [].

Lemma demo_leads_ok : leads_ok demo_board.
Proof.
  split.
  - intros i l. change (ob_leads demo_board) with ({[ 70%positive := demo_lead ]} : gmap id Lead).
    intros Hi. apply lookup_singleton_Some in Hi as [<- _]. done.
  - apply (map_Forall_singleton (λ _, lead_ok)). split; [by left|by split].
Qed.

(** a reservation of one cent, granted within what the panel says remains *)
Lemma spend_panel_witness :
  ∃ o d m rsv w', spend String.leb 1 demo_board = (Ok o, demo_board) ∧
    so_budget_remaining_daily_usd o = Some d ∧ so_budget_remaining_monthly_usd o = Some m ∧
    reserve_spend 20 SCRIPTING "draft_desk" 100 demo = (Ok (Some rsv), w') ∧ 100 ≤ d ∧ 100 ≤ m.
Proof.
  destruct (spend_panel_bounds_reservations String.leb 1 demo_board) as (o & Hrun & _ & _ & _ & Hres).
  { intros i x. vm_compute. discriminate. }
  { intros c. vm_compute. by intros [= <-]. }
  destruct (reserve_spend 20 SCRIPTING "draft_desk" 100 demo) as [[[rsv|]|e] w'] eqn:Hr;
    [|vm_compute in Hr; discriminate|vm_compute in Hr; discriminate].
  destruct (Hres 20%positive demo_run SCRIPTING "draft_desk" 100 rsv w' eq_refl eq_refl eq_refl Hr)
    as (d & m & Hd & Hm & H1 & H2).
  exact (ex_intro _ o (ex_intro _ d (ex_intro _ m (ex_intro _ rsv (ex_intro _ w'
    (conj Hrun (conj Hd (conj Hm (conj eq_refl (conj H1 H2)))))))))).
Defined.

(** the administrator renames a lead, which keeps its address *)
Definition demo_requests : list board_request :=
[Request 1 demo_admin (PatchLead 70 (mk_lead_update (Some (Some " Ada L. ")) None None None None None None));
 Request 1 (mk_user (JStr (uuid_str 3)) JNull) (PatchLead 70 (mk_lead_update None None None None (Some (Some "won")) None None))].
Lemma leads_guarded_witness :
  leads_ok demo_board ∧ leads_ok (board_exec demo_github demo_requests demo_board) ∧
  (lead_name <$> ob_leads (board_exec demo_github demo_requests demo_board) !! 70%positive) = Some "Ada L." ∧
  (lead_status <$> ob_leads (board_exec demo_github demo_requests demo_board) !! 70%positive) = Some "new".
Proof.
  split; [exact demo_leads_ok|].
  exact (conj (proj1 (leads_guarded demo_github demo_requests demo_board demo_leads_ok)) (conj eq_refl eq_refl)).
Defined.

Lemma same_rows_of b b' :
  w_now (ob_world b) = w_now (ob_world b') →
  (∀ A (t : Board → gmap id A) seen, board_table 1 t seen → seen_rows t seen b = seen_rows t seen b') →
  seen_rows t_workers (visible_worker 1) b = seen_rows t_workers (visible_worker 1) b' →
  receipts_of 1 b = receipts_of 1 b' → own_rows 1 b = own_rows 1 b' → stage_runs_of 1 b = stage_runs_of 1 b' →
  ob_stage_cost b = ob_stage_cost b' → ob_stage_provider b = ob_stage_provider b' →
  ob_run_created_at b = ob_run_created_at b' → ob_item_deleted_at b = ob_item_deleted_at b' →
  same_rows 1 b b'.
Proof. intros ?????? H1 H2 H3 H4. split; [done..| | |]; intros; by rewrite ?H1, ?H2, ?H3, ?H4. Qed.

Lemma demo_same : same_rows 1 demo_board demo_board'.
Proof. apply same_rows_of; try reflexivity. intros A t seen []; reflexivity. Qed.

Ltac contained :=
  intros;
  repeat match goal with
  | H : _ ∈ _ |- _ => apply list_elem_of_In in H; vm_compute in H
  | H : _ ∨ _ |- _ => destruct H as [<-|H]
  end; try done;
  repeat match goal with H : _ = Some _ |- _ => vm_compute in H; injection H as <- end;
  intros x Hx; vm_compute in Hx; by injection Hx as <-.
Lemma demo_contained : self_contained 1 demo_board.
Proof. split; contained. Qed.
Lemma demo_contained' : self_contained 1 demo_board'.
Proof. split; contained. Qed.

(** A panel joins the worker of a log by its key alone: were a log of the
    workspace by a worker of another one, the panel would show its name. *)
Example foreign_worker_shown :
  let serve b := serve_board_get (H0 := head_first) String.leb (mk_deployment_info "success" None None None None) demo_github
    (λ _, EmptyString) "test" uuid_str 1 demo_admin (GetLogs None None None None 10) b in
  same_rows 1 (demo_foreign_log "ann") (demo_foreign_log "ben") ∧
  (serve (demo_foreign_log "ann")).1 ≠ (serve (demo_foreign_log "ben")).1.
Proof.
  split; [apply same_rows_of; try (vm_compute; reflexivity); intros A t seen []; vm_compute; reflexivity|].
  vm_compute. discriminate.
Qed.

(** the leads of workspace 1, with and without another's rows *)
Lemma panels_confined_witness :
  let serve b := serve_board_get (H0 := head_first) String.leb (mk_deployment_info "success" None None None None) demo_github
    (λ _, EmptyString) "test" uuid_str 1 demo_admin (GetLeads None None None 10 0) b in
  (serve demo_board).1 = (serve demo_board').1 ∧ (serve demo_board).1 = Ok ([mk_row 70 demo_lead t0], 1).
Proof.
  split; [|vm_compute; reflexivity].
  exact (proj2 (panels_confined (H0 := head_first) String.leb (mk_deployment_info "success" None None None None) demo_github
    (λ _, EmptyString) "test" uuid_str 1 demo_admin (GetLeads None None None 10 0) demo_board demo_board')
    eq_refl demo_same demo_contained demo_contained').
Defined.
